(* ===== verification/_CoqProject ===== *)
-Q . S2P
Prelude.v
Types.v
LinkedList.v
KData.v
Memory.v
Vm.v
Kernel.v
Task.v
Ipc.v
Syscall.v
KInv.v
Sched.v
Safety.v
Steady.v
IpcProps.v
Lifecycle.v
Reach.v
HinaVM.v
CString.v
Malloc.v
Vprintf.v
UserIpc.v
Mp.v
Block.v
Mbuf.v
Link.v
Net.v
Tcp.v
Tcpip.v
VmServer.v
FileSystem.v
Virtio.v
VirtioBlk.v
VirtioNet.v
Riscv.v
Trap.v
UserSyscall.v
Asm.v
Debug.v
Boot.v
Messages.v
Shell.v
ShellCmd.v
Crack.v
