(* ===== verification/Prelude.v ===== *)
(** * HinaOS: a verification library

    HinaOS is the microkernel operating system of this repository: a RISC-V (RV32) kernel
    that knows tasks, address spaces and messages, and servers in user mode that implement the
    rest (processes and paging, files, the network, device drivers) by exchanging messages.
    The library models the C and assembly sources under src/ and proves what makes them correct.

    ** The system and its model

    A C function is a Rocq function with the same name wherever Rocq allows it.  Stateful code
    is state passing over outcomes, [ST S A] := S -> outcome (A * S), where [Panic] is a failed
    ASSERT, a PANIC or UNREACHABLE, and [Undef] is behaviour the C language leaves undefined
    (an invalid pointer, an index out of bounds, a division by zero).  Machine integers are [Z] with their
    conversions ([u8], [u16], [u32], [s32]) written out.  Pointers to structures are names of
    objects in the state of the component; memory whose bytes matter is bytes.

    Kernel (src/kernel, src/libs/common):
    - [Types]: constants, flags, error codes and message ids (types.h, ipcstub.h, message.h);
      [Messages]: the generated message structures with their layout and tables.
    - [LinkedList]: the intrusive lists of list.c on a store of nodes with next and prev
      pointers, and the iteration macro.
    - [KData]: messages and the tasks' data (task.h, message.h).
    - [Memory]: memory.c: zones, page structures, [pm_alloc], [pm_free].
    - [Vm]: riscv32/vm.c and [vm_map]/[vm_unmap]: Sv32 page tables as words of memory.
    - [Kernel], [Task], [Ipc], [Syscall]: the kernel state, task.c, ipc.c, syscall.c,
      interrupt.c and printk.c.  A call that blocks stores a continuation value in its task; the
      scheduler resumes it.
    - [KInv], [Sched], [Safety], [Reach], [Steady]: the invariant of the kernel state, its
      preservation by the operations, the transition system of kernel events (system calls, page
      faults, interrupts, resumed calls), the calls that change memory and the set of tasks, and
      what events leave alone.
    - [IpcProps], [Lifecycle]: what message passing, notifications, the serial ring, task creation
      and task destruction do.
    - [HinaVM]: hinavm.c, the in-kernel virtual machine, and hinavm_types.h.
    - [Mp]: riscv32/mp.c, the kernel lock, as interleaved steps of the CPUs.
    - [Riscv]: control registers of a hart (asm.h), the interrupt controller and the serial port
      (plic.c, uart.c) over the class [PhysMmio].
    - [Trap]: trap.c, the entry of tasks and the idle loop, as steps of CPUs that hold the lock;
      [Asm]: handler.S, switch.S, usercopy.S and boot.S as instructions on registers and bytes, and
      the device accesses of user tasks (arch_mmio.h); [Boot]: main.c and setup.c.
    - [CString], [Vprintf], [Debug]: string.c; vprintf.c and the user library's printf.c; print.h,
      backtraces and the reports of the sanitizer.

    User library (src/libs/user):
    - [Malloc]: malloc.c and init.c.  [UserIpc]: ipc.c, task.c and driver.c over the class
      [KernelIpc].  [UserSyscall]: syscall.c and arch_syscall.h against the kernel's dispatcher.
    - [Virtio]: virtio/virtio_mmio.c and dmabuf.c; device registers are the class [Mmio].

    Servers (src/servers):
    - [VmServer]: vm/*.c, over the kernel interface [VmKernel] and its laws [VmKernelSpec].
    - [Block], [FileSystem]: fs/block.c, fs/fs.c, fs/main.c, over the class [BlkDevice].
    - [Mbuf], [Link], [Net], [Tcp], [Tcpip]: tcpip/*.c: packet buffers and checksums; device,
      ARP and Ethernet; IPv4, UDP, DHCP and DNS; TCP; sockets and the request loop.
    - [VirtioBlk], [VirtioNet]: virtio_blk/main.c and virtio_net/main.c on [Virtio].
    - [Shell], [ShellCmd]: shell/*.c and pong/main.c.  [Crack]: crack/main.c and shellcode.S, the
      attack on the kernel through a device's DMA, over [DmaHw] with the laws [DmaHwSpec].

    The components meet in the state they share (the kernel files), in messages (a server's
    handler is a function of a request that appends the replies to its state), and in classes
    that say what one component promises to another: [KernelIpc], [VmKernel], [BlkDevice] with
    [Disk], [Mmio], [BlkHw] with [BlkHwSpec], [DmaHw] with [DmaHwSpec], [PhysMmio] with [PlicSpec]
    and [UartSpec].  Each class with laws has a concrete instance that satisfies them, on which the
    theorems are instantiated.

    ** What the theorems show

    - Safety of the kernel: no event leads from a state with the invariant to a panic or to
      undefined behaviour, and the invariant holds again; the boot establishes it; in every state
      that system calls, faults and interrupts reach, runnable tasks are queued once or run on
      one CPU and no two tasks wait to send to each other; a HinaVM program cannot break it.
    - The machine: every step of every CPU through trap entry, handlers and return is safe; a task
      gets its registers back however long it was blocked; the assembly implements the frames and
      the switch; a system call wrapper gets the result of the handler it names.
    - Kernel services: messages arrive unchanged with the true sender; notifications are merged
      and not lost; allocation returns free, aligned, owned pages and freeing undoes it; mapping
      installs exactly one translation, and only for pages the caller may use; task creation; a
      destroyed task leaves the CPU that runs it when that CPU is told to reschedule.
    - The lock: mutual exclusion in every interleaving.
    - Servers: demand paging puts the bytes of the image into a fresh frame; a task that waits
      for a service gets its answer; spawning checks the image; path lookup is name resolution; what is
      written is read back; creation adds one entry; open files are private to their task.
    - Network: the buffers are byte strings; the checksum is the Internet checksum; packets wait
      for address resolution and are then sent; parsers terminate on every packet; DHCP options
      are read back; datagrams go end to end; a TCP connection delivers a prefix of the peer's
      stream in order; sockets belong to their task.
    - Drivers: a request goes through a virtqueue and comes back; the block driver is a disk; the
      network driver forwards every packet once; and the limit of the separation of tasks: a task
      with a device that does DMA rewrites the kernel's code ([Crack]).
    - Library code: lists are queues, [malloc] returns disjoint zeroed blocks, strings stay in
      their buffers, printed numbers are read back, backtraces name the callers; the shell runs
      the commands of the line it was given.
    - Deviations of the code from its purpose are theorems of their own where they can be stated
      (for instance [VmServer.task_destroy_dangles], [Virtio.virtq_pop_stale],
      [FileSystem.lookup_parent_first], [Memory.pm_alloc_overrun], [Asm.timer_handler_wraps],
      [Trap.usercopy_fault_bypasses_lock], [Lifecycle.task_destroy_strands_senders]).

    ** Fuel and bounds

    Loops with a structural bound (a fixed array, a list, a counter) recurse on it.  Others take
    fuel: [hinavm_loop] runs a number of instructions; list traversals take the number of nodes, which a well-formed
    list never exceeds; parsers take the length of the packet, every round consumes at least a
    byte ([Net.packet_parsers_total]); [lookup_loop] takes the length of
    the path and [readwrite_loop] the number of blocks of a file; [find_symbol_loop] takes 32 halvings;
    [busy_wait] and [poll] take the number of device steps, and the theorems say that
    from some number on every fuel gives the result.  Running out of fuel is never a normal
    result: it is [Undef], so that a theorem that names an [Ok] result includes termination.

    ** Not modelled

    TLB flushes and memory barriers, which have no effect in a model without caches; page faults
    taken inside of a copy to or from user memory, whose pages are resident, except for what
    [Trap] shows of them; a CPU that panics while another one holds the lock; the two instructions
    before the first C function of a user program (start.S); code a DMA transfer would change while it runs;
    the tools that build the images. *)

From Stdlib Require Export ZArith Lia.
From stdpp Require Export base gmap strings numbers list.

#[global] Open Scope Z_scope.
#[global] Set Default Goal Selector "!".
#[global] Unset Program Cases.

(** ** Machine integers

    A w-bit integer is a [Z]; the conversions below are C's conversions to an
    unsigned type of that width, and [s32] the conversion to [int]. *)
Definition u8 (x : Z) : Z := x `mod` 2 ^ 8.
Definition u16 (x : Z) : Z := x `mod` 2 ^ 16.
Definition u32 (x : Z) : Z := x `mod` 2 ^ 32.
Definition s32 (x : Z) : Z :=
  let y := u32 x in if y <? 2 ^ 31 then y else y - 2 ^ 32.

(** C truth value of an integer expression, and [x & mask] used as a condition. *)
Definition truthy (x : Z) : bool := negb (x =? 0).
Definition has (flags mask : Z) : bool := truthy (Z.land flags mask).

(** ** Outcomes

    [Ok]: the code returns.  [Panic]: an assertion or PANIC stops the program.
    [Undef]: the C code has no defined behaviour from here on (a NULL or
    out-of-bounds access, a shift or division the language does not define). *)
Inductive outcome (A : Type) : Type :=
| Ok (a : A)
| Panic
| Undef.
Arguments Ok {A} a.
Arguments Panic {A}.
Arguments Undef {A}.

#[export] Instance outcome_ret : MRet outcome := fun A a => Ok a.
#[export] Instance outcome_bind : MBind outcome := fun A B f m =>
  match m with Ok a => f a | Panic => Panic | Undef => Undef end.

(** State passing over outcomes: the stateful C functions. *)
Definition ST (S A : Type) : Type := S -> outcome (A * S).

#[export] Instance ST_ret {S} : MRet (ST S) := fun A a s => Ok (a, s).
#[export] Instance ST_bind {S} : MBind (ST S) := fun A B f m s =>
  match m s with
  | Ok (a, s') => f a s'
  | Panic => Panic
  | Undef => Undef
  end.

#[export] Instance ST_fmap {S} : FMap (ST S) := fun A B f m s =>
  match m s with
  | Ok (a, s') => Ok (f a, s')
  | Panic => Panic
  | Undef => Undef
  end.

Definition get {S} : ST S S := fun s => Ok (s, s).
Definition put {S} (s : S) : ST S unit := fun _ => Ok (tt, s).
Definition gets {S A} (f : S -> A) : ST S A := fun s => Ok (f s, s).
Definition modify {S} (f : S -> S) : ST S unit := fun s => Ok (tt, f s).
Definition panic {S A} : ST S A := fun _ => Panic.
Definition undef {S A} : ST S A := fun _ => Undef.

(** ASSERT(b) (and DEBUG_ASSERT(b): the default build defines DEBUG_BUILD). *)
Definition assert {S} (b : bool) : ST S unit := if b then mret tt else panic.

(** Read through an optional access path; [None] is an invalid access. *)
Definition getopt {S A} (f : S -> option A) : ST S A := fun s =>
  match f s with Some a => Ok (a, s) | None => Undef end.

(** [for (i = 0; i < n; i++) body(i)] over a state, with no early exit. *)
Fixpoint for_range {S} (i n : nat) (body : nat -> ST S unit) : ST S unit :=
  match n with
  | O => mret tt
  | Datatypes.S n' => body i ;; for_range (Datatypes.S i) n' body
  end.

(** ** Alignment builtins (clang's __builtin_align_up and friends) *)
Definition ALIGN_DOWN (v a : Z) : Z := Z.land v (Z.lnot (a - 1)).
Definition ALIGN_UP (v a : Z) : Z := u32 (ALIGN_DOWN (u32 (v + (a - 1))) a).
Definition IS_ALIGNED (v a : Z) : bool := Z.land v (a - 1) =? 0.

(** ** Little-endian bytes *)
Fixpoint le_split (n : nat) (x : Z) : list Z :=
  match n with
  | O => []
  | S n' => x `mod` 256 :: le_split n' (x / 256)
  end.

Fixpoint le_combine (l : list Z) : Z :=
  match l with
  | [] => 0
  | b :: l' => b + 256 * le_combine l'
  end.

(** Overwrite [buf] with [bs] from index [off] on (nothing past the end). *)
Fixpoint splice (off : nat) (bs buf : list Z) : list Z :=
  match buf with
  | [] => []
  | x :: buf' =>
      match off with
      | S off' => x :: splice off' bs buf'
      | O => match bs with [] => buf | b :: bs' => b :: splice O bs' buf' end
      end
  end.

(** The fields of a packed structure in a list of bytes. *)
Definition get8 (off : nat) (bs : list Z) : Z := le_combine (take 1 (drop off bs)).
Definition get16 (off : nat) (bs : list Z) : Z := le_combine (take 2 (drop off bs)).
Definition get32 (off : nat) (bs : list Z) : Z := le_combine (take 4 (drop off bs)).
Definition getn (off n : nat) (bs : list Z) : list Z := take n (drop off bs).

(** A pure operation, inside a stateful function. *)
Definition lift_out {S A} (o : outcome A) : ST S A := fun s =>
  match o with Ok a => Ok (a, s) | Panic => Panic | Undef => Undef end.

(** ** Strings

    A string is the list of its characters, without the terminator. *)

(** The characters of a literal. *)
Definition chars (s : string) : list Z := (fun a => Z.of_nat (Ascii.nat_of_ascii a)) <$> String.list_ascii_of_string s.
Arguments chars _%_string.

(** The string an array of characters holds, and what [strcpy_safe] leaves in a buffer of
    [size] characters. *)
Fixpoint until_nul (l : list Z) : list Z :=
  match l with
  | [] => []
  | c :: l' => if c =? 0 then [] else c :: until_nul l'
  end.
Definition str_copy (size : nat) (l : list Z) : list Z := take (size - 1) (until_nul l).
(** [!strncmp(a, b, n)] and [!strcmp(a, b)]. *)
Definition str_eqn (n : nat) (a b : list Z) : bool := bool_decide (take n (until_nul a) = take n (until_nul b)).
Definition str_eq (a b : list Z) : bool := bool_decide (until_nul a = until_nul b).

(** ** Lemmas *)
Create HintDb hina.

Ltac Zify.zify_post_hook ::= Z.div_mod_to_equations.

(** Unfold the monad and run the steps that compute. *)
Ltac run :=
  cbv [mbind mret ST_bind ST_ret outcome_bind outcome_ret get put gets modify
       panic undef assert getopt] in *; simpl in *.

(** Split on every boolean test, equality test or option in the goal. *)
Ltac split_match :=
  match goal with
  | |- context [match ?x with _ => _ end] => destruct x eqn:?
  | H : context [match ?x with _ => _ end] |- _ => destruct x eqn:?
  end.

Lemma ST_bind_ok {S A B} (m : ST S A) (f : A -> ST S B) s b s' :
  (m ≫= f) s = Ok (b, s') ->
  exists a s1, m s = Ok (a, s1) /\ f a s1 = Ok (b, s').
Proof.
  unfold mbind, ST_bind. destruct (m s) as [[a s1]| |]; [|done..].
  intros H. by exists a, s1.
Qed.

Lemma ST_bind_run {S A B} (m : ST S A) (f : A -> ST S B) s a s1 :
  m s = Ok (a, s1) -> (m ≫= f) s = f a s1.
Proof. intros H. unfold mbind, ST_bind. by rewrite H. Qed.
Lemma ST_fmap_run {S A B} (f : A -> B) (m : ST S A) s a s1 : m s = Ok (a, s1) -> (f <$> m) s = Ok (f a, s1).
Proof. intros E. unfold fmap, ST_fmap. by rewrite E. Qed.

(** Bounds of the conversions. *)
Lemma u8_range x : 0 <= u8 x < 2 ^ 8.
Proof. apply Z.mod_pos_bound. lia. Qed.
Lemma u16_range x : 0 <= u16 x < 2 ^ 16.
Proof. apply Z.mod_pos_bound. lia. Qed.
Lemma u32_range x : 0 <= u32 x < 2 ^ 32.
Proof. apply Z.mod_pos_bound. lia. Qed.
Lemma u32_small x : 0 <= x < 2 ^ 32 -> u32 x = x.
Proof. apply Z.mod_small. Qed.
Lemma u16_small x : 0 <= x < 2 ^ 16 -> u16 x = x.
Proof. apply Z.mod_small. Qed.
Lemma u8_small x : 0 <= x < 2 ^ 8 -> u8 x = x.
Proof. apply Z.mod_small. Qed.
Lemma u32_idem x : u32 (u32 x) = u32 x.
Proof. apply u32_small, u32_range. Qed.
Lemma u32_add_l x y : u32 (u32 x + y) = u32 (x + y).
Proof. apply Zplus_mod_idemp_l. Qed.
Lemma s32_range x : - 2 ^ 31 <= s32 x < 2 ^ 31.
Proof.
  unfold s32. pose proof (u32_range x). destruct (Z.ltb_spec (u32 x) (2 ^ 31)); lia.
Qed.
Lemma s32_small x : - 2 ^ 31 <= x < 2 ^ 31 -> s32 x = x.
Proof. unfold s32, u32. intros. destruct (Z.ltb_spec (x `mod` 2 ^ 32) (2 ^ 31)); lia. Qed.
Lemma u32_s32 x : u32 (s32 x) = u32 x.
Proof. unfold s32, u32. destruct (Z.ltb_spec (x `mod` 2 ^ 32) (2 ^ 31)); lia. Qed.

#[export] Hint Resolve u8_range u16_range u32_range s32_range : hina.
#[export] Hint Rewrite u32_idem u32_add_l u32_s32 : hina.

(** Alignment by a power of two is rounding to a multiple. *)
Lemma align_down_pow2 v n : 0 <= n -> ALIGN_DOWN v (2 ^ n) = v - v `mod` 2 ^ n.
Proof.
  intros Hn. unfold ALIGN_DOWN. replace (2 ^ n - 1) with (Z.ones n).
  2: { rewrite Z.ones_equiv. lia. }
  rewrite <- Z.ldiff_land, Z.ldiff_ones_r, Z.shiftl_mul_pow2, Z.shiftr_div_pow2 by done.
  pose proof (Z.div_mod v (2 ^ n) ltac:(apply Z.pow_nonzero; lia)). lia.
Qed.

Lemma is_aligned_pow2 v n : 0 <= n -> IS_ALIGNED v (2 ^ n) = (v `mod` 2 ^ n =? 0).
Proof.
  intros Hn. unfold IS_ALIGNED. replace (2 ^ n - 1) with (Z.ones n).
  2: { rewrite Z.ones_equiv. lia. }
  by rewrite Z.land_ones.
Qed.

Lemma align_up_pow2 v n :
  0 <= n -> 0 <= v -> v + 2 ^ n <= 2 ^ 32 ->
  ALIGN_UP v (2 ^ n) = (v + (2 ^ n - 1)) - (v + (2 ^ n - 1)) `mod` 2 ^ n.
Proof.
  intros Hn Hv Hb. unfold ALIGN_UP.
  assert (0 < 2 ^ n) by (apply Z.pow_pos_nonneg; lia).
  rewrite (u32_small (v + _)) by lia. rewrite align_down_pow2 by done.
  apply u32_small. pose proof (Z.mod_pos_bound (v + (2 ^ n - 1)) (2 ^ n)). 
  pose proof (Z.mod_le (v + (2 ^ n - 1)) (2 ^ n)). lia.
Qed.

(** Little-endian encoding and decoding are inverse. *)
Lemma length_le_split n x : length (le_split n x) = n.
Proof. revert x. induction n; intros; simpl; [done|by rewrite IHn]. Qed.

Lemma le_combine_split n x : le_combine (le_split n x) = x `mod` 256 ^ Z.of_nat n.
Proof.
  revert x. induction n as [|n IH]; intros x; simpl le_split.
  - simpl. by rewrite Z.mod_1_r.
  - cbn [le_combine]. rewrite IH, Nat2Z.inj_succ, Z.pow_succ_r by lia.
    rewrite Z.rem_mul_r; [lia|lia|]. apply Z.pow_pos_nonneg; lia.
Qed.

Lemma le_split_combine l :
  Forall (fun b => 0 <= b < 256) l -> le_split (length l) (le_combine l) = l.
Proof.
  induction 1 as [|b l Hb _ IH]; [done|]. cbn [length le_combine le_split].
  replace ((b + 256 * le_combine l) / 256) with (le_combine l) by lia.
  rewrite IH. f_equal. lia.
Qed.

Lemma le_combine_range l :
  Forall (fun b => 0 <= b < 256) l -> 0 <= le_combine l < 256 ^ Z.of_nat (length l).
Proof.
  induction 1 as [|b l Hb _ IH]; [simpl; lia|].
  cbn [length le_combine]. rewrite Nat2Z.inj_succ, Z.pow_succ_r by lia. lia.
Qed.

Lemma length_splice off bs buf : length (splice off bs buf) = length buf.
Proof.
  revert off bs. induction buf as [|x buf IH]; intros [|off] [|b bs]; simpl; try done; by rewrite IH.
Qed.

Lemma splice_spec off bs buf :
  (off + length bs <= length buf)%nat ->
  splice off bs buf = take off buf ++ bs ++ drop (off + length bs) buf.
Proof.
  revert off bs. induction buf as [|x buf IH]; intros off bs Hle; simpl in *.
  - destruct off, bs; simpl in *; try done; lia.
  - destruct off as [|off].
    + destruct bs as [|b bs]; [done|]. simpl in *. rewrite IH by (simpl; lia). done.
    + simpl. rewrite IH by lia. done.
Qed.

Lemma splice_same off (bs d : list Z) : (off + length bs <= length d)%nat ->
  take (length bs) (drop off (splice off bs d)) = bs.
Proof.
  intros Hl. rewrite splice_spec, drop_app_ge by (rewrite ?length_take; lia).
  rewrite length_take, Nat.min_l, Nat.sub_diag, drop_0 by lia. by rewrite take_app_length.
Qed.
Lemma splice_other off (bs d : list Z) a n : (off + length bs <= length d)%nat ->
  (a + n <= off \/ off + length bs <= a)%nat -> take n (drop a (splice off bs d)) = take n (drop a d).
Proof.
  intros Hl Ha. rewrite splice_spec by done. destruct Ha as [Ha|Ha].
  - rewrite drop_app_le by (rewrite length_take; lia). rewrite take_app_le by (rewrite length_drop, length_take; lia).
    rewrite !take_drop_commute, take_take. do 2 f_equal. lia.
  - rewrite app_assoc, drop_app_ge by (rewrite length_app, length_take; lia).
    rewrite length_app, length_take, Nat.min_l, drop_drop by lia. do 2 f_equal. lia.
Qed.

(** ** Bit operations as arithmetic *)

(** Or-ing a value below [2^k] into a multiple of [2^k] is addition. *)
Lemma lor_mul_pow2 a b k :
  0 <= k -> 0 <= b < 2 ^ k -> Z.lor (a * 2 ^ k) b = a * 2 ^ k + b.
Proof.
  intros Hk Hb. rewrite <- Z.shiftl_mul_pow2 by done.
  rewrite <- Z.lxor_lor, <- Z.add_nocarry_lxor; [done| |].
  all: apply Z.bits_inj'; intros i Hi; rewrite Z.land_spec, Z.bits_0;
    destruct (Z.lt_ge_cases i k).
  1, 3: by rewrite Z.shiftl_spec_low.
  all: rewrite <- (Z.mod_small b (2 ^ k)) by done; rewrite Z.mod_pow2_bits_high by lia;
    by rewrite andb_false_r.
Qed.

(** [(x & (255 << n)) >> n] selects the byte at bit [n]. *)
Lemma land_byte_shiftr x n :
  0 <= n -> Z.shiftr (Z.land x (Z.shiftl 255 n)) n = (x / 2 ^ n) `mod` 256.
Proof.
  intros Hn. rewrite Z.shiftr_land, Z.shiftr_shiftl_l by lia.
  rewrite Z.sub_diag, Z.shiftl_0_r, Z.shiftr_div_pow2 by done.
  change 255 with (Z.ones 8). by rewrite Z.land_ones by lia.
Qed.

Lemma land_255 x : Z.land x 255 = x `mod` 256.
Proof. change 255 with (Z.ones 8). by rewrite Z.land_ones by lia. Qed.

Lemma has_bit_spec f n : 0 <= n -> has f (2 ^ n) = Z.testbit f n.
Proof.
  intros Hn. unfold has, truthy.
  replace (Z.land f (2 ^ n)) with (if Z.testbit f n then 2 ^ n else 0).
  - destruct (Z.testbit f n); [|done].
    assert (0 < 2 ^ n) by (apply Z.pow_pos_nonneg; lia).
    by destruct (Z.eqb_spec (2 ^ n) 0); [lia|].
  - apply Z.bits_inj'. intros i Hi. rewrite Z.land_spec, Z.pow2_bits_eqb by done.
    destruct (Z.eqb_spec n i) as [->|Hne].
    + destruct (Z.testbit f i) eqn:E; simpl; [by rewrite Z.pow2_bits_true|by rewrite Z.bits_0].
    + rewrite andb_false_r. destruct (Z.testbit f n); [by rewrite Z.pow2_bits_false|by rewrite Z.bits_0].
Qed.

Lemma lor_range a b n : 0 <= n -> 0 <= a < 2 ^ n -> 0 <= b < 2 ^ n -> 0 <= Z.lor a b < 2 ^ n.
Proof.
  intros Hn Ha Hb. assert (H0 : 0 <= Z.lor a b) by (apply Z.lor_nonneg; lia). split; [done|].
  destruct (Z.eq_dec (Z.lor a b) 0) as [->|Hne]; [lia|]. apply Z.log2_lt_pow2; [lia|].
  rewrite Z.log2_lor by lia.
  assert (Hlog : forall x, 0 <= x < 2 ^ n -> 0 < Z.lor a b -> Z.log2 x < n \/ x = 0).
  { intros x Hx _. destruct (Z.eq_dec x 0); [by right|left]. apply Z.log2_lt_pow2; lia. }
  destruct (Hlog a Ha ltac:(lia)) as [?|E], (Hlog b Hb ltac:(lia)) as [?|E']; rewrite ?E, ?E' in *.
  - lia.
  - change (Z.log2 0) with 0. pose proof (Z.log2_nonneg a). lia.
  - change (Z.log2 0) with 0. pose proof (Z.log2_nonneg b). lia.
  - done.
Qed.

(** ** Lists *)

Lemma list_filter_all {A} (P : A -> Prop) `{forall x, Decision (P x)} (l : list A) :
  (forall x, x ∈ l -> P x) -> filter P l = l.
Proof.
  induction l as [|x l IH]; intros Hl; [done|].
  rewrite filter_cons_True by (apply Hl; by left). f_equal. apply IH. intros y Hy. apply Hl. by right.
Qed.

Lemma list_filter_none {A} (P : A -> Prop) `{forall x, Decision (P x)} (l : list A) :
  (forall x, x ∈ l -> ~ P x) -> filter P l = [].
Proof.
  induction l as [|x l IH]; intros Hl; [done|].
  rewrite filter_cons_False by (apply Hl; by left). apply IH. intros y Hy. apply Hl. by right.
Qed.

(** ** Strings *)
Lemma until_nul_take n l : until_nul (take n l) = take n (until_nul l).
Proof. revert n. induction l as [|c l IH]; intros [|n]; simpl; try done. destruct (c =? 0); simpl; [done|]. by rewrite IH. Qed.
Lemma until_nul_idem l : until_nul (until_nul l) = until_nul l.
Proof. induction l as [|c l IH]; simpl; [done|]. destruct (c =? 0) eqn:E; simpl; [done|]. by rewrite E, IH. Qed.
Lemma until_nul_str_copy n l : until_nul (str_copy n l) = str_copy n l.
Proof. unfold str_copy. by rewrite until_nul_take, until_nul_idem. Qed.
Lemma str_copy_idem n l : str_copy n (str_copy n l) = str_copy n l.
Proof. unfold str_copy at 1. rewrite until_nul_str_copy. apply take_ge. unfold str_copy. rewrite length_take. lia. Qed.

(** ** Total correctness of state-passing code

    [safe s m Q]: from [s] the code returns (it neither panics nor runs into
    undefined behaviour) and its result and final state satisfy [Q]. *)
Definition safe {S A} (s : S) (m : ST S A) (Q : A -> S -> Prop) : Prop :=
  exists a s', m s = Ok (a, s') /\ Q a s'.

Section Safe.
Context {S : Type}.
Implicit Types s : S.

Lemma safe_conseq {A} s (m : ST S A) (P Q : A -> S -> Prop) :
  safe s m P -> (forall a s', P a s' -> Q a s') -> safe s m Q.
Proof. intros (a & s' & E & H) HPQ. exists a, s'. auto. Qed.

Lemma safe_bind {A B} s (m : ST S A) (f : A -> ST S B) (P : A -> S -> Prop) Q :
  safe s m P -> (forall a s', P a s' -> safe s' (f a) Q) -> safe s (m ≫= f) Q.
Proof.
  intros (a & s' & E & H) Hf. destruct (Hf _ _ H) as (b & s'' & E' & H').
  exists b, s''. split; [|done]. by rewrite (ST_bind_run _ _ _ _ _ E).
Qed.

(** One deterministic step. *)
Lemma safe_step {A B} s (m : ST S A) (f : A -> ST S B) a s' Q :
  m s = Ok (a, s') -> safe s' (f a) Q -> safe s (m ≫= f) Q.
Proof.
  intros E (b & s'' & E' & H'). exists b, s''. split; [|done].
  by rewrite (ST_bind_run _ _ _ _ _ E).
Qed.

Lemma safe_assoc {A B C} s (m : ST S A) (f : A -> ST S B) (g : B -> ST S C) Q :
  safe s (m ≫= fun a => f a ≫= g) Q -> safe s ((m ≫= f) ≫= g) Q.
Proof.
  unfold safe, mbind, ST_bind. by destruct (m s) as [[? ?]| |].
Qed.

Lemma safe_ret {A} s (a : A) (Q : A -> S -> Prop) : Q a s -> safe s (mret a) Q.
Proof. intros H. by exists a, s. Qed.

Lemma safe_fmap {A B} s (m : ST S A) (f : A -> B) (Q : B -> S -> Prop) :
  safe s m (fun a s' => Q (f a) s') -> safe s (f <$> m) Q.
Proof.
  intros (a & s' & E & H). exists (f a), s'. split; [|done].
  unfold fmap, ST_fmap. by rewrite E.
Qed.
End Safe.
