(* ===== verification/Types.v ===== *)
(** Constants of the C headers shared by every component: error codes, page
    geometry, system call numbers and flags (libs/common/types.h), the build
    configuration (buildconfig.h), IPC flags, message ids and notification bits
    (libs/common/message.h, libs/common/ipcstub.h), and the address space split
    (kernel/riscv32/include/arch_types.h).  Also the pure functions those headers
    define, byte swapping (libs/common/endian.h), error names
    (libs/common/error.c). *)

From S2P Require Import Prelude.

(** ** Build configuration *)
Definition RAM_SIZE : Z := 128 * 1024 * 1024.
Definition NUM_TASKS_MAX : Z := 16.
Definition NUM_CPUS_MAX : Z := 4.
Definition TASK_NAME_LEN : Z := 16.
Definition KERNEL_STACK_SIZE : Z := 16 * 1024.
Definition VIRTIO_BLK_PADDR : Z := 268439552 (* 0x10001000 *).
Definition VIRTIO_NET_PADDR : Z := 268443648 (* 0x10002000 *).
Definition VIRTIO_NET_IRQ : Z := 2.
Definition TICK_HZ : Z := 1000.

(** ** Error codes, pages, system calls, flags *)
Definition OK : Z := 0.
Definition ERR_NO_MEMORY : Z := -1.
Definition ERR_NO_RESOURCES : Z := -2.
Definition ERR_ALREADY_EXISTS : Z := -3.
Definition ERR_ALREADY_USED : Z := -4.
Definition ERR_ALREADY_DONE : Z := -5.
Definition ERR_STILL_USED : Z := -6.
Definition ERR_NOT_FOUND : Z := -7.
Definition ERR_NOT_ALLOWED : Z := -8.
Definition ERR_NOT_SUPPORTED : Z := -9.
Definition ERR_UNEXPECTED : Z := -10.
Definition ERR_INVALID_ARG : Z := -11.
Definition ERR_INVALID_TASK : Z := -12.
Definition ERR_INVALID_SYSCALL : Z := -13.
Definition ERR_INVALID_PADDR : Z := -14.
Definition ERR_INVALID_UADDR : Z := -15.
Definition ERR_TOO_MANY_TASKS : Z := -16.
Definition ERR_TOO_LARGE : Z := -17.
Definition ERR_TOO_SMALL : Z := -18.
Definition ERR_WOULD_BLOCK : Z := -19.
Definition ERR_TRY_AGAIN : Z := -20.
Definition ERR_ABORTED : Z := -21.
Definition ERR_EMPTY : Z := -22.
Definition ERR_NOT_EMPTY : Z := -23.
Definition ERR_DEAD_LOCK : Z := -24.
Definition ERR_NOT_A_FILE : Z := -25.
Definition ERR_NOT_A_DIR : Z := -26.
Definition ERR_EOF : Z := -27.
Definition ERR_END : Z := -28.
Definition PAGE_SIZE : Z := 4096.
Definition PFN_OFFSET : Z := 12.
Definition FROM_KERNEL : Z := -1.
Definition VM_SERVER : Z := 1.
Definition SYS_IPC : Z := 1.
Definition SYS_NOTIFY : Z := 2.
Definition SYS_SERIAL_WRITE : Z := 3.
Definition SYS_SERIAL_READ : Z := 4.
Definition SYS_TASK_CREATE : Z := 5.
Definition SYS_TASK_DESTROY : Z := 6.
Definition SYS_TASK_EXIT : Z := 7.
Definition SYS_TASK_SELF : Z := 8.
Definition SYS_PM_ALLOC : Z := 9.
Definition SYS_VM_MAP : Z := 10.
Definition SYS_VM_UNMAP : Z := 11.
Definition SYS_IRQ_LISTEN : Z := 12.
Definition SYS_IRQ_UNLISTEN : Z := 13.
Definition SYS_TIME : Z := 14.
Definition SYS_UPTIME : Z := 15.
Definition SYS_HINAVM : Z := 16.
Definition SYS_SHUTDOWN : Z := 17.
Definition PM_ALLOC_UNINITIALIZED : Z := 0.
Definition PM_ALLOC_ZEROED : Z := 1.
Definition PM_ALLOC_ALIGNED : Z := 2.
Definition PAGE_READABLE : Z := 2.
Definition PAGE_WRITABLE : Z := 4.
Definition PAGE_EXECUTABLE : Z := 8.
Definition PAGE_USER : Z := 16.
Definition PAGE_FAULT_READ : Z := 1.
Definition PAGE_FAULT_WRITE : Z := 2.
Definition PAGE_FAULT_EXEC : Z := 4.
Definition PAGE_FAULT_USER : Z := 8.
Definition PAGE_FAULT_PRESENT : Z := 16.
Definition EXP_GRACE_EXIT : Z := 1.
Definition EXP_INVALID_UADDR : Z := 2.
Definition EXP_INVALID_PAGER_REPLY : Z := 3.
Definition EXP_ILLEGAL_EXCEPTION : Z := 4.

(** ** IPC *)
Definition IPC_ANY : Z := 0.
Definition IPC_DENY : Z := -1.
Definition IPC_SEND : Z := 65536.
Definition IPC_RECV : Z := 131072.
Definition IPC_NOBLOCK : Z := 262144.
Definition IPC_KERNEL : Z := 524288.
Definition IPC_CALL : Z := Z.lor IPC_SEND IPC_RECV.
Definition NOTIFY_TIMER : Z := 1.
Definition NOTIFY_IRQ : Z := 2.
Definition NOTIFY_ABORTED : Z := 4.
Definition NOTIFY_ASYNC_BASE : Z := 3.

(** ** Address space *)
Definition KERNEL_BASE : Z := 2147483648 (* 0x80000000 *).
Definition IRQ_MAX : Z := 32.

(** ** Message ids *)
Definition EXCEPTION_MSG : Z := 1.
Definition PAGE_FAULT_MSG : Z := 2.
Definition PAGE_FAULT_REPLY_MSG : Z := 3.
Definition NOTIFY_MSG : Z := 4.
Definition NOTIFY_IRQ_MSG : Z := 5.
Definition NOTIFY_TIMER_MSG : Z := 6.
Definition ASYNC_RECV_MSG : Z := 7.
Definition ASYNC_RECV_REPLY_MSG : Z := 8.
Definition PING_MSG : Z := 9.
Definition PING_REPLY_MSG : Z := 10.
Definition SPAWN_TASK_MSG : Z := 11.
Definition SPAWN_TASK_REPLY_MSG : Z := 12.
Definition DESTROY_TASK_MSG : Z := 13.
Definition DESTROY_TASK_REPLY_MSG : Z := 14.
Definition SERVICE_LOOKUP_MSG : Z := 15.
Definition SERVICE_LOOKUP_REPLY_MSG : Z := 16.
Definition SERVICE_REGISTER_MSG : Z := 17.
Definition SERVICE_REGISTER_REPLY_MSG : Z := 18.
Definition WATCH_TASKS_MSG : Z := 19.
Definition WATCH_TASKS_REPLY_MSG : Z := 20.
Definition TASK_DESTROYED_MSG : Z := 21.
Definition VM_MAP_PHYSICAL_MSG : Z := 22.
Definition VM_MAP_PHYSICAL_REPLY_MSG : Z := 23.
Definition VM_ALLOC_PHYSICAL_MSG : Z := 24.
Definition VM_ALLOC_PHYSICAL_REPLY_MSG : Z := 25.
Definition BLK_READ_MSG : Z := 26.
Definition BLK_READ_REPLY_MSG : Z := 27.
Definition BLK_WRITE_MSG : Z := 28.
Definition BLK_WRITE_REPLY_MSG : Z := 29.
Definition NET_OPEN_MSG : Z := 30.
Definition NET_OPEN_REPLY_MSG : Z := 31.
Definition NET_RECV_MSG : Z := 32.
Definition NET_SEND_MSG : Z := 33.
Definition NET_SEND_REPLY_MSG : Z := 34.
Definition FS_OPEN_MSG : Z := 35.
Definition FS_OPEN_REPLY_MSG : Z := 36.
Definition FS_CLOSE_MSG : Z := 37.
Definition FS_CLOSE_REPLY_MSG : Z := 38.
Definition FS_READ_MSG : Z := 39.
Definition FS_READ_REPLY_MSG : Z := 40.
Definition FS_WRITE_MSG : Z := 41.
Definition FS_WRITE_REPLY_MSG : Z := 42.
Definition FS_READDIR_MSG : Z := 43.
Definition FS_READDIR_REPLY_MSG : Z := 44.
Definition FS_MKFILE_MSG : Z := 45.
Definition FS_MKFILE_REPLY_MSG : Z := 46.
Definition FS_MKDIR_MSG : Z := 47.
Definition FS_MKDIR_REPLY_MSG : Z := 48.
Definition FS_DELETE_MSG : Z := 49.
Definition FS_DELETE_REPLY_MSG : Z := 50.
Definition TCPIP_CONNECT_MSG : Z := 51.
Definition TCPIP_CONNECT_REPLY_MSG : Z := 52.
Definition TCPIP_CLOSE_MSG : Z := 53.
Definition TCPIP_CLOSE_REPLY_MSG : Z := 54.
Definition TCPIP_WRITE_MSG : Z := 55.
Definition TCPIP_WRITE_REPLY_MSG : Z := 56.
Definition TCPIP_READ_MSG : Z := 57.
Definition TCPIP_READ_REPLY_MSG : Z := 58.
Definition TCPIP_DNS_RESOLVE_MSG : Z := 59.
Definition TCPIP_DNS_RESOLVE_REPLY_MSG : Z := 60.
Definition TCPIP_DATA_MSG : Z := 61.
Definition TCPIP_CLOSED_MSG : Z := 62.

(** ** Predicates and conversions the headers define *)
Definition IS_ERROR (err : Z) : bool := s32 err <? 0.
Definition IS_OK (err : Z) : bool := negb (IS_ERROR err).
Definition PADDR2PFN (paddr : Z) : Z := Z.shiftr paddr PFN_OFFSET.
Definition PFN2PADDR (pfn : Z) : Z := u32 (Z.shiftl (u32 pfn) PFN_OFFSET).

(** [1 << (NOTIFY_ASYNC_BASE + tid)]: the bit of a task in [notifications_t]. *)
Definition NOTIFY_ASYNC (tid : Z) : Z := Z.shiftl 1 (NOTIFY_ASYNC_BASE + tid).

(** Address-space split: user mappings live in [PAGE_SIZE, KERNEL_BASE). *)
Definition arch_is_mappable_uaddr (uaddr : Z) : bool :=
  (PAGE_SIZE <=? uaddr) && (uaddr <? KERNEL_BASE).
Definition arch_paddr_to_vaddr (paddr : Z) : Z := paddr.

(** ** libs/common/endian.h *)
Definition swap16 (x : Z) : Z :=
  u16 (Z.lor (Z.shiftr (Z.land x 65280 (* 0xff00 *)) 8)
             (Z.shiftl (Z.land x 255 (* 0x00ff *)) 8)).
Definition swap32 (x : Z) : Z :=
  u32 (Z.lor (Z.lor (Z.lor
    (Z.shiftr (Z.land x 4278190080 (* 0xff000000 *)) 24)
    (Z.shiftr (Z.land x 16711680 (* 0x00ff0000 *)) 8))
    (Z.shiftl (Z.land x 65280 (* 0x0000ff00 *)) 8))
    (Z.shiftl (Z.land x 255 (* 0x000000ff *)) 24)).

(** RISC-V is little endian: network order is the swapped order, little-endian
    conversions are the identity. *)
Definition ntoh16 (x : Z) : Z := swap16 x.
Definition ntoh32 (x : Z) : Z := swap32 x.
Definition hton16 (x : Z) : Z := swap16 x.
Definition hton32 (x : Z) : Z := swap32 x.
Definition into_le16 (x : Z) : Z := x.
Definition into_le32 (x : Z) : Z := x.
Definition into_le64 (x : Z) : Z := x.
Definition from_le16 (x : Z) : Z := x.
Definition from_le32 (x : Z) : Z := x.

(** ** libs/common/error.c *)
Definition error_names : list string :=
  ["Success"; "No Memory"; "No Resources Available"; "Already Exists";
   "Already In Use"; "Already Done"; "Still In Use"; "Not Found"; "Not Allowed";
   "Not Supported"; "Unexpected Error"; "Invalid Argument"; "Invalid Task";
   "Invalid System Call"; "Invalid Physical Address"; "Invalid User Address";
   "Too Many Tasks"; "Too Large"; "Too Small"; "Operation Would Block"; "Try Again";
   "Aborted"; "Empty"; "Not Empty"; "Deadlock Detected"; "Not A File";
   "Not A Directory"; "End of File"]%string.

(** [error_names[-err]] is an array access: past the table it has no meaning. *)
Definition err2str (err : Z) : outcome string :=
  if (err <? ERR_END) || (0 <? err) then Ok "(Unknown Error)"%string
  else match error_names !! Z.to_nat (- err) with
       | Some s => Ok s
       | None => Undef
       end.

(** ** Lemmas *)

(** Swapping is reversal of the bytes of the little-endian representation. *)
Lemma swap16_bytes x : 0 <= x < 2 ^ 16 -> swap16 x = le_combine (rev (le_split 2 x)).
Proof.
  intros Hx. unfold swap16.
  change 65280 with (Z.shiftl 255 8). rewrite land_byte_shiftr, land_255 by lia.
  rewrite Z.shiftl_mul_pow2 by lia. rewrite Z.lor_comm, lor_mul_pow2 by lia.
  rewrite u16_small by lia. simpl. lia.
Qed.

Lemma swap32_bytes x : 0 <= x < 2 ^ 32 -> swap32 x = le_combine (rev (le_split 4 x)).
Proof.
  intros Hx. unfold swap32.
  replace (Z.shiftr (Z.land x 16711680) 8) with (((x / 2 ^ 16) `mod` 256) * 2 ^ 8).
  2: { rewrite <- land_byte_shiftr, <- Z.shiftl_mul_pow2 by lia.
       change (Z.shiftl 255 16) with 16711680.
       apply Z.bits_inj'; intros i Hi. rewrite Z.shiftr_spec by done.
       destruct (Z.lt_ge_cases i 8).
       - rewrite Z.shiftl_spec_low by done. rewrite Z.land_spec.
         replace (Z.testbit 16711680 (i + 8)) with false; [by rewrite andb_false_r|].
         change 16711680 with (Z.shiftl 255 16). by rewrite Z.shiftl_spec_low by lia.
       - rewrite Z.shiftl_spec, Z.shiftr_spec by lia. f_equal. lia. }
  replace (Z.shiftl (Z.land x 65280) 8) with (((x / 2 ^ 8) `mod` 256) * 2 ^ 16).
  2: { rewrite <- land_byte_shiftr, <- Z.shiftl_mul_pow2 by lia.
       change (Z.shiftl 255 8) with 65280.
       replace 16 with (8 + 8) by done. rewrite <- Z.shiftl_shiftl by lia. f_equal.
       apply Z.bits_inj'; intros i Hi. destruct (Z.lt_ge_cases i 8).
       - rewrite Z.shiftl_spec_low by done. rewrite Z.land_spec.
         change 65280 with (Z.shiftl 255 8). by rewrite Z.shiftl_spec_low, andb_false_r by lia.
       - rewrite Z.shiftl_spec, Z.shiftr_spec by lia. f_equal. lia. }
  change 4278190080 with (Z.shiftl 255 24). rewrite land_byte_shiftr, land_255 by lia.
  rewrite Z.shiftl_mul_pow2 by lia.
  set (b0 := x `mod` 256). set (b1 := (x / 2 ^ 8) `mod` 256).
  set (b2 := (x / 2 ^ 16) `mod` 256). set (b3 := (x / 2 ^ 24) `mod` 256).
  assert (0 <= b0 < 256 /\ 0 <= b1 < 256 /\ 0 <= b2 < 256 /\ 0 <= b3 < 256) as (?&?&?&?).
  { repeat split; apply Z.mod_pos_bound; lia. }
  rewrite (Z.lor_comm b3), lor_mul_pow2 by lia.
  rewrite (Z.lor_comm _ (b1 * _)), lor_mul_pow2 by lia.
  rewrite (Z.lor_comm _ (b0 * _)), lor_mul_pow2 by lia.
  rewrite u32_small by lia. simpl rev. cbn [le_combine le_split rev app].
  rewrite !Z.div_div by lia. change (256 * 256) with (2 ^ 16). change (2 ^ 16 * 256) with (2 ^ 24).
  fold b2 b3. change 256 with (2 ^ 8) at 1 2 3 4 5 6 7. fold b0 b1. lia.
Qed.

Lemma le_split_bytes n x : Forall (fun b => 0 <= b < 256) (le_split n x).
Proof. revert x. induction n; intros; simpl; constructor; [lia|done]. Qed.

Lemma rev_bytes_involutive n x :
  0 <= x < 256 ^ Z.of_nat n ->
  le_combine (rev (le_split n (le_combine (rev (le_split n x))))) = x.
Proof.
  intros Hx. assert (length (rev (le_split n x)) = n) as Hl.
  { by rewrite length_rev, length_le_split. }
  rewrite <- Hl at 1. rewrite le_split_combine, rev_involutive, le_combine_split.
  - by apply Z.mod_small.
  - apply Forall_rev, le_split_bytes.
Qed.

Lemma swap16_range x : 0 <= swap16 x < 2 ^ 16.
Proof. apply u16_range. Qed.
Lemma swap32_range x : 0 <= swap32 x < 2 ^ 32.
Proof. apply u32_range. Qed.
#[export] Hint Resolve swap16_range swap32_range : hina.

Lemma swap16_involutive x : 0 <= x < 2 ^ 16 -> swap16 (swap16 x) = x.
Proof.
  intros Hx. rewrite swap16_bytes by apply swap16_range. rewrite swap16_bytes by done.
  by apply rev_bytes_involutive.
Qed.

Lemma swap32_involutive x : 0 <= x < 2 ^ 32 -> swap32 (swap32 x) = x.
Proof.
  intros Hx. rewrite swap32_bytes by apply swap32_range. rewrite swap32_bytes by done.
  by apply rev_bytes_involutive.
Qed.

Lemma IS_ERROR_small e : - 2 ^ 31 <= e < 2 ^ 31 -> IS_ERROR e = (e <? 0).
Proof. intros. unfold IS_ERROR. by rewrite s32_small. Qed.
