(* ===== verification/LinkedList.v ===== *)
(** The intrusive doubly linked list (libs/common/list.c, list.h).

    Every list head and list element is a [struct list] with two pointers; the
    store maps an address to its node, address 0 is NULL.  The operations are
    translated statement by statement; a representation predicate relates the
    cyclic pointer structure to a Rocq list, and each operation refines the
    operation on lists that the other components use in its place. *)

From S2P Require Import Prelude Types.

Definition NULL : Z := 0.

(** [struct list] *)
Record node := Node { prev : Z; next : Z }.
#[export] Instance node_eq_dec : EqDecision node.
Proof. solve_decision. Defined.

Abbreviation store := (gmap Z node).

Definition load (p : Z) : ST store node := getopt (fun s => s !! p).
Definition set_prev (p v : Z) : ST store unit :=
  n ← load p; modify (fun s => <[p := Node v (next n)]> s).
Definition set_next (p v : Z) : ST store unit :=
  n ← load p; modify (fun s => <[p := Node (prev n) v]> s).

Definition list_insert (prev next new : Z) : ST store unit :=
  set_prev new prev ;;
  set_next new next ;;
  set_prev next new ;;
  set_next prev new.

Definition list_elem_nullify (elem : Z) : ST store unit :=
  set_prev elem NULL ;; set_next elem NULL.

Definition list_init (list : Z) : ST store unit :=
  set_prev list list ;; set_next list list.

Definition list_elem_init (elem : Z) : ST store unit := list_elem_nullify elem.

Definition list_is_empty (list : Z) : ST store bool :=
  n ← load list; mret (next n =? list).

Definition list_is_linked (elem : Z) : ST store bool :=
  n ← load elem; mret (negb (next n =? NULL)).

(** The [while (node != list)] walk of [list_len] and [list_contains]; [fuel]
    bounds the number of nodes visited. *)
Fixpoint list_len_loop (fuel : nat) (list node len : Z) : ST store Z :=
  match fuel with
  | O => undef
  | S fuel' =>
      if node =? list then mret len
      else n ← load node; list_len_loop fuel' list (next n) (u32 (len + 1))
  end.

Definition list_len (fuel : nat) (list : Z) : ST store Z :=
  n ← load list; list_len_loop fuel list (next n) 0.

Fixpoint list_contains_loop (fuel : nat) (list elem node : Z) : ST store bool :=
  match fuel with
  | O => undef
  | S fuel' =>
      if node =? list then mret false
      else if node =? elem then mret true
      else n ← load node; list_contains_loop fuel' list elem (next n)
  end.

Definition list_contains (fuel : nat) (list elem : Z) : ST store bool :=
  n ← load list; list_contains_loop fuel list elem (next n).

Definition list_remove (elem : Z) : ST store unit :=
  linked ← list_is_linked elem;
  if negb linked then mret tt
  else
    e ← load elem; set_next (prev e) (next e) ;;
    e ← load elem; set_prev (next e) (prev e) ;;
    list_elem_nullify elem.

Definition list_push_back (fuel : nat) (list new_tail : Z) : ST store unit :=
  c ← list_contains fuel list new_tail;
  assert (negb c) ;;
  l ← list_is_linked new_tail;
  assert (negb l) ;;
  h ← load list;
  list_insert (prev h) list new_tail.

Definition list_pop_front (list : Z) : ST store Z :=
  h ← load list;
  let head := next h in
  if head =? list then mret NULL
  else
    hn ← load head;
    let nxt := next hn in
    set_next list nxt ;;
    set_prev nxt list ;;
    list_elem_nullify head ;;
    mret head.

(** [LIST_FOR_EACH]: the successor is read before the body runs. *)
Fixpoint list_for_each_loop (fuel : nat) (list elem : Z) (body : Z -> ST store unit)
    : ST store unit :=
  match fuel with
  | O => undef
  | S fuel' =>
      if elem =? list then mret tt
      else e ← load elem; body elem ;; list_for_each_loop fuel' list (next e) body
  end.

Definition LIST_FOR_EACH (fuel : nat) (list : Z) (body : Z -> ST store unit)
    : ST store unit :=
  h ← load list; list_for_each_loop fuel list (next h) body.

(** ** Representation *)

Definition next_of (s : store) (p : Z) : option Z := next <$> s !! p.
Definition prev_of (s : store) (p : Z) : option Z := prev <$> s !! p.

(** [seg s a l b]: following [next] from [a] runs through [l] to [b], and [prev]
    runs back. *)
Fixpoint seg (s : store) (a : Z) (l : list Z) (b : Z) : Prop :=
  match l with
  | [] => next_of s a = Some b /\ prev_of s b = Some a
  | x :: l' => next_of s a = Some x /\ prev_of s x = Some a /\ seg s x l' b
  end.

Definition is_list (s : store) (h : Z) (l : list Z) : Prop :=
  NoDup (h :: l) /\ NULL ∉ h :: l /\ seg s h l h.

(** An element that is in no list. *)
Definition unlinked (s : store) (x : Z) : Prop := s !! x = Some (Node NULL NULL).

(** ** Pointwise effect of the stores *)

Lemma set_next_spec s p v :
  is_Some (s !! p) ->
  exists s', set_next p v s = Ok (tt, s')
    /\ (forall q, next_of s' q = if decide (q = p) then Some v else next_of s q)
    /\ (forall q, prev_of s' q = prev_of s q)
    /\ (forall q, is_Some (s' !! q) <-> is_Some (s !! q)).
Proof.
  intros [n Hn]. exists (<[p := Node (prev n) v]> s). unfold set_next, load, next_of, prev_of.
  split; [run; by rewrite Hn|]. repeat split; try intros q; rewrite ?lookup_insert;
    repeat case_decide; subst; simplify_eq; try done; rewrite ?Hn; naive_solver.
Qed.

Lemma set_prev_spec s p v :
  is_Some (s !! p) ->
  exists s', set_prev p v s = Ok (tt, s')
    /\ (forall q, prev_of s' q = if decide (q = p) then Some v else prev_of s q)
    /\ (forall q, next_of s' q = next_of s q)
    /\ (forall q, is_Some (s' !! q) <-> is_Some (s !! q)).
Proof.
  intros [n Hn]. exists (<[p := Node v (next n)]> s). unfold set_prev, load, next_of, prev_of.
  split; [run; by rewrite Hn|]. repeat split; try intros q; rewrite ?lookup_insert;
    repeat case_decide; subst; simplify_eq; try done; rewrite ?Hn; naive_solver.
Qed.

Lemma next_is_Some s p v : next_of s p = Some v -> is_Some (s !! p).
Proof. unfold next_of. destruct (s !! p); naive_solver. Qed.
Lemma prev_is_Some s p v : prev_of s p = Some v -> is_Some (s !! p).
Proof. unfold prev_of. destruct (s !! p); naive_solver. Qed.
#[export] Hint Resolve next_is_Some prev_is_Some : hina.

Lemma load_next s p v : next_of s p = Some v -> exists n, load p s = Ok (n, s) /\ next n = v.
Proof.
  unfold next_of, load. destruct (s !! p) as [n|] eqn:E; [|done]. intros [= <-].
  exists n. split; [run; by rewrite E|done].
Qed.

Lemma lookup_node s p a b : prev_of s p = Some a -> next_of s p = Some b -> s !! p = Some (Node a b).
Proof. unfold prev_of, next_of. destruct (s !! p) as [[??]|]; naive_solver. Qed.

(** Step through a [set_next]/[set_prev] in the goal. *)
Ltac step_set :=
  match goal with
  | |- context [mbind ?f (set_next ?p ?v) ?s] =>
      let s' := fresh "s" in let E := fresh "E" in
      let Hn := fresh "Hn" in let Hp := fresh "Hp" in let Hd := fresh "Hd" in
      destruct (set_next_spec s p v) as (s' & E & Hn & Hp & Hd);
      [|rewrite (ST_bind_run _ _ _ _ _ E); clear E]
  | |- context [mbind ?f (set_prev ?p ?v) ?s] =>
      let s' := fresh "s" in let E := fresh "E" in
      let Hn := fresh "Hn" in let Hp := fresh "Hp" in let Hd := fresh "Hd" in
      destruct (set_prev_spec s p v) as (s' & E & Hp & Hn & Hd);
      [|rewrite (ST_bind_run _ _ _ _ _ E); clear E]
  | |- context [set_next ?p ?v ?s] =>
      let s' := fresh "s" in let E := fresh "E" in
      let Hn := fresh "Hn" in let Hp := fresh "Hp" in let Hd := fresh "Hd" in
      destruct (set_next_spec s p v) as (s' & E & Hn & Hp & Hd); [|rewrite E; clear E]
  | |- context [set_prev ?p ?v ?s] =>
      let s' := fresh "s" in let E := fresh "E" in
      let Hn := fresh "Hn" in let Hp := fresh "Hp" in let Hd := fresh "Hd" in
      destruct (set_prev_spec s p v) as (s' & E & Hp & Hn & Hd); [|rewrite E; clear E]
  end.

Lemma list_insert_spec s p n x :
  is_Some (s !! p) -> is_Some (s !! n) -> is_Some (s !! x) -> x <> p -> x <> n ->
  exists s', list_insert p n x s = Ok (tt, s')
    /\ (forall q, next_of s' q =
          if decide (q = p) then Some x else if decide (q = x) then Some n else next_of s q)
    /\ (forall q, prev_of s' q =
          if decide (q = n) then Some x else if decide (q = x) then Some p else prev_of s q).
Proof.
  intros Ap An Ax Hxp Hxn. unfold list_insert.
  step_set; [done|]. step_set; [naive_solver|]. step_set; [naive_solver|]. step_set; [naive_solver|].
  eexists. split; [done|]. split; intros q.
  - rewrite Hn2, Hn1, Hn0, Hn. repeat case_decide; by subst.
  - rewrite Hp2, Hp1, Hp0, Hp. repeat case_decide; by subst.
Qed.

Lemma list_elem_nullify_spec s x :
  is_Some (s !! x) ->
  exists s', list_elem_nullify x s = Ok (tt, s') /\ unlinked s' x
    /\ (forall q, q <> x -> next_of s' q = next_of s q /\ prev_of s' q = prev_of s q).
Proof.
  intros Hx. unfold list_elem_nullify. step_set; [done|]. step_set; [naive_solver|].
  eexists. split; [done|]. split.
  - apply lookup_node; [rewrite Hp0, Hp|rewrite Hn0]; by rewrite decide_True.
  - intros q Hq. rewrite Hn0, Hn, Hp0, Hp. by rewrite !decide_False.
Qed.

(** ** Segments *)

Lemma seg_ext s s' a l b :
  (forall p, p ∈ a :: l -> next_of s' p = next_of s p) ->
  (forall p, p ∈ l ++ [b] -> prev_of s' p = prev_of s p) ->
  seg s a l b -> seg s' a l b.
Proof.
  revert a. induction l as [|x l IH]; intros a Hn Hp; simpl.
  - intros [H1 H2]. rewrite Hn, Hp by set_solver. done.
  - intros (H1 & H2 & H3). rewrite Hn, Hp by set_solver.
    split; [done|]. split; [done|]. apply IH; [set_solver..|done].
Qed.

Lemma seg_app s a l1 x l2 b :
  seg s a (l1 ++ x :: l2) b <-> seg s a l1 x /\ seg s x l2 b.
Proof.
  revert a. induction l1 as [|y l1 IH]; intros a; simpl; [naive_solver|].
  rewrite IH. naive_solver.
Qed.

Lemma seg_first s a l b : seg s a l b -> next_of s a = Some (default b (head l)).
Proof. destruct l; simpl; naive_solver. Qed.

Lemma seg_last s a l b : seg s a l b -> prev_of s b = Some (default a (last l)).
Proof.
  revert a. induction l as [|x l IH]; intros a.
  - intros [_ H]. done.
  - intros (_ & _ & H). apply IH in H. rewrite H. destruct l as [|y l]; [done|].
    rewrite last_cons_cons. by destruct (last (y :: l)) eqn:E; [|apply last_None in E].
Qed.

Lemma seg_alloc s a l b p : seg s a l b -> p ∈ a :: l ++ [b] -> is_Some (s !! p).
Proof.
  revert a. induction l as [|x l IH]; intros a; simpl.
  - intros [H1 H2]. rewrite elem_of_cons, list_elem_of_singleton.
    intros [->| ->]; eauto with hina.
  - intros (H1 & H2 & H3). rewrite elem_of_cons. intros [->|H]; eauto with hina.
Qed.

Lemma default_last_elem {A} (a : A) l : default a (last l) ∈ a :: l.
Proof.
  destruct (last l) as [x|] eqn:E; simpl; [|set_solver].
  apply last_Some in E as [l' ->]. set_solver.
Qed.

(** The tail of a non-empty list split off. *)
Lemma last_split {A} (a : A) l :
  (l = [] /\ default a (last l) = a) \/
  (exists l' t, l = l' ++ [t] /\ default a (last l) = t).
Proof.
  destruct l as [|x l] using rev_ind; [by left|].
  right. exists l, x. by rewrite last_snoc.
Qed.

(** ** The operations refine operations on lists *)

Lemma is_list_next_loop s h l : is_list s h l -> next_of s h = Some (default h (head l)).
Proof. intros (_ & _ & H). by apply seg_first in H. Qed.

Lemma is_list_alloc s h l p : is_list s h l -> p ∈ h :: l -> is_Some (s !! p).
Proof. intros (_ & _ & H) Hp. eapply seg_alloc; [done|]. set_solver. Qed.

Lemma contains_loop_spec s h x l fuel a :
  seg s a l h -> h ∉ l -> x <> h -> (length l < fuel)%nat ->
  list_contains_loop fuel h x (default h (head l)) s = Ok (bool_decide (x ∈ l), s).
Proof.
  revert fuel a. induction l as [|y l IH]; intros [|fuel] a Hseg Hh Hx Hf; simpl in *; try lia.
  - rewrite Z.eqb_refl. done.
  - apply not_elem_of_cons in Hh as [Hy Hh]. destruct Hseg as (_ & _ & Hseg).
    destruct (Z.eqb_spec y h); [done|]. destruct (Z.eqb_spec y x) as [->|Hyx].
    + rewrite bool_decide_true; [done|set_solver].
    + destruct (load_next s y (default h (head l))) as (nn & Hl & Hn); [by eapply seg_first|].
      rewrite (ST_bind_run _ _ _ _ _ Hl), Hn, IH with (a := y) by (done || lia).
      do 2 f_equal. apply bool_decide_ext. set_solver.
Qed.

Lemma list_contains_spec s h x l fuel :
  is_list s h l -> x <> h -> (length l < fuel)%nat ->
  list_contains fuel h x s = Ok (bool_decide (x ∈ l), s).
Proof.
  intros Hl Hx Hf. unfold list_contains.
  destruct (load_next s h _ (is_list_next_loop _ _ _ Hl)) as (n & E & Hn).
  rewrite (ST_bind_run _ _ _ _ _ E), Hn. destruct Hl as (Hnd & _ & Hseg).
  apply NoDup_cons in Hnd as [Hh _]. by eapply contains_loop_spec.
Qed.

Lemma len_loop_spec s h l fuel a n :
  seg s a l h -> h ∉ l -> (length l < fuel)%nat -> 0 <= n -> n + Z.of_nat (length l) < 2 ^ 32 ->
  list_len_loop fuel h (default h (head l)) n s = Ok (n + Z.of_nat (length l), s).
Proof.
  revert fuel a n. induction l as [|y l IH]; intros [|fuel] a n Hseg Hh Hf Hn Hb; simpl in *; try lia.
  - rewrite Z.eqb_refl. run. do 2 f_equal. lia.
  - apply not_elem_of_cons in Hh as [Hy Hh]. destruct Hseg as (_ & _ & Hseg).
    destruct (Z.eqb_spec y h) as [|Hne]; [done|].
    destruct (load_next s y (default h (head l))) as (nn & Hl & Hnn); [by eapply seg_first|].
    rewrite (ST_bind_run _ _ _ _ _ Hl), Hnn, u32_small by lia.
    rewrite IH with (a := y) by (done || lia). do 2 f_equal. lia.
Qed.

Lemma list_len_spec s h l fuel :
  is_list s h l -> (length l < fuel)%nat -> Z.of_nat (length l) < 2 ^ 32 ->
  list_len fuel h s = Ok (Z.of_nat (length l), s).
Proof.
  intros Hl Hf Hb. unfold list_len.
  destruct (load_next s h _ (is_list_next_loop _ _ _ Hl)) as (n & E & Hn).
  rewrite (ST_bind_run _ _ _ _ _ E), Hn. destruct Hl as (Hnd & _ & Hseg).
  apply NoDup_cons in Hnd as [Hh _]. by erewrite len_loop_spec.
Qed.

(** Two stores agree on the nodes of a set of addresses. *)
Definition frame (s s' : store) (touched : list Z) : Prop :=
  forall q, q ∉ touched -> next_of s' q = next_of s q /\ prev_of s' q = prev_of s q.

(** Any list that shares no node with the touched ones is untouched. *)
Lemma is_list_frame s s' touched h l :
  frame s s' touched -> (forall p, p ∈ h :: l -> p ∉ touched) ->
  is_list s h l -> is_list s' h l.
Proof.
  intros Hf Hd (Hnd & Hnull & Hseg). split; [done|]. split; [done|].
  eapply seg_ext; [..|done]; intros p Hp; apply Hf, Hd; set_solver.
Qed.

Lemma list_init_spec s h :
  is_Some (s !! h) -> h <> NULL ->
  exists s', list_init h s = Ok (tt, s') /\ is_list s' h [] /\ frame s s' [h].
Proof.
  intros Hh Hnull. unfold list_init. step_set; [done|]. step_set; [naive_solver|].
  eexists. split; [done|]. split.
  - split; [apply NoDup_singleton|]. split; [set_solver|].
    split; [rewrite Hn0|rewrite Hp0, Hp]; by rewrite decide_True.
  - intros q Hq. assert (q <> h) by set_solver. by rewrite Hn0, Hn, Hp0, Hp, !decide_False.
Qed.

Lemma list_push_back_spec s h l x fuel :
  is_list s h l -> unlinked s x -> x ∉ h :: l -> x <> NULL -> (length l < fuel)%nat ->
  exists s', list_push_back fuel h x s = Ok (tt, s')
    /\ is_list s' h (l ++ [x])
    /\ frame s s' [h; x; default h (last l)].
Proof.
  intros Hl Hu Hx Hnull Hf. unfold list_push_back.
  apply not_elem_of_cons in Hx as [Hxh Hx].
  rewrite (ST_bind_run _ _ _ _ _ (list_contains_spec s h x l fuel Hl Hxh Hf)).
  rewrite bool_decide_false by done. unfold list_is_linked, load. run.
  rewrite Hu. simpl. pose proof Hl as (Hnd & Hnn & Hseg).
  pose proof (seg_last _ _ _ _ Hseg) as Hprev.
  assert (is_Some (s !! h)) as [hn Hhn] by (eapply is_list_alloc; [done|set_solver]).
  assert (prev hn = default h (last l)) as Hph.
  { unfold prev_of in Hprev. rewrite Hhn in Hprev. by inversion Hprev. }
  rewrite Hhn. simpl. rewrite Hph.
  assert (default h (last l) ∈ h :: l) as Ht by apply default_last_elem.
  assert (x <> default h (last l)) by (intros ->; set_solver).
  destruct (list_insert_spec s (default h (last l)) h x) as (s' & E & Hn & Hp); [by eapply is_list_alloc|done..|].
  exists s'. split; [done|]. split.
  - split; [|split].
    + rewrite app_comm_cons. apply NoDup_app. split; [done|]. split; [set_solver|apply NoDup_singleton].
    + set_solver.
    + apply seg_app. split; [|].
      * destruct (last_split h l) as [[-> Ht']|(l' & t & -> & Ht')]; rewrite Ht' in *.
        { simpl. rewrite Hn, Hp. rewrite decide_True, decide_False, decide_True by done. done. }
        apply seg_app in Hseg as [Hs1 Hs2]. apply seg_app. apply NoDup_cons in Hnd as [Hh Hnd].
        apply NoDup_app in Hnd as (Hnd1 & Hnd2 & _).
        split.
        -- eapply seg_ext; [..|exact Hs1]; intros p Hpi.
           ++ rewrite Hn. assert (p <> t) by (intros ->; set_solver).
              assert (p <> x) by (intros ->; set_solver). by rewrite !decide_False.
           ++ rewrite Hp. assert (p <> h) by (intros ->; set_solver).
              assert (p <> x) by (intros ->; set_solver). by rewrite !decide_False.
        -- simpl. rewrite Hn, Hp. by rewrite decide_True, decide_False, decide_True.
      * simpl. rewrite Hn, Hp. by rewrite decide_False, !decide_True.
  - intros q Hq. rewrite Hn, Hp. rewrite !decide_False by set_solver. done.
Qed.

(** Neighbours of an element of a represented list. *)
Lemma is_list_neighbours s h l1 x l2 :
  is_list s h (l1 ++ x :: l2) ->
  s !! x = Some (Node (default h (last l1)) (default h (head l2)))
  /\ x <> h /\ x <> NULL /\ x ∉ l1 /\ x ∉ l2
  /\ default h (last l1) <> x /\ default h (head l2) <> x
  /\ default h (head l2) <> NULL.
Proof.
  intros (Hnd & Hnull & Hseg). apply seg_app in Hseg as [H1 H2].
  apply NoDup_cons in Hnd as [Hh Hnd]. apply NoDup_app in Hnd as (_ & Hd & Hnd2).
  apply NoDup_cons in Hnd2 as [Hx2 _].
  assert (default h (last l1) ∈ h :: l1) by apply default_last_elem.
  assert (x ∉ l1) by set_solver. assert (x <> h) by set_solver.
  assert (x <> NULL) by set_solver.
  assert (default h (head l2) ∈ h :: l2) by (destruct l2; simpl; set_solver).
  split; [apply lookup_node; [by apply seg_last in H1|by apply seg_first in H2]|].
  assert (forall p, p ∈ h :: l1 -> p <> x) as D1 by set_solver.
  assert (forall p, p ∈ h :: l2 -> p <> x) as D2 by set_solver.
  assert (forall p, p ∈ h :: l2 -> p <> NULL) as D3 by set_solver.
  split_and!; auto.
Qed.

Lemma is_list_unlink s s' h l1 x l2 :
  is_list s h (l1 ++ x :: l2) ->
  (forall q, q <> x -> next_of s' q =
     if decide (q = default h (last l1)) then Some (default h (head l2)) else next_of s q) ->
  (forall q, q <> x -> prev_of s' q =
     if decide (q = default h (head l2)) then Some (default h (last l1)) else prev_of s q) ->
  is_list s' h (l1 ++ l2).
Proof.
  intros Hl Hn Hp. pose proof (is_list_neighbours _ _ _ _ _ Hl) as (_ & Hxh & _ & Hx1 & Hx2 & Hlx & Hhx & _).
  destruct Hl as (Hnd & Hnull & Hseg).
  assert (NoDup (h :: l1 ++ l2)) as Hnd'.
  { rewrite !NoDup_cons, !NoDup_app, !NoDup_cons in *. set_solver. }
  split; [done|]. split; [set_solver|]. apply seg_app in Hseg as [H1 H2].
  apply NoDup_cons in Hnd' as [Hh (Hnd1 & Hd & Hnd2)%NoDup_app].
  assert (default h (head l2) ∈ h :: l2) as En by (destruct l2; simpl; set_solver).
  assert (forall p, p ∈ l1 -> p <> default h (head l2)) as Hdn.
  { clear -Hh Hd En. intros p Hp ->. apply elem_of_cons in En as [E|E]; [rewrite E in Hp|]; set_solver. }
  assert (default h (last l1) ∈ h :: l1) as Et by apply default_last_elem.
  assert (forall p, p ∈ l2 -> p <> default h (last l1)) as Hdt.
  { clear -Hh Hd Et. intros p Hp ->. apply elem_of_cons in Et as [E|E]; [rewrite E in Hp|]; set_solver. }
  assert (seg s' h l1 (default h (head l2))) as Hs1.
  { destruct (last_split h l1) as [[-> Ht]|(l' & t & -> & Ht)]; rewrite Ht in *.
    - simpl. rewrite Hn, Hp by done. by rewrite !decide_True.
    - apply seg_app in H1 as [H1a H1b]. apply seg_app. apply NoDup_app in Hnd1 as (_ & Ht' & _).
      assert (forall p, p ∈ h :: l' -> p <> t) by (clear -Hh Ht'; set_solver).
      split.
      + eapply seg_ext; [..|exact H1a]; intros p Hpi.
        * rewrite Hn, decide_False; auto. clear -Hpi Hx1 Hxh. set_solver.
        * rewrite Hp, decide_False; auto. clear -Hpi Hx1. set_solver.
      + simpl. rewrite Hn, Hp by done. by rewrite !decide_True. }
  destruct l2 as [|y l2]; [by rewrite app_nil_r|].
  apply seg_app. split; [exact Hs1|]. destruct H2 as (_ & _ & H2). apply NoDup_cons in Hnd2 as [Hy2 _].
  eapply seg_ext; [..|exact H2]; intros p Hpi.
  - rewrite Hn, decide_False; auto. clear -Hpi Hx2. set_solver.
  - simpl in Hp. rewrite Hp, decide_False; [done|..].
    + clear -Hpi Hy2 Hh. set_solver.
    + clear -Hpi Hx2 Hxh. set_solver.
Qed.

Lemma list_remove_spec s h l1 x l2 :
  is_list s h (l1 ++ x :: l2) ->
  exists s', list_remove x s = Ok (tt, s')
    /\ is_list s' h (l1 ++ l2) /\ unlinked s' x
    /\ frame s s' [default h (last l1); x; default h (head l2)].
Proof.
  intros Hl. pose proof (is_list_neighbours _ _ _ _ _ Hl) as (Hx & Hxh & Hx0 & Hx1 & Hx2 & Hlx & Hhx & Hh0).
  assert (is_Some (s !! default h (last l1))) as Al.
  { eapply is_list_alloc; [exact Hl|]. pose proof (default_last_elem h l1). set_solver. }
  assert (is_Some (s !! default h (head l2))) as Ah.
  { eapply is_list_alloc; [exact Hl|]. destruct l2; simpl; set_solver. }
  unfold list_remove, list_is_linked.
  assert (forall s1, s1 !! x = s !! x -> load x s1 = Ok (Node (default h (last l1)) (default h (head l2)), s1)) as Hload.
  { intros s1 E. unfold load. run. by rewrite E, Hx. }
  rewrite (ST_bind_run _ _ _ (negb (default h (head l2) =? NULL)) s).
  2: { by rewrite (ST_bind_run _ _ _ _ _ (Hload s eq_refl)). }
  destruct (Z.eqb_spec (default h (head l2)) NULL) as [|_]; [done|]. cbn [negb].
  rewrite (ST_bind_run _ _ _ _ _ (Hload s eq_refl)). cbn [prev next].
  step_set; [done|].
  assert (s0 !! x = s !! x) as E0.
  { rewrite Hx. apply lookup_node.
    - rewrite Hp. unfold prev_of. by rewrite Hx.
    - rewrite Hn, decide_False by done. unfold next_of. by rewrite Hx. }
  rewrite (ST_bind_run _ _ _ _ _ (Hload s0 E0)). cbn [prev next].
  step_set; [naive_solver|].
  destruct (list_elem_nullify_spec s1 x) as (s' & E & Hu & Hq); [apply Hd0, Hd; by rewrite Hx|].
  rewrite E. exists s'. split; [done|]. split; [|split; [done|]].
  - eapply is_list_unlink; [exact Hl|..]; intros q Hqx.
    + destruct (Hq q Hqx) as [-> _]. by rewrite Hn0, Hn.
    + destruct (Hq q Hqx) as [_ ->]. by rewrite Hp0, Hp.
  - intros q Hqt. assert (q <> x) as Hqx by set_solver. destruct (Hq q Hqx) as [-> ->].
    rewrite Hn0, Hn, Hp0, Hp. by rewrite !decide_False by set_solver.
Qed.

(** Removing an element that is in no list does nothing. *)
Lemma list_remove_unlinked s x : unlinked s x -> list_remove x s = Ok (tt, s).
Proof. intros H. unfold list_remove, list_is_linked, load. run. by rewrite H. Qed.

Lemma list_pop_front_nil s h : is_list s h [] -> list_pop_front h s = Ok (NULL, s).
Proof.
  intros Hl. unfold list_pop_front.
  destruct (load_next s h _ (is_list_next_loop _ _ _ Hl)) as (n & E & Hn).
  rewrite (ST_bind_run _ _ _ _ _ E), Hn. simpl. by rewrite Z.eqb_refl.
Qed.

Lemma list_pop_front_cons s h x l :
  is_list s h (x :: l) ->
  exists s', list_pop_front h s = Ok (x, s')
    /\ is_list s' h l /\ unlinked s' x
    /\ frame s s' [h; x; default h (head l)].
Proof.
  intros Hl. pose proof (is_list_neighbours s h [] x l Hl) as (Hx & Hxh & Hx0 & _ & Hx2 & _ & Hhx & Hh0).
  simpl in Hx. unfold list_pop_front.
  destruct (load_next s h _ (is_list_next_loop _ _ _ Hl)) as (n & E & Hn). simpl in Hn.
  rewrite (ST_bind_run _ _ _ _ _ E), Hn. destruct (Z.eqb_spec x h); [done|].
  assert (load x s = Ok (Node h (default h (head l)), s)) as Hload by (unfold load; run; by rewrite Hx).
  rewrite (ST_bind_run _ _ _ _ _ Hload). cbn [next].
  assert (is_Some (s !! h)) as Ah by (eapply is_list_alloc; [exact Hl|set_solver]).
  assert (is_Some (s !! default h (head l))) as Ad.
  { eapply is_list_alloc; [exact Hl|]. destruct l; simpl; set_solver. }
  step_set; [done|]. step_set; [naive_solver|].
  destruct (list_elem_nullify_spec s1 x) as (s' & E' & Hu & Hq); [apply Hd0, Hd; by rewrite Hx|].
  rewrite (ST_bind_run _ _ _ _ _ E'). exists s'. split; [done|]. split; [|split; [done|]].
  - apply (is_list_unlink s s' h [] x l Hl); intros q Hqx.
    + destruct (Hq q Hqx) as [-> _]. by rewrite Hn1, Hn0.
    + destruct (Hq q Hqx) as [_ ->]. by rewrite Hp0, Hp.
  - intros q Hqt. assert (q <> x) as Hqx by set_solver. destruct (Hq q Hqx) as [-> ->].
    rewrite Hn1, Hn0, Hp0, Hp. by rewrite !decide_False by set_solver.
Qed.

(** ** Iteration

    The successor is read before the body runs, so a body may unlink the current
    element.  [I rem s] is the loop invariant with [rem] the elements still to visit. *)
Lemma for_each_loop_inv (I : list Z -> store -> Prop) h body rem fuel s :
  (forall x rem s, I (x :: rem) s ->
     x <> h /\ next_of s x = Some (default h (head rem))
     /\ exists s', body x s = Ok (tt, s') /\ I rem s') ->
  I rem s -> (length rem < fuel)%nat ->
  exists s', list_for_each_loop fuel h (default h (head rem)) body s = Ok (tt, s') /\ I [] s'.
Proof.
  intros Hbody. revert fuel s. induction rem as [|x rem IH]; intros [|fuel] s HI Hf; simpl in *; try lia.
  - rewrite Z.eqb_refl. by exists s.
  - destruct (Hbody _ _ _ HI) as (Hx & Hnx & s' & E & HI').
    destruct (Z.eqb_spec x h); [done|].
    destruct (load_next s x _ Hnx) as (nd & El & Hnd).
    rewrite (ST_bind_run _ _ _ _ _ El), (ST_bind_run _ _ _ _ _ E), Hnd.
    apply IH; [done|lia].
Qed.

Lemma for_each_inv (I : list Z -> store -> Prop) h body l fuel s :
  (forall x rem s, I (x :: rem) s ->
     x <> h /\ next_of s x = Some (default h (head rem))
     /\ exists s', body x s = Ok (tt, s') /\ I rem s') ->
  is_list s h l -> I l s -> (length l < fuel)%nat ->
  exists s', LIST_FOR_EACH fuel h body s = Ok (tt, s') /\ I [] s'.
Proof.
  intros Hbody Hl HI Hf. unfold LIST_FOR_EACH.
  destruct (load_next s h _ (is_list_next_loop _ _ _ Hl)) as (n & E & Hn).
  rewrite (ST_bind_run _ _ _ _ _ E), Hn. by apply for_each_loop_inv.
Qed.

(** ** The queue interface

    What the run queue, the sender queues, the free list and the packet queues
    rely on: a FIFO with fresh elements. *)
Class Fifo (St : Type) := {
  fifo_repr : St -> Z -> list Z -> Prop;
  fifo_fresh : St -> Z -> Prop;
  fifo_push : Z -> Z -> ST St unit;
  fifo_pop : Z -> ST St Z;
  fifo_pushed s h l x :
    fifo_repr s h l -> fifo_fresh s x -> x ∉ h :: l ->
    exists s', fifo_push h x s = Ok (tt, s') /\ fifo_repr s' h (l ++ [x])
      /\ forall y, y ∉ x :: h :: l -> fifo_fresh s y -> fifo_fresh s' y;
  fifo_popped s h x l :
    fifo_repr s h (x :: l) ->
    exists s', fifo_pop h s = Ok (x, s') /\ fifo_repr s' h l
}.

Section FifoClient.
Context `{Fifo St}.

Fixpoint push_all (h : Z) (xs : list Z) : ST St unit :=
  match xs with
  | [] => mret tt
  | x :: xs' => fifo_push h x ;; push_all h xs'
  end.

Fixpoint pop_n (h : Z) (n : nat) : ST St (list Z) :=
  match n with
  | O => mret []
  | S n' => x ← fifo_pop h; l ← pop_n h n'; mret (x :: l)
  end.

Lemma push_all_spec s h l xs :
  fifo_repr s h l -> NoDup (h :: l ++ xs) -> Forall (fifo_fresh s) xs ->
  exists s', push_all h xs s = Ok (tt, s') /\ fifo_repr s' h (l ++ xs).
Proof.
  revert s l. induction xs as [|x xs IH]; intros s l Hr Hnd Hf; simpl.
  - rewrite app_nil_r. by exists s.
  - inversion_clear Hf as [|?? Hx Hxs].
    assert (x ∉ h :: l) as Hxl by (rewrite NoDup_cons, NoDup_app, NoDup_cons in Hnd; set_solver).
    destruct (fifo_pushed s h l x Hr Hx Hxl) as (s1 & E & Hr1 & Hfr).
    rewrite (ST_bind_run _ _ _ _ _ E).
    destruct (IH s1 (l ++ [x]) Hr1) as (s2 & E2 & Hr2).
    + by rewrite <- app_assoc.
    + rewrite Forall_forall in *. intros y Hy. apply Hfr; [|by apply Hxs].
      rewrite NoDup_cons, NoDup_app, NoDup_cons in Hnd. set_solver.
    + exists s2. rewrite <- app_assoc in Hr2. by split.
Qed.

Lemma pop_n_spec s h l1 l2 :
  fifo_repr s h (l1 ++ l2) ->
  exists s', pop_n h (length l1) s = Ok (l1, s') /\ fifo_repr s' h l2.
Proof.
  revert s. induction l1 as [|x l1 IH]; intros s Hr; simpl; [by exists s|].
  destruct (fifo_popped s h x (l1 ++ l2) Hr) as (s1 & E & Hr1).
  rewrite (ST_bind_run _ _ _ _ _ E). destruct (IH s1 Hr1) as (s2 & E2 & Hr2).
  rewrite (ST_bind_run _ _ _ _ _ E2). by exists s2.
Qed.
End FifoClient.

(** A represented list is no longer than the store, which bounds every walk. *)
Lemma is_list_length s h l : is_list s h l -> (length l < S (size s))%nat.
Proof.
  intros Hl. pose proof Hl as (Hnd & _ & _).
  assert (list_to_set (h :: l) ⊆ dom s) as Hsub.
  { intros p Hp. apply elem_of_list_to_set in Hp. apply elem_of_dom. by eapply is_list_alloc. }
  apply subseteq_size in Hsub. rewrite size_list_to_set, size_dom in Hsub by done. simpl in Hsub. lia.
Qed.

(** The pointer implementation meets the interface. *)
#[export] Program Instance list_fifo : Fifo store := {|
  fifo_repr s h l := is_list s h l;
  fifo_fresh s x := unlinked s x /\ x <> NULL;
  fifo_push h x := fun s => list_push_back (S (size s)) h x s;
  fifo_pop h := list_pop_front h
|}.
Next Obligation.
  intros s h l x Hl [Hu Hn] Hx.
  destruct (list_push_back_spec s h l x (S (size s)) Hl Hu Hx Hn) as (s' & E & Hl' & Hf).
  { by apply is_list_length in Hl. }
  exists s'. split; [done|]. split; [done|]. intros y Hy [Huy Hny]. split; [|done].
  pose proof (default_last_elem h l) as Ht. destruct (Hf y) as [Hn1 Hp1].
  { clear -Hy Ht. remember (default h (last l)) as t eqn:Et. clear Et. set_solver. }
  unfold unlinked in *. apply lookup_node; [rewrite Hp1|rewrite Hn1];
    unfold prev_of, next_of; by rewrite Huy.
Qed.
Next Obligation.
  intros s h x l Hl. destruct (list_pop_front_cons s h x l Hl) as (s' & E & Hl' & _).
  by exists s'.
Qed.

(** ** Properties *)

(** C38: the pointer list is a FIFO.  Pushing distinct unlinked elements on an
    empty list with [list_push_back] and popping as many with [list_pop_front]
    succeeds (no debug assertion fires) and returns them in order, leaving an
    empty list. *)
Theorem list_fifo_order (s : store) (h : Z) (xs : list Z) :
  is_list s h [] -> NoDup (h :: xs) -> Forall (fun x => unlinked s x /\ x <> NULL) xs ->
  exists s1 s2, push_all h xs s = Ok (tt, s1)
    /\ pop_n h (length xs) s1 = Ok (xs, s2) /\ is_list s2 h [].
Proof.
  intros Hl Hnd Hf. change (fifo_repr (Fifo := list_fifo) s h []) in Hl.
  destruct (push_all_spec s h [] xs Hl Hnd Hf) as (s1 & E1 & H1).
  rewrite app_nil_l, <- (app_nil_r xs) in H1.
  destruct (pop_n_spec s1 h xs [] H1) as (s2 & E2 & H2). by exists s1, s2.
Qed.

Definition store3 : store :=
  <[100 := Node 100 100]> (<[1 := Node 0 0]> (<[2 := Node 0 0]> (<[3 := Node 0 0]> ∅))).

Lemma list_fifo_order_witness :
  exists s1 s2, push_all 100 [3; 1; 2] store3 = Ok (tt, s1)
    /\ pop_n 100 3 s1 = Ok ([3; 1; 2], s2) /\ is_list s2 100 [].
Proof.
  apply (list_fifo_order store3 100 [3; 1; 2]).
  - split; [apply (bool_decide_unpack _); vm_compute; exact I|].
    split; [apply (bool_decide_unpack _); vm_compute; exact I|]. split; vm_compute; reflexivity.
  - apply (bool_decide_unpack _). vm_compute. exact I.
  - repeat constructor; vm_compute; discriminate.
Defined.

(** [list_remove] takes exactly its element out of the list it is in, leaves
    that element unlinked so that a second removal does nothing, and leaves every
    other list of the store as it was. *)
Theorem list_remove_correct (s : store) (h : Z) (l1 : list Z) (x : Z) (l2 : list Z)
    (h' : Z) (l' : list Z) :
  is_list s h (l1 ++ x :: l2) -> is_list s h' l' ->
  (forall p, p ∈ h' :: l' -> p ∉ h :: l1 ++ x :: l2) ->
  exists s', list_remove x s = Ok (tt, s')
    /\ is_list s' h (l1 ++ l2) /\ is_list s' h' l' /\ list_remove x s' = Ok (tt, s').
Proof.
  intros Hl Hl' Hd. destruct (list_remove_spec s h l1 x l2 Hl) as (s' & E & H1 & Hu & Hf).
  exists s'. split; [done|]. split; [done|]. split; [|by apply list_remove_unlinked].
  eapply is_list_frame; [exact Hf| |exact Hl']. intros p Hp%Hd.
  pose proof (default_last_elem h l1) as Ht. assert (default h (head l2) ∈ h :: l2) as Hh by (destruct l2; simpl; set_solver).
  remember (default h (last l1)) as t eqn:Et. remember (default h (head l2)) as n eqn:En. clear -Hp Ht Hh. set_solver.
Qed.

Definition store_two_lists : store :=
  <[100 := Node 2 1]> (<[1 := Node 100 2]> (<[2 := Node 1 100]>
  (<[200 := Node 3 3]> (<[3 := Node 200 200]> ∅)))).

Lemma list_remove_correct_witness :
  exists s', list_remove 1 store_two_lists = Ok (tt, s')
    /\ is_list s' 100 ([] ++ [2]) /\ is_list s' 200 [3] /\ list_remove 1 s' = Ok (tt, s').
Proof.
  apply (list_remove_correct store_two_lists 100 [] 1 [2] 200 [3]).
  - split; [apply (bool_decide_unpack _); vm_compute; exact I|].
    split; [apply (bool_decide_unpack _); vm_compute; exact I|]. repeat split; vm_compute; reflexivity.
  - split; [apply (bool_decide_unpack _); vm_compute; exact I|].
    split; [apply (bool_decide_unpack _); vm_compute; exact I|]. repeat split; vm_compute; reflexivity.
  - set_solver.
Defined.

(** [LIST_FOR_EACH] with a body that unlinks the current element (the wake-up
    and flush loops) visits every element once and leaves the list empty. *)
Theorem list_for_each_remove_all (s : store) (h : Z) (l : list Z) :
  is_list s h l ->
  exists s', LIST_FOR_EACH (S (size s)) h list_remove s = Ok (tt, s')
    /\ is_list s' h [] /\ Forall (unlinked s') l.
Proof.
  intros Hl.
  destruct (for_each_inv (fun rem s1 => exists done_, l = done_ ++ rem
      /\ is_list s1 h rem /\ Forall (unlinked s1) done_)
      h list_remove l (S (size s)) s) as (s' & E & d & Hd & H1 & H2).
  - intros x rem s1 (d & -> & Hl1 & Hd). pose proof (is_list_neighbours s1 h [] x rem Hl1) as (Hx & Hxh & _).
    split; [done|]. split; [unfold next_of; by rewrite Hx|].
    destruct (list_remove_spec s1 h [] x rem Hl1) as (s2 & E & Hl2 & Hu & Hf).
    exists s2. split; [done|]. exists (d ++ [x]). split; [by rewrite <- app_assoc|]. split; [done|].
    apply Forall_app. split; [|by constructor]. rewrite Forall_forall in *. intros y Hy.
    destruct (decide (y = x)) as [->|Hyx]; [done|].
    assert (y ∉ h :: x :: rem) as Hyl.
    { intros Hin. destruct Hl1 as (_ & H0 & Hs). specialize (Hd y Hy).
      assert (exists b, next_of s1 y = Some b /\ b ∈ h :: x :: rem) as (b & Hb & Hbin).
      { apply elem_of_cons in Hin as [->|Hin].
        - exists x. split; [by apply seg_first in Hs|set_solver].
        - apply list_elem_of_split in Hin as (l1 & l2 & El). rewrite El in Hs |- *.
          apply seg_app in Hs as [_ Hs]. exists (default h (head l2)).
          split; [by apply seg_first in Hs|destruct l2; simpl; set_solver]. }
      unfold next_of in Hb. unfold unlinked in Hd. rewrite Hd in Hb. inversion Hb. subst b. done. }
    destruct (Hf y) as [Hn Hp].
    { simpl. assert (default h (head rem) ∈ h :: rem) as Hh by (destruct rem; simpl; set_solver).
      remember (default h (head rem)) as n0 eqn:En. clear -Hyl Hh. set_solver. }
    specialize (Hd y Hy). unfold unlinked in *. apply lookup_node; [rewrite Hp|rewrite Hn];
      unfold prev_of, next_of; by rewrite Hd.
  - done.
  - exists []. by split.
  - by apply is_list_length in Hl.
  - exists s'. rewrite app_nil_r in Hd. subst. by split.
Qed.

Lemma list_for_each_remove_all_witness :
  exists s', LIST_FOR_EACH 6 100 list_remove store_two_lists = Ok (tt, s')
    /\ is_list s' 100 [] /\ Forall (unlinked s') [1; 2].
Proof.
  apply (list_for_each_remove_all store_two_lists 100 [1; 2]).
  split; [apply (bool_decide_unpack _); vm_compute; exact I|].
  split; [apply (bool_decide_unpack _); vm_compute; exact I|]. repeat split; vm_compute; reflexivity.
Defined.
