(* ===== verification/KData.v ===== *)
(** Data the kernel components share: pointers to task structures and the IPC
    message (libs/common/message.h). *)

From S2P Require Import Prelude Types.

(** A [struct task *]: the kernel only ever points at [&tasks[i]] or
    [&idle_tasks[cpu]]; NULL is [None] of [option tptr]. *)
Inductive tptr := Task (i : nat) | Idle (cpu : nat).

#[export] Instance tptr_eq_dec : EqDecision tptr.
Proof. solve_decision. Defined.

#[export] Program Instance tptr_countable : Countable tptr :=
  inj_countable' (fun p => match p with Task i => inl i | Idle c => inr c end)
                 (fun s => match s with inl i => Task i | inr c => Idle c end) _.
Next Obligation. by intros [i|c]. Qed.

(** [struct message]: the type, the sender, and the union as its bytes. *)
Record message := Message { m_type : Z; m_src : Z; m_data : list Z }.

#[export] Instance message_eq_dec : EqDecision message.
Proof. solve_decision. Defined.

(** Stores into the union, at the byte offset of a field. *)
Definition m_put32 (off : nat) (v : Z) (m : message) : message :=
  Message (m_type m) (m_src m) (splice off (le_split 4 v) (m_data m)).
Definition m_get32 (off : nat) (m : message) : Z :=
  le_combine (take 4 (drop off (m_data m))).
Definition m_set_type (t : Z) (m : message) : message := Message t (m_src m) (m_data m).
Definition m_set_src (s : Z) (m : message) : message := Message (m_type m) s (m_data m).

(** Fields of the messages the kernel itself builds. *)
Definition m_put_notifications (v : Z) (m : message) : message := m_put32 0 v m.
Definition m_notifications (m : message) : Z := m_get32 0 m.

Lemma m_get32_put32 off v m :
  0 <= v < 2 ^ 32 -> (off + 4 <= length (m_data m))%nat ->
  m_get32 off (m_put32 off v m) = v.
Proof.
  intros Hv Hl. unfold m_get32, m_put32. cbn [m_data].
  rewrite splice_spec by (rewrite length_le_split; lia).
  rewrite drop_app_length' by (rewrite length_take; lia).
  rewrite take_app_length' by (rewrite length_le_split; lia).
  rewrite le_combine_split. by apply Z.mod_small.
Qed.

Lemma m_put32_type off v m : m_type (m_put32 off v m) = m_type m.
Proof. done. Qed.
