(* ===== verification/Memory.v ===== *)
(** Physical memory (kernel/memory.c): zones of pages with reference counts, and
    the page list of each task.

    A [struct page] is named by its zone and its index; [task->pages] is kept here
    as a map from tasks to lists of pages.  [pmem] holds the 32-bit words of
    physical memory that the page tables live in (an absent word reads as 0). *)

From S2P Require Import Prelude Types KData.

Inductive memory_zone_type := MEMORY_ZONE_FREE | MEMORY_ZONE_MMIO.
#[export] Instance memory_zone_type_eq_dec : EqDecision memory_zone_type.
Proof. solve_decision. Defined.

Record page := Page { owner : option tptr; ref_count : Z }.
Record zone := Zone { z_type : memory_zone_type; z_base : Z; z_num_pages : Z; z_pages : list page }.

Definition pageref : Type := nat * nat.

Record memory := Memory {
  zones : list zone;
  owned : gmap tptr (list pageref);
  pmem : gmap Z Z;
}.

Definition set_zones (z : list zone) (m : memory) : memory := Memory z (owned m) (pmem m).
Definition set_owned (o : gmap tptr (list pageref)) (m : memory) : memory := Memory (zones m) o (pmem m).
Definition set_pmem (p : gmap Z Z) (m : memory) : memory := Memory (zones m) (owned m) p.

Definition task_pages (t : tptr) (m : memory) : list pageref := default [] (owned m !! t).

Definition lookup_page (r : pageref) (m : memory) : option page :=
  z ← zones m !! r.1; z_pages z !! r.2.

Definition update_page (r : pageref) (p : page) (m : memory) : memory :=
  set_zones (alter (fun z => Zone (z_type z) (z_base z) (z_num_pages z) (<[r.2 := p]> (z_pages z)))
                   r.1 (zones m)) m.

(** [list_push_back(&t->pages, &page->next)] and [list_remove(&page->next)]. *)
Definition push_page (t : tptr) (r : pageref) (m : memory) : memory :=
  set_owned (<[t := task_pages t m ++ [r]]> (owned m)) m.
Definition unlink_page (r : pageref) (m : memory) : memory :=
  set_owned (filter (fun x => x <> r) <$> owned m) m.
Definition page_is_linked (r : pageref) (m : memory) : bool :=
  bool_decide (r ∈ mjoin (map_to_list (owned m)).*2).

(** Physical words. *)
Definition pm_load (a : Z) (m : memory) : Z := default 0 (pmem m !! a).
Definition pm_store (a v : Z) (m : memory) : memory := set_pmem (<[a := v]> (pmem m)) m.
Definition pm_zero (lo len : Z) (m : memory) : memory :=
  set_pmem (filter (fun kv => ~ (lo <= kv.1 < lo + len)) (pmem m)) m.

(** ** Operations *)

(** Search of the zones in list order; [None] is the NULL result. *)
Fixpoint find_zone (paddr : Z) (zi : nat) (zs : list zone) : option (pageref * memory_zone_type) :=
  match zs with
  | [] => None
  | z :: zs' =>
      if (z_base z <=? paddr) && (paddr <? u32 (z_base z + u32 (z_num_pages z * PAGE_SIZE)))
      then Some ((zi, Z.to_nat ((paddr - z_base z) / PAGE_SIZE)), z_type z)
      else find_zone paddr (S zi) zs'
  end.

Definition find_page_by_paddr (paddr : Z) : ST memory (option (pageref * memory_zone_type)) :=
  assert (IS_ALIGNED paddr PAGE_SIZE) ;;
  gets (fun m => find_zone paddr 0 (zones m)).

(** [add_zone]: the page array is initialised to free pages; their [owner] and
    list fields keep whatever the memory held, represented by [junk]. *)
Definition add_zone (type : memory_zone_type) (paddr num_pages : Z) (junk : nat -> option tptr)
    : ST memory unit :=
  modify (fun m =>
    set_zones (zones m ++ [Zone type paddr num_pages
      ((fun i => Page (junk i) 0) <$> seq 0 (Z.to_nat num_pages))]) m).

(** [for (i = 0; i < num_pages; i++) if (zone->pages[start + i].ref_count != 0)
    return false]: an index past the page array is an out-of-bounds access. *)
Fixpoint is_contiguously_free (pages : list page) (start num_pages : nat) : outcome bool :=
  match num_pages with
  | O => Ok true
  | S n' =>
      match pages !! start with
      | None => Undef
      | Some p =>
          if negb (ref_count p =? 0) then Ok false
          else is_contiguously_free pages (S start) n'
      end
  end.

(** The allocation loop over the pages found free. *)
Fixpoint alloc_pages_loop (zi start n : nat) (ow : option tptr) : ST memory unit :=
  match n with
  | O => mret tt
  | S n' =>
      _ ← getopt (lookup_page (zi, start));
      modify (update_page (zi, start) (Page ow 1)) ;;
      match ow with
      | Some t => modify (push_page t (zi, start))
      | None => mret tt
      end ;;
      alloc_pages_loop zi (S start) n' ow
  end.

(** The scan of one zone: [left] positions from [start] remain. *)
Fixpoint scan_zone (zi : nat) (z : zone) (start left num_pages : nat) (aligned_size flags : Z)
    (ow : option tptr) : ST memory (option Z) :=
  match left with
  | O => mret None
  | S left' =>
      let paddr := u32 (z_base z + Z.of_nat start * PAGE_SIZE) in
      if has flags PM_ALLOC_ALIGNED && negb (IS_ALIGNED paddr aligned_size)
      then scan_zone zi z (S start) left' num_pages aligned_size flags ow
      else
        match is_contiguously_free (z_pages z) start num_pages with
        | Undef => undef
        | Panic => panic
        | Ok false => scan_zone zi z (S start) left' num_pages aligned_size flags ow
        | Ok true =>
            alloc_pages_loop zi start num_pages ow ;;
            (if has flags PM_ALLOC_ZEROED
             then modify (pm_zero paddr (PAGE_SIZE * Z.of_nat num_pages)) else mret tt) ;;
            mret (Some paddr)
        end
  end.

Fixpoint scan_zones (zi : nat) (zs : list zone) (num_pages : nat) (aligned_size flags : Z)
    (ow : option tptr) : ST memory Z :=
  match zs with
  | [] => mret 0
  | z :: zs' =>
      if bool_decide (z_type z <> MEMORY_ZONE_FREE)
      then scan_zones (S zi) zs' num_pages aligned_size flags ow
      else
        r ← scan_zone zi z 0 (Z.to_nat (z_num_pages z)) num_pages aligned_size flags ow;
        match r with
        | Some paddr => mret paddr
        | None => scan_zones (S zi) zs' num_pages aligned_size flags ow
        end
  end.

Definition pm_alloc (size : Z) (ow : option tptr) (flags : Z) : ST memory Z :=
  let aligned_size := ALIGN_UP size PAGE_SIZE in
  let num_pages := aligned_size / PAGE_SIZE in
  zs ← gets zones;
  scan_zones 0 zs (Z.to_nat num_pages) aligned_size flags ow.

Definition free_page (r : pageref) : ST memory unit :=
  p ← getopt (lookup_page r);
  assert (0 <? ref_count p) ;;
  let rc := u32 (ref_count p - 1) in
  modify (update_page r (Page (owner p) rc)) ;;
  if rc =? 0 then modify (unlink_page r) else mret tt.

Definition pm_own_page (paddr : Z) (t : tptr) : ST memory unit :=
  f ← find_page_by_paddr paddr;
  match f with
  | None => panic
  | Some (r, _) =>
      p ← getopt (lookup_page r);
      assert (bool_decide (owner p = None)) ;;
      assert (ref_count p =? 1) ;;
      l ← gets (page_is_linked r);
      assert (negb l) ;;
      modify (update_page r (Page (Some t) (ref_count p))) ;;
      modify (push_page t r)
  end.

(** [for (offset = 0; offset < size; offset += PAGE_SIZE)]; [size] is a multiple of
    the page size, so the loop runs [size / PAGE_SIZE] times. *)
Fixpoint pm_free_loop (n : nat) (paddr : Z) : ST memory unit :=
  match n with
  | O => mret tt
  | S n' =>
      f ← find_page_by_paddr paddr;
      match f with
      | None => panic
      | Some (r, _) => free_page r
      end ;;
      pm_free_loop n' (u32 (paddr + PAGE_SIZE))
  end.

Definition pm_free (paddr size : Z) : ST memory unit :=
  assert (IS_ALIGNED size PAGE_SIZE) ;;
  pm_free_loop (Z.to_nat (size / PAGE_SIZE)) paddr.

(** The list is walked with the successor read first: every page of the list at
    the start of the call is freed once. *)
Fixpoint free_pages (rs : list pageref) : ST memory unit :=
  match rs with
  | [] => mret tt
  | r :: rs' => free_page r ;; free_pages rs'
  end.

Definition pm_free_by_list (t : tptr) : ST memory unit :=
  rs ← gets (task_pages t); free_pages rs.

(** Zone layout computed by [memory_init] for a free region. *)
Definition sizeof_struct_page : Z := 16.
Definition sizeof_struct_memory_zone : Z := 20.

Definition memory_init_free (paddr size : Z) (junk : nat -> option tptr) : ST memory unit :=
  let num_pages := ALIGN_DOWN size PAGE_SIZE / (PAGE_SIZE + sizeof_struct_page) in
  let header_size := u32 (sizeof_struct_memory_zone + (num_pages + 1) * sizeof_struct_page) in
  add_zone MEMORY_ZONE_FREE (u32 (paddr + ALIGN_UP header_size PAGE_SIZE)) num_pages junk.

Definition memory_init_device (paddr size : Z) (junk : nat -> option tptr) : ST memory unit :=
  assert (IS_ALIGNED size PAGE_SIZE) ;;
  let num_pages := size / PAGE_SIZE in
  zone_paddr ← pm_alloc (sizeof_struct_page * num_pages) None PM_ALLOC_UNINITIALIZED;
  assert (negb (zone_paddr =? 0)) ;;
  add_zone MEMORY_ZONE_MMIO paddr num_pages junk.

Fixpoint memory_init_loop (f : Z -> Z -> ST memory unit) (es : list (Z * Z)) : ST memory unit :=
  match es with
  | [] => mret tt
  | (paddr, size) :: es' => f paddr size ;; memory_init_loop f es'
  end.

Definition memory_init (frees devices : list (Z * Z)) (junk : nat -> option tptr) : ST memory unit :=
  memory_init_loop (fun p s => memory_init_free p s junk) frees ;;
  memory_init_loop (fun p s => memory_init_device p s junk) devices.

(** ** Lookup and update *)

Lemma is_aligned_page v : IS_ALIGNED v PAGE_SIZE = (v `mod` 4096 =? 0).
Proof. exact (is_aligned_pow2 v 12 ltac:(lia)). Qed.

(** What allocation and freeing never change of a zone. *)
Definition zone_hdr (z : zone) : memory_zone_type * Z * Z * nat :=
  (z_type z, z_base z, z_num_pages z, length (z_pages z)).
Definition shape (m : memory) := zone_hdr <$> zones m.

Lemma lookup_update_page r r' p m :
  lookup_page r' (update_page r p m)
  = if decide (r = r') then (fun _ => p) <$> lookup_page r m else lookup_page r' m.
Proof.
  unfold lookup_page, update_page. destruct r as [i j], r' as [i' j']. simpl.
  rewrite list_lookup_alter. destruct (decide (i = i')) as [<-|Hi].
  - destruct (zones m !! i) as [z|]; simpl.
    + rewrite list_lookup_insert. repeat case_decide; destruct_and?; simplify_eq/=; try done.
      * destruct (lookup_lt_is_Some_2 (z_pages z) j') as [? ->]; [lia|done].
      * rewrite lookup_ge_None_2 by lia. done.
    + by case_decide.
  - rewrite decide_False by congruence. done.
Qed.

Lemma shape_update_page r p m : shape (update_page r p m) = shape m.
Proof.
  unfold shape, update_page. simpl. apply list_eq. intros i.
  rewrite !list_lookup_fmap, list_lookup_alter. case_decide; [subst|done].
  destruct (zones m !! r.1) as [z|]; simpl; [|done].
  unfold zone_hdr. simpl. by rewrite length_insert.
Qed.

Lemma shape_lookup m m' i z :
  shape m = shape m' -> zones m !! i = Some z ->
  exists z', zones m' !! i = Some z' /\ zone_hdr z = zone_hdr z'.
Proof.
  intros Hs Hz. assert (Hi : shape m' !! i = Some (zone_hdr z)).
  { rewrite <- Hs. unfold shape. by rewrite list_lookup_fmap, Hz. }
  unfold shape in Hi. rewrite list_lookup_fmap in Hi.
  destruct (zones m' !! i) as [z'|]; [|done]. exists z'. split; [done|].
  apply (inj Some). by rewrite <- Hi.
Qed.

Lemma find_zone_hdr pa k zs zs' :
  zone_hdr <$> zs = zone_hdr <$> zs' -> find_zone pa k zs = find_zone pa k zs'.
Proof.
  revert k zs'. induction zs as [|z zs IH]; intros k [|z' zs'] H; try done.
  rewrite !fmap_cons in H. injection H as H1 H2 H3 _ H4. simpl.
  by rewrite H1, H2, H3, (IH _ zs').
Qed.

Lemma task_pages_push t t' r m :
  task_pages t' (push_page t r m)
  = if decide (t = t') then task_pages t m ++ [r] else task_pages t' m.
Proof. unfold task_pages, push_page. simpl. rewrite lookup_insert. by case_decide. Qed.

Lemma task_pages_unlink t r m :
  task_pages t (unlink_page r m) = filter (fun x => x <> r) (task_pages t m).
Proof. unfold task_pages, unlink_page. simpl. rewrite lookup_fmap. by destruct (owned m !! t). Qed.

(** ** Well-formed memory *)

(** A zone lies in the address space above address 0, on page boundaries, and has
    one [struct page] per page. *)
Definition zone_ok (z : zone) : Prop :=
  0 < z_base z /\ z_base z `mod` PAGE_SIZE = 0 /\ 0 <= z_num_pages z
  /\ z_base z + z_num_pages z * PAGE_SIZE < 2 ^ 32
  /\ length (z_pages z) = Z.to_nat (z_num_pages z).

Definition zones_disjoint (z z' : zone) : Prop :=
  z_base z + z_num_pages z * PAGE_SIZE <= z_base z'
  \/ z_base z' + z_num_pages z' * PAGE_SIZE <= z_base z.

(** The page lists: a listed page is in use, and listed once, by one task. *)
Record mem_wf (m : memory) : Prop := {
  wf_zone : forall i z, zones m !! i = Some z -> zone_ok z;
  wf_disj : forall i j z z', i <> j ->
    zones m !! i = Some z -> zones m !! j = Some z' -> zones_disjoint z z';
  wf_ref : forall r p, lookup_page r m = Some p -> 0 <= ref_count p < 2 ^ 32;
  wf_linked : forall t r, r ∈ task_pages t m ->
    exists p, lookup_page r m = Some p /\ 0 < ref_count p;
  wf_nodup : forall t, NoDup (task_pages t m);
  wf_uniq : forall t t' r, r ∈ task_pages t m -> r ∈ task_pages t' m -> t = t';
}.

(** Transfer of the zone part along an equal shape. *)
Lemma wf_shape m m' :
  shape m = shape m' -> (forall i z, zones m !! i = Some z -> zone_ok z) ->
  (forall i j z z', i <> j -> zones m !! i = Some z -> zones m !! j = Some z' -> zones_disjoint z z') ->
  (forall i z, zones m' !! i = Some z -> zone_ok z)
  /\ (forall i j z z', i <> j -> zones m' !! i = Some z -> zones m' !! j = Some z' ->
      zones_disjoint z z').
Proof.
  intros Hs Hz Hd. symmetry in Hs. split.
  - intros i z Hi. destruct (shape_lookup _ _ _ _ Hs Hi) as (z' & Hz' & [= H1 H2 H3 H4]).
    specialize (Hz _ _ Hz'). unfold zone_ok in *. by rewrite H2, H3, H4.
  - intros i j z1 z2 Hne Hi Hj.
    destruct (shape_lookup _ _ _ _ Hs Hi) as (z1' & Hz1' & [= _ H2 H3 _]).
    destruct (shape_lookup _ _ _ _ Hs Hj) as (z2' & Hz2' & [= _ K2 K3 _]).
    specialize (Hd _ _ _ _ Hne Hz1' Hz2'). unfold zones_disjoint in *.
    by rewrite H2, H3, K2, K3.
Qed.

(** Address of a page. *)
Definition page_paddr (r : pageref) (m : memory) : option Z :=
  z ← zones m !! r.1; Some (z_base z + Z.of_nat r.2 * PAGE_SIZE).

Lemma page_in_zone m r p :
  mem_wf m -> lookup_page r m = Some p ->
  exists z, zones m !! r.1 = Some z /\ z_pages z !! r.2 = Some p /\ zone_ok z
       /\ Z.of_nat r.2 < z_num_pages z.
Proof.
  intros Hwf Hp. unfold lookup_page in Hp.
  destruct (zones m !! r.1) as [z|] eqn:Hz; simplify_eq/=. exists z.
  pose proof (wf_zone _ Hwf _ _ Hz) as Hok. split_and!; [done..|].
  apply lookup_lt_Some in Hp. unfold zone_ok in Hok. lia.
Qed.

Lemma find_zone_at zs k i z pa :
  zs !! i = Some z ->
  z_base z <= pa < u32 (z_base z + u32 (z_num_pages z * PAGE_SIZE)) ->
  (forall j z', (j < i)%nat -> zs !! j = Some z' ->
     ~ (z_base z' <= pa < u32 (z_base z' + u32 (z_num_pages z' * PAGE_SIZE)))) ->
  find_zone pa k zs = Some ((k + i, Z.to_nat ((pa - z_base z) / PAGE_SIZE))%nat, z_type z).
Proof.
  revert k i. induction zs as [|z0 zs IH]; intros k i Hi Hin Hbefore; [done|].
  destruct i as [|i]; simplify_eq/=.
  - replace ((z_base z <=? pa) && (pa <? _)) with true by lia. by rewrite Nat.add_0_r.
  - pose proof (Hbefore 0%nat z0 ltac:(lia) eq_refl).
    replace ((z_base z0 <=? pa) && (pa <? _)) with false by lia.
    rewrite (IH (S k) i Hi Hin).
    + by replace (k + S i)%nat with (S k + i)%nat by lia.
    + intros j z' Hj. apply (Hbefore (S j)). lia.
Qed.

(** In a well-formed memory the pages are found by their addresses. *)
Lemma find_page_at m r p pa :
  mem_wf m -> lookup_page r m = Some p -> page_paddr r m = Some pa ->
  exists ty, find_page_by_paddr pa m = Ok (Some (r, ty), m)
        /\ (exists z, zones m !! r.1 = Some z /\ z_type z = ty) /\ 0 < pa < 2 ^ 32.
Proof.
  intros Hwf Hp Hpa. destruct (page_in_zone _ _ _ Hwf Hp) as (z & Hz & Hj & Hok & Hlt).
  unfold page_paddr in Hpa. rewrite Hz in Hpa. simplify_eq/=.
  destruct Hok as (Hb & Hal & Hn & Htop & Hlen).
  unfold PAGE_SIZE in *. exists (z_type z). split_and!; [|naive_solver|lia..].
  unfold find_page_by_paddr. replace (IS_ALIGNED _ _) with true.
  2: { rewrite is_aligned_page. lia. }
  run. erewrite (find_zone_at _ 0 r.1 z).
  - destruct r as [i j]. simpl. do 4 f_equal. unfold PAGE_SIZE. f_equal. lia.
  - done.
  - unfold u32, PAGE_SIZE. lia.
  - intros k z' Hk Hz'. pose proof (wf_zone _ Hwf _ _ Hz') as (?&?&?&?&?).
    pose proof (wf_disj _ Hwf k r.1 z' z ltac:(lia) Hz' Hz) as Hd.
    unfold zones_disjoint, u32, PAGE_SIZE in *. lia.
Qed.

(** ** Allocation *)

Lemma is_contiguously_free_true pages start n :
  is_contiguously_free pages start n = Ok true <->
  forall i, (i < n)%nat -> exists p, pages !! (start + i)%nat = Some p /\ ref_count p = 0.
Proof.
  revert start. induction n as [|n IH]; intros start; simpl; [split; [lia|done]|].
  split.
  - intros H. destruct (pages !! start) as [p|] eqn:E; [|done].
    destruct (Z.eqb_spec (ref_count p) 0) as [H0|]; [|done]. simpl in H.
    intros [|i] Hi; [rewrite Nat.add_0_r; eauto|].
    destruct (proj1 (IH _) H i) as (q & Hq & ?); [lia|]. exists q.
    by replace (start + S i)%nat with (S start + i)%nat by lia.
  - intros H. destruct (H 0%nat) as (p & Hp & H0); [lia|]. rewrite Nat.add_0_r in Hp.
    rewrite Hp, H0. simpl. apply IH. intros i Hi.
    destruct (H (S i)) as (q & Hq & ?); [lia|]. exists q.
    by replace (S start + i)%nat with (start + S i)%nat by lia.
Qed.

(** Membership in the run of pages [start .. start + n - 1] of zone [zi]. *)
Definition in_run (zi start n : nat) (r : pageref) : Prop :=
  r.1 = zi /\ (start <= r.2 < start + n)%nat.
#[export] Instance in_run_dec zi start n r : Decision (in_run zi start n r).
Proof. apply _. Defined.
Definition run_refs (zi start n : nat) : list pageref := (fun j => (zi, j)) <$> seq start n.

Lemma elem_of_run_refs zi start n r : r ∈ run_refs zi start n <-> in_run zi start n r.
Proof.
  unfold run_refs, in_run. rewrite list_elem_of_fmap. destruct r as [i j]. simpl.
  split; [intros (k & [= -> ->] & Hk%elem_of_seq); lia|].
  intros [-> ?]. exists j. split; [done|]. apply elem_of_seq. lia.
Qed.

(** What allocating a run does to the memory. *)
Record allocated (zi start n : nat) (ow : option tptr) (m m' : memory) : Prop := {
  al_shape : shape m' = shape m;
  al_page : forall r, lookup_page r m'
    = if decide (in_run zi start n r) then Some (Page ow 1) else lookup_page r m;
  al_list : forall t, task_pages t m'
    = if decide (ow = Some t) then task_pages t m ++ run_refs zi start n else task_pages t m;
}.

Lemma alloc_pages_loop_spec zi n start ow m :
  (forall i, (i < n)%nat -> is_Some (lookup_page (zi, start + i)%nat m)) ->
  exists m', alloc_pages_loop zi start n ow m = Ok (tt, m') /\ pmem m' = pmem m
        /\ allocated zi start n ow m m'.
Proof.
  revert start m. induction n as [|n IH]; intros start m Hp.
  - exists m. split_and!; [done..|]. split; [done| |].
    + intros r. rewrite decide_False; [done|]. unfold in_run. lia.
    + intros t. case_decide; [|done]. unfold run_refs. simpl. by rewrite app_nil_r.
  - destruct (Hp 0%nat) as [p Hp0]; [lia|]. rewrite Nat.add_0_r in Hp0.
    set (m1 := match ow with
               | Some t => push_page t (zi, start) (update_page (zi, start) (Page ow 1) m)
               | None => update_page (zi, start) (Page ow 1) m end).
    assert (Hl1 : forall r, lookup_page r m1
              = if decide ((zi, start) = r) then Some (Page ow 1) else lookup_page r m).
    { intros r. subst m1.
      transitivity (lookup_page r (update_page (zi, start) (Page ow 1) m)); [by destruct ow|].
      rewrite lookup_update_page, Hp0. done. }
    destruct (IH (S start) m1) as (m' & Hrun & Hpm & Hal).
    { intros i Hi. rewrite Hl1, decide_False by (intros [=]; lia).
      replace (S start + i)%nat with (start + S i)%nat by lia. apply Hp. lia. }
    exists m'. split_and!.
    + cbn [alloc_pages_loop]. erewrite ST_bind_run; [|unfold getopt; by rewrite Hp0].
      rewrite <- Hrun. subst m1. destruct ow; reflexivity.
    + rewrite Hpm. subst m1. by destruct ow.
    + destruct Hal as [Hs Hlk Hli]. split.
      * rewrite Hs. subst m1. destruct ow; apply (shape_update_page (zi, start)).
      * intros r. rewrite Hlk, Hl1. destruct r as [i j].
        destruct (decide ((zi, start) = (i, j))) as [[= <- <-]|Hne].
        { rewrite decide_False, decide_True by (unfold in_run; simpl; lia). done. }
        apply decide_ext.
        unfold in_run. simpl. destruct (decide (i = zi)) as [->|]; [|tauto].
        assert (start <> j) by congruence. lia.
      * intros t. rewrite Hli. subst m1. destruct ow as [t0|]; [|done].
        rewrite task_pages_push. unfold run_refs. simpl.
        repeat case_decide; simplify_eq/=; try done. by rewrite <- app_assoc.
Qed.

(** An allocated run of free pages keeps the memory well formed. *)
Lemma allocated_wf zi start n ow m m' :
  mem_wf m -> allocated zi start n ow m m' ->
  (forall i, (i < n)%nat -> exists p, lookup_page (zi, start + i)%nat m = Some p /\ ref_count p = 0) ->
  mem_wf m'.
Proof.
  intros Hwf [Hs Hl Ht] Hfree.
  assert (Hnew : forall t r, r ∈ task_pages t m -> ~ in_run zi start n r).
  { intros t r Hr Hin. destruct (wf_linked _ Hwf _ _ Hr) as (p & Hp & Hpos).
    destruct r as [i j], Hin as [Hi Hj]. simpl in *. subst i.
    destruct (Hfree (j - start)%nat) as (q & Hq & ?); [lia|].
    replace (start + (j - start))%nat with j in Hq by lia. simplify_eq. lia. }
  destruct (wf_shape m m' (eq_sym Hs) (wf_zone _ Hwf) (wf_disj _ Hwf)) as [Hz Hd].
  assert (Hmem : forall t r, r ∈ task_pages t m' ->
            (ow = Some t /\ in_run zi start n r) \/ r ∈ task_pages t m).
  { intros t r. rewrite Ht. case_decide; [|tauto].
    rewrite elem_of_app, elem_of_run_refs. tauto. }
  split; [done|done|..].
  - intros r p. rewrite Hl. case_decide; [intros; simplify_eq/=; lia|]. apply (wf_ref _ Hwf).
  - intros t r Hr. rewrite Hl. case_decide; [eexists; split; [done|]; simpl; lia|].
    destruct (Hmem _ _ Hr) as [[_ ?]|?]; [done|]. by apply (wf_linked _ Hwf t).
  - intros t. rewrite Ht. case_decide; [|apply (wf_nodup _ Hwf)].
    apply NoDup_app. split_and!; [apply (wf_nodup _ Hwf)| |].
    + intros r Hr. rewrite elem_of_run_refs. by apply (Hnew t).
    + apply NoDup_fmap; [intros ??; congruence|apply NoDup_seq].
  - intros t t' r Hr Hr'. destruct (Hmem _ _ Hr) as [[Ho ?]|?], (Hmem _ _ Hr') as [[Ho' ?]|?].
    + congruence.
    + by edestruct Hnew.
    + by edestruct Hnew.
    + by eapply (wf_uniq _ Hwf).
Qed.

(** The run chosen by a successful scan. *)
Definition run_free (zi start n : nat) (m : memory) : Prop :=
  forall i, (i < n)%nat -> exists p, lookup_page (zi, start + i)%nat m = Some p /\ ref_count p = 0.

Lemma pages_lookup m zi z j : zones m !! zi = Some z -> lookup_page (zi, j) m = z_pages z !! j.
Proof. intros H. unfold lookup_page. simpl. by rewrite H. Qed.

Lemma scan_zone_sound zi z left start n asz flags ow m r m' :
  zones m !! zi = Some z ->
  scan_zone zi z start left n asz flags ow m = Ok (r, m') ->
  match r with
  | None => m' = m
  | Some pa => exists s, (start <= s < start + left)%nat /\ run_free zi s n m
      /\ pa = u32 (z_base z + Z.of_nat s * PAGE_SIZE)
      /\ (has flags PM_ALLOC_ALIGNED = true -> IS_ALIGNED pa asz = true)
      /\ allocated zi s n ow m m'
      /\ pmem m' = (if has flags PM_ALLOC_ZEROED
                    then pmem (pm_zero pa (PAGE_SIZE * Z.of_nat n) m) else pmem m)
  end.
Proof.
  intros Hz. revert start. induction left as [|left IH]; intros start H.
  { simpl in H. run. by simplify_eq. }
  assert (Hgo : scan_zone zi z (S start) left n asz flags ow m = Ok (r, m') ->
    match r with
    | None => m' = m
    | Some pa => exists s, (start <= s < start + S left)%nat /\ run_free zi s n m
      /\ pa = u32 (z_base z + Z.of_nat s * PAGE_SIZE)
      /\ (has flags PM_ALLOC_ALIGNED = true -> IS_ALIGNED pa asz = true)
      /\ allocated zi s n ow m m'
      /\ pmem m' = (if has flags PM_ALLOC_ZEROED
                    then pmem (pm_zero pa (PAGE_SIZE * Z.of_nat n) m) else pmem m)
    end).
  { intros H'. specialize (IH _ H'). destruct r; [|done].
    destruct IH as (s & Hs & ?). exists s. split; [lia|done]. }
  clear IH. cbn [scan_zone] in H.
  destruct (has flags PM_ALLOC_ALIGNED && _) eqn:Hal; [by apply Hgo|].
  destruct (is_contiguously_free (z_pages z) start n) as [[|]| |] eqn:Hf; [|by apply Hgo|done..].
  assert (Hrun : run_free zi start n m).
  { intros i Hi. rewrite (pages_lookup _ _ _ _ Hz).
    by apply (proj1 (is_contiguously_free_true _ _ _) Hf). }
  destruct (alloc_pages_loop_spec zi n start ow m) as (m1 & Hloop & Hpm & Hall).
  { intros i Hi. destruct (Hrun i Hi) as (p & ? & ?). eauto. }
  rewrite (ST_bind_run _ _ _ _ _ Hloop) in H.
  assert (Hzero : allocated zi start n ow m (pm_zero (u32 (z_base z + Z.of_nat start * PAGE_SIZE))
                    (PAGE_SIZE * Z.of_nat n) m1)) by (destruct Hall; by split).
  destruct (has flags PM_ALLOC_ZEROED); run; simplify_eq.
  all: exists start; split_and!; [lia|lia|done|done| |done|].
  - intros Ha. rewrite Ha in Hal. simpl in Hal. by apply negb_false_iff in Hal.
  - unfold pm_zero, set_pmem. simpl. by rewrite Hpm.
  - intros Ha. rewrite Ha in Hal. simpl in Hal. by apply negb_false_iff in Hal.
  - done.
Qed.

Lemma scan_zones_sound zs k n asz flags ow m pa m' :
  (forall i, zs !! i = zones m !! (k + i)%nat) ->
  scan_zones k zs n asz flags ow m = Ok (pa, m') ->
  (pa = 0 /\ m' = m) \/
  exists zi z s, zones m !! zi = Some z /\ z_type z = MEMORY_ZONE_FREE
    /\ (s < Z.to_nat (z_num_pages z))%nat /\ run_free zi s n m
    /\ pa = u32 (z_base z + Z.of_nat s * PAGE_SIZE)
    /\ (has flags PM_ALLOC_ALIGNED = true -> IS_ALIGNED pa asz = true)
    /\ allocated zi s n ow m m'
    /\ pmem m' = (if has flags PM_ALLOC_ZEROED
                  then pmem (pm_zero pa (PAGE_SIZE * Z.of_nat n) m) else pmem m).
Proof.
  revert k. induction zs as [|z zs IH]; intros k Hzs H.
  { simpl in H. run. simplify_eq. by left. }
  assert (Hrest : forall i, zs !! i = zones m !! (S k + i)%nat).
  { intros i. replace (S k + i)%nat with (k + S i)%nat by lia. by rewrite <- Hzs. }
  pose proof (eq_sym (Hzs 0%nat)) as Hz. rewrite Nat.add_0_r in Hz. simpl in Hz.
  cbn [scan_zones] in H. case_bool_decide as Hty; [by apply (IH (S k))|].
  destruct (decide (z_type z = MEMORY_ZONE_FREE)) as [Hf|]; [clear Hty|by destruct Hty].
  apply ST_bind_ok in H as (r & m1 & Hscan & H).
  pose proof (scan_zone_sound _ _ _ _ _ _ _ _ _ _ _ Hz Hscan) as Hr.
  destruct r as [pa'|]; [|subst m1; by apply (IH (S k))].
  run. simplify_eq. destruct Hr as (s & Hs & Hrest'). right. exists k, z, s.
  split; [done|]. split; [done|]. split; [lia|done].
Qed.

(** Number of pages [pm_alloc] takes for a request. *)
Lemma num_pages_spec size :
  0 <= size <= 2 ^ 32 - PAGE_SIZE ->
  ALIGN_UP size PAGE_SIZE = (size + 4095) / 4096 * 4096
  /\ ALIGN_UP size PAGE_SIZE / PAGE_SIZE = (size + 4095) / 4096.
Proof.
  intros Hs. assert (H : ALIGN_UP size PAGE_SIZE = (size + 4095) / 4096 * 4096).
  { unfold PAGE_SIZE in *. change 4096 with (2 ^ 12) at 1. rewrite align_up_pow2 by lia. lia. }
  rewrite H. unfold PAGE_SIZE. split; [done|]. lia.
Qed.

Lemma in_run_bound zi s n m z :
  zone_ok z -> zones m !! zi = Some z -> (0 < n)%nat -> run_free zi s n m ->
  Z.of_nat (s + n) <= z_num_pages z.
Proof.
  intros Hok Hz Hn Hrun. destruct (Hrun (n - 1)%nat) as (p & Hp & _); [lia|].
  rewrite (pages_lookup _ _ _ _ Hz) in Hp. apply lookup_lt_Some in Hp.
  destruct Hok as (_ & _ & ? & _ & Hl). lia.
Qed.

Lemma pmem_pm_zero a lo len m :
  lo <= a < lo + len -> pm_load a (pm_zero lo len m) = 0.
Proof.
  intros Ha. unfold pm_load, pm_zero, set_pmem. simpl.
  rewrite (map_lookup_filter_None_2); [done|]. right. intros v _ H. simpl in H. lia.
Qed.

(** C12: [pm_alloc] hands out memory nobody uses.  A non-zero result is the address
    of a run of pages of one RAM zone that were all free; afterwards exactly those
    pages have reference count 1 and the requested owner, they are appended to the
    owner's page list, every other page and list is unchanged, the run is aligned
    to its size under PM_ALLOC_ALIGNED and reads as zero under PM_ALLOC_ZEROED, and
    the memory stays well formed.  A zero result changes nothing. *)
Theorem pm_alloc_sound size ow flags m pa m' :
  mem_wf m -> 0 < size <= 2 ^ 32 - PAGE_SIZE ->
  pm_alloc size ow flags m = Ok (pa, m') ->
  let n := Z.to_nat ((size + 4095) / 4096) in
  (pa = 0 /\ m' = m) \/
  exists zi z s, zones m !! zi = Some z /\ z_type z = MEMORY_ZONE_FREE
    /\ page_paddr (zi, s) m = Some pa /\ pa <> 0 /\ Z.of_nat (s + n) <= z_num_pages z
    /\ run_free zi s n m /\ allocated zi s n ow m m' /\ mem_wf m'
    /\ (has flags PM_ALLOC_ALIGNED = true -> IS_ALIGNED pa (Z.of_nat n * PAGE_SIZE) = true)
    /\ (has flags PM_ALLOC_ZEROED = true ->
        forall a, pa <= a < pa + Z.of_nat n * PAGE_SIZE -> pm_load a m' = 0).
Proof.
  intros Hwf Hsz H n. unfold pm_alloc in H. run.
  destruct (num_pages_spec size) as [Ha Hn]; [lia|]. rewrite Hn in H. fold n in H.
  apply scan_zones_sound in H; [|done].
  destruct H as [?|(zi & z & s & Hz & Hty & Hs & Hrun & Hpa & Hal & Hall & Hpm)]; [by left|].
  right. exists zi, z, s. pose proof (wf_zone _ Hwf _ _ Hz) as Hok.
  assert (Hn0 : (0 < n)%nat) by (subst n; lia).
  pose proof (in_run_bound _ _ _ _ _ Hok Hz Hn0 Hrun) as Hb.
  destruct Hok as (H1 & H2 & H3 & H4 & H5).
  assert (Hpa' : pa = z_base z + Z.of_nat s * PAGE_SIZE).
  { rewrite Hpa. apply u32_small. unfold PAGE_SIZE in *. lia. }
  split_and!; [done|done| |unfold PAGE_SIZE in *; lia|done|done|done| | |].
  - unfold page_paddr. simpl. rewrite Hz. simpl. by rewrite Hpa'.
  - by eapply allocated_wf.
  - intros Hf. rewrite <- (Hal Hf), Ha. do 2 f_equal. subst n. unfold PAGE_SIZE. lia.
  - intros Hf a Ha'. rewrite Hf in Hpm. unfold pm_load. rewrite Hpm.
    apply (pmem_pm_zero a pa (PAGE_SIZE * Z.of_nat n) m). lia.
Qed.

(** ** Single pages never fail while one is free *)

Lemma scan_zone_one zi z asz flags ow m left start :
  zones m !! zi = Some z -> zone_ok z -> asz = PAGE_SIZE ->
  (start + left <= length (z_pages z))%nat ->
  exists r m', scan_zone zi z start left 1 asz flags ow m = Ok (r, m')
    /\ (r = None -> forall j p, (start <= j < start + left)%nat -> z_pages z !! j = Some p ->
        ref_count p <> 0).
Proof.
  intros Hz Hok ->. revert start. induction left as [|left IH]; intros start Hle.
  { exists None, m. split; [done|]. intros _ j p Hj. lia. }
  destruct (lookup_lt_is_Some_2 (z_pages z) start) as [p Hp]; [lia|].
  assert (Hal : IS_ALIGNED (u32 (z_base z + Z.of_nat start * PAGE_SIZE)) PAGE_SIZE = true).
  { rewrite is_aligned_page.
    destruct Hok as (?&?&?&?&?). unfold PAGE_SIZE in *. rewrite u32_small by lia. lia. }
  cbn [scan_zone]. rewrite Hal, andb_false_r. cbn [is_contiguously_free]. rewrite Hp.
  destruct (Z.eqb_spec (ref_count p) 0) as [H0|H0]; cbn [negb].
  - destruct (alloc_pages_loop_spec zi 1 start ow m) as (m1 & Hloop & _).
    { intros i Hi. replace (start + i)%nat with start by lia.
      rewrite (pages_lookup _ _ _ _ Hz). eauto. }
    rewrite (ST_bind_run _ _ _ _ _ Hloop).
    destruct (has flags PM_ALLOC_ZEROED); run; do 2 eexists; (split; [done|done]).
  - destruct (IH (S start)) as (r & m' & Hrun & Hr); [lia|]. exists r, m'.
    split; [done|]. intros Hn j q Hj Hq. destruct (decide (j = start)) as [->|].
    + by simplify_eq.
    + apply (Hr Hn j); [lia|done].
Qed.

Lemma scan_zones_one zs k flags ow m :
  (forall i, zs !! i = zones m !! (k + i)%nat) ->
  (forall i z, zones m !! i = Some z -> zone_ok z) ->
  exists pa m', scan_zones k zs 1 PAGE_SIZE flags ow m = Ok (pa, m')
    /\ (pa = 0 -> forall i z p j, zs !! i = Some z -> z_type z = MEMORY_ZONE_FREE ->
        z_pages z !! j = Some p -> ref_count p <> 0).
Proof.
  intros Hzs Hok. revert k Hzs. induction zs as [|z zs IH]; intros k Hzs.
  { exists 0, m. by split. }
  destruct (IH (S k)) as (pa & m' & Hrun & Hpa).
  { intros i. replace (S k + i)%nat with (k + S i)%nat by lia. by rewrite <- Hzs. }
  pose proof (eq_sym (Hzs 0%nat)) as Hz. rewrite Nat.add_0_r in Hz. simpl in Hz.
  cbn [scan_zones]. case_bool_decide as Hty.
  { exists pa, m'. split; [done|]. intros H0 [|i] z' p j Hi; simplify_eq/=; [done|]. by apply (Hpa eq_refl i). }
  pose proof (Hok _ _ Hz) as Hzok.
  assert (Hlen : length (z_pages z) = Z.to_nat (z_num_pages z)) by apply Hzok.
  destruct (scan_zone_one k z PAGE_SIZE flags ow m (Z.to_nat (z_num_pages z)) 0)
    as (r & m1 & Hscan & Hr); [done|done|done|lia|].
  rewrite (ST_bind_run _ _ _ _ _ Hscan). destruct r as [pa'|].
  - exists pa', m1. split; [done|]. intros ->. exfalso.
    pose proof (scan_zone_sound _ _ _ _ _ _ _ _ _ _ _ Hz Hscan) as (s & Hs & Hf & H0 & _).
    destruct Hzok as (?&?&?&?&?). unfold PAGE_SIZE in *.
    rewrite u32_small in H0; lia.
  - pose proof (scan_zone_sound _ _ _ _ _ _ _ _ _ _ _ Hz Hscan) as ->.
    exists pa, m'. split; [done|]. intros H0 [|i] z' p j Hi Hf Hp; simplify_eq/=.
    + apply (Hr eq_refl j); [|done]. apply lookup_lt_Some in Hp. lia.
    + by apply (Hpa eq_refl i z' p j).
Qed.

(** One page, as the page-table code asks for it. *)
Lemma pm_alloc_page_spec ow flags m :
  mem_wf m ->
  exists pa m', pm_alloc PAGE_SIZE ow flags m = Ok (pa, m') /\ mem_wf m' /\
    ((pa = 0 /\ m' = m) \/
     exists r p z, lookup_page r m = Some p /\ ref_count p = 0 /\ page_paddr r m = Some pa
       /\ zones m !! r.1 = Some z /\ z_type z = MEMORY_ZONE_FREE
       /\ allocated r.1 r.2 1 ow m m'
       /\ pmem m' = (if has flags PM_ALLOC_ZEROED then pmem (pm_zero pa PAGE_SIZE m) else pmem m)).
Proof.
  intros Hwf.
  destruct (scan_zones_one (zones m) 0 flags ow m) as (pa & m' & Hrun & _);
    [done|apply (wf_zone _ Hwf)|].
  exists pa, m'. split; [exact Hrun|].
  apply scan_zones_sound in Hrun; [|done].
  destruct Hrun as [[-> ->]|(zi & z & s & Hz & Hty & Hs & Hf & Hpa & _ & Hall & Hpm)]; [by split; [|left]|].
  split; [by eapply allocated_wf|]. right. destruct (Hf 0%nat) as (p & Hp & H0); [lia|].
  rewrite Nat.add_0_r in Hp. exists (zi, s), p, z. split_and!; [done|done| |done..].
  unfold page_paddr. simpl. rewrite Hz. simpl. f_equal. rewrite Hpa. symmetry. apply u32_small.
  pose proof (wf_zone _ Hwf _ _ Hz) as (?&?&?&?&?). unfold PAGE_SIZE in *. lia.
Qed.

(** A request of at most one page always returns, and it returns 0 only when no
    RAM page is free. *)
Theorem pm_alloc_page_complete size ow flags m :
  mem_wf m -> 0 < size <= PAGE_SIZE ->
  exists pa m', pm_alloc size ow flags m = Ok (pa, m')
    /\ (pa = 0 -> forall r z p, zones m !! r.1 = Some z -> z_type z = MEMORY_ZONE_FREE ->
        lookup_page r m = Some p -> ref_count p <> 0).
Proof.
  intros Hwf Hsz. unfold PAGE_SIZE in Hsz.
  destruct (num_pages_spec size) as [Ha Hn]; [unfold PAGE_SIZE; lia|].
  destruct (scan_zones_one (zones m) 0 flags ow m) as (pa & m' & Hrun & H0);
    [done|apply (wf_zone _ Hwf)|].
  exists pa, m'. unfold pm_alloc. run. rewrite Hn, Ha.
  replace ((size + 4095) / 4096) with 1 by lia. change (1 * 4096) with PAGE_SIZE.
  split; [done|]. intros Hpa [i j] z p Hz Hty Hp. simpl in *.
  rewrite (pages_lookup _ _ _ _ Hz) in Hp. by apply (H0 Hpa i z p j).
Qed.

(** ** Overrun of the search *)

Lemma is_contiguously_free_past pages n start :
  (forall i p, pages !! i = Some p -> ref_count p = 0) ->
  (start <= length pages)%nat -> (length pages < start + n)%nat ->
  is_contiguously_free pages start n = Undef.
Proof.
  intros Hf. revert start. induction n as [|n IH]; intros start H1 H2; [lia|]. simpl.
  destruct (pages !! start) as [p|] eqn:E; [|done].
  rewrite (Hf _ _ E). simpl. apply IH; apply lookup_lt_Some in E; lia.
Qed.

(** The search of a zone has no upper bound on the run: with every page of the
    first RAM zone free, a request larger than the zone makes [pm_alloc] read
    [zone->pages] past its end instead of failing or trying the next zone. *)
Theorem pm_alloc_overrun z zs ow flags m size :
  zones m = z :: zs -> z_type z = MEMORY_ZONE_FREE -> zone_ok z -> 0 < z_num_pages z ->
  (forall i p, z_pages z !! i = Some p -> ref_count p = 0) ->
  has flags PM_ALLOC_ALIGNED = false ->
  z_num_pages z * PAGE_SIZE < size <= 2 ^ 32 - PAGE_SIZE ->
  pm_alloc size ow flags m = Undef.
Proof.
  intros Hz Hty Hok Hpos Hfree Hfl Hsz. destruct Hok as (_ & _ & _ & _ & Hlen).
  unfold PAGE_SIZE in Hsz.
  destruct (num_pages_spec size) as [_ Hn]; [unfold PAGE_SIZE; lia|].
  unfold pm_alloc. run. rewrite Hn, Hz. cbn [scan_zones].
  rewrite bool_decide_false by naive_solver.
  destruct (Z.to_nat (z_num_pages z)) as [|k] eqn:Hk; [lia|].
  unfold mbind, ST_bind. cbn [scan_zone]. rewrite Hfl. simpl andb. cbv iota.
  rewrite (is_contiguously_free_past _ _ 0) by first [done|lia]. done.
Qed.

(** ** Freeing *)

Definition page_dec (p : page) : page := Page (owner p) (ref_count p - 1).

Lemma free_page_spec r p m :
  lookup_page r m = Some p -> 0 < ref_count p < 2 ^ 32 ->
  exists m', free_page r m = Ok (tt, m') /\ shape m' = shape m /\ pmem m' = pmem m
    /\ (forall r', lookup_page r' m' = if decide (r = r') then Some (page_dec p) else lookup_page r' m)
    /\ (forall t, task_pages t m' = if ref_count p =? 1 then filter (fun x => x <> r) (task_pages t m)
                                    else task_pages t m).
Proof.
  intros Hp Href. set (m1 := update_page r (page_dec p) m).
  exists (if ref_count p =? 1 then unlink_page r m1 else m1).
  assert (Hl : forall r', lookup_page r' m1 = if decide (r = r') then Some (page_dec p) else lookup_page r' m).
  { intros r'. subst m1. by rewrite lookup_update_page, Hp. }
  split_and!.
  - unfold free_page. erewrite ST_bind_run; [|unfold getopt; by rewrite Hp].
    replace (0 <? ref_count p) with true by lia. run. rewrite u32_small by lia.
    replace (ref_count p - 1 =? 0) with (ref_count p =? 1) by lia.
    by destruct (ref_count p =? 1).
  - subst m1. destruct (ref_count p =? 1); apply (shape_update_page r).
  - subst m1. by destruct (ref_count p =? 1).
  - intros r'. destruct (ref_count p =? 1); apply Hl.
  - intros t. destruct (ref_count p =? 1); [|done]. by rewrite task_pages_unlink.
Qed.

(** The same facts when the memory is well formed, with its preservation. *)
Lemma free_page_wf r p m m' :
  mem_wf m -> lookup_page r m = Some p -> 0 < ref_count p ->
  free_page r m = Ok (tt, m') -> mem_wf m'.
Proof.
  intros Hwf Hp Hpos Hrun.
  destruct (free_page_spec r p m Hp) as (m1 & Hrun' & Hs & _ & Hl & Ht).
  { split; [done|]. apply (wf_ref _ Hwf _ _ Hp). }
  rewrite Hrun in Hrun'. simplify_eq.
  destruct (wf_shape m m1 (eq_sym Hs) (wf_zone _ Hwf) (wf_disj _ Hwf)) as [Hz Hd].
  assert (Hsub : forall t x, x ∈ task_pages t m1 ->
            x ∈ task_pages t m /\ (x = r -> ref_count p <> 1)).
  { intros t x. rewrite Ht. destruct (Z.eqb_spec (ref_count p) 1); [|done].
    rewrite list_elem_of_filter. naive_solver. }
  split; [done|done|..].
  - intros x q. rewrite Hl. case_decide; [|apply (wf_ref _ Hwf)].
    intros [= <-]. simpl. pose proof (wf_ref _ Hwf _ _ Hp). lia.
  - intros t x Hx. apply Hsub in Hx as [Hx Hne]. rewrite Hl. case_decide.
    + subst x. eexists. split; [done|]. simpl. specialize (Hne eq_refl). lia.
    + by apply (wf_linked _ Hwf t).
  - intros t. rewrite Ht. destruct (ref_count p =? 1); [apply NoDup_filter|]; apply (wf_nodup _ Hwf).
  - intros t t' x Hx Hx'. apply Hsub in Hx as [? _]. apply Hsub in Hx' as [? _].
    by eapply (wf_uniq _ Hwf).
Qed.

Lemma page_paddr_shape r m m' : shape m = shape m' -> page_paddr r m = page_paddr r m'.
Proof.
  intros Hs. unfold page_paddr. destruct (zones m !! r.1) as [z|] eqn:Hz.
  - destruct (shape_lookup _ _ _ _ Hs Hz) as (z' & -> & [= _ H2 _ _]). simpl. by rewrite H2.
  - destruct (zones m' !! r.1) as [z'|] eqn:Hz'; [|done].
    destruct (shape_lookup _ _ _ _ (eq_sym Hs) Hz') as (? & ? & _). congruence.
Qed.

(** Freeing a run whose pages have no other user. *)
Lemma pm_free_loop_spec zi n start pa m :
  mem_wf m ->
  (forall i, (i < n)%nat -> exists p, lookup_page (zi, start + i)%nat m = Some p /\ ref_count p = 1) ->
  page_paddr (zi, start) m = Some pa ->
  exists m', pm_free_loop n pa m = Ok (tt, m') /\ mem_wf m' /\ shape m' = shape m
    /\ (forall r, ref_count <$> lookup_page r m'
        = if decide (in_run zi start n r) then Some 0 else ref_count <$> lookup_page r m)
    /\ (forall t, task_pages t m' = filter (fun x => ~ in_run zi start n x) (task_pages t m)).
Proof.
  revert start pa m. induction n as [|n IH]; intros start pa m Hwf Hp Hpa.
  { exists m. split_and!; [done..| |].
    - intros r. rewrite decide_False; [done|]. unfold in_run. lia.
    - intros t. induction (task_pages t m) as [|x l IHl]; [done|].
      rewrite filter_cons_True; [by f_equal|]. unfold in_run. lia. }
  destruct (Hp 0%nat) as (p & Hp0 & Hr1); [lia|]. rewrite Nat.add_0_r in Hp0.
  destruct (find_page_at _ _ _ _ Hwf Hp0 Hpa) as (ty & Hfind & _ & Hrange).
  destruct (free_page_spec _ _ _ Hp0) as (m1 & Hfree & Hs & _ & Hl & Ht); [lia|].
  pose proof (free_page_wf _ _ _ _ Hwf Hp0 ltac:(lia) Hfree) as Hwf1.
  destruct (page_in_zone _ _ _ Hwf Hp0) as (z & Hz & _ & Hok & Hlt). simpl in Hz, Hlt.
  rewrite Hr1 in Ht. simpl in Ht.
  assert (Hstep : pm_free_loop (S n) pa m = pm_free_loop n (u32 (pa + PAGE_SIZE)) m1).
  { cbn [pm_free_loop]. rewrite (ST_bind_run _ _ _ _ _ Hfind). cbv beta iota.
    by rewrite (ST_bind_run _ _ _ _ _ Hfree). }
  assert (Hrest : forall i, (i < n)%nat ->
            exists q, lookup_page (zi, S start + i)%nat m1 = Some q /\ ref_count q = 1).
  { intros i Hi. rewrite Hl, decide_False by (intros [=]; lia).
    replace (S start + i)%nat with (start + S i)%nat by lia. apply Hp. lia. }
  destruct (IH (S start) (u32 (pa + PAGE_SIZE)) m1) as (m' & Hrun & Hwf' & Hs' & Hl' & Ht');
    [done|done| |].
  { rewrite (page_paddr_shape _ m1 m) by done. unfold page_paddr in *. simpl in *.
    rewrite Hz in *. simplify_eq/=. destruct Hok as (?&?&?&?&?). unfold PAGE_SIZE in *.
    f_equal. rewrite u32_small by lia. lia. }
  exists m'.
  split_and!; [by rewrite Hstep|done|by rewrite Hs'| |].
  - intros r. rewrite Hl', Hl. destruct (decide ((zi, start) = r)) as [<-|Hne].
    + rewrite decide_False by (unfold in_run; simpl; lia).
      rewrite decide_True by done.
      rewrite decide_True by (unfold in_run; simpl; lia). simpl. by rewrite Hr1.
    + rewrite (decide_False (P := (zi, start) = r)) by done.
      apply decide_ext. destruct r as [i j]. unfold in_run. simpl.
      destruct (decide (i = zi)) as [->|]; [|tauto]. assert (start <> j) by congruence. lia.
  - intros t. rewrite Ht', Ht, list_filter_filter. apply list_filter_iff.
    intros [i j]. unfold in_run. simpl. split.
    + intros [Ha Hb] [-> Hj]. destruct (decide (j = start)) as [->|]; [done|]. apply Ha. lia.
    + intros H. split; [lia|]. intros [= -> ->]. lia.
Qed.

(** Freeing what [pm_alloc] returned gives the allocator back the state it had:
    [pm_free] succeeds and every reference count and every task's page list is as
    before the allocation. *)
Theorem pm_alloc_free_roundtrip size ow flags m pa m1 :
  mem_wf m -> 0 < size <= 2 ^ 32 - PAGE_SIZE ->
  pm_alloc size ow flags m = Ok (pa, m1) -> pa <> 0 ->
  exists m2, pm_free pa (ALIGN_UP size PAGE_SIZE) m1 = Ok (tt, m2) /\ mem_wf m2
    /\ shape m2 = shape m
    /\ (forall r, ref_count <$> lookup_page r m2 = ref_count <$> lookup_page r m)
    /\ (forall t, task_pages t m2 = task_pages t m).
Proof.
  intros Hwf Hsz Halloc Hpa. unfold pm_alloc in Halloc. run.
  destruct (num_pages_spec size) as [Ha Hn]; [lia|]. rewrite Hn in Halloc.
  set (n := Z.to_nat ((size + 4095) / 4096)) in *.
  apply scan_zones_sound in Halloc; [|done].
  destruct Halloc as [[? _]|(zi & z & s & Hz & _ & Hs & Hrun & Hpa' & _ & Hall & _)]; [done|].
  pose proof (wf_zone _ Hwf _ _ Hz) as Hok.
  assert (Hn0 : (0 < n)%nat) by (subst n; lia).
  pose proof (in_run_bound _ _ _ _ _ Hok Hz Hn0 Hrun) as Hb.
  destruct Hok as (H1 & H2 & H3 & H4 & H5).
  pose proof (allocated_wf _ _ _ _ _ _ Hwf Hall Hrun) as Hwf1. destruct Hall as [Hsh Hl Ht].
  destruct (pm_free_loop_spec zi n s pa m1) as (m2 & Hfree & Hwf2 & Hs2 & Hl2 & Ht2); [done| | |].
  - intros i Hi. rewrite Hl, decide_True by (unfold in_run; simpl; lia). eauto.
  - rewrite (page_paddr_shape _ m1 m) by done. unfold page_paddr. simpl. rewrite Hz. simpl.
    f_equal. rewrite Hpa'. symmetry. apply u32_small. unfold PAGE_SIZE in *. lia.
  - exists m2. split_and!; [|done|by rewrite Hs2| |].
    + unfold pm_free. rewrite Hn. fold n. rewrite Ha, is_aligned_page, Z.mod_mul by lia. exact Hfree.
    + intros r. rewrite Hl2, Hl. case_decide as Hin; [|done]. destruct r as [i j].
      destruct Hin as [Hi Hj]. simpl in *. subst i. destruct (Hrun (j - s)%nat) as (p & Hp & H0); [lia|].
      replace (s + (j - s))%nat with j in Hp by lia. by rewrite Hp; simpl; rewrite H0.
    + intros t. rewrite Ht2, Ht.
      assert (Hold : filter (fun x => ~ in_run zi s n x) (task_pages t m) = task_pages t m).
      { apply list_filter_all. intros x Hx Hin. destruct x as [i j], Hin as [Hi Hj].
        simpl in *. subst i. destruct (wf_linked _ Hwf _ _ Hx) as (p & Hp & Hpos).
        destruct (Hrun (j - s)%nat) as (q & Hq & H0); [lia|].
        replace (s + (j - s))%nat with j in Hq by lia. simplify_eq. lia. }
      case_decide; [|done]. rewrite filter_app, Hold.
      rewrite list_filter_none; [by rewrite app_nil_r|].
      intros x Hx. rewrite elem_of_run_refs in Hx. tauto.
Qed.

(** ** Witnesses: a zone of four free pages *)
Definition four_pages : memory :=
  Memory [Zone MEMORY_ZONE_FREE 2151677952 4 (replicate 4 (Page None 0))] ∅ ∅.

Lemma four_pages_wf : mem_wf four_pages.
Proof.
  split.
  - intros [|[|i]] z Hz; simplify_eq/=. unfold zone_ok, PAGE_SIZE. simpl. lia.
  - intros [|[|i]] [|[|j]] z z' Hne Hz Hz'; simplify_eq/=.
  - intros [[|[|i]] j] p Hp; unfold lookup_page in Hp; simplify_eq/=.
    apply (list_elem_of_lookup_2 (replicate 4 (Page None 0))) in Hp.
    apply elem_of_replicate in Hp as [-> _]. simpl. lia.
  - intros t r Hr. unfold task_pages in Hr. simpl in Hr. by rewrite lookup_empty in Hr; apply not_elem_of_nil in Hr.
  - intros t. unfold task_pages. simpl. rewrite lookup_empty. apply NoDup_nil_2.
  - intros t t' r Hr. unfold task_pages in Hr. simpl in Hr. by rewrite lookup_empty in Hr; apply not_elem_of_nil in Hr.
Qed.

Definition ok_state {S A} (d : S) (o : outcome (A * S)) : S :=
  match o with Ok (_, s) => s | _ => d end.

Lemma pm_alloc_sound_witness :
  pm_alloc 5000 (Some (Task 0)) PM_ALLOC_ZEROED four_pages
    = Ok (2151677952, ok_state four_pages (pm_alloc 5000 (Some (Task 0)) PM_ALLOC_ZEROED four_pages))
  /\ ((2151677952 = 0 /\ ok_state four_pages (pm_alloc 5000 (Some (Task 0)) PM_ALLOC_ZEROED four_pages) = four_pages) \/
      exists zi z s, zones four_pages !! zi = Some z /\ z_type z = MEMORY_ZONE_FREE
      /\ page_paddr (zi, s) four_pages = Some 2151677952 /\ 2151677952 <> 0
      /\ Z.of_nat (s + 2) <= z_num_pages z /\ run_free zi s 2 four_pages
      /\ allocated zi s 2 (Some (Task 0)) four_pages
           (ok_state four_pages (pm_alloc 5000 (Some (Task 0)) PM_ALLOC_ZEROED four_pages))
      /\ mem_wf (ok_state four_pages (pm_alloc 5000 (Some (Task 0)) PM_ALLOC_ZEROED four_pages))
      /\ (has PM_ALLOC_ZEROED PM_ALLOC_ALIGNED = true ->
          IS_ALIGNED 2151677952 (Z.of_nat 2 * PAGE_SIZE) = true)
      /\ (has PM_ALLOC_ZEROED PM_ALLOC_ZEROED = true ->
          forall a, 2151677952 <= a < 2151677952 + Z.of_nat 2 * PAGE_SIZE ->
          pm_load a (ok_state four_pages (pm_alloc 5000 (Some (Task 0)) PM_ALLOC_ZEROED four_pages)) = 0)).
Proof.
  split; [vm_compute; reflexivity|].
  apply (pm_alloc_sound 5000 (Some (Task 0)) PM_ALLOC_ZEROED four_pages);
    [apply four_pages_wf|unfold PAGE_SIZE; lia|vm_compute; reflexivity].
Defined.

Lemma pm_alloc_page_complete_witness :
  exists pa m', pm_alloc 1 None 0 four_pages = Ok (pa, m')
    /\ (pa = 0 -> forall r z p, zones four_pages !! r.1 = Some z -> z_type z = MEMORY_ZONE_FREE ->
        lookup_page r four_pages = Some p -> ref_count p <> 0).
Proof. apply (pm_alloc_page_complete 1 None 0 four_pages); [apply four_pages_wf|unfold PAGE_SIZE; lia]. Defined.

Lemma pm_alloc_overrun_witness : pm_alloc 20480 None PM_ALLOC_UNINITIALIZED four_pages = Undef.
Proof.
  apply (pm_alloc_overrun (Zone MEMORY_ZONE_FREE 2151677952 4 (replicate 4 (Page None 0))) []);
    [reflexivity|reflexivity| |simpl; lia| |reflexivity|unfold PAGE_SIZE; simpl; lia].
  - apply (wf_zone _ four_pages_wf 0). reflexivity.
  - intros i p Hp. apply list_elem_of_lookup_2 in Hp. apply elem_of_replicate in Hp as [-> _]. reflexivity.
Defined.

Lemma pm_alloc_free_roundtrip_witness :
  exists m2, pm_free 2151677952 (ALIGN_UP 5000 PAGE_SIZE)
      (ok_state four_pages (pm_alloc 5000 (Some (Task 0)) 0 four_pages)) = Ok (tt, m2)
    /\ mem_wf m2 /\ shape m2 = shape four_pages
    /\ (forall r, ref_count <$> lookup_page r m2 = ref_count <$> lookup_page r four_pages)
    /\ (forall t, task_pages t m2 = task_pages t four_pages).
Proof.
  apply (pm_alloc_free_roundtrip 5000 (Some (Task 0)) 0 four_pages);
    [apply four_pages_wf|unfold PAGE_SIZE; lia|vm_compute; reflexivity|lia].
Defined.

(** ** Changing a count, linking a page *)

Lemma page_is_linked_spec r m : page_is_linked r m = true <-> exists t, r ∈ task_pages t m.
Proof.
  unfold page_is_linked. rewrite bool_decide_eq_true, list_elem_of_join. split.
  - intros (l & Hr & Hl). apply list_elem_of_fmap in Hl as ([t l'] & -> & Hl).
    apply elem_of_map_to_list in Hl. exists t. unfold task_pages. by rewrite Hl.
  - intros [t Ht]. unfold task_pages in Ht. destruct (owned m !! t) as [l|] eqn:E; simpl in Ht.
    + exists l. split; [done|]. apply list_elem_of_fmap. exists (t, l). split; [done|].
      by apply elem_of_map_to_list.
    + by apply not_elem_of_nil in Ht.
Qed.

Lemma update_page_wf r p q m :
  mem_wf m -> lookup_page r m = Some p -> 0 < ref_count q < 2 ^ 32 -> mem_wf (update_page r q m).
Proof.
  intros Hwf Hp Hq.
  destruct (wf_shape m (update_page r q m)) as [Hz Hd];
    [by rewrite shape_update_page|apply (wf_zone _ Hwf)|apply (wf_disj _ Hwf)|].
  split; [done|done|..].
  - intros r' p'. rewrite lookup_update_page, Hp. case_decide; [|apply (wf_ref _ Hwf)].
    intros. simplify_eq/=. lia.
  - intros t r' Hr. rewrite lookup_update_page, Hp. case_decide.
    + eexists. split; [done|lia].
    + by apply (wf_linked _ Hwf t).
  - apply (wf_nodup _ Hwf).
  - apply (wf_uniq _ Hwf).
Qed.

Lemma push_page_wf t r p m :
  mem_wf m -> lookup_page r m = Some p -> 0 < ref_count p -> page_is_linked r m = false ->
  mem_wf (push_page t r m).
Proof.
  intros Hwf Hp Hpos Hl.
  assert (Hno : forall t', r ∉ task_pages t' m).
  { intros t' Hr. assert (page_is_linked r m = true) by (apply page_is_linked_spec; eauto). congruence. }
  assert (Hin : forall t' x, x ∈ task_pages t' (push_page t r m) ->
            x ∈ task_pages t' m \/ (x = r /\ t' = t)).
  { intros t' x. rewrite task_pages_push. case_decide; [|tauto].
    rewrite elem_of_app, list_elem_of_singleton. naive_solver. }
  split; [apply (wf_zone _ Hwf)|apply (wf_disj _ Hwf)|apply (wf_ref _ Hwf)|..].
  - intros t' x Hx. change (lookup_page x (push_page t r m)) with (lookup_page x m).
    destruct (Hin _ _ Hx) as [?|[-> ->]]; [by apply (wf_linked _ Hwf t')|eauto].
  - intros t'. rewrite task_pages_push. case_decide; [|apply (wf_nodup _ Hwf)].
    apply NoDup_app. split_and!; [apply (wf_nodup _ Hwf)| |apply NoDup_singleton].
    intros x Hx ->%list_elem_of_singleton. by eapply Hno.
  - intros t1 t2 x H1 H2. destruct (Hin _ _ H1) as [?|[-> ->]], (Hin _ _ H2) as [?|[? ->]].
    + by eapply (wf_uniq _ Hwf).
    + subst. by edestruct Hno.
    + by edestruct Hno.
    + done.
Qed.
