(* ===== verification/Vm.v ===== *)
(** Sv32 page tables (kernel/riscv32/vm.c, vm.h) over the physical memory of
    [Memory], and the mapping policy of kernel/memory.c ([vm_map], [vm_unmap]).

    A page table is a physical page of 1024 32-bit words; a pointer to an entry is
    the physical address of the word.  The TLB and the inter-processor interrupt
    that flushes it have no part in the tables' contents and are left out. *)

From S2P Require Import Prelude Types KData Memory.

(** ** Page table entries (vm.h) *)
Definition PTE_PADDR_MASK : Z := 4294966272 (* 0xfffffc00 *).
Definition PTE_INDEX (level vaddr : Z) : Z := Z.land (Z.shiftr vaddr (12 + level * 10)) 1023.
Definition PTE_PADDR (pte : Z) : Z := u32 (Z.shiftl (Z.shiftr pte 10) 12).
Definition PTE_V : Z := Z.shiftl 1 0.
Definition PTE_R : Z := Z.shiftl 1 1.
Definition PTE_W : Z := Z.shiftl 1 2.
Definition PTE_X : Z := Z.shiftl 1 3.
Definition PTE_U : Z := Z.shiftl 1 4.
Definition SATP_PPN_MASK : Z := 1073741823 (* 0x3fffffff *).
Definition SATP_PPN_SHIFT : Z := 12.

Definition page_attrs_to_pte_flags (attrs : Z) : Z :=
  Z.lor (Z.lor (Z.lor (if has attrs PAGE_READABLE then PTE_R else 0)
                      (if has attrs PAGE_WRITABLE then PTE_W else 0))
               (if has attrs PAGE_EXECUTABLE then PTE_X else 0))
        (if has attrs PAGE_USER then PTE_U else 0).

Definition construct_pte (paddr flags : Z) : ST memory Z :=
  assert (Z.land paddr (Z.lnot PTE_PADDR_MASK) =? 0) ;;
  mret (Z.lor (u32 (Z.shiftl (Z.shiftr paddr 12) 10)) flags).

(** The C result [(error, *pte)]: on success the entry's address. *)
Definition walk (base vaddr : Z) (alloc : bool) : ST memory (Z * Z) :=
  assert (IS_ALIGNED vaddr PAGE_SIZE) ;;
  let l1table := arch_paddr_to_vaddr base in
  let index := PTE_INDEX 1 vaddr in
  let found : ST memory (Z * Z) :=
    e ← gets (pm_load (l1table + 4 * index));
    let l2table := arch_paddr_to_vaddr (PTE_PADDR e) in
    mret (OK, l2table + 4 * PTE_INDEX 0 vaddr) in
  e ← gets (pm_load (l1table + 4 * index));
  if e =? 0 then
    if negb alloc then mret (ERR_NOT_FOUND, 0)
    else
      paddr ← pm_alloc PAGE_SIZE None PM_ALLOC_ZEROED;
      if paddr =? 0 then mret (ERR_NO_MEMORY, 0)
      else
        pte ← construct_pte paddr PTE_V;
        modify (pm_store (l1table + 4 * index) pte) ;;
        found
  else found.

Definition arch_vm_map (table vaddr paddr attrs : Z) : ST memory Z :=
  assert (IS_ALIGNED vaddr PAGE_SIZE) ;;
  assert (IS_ALIGNED paddr PAGE_SIZE) ;;
  w ← walk table vaddr true;
  let '(err, pte) := w in
  if negb (err =? OK) then mret err
  else
    e ← gets (pm_load pte);
    if has e PTE_V then mret ERR_ALREADY_EXISTS
    else
      v ← construct_pte paddr (Z.lor (page_attrs_to_pte_flags attrs) PTE_V);
      modify (pm_store pte v) ;;
      mret OK.

Definition arch_vm_unmap (table vaddr : Z) : ST memory Z :=
  w ← walk table vaddr false;
  let '(err, pte) := w in
  if negb (err =? OK) then mret err
  else
    e ← gets (pm_load pte);
    if negb (has e PTE_V) then mret ERR_NOT_FOUND
    else
      modify (pm_store pte 0) ;;
      pm_free (PTE_PADDR e) PAGE_SIZE ;;
      mret OK.

Definition riscv32_is_mapped (satp vaddr : Z) : ST memory bool :=
  let table := u32 (Z.shiftl (Z.land satp SATP_PPN_MASK) SATP_PPN_SHIFT) in
  w ← walk table (ALIGN_DOWN vaddr PAGE_SIZE) false;
  let '(err, pte) := w in
  if err =? OK then e ← gets (pm_load pte); mret (has e PTE_V)
  else mret false.

(** [memcpy] of one page, word by word. *)
Fixpoint copy_words (n : nat) (dst src : Z) (m : memory) : memory :=
  match n with
  | O => m
  | S n' => copy_words n' (dst + 4) (src + 4) (pm_store dst (pm_load src m) m)
  end.

(** [kernel_table] is [kernel_vm.table]; the result is the error and [vm->table]. *)
Definition arch_vm_init (kernel_table : Z) : ST memory (Z * Z) :=
  table ← pm_alloc PAGE_SIZE None PM_ALLOC_ZEROED;
  if table =? 0 then mret (ERR_NO_MEMORY, table)
  else modify (copy_words 1024 table kernel_table) ;; mret (OK, table).

Definition arch_vm_destroy (table : Z) : ST memory unit :=
  for_range 0 512 (fun i =>
    pte1 ← gets (pm_load (table + 4 * Z.of_nat i));
    if negb (has pte1 PTE_V) then mret tt
    else
      let l2table := PTE_PADDR pte1 in
      for_range 0 512 (fun j =>
        pte2 ← gets (pm_load (l2table + 4 * Z.of_nat j));
        if negb (Z.land pte2 (Z.lor PTE_V PTE_U) =? Z.lor PTE_V PTE_U) then mret tt
        else pm_free (PTE_PADDR pte2) PAGE_SIZE)) ;;
  pm_free table PAGE_SIZE.

(** [left] pages remain from [vaddr], [paddr]. *)
Fixpoint map_pages_loop (table vaddr paddr : Z) (left : nat) (attrs : Z) : ST memory Z :=
  match left with
  | O => mret OK
  | S left' =>
      err ← arch_vm_map table vaddr paddr attrs;
      if negb (err =? OK) then mret err
      else map_pages_loop table (u32 (vaddr + PAGE_SIZE)) (u32 (paddr + PAGE_SIZE)) left' attrs
  end.

Definition map_pages (table vaddr paddr size attrs : Z) : ST memory Z :=
  map_pages_loop table vaddr paddr (Z.to_nat ((size + PAGE_SIZE - 1) / PAGE_SIZE)) attrs.

(** [ASSERT_OK(map_pages(...))] *)
Definition assert_ok (e : ST memory Z) : ST memory unit := err ← e; assert (IS_OK err).

(** The kernel's own table: the addresses are the linker script's symbols. *)
Record kernel_layout := KernelLayout {
  __text : Z; __text_end : Z; __data : Z; __data_end : Z; __ram_start : Z; __free_ram_start : Z;
}.
Definition UART_ADDR : Z := 268435456 (* 0x10000000 *).
Definition PLIC_ADDR : Z := 201326592 (* 0x0c000000 *).
Definition PLIC_SIZE : Z := 4194304 (* 0x400000 *).
Definition CLINT_PADDR : Z := 33554432 (* 0x2000000 *).
Definition CLINT_SIZE : Z := 65536 (* 0x10000 *).
Definition ACLINT_SSWI_PADDR : Z := 49283072 (* 0x2f00000 *).

Definition riscv32_vm_init (ld : kernel_layout) : ST memory Z :=
  table ← pm_alloc PAGE_SIZE None PM_ALLOC_ZEROED;
  assert (negb (table =? 0)) ;;
  assert (IS_ALIGNED (__text ld) PAGE_SIZE) ;;
  assert (IS_ALIGNED (__text_end ld) PAGE_SIZE) ;;
  let free_ram_size := u32 (RAM_SIZE - u32 (__free_ram_start ld - __ram_start ld)) in
  let kernel_text_size := u32 (__text_end ld - __text ld) in
  let kernel_data_size := u32 (__data_end ld - __data ld) in
  let RW := Z.lor PAGE_READABLE PAGE_WRITABLE in
  assert_ok (map_pages table (__text ld) (__text ld) kernel_text_size
               (Z.lor RW PAGE_EXECUTABLE)) ;;
  assert_ok (map_pages table (__data ld) (__data ld) kernel_data_size RW) ;;
  assert_ok (map_pages table (__free_ram_start ld) (__free_ram_start ld) free_ram_size RW) ;;
  assert_ok (map_pages table UART_ADDR UART_ADDR PAGE_SIZE RW) ;;
  assert_ok (map_pages table PLIC_ADDR PLIC_ADDR PLIC_SIZE RW) ;;
  assert_ok (map_pages table CLINT_PADDR CLINT_PADDR CLINT_SIZE RW) ;;
  assert_ok (map_pages table ACLINT_SSWI_PADDR ACLINT_SSWI_PADDR PAGE_SIZE RW) ;;
  mret table.

(** ** Mapping policy (kernel/memory.c)

    [task] is the task whose table [table] is changed and [pager_of] its view of
    [task->pager]; reading the owner's pager through a NULL owner is undefined. *)
Definition vm_map (task : tptr) (pager_of : tptr -> option tptr) (table uaddr paddr attrs : Z)
    : ST memory Z :=
  f ← find_page_by_paddr paddr;
  match f with
  | None => mret ERR_INVALID_PADDR
  | Some (r, zone_type) =>
      page ← getopt (lookup_page r);
      allowed ← match zone_type with
        | MEMORY_ZONE_FREE =>
            if ref_count page =? 0 then mret false
            else if bool_decide (owner page = Some task) then mret true
            else match owner page with
                 | None => undef
                 | Some o => mret (bool_decide (pager_of o = Some task))
                 end
        | MEMORY_ZONE_MMIO => mret (negb (0 <? ref_count page))
        end;
      if negb allowed then mret ERR_INVALID_PADDR
      else
        err ← arch_vm_map table uaddr paddr attrs;
        if negb (err =? OK) then mret err
        else
          match zone_type with
          | MEMORY_ZONE_MMIO =>
              l ← gets (page_is_linked r);
              assert (negb l) ;;
              modify (push_page task r)
          | MEMORY_ZONE_FREE => mret tt
          end ;;
          page ← getopt (lookup_page r);
          modify (update_page r (Page (owner page) (u32 (ref_count page + 1)))) ;;
          mret OK
  end.

Definition vm_unmap (table uaddr : Z) : ST memory Z :=
  if negb (arch_is_mappable_uaddr uaddr) then mret ERR_INVALID_ARG
  else arch_vm_unmap table uaddr.

(** ** Entries *)

Lemma shiftr10_lor a f : 0 <= f < 1024 -> 0 <= a -> Z.shiftr (Z.lor (a * 1024) f) 10 = a.
Proof.
  intros Hf Ha. change 1024 with (2 ^ 10) in *. rewrite lor_mul_pow2 by lia.
  rewrite Z.shiftr_div_pow2 by lia. lia.
Qed.

Lemma pte_flags_range attrs : 0 <= page_attrs_to_pte_flags attrs < 32.
Proof.
  unfold page_attrs_to_pte_flags, PTE_R, PTE_W, PTE_X, PTE_U.
  repeat case_match; vm_compute; split; congruence.
Qed.

Lemma construct_pte_ok paddr flags m :
  0 <= paddr < 2 ^ 32 -> paddr `mod` 4096 = 0 ->
  construct_pte paddr flags m = Ok (Z.lor (paddr / 4096 * 1024) flags, m).
Proof.
  intros Hr Hal. unfold construct_pte.
  replace (Z.land paddr (Z.lnot PTE_PADDR_MASK)) with 0.
  - run. do 3 f_equal. rewrite Z.shiftr_div_pow2, Z.shiftl_mul_pow2 by lia. apply u32_small. lia.
  - symmetry. apply Z.bits_inj'. intros i Hi. rewrite Z.land_spec, Z.bits_0.
    destruct (Z.testbit paddr i) eqn:Hb; [|done]. simpl.
    assert (Hlow : 12 <= i).
    { destruct (Z.lt_ge_cases i 12); [|done]. exfalso.
      rewrite <- (Z.mod_pow2_bits_low paddr 12) in Hb by lia.
      change (2 ^ 12) with 4096 in Hb. by rewrite Hal, Z.bits_0 in Hb. }
    assert (Hhi : i < 32).
    { destruct (Z.lt_ge_cases i 32); [done|]. exfalso.
      rewrite <- (Z.mod_small paddr (2 ^ 32)) in Hb by lia.
      by rewrite Z.mod_pow2_bits_high in Hb by lia. }
    rewrite Z.lnot_spec by lia. unfold PTE_PADDR_MASK.
    change 4294966272 with (Z.shiftl (Z.ones 22) 10).
    rewrite Z.shiftl_spec by lia. rewrite Z.ones_spec_low by lia. done.
Qed.

Lemma PTE_PADDR_construct paddr flags :
  0 <= paddr < 2 ^ 32 -> paddr `mod` 4096 = 0 -> 0 <= flags < 1024 ->
  PTE_PADDR (Z.lor (paddr / 4096 * 1024) flags) = paddr.
Proof.
  intros Hr Hal Hf. unfold PTE_PADDR. rewrite shiftr10_lor by lia.
  rewrite Z.shiftl_mul_pow2 by lia. rewrite u32_small by lia. lia.
Qed.

Lemma land_low_construct a flags :
  0 <= flags < 1024 -> Z.land (Z.lor (a * 1024) flags) 1023 = flags.
Proof.
  intros Hf. change 1023 with (Z.ones 10). rewrite Z.land_ones by lia.
  change 1024 with (2 ^ 10) in *. rewrite lor_mul_pow2 by lia. lia.
Qed.

(** A page table entry built for a page-aligned 32-bit physical address never
    trips the assertion, and decodes back to that address and those flag bits. *)
Theorem pte_roundtrip paddr attrs m :
  0 <= paddr < 2 ^ 32 -> paddr `mod` PAGE_SIZE = 0 ->
  exists pte, construct_pte paddr (Z.lor (page_attrs_to_pte_flags attrs) PTE_V) m = Ok (pte, m)
    /\ PTE_PADDR pte = paddr
    /\ Z.land pte 1023 = Z.lor (page_attrs_to_pte_flags attrs) PTE_V
    /\ has pte PTE_V = true /\ 0 <= pte < 2 ^ 32.
Proof.
  intros Hr Hal. change PAGE_SIZE with 4096 in Hal.
  set (f := Z.lor (page_attrs_to_pte_flags attrs) PTE_V).
  assert (Hf : 0 <= f < 32 /\ Z.testbit f 0 = true).
  { subst f. unfold page_attrs_to_pte_flags, PTE_R, PTE_W, PTE_X, PTE_U, PTE_V.
    repeat case_match; vm_compute; repeat split; congruence. }
  eexists. rewrite construct_pte_ok by done. split_and!; [done|..].
  - apply PTE_PADDR_construct; lia.
  - apply land_low_construct. lia.
  - change PTE_V with (2 ^ 0). rewrite has_bit_spec by lia. by rewrite Z.lor_spec, (proj2 Hf), orb_true_r.
  - change 1024 with (2 ^ 10). rewrite lor_mul_pow2 by lia. lia.
  - change 1024 with (2 ^ 10). rewrite lor_mul_pow2 by lia. lia.
Qed.

Lemma pte_roundtrip_witness :
  exists pte, construct_pte 2151677952 (Z.lor (page_attrs_to_pte_flags PAGE_USER) PTE_V) four_pages
      = Ok (pte, four_pages)
    /\ PTE_PADDR pte = 2151677952
    /\ Z.land pte 1023 = Z.lor (page_attrs_to_pte_flags PAGE_USER) PTE_V
    /\ has pte PTE_V = true /\ 0 <= pte < 2 ^ 32.
Proof. apply (pte_roundtrip 2151677952 PAGE_USER four_pages); [lia|reflexivity]. Defined.

(** ** The table as a map from pages to entries *)

Definition l1_addr (table v : Z) : Z := table + 4 * PTE_INDEX 1 v.
(** The second-level entry the hardware would read for [v]; 0 without a second-level table. *)
Definition pt_entry (table v : Z) (m : memory) : Z :=
  let e := pm_load (l1_addr table v) m in
  if e =? 0 then 0 else pm_load (PTE_PADDR e + 4 * PTE_INDEX 0 v) m.

(** Sv32 translation of the page at [v]: frame and flag bits. *)
Definition translate (table v : Z) (m : memory) : option (Z * Z) :=
  let e := pt_entry table v m in
  if has e PTE_V then Some (PTE_PADDR e, Z.land e 1023) else None.

Definition page_used (a : Z) (m : memory) : Prop :=
  exists r p, lookup_page r m = Some p /\ 0 < ref_count p /\ page_paddr r m = Some a.

Record pt_wf (table : Z) (m : memory) : Prop := {
  ptw_root : page_used table m;
  ptw_l2 : forall i, 0 <= i < 1024 -> pm_load (table + 4 * i) m <> 0 ->
    page_used (PTE_PADDR (pm_load (table + 4 * i) m)) m
    /\ PTE_PADDR (pm_load (table + 4 * i) m) <> table;
  ptw_distinct : forall i j, 0 <= i < 1024 -> 0 <= j < 1024 -> i <> j ->
    pm_load (table + 4 * i) m <> 0 -> pm_load (table + 4 * j) m <> 0 ->
    PTE_PADDR (pm_load (table + 4 * i) m) <> PTE_PADDR (pm_load (table + 4 * j) m);
}.

Lemma PTE_INDEX_spec l v : 0 <= l -> PTE_INDEX l v = (v / 2 ^ (12 + l * 10)) `mod` 1024.
Proof.
  intros Hl. unfold PTE_INDEX. change 1023 with (Z.ones 10).
  rewrite Z.land_ones, Z.shiftr_div_pow2 by lia. done.
Qed.

Lemma PTE_INDEX_range l v : 0 <= l -> 0 <= PTE_INDEX l v < 1024.
Proof. intros Hl. rewrite PTE_INDEX_spec by done. apply Z.mod_pos_bound. lia. Qed.

Lemma PTE_INDEX_inj v w :
  0 <= v < 2 ^ 32 -> 0 <= w < 2 ^ 32 -> v `mod` 4096 = 0 -> w `mod` 4096 = 0 ->
  PTE_INDEX 1 v = PTE_INDEX 1 w -> PTE_INDEX 0 v = PTE_INDEX 0 w -> v = w.
Proof.
  rewrite !PTE_INDEX_spec by lia. simpl (12 + _).
  change (2 ^ 22) with 4194304. change (2 ^ 12) with 4096. lia.
Qed.

Lemma page_paddr_aligned m r p a :
  mem_wf m -> lookup_page r m = Some p -> page_paddr r m = Some a ->
  a `mod` 4096 = 0 /\ 0 < a < 2 ^ 32.
Proof.
  intros Hwf Hp Ha. destruct (page_in_zone _ _ _ Hwf Hp) as (z & Hz & _ & (?&?&?&?&?) & Hlt).
  unfold page_paddr in Ha. rewrite Hz in Ha. simplify_eq/=. unfold PAGE_SIZE in *. lia.
Qed.

Lemma page_paddr_inj m r r' p p' a :
  mem_wf m -> lookup_page r m = Some p -> lookup_page r' m = Some p' ->
  page_paddr r m = Some a -> page_paddr r' m = Some a -> r = r'.
Proof.
  intros Hwf Hp Hp' Ha Ha'.
  destruct (find_page_at _ _ _ _ Hwf Hp Ha) as (ty & H & _).
  destruct (find_page_at _ _ _ _ Hwf Hp' Ha') as (ty' & H' & _). congruence.
Qed.

Lemma page_used_aligned a m : mem_wf m -> page_used a m -> a `mod` 4096 = 0 /\ 0 < a < 2 ^ 32.
Proof. intros Hwf (r & p & Hp & _ & Ha). by eapply page_paddr_aligned. Qed.

Lemma page_used_not_free a m r p :
  mem_wf m -> page_used a m -> lookup_page r m = Some p -> ref_count p = 0 ->
  page_paddr r m <> Some a.
Proof.
  intros Hwf (r' & p' & Hp' & Hpos & Ha') Hp H0 Ha.
  rewrite (page_paddr_inj _ _ _ _ _ _ Hwf Hp Hp' Ha Ha') in Hp. simplify_eq. lia.
Qed.

Lemma page_used_allocated zi s n ow m m' a :
  allocated zi s n ow m m' -> page_used a m -> page_used a m'.
Proof.
  intros [Hs Hl _] (r & p & Hp & Hpos & Ha). exists r.
  rewrite (page_paddr_shape _ m' m), Hl by done.
  case_decide; [exists (Page ow 1)|exists p]; (split_and!; [done|simpl; lia|done]).
Qed.

(** Loads around a store or a cleared page. *)
Lemma pm_load_store a b v m : pm_load a (pm_store b v m) = if decide (b = a) then v else pm_load a m.
Proof. unfold pm_load, pm_store, set_pmem. simpl. rewrite lookup_insert. by case_decide. Qed.

Lemma pm_load_zero_other a lo len m :
  ~ (lo <= a < lo + len) -> pm_load a (pm_zero lo len m) = pm_load a m.
Proof.
  intros Ha. unfold pm_load, pm_zero, set_pmem. simpl.
  destruct (pmem m !! a) as [v|] eqn:E.
  - by rewrite (map_lookup_filter_Some_2 _ _ _ v).
  - by rewrite map_lookup_filter_None_2 by (by left).
Qed.

Lemma pm_load_pmem m m' a : pmem m = pmem m' -> pm_load a m = pm_load a m'.
Proof. unfold pm_load. by intros ->. Qed.

Lemma mem_wf_store a v m : mem_wf m -> mem_wf (pm_store a v m).
Proof. by intros []. Qed.

(** The first-level part of a table is untouched by stores elsewhere. *)
Lemma pt_wf_ext table m m' :
  (forall a, page_used a m -> page_used a m') ->
  (forall i, 0 <= i < 1024 -> pm_load (table + 4 * i) m' = pm_load (table + 4 * i) m) ->
  pt_wf table m -> pt_wf table m'.
Proof.
  intros Hu Hl [Hr H2 Hd]. split.
  - by apply Hu.
  - intros i Hi. rewrite Hl by done. intros Hne. destruct (H2 i Hi Hne). auto.
  - intros i j Hi Hj. rewrite !Hl by done. by apply Hd.
Qed.

(** Adding a fresh, cleared second-level table at an empty first-level slot. *)
Lemma pt_wf_add table m m1 r p pa idx :
  mem_wf m -> pt_wf table m -> 0 <= idx < 1024 -> pm_load (table + 4 * idx) m = 0 ->
  lookup_page r m = Some p -> ref_count p = 0 -> page_paddr r m = Some pa ->
  allocated r.1 r.2 1 None m m1 -> pmem m1 = pmem (pm_zero pa PAGE_SIZE m) ->
  let m' := pm_store (table + 4 * idx) (Z.lor (pa / 4096 * 1024) PTE_V) m1 in
  pt_wf table m' /\ (forall v, pt_entry table v m' = pt_entry table v m).
Proof.
  intros Hwf Hpt Hidx He Hp H0 Hpa Hall Hpm m'.
  destruct (page_paddr_aligned _ _ _ _ Hwf Hp Hpa) as [Hpal Hpr].
  destruct (page_used_aligned _ _ Hwf (ptw_root _ _ Hpt)) as [Htal Htr].
  assert (Hfresh : forall a, page_used a m -> a <> pa)
    by (intros a Hu ->; by apply (page_used_not_free _ _ _ _ Hwf Hu Hp H0)).
  assert (Hused : forall a, page_used a m -> page_used a m')
    by exact (fun a => page_used_allocated _ _ _ _ _ _ a Hall).
  assert (Hnew : page_used pa m').
  { exists r, (Page None 1). destruct Hall as [Hs Hl _].
    split_and!; [|simpl; lia|by rewrite <- Hpa; apply (page_paddr_shape r m1 m)].
    change (lookup_page r m1 = Some (Page None 1)). rewrite Hl, decide_True; [done|].
    unfold in_run. lia. }
  assert (Hload : forall a, a <> table + 4 * idx -> ~ (pa <= a < pa + 4096) ->
            pm_load a m' = pm_load a m).
  { intros a Hne Ha. unfold m'. rewrite pm_load_store, decide_False by done.
    rewrite (pm_load_pmem m1 _ a Hpm). by apply pm_load_zero_other. }
  assert (Hzero : forall a, a <> table + 4 * idx -> pa <= a < pa + 4096 -> pm_load a m' = 0).
  { intros a Hne Ha. unfold m'. rewrite pm_load_store, decide_False by done.
    rewrite (pm_load_pmem m1 _ a Hpm). by apply pmem_pm_zero. }
  pose proof (Hfresh _ (ptw_root _ _ Hpt)) as Htne.
  assert (Hsame : forall i, 0 <= i < 1024 -> i <> idx ->
            pm_load (table + 4 * i) m' = pm_load (table + 4 * i) m)
    by (intros i Hi Hne; apply Hload; lia).
  assert (Hslot : pm_load (table + 4 * idx) m' = Z.lor (pa / 4096 * 1024) PTE_V)
    by (unfold m'; by rewrite pm_load_store, decide_True).
  assert (Hslotp : PTE_PADDR (pm_load (table + 4 * idx) m') = pa)
    by (rewrite Hslot; apply PTE_PADDR_construct; [lia|lia|by vm_compute]).
  assert (Hslot0 : pm_load (table + 4 * idx) m' <> 0).
  { intros E. rewrite E in Hslotp. change (PTE_PADDR 0) with 0 in Hslotp. lia. }
  split.
  - split.
    + by apply Hused, (ptw_root _ _ Hpt).
    + intros i Hi. destruct (decide (i = idx)) as [->|Hne]; [rewrite Hslotp; auto|].
      rewrite Hsame by done. intros Hnz. destruct (ptw_l2 _ _ Hpt i Hi Hnz). auto.
    + intros i j Hi Hj Hij. destruct (decide (i = idx)) as [->|], (decide (j = idx)) as [->|]; [done|..].
      * rewrite Hslotp, (Hsame j) by done. intros _ Hnz.
        symmetry. apply Hfresh. by apply (ptw_l2 _ _ Hpt).
      * rewrite Hslotp, (Hsame i) by done. intros Hnz _. apply Hfresh. by apply (ptw_l2 _ _ Hpt).
      * rewrite !Hsame by done. by apply (ptw_distinct _ _ Hpt).
  - intros v. unfold pt_entry, l1_addr.
    pose proof (PTE_INDEX_range 1 v ltac:(lia)) as H1.
    pose proof (PTE_INDEX_range 0 v ltac:(lia)) as H2.
    destruct (decide (PTE_INDEX 1 v = idx)) as [->|Hne].
    + rewrite He, Hslotp. simpl. destruct (Z.eqb_spec (pm_load (table + 4 * idx) m') 0); [done|].
      apply Hzero; lia.
    + rewrite (Hsame _ H1 Hne). destruct (Z.eqb_spec (pm_load (table + 4 * PTE_INDEX 1 v) m) 0) as [|Hnz]; [done|].
      destruct (ptw_l2 _ _ Hpt _ H1 Hnz) as [Hu Hnt]. pose proof (Hfresh _ Hu).
      destruct (page_used_aligned _ _ Hwf Hu). apply Hload; lia.
Qed.

(** Page-table operations leave alone every page in use and every device page, and
    all the page lists. *)
Record pages_kept (m m' : memory) : Prop := {
  pk_shape : shape m' = shape m;
  pk_page : forall r p z, lookup_page r m = Some p -> zones m !! r.1 = Some z ->
    0 < ref_count p \/ z_type z = MEMORY_ZONE_MMIO -> lookup_page r m' = Some p;
  pk_list : forall t, task_pages t m' = task_pages t m;
}.

Lemma pages_kept_refl m : pages_kept m m.
Proof. by split. Qed.

Lemma pages_kept_alloc r p z m m' a v :
  lookup_page r m = Some p -> ref_count p = 0 -> zones m !! r.1 = Some z ->
  z_type z = MEMORY_ZONE_FREE -> allocated r.1 r.2 1 None m m' ->
  pages_kept m (pm_store a v m').
Proof.
  intros Hp H0 Hz Hty [Hs Hl Ht]. split; [done| |intros t; exact (Ht t)].
  intros r' p' z' Hp' Hz' Hor. change (lookup_page r' m' = Some p'). rewrite Hl.
  rewrite decide_False; [done|]. intros [E1 E2]. destruct r as [i j], r' as [i' j']. simpl in *.
  assert (j' = j) as -> by lia. subst i'. simplify_eq. destruct Hor; [lia|congruence].
Qed.

Lemma walk_spec table v m :
  mem_wf m -> pt_wf table m -> v `mod` 4096 = 0 ->
  exists err pte m', walk table v true m = Ok ((err, pte), m') /\ mem_wf m' /\
    ((err = ERR_NO_MEMORY /\ m' = m) \/
     (err = OK /\ pt_wf table m' /\ pm_load (l1_addr table v) m' <> 0
      /\ pte = PTE_PADDR (pm_load (l1_addr table v) m') + 4 * PTE_INDEX 0 v
      /\ (forall w, pt_entry table w m' = pt_entry table w m)
      /\ pages_kept m m' /\ (forall a, page_used a m -> page_used a m'))).
Proof.
  intros Hwf Hpt Hv. unfold walk. rewrite is_aligned_page, Hv. simpl.
  unfold arch_paddr_to_vaddr. fold (l1_addr table v).
  pose proof (PTE_INDEX_range 1 v ltac:(lia)) as H1.
  destruct (Z.eqb_spec (pm_load (l1_addr table v) m) 0) as [He|He].
  - destruct (pm_alloc_page_spec None PM_ALLOC_ZEROED m Hwf)
      as (pa & m1 & Hrun & Hwf1 & [[-> ->]|(r & p & z & Hp & H0 & Hpa & Hz & Hty & Hall & Hpm)]).
    + exists ERR_NO_MEMORY, 0, m. split; [|split; [done|by left]].
      run. rewrite He. simpl. by rewrite Hrun.
    + destruct (page_paddr_aligned _ _ _ _ Hwf Hp Hpa) as [Hpal Hpr].
      change (has PM_ALLOC_ZEROED PM_ALLOC_ZEROED) with true in Hpm. cbv iota in Hpm.
      destruct (pt_wf_add _ _ _ _ _ _ _ Hwf Hpt H1 He Hp H0 Hpa Hall Hpm) as [Hpt' Hsame].
      fold (l1_addr table v) in Hpt', Hsame.
      do 3 eexists. split; [|split].
      * run. rewrite He. simpl. rewrite Hrun. destruct (Z.eqb_spec pa 0); [lia|].
        pose proof (construct_pte_ok pa PTE_V m1 ltac:(lia) Hpal) as Hc. rewrite Hc. done.
      * by apply mem_wf_store.
      * right. split_and!; [done|done| |done|done|by eapply pages_kept_alloc|].
        -- rewrite pm_load_store, decide_True by done. intros E.
           assert (PTE_PADDR (Z.lor (pa / 4096 * 1024) PTE_V) = pa) as Hq
             by (apply PTE_PADDR_construct; [lia|lia|by vm_compute]).
           rewrite E in Hq. change (PTE_PADDR 0) with 0 in Hq. lia.
        -- exact (fun a => page_used_allocated _ _ _ _ _ _ a Hall).
  - do 3 eexists. split; [|split]; [run; destruct (Z.eqb_spec (pm_load (l1_addr table v) m) 0); [done|reflexivity]|done|].
    right. split_and!; try done; apply pages_kept_refl.
Qed.

(** Storing an entry changes the translation of its own page only. *)
Lemma pt_entry_store table v w x m :
  mem_wf m -> pt_wf table m -> pm_load (l1_addr table v) m <> 0 ->
  0 <= v < 2 ^ 32 -> 0 <= w < 2 ^ 32 -> v `mod` 4096 = 0 -> w `mod` 4096 = 0 ->
  pt_entry table w (pm_store (PTE_PADDR (pm_load (l1_addr table v) m) + 4 * PTE_INDEX 0 v) x m)
  = if decide (v = w) then x else pt_entry table w m.
Proof.
  intros Hwf Hpt Hnz Hv Hw Hva Hwa. unfold pt_entry, l1_addr in *.
  pose proof (PTE_INDEX_range 1 v ltac:(lia)) as Hv1.
  pose proof (PTE_INDEX_range 0 v ltac:(lia)) as Hv0.
  pose proof (PTE_INDEX_range 1 w ltac:(lia)) as Hw1.
  pose proof (PTE_INDEX_range 0 w ltac:(lia)) as Hw0.
  destruct (ptw_l2 _ _ Hpt _ Hv1 Hnz) as [Hu Hnt].
  destruct (page_used_aligned _ _ Hwf Hu) as [Hal Hr].
  destruct (page_used_aligned _ _ Hwf (ptw_root _ _ Hpt)) as [Htal Htr].
  set (pv := PTE_PADDR (pm_load (table + 4 * PTE_INDEX 1 v) m)) in *.
  rewrite (pm_load_store (table + 4 * PTE_INDEX 1 w)), decide_False by lia.
  destruct (decide (PTE_INDEX 1 w = PTE_INDEX 1 v)) as [E1|N1].
  - rewrite E1. destruct (Z.eqb_spec (pm_load (table + 4 * PTE_INDEX 1 v) m) 0); [done|].
    fold pv. rewrite pm_load_store. destruct (decide (v = w)) as [<-|Hne].
    + by rewrite decide_True.
    + rewrite decide_False; [done|]. intros E0. apply Hne.
      apply PTE_INDEX_inj; [done..|lia].
  - rewrite (decide_False (P := v = w)) by congruence.
    destruct (Z.eqb_spec (pm_load (table + 4 * PTE_INDEX 1 w) m) 0) as [|Hnw]; [done|].
    destruct (ptw_l2 _ _ Hpt _ Hw1 Hnw) as [Huw _].
    destruct (page_used_aligned _ _ Hwf Huw) as [Halw _].
    pose proof (ptw_distinct _ _ Hpt _ _ Hw1 Hv1 N1 Hnw Hnz) as Hd. fold pv in Hd.
    rewrite pm_load_store, decide_False; [done|]. lia.
Qed.

Lemma pt_wf_store table v x m :
  mem_wf m -> pt_wf table m -> pm_load (l1_addr table v) m <> 0 ->
  pt_wf table (pm_store (PTE_PADDR (pm_load (l1_addr table v) m) + 4 * PTE_INDEX 0 v) x m).
Proof.
  intros Hwf Hpt Hnz. apply (pt_wf_ext _ m); [done| |done]. intros i Hi.
  pose proof (PTE_INDEX_range 1 v ltac:(lia)) as Hv1.
  pose proof (PTE_INDEX_range 0 v ltac:(lia)) as Hv0.
  destruct (ptw_l2 _ _ Hpt _ Hv1 Hnz) as [Hu Hnt]. fold (l1_addr table v) in *.
  destruct (page_used_aligned _ _ Hwf Hu) as [Hal _].
  destruct (page_used_aligned _ _ Hwf (ptw_root _ _ Hpt)) as [Htal _].
  rewrite pm_load_store, decide_False; [done|]. lia.
Qed.

(** The outcomes of [arch_vm_map]. *)
Lemma arch_vm_map_spec table v pa attrs m :
  mem_wf m -> pt_wf table m ->
  0 <= v < 2 ^ 32 -> v `mod` 4096 = 0 -> 0 <= pa < 2 ^ 32 -> pa `mod` 4096 = 0 ->
  exists err m', arch_vm_map table v pa attrs m = Ok (err, m') /\ mem_wf m' /\ pt_wf table m' /\
    pages_kept m m' /\
    ((err = ERR_NO_MEMORY /\ m' = m) \/
     (err = ERR_ALREADY_EXISTS /\ is_Some (translate table v m)
      /\ forall w, pt_entry table w m' = pt_entry table w m) \/
     (err = OK /\ translate table v m = None
      /\ translate table v m' = Some (pa, Z.lor (page_attrs_to_pte_flags attrs) PTE_V)
      /\ forall w, 0 <= w < 2 ^ 32 -> w `mod` 4096 = 0 -> w <> v ->
           translate table w m' = translate table w m)).
Proof.
  intros Hwf Hpt Hv Hva Hp Hpa.
  destruct (walk_spec table v m Hwf Hpt Hva) as (err & pte & m1 & Hw & Hwf1 & Hcase).
  assert (Hpre : arch_vm_map table v pa attrs m =
    (if negb (err =? OK) then mret err
     else e ← gets (pm_load pte);
          if has e PTE_V then mret ERR_ALREADY_EXISTS
          else x ← construct_pte pa (Z.lor (page_attrs_to_pte_flags attrs) PTE_V);
               modify (pm_store pte x) ;; mret OK) m1).
  { unfold arch_vm_map. rewrite !is_aligned_page, Hva, Hpa.
    change (0 =? 0) with true. unfold assert.
    rewrite !(ST_bind_run (mret ()) _ m () m eq_refl). by rewrite (ST_bind_run _ _ _ _ _ Hw). }
  rewrite Hpre. destruct Hcase as [[-> ->]|(-> & Hpt1 & Hnz & Hpte & Hent & Hkept & Hused)].
  { exists ERR_NO_MEMORY, m. split; [done|]. split_and!; [done|done|apply pages_kept_refl|by left]. }
  assert (He : pm_load pte m1 = pt_entry table v m).
  { rewrite <- Hent, Hpte. unfold pt_entry. by destruct (Z.eqb_spec (pm_load (l1_addr table v) m1) 0). }
  run. rewrite He. destruct (has (pt_entry table v m) PTE_V) eqn:HV.
  { exists ERR_ALREADY_EXISTS, m1. split; [done|]. split_and!; [done..|]. right; left.
    split_and!; [done| |done]. unfold translate. rewrite HV. eauto. }
  set (f := Z.lor (page_attrs_to_pte_flags attrs) PTE_V).
  assert (Hf : 0 <= f < 32 /\ Z.testbit f 0 = true).
  { subst f. unfold page_attrs_to_pte_flags, PTE_R, PTE_W, PTE_X, PTE_U, PTE_V.
    repeat case_match; vm_compute; repeat split; congruence. }
  pose proof (construct_pte_ok pa f m1 Hp Hpa) as Hc. rewrite Hc.
  eexists _, _. split; [done|]. subst pte.
  split_and!; [by apply mem_wf_store|by apply pt_wf_store|by destruct Hkept|].
  right; right. split_and!; [done|unfold translate; by rewrite HV| |].
  - unfold translate. rewrite pt_entry_store by done. rewrite decide_True by done.
    change PTE_V with (2 ^ 0) at 1. rewrite has_bit_spec, Z.lor_spec, (proj2 Hf), orb_true_r by lia.
    rewrite PTE_PADDR_construct, land_low_construct by lia. done.
  - intros w Hwr Hwa Hne. unfold translate. rewrite pt_entry_store by done.
    rewrite decide_False by done. by rewrite Hent.
Qed.


(** ** Sharing of second-level tables *)

(** [arch_vm_init] copies the kernel's first level by value, so two tasks share
    every second-level table the kernel had created, which include the ones below
    KERNEL_BASE that hold the UART, the PLIC and the CLINT.  A page mapped through
    one task's table at an address whose second-level table is shared becomes
    mapped, at the same address, in the other task's table too. *)
Theorem shared_l2_mapping_leaks table1 table2 v pa attrs m :
  mem_wf m -> pt_wf table1 m -> pt_wf table2 m -> table1 <> table2 ->
  (forall i, 0 <= i < 1024 -> PTE_PADDR (pm_load (table1 + 4 * i) m) <> table2) ->
  0 <= v < 2 ^ 32 -> v `mod` PAGE_SIZE = 0 -> 0 <= pa < 2 ^ 32 -> pa `mod` PAGE_SIZE = 0 ->
  pm_load (l1_addr table1 v) m <> 0 ->
  pm_load (l1_addr table2 v) m = pm_load (l1_addr table1 v) m ->
  translate table1 v m = None ->
  exists m', arch_vm_map table1 v pa attrs m = Ok (OK, m')
    /\ translate table2 v m = None
    /\ translate table2 v m' = Some (pa, Z.lor (page_attrs_to_pte_flags attrs) PTE_V).
Proof.
  intros Hwf Hpt1 Hpt2 Hne Hsep Hv Hva Hp Hpa Hnz Hshare Htr.
  pose proof (PTE_INDEX_range 1 v ltac:(lia)) as Hv1.
  pose proof (PTE_INDEX_range 0 v ltac:(lia)) as Hv0.
  destruct (ptw_l2 _ _ Hpt1 _ Hv1 Hnz) as [Hu _]. fold (l1_addr table1 v) in Hu.
  destruct (page_used_aligned _ _ Hwf Hu) as [Hal _].
  destruct (page_used_aligned _ _ Hwf (ptw_root _ _ Hpt2)) as [Htal _].
  set (f := Z.lor (page_attrs_to_pte_flags attrs) PTE_V).
  assert (Hf : 0 <= f < 32 /\ Z.testbit f 0 = true).
  { subst f. unfold page_attrs_to_pte_flags, PTE_R, PTE_W, PTE_X, PTE_U, PTE_V.
    repeat case_match; vm_compute; repeat split; congruence. }
  assert (Hent : pt_entry table1 v m = pm_load (PTE_PADDR (pm_load (l1_addr table1 v) m) + 4 * PTE_INDEX 0 v) m).
  { unfold pt_entry. by destruct (Z.eqb_spec (pm_load (l1_addr table1 v) m) 0). }
  assert (Hent2 : pt_entry table2 v m = pt_entry table1 v m).
  { unfold pt_entry. by rewrite Hshare. }
  assert (HV : has (pt_entry table1 v m) PTE_V = false).
  { unfold translate in Htr. by destruct (has (pt_entry table1 v m) PTE_V). }
  exists (pm_store (PTE_PADDR (pm_load (l1_addr table1 v) m) + 4 * PTE_INDEX 0 v)
            (Z.lor (pa / 4096 * 1024) f) m). split_and!.
  - unfold arch_vm_map, walk. rewrite !is_aligned_page. change PAGE_SIZE with 4096 in *.
    rewrite Hva, Hpa. run. unfold arch_paddr_to_vaddr. fold (l1_addr table1 v).
    destruct (Z.eqb_spec (pm_load (l1_addr table1 v) m) 0); [done|]. simpl.
    rewrite <- Hent, HV. pose proof (construct_pte_ok pa f m Hp Hpa) as Hc.
    fold f. by rewrite Hc.
  - unfold translate. by rewrite Hent2, HV.
  - assert (Hdiff : PTE_PADDR (pm_load (l1_addr table1 v) m) + 4 * PTE_INDEX 0 v <> l1_addr table2 v).
    { specialize (Hsep _ Hv1). fold (l1_addr table1 v) in Hsep. unfold l1_addr in *. lia. }
    unfold translate, pt_entry. rewrite (pm_load_store (l1_addr table2 v)), decide_False by done.
    rewrite Hshare. destruct (Z.eqb_spec (pm_load (l1_addr table1 v) m) 0); [done|].
    rewrite pm_load_store, decide_True by done.
    change PTE_V with (2 ^ 0) at 1. rewrite has_bit_spec, Z.lor_spec, (proj2 Hf), orb_true_r by lia.
    rewrite PTE_PADDR_construct, land_low_construct by (change PAGE_SIZE with 4096 in *; lia). done.
Qed.

(** ** Mapping policy *)

(** RAM may be mapped by the page's owner and by the owner's pager; a device page
    by the first task that asks. *)
Definition may_map (task : tptr) (pager_of : tptr -> option tptr) (ty : memory_zone_type)
    (p : page) : bool :=
  match ty with
  | MEMORY_ZONE_FREE =>
      negb (ref_count p =? 0) &&
      (bool_decide (owner p = Some task)
       || match owner p with Some o => bool_decide (pager_of o = Some task) | None => false end)
  | MEMORY_ZONE_MMIO => ref_count p =? 0
  end.

(** The check of [vm_map], and what follows it. *)
Section VmMap.
Context (task : tptr) (pager_of : tptr -> option tptr) (table v paddr attrs : Z) (m : memory) (r : pageref) (p : page) (ty : memory_zone_type).
Hypothesis Hfind : find_page_by_paddr paddr m = Ok (Some (r, ty), m).
Hypothesis Hp : lookup_page r m = Some p.
Hypothesis Hown : ty = MEMORY_ZONE_FREE -> ref_count p <> 0 -> owner p <> None.
Hypothesis Href : 0 <= ref_count p.

Lemma vm_map_refused : may_map task pager_of ty p = false -> vm_map task pager_of table v paddr attrs m = Ok (ERR_INVALID_PADDR, m).
Proof.
  intros Hmay. unfold vm_map. rewrite (ST_bind_run _ _ _ _ _ Hfind). cbv beta iota.
  erewrite ST_bind_run by (unfold getopt; by rewrite Hp). unfold may_map in Hmay. destruct ty.
  - destruct (Z.eqb_spec (ref_count p) 0) as [|Hne]; [done|]. simpl in Hmay.
    case_bool_decide; [done|]. destruct (owner p) as [o|] eqn:Ho; [|by destruct Hown].
    simpl in Hmay. run. by rewrite Hmay.
  - run. replace (0 <? ref_count p) with true by lia. done.
Qed.

Lemma vm_map_granted err m1 :
  may_map task pager_of ty p = true -> arch_vm_map table v paddr attrs m = Ok (err, m1) ->
  vm_map task pager_of table v paddr attrs m =
    (if negb (err =? OK) then mret err
     else match ty with
          | MEMORY_ZONE_MMIO =>
              l ← gets (page_is_linked r); assert (negb l) ;; modify (push_page task r)
          | MEMORY_ZONE_FREE => mret tt
          end ;;
          page ← getopt (lookup_page r);
          modify (update_page r (Page (owner page) (u32 (ref_count page + 1)))) ;;
          mret OK) m1.
Proof.
  intros Hmay Hmap. unfold vm_map. rewrite (ST_bind_run _ _ _ _ _ Hfind). cbv beta iota.
  erewrite ST_bind_run by (unfold getopt; by rewrite Hp).
  rewrite (ST_bind_run _ _ m true m).
  - cbn [negb]. by rewrite (ST_bind_run _ _ _ _ _ Hmap).
  - unfold may_map in Hmay. destruct ty.
    + destruct (Z.eqb_spec (ref_count p) 0); [done|]. simpl in Hmay.
      case_bool_decide; [done|]. simpl in Hmay. destruct (owner p); [|done]. by rewrite Hmay.
    + replace (0 <? ref_count p) with false by lia. done.
Qed.

End VmMap.

(** The page after the table has been updated: counted once more, a device page listed. *)
Lemma vm_map_recorded task pager_of r p ty m1 :
  0 <= ref_count p -> may_map task pager_of ty p = true -> mem_wf m1 -> lookup_page r m1 = Some p -> ref_count p < 2 ^ 32 - 1 ->
  exists m', (match ty with
     | MEMORY_ZONE_MMIO => l ← gets (page_is_linked r); assert (negb l) ;; modify (push_page task r)
     | MEMORY_ZONE_FREE => mret tt
     end ;;
     page ← getopt (lookup_page r);
     modify (update_page r (Page (owner page) (u32 (ref_count page + 1)))) ;;
     mret OK) m1 = Ok (OK, m') /\ mem_wf m' /\ pmem m' = pmem m1 /\
    lookup_page r m' = Some (Page (owner p) (ref_count p + 1)) /\ (ty = MEMORY_ZONE_MMIO -> r ∈ task_pages task m').
Proof.
  intros Href Hmay Hwf1 Hp1 Hmax.
  assert (Hq : 0 < ref_count (Page (owner p) (ref_count p + 1)) < 2 ^ 32) by (simpl; lia).
  pose proof (update_page_wf _ _ _ _ Hwf1 Hp1 Hq) as Hwf2.
  assert (Hl2 : lookup_page r (update_page r (Page (owner p) (ref_count p + 1)) m1)
                = Some (Page (owner p) (ref_count p + 1)))
    by (by rewrite lookup_update_page, decide_True, Hp1).
  unfold may_map in Hmay. destruct ty.
  - exists (update_page r (Page (owner p) (ref_count p + 1)) m1). split; [|done].
    run. rewrite Hp1. rewrite u32_small by lia. done.
  - assert (Hnl : page_is_linked r m1 = false).
    { destruct (page_is_linked r m1) eqn:E; [|done]. apply page_is_linked_spec in E as [t Ht].
      destruct (wf_linked _ Hwf1 _ _ Ht) as (p' & Hp' & Hpos). simplify_eq. lia. }
    exists (push_page task r (update_page r (Page (owner p) (ref_count p + 1)) m1)).
    split; [|split; [|split_and!; try done]].
    + run. rewrite Hnl. simpl.
      change (lookup_page r (push_page task r m1)) with (lookup_page r m1).
      rewrite Hp1. rewrite u32_small by lia. done.
    + eapply push_page_wf; [done|done|simpl; lia|exact Hnl].
    + intros _. rewrite task_pages_push, decide_True by done. apply elem_of_app. right. by left.
Qed.
(** C14: who may map what.  For a physical page of a zone (a RAM page in use having an
    owning task), [vm_map] returns: without permission ERR_INVALID_PADDR and
    nothing changes; with it the error of the table update, or OK, and then the
    page translates, its reference count is one higher, and a device page is
    recorded in the task's page list.  The memory stays well formed. *)
Theorem vm_map_correct task pager_of table v paddr attrs m r p z :
  mem_wf m -> pt_wf table m -> 0 <= v < 2 ^ 32 -> v `mod` PAGE_SIZE = 0 ->
  lookup_page r m = Some p -> zones m !! r.1 = Some z -> page_paddr r m = Some paddr ->
  (z_type z = MEMORY_ZONE_FREE -> ref_count p <> 0 -> owner p <> None) ->
  ref_count p < 2 ^ 32 - 1 ->
  exists err m', vm_map task pager_of table v paddr attrs m = Ok (err, m') /\ mem_wf m' /\
    if may_map task pager_of (z_type z) p then
      (err = ERR_NO_MEMORY \/ err = ERR_ALREADY_EXISTS) /\ lookup_page r m' = Some p
      \/ err = OK
         /\ translate table v m' = Some (paddr, Z.lor (page_attrs_to_pte_flags attrs) PTE_V)
         /\ lookup_page r m' = Some (Page (owner p) (ref_count p + 1))
         /\ (z_type z = MEMORY_ZONE_MMIO -> r ∈ task_pages task m')
    else err = ERR_INVALID_PADDR /\ m' = m.
Proof.
  intros Hwf Hpt Hv Hva Hp Hz Hpa Hown Hmax.
  destruct (find_page_at _ _ _ _ Hwf Hp Hpa) as (ty & Hfind & (z' & Hz' & Hty) & Hrange).
  rewrite Hz in Hz'. injection Hz' as <-. rewrite Hty in *.
  destruct (page_paddr_aligned _ _ _ _ Hwf Hp Hpa) as [Hpal _].
  pose proof (wf_ref _ Hwf _ _ Hp) as Href. assert (Href' : 0 <= ref_count p) by lia.
  destruct (arch_vm_map_spec table v paddr attrs m) as (err & m1 & Hmap & Hwf1 & _ & Hkept & Hc);
    [done..|lia|done|].
  destruct (may_map task pager_of ty p) eqn:Hmay.
  2: { exists ERR_INVALID_PADDR, m. by rewrite (vm_map_refused _ _ _ _ _ _ _ _ _ _ Hfind Hp Hown Href' Hmay). }
  rewrite (vm_map_granted _ _ _ _ _ _ _ _ _ _ Hfind Hp Hown _ _ Hmay Hmap).
  assert (Hp1 : lookup_page r m1 = Some p).
  { apply (pk_page _ _ Hkept _ _ _ Hp Hz). unfold may_map in Hmay.
    rewrite Hty. destruct ty; [left|by right]. destruct (Z.eqb_spec (ref_count p) 0); [done|lia]. }
  destruct Hc as [[-> ->]|[(-> & ? & Hent)|(-> & _ & Htr & _)]].
  { exists ERR_NO_MEMORY, m. split; [done|]. split; [done|]. left. auto. }
  { exists ERR_ALREADY_EXISTS, m1. split; [done|]. split; [done|]. left. auto. }
  destruct (vm_map_recorded task pager_of r p ty m1 Href' Hmay Hwf1 Hp1 Hmax) as (m' & E & Hwf' & Hmem & Hl & Hlist).
  exists OK, m'. split; [exact E|]. split; [done|]. right. split_and!; try done.
  unfold translate, pt_entry, pm_load in *. by rewrite Hmem.
Qed.

(** A page the kernel keeps for itself (owner NULL: a page table, a kernel stack)
    is not refused by [vm_map]: the code reads [page->owner->pager] through the
    NULL owner. *)
Theorem vm_map_kernel_page_null_deref task pager_of table v paddr attrs m r p z :
  mem_wf m -> lookup_page r m = Some p -> zones m !! r.1 = Some z -> page_paddr r m = Some paddr ->
  z_type z = MEMORY_ZONE_FREE -> ref_count p <> 0 -> owner p = None ->
  vm_map task pager_of table v paddr attrs m = Undef.
Proof.
  intros Hwf Hp Hz Hpa Hty Hne Hown.
  destruct (find_page_at _ _ _ _ Hwf Hp Hpa) as (ty & Hfind & (z' & Hz' & Hty') & _).
  rewrite Hz in Hz'. injection Hz' as <-. rewrite Hty in Hty'. subst ty.
  unfold vm_map. rewrite (ST_bind_run _ _ _ _ _ Hfind). cbv beta iota.
  erewrite ST_bind_run by (unfold getopt; by rewrite Hp).
  destruct (Z.eqb_spec (ref_count p) 0); [done|].
  rewrite Hown, bool_decide_false by done. done.
Qed.

(** ** Witnesses

    Two tables (pages 0 and 1) that share the second-level table in page 2 for the
    4 MiB region of the UART; page 3 belongs to task 0. *)
Definition pa0 : Z := 2151677952.
Definition shared_pte : Z := Z.lor ((pa0 + 8192) / 4096 * 1024) PTE_V.
Definition shared_tables : memory :=
  Memory [Zone MEMORY_ZONE_FREE pa0 5
            [Page None 1; Page None 1; Page None 1; Page (Some (Task 0)) 1; Page None 0]]
         {[Task 0 := [(0, 3)%nat]]}
         {[pa0 + 4 * 64 := shared_pte; pa0 + 4096 + 4 * 64 := shared_pte]}.

Lemma shared_tables_load a :
  pm_load a shared_tables
  = if decide (a = pa0 + 4 * 64 \/ a = pa0 + 4096 + 4 * 64) then shared_pte else 0.
Proof.
  unfold pm_load, shared_tables. cbn [pmem]. rewrite lookup_insert, lookup_singleton.
  destruct (decide (pa0 + 4 * 64 = a)) as [<-|]; [by rewrite decide_True by auto|].
  destruct (decide (pa0 + 4096 + 4 * 64 = a)) as [<-|]; [by rewrite decide_True by auto|].
  rewrite decide_False; [done|]. intros [->| ->]; congruence.
Qed.

Lemma shared_tables_wf : mem_wf shared_tables.
Proof.
  assert (Hl : forall t, task_pages t shared_tables = if decide (Task 0 = t) then [(0, 3)%nat] else []).
  { intros t. unfold task_pages. simpl. rewrite lookup_singleton. by case_decide. }
  split.
  - intros [|[|i]] z Hz; simplify_eq/=. unfold zone_ok, PAGE_SIZE. vm_compute. repeat split; congruence.
  - intros [|[|i]] [|[|j]] z z' Hne Hz Hz'; simplify_eq/=.
  - intros [[|[|i]] j] p Hp; unfold lookup_page in Hp; simplify_eq/=.
    do 5 (destruct j as [|j]; [simplify_eq/=; lia|]). done.
  - intros t r. rewrite Hl. case_decide; [|by intros ?%not_elem_of_nil].
    intros ->%list_elem_of_singleton. exists (Page (Some (Task 0)) 1). split; [done|simpl; lia].
  - intros t. rewrite Hl. case_decide; [apply NoDup_singleton|apply NoDup_nil_2].
  - intros t t' r. rewrite !Hl. repeat case_decide; try congruence; intros H1 H2.
    all: by (apply not_elem_of_nil in H1 || apply not_elem_of_nil in H2).
Qed.

Lemma shared_tables_used j : (j < 3)%nat -> page_used (pa0 + Z.of_nat j * 4096) shared_tables.
Proof.
  intros Hj. exists (0, j)%nat, (Page None 1). split_and!; [|simpl; lia|done].
  destruct j as [|[|[|j]]]; [done..|lia].
Qed.

(** Table number [j] (0 or 1) is well formed. *)
Lemma shared_tables_pt j : (j < 2)%nat -> pt_wf (pa0 + Z.of_nat j * 4096) shared_tables.
Proof.
  intros Hj.
  assert (Hld : forall i, 0 <= i < 1024 ->
    pm_load (pa0 + Z.of_nat j * 4096 + 4 * i) shared_tables = if decide (i = 64) then shared_pte else 0).
  { intros i Hi. rewrite shared_tables_load. apply decide_ext. lia. }
  split.
  - apply shared_tables_used. lia.
  - intros i Hi. rewrite Hld by done. case_decide; [|done]. intros _.
    change (PTE_PADDR shared_pte) with (pa0 + Z.of_nat 2 * 4096). split; [|lia].
    apply shared_tables_used. lia.
  - intros i i' Hi Hi' Hne. rewrite !Hld by done. repeat case_decide; congruence.
Qed.


(** Task 1 maps its page at 0x10001000; the other table sees it there. *)
Lemma shared_l2_mapping_leaks_witness :
  exists m', arch_vm_map pa0 268439552 (pa0 + 12288) 22 shared_tables = Ok (OK, m')
    /\ translate (pa0 + 4096) 268439552 shared_tables = None
    /\ translate (pa0 + 4096) 268439552 m'
       = Some (pa0 + 12288, Z.lor (page_attrs_to_pte_flags 22) PTE_V).
Proof.
  apply (shared_l2_mapping_leaks pa0 (pa0 + 4096) 268439552 (pa0 + 12288) 22 shared_tables);
    [apply shared_tables_wf|apply (shared_tables_pt 0); lia|apply (shared_tables_pt 1); lia
    |unfold pa0; lia| |lia|reflexivity|unfold pa0; lia|reflexivity|vm_compute; congruence
    |vm_compute; reflexivity|vm_compute; reflexivity].
  intros i Hi. rewrite shared_tables_load. case_decide; vm_compute; congruence.
Defined.

Lemma vm_map_correct_witness :
  exists err m', vm_map (Task 1) (fun _ => Some (Task 1)) pa0 268439552 (pa0 + 12288) 6 shared_tables
      = Ok (err, m') /\ mem_wf m' /\
    if may_map (Task 1) (fun _ => Some (Task 1)) MEMORY_ZONE_FREE (Page (Some (Task 0)) 1) then
      (err = ERR_NO_MEMORY \/ err = ERR_ALREADY_EXISTS)
        /\ lookup_page (0, 3)%nat m' = Some (Page (Some (Task 0)) 1)
      \/ err = OK
         /\ translate pa0 268439552 m' = Some (pa0 + 12288, Z.lor (page_attrs_to_pte_flags 6) PTE_V)
         /\ lookup_page (0, 3)%nat m' = Some (Page (Some (Task 0)) (1 + 1))
         /\ (MEMORY_ZONE_FREE = MEMORY_ZONE_MMIO -> (0, 3)%nat ∈ task_pages (Task 1) m')
    else err = ERR_INVALID_PADDR /\ m' = shared_tables.
Proof.
  apply (vm_map_correct (Task 1) (fun _ => Some (Task 1)) pa0 268439552 (pa0 + 12288) 6 shared_tables
           (0, 3)%nat (Page (Some (Task 0)) 1) (Zone MEMORY_ZONE_FREE pa0 5
            [Page None 1; Page None 1; Page None 1; Page (Some (Task 0)) 1; Page None 0]));
    [apply shared_tables_wf|apply (shared_tables_pt 0); lia|lia|reflexivity|reflexivity|reflexivity
    |reflexivity|intros _ _ ?; discriminate|simpl; lia].
Defined.

Lemma vm_map_kernel_page_null_deref_witness :
  vm_map (Task 1) (fun _ => None) pa0 268439552 pa0 6 shared_tables = Undef.
Proof.
  apply (vm_map_kernel_page_null_deref (Task 1) (fun _ => None) pa0 268439552 pa0 6 shared_tables
           (0, 0)%nat (Page None 1) (Zone MEMORY_ZONE_FREE pa0 5
            [Page None 1; Page None 1; Page None 1; Page (Some (Task 0)) 1; Page None 0]));
    [apply shared_tables_wf|reflexivity|reflexivity|reflexivity|reflexivity|simpl; lia|reflexivity].
Defined.
