(* ===== verification/Kernel.v ===== *)
(** The kernel's state: task structures (kernel/task.h), wait queues, CPU-local
    variables, the interrupt listener table, the serial input ring and the memory.

    The code blocks in the middle of a function: [task_switch] saves the caller's
    stack and returns only when the task is scheduled again.  Here the saved stack
    is a value, [kctx], that says which blocking call the task is inside and with
    which local variables; the remainder of the call is run by [Ipc.resume] when a
    CPU has switched to the task. *)

From S2P Require Import Prelude Types KData Memory Vm.

Inductive task_state := TASK_UNUSED | TASK_RUNNABLE | TASK_BLOCKED.
#[export] Instance task_state_eq_dec : EqDecision task_state.
Proof. solve_decision. Defined.

(** The [m] argument of [ipc]: a user address, or a kernel local variable with its
    contents (IPC_KERNEL). *)
Inductive mptr := MUser (uaddr : Z) | MKernel (msg : message).

(** Who called [ipc]: decides what happens with its result. *)
Inductive kcaller := CSyscall | CPageFault | CExit | CHinavm.

(** The saved kernel context of a task. *)
Inductive kctx :=
| KRun                                     (** not inside a blocking call *)
| KSend (dst : tptr) (copied_m : message) (flags src : Z) (m : mptr) (caller : kcaller)
| KRecv (m : mptr) (flags : Z) (caller : kcaller)
| KSerial (buf max_len : Z)
| KDead.                                   (** past the last switch of [task_exit] *)

Record task := TaskStruct {
  t_table : Z;              (* vm.table *)
  t_sp : Z;                 (* arch.sp *)
  t_sp_top : Z;             (* arch.sp_top *)
  t_sp_bottom : Z;          (* arch.sp_bottom *)
  t_tid : Z;
  t_name : list Z;
  t_state : task_state;
  t_destroyed : bool;
  t_pager : option tptr;
  t_timeout : Z;
  t_ref_count : Z;
  t_quantum : Z;
  t_senders : list tptr;
  t_wait_for : Z;
  t_notifications : Z;
  t_m : message;
  t_kctx : kctx;            (* the saved kernel stack *)
  t_ret : Z;                (* the result of the last system call (register a0) *)
}.

Record kernel := Kernel {
  k_tasks : gmap tptr task;          (* tasks[] and idle_tasks[] *)
  k_runqueue : list tptr;
  k_active : list tptr;              (* active_tasks *)
  k_current : gmap nat tptr;         (* cpuvar->current_task of each CPU *)
  k_readers : list tptr;             (* serial_readers *)
  k_input : list Z;                  (* input[128] *)
  k_rp : Z;                          (* input_rp *)
  k_wp : Z;                          (* input_wp *)
  k_irq : list (option tptr);        (* irq_listeners[IRQ_MAX] *)
  k_irq_enabled : list bool;         (* the PLIC's enable bits *)
  k_uptime : Z;                      (* uptime_ticks *)
  k_serial_out : list Z;             (* characters sent to the UART, oldest first *)
  k_mem : memory;
  k_umem : gmap (tptr * Z) Z;        (* user memory, a byte per virtual address *)
  k_kernel_table : Z;                (* kernel_vm.table *)
}.

(** *** Field updates *)
Definition set_tasks x k := Kernel x (k_runqueue k) (k_active k) (k_current k) (k_readers k)
  (k_input k) (k_rp k) (k_wp k) (k_irq k) (k_irq_enabled k) (k_uptime k) (k_serial_out k) (k_mem k)
  (k_umem k) (k_kernel_table k).
Definition set_runqueue x k := Kernel (k_tasks k) x (k_active k) (k_current k) (k_readers k)
  (k_input k) (k_rp k) (k_wp k) (k_irq k) (k_irq_enabled k) (k_uptime k) (k_serial_out k) (k_mem k)
  (k_umem k) (k_kernel_table k).
Definition set_active x k := Kernel (k_tasks k) (k_runqueue k) x (k_current k) (k_readers k)
  (k_input k) (k_rp k) (k_wp k) (k_irq k) (k_irq_enabled k) (k_uptime k) (k_serial_out k) (k_mem k)
  (k_umem k) (k_kernel_table k).
Definition set_current x k := Kernel (k_tasks k) (k_runqueue k) (k_active k) x (k_readers k)
  (k_input k) (k_rp k) (k_wp k) (k_irq k) (k_irq_enabled k) (k_uptime k) (k_serial_out k) (k_mem k)
  (k_umem k) (k_kernel_table k).
Definition set_readers x k := Kernel (k_tasks k) (k_runqueue k) (k_active k) (k_current k) x
  (k_input k) (k_rp k) (k_wp k) (k_irq k) (k_irq_enabled k) (k_uptime k) (k_serial_out k) (k_mem k)
  (k_umem k) (k_kernel_table k).
Definition set_ring i rp wp k := Kernel (k_tasks k) (k_runqueue k) (k_active k) (k_current k)
  (k_readers k) i rp wp (k_irq k) (k_irq_enabled k) (k_uptime k) (k_serial_out k) (k_mem k)
  (k_umem k) (k_kernel_table k).
Definition set_irq l e k := Kernel (k_tasks k) (k_runqueue k) (k_active k) (k_current k)
  (k_readers k) (k_input k) (k_rp k) (k_wp k) l e (k_uptime k) (k_serial_out k) (k_mem k)
  (k_umem k) (k_kernel_table k).
Definition set_uptime x k := Kernel (k_tasks k) (k_runqueue k) (k_active k) (k_current k)
  (k_readers k) (k_input k) (k_rp k) (k_wp k) (k_irq k) (k_irq_enabled k) x (k_serial_out k) (k_mem k)
  (k_umem k) (k_kernel_table k).
Definition set_serial_out x k := Kernel (k_tasks k) (k_runqueue k) (k_active k) (k_current k)
  (k_readers k) (k_input k) (k_rp k) (k_wp k) (k_irq k) (k_irq_enabled k) (k_uptime k) x (k_mem k)
  (k_umem k) (k_kernel_table k).
Definition set_mem x k := Kernel (k_tasks k) (k_runqueue k) (k_active k) (k_current k)
  (k_readers k) (k_input k) (k_rp k) (k_wp k) (k_irq k) (k_irq_enabled k) (k_uptime k)
  (k_serial_out k) x (k_umem k) (k_kernel_table k).
Definition set_umem x k := Kernel (k_tasks k) (k_runqueue k) (k_active k) (k_current k)
  (k_readers k) (k_input k) (k_rp k) (k_wp k) (k_irq k) (k_irq_enabled k) (k_uptime k)
  (k_serial_out k) (k_mem k) x (k_kernel_table k).

Definition with_state s t := TaskStruct (t_table t) (t_sp t) (t_sp_top t) (t_sp_bottom t) (t_tid t)
  (t_name t) s (t_destroyed t) (t_pager t) (t_timeout t) (t_ref_count t) (t_quantum t) (t_senders t)
  (t_wait_for t) (t_notifications t) (t_m t) (t_kctx t) (t_ret t).
Definition with_destroyed b t := TaskStruct (t_table t) (t_sp t) (t_sp_top t) (t_sp_bottom t) (t_tid t)
  (t_name t) (t_state t) b (t_pager t) (t_timeout t) (t_ref_count t) (t_quantum t) (t_senders t)
  (t_wait_for t) (t_notifications t) (t_m t) (t_kctx t) (t_ret t).
Definition with_timeout x t := TaskStruct (t_table t) (t_sp t) (t_sp_top t) (t_sp_bottom t) (t_tid t)
  (t_name t) (t_state t) (t_destroyed t) (t_pager t) x (t_ref_count t) (t_quantum t) (t_senders t)
  (t_wait_for t) (t_notifications t) (t_m t) (t_kctx t) (t_ret t).
Definition with_ref_count x t := TaskStruct (t_table t) (t_sp t) (t_sp_top t) (t_sp_bottom t) (t_tid t)
  (t_name t) (t_state t) (t_destroyed t) (t_pager t) (t_timeout t) x (t_quantum t) (t_senders t)
  (t_wait_for t) (t_notifications t) (t_m t) (t_kctx t) (t_ret t).
Definition with_quantum x t := TaskStruct (t_table t) (t_sp t) (t_sp_top t) (t_sp_bottom t) (t_tid t)
  (t_name t) (t_state t) (t_destroyed t) (t_pager t) (t_timeout t) (t_ref_count t) x (t_senders t)
  (t_wait_for t) (t_notifications t) (t_m t) (t_kctx t) (t_ret t).
Definition with_senders x t := TaskStruct (t_table t) (t_sp t) (t_sp_top t) (t_sp_bottom t) (t_tid t)
  (t_name t) (t_state t) (t_destroyed t) (t_pager t) (t_timeout t) (t_ref_count t) (t_quantum t) x
  (t_wait_for t) (t_notifications t) (t_m t) (t_kctx t) (t_ret t).
Definition with_wait_for x t := TaskStruct (t_table t) (t_sp t) (t_sp_top t) (t_sp_bottom t) (t_tid t)
  (t_name t) (t_state t) (t_destroyed t) (t_pager t) (t_timeout t) (t_ref_count t) (t_quantum t)
  (t_senders t) x (t_notifications t) (t_m t) (t_kctx t) (t_ret t).
Definition with_notifications x t := TaskStruct (t_table t) (t_sp t) (t_sp_top t) (t_sp_bottom t)
  (t_tid t) (t_name t) (t_state t) (t_destroyed t) (t_pager t) (t_timeout t) (t_ref_count t)
  (t_quantum t) (t_senders t) (t_wait_for t) x (t_m t) (t_kctx t) (t_ret t).
Definition with_m x t := TaskStruct (t_table t) (t_sp t) (t_sp_top t) (t_sp_bottom t) (t_tid t)
  (t_name t) (t_state t) (t_destroyed t) (t_pager t) (t_timeout t) (t_ref_count t) (t_quantum t)
  (t_senders t) (t_wait_for t) (t_notifications t) x (t_kctx t) (t_ret t).
Definition with_kctx x t := TaskStruct (t_table t) (t_sp t) (t_sp_top t) (t_sp_bottom t) (t_tid t)
  (t_name t) (t_state t) (t_destroyed t) (t_pager t) (t_timeout t) (t_ref_count t) (t_quantum t)
  (t_senders t) (t_wait_for t) (t_notifications t) (t_m t) x (t_ret t).
Definition with_ret x t := TaskStruct (t_table t) (t_sp t) (t_sp_top t) (t_sp_bottom t) (t_tid t)
  (t_name t) (t_state t) (t_destroyed t) (t_pager t) (t_timeout t) (t_ref_count t) (t_quantum t)
  (t_senders t) (t_wait_for t) (t_notifications t) (t_m t) (t_kctx t) x.

(** *** Access *)
Abbreviation KST := (ST kernel).

(** Read and change a task structure through its pointer. *)
Definition task_at (t : tptr) : KST task := getopt (fun k => k_tasks k !! t).
Definition upd (t : tptr) (f : task -> task) : KST unit :=
  modify (fun k => set_tasks (alter f t (k_tasks k)) k).

(** CURRENT_TASK of CPU [c]; IDLE_TASK is [Idle c]. *)
Definition CURRENT_TASK (c : nat) : KST tptr := getopt (fun k => k_current k !! c).

(** Run a physical-memory operation. *)
Definition lift_mem {A} (f : ST memory A) : KST A := fun k =>
  match f (k_mem k) with
  | Ok (a, m) => Ok (a, set_mem m k)
  | Panic => Panic
  | Undef => Undef
  end.

(** *** Wait queues

    [waitqueue_next] links a task into one queue at a time: the run queue, the
    serial readers, or the senders of some task. *)
Definition wq_linked (t : tptr) (k : kernel) : bool :=
  bool_decide (t ∈ k_runqueue k) || bool_decide (t ∈ k_readers k)
  || existsb (fun x => bool_decide (t ∈ t_senders x)) (map_to_list (k_tasks k)).*2.

(** [list_push_back] asserts that the element is not linked. *)
Definition push_runqueue (t : tptr) : KST unit :=
  l ← gets (wq_linked t); assert (negb l) ;;
  modify (fun k => set_runqueue (k_runqueue k ++ [t]) k).
Definition push_readers (t : tptr) : KST unit :=
  l ← gets (wq_linked t); assert (negb l) ;;
  modify (fun k => set_readers (k_readers k ++ [t]) k).
Definition push_senders (dst t : tptr) : KST unit :=
  l ← gets (wq_linked t); assert (negb l) ;;
  upd dst (fun d => with_senders (t_senders d ++ [t]) d).

(** [list_remove(&t->waitqueue_next)]: from whichever queue it is in. *)
Definition wq_remove (t : tptr) : KST unit :=
  modify (fun k =>
    let rm := filter (fun x => x <> t) in
    set_readers (rm (k_readers k))
      (set_runqueue (rm (k_runqueue k))
        (set_tasks ((fun x => with_senders (rm (t_senders x)) x) <$> k_tasks k) k))).

(** *** User memory *)
Definition sizeof_message_data : nat := 1504.
Definition sizeof_message : Z := 8 + 1504.

Definition read_bytes (t : tptr) (a : Z) (n : nat) (u : gmap (tptr * Z) Z) : list Z :=
  (fun i => default 0 (u !! (t, a + Z.of_nat i))) <$> seq 0 n.
Fixpoint write_bytes (t : tptr) (a : Z) (bs : list Z) (u : gmap (tptr * Z) Z) : gmap (tptr * Z) Z :=
  match bs with
  | [] => u
  | b :: bs' => write_bytes t (a + 1) bs' (<[(t, a) := b]> u)
  end.

(** A [struct message] in memory. *)
Definition encode_message (m : message) : list Z :=
  le_split 4 (u32 (m_type m)) ++ le_split 4 (u32 (m_src m)) ++ m_data m.
Definition decode_message (bs : list Z) : message :=
  Message (s32 (le_combine (take 4 bs))) (s32 (le_combine (take 4 (drop 4 bs)))) (drop 8 bs).

(** memcpy_from_user and memcpy_to_user of the current task's memory; the pages are
    taken to be resident. *)
Definition memcpy_from_user (t : tptr) (src : Z) (len : nat) : KST (Z * list Z) :=
  if negb (arch_is_mappable_uaddr src) then mret (ERR_INVALID_UADDR, [])
  else bs ← gets (fun k => read_bytes t src len (k_umem k)); mret (OK, bs).
Definition memcpy_to_user (t : tptr) (dst : Z) (bs : list Z) : KST Z :=
  if negb (arch_is_mappable_uaddr dst) then mret ERR_INVALID_UADDR
  else modify (fun k => set_umem (write_bytes t dst bs (k_umem k)) k) ;; mret OK.
