(* ===== verification/Task.v ===== *)
(** Tasks and the scheduler (kernel/task.c, kernel/riscv32/task.c): the run queue,
    blocking and resuming, creation. *)

From S2P Require Import Prelude Types KData Memory Vm Kernel.

Definition TASK_QUANTUM : Z := 20 * (TICK_HZ / 1000).

(** [LIST_POP_FRONT(&runqueue)], else the current task if it can go on, else idle. *)
Definition scheduler (c : nat) : KST tptr :=
  rq ← gets k_runqueue;
  match rq with
  | next :: rq' => modify (set_runqueue rq') ;; mret next
  | [] =>
      cur ← CURRENT_TASK c;
      t ← task_at cur;
      if bool_decide (t_state t = TASK_RUNNABLE) && negb (t_destroyed t) then mret cur
      else mret (Idle c)
  end.

(** The result says whether CPU [c] left the calling task: [false] is the immediate
    return.  [arch_task_switch] changes the stack and the page table register, which
    is the change of [k_current] here. *)
Definition task_switch (c : nat) : KST bool :=
  prev ← CURRENT_TASK c;
  next ← scheduler c;
  (if bool_decide (next <> Idle c) then upd next (with_quantum TASK_QUANTUM) else mret tt) ;;
  if bool_decide (next = prev) then mret false
  else
    p ← task_at prev;
    (if bool_decide (t_state p = TASK_RUNNABLE) then push_runqueue prev else mret tt) ;;
    modify (fun k => set_current (<[c := next]> (k_current k)) k) ;;
    mret true.

(** [for (i = 0; i < NUM_TASKS_MAX; i++) if (tasks[i].state == TASK_UNUSED) return i + 1] *)
Fixpoint alloc_tid_loop (i n : nat) : KST Z :=
  match n with
  | O => mret 0
  | S n' =>
      t ← task_at (Task i);
      if bool_decide (t_state t = TASK_UNUSED) then mret (Z.of_nat i + 1)
      else alloc_tid_loop (S i) n'
  end.
Definition alloc_tid : KST Z := alloc_tid_loop 0 (Z.to_nat NUM_TASKS_MAX).

(** [&tasks[tid - 1]] for tid 0 is in front of the array: undefined. *)
Definition task_find (tid : Z) : KST (option tptr) :=
  if (tid <? 0) || (NUM_TASKS_MAX <=? tid) then mret None
  else if tid - 1 <? 0 then undef
  else
    t ← task_at (Task (Z.to_nat (tid - 1)));
    if bool_decide (t_state t = TASK_UNUSED) then mret None
    else mret (Some (Task (Z.to_nat (tid - 1)))).

(** [c] is the CPU that runs the code (IDLE_TASK is CPU-local). *)
Definition task_block (c : nat) (t : tptr) : KST unit :=
  assert (bool_decide (t <> Idle c)) ;;
  x ← task_at t;
  assert (bool_decide (t_state x = TASK_RUNNABLE)) ;;
  upd t (with_state TASK_BLOCKED).

Definition task_resume (t : tptr) : KST unit :=
  x ← task_at t;
  assert (bool_decide (t_state x = TASK_BLOCKED)) ;;
  upd t (with_state TASK_RUNNABLE) ;;
  push_runqueue t.

(** ** Creation *)
Section Create.
(** Link-time addresses of the entry trampolines (kernel/riscv32/switch.S). *)
Context (riscv32_user_entry_trampoline riscv32_kernel_entry_trampoline : Z).

Definition STACK_CANARY_VALUE : Z := 3735931505 (* 0xdeadca71 *).

Definition stack_set_canary (sp_bottom : Z) : ST memory unit :=
  modify (pm_store sp_bottom STACK_CANARY_VALUE).

(** [*--sp = v] for each [v] in turn; the result is the final [sp]. *)
Fixpoint push_words (sp : Z) (vs : list Z) : ST memory Z :=
  match vs with
  | [] => mret sp
  | v :: vs' => modify (pm_store (sp - 4) v) ;; push_words (sp - 4) vs'
  end.

(** The result is the error and [(sp, sp_bottom, sp_top)]. *)
Definition arch_task_init (ip kernel_entry arg : Z) : ST memory (Z * (Z * Z * Z)) :=
  sp_bottom ← pm_alloc KERNEL_STACK_SIZE None (Z.lor PM_ALLOC_ALIGNED PM_ALLOC_UNINITIALIZED);
  if sp_bottom =? 0 then mret (ERR_NO_MEMORY, (0, 0, 0))
  else
    let sp_top := u32 (sp_bottom + KERNEL_STACK_SIZE) in
    let '(args, entry) :=
      if truthy kernel_entry
      then ([kernel_entry; arg], riscv32_kernel_entry_trampoline)
      else ([ip], riscv32_user_entry_trampoline) in
    sp ← push_words (arch_paddr_to_vaddr sp_top) (args ++ replicate 12 0 ++ [entry]);
    stack_set_canary sp_bottom ;;
    mret (OK, (sp, sp_bottom, sp_top)).

(** [strcpy_safe(task->name, sizeof(task->name), name)] on the bytes of the string. *)
Definition task_name (name : list Z) : list Z := take (Z.to_nat TASK_NAME_LEN - 1) name.

Definition init_task_struct (t : tptr) (tid : Z) (name : list Z) (ip : Z) (pager : option tptr)
    (kernel_entry arg : Z) : KST Z :=
  upd t (fun x => TaskStruct (t_table x) (t_sp x) (t_sp_top x) (t_sp_bottom x) tid (task_name name)
    (t_state x) false pager 0 0 0 [] IPC_DENY (t_notifications x) (t_m x) (t_kctx x) (t_ret x)) ;;
  modify (fun k => set_mem (set_owned (<[t := []]> (owned (k_mem k))) (k_mem k)) k) ;;
  kt ← gets k_kernel_table;
  r ← lift_mem (arch_vm_init kt);
  let '(err, table) := r in
  upd t (fun x => TaskStruct table (t_sp x) (t_sp_top x) (t_sp_bottom x) (t_tid x) (t_name x)
    (t_state x) (t_destroyed x) (t_pager x) (t_timeout x) (t_ref_count x) (t_quantum x)
    (t_senders x) (t_wait_for x) (t_notifications x) (t_m x) (t_kctx x) (t_ret x)) ;;
  if negb (err =? OK) then mret err
  else
    r ← lift_mem (arch_task_init ip kernel_entry arg);
    let '(err, (sp, sp_bottom, sp_top)) := r in
    if negb (err =? OK) then lift_mem (arch_vm_destroy table) ;; mret err
    else
      upd t (fun x => TaskStruct (t_table x) sp sp_top sp_bottom (t_tid x) (t_name x)
        (t_state x) (t_destroyed x) (t_pager x) (t_timeout x) (t_ref_count x) (t_quantum x)
        (t_senders x) (t_wait_for x) (t_notifications x) (t_m x) KRun (t_ret x)) ;;
      match pager with
      | Some p => upd p (fun x => with_ref_count (s32 (t_ref_count x + 1)) x)
      | None => mret tt
      end ;;
      upd t (with_state TASK_BLOCKED) ;;
      mret OK.

(** [list_push_back(&active_tasks, &task->next)] *)
Definition push_active (t : tptr) : KST unit :=
  l ← gets (fun k => bool_decide (t ∈ k_active k));
  assert (negb l) ;;
  modify (fun k => set_active (k_active k ++ [t]) k).

Definition task_create (name : list Z) (ip : Z) (pager : option tptr) : KST Z :=
  tid ← alloc_tid;
  if tid =? 0 then mret ERR_TOO_MANY_TASKS
  else
    let t := Task (Z.to_nat (tid - 1)) in
    err ← init_task_struct t tid name ip pager 0 0;
    if negb (err =? OK) then mret err
    else push_active t ;; task_resume t ;; mret tid.

Definition HINAVM_INSTS_MAX : Z := 128.
(** [struct hinavm]: 128 instruction words and the count. *)
Definition sizeof_hinavm : Z := 4 * HINAVM_INSTS_MAX + 4.
(** Address of the interpreter's entry point. *)
Context (hinavm_run : Z).

(** The instructions are copied into the page by [memcpy]: their words are [insts]. *)
Definition hinavm_create (name : list Z) (insts : list Z) (pager : option tptr) : KST Z :=
  tid ← alloc_tid;
  if tid =? 0 then mret ERR_TOO_MANY_TASKS
  else
    let t := Task (Z.to_nat (tid - 1)) in
    let hinavm_size := ALIGN_UP sizeof_hinavm PAGE_SIZE in
    hinavm_paddr ← lift_mem (pm_alloc hinavm_size None PM_ALLOC_UNINITIALIZED);
    if hinavm_paddr =? 0 then mret ERR_NO_MEMORY
    else
      lift_mem (for_range 0 (length insts) (fun i =>
        modify (pm_store (hinavm_paddr + 4 * Z.of_nat i) (default 0 (insts !! i))))) ;;
      lift_mem (modify (pm_store (hinavm_paddr + 4 * HINAVM_INSTS_MAX) (Z.of_nat (length insts)))) ;;
      err ← init_task_struct t tid name 0 pager hinavm_run hinavm_paddr;
      if negb (err =? OK) then lift_mem (pm_free hinavm_paddr hinavm_size) ;; mret err
      else
        lift_mem (pm_own_page hinavm_paddr t) ;;
        push_active t ;; task_resume t ;; mret tid.
End Create.

(** [task_init_percpu] of CPU [c]: its idle task, running. *)
Definition task_init_percpu (user_tramp kernel_tramp : Z) (c : nat) : KST unit :=
  err ← init_task_struct user_tramp kernel_tramp (Idle c) 0 (chars "(idle)") 0 None 0 0;
  assert (IS_OK err) ;;
  modify (fun k => set_current (<[c := Idle c]> (k_current k)) k).

(** ** [task_dump]: the lines it prints, by reading the state only *)
Inductive dump_line :=
| DumpRunnable (tid : Z) (name : list Z)
| DumpSender (tid : Z) (name : list Z)                 (* a task blocked in a send to it *)
| DumpBlocked (tid : Z) (name : list Z)                (* send, serial_read, or exited *)
| DumpOpenReceive (tid : Z) (name : list Z)
| DumpClosedReceive (tid : Z) (name : list Z) (from : Z).

Fixpoint dump_senders (q : list tptr) : KST (list dump_line) :=
  match q with
  | [] => mret []
  | s :: q' => y ← task_at s; cons (DumpSender (t_tid y) (t_name y)) <$> dump_senders q'
  end.
Definition dump_task (t : tptr) : KST (list dump_line) :=
  x ← task_at t;
  match t_state x with
  | TASK_RUNNABLE => cons (DumpRunnable (t_tid x) (t_name x)) <$> dump_senders (t_senders x)
  | TASK_BLOCKED =>
      mret [if t_wait_for x =? IPC_DENY then DumpBlocked (t_tid x) (t_name x)
            else if t_wait_for x =? IPC_ANY then DumpOpenReceive (t_tid x) (t_name x)
            else DumpClosedReceive (t_tid x) (t_name x) (t_wait_for x)]
  | TASK_UNUSED => panic
  end.
Fixpoint dump_tasks (q : list tptr) : KST (list dump_line) :=
  match q with
  | [] => mret []
  | t :: q' => ls ← dump_task t; app ls <$> dump_tasks q'
  end.
Definition task_dump : KST (list dump_line) := q ← gets k_active; dump_tasks q.
