(* ===== verification/Ipc.v ===== *)
(** Message passing (kernel/ipc.c), and the kernel's own users of it: task exit and
    destruction (kernel/task.c) and the page fault handler (kernel/memory.c).

    A function that can block returns an option: [None] says that CPU [c] has
    switched to another task and the rest of the call is in the blocked task's
    [t_kctx], from where [resume] continues it. *)

From S2P Require Import Prelude Types KData Memory Vm Kernel Task.

Section Ipc.
(** What a [struct message] local variable holds before it is written. *)
Context (stack_garbage : message).

(** [memcpy(&dst->m, &copied_m)], the source id, [task_resume(dst)]. *)
Definition deliver (cur dst : tptr) (copied_m : message) (flags : Z) : KST Z :=
  x ← task_at cur;
  upd dst (with_m (m_set_src (if has flags IPC_KERNEL then FROM_KERNEL else t_tid x) copied_m)) ;;
  task_resume dst ;;
  mret OK.

(** [send_message] from the return of [task_switch] on. *)
Definition send_resumed (cur dst : tptr) (copied_m : message) (flags : Z) : KST Z :=
  x ← task_at cur;
  if has (t_notifications x) NOTIFY_ABORTED then
    upd cur (with_notifications (Z.land (t_notifications x) (Z.lnot NOTIFY_ABORTED))) ;;
    mret ERR_ABORTED
  else deliver cur dst copied_m flags.

(** Whether a queue holds a task with the given id. *)
Definition queue_has_tid (tid : Z) (q : list tptr) (k : kernel) : bool :=
  existsb (fun t => match k_tasks k !! t with Some x => t_tid x =? tid | None => false end) q.

(** A kernel buffer ([MKernel]) is passed exactly when [flags] has IPC_KERNEL. *)
Definition send_message (c : nat) (dst : tptr) (m : mptr) (flags src : Z) (caller : kcaller)
    : KST (option Z) :=
  cur ← CURRENT_TASK c;
  if bool_decide (dst = cur) then mret (Some ERR_INVALID_ARG)
  else
    r ← match m with
        | MKernel msg => mret (OK, msg)
        | MUser a =>
            r ← memcpy_from_user cur a (Z.to_nat sizeof_message);
            mret (r.1, decode_message r.2)
        end;
    let '(err, copied_m) := r in
    if negb (err =? OK) then mret (Some err)
    else
      d ← task_at dst;
      x ← task_at cur;
      let ready := bool_decide (t_state d = TASK_BLOCKED)
        && ((t_wait_for d =? IPC_ANY) || (t_wait_for d =? t_tid x)) in
      if ready then e ← deliver cur dst copied_m flags; mret (Some e)
      else if has flags IPC_NOBLOCK then mret (Some ERR_WOULD_BLOCK)
      else
        dead ← gets (queue_has_tid (t_tid d) (t_senders x));
        if (dead : bool) then mret (Some ERR_DEAD_LOCK)
        else
          push_senders dst cur ;;
          task_block c cur ;;
          upd cur (with_kctx (KSend dst copied_m flags src m caller)) ;;
          switched ← task_switch c;
          if (switched : bool) then mret None
          else upd cur (with_kctx KRun) ;; e ← send_resumed cur dst copied_m flags; mret (Some e).

(** The contents of the caller's buffer when no message was received. *)
Definition mptr_msg (m : mptr) : message :=
  match m with MKernel msg => msg | MUser _ => stack_garbage end.

(** The copy to the caller's buffer at the end of [recv_message]: a kernel buffer
    receives the message as the second result. *)
Definition recv_copy (cur : tptr) (m : mptr) (copied_m : message) : KST (Z * message) :=
  match m with
  | MKernel _ => mret (OK, copied_m)
  | MUser a => e ← memcpy_to_user cur a (encode_message copied_m); mret (e, copied_m)
  end.

(** [recv_message] from the return of [task_switch] on. *)
Definition recv_resumed (cur : tptr) (m : mptr) : KST (Z * message) :=
  upd cur (with_wait_for IPC_DENY) ;;
  x ← task_at cur;
  recv_copy cur m (t_m x).

(** The search of the senders: the first one [src] admits. *)
Fixpoint find_sender (src : Z) (q : list tptr) : KST (option tptr) :=
  match q with
  | [] => mret None
  | s :: q' =>
      x ← task_at s;
      if (src =? IPC_ANY) || (src =? t_tid x) then mret (Some s) else find_sender src q'
  end.

Definition recv_message (c : nat) (src : Z) (m : mptr) (flags : Z) (caller : kcaller)
    : KST (option (Z * message)) :=
  cur ← CURRENT_TASK c;
  x ← task_at cur;
  if (src =? IPC_ANY) && truthy (t_notifications x) then
    upd cur (with_notifications 0) ;;
    r ← recv_copy cur m (m_put_notifications (t_notifications x)
                           (m_set_src FROM_KERNEL (m_set_type NOTIFY_MSG stack_garbage)));
    mret (Some r)
  else if has flags IPC_NOBLOCK then
    mret (Some (ERR_WOULD_BLOCK, mptr_msg m))
  else
    s ← find_sender src (t_senders x);
    src' ← match s with
           | None => mret src
           | Some s =>
               y ← task_at s;
               assert (bool_decide (t_state y = TASK_BLOCKED)) ;;
               assert (t_wait_for y =? IPC_DENY) ;;
               wq_remove s ;;
               task_resume s ;;
               mret (t_tid y)
           end;
    upd cur (with_wait_for src') ;;
    task_block c cur ;;
    upd cur (with_kctx (KRecv m flags caller)) ;;
    switched ← task_switch c;
    if (switched : bool) then mret None
    else upd cur (with_kctx KRun) ;; r ← recv_resumed cur m; mret (Some r).

(** The receive half of [ipc]. *)
Definition ipc_recv_part (c : nat) (src : Z) (m : mptr) (flags : Z) (caller : kcaller)
    : KST (option (Z * message)) :=
  if has flags IPC_RECV then recv_message c src m flags caller
  else mret (Some (OK, mptr_msg m)).

Definition ipc (c : nat) (dst : option tptr) (src : Z) (m : mptr) (flags : Z) (caller : kcaller)
    : KST (option (Z * message)) :=
  if has flags IPC_SEND then
    match dst with
    | None => undef
    | Some d =>
        r ← send_message c d m flags src caller;
        match r with
        | None => mret None
        | Some err =>
            if negb (err =? OK) then mret (Some (err, mptr_msg m))
            else ipc_recv_part c src m flags caller
        end
    end
  else ipc_recv_part c src m flags caller.

(** [notify]: deliver at once to a task in an open receive, else hold. *)
Definition notify (dst : tptr) (notifications : Z) : KST unit :=
  d ← task_at dst;
  if bool_decide (t_state d = TASK_BLOCKED) && (t_wait_for d =? IPC_ANY) then
    upd dst (fun d => with_notifications 0 (with_m
      (m_put_notifications (Z.lor (t_notifications d) notifications)
         (m_set_src FROM_KERNEL (m_set_type NOTIFY_MSG (t_m d)))) d)) ;;
    task_resume dst
  else upd dst (fun d => with_notifications (Z.lor (t_notifications d) notifications) d).

(** ** Exit *)

(** [task_exit] after its message was sent (or refused). *)
Definition task_exit_tail (c : nat) : KST unit :=
  cur ← CURRENT_TASK c;
  task_block c cur ;;
  upd cur (with_kctx KDead) ;;
  switched ← task_switch c;
  if (switched : bool) then mret tt else panic.

Definition task_exit (c : nat) (exception : Z) : KST unit :=
  cur ← CURRENT_TASK c;
  x ← task_at cur;
  assert (bool_decide (t_pager x <> None)) ;;
  let m := m_put32 4 (u32 exception) (m_put32 0 (u32 (t_tid x))
             (m_set_type EXCEPTION_MSG stack_garbage)) in
  r ← ipc c (t_pager x) IPC_DENY (MKernel m) (Z.lor IPC_SEND IPC_KERNEL) CExit;
  match r with None => mret tt | Some _ => task_exit_tail c end.

(** ** What the caller of [ipc] does with the result

    The HinaVM interpreter passes [&current->m] as its buffer: the received message is
    there, and the result waits in [t_ret] for the interpreter. *)
Definition finish (c : nat) (caller : kcaller) (r : Z * message) : KST unit :=
  match caller with
  | CSyscall => cur ← CURRENT_TASK c; upd cur (with_ret r.1)
  | CPageFault =>
      if negb (r.1 =? OK) || negb (m_type r.2 =? PAGE_FAULT_REPLY_MSG)
      then task_exit c EXP_INVALID_PAGER_REPLY else mret tt
  | CExit => task_exit_tail c
  | CHinavm =>
      cur ← CURRENT_TASK c;
      upd cur (fun x => with_ret r.1 (with_m (if r.1 =? OK then r.2 else t_m x) x))
  end.

Definition finish_opt (c : nat) (caller : kcaller) (r : option (Z * message)) : KST unit :=
  match r with None => mret tt | Some r => finish c caller r end.

Definition handle_page_fault (c : nat) (vaddr ip fault : Z) : KST unit :=
  cur ← CURRENT_TASK c;
  x ← task_at cur;
  if negb (has fault PAGE_FAULT_USER) then panic
  else if negb (arch_is_mappable_uaddr vaddr) then task_exit c EXP_INVALID_UADDR
  else
    match t_pager x with
    | None => panic
    | Some pager =>
        p ← task_at pager;
        let m := m_put32 12 fault (m_put32 8 ip (m_put32 4 vaddr (m_put32 0 (u32 (t_tid x))
                   (m_set_type PAGE_FAULT_MSG stack_garbage)))) in
        r ← ipc c (Some pager) (t_tid p) (MKernel m) (Z.lor IPC_CALL IPC_KERNEL) CPageFault;
        finish_opt c CPageFault r
    end.

(** ** Destruction *)

Fixpoint notify_all (q : list tptr) (n : Z) : KST unit :=
  match q with
  | [] => mret tt
  | t :: q' => notify t n ;; notify_all q' n
  end.

(** Whether another CPU runs the task. *)
Definition still_running (t : tptr) : KST bool :=
  x ← task_at t;
  rq ← gets k_runqueue;
  mret (bool_decide (t_state x = TASK_RUNNABLE) && negb (bool_decide (t ∈ rq))).
(** The wait for the other CPUs: a round of [arch_send_ipi] releases the kernel lock, and
    [ipis] are what the other CPUs do to the kernel in each round; a wait that is not
    over then has no result. *)
Fixpoint destroy_wait (ipis : list (KST unit)) (t : tptr) : KST unit :=
  r ← still_running t;
  if r : bool then match ipis with [] => undef | ipi :: ipis' => ipi ;; destroy_wait ipis' t end
  else mret tt.

(** Once no CPU runs the task. *)
Definition destroy_finish (t : tptr) : KST Z :=
  x ← task_at t;
  notify_all (t_senders x) NOTIFY_ABORTED ;;
  modify (fun k => set_active (filter (fun y => y <> t) (k_active k)) k) ;;
  wq_remove t ;;
  lift_mem (arch_vm_destroy (t_table x)) ;;
  lift_mem (pm_free (t_sp_bottom x) KERNEL_STACK_SIZE) ;;
  lift_mem (pm_free_by_list t) ;;
  upd t (with_state TASK_UNUSED) ;;
  match t_pager x with
  | None => undef
  | Some p => upd p (fun y => with_ref_count (s32 (t_ref_count y - 1)) y) ;; mret OK
  end.

Definition task_destroy_with (ipis : list (KST unit)) (c : nat) (t : tptr) : KST Z :=
  cur ← CURRENT_TASK c;
  assert (bool_decide (t <> cur)) ;;
  assert (bool_decide (t <> Idle c)) ;;
  x ← task_at t;
  assert (bool_decide (t_state x <> TASK_UNUSED)) ;;
  assert (0 <=? t_ref_count x) ;;
  if t_tid x =? 1 then mret ERR_INVALID_ARG
  else if 0 <? t_ref_count x then mret ERR_STILL_USED
  else
    upd t (with_destroyed true) ;;
    destroy_wait ipis t ;;
    destroy_finish t.
(** The system call: the other CPUs do nothing while it runs. *)
Definition task_destroy (c : nat) (t : tptr) : KST Z := task_destroy_with [] c t.
End Ipc.
