(* ===== verification/Syscall.v ===== *)
(** The entry points of the kernel: system calls (kernel/syscall.c), interrupts
    (kernel/interrupt.c), the serial port (kernel/printk.c), the continuation of
    blocked calls, and the step relation they make up. *)

From S2P Require Import Prelude Types KData Memory Vm Kernel Task Ipc.

(** ** Serial input (printk.c) *)
Definition INPUT_SIZE : Z := 128.

(** One character into the ring, dropping the oldest when it is full. *)
Definition input_write (ch : Z) : KST unit :=
  modify (fun k =>
    let buf := <[Z.to_nat (k_wp k) := ch]> (k_input k) in
    let wp := (k_wp k + 1) `mod` INPUT_SIZE in
    let rp := if k_rp k =? wp then (k_rp k + 1) `mod` INPUT_SIZE else k_rp k in
    set_ring buf rp wp k).

(** Characters waiting in the UART, read until it has none; Ctrl-P (0x10) dumps the
    task list to the console and is not stored. *)
Fixpoint input_write_all (chs : list Z) : KST unit :=
  match chs with
  | [] => mret tt
  | ch :: chs' => (if ch =? 16 then _ ← task_dump; mret tt else input_write ch) ;; input_write_all chs'
  end.

(** [LIST_FOR_EACH (task, &serial_readers)]: unlink and resume each. *)
Fixpoint resume_readers (q : list tptr) : KST unit :=
  match q with
  | [] => mret tt
  | t :: q' => wq_remove t ;; task_resume t ;; resume_readers q'
  end.

Definition handle_serial_interrupt (chs : list Z) : KST unit :=
  input_write_all chs ;;
  q ← gets k_readers;
  resume_readers q.

(** The inner loop of [serial_read]; at most the 127 characters the ring can hold
    are read. *)
Fixpoint input_read (fuel : nat) (max_len : Z) (acc : list Z) : KST (list Z) :=
  match fuel with
  | O => mret acc
  | S fuel' =>
      k ← get;
      if (Z.of_nat (length acc) <? max_len) && negb (k_rp k =? k_wp k) then
        modify (set_ring (k_input k) ((k_rp k + 1) `mod` INPUT_SIZE) (k_wp k)) ;;
        input_read fuel' max_len (acc ++ [default 0 (k_input k !! Z.to_nat (k_rp k))])
      else mret acc
  end.

(** [serial_read(tmp, max_len)]: the characters, or blocked.  If [task_switch] came
    back without switching, the next round of the loop would link the task into
    [serial_readers] a second time, which [list_push_back] asserts against. *)
Definition serial_read (c : nat) (buf max_len : Z) : KST (option (list Z)) :=
  chs ← input_read (Z.to_nat INPUT_SIZE) max_len [];
  if negb (bool_decide (chs = [])) then mret (Some chs)
  else
    cur ← CURRENT_TASK c;
    push_readers cur ;;
    task_block c cur ;;
    upd cur (with_kctx (KSerial buf max_len)) ;;
    switched ← task_switch c;
    if (switched : bool) then mret None else panic.

(** ** Interrupts (interrupt.c) *)
Section Entry.
Context (stack_garbage : message).
Context (riscv32_user_entry_trampoline riscv32_kernel_entry_trampoline hinavm_run : Z).

(** arch_irq_enable and arch_irq_disable: the PLIC's enable bit. *)
Definition arch_irq_set (irq : Z) (b : bool) : KST Z :=
  assert (irq <? IRQ_MAX) ;;
  modify (fun k => set_irq (k_irq k) (<[Z.to_nat irq := b]> (k_irq_enabled k)) k) ;;
  mret OK.

Definition irq_listener (irq : Z) (k : kernel) : option tptr :=
  mjoin (k_irq k !! Z.to_nat irq).

Definition irq_listen (t : tptr) (irq : Z) : KST Z :=
  if IRQ_MAX <=? irq then mret ERR_INVALID_ARG
  else
    l ← gets (irq_listener irq);
    if bool_decide (l <> None) then mret ERR_ALREADY_USED
    else
      err ← arch_irq_set irq true;
      if negb (err =? OK) then mret err
      else modify (fun k => set_irq (<[Z.to_nat irq := Some t]> (k_irq k)) (k_irq_enabled k) k) ;;
           mret OK.

Definition irq_unlisten (t : tptr) (irq : Z) : KST Z :=
  if IRQ_MAX <=? irq then mret ERR_INVALID_ARG
  else
    l ← gets (irq_listener irq);
    if bool_decide (l <> Some t) then mret ERR_NOT_ALLOWED
    else
      err ← arch_irq_set irq false;
      if negb (err =? OK) then mret err
      else modify (fun k => set_irq (<[Z.to_nat irq := None]> (k_irq k)) (k_irq_enabled k) k) ;;
           mret OK.

Definition handle_interrupt (irq : Z) : KST unit :=
  if IRQ_MAX <=? irq then mret tt
  else
    l ← gets (irq_listener irq);
    match l with
    | None => mret tt
    | Some t => notify t NOTIFY_IRQ
    end.

(** Timeouts of the active tasks. *)
Fixpoint update_timeouts (ts : list tptr) (ticks : Z) : KST unit :=
  match ts with
  | [] => mret tt
  | t :: ts' =>
      x ← task_at t;
      (if 0 <? t_timeout x then
         let timeout := t_timeout x - Z.min (t_timeout x) ticks in
         upd t (with_timeout timeout) ;;
         (if timeout =? 0 then notify t NOTIFY_TIMER else mret tt)
       else mret tt) ;;
      update_timeouts ts' ticks
  end.

Definition handle_timer_interrupt (c : nat) (ticks : Z) : KST unit :=
  modify (fun k => set_uptime (u32 (k_uptime k + ticks)) k) ;;
  (if (c =? 0)%nat then ts ← gets k_active; update_timeouts ts ticks else mret tt) ;;
  cur ← CURRENT_TASK c;
  x ← task_at cur;
  let quantum := t_quantum x - Z.min ticks (t_quantum x) in
  upd cur (with_quantum quantum) ;;
  if quantum =? 0 then _ ← task_switch c; mret tt else mret tt.

(** ** Continuing a blocked call *)

(** The rest of the kernel code of the task that CPU [c] switched to. *)
Definition resume (c : nat) : KST unit :=
  cur ← CURRENT_TASK c;
  x ← task_at cur;
  match t_kctx x with
  | KRun => mret tt
  | KSend dst copied_m flags src m caller =>
      upd cur (with_kctx KRun) ;;
      err ← send_resumed cur dst copied_m flags;
      if negb (err =? OK) then finish stack_garbage c caller (err, mptr_msg stack_garbage m)
      else
        r ← ipc_recv_part stack_garbage c src m flags caller;
        finish_opt stack_garbage c caller r
  | KRecv m flags caller =>
      upd cur (with_kctx KRun) ;;
      r ← recv_resumed cur m;
      finish stack_garbage c caller r
  | KSerial buf max_len =>
      upd cur (with_kctx KRun) ;;
      r ← serial_read c buf max_len;
      match r with
      | None => mret tt
      | Some chs =>
          _ ← memcpy_to_user cur buf chs;
          upd cur (with_ret (Z.of_nat (length chs)))
      end
  | KDead => panic
  end.

(** ** System calls *)

(** The result goes to the caller's register. *)
Definition sys_return (c : nat) (r : Z) : KST unit :=
  cur ← CURRENT_TASK c; upd cur (with_ret r).

(** strcpy_from_user: the bytes up to the terminator, or an error. *)
Fixpoint find_nul (bs : list Z) : option (list Z) :=
  match bs with
  | [] => None
  | b :: bs' => if b =? 0 then Some [] else cons b <$> find_nul bs'
  end.
Definition strcpy_from_user (t : tptr) (dst_len : nat) (src : Z) : KST (Z * list Z) :=
  assert (0 <? Z.of_nat dst_len) ;;
  r ← memcpy_from_user t src dst_len;
  if negb (r.1 =? OK) then mret (r.1, [])
  else match find_nul r.2 with
       | Some s => mret (OK, s)
       | None => mret (ERR_INVALID_ARG, [])
       end.

Definition sys_task_create (c : nat) (name ip pager : Z) : KST Z :=
  cur ← CURRENT_TASK c;
  r ← strcpy_from_user cur (Z.to_nat TASK_NAME_LEN) name;
  if negb (r.1 =? OK) then mret r.1
  else
    p ← task_find pager;
    match p with
    | None => mret ERR_INVALID_ARG
    | Some p => task_create riscv32_user_entry_trampoline riscv32_kernel_entry_trampoline r.2 ip (Some p)
    end.

Definition bytes_to_words (bs : list Z) : list Z :=
  (fun i => le_combine (take 4 (drop (4 * i) bs))) <$> seq 0 (length bs / 4).

Definition sys_hinavm (c : nat) (name insts num_insts pager : Z) : KST Z :=
  cur ← CURRENT_TASK c;
  r ← strcpy_from_user cur (Z.to_nat TASK_NAME_LEN) name;
  if negb (r.1 =? OK) then mret r.1
  else
    p ← task_find pager;
    match p with
    | None => mret ERR_INVALID_ARG
    | Some p =>
        if HINAVM_INSTS_MAX <? num_insts then mret ERR_INVALID_ARG
        else
          i ← memcpy_from_user cur insts (Z.to_nat (num_insts * 4));
          if negb (i.1 =? OK) then mret i.1
          else hinavm_create riscv32_user_entry_trampoline riscv32_kernel_entry_trampoline hinavm_run
                 r.2 (bytes_to_words i.2) (Some p)
    end.

Definition sys_task_destroy (c : nat) (tid : Z) : KST Z :=
  t ← task_find tid;
  cur ← CURRENT_TASK c;
  match t with
  | None => mret ERR_INVALID_TASK
  | Some t => if bool_decide (t = cur) then mret ERR_INVALID_TASK else task_destroy c t
  end.

Definition sys_task_self (c : nat) : KST Z :=
  cur ← CURRENT_TASK c; x ← task_at cur; mret (t_tid x).

Definition sys_pm_alloc (c : nat) (tid size flags : Z) : KST Z :=
  if negb (Z.land flags (Z.lnot (Z.lor PM_ALLOC_ZEROED PM_ALLOC_ALIGNED)) =? 0)
  then mret ERR_INVALID_ARG
  else
    t ← task_find tid;
    match t with
    | None => mret ERR_INVALID_TASK
    | Some t =>
        cur ← CURRENT_TASK c;
        x ← task_at t;
        if bool_decide (t <> cur) && bool_decide (t_pager x <> Some cur) then mret ERR_INVALID_TASK
        else
          paddr ← lift_mem (pm_alloc size (Some t) (Z.lor flags PM_ALLOC_ZEROED));
          if paddr =? 0 then mret ERR_NO_MEMORY else mret (PADDR2PFN paddr)
    end.

Definition pager_of (k : kernel) (t : tptr) : option tptr := x ← k_tasks k !! t; t_pager x.

Definition sys_vm_map (tid uaddr paddr attrs : Z) : KST Z :=
  t ← task_find tid;
  match t with
  | None => mret ERR_INVALID_TASK
  | Some t =>
      if negb (Z.land attrs (Z.lnot (Z.lor (Z.lor PAGE_WRITABLE PAGE_READABLE) PAGE_EXECUTABLE)) =? 0)
      then mret ERR_INVALID_ARG
      else if negb (IS_ALIGNED uaddr PAGE_SIZE) || negb (IS_ALIGNED paddr PAGE_SIZE)
      then mret ERR_INVALID_ARG
      else if negb (arch_is_mappable_uaddr uaddr) then mret ERR_INVALID_UADDR
      else
        x ← task_at t;
        po ← gets pager_of;
        lift_mem (vm_map t po (t_table x) uaddr paddr (Z.lor attrs PAGE_USER))
  end.

Definition sys_vm_unmap (tid uaddr : Z) : KST Z :=
  t ← task_find tid;
  match t with
  | None => mret ERR_INVALID_TASK
  | Some t =>
      if negb (IS_ALIGNED uaddr PAGE_SIZE) then mret ERR_INVALID_ARG
      else if negb (arch_is_mappable_uaddr uaddr) then mret ERR_INVALID_UADDR
      else x ← task_at t; lift_mem (vm_unmap (t_table x) uaddr)
  end.

Definition sys_ipc (c : nat) (dst src m flags : Z) : KST (option Z) :=
  if negb (Z.land flags (Z.lnot (Z.lor (Z.lor IPC_SEND IPC_RECV) IPC_NOBLOCK)) =? 0)
  then mret (Some ERR_INVALID_ARG)
  else if (src <? 0) || (NUM_TASKS_MAX <? src) then mret (Some ERR_INVALID_ARG)
  else
    d ← (if has flags IPC_SEND then task_find dst else mret None);
    if has flags IPC_SEND && bool_decide (d = None) then mret (Some ERR_INVALID_TASK)
    else r ← ipc stack_garbage c d src (MUser m) flags CSyscall; mret (fst <$> r).

Definition sys_notify (dst notifications : Z) : KST Z :=
  d ← task_find dst;
  match d with
  | None => mret ERR_INVALID_TASK
  | Some d => notify d notifications ;; mret OK
  end.

(** [buf] is not advanced: every round writes the same bytes, and a failed copy
    writes what the buffer held. *)
Fixpoint serial_write_loop (fuel : nat) (cur : tptr) (buf remaining : Z) (kbuf : list Z) : KST unit :=
  match fuel with
  | O => mret tt
  | S fuel' =>
      if remaining <=? 0 then mret tt
      else
        let copy_len := Z.min remaining 512 in
        r ← memcpy_from_user cur buf (Z.to_nat copy_len);
        let kbuf' := if r.1 =? OK then splice 0 r.2 kbuf else kbuf in
        modify (fun k => set_serial_out (k_serial_out k ++ take (Z.to_nat copy_len) kbuf') k) ;;
        serial_write_loop fuel' cur buf (remaining - copy_len) kbuf'
  end.

(** [kbuf] holds 512 bytes of stack; eight rounds write the at most 4096 bytes. *)
Definition sys_serial_write (c : nat) (kbuf : list Z) (buf buf_len : Z) : KST Z :=
  let written_len := Z.min buf_len 4096 in
  cur ← CURRENT_TASK c;
  serial_write_loop 8 cur buf written_len kbuf ;;
  mret written_len.

Definition sys_serial_read (c : nat) (buf max_len : Z) : KST (option Z) :=
  r ← serial_read c buf (Z.min max_len 128);
  match r with
  | None => mret None
  | Some chs =>
      cur ← CURRENT_TASK c;
      _ ← memcpy_to_user cur buf chs;
      mret (Some (Z.of_nat (length chs)))
  end.

Definition sys_time (c : nat) (timeout : Z) : KST Z :=
  if timeout <? 0 then mret ERR_INVALID_ARG
  else
    cur ← CURRENT_TASK c;
    upd cur (with_timeout (if timeout =? 0 then 0 else timeout * (TICK_HZ / 1000))) ;;
    mret OK.

Definition sys_uptime : KST Z := gets (fun k => k_uptime k / TICK_HZ).

(** The dispatch; [None] is a call that blocked, ended the task or the machine. *)
Definition handle_syscall (c : nat) (kbuf : list Z) (a0 a1 a2 a3 n : Z) : KST (option Z) :=
  if n =? SYS_IPC then sys_ipc c (s32 a0) (s32 a1) (u32 a2) (u32 a3)
  else if n =? SYS_NOTIFY then Some <$> sys_notify (s32 a0) (u32 a1)
  else if n =? SYS_SERIAL_WRITE then Some <$> sys_serial_write c kbuf (u32 a0) (u32 a1)
  else if n =? SYS_SERIAL_READ then sys_serial_read c (u32 a0) (s32 a1)
  else if n =? SYS_TASK_CREATE then Some <$> sys_task_create c (u32 a0) (u32 a1) (s32 a2)
  else if n =? SYS_TASK_DESTROY then Some <$> sys_task_destroy c (s32 a0)
  else if n =? SYS_TASK_EXIT then task_exit stack_garbage c EXP_GRACE_EXIT ;; mret None
  else if n =? SYS_TASK_SELF then Some <$> sys_task_self c
  else if n =? SYS_PM_ALLOC then Some <$> sys_pm_alloc c (s32 a0) (u32 a1) (u32 a2)
  else if n =? SYS_VM_MAP then Some <$> sys_vm_map (s32 a0) (u32 a1) (u32 a2) (u32 a3)
  else if n =? SYS_VM_UNMAP then Some <$> sys_vm_unmap (s32 a0) (u32 a1)
  else if n =? SYS_IRQ_LISTEN then cur ← CURRENT_TASK c; Some <$> irq_listen cur (u32 a0)
  else if n =? SYS_IRQ_UNLISTEN then cur ← CURRENT_TASK c; Some <$> irq_unlisten cur (u32 a0)
  else if n =? SYS_HINAVM then Some <$> sys_hinavm c (u32 a0) (u32 a1) (u32 a2) (s32 a3)
  else if n =? SYS_TIME then Some <$> sys_time c (s32 a0)
  else if n =? SYS_UPTIME then Some <$> sys_uptime
  else if n =? SYS_SHUTDOWN then mret None
  else mret (Some ERR_INVALID_ARG).

(** A system call from user mode: the result, if the call returned one, goes to the
    caller's register. *)
Definition syscall (c : nat) (kbuf : list Z) (a0 a1 a2 a3 n : Z) : KST unit :=
  r ← handle_syscall c kbuf a0 a1 a2 a3 n;
  match r with
  | Some v => sys_return c v
  | None => mret tt
  end.
End Entry.
