(* ===== verification/KInv.v ===== *)
(** The scheduling invariant of the kernel, on a view of the state that keeps what
    scheduling and message passing depend on, and its preservation by the
    transitions the operations are made of: waking a receiver or a serial reader,
    blocking to send, receive or read, the rendezvous, switching, creating.

    [Sched] lifts it to the operations themselves. *)

From S2P Require Import Prelude Types KData Memory Vm Kernel Task Ipc Syscall.

(** ** The view *)
Record view := View {
  v_state : task_state; v_tid : Z; v_senders : list tptr; v_wait : Z; v_ctx : kctx;
  v_pager : option tptr }.

Definition view_of (x : task) : view :=
  View (t_state x) (t_tid x) (t_senders x) (t_wait_for x) (t_kctx x) (t_pager x).
Definition views (k : kernel) : gmap tptr view := view_of <$> k_tasks k.

Definition v_set_state s v := View s (v_tid v) (v_senders v) (v_wait v) (v_ctx v) (v_pager v).
Definition v_set_senders l v := View (v_state v) (v_tid v) l (v_wait v) (v_ctx v) (v_pager v).

(** The receiver a task inside [send_message] is waiting for. *)
Definition sends_to (x : kctx) : option tptr :=
  match x with KSend d _ _ _ _ _ => Some d | _ => None end.

(** The arguments a saved context will be continued with: the page fault handler may
    have to report to the task's pager, and a receive names a source. *)
Definition ctx_args (x : kctx) (pager : option tptr) : Prop :=
  match x with
  | KSend _ _ flags src _ caller =>
      (caller = CPageFault -> pager <> None) /\ (has flags IPC_RECV = true -> 0 <= src)
  | KRecv _ _ caller => caller = CPageFault -> pager <> None
  | _ => True
  end.

(** What the saved context of a live task says about its state. *)
Definition ctx_ok (V : gmap tptr view) (rd : list tptr) (t : tptr) (v : view) : Prop :=
  match v_ctx v with
  | KRun => v_state v = TASK_RUNNABLE /\ v_wait v = IPC_DENY
  | KSend d _ _ _ _ _ =>
      v_wait v = IPC_DENY /\
      exists w, V !! d = Some w
        /\ (v_state v = TASK_BLOCKED -> t ∈ v_senders w)
        /\ (v_state v = TASK_RUNNABLE -> v_state w = TASK_BLOCKED /\ v_wait w = v_tid v)
  | KRecv _ _ _ => v_wait v <> IPC_DENY
  | KSerial _ _ => v_wait v = IPC_DENY /\ (v_state v = TASK_BLOCKED -> t ∈ rd)
  | KDead => v_wait v = IPC_DENY /\ v_state v = TASK_BLOCKED
  end.

(** [ex = Some c] is the moment between [task_block] and [task_switch] on CPU [c]:
    the CPU still runs a task that is blocked. *)
Record vinv (ex : option nat) (V : gmap tptr view) (rq rd : list tptr) (cur : gmap nat tptr)
    : Prop := {
  vi_cur : forall c t, cur !! c = Some t -> t = Idle c \/
    exists i v, t = Task i /\ V !! t = Some v /\
      (v_state v = TASK_RUNNABLE \/ (ex = Some c /\ v_state v = TASK_BLOCKED));
  vi_inj : forall c c' t, cur !! c = Some t -> cur !! c' = Some t -> c = c';
  vi_idle : forall c v, V !! Idle c = Some v -> v_ctx v = KRun /\ v_senders v = [] /\
    (v_state v = TASK_UNUSED \/ v_state v = TASK_BLOCKED /\ v_wait v = IPC_DENY);
  vi_idle_ex : forall c, is_Some (cur !! c) -> is_Some (V !! Idle c);
  vi_dom : forall i, is_Some (V !! Task i) <-> (i < Z.to_nat NUM_TASKS_MAX)%nat;
  vi_tid : forall i v, V !! Task i = Some v -> v_state v <> TASK_UNUSED -> v_tid v = Z.of_nat i + 1;
  vi_rq_nodup : NoDup rq;
  vi_rq : forall t, t ∈ rq -> exists i v, t = Task i /\ V !! t = Some v
    /\ v_state v = TASK_RUNNABLE /\ forall c, cur !! c <> Some t;
  vi_live : forall i v, V !! Task i = Some v -> v_state v = TASK_RUNNABLE ->
    Task i ∈ rq \/ exists c, cur !! c = Some (Task i);
  vi_rd_nodup : NoDup rd;
  vi_rd : forall t, t ∈ rd -> exists i v b n, t = Task i /\ V !! t = Some v
    /\ v_state v = TASK_BLOCKED /\ v_ctx v = KSerial b n;
  vi_snd_nodup : forall d v, V !! d = Some v -> NoDup (v_senders v);
  vi_snd : forall d v s, V !! d = Some v -> s ∈ v_senders v -> exists i w, s = Task i
    /\ V !! s = Some w /\ v_state w = TASK_BLOCKED /\ sends_to (v_ctx w) = Some d;
  vi_ctx : forall i v, V !! Task i = Some v -> v_state v <> TASK_UNUSED -> ctx_ok V rd (Task i) v;
  vi_unused : forall t v, V !! t = Some v -> v_state v = TASK_UNUSED -> v_senders v = [];
  vi_mutual : forall a b v w, V !! a = Some v -> V !! b = Some w -> b ∈ v_senders v -> a ∉ v_senders w;
  vi_args : forall t v, V !! t = Some v -> ctx_args (v_ctx v) (v_pager v);
}.

(** The two halves of the invariant: who runs where, and who waits for whom. *)
Record vsched (ex : option nat) (V : gmap tptr view) (rq rd : list tptr) (cur : gmap nat tptr) : Prop := {
  vs_cur : forall c t, cur !! c = Some t -> t = Idle c \/
    exists i v, t = Task i /\ V !! t = Some v /\
      (v_state v = TASK_RUNNABLE \/ (ex = Some c /\ v_state v = TASK_BLOCKED));
  vs_inj : forall c c' t, cur !! c = Some t -> cur !! c' = Some t -> c = c';
  vs_idle : forall c v, V !! Idle c = Some v -> v_ctx v = KRun /\ v_senders v = [] /\
    (v_state v = TASK_UNUSED \/ v_state v = TASK_BLOCKED /\ v_wait v = IPC_DENY);
  vs_idle_ex : forall c, is_Some (cur !! c) -> is_Some (V !! Idle c);
  vs_dom : forall i, is_Some (V !! Task i) <-> (i < Z.to_nat NUM_TASKS_MAX)%nat;
  vs_tid : forall i v, V !! Task i = Some v -> v_state v <> TASK_UNUSED -> v_tid v = Z.of_nat i + 1;
  vs_rq_nodup : NoDup rq;
  vs_rq : forall t, t ∈ rq -> exists i v, t = Task i /\ V !! t = Some v
    /\ v_state v = TASK_RUNNABLE /\ forall c, cur !! c <> Some t;
  vs_live : forall i v, V !! Task i = Some v -> v_state v = TASK_RUNNABLE ->
    Task i ∈ rq \/ exists c, cur !! c = Some (Task i);
  vs_rd_nodup : NoDup rd;
  vs_rd : forall t, t ∈ rd -> exists i v b n, t = Task i /\ V !! t = Some v
    /\ v_state v = TASK_BLOCKED /\ v_ctx v = KSerial b n }.
Record vmsg (V : gmap tptr view) (rd : list tptr) : Prop := {
  vm_snd_nodup : forall d v, V !! d = Some v -> NoDup (v_senders v);
  vm_snd : forall d v s, V !! d = Some v -> s ∈ v_senders v -> exists i w, s = Task i
    /\ V !! s = Some w /\ v_state w = TASK_BLOCKED /\ sends_to (v_ctx w) = Some d;
  vm_ctx : forall i v, V !! Task i = Some v -> v_state v <> TASK_UNUSED -> ctx_ok V rd (Task i) v;
  vm_unused : forall t v, V !! t = Some v -> v_state v = TASK_UNUSED -> v_senders v = [];
  vm_mutual : forall a b v w, V !! a = Some v -> V !! b = Some w -> b ∈ v_senders v -> a ∉ v_senders w;
  vm_args : forall t v, V !! t = Some v -> ctx_args (v_ctx v) (v_pager v) }.
Lemma vinv_halves ex V rq rd cur : vsched ex V rq rd cur -> vmsg V rd -> vinv ex V rq rd cur.
Proof. intros [] []. by split. Qed.

Ltac vlook H := rewrite lookup_insert in H; case_decide; simplify_eq/=.

(** Shrinking sender queues keeps them free of mutual waiting. *)
Lemma mutual_shrink (V V' : gmap tptr view) :
  (forall a b v w, V !! a = Some v -> V !! b = Some w -> b ∈ v_senders v -> a ∉ v_senders w) ->
  (forall t v', V' !! t = Some v' -> exists v, V !! t = Some v /\ forall s, s ∈ v_senders v' -> s ∈ v_senders v) ->
  forall a b v w, V' !! a = Some v -> V' !! b = Some w -> b ∈ v_senders v -> a ∉ v_senders w.
Proof.
  intros HV Hsub a b v w Ha Hb Hin Hin'. destruct (Hsub _ _ Ha) as (v0 & Hv0 & S1).
  destruct (Hsub _ _ Hb) as (w0 & Hw0 & S2). exact (HV _ _ _ _ Hv0 Hw0 (S1 _ Hin) (S2 _ Hin')).
Qed.

(** ** Consequences *)
Section Facts.
Context {ex : option nat} {V : gmap tptr view} {rq rd : list tptr} {cur : gmap nat tptr}.
Hypothesis I : vinv ex V rq rd cur.

Lemma vi_tid_inj i j v w :
  V !! Task i = Some v -> V !! Task j = Some w ->
  v_state v <> TASK_UNUSED -> v_state w <> TASK_UNUSED -> v_tid v = v_tid w -> i = j.
Proof.
  intros Hv Hw Nv Nw E. rewrite (vi_tid _ _ _ _ _ I _ _ Hv Nv), (vi_tid _ _ _ _ _ I _ _ Hw Nw) in E. lia.
Qed.

(** A live task linked in no queue: what [list_push_back] asserts. *)
Lemma unlinked_recv t v :
  V !! t = Some v -> v_state v = TASK_BLOCKED -> v_wait v <> IPC_DENY ->
  t ∉ rq /\ t ∉ rd /\ (forall d w, V !! d = Some w -> t ∉ v_senders w).
Proof.
  intros Ht Hs Hw. split_and!.
  - intros (i & v' & -> & Hv' & Hr & _)%(vi_rq _ _ _ _ _ I). simplify_eq. congruence.
  - intros (i & v' & b & n & -> & Hv' & Hb & Hc)%(vi_rd _ _ _ _ _ I). simplify_eq.
    pose proof (vi_ctx _ _ _ _ _ I _ _ Ht ltac:(congruence)) as Hk. unfold ctx_ok in Hk.
    rewrite Hc in Hk. tauto.
  - intros d w Hd Hin. destruct (vi_snd _ _ _ _ _ I _ _ _ Hd Hin) as (i & v' & -> & Hv' & Hb & Hc).
    assert (v' = v) as -> by congruence.
    pose proof (vi_ctx _ _ _ _ _ I _ _ Ht ltac:(congruence)) as Hk.
    unfold ctx_ok in Hk. destruct (v_ctx v); try done. tauto.
Qed.

Lemma unlinked_running t v c :
  V !! t = Some v -> v_state v = TASK_RUNNABLE -> cur !! c = Some t ->
  t ∉ rq /\ t ∉ rd /\ (forall d w, V !! d = Some w -> t ∉ v_senders w).
Proof.
  intros Ht Hs Hc. split_and!.
  - intros (i & v' & -> & _ & _ & Hn)%(vi_rq _ _ _ _ _ I). by apply (Hn c).
  - intros (i & v' & b & n & -> & Hv' & Hb & _)%(vi_rd _ _ _ _ _ I). simplify_eq. congruence.
  - intros d w Hd Hin. destruct (vi_snd _ _ _ _ _ I _ _ _ Hd Hin) as (i & v' & -> & Hv' & Hb & _).
    simplify_eq. congruence.
Qed.

(** A sender is in the queue of its receiver only. *)
Lemma sender_unique d d' v v' s :
  V !! d = Some v -> V !! d' = Some v' -> s ∈ v_senders v -> s ∈ v_senders v' -> d = d'.
Proof.
  intros Hd Hd' Hs Hs'. destruct (vi_snd _ _ _ _ _ I _ _ _ Hd Hs) as (i & w & -> & Hw & _ & E).
  destruct (vi_snd _ _ _ _ _ I _ _ _ Hd' Hs') as (j & w' & [= <-] & Hw' & _ & E'). congruence.
Qed.
End Facts.

(** ** Waking a receiver *)
Lemma vinv_wake V rq rd cur i v :
  vinv None V rq rd cur -> V !! Task i = Some v -> v_state v = TASK_BLOCKED ->
  v_wait v <> IPC_DENY ->
  (forall j w, V !! Task j = Some w -> v_state w = TASK_RUNNABLE -> sends_to (v_ctx w) <> Some (Task i)) ->
  vinv None (<[Task i := v_set_state TASK_RUNNABLE v]> V) (rq ++ [Task i]) rd cur.
Proof.
  intros I Hv Hb Hw Hno.
  destruct (unlinked_recv I _ _ Hv Hb Hw) as (Nrq & Nrd & Nsnd).
  assert (Ncur : forall c, cur !! c <> Some (Task i)).
  { intros c Hc. destruct (vi_cur _ _ _ _ _ I _ _ Hc) as [?|(? & v' & [= <-] & Hv' & [?|[? ?]])]; [done|..]; simplify_eq; congruence. }
  destruct I as [Icur Iinj Iidle Iidx Idom Itid Irqn Irq Ilive Irdn Ird Isnn Isnd Ictx Iun Imu Ifl]. split; try done.
  - intros c t Hc. destruct (Icur _ _ Hc) as [?|(j & w & -> & Hwj & Hst)]; [by left|]. right.
    exists j, w. rewrite lookup_insert_ne; [done|]. intros [= ->]. by apply (Ncur c).
  - intros c w. rewrite lookup_insert_ne by done. apply Iidle.
  - intros c Hc. rewrite lookup_insert_ne by done. by apply Iidx.
  - intros j. rewrite <- Idom, lookup_insert. case_decide; [|done]. simplify_eq. split; eauto.
  - intros j w Hj. vlook Hj; [intros _; apply (Itid _ _ Hv); congruence|by apply Itid].
  - apply NoDup_app. split_and!; [done| |apply NoDup_singleton]. intros t Ht ->%list_elem_of_singleton. done.
  - intros t Ht. apply elem_of_app in Ht as [Ht| ->%list_elem_of_singleton].
    + destruct (Irq _ Ht) as (j & w & -> & Hj & ? & ?). exists j, w. rewrite lookup_insert_ne; [done|].
      by intros [= ->].
    + exists i, (v_set_state TASK_RUNNABLE v). by rewrite lookup_insert, decide_True.
  - intros j w Hj. vlook Hj; [intros _; left; apply elem_of_app; right; by left|].
    intros Hr. destruct (Ilive _ _ Hj Hr); [left; apply elem_of_app; by left|by right].
  - intros t Ht. destruct (Ird _ Ht) as (j & w & b & n & -> & Hj & ?). exists j, w, b, n.
    rewrite lookup_insert_ne; [done|]. by intros [= ->].
  - intros d w Hd. vlook Hd; [by apply (Isnn _ _ Hv)|by apply (Isnn _ _ Hd)].
  - intros d w s Hd Hs.
    assert (Hd' : exists w0, V !! d = Some w0 /\ s ∈ v_senders w0)
      by (vlook Hd; eauto).
    destruct Hd' as (w0 & Hw0 & Hs0). destruct (Isnd _ _ _ Hw0 Hs0) as (j & y & -> & Hy & ?).
    exists j, y. rewrite lookup_insert_ne; [done|]. intros [= ->]. by apply (Nsnd _ _ Hw0).
  - intros j w Hj. vlook Hj.
    + intros _. specialize (Ictx _ _ Hv ltac:(congruence)). unfold ctx_ok in *. simpl.
      destruct (v_ctx v); tauto.
    + intros Hu. specialize (Ictx _ _ Hj Hu). unfold ctx_ok in *.
      destruct (v_ctx w) as [|d ? ? ? ? ?| | |] eqn:Hcw; try done.
      destruct Ictx as (Hdn & w0 & Hw0 & Hq & Hr). split; [done|].
      destruct (decide (d = Task i)) as [->|Hne].
      * simplify_eq. exists (v_set_state TASK_RUNNABLE w0). rewrite lookup_insert, decide_True by done.
        split_and!; [done|done|]. intros HR. edestruct Hno; [done|done|by rewrite Hcw].
      * exists w0. by rewrite lookup_insert_ne.
  - intros t w Ht. vlook Ht; [done|by apply (Iun _ _ Ht)].
  - apply (mutual_shrink V); [done|]. intros t w Ht. vlook Ht; eauto.
  - intros t w Ht. vlook Ht; [by apply (Ifl _ _ Hv)|by apply (Ifl _ _ Ht)].
Qed.

(** ** Waking a serial reader *)
Lemma vinv_wake_reader V rq rd cur i v :
  vinv None V rq rd cur -> Task i ∈ rd -> V !! Task i = Some v ->
  vinv None (<[Task i := v_set_state TASK_RUNNABLE v]> V) (rq ++ [Task i])
       (filter (fun x => x <> Task i) rd) cur.
Proof.
  intros I Hin Hv. destruct (vi_rd _ _ _ _ _ I _ Hin) as (i' & v' & b & n & [= <-] & Hv' & Hb & Hk).
  rewrite Hv in Hv'. injection Hv' as <-.
  assert (Ncur : forall c, cur !! c <> Some (Task i)).
  { intros c Hc. destruct (vi_cur _ _ _ _ _ I _ _ Hc) as [?|(? & w & [= <-] & Hw & [?|[? ?]])]; [done|..]; simplify_eq; congruence. }
  assert (Nrq : Task i ∉ rq).
  { intros (j & w & [= <-] & Hw & Hr & _)%(vi_rq _ _ _ _ _ I). congruence. }
  assert (Nsnd : forall d w, V !! d = Some w -> Task i ∉ v_senders w).
  { intros d w Hd Hs. destruct (vi_snd _ _ _ _ _ I _ _ _ Hd Hs) as (j & y & [= <-] & Hy & _ & E).
    simplify_eq. by rewrite Hk in E. }
  destruct I as [Icur Iinj Iidle Iidx Idom Itid Irqn Irq Ilive Irdn Ird Isnn Isnd Ictx Iun Imu Ifl]. split; try done.
  - intros c t Hc. destruct (Icur _ _ Hc) as [?|(j & w & -> & Hwj & Hst)]; [by left|]. right.
    exists j, w. rewrite lookup_insert_ne; [done|]. intros [= ->]. by apply (Ncur c).
  - intros c w. rewrite lookup_insert_ne by done. apply Iidle.
  - intros c Hc. rewrite lookup_insert_ne by done. by apply Iidx.
  - intros j. rewrite <- Idom, lookup_insert. case_decide; [|done]. simplify_eq. split; eauto.
  - intros j w Hj. vlook Hj; [intros _; apply (Itid _ _ Hv); congruence|by apply Itid].
  - apply NoDup_app. split_and!; [done| |apply NoDup_singleton]. intros t Ht ->%list_elem_of_singleton. done.
  - intros t Ht. apply elem_of_app in Ht as [Ht| ->%list_elem_of_singleton].
    + destruct (Irq _ Ht) as (j & w & -> & Hj & ? & ?). exists j, w. rewrite lookup_insert_ne; [done|].
      by intros [= ->].
    + exists i, (v_set_state TASK_RUNNABLE v). by rewrite lookup_insert, decide_True.
  - intros j w Hj. vlook Hj; [intros _; left; apply elem_of_app; right; by left|].
    intros Hr. destruct (Ilive _ _ Hj Hr); [left; apply elem_of_app; by left|by right].
  - by apply NoDup_filter.
  - intros t [Hne Ht]%list_elem_of_filter. destruct (Ird _ Ht) as (j & w & b' & n' & -> & Hj & ?).
    exists j, w, b', n'. rewrite lookup_insert_ne; [done|]. congruence.
  - intros d w Hd. vlook Hd; [by apply (Isnn _ _ Hv)|by apply (Isnn _ _ Hd)].
  - intros d w s Hd Hs.
    assert (Hd' : exists w0, V !! d = Some w0 /\ s ∈ v_senders w0) by (vlook Hd; eauto).
    destruct Hd' as (w0 & Hw0 & Hs0). destruct (Isnd _ _ _ Hw0 Hs0) as (j & y & -> & Hy & ?).
    exists j, y. rewrite lookup_insert_ne; [done|]. intros [= ->]. by apply (Nsnd _ _ Hw0).
  - intros j w Hj. vlook Hj.
    + intros _. specialize (Ictx _ _ Hv ltac:(congruence)). unfold ctx_ok in *. simpl.
      rewrite Hk in *. split; [tauto|done].
    + intros Hu. pose proof (Ictx _ _ Hj Hu) as Hc. unfold ctx_ok in *.
      destruct (v_ctx w) as [|d ? ? ? ? ?| |b' n'|] eqn:Hcw; try done.
      * destruct Hc as (Hdn & w0 & Hw0 & Hq & Hr). split; [done|].
        destruct (decide (d = Task i)) as [->|Hne].
        -- assert (w0 = v) as -> by congruence. exists (v_set_state TASK_RUNNABLE v). rewrite lookup_insert, decide_True by done.
           split_and!; [done|done|]. intros HR. exfalso. destruct (Hr HR) as [_ Ew].
           pose proof (Ictx _ _ Hv ltac:(congruence)) as Hci. rewrite Hk in Hci. destruct Hci as [Ewi _].
           rewrite (Itid _ _ Hj Hu) in Ew. unfold IPC_DENY in *. lia.
        -- exists w0. by rewrite lookup_insert_ne.
      * split; [tauto|]. intros HB. apply list_elem_of_filter. split; [congruence|by apply Hc].
  - intros t w Ht. vlook Ht; [done|by apply (Iun _ _ Ht)].
  - apply (mutual_shrink V); [done|]. intros t w Ht. vlook Ht; eauto.
  - intros t w Ht. vlook Ht; [by apply (Ifl _ _ Hv)|by apply (Ifl _ _ Ht)].
Qed.

(** ** Blocking the running task *)

(** In an open or closed receive with no matching sender, on the serial port, or for
    good. *)
Definition blocked_view (v : view) (wait : Z) (x : kctx) : view :=
  View TASK_BLOCKED (v_tid v) (v_senders v) wait x (v_pager v).

Definition simple_block (wait : Z) (x : kctx) : Prop :=
  match x with
  | KRecv _ _ _ => wait <> IPC_DENY
  | KSerial _ _ | KDead => wait = IPC_DENY
  | _ => False
  end.
Definition readers_after (x : kctx) (t : tptr) (rd : list tptr) : list tptr :=
  match x with KSerial _ _ => rd ++ [t] | _ => rd end.

Section Running.
Context (V : gmap tptr view) (rq rd : list tptr) (cur : gmap nat tptr) (c i : nat) (v : view).
Hypothesis I : vinv None V rq rd cur.
Hypothesis Hc : cur !! c = Some (Task i).
Hypothesis Hv : V !! Task i = Some v.
Hypothesis Hk : v_ctx v = KRun.

Lemma running_state : v_state v = TASK_RUNNABLE.
Proof.
  destruct (vi_cur _ _ _ _ _ I _ _ Hc) as [?|(? & v' & [= <-] & Hv' & [?|[? ?]])]; [done|congruence|done].
Qed.

(** Nobody waits for the running task to take its message. *)
Lemma no_handover j w :
  V !! Task j = Some w -> v_state w = TASK_RUNNABLE -> sends_to (v_ctx w) <> Some (Task i).
Proof.
  intros Hj Hr E. pose proof (vi_ctx _ _ _ _ _ I _ _ Hj ltac:(congruence)) as Hx. unfold ctx_ok in Hx.
  destruct (v_ctx w); simplify_eq/=. destruct Hx as (_ & w0 & Hw0 & _ & Hb).
  destruct (Hb Hr) as [Hb' _]. pose proof running_state. simplify_eq. congruence.
Qed.

Lemma vinv_block wait x :
  simple_block wait x -> ctx_args x (v_pager v) ->
  vinv (Some c) (<[Task i := blocked_view v wait x]> V) rq (readers_after x (Task i) rd) cur.
Proof.
  intros Hx Hfl. pose proof running_state as Hrun.
  destruct (unlinked_running I _ _ _ Hv Hrun Hc) as (Nrq & Nrd & Nsnd).
  pose proof no_handover as Hno. pose proof I as I'.
  destruct I' as [Icur Iinj Iidle Iidx Idom Itid Irqn Irq Ilive Irdn Ird Isnn Isnd Ictx Iun Imu Ifl]. split; try done.
  - intros c' t Hc'. destruct (Icur _ _ Hc') as [?|(j & w & -> & Hwj & Hst)]; [by left|]. right.
    destruct (decide (j = i)) as [->|Hne].
    + rewrite (Iinj _ _ _ Hc' Hc). exists i, (blocked_view v wait x).
      rewrite lookup_insert, decide_True by done. split_and!; [done|done|]. by right.
    + exists j, w. rewrite lookup_insert_ne by congruence. split_and!; [done|done|].
      destruct Hst as [?|[? _]]; [by left|done].
  - intros c' w. rewrite lookup_insert_ne by done. apply Iidle.
  - intros c' Hc'. rewrite lookup_insert_ne by done. by apply Iidx.
  - intros j. rewrite <- Idom, lookup_insert. case_decide; [|done]. simplify_eq. split; eauto.
  - intros j w Hj. vlook Hj; [intros _; apply (Itid _ _ Hv); congruence|by apply Itid].
  - intros t Ht. destruct (Irq _ Ht) as (j & w & -> & Hj & ?). exists j, w.
    rewrite lookup_insert_ne; [done|]. by intros [= ->].
  - intros j w Hj. vlook Hj; [done|by apply Ilive].
  - destruct x; simpl; try done. apply NoDup_app. split_and!; [done| |apply NoDup_singleton].
    intros t Ht ->%list_elem_of_singleton. done.
  - intros t Ht. assert (t = Task i /\ (exists b n, x = KSerial b n) \/ t ∈ rd) as [[-> (b & n & ->)]|Ht'].
    { destruct x as [| | |b n|]; try (by right).
      apply elem_of_app in Ht as [?|Ht%list_elem_of_singleton]; [by right|left; eauto]. }
    + exists i. eexists _, b, n. rewrite lookup_insert, decide_True by done. done.
    + destruct (Ird _ Ht') as (j & w & b & n & -> & Hj & ?). exists j, w, b, n.
      rewrite lookup_insert_ne; [done|]. by intros [= ->].
  - intros d w Hd. vlook Hd; [by apply (Isnn _ _ Hv)|by apply (Isnn _ _ Hd)].
  - intros d w s Hd Hs.
    assert (Hd' : exists w0, V !! d = Some w0 /\ s ∈ v_senders w0) by (vlook Hd; eauto).
    destruct Hd' as (w0 & Hw0 & Hs0). destruct (Isnd _ _ _ Hw0 Hs0) as (j & y & -> & Hy & ?).
    exists j, y. rewrite lookup_insert_ne; [done|]. intros [= ->]. by apply (Nsnd _ _ Hw0).
  - intros j w Hj. vlook Hj.
    + intros _. unfold ctx_ok. simpl. destruct x; simpl in *; try done.
      split; [done|]. intros _. apply elem_of_app. right. by left.
    + intros Hu. specialize (Ictx _ _ Hj Hu). unfold ctx_ok in *.
      destruct (v_ctx w) as [|d ? ? ? ? ?| |b' n'|] eqn:Hcw; try done.
      * destruct Ictx as (Hdn & w0 & Hw0 & Hq & Hr). split; [done|].
        destruct (decide (d = Task i)) as [->|Hne].
        -- assert (w0 = v) as -> by congruence. eexists. rewrite lookup_insert, decide_True by done.
           split_and!; [done|done|]. intros HR. edestruct Hno; [done|done|by rewrite Hcw].
        -- exists w0. by rewrite lookup_insert_ne.
      * split; [tauto|]. intros HB. destruct x; simpl; [tauto..| |tauto]. apply elem_of_app. left. tauto.
  - intros t w Ht. vlook Ht; [done|by apply (Iun _ _ Ht)].
  - apply (mutual_shrink V); [done|]. intros t w Ht. vlook Ht; eauto.
  - intros t w Ht. vlook Ht; [done|by apply (Ifl _ _ Ht)].
Qed.

(** In [send_message]: linked into the receiver's queue. *)
Section BlockSend.
Context (jd : nat) (w : view) (cm : message) (fl src : Z) (m : mptr) (caller : kcaller).
Hypothesis Hne : jd <> i.
Hypothesis Hd : V !! Task jd = Some w.
Hypothesis Hu : v_state w <> TASK_UNUSED.
Hypothesis Hfl : ctx_args (KSend (Task jd) cm fl src m caller) (v_pager v).
Hypothesis Hnm : Task jd ∉ v_senders v.
Abbreviation sender' := (blocked_view v IPC_DENY (KSend (Task jd) cm fl src m caller)).
Abbreviation receiver' := (v_set_senders (v_senders w ++ [Task i]) w).
Abbreviation V' := (<[Task i := sender']> (<[Task jd := receiver']> V)).

Lemma sending_self : V' !! Task i = Some sender'.
Proof. by rewrite lookup_insert, decide_True. Qed.
Lemma sending_dst : V' !! Task jd = Some receiver'.
Proof. rewrite lookup_insert_ne by congruence. by rewrite lookup_insert, decide_True. Qed.
Lemma sending_other t : t <> Task i -> t <> Task jd -> V' !! t = V !! t.
Proof. intros. by rewrite !lookup_insert_ne. Qed.
(** A view comes from one with the same tid, context and state, but for the sender's. *)
Lemma sending_back t y : t <> Task i -> V' !! t = Some y -> exists y0, V !! t = Some y0
  /\ v_state y0 = v_state y /\ v_tid y0 = v_tid y /\ v_wait y0 = v_wait y /\ v_ctx y0 = v_ctx y
  /\ (forall s, s ∈ v_senders y0 -> s ∈ v_senders y).
Proof.
  intros Ht Hy. destruct (decide (t = Task jd)) as [->|].
  - rewrite sending_dst in Hy. injection Hy as <-. exists w. split_and!; try done.
    intros s Hs. apply elem_of_app. by left.
  - rewrite sending_other in Hy by done. by exists y.
Qed.
Lemma sending_fwd t y : t <> Task i -> V !! t = Some y -> exists y1, V' !! t = Some y1
  /\ v_state y1 = v_state y /\ v_wait y1 = v_wait y /\ v_tid y1 = v_tid y /\ v_ctx y1 = v_ctx y
  /\ (forall s, s ∈ v_senders y -> s ∈ v_senders y1).
Proof.
  intros Ht Hy. destruct (decide (t = Task jd)) as [->|].
  - simplify_eq. eexists. split; [apply sending_dst|]. split_and!; try done. intros s Hs. apply elem_of_app. by left.
  - exists y. by rewrite sending_other.
Qed.
(** The queues have one entry more. *)
Lemma sending_queues t y s : V' !! t = Some y -> s ∈ v_senders y ->
  (exists y0, V !! t = Some y0 /\ s ∈ v_senders y0) \/ (t = Task jd /\ s = Task i).
Proof.
  intros Ht Hs. destruct (decide (t = Task i)) as [->|].
  { left. exists v. rewrite sending_self in Ht. by injection Ht as <-. }
  destruct (decide (t = Task jd)) as [->|]; [|rewrite sending_other in Ht by done; eauto].
  rewrite sending_dst in Ht. injection Ht as <-. simpl in Hs.
  apply elem_of_app in Hs as [?| ->%list_elem_of_singleton]; eauto.
Qed.

Lemma sending_sched : vsched (Some c) V' rq rd cur.
Proof.
  pose proof running_state as Hrun. destruct (unlinked_running I _ _ _ Hv Hrun Hc) as (Nrq & Nrd & Nsnd).
  pose proof sending_self as HVi. pose proof sending_other as HVo. pose proof sending_back as Hsame. pose proof sending_fwd as Hfwd.
  generalize dependent V'. intros V1 HVi HVo Hsame Hfwd.
  pose proof I as [Icur Iinj Iidle Iidx Idom Itid Irqn Irq Ilive Irdn Ird Isnn Isnd Ictx Iun Imu Ifl]. split; try done.
  - intros c' t Hc'. destruct (Icur _ _ Hc') as [?|(j & y & -> & Hy & Hst)]; [by left|]. right.
    destruct (decide (j = i)) as [->|Hn].
    + rewrite (Iinj _ _ _ Hc' Hc). eexists i, _. split_and!; [done|done|]. by right.
    + destruct (Hfwd (Task j) y) as (y1 & Hy1 & E & _); [congruence|done|]. exists j, y1.
      split_and!; [done|done|]. left. rewrite E. by destruct Hst as [?|[? _]].
  - intros c' y. rewrite HVo by done. apply Iidle.
  - intros c' Hc'. rewrite HVo by done. by apply Iidx.
  - intros j. rewrite <- Idom. destruct (decide (j = i)) as [->|]; [rewrite HVi, Hv; split; eauto|].
    split; intros [y Hy]; [apply Hsame in Hy as (? & ? & _)|apply Hfwd in Hy as (? & ? & _)]; try congruence; eauto.
  - intros j y Hj Hy. destruct (decide (j = i)) as [->|Hn].
    + rewrite HVi in Hj. injection Hj as <-. apply (Itid _ _ Hv). congruence.
    + apply Hsame in Hj as (y0 & Hy0 & E1 & E2 & _); [|congruence]. rewrite <- E2. apply Itid; congruence.
  - intros t Ht. destruct (Irq _ Ht) as (j & y & -> & Hj & E & ?).
    destruct (Hfwd (Task j) y) as (y1 & Hy1 & E1 & _); [by intros [= ->]|done|].
    exists j, y1. split_and!; [done|done|congruence|done].
  - intros j y Hj Hr. destruct (decide (j = i)) as [->|Hn]; [rewrite HVi in Hj; by injection Hj as <-|].
    apply Hsame in Hj as (y0 & Hy0 & E1 & _); [|congruence]. apply (Ilive _ y0); congruence.
  - intros t Ht. destruct (Ird _ Ht) as (j & y & b & n & -> & Hj & E & E').
    destruct (Hfwd (Task j) y) as (y1 & Hy1 & E1 & _ & _ & E2 & _); [by intros [= ->]|done|].
    exists j, y1, b, n. split_and!; [done|done|congruence|congruence].
Qed.

Lemma sending_msg : vmsg V' rd.
Proof.
  pose proof running_state as Hrun. destruct (unlinked_running I _ _ _ Hv Hrun Hc) as (Nrq & Nrd & Nsnd).
  pose proof no_handover as Hno. pose proof sending_queues as Hold.
  pose proof sending_self as HVi. pose proof sending_dst as HVd. pose proof sending_other as HVo. pose proof sending_back as Hsame. pose proof sending_fwd as Hfwd.
  generalize dependent V'. intros V1 Hold HVi HVd HVo Hsame Hfwd.
  pose proof I as [Icur Iinj Iidle Iidx Idom Itid Irqn Irq Ilive Irdn Ird Isnn Isnd Ictx Iun Imu Ifl]. split; try done.
  - intros t y Ht. destruct (decide (t = Task i)) as [->|].
    { rewrite HVi in Ht. injection Ht as <-. by apply (Isnn _ _ Hv). }
    destruct (decide (t = Task jd)) as [->|]; [|rewrite HVo in Ht by done; by apply (Isnn _ _ Ht)].
    rewrite HVd in Ht. injection Ht as <-. apply NoDup_app.
    split_and!; [by apply (Isnn _ _ Hd)| |apply NoDup_singleton].
    intros s Hs ->%list_elem_of_singleton. by apply (Nsnd _ _ Hd).
  - intros t y s Ht Hs.
    destruct (Hold _ _ _ Ht Hs) as [(y0 & Hy0 & Hs0)|[-> ->]]; [|eexists i, _; split_and!; done].
    destruct (Isnd _ _ _ Hy0 Hs0) as (j & z & -> & Hz & E & E').
    destruct (Hfwd (Task j) z) as (z1 & Hz1 & E1 & _ & _ & E2 & _);
      [intros [= ->]; by apply (Nsnd _ _ Hy0)|done|].
    exists j, z1. split_and!; [done|done|congruence|congruence].
  - intros j y Hj Hy. destruct (decide (j = i)) as [->|Hn].
    { rewrite HVi in Hj. injection Hj as <-. unfold ctx_ok. simpl. split; [done|].
      eexists. split; [exact HVd|]. split; [|done]. intros _. apply elem_of_app. right. by left. }
    pose proof Hj as Hj'. apply Hsame in Hj' as (y0 & Hy0 & E1 & E2 & E3 & E4 & _); [|congruence].
    pose proof (Ictx _ _ Hy0 ltac:(congruence)) as Hx. unfold ctx_ok in *. rewrite E4 in Hx.
    destruct (v_ctx y) as [|d ? ? ? ? ?| |b' n'|] eqn:Hcw; rewrite ?E1, ?E3 in Hx; try done.
    destruct Hx as (Hdn & w0 & Hw0 & Hq & Hr). split; [done|].
    destruct (decide (d = Task i)) as [->|Hnd].
    + eexists. split; [exact HVi|]. assert (w0 = v) as -> by congruence. split; [done|].
      intros HR. edestruct (Hno j y0); [done|congruence|by rewrite E4].
    + destruct (Hfwd d w0 Hnd Hw0) as (w1 & Hw1 & F1 & F2 & F3 & _ & F4). exists w1.
      split_and!; [done|auto|]. intros HR. rewrite F1, F2, <- E2. auto.
  - intros t y Ht Hy. destruct (decide (t = Task i)) as [->|]; [rewrite HVi in Ht; by injection Ht as <-|].
    destruct (decide (t = Task jd)) as [->|]; [rewrite HVd in Ht; by injection Ht as <-|].
    rewrite HVo in Ht by done. by apply (Iun _ _ Ht).
  - intros a b y z Ha Hb Hin1 Hin2.
    destruct (Hold _ _ _ Ha Hin1) as [(y0 & Hy0 & S1)|[-> ->]], (Hold _ _ _ Hb Hin2) as [(z0 & Hz0 & S2)|[? ?]].
    + exact (Imu _ _ _ _ Hy0 Hz0 S1 S2).
    + subst. assert (y0 = v) as -> by congruence. done.
    + assert (z0 = v) as -> by congruence. done.
    + congruence.
  - intros t y Ht. destruct (decide (t = Task i)) as [->|].
    { rewrite HVi in Ht. by injection Ht as <-. }
    destruct (decide (t = Task jd)) as [->|]; [rewrite HVd in Ht; injection Ht as <-; by apply (Ifl _ _ Hd)|].
    rewrite HVo in Ht by done. by apply (Ifl _ _ Ht).
Qed.
End BlockSend.

Lemma vinv_block_send d w cm fl src m caller :
  d <> Task i -> (exists j, d = Task j) -> V !! d = Some w -> v_state w <> TASK_UNUSED ->
  ctx_args (KSend d cm fl src m caller) (v_pager v) -> d ∉ v_senders v ->
  vinv (Some c) (<[Task i := blocked_view v IPC_DENY (KSend d cm fl src m caller)]>
                  (<[d := v_set_senders (v_senders w ++ [Task i]) w]> V)) rq rd cur.
Proof.
  intros Hne [jd ->] Hd Hu Hfl Hnm. assert (jd <> i) by congruence.
  apply vinv_halves; [by apply sending_sched|by apply sending_msg].
Qed.
End Running.

Section Running2.
Context (V : gmap tptr view) (rq rd : list tptr) (cur : gmap nat tptr) (c i : nat) (v : view).
Hypothesis I : vinv None V rq rd cur.
Hypothesis Hc : cur !! c = Some (Task i).
Hypothesis Hv : V !! Task i = Some v.

(** The running task leaves a blocking call: nobody else's view changes. *)
Lemma vinv_ctx_run :
  vinv None (<[Task i := View TASK_RUNNABLE (v_tid v) (v_senders v) IPC_DENY KRun (v_pager v)]> V) rq rd cur.
Proof.
  assert (Hrun : v_state v = TASK_RUNNABLE).
  { destruct (vi_cur _ _ _ _ _ I _ _ Hc) as [?|(? & v' & [= <-] & Hv' & [?|[? ?]])]; [done|congruence|done]. }
  destruct (unlinked_running I _ _ _ Hv Hrun Hc) as (Nrq & Nrd & Nsnd). pose proof I as I'.
  destruct I' as [Icur Iinj Iidle Iidx Idom Itid Irqn Irq Ilive Irdn Ird Isnn Isnd Ictx Iun Imu Ifl]. split; try done.
  - intros c' t Hc'. destruct (Icur _ _ Hc') as [?|(j & w & -> & Hwj & Hst)]; [by left|]. right.
    destruct (decide (j = i)) as [->|Hne].
    + eexists i, _. rewrite lookup_insert, decide_True by done. split_and!; [done|done|]. by left.
    + exists j, w. by rewrite lookup_insert_ne by congruence.
  - intros c' w. rewrite lookup_insert_ne by done. apply Iidle.
  - intros c' Hc'. rewrite lookup_insert_ne by done. by apply Iidx.
  - intros j. rewrite <- Idom, lookup_insert. case_decide; [|done]. simplify_eq. split; eauto.
  - intros j w Hj. vlook Hj; [intros _; apply (Itid _ _ Hv); congruence|by apply Itid].
  - intros t Ht. destruct (Irq _ Ht) as (j & w & -> & Hj & ?). exists j, w.
    rewrite lookup_insert_ne; [done|]. by intros [= ->].
  - intros j w Hj. vlook Hj; [intros _; by apply (Ilive _ _ Hv)|by apply Ilive].
  - intros t Ht. destruct (Ird _ Ht) as (j & w & b & n & -> & Hj & ?). exists j, w, b, n.
    rewrite lookup_insert_ne; [done|]. by intros [= ->].
  - intros d w Hd. vlook Hd; [by apply (Isnn _ _ Hv)|by apply (Isnn _ _ Hd)].
  - intros d w s Hd Hs.
    assert (Hd' : exists w0, V !! d = Some w0 /\ s ∈ v_senders w0) by (vlook Hd; eauto).
    destruct Hd' as (w0 & Hw0 & Hs0). destruct (Isnd _ _ _ Hw0 Hs0) as (j & y & -> & Hy & ?).
    exists j, y. rewrite lookup_insert_ne; [done|]. intros [= ->]. by apply (Nsnd _ _ Hw0).
  - intros j w Hj. vlook Hj; [done|].
    intros Hu. specialize (Ictx _ _ Hj Hu). unfold ctx_ok in *.
    destruct (v_ctx w) as [|d ? ? ? ? ?| |b' n'|] eqn:Hcw; try done.
    destruct Ictx as (Hdn & w0 & Hw0 & Hq & Hr). split; [done|].
    destruct (decide (d = Task i)) as [->|Hne].
    + assert (w0 = v) as -> by congruence. eexists. rewrite lookup_insert, decide_True by done.
      split_and!; [done|done|]. intros HR. destruct (Hr HR) as [Hb _]. congruence.
    + exists w0. by rewrite lookup_insert_ne.
  - intros t w Ht. vlook Ht; [done|by apply (Iun _ _ Ht)].
  - apply (mutual_shrink V); [done|]. intros t w Ht. vlook Ht; eauto.
  - intros t w Ht. vlook Ht; [done|by apply (Ifl _ _ Ht)].
Qed.

(** The rendezvous in [recv_message]: sender [j] is taken off the queue and made
    runnable, and the receiver blocks waiting for exactly that sender. *)
Section Rendezvous.
Context (j : nat) (w : view) (m : mptr) (fl : Z) (caller : kcaller).
Hypothesis Hk : v_ctx v = KRun.
Hypothesis Hin : Task j ∈ v_senders v.
Hypothesis Hw : V !! Task j = Some w.
Hypothesis Hfl : caller = CPageFault -> v_pager v <> None.
Abbreviation receiver' := (View TASK_BLOCKED (v_tid v) (filter (fun x => x <> Task j) (v_senders v))
                             (v_tid w) (KRecv m fl caller) (v_pager v)).
Abbreviation V' := (<[Task i := receiver']> (<[Task j := v_set_state TASK_RUNNABLE w]> V)).

(** What is known of the sender. *)
Lemma queued_sender : j <> i /\ v_state w = TASK_BLOCKED /\ v_wait w = IPC_DENY /\ sends_to (v_ctx w) = Some (Task i) /\
  Task j ∉ rq /\ Task j ∉ rd /\ (forall c', cur !! c' <> Some (Task j)).
Proof.
  pose proof (running_state _ _ _ _ _ _ _ I Hc Hv) as Hrun.
  destruct (unlinked_running I _ _ _ Hv Hrun Hc) as (Nrq & Nrd & Nsnd).
  destruct (vi_snd _ _ _ _ _ I _ _ _ Hv Hin) as (j' & w' & [= <-] & Hw' & Hb & Hto).
  assert (w' = w) as -> by congruence.
  pose proof (vi_ctx _ _ _ _ _ I _ _ Hw ltac:(congruence)) as Hcw. unfold ctx_ok in Hcw.
  destruct (v_ctx w) as [|d ? ? ? ? ?| | |] eqn:Ew; try done. destruct Hcw as [Hwd _]. split_and!; try done.
  - intros ->. by apply (Nsnd _ _ Hv).
  - intros (? & y & [= <-] & Hy & Hr & _)%(vi_rq _ _ _ _ _ I). congruence.
  - intros (? & y & b & n & [= <-] & Hy & _ & E)%(vi_rd _ _ _ _ _ I). congruence.
  - intros c' Hc'. destruct (vi_cur _ _ _ _ _ I _ _ Hc') as [?|(? & y & [= <-] & Hy & [?|[? ?]])]; [done|congruence|done].
Qed.
Lemma taking_self : V' !! Task i = Some receiver'.
Proof. by rewrite lookup_insert, decide_True. Qed.
Lemma taking_sender : V' !! Task j = Some (v_set_state TASK_RUNNABLE w).
Proof. destruct queued_sender as [Hij _]. rewrite lookup_insert_ne by congruence. by rewrite lookup_insert, decide_True. Qed.
Lemma taking_other t : t <> Task i -> t <> Task j -> V' !! t = V !! t.
Proof. intros. by rewrite !lookup_insert_ne. Qed.

Lemma taking_sched : vsched (Some c) V' (rq ++ [Task j]) rd cur.
Proof.
  pose proof (running_state _ _ _ _ _ _ _ I Hc Hv) as Hrun. destruct (unlinked_running I _ _ _ Hv Hrun Hc) as (Nrq & Nrd & Nsnd).
  destruct queued_sender as (Hij & Hb & Hwd & Hto & Njrq & Njrd & Njcur).
  pose proof taking_self as HVi. pose proof taking_sender as HVj. pose proof taking_other as HVo.
  generalize dependent V'. intros V1 HVi HVj HVo.
  pose proof I as [Icur Iinj Iidle Iidx Idom Itid Irqn Irq Ilive Irdn Ird Isnn Isnd Ictx Iun Imu Ifl]. split; try done.
  - intros c' t Hc'. destruct (Icur _ _ Hc') as [?|(l & y & -> & Hy & Hst)]; [by left|]. right.
    destruct (decide (l = i)) as [->|Hn].
    + rewrite (Iinj _ _ _ Hc' Hc). eexists i, _. split_and!; [done|done|]. by right.
    + exists l, y. rewrite HVo by (try congruence; intros [= ->]; by apply (Njcur c')).
      split_and!; [done|done|]. left. by destruct Hst as [?|[? _]].
  - intros c' y. rewrite HVo by done. apply Iidle.
  - intros c' Hc'. rewrite HVo by done. by apply Iidx.
  - intros l. rewrite <- Idom. destruct (decide (l = i)) as [->|]; [rewrite HVi, Hv; split; eauto|].
    destruct (decide (l = j)) as [->|]; [rewrite HVj, Hw; split; eauto|]. by rewrite HVo by congruence.
  - intros l y Hl Hu. destruct (decide (l = i)) as [->|].
    { rewrite HVi in Hl. injection Hl as <-. apply (Itid _ _ Hv). congruence. }
    destruct (decide (l = j)) as [->|]; [|rewrite HVo in Hl by congruence; by apply Itid].
    rewrite HVj in Hl. injection Hl as <-. apply (Itid _ _ Hw). congruence.
  - apply NoDup_app. split_and!; [done| |apply NoDup_singleton]. by intros t Ht ->%list_elem_of_singleton.
  - intros t Ht. apply elem_of_app in Ht as [Ht| ->%list_elem_of_singleton].
    + destruct (Irq _ Ht) as (l & y & -> & Hl & ?). exists l, y.
      rewrite HVo; [done|by intros [= ->]|by intros [= ->]].
    + eexists j, _. split_and!; [done|done|done|done].
  - intros l y Hl Hr. destruct (decide (l = j)) as [->|]; [left; apply elem_of_app; right; by left|].
    destruct (decide (l = i)) as [->|]; [rewrite HVi in Hl; by injection Hl as <-|].
    rewrite HVo in Hl by congruence. destruct (Ilive _ _ Hl Hr); [left; apply elem_of_app; by left|by right].
  - intros t Ht. destruct (Ird _ Ht) as (l & y & b & n & -> & Hl & ?). exists l, y, b, n.
    rewrite HVo; [done|by intros [= ->]|by intros [= ->]].
Qed.

Lemma taking_msg : vmsg V' rd.
Proof.
  pose proof (running_state _ _ _ _ _ _ _ I Hc Hv) as Hrun. destruct (unlinked_running I _ _ _ Hv Hrun Hc) as (Nrq & Nrd & Nsnd).
  pose proof (no_handover _ _ _ _ _ _ _ I Hc Hv) as Hno. destruct queued_sender as (Hij & Hb & Hwd & Hto & _).
  assert (Hnot_j : forall d y s, V !! d = Some y -> s ∈ v_senders y -> d <> Task i -> s <> Task j).
  { intros d y s Hd Hs Hne ->. apply Hne. by apply (sender_unique I d (Task i) y v (Task j)). }
  pose proof taking_self as HVi. pose proof taking_sender as HVj. pose proof taking_other as HVo.
  generalize dependent V'. intros V1 HVi HVj HVo.
  pose proof I as [Icur Iinj Iidle Iidx Idom Itid Irqn Irq Ilive Irdn Ird Isnn Isnd Ictx Iun Imu Ifl]. split; try done.
  - intros t y Ht. destruct (decide (t = Task i)) as [->|].
    { rewrite HVi in Ht. injection Ht as <-. by apply NoDup_filter, (Isnn _ _ Hv). }
    destruct (decide (t = Task j)) as [->|]; [|rewrite HVo in Ht by done; by apply (Isnn _ _ Ht)].
    rewrite HVj in Ht. injection Ht as <-. by apply (Isnn _ _ Hw).
  - intros t y s Ht Hs.
    assert (exists y0, V !! t = Some y0 /\ s ∈ v_senders y0 /\ s <> Task j) as (y0 & Hy0 & Hs0 & Hsj).
    { destruct (decide (t = Task i)) as [->|].
      { rewrite HVi in Ht. injection Ht as <-. simpl in Hs. apply list_elem_of_filter in Hs as [? ?]. eauto. }
      destruct (decide (t = Task j)) as [->|].
      - rewrite HVj in Ht. injection Ht as <-. exists w. split_and!; eauto.
      - rewrite HVo in Ht by done. exists y. split_and!; eauto. }
    destruct (Isnd _ _ _ Hy0 Hs0) as (l & z & -> & Hz & E & E').
    exists l, z. rewrite HVo; [done| |done]. intros [= ->]. by apply (Nsnd _ _ Hy0).
  - intros l y Hl Hu. destruct (decide (l = i)) as [->|].
    { rewrite HVi in Hl. injection Hl as <-. unfold ctx_ok. simpl.
      rewrite (Itid _ _ Hw) by congruence. unfold IPC_DENY. lia. }
    destruct (decide (l = j)) as [->|].
    { rewrite HVj in Hl. injection Hl as <-. unfold ctx_ok. simpl.
      destruct (v_ctx w); try done. injection Hto as ->. split; [done|].
      eexists. split; [exact HVi|]. split; [done|]. done. }
    rewrite HVo in Hl by congruence. pose proof (Ictx _ _ Hl Hu) as Hx. unfold ctx_ok in *.
    destruct (v_ctx y) as [|d ? ? ? ? ?| | |] eqn:Hcy; try done.
    destruct Hx as (Hdn & w0 & Hw0 & Hq & Hr). split; [done|].
    destruct (decide (d = Task i)) as [->|Hnd].
    { assert (w0 = v) as -> by congruence. eexists. split; [exact HVi|]. split.
      - intros HB. apply list_elem_of_filter. split; [congruence|auto].
      - intros HR. edestruct (Hno l y); [done|done|by rewrite Hcy]. }
    destruct (decide (d = Task j)) as [->|Hnj]; [|exists w0; by rewrite HVo].
    assert (w0 = w) as -> by congruence. eexists. split; [exact HVj|]. split; [done|].
    intros HR. destruct (Hr HR) as [_ E]. rewrite Hwd, (Itid _ _ Hl Hu) in E. unfold IPC_DENY in E. lia.
  - intros t y Ht Hu. destruct (decide (t = Task i)) as [->|]; [rewrite HVi in Ht; by injection Ht as <-|].
    destruct (decide (t = Task j)) as [->|]; [rewrite HVj in Ht; by injection Ht as <-|].
    rewrite HVo in Ht by done. by apply (Iun _ _ Ht).
  - apply (mutual_shrink V); [done|]. intros t y Ht. destruct (decide (t = Task i)) as [->|].
    { rewrite HVi in Ht. injection Ht as <-. exists v. split; [done|].
      intros s Hs. simpl in Hs. by apply list_elem_of_filter in Hs as [_ ?]. }
    destruct (decide (t = Task j)) as [->|]; [|rewrite HVo in Ht by done; eauto].
    rewrite HVj in Ht. injection Ht as <-. eauto.
  - intros t y Ht. destruct (decide (t = Task i)) as [->|].
    { rewrite HVi in Ht. by injection Ht as <-. }
    destruct (decide (t = Task j)) as [->|]; [rewrite HVj in Ht; injection Ht as <-; by apply (Ifl _ _ Hw)|].
    rewrite HVo in Ht by done. by apply (Ifl _ _ Ht).
Qed.
End Rendezvous.

Lemma vinv_rendezvous j w m fl caller :
  v_ctx v = KRun -> Task j ∈ v_senders v -> V !! Task j = Some w ->
  (caller = CPageFault -> v_pager v <> None) ->
  vinv (Some c)
    (<[Task i := View TASK_BLOCKED (v_tid v) (filter (fun x => x <> Task j) (v_senders v))
                   (v_tid w) (KRecv m fl caller) (v_pager v)]>
      (<[Task j := v_set_state TASK_RUNNABLE w]> V))
    (rq ++ [Task j]) rd cur.
Proof. intros Hk Hin Hw Hfl. apply vinv_halves; [by apply taking_sched|by apply taking_msg]. Qed.
End Running2.

(** ** Switching *)

(** CPU [c] goes from [prev] to [next]: the head of the run queue, or the idle task
    when the queue is empty; a runnable [prev] is queued. *)
Definition requeue (V : gmap tptr view) (prev : tptr) : list tptr :=
  match V !! prev with
  | Some p => if bool_decide (v_state p = TASK_RUNNABLE) then [prev] else []
  | None => []
  end.

Lemma vinv_switch ex V rq rq0 rd cur c prev next :
  vinv ex V rq rd cur -> ex = None \/ ex = Some c -> cur !! c = Some prev -> next <> prev ->
  rq = next :: rq0 \/ (next = Idle c /\ rq0 = rq) ->
  vinv None V (rq0 ++ requeue V prev) rd (<[c := next]> cur).
Proof.
  intros I Hex Hc Hne Hnext. pose proof I as I'.
  assert (Hreq : forall t, t ∈ requeue V prev -> t = prev /\ exists i p, prev = Task i
            /\ V !! prev = Some p /\ v_state p = TASK_RUNNABLE).
  { intros t Ht. unfold requeue in Ht. destruct (V !! prev) as [p|] eqn:Hp; [|by apply not_elem_of_nil in Ht].
    case_bool_decide as Hr; [|by apply not_elem_of_nil in Ht].
    apply list_elem_of_singleton in Ht as ->. split; [done|]. destruct prev as [i|c']; [eauto|].
    destruct (vi_idle _ _ _ _ _ I _ _ Hp) as (_ & _ & [?|[? _]]); congruence. }
  assert (Hsub : forall t, t ∈ rq0 -> t ∈ rq /\ t <> next).
  { intros t Ht. pose proof (vi_rq_nodup _ _ _ _ _ I) as Hnd. destruct Hnext as [-> |[-> <-]].
    - split; [by right|]. intros ->. by apply NoDup_cons in Hnd as [? _].
    - split; [done|]. intros ->. destruct (vi_rq _ _ _ _ _ I _ Ht) as (? & ? & ? & _). done. }
  assert (Hnotrun : forall t, t ∈ rq -> t <> prev).
  { intros t Ht ->. destruct (vi_rq _ _ _ _ _ I _ Ht) as (? & ? & _ & _ & _ & Hn). by apply (Hn c). }
  assert (Hnc : forall c', next <> Idle c -> cur !! c' <> Some next).
  { intros c' Hni. destruct Hnext as [-> |[-> _]]; [|done].
    destruct (vi_rq _ _ _ _ _ I next) as (? & ? & _ & _ & _ & Hn); [by left|done]. }
  destruct I' as [Icur Iinj Iidle Iidx Idom Itid Irqn Irq Ilive Irdn Ird Isnn Isnd Ictx Iun Imu Ifl]. split; try done.
  - intros c' t. rewrite lookup_insert. case_decide as Hcc; intros Ht.
    + injection Ht as <-. subst c'. destruct Hnext as [-> |[-> _]]; [|by left]. right.
      destruct (Irq next) as (i & w & -> & Hw & ? & _); [by left|]. exists i, w. auto.
    + destruct (Icur _ _ Ht) as [?|(i & w & -> & Hw & [?|[? ?]])]; [by left|right; exists i, w; auto|].
      exfalso. destruct Hex; congruence.
  - intros c1 c2 t. rewrite !lookup_insert. repeat case_decide; intros H1 H2; simplify_eq; try done.
    + destruct (decide (t = Idle c1)) as [->|]; [|by edestruct (Hnc c2)].
      destruct (Icur _ _ H2) as [[= ->]|(? & ? & ? & _)]; done.
    + destruct (decide (t = Idle c2)) as [->|]; [|by edestruct (Hnc c1)].
      destruct (Icur _ _ H1) as [[= ->]|(? & ? & ? & _)]; done.
    + by apply (Iinj _ _ t).
  - intros c' Hc'. apply Iidx. rewrite lookup_insert in Hc'. case_decide; [subst; eauto|done].
  - apply NoDup_app. split_and!.
    + destruct Hnext as [-> |[-> <-]]; [by apply NoDup_cons in Irqn as [_ ?]|done].
    + intros t Ht Ht'. apply Hreq in Ht' as [-> _]. apply Hsub in Ht as [Ht _]. by apply (Hnotrun prev).
    + unfold requeue. repeat case_match; first [apply NoDup_singleton|apply NoDup_nil_2].
  - intros t [Ht|Ht]%elem_of_app.
    + apply Hsub in Ht as [Ht Hn]. destruct (Irq _ Ht) as (i & w & -> & Hw & ? & Hnc').
      exists i, w. split_and!; [done|done|done|]. intros c'. rewrite lookup_insert. case_decide; [congruence|done].
    + apply Hreq in Ht as [-> (i & p & -> & Hp & Hr)]. exists i, p. split_and!; [done..|].
      intros c'. rewrite lookup_insert. case_decide; [congruence|]. intros H'. by apply (Iinj c' c) in H'.
  - intros i w Hw Hr. destruct (Ilive _ _ Hw Hr) as [Hin|[c' Hc']].
    + destruct Hnext as [-> |[-> <-]]; [|left; apply elem_of_app; by left].
      apply elem_of_cons in Hin as [<-|?]; [|left; apply elem_of_app; by left].
      right. exists c. by rewrite lookup_insert, decide_True.
    + destruct (decide (c' = c)) as [->|Hn].
      * left. apply elem_of_app. right. rewrite Hc in Hc'. injection Hc' as ->. unfold requeue.
        rewrite Hw, bool_decide_true by done. by left.
      * right. exists c'. by rewrite lookup_insert_ne.
Qed.

(** The same when [task_switch] returns at once. *)
Lemma vinv_stay ex V rq rd cur c prev p :
  vinv ex V rq rd cur -> ex = None \/ ex = Some c -> cur !! c = Some prev ->
  prev = Idle c \/ (V !! prev = Some p /\ v_state p = TASK_RUNNABLE) ->
  vinv None V rq rd cur.
Proof.
  intros I Hex Hc Hp. pose proof (vi_cur _ _ _ _ _ I) as Icur. destruct I. split; try done.
  intros c' t Ht. destruct (Icur _ _ Ht) as [?|(i & w & -> & Hw & [?|[? Hb]])]; [by left|right; exists i, w; auto|].
  assert (c' = c) as -> by (destruct Hex; congruence). rewrite Hc in Ht. injection Ht as ->.
  destruct Hp as [?|[? ?]]; congruence.
Qed.

(** ** Creating a task in an unused slot *)
Lemma vinv_create V rq rd cur i v p :
  vinv None V rq rd cur -> V !! Task i = Some v -> v_state v = TASK_UNUSED ->
  vinv None (<[Task i := View TASK_RUNNABLE (Z.of_nat i + 1) [] IPC_DENY KRun p]> V) (rq ++ [Task i]) rd cur.
Proof.
  intros I Hv Hun. pose proof I as I'.
  assert (Nrq : Task i ∉ rq).
  { intros (? & y & [= <-] & Hy & Hr & _)%(vi_rq _ _ _ _ _ I). congruence. }
  assert (Nrd : Task i ∉ rd).
  { intros (? & y & b & n & [= <-] & Hy & Hr & _)%(vi_rd _ _ _ _ _ I). congruence. }
  assert (Ncur : forall c, cur !! c <> Some (Task i)).
  { intros c Hc. destruct (vi_cur _ _ _ _ _ I _ _ Hc) as [?|(? & w & [= <-] & Hw & [?|[? ?]])]; [done|congruence|done]. }
  destruct I' as [Icur Iinj Iidle Iidx Idom Itid Irqn Irq Ilive Irdn Ird Isnn Isnd Ictx Iun Imu Ifl]. split; try done.
  - intros c t Hc. destruct (Icur _ _ Hc) as [?|(j & w & -> & Hwj & Hst)]; [by left|]. right.
    exists j, w. rewrite lookup_insert_ne; [done|]. intros [= ->]. by apply (Ncur c).
  - intros c w. rewrite lookup_insert_ne by done. apply Iidle.
  - intros c Hc. rewrite lookup_insert_ne by done. by apply Iidx.
  - intros j. rewrite <- Idom, lookup_insert. case_decide; [|done]. simplify_eq. split; eauto.
  - intros j w Hj. vlook Hj; [done|by apply Itid].
  - apply NoDup_app. split_and!; [done| |apply NoDup_singleton]. intros t Ht ->%list_elem_of_singleton. done.
  - intros t Ht. apply elem_of_app in Ht as [Ht| ->%list_elem_of_singleton].
    + destruct (Irq _ Ht) as (j & w & -> & Hj & ? & ?). exists j, w. rewrite lookup_insert_ne; [done|].
      by intros [= ->].
    + eexists i, _. by rewrite lookup_insert, decide_True.
  - intros j w Hj. vlook Hj; [intros _; left; apply elem_of_app; right; by left|].
    intros Hr. destruct (Ilive _ _ Hj Hr); [left; apply elem_of_app; by left|by right].
  - intros t Ht. destruct (Ird _ Ht) as (j & w & b & n & -> & Hj & ?). exists j, w, b, n.
    rewrite lookup_insert_ne; [done|]. by intros [= ->].
  - intros d w Hd. vlook Hd; [apply NoDup_nil_2|by apply (Isnn _ _ Hd)].
  - intros d w s Hd Hs. vlook Hd; [by apply not_elem_of_nil in Hs|].
    destruct (Isnd _ _ _ Hd Hs) as (j & y & -> & Hy & Hb & ?). exists j, y.
    rewrite lookup_insert_ne; [done|]. intros [= ->]. congruence.
  - intros j w Hj. vlook Hj; [done|]. intros Hu. specialize (Ictx _ _ Hj Hu). unfold ctx_ok in *.
    destruct (v_ctx w) as [|d ? ? ? ? ?| | |] eqn:Hcw; try done.
    destruct Ictx as (Hdn & w0 & Hw0 & Hq & Hr). split; [done|].
    destruct (decide (d = Task i)) as [->|Hne]; [|exists w0; by rewrite lookup_insert_ne].
    assert (w0 = v) as -> by congruence. exfalso. destruct (v_state w) eqn:Hst; [done|..].
    + destruct (Hr eq_refl). congruence.
    + specialize (Hq eq_refl). rewrite (Iun _ _ Hv Hun) in Hq. by apply not_elem_of_nil in Hq.
  - intros t w Ht. vlook Ht; [done|by apply (Iun _ _ Ht)].
  - apply (mutual_shrink V); [done|]. intros t w Ht. vlook Ht; [|eauto].
    exists v. split; [done|]. by intros s Hs%not_elem_of_nil.
  - intros t w Ht. vlook Ht; [done|by apply (Ifl _ _ Ht)].
Qed.
