(* ===== verification/Sched.v ===== *)
(** The kernel operations keep the scheduling invariant and never panic.

    Each operation of [Task], [Ipc] and [Syscall] is proved totally correct with
    respect to the invariant [kinv] ([Prelude.safe]): from a state that satisfies
    it the operation returns, in a state that satisfies it. *)

From S2P Require Import Prelude Types KData Memory Vm Kernel Task Ipc Syscall KInv.

(** ** The invariant of the kernel *)
Definition pagers (k : kernel) : gmap tptr (option tptr) := t_pager <$> k_tasks k.

(** The task pointers kept outside the queues: pagers, interrupt listeners, the list
    of active tasks. *)
Record static_ok (k : kernel) : Prop := {
  so_pager : forall t p, pagers k !! t = Some (Some p) ->
    exists j v, p = Task j /\ views k !! p = Some v /\ v_state v <> TASK_UNUSED;
  so_irq : forall n t, irq_listener n k = Some t -> exists i, t = Task i /\ (i < Z.to_nat NUM_TASKS_MAX)%nat;
  so_active : forall t, t ∈ k_active k ->
    exists i v, t = Task i /\ views k !! t = Some v /\ v_state v <> TASK_UNUSED;
}.

Definition kinv_x (ex : option nat) (k : kernel) : Prop :=
  vinv ex (views k) (k_runqueue k) (k_readers k) (k_current k) /\ static_ok k.
Definition kinv (k : kernel) : Prop := kinv_x None k.

(** What the code CPU [c] runs does not do to the others: they keep the tasks they run,
    and those the calls they are inside. *)
Record klocal (c : nat) (k k' : kernel) : Prop := {
  kl_cur : forall c', c' <> c -> k_current k' !! c' = k_current k !! c';
  kl_ctx : forall c' t x, c' <> c -> k_current k !! c' = Some t -> k_tasks k !! t = Some x ->
    exists x', k_tasks k' !! t = Some x' /\ t_kctx x' = t_kctx x;
  kl_on : is_Some (k_current k !! c) -> is_Some (k_current k' !! c);
}.

#[export] Instance klocal_preorder c : PreOrder (klocal c).
Proof.
  split; [intros k; split; eauto|]. intros k1 k2 k3 [C1 X1 N1] [C2 X2 N2]. split; [..|auto].
  - intros c' Hc. rewrite C2 by done. auto.
  - intros c' t x Hc Ht Hx. destruct (X1 _ _ _ Hc Ht Hx) as (y & Hy & <-).
    apply (X2 c' t y); [done|by rewrite C1|done].
Qed.

Lemma klocal_all c k k' :
  k_current k' = k_current k ->
  (forall u x, k_tasks k !! u = Some x -> exists x', k_tasks k' !! u = Some x' /\ t_kctx x' = t_kctx x) ->
  klocal c k k'.
Proof. intros Hcur Hctx. split; rewrite ?Hcur; eauto. Qed.

Lemma klocal_switch c k k' k1 next :
  klocal c k k1 -> k_tasks k' = k_tasks k1 -> k_current k' = <[c := next]> (k_current k) -> klocal c k k'.
Proof.
  intros [C X N] ET Ecur. split; rewrite ?ET, ?Ecur; [|done|rewrite lookup_insert, decide_True by done; eauto].
  intros c' Hc'. by rewrite lookup_insert_ne.
Qed.

(** What every operation leaves alone. *)
Record kframe (c : nat) (k k' : kernel) : Prop := {
  kf_pagers : pagers k' = pagers k;
  kf_irq : k_irq k' = k_irq k;
  kf_active : k_active k' = k_active k;
  kf_live : forall t v, views k !! t = Some v -> v_state v <> TASK_UNUSED ->
    exists v', views k' !! t = Some v' /\ v_state v' <> TASK_UNUSED;
  kf_local : klocal c k k';
}.

Lemma kframe_refl c k : kframe c k k.
Proof. split; [eauto..|reflexivity]. Qed.

Lemma kframe_trans c k1 k2 k3 : kframe c k1 k2 -> kframe c k2 k3 -> kframe c k1 k3.
Proof.
  intros [P1 I1 A1 L1 O1] [P2 I2 A2 L2 O2]. split; [congruence..| |by etrans].
  intros t v Hv Hu. destruct (L1 _ _ Hv Hu) as (v' & Hv' & Hu'). eauto.
Qed.

#[export] Instance kframe_preorder c : PreOrder (kframe c).
Proof. split; [exact (kframe_refl c)|exact (kframe_trans c)]. Qed.

Lemma static_frame c k k' : kframe c k k' -> static_ok k -> static_ok k'.
Proof.
  intros [P I A L _] [S1 S2 S3]. split.
  - intros t p. rewrite P. intros Hp. destruct (S1 _ _ Hp) as (j & v & -> & Hv & Hu).
    destruct (L _ _ Hv Hu) as (v' & Hv' & Hu'). eauto.
  - intros n t. unfold irq_listener. rewrite I. apply S2.
  - intros t. rewrite A. intros Ht. destruct (S3 _ Ht) as (i & v & -> & Hv & Hu).
    destruct (L _ _ Hv Hu) as (v' & Hv' & Hu'). eauto.
Qed.

(** ** Primitive steps *)
Lemma upd_run t f k x :
  k_tasks k !! t = Some x -> upd t f k = Ok (tt, set_tasks (<[t := f x]> (k_tasks k)) k).
Proof.
  intros Hx. unfold upd, modify. do 3 f_equal. apply map_eq. intros u.
  rewrite lookup_alter, lookup_insert. case_decide; [subst; by rewrite Hx|done].
Qed.

Lemma task_at_run t k x : k_tasks k !! t = Some x -> task_at t k = Ok (x, k).
Proof. intros Hx. unfold task_at, getopt. by rewrite Hx. Qed.

Lemma current_run c k t : k_current k !! c = Some t -> CURRENT_TASK c k = Ok (t, k).
Proof. intros Ht. unfold CURRENT_TASK, getopt. by rewrite Ht. Qed.

Lemma views_lookup k t v : views k !! t = Some v <-> exists x, k_tasks k !! t = Some x /\ v = view_of x.
Proof.
  unfold views. rewrite lookup_fmap. destruct (k_tasks k !! t) as [x|]; simpl; [|naive_solver].
  split; [intros [= <-]; eauto|]. by intros (y & [= ->] & ->).
Qed.

Lemma views_task k t x : k_tasks k !! t = Some x -> views k !! t = Some (view_of x).
Proof. intros H. apply views_lookup. eauto. Qed.

Lemma views_insert k t x :
  views (set_tasks (<[t := x]> (k_tasks k)) k) = <[t := view_of x]> (views k).
Proof. unfold views. simpl. by rewrite fmap_insert. Qed.

Lemma pagers_insert k t x y :
  k_tasks k !! t = Some x -> t_pager y = t_pager x ->
  pagers (set_tasks (<[t := y]> (k_tasks k)) k) = pagers k.
Proof.
  intros Hx E. unfold pagers. simpl. rewrite fmap_insert, E. apply insert_id.
  by rewrite lookup_fmap, Hx.
Qed.

(** An update invisible to the scheduler. *)
Lemma upd_inert t f k x :
  k_tasks k !! t = Some x -> view_of (f x) = view_of x -> t_pager (f x) = t_pager x ->
  views (set_tasks (<[t := f x]> (k_tasks k)) k) = views k
  /\ forall c, kframe c k (set_tasks (<[t := f x]> (k_tasks k)) k).
Proof.
  intros Hx Hv Hp.
  assert (Hviews : views (set_tasks (<[t := f x]> (k_tasks k)) k) = views k).
  { rewrite views_insert, Hv. apply insert_id. by apply views_task. }
  split; [done|]. intros c. split; [by apply (pagers_insert _ _ x)|done|done|rewrite Hviews; eauto|].
  apply klocal_all; [done|]. intros u y Hy. simpl. rewrite lookup_insert. case_decide; [|eauto]. simplify_eq.
  eexists. split; [done|]. unfold view_of in Hv. congruence.
Qed.

(** Same invariant for states with equal views, queues and CPUs. *)
Lemma kinv_ext ex c k k' :
  views k' = views k -> k_runqueue k' = k_runqueue k -> k_readers k' = k_readers k ->
  k_current k' = k_current k -> kframe c k k' -> kinv_x ex k -> kinv_x ex k'.
Proof.
  intros E1 E2 E3 E4 F [I S]. split; [by rewrite E1, E2, E3, E4|by eapply static_frame].
Qed.

Lemma wq_linked_false t k :
  t ∉ k_runqueue k -> t ∉ k_readers k ->
  (forall d w, views k !! d = Some w -> t ∉ v_senders w) -> wq_linked t k = false.
Proof.
  intros H1 H2 H3. unfold wq_linked. rewrite !bool_decide_false by done. simpl.
  destruct (existsb _ _) eqn:E; [|done]. exfalso. apply existsb_exists in E as (x & Hx & Hb).
  apply bool_decide_eq_true in Hb. apply list_elem_of_In in Hx.
  apply list_elem_of_fmap in Hx as ([d y] & -> & Hd). apply elem_of_map_to_list in Hd.
  apply (H3 d (view_of y)); [by apply views_task|done].
Qed.

Lemma task_resume_run t k x :
  k_tasks k !! t = Some x -> t_state x = TASK_BLOCKED -> wq_linked t k = false ->
  task_resume t k = Ok (tt, set_runqueue (k_runqueue k ++ [t])
    (set_tasks (<[t := with_state TASK_RUNNABLE x]> (k_tasks k)) k)).
Proof.
  intros Hx Hb Hl. unfold task_resume.
  rewrite (ST_bind_run _ _ _ _ _ (task_at_run _ _ _ Hx)), bool_decide_true by done.
  unfold assert. rewrite (ST_bind_run (mret ()) _ k () k eq_refl).
  rewrite (ST_bind_run _ _ _ _ _ (upd_run _ _ _ _ Hx)). unfold push_runqueue.
  erewrite ST_bind_run by reflexivity.
  assert (wq_linked t (set_tasks (<[t := with_state TASK_RUNNABLE x]> (k_tasks k)) k) = false) as ->;
    [|reflexivity].
  apply wq_linked_false; simpl.
  - intros H. unfold wq_linked in Hl. by rewrite bool_decide_true in Hl.
  - intros H. unfold wq_linked in Hl. rewrite (bool_decide_true (t ∈ k_readers k)) in Hl by done.
    by rewrite orb_true_r in Hl.
  - intros d w Hd Hin. unfold wq_linked in Hl. apply orb_false_iff in Hl as [_ Hl].
    assert (Hex : exists y, k_tasks k !! d = Some y /\ t ∈ t_senders y).
    { apply views_lookup in Hd as (y & Hy & ->). simpl in Hy. rewrite lookup_insert in Hy.
      case_decide; simplify_eq; eauto. }
    destruct Hex as (y & Hy & Hin'). apply not_true_iff_false in Hl. apply Hl.
    apply existsb_exists. exists y. split; [|by apply bool_decide_eq_true].
    apply list_elem_of_In, list_elem_of_fmap. exists (d, y). split; [done|]. by apply elem_of_map_to_list.
Qed.

(** CPU [c] runs task [i], outside any blocking call. *)
Definition runs (c i : nat) (k : kernel) : Prop :=
  k_current k !! c = Some (Task i) /\ exists x, k_tasks k !! Task i = Some x /\ t_kctx x = KRun.

Lemma runs_view c i k : runs c i k -> exists x, k_current k !! c = Some (Task i)
  /\ k_tasks k !! Task i = Some x /\ views k !! Task i = Some (view_of x) /\ v_ctx (view_of x) = KRun.
Proof. intros [Hc (x & Hx & Hk)]. exists x. split_and!; [done|done|by apply views_task|done]. Qed.

(** ** The context switch *)

Lemma prev_exists ex k c prev :
  kinv_x ex k -> k_current k !! c = Some prev -> exists p, k_tasks k !! prev = Some p.
Proof.
  intros [I _] Hc. destruct (vi_cur _ _ _ _ _ I _ _ Hc) as [->|(i & v & -> & Hv & _)].
  - destruct (vi_idle_ex _ _ _ _ _ I c) as [v Hv]; [eauto|]. apply views_lookup in Hv as (x & ? & _). eauto.
  - apply views_lookup in Hv as (x & ? & _). eauto.
Qed.

(** The second half of [task_switch]: leaving [prev] for [next]. *)
Lemma switch_tail_safe ex k k1 c prev next rq0 :
  kinv_x ex k -> ex = None \/ ex = Some c -> k_current k !! c = Some prev -> next <> prev ->
  k_runqueue k = next :: rq0 \/ (next = Idle c /\ rq0 = k_runqueue k) ->
  views k1 = views k -> kframe c k k1 -> k_runqueue k1 = rq0 -> k_readers k1 = k_readers k ->
  k_current k1 = k_current k ->
  safe k1
    (p ← task_at prev;
     (if bool_decide (t_state p = TASK_RUNNABLE) then push_runqueue prev else mret tt) ;;
     modify (fun k => set_current (<[c := next]> (k_current k)) k) ;; mret true)
    (fun b k' => b = true /\ kinv k' /\ kframe c k k').
Proof.
  intros [I S] Hex Hc Hne Hnext EV F Erq Erd Ecur.
  destruct (prev_exists ex k c prev) as (p0 & Hp0); [done|done|].
  assert (Hp : exists p, k_tasks k1 !! prev = Some p).
  { assert (Hv : views k1 !! prev = Some (view_of p0)) by (rewrite EV; by apply views_task).
    apply views_lookup in Hv as (p & ? & _). eauto. }
  destruct Hp as (p & Hp).
  assert (Hvp : views k !! prev = Some (view_of p)) by (rewrite <- EV; by apply views_task).
  pose proof (vinv_switch _ _ _ _ _ _ _ _ _ I Hex Hc Hne Hnext) as I'.
  eapply safe_step; [by apply task_at_run|].
  assert (Hq : requeue (views k) prev = if bool_decide (t_state p = TASK_RUNNABLE) then [prev] else []).
  { unfold requeue. rewrite Hvp. done. }
  case_bool_decide as Hr.
  - assert (Hl : wq_linked prev k1 = false).
    { destruct (unlinked_running I _ _ _ Hvp Hr Hc) as (N1 & N2 & N3).
      apply wq_linked_false; [|by rewrite Erd|by rewrite EV].
      rewrite Erq. intros Hin. apply N1. destruct Hnext as [-> |[-> <-]]; [by right|done]. }
    eapply safe_step.
    { unfold push_runqueue. erewrite ST_bind_run by reflexivity. rewrite Hl. reflexivity. }
    eexists _, _. split; [reflexivity|]. simpl. split; [done|]. rewrite Erq, Ecur.
    assert (F' : kframe c k (set_current (<[c:=next]> (k_current k)) (set_runqueue (rq0 ++ [prev]) k1))).
    { destruct F as [? ? ? ? FL]. split; try done. by apply (klocal_switch c k _ k1 next FL). }
    split; [|done]. split; [|by eapply static_frame]. rewrite Hq in I'.
    change (vinv None (views k1) (rq0 ++ [prev]) (k_readers k1) (<[c:=next]> (k_current k))).
    by rewrite EV, Erd.
  - eapply safe_step; [reflexivity|]. eexists _, _. split; [reflexivity|]. simpl. split; [done|]. rewrite Ecur.
    assert (F' : kframe c k (set_current (<[c:=next]> (k_current k)) k1)).
    { destruct F as [? ? ? ? FL]. split; try done. by apply (klocal_switch c k _ k1 next FL). }
    split; [|done]. split; [|by eapply static_frame]. rewrite Hq, app_nil_r in I'.
    change (vinv None (views k1) (k_runqueue k1) (k_readers k1) (<[c:=next]> (k_current k))).
    by rewrite EV, Erd, Erq.
Qed.

Lemma task_switch_safe ex k c prev :
  kinv_x ex k -> ex = None \/ ex = Some c -> k_current k !! c = Some prev ->
  safe k (task_switch c) (fun b k' => kinv k' /\ kframe c k k'
    /\ (b = false -> prev = Idle c \/ exists x, k_tasks k !! prev = Some x /\ t_state x = TASK_RUNNABLE)).
Proof.
  intros Hk Hex Hc. destruct (prev_exists _ _ _ _ Hk Hc) as (p & Hp).
  unfold task_switch. eapply safe_step; [by apply current_run|].
  destruct (k_runqueue k) as [|next rq0] eqn:Hrq; pose proof Hk as [I S].
  - assert (Hsched : scheduler c k = Ok (if bool_decide (t_state p = TASK_RUNNABLE) && negb (t_destroyed p)
                                       then prev else Idle c, k)).
    { unfold scheduler. erewrite ST_bind_run by reflexivity. rewrite Hrq.
      rewrite (ST_bind_run _ _ _ _ _ (current_run _ _ _ Hc)), (ST_bind_run _ _ _ _ _ (task_at_run _ _ _ Hp)).
      by destruct (_ && _). }
    eapply safe_step; [exact Hsched|].
    destruct (bool_decide (t_state p = TASK_RUNNABLE) && negb (t_destroyed p)) eqn:Hgo.
    + apply andb_true_iff in Hgo as [Hr%bool_decide_eq_true _].
      rewrite (bool_decide_true (prev = prev)) by done.
      set (k1 := if bool_decide (prev <> Idle c)
                 then set_tasks (<[prev := with_quantum TASK_QUANTUM p]> (k_tasks k)) k else k).
      assert (E1 : views k1 = views k /\ kframe c k k1 /\ k_runqueue k1 = k_runqueue k
                   /\ k_readers k1 = k_readers k /\ k_current k1 = k_current k).
      { subst k1. case_bool_decide; [|split_and!; try done; apply kframe_refl].
        destruct (upd_inert prev (with_quantum TASK_QUANTUM) k p Hp eq_refl eq_refl). split_and!; auto. }
      eapply (safe_step _ _ _ tt k1).
      { subst k1. case_bool_decide; [by apply upd_run|done]. }
      apply safe_ret. destruct E1 as (E1 & F & E2 & E3 & E4). split_and!; [|done|eauto].
      apply (kinv_ext None c k k1 E1 E2 E3 E4 F). split; [|done].
      eapply vinv_stay; [exact I|exact Hex|exact Hc|right; split; [by apply views_task|done]].
    + rewrite (bool_decide_false (Idle c <> Idle c)) by naive_solver.
      eapply safe_step; [reflexivity|]. clear Hgo. destruct (bool_decide_reflect (Idle c = prev)) as [Hi|Hi].
      * apply safe_ret. split_and!; [|apply kframe_refl|by left]. split; [|done].
        by eapply (vinv_stay _ _ _ _ _ _ _ (view_of p)); [exact I|exact Hex|exact Hc|left].
      * eapply safe_conseq.
        { eapply (switch_tail_safe ex k k c prev (Idle c) (k_runqueue k)); first [done|by right|apply kframe_refl]. }
        intros b k' (-> & ? & ?). split_and!; done.
  - destruct (vi_rq _ _ _ _ _ I next) as (j & w & -> & Hw & Hr & Hnc); [rewrite Hrq; by left|].
    apply views_lookup in Hw as (y & Hy & ->).
    assert (Hsched : scheduler c k = Ok (Task j, set_runqueue rq0 k)).
    { unfold scheduler. erewrite ST_bind_run by reflexivity. rewrite Hrq. reflexivity. }
    eapply safe_step; [exact Hsched|]. rewrite (bool_decide_true (Task j <> Idle c)) by done.
    eapply safe_step; [by apply (upd_run _ _ (set_runqueue rq0 k) y)|].
    assert (Hnp : Task j <> prev) by (intros E; apply (Hnc c); by rewrite E).
    rewrite bool_decide_false by done.
    destruct (upd_inert (Task j) (with_quantum TASK_QUANTUM) (set_runqueue rq0 k) y Hy eq_refl eq_refl) as [E1 F1].
    eapply safe_conseq.
    { eapply (switch_tail_safe ex k _ c prev (Task j) rq0); first [done|by left|exact E1|destruct (F1 c) as [? ? ? ? [? ? ?]]; split; try done; by split]. }
    intros b k' (-> & ? & ?). split_and!; done.
Qed.

(** A switch away from a task that has just blocked. *)
Lemma task_switch_blocked c i k x :
  kinv_x (Some c) k -> k_current k !! c = Some (Task i) -> k_tasks k !! Task i = Some x ->
  t_state x = TASK_BLOCKED ->
  safe k (task_switch c) (fun b k' => b = true /\ kinv k' /\ kframe c k k').
Proof.
  intros Hk Hc Hx Hb. eapply safe_conseq; [by eapply (task_switch_safe (Some c)); eauto|].
  intros b k' (Hk' & F & Hf). split_and!; [|done|done]. destruct b; [done|].
  destruct (Hf eq_refl) as [?|(y & Hy & ?)]; [done|]. simplify_eq. congruence.
Qed.

(** ** Operations that do not leave the running task *)
Record keeps (k k' : kernel) : Prop := {
  kp_frame : forall c, kframe c k k';
  kp_cur : k_current k' = k_current k;
  kp_ctx : forall t x, k_tasks k !! t = Some x ->
    exists x', k_tasks k' !! t = Some x' /\ t_kctx x' = t_kctx x /\ t_tid x' = t_tid x;
}.

#[export] Instance keeps_preorder : PreOrder keeps.
Proof.
  split.
  - intros k. split; [intros; apply kframe_refl|done|eauto].
  - intros k1 k2 k3 [F1 C1 X1] [F2 C2 X2]. split; [intros c; by eapply (kframe_trans c _ k2)|congruence|].
    intros t x Hx. destruct (X1 _ _ Hx) as (y & Hy & E & E'). destruct (X2 _ _ Hy) as (z & Hz & ? & ?).
    exists z. split_and!; [done|congruence|congruence].
Qed.

Lemma runs_keeps c i k k' : keeps k k' -> runs c i k -> runs c i k'.
Proof.
  intros [F C X] [Hc (x & Hx & Hk)]. destruct (X _ _ Hx) as (y & Hy & E & _).
  split; [by rewrite C|]. exists y. split; [done|congruence].
Qed.

(** An update the scheduler does not see. *)
Lemma upd_inert_safe t f k x :
  kinv k -> k_tasks k !! t = Some x -> view_of (f x) = view_of x -> t_pager (f x) = t_pager x ->
  safe k (upd t f) (fun _ k' => kinv k' /\ keeps k k' /\ k_tasks k' = <[t := f x]> (k_tasks k)
    /\ k_runqueue k' = k_runqueue k).
Proof.
  intros Hk Hx Hv Hp. destruct (upd_inert t f k x Hx Hv Hp) as [E F].
  eexists _, _. split; [by apply upd_run|]. split_and!; [|split|done|done].
  - by apply (kinv_ext None 0 k _ E eq_refl eq_refl eq_refl (F 0%nat)).
  - done.
  - done.
  - intros u y Hy. simpl. rewrite lookup_insert. case_decide as Hu; [|eauto].
    subst u. simplify_eq. eexists. split; [done|]. unfold view_of in Hv. split; congruence.
Qed.

(** Waking a task in [recv_message] whose message has been stored. *)
Lemma wake_safe k i x :
  kinv k -> k_tasks k !! Task i = Some x -> t_state x = TASK_BLOCKED -> t_wait_for x <> IPC_DENY ->
  (forall j y, k_tasks k !! Task j = Some y -> t_state y = TASK_RUNNABLE ->
     sends_to (t_kctx y) <> Some (Task i)) ->
  safe k (task_resume (Task i)) (fun _ k' => kinv k' /\ keeps k k'
    /\ k_runqueue k' = k_runqueue k ++ [Task i]
    /\ k_tasks k' = <[Task i := with_state TASK_RUNNABLE x]> (k_tasks k)).
Proof.
  intros [I S] Hx Hb Hw Hno. pose proof (views_task _ _ _ Hx) as Hv.
  destruct (unlinked_recv I _ _ Hv Hb Hw) as (N1 & N2 & N3).
  eexists _, _. split; [apply (task_resume_run _ _ x); [done|done|by apply wq_linked_false]|].
  assert (F : forall c, kframe c k (set_runqueue (k_runqueue k ++ [Task i])
                (set_tasks (<[Task i := with_state TASK_RUNNABLE x]> (k_tasks k)) k))).
  { intros c. split; [by apply (pagers_insert k (Task i) x)|done|done| |].
    2: { apply klocal_all; [done|]. intros u y Hy. simpl. rewrite lookup_insert.
         case_decide; [|eauto]. simplify_eq. eauto. }
    intros t v Ht Hu.
    change (views _) with (views (set_tasks (<[Task i := with_state TASK_RUNNABLE x]> (k_tasks k)) k)).
    rewrite views_insert, lookup_insert. case_decide; eauto. }
  split_and!; [split| split|done|done].
  - change (vinv None (views (set_tasks (<[Task i := with_state TASK_RUNNABLE x]> (k_tasks k)) k))
              (k_runqueue k ++ [Task i]) (k_readers k) (k_current k)).
    rewrite views_insert. apply (vinv_wake _ _ _ _ _ (view_of x)); [done..|].
    intros j w Hj. apply views_lookup in Hj as (y & Hy & ->). by eapply Hno.
  - by eapply (static_frame 0); [apply F|].
  - done.
  - done.
  - intros t y Hy. simpl. rewrite lookup_insert. case_decide as Ht; [|eauto].
    subst t. simplify_eq. eexists. done.
Qed.

Lemma no_handover_any k i x j y :
  kinv k -> k_tasks k !! Task i = Some x -> k_tasks k !! Task j = Some y ->
  t_state y = TASK_RUNNABLE -> sends_to (t_kctx y) = Some (Task i) ->
  t_state x = TASK_BLOCKED /\ t_wait_for x = t_tid y /\ t_tid y = Z.of_nat j + 1.
Proof.
  intros [I _] Hx Hy Hr E. apply views_task in Hx, Hy.
  pose proof (vi_ctx _ _ _ _ _ I _ _ Hy) as Hc. simpl in Hc. specialize (Hc ltac:(congruence)).
  unfold ctx_ok in Hc. simpl in Hc. destruct (t_kctx y); simplify_eq/=.
  destruct Hc as (_ & w & Hw & _ & Hh). rewrite Hx in Hw. injection Hw as <-.
  destruct (Hh Hr). split_and!; [done|done|]. by apply (vi_tid _ _ _ _ _ I _ _ Hy); simpl; congruence.
Qed.

(** ** notify *)
Lemma notify_safe i n k :
  kinv k -> (i < Z.to_nat NUM_TASKS_MAX)%nat ->
  safe k (notify (Task i) n) (fun _ k' => kinv k' /\ keeps k k').
Proof.
  intros Hk Hi. pose proof Hk as [I _].
  destruct (proj2 (vi_dom _ _ _ _ _ I i) Hi) as [v Hv]. apply views_lookup in Hv as (x & Hx & _).
  unfold notify. eapply safe_step; [by apply task_at_run|].
  destruct (bool_decide_reflect (t_state x = TASK_BLOCKED)) as [Hb|Hb], (Z.eqb_spec (t_wait_for x) IPC_ANY) as [Hw|Hw].
  2-4: eapply safe_conseq; [by eapply upd_inert_safe; eauto|]; intros _ k' (? & ? & _); done.
  simpl andb. cbv iota. eapply safe_bind; [eapply upd_inert_safe; [exact Hk|exact Hx|done|done]|].
  intros _ k1 (Hk1 & Hkeep & ET & Erq).
  eapply safe_conseq; [eapply wake_safe; [done|by rewrite ET, lookup_insert, decide_True|done| |]|].
  - simpl. rewrite Hw. done.
  - intros j y Hy Hr E. rewrite ET in Hy. rewrite lookup_insert in Hy. case_decide as Hj.
    + injection Hy as <-. simpl in Hr. congruence.
    + destruct (no_handover_any k i x j y Hk Hx Hy Hr E) as (_ & E1 & E2).
      rewrite Hw, E2 in E1. unfold IPC_ANY in E1. lia.
  - intros _ k' (? & ? & _). split; [done|]. by etrans.
Qed.

(** ** Delivery *)
Lemma deliver_safe c i d cm fl k x y :
  kinv k -> runs c i k -> k_tasks k !! Task i = Some x -> k_tasks k !! Task d = Some y ->
  t_state y = TASK_BLOCKED -> t_wait_for y = IPC_ANY \/ t_wait_for y = t_tid x ->
  safe k (deliver (Task i) (Task d) cm fl) (fun e k' => e = OK /\ kinv k' /\ keeps k k').
Proof.
  intros Hk Hrun Hx Hy Hb Hw. pose proof Hk as [I _].
  destruct Hrun as [Hc (x' & Hx' & Hctx)]. simplify_eq.
  assert (Hrs : t_state x' = TASK_RUNNABLE).
  { destruct (vi_cur _ _ _ _ _ I _ _ Hc) as [?|(? & v & [= <-] & Hv & [?|[? ?]])]; [done| |done].
    apply views_lookup in Hv as (z & Hz & ->). by simplify_eq. }
  assert (Htx : t_tid x' = Z.of_nat i + 1).
  { apply (vi_tid _ _ _ _ _ I i (view_of x')); [by apply views_task|simpl; congruence]. }
  unfold deliver. eapply safe_step; [by apply task_at_run|].
  eapply safe_bind; [eapply upd_inert_safe; [exact Hk|exact Hy|done|done]|].
  intros _ k1 (Hk1 & Hkeep & ET & Erq).
  eapply safe_bind; [eapply wake_safe; [done|by rewrite ET, lookup_insert, decide_True|done| |]|].
  - simpl. destruct Hw as [->| ->]; [done|]. rewrite Htx. unfold IPC_DENY. lia.
  - intros j z Hz Hr E. rewrite ET in Hz. rewrite lookup_insert in Hz. case_decide as Hj.
    + injection Hz as <-. simpl in Hr. congruence.
    + destruct (no_handover_any k d y j z Hk Hy Hz Hr E) as (_ & E1 & E2).
      destruct Hw as [Hw|Hw]; rewrite Hw, E2 in E1; [unfold IPC_ANY in E1; lia|].
      assert (j = i) as -> by lia. simplify_eq. by rewrite Hctx in E.
  - intros _ k' (? & ? & _). apply safe_ret. split_and!; [done|done|]. by etrans.
Qed.

(** ** Blocking *)

(** The facts about the running task that the blocking operations use. *)
Lemma runs_facts c i k : kinv k -> runs c i k -> exists x, k_tasks k !! Task i = Some x
  /\ k_current k !! c = Some (Task i) /\ t_kctx x = KRun /\ t_state x = TASK_RUNNABLE
  /\ t_wait_for x = IPC_DENY /\ t_tid x = Z.of_nat i + 1 /\ (i < Z.to_nat NUM_TASKS_MAX)%nat
  /\ wq_linked (Task i) k = false.
Proof.
  intros [I _] [Hc (x & Hx & Hctx)]. exists x. pose proof (views_task _ _ _ Hx) as Hv.
  assert (Hs : t_state x = TASK_RUNNABLE) by exact (running_state _ _ _ _ _ _ _ I Hc Hv).
  pose proof (vi_ctx _ _ _ _ _ I _ _ Hv) as Hok. simpl in Hok. specialize (Hok ltac:(congruence)).
  unfold ctx_ok in Hok. simpl in Hok. rewrite Hctx in Hok. destruct Hok as [_ Hw].
  destruct (unlinked_running I _ _ _ Hv Hs Hc) as (N1 & N2 & N3).
  split_and!; try done.
  - apply (vi_tid _ _ _ _ _ I _ _ Hv). simpl. congruence.
  - apply (vi_dom _ _ _ _ _ I). eauto.
  - by apply wq_linked_false.
Qed.

Lemma task_block_run c i k x :
  k_tasks k !! Task i = Some x -> t_state x = TASK_RUNNABLE ->
  task_block c (Task i) k = Ok (tt, set_tasks (<[Task i := with_state TASK_BLOCKED x]> (k_tasks k)) k).
Proof.
  intros Hx Hr. unfold task_block. rewrite bool_decide_true by done.
  unfold assert. rewrite (ST_bind_run (mret ()) _ k () k eq_refl).
  rewrite (ST_bind_run _ _ _ _ _ (task_at_run _ _ _ Hx)), bool_decide_true by done.
  rewrite (ST_bind_run (mret ()) _ k () k eq_refl). by apply upd_run.
Qed.

(** A change of the running task's saved context is local to its CPU. *)
Lemma klocal_running ex c i k k' :
  kinv_x ex k -> k_current k !! c = Some (Task i) -> k_current k' = k_current k ->
  (forall u x, u <> Task i -> k_tasks k !! u = Some x -> exists x', k_tasks k' !! u = Some x' /\ t_kctx x' = t_kctx x) ->
  klocal c k k'.
Proof.
  intros [I _] Hc Hcur Hctx. split; [by rewrite Hcur| |by rewrite Hcur].
  intros c' u x Hne Hu. apply Hctx. intros ->. by pose proof (vi_inj _ _ _ _ _ I _ _ _ Hc Hu).
Qed.
Ltac klook := intros ? ? ?; simpl; rewrite ?lookup_insert; repeat case_decide; intros; simplify_eq; eauto.

(** [task_block], the saved context, [task_switch]: common to every blocking call. *)
Lemma block_switch_safe {A} c i x kx k k0 (rest : bool -> KST A) (Q : A -> kernel -> Prop) :
  k_tasks k !! Task i = Some x -> t_state x = TASK_RUNNABLE -> k_current k !! c = Some (Task i) ->
  kinv_x (Some c) (set_tasks (<[Task i := with_kctx kx (with_state TASK_BLOCKED x)]> (k_tasks k)) k) ->
  kframe c k0 (set_tasks (<[Task i := with_kctx kx (with_state TASK_BLOCKED x)]> (k_tasks k)) k) ->
  (forall k', kinv k' -> kframe c k0 k' -> safe k' (rest true) Q) ->
  safe k (task_block c (Task i) ;; upd (Task i) (with_kctx kx) ;; b ← task_switch c; rest b) Q.
Proof.
  intros Hx Hr Hc Hinv HF Hrest.
  eapply safe_step; [by eapply task_block_run|].
  eapply safe_step; [by apply upd_run; simpl; rewrite lookup_insert, decide_True|].
  set (k' := set_tasks _ _).
  assert (k' = set_tasks (<[Task i := with_kctx kx (with_state TASK_BLOCKED x)]> (k_tasks k)) k) as ->.
  { subst k'. unfold set_tasks. simpl. by rewrite insert_insert_eq. }
  eapply safe_bind; [eapply (task_switch_blocked c i); [done|done|by simpl; rewrite lookup_insert, decide_True|done]|].
  intros b k' (-> & Hk' & HF'). apply Hrest; [done|]. by etrans.
Qed.

Lemma memcpy_from_user_run t a n k : exists e bs, memcpy_from_user t a n k = Ok ((e, bs), k).
Proof. unfold memcpy_from_user. destruct (negb _); eexists _, _; reflexivity. Qed.

(** A page fault is only handled for a task that has a pager. *)
Definition caller_ok (i : nat) (caller : kcaller) (k : kernel) : Prop :=
  caller = CPageFault -> pagers k !! Task i <> Some None.

Lemma caller_ok_pager i caller k x :
  caller_ok i caller k -> k_tasks k !! Task i = Some x -> caller = CPageFault -> t_pager x <> None.
Proof.
  intros Hok Hx Hc E. apply (Hok Hc). unfold pagers. rewrite lookup_fmap, Hx. simpl. by rewrite E.
Qed.

Lemma caller_ok_frame c i caller k k' : kframe c k k' -> caller_ok i caller k -> caller_ok i caller k'.
Proof. intros F Hok Hc. rewrite (kf_pagers _ _ _ F). by apply Hok. Qed.

(** Outcome of a call that may block: it blocked, or the task goes on. *)
Definition may_block {A} (c i : nat) (k : kernel) (r : option A) (k' : kernel) : Prop :=
  kinv k' /\ kframe c k k' /\ (r <> None -> runs c i k').

Lemma may_block_stay {A} c i k k' (a : A) :
  kinv k' -> keeps k k' -> runs c i k -> may_block c i k (Some a) k'.
Proof. intros Hk Hp Hr. split_and!; [done|apply Hp|intros _; by eapply runs_keeps]. Qed.

Lemma queue_has_tid_false k q t y :
  queue_has_tid (t_tid y) q k = false -> k_tasks k !! t = Some y -> t ∉ q.
Proof.
  unfold queue_has_tid. intros Hq Hy Hin. apply not_true_iff_false in Hq. apply Hq.
  apply existsb_exists. exists t. split; [by apply list_elem_of_In|]. rewrite Hy. by apply Z.eqb_eq.
Qed.

Lemma send_message_safe c i d m fl src caller k y :
  kinv k -> runs c i k -> k_tasks k !! Task d = Some y -> t_state y <> TASK_UNUSED ->
  caller_ok i caller k -> (has fl IPC_RECV = true -> 0 <= src) ->
  safe k (send_message c (Task d) m fl src caller) (may_block c i k).
Proof.
  intros Hk Hrun Hy Hu Hcal Hsrc. destruct (runs_facts _ _ _ Hk Hrun) as (x & Hx & Hc & Hctx & Hs & Hw & Htid & Hi & Hl).
  unfold send_message. eapply safe_step; [by apply current_run|].
  case_bool_decide as Hself; [by apply safe_ret, may_block_stay|].
  assert (Hcopy : exists e cm, match m with
      | MKernel msg => mret (OK, msg)
      | MUser a => r ← memcpy_from_user (Task i) a (Z.to_nat sizeof_message); mret (r.1, decode_message r.2)
      end k = Ok ((e, cm), k)).
  { destruct m as [a|msg]; [|eexists _, _; reflexivity].
    destruct (memcpy_from_user_run (Task i) a (Z.to_nat sizeof_message) k) as (e & bs & E).
    eexists _, _. rewrite (ST_bind_run _ _ _ _ _ E). reflexivity. }
  destruct Hcopy as (e & cm & Hcopy). eapply safe_step; [exact Hcopy|]. cbv beta iota.
  destruct (e =? OK); cbn [negb]; [|by apply safe_ret, may_block_stay].
  eapply safe_step; [by apply task_at_run|]. eapply safe_step; [by apply task_at_run|].
  destruct (bool_decide (t_state y = TASK_BLOCKED) && _) eqn:Hready.
  { apply andb_true_iff in Hready as [Hb%bool_decide_eq_true Hor]. apply orb_true_iff in Hor.
    eapply safe_bind; [eapply (deliver_safe c i d cm fl k x y); try done|].
    - destruct Hor as [E%Z.eqb_eq|E%Z.eqb_eq]; auto.
    - intros e' k' (-> & Hk' & Hp). by apply safe_ret, may_block_stay. }
  destruct (has fl IPC_NOBLOCK); [by apply safe_ret, may_block_stay|].
  eapply safe_step; [reflexivity|].
  destruct (queue_has_tid (t_tid y) (t_senders x) k) eqn:Hq; [by apply safe_ret, may_block_stay|].
  pose proof (queue_has_tid_false _ _ _ _ Hq Hy) as Hnm.
  eapply safe_step.
  { unfold push_senders. erewrite ST_bind_run by reflexivity. rewrite Hl.
    by apply (upd_run (Task d) _ k y). }
  assert (Hdi : Task d <> Task i) by congruence.
  set (k1 := set_tasks (<[Task d := with_senders (t_senders y ++ [Task i]) y]> (k_tasks k)) k).
  assert (Hx1 : k_tasks k1 !! Task i = Some x) by (simpl; by rewrite lookup_insert_ne).
  set (kx := KSend (Task d) cm fl src m caller).
  set (k2 := set_tasks (<[Task i := with_kctx kx (with_state TASK_BLOCKED x)]> (k_tasks k1)) k1).
  assert (HV : views k2 = <[Task i := blocked_view (view_of x) IPC_DENY kx]>
                (<[Task d := v_set_senders (t_senders y ++ [Task i]) (view_of y)]> (views k))).
  { unfold k2. rewrite views_insert. unfold k1. rewrite views_insert. f_equal.
    unfold view_of, blocked_view. simpl. by rewrite Hw. }
  assert (HF : kframe c k k2).
  { split; [|done|done| |apply (klocal_running None c i); [done|done|done|klook]].
    - unfold k2. rewrite (pagers_insert k1 (Task i) x) by done. unfold k1. by apply (pagers_insert k (Task d) y).
    - intros t v Ht Hut. rewrite HV, !lookup_insert. repeat case_decide; eauto; simplify_eq.
      all: eexists; split; [done|done]. }
  eapply (block_switch_safe c i x kx k1 k); [done|done|done| |done|].
  - change (kinv_x (Some c) k2). split; [|eapply static_frame; [exact HF|apply Hk]]. rewrite HV.
    apply (vinv_block_send (views k) (k_runqueue k) (k_readers k) (k_current k) c i (view_of x));
      first [done|apply Hk|by apply views_task|by apply (views_task _ _ y)|by eexists|idtac].
    split; [|done]. intros Hcf. exact (caller_ok_pager _ _ _ _ Hcal Hx Hcf).
  - intros k' Hk' HF'. apply safe_ret. split_and!; done.
Qed.

(** ** Receiving *)

Lemma recv_copy_safe cur m cm k :
  kinv k -> safe k (recv_copy cur m cm) (fun _ k' => kinv k' /\ keeps k k').
Proof.
  intros Hk. destruct m as [a|msg]; [|by apply safe_ret].
  unfold recv_copy, memcpy_to_user. destruct (negb _).
  - eexists _, _. split; [reflexivity|]. done.
  - eexists _, _. split; [reflexivity|]. split.
    + apply (kinv_ext None 0 k); try done. split; eauto. by apply klocal_all; eauto.
    + split; [intros; split; eauto; by apply klocal_all; eauto|done|eauto].
Qed.

Lemma find_sender_run src q k :
  (forall s, s ∈ q -> is_Some (k_tasks k !! s)) ->
  exists r, find_sender src q k = Ok (r, k) /\ (forall s, r = Some s -> s ∈ q).
Proof.
  induction q as [|s q IH]; intros Hq; [by exists None|].
  destruct (Hq s) as [x Hx]; [by left|]. cbn [find_sender].
  rewrite (ST_bind_run _ _ _ _ _ (task_at_run _ _ _ Hx)). destruct (_ || _).
  - exists (Some s). split; [done|]. intros ? [= <-]. by left.
  - destruct IH as (r & E & Hr); [intros t Ht; apply Hq; by right|]. exists r. split; [done|].
    intros t Ht. right. auto.
Qed.

(** Taking sender [s] off the queue of [Task i] changes that queue only. *)
Lemma wq_remove_sender k i x s :
  kinv k -> k_tasks k !! Task i = Some x -> s ∈ t_senders x ->
  exists k', wq_remove s k = Ok (tt, k')
    /\ k_tasks k' = <[Task i := with_senders (filter (fun y => y <> s) (t_senders x)) x]> (k_tasks k)
    /\ k_runqueue k' = k_runqueue k /\ k_readers k' = k_readers k /\ k_current k' = k_current k
    /\ k_irq k' = k_irq k /\ k_active k' = k_active k.
Proof.
  intros [I _] Hx Hs. pose proof (views_task _ _ _ Hx) as Hv.
  destruct (vi_snd _ _ _ _ _ I _ _ _ Hv Hs) as (j & w & -> & Hw & Hb & Hto).
  eexists. split; [reflexivity|]. simpl. split_and!; try done.
  - apply map_eq. intros t. rewrite lookup_fmap, lookup_insert. case_decide as Ht; [subst; by rewrite Hx|].
    destruct (k_tasks k !! t) as [y|] eqn:Hy; [|done]. simpl. f_equal.
    rewrite list_filter_all; [by destruct y|]. intros u Hu ->.
    by pose proof (sender_unique I t (Task i) _ _ _ (views_task _ _ _ Hy) Hv Hu Hs).
  - apply list_filter_all. intros t Ht ->.
    destruct (vi_rq _ _ _ _ _ I _ Ht) as (? & w' & [= <-] & Hw' & Hr & _). congruence.
  - apply list_filter_all. intros t Ht ->.
    destruct (vi_rd _ _ _ _ _ I _ Ht) as (? & w' & b & n & [= <-] & Hw' & _ & Hr). simplify_eq.
    by rewrite Hr in Hto.
Qed.

(** The blocking part of [recv_message] without a matching sender. *)
Lemma recv_block_safe {A} c i x src m fl caller k (rest : bool -> KST (option A)) :
  kinv k -> runs c i k -> k_tasks k !! Task i = Some x -> src <> IPC_DENY ->
  caller_ok i caller k -> rest true = mret None ->
  safe k (upd (Task i) (with_wait_for src) ;; task_block c (Task i) ;;
          upd (Task i) (with_kctx (KRecv m fl caller)) ;; b ← task_switch c; rest b) (may_block c i k).
Proof.
  intros Hk Hrun Hx Hsrc Hcal Hrest.
  destruct (runs_facts _ _ _ Hk Hrun) as (xq & Hxq & Hc & Hctx & Hs & Hw & Htid & Hi & Hl).
  assert (xq = x) as -> by congruence. clear Hxq.
  eapply safe_step; [by apply (upd_run _ _ k x)|].
  set (k1 := set_tasks (<[Task i := with_wait_for src x]> (k_tasks k)) k).
  set (kx := KRecv m fl caller). set (x2 := with_kctx kx (with_state TASK_BLOCKED (with_wait_for src x))).
  assert (Hx1 : k_tasks k1 !! Task i = Some (with_wait_for src x)) by (simpl; by rewrite lookup_insert, decide_True).
  assert (HV : views (set_tasks (<[Task i := x2]> (k_tasks k1)) k1)
               = <[Task i := blocked_view (view_of x) src kx]> (views k)).
  { rewrite views_insert. unfold k1. by rewrite views_insert, insert_insert_eq. }
  assert (HF : kframe c k (set_tasks (<[Task i := x2]> (k_tasks k1)) k1)).
  { split; [|done|done| |apply (klocal_running None c i); [done|done|done|klook]].
    - rewrite (pagers_insert k1 (Task i) (with_wait_for src x)) by done. unfold k1. by apply (pagers_insert k (Task i) x).
    - intros t v Ht Hut. rewrite HV, lookup_insert. case_decide; eauto. }
  eapply (block_switch_safe c i _ kx k1 k); [exact Hx1|done|done| |done|].
  - split; [|eapply static_frame; [exact HF|apply Hk]].
    change (vinv (Some c) (views (set_tasks (<[Task i := x2]> (k_tasks k1)) k1)) (k_runqueue k) (k_readers k) (k_current k)).
    rewrite HV. apply (vinv_block (views k) (k_runqueue k) (k_readers k) (k_current k) c i (view_of x));
      first [done|apply Hk|by apply views_task|idtac].
    simpl. by apply (caller_ok_pager _ _ _ _ Hcal Hx).
  - intros k' Hk' HF'. rewrite Hrest. apply safe_ret. split_and!; done.
Qed.

(** A sender that has been taken out of the list it was in is in no list. *)
Lemma removed_unlinked k k1 i j x :
  kinv k -> k_tasks k !! Task i = Some x -> Task j ∈ t_senders x ->
  views k1 = <[Task i := v_set_senders (filter (fun u => u <> Task j) (t_senders x)) (view_of x)]> (views k) ->
  k_runqueue k1 = k_runqueue k -> k_readers k1 = k_readers k -> wq_linked (Task j) k1 = false.
Proof.
  intros [I _] Hx Hin HV1 Erq1 Erd1. pose proof (views_task _ _ _ Hx) as Hv.
  destruct (vi_snd _ _ _ _ _ I _ _ _ Hv Hin) as (j' & w & [= <-] & Hw & Hb & Hto). apply wq_linked_false.
  - rewrite Erq1. intros (? & v' & [= <-] & Hv' & Hr & _)%(vi_rq _ _ _ _ _ I). simplify_eq. congruence.
  - rewrite Erd1. intros (? & v' & b & n & [= <-] & Hv' & _ & Hr)%(vi_rd _ _ _ _ _ I). simplify_eq. by rewrite Hr in Hto.
  - intros d v' Hd Hsd. rewrite HV1, lookup_insert in Hd. case_decide as Hdi.
    + injection Hd as <-. apply list_elem_of_filter in Hsd as [? _]. done.
    + apply Hdi. symmetry. by apply (sender_unique I d (Task i) v' (view_of x) (Task j)).
Qed.

(** The same with a matching sender: the rendezvous. *)
Lemma recv_rendezvous_safe {A} c i x j y m fl caller k (rest : bool -> KST (option A)) :
  kinv k -> runs c i k -> k_tasks k !! Task i = Some x -> k_tasks k !! Task j = Some y ->
  Task j ∈ t_senders x -> caller_ok i caller k -> rest true = mret None ->
  safe k (wq_remove (Task j) ;; src ← (task_resume (Task j) ;; mret (t_tid y));
          upd (Task i) (with_wait_for src) ;; task_block c (Task i) ;;
          upd (Task i) (with_kctx (KRecv m fl caller)) ;; b ← task_switch c; rest b) (may_block c i k).
Proof.
  intros Hk Hrun Hx Hy Hin Hcal Hrest. pose proof Hk as [I S].
  destruct (runs_facts _ _ _ Hk Hrun) as (xq & Hxq & Hc & Hctx & Hs & Hw & Htid & Hi & Hl).
  assert (xq = x) as -> by congruence. clear Hxq.
  pose proof (views_task _ _ _ Hx) as Hv. pose proof (views_task _ _ _ Hy) as Hvy.
  destruct (vi_snd _ _ _ _ _ I _ _ _ Hv Hin) as (j' & w & [= <-] & Hw' & Hb & Hto).
  assert (w = view_of y) as -> by congruence. simpl in Hb, Hto.
  assert (Hji : Task j <> Task i). { intros [= ->]. simplify_eq. congruence. }
  destruct (wq_remove_sender k i x (Task j) Hk Hx Hin) as (k1 & Hrm & ET1 & Erq1 & Erd1 & Ecur1 & Eirq1 & Eact1).
  eapply safe_step; [exact Hrm|].
  set (flt := filter (fun u => u <> Task j) (t_senders x)) in *.
  assert (Hy1 : k_tasks k1 !! Task j = Some y) by (rewrite ET1; by rewrite lookup_insert_ne).
  assert (HV1 : views k1 = <[Task i := v_set_senders flt (view_of x)]> (views k)).
  { unfold views. rewrite ET1, fmap_insert. done. }
  pose proof (removed_unlinked k k1 i j x Hk Hx Hin HV1 Erq1 Erd1) as Hl1.
  apply safe_assoc. eapply safe_step; [by apply (task_resume_run _ _ y)|].
  eapply safe_step; [reflexivity|].
  set (k2 := set_runqueue _ _).
  assert (Hx2 : k_tasks k2 !! Task i = Some (with_senders flt x)).
  { simpl. rewrite lookup_insert_ne by done. by rewrite ET1, lookup_insert, decide_True. }
  eapply safe_step; [by apply (upd_run _ _ k2 _ Hx2)|].
  set (k3 := set_tasks _ k2). set (kx := KRecv m fl caller).
  set (x3 := with_wait_for (t_tid y) (with_senders flt x)).
  assert (Hx3 : k_tasks k3 !! Task i = Some x3) by (simpl; by rewrite lookup_insert, decide_True).
  set (k4 := set_tasks (<[Task i := with_kctx kx (with_state TASK_BLOCKED x3)]> (k_tasks k3)) k3).
  assert (HV : views k4 = <[Task i := View TASK_BLOCKED (t_tid x) flt (t_tid y) kx (t_pager x)]>
                 (<[Task j := v_set_state TASK_RUNNABLE (view_of y)]> (views k))).
  { unfold k4. rewrite views_insert. unfold k3. rewrite views_insert, insert_insert_eq.
    change (views k2) with (views (set_tasks (<[Task j := with_state TASK_RUNNABLE y]> (k_tasks k1)) k1)).
    rewrite views_insert, HV1, (insert_insert_ne _ (Task j) (Task i)) by done. rewrite insert_insert_eq. done. }
  assert (HF : kframe c k k4).
  { split; [|done|done| |apply (klocal_running None c i); [done|done|done|]; simpl; rewrite ET1; klook].
    - unfold k4. rewrite (pagers_insert k3 (Task i) x3) by done. unfold k3.
      rewrite (pagers_insert k2 (Task i) (with_senders flt x)) by done.
      change (pagers k2) with (pagers (set_tasks (<[Task j := with_state TASK_RUNNABLE y]> (k_tasks k1)) k1)).
      rewrite (pagers_insert k1 (Task j) y) by done. unfold pagers. rewrite ET1, fmap_insert. simpl.
      apply insert_id. by rewrite lookup_fmap, Hx.
    - intros t v Ht Hut. rewrite HV, !lookup_insert. repeat case_decide; eauto.
      all: eexists; split; [done|done]. }
  eapply (block_switch_safe c i x3 kx k3 k); [done|done|by simpl; rewrite Ecur1| |done|].
  - change (kinv_x (Some c) k4). split; [|by eapply static_frame].
    change (vinv (Some c) (views k4) (k_runqueue k1 ++ [Task j]) (k_readers k1) (k_current k1)).
    rewrite HV, Erq1, Erd1, Ecur1.
    apply (vinv_rendezvous (views k) (k_runqueue k) (k_readers k) (k_current k) c i (view_of x));
      try done. by apply (caller_ok_pager _ _ _ _ Hcal Hx).
  - intros k' Hk' HF'. rewrite Hrest. apply safe_ret. split_and!; done.
Qed.

Section Operations.
Context (stack_garbage : message).

Lemma recv_message_safe c i src m fl caller k :
  kinv k -> runs c i k -> 0 <= src -> caller_ok i caller k ->
  safe k (recv_message stack_garbage c src m fl caller) (may_block c i k).
Proof.
  intros Hk Hrun Hsrc Hcal. pose proof Hk as [I _].
  destruct (runs_facts _ _ _ Hk Hrun) as (x & Hx & Hc & Hctx & Hs & Hw & Htid & Hi & Hl).
  pose proof (views_task _ _ _ Hx) as Hv.
  unfold recv_message. eapply safe_step; [by apply current_run|]. eapply safe_step; [by apply task_at_run|].
  destruct (_ && _).
  { eapply safe_bind; [eapply upd_inert_safe; [exact Hk|exact Hx|done|done]|].
    intros _ k1 (Hk1 & Hp1 & _). eapply safe_bind; [by apply recv_copy_safe|].
    intros r k2 [Hk2 Hp2]. apply safe_ret, may_block_stay; [done| |done]. by etrans. }
  destruct (has fl IPC_NOBLOCK); [by apply safe_ret, may_block_stay|].
  destruct (find_sender_run src (t_senders x) k) as (r & Hf & Hr).
  { intros s Hin. destruct (vi_snd _ _ _ _ _ I _ _ _ Hv Hin) as (j & w & -> & Hw' & _).
    apply views_lookup in Hw' as (y & ? & _). eauto. }
  eapply safe_step; [exact Hf|]. destruct r as [s|].
  - specialize (Hr s eq_refl).
    destruct (vi_snd _ _ _ _ _ I _ _ _ Hv Hr) as (j & w & -> & Hw' & Hb & Hto).
    apply views_lookup in Hw' as (y & Hy & ->). simpl in Hb, Hto.
    assert (Hyw : t_wait_for y = IPC_DENY).
    { pose proof (vi_ctx _ _ _ _ _ I _ _ (views_task _ _ _ Hy)) as Hok. simpl in Hok.
      specialize (Hok ltac:(congruence)). unfold ctx_ok in Hok. simpl in Hok.
      destruct (t_kctx y); try done. tauto. }
    apply safe_assoc. eapply safe_step; [by apply task_at_run|].
    rewrite Hb, Hyw, bool_decide_true by done. simpl Z.eqb. unfold assert.
    apply safe_assoc. eapply safe_step; [reflexivity|]. apply safe_assoc. eapply safe_step; [reflexivity|].
    apply safe_assoc. eapply safe_conseq.
    { apply (recv_rendezvous_safe c i x j y m fl caller k (fun b : bool => if b then mret None else
         upd (Task i) (with_kctx KRun) ;; r ← recv_resumed (Task i) m; mret (Some r))); done. }
    done.
  - eapply safe_step; [reflexivity|].
    eapply (recv_block_safe c i x); [done..| |done|done]. unfold IPC_DENY. lia.
Qed.

Lemma ipc_recv_part_safe c i src m fl caller k :
  kinv k -> runs c i k -> (has fl IPC_RECV = true -> 0 <= src) -> caller_ok i caller k ->
  safe k (ipc_recv_part stack_garbage c src m fl caller) (may_block c i k).
Proof.
  intros Hk Hrun Hsrc Hcal. unfold ipc_recv_part. destruct (has fl IPC_RECV).
  - apply recv_message_safe; auto.
  - by apply safe_ret, may_block_stay.
Qed.

Lemma ipc_safe c i dst src m fl caller k :
  kinv k -> runs c i k -> (has fl IPC_RECV = true -> 0 <= src) -> caller_ok i caller k ->
  (has fl IPC_SEND = true -> exists d y, dst = Some (Task d) /\ k_tasks k !! Task d = Some y
     /\ t_state y <> TASK_UNUSED) ->
  safe k (ipc stack_garbage c dst src m fl caller) (may_block c i k).
Proof.
  intros Hk Hrun Hsrc Hcal Hdst. unfold ipc. destruct (has fl IPC_SEND); [|by apply ipc_recv_part_safe].
  destruct (Hdst eq_refl) as (d & y & -> & Hy & Hu).
  eapply safe_bind; [by apply (send_message_safe c i d m fl src caller k y)|].
  intros r k1 (Hk1 & F1 & Hr1). destruct r as [e|]; [|by apply safe_ret; split_and!].
  specialize (Hr1 ltac:(done)). destruct (e =? OK); cbn [negb]; [|by apply safe_ret; split_and!].
  eapply safe_conseq; [apply (ipc_recv_part_safe c i); try done; by eapply caller_ok_frame|].
  intros r k2 (Hk2 & F2 & Hr2). split_and!; [done|by etrans|done].
Qed.

(** ** Exit *)
Definition stays_ok (c : nat) (k k' : kernel) : Prop := kinv k' /\ kframe c k k'.

Lemma task_exit_tail_safe c i k :
  kinv k -> runs c i k -> safe k (task_exit_tail c) (fun _ k' => stays_ok c k k').
Proof.
  intros Hk Hrun. destruct (runs_facts _ _ _ Hk Hrun) as (x & Hx & Hc & Hctx & Hs & Hw & _).
  unfold task_exit_tail. eapply safe_step; [by apply current_run|].
  set (x2 := with_kctx KDead (with_state TASK_BLOCKED x)).
  assert (HV : views (set_tasks (<[Task i := x2]> (k_tasks k)) k)
               = <[Task i := blocked_view (view_of x) IPC_DENY KDead]> (views k)).
  { rewrite views_insert. unfold blocked_view, view_of, x2. simpl. by rewrite Hw. }
  assert (HF : kframe c k (set_tasks (<[Task i := x2]> (k_tasks k)) k)).
  { split; [by apply (pagers_insert k (Task i) x)|done|done| |apply (klocal_running None c i); [done|done|done|klook]].
    intros t v Ht Hu. rewrite HV, lookup_insert. case_decide; eauto. }
  eapply (block_switch_safe c i x KDead k k); [done|done|done| |done|].
  - split; [|eapply static_frame; [exact HF|apply Hk]].
    change (vinv (Some c) (views (set_tasks (<[Task i := x2]> (k_tasks k)) k)) (k_runqueue k)
              (k_readers k) (k_current k)). rewrite HV.
    apply (vinv_block (views k) (k_runqueue k) (k_readers k) (k_current k) c i (view_of x));
      first [done|apply Hk|by apply views_task].
  - intros k' Hk' HF'. apply safe_ret. by split.
Qed.

Lemma pager_live k i x p :
  kinv k -> k_tasks k !! Task i = Some x -> t_pager x = Some p ->
  exists d y, p = Task d /\ k_tasks k !! Task d = Some y /\ t_state y <> TASK_UNUSED
    /\ t_tid y = Z.of_nat d + 1.
Proof.
  intros [I S] Hx Hp. destruct (so_pager _ S (Task i) p) as (d & v & -> & Hv & Hu).
  { unfold pagers. rewrite lookup_fmap, Hx. simpl. by rewrite Hp. }
  pose proof (vi_tid _ _ _ _ _ I _ _ Hv Hu) as Ht.
  apply views_lookup in Hv as (y & Hy & ->). exists d, y. by split_and!.
Qed.

Lemma task_exit_safe c i exc k :
  kinv k -> runs c i k -> pagers k !! Task i <> Some None ->
  safe k (task_exit stack_garbage c exc) (fun _ k' => stays_ok c k k').
Proof.
  intros Hk Hrun Hpg. destruct (runs_facts _ _ _ Hk Hrun) as (x & Hx & Hc & _).
  unfold task_exit. eapply safe_step; [by apply current_run|]. eapply safe_step; [by apply task_at_run|].
  destruct (t_pager x) as [p|] eqn:Hp.
  2: { exfalso. apply Hpg. unfold pagers. rewrite lookup_fmap, Hx. simpl. by rewrite Hp. }
  rewrite bool_decide_true by done. eapply safe_step; [reflexivity|].
  destruct (pager_live _ _ _ _ Hk Hx Hp) as (d & y & -> & Hy & Hu & _).
  eapply safe_bind; [apply (ipc_safe c i); [done|done|by vm_compute|done|intros _; eauto]|].
  intros r k1 (Hk1 & F1 & Hr1). destruct r as [e|]; [|by apply safe_ret].
  eapply safe_conseq; [by apply (task_exit_tail_safe c i); auto|].
  intros _ k2 [Hk2 F2]. split; [done|by etrans].
Qed.

Lemma finish_safe c i caller r k :
  kinv k -> runs c i k -> caller_ok i caller k ->
  safe k (finish stack_garbage c caller r) (fun _ k' => stays_ok c k k').
Proof.
  intros Hk Hrun Hcal. destruct (runs_facts _ _ _ Hk Hrun) as (x & Hx & Hc & _).
  unfold finish. destruct caller.
  - eapply safe_step; [by apply current_run|].
    eapply safe_conseq; [by eapply upd_inert_safe; eauto|]. intros _ k' (? & Hp & _). split; [done|apply Hp].
  - destruct (_ || _); [apply (task_exit_safe c i); auto|]. apply safe_ret. split; [done|apply kframe_refl].
  - by apply (task_exit_tail_safe c i).
  - eapply safe_step; [by apply current_run|].
    eapply safe_conseq; [by eapply upd_inert_safe; eauto|]. intros _ k' (? & Hp & _). split; [done|apply Hp].
Qed.

Lemma finish_opt_safe c i caller r k k0 :
  may_block c i k0 r k -> caller_ok i caller k0 ->
  safe k (finish_opt stack_garbage c caller r) (fun _ k' => stays_ok c k0 k').
Proof.
  intros (Hk & F & Hrun) Hcal. destruct r as [r|]; [|by apply safe_ret].
  eapply safe_conseq; [apply (finish_safe c i); [done|auto|by eapply caller_ok_frame]|].
  intros _ k' [? ?]. split; [done|by etrans].
Qed.

(** ** Page faults *)
Lemma handle_page_fault_safe c i vaddr ip fault k :
  kinv k -> runs c i k -> has fault PAGE_FAULT_USER = true -> pagers k !! Task i <> Some None ->
  safe k (handle_page_fault stack_garbage c vaddr ip fault) (fun _ k' => stays_ok c k k').
Proof.
  intros Hk Hrun Hf Hpg. destruct (runs_facts _ _ _ Hk Hrun) as (x & Hx & Hc & _).
  unfold handle_page_fault. eapply safe_step; [by apply current_run|]. eapply safe_step; [by apply task_at_run|].
  rewrite Hf. cbn [negb]. destruct (arch_is_mappable_uaddr vaddr); cbn [negb]; [|by apply (task_exit_safe c i)].
  destruct (t_pager x) as [p|] eqn:Hp.
  2: { exfalso. apply Hpg. unfold pagers. rewrite lookup_fmap, Hx. simpl. by rewrite Hp. }
  destruct (pager_live _ _ _ _ Hk Hx Hp) as (d & y & -> & Hy & Hu & Ht).
  eapply safe_step; [by apply task_at_run|].
  eapply safe_bind; [apply (ipc_safe c i); [done|done| |by intros _|intros _; eauto]|].
  - intros _. rewrite Ht. lia.
  - intros r k1 Hr. by eapply finish_opt_safe; [|intros _].
Qed.

(** ** Continuing *)

(** The running task leaves the blocking call it was inside. *)
Lemma ctx_run_inv k c i x y :
  kinv k -> k_current k !! c = Some (Task i) -> k_tasks k !! Task i = Some x ->
  view_of y = View TASK_RUNNABLE (t_tid x) (t_senders x) IPC_DENY KRun (t_pager x) ->
  kinv (set_tasks (<[Task i := y]> (k_tasks k)) k)
  /\ kframe c k (set_tasks (<[Task i := y]> (k_tasks k)) k)
  /\ runs c i (set_tasks (<[Task i := y]> (k_tasks k)) k).
Proof.
  intros [I S] Hc Hx Hy.
  assert (HF : kframe c k (set_tasks (<[Task i := y]> (k_tasks k)) k)).
  { split; [|done|done| |apply (klocal_running None c i); [by split|done|done|klook]].
    - apply (pagers_insert k (Task i) x); [done|]. unfold view_of in Hy. congruence.
    - intros t v Ht Hu. rewrite views_insert, Hy, lookup_insert. case_decide; eauto. }
  split_and!; [split|done|].
  - change (vinv None (views (set_tasks (<[Task i := y]> (k_tasks k)) k)) (k_runqueue k) (k_readers k) (k_current k)).
    rewrite views_insert, Hy.
    by apply (vinv_ctx_run (views k) (k_runqueue k) (k_readers k) (k_current k) c i (view_of x)); [|..|apply views_task].
  - by eapply static_frame.
  - split; [done|]. exists y. simpl. rewrite lookup_insert, decide_True by done. split; [done|].
    unfold view_of in Hy. congruence.
Qed.

Lemma send_resumed_safe c i d cm fl k x y :
  kinv k -> runs c i k -> k_tasks k !! Task i = Some x -> k_tasks k !! Task d = Some y ->
  t_state y = TASK_BLOCKED -> t_wait_for y = t_tid x ->
  safe k (send_resumed (Task i) (Task d) cm fl) (fun _ k' => kinv k' /\ keeps k k').
Proof.
  intros Hk Hrun Hx Hy Hb Hw. unfold send_resumed. eapply safe_step; [by apply task_at_run|].
  destruct (has _ _).
  - eapply safe_bind; [eapply upd_inert_safe; [exact Hk|exact Hx|done|done]|].
    intros _ k1 (Hk1 & Hp1 & _). by apply safe_ret.
  - eapply safe_conseq; [by apply (deliver_safe c i d cm fl k x y); auto|]. by intros e k' (_ & ? & ?).
Qed.
End Operations.
