(* ===== verification/Safety.v ===== *)
(** Safety of the kernel: its entry points as events, their enabling conditions, and
    the theorems that every enabled event of the scheduling, message passing,
    interrupt and serial code returns without a panic or an invalid access and keeps
    the scheduling invariant; reachability by sequences of events. *)

From S2P Require Import Prelude Types KData Memory Vm Kernel Task Ipc Syscall KInv Sched.

(** Changes of fields the scheduler never looks at. *)
Lemma keeps_other k k' :
  k_tasks k' = k_tasks k -> k_runqueue k' = k_runqueue k -> k_readers k' = k_readers k ->
  k_current k' = k_current k -> k_irq k' = k_irq k -> k_active k' = k_active k ->
  kinv k -> kinv k' /\ keeps k k'.
Proof.
  intros ET Erq Erd Ecur Ei Ea Hk.
  assert (EV : views k' = views k) by (unfold views; by rewrite ET).
  assert (HF : forall c, kframe c k k').
  { split; [unfold pagers; by rewrite ET|done|done|rewrite EV; eauto|]. apply klocal_all; rewrite ?ET; eauto. }
  split; [by apply (kinv_ext None 0 k); auto|]. split; [done|done|]. rewrite ET. eauto.
Qed.

(** ** Serial port *)
Lemma input_read_safe fuel n acc k :
  kinv k -> safe k (input_read fuel n acc) (fun _ k' => kinv k' /\ keeps k k').
Proof.
  revert acc k. induction fuel as [|fuel IH]; intros acc k Hk; [by apply safe_ret|].
  cbn [input_read]. eapply safe_step; [reflexivity|]. destruct (_ && _); [|by apply safe_ret].
  eapply safe_step; [reflexivity|]. set (k1 := set_ring _ _ _ _).
  destruct (keeps_other k k1) as [Hk1 Hp1]; try done.
  eapply safe_conseq; [by apply IH|]. intros r k2 [Hk2 Hp2]. split; [done|]. by etrans.
Qed.

Lemma serial_read_safe c i buf n k :
  kinv k -> runs c i k -> safe k (serial_read c buf n) (may_block c i k).
Proof.
  intros Hk Hrun. unfold serial_read. eapply safe_bind; [by apply input_read_safe|].
  intros chs k1 [Hk1 Hp1]. case_bool_decide; cbn [negb]; [|by apply safe_ret, may_block_stay].
  pose proof (runs_keeps _ _ _ _ Hp1 Hrun) as Hrun1.
  destruct (runs_facts _ _ _ Hk1 Hrun1) as (x & Hx & Hc & Hctx & Hs & Hw & _ & _ & Hl).
  eapply safe_step; [by apply current_run|].
  eapply safe_step.
  { unfold push_readers. erewrite ST_bind_run by reflexivity. rewrite Hl. reflexivity. }
  set (k2 := set_readers _ _). set (x2 := with_kctx (KSerial buf n) (with_state TASK_BLOCKED x)).
  assert (HV : views (set_tasks (<[Task i := x2]> (k_tasks k2)) k2)
               = <[Task i := blocked_view (view_of x) IPC_DENY (KSerial buf n)]> (views k1)).
  { rewrite views_insert. unfold blocked_view, view_of, x2. simpl. by rewrite Hw. }
  assert (HF : kframe c k1 (set_tasks (<[Task i := x2]> (k_tasks k2)) k2)).
  { split; [by apply (pagers_insert k2 (Task i) x)|done|done| |apply (klocal_running None c i); [done|done|done|klook]].
    intros t v Ht Hu. rewrite HV, lookup_insert. case_decide; eauto. }
  eapply (block_switch_safe c i x _ k2 k1); [done|done|done| |done|].
  - split; [|eapply static_frame; [exact HF|apply Hk1]].
    change (vinv (Some c) (views (set_tasks (<[Task i := x2]> (k_tasks k2)) k2)) (k_runqueue k1)
              (k_readers k1 ++ [Task i]) (k_current k1)). rewrite HV.
    apply (vinv_block (views k1) (k_runqueue k1) (k_readers k1) (k_current k1) c i (view_of x) (proj1 Hk1)
             Hc (views_task _ _ _ Hx) IPC_DENY (KSerial buf n)); done.
  - intros k' Hk' HF'. apply safe_ret. split_and!; [done|etrans; [apply Hp1|done]|done].
Qed.

(** [task_dump] gets to its end, whatever the tasks do. *)
Lemma dump_senders_run q k : (forall s, s ∈ q -> is_Some (k_tasks k !! s)) -> exists ls, dump_senders q k = Ok (ls, k).
Proof.
  induction q as [|s q IH]; intros Hq; [by eexists|]. destruct (Hq s) as [y Hy]; [by left|]. cbn [dump_senders].
  rewrite (ST_bind_run _ _ _ _ _ (task_at_run _ _ _ Hy)).
  destruct IH as (ls & E); [intros t Ht; apply Hq; by right|]. rewrite (ST_fmap_run _ _ _ _ _ E). eauto.
Qed.
Lemma task_dump_run k : kinv k -> exists ls, task_dump k = Ok (ls, k).
Proof.
  intros [I S]. unfold task_dump. rewrite (ST_bind_run (gets _) _ _ _ _ eq_refl).
  pose proof (so_active _ S) as HA. induction (k_active k) as [|t q IH]; [by eexists|]. cbn [dump_tasks].
  destruct (HA t) as (i & v & -> & Hv & Hu); [by left|]. apply views_lookup in Hv as (x & Hx & ->). simpl in Hu.
  assert (Ht : exists ls, dump_task (Task i) k = Ok (ls, k)).
  { unfold dump_task. rewrite (ST_bind_run _ _ _ _ _ (task_at_run _ _ _ Hx)). destruct (t_state x); [done| |by eexists].
    destruct (dump_senders_run (t_senders x) k) as (ls & E); [|rewrite (ST_fmap_run _ _ _ _ _ E); eauto].
    intros s Hs. destruct (vi_snd _ _ _ _ _ I _ _ _ (views_task _ _ _ Hx) Hs) as (j & w & -> & Hw & _).
    apply views_lookup in Hw as (y & ? & _). eauto. }
  destruct Ht as (ls & E). rewrite (ST_bind_run _ _ _ _ _ E).
  destruct IH as (ls' & E'); [intros t Ht; apply HA; by right|]. rewrite (ST_fmap_run _ _ _ _ _ E'). eauto.
Qed.

Lemma input_write_all_safe chs k :
  kinv k -> safe k (input_write_all chs) (fun _ k' => kinv k' /\ keeps k k' /\ k_readers k' = k_readers k).
Proof.
  revert k. induction chs as [|ch chs IH]; intros k Hk; [by apply safe_ret|]. cbn [input_write_all].
  assert (Hstep : exists k1, (if ch =? 16 then _ ← task_dump; mret tt else input_write ch) k = Ok (tt, k1)
            /\ kinv k1 /\ keeps k k1 /\ k_readers k1 = k_readers k).
  { destruct (ch =? 16).
    { destruct (task_dump_run k Hk) as (ls & E). exists k. by rewrite (ST_bind_run _ _ _ _ _ E). }
    eexists. split; [reflexivity|].
    destruct (keeps_other k (set_ring (<[Z.to_nat (k_wp k):=ch]> (k_input k))
      (if k_rp k =? (k_wp k + 1) `mod` INPUT_SIZE then (k_rp k + 1) `mod` INPUT_SIZE else k_rp k)
      ((k_wp k + 1) `mod` INPUT_SIZE) k)); done. }
  destruct Hstep as (k1 & E & Hk1 & Hp1 & Er). eapply safe_step; [exact E|].
  eapply safe_conseq; [by apply IH|]. intros _ k2 (? & ? & ?). split_and!; [done|by etrans|congruence].
Qed.

(** Waking one serial reader. *)
Lemma wake_reader_safe k i q :
  kinv k -> k_readers k = Task i :: q ->
  safe k (wq_remove (Task i) ;; task_resume (Task i))
    (fun _ k' => kinv k' /\ keeps k k' /\ k_readers k' = q).
Proof.
  intros Hk Hq. pose proof Hk as [I S].
  destruct (vi_rd _ _ _ _ _ I (Task i)) as (i' & v & b & n & [= <-] & Hv & Hb & Hctx); [rewrite Hq; by left|].
  apply views_lookup in Hv as (x & Hx & ->). simpl in Hb, Hctx.
  pose proof (vi_rd_nodup _ _ _ _ _ I) as Hnd. rewrite Hq in Hnd. apply NoDup_cons in Hnd as [Hni _].
  assert (Hflt : filter (fun y => y <> Task i) (k_readers k) = q).
  { rewrite Hq, filter_cons_False by naive_solver. apply list_filter_all. by intros t Ht ->. }
  assert (Nrq : Task i ∉ k_runqueue k).
  { intros (? & w & [= <-] & Hw & Hr & _)%(vi_rq _ _ _ _ _ I). apply views_lookup in Hw as (y & Hy & ->).
    simplify_eq. simpl in Hr. congruence. }
  assert (Nsnd : forall d w, views k !! d = Some w -> Task i ∉ v_senders w).
  { intros d w Hd Hs. destruct (vi_snd _ _ _ _ _ I _ _ _ Hd Hs) as (? & w' & [= <-] & Hw' & _ & Hto).
    apply views_lookup in Hw' as (y & Hy & ->). simplify_eq. simpl in Hto. by rewrite Hctx in Hto. }
  eapply safe_step; [reflexivity|]. cbv zeta. set (k1 := set_readers _ _).
  assert (ET : k_tasks k1 = k_tasks k).
  { simpl. apply map_eq. intros t. rewrite lookup_fmap. destruct (k_tasks k !! t) as [y|] eqn:Hy; [|done].
    simpl. f_equal. rewrite list_filter_all; [by destruct y|]. intros u Hu ->.
    by apply (Nsnd t (view_of y)); [apply views_task|]. }
  assert (Erq : k_runqueue k1 = k_runqueue k) by (apply list_filter_all; by intros t Ht ->).
  assert (Erd : k_readers k1 = q) by exact Hflt.
  assert (EV : views k1 = views k) by (unfold views; by rewrite ET).
  eexists _, _. split.
  { apply (task_resume_run _ _ x); [by rewrite ET|done|].
    apply wq_linked_false; [by rewrite Erq|by rewrite Erd|by rewrite EV]. }
  set (k2 := set_runqueue _ _).
  assert (HF : forall c, kframe c k k2).
  { intros c. split; [|done|done| |].
    - change (pagers k2) with (pagers (set_tasks (<[Task i := with_state TASK_RUNNABLE x]> (k_tasks k1)) k1)).
      rewrite (pagers_insert k1 (Task i) x) by (rewrite ?ET; done). unfold pagers. by rewrite ET.
    - intros t v Ht Hu.
      change (views k2) with (views (set_tasks (<[Task i := with_state TASK_RUNNABLE x]> (k_tasks k1)) k1)).
      rewrite views_insert, EV, lookup_insert. case_decide; eauto.
    - apply klocal_all; [done|]. intros t y Hy.
      change (k_tasks k2) with (<[Task i := with_state TASK_RUNNABLE x]> (k_tasks k1)).
      rewrite ET, lookup_insert. case_decide; [|eauto]. simplify_eq. eauto. }
  split_and!; [split|split|done].
  - change (vinv None (views (set_tasks (<[Task i := with_state TASK_RUNNABLE x]> (k_tasks k1)) k1))
              (k_runqueue k1 ++ [Task i]) (k_readers k1) (k_current k)).
    rewrite views_insert, EV, Erq, Erd, <- Hflt.
    apply (vinv_wake_reader _ _ _ _ _ (view_of x)); [done|rewrite Hq; by left|by apply views_task].
  - by eapply (static_frame 0); [apply HF|].
  - done.
  - done.
  - intros t y Hy. change (k_tasks k2) with (<[Task i := with_state TASK_RUNNABLE x]> (k_tasks k1)).
    rewrite ET, lookup_insert. case_decide as Ht; [|eauto]. subst t. simplify_eq. eexists. done.
Qed.

Lemma resume_readers_safe q k :
  kinv k -> k_readers k = q -> safe k (resume_readers q) (fun _ k' => kinv k' /\ keeps k k' /\ k_readers k' = []).
Proof.
  revert k. induction q as [|t q IH]; intros k Hk Hq; [by apply safe_ret|].
  destruct (vi_rd _ _ _ _ _ (proj1 Hk) t) as (i & _ & _ & _ & -> & _); [rewrite Hq; by left|].
  destruct (wake_reader_safe k i q Hk Hq) as (u & k1 & E & Hk1 & Hp1 & Eq1).
  cbn [resume_readers].
  assert (Hre : (wq_remove (Task i) ≫= (fun _ => task_resume (Task i) ≫= fun _ => resume_readers q)) k
                = resume_readers q k1).
  { unfold mbind, ST_bind in *. destruct (wq_remove (Task i) k) as [[? ?]| |]; try done. by rewrite E. }
  destruct (IH k1 Hk1 Eq1) as (u' & k2 & E2 & Hk2 & Hp2 & ?).
  exists u', k2. rewrite Hre. split_and!; [done|done|by etrans|done].
Qed.

Lemma handle_serial_interrupt_safe chs k :
  kinv k -> safe k (handle_serial_interrupt chs) (fun _ k' => kinv k' /\ keeps k k' /\ k_readers k' = []).
Proof.
  intros Hk. unfold handle_serial_interrupt. eapply safe_bind; [by apply input_write_all_safe|].
  intros _ k1 (Hk1 & Hp1 & _). eapply safe_step; [reflexivity|].
  eapply safe_conseq; [by apply resume_readers_safe|]. intros _ k2 (? & ? & ?). split_and!; [done|by etrans|done].
Qed.

(** ** Timer and device interrupts *)
Lemma update_timeouts_safe ts ticks k :
  kinv k -> (forall t, t ∈ ts -> exists i, t = Task i /\ (i < Z.to_nat NUM_TASKS_MAX)%nat) ->
  safe k (update_timeouts ts ticks) (fun _ k' => kinv k' /\ keeps k k').
Proof.
  revert k. induction ts as [|t ts IH]; intros k Hk Hts; [by apply safe_ret|].
  destruct (Hts t) as (i & -> & Hi); [by left|]. cbn [update_timeouts].
  destruct (proj2 (vi_dom _ _ _ _ _ (proj1 Hk) i) Hi) as [v Hv]. apply views_lookup in Hv as (x & Hx & _).
  eapply safe_step; [by apply task_at_run|].
  eapply (safe_bind _ _ _ (fun _ k1 => kinv k1 /\ keeps k k1)).
  - destruct (0 <? t_timeout x); [|by apply safe_ret].
    eapply safe_bind; [eapply upd_inert_safe; [exact Hk|exact Hx|done|done]|].
    intros _ k1 (Hk1 & Hp1 & _). destruct (_ =? 0); [|by apply safe_ret].
    eapply safe_conseq; [by apply notify_safe|]. intros _ k2 [? ?]. split; [done|]. by etrans.
  - intros _ k1 [Hk1 Hp1]. eapply safe_conseq; [apply IH; [done|]|].
    + intros t Ht. apply Hts. by right.
    + intros _ k2 [? ?]. split; [done|]. by etrans.
Qed.

Lemma handle_timer_interrupt_safe c t ticks k :
  kinv k -> k_current k !! c = Some t ->
  safe k (handle_timer_interrupt c ticks) (fun _ k' => stays_ok c k k').
Proof.
  intros Hk Hc. unfold handle_timer_interrupt. eapply safe_step; [reflexivity|].
  destruct (keeps_other k (set_uptime (u32 (k_uptime k + ticks)) k)) as [Hk1 Hp1]; try done.
  set (k1 := set_uptime _ _) in *.
  eapply (safe_bind _ _ _ (fun _ k2 => kinv k2 /\ keeps k k2)).
  { destruct (c =? 0)%nat; [|by apply safe_ret]. eapply safe_step; [reflexivity|].
    eapply safe_conseq; [apply update_timeouts_safe; [done|]|].
    { intros u Hu. destruct (so_active _ (proj2 Hk1) _ Hu) as (i & v & -> & Hv & _). exists i.
      split; [done|]. apply (vi_dom _ _ _ _ _ (proj1 Hk1)). eauto. }
    intros _ k2 [? ?]. split; [done|]. by etrans. }
  intros _ k2 [Hk2 Hp2]. assert (Hc2 : k_current k2 !! c = Some t) by (by rewrite (kp_cur _ _ Hp2)).
  eapply safe_step; [by apply current_run|]. destruct (prev_exists _ _ _ _ Hk2 Hc2) as (x & Hx).
  eapply safe_step; [by apply task_at_run|].
  eapply safe_bind; [eapply upd_inert_safe; [exact Hk2|exact Hx|done|done]|].
  intros _ k3 (Hk3 & Hp3 & _). assert (Hp : keeps k k3) by (by etrans).
  destruct (_ =? 0); [|apply safe_ret; split; [done|apply Hp]].
  eapply safe_bind; [eapply (task_switch_safe None k3 c t); [done|by left|by rewrite (kp_cur _ _ Hp)]|].
  intros b k4 (Hk4 & F4 & _). apply safe_ret. split; [done|]. etrans; [apply Hp|done].
Qed.

Lemma handle_interrupt_safe irq k :
  kinv k -> safe k (handle_interrupt irq) (fun _ k' => kinv k' /\ keeps k k').
Proof.
  intros Hk. unfold handle_interrupt. destruct (_ <=? _); [by apply safe_ret|].
  eapply safe_step; [reflexivity|]. destruct (irq_listener irq k) as [t|] eqn:E; [|by apply safe_ret].
  destruct (so_irq _ (proj2 Hk) _ _ E) as (i & -> & Hi). by apply notify_safe.
Qed.

(** ** Continuing a blocked call *)
Section Entry.
Context (stack_garbage : message) (user_tramp kernel_tramp hinavm_run : Z).

Lemma resume_send_safe c i x d cm fl src m caller k :
  kinv k -> k_current k !! c = Some (Task i) -> k_tasks k !! Task i = Some x ->
  t_kctx x = KSend d cm fl src m caller ->
  safe k (resume stack_garbage c) (fun _ k' => stays_ok c k k').
Proof.
  intros Hk Hc Hx Hctx. pose proof Hk as [I _]. pose proof (views_task _ _ _ Hx) as Hv.
  assert (Hs : t_state x = TASK_RUNNABLE) by exact (running_state _ _ _ _ _ _ _ I Hc Hv).
  pose proof (vi_ctx _ _ _ _ _ I _ _ Hv) as Hok. simpl in Hok. specialize (Hok ltac:(congruence)).
  unfold ctx_ok in Hok. simpl in Hok. rewrite Hctx in Hok.
  destruct Hok as (Hw & w & Hwd & _ & Hhand). destruct (Hhand Hs) as [Hb Hwt].
  pose proof (vi_args _ _ _ _ _ I _ _ Hv) as Hargs. simpl in Hargs. rewrite Hctx in Hargs.
  destruct Hargs as [Hpg Hsrc].
  assert (Htid : t_tid x = Z.of_nat i + 1)
    by (apply (vi_tid _ _ _ _ _ I _ _ Hv); simpl; congruence).
  destruct d as [d|cd].
  2: { destruct (vi_idle _ _ _ _ _ I _ _ Hwd) as (_ & _ & [E|[_ E]]); [congruence|].
       rewrite E, Htid in Hwt. unfold IPC_DENY in Hwt. lia. }
  apply views_lookup in Hwd as (y & Hy & ->). simpl in Hb, Hwt.
  assert (Hdi : Task d <> Task i) by (intros [= ->]; simplify_eq; congruence).
  destruct (ctx_run_inv k c i x (with_kctx KRun x)) as (Hk1 & F1 & Hrun1); [done..| |].
  { unfold view_of. simpl. by rewrite Hs, Hw. }
  unfold resume. eapply safe_step; [by apply current_run|]. eapply safe_step; [by apply task_at_run|].
  rewrite Hctx. eapply safe_step; [by apply upd_run|].
  set (k1 := set_tasks _ _) in *.
  eapply safe_bind; [eapply (send_resumed_safe c i d cm fl k1 (with_kctx KRun x) y)|]; try done.
  { simpl. by rewrite lookup_insert, decide_True. }
  { simpl. by rewrite lookup_insert_ne. }
  intros err k2 [Hk2 Hp2]. pose proof (runs_keeps _ _ _ _ Hp2 Hrun1) as Hrun2.
  assert (F2 : kframe c k k2) by (etrans; [done|apply Hp2]).
  assert (Hcal : caller_ok i caller k2).
  { intros Hcf E. apply (Hpg Hcf). rewrite (kf_pagers _ _ _ F2) in E. unfold pagers in E.
    rewrite lookup_fmap, Hx in E. simpl in E. by injection E. }
  destruct (err =? OK); cbn [negb].
  - eapply safe_bind; [by apply (ipc_recv_part_safe stack_garbage c i src m fl caller k2)|].
    intros r k3 Hr. eapply safe_conseq; [by apply (finish_opt_safe stack_garbage c i caller r k3 k2)|].
    intros _ k4 [? ?]. split; [done|by etrans].
  - eapply safe_conseq; [by apply (finish_safe stack_garbage c i)|].
    intros _ k4 [? ?]. split; [done|by etrans].
Qed.

Lemma resume_recv_safe c i x m fl caller k :
  kinv k -> k_current k !! c = Some (Task i) -> k_tasks k !! Task i = Some x ->
  t_kctx x = KRecv m fl caller ->
  safe k (resume stack_garbage c) (fun _ k' => stays_ok c k k').
Proof.
  intros Hk Hc Hx Hctx. pose proof Hk as [I _]. pose proof (views_task _ _ _ Hx) as Hv.
  assert (Hs : t_state x = TASK_RUNNABLE) by exact (running_state _ _ _ _ _ _ _ I Hc Hv).
  pose proof (vi_args _ _ _ _ _ I _ _ Hv) as Hpg. simpl in Hpg. rewrite Hctx in Hpg.
  destruct (ctx_run_inv k c i x (with_wait_for IPC_DENY (with_kctx KRun x))) as (Hk1 & F1 & Hrun1); [done..| |].
  { unfold view_of. simpl. by rewrite Hs. }
  unfold resume. eapply safe_step; [by apply current_run|]. eapply safe_step; [by apply task_at_run|].
  rewrite Hctx. eapply safe_step; [by apply upd_run|].
  set (k1 := set_tasks (<[Task i := with_wait_for IPC_DENY (with_kctx KRun x)]> (k_tasks k)) k) in *.
  assert (Hupd : upd (Task i) (with_wait_for IPC_DENY)
            (set_tasks (<[Task i := with_kctx KRun x]> (k_tasks k)) k) = Ok (tt, k1)).
  { rewrite (upd_run _ _ _ (with_kctx KRun x)) by (simpl; by rewrite lookup_insert, decide_True).
    unfold k1, set_tasks. simpl. by rewrite insert_insert_eq. }
  unfold recv_resumed. apply safe_assoc. eapply safe_step; [exact Hupd|].
  apply safe_assoc. eapply safe_step; [apply task_at_run; simpl; by rewrite lookup_insert, decide_True|].
  eapply safe_bind; [by apply recv_copy_safe|]. intros r k2 [Hk2 Hp2].
  assert (F2 : kframe c k k2) by (etrans; [done|apply Hp2]).
  eapply safe_conseq; [apply (finish_safe stack_garbage c i); [done|by eapply runs_keeps|]|].
  - intros Hcf E. apply (Hpg Hcf). rewrite (kf_pagers _ _ _ F2) in E. unfold pagers in E.
    rewrite lookup_fmap, Hx in E. simpl in E. by injection E.
  - intros _ k4 [? ?]. split; [done|by etrans].
Qed.

Lemma memcpy_to_user_safe t a bs k :
  kinv k -> safe k (memcpy_to_user t a bs) (fun _ k' => kinv k' /\ keeps k k').
Proof.
  intros Hk. unfold memcpy_to_user. destruct (negb _); [by apply safe_ret|].
  eexists _, _. split; [reflexivity|]. by apply keeps_other.
Qed.

(** The end of [sys_serial_read] once characters were read. *)
Lemma serial_done_safe c i k k0 (r : option (list Z)) buf (f : list Z -> KST unit) :
  may_block c i k0 r k ->
  (forall chs k1, kinv k1 -> runs c i k1 -> safe k1 (f chs) (fun _ k' => kinv k' /\ keeps k1 k')) ->
  safe k (match r with
          | None => mret tt
          | Some chs => _ ← memcpy_to_user (Task i) buf chs; f chs
          end) (fun _ k' => stays_ok c k0 k').
Proof.
  intros (Hk & F & Hrun) Hf. destruct r as [chs|]; [|by apply safe_ret].
  specialize (Hrun ltac:(done)). eapply safe_bind; [by apply memcpy_to_user_safe|].
  intros _ k1 [Hk1 Hp1]. eapply safe_conseq; [apply Hf; [done|by eapply runs_keeps]|].
  intros _ k2 [Hk2 Hp2]. split; [done|]. etrans; [done|]. etrans; [apply Hp1|apply Hp2].
Qed.

Lemma upd_ret_safe c i v k :
  kinv k -> runs c i k -> safe k (upd (Task i) (with_ret v)) (fun _ k' => kinv k' /\ keeps k k').
Proof.
  intros Hk [_ (x & Hx & _)]. eapply safe_conseq; [by eapply upd_inert_safe; eauto|].
  by intros _ k' (? & ? & _).
Qed.

Lemma resume_safe c t k :
  kinv k -> k_current k !! c = Some t -> safe k (resume stack_garbage c) (fun _ k' => stays_ok c k k').
Proof.
  intros Hk Hc. pose proof Hk as [I _]. destruct (prev_exists _ _ _ _ Hk Hc) as (x & Hx).
  pose proof (views_task _ _ _ Hx) as Hv.
  destruct (vi_cur _ _ _ _ _ I _ _ Hc) as [->|(i & v & -> & _ & _)].
  { unfold resume. eapply safe_step; [by apply current_run|]. eapply safe_step; [by apply task_at_run|].
    destruct (vi_idle _ _ _ _ _ I _ _ Hv) as (E & _). simpl in E. rewrite E.
    apply safe_ret. split; [done|apply kframe_refl]. }
  assert (Hs : t_state x = TASK_RUNNABLE) by exact (running_state _ _ _ _ _ _ _ I Hc Hv).
  pose proof (vi_ctx _ _ _ _ _ I _ _ Hv) as Hok. simpl in Hok. specialize (Hok ltac:(congruence)).
  unfold ctx_ok in Hok. simpl in Hok.
  destruct (t_kctx x) as [|d cm fl src m caller|m fl caller|buf n|] eqn:Hctx.
  - unfold resume. eapply safe_step; [by apply current_run|]. eapply safe_step; [by apply task_at_run|].
    rewrite Hctx. apply safe_ret. split; [done|apply kframe_refl].
  - by eapply resume_send_safe.
  - by eapply resume_recv_safe.
  - destruct Hok as [Hw _].
    destruct (ctx_run_inv k c i x (with_kctx KRun x)) as (Hk1 & F1 & Hrun1); [done..| |].
    { unfold view_of. simpl. by rewrite Hs, Hw. }
    unfold resume. eapply safe_step; [by apply current_run|]. eapply safe_step; [by apply task_at_run|].
    rewrite Hctx. eapply safe_step; [by apply upd_run|].
    eapply safe_bind; [by apply (serial_read_safe c i)|]. intros r k2 Hr.
    eapply safe_conseq; [apply (serial_done_safe c i k2 _ r buf _ Hr); intros; by eapply upd_ret_safe|].
    intros _ k3 [? ?]. split; [done|by etrans].
  - destruct Hok. congruence.
Qed.

(** ** System calls *)
Lemma task_find_run tid k :
  kinv k -> tid <> 0 ->
  exists r, task_find tid k = Ok (r, k) /\
    (forall t, r = Some t -> exists d y, t = Task d /\ k_tasks k !! Task d = Some y
       /\ t_state y <> TASK_UNUSED /\ (d < Z.to_nat NUM_TASKS_MAX)%nat).
Proof.
  intros Hk Hne. unfold task_find. destruct (_ || _) eqn:Hr; [by exists None|].
  apply orb_false_iff in Hr as [H1%Z.ltb_ge H2%Z.leb_gt].
  destruct (Z.ltb_spec (tid - 1) 0); [lia|].
  destruct (proj2 (vi_dom _ _ _ _ _ (proj1 Hk) (Z.to_nat (tid - 1)))) as [v Hv]; [unfold NUM_TASKS_MAX in *; lia|].
  apply views_lookup in Hv as (y & Hy & _).
  rewrite (ST_bind_run _ _ _ _ _ (task_at_run _ _ _ Hy)).
  case_bool_decide; [by exists None|]. eexists. split; [reflexivity|]. intros t [= <-].
  exists (Z.to_nat (tid - 1)), y. split_and!; [done..|]. unfold NUM_TASKS_MAX in *. lia.
Qed.

(** What a system call leaves behind: the invariant, the other CPUs' tasks, and the
    caller still running unless the call blocked it. *)
Definition sys_post {A} (c i : nat) (k : kernel) (r : option A) (k' : kernel) : Prop :=
  kinv k' /\ klocal c k k' /\ (r <> None -> runs c i k').

Lemma sys_post_keeps {A} c i k (r : option A) k' : kinv k' -> keeps k k' -> runs c i k -> sys_post c i k r k'.
Proof. intros Hk Hp Hr. split_and!; [done|apply (kp_frame _ _ Hp c)|intros _; by eapply runs_keeps]. Qed.
Lemma sys_post_refl {A} c i k (r : option A) : kinv k -> runs c i k -> sys_post c i k r k.
Proof. intros. by apply sys_post_keeps. Qed.

Lemma sys_ipc_safe c i dst src m fl k :
  kinv k -> runs c i k -> (has fl IPC_SEND = true -> dst <> 0) ->
  safe k (sys_ipc stack_garbage c dst src m fl) (sys_post c i k).
Proof.
  intros Hk Hrun Hdst. unfold sys_ipc. destruct (negb _); [by apply safe_ret, sys_post_refl|].
  destruct (_ || _) eqn:Hsrc; [by apply safe_ret, sys_post_refl|]. apply orb_false_iff in Hsrc as [Hsrc%Z.ltb_ge _].
  assert (Hfind : exists d, (if has fl IPC_SEND then task_find dst else mret None) k = Ok (d, k)
    /\ (has fl IPC_SEND = true -> forall t, d = Some t -> exists j y, t = Task j
          /\ k_tasks k !! Task j = Some y /\ t_state y <> TASK_UNUSED)).
  { destruct (has fl IPC_SEND); [|by exists None].
    destruct (task_find_run dst k Hk (Hdst eq_refl)) as (r & E & Hr). exists r. split; [done|].
    intros _ t Ht. destruct (Hr t Ht) as (d & y & ? & ? & ? & _). eauto. }
  destruct Hfind as (d & E & Hd). eapply safe_step; [exact E|].
  destruct (has fl IPC_SEND && bool_decide (d = None)) eqn:Hn; [by apply safe_ret, sys_post_refl|].
  eapply safe_bind; [apply (ipc_safe stack_garbage c i); [done|done|done|done|]|].
  - intros Hs. rewrite Hs in Hn. simpl in Hn. apply bool_decide_eq_false in Hn.
    destruct d as [t|]; [|done]. destruct (Hd Hs t eq_refl) as (j & y & -> & ? & ?). eauto.
  - intros r k1 (Hk1 & F1 & Hr). apply safe_ret. split_and!; [done|apply F1|]. intros Hr'. apply Hr. by destruct r.
Qed.

Lemma sys_notify_safe c i dst n k :
  kinv k -> runs c i k -> dst <> 0 ->
  safe k (Some <$> sys_notify dst n) (sys_post c i k).
Proof.
  intros Hk Hrun Hne. apply safe_fmap. unfold sys_notify.
  destruct (task_find_run dst k Hk Hne) as (r & E & Hr). eapply safe_step; [exact E|].
  destruct r as [t|]; [|by apply safe_ret]. destruct (Hr t eq_refl) as (d & y & -> & _ & _ & Hd).
  eapply safe_bind; [by apply notify_safe|]. intros _ k1 [Hk1 Hp1].
  by apply safe_ret, sys_post_keeps.
Qed.

Lemma serial_write_loop_safe fuel cur buf n kbuf k :
  kinv k -> safe k (serial_write_loop fuel cur buf n kbuf) (fun _ k' => kinv k' /\ keeps k k').
Proof.
  revert n kbuf k. induction fuel as [|fuel IH]; intros n kbuf k Hk; [by apply safe_ret|].
  cbn [serial_write_loop]. destruct (n <=? 0); [by apply safe_ret|].
  destruct (memcpy_from_user_run cur buf (Z.to_nat (Z.min n 512)) k) as (e & bs & E).
  eapply safe_step; [exact E|]. eapply safe_step; [reflexivity|].
  set (k1 := set_serial_out _ _). destruct (keeps_other k k1) as [Hk1 Hp1]; try done.
  eapply safe_conseq; [by apply IH|]. intros _ k2 [? ?]. split; [done|]. by etrans.
Qed.

Lemma irq_set_listener_inv c i n (o : option tptr) b k :
  kinv k -> runs c i k -> (forall t, o = Some t -> t = Task i) ->
  kinv (set_irq (<[n := o]> (k_irq k)) b k) /\ runs c i (set_irq (<[n := o]> (k_irq k)) b k).
Proof.
  intros Hk Hrun Ho. destruct (runs_facts _ _ _ Hk Hrun) as (x & _ & _ & _ & _ & _ & _ & Hi & _).
  split; [|exact Hrun]. destruct Hk as [I S]. split; [exact I|]. destruct S as [S1 S2 S3]. split; [done| |done].
  intros irq t. unfold irq_listener. simpl. rewrite list_lookup_insert.
  case_decide; simpl; [|apply (S2 irq t)].
  intros Ht. rewrite (Ho t Ht). eauto.
Qed.

Lemma irq_listen_safe c i irq k :
  kinv k -> runs c i k -> safe k (Some <$> irq_listen (Task i) irq) (sys_post c i k).
Proof.
  intros Hk Hrun. apply safe_fmap. unfold irq_listen. destruct (Z.leb_spec IRQ_MAX irq); [by apply safe_ret, sys_post_refl|].
  eapply safe_step; [reflexivity|]. case_bool_decide; [by apply safe_ret, sys_post_refl|].
  eapply safe_step.
  { unfold arch_irq_set. replace (irq <? IRQ_MAX) with true by lia. reflexivity. }
  change (negb (OK =? OK)) with false. cbv iota. eapply safe_step; [reflexivity|]. apply safe_ret. simpl.
  destruct (irq_set_listener_inv c i (Z.to_nat irq) (Some (Task i))
    (<[Z.to_nat irq:=true]> (k_irq_enabled k)) k) as [? ?]; [done|done|by intros ? [= ->]|].
  split_and!; [done|by apply klocal_all; eauto|done].
Qed.

Lemma irq_unlisten_safe c i irq k :
  kinv k -> runs c i k -> safe k (Some <$> irq_unlisten (Task i) irq) (sys_post c i k).
Proof.
  intros Hk Hrun. apply safe_fmap. unfold irq_unlisten. destruct (Z.leb_spec IRQ_MAX irq); [by apply safe_ret, sys_post_refl|].
  eapply safe_step; [reflexivity|]. case_bool_decide; [by apply safe_ret, sys_post_refl|].
  eapply safe_step.
  { unfold arch_irq_set. replace (irq <? IRQ_MAX) with true by lia. reflexivity. }
  change (negb (OK =? OK)) with false. cbv iota. eapply safe_step; [reflexivity|]. apply safe_ret. simpl.
  destruct (irq_set_listener_inv c i (Z.to_nat irq) None
    (<[Z.to_nat irq:=false]> (k_irq_enabled k)) k) as [? ?]; [done|done|done|].
  split_and!; [done|by apply klocal_all; eauto|done].
Qed.

(** The system calls of the scheduler, message passing, interrupts and the console;
    the others change memory or the set of tasks. *)
Definition core_syscall (n : Z) : bool :=
  negb (existsb (Z.eqb n) [SYS_TASK_CREATE; SYS_TASK_DESTROY; SYS_PM_ALLOC; SYS_VM_MAP; SYS_VM_UNMAP; SYS_HINAVM]).

(** Task id 0 passed to [task_find] reads in front of [tasks]. *)
Definition names_task (a0 a3 n : Z) : Prop :=
  (n = SYS_NOTIFY -> s32 a0 <> 0) /\
  (n = SYS_IPC -> has (u32 a3) IPC_SEND = true -> s32 a0 <> 0).

Lemma handle_syscall_safe c i kbuf a0 a1 a2 a3 n k :
  kinv k -> runs c i k -> core_syscall n = true -> names_task a0 a3 n ->
  (n = SYS_TASK_EXIT -> pagers k !! Task i <> Some None) ->
  safe k (handle_syscall stack_garbage user_tramp kernel_tramp hinavm_run c kbuf a0 a1 a2 a3 n) (sys_post c i k).
Proof.
  intros Hk Hrun Hcore [Hnot Hipc] Hexit.
  destruct (runs_facts _ _ _ Hk Hrun) as (x & Hx & Hc & _).
  unfold core_syscall in Hcore. apply negb_true_iff in Hcore. simpl in Hcore.
  rewrite !orb_false_iff in Hcore. destruct Hcore as (C1 & C2 & C3 & C4 & C5 & C6 & _).
  unfold handle_syscall. rewrite C1, C2, C3, C4, C5, C6.
  destruct (Z.eqb_spec n SYS_IPC); [apply sys_ipc_safe; auto|].
  destruct (Z.eqb_spec n SYS_NOTIFY); [apply (sys_notify_safe c i); auto|].
  destruct (n =? SYS_SERIAL_WRITE).
  { apply safe_fmap. unfold sys_serial_write. eapply safe_step; [by apply current_run|].
    eapply safe_bind; [by apply serial_write_loop_safe|]. intros _ k1 [Hk1 Hp1].
    by apply safe_ret, sys_post_keeps. }
  destruct (n =? SYS_SERIAL_READ).
  { unfold sys_serial_read. eapply safe_bind; [by apply (serial_read_safe c i)|].
    intros r k1 (Hk1 & F1 & Hr). destruct r as [chs|]; [|by apply safe_ret; split_and!; [|apply F1|]].
    specialize (Hr ltac:(done)). eapply safe_step; [apply current_run, Hr|].
    eapply safe_bind; [by apply memcpy_to_user_safe|]. intros _ k2 [Hk2 Hp2].
    apply safe_ret. split_and!; [done|etrans; [apply F1|apply (kp_frame _ _ Hp2 c)]|]. intros _. by eapply runs_keeps. }
  destruct (Z.eqb_spec n SYS_TASK_EXIT).
  { eapply safe_bind; [by apply (task_exit_safe stack_garbage c i); auto|].
    intros _ k1 [Hk1 F1]. apply safe_ret. by split_and!; [|apply F1|]. }
  destruct (n =? SYS_TASK_SELF).
  { apply safe_fmap. unfold sys_task_self. eapply safe_step; [by apply current_run|].
    eapply safe_step; [by apply task_at_run|]. by apply safe_ret, sys_post_refl. }
  destruct (n =? SYS_IRQ_LISTEN).
  { eapply safe_step; [by apply current_run|]. by apply irq_listen_safe. }
  destruct (n =? SYS_IRQ_UNLISTEN).
  { eapply safe_step; [by apply current_run|]. by apply irq_unlisten_safe. }
  destruct (n =? SYS_TIME).
  { apply safe_fmap. unfold sys_time. destruct (_ <? 0); [by apply safe_ret, sys_post_refl|].
    eapply safe_step; [by apply current_run|].
    eapply safe_bind; [eapply upd_inert_safe; [exact Hk|exact Hx|done|done]|].
    intros _ k1 (Hk1 & Hp1 & _). by apply safe_ret, sys_post_keeps. }
  destruct (n =? SYS_UPTIME).
  { apply safe_fmap. eexists _, _. split; [reflexivity|]. by apply sys_post_refl. }
  destruct (n =? SYS_SHUTDOWN); by apply safe_ret, sys_post_refl.
Qed.

Lemma syscall_safe c i kbuf a0 a1 a2 a3 n k :
  kinv k -> runs c i k -> core_syscall n = true -> names_task a0 a3 n ->
  (n = SYS_TASK_EXIT -> pagers k !! Task i <> Some None) ->
  safe k (syscall stack_garbage user_tramp kernel_tramp hinavm_run c kbuf a0 a1 a2 a3 n) (fun _ k' => kinv k' /\ klocal c k k').
Proof.
  intros. unfold syscall. eapply safe_bind; [by apply (handle_syscall_safe c i)|].
  intros r k1 (Hk1 & F1 & Hr). destruct r as [v|]; [|by apply safe_ret].
  specialize (Hr ltac:(done)). unfold sys_return. eapply safe_step; [apply current_run, Hr|].
  eapply safe_conseq; [by eapply (upd_ret_safe c)|]. intros _ k' [? F2]. split; [done|]. etrans; [done|apply F2].
Qed.

(** ** Events *)
Inductive event :=
| ESyscall (c : nat) (kbuf : list Z) (a0 a1 a2 a3 n : Z)  (** a trap from user mode *)
| EPageFault (c : nat) (vaddr ip fault : Z)
| ETimer (c : nat) (ticks : Z)
| EInterrupt (irq : Z)
| ESerial (chs : list Z)
| EIdle (c : nat)                                        (** the idle loop wakes up *)
| EResume (c : nat).                                     (** the rest of a blocked call *)

Definition exec (e : event) : KST unit :=
  match e with
  | ESyscall c kbuf a0 a1 a2 a3 n => syscall stack_garbage user_tramp kernel_tramp hinavm_run c kbuf a0 a1 a2 a3 n
  | EPageFault c vaddr ip fault => handle_page_fault stack_garbage c vaddr ip fault
  | ETimer c ticks => handle_timer_interrupt c ticks
  | EInterrupt irq => handle_interrupt irq
  | ESerial chs => handle_serial_interrupt chs
  | EIdle c => _ ← task_switch c; mret tt
  | EResume c => resume stack_garbage c
  end.

(** When an event can happen.  Traps come from a task in user mode; the first task
    has no pager and is assumed neither to exit nor to fault (the code panics). *)
Definition enabled (e : event) (k : kernel) : Prop :=
  match e with
  | ESyscall c _ a0 _ _ a3 n =>
      exists i, runs c i k /\ core_syscall n = true /\ names_task a0 a3 n
        /\ (n = SYS_TASK_EXIT -> pagers k !! Task i <> Some None)
  | EPageFault c _ _ fault =>
      exists i, runs c i k /\ has fault PAGE_FAULT_USER = true /\ pagers k !! Task i <> Some None
  | ETimer c _ | EResume c => is_Some (k_current k !! c)
  | EIdle c => k_current k !! c = Some (Idle c)
  | EInterrupt _ | ESerial _ => True
  end.

(** The CPU whose task an event runs in; device interrupts change no CPU's task. *)
Definition event_cpu (e : event) : option nat :=
  match e with
  | ESyscall c _ _ _ _ _ _ | EPageFault c _ _ _ | ETimer c _ | EIdle c | EResume c => Some c
  | EInterrupt _ | ESerial _ => None
  end.

(** Every enabled event returns, keeps the invariant and is local to its CPU. *)
Lemma exec_local e k : kinv k -> enabled e k ->
  safe k (exec e) (fun _ k' => kinv k' /\ forall c, event_cpu e = Some c \/ event_cpu e = None -> klocal c k k').
Proof.
  intros Hk He.
  assert (Hone : forall c (f : KST unit), safe k f (fun _ k' => stays_ok c k k') ->
    safe k f (fun _ k' => kinv k' /\ forall c', Some c = Some c' \/ Some c = None -> klocal c' k k')).
  { intros c f Hf. eapply safe_conseq; [exact Hf|]. intros _ k' [? F]. split; [done|]. intros c' [[= <-]|[=]]. apply F. }
  destruct e; simpl in *.
  - destruct He as (i & ? & ? & ? & ?). eapply safe_conseq; [by apply (syscall_safe c i)|].
    intros _ k' [? ?]. split; [done|]. by intros c' [[= <-]|[=]].
  - destruct He as (i & ? & ? & ?). by apply Hone, (handle_page_fault_safe stack_garbage c i).
  - destruct He as [t Ht]. by apply Hone, (handle_timer_interrupt_safe c t).
  - eapply safe_conseq; [by apply handle_interrupt_safe|]. intros _ k' [? Hp]. split; [done|]. intros. apply (kp_frame _ _ Hp c).
  - eapply safe_conseq; [by apply handle_serial_interrupt_safe|]. intros _ k' (? & Hp & _). split; [done|].
    intros. apply (kp_frame _ _ Hp c).
  - apply Hone. eapply safe_bind; [eapply (task_switch_safe None); [done|by left|done]|].
    intros b k1 (Hk1 & F & _). by apply safe_ret.
  - destruct He as [t Ht]. by apply Hone, (resume_safe c t).
Qed.
Lemma exec_safe e k : kinv k -> enabled e k -> safe k (exec e) (fun _ k' => kinv k').
Proof. intros Hk He. eapply safe_conseq; [by apply exec_local|]. by intros _ k' [? _]. Qed.


(** States reachable by events. *)
Inductive reachable (k0 : kernel) : kernel -> Prop :=
| reach_refl : reachable k0 k0
| reach_step k e k' : reachable k0 k -> enabled e k -> exec e k = Ok (tt, k') -> reachable k0 k'.

Lemma reachable_inv k0 k : kinv k0 -> reachable k0 k -> kinv k.
Proof.
  intros Hk0. induction 1 as [|k e k' _ IH He Hx]; [done|].
  destruct (exec_safe e k IH He) as (u & k2 & E & H). rewrite Hx in E. by simplify_eq.
Qed.

End Entry.

(** ** A concrete system: the first task runs on CPU 0, a second one (whose pager is
    the first) waits in the run queue, the other slots are unused. *)
Definition no_message : message := Message 0 0 (replicate sizeof_message_data 0).

Definition demo_task (tid : Z) (s : task_state) (pager : option tptr) : task :=
  TaskStruct 0 0 0 0 tid [] s false pager 0 0 TASK_QUANTUM [] IPC_DENY 0 no_message KRun 0.

Definition demo_slot (i : nat) : task :=
  match i with
  | O => demo_task 1 TASK_RUNNABLE None
  | 1%nat => demo_task 2 TASK_RUNNABLE (Some (Task 0))
  | _ => demo_task 0 TASK_UNUSED None
  end.

Definition demo_tasks : gmap tptr task :=
  <[Idle 0 := demo_task 0 TASK_BLOCKED None]>
    (list_to_map ((fun i => (Task i, demo_slot i)) <$> seq 0 (Z.to_nat NUM_TASKS_MAX))).

Definition demo_kernel : kernel :=
  Kernel demo_tasks [Task 1] [Task 0; Task 1] {[0%nat := Task 0]} [] (replicate 128 0) 0 0
    (replicate 32 None) (replicate 32 false) 0 [] (Memory [] ∅ ∅) ∅ 0.

Lemma demo_lookup i :
  demo_tasks !! Task i = if decide (i < Z.to_nat NUM_TASKS_MAX)%nat then Some (demo_slot i) else None.
Proof.
  unfold demo_tasks. rewrite lookup_insert_ne by done. case_decide as Hi.
  - apply elem_of_list_to_map_1'.
    + intros y. rewrite list_elem_of_fmap. by intros (j & [= <- ->] & _).
    + apply list_elem_of_fmap. exists i. split; [done|]. apply elem_of_seq. lia.
  - apply not_elem_of_list_to_map_1. rewrite <- list_fmap_compose, list_elem_of_fmap.
    intros (j & [= ->] & Hj%elem_of_seq). lia.
Qed.

Lemma demo_idle c x : demo_tasks !! Idle c = Some x -> c = 0%nat /\ x = demo_task 0 TASK_BLOCKED None.
Proof.
  unfold demo_tasks. rewrite lookup_insert. case_decide as Hc; [intros; by simplify_eq|].
  intros H%elem_of_list_to_map_2. apply list_elem_of_fmap in H as (j & [=] & _).
Qed.

Lemma demo_senders t x : demo_tasks !! t = Some x -> t_senders x = [] /\ t_kctx x = KRun
  /\ t_notifications x = 0.
Proof.
  destruct t as [i|c].
  - rewrite demo_lookup. case_decide; [|done]. intros [= <-]. by destruct i as [|[|i]].
  - by intros [-> ->]%demo_idle.
Qed.

Lemma demo_kinv : kinv demo_kernel.
Proof.
  assert (HV : forall t v, views demo_kernel !! t = Some v -> exists x, demo_tasks !! t = Some x /\ v = view_of x)
    by (intros t v Hv; by apply views_lookup in Hv).
  assert (HT : forall i v, views demo_kernel !! Task i = Some v ->
            (i < Z.to_nat NUM_TASKS_MAX)%nat /\ v = view_of (demo_slot i)).
  { intros i v (x & Hx & ->)%HV. rewrite demo_lookup in Hx. case_decide; simplify_eq. done. }
  assert (HI : forall i, (i < Z.to_nat NUM_TASKS_MAX)%nat -> views demo_kernel !! Task i = Some (view_of (demo_slot i))).
  { intros i Hi. apply views_task. simpl. by rewrite demo_lookup, decide_True. }
  assert (Hcur : forall c t, k_current demo_kernel !! c = Some t -> c = 0%nat /\ t = Task 0).
  { intros c t. simpl. rewrite lookup_singleton. case_decide; [|done]. by intros [= <-]. }
  split; [|split].
  - split.
    + intros c t [-> ->]%Hcur. right. eexists 0%nat, _. split_and!; [done|apply HI; vm_compute; lia|by left].
    + by intros c c' t [-> ->]%Hcur [-> _]%Hcur.
    + intros c v (x & Hx & ->)%HV. apply demo_idle in Hx as [-> ->]. split_and!; [done|done|by right].
    + intros c [t [-> ->]%Hcur]. eexists. apply views_task. reflexivity.
    + intros i. split; [by intros [v [? _]%HT]|]. intros Hi. rewrite HI by done. eauto.
    + intros i v [Hi ->]%HT. destruct i as [|[|i]]; by intros.
    + apply NoDup_singleton.
    + intros t ->%list_elem_of_singleton. eexists 1%nat, _. split_and!; [done|apply HI; vm_compute; lia|done|].
      by intros c [_ ?]%Hcur.
    + intros i v [Hi ->]%HT. destruct i as [|[|i]]; [|intros _; left; by left|discriminate].
      intros _. right. exists 0%nat. done.
    + apply NoDup_nil_2.
    + by intros t ?%not_elem_of_nil.
    + intros d v (x & Hx & ->)%HV. simpl. destruct (demo_senders _ _ Hx) as [-> _]. apply NoDup_nil_2.
    + intros d v s (x & Hx & ->)%HV. simpl. destruct (demo_senders _ _ Hx) as [-> _]. by intros ?%not_elem_of_nil.
    + intros i v [Hi ->]%HT. destruct i as [|[|i]]; [done..|]. simpl. congruence.
    + intros t v (x & Hx & ->)%HV _. simpl. by destruct (demo_senders _ _ Hx).
    + intros a b v w (x & Hx & ->)%HV _. simpl. destruct (demo_senders _ _ Hx) as [-> _]. by intros ?%not_elem_of_nil.
    + intros t v (x & Hx & ->)%HV. simpl. by destruct (demo_senders _ _ Hx) as (_ & -> & _).
  - intros t p Hp. unfold pagers in Hp. rewrite lookup_fmap in Hp.
    destruct (k_tasks demo_kernel !! t) as [x|] eqn:Hx; [|done]. simpl in Hp. injection Hp as Hp.
    destruct t as [i|c]; simpl in Hx.
    + rewrite demo_lookup in Hx. case_decide; [|done]. injection Hx as <-.
      destruct i as [|[|i]]; simpl in Hp; try done. injection Hp as <-.
      eexists 0%nat, _. split_and!; [done|apply HI; vm_compute; lia|done].
    + apply demo_idle in Hx as [-> ->]. done.
  - intros n t. unfold irq_listener. cbn [k_irq demo_kernel].
    destruct (replicate 32 (@None tptr) !! Z.to_nat n) as [o|] eqn:E; [|done].
    apply lookup_replicate in E as [-> _]. done.
  - simpl. intros t Ht. rewrite !elem_of_cons in Ht.
    destruct Ht as [->|[->|?%not_elem_of_nil]]; [eexists 0%nat, _|eexists 1%nat, _|done];
      (split_and!; [done|apply HI; vm_compute; lia|done]).
Qed.

Lemma demo_runs : runs 0 0 demo_kernel.
Proof. split; [done|]. eexists. split; [reflexivity|done]. Qed.

(** Task 1 waits for any message: [SYS_IPC] with IPC_RECV. *)
Definition demo_recv : event := ESyscall 0 [] 0 0 65536 IPC_RECV SYS_IPC.

Lemma demo_recv_enabled : enabled demo_recv demo_kernel.
Proof.
  exists 0%nat. split; [apply demo_runs|]. split; [reflexivity|]. split; [|by vm_compute].
  split; [by vm_compute|]. intros _ H. vm_compute in H. done.
Qed.

Definition after (e : event) (k : kernel) : kernel :=
  match exec no_message 0 0 0 e k with Ok (_, k') => k' | _ => k end.


Lemma demo_reach : reachable no_message 0 0 0 demo_kernel (after demo_recv demo_kernel).
Proof.
  eapply (reach_step _ _ _ _ _ demo_kernel demo_recv); [apply reach_refl|apply demo_recv_enabled|].
  vm_compute. reflexivity.
Qed.

(** After the receive the first task is blocked in an open receive and the second runs. *)
Definition demo_blocked : task := default (demo_slot 0) (k_tasks (after demo_recv demo_kernel) !! Task 0).


(** The first task sends to the second, which is not receiving: it is queued there. *)
Definition demo_send : event := ESyscall 0 [] 2 0 65536 IPC_SEND SYS_IPC.

Lemma demo_send_enabled : enabled demo_send demo_kernel.
Proof.
  exists 0%nat. split; [apply demo_runs|]. split; [reflexivity|]. split; [|by vm_compute].
  split; [by vm_compute|]. intros _ _. vm_compute. done.
Qed.

Definition demo_queued : task := default (demo_slot 1) (k_tasks (after demo_send demo_kernel) !! Task 1).
Definition demo_sender : task := default (demo_slot 0) (k_tasks (after demo_send demo_kernel) !! Task 0).


