(* ===== verification/Steady.v ===== *)
(** What the events of the kernel leave alone: physical memory (and with it the page
    tables and the kernel stacks), the fields of the task structures that say where
    a task's stack and page table are, and which slots are in use.

    The property is a class of operations, [Steady]; it is closed under the monad's
    combinators, so the instances follow the structure of the code. *)

From S2P Require Import Prelude Types KData Memory Vm Kernel Task Ipc Syscall KInv Sched Safety.

Definition anchor (x : task) : Z * Z * Z * bool :=
  (t_table x, t_sp x, t_sp_bottom x, bool_decide (t_state x = TASK_UNUSED)).
Definition anchors (k : kernel) : gmap tptr (Z * Z * Z * bool) * memory := (anchor <$> k_tasks k, k_mem k).

Class Steady {A} (f : KST A) : Prop := steady k a k' : f k = Ok (a, k') -> anchors k' = anchors k.

#[export] Instance steady_ret {A} (a : A) : Steady (mret a).
Proof. intros k b k' [= <- <-]. done. Qed.
#[export] Instance steady_panic {A} : Steady (A := A) panic.
Proof. intros k b k' [=]. Qed.
#[export] Instance steady_undef {A} : Steady (A := A) undef.
Proof. intros k b k' [=]. Qed.
#[export] Instance steady_assert b : Steady (assert b).
Proof. destruct b; apply _. Qed.
#[export] Instance steady_gets {A} (f : kernel -> A) : Steady (gets f).
Proof. intros k a k' [= <- <-]. done. Qed.
#[export] Instance steady_get : Steady get.
Proof. intros k a k' [= <- <-]. done. Qed.
#[export] Instance steady_getopt {A} (f : kernel -> option A) : Steady (getopt f).
Proof. intros k a k'. unfold getopt. destruct (f k); [|done]. by intros [= <- <-]. Qed.
Lemma steady_modify (f : kernel -> kernel) : (forall k, anchors (f k) = anchors k) -> Steady (modify f).
Proof. intros Hf k a k' [= <- <-]. apply Hf. Qed.
#[export] Instance steady_bind {A B} (m : KST A) (f : A -> KST B) :
  Steady m -> (forall a, Steady (f a)) -> Steady (m ≫= f).
Proof.
  intros Hm Hf k b k' H. apply ST_bind_ok in H as (a & k1 & H1 & H2).
  rewrite (Hf a _ _ _ H2). exact (Hm _ _ _ H1).
Qed.
#[export] Instance steady_fmap {A B} (g : A -> B) (m : KST A) : Steady m -> Steady (g <$> m).
Proof.
  intros Hm k b k'. unfold fmap, ST_fmap. destruct (m k) as [[a k1]| |] eqn:E; [|done..].
  intros [= <- <-]. exact (Hm _ _ _ E).
Qed.
#[export] Instance steady_if {A} (b : bool) (m n : KST A) : Steady m -> Steady n -> Steady (if b then m else n).
Proof. by destruct b. Qed.

Lemma anchors_alter f t k : (forall x, anchor (f x) = anchor x) ->
  anchors (set_tasks (alter f t (k_tasks k)) k) = anchors k.
Proof.
  intros Hf. unfold anchors. cbn [k_tasks k_mem set_tasks]. f_equal. apply map_eq. intros u.
  rewrite !lookup_fmap, lookup_alter. case_decide; [|done]. subst. destruct (k_tasks k !! _); [|done].
  simpl. by rewrite Hf.
Qed.
Lemma steady_upd t f : (forall x, anchor (f x) = anchor x) -> Steady (upd t f).
Proof. intros Hf. apply steady_modify. intros k. by apply anchors_alter. Qed.

(** Follow the code: instances, field updates, case distinctions. *)
Ltac steady :=
  repeat first
    [ apply _
    | apply steady_bind; [|intros ?]
    | apply steady_fmap
    | apply steady_upd; (reflexivity || (intros; case_match; reflexivity))
    | apply steady_modify; reflexivity
    | case_match ].

#[export] Instance steady_task_at t : Steady (task_at t).
Proof. unfold task_at. steady. Qed.
#[export] Instance steady_current c : Steady (CURRENT_TASK c).
Proof. unfold CURRENT_TASK. steady. Qed.
#[export] Instance steady_push_runqueue t : Steady (push_runqueue t).
Proof. unfold push_runqueue. steady. Qed.
#[export] Instance steady_push_readers t : Steady (push_readers t).
Proof. unfold push_readers. steady. Qed.
#[export] Instance steady_push_senders d t : Steady (push_senders d t).
Proof. unfold push_senders. steady. Qed.
#[export] Instance steady_wq_remove t : Steady (wq_remove t).
Proof.
  apply steady_modify. intros k. unfold anchors. cbn [k_tasks k_mem set_tasks set_readers set_runqueue]. f_equal.
  rewrite <- map_fmap_compose. by apply map_fmap_ext.
Qed.
#[export] Instance steady_memcpy_from t a n : Steady (memcpy_from_user t a n).
Proof. unfold memcpy_from_user. steady. Qed.
#[export] Instance steady_memcpy_to t a bs : Steady (memcpy_to_user t a bs).
Proof. unfold memcpy_to_user. steady. Qed.
#[export] Instance steady_task_find tid : Steady (task_find tid).
Proof. unfold task_find. steady. Qed.
#[export] Instance steady_scheduler c : Steady (scheduler c).
Proof. unfold scheduler. steady. Qed.
#[export] Instance steady_task_switch c : Steady (task_switch c).
Proof. unfold task_switch. steady. Qed.
(** A change between the two states of a live task. *)
Lemma steady_live t s s' (g : KST unit) : s <> TASK_UNUSED -> s' <> TASK_UNUSED -> Steady g ->
  Steady (x ← task_at t; assert (bool_decide (t_state x = s)) ;; upd t (with_state s') ;; g).
Proof.
  intros Hs Hs' Hg k a k' H. apply ST_bind_ok in H as (x & k1 & H1 & H).
  unfold task_at, getopt in H1. destruct (k_tasks k !! t) as [y|] eqn:Hy; [|done]. injection H1 as -> <-.
  case_bool_decide as Hx; [|done]. apply ST_bind_ok in H as ([] & k2 & [= <-] & H).
  apply ST_bind_ok in H as ([] & k3 & [= <-] & H). rewrite (steady _ _ _ H).
  unfold anchors. cbn [k_tasks k_mem set_tasks]. f_equal. apply map_eq. intros u.
  rewrite !lookup_fmap, lookup_alter. case_decide; [|done]. subst u. rewrite Hy. simpl. unfold anchor. simpl.
  by rewrite Hx, !bool_decide_false.
Qed.
#[export] Instance steady_task_block c t : Steady (task_block c t).
Proof.
  unfold task_block. apply steady_bind; [apply _|intros _]. intros k a k' H.
  apply (steady_live t TASK_RUNNABLE TASK_BLOCKED (mret ()) ltac:(done) ltac:(done) _ k a k').
  apply ST_bind_ok in H as (x & k1 & H1 & H). apply ST_bind_ok in H as ([] & k2 & H2 & H).
  rewrite (ST_bind_run _ _ _ _ _ H1), (ST_bind_run _ _ _ _ _ H2). destruct a. by rewrite (ST_bind_run _ _ _ _ _ H).
Qed.
#[export] Instance steady_task_resume t : Steady (task_resume t).
Proof. by apply steady_live; [| |apply _]. Qed.

(** Message passing. *)
#[export] Instance steady_deliver cur dst cm fl : Steady (deliver cur dst cm fl).
Proof. unfold deliver. steady. Qed.
#[export] Instance steady_send_resumed cur dst cm fl : Steady (send_resumed cur dst cm fl).
Proof. unfold send_resumed. steady. Qed.
#[export] Instance steady_send_message c dst m fl src caller : Steady (send_message c dst m fl src caller).
Proof. unfold send_message. steady. Qed.
#[export] Instance steady_recv_copy cur m cm : Steady (recv_copy cur m cm).
Proof. unfold recv_copy. steady. Qed.
#[export] Instance steady_recv_resumed cur m : Steady (recv_resumed cur m).
Proof. unfold recv_resumed. steady. Qed.
#[export] Instance steady_find_sender src q : Steady (find_sender src q).
Proof. induction q; simpl; steady. Qed.
#[export] Instance steady_recv_message g c src m fl caller : Steady (recv_message g c src m fl caller).
Proof. unfold recv_message. steady. Qed.
#[export] Instance steady_ipc_recv_part g c src m fl caller : Steady (ipc_recv_part g c src m fl caller).
Proof. unfold ipc_recv_part. steady. Qed.
#[export] Instance steady_ipc g c dst src m fl caller : Steady (ipc g c dst src m fl caller).
Proof. unfold ipc. steady. Qed.
#[export] Instance steady_notify t n : Steady (notify t n).
Proof. unfold notify. steady. Qed.
#[export] Instance steady_task_exit_tail c : Steady (task_exit_tail c).
Proof. unfold task_exit_tail. steady. Qed.
#[export] Instance steady_task_exit g c e : Steady (task_exit g c e).
Proof. unfold task_exit. steady. Qed.
#[export] Instance steady_finish g c caller r : Steady (finish g c caller r).
Proof. unfold finish. steady. Qed.
#[export] Instance steady_finish_opt g c caller r : Steady (finish_opt g c caller r).
Proof. unfold finish_opt. steady. Qed.
#[export] Instance steady_handle_page_fault g c v ip f : Steady (handle_page_fault g c v ip f).
Proof. unfold handle_page_fault. steady. Qed.

(** Interrupts and the serial port. *)
#[export] Instance steady_input_write ch : Steady (input_write ch).
Proof. unfold input_write. steady. Qed.
#[export] Instance steady_dump_senders q : Steady (dump_senders q).
Proof. induction q; simpl; steady. Qed.
#[export] Instance steady_dump_task t : Steady (dump_task t).
Proof. unfold dump_task. steady. Qed.
#[export] Instance steady_dump_tasks q : Steady (dump_tasks q).
Proof. induction q; simpl; steady. Qed.
#[export] Instance steady_task_dump : Steady task_dump.
Proof. unfold task_dump. steady. Qed.
#[export] Instance steady_input_write_all chs : Steady (input_write_all chs).
Proof. induction chs; simpl; steady. Qed.
#[export] Instance steady_resume_readers q : Steady (resume_readers q).
Proof. induction q; simpl; steady. Qed.
#[export] Instance steady_handle_serial_interrupt chs : Steady (handle_serial_interrupt chs).
Proof. unfold handle_serial_interrupt. steady. Qed.
#[export] Instance steady_input_read fuel n acc : Steady (input_read fuel n acc).
Proof. revert acc. induction fuel; intros acc; simpl; steady. Qed.
#[export] Instance steady_serial_read c b n : Steady (serial_read c b n).
Proof. unfold serial_read. steady. Qed.
#[export] Instance steady_handle_interrupt irq : Steady (handle_interrupt irq).
Proof. unfold handle_interrupt. steady. Qed.
#[export] Instance steady_update_timeouts ts n : Steady (update_timeouts ts n).
Proof. induction ts; simpl; steady. Qed.
#[export] Instance steady_handle_timer_interrupt c n : Steady (handle_timer_interrupt c n).
Proof. unfold handle_timer_interrupt. steady. Qed.
#[export] Instance steady_resume g c : Steady (resume g c).
Proof. unfold resume. steady. Qed.

(** System calls. *)
#[export] Instance steady_irq_listen t irq : Steady (irq_listen t irq).
Proof. unfold irq_listen, arch_irq_set. steady. Qed.
#[export] Instance steady_irq_unlisten t irq : Steady (irq_unlisten t irq).
Proof. unfold irq_unlisten, arch_irq_set. steady. Qed.
#[export] Instance steady_serial_write_loop fuel cur b n kb : Steady (serial_write_loop fuel cur b n kb).
Proof. revert n kb. induction fuel; intros n kb; simpl; steady. Qed.

Lemma steady_syscall g ut kt hv c kb a0 a1 a2 a3 n :
  core_syscall n = true -> Steady (syscall g ut kt hv c kb a0 a1 a2 a3 n).
Proof.
  unfold core_syscall. intros Hcore. apply negb_true_iff in Hcore. simpl in Hcore.
  rewrite !orb_false_iff in Hcore. destruct Hcore as (C1 & C2 & C3 & C4 & C5 & C6 & _).
  unfold syscall, handle_syscall. rewrite C1, C2, C3, C4, C5, C6.
  unfold sys_ipc, sys_notify, sys_serial_write, sys_serial_read, sys_task_self, sys_time, sys_uptime, sys_return.
  steady.
Qed.

(** Every enabled event is steady. *)
Lemma exec_steady g ut kt hv e k k' :
  enabled e k -> exec g ut kt hv e k = Ok (tt, k') -> anchors k' = anchors k.
Proof.
  destruct e; simpl; intros He; [destruct He as (i & _ & Hc & _); by apply steady_syscall|..];
    match goal with |- ?f k = _ -> _ => assert (Hs : Steady f) by steady; apply Hs end.
Qed.
