(* ===== verification/IpcProps.v ===== *)
(** What the kernel's operations do: delivery of messages and notifications, the
    refusals of [ipc], task lookup, and the serial ring as a queue. *)

From S2P Require Import Prelude Types KData Memory Vm Kernel Task Ipc Syscall KInv Sched Safety.

(** ** User memory *)
Lemma write_bytes_before t a bs u b :
  b < a -> write_bytes t a bs u !! (t, b) = u !! (t, b).
Proof.
  revert a u. induction bs as [|x bs IH]; intros a u Hb; [done|]. simpl.
  rewrite IH by lia. rewrite lookup_insert_ne; [done|]. intros [=]. lia.
Qed.

Lemma read_write_bytes t a bs u : read_bytes t a (length bs) (write_bytes t a bs u) = bs.
Proof.
  apply list_eq. intros i. unfold read_bytes. rewrite list_lookup_fmap.
  destruct (decide (i < length bs)%nat) as [Hi|Hi].
  - rewrite lookup_seq_lt by done. simpl.
    assert (Hw : forall bs a u i, (i < length bs)%nat ->
              write_bytes t a bs u !! (t, a + Z.of_nat i) = bs !! i).
    { clear. induction bs as [|x bs IH]; intros a u [|i] Hi; simpl in *; try lia.
      - rewrite Z.add_0_r, write_bytes_before by lia. by rewrite lookup_insert, decide_True.
      - rewrite <- (IH (a + 1) (<[(t, a) := x]> u)) by lia. f_equal. f_equal. lia. }
    rewrite Hw by done. destruct (lookup_lt_is_Some_2 bs i Hi) as [y ->]. done.
  - rewrite lookup_seq_ge by lia. simpl. by rewrite lookup_ge_None_2 by lia.
Qed.

Lemma length_read_bytes t a n u : length (read_bytes t a n u) = n.
Proof. unfold read_bytes. by rewrite length_fmap, length_seq. Qed.

Lemma length_encode_message m : length (encode_message m) = (8 + length (m_data m))%nat.
Proof. unfold encode_message. rewrite !length_app, !length_le_split. lia. Qed.

Lemma decode_length bs : length (m_data (decode_message bs)) = (length bs - 8)%nat.
Proof. unfold decode_message. simpl. by rewrite length_drop. Qed.

(** ** Delivery *)
Section Delivery.
Context (g : message) (ut kt hr : Z).
Context (k : kernel) (c s r : nat) (x y : task) (a buf fl : Z).
Hypothesis Hk : kinv k.
Hypothesis Hrun : runs c s k.
Hypothesis Hx : k_tasks k !! Task s = Some x.
Hypothesis Hy : k_tasks k !! Task r = Some y.
Hypothesis Hr : (r < 15)%nat.
Hypothesis Hb : t_state y = TASK_BLOCKED.
Hypothesis Hctx : t_kctx y = KRecv (MUser buf) fl CSyscall.
Hypothesis Hwait : t_wait_for y = IPC_ANY \/ t_wait_for y = t_tid x.
Hypothesis Ha : arch_is_mappable_uaddr a = true.
Hypothesis Hbuf : arch_is_mappable_uaddr buf = true.

(** The message as the sender wrote it, with the kernel's stamp of who sent it. *)
Definition sent_message : message :=
  m_set_src (t_tid x) (decode_message (read_bytes (Task s) a (Z.to_nat sizeof_message) (k_umem k))).

Lemma rs_differ : Task r <> Task s.
Proof.
  intros [= ->]. destruct (runs_facts _ _ _ Hk Hrun) as (x' & Hx' & _ & E & _). simplify_eq. congruence.
Qed.

Lemma receiver_unlinked : wq_linked (Task r) k = false.
Proof.
  destruct (runs_facts _ _ _ Hk Hrun) as (x' & Hx' & _ & _ & _ & _ & Htid & _).
  assert (x' = x) as -> by congruence.
  destruct (unlinked_recv (proj1 Hk) (Task r) (view_of y)) as (N1 & N2 & N3);
    [by apply views_task|done| |by apply wq_linked_false].
  simpl. unfold IPC_DENY, IPC_ANY in *. destruct Hwait; lia.
Qed.

Definition delivered : task := with_state TASK_RUNNABLE (with_m sent_message y).

Lemma deliver_run :
  exists k1, deliver (Task s) (Task r) (decode_message (read_bytes (Task s) a (Z.to_nat sizeof_message) (k_umem k)))
               IPC_SEND k = Ok (OK, k1)
    /\ k1 = set_runqueue (k_runqueue k ++ [Task r]) (set_tasks (<[Task r := delivered]> (k_tasks k)) k).
Proof.
  eexists. split; [|reflexivity]. unfold deliver.
  rewrite (ST_bind_run _ _ _ _ _ (task_at_run _ _ _ Hx)).
  change (has IPC_SEND IPC_KERNEL) with false. cbv iota. fold sent_message.
  rewrite (ST_bind_run _ _ _ _ _ (upd_run _ _ _ _ Hy)).
  assert (Hl : wq_linked (Task r) (set_tasks (<[Task r := with_m sent_message y]> (k_tasks k)) k) = false).
  { pose proof receiver_unlinked as Hl. apply wq_linked_false.
    - intros H. unfold wq_linked in Hl. simpl in H. by rewrite bool_decide_true in Hl.
    - intros H. unfold wq_linked in Hl. simpl in H.
      rewrite (bool_decide_true (Task r ∈ k_readers k)), orb_true_r in Hl by done. done.
    - rewrite views_insert. change (view_of (with_m sent_message y)) with (view_of y).
      rewrite insert_id by (by apply views_task).
      destruct (runs_facts _ _ _ Hk Hrun) as (x' & Hx' & _ & _ & _ & _ & Htid & _).
      assert (x' = x) as -> by congruence.
      apply (unlinked_recv (proj1 Hk) (Task r) (view_of y)); [by apply views_task|done|].
      simpl. unfold IPC_DENY, IPC_ANY in *. destruct Hwait; lia. }
  erewrite ST_bind_run; [reflexivity|].
  erewrite task_resume_run; [|simpl; by rewrite lookup_insert, decide_True|done|done].
  unfold set_tasks, set_runqueue. simpl. by rewrite insert_insert_eq.
Qed.

Lemma send_syscall_run kbuf :
  exec g ut kt hr (ESyscall c kbuf (Z.of_nat r + 1) 0 a IPC_SEND SYS_IPC) k
  = Ok (tt, set_tasks (<[Task s := with_ret OK x]> (<[Task r := delivered]> (k_tasks k)))
              (set_runqueue (k_runqueue k ++ [Task r]) (set_tasks (<[Task r := delivered]> (k_tasks k)) k))).
Proof.
  destruct (runs_facts _ _ _ Hk Hrun) as (x' & Hx' & Hc & _ & _ & _ & Htid & _).
  assert (x' = x) as -> by congruence. clear Hx'. pose proof rs_differ as Hne.
  assert (Hau : u32 a = a).
  { apply u32_small. unfold arch_is_mappable_uaddr, PAGE_SIZE, KERNEL_BASE in Ha. lia. }
  assert (Hfind : task_find (Z.of_nat r + 1) k = Ok (Some (Task r), k)).
  { unfold task_find. replace ((Z.of_nat r + 1 <? 0) || (NUM_TASKS_MAX <=? Z.of_nat r + 1)) with false
      by (unfold NUM_TASKS_MAX; lia).
    replace (Z.of_nat r + 1 - 1 <? 0) with false by lia.
    replace (Z.to_nat (Z.of_nat r + 1 - 1)) with r by lia.
    rewrite (ST_bind_run _ _ _ _ _ (task_at_run _ _ _ Hy)), bool_decide_false by congruence. done. }
  destruct deliver_run as (k1 & Hdel & ->).
  assert (Hsend : send_message c (Task r) (MUser a) IPC_SEND 0 CSyscall k
    = Ok (Some OK, set_runqueue (k_runqueue k ++ [Task r]) (set_tasks (<[Task r := delivered]> (k_tasks k)) k))).
  { unfold send_message. rewrite (ST_bind_run _ _ _ _ _ (current_run _ _ _ Hc)), bool_decide_false by done.
    erewrite ST_bind_run.
    2: { unfold memcpy_from_user. rewrite Ha. reflexivity. }
    cbv beta iota. change (negb ((OK, read_bytes (Task s) a (Z.to_nat sizeof_message) (k_umem k)).1 =? OK)) with false.
    cbv iota. rewrite (ST_bind_run _ _ _ _ _ (task_at_run _ _ _ Hy)), (ST_bind_run _ _ _ _ _ (task_at_run _ _ _ Hx)).
    replace (bool_decide (t_state y = TASK_BLOCKED) && ((t_wait_for y =? IPC_ANY) || (t_wait_for y =? t_tid x))) with true.
    2: { rewrite bool_decide_true by done. destruct Hwait as [-> | ->]; [done|].
         by rewrite Z.eqb_refl, orb_true_r. }
    by rewrite (ST_bind_run _ _ _ _ _ Hdel). }
  cbn [exec]. unfold syscall. erewrite ST_bind_run.
  2: { unfold handle_syscall. change (SYS_IPC =? SYS_IPC) with true. cbv iota.
       rewrite s32_small by lia. change (s32 0) with 0. rewrite Hau. change (u32 IPC_SEND) with IPC_SEND.
       unfold sys_ipc. change (negb _) with false. cbv iota. change ((0 <? 0) || _) with false. cbv iota.
       change (has IPC_SEND IPC_SEND) with true. cbv iota. rewrite (ST_bind_run _ _ _ _ _ Hfind).
       change (true && bool_decide (Some (Task r) = None)) with false. cbv iota.
       erewrite ST_bind_run.
       2: { unfold ipc. change (has IPC_SEND IPC_SEND) with true. cbv iota.
            rewrite (ST_bind_run _ _ _ _ _ Hsend). reflexivity. }
       reflexivity. }
  cbn [fst fmap option_fmap option_map]. unfold sys_return.
  erewrite ST_bind_run; [|apply current_run; exact Hc].
  rewrite (upd_run _ _ _ x) by (simpl; by rewrite lookup_insert_ne). reflexivity.
Qed.

(** Continuing the receiver, once some CPU runs it. *)
Lemma resume_receiver c2 q k2 :
  k_current k2 !! c2 = Some (Task r) -> k_tasks k2 !! Task r = Some (with_quantum q delivered) ->
  exists k3 y3, exec g ut kt hr (EResume c2) k2 = Ok (tt, k3)
    /\ read_bytes (Task r) buf (Z.to_nat sizeof_message) (k_umem k3) = encode_message sent_message
    /\ k_tasks k3 !! Task r = Some y3 /\ t_ret y3 = OK /\ t_kctx y3 = KRun /\ t_wait_for y3 = IPC_DENY.
Proof.
  intros Hc2 Hy2. eexists _, _. split_and!.
  - cbn [exec]. unfold resume. rewrite (ST_bind_run _ _ _ _ _ (current_run _ _ _ Hc2)).
    rewrite (ST_bind_run _ _ _ _ _ (task_at_run _ _ _ Hy2)).
    change (t_kctx (with_quantum q delivered)) with (t_kctx y). rewrite Hctx. cbv iota.
    rewrite (ST_bind_run _ _ _ _ _ (upd_run _ _ _ _ Hy2)).
    erewrite ST_bind_run.
    2: { unfold recv_resumed. erewrite ST_bind_run; [|apply upd_run; simpl; by rewrite lookup_insert, decide_True].
         erewrite ST_bind_run; [|apply task_at_run; simpl; by rewrite lookup_insert, decide_True].
         cbn [t_m with_wait_for with_kctx with_quantum delivered with_state with_m recv_copy].
         unfold memcpy_to_user. rewrite Hbuf. reflexivity. }
    cbn [finish]. erewrite ST_bind_run; [|apply current_run; exact Hc2].
    apply upd_run. simpl. by rewrite lookup_insert, decide_True.
  - cbn [k_umem set_tasks set_umem]. 
    assert (Hlen : Z.to_nat sizeof_message = length (encode_message sent_message)).
    { rewrite length_encode_message. unfold sent_message. cbn [m_data m_set_src].
      rewrite decode_length, length_read_bytes. reflexivity. }
    rewrite Hlen. apply read_write_bytes.
  - simpl. by rewrite lookup_insert, decide_True.
  - done.
  - done.
  - done.
Qed.
End Delivery.


Definition demo_waiting : kernel := after demo_recv demo_kernel.

Lemma demo_waiting_kinv : kinv demo_waiting.
Proof. exact (reachable_inv _ _ _ _ _ _ demo_kinv demo_reach). Qed.

Lemma demo_waiting_runs : runs 0 1 demo_waiting.
Proof. split; [vm_compute; reflexivity|]. eexists. split; vm_compute; reflexivity. Qed.


(** ** Notifications *)

(** Notifications are never lost.  Notifying a task that waits in an open receive
    delivers at once a NOTIFY_MSG from the kernel carrying the new bits together with
    all bits held so far, and makes the task runnable; in any other state the bits
    are added to the held ones and nothing else changes. *)
Theorem notify_correct k i x n :
  kinv k -> k_tasks k !! Task i = Some x ->
  0 <= t_notifications x < 2 ^ 32 -> 0 <= n < 2 ^ 32 -> (4 <= length (m_data (t_m x)))%nat ->
  exists k' x', notify (Task i) n k = Ok (tt, k') /\ kinv k' /\ k_tasks k' !! Task i = Some x' /\
    if bool_decide (t_state x = TASK_BLOCKED) && (t_wait_for x =? IPC_ANY) then
      t_state x' = TASK_RUNNABLE /\ t_notifications x' = 0 /\ k_runqueue k' = k_runqueue k ++ [Task i]
      /\ m_type (t_m x') = NOTIFY_MSG /\ m_src (t_m x') = FROM_KERNEL
      /\ m_notifications (t_m x') = Z.lor (t_notifications x) n
    else t_state x' = t_state x /\ k_runqueue k' = k_runqueue k /\ t_m x' = t_m x
      /\ t_notifications x' = Z.lor (t_notifications x) n.
Proof.
  intros Hk Hx Hn Hn' Hlen. unfold notify.
  destruct (bool_decide_reflect (t_state x = TASK_BLOCKED)) as [Hb|Hb], (Z.eqb_spec (t_wait_for x) IPC_ANY) as [Hw|Hw].
  2-4: destruct (upd_inert_safe (Task i) (fun d => with_notifications (Z.lor (t_notifications d) n) d) k x)
         as (u & k' & E & Hk' & _ & ET & Erq); [done..|];
       exists k', (with_notifications (Z.lor (t_notifications x) n) x);
       rewrite (ST_bind_run _ _ _ _ _ (task_at_run _ _ _ Hx));
       rewrite ?bool_decide_true, ?bool_decide_false by done;
       destruct u; rewrite ?(proj2 (Z.eqb_neq _ _) Hw), ?andb_false_r; simpl andb; cbv iota;
       split_and!; [exact E|done|by rewrite ET, lookup_insert, decide_True|done|done|done|done].
  set (m' := m_put_notifications (Z.lor (t_notifications x) n) (m_set_src FROM_KERNEL (m_set_type NOTIFY_MSG (t_m x)))).
  destruct (upd_inert_safe (Task i) (fun d => with_notifications 0 (with_m
        (m_put_notifications (Z.lor (t_notifications d) n)
           (m_set_src FROM_KERNEL (m_set_type NOTIFY_MSG (t_m d)))) d)) k x) as (u & k1 & E1 & Hk1 & _ & ET1 & Erq1); [done..|].
  destruct (wake_safe k1 i (with_notifications 0 (with_m m' x))) as (u2 & k2 & E2 & Hk2 & _ & Erq2 & ET2).
  - done.
  - by rewrite ET1, lookup_insert, decide_True.
  - done.
  - simpl. rewrite Hw. done.
  - intros j y Hy Hr Es. rewrite ET1, lookup_insert in Hy. case_decide as Hj.
    + injection Hy as <-. simpl in Hr. congruence.
    + destruct (no_handover_any k i x j y Hk Hx Hy Hr Es) as (_ & F1 & F2).
      rewrite Hw, F2 in F1. unfold IPC_ANY in F1. lia.
  - exists k2, (with_state TASK_RUNNABLE (with_notifications 0 (with_m m' x))). split_and!.
    + rewrite (ST_bind_run _ _ _ _ _ (task_at_run _ _ _ Hx)), bool_decide_true, Hw, Z.eqb_refl by done.
      cbn [andb]. rewrite (ST_bind_run _ _ _ _ _ E1). by destruct u2.
    + done.
    + by rewrite ET2, lookup_insert, decide_True.
    + simpl andb. cbv iota. split_and!; [done|done|by rewrite Erq2, Erq1|done|done|].
      simpl. unfold m_notifications, m', m_put_notifications. apply m_get32_put32; [|simpl; lia].
      by apply lor_range.
Qed.

Lemma notify_correct_witness :
  exists k' x', notify (Task 0) NOTIFY_TIMER demo_waiting = Ok (tt, k') /\ kinv k'
    /\ k_tasks k' !! Task 0 = Some x' /\
    if bool_decide (t_state demo_blocked = TASK_BLOCKED) && (t_wait_for demo_blocked =? IPC_ANY) then
      t_state x' = TASK_RUNNABLE /\ t_notifications x' = 0 /\ k_runqueue k' = k_runqueue demo_waiting ++ [Task 0]
      /\ m_type (t_m x') = NOTIFY_MSG /\ m_src (t_m x') = FROM_KERNEL
      /\ m_notifications (t_m x') = Z.lor (t_notifications demo_blocked) NOTIFY_TIMER
    else t_state x' = t_state demo_blocked /\ k_runqueue k' = k_runqueue demo_waiting /\ t_m x' = t_m demo_blocked
      /\ t_notifications x' = Z.lor (t_notifications demo_blocked) NOTIFY_TIMER.
Proof.
  apply (notify_correct demo_waiting 0 demo_blocked NOTIFY_TIMER);
    [apply demo_waiting_kinv|vm_compute; reflexivity|vm_compute; split; congruence
    |vm_compute; split; congruence|vm_compute; lia].
Defined.

(** ** Task ids *)

Lemma alloc_tid_loop_used n i k :
  (forall j, (i <= j < i + n)%nat -> exists x, k_tasks k !! Task j = Some x /\ t_state x <> TASK_UNUSED) ->
  forall m, alloc_tid_loop i (n + m) k = alloc_tid_loop (i + n) m k.
Proof.
  revert i. induction n as [|n IH]; intros i Hu m; [by rewrite Nat.add_0_r|].
  destruct (Hu i) as (x & Hx & Hne); [lia|]. cbn [alloc_tid_loop Nat.add].
  rewrite (ST_bind_run _ _ _ _ _ (task_at_run _ _ _ Hx)), bool_decide_false by done.
  rewrite IH by (intros j Hj; apply Hu; lia). by replace (S i + n)%nat with (i + S n)%nat by lia.
Qed.

(** An off-by-one between the two task-id functions.  With the first fifteen slots in
    use and the last one free, [alloc_tid] hands out id 16 = NUM_TASKS_MAX, and
    [task_find] refuses that id in every state, so the task created with it can never be
    named in a system call. *)
Theorem last_tid_unfindable k x :
  (forall i, (i < 15)%nat -> exists y, k_tasks k !! Task i = Some y /\ t_state y <> TASK_UNUSED) ->
  k_tasks k !! Task 15 = Some x -> t_state x = TASK_UNUSED ->
  alloc_tid k = Ok (NUM_TASKS_MAX, k) /\ forall k', task_find NUM_TASKS_MAX k' = Ok (None, k').
Proof.
  intros Hu Hx Hs. split; [|done].
  unfold alloc_tid. change (Z.to_nat NUM_TASKS_MAX) with (15 + 1)%nat.
  rewrite (alloc_tid_loop_used 15 0) by (intros j Hj; apply Hu; lia). cbn [alloc_tid_loop Nat.add].
  rewrite (ST_bind_run _ _ _ _ _ (task_at_run _ _ _ Hx)), bool_decide_true by done. reflexivity.
Qed.

Definition demo_full : kernel :=
  set_tasks (list_to_map ((fun i => (Task i, demo_task (Z.of_nat i + 1)
    (if (i <? 15)%nat then TASK_RUNNABLE else TASK_UNUSED) None)) <$> seq 0 16)) demo_kernel.

Lemma last_tid_unfindable_witness :
  alloc_tid demo_full = Ok (NUM_TASKS_MAX, demo_full) /\ forall k', task_find NUM_TASKS_MAX k' = Ok (None, k').
Proof.
  apply (last_tid_unfindable demo_full (demo_task 16 TASK_UNUSED None)); [|reflexivity|reflexivity].
  intros i Hi. exists (demo_task (Z.of_nat i + 1) TASK_RUNNABLE None). split; [|discriminate].
  do 15 (destruct i as [|i]; [reflexivity|]). lia.
Defined.

(** [task_find] resolves every other id as it should: the ids 1 to 15 find exactly the
    live task of that id, negative ids and ids above 15 find nothing, and id 0 makes it
    read the array element in front of [tasks]. *)
Theorem task_find_correct k tid :
  kinv k ->
  (0 < tid < NUM_TASKS_MAX ->
     exists x, k_tasks k !! Task (Z.to_nat (tid - 1)) = Some x
       /\ task_find tid k = Ok (if bool_decide (t_state x = TASK_UNUSED) then None
                                else Some (Task (Z.to_nat (tid - 1))), k)
       /\ (t_state x <> TASK_UNUSED -> t_tid x = tid))
  /\ (tid < 0 \/ NUM_TASKS_MAX <= tid -> task_find tid k = Ok (None, k))
  /\ (tid = 0 -> task_find tid k = Undef).
Proof.
  intros [I _]. unfold NUM_TASKS_MAX. split_and!.
  - intros Ht. destruct (proj2 (vi_dom _ _ _ _ _ I (Z.to_nat (tid - 1)))) as [v Hv]; [unfold NUM_TASKS_MAX; lia|].
    pose proof (vi_tid _ _ _ _ _ I _ _ Hv) as Htid. apply views_lookup in Hv as (x & Hx & ->). exists x.
    simpl in Htid. split_and!; [done| |intros Hs; rewrite (Htid Hs); lia].
    unfold task_find, NUM_TASKS_MAX. replace ((tid <? 0) || (16 <=? tid)) with false by lia.
    replace (tid - 1 <? 0) with false by lia.
    rewrite (ST_bind_run _ _ _ _ _ (task_at_run _ _ _ Hx)). by case_bool_decide.
  - intros Ht. unfold task_find, NUM_TASKS_MAX. by replace ((tid <? 0) || (16 <=? tid)) with true by lia.
  - by intros ->.
Qed.

Lemma task_find_correct_witness :
  exists x, k_tasks demo_kernel !! Task (Z.to_nat (2 - 1)) = Some x
    /\ task_find 2 demo_kernel = Ok (if bool_decide (t_state x = TASK_UNUSED) then None
                                     else Some (Task (Z.to_nat (2 - 1))), demo_kernel)
    /\ (t_state x <> TASK_UNUSED -> t_tid x = 2).
Proof. apply (task_find_correct demo_kernel 2); [apply demo_kinv|unfold NUM_TASKS_MAX; lia]. Defined.

(** ** The serial ring *)

(** The characters between the read and the write position. *)
Definition ring_count (k : kernel) : nat := Z.to_nat ((k_wp k - k_rp k) `mod` INPUT_SIZE).
Definition ring_contents (k : kernel) : list Z :=
  (fun j => default 0 (k_input k !! Z.to_nat ((k_rp k + Z.of_nat j) `mod` INPUT_SIZE))) <$> seq 0 (ring_count k).

Definition ring_ok (k : kernel) : Prop :=
  length (k_input k) = Z.to_nat INPUT_SIZE /\ 0 <= k_rp k < INPUT_SIZE /\ 0 <= k_wp k < INPUT_SIZE.

(** The specification: a queue of at most 127 characters that drops its oldest one. *)
Definition queue_push (ch : Z) (q : list Z) : list Z :=
  let q' := q ++ [ch] in if (127 <? length q')%nat then tail q' else q'.

Lemma input_write_ring ch k :
  ring_ok k ->
  exists k', input_write ch k = Ok (tt, k') /\ ring_ok k' /\ ring_contents k' = queue_push ch (ring_contents k).
Proof.
  intros (Hlen & Hrp & Hwp). unfold INPUT_SIZE in *. eexists. split; [reflexivity|].
  set (wp := (k_wp k + 1) `mod` 128). set (n := ring_count k).
  assert (Hn : Z.of_nat n = (k_wp k - k_rp k) `mod` 128).
  { unfold n, ring_count, INPUT_SIZE. rewrite Z2Nat.id; [done|]. apply Z.mod_pos_bound. lia. }
  assert (Hn127 : (n <= 127)%nat) by lia.
  assert (Hcell : forall j, (j < n)%nat -> Z.to_nat ((k_rp k + Z.of_nat j) `mod` 128) <> Z.to_nat (k_wp k)) by lia.
  assert (Hlast : Z.to_nat ((k_rp k + Z.of_nat n) `mod` 128) = Z.to_nat (k_wp k)) by lia.
  (** The ring seen from the old read position now holds one more character. *)
  assert (Hq : ring_contents k ++ [ch]
    = (fun j => default 0 (<[Z.to_nat (k_wp k) := ch]> (k_input k) !! Z.to_nat ((k_rp k + Z.of_nat j) `mod` 128)))
        <$> seq 0 (n + 1)).
  { rewrite seq_app, fmap_app. f_equal.
    - apply list_fmap_ext. intros j x Hj. apply lookup_seq in Hj as [-> Hj].
      rewrite list_lookup_insert_ne; [done|]. specialize (Hcell (0 + j)%nat). fold n in Hj. lia.
    - simpl. rewrite Hlast, list_lookup_insert, decide_True by lia. done. }
  assert (Hwp' : wp = (k_rp k + Z.of_nat n + 1) `mod` 128) by lia.
  assert (Hwpr : 0 <= wp < 128) by (subst wp; lia).
  split.
  - unfold ring_ok, INPUT_SIZE. cbn [k_input k_rp k_wp set_ring]. fold wp. rewrite length_insert.
    split_and!; [done|..]; destruct (k_rp k =? wp); lia.
  - unfold queue_push. rewrite Hq, length_fmap, length_seq. unfold ring_contents, ring_count, INPUT_SIZE.
    cbn [k_input k_rp k_wp set_ring]. fold wp. destruct (Z.eqb_spec (k_rp k) wp) as [He|He].
    + assert (n = 127%nat) as -> by lia. replace (127 <? 127 + 1)%nat with true by done.
      replace (Z.to_nat ((wp - (k_rp k + 1) `mod` 128) `mod` 128)) with 127%nat by lia.
      change (seq 0 (127 + 1)) with (0%nat :: seq (1 + 0) 127). rewrite fmap_cons. cbn [tail].
      rewrite <- (fmap_add_seq 1 0 127), <- list_fmap_compose. apply list_fmap_ext. intros j x _.
      unfold compose. rewrite Zplus_mod_idemp_l.
      by replace (k_rp k + 1 + Z.of_nat x) with (k_rp k + Z.of_nat (1 + x)) by lia.
    + assert (Hn126 : (n <= 126)%nat) by (clearbody n wp; clear Hq Hcell Hlast Hlen; lia).
      rewrite (proj2 (Nat.ltb_ge _ _)) by lia.
      replace (Z.to_nat ((wp - k_rp k) `mod` 128)) with (n + 1)%nat by lia. done.
Qed.

(** The serial input ring refines a bounded queue.  Whatever characters an interrupt
    brings, the ring afterwards holds the characters it held followed by the new ones
    (Ctrl-P excepted), cut to the last 127 by dropping the oldest; its indices stay in
    bounds. *)
Theorem serial_ring_refines_queue chs k :
  kinv k -> ring_ok k ->
  exists k', input_write_all chs k = Ok (tt, k') /\ ring_ok k'
    /\ ring_contents k' = foldl (fun q ch => queue_push ch q) (ring_contents k) (filter (fun ch => ch <> 16) chs).
Proof.
  revert k. induction chs as [|ch chs IH]; intros k Hi Hk; [by exists k|]. cbn [input_write_all].
  destruct (Z.eqb_spec ch 16) as [->|Hne].
  - rewrite filter_cons_False by naive_solver. destruct (IH k Hi Hk) as (k' & E & ? & ?). exists k'.
    split; [|done]. destruct (task_dump_run k Hi) as (ls & Ed).
    by rewrite (ST_bind_run (_ ← task_dump; mret ()) _ k () k) by (by rewrite (ST_bind_run _ _ _ _ _ Ed)).
  - rewrite filter_cons_True by done. destruct (input_write_ring ch k Hk) as (k1 & E1 & Hk1 & Hc1).
    assert (Hi1 : kinv k1) by (injection E1 as <-; apply (keeps_other k); try reflexivity; exact Hi).
    destruct (IH k1 Hi1 Hk1) as (k' & E & ? & Hc). exists k'. rewrite (ST_bind_run _ _ _ _ _ E1).
    split_and!; [done|done|]. simpl. by rewrite <- Hc1.
Qed.

Lemma serial_ring_refines_queue_witness :
  exists k', input_write_all [104; 105] demo_kernel = Ok (tt, k') /\ ring_ok k'
    /\ ring_contents k' = foldl (fun q ch => queue_push ch q) (ring_contents demo_kernel)
                            (filter (fun ch => ch <> 16) [104; 105]).
Proof.
  apply (serial_ring_refines_queue [104; 105] demo_kernel); [exact demo_kinv|]. split; [reflexivity|].
  unfold INPUT_SIZE. simpl. lia.
Defined.
