(* ===== verification/Lifecycle.v ===== *)
(** Creation and destruction of tasks (kernel/task.c). *)

From S2P Require Import Prelude Types KData Memory Vm Kernel Task Ipc Syscall KInv Sched Safety IpcProps.

Lemma lift_mem_run {A} (f : ST memory A) k a m :
  f (k_mem k) = Ok (a, m) -> lift_mem f k = Ok (a, set_mem m k).
Proof. unfold lift_mem. by intros ->. Qed.

Lemma lift_mem_ok {A} (f : ST memory A) k a k' :
  lift_mem f k = Ok (a, k') -> exists m, k' = set_mem m k.
Proof. unfold lift_mem. destruct (f (k_mem k)) as [[? ?]| |]; intros; simplify_eq. eauto. Qed.

Lemma lift_mem_inv {A} (f : ST memory A) k a k' :
  lift_mem f k = Ok (a, k') -> exists m, f (k_mem k) = Ok (a, m) /\ k' = set_mem m k.
Proof. unfold lift_mem. destruct (f (k_mem k)) as [[? ?]| |]; intros; simplify_eq. eauto. Qed.
(** An assertion that held. *)
Lemma assert_bind_inv {S A} (b : bool) (f : ST S A) s r s' :
  (assert b ;; f) s = Ok (r, s') -> b = true /\ f s = Ok (r, s').
Proof. destruct b; intros H; [done|discriminate]. Qed.

Lemma kinv_set_mem m k : kinv k -> kinv (set_mem m k).
Proof. intros [I [S1 S2 S3]]. split; [exact I|split; [exact S1|exact S2|exact S3]]. Qed.

(** ** Creation *)
Section Create.
Context (ut kt : Z).

Lemma arch_vm_init_err table m err t' m' : arch_vm_init table m = Ok ((err, t'), m') -> err = OK \/ err = ERR_NO_MEMORY.
Proof.
  unfold arch_vm_init. intros (pa & m1 & _ & H)%ST_bind_ok. destruct (pa =? 0); [injection H as <- <- <-; by right|].
  apply ST_bind_ok in H as ([] & m2 & _ & H). injection H as <- <- <-. by left.
Qed.
Lemma arch_task_init_err ip e a m err x m' : arch_task_init ut kt ip e a m = Ok ((err, x), m') -> err = OK \/ err = ERR_NO_MEMORY.
Proof.
  unfold arch_task_init. intros (pa & m1 & _ & H)%ST_bind_ok. destruct (pa =? 0); [injection H as <- <- <-; by right|].
  cbv zeta in H. destruct (if truthy e then _ else _) as [args entry].
  apply ST_bind_ok in H as (sp & m2 & _ & H). apply ST_bind_ok in H as ([] & m3 & _ & H). injection H as <- <- <-. by left.
Qed.

(** [init_task_struct] succeeds only with memory for the table and the stack. *)
Lemma init_task_struct_inv t x tid name ip pager ke arg k r k' :
  k_tasks k !! t = Some x -> init_task_struct ut kt t tid name ip pager ke arg k = Ok (r, k') -> IS_OK r = true ->
  exists table m1 sp sb st m2,
    arch_vm_init (k_kernel_table k) (set_owned (<[t := []]> (owned (k_mem k))) (k_mem k)) = Ok ((OK, table), m1)
    /\ arch_task_init ut kt ip ke arg m1 = Ok ((OK, (sp, sb, st)), m2).
Proof.
  intros Hx H Hr. unfold init_task_struct in H. rewrite (ST_bind_run _ _ _ _ _ (upd_run _ _ _ _ Hx)) in H.
  rewrite (ST_bind_run (modify _) _ _ _ _ eq_refl), (ST_bind_run (gets _) _ _ _ _ eq_refl) in H.
  apply ST_bind_ok in H as ([err table] & k1 & H1 & H). apply lift_mem_inv in H1 as (m1 & H1 & ->).
  cbn [k_mem set_mem set_tasks k_kernel_table] in H1. apply ST_bind_ok in H as ([] & k2 & H2 & H).
  assert (Em : k_mem k2 = m1).
  { unfold upd, modify in H2. injection H2 as <-. done. }
  destruct (arch_vm_init_err _ _ _ _ _ H1) as [->| ->]; [|injection H as <- <-; done].
  change (negb (OK =? OK)) with false in H. cbv iota in H.
  apply ST_bind_ok in H as ([err [[sp sb] st]] & k4 & H4 & H). apply lift_mem_inv in H4 as (m2 & H4 & ->). rewrite Em in H4.
  destruct (arch_task_init_err _ _ _ _ _ _ _ H4) as [->| ->]; [by eauto 10|].
  apply ST_bind_ok in H as ([] & k5 & _ & H). injection H as <- <-. done.
Qed.


(** The record of a fresh task; the pending notifications and the message buffer
    of the slot's previous user are still there. *)
Definition fresh_task (x : task) (tid : Z) (name : list Z) (pager : option tptr) (table sp sb st : Z) : task :=
  TaskStruct table sp st sb tid (task_name name) TASK_RUNNABLE false pager 0 0 0 [] IPC_DENY
    (t_notifications x) (t_m x) KRun (t_ret x).

(** The count of references to the pager. *)
Definition bump (pager : option tptr) (T : gmap tptr task) : gmap tptr task :=
  match pager with Some p => alter (fun y => with_ref_count (s32 (t_ref_count y + 1)) y) p T | None => T end.
Lemma bump_fmap {A} (f : task -> A) pager T : (forall n y, f (with_ref_count n y) = f y) -> f <$> bump pager T = f <$> T.
Proof.
  intros Hf. destruct pager as [p|]; [|done]. apply map_eq. intros t. simpl. rewrite !lookup_fmap, lookup_alter.
  case_decide as Ht; [subst|done]. destruct (T !! t); simpl; [by rewrite Hf|done].
Qed.

Lemma init_task_struct_run t x tid name ip pager ke arg table m1 sp sb st m2 k :
  k_tasks k !! t = Some x ->
  pager <> Some t ->
  (forall p, pager = Some p -> is_Some (k_tasks k !! p)) ->
  arch_vm_init (k_kernel_table k) (set_owned (<[t := []]> (owned (k_mem k))) (k_mem k)) = Ok ((OK, table), m1) ->
  arch_task_init ut kt ip ke arg m1 = Ok ((OK, (sp, sb, st)), m2) ->
  exists k', init_task_struct ut kt t tid name ip pager ke arg k = Ok (OK, k')
    /\ k_tasks k' = <[t := with_state TASK_BLOCKED (fresh_task x tid name pager table sp sb st)]> (bump pager (k_tasks k))
    /\ k_runqueue k' = k_runqueue k /\ k_readers k' = k_readers k /\ k_current k' = k_current k
    /\ k_irq k' = k_irq k /\ k_active k' = k_active k.
Proof.
  intros Hx Hself Hpg Hvm Hti. unfold init_task_struct.
  set (x1 := TaskStruct (t_table x) (t_sp x) (t_sp_top x) (t_sp_bottom x) tid (task_name name)
    (t_state x) false pager 0 0 0 [] IPC_DENY (t_notifications x) (t_m x) (t_kctx x) (t_ret x)).
  set (x2 := TaskStruct table (t_sp x) (t_sp_top x) (t_sp_bottom x) tid (task_name name)
    (t_state x) false pager 0 0 0 [] IPC_DENY (t_notifications x) (t_m x) (t_kctx x) (t_ret x)).
  set (x3 := TaskStruct table sp st sb tid (task_name name)
    (t_state x) false pager 0 0 0 [] IPC_DENY (t_notifications x) (t_m x) KRun (t_ret x)).
  rewrite (ST_bind_run _ _ _ _ _ (upd_run _ _ _ _ Hx)). fold x1.
  erewrite ST_bind_run by reflexivity. erewrite ST_bind_run by reflexivity.
  erewrite ST_bind_run; [|apply lift_mem_run; exact Hvm]. cbv beta iota.
  erewrite ST_bind_run; [|apply (upd_run _ _ _ x1); simpl; by rewrite lookup_insert, decide_True].
  change (negb (OK =? OK)) with false. cbv iota.
  erewrite ST_bind_run; [|apply lift_mem_run; exact Hti]. cbv beta iota.
  change (negb (OK =? OK)) with false. cbv iota.
  erewrite ST_bind_run; [|apply (upd_run _ _ _ x2); simpl; by rewrite lookup_insert, decide_True].
  cbn [set_tasks set_mem k_tasks k_mem k_runqueue k_readers k_current k_irq k_active].
  destruct pager as [p|].
  - destruct (Hpg p eq_refl) as [y Hy]. assert (Hpi : t <> p) by congruence.
    erewrite ST_bind_run; [|apply (upd_run _ _ _ y); simpl; by rewrite !lookup_insert_ne].
    erewrite ST_bind_run; [|apply (upd_run _ _ _ x3); simpl; by rewrite lookup_insert_ne, lookup_insert, decide_True].
    eexists. split; [reflexivity|]. simpl. split_and!; try done.
    apply map_eq. intros u. unfold bump. rewrite !lookup_insert, lookup_alter.
    repeat case_decide; simplify_eq; try done. by rewrite Hy.
  - rewrite (ST_bind_run (mret ()) _ _ () _ eq_refl).
    erewrite ST_bind_run; [|apply (upd_run _ _ _ x3); simpl; by rewrite lookup_insert, decide_True].
    eexists. split; [reflexivity|]. simpl. split_and!; try done. by rewrite !insert_insert_eq.
Qed.

Lemma kinv_create k k' i x y :
  kinv k -> k_tasks k !! Task i = Some x -> t_state x = TASK_UNUSED ->
  view_of y = View TASK_RUNNABLE (Z.of_nat i + 1) [] IPC_DENY KRun (t_pager y) ->
  (forall p, t_pager y = Some p -> exists j v, p = Task j /\ views k !! p = Some v /\ v_state v <> TASK_UNUSED) ->
  views k' = <[Task i := view_of y]> (views k) -> pagers k' = <[Task i := t_pager y]> (pagers k) ->
  k_runqueue k' = k_runqueue k ++ [Task i] -> k_readers k' = k_readers k -> k_current k' = k_current k ->
  k_irq k' = k_irq k -> k_active k' = k_active k ++ [Task i] ->
  kinv k'.
Proof.
  intros [I [S1 S2 S3]] Hx Hu Hy Hpg HV HP Erq Erd Ecur Eirq Eact.
  assert (Hlive : forall t v, views k !! t = Some v -> v_state v <> TASK_UNUSED ->
            exists v', views k' !! t = Some v' /\ v_state v' <> TASK_UNUSED).
  { intros t v Ht Hn. rewrite HV, lookup_insert. case_decide; [|eauto].
    exists (view_of y). split; [done|]. by rewrite Hy. }
  split; [|split].
  - rewrite HV, Erq, Erd, Ecur, Hy. by apply (vinv_create _ _ _ _ _ (view_of x)); [|apply views_task|].
  - intros t p. rewrite HP, lookup_insert.
    assert (Hex : forall j v, p = Task j -> views k !! p = Some v -> v_state v <> TASK_UNUSED ->
      exists j v, p = Task j /\ views k' !! p = Some v /\ v_state v <> TASK_UNUSED).
    { intros j v -> Hv Hn. destruct (Hlive _ _ Hv Hn) as (v' & ? & ?). eauto. }
    case_decide.
    + intros [= Hp]. destruct (Hpg p Hp) as (j & v & ? & ? & ?). eauto.
    + intros Hp. destruct (S1 _ _ Hp) as (j & v & ? & ? & ?). eauto.
  - intros n t. unfold irq_listener. rewrite Eirq. apply S2.
  - intros t. rewrite Eact. intros [Ht| ->%list_elem_of_singleton]%elem_of_app.
    + destruct (S3 _ Ht) as (j & v & -> & Hv & Hn). destruct (Hlive _ _ Hv Hn) as (v' & ? & ?). eauto.
    + eexists i, _. split_and!; [done|rewrite HV, lookup_insert, decide_True by done; done|by rewrite Hy].
Qed.

(** The first free slot. *)
Lemma alloc_tid_run i x k :
  (i < Z.to_nat NUM_TASKS_MAX)%nat -> k_tasks k !! Task i = Some x -> t_state x = TASK_UNUSED ->
  (forall j, (j < i)%nat -> exists y, k_tasks k !! Task j = Some y /\ t_state y <> TASK_UNUSED) ->
  alloc_tid k = Ok (Z.of_nat i + 1, k).
Proof.
  intros Hi Hx Hu Hprev. unfold alloc_tid.
  replace (Z.to_nat NUM_TASKS_MAX) with (i + (Z.to_nat NUM_TASKS_MAX - i))%nat by lia.
  rewrite alloc_tid_loop_used by (intros j Hj; apply Hprev; lia).
  destruct (Z.to_nat NUM_TASKS_MAX - i)%nat as [|r] eqn:Er; [lia|]. cbn [alloc_tid_loop Nat.add].
  by rewrite (ST_bind_run _ _ _ _ _ (task_at_run _ _ _ Hx)), bool_decide_true.
Qed.

(** An unused slot is in no list. *)
Lemma unused_inactive k i x : kinv k -> k_tasks k !! Task i = Some x -> t_state x = TASK_UNUSED -> Task i ∉ k_active k.
Proof.
  intros [_ S] Hx Hu Hin. destruct (so_active _ S _ Hin) as (j & v & [= <-] & Hv & Hn).
  apply views_lookup in Hv as (z & Hz & ->). apply Hn. simpl. congruence.
Qed.
Lemma unused_unlinked k k1 i x y :
  kinv k -> k_tasks k !! Task i = Some x -> t_state x = TASK_UNUSED -> v_senders y = [] ->
  views k1 = <[Task i := y]> (views k) -> k_runqueue k1 = k_runqueue k -> k_readers k1 = k_readers k ->
  wq_linked (Task i) k1 = false.
Proof.
  intros [I _] Hx Hu Hy HV Erq Erd. apply wq_linked_false.
  - rewrite Erq. intros (? & v & [= <-] & Hv & Hr & _)%(vi_rq _ _ _ _ _ I).
    apply views_lookup in Hv as (z & Hz & ->). simpl in Hr. congruence.
  - rewrite Erd. intros (? & v & b & n & [= <-] & Hv & Hr & _)%(vi_rd _ _ _ _ _ I).
    apply views_lookup in Hv as (z & Hz & ->). simpl in Hr. congruence.
  - intros d w Hd Hs. rewrite HV, lookup_insert in Hd. case_decide.
    { simplify_eq. rewrite Hy in Hs. by apply not_elem_of_nil in Hs. }
    destruct (vi_snd _ _ _ _ _ I _ _ _ Hd Hs) as (? & v & [= <-] & Hv & Hb & _).
    apply views_lookup in Hv as (z & Hz & ->). simpl in Hb. congruence.
Qed.

(** An initialised task becomes active and runnable. *)
Lemma start_task_run k k1 i x name pager table sp sb st r (y2 := fresh_task x (Z.of_nat i + 1) name pager table sp sb st) :
  kinv k -> k_tasks k !! Task i = Some x -> t_state x = TASK_UNUSED ->
  (forall p, pager = Some p -> exists y j, p = Task j /\ k_tasks k !! p = Some y /\ t_state y <> TASK_UNUSED) ->
  k_tasks k1 = <[Task i := with_state TASK_BLOCKED y2]> (bump pager (k_tasks k)) ->
  k_runqueue k1 = k_runqueue k -> k_readers k1 = k_readers k -> k_current k1 = k_current k ->
  k_irq k1 = k_irq k -> k_active k1 = k_active k ->
  exists k', (push_active (Task i) ;; task_resume (Task i) ;; mret r) k1 = Ok (r : Z, k') /\ kinv k'
    /\ k_tasks k' !! Task i = Some y2
    /\ k_runqueue k' = k_runqueue k ++ [Task i] /\ k_active k' = k_active k ++ [Task i]
    /\ k_current k' = k_current k.
Proof.
  intros Hk Hx Hu Hpg ET Erq Erd Ecur Eirq Eact. set (k2 := set_active (k_active k ++ [Task i]) k1).
  assert (HV1 : views k2 = <[Task i := view_of (with_state TASK_BLOCKED y2)]> (views k)).
  { unfold views, k2. cbn [k_tasks set_active]. rewrite ET, fmap_insert. by rewrite bump_fmap. }
  assert (Hlook1 : k_tasks k2 !! Task i = Some (with_state TASK_BLOCKED y2)).
  { unfold k2. cbn [k_tasks set_active]. by rewrite ET, lookup_insert, decide_True. }
  assert (Hl : wq_linked (Task i) k2 = false) by (exact (unused_unlinked k k2 i x (view_of (with_state TASK_BLOCKED y2)) Hk Hx Hu eq_refl HV1 Erq Erd)).
  eexists. split; [|split_and!].
  - rewrite (ST_bind_run (push_active (Task i)) _ k1 tt k2).
    2: { unfold push_active. rewrite (ST_bind_run (gets _) _ _ _ _ eq_refl), Eact, bool_decide_false by (by eapply unused_inactive).
         unfold k2. by rewrite <- Eact. }
    rewrite (ST_bind_run _ _ _ _ _ (task_resume_run _ _ _ Hlook1 eq_refl Hl)). reflexivity.
  - apply (kinv_create k _ i x y2); try done.
    + intros p Hp. destruct (Hpg p Hp) as (y & j & -> & Hy & Hn). exists j. eexists. split_and!; [done|by apply views_task|done].
    + change (views (set_tasks (<[Task i := y2]> (k_tasks k1)) k1) = <[Task i := view_of y2]> (views k)).
      rewrite views_insert. unfold views. by rewrite ET, fmap_insert, insert_insert_eq, bump_fmap.
    + unfold pagers. cbn [k_tasks set_runqueue set_tasks set_active k2].
      by rewrite ET, !fmap_insert, insert_insert_eq, bump_fmap.
    + cbn [k_runqueue set_runqueue set_tasks set_active k2]. by rewrite Erq.
  - cbn [k_tasks set_runqueue set_tasks]. by rewrite lookup_insert, decide_True.
  - cbn [k_runqueue set_runqueue set_tasks set_active k2]. by rewrite Erq.
  - done.
  - done.
Qed.

Lemma task_create_run k i x name ip pager table m1 sp sb st m2 :
  kinv k -> (i < Z.to_nat NUM_TASKS_MAX)%nat ->
  k_tasks k !! Task i = Some x -> t_state x = TASK_UNUSED ->
  (forall j, (j < i)%nat -> exists y, k_tasks k !! Task j = Some y /\ t_state y <> TASK_UNUSED) ->
  (forall p, pager = Some p -> exists y j, p = Task j /\ k_tasks k !! p = Some y /\ t_state y <> TASK_UNUSED) ->
  arch_vm_init (k_kernel_table k) (set_owned (<[Task i := []]> (owned (k_mem k))) (k_mem k)) = Ok ((OK, table), m1) ->
  arch_task_init ut kt ip 0 0 m1 = Ok ((OK, (sp, sb, st)), m2) ->
  exists k', task_create ut kt name ip pager k = Ok (Z.of_nat i + 1, k') /\ kinv k'
    /\ k_tasks k' !! Task i = Some (fresh_task x (Z.of_nat i + 1) name pager table sp sb st)
    /\ k_runqueue k' = k_runqueue k ++ [Task i] /\ k_active k' = k_active k ++ [Task i]
    /\ k_current k' = k_current k.
Proof.
  intros Hk Hi Hx Hu Hprev Hpg Hvm Hti.
  destruct (init_task_struct_run (Task i) x (Z.of_nat i + 1) name ip pager 0 0 table m1 sp sb st m2 k)
    as (k1 & Hinit & ET & Erq & Erd & Ecur & Eirq & Eact); try done.
  { intros ->. destruct (Hpg _ eq_refl) as (y & j & _ & Hy & Hn). simplify_eq. }
  { intros p ->. destruct (Hpg _ eq_refl) as (y & j & _ & Hy & _). eauto. }
  destruct (start_task_run k k1 i x name pager table sp sb st (Z.of_nat i + 1)) as (k' & E & H'); try done.
  exists k'. split; [|done]. unfold task_create. rewrite (ST_bind_run _ _ _ _ _ (alloc_tid_run i x k Hi Hx Hu Hprev)).
  replace (Z.of_nat i + 1 =? 0) with false by lia. replace (Z.to_nat (Z.of_nat i + 1 - 1)) with i by lia.
  rewrite (ST_bind_run _ _ _ _ _ Hinit). exact E.
Qed.

(** C23: creating a task.  With a free slot, a live pager and memory for the page table
    and the kernel stack, [task_create] returns the id of the first free slot; that
    slot then holds a runnable task with that id, name, entry stack and pager, in the
    list of active tasks and at the end of the run queue, and the scheduling invariant
    holds.  The new task starts with whatever notifications the slot's previous
    task had not received. *)
Theorem task_create_correct k i x name ip p table m1 sp sb st m2 :
  kinv k -> (i < Z.to_nat NUM_TASKS_MAX)%nat ->
  k_tasks k !! Task i = Some x -> t_state x = TASK_UNUSED ->
  (forall j, (j < i)%nat -> exists y, k_tasks k !! Task j = Some y /\ t_state y <> TASK_UNUSED) ->
  (exists y j, p = Task j /\ k_tasks k !! p = Some y /\ t_state y <> TASK_UNUSED) ->
  arch_vm_init (k_kernel_table k) (set_owned (<[Task i := []]> (owned (k_mem k))) (k_mem k)) = Ok ((OK, table), m1) ->
  arch_task_init ut kt ip 0 0 m1 = Ok ((OK, (sp, sb, st)), m2) ->
  exists k', task_create ut kt name ip (Some p) k = Ok (Z.of_nat i + 1, k') /\ kinv k'
    /\ k_tasks k' !! Task i = Some (fresh_task x (Z.of_nat i + 1) name (Some p) table sp sb st)
    /\ k_runqueue k' = k_runqueue k ++ [Task i] /\ k_active k' = k_active k ++ [Task i].
Proof.
  intros Hk Hi Hx Hu Hprev Hp Hvm Hti.
  destruct (task_create_run k i x name ip (Some p) table m1 sp sb st m2) as (k' & ? & ? & ? & ? & ? & _); try done; [|by eauto 10].
  by intros ? [= <-].
Qed.
End Create.

(** A machine with sixteen pages; the first holds the kernel's page table. *)
Definition demo_machine : kernel :=
  Kernel demo_tasks [Task 1] [Task 0; Task 1] {[0%nat := Task 0]} [] (replicate 128 0) 0 0
    (replicate 32 None) (replicate 32 false) 0 []
    (Memory [Zone MEMORY_ZONE_FREE pa0 16 (Page None 1 :: replicate 15 (Page None 0))] ∅ ∅) ∅ pa0.

Lemma demo_machine_kinv : kinv demo_machine.
Proof. apply (keeps_other demo_kernel); try reflexivity. apply demo_kinv. Qed.

Definition demo_vm : Z * memory :=
  match arch_vm_init (k_kernel_table demo_machine)
          (set_owned (<[Task 2 := []]> (owned (k_mem demo_machine))) (k_mem demo_machine)) with
  | Ok ((_, t), m) => (t, m)
  | _ => (0, k_mem demo_machine)
  end.
Definition demo_stack : Z * Z * Z * memory :=
  match arch_task_init 0 0 4096 0 0 (snd demo_vm) with
  | Ok ((_, (sp, sb, st)), m) => (sp, sb, st, m)
  | _ => (0, 0, 0, k_mem demo_machine)
  end.

Lemma task_create_correct_witness :
  exists k', task_create 0 0 [116; 101; 115; 116] 4096 (Some (Task 0)) demo_machine = Ok (3, k') /\ kinv k'
    /\ k_runqueue k' = [Task 1; Task 2].
Proof.
  destruct (task_create_correct 0 0 demo_machine 2 (demo_slot 2) [116; 101; 115; 116] 4096 (Task 0)
              (fst demo_vm) (snd demo_vm) (fst (fst (fst demo_stack))) (snd (fst (fst demo_stack)))
              (snd (fst demo_stack)) (snd demo_stack)) as (k' & H1 & H2 & _ & H3 & _).
  - apply demo_machine_kinv.
  - vm_compute; lia.
  - vm_compute; reflexivity.
  - reflexivity.
  - intros [|[|j]] Hj; [eexists; split; [vm_compute; reflexivity|discriminate]..|lia].
  - eexists _, 0%nat. split; [reflexivity|]. split; [vm_compute; reflexivity|discriminate].
  - vm_compute; reflexivity.
  - vm_compute; reflexivity.
  - exists k'. split; [exact H1|]. split; [exact H2|exact H3].
Defined.

(** ** Destruction *)

Lemma upd_state t f k : upd t f k = Ok (tt, set_tasks (alter f t (k_tasks k)) k).
Proof. done. Qed.

(** Notifying a task that is not in an open receive only sets its bits. *)
Lemma notify_pending t n k x k' :
  k_tasks k !! t = Some x -> t_wait_for x <> IPC_ANY -> notify t n k = Ok (tt, k') ->
  k' = set_tasks (alter (fun d => with_notifications (Z.lor (t_notifications d) n) d) t (k_tasks k)) k.
Proof.
  intros Hx Hw. unfold notify. rewrite (ST_bind_run _ _ _ _ _ (task_at_run _ _ _ Hx)).
  destruct (Z.eqb_spec (t_wait_for x) IPC_ANY); [done|]. rewrite andb_false_r, upd_state. congruence.
Qed.

(** What [notify_all] leaves of tasks that wait for nothing. *)
Lemma notify_all_pending n q k k' :
  (forall t, t ∈ q -> exists x, k_tasks k !! t = Some x /\ t_wait_for x <> IPC_ANY) ->
  notify_all q n k = Ok (tt, k') ->
  k_runqueue k' = k_runqueue k /\ k_readers k' = k_readers k /\
  (forall t x, k_tasks k !! t = Some x -> exists x', k_tasks k' !! t = Some x' /\ t_state x' = t_state x
     /\ t_kctx x' = t_kctx x /\ t_senders x' = t_senders x /\ t_wait_for x' = t_wait_for x).
Proof.
  revert k. induction q as [|t q IH]; intros k Hq H.
  { simpl in H. run. simplify_eq. split_and!; eauto. intros t x Hx. exists x. by split_and!. }
  cbn [notify_all] in H. apply ST_bind_ok in H as ([] & k1 & H1 & H2).
  destruct (Hq t) as (x & Hx & Hw); [by left|].
  pose proof (notify_pending _ _ _ _ _ Hx Hw H1) as ->.
  set (k1 := set_tasks _ k) in *.
  assert (Hstep : forall u y, k_tasks k !! u = Some y -> exists y', k_tasks k1 !! u = Some y' /\ t_state y' = t_state y
     /\ t_kctx y' = t_kctx y /\ t_senders y' = t_senders y /\ t_wait_for y' = t_wait_for y).
  { intros u y Hy. unfold k1. simpl. rewrite lookup_alter. case_decide as Hu; [|exists y; by split_and!].
    subst u. rewrite Hy. eexists. split; [reflexivity|]. done. }
  destruct (IH k1) as (E1 & E2 & E3); [|done|].
  - intros u Hu. destruct (Hq u) as (y & Hy & Hwy); [by right|].
    destruct (Hstep u y Hy) as (y' & Hy' & _ & _ & _ & E). exists y'. split; [done|congruence].
  - split_and!; [done|done|]. intros u y Hy. destruct (Hstep u y Hy) as (y' & Hy' & F1 & F2 & F3 & F4).
    destruct (E3 u y' Hy') as (z & Hz & G1 & G2 & G3 & G4). exists z. split_and!; [done|congruence..].
Qed.

Lemma bind_assert_ok {A} (b : bool) (m : KST A) k r k' :
  (assert b ;; m) k = Ok (r, k') -> b = true /\ m k = Ok (r, k').
Proof. destruct b; [done|]. intros H. discriminate H. Qed.

(** The task map after the last three changes of [task_destroy]. *)
(** A wait in which no other CPU acts is over at once. *)
Lemma destroy_wait_none t k k' : destroy_wait [] t k = Ok (tt, k') -> k' = k.
Proof.
  cbn [destroy_wait]. unfold still_running. intros (r & k1 & H1 & H)%ST_bind_ok. apply ST_bind_ok in H1 as (x & k2 & H2 & H1).
  unfold task_at, getopt in H2. destruct (k_tasks k !! t); [|done]. injection H2 as -> <-.
  rewrite (ST_bind_run (gets _) _ _ _ _ eq_refl) in H1. injection H1 as <- <-. destruct (_ && _); [done|]. by injection H as <-.
Qed.

Lemma destroy_lookup (T : gmap tptr task) p t (h : task -> task) u z :
  T !! u = Some z ->
  exists z', alter (fun y => with_ref_count (s32 (t_ref_count y - 1)) y) p
      (alter (with_state TASK_UNUSED) t (h <$> T)) !! u = Some z'
    /\ t_state z' = (if decide (t = u) then TASK_UNUSED else t_state (h z)) /\ t_kctx z' = t_kctx (h z)
    /\ t_senders z' = t_senders (h z).
Proof.
  intros Hz. assert (Hf : (h <$> T) !! u = Some (h z)) by (by rewrite lookup_fmap, Hz).
  rewrite !lookup_alter. destruct (decide (p = u)) as [->|], (decide (t = u)) as [->|];
    rewrite Hf; eexists; (split; [reflexivity|done]).
Qed.

(** A task in the list of senders is blocked in a send, and receives nothing. *)
Lemma blocked_sender k t x u :
  kinv k -> k_tasks k !! t = Some x -> u ∈ t_senders x ->
  exists y, k_tasks k !! u = Some y /\ t_state y = TASK_BLOCKED /\ sends_to (t_kctx y) = Some t /\ t_wait_for y = IPC_DENY.
Proof.
  intros [I _] Hx Hu. destruct (vi_snd _ _ _ _ _ I _ _ _ (views_task _ _ _ Hx) Hu) as (j & w & -> & Hw & Hb & Hto).
  pose proof (vi_ctx _ _ _ _ _ I _ _ Hw ltac:(congruence)) as Hc.
  apply views_lookup in Hw as (y & Hy & ->). exists y. simpl in Hb, Hto. split_and!; try done.
  unfold ctx_ok in Hc. simpl in Hc. destruct (t_kctx y); try done. tauto.
Qed.
(** The mark changes nothing else. *)
Lemma marked_lookup t x (ts : gmap tptr task) u z : ts !! t = Some x -> ts !! u = Some z ->
  exists z', <[t := with_destroyed true x]> ts !! u = Some z' /\ t_state z' = t_state z
     /\ t_kctx z' = t_kctx z /\ t_senders z' = t_senders z /\ t_wait_for z' = t_wait_for z.
Proof.
  intros Hx Hz. rewrite lookup_insert. destruct (decide (t = u)) as [<-|Hu]; [|exists z; by split_and!].
  assert (z = x) as -> by congruence. eexists. split; [reflexivity|]. done.
Qed.

(** Destroying a task strands the tasks queued to send to it.  The loop at the end of
    [task_destroy] only notifies them: a task inside [send_message] is not in an open
    receive, so it is not made runnable.  Whenever the call succeeds, such a sender is
    still blocked, inside the same send, in no queue but that of the now unused slot. *)
Theorem task_destroy_strands_senders c t s x k k' :
  kinv k -> k_tasks k !! t = Some x -> s ∈ t_senders x ->
  task_destroy c t k = Ok (OK, k') ->
  exists y x', k_tasks k' !! s = Some y /\ t_state y = TASK_BLOCKED /\ sends_to (t_kctx y) = Some t
    /\ s ∉ k_runqueue k' /\ k_tasks k' !! t = Some x' /\ t_state x' = TASK_UNUSED /\ s ∈ t_senders x'.
Proof.
  intros Hk Hx Hs H. pose proof Hk as [I S]. pose proof (views_task _ _ _ Hx) as Hv.
  pose proof (fun u => blocked_sender k t x u Hk Hx) as Hsend.
  destruct (Hsend s Hs) as (y & Hy & Hyb & Hyto & Hyw).
  assert (Hst : s <> t).
  { intros ->. rewrite Hx in Hy. injection Hy as <-. exact (vi_mutual _ _ _ _ _ I _ _ _ _ Hv Hv Hs Hs). }
  unfold task_destroy, task_destroy_with, destroy_finish in H.
  apply ST_bind_ok in H as (cur & k0 & Hcur & H). unfold CURRENT_TASK, getopt in Hcur.
  destruct (k_current k !! c) as [cur'|]; [|done]. injection Hcur as -> <-.
  do 2 apply bind_assert_ok in H as [_ H].
  rewrite (ST_bind_run _ _ _ _ _ (task_at_run _ _ _ Hx)) in H.
  do 2 apply bind_assert_ok in H as [_ H].
  destruct (t_tid x =? 1); [done|]. destruct (0 <? t_ref_count x); [done|].
  rewrite (ST_bind_run _ _ _ _ _ (upd_run _ _ _ _ Hx)) in H.
  set (k1 := set_tasks (<[t := with_destroyed true x]> (k_tasks k)) k) in *.
  pose proof (fun u z => marked_lookup t x (k_tasks k) u z Hx) as Hk1. change (<[t := with_destroyed true x]> (k_tasks k)) with (k_tasks k1) in Hk1.
  apply ST_bind_ok in H as ([] & ? & ->%destroy_wait_none & H).
  assert (Ht1 : k_tasks k1 !! t = Some (with_destroyed true x)) by (unfold k1; simpl; by rewrite lookup_insert_eq).
  rewrite (ST_bind_run _ _ _ _ _ (task_at_run _ _ _ Ht1)) in H. cbn [t_senders t_table t_sp_bottom t_pager with_destroyed] in H.
  apply ST_bind_ok in H as ([] & k2 & Hn & H).
  assert (Hq : forall u, u ∈ t_senders x -> exists z, k_tasks k1 !! u = Some z /\ t_wait_for z <> IPC_ANY).
  { intros u Hu. destruct (Hsend u Hu) as (z & Hz & _ & _ & Hwz).
    destruct (Hk1 u z Hz) as (z' & Hz' & _ & _ & _ & Ez). exists z'. split; [done|].
    rewrite Ez, Hwz. discriminate. }
  destruct (notify_all_pending _ _ _ _ Hq Hn) as (Erq & _ & Hk2).
  destruct (Hk1 s y Hy) as (y1 & Hy1 & A1 & A2 & A3 & A4).
  destruct (Hk2 s y1 Hy1) as (y2 & Hy2 & B1 & B2 & B3 & B4).
  destruct (Hk1 t x Hx) as (x1 & Hx1 & C1 & C2 & C3 & C4).
  destruct (Hk2 t x1 Hx1) as (x2 & Hx2 & D1 & D2 & D3 & D4).
  erewrite ST_bind_run in H by reflexivity. erewrite ST_bind_run in H by reflexivity.
  do 3 (apply ST_bind_ok in H as (? & ? & Hm & H); apply lift_mem_ok in Hm as [? ->]).
  rewrite (ST_bind_run _ _ _ _ _ (upd_state _ _ _)) in H.
  destruct (t_pager x) as [p|]; [|done]. rewrite (ST_bind_run _ _ _ _ _ (upd_state _ _ _)) in H.
  injection H as <-. cbn [k_tasks k_runqueue set_tasks set_mem set_readers set_runqueue set_active].
  set (h := fun x : task => with_senders (filter (fun x => x <> t) (t_senders x)) x).
  pose proof (destroy_lookup (k_tasks k2) p t h) as Hfin.
  destruct (Hfin s y2 Hy2) as (y' & Hy' & E1 & E2 & _). destruct (Hfin t x2 Hx2) as (x' & Hx' & F1 & _ & F3).
  exists y', x'. split_and!; [done| | | |done| |].
  - rewrite E1, decide_False by congruence. transitivity (t_state y2); [done|congruence].
  - rewrite E2. change (t_kctx (h y2)) with (t_kctx y2). congruence.
  - rewrite Erq. intros [_ Hin]%list_elem_of_filter. simpl in Hin.
    destruct (vi_rq _ _ _ _ _ I _ Hin) as (? & w & -> & Hw & Hr & _).
    apply views_lookup in Hw as (z & Hz & ->). simpl in Hr. congruence.
  - by rewrite F1, decide_True.
  - rewrite F3. unfold h. simpl. apply list_elem_of_filter. split; [done|]. rewrite D3, C3. done.
Qed.

(** The first task creates task 3 and is preempted; task 2 sends to task 3, which is not
    receiving; task 3 is preempted, and the first task destroys it. *)
Definition demo_created : kernel :=
  ok_state demo_machine (task_create 0 0 [116] 4096 (Some (Task 0)) demo_machine).

Lemma demo_created_kinv : kinv demo_created.
Proof.
  destruct (task_create_run 0 0 demo_machine 2 (demo_slot 2) [116] 4096 (Some (Task 0))
              (fst demo_vm) (snd demo_vm) (fst (fst (fst demo_stack))) (snd (fst (fst demo_stack)))
              (snd (fst demo_stack)) (snd demo_stack)) as (k' & H1 & H2 & _).
  - apply demo_machine_kinv.
  - vm_compute; lia.
  - vm_compute; reflexivity.
  - reflexivity.
  - intros [|[|j]] Hj; [eexists; split; [vm_compute; reflexivity|discriminate]..|lia].
  - intros p [= <-]. eexists _, 0%nat. split; [reflexivity|]. split; [vm_compute; reflexivity|discriminate].
  - vm_compute; reflexivity.
  - vm_compute; reflexivity.
  - unfold demo_created. by rewrite H1.
Qed.

Definition demo_stranding : kernel :=
  after (ETimer 0 TASK_QUANTUM) (after (ESyscall 0 [] 3 0 65536 IPC_SEND SYS_IPC)
    (after (ETimer 0 TASK_QUANTUM) demo_created)).

(** An enabled event keeps the invariant; used to follow the run above. *)
Lemma after_kinv e k : kinv k -> enabled e k -> kinv (after e k).
Proof.
  intros Hk He. unfold after. destruct (exec_safe no_message 0 0 0 e k Hk He) as (u & k' & E & H).
  by rewrite E.
Qed.

Lemma demo_stranding_kinv : kinv demo_stranding.
Proof.
  apply after_kinv; [apply after_kinv; [apply after_kinv; [apply demo_created_kinv|]|]|].
  - vm_compute. eauto.
  - exists 1%nat. split_and!; [split; [vm_compute; reflexivity|eexists; split; vm_compute; reflexivity]|reflexivity| |].
    + split; [by vm_compute|]. intros _ _. by vm_compute.
    + by vm_compute.
  - vm_compute. eauto.
Qed.

Definition demo_victim : task := default (demo_slot 2) (k_tasks demo_stranding !! Task 2).

Lemma task_destroy_strands_senders_witness :
  exists y x', let k' := ok_state demo_stranding (task_destroy 0 (Task 2) demo_stranding) in
    k_tasks k' !! Task 1 = Some y /\ t_state y = TASK_BLOCKED /\ sends_to (t_kctx y) = Some (Task 2)
    /\ Task 1 ∉ k_runqueue k' /\ k_tasks k' !! Task 2 = Some x' /\ t_state x' = TASK_UNUSED
    /\ Task 1 ∈ t_senders x'.
Proof.
  apply (task_destroy_strands_senders 0 (Task 2) (Task 1) demo_victim demo_stranding).
  - apply demo_stranding_kinv.
  - vm_compute; reflexivity.
  - vm_compute; left.
  - vm_compute; reflexivity.
Defined.
