(* ===== verification/Reach.v ===== *)
(** The whole system call interface and the scheduling invariant.

    [Safety] proves that the calls of the scheduler, of message passing and of the devices
    run to their end and keep the invariant.  The remaining ones change physical memory or
    the set of tasks (SYS_PM_ALLOC, SYS_VM_MAP, SYS_VM_UNMAP, SYS_TASK_CREATE, SYS_HINAVM,
    SYS_TASK_DESTROY); here they are shown to keep the invariant whenever they return, so
    that what holds in every reachable state holds of systems in which tasks create,
    map and destroy.  Destruction keeps it when nothing refers to the destroyed task; the
    senders it strands otherwise are the subject of [Lifecycle]. *)

From S2P Require Import Prelude Types KData Memory Vm Kernel Task Ipc Syscall KInv Sched Safety IpcProps Lifecycle.

(** ** Operations that change physical memory only *)
Class MemOnly {A} (f : KST A) : Prop := mem_only : forall k a k', f k = Ok (a, k') -> exists m, k' = set_mem m k.

Lemma ST_fmap_ok {S A B} (h : A -> B) (f : ST S A) s b s' : (h <$> f) s = Ok (b, s') -> exists a, f s = Ok (a, s') /\ b = h a.
Proof. unfold fmap, ST_fmap. destruct (f s) as [[a s1]| |]; [|done..]. intros [= <- <-]. eauto. Qed.
Lemma set_mem_id k : set_mem (k_mem k) k = k.
Proof. by destruct k. Qed.
#[export] Instance mem_ret {A} (a : A) : MemOnly (mret a).
Proof. intros k b k' [= <- <-]. exists (k_mem k). by rewrite set_mem_id. Qed.
#[export] Instance mem_undef {A} : MemOnly (A := A) undef.
Proof. intros k b k' [=]. Qed.
#[export] Instance mem_assert b : MemOnly (assert b).
Proof. destruct b; [apply _|intros k a k' [=]]. Qed.
#[export] Instance mem_gets {A} (f : kernel -> A) : MemOnly (gets f).
Proof. intros k b k' [= <- <-]. exists (k_mem k). by rewrite set_mem_id. Qed.
#[export] Instance mem_getopt {A} (f : kernel -> option A) : MemOnly (getopt f).
Proof. intros k b k' H. unfold getopt in H. destruct (f k); [|done]. injection H as <- <-. exists (k_mem k). by rewrite set_mem_id. Qed.
#[export] Instance mem_lift {A} (f : ST memory A) : MemOnly (lift_mem f).
Proof. intros k b k' (m & _ & ->)%lift_mem_inv. eauto. Qed.
#[export] Instance mem_bind {A B} (f : KST A) (g : A -> KST B) : MemOnly f -> (forall a, MemOnly (g a)) -> MemOnly (f ≫= g).
Proof. intros Hf Hg k b k' (a & k1 & [m1 ->]%Hf & [m2 ->]%Hg)%ST_bind_ok. by exists m2. Qed.
#[export] Instance mem_fmap {A B} (h : A -> B) (f : KST A) : MemOnly f -> MemOnly (h <$> f).
Proof. intros Hf k b k' (a & E & _)%ST_fmap_ok. by apply Hf in E. Qed.
#[export] Instance mem_if {A} (b : bool) (f g : KST A) : MemOnly f -> MemOnly g -> MemOnly (if b then f else g).
Proof. by destruct b. Qed.
#[export] Instance mem_option {A B} (o : option A) (f : A -> KST B) (g : KST B) :
  (forall a, MemOnly (f a)) -> MemOnly g -> MemOnly (match o with Some a => f a | None => g end).
Proof. by destruct o. Qed.
#[export] Instance mem_option_none {A B} (o : option A) (f : A -> KST B) (g : KST B) :
  (forall a, MemOnly (f a)) -> MemOnly g -> MemOnly (match o with None => g | Some a => f a end).
Proof. by destruct o. Qed.

#[export] Instance mem_task_at t : MemOnly (task_at t) := _.
#[export] Instance mem_current c : MemOnly (CURRENT_TASK c) := _.
#[export] Instance mem_task_find tid : MemOnly (task_find tid) := _.
#[export] Instance mem_copy_from t src len : MemOnly (memcpy_from_user t src len) := _.
#[export] Instance mem_strcpy_from t n src : MemOnly (strcpy_from_user t n src) := _.
#[export] Instance mem_pm_alloc c tid sz fl : MemOnly (sys_pm_alloc c tid sz fl) := _.
#[export] Instance mem_vm_map tid ua pa attrs : MemOnly (sys_vm_map tid ua pa attrs) := _.
#[export] Instance mem_vm_unmap tid ua : MemOnly (sys_vm_unmap tid ua) := _.
#[export] Instance mem_alloc_tid : MemOnly alloc_tid.
Proof. unfold alloc_tid. generalize 0%nat. induction (Z.to_nat NUM_TASKS_MAX) as [|n IH]; intros i; [apply _|]. cbn [alloc_tid_loop]. apply _. Qed.

(** ** Creation *)

(** A slot that stays unused. *)
Lemma vinv_unused V rq rd cur i v v' :
  vinv None V rq rd cur -> V !! Task i = Some v -> v_state v = TASK_UNUSED ->
  v_state v' = TASK_UNUSED -> v_senders v' = [] -> ctx_args (v_ctx v') (v_pager v') ->
  vinv None (<[Task i := v']> V) rq rd cur.
Proof.
  intros I Hv Hun Hun' Hs' Ha'. destruct I as [Icur Iinj Iidle Iidx Idom Itid Irqn Irq Ilive Irdn Ird Isnn Isnd Ictx Iun Imu Ifl].
  assert (Hne : forall t w, V !! t = Some w -> v_state w <> TASK_UNUSED -> <[Task i := v']> V !! t = Some w).
  { intros t w Ht Hw. rewrite lookup_insert_ne; [done|]. intros <-. congruence. }
  split; try done.
  - intros c t Hc. destruct (Icur _ _ Hc) as [?|(j & w & -> & Hw & [Hst|[? ?]])]; [by left| |done]. right. exists j, w.
    split_and!; [done|apply Hne; [done|congruence]|by left].
  - intros c w. rewrite lookup_insert_ne by done. apply Iidle.
  - intros c Hc. rewrite lookup_insert_ne by done. by apply Iidx.
  - intros j. rewrite <- Idom, lookup_insert. case_decide; [|done]. simplify_eq. split; eauto.
  - intros j w Hj. vlook Hj; [done|by apply Itid].
  - intros t Ht. destruct (Irq _ Ht) as (j & w & -> & Hj & Hr & ?). exists j, w. split_and!; [done|apply Hne; [done|congruence]|done|done].
  - intros j w Hj. vlook Hj; [congruence|by apply Ilive].
  - intros t Ht. destruct (Ird _ Ht) as (j & w & b & n & -> & Hj & Hb & ?). exists j, w, b, n. split_and!; [done|apply Hne; [done|congruence]|done|done].
  - intros d w Hd. vlook Hd; [rewrite Hs'; apply NoDup_nil_2|by apply (Isnn _ _ Hd)].
  - intros d w s Hd Hs. vlook Hd; [rewrite Hs' in Hs; by apply not_elem_of_nil in Hs|].
    destruct (Isnd _ _ _ Hd Hs) as (j & y & -> & Hy & Hb & ?). exists j, y. split_and!; [done|apply Hne; [done|congruence]|done|done].
  - intros j w Hj. vlook Hj; [done|]. intros Hu. specialize (Ictx _ _ Hj Hu). unfold ctx_ok in *.
    destruct (v_ctx w) as [|d ? ? ? ? ?| | |] eqn:Hcw; try done. destruct Ictx as (Hdn & w0 & Hw0 & Hq & Hr). split; [done|].
    destruct (decide (d = Task i)) as [->|Hd]; [|exists w0; by rewrite lookup_insert_ne].
    assert (w0 = v) as -> by congruence. exfalso. destruct (v_state w) eqn:Hst; [done|destruct (Hr eq_refl); congruence|].
    specialize (Hq eq_refl). rewrite (Iun _ _ Hv Hun) in Hq. by apply not_elem_of_nil in Hq.
  - intros t w Ht. vlook Ht; [done|by apply (Iun _ _ Ht)].
  - apply (mutual_shrink V); [done|]. intros t w Ht. vlook Ht; [|eauto]. exists v. split; [done|]. rewrite Hs'. by intros s Hs%not_elem_of_nil.
  - intros t w Ht. vlook Ht; [done|by apply (Ifl _ _ Ht)].
Qed.

Definition live_pager (k : kernel) (pager : option tptr) : Prop :=
  forall p, pager = Some p -> exists y j, p = Task j /\ k_tasks k !! p = Some y /\ t_state y <> TASK_UNUSED.

Section Create.
Context (ut kt : Z).

(** A creation that failed leaves an unused slot. *)
Lemma kinv_unused k k' i x y :
  kinv k -> k_tasks k !! Task i = Some x -> t_state x = TASK_UNUSED ->
  t_state y = TASK_UNUSED -> t_senders y = [] -> t_kctx y = t_kctx x -> t_pager y <> None -> live_pager k (t_pager y) ->
  k_tasks k' = <[Task i := y]> (k_tasks k) -> k_runqueue k' = k_runqueue k -> k_readers k' = k_readers k ->
  k_current k' = k_current k -> k_irq k' = k_irq k -> k_active k' = k_active k ->
  kinv k'.
Proof.
  intros [I [S1 S2 S3]] Hx Hu Hy Hs Hc Hp Hl ET Erq Erd Ecur Eirq Eact.
  assert (EV : views k' = <[Task i := view_of y]> (views k)) by (unfold views; by rewrite ET, fmap_insert).
  assert (EP : pagers k' = <[Task i := t_pager y]> (pagers k)) by (unfold pagers; by rewrite ET, fmap_insert).
  assert (Hlive : forall j v, views k !! Task j = Some v -> v_state v <> TASK_UNUSED -> views k' !! Task j = Some v).
  { intros j v Hv Hn. rewrite EV, lookup_insert_ne; [done|]. intros [= <-]. apply views_lookup in Hv as (z & Hz & ->). simpl in Hn. congruence. }
  split; [|split].
  - rewrite EV, Erq, Erd, Ecur. apply (vinv_unused _ _ _ _ i (view_of x)); [done|by apply views_task|done|done|done|].
    pose proof (vi_args _ _ _ _ _ I _ _ (views_task _ _ _ Hx)) as Ha. simpl in *. rewrite Hc.
    unfold ctx_args in *. destruct (t_kctx x); naive_solver.
  - intros t p. rewrite EP, lookup_insert. case_decide.
    + intros [= Hpe]. destruct (Hl p Hpe) as (z & j & -> & Hz & Hn). exists j, (view_of z). split_and!; [done|apply Hlive; [by apply views_task|done]|done].
    + intros (j & v & -> & Hv & Hn)%S1. exists j, v. split_and!; [done|by apply Hlive|done].
  - intros n t. unfold irq_listener. rewrite Eirq. apply S2.
  - intros t. rewrite Eact. intros (j & v & -> & Hv & Hn)%S3. exists j, v. split_and!; [done|by apply Hlive|done].
Qed.

Lemma init_task_struct_fail i x tid name ip p ke arg k r k' :
  kinv k -> k_tasks k !! Task i = Some x -> t_state x = TASK_UNUSED -> live_pager k (Some p) ->
  init_task_struct ut kt (Task i) tid name ip (Some p) ke arg k = Ok (r, k') -> r <> OK ->
  kinv k' /\ k_current k' = k_current k.
Proof.
  intros Hk Hx Hu Hl H Hr. unfold init_task_struct in H. rewrite (ST_bind_run _ _ _ _ _ (upd_run _ _ _ _ Hx)) in H.
  rewrite (ST_bind_run (modify _) _ _ _ _ eq_refl), (ST_bind_run (gets _) _ _ _ _ eq_refl) in H.
  apply ST_bind_ok in H as ([err table] & k1 & (m1 & _ & ->)%lift_mem_inv & H).
  rewrite (ST_bind_run (upd _ _) _ _ _ _ eq_refl) in H. cbn [k_tasks set_tasks set_mem] in H. rewrite alter_insert_eq in H.
  assert (HK : forall m k2, k2 = set_mem m (set_tasks (<[Task i := TaskStruct table (t_sp x) (t_sp_top x) (t_sp_bottom x) tid (task_name name)
    (t_state x) false (Some p) 0 0 0 [] IPC_DENY (t_notifications x) (t_m x) (t_kctx x) (t_ret x)]> (k_tasks k)) k) ->
    kinv k2 /\ k_current k2 = k_current k).
  { intros m k2 ->. split; [|done]. eapply (kinv_unused k _ i x); [done|done|done|..|reflexivity|done|done|done|done|done]; done. }
  destruct (negb (err =? OK)); [injection H as <- <-; by eapply HK|].
  apply ST_bind_ok in H as ([err2 [[sp sb] st]] & k4 & (m4 & _ & ->)%lift_mem_inv & H).
  destruct (negb (err2 =? OK)).
  - apply ST_bind_ok in H as ([] & k5 & (m5 & _ & ->)%lift_mem_inv & H). injection H as <- <-. by eapply HK.
  - apply ST_bind_ok in H as ([] & k5 & _ & H). apply ST_bind_ok in H as ([] & k6 & _ & H).
    apply ST_bind_ok in H as ([] & k7 & _ & H). injection H as <- _. done.
Qed.

(** The slot that is handed out. *)
Lemma alloc_tid_loop_inv n i k tid k' : alloc_tid_loop i n k = Ok (tid, k') -> tid <> 0 ->
  exists j x, tid = Z.of_nat j + 1 /\ (i <= j < i + n)%nat /\ k_tasks k !! Task j = Some x /\ t_state x = TASK_UNUSED
    /\ forall l, (i <= l < j)%nat -> exists y, k_tasks k !! Task l = Some y /\ t_state y <> TASK_UNUSED.
Proof.
  revert i. induction n as [|n IH]; intros i H Hz; cbn [alloc_tid_loop] in H; [by injection H as <- _|].
  apply ST_bind_ok in H as (x & k1 & H1 & H). unfold task_at, getopt in H1. destruct (k_tasks k !! Task i) as [y|] eqn:Hy; [|done].
  injection H1 as -> <-. case_bool_decide as Hst.
  - injection H as <- _. exists i, x. split_and!; [done|lia|lia|done|done|lia].
  - destruct (IH (S i) H Hz) as (j & z & -> & Hj & Hz' & Hu & Hp). exists j, z. split_and!; [done|lia|lia|done|done|].
    intros l Hl. destruct (decide (l = i)) as [->|]; [eauto|]. apply Hp. lia.
Qed.

Lemma task_create_keeps name ip p k r k' :
  kinv k -> live_pager k (Some p) -> task_create ut kt name ip (Some p) k = Ok (r, k') ->
  kinv k' /\ k_current k' = k_current k.
Proof.
  intros Hk Hl H. pose proof H as H0. unfold task_create in H. apply ST_bind_ok in H as (tid & k1 & H1 & H).
  destruct (Z.eqb_spec tid 0) as [|Hz].
  { apply mem_only in H1 as [m ->]. injection H as _ <-. split; [by apply kinv_set_mem|done]. }
  destruct (alloc_tid_loop_inv _ _ _ _ _ H1 Hz) as (i & x & -> & Hi & Hx & Hu & Hprev).
  rewrite (alloc_tid_run i x k) in H1; [|lia|done|done|intros l Hj; apply Hprev; lia]. injection H1 as <-.
  replace (Z.to_nat (Z.of_nat i + 1 - 1)) with i in H by lia. apply ST_bind_ok in H as (err & k2 & H2 & H).
  destruct (Z.eqb_spec err OK) as [->|Hne]; [|injection H as _ <-; by eapply init_task_struct_fail]. clear H.
  destruct (init_task_struct_inv _ _ _ _ _ _ _ _ _ _ _ _ _ Hx H2 eq_refl) as (table & m1 & sp & sb & st & m2 & Hvm & Hti).
  destruct (task_create_run ut kt k i x name ip (Some p) table m1 sp sb st m2) as (k3 & E & Hk3 & _ & _ & _ & Ecur); try done; [lia|intros j Hj; apply Hprev; lia|].
  rewrite E in H0. injection H0 as _ <-. done.
Qed.
Lemma hinavm_create_keeps hv name insts p k r k' :
  kinv k -> live_pager k (Some p) -> hinavm_create ut kt hv name insts (Some p) k = Ok (r, k') ->
  kinv k' /\ k_current k' = k_current k.
Proof.
  intros Hk Hl H. unfold hinavm_create in H. apply ST_bind_ok in H as (tid & k1 & H1 & H).
  destruct (Z.eqb_spec tid 0) as [|Hz].
  { apply mem_only in H1 as [m ->]. injection H as _ <-. split; [by apply kinv_set_mem|done]. }
  destruct (alloc_tid_loop_inv _ _ _ _ _ H1 Hz) as (i & x & -> & Hi & Hx & Hu & Hprev).
  rewrite (alloc_tid_run i x k) in H1; [|lia|done|done|intros l Hj; apply Hprev; lia]. injection H1 as <-.
  replace (Z.to_nat (Z.of_nat i + 1 - 1)) with i in H by lia.
  apply ST_bind_ok in H as (pa & k2 & (m2 & _ & ->)%lift_mem_inv & H).
  destruct (pa =? 0); [injection H as _ <-; split; [by apply kinv_set_mem|done]|].
  apply ST_bind_ok in H as ([] & k3 & (m3 & _ & ->)%lift_mem_inv & H). apply ST_bind_ok in H as ([] & k4 & (m4 & _ & ->)%lift_mem_inv & H).
  set (kh := set_mem m4 _) in H. assert (Hkh : kinv kh) by (by do 3 apply kinv_set_mem).
  apply ST_bind_ok in H as (err & k5 & H5 & H). destruct (Z.eqb_spec err OK) as [->|Hne].
  - destruct (init_task_struct_inv ut kt (Task i) x _ _ _ _ _ _ kh _ _ Hx H5 eq_refl) as (table & m5 & sp & sb & st & m6 & Hvm & Hti).
    destruct (init_task_struct_run ut kt (Task i) x (Z.of_nat i + 1) name 0 (Some p) hv pa table m5 sp sb st m6 kh Hx)
      as (k6 & E & ET & Erq & Erd & Ecur & Eirq & Eact); try done.
    { intros [= ->]. destruct (Hl _ eq_refl) as (y & j & _ & Hy & Hn). congruence. }
    { intros q [= <-]. destruct (Hl _ eq_refl) as (y & j & _ & Hy & _). eauto. }
    rewrite E in H5. injection H5 as <-. cbn [negb Z.eqb OK] in H. apply ST_bind_ok in H as ([] & k7 & (m7 & _ & ->)%lift_mem_inv & H).
    destruct (start_task_run kh (set_mem m7 k6) i x name (Some p) table sp sb st (Z.of_nat i + 1)) as (k8 & E8 & Hk8 & _ & _ & _ & Ec); try done.
    rewrite E8 in H. injection H as _ <-. done.
  - apply ST_bind_ok in H as ([] & k6 & (m6 & _ & ->)%lift_mem_inv & H). injection H as _ <-.
    destruct (init_task_struct_fail i x _ _ _ p _ _ kh _ _ Hkh Hx Hu Hl H5 Hne) as [? ?]. split; [by apply kinv_set_mem|done].
Qed.
End Create.

(** ** Destruction *)
Definition unlink (t : tptr) (v : view) : view := v_set_senders (filter (fun x => x <> t) (v_senders v)) v.

(** A task that runs nowhere and to which no task sends leaves. *)
Lemma vinv_destroy V rq rd cur i v :
  vinv None V rq rd cur -> V !! Task i = Some v -> (forall c, cur !! c <> Some (Task i)) ->
  (forall s w, V !! s = Some w -> v_state w <> TASK_UNUSED -> sends_to (v_ctx w) <> Some (Task i)) ->
  vinv None (<[Task i := v_set_state TASK_UNUSED (unlink (Task i) v)]> (unlink (Task i) <$> V))
    (filter (fun x => x <> Task i) rq) (filter (fun x => x <> Task i) rd) cur.
Proof.
  intros I Hv Hcur Hsnd. set (rm := filter (fun x => x <> Task i)).
  assert (Hs : v_senders v = []).
  { destruct (v_senders v) as [|s q] eqn:E; [done|]. exfalso. destruct (vi_snd _ _ _ _ _ I (Task i) v s Hv) as (j & w & -> & Hw & Hb & Hd); [rewrite E; by left|].
    apply (Hsnd _ _ Hw); [congruence|done]. }
  assert (L1 : forall t w, V !! t = Some w -> t <> Task i -> <[Task i := v_set_state TASK_UNUSED (unlink (Task i) v)]> (unlink (Task i) <$> V) !! t = Some (unlink (Task i) w)).
  { intros t w Ht Hne. rewrite lookup_insert_ne by done. by rewrite lookup_fmap, Ht. }
  assert (L2 : forall t w', <[Task i := v_set_state TASK_UNUSED (unlink (Task i) v)]> (unlink (Task i) <$> V) !! t = Some w' ->
    t = Task i /\ w' = v_set_state TASK_UNUSED (unlink (Task i) v) \/ t <> Task i /\ exists w, V !! t = Some w /\ w' = unlink (Task i) w).
  { intros t w'. rewrite lookup_insert. case_decide as Hd; [intros [= <-]; by left|]. rewrite lookup_fmap. intros (w & Hw & ->)%fmap_Some. right. eauto. }
  destruct I as [Icur Iinj Iidle Iidx Idom Itid Irqn Irq Ilive Irdn Ird Isnn Isnd Ictx Iun Imu Ifl]. split; try done.
  - intros c t Hc. destruct (Icur _ _ Hc) as [?|(j & w & -> & Hw & [Hst|[? ?]])]; [by left| |done]. right.
    exists j, (unlink (Task i) w). split_and!; [done|apply L1; [done|intros [= ->]; by apply (Hcur c)]|by left].
  - intros c w' [[? _]|(_ & w & Hw & ->)]%L2; [done|]. destruct (Iidle _ _ Hw) as (? & E & ?). cbn. by rewrite E.
  - intros c Hc. destruct (Iidx c Hc) as [w Hw]. eexists. by apply L1.
  - intros j. rewrite <- Idom, lookup_insert. case_decide; [simplify_eq; split; eauto|]. rewrite lookup_fmap. by rewrite fmap_is_Some.
  - intros j w' [[[= ->] ->]|(_ & w & Hw & ->)]%L2; [done|]. exact (Itid _ _ Hw).
  - by apply NoDup_filter.
  - intros t [Hne Ht]%list_elem_of_filter. destruct (Irq _ Ht) as (j & w & -> & Hw & ? & ?). eexists j, _. split_and!; [done|by apply L1|done|done].
  - intros j w' [[[= ->] ->]|(Hne & w & Hw & ->)]%L2; [done|]. intros Hr. destruct (Ilive _ _ Hw Hr); [left; by apply list_elem_of_filter|by right].
  - by apply NoDup_filter.
  - intros t [Hne Ht]%list_elem_of_filter. destruct (Ird _ Ht) as (j & w & b & n & -> & Hw & ? & ?). eexists j, _, b, n. split_and!; [done|by apply L1|done|done].
  - intros d w' [[-> ->]|(_ & w & Hw & ->)]%L2; cbn; apply NoDup_filter; eauto.
  - intros d w' s [[-> ->]|(_ & w & Hw & ->)]%L2; cbn; intros [Hne Hin]%list_elem_of_filter; [rewrite Hs in Hin; by apply not_elem_of_nil in Hin|].
    destruct (Isnd _ _ _ Hw Hin) as (j & y & -> & Hy & ? & ?). eexists j, _. split_and!; [done|by apply L1|done|done].
  - intros j w' [[[= ->] ->]|(Hne & w & Hw & ->)]%L2; [done|]. intros Hu. cbn in Hu. specialize (Ictx _ _ Hw Hu). unfold ctx_ok in *. cbn.
    destruct (v_ctx w) as [|d ? ? ? ? ?| | |] eqn:Hc; try done.
    + destruct Ictx as (Hdn & w0 & Hw0 & Hq & Hr). split; [done|]. exists (unlink (Task i) w0). split; [apply L1; [done|]|].
      * intros ->. apply (Hsnd _ _ Hw Hu). by rewrite Hc.
      * split; [|done]. intros Hb. apply list_elem_of_filter. auto.
    + destruct Ictx as [? Hq]. split; [done|]. intros Hb. apply list_elem_of_filter. auto.
  - intros t w' [[-> ->]|(_ & w & Hw & ->)]%L2; cbn; [by rewrite Hs|]. intros Hu. by rewrite (Iun _ _ Hw Hu).
  - apply (mutual_shrink V); [done|]. intros t w' [[-> ->]|(_ & w & Hw & ->)]%L2; eexists; (split; [done|]); cbn; by intros s [_ ?]%list_elem_of_filter.
  - intros t w' [[-> ->]|(_ & w & Hw & ->)]%L2; cbn; [by apply (Ifl _ _ Hv)|by apply (Ifl _ _ Hw)].
Qed.

(** Nothing in the kernel refers to the task: no task is inside a send to it, and it is no
    slot's pager. *)
Definition unreferenced (t : tptr) (k : kernel) : Prop :=
  forall s x, k_tasks k !! s = Some x ->
    t_pager x <> Some t /\ (t_state x <> TASK_UNUSED -> sends_to (t_kctx x) <> Some t).

Lemma getopt_inv {S A} (f : S -> option A) s a s' : getopt f s = Ok (a, s') -> f s = Some a /\ s' = s.
Proof. unfold getopt. destruct (f s); [|done]. by intros [= -> ->]. Qed.

Lemma task_at_inv t k x k' : task_at t k = Ok (x, k') -> k_tasks k !! t = Some x /\ k' = k.
Proof. exact (getopt_inv (fun k => k_tasks k !! t) k x k'). Qed.
Lemma current_inv c k t k' : CURRENT_TASK c k = Ok (t, k') -> k_current k !! c = Some t /\ k' = k.
Proof. exact (getopt_inv (fun k => k_current k !! c) k t k'). Qed.

(** The task structures after a destruction. *)
Lemma destroyed_tasks (T : gmap tptr task) i x p f :
  T !! Task i = Some x -> (forall y, view_of (f y) = view_of y) ->
  let T' := alter f p (alter (with_state TASK_UNUSED) (Task i)
    ((fun y => with_senders (filter (fun z => z <> Task i) (t_senders y)) y) <$> T)) in
  view_of <$> T' = <[Task i := v_set_state TASK_UNUSED (unlink (Task i) (view_of x))]> (unlink (Task i) <$> (view_of <$> T))
  /\ t_pager <$> T' = t_pager <$> T.
Proof.
  intros Hx Hf T'. assert (Ha : forall (h : task -> view) (U : gmap tptr task), (forall y, h (f y) = h y) -> h <$> alter f p U = h <$> U).
  { intros h U Hh. apply map_eq. intros u. rewrite !lookup_fmap. destruct (decide (p = u)) as [<-|Hne].
    - rewrite lookup_alter_eq. destruct (U !! p); [|done]. cbn. by rewrite Hh.
    - by rewrite lookup_alter_ne. }
  assert (Hb : forall U : gmap tptr task, t_pager <$> U = v_pager <$> (view_of <$> U)) by (intros U; by rewrite <- map_fmap_compose).
  assert (HV : view_of <$> T' = <[Task i := v_set_state TASK_UNUSED (unlink (Task i) (view_of x))]> (unlink (Task i) <$> (view_of <$> T))).
  { unfold T'. rewrite (Ha view_of _ Hf). apply map_eq. intros u. rewrite lookup_fmap. destruct (decide (Task i = u)) as [<-|Hne].
    - by rewrite lookup_alter_eq, lookup_insert_eq, lookup_fmap, Hx.
    - rewrite lookup_alter_ne, lookup_insert_ne, !lookup_fmap by done. by destruct (T !! u). }
  split; [exact HV|]. rewrite !Hb, HV. apply map_eq. intros u. rewrite lookup_fmap. destruct (decide (Task i = u)) as [<-|Hne].
  - by rewrite lookup_insert_eq, !lookup_fmap, Hx.
  - rewrite lookup_insert_ne, !lookup_fmap by done. by destruct (T !! u).
Qed.

Lemma destroy_finish_keeps i k r k' :
  kinv k -> unreferenced (Task i) k -> (forall c, k_current k !! c <> Some (Task i)) -> destroy_finish (Task i) k = Ok (r, k') ->
  kinv k' /\ k_current k' = k_current k.
Proof.
  intros Hk Href Hcur H. pose proof Hk as [I [S1 S2 S3]]. unfold destroy_finish in H.
  apply ST_bind_ok in H as (x & k1 & [Hx ->]%task_at_inv & H).
  assert (Hsnd : forall s w, views k !! s = Some w -> v_state w <> TASK_UNUSED -> sends_to (v_ctx w) <> Some (Task i)).
  { intros s w (y & Hy & ->)%views_lookup Hn. exact (proj2 (Href s y Hy) Hn). }
  assert (Hs : t_senders x = []).
  { destruct (t_senders x) as [|s q] eqn:E; [done|]. exfalso.
    destruct (vi_snd _ _ _ _ _ I (Task i) (view_of x) s (views_task _ _ _ Hx)) as (j & w & -> & Hw & Hb & Hd); [simpl; rewrite E; by left|].
    apply (Hsnd _ _ Hw); [congruence|done]. }
  rewrite Hs in H. cbn [notify_all] in H. rewrite (ST_bind_run (mret tt) _ _ _ _ eq_refl) in H.
  rewrite (ST_bind_run (modify _) _ _ _ _ eq_refl), (ST_bind_run (wq_remove _) _ _ _ _ eq_refl) in H.
  do 3 (apply ST_bind_ok in H as ([] & ? & (? & _ & ->)%lift_mem_inv & H)).
  rewrite (ST_bind_run (upd _ _) _ _ _ _ eq_refl) in H. destruct (t_pager x) as [p|] eqn:Hp; [|done].
  rewrite (ST_bind_run (upd _ _) _ _ _ _ eq_refl) in H. injection H as _ <-. split; [|done].
  destruct (destroyed_tasks (k_tasks k) i x p (fun y => with_ref_count (s32 (t_ref_count y - 1)) y) Hx) as [EV EP]; [done|].
  assert (Hlive : forall t v, t <> Task i -> views k !! t = Some v -> v_state v <> TASK_UNUSED ->
    exists v', <[Task i := v_set_state TASK_UNUSED (unlink (Task i) (view_of x))]> (unlink (Task i) <$> views k) !! t = Some v' /\ v_state v' <> TASK_UNUSED).
  { intros t v Hne Hv Hn. exists (unlink (Task i) v). by rewrite lookup_insert_ne, lookup_fmap, Hv. }
  split; [|split].
  - unfold views. cbn [k_tasks set_tasks set_mem set_readers set_runqueue set_active]. rewrite EV. by apply vinv_destroy; [|apply views_task| |].
  - intros t q. unfold pagers, views. cbn [k_tasks set_tasks set_mem set_readers set_runqueue set_active]. rewrite EV, EP. intros Hq.
    destruct (S1 t q Hq) as (j & v & -> & Hv & Hn). apply lookup_fmap_Some in Hq as (y & Hy & Ht).
    destruct (Hlive (Task j) v) as (v' & ? & ?); [|done|done|eauto]. intros [= ->]. by apply (proj1 (Href t y Ht)).
  - intros n t. apply S2.
  - intros t [Hne Ht]%list_elem_of_filter. unfold views. cbn [k_tasks set_tasks set_mem set_readers set_runqueue set_active]. rewrite EV.
    destruct (S3 t Ht) as (j & v & -> & Hv & Hn). destruct (Hlive _ v Hne Hv Hn) as (v' & ? & ?). eauto.
Qed.

(** *** The wait for the other CPUs *)
Lemma still_running_inv t k b k' : still_running t k = Ok (b, k') ->
  k' = k /\ exists x, k_tasks k !! t = Some x /\ b = bool_decide (t_state x = TASK_RUNNABLE) && negb (bool_decide (t ∈ k_runqueue k)).
Proof. unfold still_running. intros (x & k1 & [Hx ->]%task_at_inv & [= <- <-])%ST_bind_ok. eauto. Qed.
Lemma not_running i k b : kinv k -> still_running (Task i) k = Ok (b, k) -> b = false -> forall c, k_current k !! c <> Some (Task i).
Proof.
  intros [I _] (_ & x & Hx & ->)%still_running_inv Hb c Hc.
  destruct (vi_cur _ _ _ _ _ I _ _ Hc) as [?|(j & w & [= <-] & (y & Hy & ->)%views_lookup & [Hst|[? ?]])]; [done| |done].
  assert (y = x) as -> by congruence. simpl in Hst. rewrite bool_decide_true in Hb by done. cbn in Hb.
  apply negb_false_iff, bool_decide_eq_true in Hb. destruct (vi_rq _ _ _ _ _ I _ Hb) as (? & ? & _ & _ & _ & Hn). by apply (Hn c).
Qed.
(** [P] holds before and after what the other CPUs do. *)
Lemma destroy_wait_inv (P : kernel -> Prop) ipis i k k' :
  (forall k, P k -> kinv k) -> (forall ipi k k', ipi ∈ ipis -> P k -> ipi k = Ok (tt, k') -> P k') ->
  P k -> destroy_wait ipis (Task i) k = Ok (tt, k') -> P k' /\ forall c, k_current k' !! c <> Some (Task i).
Proof.
  intros HP. revert k. induction ipis as [|ipi ipis IH]; intros k Hipi Hk H; cbn [destroy_wait] in H;
    apply ST_bind_ok in H as (b & k1 & H1 & H); pose proof H1 as (-> & _)%still_running_inv; destruct b; try done.
  - injection H as <-. split; [done|]. eapply not_running; [by apply HP|done|done].
  - apply ST_bind_ok in H as ([] & k2 & H2 & H). eapply (IH k2); [|eapply Hipi; [by left|done|done]|done].
    intros ipi' k3 k4 Hin. apply Hipi. by right.
  - injection H as <-. split; [done|]. eapply not_running; [by apply HP|done|done].
Qed.

Definition destroyable (i : nat) (k : kernel) : Prop := kinv k /\ unreferenced (Task i) k.
(** Whatever the other CPUs do in between, as long as it keeps the invariant and makes no
    new reference to the task. *)
Lemma task_destroy_with_keeps ipis c i k r k' :
  destroyable i k -> (forall ipi k k', ipi ∈ ipis -> destroyable i k -> ipi k = Ok (tt, k') -> destroyable i k') ->
  task_destroy_with ipis c (Task i) k = Ok (r, k') -> kinv k'.
Proof.
  intros [Hk Href] Hipi H. unfold task_destroy_with in H.
  apply ST_bind_ok in H as (cur & k1 & [_ ->]%current_inv & H). do 2 apply assert_bind_inv in H as [_ H].
  apply ST_bind_ok in H as (x & k1 & [Hx ->]%task_at_inv & H). do 2 apply assert_bind_inv in H as [_ H].
  destruct (t_tid x =? 1); [by injection H as _ <-|]. destruct (0 <? t_ref_count x); [by injection H as _ <-|].
  destruct (upd_inert_safe (Task i) (with_destroyed true) k x Hk Hx) as (u & k1 & E1 & Hk1 & _ & ET & _); [done|done|].
  rewrite (ST_bind_run _ _ _ _ _ E1) in H. apply ST_bind_ok in H as ([] & k2 & H2 & H).
  destruct (destroy_wait_inv (destroyable i) ipis i k1 k2) as [[Hk2 Hr2] Hc2]; [by intros ? [? _]|exact Hipi| |exact H2|by apply destroy_finish_keeps in H as [? _]].
  split; [done|]. intros s y. rewrite ET, lookup_insert. case_decide; [|apply Href]. intros [= <-]. simplify_eq. by apply (Href (Task i) x).
Qed.
(** What the CPU that runs the task does on the interrupt. *)
Definition reschedule (c : nat) : KST unit := _ ← task_switch c; mret tt.

(** [task_switch] leaves a task that is being destroyed, and queues it. *)
Lemma task_switch_leaves c i x k b k' :
  kinv k -> k_current k !! c = Some (Task i) -> k_tasks k !! Task i = Some x -> t_state x = TASK_RUNNABLE -> t_destroyed x = true ->
  task_switch c k = Ok (b, k') -> Task i ∈ k_runqueue k' /\ exists y, k_tasks k' !! Task i = Some y /\ t_state y = TASK_RUNNABLE.
Proof.
  intros [I _] Hc Hx Hst Hd H. unfold task_switch in H. rewrite (ST_bind_run _ _ _ _ _ (current_run _ _ _ Hc)) in H.
  apply ST_bind_ok in H as (next & k1 & H1 & H).
  assert (Hnext : next <> Task i /\ k_tasks k1 = k_tasks k).
  { unfold scheduler in H1. rewrite (ST_bind_run (gets _) _ _ _ _ eq_refl) in H1. destruct (k_runqueue k) as [|t rq] eqn:Hrq.
    - rewrite (ST_bind_run _ _ _ _ _ (current_run _ _ _ Hc)), (ST_bind_run _ _ _ _ _ (task_at_run _ _ _ Hx)) in H1.
      rewrite Hd, andb_false_r in H1. by injection H1 as <- <-.
    - injection H1 as -> <-. split; [|done]. intros ->. destruct (vi_rq _ _ _ _ _ I (Task i)) as (? & ? & _ & _ & _ & Hn); [by left|].
      by apply (Hn c). }
  destruct Hnext as [Hne ET]. apply ST_bind_ok in H as ([] & k2 & H2 & H).
  assert (Hx2 : k_tasks k2 !! Task i = Some x).
  { destruct (bool_decide (next <> Idle c)); unfold upd, modify in H2; injection H2 as <-; [|congruence]. cbn. rewrite lookup_alter_ne by done. congruence. }
  rewrite bool_decide_false in H by done. rewrite (ST_bind_run _ _ _ _ _ (task_at_run _ _ _ Hx2)), bool_decide_true in H by done.
  apply ST_bind_ok in H as ([] & k3 & H3 & H). rewrite (ST_bind_run (modify _) _ _ _ _ eq_refl) in H. injection H as _ <-. cbn.
  unfold push_runqueue in H3. apply ST_bind_ok in H3 as (l & k4 & H4 & H3). injection H4 as _ <-. apply assert_bind_inv in H3 as [_ H3].
  injection H3 as <-. cbn. split; [apply elem_of_app; right; by left|eauto].
Qed.

(** The wait for another CPU ends.  When the CPU that runs the task handles the interrupt,
    it leaves the task, even if no other task can run, since the task is marked as being
    destroyed; the task is then in the run queue and on no CPU, and the invariant holds. *)
Theorem destroy_wait_ends c i x k :
  kinv k -> k_current k !! c = Some (Task i) -> k_tasks k !! Task i = Some x -> t_state x = TASK_RUNNABLE -> t_destroyed x = true ->
  exists k', destroy_wait [reschedule c] (Task i) k = Ok (tt, k') /\ kinv k' /\ forall c', k_current k' !! c' <> Some (Task i).
Proof.
  intros Hk Hc Hx Hst Hd. pose proof Hk as [I _].
  assert (Hnq : Task i ∉ k_runqueue k).
  { intros Hin. destruct (vi_rq _ _ _ _ _ I _ Hin) as (? & ? & _ & _ & _ & Hn). by apply (Hn c). }
  destruct (task_switch_safe None k c (Task i) Hk (or_introl eq_refl) Hc) as (b & k' & E & Hk' & _).
  destruct (task_switch_leaves c i x k b k' Hk Hc Hx Hst Hd E) as [Hin (y & Hy & Hyst)].
  assert (Hrun : forall k0 z bb, k_tasks k0 !! Task i = Some z -> bb = bool_decide (t_state z = TASK_RUNNABLE) && negb (bool_decide (Task i ∈ k_runqueue k0)) ->
    still_running (Task i) k0 = Ok (bb, k0)).
  { intros k0 z bb Hz ->. unfold still_running. by rewrite (ST_bind_run _ _ _ _ _ (task_at_run _ _ _ Hz)). }
  assert (H1 : still_running (Task i) k = Ok (true, k)) by (apply (Hrun k x); [done|by rewrite bool_decide_true, bool_decide_false]).
  assert (H2 : still_running (Task i) k' = Ok (false, k')) by (apply (Hrun k' y); [done|by rewrite bool_decide_true, bool_decide_true]).
  exists k'. split_and!; [|done|by apply (not_running i k' false)].
  cbn [destroy_wait]. rewrite (ST_bind_run _ _ _ _ _ H1). cbv iota. rewrite (ST_bind_run (reschedule c) _ k tt k').
  - by rewrite (ST_bind_run _ _ _ _ _ H2).
  - unfold reschedule. by rewrite (ST_bind_run _ _ _ _ _ E).
Qed.

(** ** The calls *)
Lemma task_find_inv tid k t k' : task_find tid k = Ok (Some t, k') ->
  k' = k /\ t = Task (Z.to_nat (tid - 1)) /\ exists x, k_tasks k !! t = Some x /\ t_state x <> TASK_UNUSED.
Proof.
  unfold task_find. destruct ((tid <? 0) || _); [done|]. destruct (tid - 1 <? 0); [done|].
  intros (x & k1 & [Hx ->]%task_at_inv & H)%ST_bind_ok. case_bool_decide; [done|]. injection H as <- <-. eauto 6.
Qed.
Lemma mem_only_keeps {A} (f : KST A) `{!MemOnly f} k a k' : kinv k -> f k = Ok (a, k') -> kinv k' /\ k_current k' = k_current k.
Proof. intros Hk [m ->]%mem_only. split; [by apply kinv_set_mem|done]. Qed.

Section Calls.
Context (stack_garbage : message) (user_tramp kernel_tramp hinavm_run : Z).

Lemma sys_task_create_keeps c name ip pager k r k' :
  kinv k -> sys_task_create user_tramp kernel_tramp c name ip pager k = Ok (r, k') -> kinv k' /\ k_current k' = k_current k.
Proof.
  intros Hk H. unfold sys_task_create in H. apply ST_bind_ok in H as (cur & k1 & [_ ->]%current_inv & H).
  apply ST_bind_ok in H as (s & k1 & [m1 ->]%mem_only & H). apply (kinv_set_mem m1) in Hk. destruct (negb _); [by injection H as _ <-|].
  apply ST_bind_ok in H as ([p|] & k2 & H2 & H); [|apply (mem_only_keeps _ _ _ _ Hk) in H2 as [? ?]; by injection H as _ <-].
  apply task_find_inv in H2 as (-> & -> & x & Hx & Hu). eapply task_create_keeps in H as [? ?]; [done|done|]. intros q [= <-]. eauto.
Qed.
Lemma sys_hinavm_keeps c name insts num pager k r k' :
  kinv k -> sys_hinavm user_tramp kernel_tramp hinavm_run c name insts num pager k = Ok (r, k') -> kinv k' /\ k_current k' = k_current k.
Proof.
  intros Hk H. unfold sys_hinavm in H. apply ST_bind_ok in H as (cur & k1 & [_ ->]%current_inv & H).
  apply ST_bind_ok in H as (s & k1 & [m1 ->]%mem_only & H). apply (kinv_set_mem m1) in Hk. destruct (negb _); [by injection H as _ <-|].
  apply ST_bind_ok in H as ([p|] & k2 & H2 & H); [|apply (mem_only_keeps _ _ _ _ Hk) in H2 as [? ?]; by injection H as _ <-].
  apply task_find_inv in H2 as (-> & -> & x & Hx & Hu). destruct (HINAVM_INSTS_MAX <? num); [by injection H as _ <-|].
  apply ST_bind_ok in H as (b & k3 & [m3 ->]%mem_only & H). apply (kinv_set_mem m3) in Hk. destruct (negb _); [by injection H as _ <-|].
  eapply hinavm_create_keeps in H as [? ?]; [done|done|]. intros q [= <-]. eauto.
Qed.
Lemma sys_task_destroy_keeps c tid k r k' :
  kinv k -> unreferenced (Task (Z.to_nat (tid - 1))) k -> sys_task_destroy c tid k = Ok (r, k') -> kinv k'.
Proof.
  intros Hk Hr H. unfold sys_task_destroy in H. apply ST_bind_ok in H as ([t|] & k1 & H1 & H).
  - apply task_find_inv in H1 as (-> & -> & _). apply ST_bind_ok in H as (cur & k2 & [_ ->]%current_inv & H).
    case_bool_decide; [by injection H as _ <-|]. eapply task_destroy_with_keeps; [by split| |exact H]. by intros ? ? ? ?%not_elem_of_nil.
  - apply (mem_only_keeps _ _ _ _ Hk) in H1 as [? _]. apply ST_bind_ok in H as (cur & k2 & [_ ->]%current_inv & H). by injection H as _ <-.
Qed.

(** The calls [Safety] leaves out. *)
Lemma other_syscall_keeps c kbuf a0 a1 a2 a3 n k r k' :
  kinv k -> core_syscall n = false -> (n = SYS_TASK_DESTROY -> unreferenced (Task (Z.to_nat (s32 a0 - 1))) k) ->
  handle_syscall stack_garbage user_tramp kernel_tramp hinavm_run c kbuf a0 a1 a2 a3 n k = Ok (r, k') -> kinv k'.
Proof.
  intros Hk Hn Hd H. unfold core_syscall in Hn. apply negb_false_iff, existsb_exists in Hn as (m & Hm & ->%Z.eqb_eq).
  unfold handle_syscall in H. destruct Hm as [<-|[<-|[<-|[<-|[<-|[<-|[]]]]]]]; cbn -[sys_task_create sys_task_destroy sys_pm_alloc sys_vm_map sys_vm_unmap sys_hinavm fmap] in H;
    apply ST_fmap_ok in H as (v & H & _).
  - by apply sys_task_create_keeps in H as [? _].
  - apply sys_task_destroy_keeps in H; auto.
  - exact (proj1 (mem_only_keeps _ _ _ _ Hk H)).
  - exact (proj1 (mem_only_keeps _ _ _ _ Hk H)).
  - exact (proj1 (mem_only_keeps _ _ _ _ Hk H)).
  - by apply sys_hinavm_keeps in H as [? _].
Qed.
End Calls.

(** ** All system calls *)
Section System.
Context (stack_garbage : message) (user_tramp kernel_tramp hinavm_run : Z).
Local Notation exec := (exec stack_garbage user_tramp kernel_tramp hinavm_run).

(** The events of [Safety], and the remaining system calls; a task is destroyed when nothing
    refers to it. *)
Definition allowed (e : event) (k : kernel) : Prop :=
  enabled e k \/
  match e with
  | ESyscall c _ a0 _ _ _ n =>
      is_Some (k_current k !! c) /\ core_syscall n = false
      /\ (n = SYS_TASK_DESTROY -> unreferenced (Task (Z.to_nat (s32 a0 - 1))) k)
  | _ => False
  end.
Inductive sys_reachable (k0 : kernel) : kernel -> Prop :=
| sys_refl : sys_reachable k0 k0
| sys_step k e k' : sys_reachable k0 k -> allowed e k -> exec e k = Ok (tt, k') -> sys_reachable k0 k'.

Lemma allowed_kinv e k k' : kinv k -> allowed e k -> exec e k = Ok (tt, k') -> kinv k'.
Proof.
  intros Hk [He|He] H.
  - destruct (exec_safe stack_garbage user_tramp kernel_tramp hinavm_run e k Hk He) as (u & k1 & E & Hk1). rewrite H in E. by injection E as _ <-.
  - destruct e as [c kb a0 a1 a2 a3 n| | | | | |]; try done. destruct He as (_ & Hn & Hd). cbn [exec] in H. unfold syscall in H.
    apply ST_bind_ok in H as (r & k1 & H1 & H). pose proof (other_syscall_keeps _ _ _ _ _ _ _ _ _ _ _ _ _ _ Hk Hn Hd H1) as Hk1.
    destruct r as [v|]; [|by injection H as <-]. unfold sys_return in H. apply ST_bind_ok in H as (cur & k2 & [Hc ->]%current_inv & H).
    destruct (prev_exists _ _ _ _ Hk1 Hc) as (x & Hx). destruct (upd_inert_safe cur (with_ret v) k1 x Hk1 Hx) as (u & k2 & E & Hk2 & _); [done|done|].
    rewrite H in E. by injection E as _ <-.
Qed.
Lemma sys_reachable_kinv k0 k : kinv k0 -> sys_reachable k0 k -> kinv k.
Proof. intros H0. induction 1 as [|k e k' _ IH He Hx]; [done|]. by eapply allowed_kinv. Qed.

(** What the invariant says of a task. *)
Definition accounted (k : kernel) (i : nat) (x : task) : Prop :=
  NoDup (k_runqueue k) /\
  (forall c c', k_current k !! c = Some (Task i) -> k_current k !! c' = Some (Task i) -> c = c') /\
  match t_state x with
  | TASK_RUNNABLE =>
      (Task i ∈ k_runqueue k /\ forall c, k_current k !! c <> Some (Task i))
      \/ (Task i ∉ k_runqueue k /\ exists c, k_current k !! c = Some (Task i))
  | TASK_BLOCKED =>
      Task i ∉ k_runqueue k /\ (forall c, k_current k !! c <> Some (Task i)) /\
      match t_kctx x with
      | KSend d _ _ _ _ _ => exists y, k_tasks k !! d = Some y /\ Task i ∈ t_senders y
      | KRecv _ _ _ => t_wait_for x <> IPC_DENY
      | KSerial _ _ => Task i ∈ k_readers k
      | KDead => True
      | KRun => False
      end
  | TASK_UNUSED => True
  end.

Lemma kinv_accounted k i x : kinv k -> k_tasks k !! Task i = Some x -> accounted k i x.
Proof.
  intros [I _] Hx. unfold accounted.
  pose proof (views_task _ _ _ Hx) as Hv. split; [apply (vi_rq_nodup _ _ _ _ _ I)|].
  split; [intros c c'; apply (vi_inj _ _ _ _ _ I)|].
  destruct (t_state x) eqn:Hs; [done|..].
  - destruct (vi_live _ _ _ _ _ I _ _ Hv Hs) as [Hin|[c Hc]].
    + left. split; [done|]. by destruct (vi_rq _ _ _ _ _ I _ Hin) as (? & ? & _ & _ & _ & ?).
    + right. split; [|eauto]. intros Hin. destruct (vi_rq _ _ _ _ _ I _ Hin) as (? & ? & _ & _ & _ & Hn).
      by apply (Hn c).
  - pose proof (vi_ctx _ _ _ _ _ I _ _ Hv) as Hok. simpl in Hok. specialize (Hok ltac:(congruence)).
    unfold ctx_ok in Hok. simpl in Hok. split_and!.
    + intros (? & w & [= <-] & Hw & Hr & _)%(vi_rq _ _ _ _ _ I). simplify_eq. simpl in Hr. congruence.
    + intros c Hc. destruct (vi_cur _ _ _ _ _ I _ _ Hc) as [?|(? & w & [= <-] & Hw & [Hr|[? ?]])]; [done| |done].
      simplify_eq. simpl in Hr. congruence.
    + destruct (t_kctx x); try done.
      * destruct Hok. congruence.
      * destruct Hok as (_ & w & Hw & Hq & _). apply views_lookup in Hw as (y & Hy & ->). eauto.
      * destruct Hok. auto.
Qed.

(** C2: no task is lost or run twice.  In every state the system calls, interrupts and
    page faults reach, mapping of memory, creation of tasks and destruction
    of tasks nothing refers to included, a runnable task is
    either queued exactly once or running on exactly one CPU, never both; a blocked
    task is in one place only: queued at the receiver it sends to, waiting in a
    receive, queued at the serial port, or finished; and no two CPUs run the same
    task. *)
Theorem reachable_tasks_accounted k0 k i x :
  kinv k0 -> sys_reachable k0 k -> k_tasks k !! Task i = Some x -> accounted k i x.
Proof. intros Hk0 Hr. apply kinv_accounted. by eapply sys_reachable_kinv. Qed.

(** C3: the deadlock check works.  In no reachable state do two tasks wait in each
    other's sender queue. *)
Theorem reachable_no_mutual_send k0 k a b x y :
  kinv k0 -> sys_reachable k0 k -> k_tasks k !! a = Some x -> k_tasks k !! b = Some y ->
  b ∈ t_senders x -> a ∉ t_senders y.
Proof.
  intros Hk0 Hr Ha Hb. destruct (sys_reachable_kinv _ _ Hk0 Hr) as [I _].
  exact (vi_mutual _ _ _ _ _ I _ _ _ _ (views_task _ _ _ Ha) (views_task _ _ _ Hb)).
Qed.
End System.

(** The first task creates a task; then it receives. *)
Definition demo_create : event := ESyscall 0 [] 65536 4096 1 0 SYS_TASK_CREATE.
Definition demo_grown : kernel := after demo_create demo_machine.
Lemma demo_grown_reach : sys_reachable no_message 0 0 0 demo_machine demo_grown.
Proof.
  eapply (sys_step _ _ _ _ _ demo_machine demo_create); [apply sys_refl| |vm_compute; reflexivity].
  right. split; [by eexists|]. by split; [vm_compute|].
Qed.
Definition demo_child : task := default (demo_slot 2) (k_tasks demo_grown !! Task 2).
Lemma reachable_tasks_accounted_witness :
  t_state demo_child = TASK_RUNNABLE /\ t_pager demo_child = Some (Task 0) /\ accounted demo_grown 2 demo_child.
Proof.
  split; [vm_compute; reflexivity|]. split; [vm_compute; reflexivity|].
  apply (reachable_tasks_accounted no_message 0 0 0 demo_machine demo_grown 2 demo_child demo_machine_kinv demo_grown_reach).
  vm_compute. reflexivity.
Defined.

(** The first task sends to the second, which is not receiving. *)
Lemma demo_send_sys : sys_reachable no_message 0 0 0 demo_kernel (after demo_send demo_kernel).
Proof.
  eapply (sys_step _ _ _ _ _ demo_kernel demo_send); [apply sys_refl|left; apply demo_send_enabled|vm_compute; reflexivity].
Qed.
Lemma reachable_no_mutual_send_witness :
  Task 0 ∈ t_senders demo_queued /\ Task 1 ∉ t_senders demo_sender.
Proof.
  assert (Hin : Task 0 ∈ t_senders demo_queued) by (vm_compute; left).
  split; [exact Hin|].
  apply (reachable_no_mutual_send no_message 0 0 0 demo_kernel (after demo_send demo_kernel)
           (Task 1) (Task 0) demo_queued demo_sender demo_kinv demo_send_sys);
    [vm_compute; reflexivity|vm_compute; reflexivity|exact Hin].
Defined.
