(* ===== verification/HinaVM.v ===== *)
(** The HinaVM bytecode interpreter (kernel/hinavm.c) and its instruction set
    (libs/common/hinavm_types.h).

    A HinaVM task runs [hinavm_run] in the kernel instead of entering user mode.  The
    interpreter's locals (program counter, registers, label table) are an [hvm]; the
    instructions are read from the page [hinavm_create] filled.  An instruction that
    calls [ipc] can block: the step then ends in [HBlocked], the kernel context of the
    task is the one [ipc] saved, and after [resume] the result waits in [t_ret], from
    where [hinavm_wake] takes it. *)

From S2P Require Import Prelude Types KData Memory Vm Kernel Task Ipc Syscall KInv Sched Safety.

(** ** Instruction words *)

Inductive hinavm_opcode :=
| HINAVM_ILLEGAL | HINAVM_NOP | HINAVM_MOVI | HINAVM_MOV
| HINAVM_ADD | HINAVM_SUB | HINAVM_MUL | HINAVM_DIV | HINAVM_MOD
| HINAVM_SHL | HINAVM_SHR | HINAVM_AND | HINAVM_OR | HINAVM_XOR
| HINAVM_EQ | HINAVM_NE | HINAVM_LT | HINAVM_LE
| HINAVM_LABEL | HINAVM_JMP | HINAVM_JMP_IF
| HINAVM_LDM8 | HINAVM_LDM16 | HINAVM_LDM32 | HINAVM_STM8 | HINAVM_STM16 | HINAVM_STM32
| HINAVM_SEND | HINAVM_REPLY | HINAVM_RECV | HINAVM_PRINT | HINAVM_PRINT_HEX | HINAVM_EXIT.

#[export] Instance hinavm_opcode_eq_dec : EqDecision hinavm_opcode.
Proof. solve_decision. Defined.

(** The enumeration in order: the numbers of the opcodes. *)
Definition opcodes : list hinavm_opcode :=
  [HINAVM_ILLEGAL; HINAVM_NOP; HINAVM_MOVI; HINAVM_MOV;
   HINAVM_ADD; HINAVM_SUB; HINAVM_MUL; HINAVM_DIV; HINAVM_MOD;
   HINAVM_SHL; HINAVM_SHR; HINAVM_AND; HINAVM_OR; HINAVM_XOR;
   HINAVM_EQ; HINAVM_NE; HINAVM_LT; HINAVM_LE;
   HINAVM_LABEL; HINAVM_JMP; HINAVM_JMP_IF;
   HINAVM_LDM8; HINAVM_LDM16; HINAVM_LDM32; HINAVM_STM8; HINAVM_STM16; HINAVM_STM32;
   HINAVM_SEND; HINAVM_REPLY; HINAVM_RECV; HINAVM_PRINT; HINAVM_PRINT_HEX; HINAVM_EXIT].

Definition opcode_num (o : hinavm_opcode) : Z :=
  match list_find (eq o) opcodes with Some (i, _) => Z.of_nat i | None => 255 end.
Definition opcode_of (n : Z) : option hinavm_opcode := opcodes !! Z.to_nat n.

(** A bit-field structure: fields of the given widths from the low bits up. *)
Fixpoint pack (fs : list (Z * Z)) : Z :=
  match fs with
  | [] => 0
  | (w, v) :: fs' => v `mod` 2 ^ w + 2 ^ w * pack fs'
  end.
Definition field (off w x : Z) : Z := (x / 2 ^ off) `mod` 2 ^ w.

(** [union hinavm_inst]: [opcode : 8] first in every view, then [a : 4, imm : 20] (movi,
    msg), [a : 4, b : 4, c : 4] (mov, binop, ipc, print) or [l : 4, a : 4] (labeldef,
    jmp).  The second 4-bit field is [a] of a jump and [b] of the others. *)
Definition i_opcode (w : Z) : Z := field 0 8 w.
Definition i_a (w : Z) : Z := field 8 4 w.
Definition i_b (w : Z) : Z := field 12 4 w.
Definition i_c (w : Z) : Z := field 16 4 w.
Definition i_imm (w : Z) : Z := field 12 20 w.
Definition i_l (w : Z) : Z := field 8 4 w.
Definition i_jmp_a (w : Z) : Z := field 12 4 w.

(** The hand-assembly macros. *)
Definition op_field (o : hinavm_opcode) : Z * Z := (8, opcode_num o).
Definition i_movi o a imm := pack [op_field o; (4, a); (20, imm)].
Definition i_binop o a b c := pack [op_field o; (4, a); (4, b); (4, c)].
Definition I_MOVI := i_movi HINAVM_MOVI.
Definition I_MOV a b := pack [op_field HINAVM_MOV; (4, a); (4, b)].
Definition I_ADD := i_binop HINAVM_ADD.
Definition I_SUB := i_binop HINAVM_SUB.
Definition I_MUL := i_binop HINAVM_MUL.
Definition I_DIV := i_binop HINAVM_DIV.
Definition I_MOD := i_binop HINAVM_MOD.
Definition I_SHR := i_binop HINAVM_SHR.
Definition I_SHL := i_binop HINAVM_SHL.
Definition I_AND := i_binop HINAVM_AND.
Definition I_OR := i_binop HINAVM_OR.
Definition I_XOR := i_binop HINAVM_XOR.
Definition I_EQ := i_binop HINAVM_EQ.
Definition I_NE := i_binop HINAVM_NE.
Definition I_LT := i_binop HINAVM_LT.
Definition I_LE := i_binop HINAVM_LE.
Definition I_LABEL l := pack [op_field HINAVM_LABEL; (4, l)].
Definition I_JMP l := pack [op_field HINAVM_JMP; (4, l)].
Definition I_JMP_IF l a := pack [op_field HINAVM_JMP_IF; (4, l); (4, a)].
Definition I_LDM8 := i_movi HINAVM_LDM8.
Definition I_LDM16 := i_movi HINAVM_LDM16.
Definition I_LDM32 := i_movi HINAVM_LDM32.
Definition I_STM8 := i_movi HINAVM_STM8.
Definition I_STM16 := i_movi HINAVM_STM16.
Definition I_STM32 := i_movi HINAVM_STM32.
Definition I_PRINT a := pack [op_field HINAVM_PRINT; (4, a)].
Definition I_PRINT_HEX a := pack [op_field HINAVM_PRINT_HEX; (4, a)].
Definition I_SEND ret dst := pack [op_field HINAVM_SEND; (4, ret); (4, dst)].
Definition I_REPLY ret dst := pack [op_field HINAVM_REPLY; (4, ret); (4, dst)].
Definition I_RECV ret src := pack [op_field HINAVM_RECV; (4, ret); (4, src)].
Definition I_EXIT := pack [op_field HINAVM_EXIT].
Definition I_NOP := pack [op_field HINAVM_NOP].

(** [SIGN_EXTEND20] *)
Definition SIGN_EXTEND20 (x : Z) : Z :=
  s32 (if has x (Z.shiftl 1 19) then Z.lor x 4293918720 (* 0xfff00000 *) else x).

(** ** Operations on 32-bit values *)

(** An [int32_t] result: the operation is undefined when it overflows. *)
Definition int_result (x : Z) : outcome Z :=
  if (- 2 ^ 31 <=? x) && (x <? 2 ^ 31) then Ok (u32 x) else Undef.

(** The binary operations, on the register contents. *)
Definition alu (o : hinavm_opcode) (lhs rhs : Z) : outcome Z :=
  match o with
  | HINAVM_ADD => int_result (s32 lhs + s32 rhs)
  | HINAVM_SUB => int_result (s32 lhs - s32 rhs)
  | HINAVM_MUL => int_result (s32 lhs * s32 rhs)
  | HINAVM_DIV => if s32 rhs =? 0 then Undef else int_result (Z.quot (s32 lhs) (s32 rhs))
  | HINAVM_MOD =>
      if s32 rhs =? 0 then Undef
      else _ ← int_result (Z.quot (s32 lhs) (s32 rhs)); Ok (u32 (Z.rem (s32 lhs) (s32 rhs)))
  | HINAVM_SHR => if 32 <=? rhs then Undef else Ok (Z.shiftr lhs rhs)
  | HINAVM_SHL => if 32 <=? rhs then Undef else Ok (u32 (Z.shiftl lhs rhs))
  | HINAVM_AND => Ok (Z.land lhs rhs)
  | HINAVM_OR => Ok (Z.lor lhs rhs)
  | HINAVM_XOR => Ok (Z.lxor lhs rhs)
  | HINAVM_EQ => Ok (Z.b2z (s32 lhs =? s32 rhs))
  | HINAVM_NE => Ok (Z.b2z (negb (s32 lhs =? s32 rhs)))
  | HINAVM_LT => Ok (Z.b2z (s32 lhs <? s32 rhs))
  | HINAVM_LE => Ok (Z.b2z (s32 lhs <=? s32 rhs))
  | _ => Undef
  end.

(** Accesses of [n] bytes to the message buffer: the interpreter does not check the
    offset, so an access outside of [struct message] (or a misaligned one) is undefined. *)
Definition msg_access_ok (n off : Z) : bool :=
  (0 <=? off) && (off + n <=? sizeof_message) && (off `mod` n =? 0).
Definition msg_load (n off : Z) (m : message) : outcome Z :=
  if msg_access_ok n off
  then Ok (le_combine (take (Z.to_nat n) (drop (Z.to_nat off) (encode_message m))))
  else Undef.
Definition msg_store (n off v : Z) (m : message) : outcome message :=
  if msg_access_ok n off
  then Ok (decode_message (splice (Z.to_nat off) (le_split (Z.to_nat n) v) (encode_message m)))
  else Undef.

Definition lift_out {S A} (o : outcome A) : ST S A :=
  match o with Ok a => mret a | Panic => panic | Undef => undef end.

(** ** The interpreter's state *)

(** A line of PRINT (in decimal) or PRINT_HEX. *)
Inductive print_line := PrintDec (pc val : Z) | PrintHex (pc val : Z).

Record hvm := Hvm {
  h_pc : Z;
  h_regs : list Z;       (* uint32_t regs[16] *)
  h_labels : list Z;     (* uint32_t labels[16] *)
  h_log : list print_line;
}.

Definition set_pc pc h := Hvm pc (h_regs h) (h_labels h) (h_log h).
Definition hreg (h : hvm) (r : Z) : Z := default 0 (h_regs h !! Z.to_nat r).
Definition set_reg (r v : Z) (h : hvm) : hvm :=
  Hvm (h_pc h) (<[Z.to_nat r := v]> (h_regs h)) (h_labels h) (h_log h).
Definition hlabel (h : hvm) (l : Z) : Z := default 0 (h_labels h !! Z.to_nat l).
Definition log_line (p : print_line) (h : hvm) : hvm :=
  Hvm (h_pc h) (h_regs h) (h_labels h) (h_log h ++ [p]).

(** The first pass: [labels[l] = i + 1]. *)
Fixpoint resolve_labels (i : Z) (insts labels : list Z) : list Z :=
  match insts with
  | [] => labels
  | w :: insts' =>
      resolve_labels (i + 1) insts'
        (if bool_decide (opcode_of (i_opcode w) = Some HINAVM_LABEL)
         then <[Z.to_nat (i_l w) := i + 1]> labels else labels)
  end.

(** [memset(labels, 0xff)] *)
Definition NO_LABEL : Z := 2 ^ 32 - 1.
Definition hinavm_init (insts : list Z) : hvm :=
  Hvm 0 (replicate 16 0) (resolve_labels 0 insts (replicate 16 NO_LABEL)) [].

(** ** One round of the main loop *)
Inductive hresult :=
| HNext (h : hvm)               (* the next round *)
| HBlocked (h : hvm) (a : Z)    (* inside [ipc], whose result goes to register [a] *)
| HExit.                        (* [task_exit] was called *)

Section Interp.
Context (stack_garbage : message).

(** The current task's message buffer. *)
Definition msg_get (c : nat) : KST message :=
  cur ← CURRENT_TASK c; x ← task_at cur; mret (t_m x).
Definition msg_put (c : nat) (m : message) : KST unit :=
  cur ← CURRENT_TASK c; upd cur (with_m m).

Definition h_load (c : nat) (n w : Z) (h : hvm) : KST hvm :=
  m ← msg_get c;
  v ← lift_out (msg_load n (SIGN_EXTEND20 (i_imm w)) m);
  mret (set_reg (i_a w) v h).

Definition h_store (c : nat) (n w : Z) (h : hvm) : KST hvm :=
  m ← msg_get c;
  m' ← lift_out (msg_store n (SIGN_EXTEND20 (i_imm w)) (hreg h (i_a w) `mod` 2 ^ (8 * n)) m);
  msg_put c m' ;;
  mret h.

Definition h_exit (c : nat) (exception : Z) : KST hresult :=
  task_exit stack_garbage c exception ;; mret HExit.

(** [err = ipc(dst, src, &current->m, flags); regs[a] = err;] *)
Definition h_ipc (c : nat) (dst : option tptr) (src flags a : Z) (h : hvm) : KST hresult :=
  m ← msg_get c;
  r ← ipc stack_garbage c dst src (MKernel m) flags CHinavm;
  match r with
  | None => mret (HBlocked h a)
  | Some r => finish stack_garbage c CHinavm r ;; mret (HNext (set_reg a (u32 r.1) h))
  end.

(** SEND and REPLY. *)
Definition h_send (c : nat) (w flags : Z) (h : hvm) : KST hresult :=
  dst ← task_find (s32 (hreg h (i_b w)));
  match dst with
  | None => h_exit c EXP_ILLEGAL_EXCEPTION
  | Some d => h_ipc c (Some d) 0 flags (i_a w) h
  end.

(** The instruction [w] of the program counter [pc]; [h] has the next program counter. *)
Definition hinavm_exec (c : nat) (pc w : Z) (h : hvm) : KST hresult :=
  match opcode_of (i_opcode w) with
  | Some HINAVM_MOVI => mret (HNext (set_reg (i_a w) (u32 (SIGN_EXTEND20 (i_imm w))) h))
  | Some HINAVM_MOV => mret (HNext (set_reg (i_a w) (hreg h (i_b w)) h))
  | Some HINAVM_LABEL => mret (HNext h)
  | Some HINAVM_JMP => mret (HNext (set_pc (hlabel h (i_l w)) h))
  | Some HINAVM_JMP_IF =>
      mret (HNext (if truthy (hreg h (i_jmp_a w)) then set_pc (hlabel h (i_l w)) h else h))
  | Some HINAVM_LDM8 => HNext <$> h_load c 1 w h
  | Some HINAVM_LDM16 => HNext <$> h_load c 2 w h
  | Some HINAVM_LDM32 => HNext <$> h_load c 4 w h
  | Some HINAVM_STM8 => HNext <$> h_store c 1 w h
  | Some HINAVM_STM16 => HNext <$> h_store c 2 w h
  | Some HINAVM_STM32 => HNext <$> h_store c 4 w h
  | Some HINAVM_PRINT => mret (HNext (log_line (PrintDec pc (s32 (hreg h (i_a w)))) h))
  | Some HINAVM_PRINT_HEX => mret (HNext (log_line (PrintHex pc (hreg h (i_a w))) h))
  | Some HINAVM_SEND => h_send c w (Z.lor IPC_SEND IPC_KERNEL) h
  | Some HINAVM_REPLY => h_send c w (Z.lor (Z.lor IPC_SEND IPC_NOBLOCK) IPC_KERNEL) h
  | Some HINAVM_RECV => h_ipc c None (s32 (hreg h (i_b w))) (Z.lor IPC_RECV IPC_KERNEL) (i_a w) h
  | Some HINAVM_EXIT => h_exit c EXP_GRACE_EXIT
  | Some HINAVM_NOP => mret (HNext h)
  | Some HINAVM_ILLEGAL | None => h_exit c EXP_ILLEGAL_EXCEPTION
  | Some o =>
      v ← lift_out (alu o (hreg h (i_b w)) (hreg h (i_c w)));
      mret (HNext (set_reg (i_a w) v h))
  end.

(** Fetch the instruction from [struct hinavm] at [hinavm] and execute it. *)
Definition hinavm_step (c : nat) (hinavm num_insts : Z) (h : hvm) : KST hresult :=
  let pc := h_pc h in
  if num_insts <=? pc then h_exit c EXP_ILLEGAL_EXCEPTION
  else
    w ← gets (fun k => pm_load (hinavm + 4 * pc) (k_mem k));
    hinavm_exec c pc w (set_pc (u32 (pc + 1)) h).

(** Back from a blocked [ipc]. *)
Definition hinavm_wake (c : nat) (a : Z) (h : hvm) : KST hvm :=
  cur ← CURRENT_TASK c; x ← task_at cur; mret (set_reg a (u32 (t_ret x)) h).

(** Up to [fuel] rounds, until the task blocks or exits. *)
Fixpoint hinavm_loop (fuel : nat) (c : nat) (hinavm num_insts : Z) (h : hvm) : KST hresult :=
  match fuel with
  | O => mret (HNext h)
  | S fuel' =>
      r ← hinavm_step c hinavm num_insts h;
      match r with
      | HNext h' => hinavm_loop fuel' c hinavm num_insts h'
      | _ => mret r
      end
  end.

(** The words of [struct hinavm]. *)
Definition hinavm_insts (hinavm : Z) (n : nat) (m : memory) : list Z :=
  (fun i => pm_load (hinavm + 4 * Z.of_nat i) m) <$> seq 0 n.

(** The entry of the interpreter, up to its main loop: the locals. *)
Definition hinavm_run (hinavm : Z) : KST (Z * hvm) :=
  num_insts ← gets (fun k => pm_load (hinavm + 4 * HINAVM_INSTS_MAX) (k_mem k));
  insts ← gets (fun k => hinavm_insts hinavm (Z.to_nat num_insts) (k_mem k));
  mret (num_insts, hinavm_init insts).
End Interp.

(** ** The instruction set as documented *)

(** The instructions with their operands; [Bin] is for the binary operations and the
    message accesses are of 1, 2 or 4 bytes. *)
Inductive inst :=
| Nop | Exit
| Movi (a imm : Z) | Mov (a b : Z) | Bin (o : hinavm_opcode) (a b c : Z)
| Label (l : Z) | Jmp (l : Z) | JmpIf (l a : Z)
| Ldm (n a imm : Z) | Stm (n a imm : Z)
| Send (a b : Z) | Reply (a b : Z) | Recv (a b : Z)
| Print (a : Z) | PrintH (a : Z).

Definition is_binop (o : hinavm_opcode) : bool :=
  (4 <=? opcode_num o) && (opcode_num o <=? 17).
Definition is_width (n : Z) : bool := (n =? 1) || (n =? 2) || (n =? 4).
Definition is_reg (r : Z) : bool := (0 <=? r) && (r <? 16).
Definition is_imm (x : Z) : bool := (0 <=? x) && (x <? 2 ^ 20).

(** Operands that fit their fields. *)
Definition inst_ok (i : inst) : bool :=
  match i with
  | Nop | Exit => true
  | Movi a imm => is_reg a && is_imm imm
  | Bin o a b c => is_binop o && is_reg a && is_reg b && is_reg c
  | Label l | Jmp l | Print l | PrintH l => is_reg l
  | Mov a b | JmpIf a b | Send a b | Reply a b | Recv a b => is_reg a && is_reg b
  | Ldm n a imm | Stm n a imm => is_width n && is_reg a && is_imm imm
  end.

(** The word of an instruction, by the hand-assembly macros. *)
Definition assemble (i : inst) : Z :=
  match i with
  | Nop => I_NOP
  | Exit => I_EXIT
  | Movi a imm => I_MOVI a imm
  | Mov a b => I_MOV a b
  | Bin o a b c => i_binop o a b c
  | Label l => I_LABEL l
  | Jmp l => I_JMP l
  | JmpIf l a => I_JMP_IF l a
  | Ldm n a imm => if n =? 1 then I_LDM8 a imm else if n =? 2 then I_LDM16 a imm else I_LDM32 a imm
  | Stm n a imm => if n =? 1 then I_STM8 a imm else if n =? 2 then I_STM16 a imm else I_STM32 a imm
  | Send a b => I_SEND a b
  | Reply a b => I_REPLY a b
  | Recv a b => I_RECV a b
  | Print a => I_PRINT a
  | PrintH a => I_PRINT_HEX a
  end.

(** What the interpreter reads out of a word: the opcode and the fields its view has
    ([l] is the field at the place of [a], the [a] of a jump at the place of [b]). *)
Definition view_inst (o : option hinavm_opcode) (a b c imm : Z) : option inst :=
  match o with
  | Some HINAVM_NOP => Some Nop
  | Some HINAVM_EXIT => Some Exit
  | Some HINAVM_MOVI => Some (Movi a imm)
  | Some HINAVM_MOV => Some (Mov a b)
  | Some HINAVM_LABEL => Some (Label a)
  | Some HINAVM_JMP => Some (Jmp a)
  | Some HINAVM_JMP_IF => Some (JmpIf a b)
  | Some HINAVM_LDM8 => Some (Ldm 1 a imm)
  | Some HINAVM_LDM16 => Some (Ldm 2 a imm)
  | Some HINAVM_LDM32 => Some (Ldm 4 a imm)
  | Some HINAVM_STM8 => Some (Stm 1 a imm)
  | Some HINAVM_STM16 => Some (Stm 2 a imm)
  | Some HINAVM_STM32 => Some (Stm 4 a imm)
  | Some HINAVM_SEND => Some (Send a b)
  | Some HINAVM_REPLY => Some (Reply a b)
  | Some HINAVM_RECV => Some (Recv a b)
  | Some HINAVM_PRINT => Some (Print a)
  | Some HINAVM_PRINT_HEX => Some (PrintH a)
  | Some HINAVM_ILLEGAL | None => None
  | Some o => Some (Bin o a b c)
  end.
Definition disassemble (w : Z) : option inst :=
  view_inst (opcode_of (i_opcode w)) (i_a w) (i_b w) (i_c w) (i_imm w).

(** *** Fields of packed words *)
Lemma field_spec off w x v r :
  0 <= off -> 0 <= w -> 0 <= v < 2 ^ w -> x / 2 ^ off = v + 2 ^ w * r -> field off w x = v.
Proof.
  intros ? ? Hv E. unfold field. rewrite E, Z.mul_comm, Z.mod_add by lia. by apply Z.mod_small.
Qed.

Lemma opcode_num_of o : opcode_of (opcode_num o) = Some o.
Proof. by destruct o. Qed.
Lemma opcode_num_range o : 0 <= opcode_num o < 33.
Proof. by destruct o. Qed.

(** The fields of a word with the opcode [o] and up to 24 bits of operands. *)
Lemma word_opcode o x :
  i_opcode (opcode_num o + 2 ^ 8 * x) = opcode_num o.
Proof.
  pose proof (opcode_num_range o). apply (field_spec _ _ _ _ x); [lia..|]. by rewrite Z.div_1_r.
Qed.
Lemma word_fields o a b c x :
  0 <= a < 16 -> 0 <= b < 16 -> 0 <= c < 16 ->
  let w := opcode_num o + 2 ^ 8 * (a + 2 ^ 4 * (b + 2 ^ 4 * (c + 2 ^ 4 * x))) in
  i_a w = a /\ i_b w = b /\ i_c w = c.
Proof.
  intros Ha Hb Hc w. pose proof (opcode_num_range o). unfold i_a, i_b, i_c, field, w.
  change (2 ^ 8) with 256. change (2 ^ 12) with 4096. change (2 ^ 16) with 65536. change (2 ^ 4) with 16. lia.
Qed.
Lemma word_imm o a imm :
  0 <= a < 16 -> 0 <= imm < 2 ^ 20 ->
  let w := opcode_num o + 2 ^ 8 * (a + 2 ^ 4 * imm) in i_a w = a /\ i_imm w = imm.
Proof.
  intros Ha Hb w. pose proof (opcode_num_range o). unfold i_a, i_imm, field, w.
  change (2 ^ 8) with 256. change (2 ^ 12) with 4096. change (2 ^ 4) with 16.
  change (2 ^ 20) with 1048576 in *. lia.
Qed.

Lemma is_reg_spec r : is_reg r = true <-> 0 <= r < 16.
Proof. unfold is_reg. lia. Qed.
Lemma is_imm_spec r : is_imm r = true <-> 0 <= r < 2 ^ 20.
Proof. unfold is_imm. lia. Qed.

(** *** The words the macros build *)
Lemma pack_op o fs : pack (op_field o :: fs) = opcode_num o + 2 ^ 8 * pack fs.
Proof. simpl. pose proof (opcode_num_range o). rewrite (Z.mod_small (opcode_num o)); [done|]. change (2^8) with 256. lia. Qed.
Lemma pack_reg r fs : 0 <= r < 16 -> pack ((4, r) :: fs) = r + 2 ^ 4 * pack fs.
Proof. intros. cbn [pack]. by rewrite Z.mod_small. Qed.
Lemma pack_imm x : 0 <= x < 2 ^ 20 -> pack [(20, x)] = x.
Proof. intros. cbn [pack]. rewrite Z.mod_small by done. lia. Qed.

Ltac inst_ok_inv H :=
  unfold inst_ok in H;
  repeat match goal with
  | H : (_ && _)%bool = true |- _ => apply andb_prop in H as [H ?]
  | H : is_reg _ = true |- _ => apply is_reg_spec in H
  | H : is_imm _ = true |- _ => apply is_imm_spec in H
  end.

(** A word of up to three registers, missing registers being zero. *)
Lemma regs_word o fs a b c :
  0 <= a < 16 -> 0 <= b < 16 -> 0 <= c < 16 -> pack fs = a + 2 ^ 4 * (b + 2 ^ 4 * c) ->
  exists imm, disassemble (pack (op_field o :: fs)) = view_inst (Some o) a b c imm.
Proof.
  intros Ha Hb Hc E. unfold disassemble. rewrite pack_op, word_opcode, E, opcode_num_of.
  destruct (word_fields o a b c 0 Ha Hb Hc) as (Ea & Eb & Ec). rewrite Z.mul_0_r, Z.add_0_r in Ea, Eb, Ec.
  rewrite Ea, Eb, Ec. by eexists.
Qed.
Lemma imm_word o a imm :
  0 <= a < 16 -> 0 <= imm < 2 ^ 20 ->
  exists b c, disassemble (i_movi o a imm) = view_inst (Some o) a b c imm.
Proof.
  intros Ha Hi. unfold disassemble, i_movi. rewrite pack_op, pack_reg, pack_imm by done.
  rewrite word_opcode, opcode_num_of. destruct (word_imm o a imm Ha Hi) as [-> ->]. by eexists _, _.
Qed.
Lemma regs_pack3 a b c : 0 <= a < 16 -> 0 <= b < 16 -> 0 <= c < 16 ->
  pack [(4, a); (4, b); (4, c)] = a + 2 ^ 4 * (b + 2 ^ 4 * c).
Proof. intros. rewrite !pack_reg by done. cbn [pack]. lia. Qed.
Lemma regs_pack2 a b : 0 <= a < 16 -> 0 <= b < 16 -> pack [(4, a); (4, b)] = a + 2 ^ 4 * (b + 2 ^ 4 * 0).
Proof. intros. rewrite !pack_reg by done. cbn [pack]. lia. Qed.
Lemma regs_pack1 a : 0 <= a < 16 -> pack [(4, a)] = a + 2 ^ 4 * (0 + 2 ^ 4 * 0).
Proof. intros. rewrite !pack_reg by done. cbn [pack]. lia. Qed.

Lemma reg_word2 o a b : 0 <= a < 16 -> 0 <= b < 16 ->
  exists imm, disassemble (pack [op_field o; (4, a); (4, b)]) = view_inst (Some o) a b 0 imm.
Proof. intros. apply regs_word; [done..|]. by apply regs_pack2. Qed.
Lemma reg_word1 o a : 0 <= a < 16 ->
  exists imm, disassemble (pack [op_field o; (4, a)]) = view_inst (Some o) a 0 0 imm.
Proof. intros. apply regs_word; [done..|]. by apply regs_pack1. Qed.

(** Disassembly inverts the hand assembly. *)
Lemma disassemble_assemble i : inst_ok i = true -> disassemble (assemble i) = Some i.
Proof.
  intros H. destruct i as [| |a imm|a b|o a b c|l|l|l a|n a imm|n a imm|a b|a b|a b|a|a]; inst_ok_inv H.
  all: try (cbn [assemble]; unfold I_MOV, I_LABEL, I_JMP, I_JMP_IF, I_SEND, I_REPLY, I_RECV, I_PRINT, I_PRINT_HEX;
    first [edestruct reg_word2 as [? ->]; [done|done|reflexivity]
          |edestruct reg_word1 as [? ->]; [done|reflexivity]]).
  - by vm_compute.
  - by vm_compute.
  - cbn [assemble]. unfold I_MOVI. edestruct imm_word as (? & ? & ->); [done|done|reflexivity].
  - cbn [assemble]. unfold i_binop.
    destruct (regs_word o [(4, a); (4, b); (4, c)] a b c) as [? ->]; [done..|by apply regs_pack3|].
    by destruct o.
  - unfold is_width in H. cbn [assemble].
    unfold I_LDM8, I_LDM16, I_LDM32, I_STM8, I_STM16, I_STM32. destruct (Z.eqb_spec n 1); [|destruct (Z.eqb_spec n 2)]; subst.
    + edestruct imm_word as (? & ? & ->); [done|done|reflexivity].
    + edestruct imm_word as (? & ? & ->); [done|done|reflexivity].
    + assert (n = 4) as -> by lia. edestruct imm_word as (? & ? & ->); [done|done|reflexivity].
  - unfold is_width in H. cbn [assemble].
    unfold I_LDM8, I_LDM16, I_LDM32, I_STM8, I_STM16, I_STM32. destruct (Z.eqb_spec n 1); [|destruct (Z.eqb_spec n 2)]; subst.
    + edestruct imm_word as (? & ? & ->); [done|done|reflexivity].
    + edestruct imm_word as (? & ? & ->); [done|done|reflexivity].
    + assert (n = 4) as -> by lia. edestruct imm_word as (? & ? & ->); [done|done|reflexivity].
Qed.

(** *** The semantics of the documentation *)

(** A 20-bit two's complement immediate. *)
Definition sext20 (imm : Z) : Z := if imm <? 2 ^ 19 then imm else imm - 2 ^ 20.

(** [R[A] = R[B] op R[C]]: the value the instruction table asks for. *)
Definition isa_bin (o : hinavm_opcode) (l r v : Z) : Prop :=
  match o with
  | HINAVM_ADD => s32 v = s32 l + s32 r
  | HINAVM_SUB => s32 v = s32 l - s32 r
  | HINAVM_MUL => s32 v = s32 l * s32 r
  | HINAVM_DIV => s32 r <> 0 /\ s32 v = Z.quot (s32 l) (s32 r)
  | HINAVM_MOD => s32 r <> 0 /\ ~ (s32 l = - 2 ^ 31 /\ s32 r = -1) /\ s32 v = Z.rem (s32 l) (s32 r)
  | HINAVM_SHL => r < 32 /\ v = (l * 2 ^ r) `mod` 2 ^ 32
  | HINAVM_SHR => r < 32 /\ v = l / 2 ^ r
  | HINAVM_AND => forall n, 0 <= n -> Z.testbit v n = Z.testbit l n && Z.testbit r n
  | HINAVM_OR => forall n, 0 <= n -> Z.testbit v n = Z.testbit l n || Z.testbit r n
  | HINAVM_XOR => forall n, 0 <= n -> Z.testbit v n = xorb (Z.testbit l n) (Z.testbit r n)
  | HINAVM_EQ => v = if decide (l = r) then 1 else 0
  | HINAVM_NE => v = if decide (l = r) then 0 else 1
  | HINAVM_LT => v = if s32 l <? s32 r then 1 else 0
  | HINAVM_LE => v = if s32 l <=? s32 r then 1 else 0
  | _ => False
  end.

Definition advance (h : hvm) : hvm := set_pc (u32 (h_pc h + 1)) h.

(** [MSG[off : off + n]] *)
Definition msg_bytes (m : message) (off n : Z) : list Z :=
  take (Z.to_nat n) (drop (Z.to_nat off) (encode_message m)).

(** A message as [struct message] holds it. *)
Definition message_wf (m : message) : Prop :=
  - 2 ^ 31 <= m_type m < 2 ^ 31 /\ - 2 ^ 31 <= m_src m < 2 ^ 31 /\
  length (m_data m) = sizeof_message_data.

(** The effect of the instructions that do not leave the interpreter. *)
Inductive isa (h : hvm) (m : message) : inst -> hvm -> message -> Prop :=
| isa_nop : isa h m Nop (advance h) m
| isa_label l : isa h m (Label l) (advance h) m
| isa_movi a imm v : 0 <= v < 2 ^ 32 -> s32 v = sext20 imm ->
    isa h m (Movi a imm) (set_reg a v (advance h)) m
| isa_mov a b : isa h m (Mov a b) (set_reg a (hreg h b) (advance h)) m
| isa_binop o a b c v : 0 <= v < 2 ^ 32 -> isa_bin o (hreg h b) (hreg h c) v ->
    isa h m (Bin o a b c) (set_reg a v (advance h)) m
| isa_jmp l : isa h m (Jmp l) (set_pc (hlabel h l) h) m
| isa_jmp_if l a : hreg h a <> 0 -> isa h m (JmpIf l a) (set_pc (hlabel h l) h) m
| isa_jmp_else l a : hreg h a = 0 -> isa h m (JmpIf l a) (advance h) m
| isa_ldm n a imm : msg_access_ok n (sext20 imm) = true ->
    isa h m (Ldm n a imm) (set_reg a (le_combine (msg_bytes m (sext20 imm) n)) (advance h)) m
| isa_stm n a imm m' : msg_access_ok n (sext20 imm) = true -> message_wf m' ->
    encode_message m' = take (Z.to_nat (sext20 imm)) (encode_message m)
      ++ le_split (Z.to_nat n) (hreg h a) ++ drop (Z.to_nat (sext20 imm) + Z.to_nat n) (encode_message m) ->
    isa h m (Stm n a imm) (advance h) m'
| isa_print a : isa h m (Print a) (log_line (PrintDec (h_pc h) (s32 (hreg h a))) (advance h)) m
| isa_print_hex a : isa h m (PrintH a) (log_line (PrintHex (h_pc h) (hreg h a)) (advance h)) m.

(** Registers are 32-bit words. *)
Definition hvm_wf (h : hvm) : Prop :=
  length (h_regs h) = 16%nat /\ Forall (fun v => 0 <= v < 2 ^ 32) (h_regs h) /\
  length (h_labels h) = 16%nat /\ Forall (fun v => 0 <= v < 2 ^ 32) (h_labels h).

Lemma hreg_range h r : hvm_wf h -> 0 <= hreg h r < 2 ^ 32.
Proof.
  intros (_ & H & _). unfold hreg. destruct (h_regs h !! Z.to_nat r) as [v|] eqn:E; [|done].
  by apply (Forall_lookup_1 _ _ _ _ H E).
Qed.

Lemma SIGN_EXTEND20_spec x : 0 <= x < 2 ^ 20 -> SIGN_EXTEND20 x = sext20 x.
Proof.
  intros Hx. unfold SIGN_EXTEND20, sext20. change (Z.shiftl 1 19) with (2 ^ 19).
  rewrite has_bit_spec, Z.testbit_eqb by lia.
  destruct (Z.ltb_spec x (2 ^ 19)).
  - rewrite Z.div_small by lia. simpl. apply s32_small. lia.
  - assert (E : x / 2 ^ 19 = 1) by (symmetry; apply Z.div_unique with (x - 2 ^ 19); lia).
    rewrite E. simpl (1 `mod` 2 =? 1). cbv iota.
    change 4293918720 with (4095 * 2 ^ 20). rewrite Z.lor_comm, lor_mul_pow2 by lia.
    unfold s32, u32. rewrite Z.mod_small by lia. destruct (Z.ltb_spec (4095 * 2 ^ 20 + x) (2 ^ 31)); lia.
Qed.

(** *** The arithmetic *)
Lemma s32_inj v w : 0 <= v < 2 ^ 32 -> 0 <= w < 2 ^ 32 -> s32 v = s32 w -> v = w.
Proof. intros ? ? E. rewrite <- (u32_small v), <- (u32_small w), <- (u32_s32 v), <- (u32_s32 w); congruence. Qed.

Lemma int_result_spec x v : int_result x = Ok v <-> 0 <= v < 2 ^ 32 /\ s32 v = x.
Proof.
  unfold int_result. destruct ((- 2 ^ 31 <=? x) && (x <? 2 ^ 31)) eqn:E.
  - apply andb_prop in E as [E1%Z.leb_le E2%Z.ltb_lt]. split.
    + intros [= <-]. split; [apply u32_range|]. unfold s32. rewrite u32_idem. fold (s32 x). by apply s32_small.
    + intros [Hv Hs]. f_equal. rewrite <- Hs, u32_s32. by apply u32_small.
  - split; [done|]. intros [_ <-]. pose proof (s32_range v). lia.
Qed.

Lemma s32_eqb l r : 0 <= l < 2 ^ 32 -> 0 <= r < 2 ^ 32 -> (s32 l =? s32 r) = bool_decide (l = r).
Proof.
  intros. apply eq_true_iff_eq. rewrite Z.eqb_eq, bool_decide_eq_true. split; [by apply s32_inj|congruence].
Qed.

Lemma b2z_bit b v : (Ok (Z.b2z b) = Ok v) <-> 0 <= v < 2 ^ 32 /\ v = if b then 1 else 0.
Proof.
  destruct b; simpl; split; intros H; try (by destruct H as [_ ->]); injection H as <-; lia.
Qed.

(** A bitwise operation on words. *)
Lemma bitop_spec (f : Z -> Z -> Z) (g : bool -> bool -> bool) l r v :
  (forall a b n, 0 <= n -> Z.testbit (f a b) n = g (Z.testbit a n) (Z.testbit b n)) ->
  0 <= f l r < 2 ^ 32 ->
  Ok (f l r) = Ok v <-> 0 <= v < 2 ^ 32 /\ forall n, 0 <= n -> Z.testbit v n = g (Z.testbit l n) (Z.testbit r n).
Proof.
  intros Hf Hr. split.
  - intros [= <-]. split; [done|]. auto.
  - intros [_ Hv]. f_equal. apply Z.bits_inj'. intros n Hn. by rewrite Hf, Hv.
Qed.

Lemma word_bitops l r : 0 <= l < 2 ^ 32 -> 0 <= r < 2 ^ 32 ->
  0 <= Z.land l r < 2 ^ 32 /\ 0 <= Z.lor l r < 2 ^ 32 /\ 0 <= Z.lxor l r < 2 ^ 32.
Proof.
  intros Hl Hr. assert (Hhi : forall x n, 0 <= x < 2 ^ 32 -> 32 <= n -> Z.testbit x n = false).
  { intros x n Hx Hn. rewrite <- (Z.mod_small x (2 ^ 32)) by done. by rewrite Z.mod_pow2_bits_high. }
  assert (Hmk : forall x, 0 <= x -> (forall n, 32 <= n -> Z.testbit x n = false) -> 0 <= x < 2 ^ 32).
  { intros x Hx Hb. split; [done|]. assert (E : x = x `mod` 2 ^ 32).
    { apply Z.bits_inj'. intros n Hn. destruct (Z.ltb_spec n 32).
      - by rewrite Z.mod_pow2_bits_low.
      - rewrite Z.mod_pow2_bits_high by done. by apply Hb. }
    rewrite E. by apply Z.mod_pos_bound. }
  split; [|split]; apply Hmk.
  - apply Z.land_nonneg. lia.
  - intros n Hn. by rewrite Z.land_spec, (Hhi l), (Hhi r).
  - apply Z.lor_nonneg. lia.
  - intros n Hn. by rewrite Z.lor_spec, (Hhi l), (Hhi r).
  - apply Z.lxor_nonneg. lia.
  - intros n Hn. by rewrite Z.lxor_spec, (Hhi l), (Hhi r).
Qed.

(** The quotient of two [int]s overflows only for INT_MIN / -1. *)
Lemma quot_overflow l r :
  - 2 ^ 31 <= l < 2 ^ 31 -> r <> 0 -> ~ (l = - 2 ^ 31 /\ r = -1) -> - 2 ^ 31 <= Z.quot l r < 2 ^ 31.
Proof.
  intros Hl Hr Hn. destruct (decide (r = 1)) as [->|]; [rewrite Z.quot_1_r; lia|].
  destruct (decide (r = -1)) as [->|].
  { change (-1) with (- (1)). rewrite Z.quot_opp_r, Z.quot_1_r by lia. lia. }
  pose proof (Z.quot_abs l r Hr) as E. assert (Z.abs l ÷ Z.abs r <= 2 ^ 31 / 2).
  { rewrite Z.quot_div_nonneg by lia. etrans; [apply (Z.div_le_compat_l (Z.abs l) 2); lia|].
    apply Z.div_le_mono; lia. }
  change (2 ^ 31 / 2) with (2 ^ 30) in *. lia.
Qed.

Lemma rem_small l r : - 2 ^ 31 <= l < 2 ^ 31 -> r <> 0 -> - 2 ^ 31 <= Z.rem l r < 2 ^ 31.
Proof.
  intros Hl Hr. pose proof (Z.rem_le (Z.abs l) (Z.abs r) ltac:(lia) ltac:(lia)) as E.
  rewrite Z.rem_abs in E by done.
  destruct (decide (l = - 2 ^ 31)) as [->|]; [|lia].
  pose proof (Z.rem_sign_mul (- 2 ^ 31) r Hr). pose proof (Z.rem_bound_abs (- 2 ^ 31) r Hr). nia.
Qed.

Lemma alu_isa o l r v :
  is_binop o = true -> 0 <= l < 2 ^ 32 -> 0 <= r < 2 ^ 32 ->
  alu o l r = Ok v <-> 0 <= v < 2 ^ 32 /\ isa_bin o l r v.
Proof.
  intros Ho Hl Hr. destruct (word_bitops l r Hl Hr) as (Hand & Hor & Hxor).
  pose proof (s32_range l). pose proof (s32_range r).
  destruct o; try discriminate Ho; cbn [alu isa_bin]; try apply int_result_spec.
  - destruct (Z.eqb_spec (s32 r) 0); [split; [done|]; tauto|]. rewrite int_result_spec. tauto.
  - destruct (Z.eqb_spec (s32 r) 0); [split; [done|]; tauto|].
    destruct (decide (s32 l = - 2 ^ 31 /\ s32 r = -1)) as [[El Er]|Hn].
    + rewrite El, Er. split; [done|]. tauto.
    + assert (int_result (s32 l ÷ s32 r) = Ok (u32 (s32 l ÷ s32 r))) as ->.
      { unfold int_result. pose proof (quot_overflow (s32 l) (s32 r)). destruct (_ && _) eqn:E; [done|]. lia. }
      cbn [mbind outcome_bind].
      assert (Hq : int_result (Z.rem (s32 l) (s32 r)) = Ok (u32 (Z.rem (s32 l) (s32 r)))).
      { unfold int_result. pose proof (rem_small (s32 l) (s32 r)). destruct (_ && _) eqn:E; [done|]. lia. }
      rewrite <- Hq, int_result_spec. tauto.
  - destruct (Z.leb_spec 32 r); [split; [done|]; lia|]. rewrite Z.shiftl_mul_pow2 by lia. unfold u32.
    split; [intros [= <-]; split; [apply Z.mod_pos_bound|]; done|]. by intros (_ & _ & ->).
  - destruct (Z.leb_spec 32 r); [split; [done|]; lia|]. rewrite Z.shiftr_div_pow2 by lia.
    split; [intros [= <-]; split; [|done]|by intros (_ & _ & ->)].
    split; [apply Z.div_pos; lia|]. apply Z.div_lt_upper_bound; [lia|].
    pose proof (Z.pow_pos_nonneg 2 r). nia.
  - apply (bitop_spec Z.land andb); [|done]. intros. apply Z.land_spec.
  - apply (bitop_spec Z.lor orb); [|done]. intros. apply Z.lor_spec.
  - apply (bitop_spec Z.lxor xorb); [|done]. intros. apply Z.lxor_spec.
  - rewrite s32_eqb, b2z_bit by done. by case_bool_decide; destruct (decide _).
  - rewrite s32_eqb, b2z_bit by done. by case_bool_decide; destruct (decide _).
  - apply b2z_bit.
  - apply b2z_bit.
Qed.

(** *** The step *)
Lemma decode_encode m : message_wf m -> decode_message (encode_message m) = m.
Proof.
  intros (Ht & Hs & _). destruct m as [ty src d]. unfold decode_message, encode_message. simpl in *.
  assert (E : forall x, - 2 ^ 31 <= x < 2 ^ 31 -> s32 (le_combine (le_split 4 (u32 x))) = x).
  { intros y Hy. rewrite le_combine_split. change (256 ^ Z.of_nat 4) with (2 ^ 32).
    fold (u32 (u32 y)). rewrite u32_idem. unfold s32. rewrite u32_idem. fold (s32 y). by apply s32_small. }
  f_equal; by apply E.
Qed.

Lemma le_split_mod n x : le_split n (x `mod` 2 ^ (8 * Z.of_nat n)) = le_split n x.
Proof.
  assert (H256 : 2 ^ (8 * Z.of_nat n) = 256 ^ Z.of_nat n) by (rewrite Z.pow_mul_r by lia; done).
  rewrite H256. clear H256. revert x. induction n as [|n IH]; intros x; [done|]. cbn [le_split].
  assert (0 < 256 ^ Z.of_nat n) by (apply Z.pow_pos_nonneg; lia).
  rewrite Nat2Z.inj_succ, Z.pow_succ_r by lia. f_equal.
  - rewrite Z.rem_mul_r by lia. rewrite Z.mul_comm, Z.mod_add by lia. by rewrite Z.mod_mod.
  - rewrite Z.rem_mul_r, (Z.mul_comm 256), Z.div_add by lia.
    rewrite (Z.div_small (x `mod` 256)) by (apply Z.mod_pos_bound; lia). apply IH.
Qed.

Lemma length_encode m : message_wf m -> length (encode_message m) = Z.to_nat sizeof_message.
Proof. intros (_ & _ & Hd). unfold encode_message. by rewrite !length_app, !length_le_split, Hd. Qed.

Lemma set_m_id k t x : k_tasks k !! t = Some x -> set_tasks (<[t := with_m (t_m x) x]> (k_tasks k)) k = k.
Proof. intros Hx. rewrite insert_id; [by destruct k|]. rewrite Hx. by destruct x. Qed.

Section Steps.
Context (stack_garbage : message) (c : nat) (k : kernel) (t : tptr) (x : task).
Context (Hc : k_current k !! c = Some t) (Hx : k_tasks k !! t = Some x).

Lemma msg_get_run : msg_get c k = Ok (t_m x, k).
Proof.
  unfold msg_get. by rewrite (ST_bind_run _ _ _ _ _ (current_run _ _ _ Hc)), (ST_bind_run _ _ _ _ _ (task_at_run _ _ _ Hx)).
Qed.
Lemma msg_put_run m : msg_put c m k = Ok (tt, set_tasks (<[t := with_m m x]> (k_tasks k)) k).
Proof. unfold msg_put. rewrite (ST_bind_run _ _ _ _ _ (current_run _ _ _ Hc)). by apply upd_run. Qed.

Lemma h_load_run n w off h :
  SIGN_EXTEND20 (i_imm w) = off -> msg_access_ok n off = true ->
  h_load c n w h k = Ok (set_reg (i_a w) (le_combine (msg_bytes (t_m x) off n)) h, k).
Proof.
  intros <- Hok. unfold h_load. rewrite (ST_bind_run _ _ _ _ _ msg_get_run). unfold msg_load. by rewrite Hok.
Qed.

Lemma h_store_run n w off h m' :
  SIGN_EXTEND20 (i_imm w) = off -> is_width n = true -> msg_access_ok n off = true ->
  message_wf (t_m x) -> message_wf m' ->
  encode_message m' = take (Z.to_nat off) (encode_message (t_m x))
    ++ le_split (Z.to_nat n) (hreg h (i_a w)) ++ drop (Z.to_nat off + Z.to_nat n) (encode_message (t_m x)) ->
  h_store c n w h k = Ok (h, set_tasks (<[t := with_m m' x]> (k_tasks k)) k).
Proof.
  intros <- Hn Hok Hm Hm' E. unfold h_store. rewrite (ST_bind_run _ _ _ _ _ msg_get_run). unfold msg_store.
  rewrite Hok. cbn [lift_out]. unfold msg_access_ok in Hok.
  rewrite splice_spec; rewrite length_le_split; [|rewrite length_encode by done; unfold is_width in *; lia].
  replace (2 ^ (8 * n)) with (2 ^ (8 * Z.of_nat (Z.to_nat n))) by (f_equal; unfold is_width in *; lia).
  rewrite le_split_mod, <- E, decode_encode by done.
  erewrite ST_bind_run by reflexivity. by rewrite (ST_bind_run _ _ _ _ _ (msg_put_run m')).
Qed.

Lemma exec_isa i w h h' m' :
  disassemble w = Some i -> inst_ok i = true -> hvm_wf h -> message_wf (t_m x) -> isa h (t_m x) i h' m' ->
  hinavm_exec stack_garbage c (h_pc h) w (advance h) k
    = Ok (HNext h', set_tasks (<[t := with_m m' x]> (k_tasks k)) k).
Proof.
  intros Hd Hok Hwf Hm Hisa. unfold disassemble in Hd.
  assert (Ha : i_l w = i_a w) by done. assert (Hb : i_jmp_a w = i_b w) by done.
  unfold hinavm_exec, fmap, ST_fmap. rewrite Ha, Hb.
  destruct Hisa as [|l|a imm v Hv Ev|a b|o a b cc v Hv Ev|l|l a Hr|l a Hr|n a imm Ho|n a imm m' Ho Hm' He|a|a];
    inst_ok_inv Hok; try (rewrite set_m_id by done).
  all: destruct (opcode_of (i_opcode w)) as [[]|]; cbn [view_inst] in Hd; simplify_eq; try reflexivity.
  all: try (change (hreg (advance h)) with (hreg h); change (hlabel (advance h)) with (hlabel h)).
  all: try (rewrite (proj2 (alu_isa _ _ _ _ Hok (hreg_range h _ Hwf) (hreg_range h _ Hwf)) (conj Hv Ev)); reflexivity).
  all: try (by erewrite h_load_run by (rewrite ?SIGN_EXTEND20_spec by done; done)).
  all: try (by erewrite h_store_run by (rewrite ?SIGN_EXTEND20_spec by done; done)).
  - rewrite SIGN_EXTEND20_spec, <- Ev, u32_s32, u32_small by done. reflexivity.
  - unfold truthy. by destruct (Z.eqb_spec (hreg h (i_b w)) 0).
  - unfold truthy. by destruct (Z.eqb_spec (hreg h (i_b w)) 0).
Qed.
End Steps.

(** ** Labels *)
Definition defines (w l : Z) : Prop := opcode_of (i_opcode w) = Some HINAVM_LABEL /\ i_l w = l.
#[export] Instance defines_dec w l : Decision (defines w l).
Proof. unfold defines. apply _. Defined.

Lemma resolve_labels_app i insts insts' labels :
  resolve_labels i (insts ++ insts') labels
  = resolve_labels (i + Z.of_nat (length insts)) insts' (resolve_labels i insts labels).
Proof.
  revert i labels. induction insts as [|w insts IH]; intros i labels; cbn [app resolve_labels length].
  - by rewrite Z.add_0_r.
  - rewrite IH. f_equal. lia.
Qed.

Lemma resolve_labels_length i insts labels : length (resolve_labels i insts labels) = length labels.
Proof.
  revert i labels. induction insts as [|w insts IH]; intros i labels; [done|]. cbn [resolve_labels].
  rewrite IH. case_bool_decide; [apply length_insert|done].
Qed.

Lemma i_l_range w : 0 <= i_l w < 16.
Proof. by apply Z.mod_pos_bound. Qed.

Lemma resolve_labels_other i insts labels l :
  (forall w, w ∈ insts -> ~ defines w l) -> 0 <= l ->
  resolve_labels i insts labels !! Z.to_nat l = labels !! Z.to_nat l.
Proof.
  revert i labels. induction insts as [|w insts IH]; intros i labels Hno Hl; [done|]. cbn [resolve_labels].
  rewrite IH; [|intros w' ?; apply Hno; by right|done].
  pose proof (Hno w ltac:(by left)) as Hw. pose proof (i_l_range w).
  case_bool_decide as E; [|done]. apply list_lookup_insert_ne. intros ?. apply Hw. split; [done|lia].
Qed.

Lemma label_last insts insts' w l :
  0 <= l < 16 -> defines w l -> (forall w', w' ∈ insts' -> ~ defines w' l) ->
  hlabel (hinavm_init (insts ++ w :: insts')) l = Z.of_nat (length insts) + 1.
Proof.
  intros Hl [Ho <-] Hno. unfold hlabel, hinavm_init. cbn [h_labels].
  rewrite resolve_labels_app. cbn [resolve_labels]. rewrite resolve_labels_other by (done || lia).
  rewrite bool_decide_true by done. rewrite list_lookup_insert_eq; [done|].
  rewrite resolve_labels_length, length_replicate. lia.
Qed.

Lemma label_none insts l :
  0 <= l < 16 -> (forall w, w ∈ insts -> ~ defines w l) -> hlabel (hinavm_init insts) l = NO_LABEL.
Proof.
  intros Hl Hno. unfold hlabel, hinavm_init. cbn [h_labels].
  rewrite resolve_labels_other by (done || lia).
  by rewrite lookup_replicate_2 by lia.
Qed.

Lemma hinavm_init_wf insts : Z.of_nat (length insts) < 2 ^ 32 -> hvm_wf (hinavm_init insts).
Proof.
  intros Hn. unfold hvm_wf, hinavm_init. cbn [h_regs h_labels]. rewrite resolve_labels_length. split_and!; [done| |done|].
  - by apply Forall_replicate.
  - assert (H : forall insts i labels, 0 <= i -> i + Z.of_nat (length insts) < 2 ^ 32 ->
      Forall (fun v => 0 <= v < 2 ^ 32) labels -> Forall (fun v => 0 <= v < 2 ^ 32) (resolve_labels i insts labels)).
    { clear insts Hn. induction insts as [|w insts IH]; intros i labels Hi Hlt HF; [done|]. cbn [resolve_labels].
      simpl length in Hlt. apply IH; [lia..|]. case_bool_decide; [|done]. apply Forall_insert; [done|lia]. }
    apply H; [lia|done|]. by apply Forall_replicate.
Qed.

(** ** Safety of a step *)

(** The instruction has a defined effect: no division by zero or signed overflow, no
    message access outside of [struct message], no IPC with an invalid task id. *)
Definition inst_defined (w : Z) (h : hvm) : bool :=
  match opcode_of (i_opcode w) with
  | Some (HINAVM_LDM8 | HINAVM_STM8) => msg_access_ok 1 (SIGN_EXTEND20 (i_imm w))
  | Some (HINAVM_LDM16 | HINAVM_STM16) => msg_access_ok 2 (SIGN_EXTEND20 (i_imm w))
  | Some (HINAVM_LDM32 | HINAVM_STM32) => msg_access_ok 4 (SIGN_EXTEND20 (i_imm w))
  | Some (HINAVM_SEND | HINAVM_REPLY) => negb (s32 (hreg h (i_b w)) =? 0)
  | Some HINAVM_RECV => 0 <=? s32 (hreg h (i_b w))
  | Some o => if is_binop o
              then match alu o (hreg h (i_b w)) (hreg h (i_c w)) with Ok _ => true | _ => false end
              else true
  | None => true
  end.

Lemma set_reg_wf r v h : hvm_wf h -> 0 <= v < 2 ^ 32 -> hvm_wf (set_reg r v h).
Proof.
  intros (H1 & H2 & H3 & H4) Hv. split_and!; cbn [set_reg h_regs h_labels]; [by rewrite length_insert| |done..].
  by apply Forall_insert.
Qed.
Lemma set_pc_wf pc h : hvm_wf h -> hvm_wf (set_pc pc h).
Proof. done. Qed.
Lemma log_wf p h : hvm_wf h -> hvm_wf (log_line p h).
Proof. done. Qed.
#[export] Hint Resolve set_reg_wf set_pc_wf log_wf hreg_range u32_range : hina.

Section StepSafe.
Context (stack_garbage : message) (c i : nat).

(** What a step leaves: the kernel invariant, and an interpreter that can go on. *)
Definition step_post (k : kernel) (r : hresult) (k' : kernel) : Prop :=
  stays_ok c k k' /\
  match r with
  | HNext h' => hvm_wf h' /\ runs c i k'
  | HBlocked h' a => hvm_wf h' /\ 0 <= a < 16
  | HExit => True
  end.

Lemma step_post_next k h : kinv k -> runs c i k -> hvm_wf h -> step_post k (HNext h) k.
Proof. intros. split; [split; [done|apply kframe_refl]|done]. Qed.

Lemma h_exit_safe exc k :
  kinv k -> runs c i k -> pagers k !! Task i <> Some None ->
  safe k (h_exit stack_garbage c exc) (step_post k).
Proof.
  intros Hk Hr Hp. unfold h_exit. eapply safe_bind; [by apply (task_exit_safe stack_garbage c i)|].
  intros u k' Hk'. by apply safe_ret.
Qed.

Lemma h_ipc_safe dst src fl a h k :
  kinv k -> runs c i k -> hvm_wf h -> 0 <= a < 16 -> (has fl IPC_RECV = true -> 0 <= src) ->
  (has fl IPC_SEND = true -> exists d y, dst = Some (Task d) /\ k_tasks k !! Task d = Some y
     /\ t_state y <> TASK_UNUSED) ->
  safe k (h_ipc stack_garbage c dst src fl a h) (step_post k).
Proof.
  intros Hk Hr Hwf Ha Hsrc Hdst. pose proof Hr as [Hc (x & Hx & _)]. unfold h_ipc.
  eapply safe_step; [by eapply msg_get_run|].
  eapply safe_bind; [apply (ipc_safe stack_garbage c i); try done|].
  intros r k1 (Hk1 & F1 & Hr1). destruct r as [r|]; [|by apply safe_ret].
  specialize (Hr1 ltac:(done)). pose proof Hr1 as [Hc1 (x1 & Hx1 & _)].
  unfold finish. eapply safe_bind.
  { eapply safe_step; [by apply current_run|]. by eapply upd_inert_safe. }
  intros _ k2 (Hk2 & Hp2 & _). apply safe_ret. split; [split; [done|etrans; [done|apply Hp2]]|].
  split; [auto with hina|by eapply runs_keeps].
Qed.

Lemma h_send_safe w fl h k :
  kinv k -> runs c i k -> pagers k !! Task i <> Some None -> hvm_wf h ->
  s32 (hreg h (i_b w)) <> 0 -> has fl IPC_RECV = false ->
  safe k (h_send stack_garbage c w fl h) (step_post k).
Proof.
  intros Hk Hr Hp Hwf Hne Hfl. unfold h_send.
  destruct (task_find_run _ _ Hk Hne) as (r & E & Hfound).
  eapply safe_step; [exact E|]. destruct r as [d|]; [|by apply h_exit_safe].
  destruct (Hfound d eq_refl) as (d' & y & -> & Hy & Hu & _).
  apply h_ipc_safe; try done; [by apply i_l_range|intros _; eauto].
Qed.

Lemma h_load_safe n w h k :
  kinv k -> runs c i k -> hvm_wf h -> is_width n = true -> msg_access_ok n (SIGN_EXTEND20 (i_imm w)) = true ->
  (forall x, k_tasks k !! Task i = Some x -> Forall (fun b => 0 <= b < 256) (m_data (t_m x))) ->
  safe k (HNext <$> h_load c n w h) (step_post k).
Proof.
  intros Hk Hr Hwf Hn Hok Hb. pose proof Hr as [Hc (x & Hx & _)]. apply safe_fmap.
  eexists _, _. split; [by eapply h_load_run|]. apply step_post_next; [done..|].
  apply set_reg_wf; [done|]. unfold msg_bytes.
  assert (HF : Forall (fun b => 0 <= b < 256) (take (Z.to_nat n) (drop (Z.to_nat (SIGN_EXTEND20 (i_imm w))) (encode_message (t_m x))))).
  { apply Forall_take, Forall_drop. unfold encode_message. rewrite !Forall_app. split_and!;
      [apply le_split_bytes..|by apply Hb]. }
  pose proof (le_combine_range _ HF) as Hr'. rewrite length_take in Hr'.
  pose proof (Z.pow_le_mono_r 256 (Z.of_nat (Z.to_nat n `min` length (drop (Z.to_nat (SIGN_EXTEND20 (i_imm w))) (encode_message (t_m x))))) 4
    ltac:(lia) ltac:(unfold is_width in *; lia)). change (256 ^ 4) with (2 ^ 32) in *. lia.
Qed.

Lemma h_store_safe n w h k :
  kinv k -> runs c i k -> hvm_wf h -> msg_access_ok n (SIGN_EXTEND20 (i_imm w)) = true ->
  safe k (HNext <$> h_store c n w h) (step_post k).
Proof.
  intros Hk Hr Hwf Hok. pose proof Hr as [Hc (x & Hx & _)]. apply safe_fmap. unfold h_store.
  eapply safe_step; [by eapply msg_get_run|]. unfold msg_store. rewrite Hok. cbn [lift_out].
  eapply safe_step; [reflexivity|]. unfold msg_put. apply safe_assoc.
  eapply safe_step; [by apply current_run|]. eapply safe_bind; [by eapply upd_inert_safe|].
  intros _ k1 (Hk1 & Hp1 & _). apply safe_ret. split; [split; [done|apply Hp1]|]. split; [done|by eapply runs_keeps].
Qed.

Lemma h_alu_safe o w h k :
  kinv k -> runs c i k -> hvm_wf h -> is_binop o = true ->
  (if is_binop o then match alu o (hreg h (i_b w)) (hreg h (i_c w)) with Ok _ => true | _ => false end
   else true) = true ->
  safe k (v ← lift_out (alu o (hreg h (i_b w)) (hreg h (i_c w))); mret (HNext (set_reg (i_a w) v h)))
    (step_post k).
Proof.
  intros Hk Hr Hwf Ho Hd. rewrite Ho in Hd. destruct (alu _ _ _) as [v| |] eqn:E; [|done..].
  apply (alu_isa _ _ _ _ Ho (hreg_range h _ Hwf) (hreg_range h _ Hwf)) in E as [Hv _].
  eapply safe_step; [reflexivity|]. apply safe_ret, step_post_next; auto with hina.
Qed.

Lemma exec_safe_step w pc h k :
  kinv k -> runs c i k -> pagers k !! Task i <> Some None -> hvm_wf h ->
  (forall x, k_tasks k !! Task i = Some x -> Forall (fun b => 0 <= b < 256) (m_data (t_m x))) ->
  inst_defined w h = true ->
  safe k (hinavm_exec stack_garbage c pc w h) (step_post k).
Proof.
  intros Hk Hr Hp Hwf Hb Hd. unfold inst_defined in Hd. unfold hinavm_exec.
  destruct (opcode_of (i_opcode w)) as [[]|];
    try (by apply h_exit_safe); try (by apply h_load_safe); try (by apply h_store_safe).
  all: try (apply safe_ret, step_post_next; auto with hina; fail).
  all: try (apply h_send_safe; [done..|lia|done]).
  all: try (by apply h_alu_safe).
  - apply safe_ret, step_post_next; [done..|]. destruct (truthy _); auto with hina.
  - apply h_ipc_safe; try done; [by apply i_l_range|intros _; lia].
Qed.
End StepSafe.

(** ** Theorems *)

(** The hand-assembly macros and the interpreter's decoding agree: an instruction
    whose operands fit their bit-fields is read back unchanged from its word. *)
Theorem hinavm_assemble_roundtrip i :
  inst_ok i = true -> disassemble (assemble i) = Some i.
Proof. apply disassemble_assemble. Qed.

Lemma hinavm_assemble_roundtrip_witness :
  disassemble (I_LDM16 1 (2 ^ 20 - 4)) = Some (Ldm 2 1 (2 ^ 20 - 4)).
Proof. exact (hinavm_assemble_roundtrip (Ldm 2 1 (2 ^ 20 - 4)) eq_refl). Defined.

(** One round of the main loop on the assembly of an instruction. *)
Lemma step_isa sg c hinavm num_insts i h h' m' k t x :
  k_current k !! c = Some t -> k_tasks k !! t = Some x -> message_wf (t_m x) -> hvm_wf h ->
  h_pc h < num_insts -> inst_ok i = true ->
  pm_load (hinavm + 4 * h_pc h) (k_mem k) = assemble i ->
  isa h (t_m x) i h' m' ->
  hinavm_step sg c hinavm num_insts h k
    = Ok (HNext h', set_tasks (<[t := with_m m' x]> (k_tasks k)) k).
Proof.
  intros Hc Hx Hm Hwf Hpc Hok Hld Hisa. unfold hinavm_step.
  destruct (Z.leb_spec num_insts (h_pc h)); [lia|]. erewrite ST_bind_run by reflexivity. rewrite Hld.
  fold (advance h). eapply exec_isa; eauto using disassemble_assemble.
Qed.

(** C19: the interpreter implements the documented instruction set.  When the word at
    the program counter is the assembly of an instruction [i], and the instruction
    table gives [i] an effect on the registers, the program counter, the printed lines
    and the message buffer ([isa]), then one round of the main loop returns and has
    exactly that effect; the rest of the kernel is unchanged. *)
Theorem hinavm_step_implements_isa sg c hinavm num_insts i h h' m' k t x :
  k_current k !! c = Some t -> k_tasks k !! t = Some x -> message_wf (t_m x) -> hvm_wf h ->
  h_pc h < num_insts -> inst_ok i = true ->
  pm_load (hinavm + 4 * h_pc h) (k_mem k) = assemble i ->
  isa h (t_m x) i h' m' ->
  hinavm_step sg c hinavm num_insts h k
    = Ok (HNext h', set_tasks (<[t := with_m m' x]> (k_tasks k)) k).
Proof. apply step_isa. Qed.

(** Label resolution.  After the first pass a label has the index of the
    instruction after its last definition; a label without definition has an address
    past every program, so that a jump to it makes the next round end the task. *)
Theorem hinavm_labels_correct insts insts' w l :
  0 <= l < 16 ->
  (forall w', w' ∈ insts' -> ~ defines w' l) ->
  (defines w l -> hlabel (hinavm_init (insts ++ w :: insts')) l = Z.of_nat (length insts) + 1) /\
  (hlabel (hinavm_init insts') l = NO_LABEL).
Proof. intros Hl Hno. split; [intros Hw; by apply label_last|by apply label_none]. Qed.

Lemma hinavm_labels_correct_witness :
  hlabel (hinavm_init ([I_LABEL 3; I_NOP] ++ I_LABEL 3 :: [I_JMP 3])) 3 = 3 /\
  hlabel (hinavm_init [I_JMP 3]) 3 = NO_LABEL.
Proof.
  destruct (hinavm_labels_correct [I_LABEL 3; I_NOP] [I_JMP 3] (I_LABEL 3) 3) as [H1 H2]; [done| |].
  - intros w' Hw'. apply list_elem_of_singleton in Hw' as ->. intros [H _]. by vm_compute in H.
  - split; [apply H1; split; by vm_compute|exact H2].
Defined.


(** *** Concrete HinaVM tasks

    The second task of the demonstration system runs a program while the first one
    waits in an open receive. *)
Definition hinavm_demo (w : Z) : kernel :=
  set_mem (Memory [] ∅ {[8192 := w]}) (after demo_recv demo_kernel).
Definition demo_hvm (r1 : Z) : hvm := Hvm 0 (<[1%nat := r1]> (replicate 16 0)) (replicate 16 NO_LABEL) [].

Lemma demo_hvm_wf r1 : 0 <= r1 < 2 ^ 32 -> hvm_wf (demo_hvm r1).
Proof.
  intros Hr. unfold hvm_wf, demo_hvm. cbn [h_regs h_labels]. split_and!; [done| |done|].
  - by apply Forall_insert; [apply Forall_replicate|].
  - by apply Forall_replicate.
Qed.

Definition demo_second : task := default (demo_slot 1) (k_tasks (after demo_recv demo_kernel) !! Task 1).

Lemma hinavm_demo_runs w : runs 0 1 (hinavm_demo w).
Proof. split; [by vm_compute|]. exists demo_second. split; vm_compute; reflexivity. Qed.

Lemma hinavm_demo_kinv w : kinv (hinavm_demo w).
Proof.
  apply (keeps_other (after demo_recv demo_kernel)); try reflexivity.
  exact (reachable_inv _ _ _ _ _ _ demo_kinv demo_reach).
Qed.

Lemma hinavm_step_implements_isa_witness :
  hinavm_step no_message 0 8192 1 (demo_hvm 5) (hinavm_demo (I_SUB 0 2 1))
    = Ok (HNext (set_reg 0 (2 ^ 32 - 5) (advance (demo_hvm 5))),
          set_tasks (<[Task 1 := with_m (t_m demo_second) demo_second]> (k_tasks (hinavm_demo (I_SUB 0 2 1))))
            (hinavm_demo (I_SUB 0 2 1))).
Proof.
  apply (hinavm_step_implements_isa no_message 0 8192 1 (Bin HINAVM_SUB 0 2 1)).
  - by vm_compute.
  - vm_compute. reflexivity.
  - by vm_compute.
  - by apply demo_hvm_wf.
  - done.
  - done.
  - by vm_compute.
  - by apply isa_binop.
Defined.


(** ** The sample server (servers/hello_hinavm/main.c)

    [offsetof] of the message fields it uses: [type] 0, [src] 4, the value of a ping and
    of its reply 8. *)
Definition hello_program : list Z :=
  [I_LABEL 0;
   I_MOVI 0 IPC_ANY;
   I_RECV 0 0;
   I_NE 0 0 0;
   I_JMP_IF 1 0;
   I_LDM32 0 8;
   I_LDM16 1 4;
   I_PRINT 0;
   I_MOVI 0 PING_REPLY_MSG;
   I_STM32 0 0;
   I_MOVI 0 42;
   I_STM32 0 8;
   I_REPLY 0 1;
   I_JMP 0;
   I_LABEL 1;
   I_PRINT 0;
   I_JMP 0].

(** The program is in the page of the task. *)
Definition program_at (hinavm : Z) (p : list Z) (k : kernel) : Prop :=
  forall j w, p !! j = Some w -> pm_load (hinavm + 4 * Z.of_nat j) (k_mem k) = w.

(** The sample server's check of the RECV result is dead code.  [I_NE(R0, R0, 0)]
    compares R0 with register number 0, which is R0 again, not with the constant 0:
    whatever error [ipc] returned in R0, the two rounds after it reach the message
    access at index 5 with R0 = 0, never the error handler at label 1. *)
Theorem hello_hinavm_error_check_dead sg c hinavm h k t x :
  k_current k !! c = Some t -> k_tasks k !! t = Some x -> message_wf (t_m x) -> hvm_wf h ->
  program_at hinavm hello_program k -> h_pc h = 3 ->
  hinavm_loop sg 2 c hinavm 17 h k = Ok (HNext (set_pc 5 (set_reg 0 0 h)), k).
Proof.
  intros Hc Hx Hm Hwf Hp Hpc. cbn [hinavm_loop].
  assert (Hok : forall j i, hello_program !! j = Some (assemble i) ->
    pm_load (hinavm + 4 * Z.of_nat j) (k_mem k) = assemble i) by (intros j i Hj; by apply Hp).
  erewrite ST_bind_run.
  2: { eapply (step_isa sg c hinavm 17 (Bin HINAVM_NE 0 0 0)); try done; [lia| |].
       - rewrite Hpc. by apply (Hok 3%nat (Bin HINAVM_NE 0 0 0)).
       - by apply isa_binop with (v := 0); [|cbn [isa_bin]; rewrite decide_True]. }
  rewrite set_m_id by done. cbv iota beta. erewrite ST_bind_run.
  2: { eapply (step_isa sg c hinavm 17 (JmpIf 1 0)); try done.
       - by apply set_reg_wf.
       - unfold advance. cbn [h_pc set_reg set_pc]. rewrite Hpc. done.
       - unfold advance. cbn [h_pc set_reg set_pc]. rewrite Hpc. by apply (Hok 4%nat (JmpIf 1 0)).
       - apply isa_jmp_else. unfold hreg. cbn [h_regs set_reg advance set_pc].
         rewrite list_lookup_insert_eq; [done|]. destruct Hwf as [-> _]. simpl. lia. }
  rewrite set_m_id by done. unfold advance. cbn [h_pc set_reg set_pc h_regs h_labels h_log]. by rewrite Hpc.
Qed.

Definition hello_demo : kernel :=
  set_mem (Memory [] ∅ (list_to_map (zip ((fun j => 8192 + 4 * Z.of_nat j) <$> seq 0 17) hello_program)))
    (after demo_recv demo_kernel).

Lemma hello_hinavm_error_check_dead_witness :
  hinavm_loop no_message 2 0 8192 17 (set_pc 3 (set_reg 0 (u32 ERR_WOULD_BLOCK) (demo_hvm 0))) hello_demo
  = Ok (HNext (set_pc 5 (set_reg 0 0 (set_pc 3 (set_reg 0 (u32 ERR_WOULD_BLOCK) (demo_hvm 0))))), hello_demo).
Proof.
  apply (hello_hinavm_error_check_dead no_message 0 8192 _ hello_demo (Task 1) demo_second).
  - by vm_compute.
  - vm_compute. reflexivity.
  - by vm_compute.
  - apply set_pc_wf, set_reg_wf; [by apply demo_hvm_wf|by vm_compute].
  - intros j w Hj. do 17 (destruct j as [|j]; [vm_compute in Hj |- *; congruence|]). vm_compute in Hj. discriminate.
  - done.
Defined.
