(* ===== verification/CString.v ===== *)
(** Memory and string functions (libs/common/string.c), over a byte-addressed memory.

    An address outside of the allocated memory is not in the map: reading or writing
    it is undefined.  The loops that run until a terminator take fuel; without a
    terminator they run off the allocated memory, so that fuel beyond the string's
    length is enough. *)

From S2P Require Import Prelude.

Abbreviation bytes := (gmap Z Z).

Definition load8 (p : Z) : ST bytes Z := getopt (fun m => m !! p).
Definition store8 (p v : Z) : ST bytes unit :=
  _ ← load8 p; modify (insert p (u8 v)).

(** ** Memory *)

(** [while ( *s1 == *s2 && len > 0)]: the bytes are read before the length is tested. *)
Fixpoint memcmp (p1 p2 : Z) (len : nat) : ST bytes Z :=
  a ← load8 p1;
  b ← load8 p2;
  if negb (a =? b) then mret (if (0 <? len)%nat then a - b else 0)
  else match len with
       | O => mret 0
       | S len' => memcmp (p1 + 1) (p2 + 1) len'
       end.

Fixpoint memset_loop (d ch : Z) (len : nat) : ST bytes unit :=
  match len with
  | O => mret tt
  | S len' => store8 d ch ;; memset_loop (d + 1) ch len'
  end.
Definition memset (dst ch : Z) (len : nat) : ST bytes Z := memset_loop dst ch len ;; mret dst.

Fixpoint memcpy_loop (d s : Z) (len : nat) : ST bytes unit :=
  match len with
  | O => mret tt
  | S len' => v ← load8 s; store8 d v ;; memcpy_loop (d + 1) (s + 1) len'
  end.
Definition MEMCPY_MAX : Z := 256 * 1024 * 1024.
Definition memcpy (dst src : Z) (len : nat) : ST bytes Z :=
  assert (Z.of_nat len <? MEMCPY_MAX) ;;
  memcpy_loop dst src len ;;
  mret dst.

(** The backward loop of [memmove]: [*d = *s; --d; --s]. *)
Fixpoint memmove_loop (d s : Z) (len : nat) : ST bytes unit :=
  match len with
  | O => mret tt
  | S len' => v ← load8 s; store8 d v ;; memmove_loop (d - 1) (s - 1) len'
  end.
Definition memmove (dst src : Z) (len : nat) : ST bytes Z :=
  assert (Z.of_nat len <? MEMCPY_MAX) ;;
  (if dst <=? src then _ ← memcpy dst src len; mret tt
   else memmove_loop (dst + Z.of_nat len) (src + Z.of_nat len) len) ;;
  mret dst.

(** ** Strings *)
Fixpoint strlen (fuel : nat) (s : Z) : ST bytes Z :=
  match fuel with
  | O => undef
  | S fuel' =>
      ch ← load8 s;
      if ch =? 0 then mret 0 else n ← strlen fuel' (s + 1); mret (n + 1)
  end.

Fixpoint strcmp (fuel : nat) (s1 s2 : Z) : ST bytes Z :=
  match fuel with
  | O => undef
  | S fuel' =>
      a ← load8 s1;
      b ← load8 s2;
      if negb (a =? b) then mret (a - b)
      else if a =? 0 then mret 0
      else strcmp fuel' (s1 + 1) (s2 + 1)
  end.

Fixpoint strncmp (s1 s2 : Z) (len : nat) : ST bytes Z :=
  match len with
  | O => mret 0
  | S len' =>
      a ← load8 s1;
      b ← load8 s2;
      if negb (a =? b) then mret (a - b)
      else if a =? 0 then mret 0
      else strncmp (s1 + 1) (s2 + 1) len'
  end.

(** The copy loop of [strcpy_safe] from index [i] on; [left] is [dst_len - 1 - i]. *)
Fixpoint strcpy_loop (dst src i : Z) (left : nat) : ST bytes unit :=
  match left with
  | O => store8 (dst + i) 0
  | S left' =>
      ch ← load8 (src + i);
      if ch =? 0 then store8 (dst + i) 0
      else store8 (dst + i) ch ;; strcpy_loop dst src (i + 1) left'
  end.
Definition strcpy_safe (dst : Z) (dst_len : nat) (src : Z) : ST bytes Z :=
  assert (0 <? dst_len)%nat ;;
  strcpy_loop dst src 0 (dst_len - 1) ;;
  mret dst.

(** NULL is 0. *)
Fixpoint strchr (fuel : nat) (s c : Z) : ST bytes Z :=
  match fuel with
  | O => undef
  | S fuel' =>
      ch ← load8 s;
      if ch =? 0 then mret 0
      else if ch =? c then mret s
      else strchr fuel' (s + 1) c
  end.

Fixpoint strstr_loop (fuel : nat) (s needle : Z) (needle_len : nat) : ST bytes Z :=
  match fuel with
  | O => undef
  | S fuel' =>
      ch ← load8 s;
      if ch =? 0 then mret 0
      else
        r ← strncmp s needle needle_len;
        if r =? 0 then mret s else strstr_loop fuel' (s + 1) needle needle_len
  end.
Definition strstr (fuel : nat) (haystack needle : Z) : ST bytes Z :=
  needle_len ← strlen fuel needle;
  strstr_loop fuel haystack needle (Z.to_nat needle_len).

(** [x = (x * 10) + ( *s - '0')] in [int]. *)
Fixpoint atoi_loop (fuel : nat) (s x : Z) : ST bytes Z :=
  match fuel with
  | O => undef
  | S fuel' =>
      ch ← load8 s;
      if (48 <=? ch) && (ch <=? 57) then
        if x * 10 + (ch - 48) <? 2 ^ 31 then atoi_loop fuel' (s + 1) (x * 10 + (ch - 48)) else undef
      else mret x
  end.
Definition atoi (fuel : nat) (s : Z) : ST bytes Z := atoi_loop fuel s 0.

(** ** Contents of memory *)

(** [bs] lies at [p]. *)
Definition at_addr (m : bytes) (p : Z) (bs : list Z) : Prop :=
  forall i b, bs !! i = Some b -> m !! (p + Z.of_nat i) = Some b.

(** A C string: its characters, none of them zero, and the terminator. *)
Definition cstr (m : bytes) (p : Z) (s : list Z) : Prop :=
  at_addr m p (s ++ [0]) /\ Forall (fun b => 1 <= b < 256) s.

(** [n] allocated bytes at [p]. *)
Definition allocated_at (m : bytes) (p : Z) (n : nat) : Prop :=
  forall i, (i < n)%nat -> is_Some (m !! (p + Z.of_nat i)).

(** [m'] differs from [m] only in [p, p + n). *)
Definition same_outside (m m' : bytes) (p : Z) (n : nat) : Prop :=
  forall a, ~ (p <= a < p + Z.of_nat n) -> m' !! a = m !! a.

Definition byte_mem (m : bytes) : Prop := forall a b, m !! a = Some b -> 0 <= b < 256.

Lemma at_addr_nil m p : at_addr m p [].
Proof. by intros i b ?. Qed.
Lemma at_addr_cons m p b bs : at_addr m p (b :: bs) <-> m !! p = Some b /\ at_addr m (p + 1) bs.
Proof.
  split.
  - intros H. split.
    + by rewrite <- (H 0%nat b eq_refl), Z.add_0_r.
    + intros i b' Hi. rewrite <- (H (S i) b' Hi). f_equal. lia.
  - intros [Hb H] [|i] b' Hi; simpl in Hi; [simplify_eq; by rewrite Z.add_0_r|].
    rewrite <- (H i b' Hi). f_equal. lia.
Qed.
Lemma cstr_nil m p : cstr m p [] <-> m !! p = Some 0.
Proof.
  unfold cstr. cbn [app]. rewrite at_addr_cons. split; [tauto|]. intros; split_and!; [done|apply at_addr_nil|done].
Qed.
Lemma cstr_cons m p b s : cstr m p (b :: s) <-> m !! p = Some b /\ 1 <= b < 256 /\ cstr m (p + 1) s.
Proof. unfold cstr. cbn [app]. rewrite at_addr_cons, Forall_cons. tauto. Qed.

Lemma load8_run m p b : m !! p = Some b -> load8 p m = Ok (b, m).
Proof. intros H. unfold load8, getopt. by rewrite H. Qed.
Lemma store8_run m p v : is_Some (m !! p) -> store8 p v m = Ok (tt, <[p := u8 v]> m).
Proof. intros [b H]. unfold store8. by rewrite (ST_bind_run _ _ _ _ _ (load8_run _ _ _ H)). Qed.

(** Run a load or a store whose address is known. *)
Ltac ld := rewrite (ST_bind_run _ _ _ _ _ (load8_run _ _ _ ltac:(eassumption))).

(** ** Copying *)
Lemma insert_bytes m p v : byte_mem m -> 0 <= v < 256 -> byte_mem (<[p := v]> m).
Proof. intros Hm Hv a b. rewrite lookup_insert. case_decide; [by intros [= <-]|apply Hm]. Qed.

Lemma alloc_insert m q p v n : allocated_at m p n -> allocated_at (<[q := v]> m) p n.
Proof. intros H i Hi. rewrite lookup_insert. case_decide; [eauto|by apply H]. Qed.

Lemma alloc_tail m p n : allocated_at m p (S n) -> allocated_at m (p + 1) n.
Proof. intros H i Hi. replace (p + 1 + Z.of_nat i) with (p + Z.of_nat (S i)) by lia. apply H. lia. Qed.
Lemma alloc_head m p n : allocated_at m p (S n) -> is_Some (m !! p).
Proof. intros H. specialize (H 0%nat ltac:(lia)). by rewrite Z.add_0_r in H. Qed.

Lemma memcpy_loop_spec len d s m :
  byte_mem m -> allocated_at m d len -> allocated_at m s len ->
  (d <= s \/ s + Z.of_nat len <= d) ->
  exists m', memcpy_loop d s len m = Ok (tt, m') /\ byte_mem m' /\ same_outside m m' d len /\
    forall i, (i < len)%nat -> m' !! (d + Z.of_nat i) = m !! (s + Z.of_nat i).
Proof.
  revert d s m. induction len as [|len IH]; intros d s m Hb Hd Hs Hor.
  { exists m. split_and!; [done|done|by intros ?|lia]. }
  destruct (alloc_head _ _ _ Hs) as [v Hv]. pose proof (Hb _ _ Hv) as Hv8.
  destruct (IH (d + 1) (s + 1) (<[d := v]> m)) as (m' & E & Hb' & Ho & Hc).
  - by apply insert_bytes.
  - by apply alloc_insert, alloc_tail.
  - by apply alloc_insert, alloc_tail.
  - lia.
  - exists m'. cbn [memcpy_loop]. ld.
    rewrite (ST_bind_run _ _ _ _ _ (store8_run _ _ _ (alloc_head _ _ _ Hd))), u8_small by done.
    split_and!; [done|done| |].
    + intros a Ha. rewrite Ho by lia. apply lookup_insert_ne. lia.
    + intros [|i] Hi.
      * rewrite Ho by lia. rewrite lookup_insert, decide_True by lia. by rewrite Z.add_0_r, Hv.
      * replace (d + Z.of_nat (S i)) with (d + 1 + Z.of_nat i) by lia.
        replace (s + Z.of_nat (S i)) with (s + 1 + Z.of_nat i) by lia.
        rewrite Hc by lia. apply lookup_insert_ne. lia.
Qed.

Lemma memmove_loop_spec len d s m :
  byte_mem m -> s < d ->
  (forall i, 0 <= i < Z.of_nat len -> is_Some (m !! (d - i))) ->
  (forall i, 0 <= i < Z.of_nat len -> is_Some (m !! (s - i))) ->
  exists m', memmove_loop d s len m = Ok (tt, m') /\
    (forall a, ~ (d - Z.of_nat len < a <= d) -> m' !! a = m !! a) /\
    forall i, 0 <= i < Z.of_nat len -> m' !! (d - i) = m !! (s - i).
Proof.
  revert d s m. induction len as [|len IH]; intros d s m Hb Hlt Hd Hs.
  { exists m. split_and!; [done|by intros ?|lia]. }
  destruct (Hs 0 ltac:(lia)) as [v Hv]. rewrite Z.sub_0_r in Hv. pose proof (Hb _ _ Hv) as Hv8.
  pose proof (Hd 0 ltac:(lia)) as Hd0. rewrite Z.sub_0_r in Hd0.
  destruct (IH (d - 1) (s - 1) (<[d := v]> m)) as (m' & E & Ho & Hc).
  - by apply insert_bytes.
  - lia.
  - intros i Hi. rewrite lookup_insert_ne by lia. replace (d - 1 - i) with (d - (i + 1)) by lia. apply Hd. lia.
  - intros i Hi. rewrite lookup_insert_ne by lia. replace (s - 1 - i) with (s - (i + 1)) by lia. apply Hs. lia.
  - exists m'. cbn [memmove_loop]. ld. rewrite (ST_bind_run _ _ _ _ _ (store8_run _ _ _ Hd0)), u8_small by done.
    split_and!; [done| |].
    + intros a Ha. rewrite Ho by lia. apply lookup_insert_ne. lia.
    + intros i Hi. destruct (decide (i = 0)) as [->|].
      * rewrite Ho by lia. rewrite lookup_insert, decide_True by lia. by rewrite Z.sub_0_r, Hv.
      * replace (d - i) with (d - 1 - (i - 1)) by lia. replace (s - i) with (s - 1 - (i - 1)) by lia.
        rewrite Hc by lia. apply lookup_insert_ne. lia.
Qed.

(** [memcpy], and [memmove] towards lower addresses, move the bytes as they were
    before the call, also when the ranges overlap, and change nothing else. *)
Theorem memmove_down_correct dst src len m :
  byte_mem m -> dst <= src -> Z.of_nat len < MEMCPY_MAX ->
  allocated_at m dst len -> allocated_at m src len ->
  exists m', memmove dst src len m = Ok (dst, m') /\ memcpy dst src len m = Ok (dst, m') /\
    same_outside m m' dst len /\
    forall i, (i < len)%nat -> m' !! (dst + Z.of_nat i) = m !! (src + Z.of_nat i).
Proof.
  intros Hb Hle Hlen Hd Hs. destruct (memcpy_loop_spec len dst src m) as (m' & E & _ & Ho & Hc); try done; [by left|].
  assert (Hcpy : memcpy dst src len m = Ok (dst, m')).
  { unfold memcpy. rewrite (proj2 (Z.ltb_lt _ _) Hlen). cbn [assert]. by run; rewrite E. }
  exists m'. split_and!; [|done..].
  unfold memmove. rewrite (proj2 (Z.ltb_lt _ _) Hlen), (proj2 (Z.leb_le _ _) Hle). cbn [assert]. by run; rewrite Hcpy.
Qed.

(** [memmove] towards higher addresses is off by one.  Its loop starts at
    [dst + len] instead of [dst + len - 1]: the first byte of the destination is not
    written, and the byte one past its end is overwritten with the byte one past the
    end of the source. *)
Theorem memmove_up_off_by_one dst src len m :
  byte_mem m -> src < dst -> (0 < len)%nat -> Z.of_nat len < MEMCPY_MAX ->
  allocated_at m dst (S len) -> allocated_at m src (S len) ->
  exists m', memmove dst src len m = Ok (dst, m') /\
    m' !! dst = m !! dst /\
    m' !! (dst + Z.of_nat len) = m !! (src + Z.of_nat len) /\
    forall i, (0 < i < len)%nat -> m' !! (dst + Z.of_nat i) = m !! (src + Z.of_nat i).
Proof.
  intros Hb Hlt Hpos Hlen Hd Hs.
  destruct (memmove_loop_spec len (dst + Z.of_nat len) (src + Z.of_nat len) m) as (m' & E & Ho & Hc); [done|lia| | |].
  - intros i Hi. replace (dst + Z.of_nat len - i) with (dst + Z.of_nat (len - Z.to_nat i)) by lia. apply Hd. lia.
  - intros i Hi. replace (src + Z.of_nat len - i) with (src + Z.of_nat (len - Z.to_nat i)) by lia. apply Hs. lia.
  - exists m'. split_and!.
    + unfold memmove. rewrite (proj2 (Z.ltb_lt _ _) Hlen), (proj2 (Z.leb_gt _ _) Hlt). cbn [assert]. by run; rewrite E.
    + apply Ho. lia.
    + specialize (Hc 0 ltac:(lia)). by rewrite !Z.sub_0_r in Hc.
    + intros i Hi. specialize (Hc (Z.of_nat (len - i)) ltac:(lia)).
      replace (dst + Z.of_nat len - Z.of_nat (len - i)) with (dst + Z.of_nat i) in Hc by lia.
      replace (src + Z.of_nat len - Z.of_nat (len - i)) with (src + Z.of_nat i) in Hc by lia. done.
Qed.

(** Eight bytes at 100. *)
Definition eight_bytes : bytes := list_to_map (zip (seqZ 100 8) (seqZ 1 8)).

Lemma eight_bytes_byte : byte_mem eight_bytes.
Proof.
  intros a b H. apply elem_of_list_to_map_2, elem_of_zip_r, elem_of_seqZ in H. lia.
Qed.
Lemma eight_bytes_alloc p n :
  100 <= p -> p + Z.of_nat n <= 108 -> allocated_at eight_bytes p n.
Proof.
  intros Hp Hn i Hi. assert (Hr : 100 <= p + Z.of_nat i < 108) by lia. revert Hr. generalize (p + Z.of_nat i). clear.
  intros a Ha. assert (a = 100 \/ a = 101 \/ a = 102 \/ a = 103 \/ a = 104 \/ a = 105 \/ a = 106 \/ a = 107) as H by lia.
  repeat destruct H as [->|H]; try (eexists; vm_compute; reflexivity). subst. eexists. vm_compute. reflexivity.
Qed.

Lemma memmove_down_correct_witness :
  exists m', memmove 100 102 4 eight_bytes = Ok (100, m') /\ m' !! 103 = Some 6.
Proof.
  destruct (memmove_down_correct 100 102 4 eight_bytes) as (m' & E & _ & _ & H).
  - apply eight_bytes_byte.
  - lia.
  - done.
  - apply eight_bytes_alloc; lia.
  - apply eight_bytes_alloc; lia.
  - exists m'. split; [done|]. exact (H 3%nat ltac:(lia)).
Defined.

(** The three bytes 1 2 3 moved up by one: the first is lost and the fifth byte (5)
    is overwritten. *)
Lemma memmove_up_off_by_one_witness :
  exists m', memmove 101 100 3 eight_bytes = Ok (101, m') /\ m' !! 101 = Some 2 /\ m' !! 104 = Some 4.
Proof.
  destruct (memmove_up_off_by_one 101 100 3 eight_bytes) as (m' & E & H1 & H2 & _).
  - apply eight_bytes_byte.
  - lia.
  - lia.
  - done.
  - apply eight_bytes_alloc; lia.
  - apply eight_bytes_alloc; lia.
  - exists m'. split_and!; [done|exact H1|exact H2].
Defined.

(** ** Strings *)
Lemma strlen_spec fuel s m p :
  cstr m p s -> (length s < fuel)%nat -> strlen fuel p m = Ok (Z.of_nat (length s), m).
Proof.
  revert p fuel. induction s as [|b s IH]; intros p fuel Hs Hf; (destruct fuel as [|fuel]; [simpl in Hf; lia|]);
    cbn [strlen].
  - apply cstr_nil in Hs. by ld.
  - apply cstr_cons in Hs as (Hb & Hr & Hs). ld. destruct (Z.eqb_spec b 0); [lia|].
    rewrite (ST_bind_run _ _ _ _ _ (IH _ fuel Hs ltac:(simpl in Hf; lia))). simpl length.
    by rewrite Nat2Z.inj_succ, <- Z.add_1_r.
Qed.

(** The lexicographic order of strings of positive characters. *)
Fixpoint lex_lt (s t : list Z) : Prop :=
  match s, t with
  | _, [] => False
  | [], _ :: _ => True
  | a :: s', b :: t' => a < b \/ a = b /\ lex_lt s' t'
  end.

(** What a comparison returns: zero for equal strings, negative if the first is less. *)
Definition cmp_result (s t : list Z) (r : Z) : Prop := (r = 0 <-> s = t) /\ (r < 0 <-> lex_lt s t).

Lemma cmp_cons b s t r : cmp_result s t r -> cmp_result (b :: s) (b :: t) r.
Proof.
  intros [H1 H2]. split.
  - rewrite H1. split; congruence.
  - rewrite H2. simpl. split; [tauto|]. intros [?|[_ ?]]; [lia|done].
Qed.
Lemma cmp_diff a b s t : a <> b -> cmp_result (a :: s) (b :: t) (a - b).
Proof. intros Hne. split; simpl; split; intros H; try lia; try congruence. Qed.

Lemma strcmp_spec fuel s t m p q :
  cstr m p s -> cstr m q t -> (length s < fuel)%nat ->
  exists r, strcmp fuel p q m = Ok (r, m) /\ cmp_result s t r.
Proof.
  revert t p q fuel. induction s as [|a s IH]; intros t p q fuel Hs Ht Hf;
    (destruct fuel as [|fuel]; [simpl in Hf; lia|]); cbn [strcmp].
  - apply cstr_nil in Hs. ld. destruct t as [|b t].
    + apply cstr_nil in Ht. ld. exists 0. by split; [|split; simpl].
    + apply cstr_cons in Ht as (Hb & Hr & _). ld. destruct (Z.eqb_spec 0 b); [lia|]. simpl.
      eexists. split; [reflexivity|]. split; split; simpl; intros H; try lia; done.
  - apply cstr_cons in Hs as (Ha & Hra & Hs). ld. destruct t as [|b t].
    + apply cstr_nil in Ht. ld. destruct (Z.eqb_spec a 0); [lia|]. simpl.
      eexists. split; [reflexivity|]. split; split; simpl; intros H; try lia; done.
    + apply cstr_cons in Ht as (Hb & Hrb & Ht). ld. destruct (Z.eqb_spec a b) as [->|Hne]; simpl.
      * destruct (Z.eqb_spec b 0); [lia|].
        destruct (IH t _ _ fuel Hs Ht ltac:(simpl in Hf; lia)) as (r & E & Hr). exists r. split; [done|]. by apply cmp_cons.
      * eexists. split; [reflexivity|]. by apply cmp_diff.
Qed.

Lemma strncmp_spec n s t m p q :
  cstr m p s -> cstr m q t ->
  exists r, strncmp p q n m = Ok (r, m) /\ cmp_result (take n s) (take n t) r.
Proof.
  revert s t p q. induction n as [|n IH]; intros s t p q Hs Ht.
  { exists 0. split; [done|]. split; split; simpl; intros; try lia; done. }
  cbn [strncmp]. destruct s as [|a s].
  - apply cstr_nil in Hs. ld. destruct t as [|b t].
    + apply cstr_nil in Ht. ld. exists 0. by split; [|split; simpl].
    + apply cstr_cons in Ht as (Hb & Hr & _). ld. destruct (Z.eqb_spec 0 b); [lia|]. simpl.
      eexists. split; [reflexivity|]. split; split; simpl; intros H; try lia; done.
  - apply cstr_cons in Hs as (Ha & Hra & Hs). ld. destruct t as [|b t].
    + apply cstr_nil in Ht. ld. destruct (Z.eqb_spec a 0); [lia|]. simpl.
      eexists. split; [reflexivity|]. split; split; simpl; intros H; try lia; done.
    + apply cstr_cons in Ht as (Hb & Hrb & Ht). ld. destruct (Z.eqb_spec a b) as [->|Hne]; simpl.
      * destruct (Z.eqb_spec b 0); [lia|].
        destruct (IH s t _ _ Hs Ht) as (r & E & Hr). exists r. split; [done|]. by apply cmp_cons.
      * eexists. split; [reflexivity|]. by apply cmp_diff.
Qed.

(** Where a string is found in another. *)
Definition occurs_at (needle s : list Z) (i : nat) : Prop :=
  (i < length s)%nat /\ take (length needle) (drop i s) = needle.

Lemma strstr_loop_spec fuel s t m p q :
  cstr m p s -> cstr m q t -> (length s < fuel)%nat ->
  exists r, strstr_loop fuel p q (length t) m = Ok (r, m) /\
    ((r = 0 /\ forall i, ~ occurs_at t s i) \/
     exists i, r = p + Z.of_nat i /\ occurs_at t s i /\ forall j, (j < i)%nat -> ~ occurs_at t s j).
Proof.
  revert p fuel. induction s as [|a s IH]; intros p fuel Hs Ht Hf;
    (destruct fuel as [|fuel]; [simpl in Hf; lia|]); cbn [strstr_loop].
  - apply cstr_nil in Hs. ld. exists 0. split; [done|]. left. split; [done|]. intros i [Hi _]. simpl in Hi. lia.
  - pose proof Hs as (Ha & Hra & Hs')%cstr_cons. ld. destruct (Z.eqb_spec a 0); [lia|].
    destruct (strncmp_spec (length t) (a :: s) t m p q Hs Ht) as (r & E & [H0 _]).
    rewrite (ST_bind_run _ _ _ _ _ E), (take_ge t) in * by done.
    destruct (Z.eqb_spec r 0) as [Hr|Hr].
    + exists p. split; [done|]. right. exists 0%nat. split_and!; [lia| |lia]. split; [simpl; lia|]. by apply H0.
    + destruct (IH (p + 1) fuel Hs' Ht ltac:(simpl in Hf; lia)) as (r' & E' & Hcase). exists r'. split; [done|].
      assert (Hno : ~ occurs_at t (a :: s) 0) by (intros [_ Ho]; apply Hr, H0; exact Ho).
      assert (Hsh : forall i, occurs_at t s i <-> occurs_at t (a :: s) (S i))
        by (intros i; unfold occurs_at; simpl; split; intros [? ?]; (split; [lia|done])).
      destruct Hcase as [[-> Hn]|(i & -> & Ho & Hj)].
      * left. split; [done|]. intros [|i]; [done|]. rewrite <- Hsh. apply Hn.
      * right. exists (S i). split_and!; [lia|by apply Hsh|]. intros [|j] Hlt; [done|]. rewrite <- Hsh. apply Hj. lia.
Qed.

(** [strstr] returns the first occurrence of the needle, or NULL when there is
    none (in a haystack that is not empty), for every fuel above the string lengths. *)
Theorem strstr_first_occurrence fuel s t m p q :
  cstr m p s -> cstr m q t -> (length s < fuel)%nat -> (length t < fuel)%nat ->
  exists r, strstr fuel p q m = Ok (r, m) /\
    ((r = 0 /\ forall i, ~ occurs_at t s i) \/
     exists i, r = p + Z.of_nat i /\ occurs_at t s i /\ forall j, (j < i)%nat -> ~ occurs_at t s j).
Proof.
  intros Hs Ht Hf Hf'. unfold strstr. rewrite (ST_bind_run _ _ _ _ _ (strlen_spec _ _ _ _ Ht Hf')), Nat2Z.id.
  by apply strstr_loop_spec.
Qed.

(** [strcmp] and [strncmp] decide equality and the lexicographic order (of the
    first [n] characters). *)
Theorem strcmp_strncmp_correct fuel n s t m p q :
  cstr m p s -> cstr m q t -> (length s < fuel)%nat ->
  (exists r, strcmp fuel p q m = Ok (r, m) /\ cmp_result s t r) /\
  (exists r, strncmp p q n m = Ok (r, m) /\ cmp_result (take n s) (take n t) r).
Proof. intros. split; [by apply strcmp_spec|by apply strncmp_spec]. Qed.

(** *** Bounded copies *)
Lemma strcpy_loop_spec left s m dst src i :
  byte_mem m -> cstr m (src + i) s -> allocated_at m (dst + i) (S left) ->
  (forall a b, src + i <= a <= src + i + Z.of_nat (length s) -> dst + i <= b < dst + i + Z.of_nat (S left) -> a <> b) ->
  exists m', strcpy_loop dst src i left m = Ok (tt, m') /\ cstr m' (dst + i) (take left s) /\
    same_outside m m' (dst + i) (S left).
Proof.
  revert s m i. induction left as [|left IH]; intros s m i Hb Hs Hd Hdis; cbn [strcpy_loop].
  { exists (<[dst + i := 0]> m). rewrite store8_run by (by eapply alloc_head). split_and!; [done| |].
    - apply cstr_nil. by rewrite lookup_insert, decide_True.
    - intros a Ha. apply lookup_insert_ne. lia. }
  destruct s as [|b s].
  { apply cstr_nil in Hs. ld. cbn [Z.eqb]. exists (<[dst + i := 0]> m).
    rewrite store8_run by (by eapply alloc_head). split_and!; [done| |].
    - apply cstr_nil. by rewrite lookup_insert, decide_True.
    - intros a Ha. apply lookup_insert_ne. lia. }
  apply cstr_cons in Hs as (Hch & Hr & Hs). ld. destruct (Z.eqb_spec b 0); [lia|].
  rewrite (ST_bind_run _ _ _ _ _ (store8_run _ _ _ (alloc_head _ _ _ Hd))), u8_small by lia.
  assert (Hs' : cstr (<[dst + i := b]> m) (src + (i + 1)) s).
  { destruct Hs as [Hat Hpos]. split; [|done]. intros j c Hj.
    apply lookup_lt_Some in Hj as Hlt. rewrite length_app in Hlt. simpl in Hlt, Hdis.
    rewrite lookup_insert_ne by (apply not_eq_sym, Hdis; lia).
    rewrite <- (Hat j c Hj). f_equal. lia. }
  destruct (IH s (<[dst + i := b]> m) (i + 1)) as (m' & E & Hc & Ho).
  - apply insert_bytes; [done|lia].
  - done.
  - replace (dst + (i + 1)) with (dst + i + 1) by lia. by apply alloc_insert, alloc_tail.
  - intros a c Ha Hb'. simpl in *. apply Hdis; lia.
  - exists m'. split_and!; [done| |].
    + cbn [take]. apply cstr_cons. split_and!; [|lia|lia|].
      * rewrite Ho by lia. by rewrite lookup_insert, decide_True.
      * by replace (dst + i + 1) with (dst + (i + 1)) by lia.
    + intros a Ha. rewrite Ho by lia. apply lookup_insert_ne. lia.
Qed.

(** [strcpy_safe] never overruns.  It leaves in the [dst_len] bytes of the
    destination a terminated string, the longest prefix of the source that fits, and
    changes no byte outside of them. *)
Theorem strcpy_safe_correct s m dst dst_len src :
  byte_mem m -> cstr m src s -> (0 < dst_len)%nat -> allocated_at m dst dst_len ->
  (src + Z.of_nat (length s) < dst \/ dst + Z.of_nat dst_len <= src) ->
  exists m', strcpy_safe dst dst_len src m = Ok (dst, m') /\ cstr m' dst (take (dst_len - 1) s) /\
    same_outside m m' dst dst_len.
Proof.
  intros Hb Hs Hn Hd Hdis. destruct dst_len as [|n]; [lia|].
  destruct (strcpy_loop_spec n s m dst src 0) as (m' & E & Hc & Ho); rewrite ?Z.add_0_r; try done; [intros; lia|].
  rewrite ?Z.add_0_r in *. exists m'. split_and!.
  - unfold strcpy_safe. replace (S n - 1)%nat with n by lia. cbn [assert Nat.ltb Nat.leb]. by run; rewrite E.
  - by replace (S n - 1)%nat with n by lia.
  - done.
Qed.

(** Two strings, "abab" at 200 and "ba" at 300, and a buffer of four bytes at 400. *)
Definition strings : bytes :=
  list_to_map (zip (seqZ 200 5) [97; 98; 97; 98; 0] ++ zip (seqZ 300 3) [98; 97; 0] ++ zip (seqZ 400 4) [1; 2; 3; 4]).
Lemma strings_abab : cstr strings 200 [97; 98; 97; 98].
Proof. repeat (apply cstr_cons; split; [by vm_compute|split; [lia|]]). apply cstr_nil. by vm_compute. Qed.
Lemma strings_ba : cstr strings 300 [98; 97].
Proof. repeat (apply cstr_cons; split; [by vm_compute|split; [lia|]]). apply cstr_nil. by vm_compute. Qed.
Lemma strings_buffer : allocated_at strings 400 4.
Proof. intros i Hi. do 4 (destruct i as [|i]; [eexists; vm_compute; reflexivity|]). lia. Qed.
Lemma strings_bytes : byte_mem strings.
Proof.
  intros a b H. apply elem_of_list_to_map_2, list_elem_of_In in H.
  vm_compute in H. repeat destruct H as [H|H]; try (injection H as <- <-; lia). done.
Qed.

Lemma strstr_first_occurrence_witness :
  exists r, strstr 9 200 300 strings = Ok (r, strings) /\ (r = 0 \/ exists i, r = 200 + Z.of_nat i /\ i = 1%nat).
Proof.
  destruct (strstr_first_occurrence 9 [97; 98; 97; 98] [98; 97] strings 200 300) as (r & E & H);
    [apply strings_abab|apply strings_ba|simpl; lia..|].
  exists r. split; [done|]. destruct H as [[-> _]|(i & -> & [Hi Ho] & _)]; [by left|]. right. exists i. split; [done|].
  simpl in Hi. do 4 (destruct i as [|i]; [try done|]); try discriminate Ho. lia.
Defined.

Lemma strcmp_strncmp_correct_witness :
  exists r, strcmp 9 200 300 strings = Ok (r, strings) /\ cmp_result [97; 98; 97; 98] [98; 97] r.
Proof.
  apply (strcmp_strncmp_correct 9 1 [97; 98; 97; 98] [98; 97] strings 200 300);
    [apply strings_abab|apply strings_ba|simpl; lia].
Defined.

Lemma strcpy_safe_correct_witness :
  exists m', strcpy_safe 400 4 200 strings = Ok (400, m') /\ cstr m' 400 [97; 98; 97].
Proof.
  destruct (strcpy_safe_correct [97; 98; 97; 98] strings 400 4 200) as (m' & E & H & _).
  - apply strings_bytes.
  - apply strings_abab.
  - lia.
  - apply strings_buffer.
  - simpl. lia.
  - by exists m'.
Defined.
