(* ===== verification/Malloc.v ===== *)
(** The user-space allocator (libs/user/malloc.c).

    The heap is tiled by chunks: a header ([struct malloc_chunk], 24 bytes) followed by
    its data.  The headers are a map from their addresses; the free list is the list of
    header addresses (its links are the verified lists of [LinkedList]); the data bytes
    are a map from addresses. *)

From S2P Require Import Prelude Types.

Definition MALLOC_FREE : Z := 168889581 (* 0x0a110ced *).
Definition MALLOC_IN_USE : Z := 3735097549 (* 0xdea110cd *).

Record malloc_chunk := Chunk { capacity : Z; size : Z; magic : Z }.
Definition sizeof_malloc_chunk : Z := 24.

Record heap := Heap {
  h_chunks : gmap Z malloc_chunk;
  h_free : list Z;              (* free_chunks *)
  h_data : gmap Z Z;
}.
Definition set_chunks x h := Heap x (h_free h) (h_data h).
Definition set_free x h := Heap (h_chunks h) x (h_data h).
Definition set_data x h := Heap (h_chunks h) (h_free h) x.

Definition chunk_at (p : Z) : ST heap malloc_chunk := getopt (fun h => h_chunks h !! p).
Definition put_chunk (p : Z) (c : malloc_chunk) : ST heap unit :=
  modify (fun h => set_chunks (<[p := c]> (h_chunks h)) h).

(** [list_push_back(&free_chunks, &chunk->next)], which asserts that the chunk is not
    linked yet. *)
Definition push_free (p : Z) : ST heap unit :=
  l ← gets (fun h => bool_decide (p ∈ h_free h));
  assert (negb l) ;;
  modify (fun h => set_free (h_free h ++ [p]) h).

(** [insert]: the [list_elem_init] of the new header makes it unlinked. *)
Definition insert_chunk (ptr len : Z) : ST heap unit :=
  assert (sizeof_malloc_chunk <? len) ;;
  put_chunk ptr (Chunk (len - sizeof_malloc_chunk) 0 MALLOC_FREE) ;;
  push_free ptr.

Definition split (chunk cap : Z) : ST heap unit :=
  c ← chunk_at chunk;
  assert (u32 (cap + sizeof_malloc_chunk + 8) <=? capacity c) ;;
  let new_chunk_size := u32 (capacity c - cap) in
  let new_chunk := chunk + sizeof_malloc_chunk + (capacity c - new_chunk_size) in
  put_chunk chunk (Chunk cap (size c) (magic c)) ;;
  insert_chunk new_chunk new_chunk_size.

(** [memset(chunk->data, 0, chunk->size)] *)
Fixpoint zero_bytes (p : Z) (n : nat) (d : gmap Z Z) : gmap Z Z :=
  match n with
  | O => d
  | S n' => zero_bytes (p + 1) n' (<[p := 0]> d)
  end.

(** The search of the free list from [q] on. *)
Fixpoint malloc_loop (size : Z) (q : list Z) : ST heap Z :=
  match q with
  | [] => panic
  | chunk :: q' =>
      c ← chunk_at chunk;
      assert (magic c =? MALLOC_FREE) ;;
      if size <=? capacity c then
        (if u32 (size + sizeof_malloc_chunk + 8) <=? capacity c then split chunk size else mret tt) ;;
        c ← chunk_at chunk;
        put_chunk chunk (Chunk (capacity c) size MALLOC_IN_USE) ;;
        modify (fun h => set_free (filter (fun a => a <> chunk) (h_free h)) h) ;;
        modify (fun h => set_data (zero_bytes (chunk + sizeof_malloc_chunk) (Z.to_nat size) (h_data h)) h) ;;
        mret (chunk + sizeof_malloc_chunk)
      else malloc_loop size q'
  end.

Definition round_size (size : Z) : Z := ALIGN_UP (if size =? 0 then 1 else size) 8.

Definition malloc (size : Z) : ST heap Z :=
  q ← gets h_free; malloc_loop (round_size size) q.

Definition get_chunk_from_ptr (ptr : Z) : ST heap Z :=
  c ← chunk_at (ptr - sizeof_malloc_chunk);
  assert (magic c =? MALLOC_IN_USE) ;;
  mret (ptr - sizeof_malloc_chunk).

Definition free (ptr : Z) : ST heap unit :=
  chunk ← get_chunk_from_ptr ptr;
  c ← chunk_at chunk;
  if magic c =? MALLOC_FREE then panic
  else
    put_chunk chunk (Chunk (capacity c) (size c) MALLOC_FREE) ;;
    push_free chunk.

Fixpoint copy_bytes (dst src : Z) (n : nat) (d : gmap Z Z) : gmap Z Z :=
  match n with
  | O => d
  | S n' => copy_bytes (dst + 1) (src + 1) n' (<[dst := default 0 (d !! src)]> d)
  end.

Definition realloc (ptr new_size : Z) : ST heap Z :=
  if ptr =? 0 then malloc new_size
  else
    chunk ← get_chunk_from_ptr ptr;
    c ← chunk_at chunk;
    let prev_size := size c in
    if new_size <=? capacity c then mret ptr
    else
      new_ptr ← malloc new_size;
      modify (fun h => set_data (copy_bytes new_ptr ptr (Z.to_nat prev_size) (h_data h)) h) ;;
      free ptr ;;
      mret new_ptr.

(** [strlen]: the characters before the first zero. *)
Fixpoint str_length (fuel : nat) (d : gmap Z Z) (s : Z) : outcome Z :=
  match fuel with
  | O => Undef
  | S fuel' =>
      match d !! s with
      | None => Undef
      | Some c => if c =? 0 then Ok 0 else n ← str_length fuel' d (s + 1); Ok (n + 1)
      end
  end.
Definition strdup (fuel : nat) (s : Z) : ST heap Z :=
  d ← gets h_data;
  len ← lift_out (str_length fuel d s);
  new_s ← malloc (u32 (len + 1));
  modify (fun h => set_data (copy_bytes new_s s (Z.to_nat (len + 1)) (h_data h)) h) ;;
  mret new_s.

(** [malloc_init] of the heap the linker script delimits. *)
Definition malloc_init (heap_start heap_end : Z) : ST heap unit :=
  insert_chunk heap_start (heap_end - heap_start).
(** libs/user/init.c, before [main]. *)
Definition hinaos_init (heap_start heap_end : Z) : ST heap unit := malloc_init heap_start heap_end.

(** ** The invariant *)

(** The headers [l] tile [lo, hi). *)
Fixpoint chain (h : gmap Z malloc_chunk) (lo : Z) (l : list Z) (hi : Z) : Prop :=
  match l with
  | [] => lo = hi
  | a :: l' => a = lo /\ exists c, h !! a = Some c /\ chain h (a + sizeof_malloc_chunk + capacity c) l' hi
  end.

Record chunk_wf (c : malloc_chunk) : Prop := {
  cw_cap : 0 < capacity c;
  cw_align : capacity c `mod` 8 = 0;
  cw_magic : magic c = MALLOC_FREE \/ magic c = MALLOC_IN_USE;
  cw_size : magic c = MALLOC_IN_USE -> 0 <= size c <= capacity c;
}.

Record heap_wf (lo hi : Z) (l : list Z) (h : heap) : Prop := {
  hw_bounds : 0 < lo /\ hi < 2 ^ 32 /\ lo `mod` 8 = 0;
  hw_chain : chain (h_chunks h) lo l hi;
  hw_dom : forall a, is_Some (h_chunks h !! a) <-> a ∈ l;
  hw_chunk : forall a c, h_chunks h !! a = Some c -> chunk_wf c;
  hw_free : forall a, a ∈ h_free h <-> exists c, h_chunks h !! a = Some c /\ magic c = MALLOC_FREE;
  hw_nodup : NoDup (h_free h);
}.

(** An allocation: [n] usable bytes at [p]. *)
Definition in_use (h : heap) (p n : Z) : Prop :=
  exists c, h_chunks h !! (p - sizeof_malloc_chunk) = Some c /\ magic c = MALLOC_IN_USE /\ n = capacity c.

(** ** Chains *)
Lemma chain_app h lo l1 l2 hi :
  chain h lo (l1 ++ l2) hi <-> exists mid, chain h lo l1 mid /\ chain h mid l2 hi.
Proof.
  revert lo. induction l1 as [|a l1 IH]; intros lo; simpl.
  - split; [eauto|by intros (? & -> & ?)].
  - split.
    + intros (-> & c & Hc & (mid & H1 & H2)%IH). exists mid. eauto.
    + intros (mid & (-> & c & Hc & H1) & H2). split; [done|]. exists c. split; [done|]. apply IH. eauto.
Qed.

Lemma chain_ext h h' lo l hi :
  (forall a, a ∈ l -> capacity <$> h' !! a = capacity <$> h !! a) -> chain h lo l hi -> chain h' lo l hi.
Proof.
  revert lo. induction l as [|a l IH]; intros lo He; [done|]. cbn [chain]. intros (-> & c & Hc & H).
  split; [done|]. pose proof (He lo ltac:(by left)) as E. rewrite Hc in E. simpl in E.
  destruct (h' !! lo) as [c'|] eqn:Hc'; simpl in E; [|done]. injection E as E. exists c'. split; [done|].
  rewrite E. apply IH; [|done]. intros b Hb. apply He. by right.
Qed.

Section Chains.
Context (h : gmap Z malloc_chunk) (Hwf : forall a c, h !! a = Some c -> chunk_wf c).

Lemma chain_le lo l hi : chain h lo l hi -> lo <= hi.
Proof.
  revert lo. induction l as [|a l IH]; intros lo; cbn [chain]; [lia|]. intros (-> & c & Hc & H%IH).
  pose proof (cw_cap _ (Hwf _ _ Hc)). unfold sizeof_malloc_chunk in *. lia.
Qed.

Lemma chain_bounds lo l hi a c :
  chain h lo l hi -> a ∈ l -> h !! a = Some c ->
  lo <= a /\ a + sizeof_malloc_chunk + capacity c <= hi /\ a `mod` 8 = lo `mod` 8.
Proof.
  revert lo. induction l as [|b l IH]; intros lo; [by intros _ ?%not_elem_of_nil|].
  cbn [chain]. intros (-> & c' & Hc' & H) [->|Ha]%elem_of_cons Hc.
  - assert (c' = c) as -> by congruence. apply chain_le in H. split_and!; [lia|done|done].
  - pose proof (Hwf _ _ Hc') as [Hcap Hal _ _]. destruct (IH _ H Ha Hc) as (? & ? & E).
    unfold sizeof_malloc_chunk in *. split_and!; [lia|lia|]. lia.
Qed.

(** Two chunks of a chain do not overlap. *)
Lemma chain_disjoint lo l hi a b c d :
  chain h lo l hi -> a ∈ l -> b ∈ l -> a <> b -> h !! a = Some c -> h !! b = Some d ->
  a + sizeof_malloc_chunk + capacity c <= b \/ b + sizeof_malloc_chunk + capacity d <= a.
Proof.
  revert lo. induction l as [|x l IH]; intros lo; [by intros _ ?%not_elem_of_nil|].
  cbn [chain]. intros (-> & e & He & H) [->|Ha]%elem_of_cons [->|Hb]%elem_of_cons Hne Hc Hd; [done| | |].
  - assert (e = c) as -> by congruence. left. apply (chain_bounds _ _ _ b d H Hb Hd).
  - assert (e = d) as -> by congruence. right. apply (chain_bounds _ _ _ a c H Ha Hc).
  - by eapply IH.
Qed.
End Chains.

(** ** The transitions of [malloc] *)
Definition mark_used (a sz : Z) (c : malloc_chunk) (h : heap) : heap :=
  set_free (filter (fun x => x <> a) (h_free h))
    (set_chunks (<[a := Chunk (capacity c) sz MALLOC_IN_USE]> (h_chunks h)) h).
Definition split_state (a sz : Z) (c : malloc_chunk) (h : heap) : heap :=
  let b := a + sizeof_malloc_chunk + sz in
  set_free (h_free h ++ [b])
    (set_chunks (<[b := Chunk (capacity c - sz - sizeof_malloc_chunk) 0 MALLOC_FREE]>
       (<[a := Chunk sz (size c) (magic c)]> (h_chunks h))) h).

Section Wf.
Context (lo hi : Z) (l : list Z) (h : heap) (W : heap_wf lo hi l h).
Context (a : Z) (c : malloc_chunk) (Hc : h_chunks h !! a = Some c).

Lemma chunk_in : a ∈ l.
Proof. apply (hw_dom _ _ _ _ W). eauto. Qed.
Lemma chunk_bounds : lo <= a /\ a + sizeof_malloc_chunk + capacity c <= hi /\ a `mod` 8 = 0.
Proof.
  destruct (chain_bounds _ (hw_chunk _ _ _ _ W) _ _ _ a c (hw_chain _ _ _ _ W) chunk_in Hc) as (? & ? & ->).
  destruct (hw_bounds _ _ _ _ W) as (_ & _ & ?). done.
Qed.

Lemma mark_used_wf sz :
  magic c = MALLOC_FREE -> 0 <= sz <= capacity c -> heap_wf lo hi l (mark_used a sz c h).
Proof.
  intros Hm Hsz. pose proof (hw_chunk _ _ _ _ W _ _ Hc) as [Hcap Hal _ _]. split; simpl.
  - apply W.
  - eapply chain_ext; [|apply W]. intros x _. rewrite lookup_insert. case_decide; [|done]. subst. by rewrite Hc.
  - intros x. rewrite <- (hw_dom _ _ _ _ W). rewrite lookup_insert. case_decide; [|done]. subst. split; eauto.
  - intros x d. rewrite lookup_insert. case_decide; [|apply W]. intros [= <-]. split; simpl; auto.
  - intros x. rewrite list_elem_of_filter, (hw_free _ _ _ _ W), lookup_insert. case_decide as Hx.
    + subst. split; [by intros [? _]|]. intros (d & [= <-] & E). by vm_compute in E.
    + split; [by intros [_ ?]|]. intros H. split; [congruence|done].
  - apply NoDup_filter, W.
Qed.

Lemma split_fresh sz : 0 <= sz < capacity c -> a + sizeof_malloc_chunk + sz ∉ l.
Proof.
  intros Hsz Hin. destruct (proj2 (hw_dom _ _ _ _ W _) Hin) as [d Hd].
  pose proof (hw_chunk _ _ _ _ W _ _ Hd) as [Hcap _ _ _]. unfold sizeof_malloc_chunk in *.
  destruct (chain_disjoint _ (hw_chunk _ _ _ _ W) _ _ _ a (a + 24 + sz) c d (hw_chain _ _ _ _ W) chunk_in Hin);
    [lia|done|done| |]; unfold sizeof_malloc_chunk in *; lia.
Qed.

Lemma split_state_wf sz :
  magic c = MALLOC_FREE -> 0 < sz -> sz `mod` 8 = 0 -> sz + sizeof_malloc_chunk + 8 <= capacity c ->
  exists l', heap_wf lo hi l' (split_state a sz c h).
Proof.
  intros Hm H0 Hal Hle. set (b := a + sizeof_malloc_chunk + sz).
  assert (Hb : b ∉ l) by (apply split_fresh; unfold sizeof_malloc_chunk in *; lia).
  assert (Hab : b <> a) by (unfold b, sizeof_malloc_chunk; lia).
  pose proof (hw_chunk _ _ _ _ W _ _ Hc) as [_ Hcal _ _]. pose proof (hw_chain _ _ _ _ W) as Hch.
  destruct (list_elem_of_split _ _ chunk_in) as (l1 & l2 & El). rewrite El in Hch, Hb.
  rewrite elem_of_app, elem_of_cons in Hb.
  assert (Hnd : a ∉ l1 /\ a ∉ l2).
  { apply chain_app in Hch as (mid & H1 & H2). cbn [chain] in H2. destruct H2 as (<- & c' & Hc' & H2).
    assert (c' = c) as -> by congruence. pose proof (cw_cap _ (hw_chunk _ _ _ _ W _ _ Hc)). split; intros Hin.
    - pose proof (chain_bounds _ (hw_chunk _ _ _ _ W) _ _ _ _ _ H1 Hin Hc). unfold sizeof_malloc_chunk in *. lia.
    - pose proof (chain_bounds _ (hw_chunk _ _ _ _ W) _ _ _ _ _ H2 Hin Hc). unfold sizeof_malloc_chunk in *. lia. }
  exists (l1 ++ a :: b :: l2). split; simpl; fold b.
  - apply W.
  - apply chain_app in Hch as (mid & H1 & H2). apply chain_app. exists mid. split.
    + eapply chain_ext; [|exact H1]. intros x Hx. rewrite !lookup_insert_ne; [done|intros ->; tauto..].
    + cbn [chain] in *. destruct H2 as (<- & c' & Hc' & H2). assert (c' = c) as -> by congruence. split; [done|].
      eexists. rewrite lookup_insert_ne, lookup_insert, decide_True by done. split; [reflexivity|]. cbn [capacity].
      split; [done|]. eexists. fold b. rewrite lookup_insert, decide_True by done. split; [reflexivity|]. cbn [capacity].
      replace (b + sizeof_malloc_chunk + (capacity c - sz - sizeof_malloc_chunk))
        with (a + sizeof_malloc_chunk + capacity c) by (unfold b; lia).
      eapply chain_ext; [|exact H2]. intros x Hx. rewrite !lookup_insert_ne; [done|intros ->; tauto..].
  - intros x. rewrite elem_of_app, !elem_of_cons, !lookup_insert. case_decide; [subst; split; eauto|].
    case_decide; [subst; split; eauto|]. rewrite (hw_dom _ _ _ _ W), El, elem_of_app, elem_of_cons. naive_solver.
  - intros x d. rewrite !lookup_insert. case_decide.
    { intros [= <-]. unfold sizeof_malloc_chunk in *. split; simpl; [lia|lia|by left|]. intros E. by vm_compute in E. }
    case_decide; [|apply W]. intros [= <-]. split; simpl; [lia|done|by left|]. rewrite Hm. intros E. by vm_compute in E.
  - intros x. rewrite elem_of_app, list_elem_of_singleton, (hw_free _ _ _ _ W), !lookup_insert.
    case_decide; [subst; split; eauto|]. case_decide; [subst|split; [intros [?|?]; [done|congruence]|by left]].
    rewrite Hc. split; [intros _; eauto|]. intros _. left. eauto.
  - apply NoDup_app. split_and!; [apply W| |apply NoDup_singleton].
    intros x Hx ->%list_elem_of_singleton. apply (hw_free _ _ _ _ W) in Hx as (d & Hd & _).
    assert (b ∈ l) by (apply (hw_dom _ _ _ _ W); eauto). rewrite El, elem_of_app, elem_of_cons in *. tauto.
Qed.
End Wf.

(** The state after an allocation of [sz] bytes from the free chunk [a]. *)
Definition taken (a sz : Z) (c : malloc_chunk) (h : heap) : heap :=
  let big := sz + sizeof_malloc_chunk + 8 <=? capacity c in
  let h1 := if big then split_state a sz c h else h in
  let c1 := if big then Chunk sz (size c) (magic c) else c in
  set_data (zero_bytes (a + sizeof_malloc_chunk) (Z.to_nat sz) (h_data h)) (mark_used a sz c1 h1).

Lemma lookup_zero_bytes p n d x :
  zero_bytes p n d !! x = if decide (p <= x < p + Z.of_nat n) then Some 0 else d !! x.
Proof.
  revert p d. induction n as [|n IH]; intros p d; cbn [zero_bytes].
  - rewrite decide_False by lia. done.
  - rewrite IH, lookup_insert. repeat case_decide; try lia; done.
Qed.

Section Run.
Context (lo hi : Z) (l : list Z) (h : heap) (W : heap_wf lo hi l h) (sz : Z).
Context (Hsz : 0 <= sz).

(** The rounding sum does not wrap for a size that fits a chunk. *)
Lemma split_test a c : h_chunks h !! a = Some c -> sz <= capacity c ->
  u32 (sz + sizeof_malloc_chunk + 8) = sz + sizeof_malloc_chunk + 8.
Proof.
  intros Hc Hle. destruct (chunk_bounds _ _ _ _ W _ _ Hc) as (? & ? & _). destruct (hw_bounds _ _ _ _ W) as (? & ? & ?).
  apply u32_small. unfold sizeof_malloc_chunk in *. lia.
Qed.

Lemma split_run a c :
  h_chunks h !! a = Some c -> sz + sizeof_malloc_chunk + 8 <= capacity c -> magic c = MALLOC_FREE ->
  split a sz h = Ok (tt, split_state a sz c h).
Proof.
  intros Hc Hle Hm. unfold split, chunk_at, getopt.
  assert (Hcap : capacity c - sz < 2 ^ 32).
  { destruct (chunk_bounds _ _ _ _ W _ _ Hc) as (? & ? & _). destruct (hw_bounds _ _ _ _ W) as (? & ? & ?).
    unfold sizeof_malloc_chunk in *. lia. }
  assert (Hf : a + sizeof_malloc_chunk + sz ∉ h_free h).
  { intros Hin. apply (hw_free _ _ _ _ W) in Hin as (d & Hd & _).
    eapply (split_fresh _ _ _ _ W _ _ Hc sz); [unfold sizeof_malloc_chunk in *; lia|].
    apply (hw_dom _ _ _ _ W). eauto. }
  run. rewrite Hc. rewrite (split_test a c Hc) by (unfold sizeof_malloc_chunk in *; lia).
  rewrite (proj2 (Z.leb_le _ _) Hle). simpl. rewrite (u32_small (capacity c - sz)) by (unfold sizeof_malloc_chunk in *; lia).
  unfold insert_chunk, put_chunk, push_free. run.
  destruct (Z.ltb_spec sizeof_malloc_chunk (capacity c - sz)); [|unfold sizeof_malloc_chunk in *; lia]. simpl.
  replace (a + sizeof_malloc_chunk + (capacity c - (capacity c - sz))) with (a + sizeof_malloc_chunk + sz) by lia.
  rewrite bool_decide_false by done. done.
Qed.

Lemma malloc_loop_spec q :
  (forall a, a ∈ q -> a ∈ h_free h) ->
  (malloc_loop sz q h = Panic /\ forall a c, a ∈ q -> h_chunks h !! a = Some c -> capacity c < sz) \/
  exists a c, a ∈ q /\ h_chunks h !! a = Some c /\ magic c = MALLOC_FREE /\ sz <= capacity c /\
    malloc_loop sz q h = Ok (a + sizeof_malloc_chunk, taken a sz c h).
Proof.
  induction q as [|a q IH]; intros Hq. { left. split; [done|]. by intros a c ?%not_elem_of_nil. }
  destruct (proj1 (hw_free _ _ _ _ W a) (Hq a ltac:(by left))) as (c & Hc & Hm).
  cbn [malloc_loop]. rewrite (ST_bind_run (chunk_at a) _ h c h) by (unfold chunk_at, getopt; by rewrite Hc).
  rewrite Hm, Z.eqb_refl. cbn [assert].
  change ((mret tt : ST heap unit) ≫= ?f) with (fun s => f tt s). cbv beta.
  destruct (Z.leb_spec sz (capacity c)) as [Hle|Hlt].
  - right. exists a, c. split_and!; [by left|done..|]. rewrite (split_test a c Hc Hle). unfold taken.
    destruct (Z.leb_spec (sz + sizeof_malloc_chunk + 8) (capacity c)) as [Hbig|Hsm].
    + rewrite (ST_bind_run _ _ _ _ _ (split_run a c Hc Hbig Hm)). unfold chunk_at, put_chunk. run.
      unfold sizeof_malloc_chunk at 1. rewrite lookup_insert_ne by (unfold sizeof_malloc_chunk; lia).
      rewrite lookup_insert, decide_True by done. done.
    + unfold chunk_at, put_chunk. run. by rewrite Hc.
  - destruct (IH ltac:(intros; apply Hq; by right)) as [[E Hall]|(a' & c' & Ha' & Hc' & Hm' & Hle & E)].
    + left. split; [done|]. intros b d [->|Hb]%elem_of_cons Hd; [congruence|eauto].
    + right. exists a', c'. split_and!; [by right|done..].
Qed.

(** The allocation keeps the heap well formed. *)
Lemma taken_wf a c :
  0 < sz -> sz `mod` 8 = 0 -> h_chunks h !! a = Some c -> magic c = MALLOC_FREE -> sz <= capacity c -> exists l', heap_wf lo hi l' (taken a sz c h).
Proof.
  intros H0 Hal Hc Hm Hle. unfold taken. destruct (Z.leb_spec (sz + sizeof_malloc_chunk + 8) (capacity c)) as [Hbig|Hsm].
  - destruct (split_state_wf _ _ _ _ W a c Hc sz Hm H0 Hal Hbig) as (l' & W'). exists l'.
    assert (Hc1 : h_chunks (split_state a sz c h) !! a = Some (Chunk sz (size c) (magic c))).
    { simpl. rewrite lookup_insert_ne by (unfold sizeof_malloc_chunk; lia). by rewrite lookup_insert, decide_True. }
    pose proof (mark_used_wf _ _ _ _ W' a _ Hc1 sz Hm ltac:(simpl; lia)) as W2. destruct W2. by split.
  - exists l. pose proof (mark_used_wf _ _ _ _ W a _ Hc sz Hm ltac:(lia)) as W2. destruct W2. by split.
Qed.
End Run.

Lemma round_size_spec n : 0 <= n <= 2 ^ 32 - 8 ->
  n <= round_size n /\ 0 < round_size n /\ round_size n `mod` 8 = 0 /\ round_size n < 2 ^ 32.
Proof.
  intros Hn. unfold round_size. set (m := if n =? 0 then 1 else n).
  assert (Hm : 1 <= m <= 2 ^ 32 - 8 /\ n <= m) by (unfold m; destruct (Z.eqb_spec n 0); lia).
  change 8 with (2 ^ 3). rewrite align_up_pow2 by lia. simpl. lia.
Qed.

(** *** The blocks in use *)
Lemma in_use_not_free h p n a c :
  in_use h p n -> h_chunks h !! a = Some c -> magic c = MALLOC_FREE -> p - sizeof_malloc_chunk <> a.
Proof. intros (d & Hd & Hm & _) Hc Hf <-. rewrite Hd in Hc. injection Hc as ->. rewrite Hm in Hf. by vm_compute in Hf. Qed.

Section Taken.
Context (lo hi : Z) (l : list Z) (h : heap) (W : heap_wf lo hi l h) (sz a : Z) (c : malloc_chunk).
Context (H0 : 0 <= sz <= capacity c) (Hc : h_chunks h !! a = Some c) (Hm : magic c = MALLOC_FREE).

(** The chunk [a] is in use, with at least [sz] bytes of its old data area. *)
Lemma taken_used : exists m, sz <= m <= capacity c /\ in_use (taken a sz c h) (a + sizeof_malloc_chunk) m.
Proof.
  unfold taken. destruct (_ <=? capacity c); (eexists; split; [|eexists; split; [|split; [|reflexivity]]]);
    try (simpl; rewrite Z.add_simpl_r, lookup_insert, decide_True by done; reflexivity); try done; simpl; lia.
Qed.

(** The other chunks in use stay what they are and do not overlap it. *)
Lemma taken_others q n :
  in_use h q n -> in_use (taken a sz c h) q n /\
  (q + n <= a \/ a + sizeof_malloc_chunk + capacity c <= q - sizeof_malloc_chunk).
Proof.
  intros Hu. pose proof (in_use_not_free _ _ _ _ _ Hu Hc Hm) as Hne. destruct Hu as (d & Hd & Hdm & ->). split.
  - exists d. split_and!; [|done..]. unfold taken. destruct (Z.leb_spec (sz + sizeof_malloc_chunk + 8) (capacity c)); simpl.
    + rewrite !lookup_insert_ne; [done|done| |done]. intros E.
      assert (Hfr : a + sizeof_malloc_chunk + sz ∉ l)
        by (eapply (split_fresh _ _ _ _ W _ _ Hc); unfold sizeof_malloc_chunk in *; lia).
      apply Hfr. rewrite E. apply (hw_dom _ _ _ _ W). eauto.
    + by rewrite lookup_insert_ne.
  - destruct (chain_disjoint _ (hw_chunk _ _ _ _ W) _ _ _ _ _ _ _ (hw_chain _ _ _ _ W)
      (chunk_in _ _ _ _ W _ _ Hd) (chunk_in _ _ _ _ W _ _ Hc) Hne Hd Hc); unfold sizeof_malloc_chunk in *; lia.
Qed.

Lemma taken_data x :
  h_data (taken a sz c h) !! x =
  if decide (a + sizeof_malloc_chunk <= x < a + sizeof_malloc_chunk + sz) then Some 0 else h_data h !! x.
Proof.
  unfold taken. cbn [h_data set_data]. rewrite lookup_zero_bytes, Z2Nat.id by lia. done.
Qed.
End Taken.

(** [malloc] on a well-formed heap. *)
Lemma malloc_run lo hi l h n :
  heap_wf lo hi l h -> 0 <= n <= 2 ^ 32 - 8 ->
  (malloc n h = Panic /\
     forall a c, a ∈ h_free h -> h_chunks h !! a = Some c -> capacity c < round_size n) \/
  exists p h' l' m, malloc n h = Ok (p, h') /\ heap_wf lo hi l' h' /\
    p `mod` 8 = 0 /\ lo <= p /\ p + m <= hi /\ n <= m /\ in_use h' p m /\
    (forall q k, in_use h q k -> in_use h' q k /\ (q + k <= p - sizeof_malloc_chunk \/ p + m <= q - sizeof_malloc_chunk)) /\
    (forall x, p <= x < p + n -> h_data h' !! x = Some 0) /\
    (forall x, ~ (p <= x < p + m) -> h_data h' !! x = h_data h !! x).
Proof.
  intros W Hn. destruct (round_size_spec n Hn) as (Hle & H0 & Hal & _). unfold malloc. run.
  destruct (malloc_loop_spec lo hi l h W (round_size n) ltac:(lia) (h_free h) ltac:(done)) as [?|(a & c & Ha & Hc & Hm & Hcap & E)];
    [by left|right].
  destruct (taken_wf lo hi l h W (round_size n) ltac:(lia) a c H0 Hal Hc Hm Hcap) as (l' & W').
  destruct (taken_used h (round_size n) a c ltac:(lia)) as (m & Hm' & Hu).
  destruct (chunk_bounds _ _ _ _ W _ _ Hc) as (Hlo & Hhi & Hmod).
  exists (a + sizeof_malloc_chunk), (taken a (round_size n) c h), l', m. unfold sizeof_malloc_chunk in *. split_and!; try done; try lia.
  - intros q k Hq. destruct (taken_others lo hi l h W (round_size n) a c ltac:(lia) Hc Hm q k Hq) as [? ?].
    unfold sizeof_malloc_chunk in *. split; [done|lia].
  - intros x Hx. rewrite taken_data by lia. unfold sizeof_malloc_chunk. rewrite decide_True by lia. done.
  - intros x Hx. rewrite taken_data by lia. unfold sizeof_malloc_chunk. rewrite decide_False by lia. done.
Qed.

(** *** Release *)
Definition freed (a : Z) (c : malloc_chunk) (h : heap) : heap :=
  set_free (h_free h ++ [a]) (set_chunks (<[a := Chunk (capacity c) (size c) MALLOC_FREE]> (h_chunks h)) h).

Lemma free_run lo hi l h p c :
  heap_wf lo hi l h -> h_chunks h !! (p - sizeof_malloc_chunk) = Some c -> magic c = MALLOC_IN_USE ->
  free p h = Ok (tt, freed (p - sizeof_malloc_chunk) c h).
Proof.
  intros W Hc Hm. assert (Hnf : p - sizeof_malloc_chunk ∉ h_free h).
  { intros Hin. apply (hw_free _ _ _ _ W) in Hin as (d & Hd & E). rewrite Hc in Hd. injection Hd as <-. rewrite Hm in E. by vm_compute in E. }
  unfold free, get_chunk_from_ptr, chunk_at, put_chunk, push_free. run. rewrite Hc. rewrite Hm. simpl.
  rewrite Hc, Hm. simpl. by rewrite bool_decide_false.
Qed.

Lemma freed_wf lo hi l h a c :
  heap_wf lo hi l h -> h_chunks h !! a = Some c -> magic c = MALLOC_IN_USE -> heap_wf lo hi l (freed a c h).
Proof.
  intros W Hc Hm. pose proof (hw_chunk _ _ _ _ W _ _ Hc) as [Hcap Hal _ _]. split; simpl.
  - apply W.
  - eapply chain_ext; [|apply W]. intros x _. rewrite lookup_insert. case_decide; [|done]. subst. by rewrite Hc.
  - intros x. rewrite <- (hw_dom _ _ _ _ W). rewrite lookup_insert. case_decide; [|done]. subst. split; eauto.
  - intros x d. rewrite lookup_insert. case_decide; [|apply W]. intros [= <-]. split; simpl; [done|done|by left|].
    intros E. by vm_compute in E.
  - intros x. rewrite elem_of_app, list_elem_of_singleton, (hw_free _ _ _ _ W), lookup_insert. case_decide as Hx.
    + subst. split; [eauto|by right].
    + split; [intros [?|Hx2]; [done|by subst]|by left].
  - apply NoDup_app. split_and!; [apply W| |apply NoDup_singleton].
    intros x Hx ->%list_elem_of_singleton. apply (hw_free _ _ _ _ W) in Hx as (d & Hd & E).
    rewrite Hc in Hd. injection Hd as <-. rewrite Hm in E. by vm_compute in E.
Qed.

(** [free] releases exactly one block.  Freeing a block in use keeps the heap well
    formed, makes that block (and no other) available again, and a second [free] of the
    same pointer stops the program. *)
Theorem free_correct lo hi l h p n :
  heap_wf lo hi l h -> in_use h p n ->
  exists h', free p h = Ok (tt, h') /\ heap_wf lo hi l h' /\
    p - sizeof_malloc_chunk ∈ h_free h' /\
    (forall q k, in_use h' q k <-> in_use h q k /\ q <> p) /\
    free p h' = Panic.
Proof.
  intros W (c & Hc & Hm & ->). exists (freed (p - sizeof_malloc_chunk) c h). split_and!.
  - by eapply free_run.
  - by apply freed_wf.
  - simpl. rewrite elem_of_app, list_elem_of_singleton. by right.
  - intros q k. unfold in_use, freed. simpl. rewrite lookup_insert. case_decide as E.
    + split; [intros (d & [= <-] & Em & _); by vm_compute in Em|]. intros [_ Hq]. exfalso. apply Hq. lia.
    + split; [|by intros [? _]]. intros Hd. split; [done|]. intros ->. done.
  - unfold free, get_chunk_from_ptr, chunk_at. run. by rewrite lookup_insert, decide_True.
Qed.

(** *** Growing a block *)
Lemma lookup_copy_bytes dst src n d x :
  ~ (dst <= x < dst + Z.of_nat n) -> copy_bytes dst src n d !! x = d !! x.
Proof.
  revert dst src d. induction n as [|n IH]; intros dst src d Hx; cbn [copy_bytes]; [done|].
  rewrite IH by lia. apply lookup_insert_ne. lia.
Qed.

(** ** strdup *)
Definition string_at (d : gmap Z Z) (s : Z) (t : list Z) : Prop :=
  Forall (fun c => c <> 0) t /\ forall i c, (t ++ [0]) !! i = Some c -> d !! (s + Z.of_nat i) = Some c.
Lemma str_length_run t : forall fuel d s, (length t < fuel)%nat -> string_at d s t -> str_length fuel d s = Ok (Z.of_nat (length t)).
Proof.
  induction t as [|c t IH]; intros [|fuel] d s Hf [Hz Hd]; cbn in Hf; try lia; cbn [str_length].
  - pose proof (Hd 0%nat 0 eq_refl) as E. rewrite Z.add_0_r in E. by rewrite E.
  - pose proof (Hd 0%nat c eq_refl) as E. rewrite Z.add_0_r in E. rewrite E. apply Forall_cons in Hz as [Hc Hz]. rewrite (proj2 (Z.eqb_neq _ _) Hc).
    rewrite (IH fuel d (s + 1)); [cbn; f_equal; lia|lia|]. split; [done|]. intros i x Hi. replace (s + 1 + Z.of_nat i) with (s + Z.of_nat (S i)) by lia. by apply Hd.
Qed.
Lemma copy_bytes_get n : forall dst src d i, (dst + Z.of_nat n <= src \/ src + Z.of_nat n <= dst) -> (i < n)%nat ->
  copy_bytes dst src n d !! (dst + Z.of_nat i) = Some (default 0 (d !! (src + Z.of_nat i))).
Proof.
  induction n as [|n IH]; intros dst src d i Hs Hi; [lia|]. cbn [copy_bytes]. destruct i as [|i].
  - rewrite lookup_copy_bytes by lia. rewrite !Z.add_0_r. by rewrite lookup_insert_eq.
  - replace (dst + Z.of_nat (S i)) with (dst + 1 + Z.of_nat i) by lia. replace (src + Z.of_nat (S i)) with (src + 1 + Z.of_nat i) by lia.
    rewrite IH by lia. by rewrite lookup_insert_ne by lia.
Qed.

(** [strdup] of a string inside a block in use returns a block that overlaps none in use and
    holds the same string, whose original stays as it is; it panics only without memory. *)
Theorem strdup_correct lo hi l h fuel q k s t :
  heap_wf lo hi l h -> in_use h q k -> q <= s -> s + Z.of_nat (length t) + 1 <= q + k -> string_at (h_data h) s t ->
  (length t < fuel)%nat -> Z.of_nat (length t) + 1 <= 2 ^ 32 - 8 ->
  strdup fuel s h = Panic \/
  exists p h' l', strdup fuel s h = Ok (p, h') /\ heap_wf lo hi l' h' /\
    string_at (h_data h') p t /\ string_at (h_data h') s t /\ in_use h' q k /\ exists m, in_use h' p m /\ Z.of_nat (length t) + 1 <= m.
Proof.
  intros W Hq Hs He Ht Hf Hl. unfold strdup. rewrite (ST_bind_run (gets _) _ _ _ _ eq_refl).
  assert (Hlen : lift_out (str_length fuel (h_data h) s) h = Ok (Z.of_nat (length t), h)) by (unfold lift_out; by rewrite (str_length_run t)).
  rewrite (ST_bind_run _ _ _ _ _ Hlen), u32_small by lia.
  destruct (malloc_run lo hi l h (Z.of_nat (length t) + 1) W ltac:(lia)) as [[E _]|(p & h' & l' & m & E & W' & _ & _ & _ & Hm & Hu & Ho & _ & Hd)].
  { left. unfold mbind, ST_bind. by rewrite E. }
  right. rewrite (ST_bind_run _ _ _ _ _ E). destruct (Ho q k Hq) as [Hq' Hsep]. unfold sizeof_malloc_chunk in Hsep. destruct Ht as [Hz Ht].
  set (d := copy_bytes p s (Z.to_nat (Z.of_nat (length t) + 1)) (h_data h')).
  exists p, (set_data d h'), l'. assert (Hs' : forall i c, (t ++ [0]) !! i = Some c -> h_data h' !! (s + Z.of_nat i) = Some c /\ (i < length t + 1)%nat).
  { intros i c Hi. pose proof (lookup_lt_Some _ _ _ Hi) as L. rewrite length_app in L. cbn in L. rewrite Hd by lia. by rewrite (Ht i c Hi). }
  split_and!; [done|by destruct W'|split; [done|]|split; [done|]|done|by exists m]; intros i c Hi; destruct (Hs' i c Hi) as [Hsi Li]; cbn [h_data set_data]; unfold d.
  - rewrite copy_bytes_get by lia. by rewrite Hsi.
  - by rewrite lookup_copy_bytes by lia.
Qed.

(** [realloc] loses data.  When the chunk has room it returns the same pointer
    without recording the new size, so that a later [realloc] that moves the block
    copies only the size of the first allocation: the bytes the caller stored between
    the old size and the size it was granted are zero in the new block. *)
Theorem realloc_loses_data lo hi l h p c n n2 :
  heap_wf lo hi l h -> 0 < p ->
  h_chunks h !! (p - sizeof_malloc_chunk) = Some c -> magic c = MALLOC_IN_USE ->
  size c < n <= capacity c -> capacity c < n2 <= 2 ^ 32 - 8 ->
  (exists a d, a ∈ h_free h /\ h_chunks h !! a = Some d /\ round_size n2 <= capacity d) ->
  realloc p n h = Ok (p, h) /\
  exists p2 h2, realloc p n2 h = Ok (p2, h2) /\
    forall x, size c <= x < n -> h_data h2 !! (p2 + x) = Some 0.
Proof.
  intros W Hp Hc Hm Hn Hn2 (a0 & d0 & Ha0 & Hd0 & Hr0). pose proof (hw_chunk _ _ _ _ W _ _ Hc) as [_ _ _ Hs].
  specialize (Hs Hm).
  assert (Hpre : forall k, realloc p k h = (if k <=? capacity c then mret p else
    new_ptr ← malloc k;
    modify (fun h => set_data (copy_bytes new_ptr p (Z.to_nat (size c)) (h_data h)) h) ;; free p ;; mret new_ptr) h).
  { intros k. unfold realloc. destruct (Z.eqb_spec p 0); [lia|]. unfold get_chunk_from_ptr, chunk_at. run.
    rewrite Hc, Hm. simpl. by rewrite Hc. }
  split. { rewrite Hpre. by rewrite (proj2 (Z.leb_le _ _)) by lia. }
  destruct (round_size_spec n2 ltac:(lia)) as (Hle & H0 & Hal & _).
  destruct (malloc_loop_spec lo hi l h W (round_size n2) ltac:(lia) (h_free h) ltac:(done))
    as [[_ Hno]|(a & d & Ha & Hd & Hdm & Hcap & E)]; [specialize (Hno _ _ Ha0 Hd0); lia|].
  destruct (taken_wf lo hi l h W (round_size n2) ltac:(lia) a d H0 Hal Hd Hdm Hcap) as (l' & W').
  destruct (taken_others lo hi l h W (round_size n2) a d ltac:(lia) Hd Hdm p (capacity c)) as [(c' & Hc' & Hm' & Ecap) _];
    [exists c; done|].
  set (h2 := set_data (copy_bytes (a + sizeof_malloc_chunk) p (Z.to_nat (size c)) (h_data (taken a (round_size n2) d h)))
    (taken a (round_size n2) d h)).
  assert (W2 : heap_wf lo hi l' h2) by (destruct W'; by split).
  exists (a + sizeof_malloc_chunk), (freed (p - sizeof_malloc_chunk) c' h2). split.
  - rewrite Hpre, (proj2 (Z.leb_gt _ _)) by lia.
    assert (Em : malloc n2 h = Ok (a + sizeof_malloc_chunk, taken a (round_size n2) d h)) by (unfold malloc; run; exact E).
    rewrite (ST_bind_run _ _ _ _ _ Em). erewrite ST_bind_run by reflexivity. fold h2.
    rewrite (ST_bind_run _ _ _ _ _ (free_run _ _ _ _ _ _ W2 Hc' Hm')). done.
  - intros x Hx. cbn [freed h_data set_free set_chunks]. unfold h2. cbn [h_data set_data].
    rewrite lookup_copy_bytes by lia. rewrite taken_data by lia. by rewrite decide_True by lia.
Qed.

(** *** The initial heap *)
Lemma malloc_init_wf lo hi :
  0 < lo -> hi < 2 ^ 32 -> lo `mod` 8 = 0 -> hi `mod` 8 = 0 -> lo + sizeof_malloc_chunk < hi ->
  exists h, malloc_init lo hi (Heap ∅ [] ∅) = Ok (tt, h) /\ heap_wf lo hi [lo] h.
Proof.
  intros H0 Hhi Hl Hh Hlt. eexists. split.
  - unfold malloc_init, insert_chunk, put_chunk, push_free. run.
    rewrite (proj2 (Z.ltb_lt _ _)) by lia. simpl. reflexivity.
  - unfold sizeof_malloc_chunk in *. split; simpl.
    + lia.
    + split; [done|]. eexists. rewrite lookup_insert, decide_True by done. split; [reflexivity|].
      unfold sizeof_malloc_chunk. simpl. lia.
    + intros a. rewrite list_elem_of_singleton, lookup_insert. case_decide; [subst; split; eauto|].
      rewrite lookup_empty. split; [by intros [? ?]|congruence].
    + intros a c. rewrite lookup_insert. case_decide; [|by rewrite lookup_empty]. intros [= <-].
      split; simpl; [lia|lia|by left|]. intros E. by vm_compute in E.
    + intros a. rewrite list_elem_of_singleton, lookup_insert. case_decide; [subst; split; eauto|].
      rewrite lookup_empty. split; [congruence|by intros (? & ? & _)].
    + apply NoDup_singleton.
Qed.

(** A heap of two chunks: 32 bytes in use (8 of them requested) and 400 free bytes. *)
Definition two_chunks : heap :=
  Heap (<[4096 := Chunk 32 8 MALLOC_IN_USE]> {[4152 := Chunk 400 0 MALLOC_FREE]}) [4152] ∅.
Lemma two_chunks_wf : heap_wf 4096 4576 [4096; 4152] two_chunks.
Proof.
  split; cbn [h_chunks h_free two_chunks].
  - done.
  - split; [done|]. eexists. split; [reflexivity|]. split; [done|]. eexists. split; reflexivity.
  - intros a. rewrite !elem_of_cons, elem_of_nil, lookup_insert, lookup_singleton.
    repeat case_decide; subst; split; eauto; intros Hin; try (by destruct Hin); naive_solver.
  - intros a c. rewrite lookup_insert, lookup_singleton.
    repeat case_decide; intros [= <-]; split; simpl; try done; auto; try lia.
  - intros a. rewrite list_elem_of_singleton, lookup_insert, lookup_singleton.
    repeat case_decide; subst; split; eauto; try done; intros (c & [= <-] & E); by vm_compute in E.
  - apply NoDup_singleton.
Qed.


Lemma free_correct_witness :
  exists h', free 4120 two_chunks = Ok (tt, h') /\ free 4120 h' = Panic.
Proof.
  destruct (free_correct 4096 4576 [4096; 4152] two_chunks 4120 32) as (h' & E & _ & _ & _ & H).
  - apply two_chunks_wf.
  - exists (Chunk 32 8 MALLOC_IN_USE). done.
  - eauto.
Defined.

Lemma realloc_loses_data_witness :
  realloc 4120 24 two_chunks = Ok (4120, two_chunks) /\
  exists p2 h2, realloc 4120 100 two_chunks = Ok (p2, h2) /\ h_data h2 !! (p2 + 20) = Some 0.
Proof.
  destruct (realloc_loses_data 4096 4576 [4096; 4152] two_chunks 4120 (Chunk 32 8 MALLOC_IN_USE) 24 100)
    as (E1 & p2 & h2 & E2 & H).
  - apply two_chunks_wf.
  - done.
  - done.
  - done.
  - simpl. lia.
  - simpl. lia.
  - exists 4152, (Chunk 400 0 MALLOC_FREE). split_and!; [by apply list_elem_of_singleton|done|by vm_compute].
  - split; [exact E1|]. exists p2, h2. split; [exact E2|]. apply H. simpl. lia.
Defined.
