(* ===== verification/Vprintf.v ===== *)
(** Formatted output: [vprintf] (libs/common/vprintf.c) and the user library's output
    ring (libs/user/printf.c). *)

From S2P Require Import Prelude CString.

(** Characters. *)
Definition CH_PERCENT : Z := 37.
Definition CH_MINUS : Z := 45.
Definition CH_DOT : Z := 46.
Definition CH_0 : Z := 48.
Definition CH_SPACE : Z := 32.
Definition CH_NEWLINE : Z := 10.

(** A variable argument: a 32-bit word, a 64-bit one, a pointer to a string or NULL.
    Reading an argument with the type of another is undefined. *)
Inductive varg := VWord (w : Z) | VLong (w : Z) | VStr (s : option (list Z)).

(** ** Numbers *)

(** ["0123456789abcdef"[d]] *)
Definition digit_char (d : Z) : Z := if d <? 10 then CH_0 + d else 97 + (d - 10).

(** The do-while loop: [tmp] is what lies behind the write position [i]. *)
Fixpoint print_loop (i : nat) (n base width : Z) (tmp : list Z) : list Z * Z :=
  match i with
  | O => (tmp, width)
  | S i' =>
      let tmp := digit_char (n `mod` base) :: tmp in
      let n := n / base in
      if (0 <? n) && (0 <? i')%nat then print_loop i' n base (width - 1) tmp else (tmp, width - 1)
  end.

(** [print_uint]: the characters it prints; [tmp] has 32 bytes and [i] starts at 30. *)
Definition print_uint (n base pad width : Z) : list Z :=
  let '(tmp, width) := print_loop 30 n base width [] in
  replicate (Z.to_nat width) pad ++ tmp.

(** ** Formats *)

(** The options parsed after a percent sign: [num_len], [pad], and the rest of the
    format.  (The option ['#'] assigns [alt = false], its initial value.) *)
Fixpoint parse_attrs (fmt : list Z) (num_len pad : Z) : Z * Z * list Z :=
  match fmt with
  | [] => (num_len, pad, [])
  | ch :: fmt' =>
      if ch =? 108 (* l *) then parse_attrs fmt' (num_len + 1) pad
      else if ch =? 104 (* h *) then parse_attrs fmt' (num_len - 1) pad
      else if ch =? 48 (* 0 *) then parse_attrs fmt' num_len CH_0
      else if ch =? 35 (* # *) then parse_attrs fmt' num_len pad
      else (num_len, pad, fmt)
  end.

Definition parse_width (fmt : list Z) : Z * list Z :=
  match fmt with
  | ch :: fmt' => if (49 <=? ch) && (ch <=? 57) then (ch - CH_0, fmt') else (0, fmt)
  | [] => (0, [])
  end.

(** ["<invalid format>"], ["(null)"], ["%pI"] *)
Definition INVALID_FORMAT : list Z :=
  [60; 105; 110; 118; 97; 108; 105; 100; 32; 102; 111; 114; 109; 97; 116; 62].
Definition NULL_TEXT : list Z := [40; 110; 117; 108; 108; 41].
Definition PI_TEXT : list Z := [37; 112; 73].

(** [va_arg]: an [int] or [unsigned], or a [long long] whose low word [n] keeps
    ([uintmax_t] has 32 bits). *)
Definition arg_num (num_len : Z) (args : list varg) : outcome (Z * list varg) :=
  match args with
  | VWord w :: args' => if num_len =? 3 then Undef else Ok (u32 w, args')
  | VLong w :: args' => if num_len =? 3 then Ok (u32 w, args') else Undef
  | _ => Undef
  end.

(** [case 'd']: [-((intmax_t) n)] overflows for INT_MIN. *)
Definition format_d (num_len pad width : Z) (args : list varg) : outcome (list Z * list varg) :=
  '(n, args) ← arg_num num_len args;
  if s32 n <? 0 then
    if s32 n =? - 2 ^ 31 then Undef
    else Ok (CH_MINUS :: print_uint (- s32 n) 10 pad width, args)
  else Ok (print_uint n 10 pad width, args).

(** [case 'u'] and [case 'x']. *)
Definition format_u (base num_len pad width : Z) (args : list varg) : outcome (list Z * list varg) :=
  '(n, args) ← arg_num num_len args;
  Ok (print_uint n base pad width, args).

Definition format_ipv4 (v4addr : Z) : list Z :=
  let byte sh := print_uint (Z.land (Z.shiftr v4addr sh) 255) 10 CH_SPACE 0 in
  byte 24 ++ [CH_DOT] ++ byte 16 ++ [CH_DOT] ++ byte 8 ++ [CH_DOT] ++ byte 0.

(** [case 'p']: the output and the rest of the format. ["%pI"] at the end of the format
    moves [fmt] behind the terminator. *)
Definition format_p (fmt : list Z) (args : list varg) : outcome (list Z * list Z * list varg) :=
  match fmt with
  | 73 (* I *) :: fmt' =>
      match fmt' with
      | [] => Undef
      | ch2 :: fmt'' =>
          if ch2 =? 52 (* 4 *) then
            match args with
            | VWord w :: args' => Ok (format_ipv4 (u32 w), fmt'', args')
            | _ => Undef
            end
          else Ok (PI_TEXT ++ [ch2], fmt'', args)
      end
  | _ =>
      match args with
      | VWord w :: args' => Ok (print_uint (u32 w) 16 CH_0 8, fmt, args')
      | _ => Undef
      end
  end.

(** One directive, from behind its percent sign: the output, the rest of the format and
    of the arguments; [None] instead of a rest when [vprintf] returns. *)
Definition directive (fmt : list Z) (args : list varg) : outcome (list Z * option (list Z) * list varg) :=
  let '(num_len, pad, fmt) := parse_attrs fmt 1 CH_SPACE in
  let '(width, fmt) := parse_width fmt in
  match fmt with
  | [] => Ok (INVALID_FORMAT, None, args)
  | ch :: fmt =>
      if ch =? 100 (* d *) then '(o, args) ← format_d num_len pad width args; Ok (o, Some fmt, args)
      else if ch =? 112 (* p *) then '(o, fmt, args) ← format_p fmt args; Ok (o, Some fmt, args)
      else if ch =? 120 (* x *) then '(o, args) ← format_u 16 num_len pad width args; Ok (o, Some fmt, args)
      else if ch =? 117 (* u *) then '(o, args) ← format_u 10 num_len pad width args; Ok (o, Some fmt, args)
      else if ch =? 99 (* c *) then
        match args with VWord w :: args => Ok ([u8 w], Some fmt, args) | _ => Undef end
      else if ch =? 115 (* s *) then
        match args with VStr s :: args => Ok (default NULL_TEXT s, Some fmt, args) | _ => Undef end
      else if ch =? 37 (* % *) then Ok ([CH_PERCENT], Some fmt, args)
      else Ok (INVALID_FORMAT, None, args)
  end.

(** [vprintf]: the characters printed for a format string (without its terminator);
    every round consumes a character, so that fuel above the length is enough. *)
Fixpoint vprintf_loop (fuel : nat) (fmt : list Z) (args : list varg) : outcome (list Z) :=
  match fuel with
  | O => Undef
  | S fuel' =>
      match fmt with
      | [] => Ok []
      | ch :: fmt' =>
          if negb (ch =? CH_PERCENT) then out ← vprintf_loop fuel' fmt' args; Ok (ch :: out)
          else
            '(o, rest, args) ← directive fmt' args;
            match rest with
            | None => Ok o
            | Some fmt'' => out ← vprintf_loop fuel' fmt'' args; Ok (o ++ out)
            end
      end
  end.
Definition vprintf (fmt : list Z) (args : list varg) : outcome (list Z) :=
  vprintf_loop (S (length fmt)) fmt args.

(** ** The user library's output ring (libs/user/printf.c) *)
Record ring := Ring {
  printbuf : list Z;     (* char printbuf[256] *)
  head : Z;
  tail : Z;
  written : list Z;      (* characters passed to sys_serial_write *)
}.
Definition PRINTBUF_SIZE : Z := 256.

(** [write_all]: [sys_serial_write] takes at most 4096 characters at a time. *)
Fixpoint write_all (fuel : nat) (str : list Z) (r : ring) : ring :=
  match fuel with
  | O => r
  | S fuel' =>
      let written_len := Z.to_nat (Z.min (Z.of_nat (length str)) 4096) in
      if (written_len =? 0)%nat then r
      else write_all fuel' (drop written_len str)
             (Ring (printbuf r) (head r) (tail r) (written r ++ take written_len str))
  end.

Definition slice (r : ring) (from to : Z) : list Z :=
  take (Z.to_nat (to - from)) (drop (Z.to_nat from) (printbuf r)).
Definition set_tail (t : Z) (r : ring) : ring := Ring (printbuf r) (head r) t (written r).

Definition printf_flush (r : ring) : ring :=
  if tail r <? head r then
    let str := slice r (tail r) (head r) in set_tail (head r) (write_all (S (length str)) str r)
  else if head r <? tail r then
    let tmp := slice r (tail r) PRINTBUF_SIZE ++ slice r 0 (head r) in
    set_tail (head r) (write_all (S (length tmp)) tmp r)
  else r.

Definition printchar (ch : Z) (r : ring) : ring :=
  let r := Ring (<[Z.to_nat (head r) := ch]> (printbuf r)) ((head r + 1) `mod` PRINTBUF_SIZE) (tail r) (written r) in
  if ((head r <? tail r) && (head r + 1 =? tail r)) || (ch =? CH_NEWLINE) then printf_flush r else r.

(** [printf]: [vprintf] into the ring. *)
Fixpoint print_chars (cs : list Z) (r : ring) : ring :=
  match cs with
  | [] => r
  | ch :: cs' => print_chars cs' (printchar ch r)
  end.
Definition printf (fmt : list Z) (args : list varg) (r : ring) : outcome ring :=
  out ← vprintf fmt args; Ok (print_chars out r).

(** ** Numbers are printed right *)

(** The number a list of digits denotes. *)
Definition value (base : Z) (ds : list Z) : Z := foldl (fun x d => x * base + d) 0 ds.

Lemma value_snoc base ds d : value base (ds ++ [d]) = value base ds * base + d.
Proof. unfold value. by rewrite foldl_app. Qed.

(** Digits of a number in a base: in range, without leading zeros. *)
Definition digits_of (base n : Z) (ds : list Z) : Prop :=
  value base ds = n /\ Forall (fun d => 0 <= d < base) ds /\ ds <> [] /\ (hd 0 ds = 0 -> ds = [0]).

Lemma print_loop_spec i n base w tmp :
  2 <= base -> 0 <= n < base ^ Z.of_nat i -> (0 < i)%nat ->
  exists ds, print_loop i n base w tmp = ((digit_char <$> ds) ++ tmp, w - Z.of_nat (length ds)) /\ digits_of base n ds.
Proof.
  intros Hb. revert n w tmp. induction i as [|i IH]; intros n w tmp Hn Hi; [lia|]. cbn [print_loop].
  assert (Hm : 0 <= n `mod` base < base) by (apply Z.mod_pos_bound; lia).
  rewrite Nat2Z.inj_succ, Z.pow_succ_r in Hn by lia.
  assert (Hq : 0 <= n / base < base ^ Z.of_nat i).
  { split; [apply Z.div_pos; lia|]. apply Z.div_lt_upper_bound; lia. }
  destruct (Z.ltb_spec 0 (n / base)) as [Hpos|Hz].
  - assert (Hi' : (0 < i)%nat) by (destruct i; [simpl in Hq; lia|lia]).
    rewrite (proj2 (Nat.ltb_lt _ _) Hi'). simpl.
    destruct (IH (n / base) (w - 1) (digit_char (n `mod` base) :: tmp) Hq Hi') as (ds & E & Hv & Hd & Hne & Hlead).
    exists (ds ++ [n `mod` base]). split; [|split_and!].
    + rewrite E, fmap_app, <- app_assoc, length_app. simpl. f_equal. lia.
    + rewrite value_snoc, Hv, Z.mul_comm. symmetry. apply Z.div_mod. lia.
    + apply Forall_app. split; [done|by constructor].
    + by destruct ds.
    + destruct ds as [|d ds]; [done|]. cbn [hd app] in *. intros Hd0. specialize (Hlead Hd0). injection Hlead as -> ->.
      unfold value in Hv. simpl in Hv. lia.
  - simpl. exists [n `mod` base]. split; [|split_and!]; [done| |by constructor|done|].
    + unfold value. simpl. pose proof (Z.div_mod n base ltac:(lia)). assert (n / base = 0) by lia. lia.
    + simpl. by intros ->.
Qed.

(** Numbers are printed right.  For every 32-bit [n] and a base from 10 to 16,
    [print_uint] prints exactly the digits of [n] in that base, without leading zeros,
    preceded by as many padding characters as the width asks for. *)
Theorem print_uint_correct n base pad width :
  0 <= n < 2 ^ 32 -> 10 <= base <= 16 ->
  exists ds k, print_uint n base pad width = replicate k pad ++ (digit_char <$> ds) /\
    digits_of base n ds /\ Z.of_nat (k + length ds) = Z.max width (Z.of_nat (length ds)).
Proof.
  intros Hn Hb. unfold print_uint.
  destruct (print_loop_spec 30 n base width []) as (ds & -> & Hds); [lia| |lia|].
  { split; [lia|]. eapply Z.lt_le_trans; [apply Hn|]. etrans; [|apply (Z.pow_le_mono_l 10); lia]. by vm_compute. }
  exists ds, (Z.to_nat (width - Z.of_nat (length ds))). split_and!; [by rewrite app_nil_r| |lia]. exact Hds.
Qed.

Lemma print_uint_correct_witness :
  exists ds k, print_uint 2748 16 CH_0 8 = replicate k CH_0 ++ (digit_char <$> ds) /\ digits_of 16 2748 ds.
Proof.
  destruct (print_uint_correct 2748 16 CH_0 8) as (ds & k & E & H & _); [lia|lia|]. by exists ds, k.
Defined.

(** *** Reading back *)
Lemma foldl_ge ds x : 0 <= x -> Forall (fun d => 0 <= d < 10) ds -> x <= foldl (fun x d => x * 10 + d) x ds.
Proof.
  revert x. induction ds as [|d ds IH]; intros x Hx HF; simpl; [lia|].
  apply Forall_cons in HF as [Hd HF]. etrans; [|apply IH; [lia|done]]. lia.
Qed.

Lemma atoi_loop_spec ds fuel m p x :
  0 <= x -> Forall (fun d => 0 <= d < 10) ds -> cstr m p (digit_char <$> ds) ->
  foldl (fun x d => x * 10 + d) x ds < 2 ^ 31 -> (length ds < fuel)%nat ->
  atoi_loop fuel p x m = Ok (foldl (fun x d => x * 10 + d) x ds, m).
Proof.
  revert fuel p x. induction ds as [|d ds IH]; intros fuel p x Hx HF Hs Hlt Hf;
    (destruct fuel as [|fuel]; [simpl in Hf; lia|]); cbn [atoi_loop fmap list_fmap foldl] in *.
  - apply cstr_nil in Hs. by ld.
  - apply Forall_cons in HF as [Hd HF]. apply cstr_cons in Hs as (Hb & _ & Hs). ld.
    assert (Ech : digit_char d = 48 + d) by (unfold digit_char, CH_0; destruct (Z.ltb_spec d 10); lia).
    rewrite Ech. pose proof (foldl_ge ds (x * 10 + d) ltac:(lia) HF).
    destruct ((48 <=? 48 + d) && (48 + d <=? 57)) eqn:E; [|lia].
    replace (x * 10 + (48 + d - 48)) with (x * 10 + d) by lia.
    destruct (Z.ltb_spec (x * 10 + d) (2 ^ 31)); [|lia]. apply IH; [lia|done|done|done|simpl in Hf; lia].
Qed.

Lemma vprintf_d x : 0 <= x < 2 ^ 31 -> vprintf [37; 100] [VWord x] = Ok (print_uint x 10 CH_SPACE 0).
Proof.
  intros Hx. unfold vprintf. cbn -[print_uint format_d]. unfold format_d. cbn -[print_uint s32 u32].
  rewrite u32_small, s32_small by lia. destruct (Z.ltb_spec x 0); [lia|]. cbn -[print_uint]. by rewrite app_nil_r.
Qed.

(** [atoi] reads back what [%d] prints.  For every non-negative [int], if the
    characters that [vprintf] prints for the format ["%d"] lie in memory as a string,
    [atoi] of that string returns the number. *)
Theorem atoi_vprintf_roundtrip x m p :
  0 <= x < 2 ^ 31 ->
  exists out, vprintf [37; 100] [VWord x] = Ok out /\
    (cstr m p out -> forall fuel, (length out < fuel)%nat -> atoi fuel p m = Ok (x, m)).
Proof.
  intros Hx. rewrite vprintf_d by done. eexists. split; [reflexivity|]. unfold print_uint.
  destruct (print_loop_spec 30 x 10 0 []) as (ds & E & Hv & Hd & _); [lia| |lia|].
  { split; [lia|]. eapply Z.lt_trans; [apply Hx|]. by vm_compute. }
  rewrite E, app_nil_r. replace (Z.to_nat (0 - Z.of_nat (length ds))) with 0%nat by lia. cbn [replicate app].
  intros Hs fuel Hf. rewrite length_fmap in Hf. unfold atoi. fold (value 10 ds) in *. unfold value in Hv.
  rewrite (atoi_loop_spec ds) by (done || lia). by rewrite Hv.
Qed.

Lemma atoi_vprintf_roundtrip_witness :
  exists out, vprintf [37; 100] [VWord 1024] = Ok out.
Proof. destruct (atoi_vprintf_roundtrip 1024 ∅ 0) as (out & E & _); [lia|]. by exists out. Defined.

(** ** The output ring *)
Definition ring_wf (r : ring) : Prop :=
  length (printbuf r) = Z.to_nat PRINTBUF_SIZE /\ 0 <= head r < PRINTBUF_SIZE /\ 0 <= tail r < PRINTBUF_SIZE.

(** Characters not passed on yet. *)
Definition pending (r : ring) : list Z :=
  if tail r <=? head r then slice r (tail r) (head r)
  else slice r (tail r) PRINTBUF_SIZE ++ slice r 0 (head r).

Lemma write_all_run str r :
  (length str <= 4096)%nat ->
  write_all (S (length str)) str r = Ring (printbuf r) (head r) (tail r) (written r ++ str).
Proof.
  intros Hl. cbn [write_all]. rewrite Z.min_l, Nat2Z.id by lia. destruct str as [|c str].
  - simpl. rewrite app_nil_r. by destruct r.
  - cbn [length Nat.eqb write_all]. rewrite (drop_ge (c :: str)), (take_ge (c :: str)) by (simpl; lia). done.
Qed.

Lemma length_slice r a b : ring_wf r -> 0 <= a <= b -> b <= PRINTBUF_SIZE -> length (slice r a b) = Z.to_nat (b - a).
Proof. intros (Hl & _ & _) Ha Hb. unfold slice. rewrite length_take, length_drop, Hl. lia. Qed.

Lemma flush_spec r :
  ring_wf r -> ring_wf (printf_flush r) /\ written (printf_flush r) = written r ++ pending r /\ pending (printf_flush r) = [].
Proof.
  intros W. pose proof W as (Hl & Hh & Ht). unfold PRINTBUF_SIZE in *.
  assert (Hnil : forall r', tail r' = head r' -> pending r' = []).
  { intros r' E. unfold pending, slice. rewrite E, Z.leb_refl, Z.sub_diag. done. }
  unfold printf_flush. destruct (Z.ltb_spec (tail r) (head r)); [|destruct (Z.ltb_spec (head r) (tail r))].
  - rewrite write_all_run by (rewrite length_slice by (done || unfold PRINTBUF_SIZE; lia); lia).
    split; [done|]. split; [|by apply Hnil]. simpl. unfold pending. by rewrite (proj2 (Z.leb_le _ _)) by lia.
  - rewrite write_all_run by (rewrite length_app, !length_slice by (done || unfold PRINTBUF_SIZE; lia); unfold PRINTBUF_SIZE; lia).
    split; [done|]. split; [|by apply Hnil]. simpl. unfold pending. by rewrite (proj2 (Z.leb_gt _ _)) by lia.
  - split; [done|]. split; [|apply Hnil; lia]. rewrite Hnil by lia. by rewrite app_nil_r.
Qed.

(** The buffer with a character stored at [i]. *)
Lemma slice_outside r buf i ch h a b :
  printbuf r = <[Z.to_nat i := ch]> buf -> 0 <= i -> 0 <= a -> (i < a \/ b <= i) ->
  slice r a b = slice (Ring buf h (tail r) (written r)) a b.
Proof.
  intros E Hi Ha Hor. unfold slice. rewrite E. simpl. apply list_eq. intros j.
  destruct (decide (j < Z.to_nat (b - a))%nat).
  - rewrite !lookup_take by done. rewrite !decide_True by lia. rewrite !lookup_drop. apply list_lookup_insert_ne. lia.
  - rewrite !lookup_take_ge by lia. done.
Qed.

Lemma slice_snoc r buf h i ch a :
  printbuf r = <[Z.to_nat i := ch]> buf -> 0 <= a <= i -> (Z.to_nat i < length buf)%nat ->
  slice r a (i + 1) = slice (Ring buf h (tail r) (written r)) a i ++ [ch].
Proof.
  intros E Ha Hi. unfold slice. rewrite E. simpl.
  replace (Z.to_nat (i + 1 - a)) with (S (Z.to_nat (i - a))) by lia.
  rewrite (take_S_r _ _ ch).
  - f_equal. apply list_eq. intros j. destruct (decide (j < Z.to_nat (i - a))%nat).
    + rewrite !lookup_take by done. rewrite !decide_True by lia. rewrite !lookup_drop. apply list_lookup_insert_ne. lia.
    + rewrite !lookup_take_ge by lia. done.
  - rewrite lookup_drop. replace (Z.to_nat a + Z.to_nat (i - a))%nat with (Z.to_nat i) by lia.
    by apply list_lookup_insert_eq.
Qed.

Definition stored (ch : Z) (r : ring) : ring :=
  Ring (<[Z.to_nat (head r) := ch]> (printbuf r)) ((head r + 1) `mod` PRINTBUF_SIZE) (tail r) (written r).

Lemma stored_wf ch r : ring_wf r -> ring_wf (stored ch r).
Proof.
  intros (Hl & Hh & Ht). unfold ring_wf, stored. simpl. rewrite length_insert.
  split; [done|]. split; [by apply Z.mod_pos_bound|done].
Qed.

Lemma stored_pending ch r :
  ring_wf r -> (head r + 1) `mod` PRINTBUF_SIZE <> tail r -> pending (stored ch r) = pending r ++ [ch].
Proof.
  intros (Hl & Hh & Ht) Hfull. unfold PRINTBUF_SIZE in *. destruct r as [buf h t w]. cbn [printbuf head tail written] in *.
  set (r' := stored ch (Ring buf h t w)). assert (E : printbuf r' = <[Z.to_nat h := ch]> buf) by done.
  assert (Et : tail r' = t) by done. unfold pending. rewrite Et. cbn [head tail].
  destruct (decide (h = 255)) as [->|Hne].
  - assert (Eh : head r' = 0) by done. rewrite Eh. simpl in Hfull.
    rewrite (proj2 (Z.leb_gt t 0)), (proj2 (Z.leb_le t 255)) by lia.
    change PRINTBUF_SIZE with (255 + 1). rewrite (slice_snoc r' buf 255 255 ch t E) by (lia || (rewrite Hl; lia)).
    rewrite Et. simpl. by rewrite app_nil_r.
  - assert (Eh : head r' = h + 1) by (unfold r', stored, PRINTBUF_SIZE; simpl; apply Z.mod_small; lia). rewrite Eh.
    rewrite Z.mod_small in Hfull by lia. destruct (Z.leb_spec t h).
    + rewrite (proj2 (Z.leb_le t (h + 1))) by lia. by rewrite (slice_snoc r' buf h h ch t E) by (lia || (rewrite Hl; lia)).
    + rewrite (proj2 (Z.leb_gt t (h + 1))) by lia. rewrite <- app_assoc. f_equal.
      * by apply (slice_outside r' buf h ch h); [|lia..].
      * by rewrite (slice_snoc r' buf h h ch 0 E) by (lia || (rewrite Hl; lia)).
Qed.

(** The output ring is a queue.  Unless the ring is full, printing a character
    appends it to the characters written and pending, in order, and a newline passes
    everything pending on to the kernel. *)
Theorem printchar_fifo ch r :
  ring_wf r -> (head r + 1) `mod` PRINTBUF_SIZE <> tail r ->
  ring_wf (printchar ch r) /\
  written (printchar ch r) ++ pending (printchar ch r) = (written r ++ pending r) ++ [ch] /\
  (ch = CH_NEWLINE -> pending (printchar ch r) = []).
Proof.
  intros W Hfull. pose proof (stored_wf ch r W) as W'. pose proof (stored_pending ch r W Hfull) as Hp.
  unfold printchar. fold (stored ch r). destruct (_ || (ch =? CH_NEWLINE)) eqn:E.
  - destruct (flush_spec _ W') as (W2 & Hw & Hn). split; [done|]. split; [|done].
    rewrite Hw, Hn, Hp, app_nil_r. simpl. by rewrite app_assoc.
  - split; [done|]. split.
    + rewrite Hp. simpl. by rewrite app_assoc.
    + intros ->. rewrite orb_true_r in E. done.
Qed.

(** The output ring loses 256 characters.  The test for a full ring does not see
    the case that it fills up while [tail] is 0: after a flush that left both positions
    at 0, the 256th character without a newline makes [head] equal to [tail], and
    everything pending is forgotten without being written. *)
Theorem printchar_wrap_loses ch r :
  ring_wf r -> tail r = 0 -> head r = 255 -> ch <> CH_NEWLINE ->
  length (pending r) = 255%nat /\
  written (printchar ch r) = written r /\ pending (printchar ch r) = [].
Proof.
  intros W Ht Hh Hch. split.
  - unfold pending. rewrite Ht, Hh. simpl. by rewrite length_slice.
  - unfold printchar. fold (stored ch r).
    assert (Hh' : head (stored ch r) = 0) by (unfold stored; simpl; by rewrite Hh).
    assert (Ht' : tail (stored ch r) = 0) by done.
    rewrite Hh', Ht', (proj2 (Z.eqb_neq _ _) Hch). simpl. unfold pending. rewrite Hh', Ht'. done.
Qed.

Definition empty_ring : ring := Ring (replicate 256 0) 0 0 [].
Lemma empty_ring_wf : ring_wf empty_ring.
Proof. done. Qed.

Lemma printchar_fifo_witness :
  written (printchar 65 empty_ring) ++ pending (printchar 65 empty_ring) = [65].
Proof. by apply (printchar_fifo 65 empty_ring empty_ring_wf). Defined.

(** 256 letters without a newline: none of them is ever written. *)
Lemma printchar_wrap_loses_witness :
  written (print_chars (replicate 255 65) empty_ring) = [] /\
  written (printchar 65 (print_chars (replicate 255 65) empty_ring)) = [] /\
  pending (printchar 65 (print_chars (replicate 255 65) empty_ring)) = [].
Proof.
  split; [by vm_compute|].
  destruct (printchar_wrap_loses 65 (print_chars (replicate 255 65) empty_ring)) as (_ & E & H).
  - by vm_compute.
  - by vm_compute.
  - by vm_compute.
  - by vm_compute.
  - split; [|exact H]. rewrite E. by vm_compute.
Defined.
