(* ===== verification/UserIpc.v ===== *)
(** The user library's message passing (libs/user/ipc.c, libs/user/task.c): wrappers of
    the system calls, notifications turned into messages, and asynchronous messages,
    which wait in the sender's queue until the receiver asks for them.

    The library is a client of the kernel through the class [KernelIpc]: the system
    calls as the calling task sees them, each returning when the kernel resumes the
    task, whatever the other tasks did to the world in between. *)

From S2P Require Import Prelude Types KData.

Class KernelIpc (W : Type) := {
  sys_ipc : Z -> Z -> message -> Z -> W -> Z * message * W;
  sys_notify : Z -> Z -> W -> Z * W;
  sys_task_self : W -> Z;
  (** The id of a task is positive, fits the notification bits, and does not change. *)
  sys_task_self_range : forall w, 1 <= sys_task_self w <= NUM_TASKS_MAX;
  sys_task_self_notify : forall dst n w, sys_task_self (snd (sys_notify dst n w)) = sys_task_self w;
  sys_task_self_ipc : forall d s m f w, sys_task_self (snd (sys_ipc d s m f w)) = sys_task_self w;
}.

Section Client.
Context {W : Type} `{KernelIpc W}.

(** The static variables of the library: [async_messages], [pending_notifications],
    the cached id of [task_self], and the world behind the system calls. *)
Record client := Client {
  u_async : list (Z * message);
  u_pending : Z;
  u_tid : Z;
  u_world : W;
}.
Definition set_async x u := Client x (u_pending u) (u_tid u) (u_world u).
Definition set_pending x u := Client (u_async u) x (u_tid u) (u_world u).
Definition set_tid x u := Client (u_async u) (u_pending u) x (u_world u).
Definition set_world x u := Client (u_async u) (u_pending u) (u_tid u) x.

Abbreviation UST := (ST client).

Definition call_ipc (dst src : Z) (m : message) (flags : Z) : UST (Z * message) := fun u =>
  let '(r, w) := sys_ipc dst src m flags (u_world u) in Ok (r, set_world w u).

Definition ipc_notify (dst notifications : Z) : UST Z := fun u =>
  let '(r, w) := sys_notify dst notifications (u_world u) in Ok (r, set_world w u).

Definition task_self : UST Z :=
  u ← get;
  if truthy (u_tid u) then mret (u_tid u)
  else modify (set_tid (sys_task_self (u_world u))) ;; mret (sys_task_self (u_world u)).

(** ** Sending *)
Definition ipc_send (dst : Z) (m : message) : UST Z := fst <$> call_ipc dst 0 m IPC_SEND.
Definition ipc_send_noblock (dst : Z) (m : message) : UST Z :=
  fst <$> call_ipc dst 0 m (Z.lor IPC_SEND IPC_NOBLOCK).
(** An error is only reported on the console. *)
Definition ipc_reply (dst : Z) (m : message) : UST unit := _ ← ipc_send_noblock dst m; mret tt.
(** The rest of the message is what the local variable held. *)
Definition ipc_reply_err (garbage : message) (dst error : Z) : UST unit :=
  ipc_reply dst (m_set_type error garbage).

(** The loop of [async_reply] over the queue from [rest] on; [seen] holds the entries
    behind the loop that stay in the queue. *)
Fixpoint async_reply_loop (dst : Z) (seen rest : list (Z * message)) (sent : bool) : UST Z :=
  match rest with
  | [] => mret OK
  | (d, m) :: rest' =>
      if d =? dst then
        if sent then self ← task_self; ipc_notify dst (NOTIFY_ASYNC self)
        else
          ipc_reply dst m ;;
          modify (set_async (seen ++ rest')) ;;
          async_reply_loop dst seen rest' true
      else async_reply_loop dst (seen ++ [(d, m)]) rest' sent
  end.
Definition async_reply (dst : Z) : UST Z :=
  q ← gets u_async; async_reply_loop dst [] q false.

Definition ipc_send_async (dst : Z) (m : message) : UST Z :=
  modify (fun u => set_async (u_async u ++ [(dst, m)]) u) ;;
  self ← task_self;
  ipc_notify dst (NOTIFY_ASYNC self).

(** ** Receiving *)

(** An error reply is returned as the error. *)
Definition reply_result (r : Z * message) : Z * message :=
  if negb (r.1 =? OK) then r else if IS_ERROR (m_type r.2) then (m_type r.2, r.2) else (OK, r.2).

Definition ipc_call (dst : Z) (m : message) : UST (Z * message) :=
  reply_result <$> call_ipc dst dst m IPC_CALL.

(** [__builtin_ffsll(x) - 1]: the index of the lowest set bit, -1 if there is none. *)
Fixpoint lowest_bit (n : nat) (i x : Z) : Z :=
  match n with
  | O => -1
  | S n' => if Z.testbit x i then i else lowest_bit n' (i + 1) x
  end.
Definition ffs_index (x : Z) : Z := lowest_bit 32 0 x.

Definition NOTIFY_ASYNC_START : Z := NOTIFY_ASYNC 0.
Definition NOTIFY_ASYNC_END : Z := NOTIFY_ASYNC NUM_TASKS_MAX.

Definition recv_notification_as_message (m : message) : UST (Z * message) :=
  u ← get;
  let index := ffs_index (u_pending u) in
  assert (0 <=? index) ;;
  let bit := Z.shiftl 1 index in
  r ← (if bit =? NOTIFY_IRQ then mret (OK, m_set_type NOTIFY_IRQ_MSG m)
       else if bit =? NOTIFY_TIMER then mret (OK, m_set_type NOTIFY_TIMER_MSG m)
       else if (NOTIFY_ASYNC_START <=? bit) && (bit <=? NOTIFY_ASYNC_END)
       then ipc_call (index - NOTIFY_ASYNC_BASE) (m_set_type ASYNC_RECV_MSG m)
       else panic);
  modify (fun u => set_pending (Z.land (u_pending u) (Z.lnot bit)) u) ;;
  mret r.

(** The receive loop: it goes on after a notification that did not come from the
    kernel and after answering a request for asynchronous messages. *)
Fixpoint ipc_recv_any (fuel : nat) (m : message) : UST (Z * message) :=
  match fuel with
  | O => undef
  | S fuel' =>
      u ← get;
      if truthy (u_pending u) then recv_notification_as_message m
      else
        r ← call_ipc 0 IPC_ANY m IPC_RECV;
        let '(err, m) := r in
        if negb (err =? OK) then mret (err, m)
        else if m_type m =? NOTIFY_MSG then
          if negb (m_src m =? FROM_KERNEL) then ipc_recv_any fuel' m
          else
            modify (fun u => set_pending (Z.lor (u_pending u) (m_notifications m)) u) ;;
            recv_notification_as_message m
        else if m_type m =? ASYNC_RECV_MSG then
          _ ← async_reply (m_src m);
          ipc_recv_any fuel' m
        else if IS_ERROR (m_type m) then mret (m_type m, m)
        else mret (OK, m)
  end.

Definition ipc_recv (fuel : nat) (src : Z) (m : message) : UST (Z * message) :=
  if src =? IPC_ANY then ipc_recv_any fuel m
  else reply_result <$> call_ipc 0 src m IPC_RECV.

(** ** Services: the name goes into the message, at most 63 characters. *)
Definition SERVICE_NAME_LEN : nat := 64.
Definition put_name (name : list Z) (m : message) : message :=
  Message (m_type m) (m_src m) (splice 0 (take (SERVICE_NAME_LEN - 1) name ++ [0]) (m_data m)).
Definition ipc_register (garbage : message) (name : list Z) : UST Z :=
  fst <$> ipc_call VM_SERVER (put_name name (m_set_type SERVICE_REGISTER_MSG garbage)).
Definition ipc_lookup (garbage : message) (name : list Z) : UST Z :=
  r ← ipc_call VM_SERVER (put_name name (m_set_type SERVICE_LOOKUP_MSG garbage));
  let '(err, m) := r in
  if negb (err =? OK) then mret err
  else
    assert (m_type m =? SERVICE_LOOKUP_REPLY_MSG) ;;
    mret (s32 (m_get32 0 m)).

(** libs/user/driver.c: requests for physical memory; the addresses only on success. *)
Definition driver_map_pages (garbage : message) (paddr size map_flags : Z) : UST (Z * option Z) :=
  let m := m_put32 8 map_flags (m_put32 4 size (m_put32 0 paddr (m_set_type VM_MAP_PHYSICAL_MSG garbage))) in
  r ← ipc_call VM_SERVER m;
  let '(err, m) := r in
  if negb (err =? OK) then mret (err, None) else mret (OK, Some (m_get32 0 m)).
Definition driver_alloc_pages (garbage : message) (size map_flags : Z) : UST (Z * option (Z * Z)) :=
  let m := m_put32 8 map_flags (m_put32 4 0 (m_put32 0 size (m_set_type VM_ALLOC_PHYSICAL_MSG garbage))) in
  r ← ipc_call VM_SERVER m;
  let '(err, m) := r in
  if negb (err =? OK) then mret (err, None) else mret (OK, Some (m_get32 0 m, m_get32 4 m)).
End Client.

(** ** Asynchronous messages *)
Section AsyncTheorems.
Context {W : Type} `{KernelIpc W}.
Implicit Types u : @client W.

(** The messages waiting for a task, oldest first. *)
Definition messages_for (dst : Z) (q : list (Z * message)) : list message :=
  snd <$> filter (fun e => e.1 = dst) q.

Lemma messages_for_app dst q1 q2 : messages_for dst (q1 ++ q2) = messages_for dst q1 ++ messages_for dst q2.
Proof. unfold messages_for. by rewrite filter_app, fmap_app. Qed.
Lemma messages_for_one dst d m : messages_for dst [(d, m)] = if decide (d = dst) then [m] else [].
Proof. unfold messages_for. rewrite filter_cons. simpl. by destruct (decide (d = dst)). Qed.

Lemma task_self_run u :
  (u_tid u = 0 \/ u_tid u = sys_task_self (u_world u)) ->
  task_self u = Ok (sys_task_self (u_world u), set_tid (sys_task_self (u_world u)) u).
Proof.
  destruct u as [a p t w]. simpl. pose proof (sys_task_self_range w) as Hr.
  intros [->| ->]; unfold task_self; run; [done|]. unfold truthy.
  destruct (Z.eqb_spec (sys_task_self w) 0); [lia|done].
Qed.

(** The kernel calls of [async_reply]: the first message for [dst], and a further
    notification when more are waiting. *)
Definition reply_world (dst : Z) (m : message) (w : W) : W :=
  snd (sys_ipc dst 0 m (Z.lor IPC_SEND IPC_NOBLOCK) w).

Lemma ipc_reply_run dst m u : ipc_reply dst m u = Ok (tt, set_world (reply_world dst m (u_world u)) u).
Proof.
  unfold ipc_reply, ipc_send_noblock, call_ipc, reply_world. run. unfold fmap, ST_fmap.
  by destruct (sys_ipc _ _ _ _ _) as [[e m'] w].
Qed.

(** After the first message was sent. *)
Lemma async_loop_sent dst seen rest u :
  (u_tid u = 0 \/ u_tid u = sys_task_self (u_world u)) ->
  async_reply_loop dst seen rest true u =
  match messages_for dst rest with
  | [] => Ok (OK, u)
  | _ => ipc_notify dst (NOTIFY_ASYNC (sys_task_self (u_world u))) (set_tid (sys_task_self (u_world u)) u)
  end.
Proof.
  intros Hid. revert seen. induction rest as [|[d m] rest IH]; intros seen; cbn [async_reply_loop]; [done|].
  change ((d, m) :: rest) with ([(d, m)] ++ rest). rewrite messages_for_app, messages_for_one.
  destruct (Z.eqb_spec d dst) as [->|Hne].
  - rewrite decide_True by done. simpl. by rewrite (ST_bind_run _ _ _ _ _ (task_self_run u Hid)).
  - rewrite decide_False by done. apply IH.
Qed.

Lemma async_loop_run dst seen rest u :
  messages_for dst seen = [] -> u_async u = seen ++ rest ->
  (u_tid u = 0 \/ u_tid u = sys_task_self (u_world u)) ->
  match messages_for dst rest with
  | [] => async_reply_loop dst seen rest false u = Ok (OK, u)
  | m :: more => exists q, messages_for dst q = more /\
      (forall d, d <> dst -> messages_for d q = messages_for d (seen ++ rest)) /\
      let u' := set_async q (set_world (reply_world dst m (u_world u)) u) in
      async_reply_loop dst seen rest false u =
        match more with
        | [] => Ok (OK, u')
        | _ => ipc_notify dst (NOTIFY_ASYNC (sys_task_self (u_world u))) (set_tid (sys_task_self (u_world u)) u')
        end
  end.
Proof.
  intros Hseen Hq Hid. revert seen Hseen Hq. induction rest as [|[d m] rest IH]; intros seen Hseen Hq; [done|].
  cbn [async_reply_loop]. change ((d, m) :: rest) with ([(d, m)] ++ rest) in *.
  rewrite messages_for_app, messages_for_one. destruct (Z.eqb_spec d dst) as [->|Hne].
  - rewrite decide_True by done. simpl. exists (seen ++ rest). split; [by rewrite messages_for_app, Hseen|]. split.
    + intros d Hd. rewrite !messages_for_app. change ((dst, m) :: rest) with ([(dst, m)] ++ rest).
      by rewrite messages_for_app, messages_for_one, decide_False by congruence.
    + rewrite (ST_bind_run _ _ _ _ _ (ipc_reply_run dst m u)). erewrite ST_bind_run by reflexivity.
      rewrite async_loop_sent.
      * simpl. unfold reply_world. by rewrite sys_task_self_ipc.
      * simpl. unfold reply_world. by rewrite sys_task_self_ipc.
  - rewrite decide_False by done. cbn [app]. specialize (IH (seen ++ [(d, m)])).
    rewrite <- app_assoc in IH. apply IH; [|done]. by rewrite messages_for_app, Hseen, messages_for_one, decide_False.
Qed.

(** Asynchronous messages are delivered in order, one per request.  When the task
    [dst] asks for asynchronous messages, [async_reply] sends it the oldest message
    waiting for it (and nothing if there is none), removes exactly that message from
    the queue, leaves the messages for other tasks alone, and notifies [dst] again
    exactly when more messages wait for it. *)
Theorem async_reply_delivers_in_order dst u :
  (u_tid u = 0 \/ u_tid u = sys_task_self (u_world u)) ->
  match messages_for dst (u_async u) with
  | [] => async_reply dst u = Ok (OK, u)
  | m :: more => exists q, messages_for dst q = more /\
      (forall d, d <> dst -> messages_for d q = messages_for d (u_async u)) /\
      let u' := set_async q (set_world (reply_world dst m (u_world u)) u) in
      async_reply dst u =
        match more with
        | [] => Ok (OK, u')
        | _ => ipc_notify dst (NOTIFY_ASYNC (sys_task_self (u_world u))) (set_tid (sys_task_self (u_world u)) u')
        end
  end.
Proof. intros Hid. exact (async_loop_run dst [] (u_async u) u eq_refl eq_refl Hid). Qed.

(** ** Notifications *)
Lemma lowest_bit_spec n i x :
  (exists j, i <= j < i + Z.of_nat n /\ Z.testbit x j = true) ->
  i <= lowest_bit n i x < i + Z.of_nat n /\ Z.testbit x (lowest_bit n i x) = true /\
  forall j, i <= j < lowest_bit n i x -> Z.testbit x j = false.
Proof.
  revert i. induction n as [|n IH]; intros i (j & Hj & Hb); [lia|]. cbn [lowest_bit].
  destruct (Z.testbit x i) eqn:E; [split_and!; [lia|lia|done|lia]|].
  destruct (IH (i + 1)) as (H1 & H2 & H3).
  { exists j. split; [|done]. destruct (decide (j = i)) as [->|]; [congruence|lia]. }
  split_and!; [lia|lia|done|]. intros j' Hj'. destruct (decide (j' = i)) as [->|]; [done|]. apply H3. lia.
Qed.

Lemma ffs_spec x : 0 < x < 2 ^ 32 ->
  0 <= ffs_index x < 32 /\ Z.testbit x (ffs_index x) = true /\ forall j, 0 <= j < ffs_index x -> Z.testbit x j = false.
Proof.
  intros Hx. apply (lowest_bit_spec 32 0 x). exists (Z.log2 x). split.
  - split; [apply Z.log2_nonneg|]. apply Z.log2_lt_pow2; lia.
  - apply Z.bit_log2. lia.
Qed.

(** Notifications become messages one at a time, lowest bit first.  With
    notifications pending, the library handles exactly the lowest one and leaves the
    others pending: a timer or interrupt notification becomes the message of its
    type, an asynchronous one a request to the task whose bit it is; any other bit
    stops the program. *)
Theorem notification_as_message_correct u m :
  0 < u_pending u < 2 ^ 32 ->
  let i := ffs_index (u_pending u) in
  let rest := Z.land (u_pending u) (Z.lnot (Z.shiftl 1 i)) in
  Z.testbit (u_pending u) i = true /\ (forall j, 0 <= j < i -> Z.testbit (u_pending u) j = false) /\
  recv_notification_as_message m u =
    if i =? 0 then Ok ((OK, m_set_type NOTIFY_TIMER_MSG m), set_pending rest u)
    else if i =? 1 then Ok ((OK, m_set_type NOTIFY_IRQ_MSG m), set_pending rest u)
    else if (3 <=? i) && (i <=? 19) then
      (r ← ipc_call (i - 3) (m_set_type ASYNC_RECV_MSG m); modify (set_pending rest) ;; mret r) u
    else Panic.
Proof.
  intros Hp i rest. destruct (ffs_spec _ Hp) as (Hi & Hb & Hlow). fold i in Hi, Hb, Hlow.
  split; [done|]. split; [done|]. unfold recv_notification_as_message.
  erewrite ST_bind_run by reflexivity. cbv zeta beta. fold i. rewrite (proj2 (Z.leb_le 0 i)) by lia. cbn [assert].
  erewrite ST_bind_run by reflexivity.
  assert (Hcases : i = 0 \/ i = 1 \/ i = 2 \/ 3 <= i <= 19 \/ 20 <= i) by lia.
  destruct Hcases as [E|[E|[E|[E|E]]]].
  - subst rest. rewrite E. done.
  - subst rest. rewrite E. done.
  - rewrite E. done.
  - rewrite (proj2 (Z.eqb_neq i 0)), (proj2 (Z.eqb_neq i 1)) by lia.
    rewrite (proj2 (Z.leb_le 3 i)), (proj2 (Z.leb_le i 19)) by lia. simpl (true && true). cbv iota.
    assert (Hs : 2 ^ 3 <= Z.shiftl 1 i <= 2 ^ 19).
    { rewrite Z.shiftl_1_l. split; apply Z.pow_le_mono_r; lia. }
    unfold NOTIFY_ASYNC_START, NOTIFY_ASYNC_END, NOTIFY_ASYNC, NOTIFY_ASYNC_BASE, NUM_TASKS_MAX.
    rewrite !Z.shiftl_1_l in *. change (NOTIFY_IRQ) with 2. change NOTIFY_TIMER with 1.
    rewrite (proj2 (Z.eqb_neq (2 ^ i) 2)), (proj2 (Z.eqb_neq (2 ^ i) 1)) by lia.
    rewrite (proj2 (Z.leb_le _ (2 ^ i))), (proj2 (Z.leb_le (2 ^ i) _)) by (simpl; lia). simpl (true && true). cbv iota.
    unfold mbind, ST_bind, modify, mret, ST_ret, ipc_call, fmap, ST_fmap, call_ipc.
    subst rest. rewrite ?Z.shiftl_1_l. by destruct (sys_ipc _ _ _ _ _) as [r w].
  - rewrite (proj2 (Z.eqb_neq i 0)), (proj2 (Z.eqb_neq i 1)), (proj2 (Z.leb_gt i 19)), andb_false_r by lia.
    assert (Hs : 2 ^ 20 <= Z.shiftl 1 i) by (rewrite Z.shiftl_1_l; apply Z.pow_le_mono_r; lia).
    unfold NOTIFY_ASYNC_START, NOTIFY_ASYNC_END, NOTIFY_ASYNC, NOTIFY_ASYNC_BASE, NUM_TASKS_MAX.
    rewrite !Z.shiftl_1_l in *. change (NOTIFY_IRQ) with 2. change NOTIFY_TIMER with 1.
    rewrite (proj2 (Z.eqb_neq (2 ^ i) 2)), (proj2 (Z.eqb_neq (2 ^ i) 1)) by lia.
    rewrite (proj2 (Z.leb_gt (2 ^ i) _)), andb_false_r by (simpl; lia). done.
Qed.

(** A stray notification kills a server.  When the kernel delivers NOTIFY_ABORTED
    to a task in an open receive (which every task can make it do, since the notify
    system call takes any bits for any task), the library's receive panics. *)
Theorem aborted_notification_panics fuel m m' u w' :
  u_pending u = 0 ->
  sys_ipc 0 IPC_ANY m IPC_RECV (u_world u) = (OK, m', w') ->
  m_type m' = NOTIFY_MSG -> m_src m' = FROM_KERNEL -> m_notifications m' = NOTIFY_ABORTED ->
  ipc_recv (S fuel) IPC_ANY m u = Panic.
Proof.
  intros Hp E Ht Hs Hn. unfold ipc_recv. cbn [ipc_recv_any]. change (IPC_ANY =? IPC_ANY) with true. cbv iota.
  erewrite ST_bind_run by reflexivity. rewrite Hp. cbn [truthy Z.eqb negb].
  assert (Ec : call_ipc 0 IPC_ANY m IPC_RECV u = Ok ((OK, m'), set_world w' u)) by (unfold call_ipc; by rewrite E).
  rewrite (ST_bind_run _ _ _ _ _ Ec). cbv beta iota. rewrite Ht, Hs. cbn -[recv_notification_as_message m_notifications].
  unfold mbind, ST_bind, modify. rewrite Hn. unfold recv_notification_as_message. cbn. by rewrite Hp.
Qed.
End AsyncTheorems.

(** ** A concrete world: an inbox, and the messages and notifications sent *)
Record mailbox := Mailbox { mb_inbox : list message; mb_sent : list (Z * message); mb_notified : list (Z * Z) }.

#[export] Program Instance mailbox_ipc : KernelIpc mailbox := {
  sys_ipc dst src m flags w :=
    let sent := if has flags IPC_SEND then mb_sent w ++ [(dst, m)] else mb_sent w in
    if has flags IPC_RECV then
      match mb_inbox w with
      | [] => (ERR_WOULD_BLOCK, m, Mailbox [] sent (mb_notified w))
      | m' :: inbox => (OK, m', Mailbox inbox sent (mb_notified w))
      end
    else (OK, m, Mailbox (mb_inbox w) sent (mb_notified w));
  sys_notify dst n w := (OK, Mailbox (mb_inbox w) (mb_sent w) (mb_notified w ++ [(dst, n)]));
  sys_task_self _ := 2;
}.
Next Obligation. by vm_compute. Qed.
Next Obligation. done. Qed.
Next Obligation. done. Qed.

Definition text (t : Z) : message := Message t 0 (replicate 8 0).
Definition three_queued : @client mailbox :=
  Client [(5, text 1); (7, text 2); (5, text 3)] 0 0 (Mailbox [] [] []).

Lemma async_reply_delivers_in_order_witness :
  exists q, messages_for 5 q = [text 3] /\
    async_reply 5 three_queued
      = ipc_notify 5 (NOTIFY_ASYNC 2) (set_tid 2 (set_async q (set_world (Mailbox [] [(5, text 1)] []) three_queued))).
Proof.
  pose proof (async_reply_delivers_in_order 5 three_queued (or_introl eq_refl)) as (q & Hq & _ & E).
  exists q. split; [exact Hq|exact E].
Defined.

Lemma notification_as_message_correct_witness :
  recv_notification_as_message (text 0) (set_pending 3 three_queued)
    = Ok ((OK, text NOTIFY_TIMER_MSG), set_pending 2 (set_pending 3 three_queued)).
Proof. by apply (notification_as_message_correct (set_pending 3 three_queued) (text 0)). Defined.

Definition abort_notice : message := m_put_notifications NOTIFY_ABORTED (Message NOTIFY_MSG FROM_KERNEL (replicate 8 0)).

Lemma aborted_notification_panics_witness :
  ipc_recv 1 IPC_ANY (text 0) (Client [] 0 0 (Mailbox [abort_notice] [] [])) = Panic.
Proof.
  by apply (aborted_notification_panics 0 (text 0) abort_notice (Client [] 0 0 (Mailbox [abort_notice] [] []))
    (Mailbox [] [] [])).
Defined.
