(* ===== verification/Mp.v ===== *)
(** Multiprocessing (kernel/riscv32/mp.c): the big kernel lock and inter-processor
    interrupts, as interleaved steps of the CPUs.

    A step is one access to the shared variables [big_lock], [locked_cpu], [online] and
    [ipi_pending].  The kernel's own work under the lock (the events of [Safety]) does
    not touch them and is the program point [Inside]. *)

From S2P Require Import Prelude Types.

Definition BKL_LOCKED : Z := 4779 (* 0x12ab *).
Definition BKL_UNLOCKED : Z := 49342 (* 0xc0be *).
Definition BKL_HALTED : Z := 57005 (* 0xdead *).

(** What a CPU does once it holds the lock: kernel code, or the waiting loop of
    [arch_send_ipi] at the given CPU. *)
Inductive cont := CKernel | CIpi (hartid : nat).

(** Where a CPU is. *)
Inductive point :=
| Outside                 (* user mode, or asleep in the idle loop *)
| Check (k : cont)        (* [mp_lock]: [check_lock] *)
| Spin (k : cont)         (* [mp_lock]: the compare-and-swap loop *)
| Acquired (k : cont)     (* [mp_lock]: the lock is taken, [locked_cpu] not yet written *)
| Inside (k : cont)       (* holding the lock *)
| Release (k : cont)      (* [mp_unlock]: its assertion was checked *)
| IpiWait (hartid : nat)  (* [arch_send_ipi]: waiting for a CPU without the lock *)
| Halted.                 (* asleep for good *)

Record mp := Mp {
  big_lock : Z;
  locked_cpu : Z;
  online : nat -> bool;
  ipi_pending : nat -> Z;
  at_point : nat -> point;
}.

Definition fupd {A} (f : nat -> A) (c : nat) (v : A) : nat -> A := fun x => if decide (x = c) then v else f x.
Definition goto (c : nat) (p : point) (s : mp) : mp :=
  Mp (big_lock s) (locked_cpu s) (online s) (ipi_pending s) (fupd (at_point s) c p).
Definition set_lock (v : Z) (s : mp) : mp :=
  Mp v (locked_cpu s) (online s) (ipi_pending s) (at_point s).
Definition set_locked_cpu (v : Z) (s : mp) : mp :=
  Mp (big_lock s) v (online s) (ipi_pending s) (at_point s).
Definition set_online (c : nat) (s : mp) : mp :=
  Mp (big_lock s) (locked_cpu s) (fupd (online s) c true) (ipi_pending s) (at_point s).
Definition set_pending (f : nat -> Z) (s : mp) : mp :=
  Mp (big_lock s) (locked_cpu s) (online s) f (at_point s).

(** [compare_and_swap(&big_lock, old, new)]: atomic; whether it succeeded. *)
Definition compare_and_swap (old new : Z) (s : mp) : bool * mp :=
  if big_lock s =? old then (true, set_lock new s) else (false, s).

(** [check_lock]: where it goes. *)
Definition check_lock (k : cont) (s : mp) : point :=
  if big_lock s =? BKL_HALTED then Halted else Spin k.

(** The first loop of [arch_send_ipi]: mark the other CPUs that are online. *)
Definition is_target (c hartid : nat) (s : mp) : bool := online s hartid && negb (hartid =? c)%nat.
Definition mark_ipi (c : nat) (ipi : Z) (s : mp) : mp :=
  set_pending (fun h => if (Z.of_nat h <? NUM_CPUS_MAX) && is_target c h s
                        then Z.lor (ipi_pending s h) ipi else ipi_pending s h) s.

(** Where [mp_unlock] returns to. *)
Definition unlocked_point (k : cont) : point :=
  match k with CKernel => Outside | CIpi h => IpiWait h end.

(** A step of CPU [c].  The assertion of [mp_unlock] is part of [step_unlock] and
    [step_ipi_unlock]: a state where it fails is [unlock_fails]. *)
Inductive mp_step (c : nat) (s : mp) : mp -> Prop :=
| step_trap : at_point s c = Outside -> mp_step c s (goto c (Check CKernel) s)
| step_check k : at_point s c = Check k -> mp_step c s (goto c (check_lock k s) s)
| step_cas k s' b : at_point s c = Spin k -> compare_and_swap BKL_UNLOCKED BKL_LOCKED s = (b, s') ->
    mp_step c s (goto c (if b then Acquired k else Spin k) s')
| step_record k : at_point s c = Acquired k ->
    mp_step c s (goto c (Inside k) (set_locked_cpu (Z.of_nat c) s))
| step_online : at_point s c = Inside CKernel -> mp_step c s (set_online c s)
| step_take_ipis : at_point s c = Inside CKernel -> mp_step c s (set_pending (fupd (ipi_pending s) c 0) s)
| step_send_ipi ipi : at_point s c = Inside CKernel -> mp_step c s (goto c (Inside (CIpi 0)) (mark_ipi c ipi s))
| step_ipi_next h : at_point s c = Inside (CIpi h) -> Z.of_nat h < NUM_CPUS_MAX -> is_target c h s = false ->
    mp_step c s (goto c (Inside (CIpi (S h))) s)
| step_ipi_unlock h : at_point s c = Inside (CIpi h) -> Z.of_nat h < NUM_CPUS_MAX -> is_target c h s = true ->
    locked_cpu s = Z.of_nat c -> mp_step c s (goto c (Release (CIpi h)) s)
| step_ipi_done h : at_point s c = Inside (CIpi h) -> NUM_CPUS_MAX <= Z.of_nat h ->
    mp_step c s (goto c (Inside CKernel) s)
| step_unlock : at_point s c = Inside CKernel -> locked_cpu s = Z.of_nat c ->
    mp_step c s (goto c (Release CKernel) s)
| step_release k s' b : at_point s c = Release k -> compare_and_swap BKL_LOCKED BKL_UNLOCKED s = (b, s') ->
    mp_step c s (goto c (unlocked_point k) s')
| step_ipi_wait h : at_point s c = IpiWait h -> ipi_pending s h <> 0 -> mp_step c s s
| step_ipi_acked h : at_point s c = IpiWait h -> ipi_pending s h = 0 ->
    mp_step c s (goto c (Check (CIpi (S h))) s)
| step_halt k : at_point s c = Inside k ->      (* a panic under the lock: [mp_force_lock], [halt] *)
    mp_step c s (goto c Halted (set_lock BKL_HALTED s)).

(** Boot: the boot CPU and the others come up outside of the lock. *)
Definition mp_init (s : mp) : Prop :=
  big_lock s = BKL_UNLOCKED /\ forall c, at_point s c = Outside.

Inductive mp_reachable : mp -> Prop :=
| mp_start s : mp_init s -> mp_reachable s
| mp_go s c s' : mp_reachable s -> mp_step c s s' -> mp_reachable s'.

(** The assertion of [mp_unlock] fails. *)
Definition unlock_fails (s : mp) : Prop :=
  exists c k, at_point s c = Inside k /\ locked_cpu s <> Z.of_nat c.

(** ** The invariant *)
Definition holds (p : point) : bool :=
  match p with Acquired _ | Inside _ | Release _ => true | _ => false end.
Definition recorded (p : point) : bool :=
  match p with Inside _ | Release _ => true | _ => false end.

Record mp_inv (s : mp) : Prop := {
  mi_excl : forall c c', holds (at_point s c) = true -> holds (at_point s c') = true -> c = c';
  mi_locked : forall c, holds (at_point s c) = true -> big_lock s = BKL_LOCKED;
  mi_owner : big_lock s = BKL_LOCKED -> exists c, holds (at_point s c) = true;
  mi_cpu : forall c, recorded (at_point s c) = true -> locked_cpu s = Z.of_nat c;
  mi_value : big_lock s = BKL_LOCKED \/ big_lock s = BKL_UNLOCKED \/ big_lock s = BKL_HALTED;
}.

Lemma recorded_holds p : recorded p = true -> holds p = true.
Proof. by destruct p. Qed.

Lemma fupd_eq {A} (f : nat -> A) c v : fupd f c v c = v.
Proof. unfold fupd. by rewrite decide_True. Qed.
Lemma fupd_ne {A} (f : nat -> A) c x v : x <> c -> fupd f c v x = f x.
Proof. intros. unfold fupd. by rewrite decide_False. Qed.

(** A CPU that moves without changing the lock or whether it holds it. *)
Lemma inv_move s c p :
  mp_inv s -> holds p = holds (at_point s c) -> (recorded p = true -> locked_cpu s = Z.of_nat c) -> mp_inv (goto c p s).
Proof.
  intros I Hh Hr.
  assert (Hp : forall x, holds (fupd (at_point s) c p x) = holds (at_point s x)).
  { intros x. unfold fupd. case_decide; [by subst|done]. }
  split; cbn [goto at_point big_lock locked_cpu].
  - intros x y. rewrite !Hp. apply I.
  - intros x. rewrite Hp. apply I.
  - intros E. destruct (mi_owner _ I E) as [x Hx]. exists x. by rewrite Hp.
  - intros x. unfold fupd. case_decide as E; [subst; done|apply I].
  - apply I.
Qed.

(** The lock is taken by a CPU when nobody holds it. *)
Lemma inv_take s c k :
  mp_inv s -> big_lock s = BKL_UNLOCKED -> mp_inv (goto c (Acquired k) (set_lock BKL_LOCKED s)).
Proof.
  intros I Hu. assert (Hno : forall x, holds (at_point s x) = false).
  { intros x. destruct (holds (at_point s x)) eqn:E; [|done]. apply (mi_locked _ I) in E. rewrite Hu in E. done. }
  split; cbn [goto set_lock at_point big_lock locked_cpu].
  - intros x y Hx Hy. unfold fupd in *. repeat case_decide; try congruence; rewrite Hno in *; done.
  - done.
  - intros _. exists c. by rewrite fupd_eq.
  - intros x Hx. unfold fupd in *. case_decide; [done|]. apply recorded_holds in Hx. by rewrite Hno in Hx.
  - by left.
Qed.

(** The owner gives the lock up, for good ([v] = BKL_HALTED) or not. *)
Lemma inv_drop s c p v :
  mp_inv s -> holds (at_point s c) = true -> holds p = false -> v = BKL_UNLOCKED \/ v = BKL_HALTED ->
  mp_inv (goto c p (set_lock v s)).
Proof.
  intros I Hc Hp Hv. assert (Hno : forall x, holds (fupd (at_point s) c p x) = false).
  { intros x. unfold fupd. case_decide as E; [done|]. destruct (holds (at_point s x)) eqn:Ex; [|done].
    exfalso. apply E. by apply (mi_excl _ I). }
  split; cbn [goto set_lock at_point big_lock locked_cpu].
  - intros x y Hx. by rewrite Hno in Hx.
  - intros x Hx. by rewrite Hno in Hx.
  - intros E. destruct Hv as [-> | ->]; by vm_compute in E.
  - intros x Hx%recorded_holds. by rewrite Hno in Hx.
  - tauto.
Qed.

Lemma mp_step_inv c s s' : mp_inv s -> mp_step c s s' -> mp_inv s'.
Proof.
  intros I Hs. destruct Hs as [E|k E|k s' b E Hb|k E|E|E|ipi E|h E _ _|h E _ _ Hl|h E _|E Hl|k s' b E Hb|h E _|h E _|k E].
  - apply inv_move; [done|by rewrite E|done].
  - unfold check_lock. destruct (_ =? _); (apply inv_move; [done|by rewrite E|done]).
  - unfold compare_and_swap in Hb. destruct (Z.eqb_spec (big_lock s) BKL_UNLOCKED); injection Hb as <- <-.
    + by apply inv_take.
    + apply inv_move; [done|by rewrite E|done].
  - apply (inv_move (set_locked_cpu (Z.of_nat c) s)); [|cbn; by rewrite E|done].
    destruct I as [I1 I2 I3 I4 I5]. split; [done..| |done]. cbn [set_locked_cpu at_point locked_cpu].
    intros x Hx. f_equal. apply I1; [by rewrite E|by apply recorded_holds].
  - destruct I. by split.
  - destruct I. by split.
  - apply (inv_move (mark_ipi c ipi s)); [by destruct I|cbn; by rewrite E|intros _; cbn; apply (mi_cpu _ I); by rewrite E].
  - apply inv_move; [done|by rewrite E|intros _; apply (mi_cpu _ I); by rewrite E].
  - apply inv_move; [done|by rewrite E|done].
  - apply inv_move; [done|by rewrite E|intros _; apply (mi_cpu _ I); by rewrite E].
  - apply inv_move; [done|by rewrite E|done].
  - assert (Hh : holds (at_point s c) = true) by by rewrite E. pose proof (mi_locked _ I c Hh) as Hl.
    unfold compare_and_swap in Hb. rewrite Hl, Z.eqb_refl in Hb. injection Hb as <- <-.
    apply inv_drop; [done|done|by destruct k|by left].
  - done.
  - apply inv_move; [done|by rewrite E|done].
  - apply inv_drop; [done|by rewrite E|done|by right].
Qed.

Lemma mp_init_inv s : mp_init s -> mp_inv s.
Proof.
  intros [Hl Ho]. split; intros; rewrite ?Ho in *; try done; [|by right; left].
  rewrite Hl in *. done.
Qed.

Lemma mp_reachable_inv s : mp_reachable s -> mp_inv s.
Proof. induction 1; [by apply mp_init_inv|by eapply mp_step_inv]. Qed.


Definition two_cpus : mp := Mp BKL_UNLOCKED (-1) (fun c => (c <? 2)%nat) (fun _ => 0) (fun _ => Outside).

Lemma two_cpus_reachable : mp_reachable (goto 0 (Check CKernel) two_cpus).
Proof. eapply (mp_go two_cpus 0); [by apply mp_start|by apply step_trap]. Qed.

