(* ===== verification/Block.v ===== *)
(** The file system server's block cache (servers/fs/block.c) and its allocation bitmap
    ([alloc_block] and [free_block] of servers/fs/fs.c).

    The block device server is behind the class [BlkDevice]: the replies to its read and
    write requests. *)

From S2P Require Import Prelude Types.

Definition SECTOR_SIZE : Z := 512.
Definition BLOCK_SIZE : Z := 4096.

(** The device server: a read request returns the result of [ipc_call], the type of the
    reply, its [data_len] and its data. *)
Class BlkDevice (D : Type) := {
  blk_read : Z -> D -> Z * Z * Z * list Z * D;
  blk_write : Z -> list Z -> D -> Z * D;
}.

Section Cache.
Context {D : Type} `{BlkDevice D}.

(** A [struct block *] is the number of its block: [block_read] caches a block once. *)
Record block := Block { b_index : Z; b_data : list Z }.
Record cache := Cache {
  cached_blocks : list block;
  dirty_blocks : list Z;
  blk_server : D;
}.
Abbreviation CST := (ST cache).

Definition set_cached x c := Cache x (dirty_blocks c) (blk_server c).
Definition set_dirty x c := Cache (cached_blocks c) x (blk_server c).
Definition set_server x c := Cache (cached_blocks c) (dirty_blocks c) x.

Definition block_to_sector (index : Z) : Z := index * BLOCK_SIZE / SECTOR_SIZE.
Definition block_is_dirty (index : Z) (c : cache) : bool := bool_decide (index ∈ dirty_blocks c).

(** The block with a number in the cache. *)
Definition find_cached (index : Z) (c : cache) : option block :=
  snd <$> list_find (fun b => b_index b = index) (cached_blocks c).

(** The write loop from sector [j] of the block on, [n] sectors left. *)
Fixpoint block_write_loop (b : block) (j : Z) (n : nat) (c : cache) : cache :=
  match n with
  | O => c
  | S n' =>
      let data := take (Z.to_nat SECTOR_SIZE) (drop (Z.to_nat (j * SECTOR_SIZE)) (b_data b)) in
      let '(_, d) := blk_write (block_to_sector (b_index b) + j) data (blk_server c) in
      block_write_loop b (j + 1) n' (set_server d c)
  end.
(** An error of the device is only reported on the console. *)
Definition block_write (b : block) : CST unit := modify (block_write_loop b 0 8).

(** The read loop: the data so far, or the error. *)
Fixpoint block_read_loop (index j : Z) (n : nat) (data : list Z) : CST (Z * list Z) :=
  match n with
  | O => mret (OK, data)
  | S n' => fun c =>
      let '(err, type, data_len, sector, d) := blk_read (block_to_sector index + j) (blk_server c) in
      let c := set_server d c in
      if negb (err =? OK) then Ok ((err, data), c)
      else if negb (type =? BLK_READ_REPLY_MSG) then Ok ((ERR_UNEXPECTED, data), c)
      else if negb (data_len =? SECTOR_SIZE) then Ok ((ERR_UNEXPECTED, data), c)
      else block_read_loop index (j + 1) n' (data ++ sector) c
  end.
Definition block_read (index : Z) : CST Z :=
  if index =? 65535 then mret ERR_INVALID_ARG
  else
    b ← gets (find_cached index);
    match b with
    | Some _ => mret OK
    | None =>
        r ← block_read_loop index 0 8 [];
        let '(err, data) := r in
        if negb (err =? OK) then mret err
        else modify (fun c => set_cached (cached_blocks c ++ [Block index data]) c) ;; mret OK
    end.

Definition block_mark_as_dirty (index : Z) : CST unit :=
  modify (fun c => if block_is_dirty index c then c else set_dirty (dirty_blocks c ++ [index]) c).

(** [LIST_FOR_EACH (b, &dirty_blocks)] *)
Fixpoint flush_loop (q : list Z) : CST unit :=
  match q with
  | [] => mret tt
  | i :: q' =>
      b ← getopt (find_cached i);
      block_write b ;;
      modify (fun c => set_dirty (filter (fun x => x <> i) (dirty_blocks c)) c) ;;
      flush_loop q'
  end.
Definition block_flush_all : CST unit := q ← gets dirty_blocks; flush_loop q.

(** A store into the data of a cached block, as the file system does it before it
    marks the block dirty. *)
Definition update_block (index : Z) (f : list Z -> list Z) (c : cache) : cache :=
  set_cached ((fun b => if b_index b =? index then Block index (f (b_data b)) else b) <$> cached_blocks c) c.

(** ** The bitmap *)
Definition BITMAP_FIRST_BLOCK : Z := 2.
Definition NUM_BITMAP_BLOCKS : Z := 4.

(** The first zero bit of a byte, from bit [k] on. *)
Fixpoint zero_bit (byte k : Z) (n : nat) : option Z :=
  match n with
  | O => None
  | S n' => if Z.land byte (Z.shiftl 1 k) =? 0 then Some k else zero_bit byte (k + 1) n'
  end.
(** The first byte with a zero bit, from byte [j] on. *)
Fixpoint zero_bit_at (bs : list Z) (j : Z) : option (Z * Z) :=
  match bs with
  | [] => None
  | b :: bs' => match zero_bit b 0 8 with Some k => Some (j, k) | None => zero_bit_at bs' (j + 1) end
  end.

(** The loop over the bitmap blocks from number [i] on. *)
Fixpoint alloc_block_loop (i : Z) (n : nat) : CST Z :=
  match n with
  | O => mret 0
  | S n' =>
      b ← getopt (find_cached (BITMAP_FIRST_BLOCK + i));
      match zero_bit_at (b_data b) 0 with
      | None => alloc_block_loop (i + 1) n'
      | Some (j, k) =>
          modify (update_block (BITMAP_FIRST_BLOCK + i)
            (alter (fun x => Z.lor x (Z.shiftl 1 k)) (Z.to_nat j))) ;;
          block_mark_as_dirty (BITMAP_FIRST_BLOCK + i) ;;
          let block_off := u16 ((i * BLOCK_SIZE + j) * 8 + k) in
          mret (u16 (2 + NUM_BITMAP_BLOCKS + block_off))
      end
  end.
Definition alloc_block : CST Z := alloc_block_loop 0 (Z.to_nat NUM_BITMAP_BLOCKS).

Definition free_block (index : Z) : CST unit :=
  let i := index / (BLOCK_SIZE * 8) in
  let j := (index - i * BLOCK_SIZE * 8) / 8 in
  let k := index `mod` 8 in
  b ← getopt (find_cached (BITMAP_FIRST_BLOCK + i));
  modify (update_block (BITMAP_FIRST_BLOCK + i)
    (alter (fun x => Z.land x (Z.lnot (Z.shiftl 1 k))) (Z.to_nat j))) ;;
  block_mark_as_dirty (BITMAP_FIRST_BLOCK + i).
End Cache.

Arguments block_read {D _} index _.

(** ** A disk *)

(** What the cache relies on: a device server that answers requests, whose reads return
    what was written last. *)
Class Disk (D : Type) `{BlkDevice D} := {
  sector : D -> Z -> list Z;
  sector_length : forall d s, length (sector d s) = Z.to_nat SECTOR_SIZE;
  blk_read_sector : forall s d, 0 <= s -> blk_read s d = (OK, BLK_READ_REPLY_MSG, SECTOR_SIZE, sector d s, d);
  blk_write_sector : forall s s' data d, 0 <= s -> length data = Z.to_nat SECTOR_SIZE ->
    sector (snd (blk_write s data d)) s' = if decide (s' = s) then data else sector d s';
}.

Section Coherence.
Context {D : Type} `{Disk D}.
Implicit Types c : @cache D.

(** The block with number [i] on the disk. *)
Definition disk_block (d : D) (i : Z) : list Z :=
  mjoin ((fun j : nat => sector d (8 * i + Z.of_nat j)) <$> seq 0 8).

(** The contents of the blocks as the file system sees them. *)
Definition store_view (c : @cache D) (i : Z) : list Z :=
  match find_cached i c with Some b => b_data b | None => disk_block (blk_server c) i end.

Record coherent (c : @cache D) : Prop := {
  co_nodup : NoDup (b_index <$> cached_blocks c);
  co_range : forall b, b ∈ cached_blocks c -> 0 <= b_index b;
  co_length : forall b, b ∈ cached_blocks c -> length (b_data b) = Z.to_nat BLOCK_SIZE;
  co_clean : forall b, b ∈ cached_blocks c -> b_index b ∉ dirty_blocks c -> b_data b = disk_block (blk_server c) (b_index b);
  co_dirty : forall i, i ∈ dirty_blocks c -> is_Some (find_cached i c);
  co_dirty_nodup : NoDup (dirty_blocks c);
}.

Lemma find_cached_some i c b : find_cached i c = Some b -> b ∈ cached_blocks c /\ b_index b = i.
Proof.
  unfold find_cached. intros E. destruct (list_find _ _) as [[n b']|] eqn:F; [|done]. injection E as ->.
  apply list_find_Some in F as (Hl & Hi & _). split; [by eapply list_elem_of_lookup_2|done].
Qed.
Lemma find_cached_none i c : find_cached i c = None <-> forall b, b ∈ cached_blocks c -> b_index b <> i.
Proof.
  unfold find_cached. rewrite fmap_None, list_find_None, Forall_forall. done.
Qed.
Lemma find_cached_in c b : NoDup (b_index <$> cached_blocks c) -> b ∈ cached_blocks c ->
  find_cached (b_index b) c = Some b.
Proof.
  intros Hnd Hb. destruct (find_cached (b_index b) c) as [b'|] eqn:E.
  - apply find_cached_some in E as [Hb' Ei]. f_equal.
    apply list_elem_of_lookup in Hb as [n Hn], Hb' as [n' Hn'].
    assert (n = n') as ->; [|congruence]. apply (NoDup_lookup (b_index <$> cached_blocks c) n n' (b_index b)); [done| |].
    + by rewrite list_lookup_fmap, Hn.
    + rewrite list_lookup_fmap, Hn'. simpl. by rewrite Ei.
  - by destruct (proj1 (find_cached_none _ _) E b Hb).
Qed.

(** *** Reading *)
Lemma sector_number i j : block_to_sector i + j = 8 * i + j.
Proof. unfold block_to_sector, BLOCK_SIZE, SECTOR_SIZE. lia. Qed.

Lemma block_read_loop_run i n j data c :
  0 <= i -> 0 <= j ->
  block_read_loop i j n data c
    = Ok ((OK, data ++ mjoin ((fun k : nat => sector (blk_server c) (8 * i + j + Z.of_nat k)) <$> seq 0 n)), c).
Proof.
  intros Hi. revert j data. induction n as [|n IH]; intros j data Hj; cbn [block_read_loop].
  { simpl. by rewrite app_nil_r. }
  rewrite sector_number, blk_read_sector by lia. cbv beta iota zeta. rewrite !Z.eqb_refl. cbn [negb].
  assert (Ec : set_server (blk_server c) c = c) by (by destruct c). rewrite Ec, (IH (j + 1)) by lia. do 3 f_equal.
  rewrite <- app_assoc. f_equal. change (seq 0 (S n)) with (0%nat :: seq 1 n).
  rewrite fmap_cons, <- fmap_S_seq, <- list_fmap_compose. cbn [mjoin list_join]. f_equal; [f_equal; lia|]. f_equal. apply list_fmap_ext. intros k x _. simpl. f_equal. lia.
Qed.

Lemma disk_block_length d i : length (disk_block d i) = Z.to_nat BLOCK_SIZE.
Proof.
  unfold disk_block. cbn [seq fmap list_fmap mjoin list_join]. rewrite !length_app, !sector_length. done.
Qed.

Lemma find_cached_snoc i b c :
  find_cached i (set_cached (cached_blocks c ++ [b]) c)
  = match find_cached i c with Some x => Some x | None => if decide (b_index b = i) then Some b else None end.
Proof.
  destruct (find_cached i c) as [x|] eqn:E.
  - unfold find_cached in *. destruct (list_find _ _) as [[n y]|] eqn:F; [|done]. cbn [cached_blocks set_cached].
    by rewrite (list_find_app_l _ _ _ _ _ F).
  - unfold find_cached in *. destruct (list_find _ _) as [p|] eqn:F; [done|]. cbn [cached_blocks set_cached].
    rewrite list_find_app_r by done. simpl. by destruct (decide (b_index b = i)).
Qed.

(** Reading through the cache.  On a coherent cache over a working disk,
    [block_read] succeeds, the block is cached afterwards with the contents the file
    system had for it, no block's contents change, and the cache stays coherent. *)
Theorem block_read_correct c i :
  coherent c -> 0 <= i < 65535 ->
  exists c', block_read i c = Ok (OK, c') /\ coherent c' /\
    find_cached i c' = Some (Block i (store_view c i)) /\
    forall j, store_view c' j = store_view c j.
Proof.
  intros C Hi. unfold block_read. destruct (Z.eqb_spec i 65535); [lia|].
  rewrite (ST_bind_run (gets (find_cached i)) _ c (find_cached i c) c) by reflexivity.
  destruct (find_cached i c) as [b|] eqn:Hf.
  - exists c. split_and!; [done|done| |done]. unfold store_view. rewrite Hf.
    apply find_cached_some in Hf as [_ <-]. by destruct b.
  - rewrite (ST_bind_run _ _ _ _ _ (block_read_loop_run i 8 0 [] c ltac:(lia) ltac:(lia))).
    cbn [app]. rewrite Z.add_0_r. fold (disk_block (blk_server c) i).
    change (OK =? OK) with true. cbn [negb]. eexists. split; [reflexivity|].
    set (nb := Block i (disk_block (blk_server c) i)). set (c' := set_cached (cached_blocks c ++ [nb]) c).
    assert (Hv : forall j, store_view c' j = store_view c j).
    { intros j. unfold store_view, c'. rewrite find_cached_snoc. destruct (find_cached j c); [done|].
      case_decide as E; [|done]. simpl in E. by subst j. }
    split_and!; [|by unfold c'; rewrite find_cached_snoc, Hf, decide_True; unfold nb, store_view; rewrite ?Hf|exact Hv].
    destruct C as [C1 C2 C3 C4 C5 C6]. split; unfold c'; cbn [cached_blocks dirty_blocks blk_server set_cached].
    + rewrite fmap_app. apply NoDup_app. split_and!; [done| |apply NoDup_singleton].
      intros x Hx ->%list_elem_of_singleton. apply list_elem_of_fmap in Hx as (b & E & Hb).
      by apply (proj1 (find_cached_none i c) Hf b).
    + intros b [Hb| ->%list_elem_of_singleton]%elem_of_app; [by apply C2|simpl; lia].
    + intros b [Hb| ->%list_elem_of_singleton]%elem_of_app; [by apply C3|apply disk_block_length].
    + intros b [Hb| ->%list_elem_of_singleton]%elem_of_app Hd; [by apply C4|done].
    + intros x Hx. fold c'. unfold c'. rewrite find_cached_snoc. destruct (C5 x Hx) as [y ->]. eauto.
    + done.
Qed.

(** *** Writing back *)
Lemma block_write_loop_run b n j c :
  0 <= b_index b -> 0 <= j -> j + Z.of_nat n <= 8 -> length (b_data b) = Z.to_nat BLOCK_SIZE ->
  let c' := block_write_loop b j n c in
  cached_blocks c' = cached_blocks c /\ dirty_blocks c' = dirty_blocks c /\
  forall s, sector (blk_server c') s =
    if decide (8 * b_index b + j <= s < 8 * b_index b + j + Z.of_nat n)
    then take (Z.to_nat SECTOR_SIZE) (drop (Z.to_nat ((s - 8 * b_index b) * SECTOR_SIZE)) (b_data b))
    else sector (blk_server c) s.
Proof.
  intros Hi Hj Hn Hl. revert j c Hj Hn. induction n as [|n IH]; intros j c Hj Hn; cbn [block_write_loop].
  { split_and!; [done|done|]. intros s. rewrite decide_False by lia. done. }
  pose proof (blk_write_sector (block_to_sector (b_index b) + j)) as Hw.
  set (data := take (Z.to_nat SECTOR_SIZE) (drop (Z.to_nat (j * SECTOR_SIZE)) (b_data b))) in *.
  assert (Hd : length data = Z.to_nat SECTOR_SIZE).
  { unfold data. rewrite length_take, length_drop, Hl. unfold BLOCK_SIZE, SECTOR_SIZE. lia. }
  destruct (blk_write _ data (blk_server c)) as [e d] eqn:Ew.
  destruct (IH (j + 1) (set_server d c)) as (E1 & E2 & E3); [lia|lia|]. split_and!; [done|done|].
  intros s. rewrite E3. cbn [set_server blk_server].
  specialize (Hw s data (blk_server c)). rewrite Ew in Hw. cbn [snd] in Hw.
  rewrite sector_number in Hw. rewrite Hw by (done || lia).
  repeat case_decide; try lia; try done. unfold data. do 2 f_equal. lia.
Qed.

Lemma join_slices (l : list Z) n :
  mjoin ((fun j : nat => take 512 (drop (j * 512) l)) <$> seq 0 n) = take (n * 512) l.
Proof.
  induction n as [|n IH]; [done|]. rewrite seq_S, fmap_app, join_app, IH. simpl (seq 0 n). cbn [fmap list_fmap mjoin list_join].
  rewrite app_nil_r. replace (S n * 512)%nat with (n * 512 + 512)%nat by lia.
  apply take_take_drop.
Qed.

Lemma disk_block_written b c i :
  0 <= b_index b -> length (b_data b) = Z.to_nat BLOCK_SIZE ->
  disk_block (blk_server (block_write_loop b 0 8 c)) i
    = if decide (i = b_index b) then b_data b else disk_block (blk_server c) i.
Proof.
  intros Hi Hl. destruct (block_write_loop_run b 8 0 c Hi ltac:(lia) ltac:(lia) Hl) as (_ & _ & Hs).
  unfold disk_block. case_decide as E.
  - subst i. transitivity (take (8 * 512) (b_data b)); [|apply take_ge; rewrite Hl; unfold BLOCK_SIZE; lia].
    rewrite <- (join_slices (b_data b) 8). f_equal. apply list_fmap_ext. intros n j Hj.
    apply lookup_seq in Hj as [-> Hj]. simpl (0 + n)%nat. rewrite Hs, decide_True by lia.
    unfold SECTOR_SIZE. do 2 f_equal. lia.
  - f_equal. apply list_fmap_ext. intros n j Hj. apply lookup_seq in Hj as [-> Hj]. simpl (0 + n)%nat.
    rewrite Hs, decide_False by lia. done.
Qed.

(** One dirty block written back. *)
Lemma flush_one c i q :
  coherent c -> dirty_blocks c = i :: q ->
  exists b, find_cached i c = Some b /\
    let c' := set_dirty q (block_write_loop b 0 8 c) in
    coherent c' /\ dirty_blocks c' = q /\ (forall j, store_view c' j = store_view c j).
Proof.
  intros C Hq. destruct (co_dirty _ C i ltac:(rewrite Hq; by left)) as [b Hb]. exists b. split; [done|].
  pose proof (find_cached_some _ _ _ Hb) as [Hin Hbi]. destruct C as [C1 C2 C3 C4 C5 C6].
  rewrite Hq in *. apply NoDup_cons in C6 as [Hni Hnd].
  destruct (block_write_loop_run b 8 0 c (C2 _ Hin) ltac:(lia) ltac:(lia) (C3 _ Hin)) as (E1 & E2 & _).
  set (c1 := block_write_loop b 0 8 c) in *.
  assert (Hd : forall j, disk_block (blk_server c1) j = if decide (j = i) then b_data b else disk_block (blk_server c) j).
  { intros j. unfold c1. rewrite disk_block_written by auto. by rewrite Hbi. }
  assert (Hfc : forall j, find_cached j (set_dirty q c1) = find_cached j c) by (intros j; unfold find_cached; simpl; by rewrite E1).
  split_and!; [|done|].
  - split; cbn [set_dirty cached_blocks dirty_blocks blk_server]; rewrite ?E1; try done.
    + intros x Hx Hnx. rewrite Hd. case_decide as E.
      * assert (Hx' := find_cached_in c x C1 Hx). rewrite E, Hb in Hx'. by injection Hx' as ->.
      * apply C4; [done|]. rewrite elem_of_cons. tauto.
    + intros x Hx. rewrite Hfc. apply C5. by right.
  - intros j. unfold store_view. rewrite Hfc. destruct (find_cached j c) as [y|] eqn:E; [done|].
    cbn [set_dirty blk_server]. rewrite Hd. case_decide; [|done]. congruence.
Qed.

Lemma flush_loop_run q c :
  coherent c -> dirty_blocks c = q ->
  exists c', flush_loop q c = Ok (tt, c') /\ coherent c' /\ dirty_blocks c' = [] /\
    forall j, store_view c' j = store_view c j.
Proof.
  revert c. induction q as [|i q IH]; intros c C Hq. { by exists c. }
  destruct (flush_one c i q C Hq) as (b & Hb & C' & Hq' & Hv).
  destruct (IH _ C' Hq') as (c' & E & C2 & Hd & Hv2). exists c'. split_and!; [|done|done|].
  - cbn [flush_loop]. rewrite (ST_bind_run (getopt (find_cached i)) _ c b c) by (unfold getopt; by rewrite Hb).
    unfold block_write. erewrite ST_bind_run by reflexivity. erewrite ST_bind_run by reflexivity.
    rewrite <- E. f_equal. pose proof (find_cached_some _ _ _ Hb) as [Hin _].
    destruct (block_write_loop_run b 8 0 c (co_range _ C _ Hin) ltac:(lia) ltac:(lia) (co_length _ C _ Hin)) as (_ & E2 & _).
    f_equal. rewrite E2, Hq, filter_cons_False by (intros []; done).
    pose proof (co_dirty_nodup _ C) as Hnd. rewrite Hq in Hnd. apply NoDup_cons in Hnd as [Hni _].
    rewrite (list_filter_all (fun x => x <> i)); [done|]. intros x Hx ->. done.
  - intros j. by rewrite Hv2.
Qed.

(** C39: flushing makes the changes durable.  On a coherent cache over a working disk,
    [block_flush_all] leaves no block dirty, and every block of the disk (cached or
    not) then holds the contents the file system had for it. *)
Theorem block_flush_all_persists c :
  coherent c ->
  exists c', block_flush_all c = Ok (tt, c') /\ coherent c' /\ dirty_blocks c' = [] /\
    forall i, disk_block (blk_server c') i = store_view c i /\ store_view c' i = store_view c i.
Proof.
  intros C. unfold block_flush_all. erewrite ST_bind_run by reflexivity.
  destruct (flush_loop_run (dirty_blocks c) c C eq_refl) as (c' & E & C' & Hd & Hv).
  exists c'. split_and!; [done|done|done|]. intros i. split; [|by apply Hv]. rewrite <- Hv. unfold store_view.
  destruct (find_cached i c') as [b|] eqn:Hb; [|done]. apply find_cached_some in Hb as [Hin <-].
  symmetry. apply (co_clean _ C'); [done|]. rewrite Hd. apply not_elem_of_nil.
Qed.
End Coherence.

(** ** Allocation and release of blocks *)
Section Bitmap.
Context {D : Type} `{BlkDevice D}.
Implicit Types c : @cache D.

(** Bit [n] of the bitmap. *)
Definition bitmap_bit (c : @cache D) (n : Z) : bool :=
  match find_cached (BITMAP_FIRST_BLOCK + n / (BLOCK_SIZE * 8)) c with
  | Some b => Z.testbit (default 0 (b_data b !! Z.to_nat (n `mod` (BLOCK_SIZE * 8) / 8))) (n `mod` 8)
  | None => false
  end.

Lemma find_cached_update i f c :
  find_cached i (update_block i f c) = (fun b => Block i (f (b_data b))) <$> find_cached i c.
Proof.
  unfold find_cached, update_block. cbn [cached_blocks set_cached].
  induction (cached_blocks c) as [|b bs IH]; [done|]. cbn [fmap list_fmap list_find].
  destruct (Z.eqb_spec (b_index b) i) as [E|E].
  - rewrite !decide_True by done. done.
  - rewrite !decide_False by done. destruct (list_find _ bs) as [[n x]|], (list_find _ (_ <$> bs)) as [[n' x']|];
      cbn in IH |- *; done.
Qed.

Lemma find_cached_mark i j c : (block_mark_as_dirty j c : outcome (unit * cache)) = Ok (tt, (if block_is_dirty j c then c else set_dirty (dirty_blocks c ++ [j]) c))
  /\ find_cached i (if block_is_dirty j c then c else set_dirty (dirty_blocks c ++ [j]) c) = find_cached i c.
Proof. split; [done|]. by destruct (block_is_dirty j c). Qed.

Lemma zero_bit_spec byte n k k' : zero_bit byte k n = Some k' -> k <= k' < k + Z.of_nat n.
Proof.
  revert k. induction n as [|n IH]; intros k; cbn [zero_bit]; [done|]. case_match.
  - intros [= <-]. lia.
  - intros ?%IH. lia.
Qed.
Lemma zero_bit_at_spec bs j j' k : zero_bit_at bs j = Some (j', k) -> j <= j' < j + Z.of_nat (length bs) /\ 0 <= k < 8.
Proof.
  revert j. induction bs as [|b bs IH]; intros j; cbn [zero_bit_at]; [done|].
  destruct (zero_bit b 0 8) as [k'|] eqn:E.
  - intros [= <- <-]. apply zero_bit_spec in E. simpl. lia.
  - intros ?%IH. simpl. lia.
Qed.

(** Setting and clearing bits of bytes in a list. *)
Lemma alter_bit (f : Z -> Z) bs j j' k :
  (j < length bs)%nat ->
  Z.testbit (default 0 (alter f j bs !! j')) k
  = if decide (j' = j) then Z.testbit (f (default 0 (bs !! j))) k else Z.testbit (default 0 (bs !! j')) k.
Proof.
  intros Hj. destruct (lookup_lt_is_Some_2 bs j Hj) as [x Hx]. case_decide as E.
  - subst. by rewrite list_lookup_alter_eq, Hx.
  - by rewrite list_lookup_alter_ne by done.
Qed.
Lemma set_bit x k : 0 <= k -> Z.testbit (Z.lor x (Z.shiftl 1 k)) k = true.
Proof. intros. rewrite Z.lor_spec, Z.shiftl_1_l, Z.pow2_bits_true by done. apply orb_true_r. Qed.
Lemma clear_bit x k k' : 0 <= k -> 0 <= k' ->
  Z.testbit (Z.land x (Z.lnot (Z.shiftl 1 k))) k' = if decide (k' = k) then false else Z.testbit x k'.
Proof.
  intros. rewrite Z.land_spec, Z.lnot_spec, Z.shiftl_1_l, Z.pow2_bits_eqb by done. case_decide.
  - subst. by rewrite Z.eqb_refl, andb_false_r.
  - destruct (Z.eqb_spec k k'); [congruence|]. apply andb_true_r.
Qed.

(** Releasing a block frees another one.  [alloc_block] numbers the block of bit
    [n] of the bitmap [n + 6] (behind the header, the root directory and the bitmap),
    but [free_block] clears the bit of the block number itself: after a release the
    block is still marked as used, and the block six places behind it is marked as
    free whoever uses it. *)
Theorem free_block_frees_wrong_block c b j k :
  find_cached BITMAP_FIRST_BLOCK c = Some b -> length (b_data b) = Z.to_nat BLOCK_SIZE ->
  zero_bit_at (b_data b) 0 = Some (j, k) -> 8 * j + k + 6 < BLOCK_SIZE * 8 ->
  exists c1 c2, alloc_block c = Ok (8 * j + k + 6, c1) /\ free_block (8 * j + k + 6) c1 = Ok (tt, c2) /\
    bitmap_bit c1 (8 * j + k) = true /\
    bitmap_bit c2 (8 * j + k) = true /\ bitmap_bit c2 (8 * j + k + 6) = false.
Proof.
  intros Hb Hl Hz Hlt. destruct (zero_bit_at_spec _ _ _ _ Hz) as [Hj Hk]. unfold BLOCK_SIZE in *.
  set (f := alter (fun x => Z.lor x (Z.shiftl 1 k)) (Z.to_nat j) : list Z -> list Z). set (n := 8 * j + k) in *.
  set (mark := fun c : @cache D => if block_is_dirty BITMAP_FIRST_BLOCK c then c
                         else set_dirty (dirty_blocks c ++ [BITMAP_FIRST_BLOCK]) c).
  assert (Hmark : forall c, find_cached BITMAP_FIRST_BLOCK (mark c) = find_cached BITMAP_FIRST_BLOCK c)
    by (intros c'; apply (find_cached_mark BITMAP_FIRST_BLOCK BITMAP_FIRST_BLOCK c')).
  set (c1 := mark (update_block BITMAP_FIRST_BLOCK f c)).
  assert (Hb1 : find_cached BITMAP_FIRST_BLOCK c1 = Some (Block BITMAP_FIRST_BLOCK (f (b_data b))))
    by (unfold c1; by rewrite Hmark, find_cached_update, Hb).
  set (g := alter (fun x => Z.land x (Z.lnot (Z.shiftl 1 ((n + 6) `mod` 8)))) (Z.to_nat ((n + 6) / 8)) : list Z -> list Z).
  set (c2 := mark (update_block BITMAP_FIRST_BLOCK g c1)).
  assert (Hb2 : find_cached BITMAP_FIRST_BLOCK c2 = Some (Block BITMAP_FIRST_BLOCK (g (f (b_data b)))))
    by (unfold c2; by rewrite Hmark, find_cached_update, Hb1).
  exists c1, c2. split; [|split].
  - unfold alloc_block. change (Z.to_nat NUM_BITMAP_BLOCKS) with 4%nat. cbn [alloc_block_loop].
    change (BITMAP_FIRST_BLOCK + 0) with BITMAP_FIRST_BLOCK. rewrite (ST_bind_run (getopt (find_cached BITMAP_FIRST_BLOCK)) _ c b c) by (unfold getopt; by rewrite Hb).
    rewrite Hz. erewrite ST_bind_run by reflexivity. erewrite ST_bind_run by reflexivity.
    unfold mret, ST_ret. do 2 f_equal. unfold BLOCK_SIZE. rewrite (u16_small ((0 * 4096 + j) * 8 + k)) by lia.
    unfold NUM_BITMAP_BLOCKS. rewrite u16_small by lia. unfold n. lia.
  - unfold free_block, BLOCK_SIZE. replace ((n + 6) / (4096 * 8)) with 0 by (symmetry; apply Z.div_small; lia).
    rewrite Z.add_0_r. rewrite (ST_bind_run (getopt (find_cached BITMAP_FIRST_BLOCK)) _ c1 _ c1) by (unfold getopt; by rewrite Hb1).
    erewrite ST_bind_run by reflexivity. change (0 * 4096 * 8) with 0. rewrite Z.sub_0_r. done.
  - assert (Hq : forall m, 0 <= m < 4096 * 8 -> m / (4096 * 8) = 0) by (intros; by apply Z.div_small).
    assert (Hlf : length (f (b_data b)) = Z.to_nat 4096) by (unfold f; by rewrite length_alter).
    unfold bitmap_bit, BLOCK_SIZE. rewrite !Hq, Z.add_0_r, Hb1, Hb2 by lia. cbn [b_data].
    rewrite !(Z.mod_small _ (4096 * 8)) by lia.
    assert (Ej : n / 8 = j) by (unfold n; lia). assert (Ek : n `mod` 8 = k) by (unfold n; lia). rewrite Ej, Ek.
    assert (Hset : Z.testbit (default 0 (f (b_data b) !! Z.to_nat j)) k = true).
    { unfold f. rewrite alter_bit, decide_True by (done || lia). apply set_bit. lia. }
    assert (Hr : 0 <= (n + 6) `mod` 8 < 8) by lia.
    split_and!; [done| |].
    + unfold g. rewrite alter_bit by lia. case_decide as E; [|done].
      rewrite clear_bit by lia. rewrite decide_False by lia. rewrite <- E. done.
    + unfold g. rewrite alter_bit by lia. rewrite decide_True by done. rewrite clear_bit by lia. by rewrite decide_True.
Qed.
End Bitmap.

(** ** A concrete disk: a function from sector numbers to contents *)
Definition fun_disk : Type := Z -> list Z.

#[export] Instance fun_disk_blk : BlkDevice fun_disk := {
  blk_read s d := (OK, BLK_READ_REPLY_MSG, SECTOR_SIZE, resize 512 0 (d s), d);
  blk_write s data d := (OK, fun x => if decide (x = s) then data else d x);
}.
Lemma fun_disk_write s s' (data : list Z) (d : fun_disk) :
  0 <= s -> length data = Z.to_nat SECTOR_SIZE ->
  resize 512 0 (snd (blk_write s data d) s') = if decide (s' = s) then data else resize 512 0 (d s').
Proof. intros _ Hl. simpl snd. case_decide; [|done]. apply resize_all_alt. by rewrite Hl. Qed.

#[export] Instance fun_disk_disk : Disk fun_disk := {
  sector d s := resize 512 0 (d s);
  sector_length d s := length_resize (d s) 512 0;
  blk_read_sector s d _ := eq_refl;
  blk_write_sector := fun_disk_write;
}.

(** Block 3 of an all-zero disk is cached and changed; block 2, the first bitmap
    block, is cached too. *)
Definition dirty_three : @cache fun_disk :=
  Cache [Block 2 (replicate 4096 0); Block 3 (replicate 4096 7)] [3] (fun _ => []).

Lemma zero_disk_block i : disk_block (fun _ => [] : list Z) i = replicate 4096 0.
Proof. by vm_compute. Qed.

Lemma dirty_three_coherent : coherent dirty_three.
Proof.
  split; cbn [dirty_three cached_blocks dirty_blocks blk_server].
  - simpl. apply NoDup_cons. split; [|apply NoDup_singleton]. intros ?%list_elem_of_singleton. lia.
  - intros b Hb. rewrite !elem_of_cons, elem_of_nil in Hb. destruct Hb as [->|[->|[]]]; simpl; lia.
  - intros b Hb. rewrite !elem_of_cons, elem_of_nil in Hb. destruct Hb as [->|[->|[]]]; by vm_compute.
  - intros b Hb Hd. rewrite !elem_of_cons, elem_of_nil in Hb. destruct Hb as [->|[->|[]]].
    + symmetry. apply zero_disk_block.
    + by destruct Hd; apply list_elem_of_singleton.
  - intros i ->%list_elem_of_singleton. eexists. reflexivity.
  - apply NoDup_singleton.
Qed.

Lemma block_read_correct_witness :
  exists c', block_read 9 dirty_three = Ok (OK, c') /\ find_cached 9 c' = Some (Block 9 (store_view dirty_three 9)).
Proof.
  destruct (block_read_correct dirty_three 9) as (c' & E & _ & Hf & _); [apply dirty_three_coherent|lia|]. by exists c'.
Defined.

Lemma block_flush_all_persists_witness :
  exists c', block_flush_all dirty_three = Ok (tt, c') /\ disk_block (blk_server c') 3 = store_view dirty_three 3.
Proof.
  destruct (block_flush_all_persists dirty_three) as (c' & E & _ & _ & H); [apply dirty_three_coherent|].
  exists c'. split; [exact E|]. apply (H 3).
Defined.

Lemma free_block_frees_wrong_block_witness :
  exists c1 c2, alloc_block dirty_three = Ok (6, c1) /\ free_block 6 c1 = Ok (tt, c2) /\ bitmap_bit c2 0 = true.
Proof.
  destruct (free_block_frees_wrong_block dirty_three (Block 2 (replicate 4096 0)) 0 0) as (c1 & c2 & E1 & E2 & _ & H & _).
  - reflexivity.
  - by vm_compute.
  - reflexivity.
  - by vm_compute.
  - by exists c1, c2.
Defined.
