(* ===== verification/Mbuf.v ===== *)
(** Packet buffers (servers/tcpip/mbuf.c, mbuf.h) and the Internet checksum
    (servers/tcpip/checksum.h).

    A chain of mbufs is the list of its elements, NULL the empty list.  Every chain has
    one owner in the server, which hands it on or releases it ([mbuf_delete]); an
    operation that changes a chain in place therefore returns its new contents.
    An access outside of an element's [data] is undefined. *)

From S2P Require Import Prelude Types.

Definition MBUF_MAX_LEN : Z := 512 - (4 + 2 * 2).
Definition mbuf_max : nat := Z.to_nat MBUF_MAX_LEN.

#[local] Arguments splice : simpl never.
Arguments mbuf_max : simpl never.
Arguments MBUF_MAX_LEN : simpl never.

(** [struct mbuf] without its [next] pointer. *)
Record mseg := Seg { m_offset : Z; m_offset_end : Z; m_bytes : list Z }.
Abbreviation mbuf := (list mseg).

(** [malloc] returns zeroed memory. *)
Definition mbuf_alloc : mseg := Seg 0 0 (replicate mbuf_max 0).

Arguments mbuf_alloc : simpl never.

(** [memcpy] into and out of an element's [data]. *)
Definition seg_write (off : Z) (bs data : list Z) : outcome (list Z) :=
  if (0 <=? off) && (off + Z.of_nat (length bs) <=? MBUF_MAX_LEN)
  then Ok (splice (Z.to_nat off) bs data) else Undef.
Definition seg_read (off n : Z) (data : list Z) : outcome (list Z) :=
  if (0 <=? off) && (off + n <=? MBUF_MAX_LEN)
  then Ok (take (Z.to_nat n) (drop (Z.to_nat off) data)) else Undef.

(** The do-while loop: each round takes what fits into one element. *)
Fixpoint mbuf_new_loop (fuel : nat) (data : list Z) : mbuf :=
  let n := Nat.min (length data) mbuf_max in
  let m := Seg 0 (u16 (Z.of_nat n)) (splice 0 (take n data) (m_bytes mbuf_alloc)) in
  match fuel with
  | O => [m]
  | S fuel' => if (0 <? length data - n)%nat then m :: mbuf_new_loop fuel' (drop n data) else [m]
  end.
Definition mbuf_new (data : list Z) : mbuf := mbuf_new_loop (length data) data.

Fixpoint mbuf_append (m new_tail : mbuf) : outcome mbuf :=
  match m with
  | [] => Undef
  | [s] => Ok (s :: new_tail)
  | s :: m' => r ← mbuf_append m' new_tail; Ok (s :: r)
  end.

Fixpoint mbuf_append_bytes (m : mbuf) (data : list Z) : outcome mbuf :=
  match m with
  | [] => Undef
  | [s] =>
      let avail_len := u32 (MBUF_MAX_LEN - m_offset_end s) in
      let copy_len := Z.min (Z.of_nat (length data)) avail_len in
      s' ← (if 0 <? copy_len then
              bs ← seg_write (m_offset_end s) (take (Z.to_nat copy_len) data) (m_bytes s);
              Ok (Seg (m_offset s) (u16 (m_offset_end s + copy_len)) bs)
            else Ok s);
      let rest := drop (Z.to_nat copy_len) data in
      if (0 <? length rest)%nat then Ok (s' :: mbuf_new rest) else Ok [s']
  | s :: m' => r ← mbuf_append_bytes m' data; Ok (s :: r)
  end.

Definition mbuf_len_one (s : mseg) : Z := u32 (m_offset_end s - m_offset s).

Fixpoint mbuf_len (m : mbuf) : Z :=
  match m with
  | [] => 0
  | s :: m' => u32 (mbuf_len_one s + mbuf_len m')
  end.

Definition mbuf_is_empty (m : mbuf) : bool := mbuf_len m =? 0.

(** Each round of the loop releases an element or moves the offset of the first one; the
    result is what was copied to [buf], and the chain left behind [*mbuf]. *)
Fixpoint mbuf_read_loop (fuel : nat) (m : mbuf) (left : Z) (acc : list Z) : outcome (list Z * mbuf) :=
  match fuel with
  | O => Undef
  | S fuel' =>
      match m with
      | [] => Undef
      | s :: m' =>
          let len := mbuf_len_one s in
          if (len =? 0) && negb (bool_decide (m' = [])) then mbuf_read_loop fuel' m' left acc
          else
            let copy_len := Z.min left len in
            if copy_len =? 0 then Ok (acc, m)
            else
              bs ← seg_read (m_offset s) copy_len (m_bytes s);
              mbuf_read_loop fuel' (Seg (u16 (m_offset s + copy_len)) (m_offset_end s) (m_bytes s) :: m')
                (left - copy_len) (acc ++ bs)
      end
  end.
Definition mbuf_read (m : mbuf) (buf_len : Z) : outcome (list Z * mbuf) :=
  mbuf_read_loop (2 * length m + 2) m buf_len [].

(** [mbuf_len_one(src)] bytes are copied from the start of the source's [data]. *)
Definition mbuf_copy_one (src : mseg) : outcome mseg :=
  bs ← seg_read 0 (mbuf_len_one src) (m_bytes src);
  bs' ← seg_write 0 bs (m_bytes mbuf_alloc);
  Ok (Seg (m_offset src) (m_offset_end src) bs').

(** When the source ends first, the element allocated for the next round stays empty. *)
Fixpoint mbuf_peek (m : mbuf) (len : Z) : outcome mbuf :=
  match m with
  | [] => Ok [mbuf_alloc]
  | s :: m' =>
      d ← mbuf_copy_one s;
      if len <=? mbuf_len_one s
      then Ok [Seg (m_offset d) (u16 (m_offset_end d - (mbuf_len_one s - len))) (m_bytes d)]
      else r ← mbuf_peek m' (len - mbuf_len_one s); Ok (d :: r)
  end.

(** The number of discarded bytes and the chain left. *)
Fixpoint mbuf_discard_loop (fuel : nat) (m : mbuf) (remaining : Z) : outcome (Z * mbuf) :=
  match fuel with
  | O => Undef
  | S fuel' =>
      if remaining <=? 0 then Ok (remaining, m)
      else
        match m with
        | [] => Undef
        | s :: m' =>
            let len := mbuf_len_one s in
            if (len =? 0) && negb (bool_decide (m' = [])) then mbuf_discard_loop fuel' m' remaining
            else
              let discard_len := Z.min remaining len in
              if discard_len =? 0 then Ok (remaining, m)
              else mbuf_discard_loop fuel'
                     (Seg (u16 (m_offset s + discard_len)) (m_offset_end s) (m_bytes s) :: m')
                     (remaining - discard_len)
        end
  end.
Definition mbuf_discard (m : mbuf) (len : Z) : outcome (Z * mbuf) :=
  r ← mbuf_discard_loop (2 * length m + 2) m len; Ok (len - r.1, r.2).

Fixpoint mbuf_truncate (m : mbuf) (len : Z) : mbuf :=
  match m with
  | [] => []
  | s :: m' =>
      if len <=? 0 then m
      else if len <? mbuf_len_one s
      then [Seg (m_offset s) (u16 (m_offset_end s - (mbuf_len_one s - len))) (m_bytes s)]
      else s :: mbuf_truncate m' (len - mbuf_len_one s)
  end.

(** Only the first copy is reachable from the result: the loop never links the others. *)
Definition mbuf_clone (m : mbuf) : outcome mbuf :=
  match m with
  | [] => Undef
  | s :: _ => Ok [Seg (m_offset s) (m_offset_end s) (m_bytes s)]
  end.

(** ** Checksum *)
Definition checksum_init : Z := 0.

(** The 16-bit words are read in the machine's (little-endian) order. *)
Fixpoint checksum_update (c : Z) (data : list Z) : Z :=
  match data with
  | [] => c
  | [b] => u32 (c + b)
  | b0 :: b1 :: data' => checksum_update (u32 (c + le_combine [b0; b1])) data'
  end.
Definition checksum_update_uint16 (c data : Z) : Z := u32 (c + data).
Definition checksum_update_uint32 (c data : Z) : Z :=
  u32 (u32 (c + Z.land data 65535) + Z.shiftr data 16).
Fixpoint checksum_update_mbuf (c : Z) (m : mbuf) : outcome Z :=
  match m with
  | [] => Ok c
  | s :: m' =>
      bs ← seg_read (m_offset s) (mbuf_len_one s) (m_bytes s);
      checksum_update_mbuf (checksum_update c bs) m'
  end.
Definition checksum_finish (c : Z) : Z :=
  let c := u32 (Z.shiftr c 16 + Z.land c 65535) in
  let c := u32 (c + Z.shiftr c 16) in
  u32 (Z.lnot c).

(** ** A chain as a sequence of bytes *)
Record seg_wf (s : mseg) : Prop := {
  sw_offset : 0 <= m_offset s <= m_offset_end s;
  sw_end : m_offset_end s <= MBUF_MAX_LEN;
  sw_length : length (m_bytes s) = mbuf_max;
}.
Definition mbuf_wf (m : mbuf) : Prop := m <> [] /\ Forall seg_wf m.

Definition seg_bytes (s : mseg) : list Z :=
  take (Z.to_nat (m_offset_end s - m_offset s)) (drop (Z.to_nat (m_offset s)) (m_bytes s)).
Definition mbuf_bytes (m : mbuf) : list Z := concat (seg_bytes <$> m).

Lemma mbuf_bytes_cons s m : mbuf_bytes (s :: m) = seg_bytes s ++ mbuf_bytes m.
Proof. done. Qed.

Lemma mbuf_bytes_app m m' : mbuf_bytes (m ++ m') = mbuf_bytes m ++ mbuf_bytes m'.
Proof. unfold mbuf_bytes. by rewrite fmap_app, concat_app. Qed.

Lemma length_seg_bytes s : seg_wf s -> Z.of_nat (length (seg_bytes s)) = m_offset_end s - m_offset s.
Proof.
  intros [Ho He Hl]. unfold seg_bytes. rewrite length_take, length_drop, Hl.
  unfold mbuf_max, MBUF_MAX_LEN in *. lia.
Qed.

Lemma mbuf_len_one_wf s : seg_wf s -> mbuf_len_one s = m_offset_end s - m_offset s.
Proof. intros [Ho He _]. unfold mbuf_len_one, MBUF_MAX_LEN in *. apply u32_small. lia. Qed.

Lemma mbuf_len_bytes m :
  Forall seg_wf m -> Z.of_nat (length (mbuf_bytes m)) < 2 ^ 32 ->
  mbuf_len m = Z.of_nat (length (mbuf_bytes m)).
Proof.
  induction 1 as [|s m Hs Hm IH]; intros Hlen; [done|].
  rewrite mbuf_bytes_cons, length_app in *. pose proof (length_seg_bytes s Hs).
  simpl. rewrite IH, mbuf_len_one_wf by (done || lia). rewrite u32_small; lia.
Qed.

Lemma mbuf_alloc_wf : seg_wf mbuf_alloc.
Proof. split; simpl; unfold MBUF_MAX_LEN; [lia..|done]. Qed.

Ltac mlia := unfold mbuf_max, MBUF_MAX_LEN in *; lia.

(** The bytes of an element after a write at its end, and after its offset has moved. *)
Lemma seg_bytes_extend s bs :
  seg_wf s -> m_offset_end s + Z.of_nat (length bs) <= MBUF_MAX_LEN ->
  let s' := Seg (m_offset s) (m_offset_end s + Z.of_nat (length bs))
              (splice (Z.to_nat (m_offset_end s)) bs (m_bytes s)) in
  seg_wf s' /\ seg_bytes s' = seg_bytes s ++ bs.
Proof.
  intros [Ho He Hl] Hb. unfold mbuf_max, MBUF_MAX_LEN in *. simpl.
  split; [split; simpl; [lia|done|by rewrite length_splice]|].
  unfold seg_bytes; simpl.
  rewrite splice_spec by (rewrite Hl; lia).
  rewrite drop_app_le by (rewrite length_take, Hl; lia).
  rewrite take_app, length_drop, length_take, Hl.
  rewrite take_ge by (rewrite length_drop, length_take, Hl; lia).
  rewrite skipn_firstn_comm. f_equal; [f_equal; lia|].
  rewrite take_app_le by lia. apply take_ge. lia.
Qed.

Lemma seg_bytes_advance s n :
  seg_wf s -> 0 <= n <= m_offset_end s - m_offset s ->
  let s' := Seg (u16 (m_offset s + n)) (m_offset_end s) (m_bytes s) in
  seg_wf s' /\ seg_bytes s' = drop (Z.to_nat n) (seg_bytes s).
Proof.
  intros [Ho He Hl] Hn. unfold mbuf_max, MBUF_MAX_LEN in *. simpl.
  rewrite u16_small by lia. split; [split; simpl; (mlia || done)|].
  unfold seg_bytes; simpl. rewrite skipn_firstn_comm, drop_drop.
  f_equal; [lia|]. f_equal. lia.
Qed.

Lemma seg_bytes_shorten s n :
  seg_wf s -> 0 <= n <= m_offset_end s - m_offset s ->
  let s' := Seg (m_offset s) (u16 (m_offset_end s - (mbuf_len_one s - n))) (m_bytes s) in
  seg_wf s' /\ seg_bytes s' = take (Z.to_nat n) (seg_bytes s).
Proof.
  intros Hw Hn. rewrite mbuf_len_one_wf by done. destruct Hw as [Ho He Hl].
  unfold mbuf_max, MBUF_MAX_LEN in *. simpl.
  replace (m_offset_end s - (m_offset_end s - m_offset s - n)) with (m_offset s + n) by lia.
  rewrite u16_small by lia.
  split; [split; simpl; (mlia || done)|]. unfold seg_bytes; simpl. rewrite take_take. f_equal. lia.
Qed.

Lemma seg_read_bytes s n :
  seg_wf s -> 0 <= n <= m_offset_end s - m_offset s ->
  seg_read (m_offset s) n (m_bytes s) = Ok (take (Z.to_nat n) (seg_bytes s)).
Proof.
  intros [Ho He Hl] Hn. unfold seg_read.
  destruct (Z.leb_spec 0 (m_offset s)); [|lia].
  destruct (Z.leb_spec (m_offset s + n) MBUF_MAX_LEN); [|lia].
  unfold seg_bytes. rewrite take_take. simpl. do 2 f_equal. lia.
Qed.

(** *** Construction *)
Lemma new_seg data n :
  n = Nat.min (length data) mbuf_max ->
  let s := Seg 0 (u16 (Z.of_nat n)) (splice 0 (take n data) (m_bytes mbuf_alloc)) in
  seg_wf s /\ seg_bytes s = take n data.
Proof.
  intros Hn. rewrite u16_small by mlia.
  pose proof (seg_bytes_extend mbuf_alloc (take n data) mbuf_alloc_wf) as Hs.
  rewrite length_take in Hs. replace (Nat.min n (length data)) with n in Hs by lia.
  apply Hs. change (m_offset_end mbuf_alloc) with 0. mlia.
Qed.

Lemma mbuf_new_loop_spec fuel data :
  (length data <= fuel)%nat ->
  mbuf_wf (mbuf_new_loop fuel data) /\ mbuf_bytes (mbuf_new_loop fuel data) = data /\
  Forall (fun s => m_offset s = 0) (mbuf_new_loop fuel data).
Proof.
  revert data. induction fuel as [|fuel IH]; intros data Hf; cbn [mbuf_new_loop].
  all: destruct (new_seg data _ eq_refl) as [Hw Hb].
  - assert (data = []) as -> by (destruct data; simpl in *; [done|lia]).
    split; [split; [done|by constructor]|]; split; [|by constructor]. by rewrite mbuf_bytes_cons, Hb.
  - destruct (Nat.ltb_spec 0 (length data - Nat.min (length data) mbuf_max)) as [Hgt|Hle].
    + destruct (IH (drop (Nat.min (length data) mbuf_max) data)) as ([_ Hws] & Hbs & Hos).
      { rewrite length_drop. mlia. }
      split; [split; [done|by constructor]|]; split; [|by constructor].
      rewrite mbuf_bytes_cons, Hbs, Hb. apply take_drop.
    + split; [split; [done|by constructor]|]; split; [|by constructor].
      rewrite mbuf_bytes_cons, Hb, app_nil_r. apply take_ge. lia.
Qed.

Lemma mbuf_new_spec data :
  mbuf_wf (mbuf_new data) /\ mbuf_bytes (mbuf_new data) = data /\
  Forall (fun s => m_offset s = 0) (mbuf_new data).
Proof. by apply mbuf_new_loop_spec. Qed.

Lemma mbuf_append_spec m t : m <> [] -> mbuf_append m t = Ok (m ++ t).
Proof.
  induction m as [|s [|s' m] IH]; intros Hm; [done..|].
  change (mbuf_append (s :: s' :: m) t) with (r ← mbuf_append (s' :: m) t; Ok (s :: r)).
  by rewrite IH.
Qed.

(** Appending: the last element grows by what fits, the rest goes into new ones. *)
Lemma append_fill s data copy :
  seg_wf s -> copy = Z.min (Z.of_nat (length data)) (MBUF_MAX_LEN - m_offset_end s) ->
  exists s', (if 0 <? copy then
                bs ← seg_write (m_offset_end s) (take (Z.to_nat copy) data) (m_bytes s);
                Ok (Seg (m_offset s) (u16 (m_offset_end s + copy)) bs)
              else Ok s) = Ok s' /\
    seg_wf s' /\ seg_bytes s' = seg_bytes s ++ take (Z.to_nat copy) data /\ m_offset s' = m_offset s.
Proof.
  intros Hs Hc. destruct (Hs) as [Ho He Hl].
  destruct (Z.ltb_spec 0 copy).
  - destruct (seg_bytes_extend s (take (Z.to_nat copy) data)) as [Hw Hb]; [done|rewrite length_take; lia|].
    unfold seg_write. rewrite length_take in *.
    replace (Z.of_nat (Nat.min _ _)) with copy in * by lia.
    destruct (Z.leb_spec 0 (m_offset_end s)); [|lia].
    destruct (Z.leb_spec (m_offset_end s + copy) MBUF_MAX_LEN); [|lia].
    simpl. rewrite u16_small by (unfold MBUF_MAX_LEN in *; lia). eauto.
  - exists s. replace (Z.to_nat copy) with 0%nat by lia. by rewrite take_0, app_nil_r.
Qed.

Lemma mbuf_append_bytes_spec m data :
  mbuf_wf m ->
  exists m', mbuf_append_bytes m data = Ok m' /\ mbuf_wf m' /\
    mbuf_bytes m' = mbuf_bytes m ++ data /\
    (Forall (fun s => m_offset s = 0) m -> Forall (fun s => m_offset s = 0) m').
Proof.
  intros [Hne Hw]. induction Hw as [|s m Hs Hm IH]; [done|]. destruct m as [|s' m].
  2: { destruct (IH ltac:(done)) as (m' & E & [Hne' Hw'] & Hb & Ho). exists (s :: m').
       change (mbuf_append_bytes (s :: s' :: m) data) with (r ← mbuf_append_bytes (s' :: m) data; Ok (s :: r)).
       rewrite E. split; [done|]. split; [split; [done|by constructor]|].
       rewrite !(mbuf_bytes_cons s), Hb, app_assoc. split; [done|].
       intros [? ?]%Forall_cons. constructor; auto. }
  clear IH. cbn [mbuf_append_bytes].
  rewrite u32_small by (destruct Hs; unfold MBUF_MAX_LEN in *; lia).
  set (copy := Z.min _ _).
  destruct (append_fill s data copy Hs eq_refl) as (s' & -> & Hws & Hbs & Hos).
  unfold mbuf_bytes at 2. simpl. rewrite app_nil_r.
  destruct (Nat.ltb_spec 0 (length (drop (Z.to_nat copy) data))) as [Hgt|Hle].
  - destruct (mbuf_new_spec (drop (Z.to_nat copy) data)) as ([Hn Hwn] & Hbn & Hon).
    eexists. split; [done|]. split; [split; [done|by constructor]|].
    rewrite mbuf_bytes_cons, Hbs, Hbn, <- app_assoc, take_drop. split; [done|].
    intros [? _]%Forall_cons. constructor; [by rewrite Hos|done].
  - eexists. split; [done|]. split; [split; [done|by constructor]|].
    unfold mbuf_bytes. simpl. rewrite app_nil_r, Hbs.
    rewrite length_drop in Hle. rewrite (take_ge data) by lia. split; [done|].
    intros [? _]%Forall_cons. constructor; [by rewrite Hos|done].
Qed.

(** *** Reading and discarding

    A bound on the rounds the loops still take: two per element, less one when the first
    is empty already, and one to reach the requested length. *)
Definition head_empty (m : mbuf) : bool :=
  match m with s :: _ => m_offset_end s =? m_offset s | [] => false end.
Definition rounds (m : mbuf) (left : Z) : nat :=
  2 * length m - (if head_empty m then 1 else 0) + (if 0 <? left then 1 else 0).

Lemma take_step {A} c n (l : list A) : (c <= n)%nat -> take n l = take c l ++ take (n - c) (drop c l).
Proof.
  intros Hc. rewrite <- (take_drop c (take n l)), take_take, skipn_firstn_comm. f_equal. f_equal. lia.
Qed.

(** One round that takes [c] bytes out of the first element. *)
Lemma advance_head s m c left :
  mbuf_wf (s :: m) -> 0 < c -> c = Z.min left (m_offset_end s - m_offset s) ->
  let m1 := Seg (u16 (m_offset s + c)) (m_offset_end s) (m_bytes s) :: m in
  mbuf_wf m1 /\ mbuf_bytes m1 = drop (Z.to_nat c) (mbuf_bytes (s :: m)) /\
  take (Z.to_nat c) (seg_bytes s) = take (Z.to_nat c) (mbuf_bytes (s :: m)) /\
  (rounds m1 (left - c) < rounds (s :: m) left)%nat.
Proof.
  intros [_ [Hs Hm]%Forall_cons] Hc Ec. simpl.
  destruct (seg_bytes_advance s c Hs) as [Hw Hb]; [lia|].
  pose proof (length_seg_bytes s Hs).
  split; [split; [done|by constructor]|].
  rewrite !mbuf_bytes_cons, Hb, drop_app_le, take_app_le by lia. split; [done|]. split; [done|].
  destruct Hs as [? ? _]. unfold rounds; simpl. rewrite u16_small by mlia.
  destruct (Z.eqb_spec (m_offset_end s) (m_offset s + c)), (Z.eqb_spec (m_offset_end s) (m_offset s)),
    (Z.ltb_spec 0 (left - c)), (Z.ltb_spec 0 left); lia.
Qed.

(** A round that releases an empty element. *)
Lemma drop_head s m left :
  mbuf_wf (s :: m) -> mbuf_len_one s = 0 -> m <> [] ->
  mbuf_wf m /\ mbuf_bytes (s :: m) = mbuf_bytes m /\ (rounds m left < rounds (s :: m) left)%nat.
Proof.
  intros [_ [Hs Hm]%Forall_cons] He Hne. rewrite mbuf_len_one_wf in He by done.
  split; [by split|]. pose proof (length_seg_bytes s Hs) as Hl.
  rewrite mbuf_bytes_cons. destruct (seg_bytes s) as [|? ?]; simpl in Hl; [|lia]. split; [done|].
  unfold rounds at 2. simpl. destruct (Z.eqb_spec (m_offset_end s) (m_offset s)); [|lia].
  unfold rounds. destruct m as [|x m]; [done|]. simpl. destruct (m_offset_end x =? m_offset x); lia.
Qed.

(** The loops stop when nothing is asked for any more, or nothing is left. *)
Lemma stop_bytes s m left :
  mbuf_wf (s :: m) -> 0 <= left ->
  (mbuf_len_one s =? 0) && negb (bool_decide (m = [])) = false -> Z.min left (mbuf_len_one s) = 0 ->
  take (Z.to_nat left) (mbuf_bytes (s :: m)) = [] /\
  drop (Z.to_nat left) (mbuf_bytes (s :: m)) = mbuf_bytes (s :: m).
Proof.
  intros [_ [Hs Hm]%Forall_cons] Hleft Hb Hmin. rewrite mbuf_len_one_wf in * by done.
  destruct (Z.eq_dec left 0) as [->|Hne]; [done|].
  destruct (Z.eqb_spec (m_offset_end s - m_offset s) 0); simpl in Hb; [|destruct Hs; lia].
  case_bool_decide as Hnil; [|done]. subst m.
  pose proof (length_seg_bytes s Hs). unfold mbuf_bytes. simpl. rewrite app_nil_r.
  destruct (seg_bytes s); simpl in *; [|lia]. by rewrite take_nil, drop_nil.
Qed.

Lemma mbuf_read_loop_spec fuel m left acc :
  mbuf_wf m -> 0 <= left -> (rounds m left < fuel)%nat ->
  exists m', mbuf_read_loop fuel m left acc = Ok (acc ++ take (Z.to_nat left) (mbuf_bytes m), m') /\
    mbuf_wf m' /\ mbuf_bytes m' = drop (Z.to_nat left) (mbuf_bytes m).
Proof.
  revert m left acc. induction fuel as [|fuel IH]; intros m left acc Hw Hleft Hf; [lia|].
  destruct m as [|s m]; [by destruct Hw|]. cbn [mbuf_read_loop].
  destruct ((mbuf_len_one s =? 0) && negb (bool_decide (m = []))) eqn:Eb.
  { apply andb_true_iff in Eb as [He%Z.eqb_eq Hne%negb_true_iff]. apply bool_decide_eq_false in Hne.
    destruct (drop_head s m left Hw He Hne) as (Hw' & -> & Hr). apply IH; [done..|lia]. }
  destruct (Z.eqb_spec (Z.min left (mbuf_len_one s)) 0) as [E0|Hne].
  { destruct (stop_bytes s m left Hw Hleft Eb E0) as [-> ->]. rewrite app_nil_r. eauto. }
  destruct (Hw) as [_ [Hs _]%Forall_cons].
  pose proof (mbuf_len_one_wf s Hs) as El. rewrite El in *. destruct (Hs) as [Ho _ _].
  set (c := Z.min left _) in *.
  rewrite seg_read_bytes by (done || lia). simpl.
  destruct (advance_head s m c left Hw ltac:(lia) eq_refl) as (Hw' & Hb & Ht & Hr).
  destruct (IH _ (left - c) (acc ++ take (Z.to_nat c) (seg_bytes s)) Hw') as (m' & -> & Hm' & Hb'); [lia..|].
  exists m'. rewrite Ht, Hb' , Hb, drop_drop, <- app_assoc.
  rewrite (take_step (Z.to_nat c) (Z.to_nat left)) by lia.
  replace (Z.to_nat (left - c)) with (Z.to_nat left - Z.to_nat c)%nat by lia.
  split; [done|]. split; [done|]. f_equal. lia.
Qed.

Lemma rounds_fuel m left : (rounds m left < 2 * length m + 2)%nat.
Proof. unfold rounds. destruct (0 <? left), (head_empty m); lia. Qed.

Lemma mbuf_read_spec m n :
  mbuf_wf m -> 0 <= n ->
  exists m', mbuf_read m n = Ok (take (Z.to_nat n) (mbuf_bytes m), m') /\
    mbuf_wf m' /\ mbuf_bytes m' = drop (Z.to_nat n) (mbuf_bytes m).
Proof. intros. apply (mbuf_read_loop_spec _ m n []); [done..|apply rounds_fuel]. Qed.

Lemma mbuf_discard_loop_spec fuel m left :
  mbuf_wf m -> 0 <= left -> (rounds m left < fuel)%nat ->
  exists m', mbuf_discard_loop fuel m left
      = Ok (Z.max 0 (left - Z.of_nat (length (mbuf_bytes m))), m') /\
    mbuf_wf m' /\ mbuf_bytes m' = drop (Z.to_nat left) (mbuf_bytes m).
Proof.
  revert m left. induction fuel as [|fuel IH]; intros m left Hw Hleft Hf; [lia|].
  cbn [mbuf_discard_loop]. destruct (Z.leb_spec left 0).
  { exists m. replace left with 0 by lia. split; [|done]. do 2 f_equal. lia. }
  destruct m as [|s m]; [by destruct Hw|].
  destruct ((mbuf_len_one s =? 0) && negb (bool_decide (m = []))) eqn:Eb.
  { apply andb_true_iff in Eb as [He%Z.eqb_eq Hne%negb_true_iff]. apply bool_decide_eq_false in Hne.
    destruct (drop_head s m left Hw He Hne) as (Hw' & -> & Hr). apply IH; [done..|lia]. }
  destruct (Z.eqb_spec (Z.min left (mbuf_len_one s)) 0) as [E0|Hne].
  { destruct (stop_bytes s m left Hw Hleft Eb E0) as [Et ->]. exists (s :: m). split; [|done].
    apply (f_equal length) in Et. rewrite length_take in Et. simpl in Et. do 2 f_equal. lia. }
  destruct (Hw) as [_ [Hs _]%Forall_cons].
  pose proof (mbuf_len_one_wf s Hs) as El. rewrite El in *. destruct (Hs) as [Ho _ _].
  set (c := Z.min left _) in *.
  destruct (advance_head s m c left Hw ltac:(lia) eq_refl) as (Hw' & Hb & Ht & Hr).
  destruct (IH _ (left - c) Hw') as (m' & -> & Hm' & Hb'); [lia..|].
  exists m'. rewrite Hb', Hb, drop_drop, length_drop.
  assert (c <= Z.of_nat (length (mbuf_bytes (s :: m)))).
  { rewrite mbuf_bytes_cons, length_app. pose proof (length_seg_bytes s Hs). lia. }
  split; [do 2 f_equal; lia|]. split; [done|]. f_equal. lia.
Qed.

Lemma mbuf_discard_spec m n :
  mbuf_wf m -> 0 <= n ->
  exists m', mbuf_discard m n = Ok (Z.min n (Z.of_nat (length (mbuf_bytes m))), m') /\
    mbuf_wf m' /\ mbuf_bytes m' = drop (Z.to_nat n) (mbuf_bytes m).
Proof.
  intros Hw Hn.
  destruct (mbuf_discard_loop_spec (2 * length m + 2) m n) as (m' & E & H); [done..|apply rounds_fuel|].
  exists m'. unfold mbuf_discard. rewrite E. simpl. split; [|done]. do 2 f_equal. lia.
Qed.


(** *** Truncation and copies

    The loop of [mbuf_truncate] stops without removing anything when the requested length
    ends at the border of two elements. *)
Lemma mbuf_truncate_spec m n :
  Forall seg_wf m -> 0 <= n ->
  Forall seg_wf (mbuf_truncate m n) /\ (m <> [] -> mbuf_truncate m n <> []) /\
  (mbuf_bytes (mbuf_truncate m n) = take (Z.to_nat n) (mbuf_bytes m) \/
   mbuf_truncate m n = m /\ exists k, Z.of_nat (length (mbuf_bytes (take k m))) = n).
Proof.
  intros Hw. revert n. induction Hw as [|s m Hs Hm IH]; intros n Hn; simpl.
  { repeat split; [done..|]. left. change (mbuf_bytes []) with (@nil Z). by rewrite take_nil. }
  destruct (Z.leb_spec n 0).
  { repeat split; [by constructor|done|]. right. split; [done|]. exists 0%nat. simpl. lia. }
  pose proof (length_seg_bytes s Hs) as Hl. pose proof (mbuf_len_one_wf s Hs) as El.
  destruct (Z.ltb_spec n (mbuf_len_one s)).
  - destruct (seg_bytes_shorten s n Hs) as [Hw' Hb']; [lia|].
    repeat split; [by constructor|done|]. left.
    rewrite !mbuf_bytes_cons, Hb', app_nil_r, take_app_le by lia. done.
  - destruct (IH (n - mbuf_len_one s)) as (Hw' & _ & Hb'); [lia|].
    repeat split; [by constructor|done|]. destruct Hb' as [Hb'|[E [k Hk]]].
    + left. rewrite !mbuf_bytes_cons, Hb', take_app. f_equal; [by rewrite take_ge by lia|].
      f_equal. lia.
    + right. rewrite E. split; [done|]. exists (S k). simpl. rewrite mbuf_bytes_cons, length_app. lia.
Qed.

Lemma mbuf_copy_one_spec s :
  seg_wf s ->
  exists d, mbuf_copy_one s = Ok d /\ seg_wf d /\ m_offset d = m_offset s /\ m_offset_end d = m_offset_end s /\
    m_bytes d = take (length (seg_bytes s)) (m_bytes s) ++ replicate (mbuf_max - length (seg_bytes s)) 0.
Proof.
  intros Hs. pose proof (length_seg_bytes s Hs) as Hlen. pose proof (mbuf_len_one_wf s Hs) as El.
  destruct (Hs) as [Ho He Hl]. unfold mbuf_copy_one, seg_read. rewrite El.
  pose proof (sw_length _ mbuf_alloc_wf) as Hal.
  assert (Ez : m_bytes mbuf_alloc = replicate mbuf_max 0) by done.
  set (z := m_bytes mbuf_alloc) in *. clearbody z.
  destruct (Z.leb_spec (0 + (m_offset_end s - m_offset s)) MBUF_MAX_LEN); [|lia]. simpl.
  unfold seg_write. rewrite length_take, drop_0.
  destruct (Z.leb_spec (0 + Z.of_nat (Nat.min (Z.to_nat (m_offset_end s - m_offset s)) (length (m_bytes s)))) MBUF_MAX_LEN);
    [|lia]. simpl.
  assert (Hspl : (0 + length (take (Z.to_nat (m_offset_end s - m_offset s)) (m_bytes s)) <= mbuf_max)%nat).
  { rewrite length_take. mlia. }
  eexists. split; [done|]. split; [split; simpl; [lia|done|]|].
  { by rewrite length_splice. }
  repeat split. simpl. rewrite splice_spec by (rewrite Hal; exact Hspl).
  rewrite take_0. simpl. replace (length (seg_bytes s)) with (Z.to_nat (m_offset_end s - m_offset s)) by lia.
  f_equal. rewrite Ez, drop_replicate. f_equal. rewrite length_take. mlia.
Qed.

(** An element that starts at offset 0 is copied faithfully. *)
Lemma mbuf_copy_one_bytes s d :
  seg_wf s -> m_offset s = 0 -> mbuf_copy_one s = Ok d -> seg_bytes d = seg_bytes s.
Proof.
  intros Hs H0 E. destruct (mbuf_copy_one_spec s Hs) as (d' & E' & _ & Eo & Ee & Eb).
  rewrite E in E'. injection E' as <-. pose proof (length_seg_bytes s Hs) as Hl. destruct (Hs) as [_ ? Hlen].
  unfold seg_bytes at 1. rewrite Eo, Ee, Eb, H0.
  rewrite drop_0, take_app_le by (rewrite length_take; mlia).
  rewrite take_take. unfold seg_bytes. rewrite H0, drop_0. f_equal.
  rewrite length_take, Hlen. mlia.
Qed.

Lemma mbuf_peek_spec m n :
  Forall seg_wf m -> Forall (fun s => m_offset s = 0) m -> 0 <= n ->
  exists m', mbuf_peek m n = Ok m' /\ mbuf_wf m' /\ mbuf_bytes m' = take (Z.to_nat n) (mbuf_bytes m).
Proof.
  intros Hw. revert n. induction Hw as [|s m Hs Hm IH]; intros n Ho Hn; simpl.
  { eexists. split; [done|]. split; [split; [done|by constructor; [apply mbuf_alloc_wf|]]|].
    change (mbuf_bytes []) with (@nil Z). by rewrite take_nil. }
  apply Forall_cons in Ho as [Hos Hom].
  destruct (mbuf_copy_one_spec s Hs) as (d & E & Hd & Eo & Ee & _). rewrite E. simpl.
  pose proof (mbuf_copy_one_bytes s d Hs Hos E) as Eb. pose proof (length_seg_bytes s Hs) as Hl.
  pose proof (mbuf_len_one_wf s Hs) as El.
  assert (El' : mbuf_len_one s = mbuf_len_one d) by (rewrite El, mbuf_len_one_wf by done; lia).
  destruct (Z.leb_spec n (mbuf_len_one s)).
  - rewrite El'. destruct (seg_bytes_shorten d n Hd) as [Hw' Hb']; [lia|].
    eexists. split; [done|]. split; [split; [done|by constructor]|].
    rewrite !mbuf_bytes_cons, Hb', Eb, app_nil_r, take_app_le by lia. done.
  - destruct (IH (n - mbuf_len_one s) Hom) as (m' & -> & [? ?] & Hb'); [lia|].
    eexists. split; [done|]. split; [split; [done|by constructor]|].
    rewrite !mbuf_bytes_cons, Hb', Eb, take_app. f_equal; [by rewrite take_ge by lia|].
    f_equal. lia.
Qed.

(** A partly consumed element: its copy repeats the start of the data area, so that the
    last bytes are missing. *)
Lemma mbuf_peek_consumed s :
  seg_wf s ->
  exists d, mbuf_peek [s] (mbuf_len_one s) = Ok [d] /\
    let len := length (seg_bytes s) in
    let off := Z.to_nat (m_offset s) in
    seg_bytes d = take (len - off) (seg_bytes s) ++ replicate (Nat.min len off) 0.
Proof.
  intros Hs. destruct (mbuf_copy_one_spec s Hs) as (d & E & Hd & Eo & Ee & Eb).
  pose proof (length_seg_bytes s Hs) as Hl. destruct (Hs) as [Ho He Hlen].
  simpl. rewrite E. simpl. rewrite Z.leb_refl.
  eexists. split; [done|]. unfold seg_bytes at 1. simpl.
  rewrite Z.sub_diag, Z.sub_0_r, u16_small by mlia. rewrite Eo, Ee, Eb.
  set (len := length (seg_bytes s)) in *.
  replace (Z.to_nat (m_offset_end s - m_offset s)) with len by lia.
  assert (Hb : seg_bytes s = take len (drop (Z.to_nat (m_offset s)) (m_bytes s))).
  { unfold seg_bytes. f_equal. lia. }
  rewrite Hb, take_take, drop_app, length_take, Hlen, skipn_firstn_comm, take_app, length_take, length_drop, Hlen.
  rewrite take_take, drop_replicate, take_replicate. f_equal; f_equal; mlia.
Qed.

(** ** The checksum as a one's complement sum *)

(** Addition with end-around carry. *)
Definition ones_add (a b : Z) : Z := if 65536 <=? a + b then a + b - 65535 else a + b.
(** RFC 1071: the one's complement sum of the 16-bit words, an odd byte padded by zero. *)
Fixpoint ones_sum (acc : Z) (data : list Z) : Z :=
  match data with
  | [] => acc
  | [b] => ones_add acc b
  | b0 :: b1 :: data' => ones_sum (ones_add acc (b0 + 256 * b1)) data'
  end.
Fixpoint word_sum (data : list Z) : Z :=
  match data with
  | [] => 0
  | [b] => b
  | b0 :: b1 :: data' => b0 + 256 * b1 + word_sum data'
  end.

Definition byte (b : Z) : Prop := 0 <= b < 256.

(** The representative of a sum in one's complement: 0 for 0 only. *)
Definition ones_rep (s : Z) : Z := if s =? 0 then 0 else (s - 1) `mod` 65535 + 1.

Lemma ones_rep_add s w : 0 <= s -> 0 <= w < 65536 -> ones_add (ones_rep s) w = ones_rep (s + w).
Proof.
  intros Hs Hw. unfold ones_add, ones_rep.
  destruct (Z.eqb_spec s 0), (Z.eqb_spec (s + w) 0).
  - subst. destruct (Z.leb_spec 65536 (0 + w)); lia.
  - destruct (Z.leb_spec 65536 (0 + w)); lia.
  - lia.
  - destruct (Z.leb_spec 65536 ((s - 1) `mod` 65535 + 1 + w)); lia.
Qed.

(** Induction over the words of a byte string. *)
Lemma bytes_ind (P : list Z -> Prop) :
  P [] -> (forall b, P [b]) -> (forall b0 b1 l, P l -> P (b0 :: b1 :: l)) -> forall l, P l.
Proof.
  intros H0 H1 H2 l. cut (P l /\ forall b, P (b :: l)); [tauto|].
  induction l as [|b l [IH IH']]; split; auto.
Qed.

Lemma ones_sum_rep data : Forall byte data -> forall s, 0 <= s -> ones_sum (ones_rep s) data = ones_rep (s + word_sum data).
Proof.
  induction data as [|b|b0 b1 l IH] using bytes_ind; intros Hd s Hs; simpl.
  - by rewrite Z.add_0_r.
  - apply Forall_cons in Hd as [? _]. apply ones_rep_add; unfold byte in *; lia.
  - apply Forall_cons in Hd as [? [? ?]%Forall_cons]. unfold byte in *.
    rewrite ones_rep_add, IH by (done || lia). f_equal. lia.
Qed.

Lemma word_sum_range data :
  Forall byte data -> 0 <= word_sum data <= 65535 * ((Z.of_nat (length data) + 1) / 2).
Proof.
  induction data as [|b|b0 b1 l IH] using bytes_ind; intros Hd; simpl.
  - lia.
  - apply Forall_cons in Hd as [? _]. unfold byte in *. lia.
  - apply Forall_cons in Hd as [? [? ?]%Forall_cons]. unfold byte in *.
    specialize (IH ltac:(done)). lia.
Qed.

Lemma checksum_update_sum data :
  Forall byte data -> forall c, 0 <= c -> c + word_sum data < 2 ^ 32 -> checksum_update c data = c + word_sum data.
Proof.
  induction data as [|b|b0 b1 l IH] using bytes_ind; intros Hd c Hc Hs; simpl in *.
  - lia.
  - apply Forall_cons in Hd as [? _]. unfold byte in *. by rewrite u32_small by lia.
  - apply Forall_cons in Hd as [? [? Hl]%Forall_cons]. unfold byte in *.
    pose proof (word_sum_range l Hl). rewrite u32_small by lia. rewrite IH by (done || lia). lia.
Qed.

(** Folding the carries gives the complement of the one's complement sum. *)
Lemma checksum_finish_rep s : 0 <= s < 2 ^ 32 -> u16 (checksum_finish s) = 65535 - ones_rep s.
Proof.
  intros Hs. unfold checksum_finish.
  change (Z.land s 65535) with (Z.land s (Z.ones 16)).
  rewrite !Z.land_ones, !Z.shiftr_div_pow2 by lia.
  rewrite !(u32_small (s / _ + _)) by lia.
  remember (s / 2 ^ 16 + s `mod` 2 ^ 16) as c eqn:Ec.
  assert (Hc : 0 <= c <= 131070) by lia.
  rewrite (u32_small (c + _)) by lia.
  replace (Z.lnot (c + c / 2 ^ 16)) with (- (c + c / 2 ^ 16) - 1) by (unfold Z.lnot; lia).
  assert (Hr : ones_rep s = if c =? 0 then 0 else if c <? 65536 then c else c - 65535).
  { unfold ones_rep. destruct (Z.eqb_spec s 0), (Z.eqb_spec c 0), (Z.ltb_spec c 65536); lia. }
  rewrite Hr. unfold u16, u32. clear Hr Hs Ec s.
  destruct (Z.eqb_spec c 0), (Z.ltb_spec c 65536); lia.
Qed.

Lemma word_sum_app l1 l2 : Nat.Even (length l1) -> word_sum (l1 ++ l2) = word_sum l1 + word_sum l2.
Proof.
  induction l1 as [|b|b0 b1 l IH] using bytes_ind; intros He; simpl in *.
  - done.
  - by apply Nat.even_spec in He.
  - rewrite IH; [lia|]. by rewrite !Nat.Even_succ, Nat.Odd_succ in He.
Qed.

Lemma checksum_bytes_sum data :
  Forall byte data -> Z.of_nat (length data) <= 131072 ->
  checksum_update checksum_init data = word_sum data /\ 0 <= word_sum data < 2 ^ 32.
Proof.
  intros Hd Hl. pose proof (word_sum_range data Hd). unfold checksum_init.
  rewrite checksum_update_sum by (done || lia). lia.
Qed.

(** Over a chain the words are paired within each element: the sum is that of the whole
    packet when only the last element has an odd length. *)
Lemma checksum_update_mbuf_spec m c :
  Forall seg_wf m -> Forall byte (mbuf_bytes m) -> Forall (fun s => Nat.Even (length (seg_bytes s))) (removelast m) ->
  0 <= c -> c + word_sum (mbuf_bytes m) < 2 ^ 32 ->
  checksum_update_mbuf c m = Ok (c + word_sum (mbuf_bytes m)).
Proof.
  intros Hw. revert c. induction Hw as [|s m Hs Hm IH]; intros c Hb He Hc Hlt; simpl.
  { f_equal. change (mbuf_bytes []) with (@nil Z). simpl. lia. }
  rewrite mbuf_bytes_cons in *. apply Forall_app in Hb as [Hbs Hbm].
  pose proof (length_seg_bytes s Hs) as Hl. pose proof (word_sum_range _ Hbs). pose proof (word_sum_range _ Hbm).
  rewrite mbuf_len_one_wf, seg_read_bytes by (done || destruct Hs; lia). simpl.
  rewrite take_ge by lia.
  destruct m as [|s' m].
  - change (mbuf_bytes []) with (@nil Z) in *. rewrite app_nil_r in *. simpl. by rewrite checksum_update_sum.
  - change (removelast (s :: s' :: m)) with (s :: removelast (s' :: m)) in He.
    apply Forall_cons in He as [He1 He2]. rewrite word_sum_app in * by done.
    rewrite checksum_update_sum by (done || lia). rewrite IH by (done || lia). f_equal. lia.
Qed.

(** ** Theorems *)

(** A chain of mbufs behaves as the sequence of its bytes: construction, appending,
    reading, discarding, cutting and peeking have the effect of the list operation of the
    same name, terminate, and keep every element's offsets inside its data area.
    (Cutting leaves the chain as it is when the length ends at the border of two
    elements; peeking is exact while nothing was read from the chain.) *)
Theorem mbuf_refines_bytes m data n :
  mbuf_wf m -> 0 <= n -> Z.of_nat (length (mbuf_bytes m)) < 2 ^ 32 ->
  (mbuf_wf (mbuf_new data) /\ mbuf_bytes (mbuf_new data) = data) /\
  mbuf_len m = Z.of_nat (length (mbuf_bytes m)) /\
  (exists m', mbuf_append m (mbuf_new data) = Ok m' /\ mbuf_wf m' /\ mbuf_bytes m' = mbuf_bytes m ++ data) /\
  (exists m', mbuf_append_bytes m data = Ok m' /\ mbuf_wf m' /\ mbuf_bytes m' = mbuf_bytes m ++ data) /\
  (exists m', mbuf_read m n = Ok (take (Z.to_nat n) (mbuf_bytes m), m') /\ mbuf_wf m' /\
     mbuf_bytes m' = drop (Z.to_nat n) (mbuf_bytes m)) /\
  (exists m', mbuf_discard m n = Ok (Z.min n (mbuf_len m), m') /\ mbuf_wf m' /\
     mbuf_bytes m' = drop (Z.to_nat n) (mbuf_bytes m)) /\
  (mbuf_wf (mbuf_truncate m n) /\
   (mbuf_bytes (mbuf_truncate m n) = take (Z.to_nat n) (mbuf_bytes m) \/
    mbuf_truncate m n = m /\ exists k, Z.of_nat (length (mbuf_bytes (take k m))) = n)) /\
  (Forall (fun s => m_offset s = 0) m ->
   exists m', mbuf_peek m n = Ok m' /\ mbuf_wf m' /\ mbuf_bytes m' = take (Z.to_nat n) (mbuf_bytes m)).
Proof.
  intros Hw Hn Hlen. destruct (Hw) as [Hne Hs].
  destruct (mbuf_new_spec data) as ([Hne' Hs'] & Hb & _).
  destruct (mbuf_truncate_spec m n Hs Hn) as (Ht1 & Ht2 & Ht3).
  split; [done|]. split; [by apply mbuf_len_bytes|]. split.
  { exists (m ++ mbuf_new data). rewrite mbuf_append_spec, mbuf_bytes_app, Hb by done.
    repeat split; [by destruct m|]. by apply Forall_app. }
  split.
  { destruct (mbuf_append_bytes_spec m data Hw) as (m' & ? & ? & ? & _). eauto. }
  split; [by apply mbuf_read_spec|].
  split; [rewrite mbuf_len_bytes by done; by apply mbuf_discard_spec|].
  split; [split; [split; auto|done]|]. intros Ho. by apply mbuf_peek_spec.
Qed.

Lemma ones_rep_complement t : 0 <= t -> ones_rep (t + (65535 - ones_rep t)) = 65535.
Proof.
  intros Ht. unfold ones_rep. destruct (Z.eqb_spec t 0) as [->|Hne]; [done|].
  destruct (Z.eqb_spec (t + (65535 - ((t - 1) `mod` 65535 + 1))) 0); lia.
Qed.

(** C32: the checksum code computes the complement of the one's complement sum of RFC 1071
    over the packet's words, for every packet an IPv4 header can describe; and a packet
    into which it is written at an even offset sums up to 0xffff, which is what a receiver
    verifies. *)
Theorem checksum_correct data l1 l2 :
  Forall byte data -> Z.of_nat (length data) <= 131072 ->
  data = l1 ++ [0; 0] ++ l2 -> Nat.Even (length l1) ->
  let ck := u16 (checksum_finish (checksum_update checksum_init data)) in
  ck = 65535 - ones_sum 0 data /\ ones_sum 0 (l1 ++ le_split 2 ck ++ l2) = 65535.
Proof.
  intros Hd Hl Edata He ck. destruct (checksum_bytes_sum data Hd Hl) as [E Hr].
  assert (Eck : ck = 65535 - ones_rep (word_sum data)).
  { unfold ck. rewrite E. by apply checksum_finish_rep. }
  change 0 with (ones_rep 0) at 1 2. rewrite ones_sum_rep by (done || lia).
  split; [done|]. rewrite ones_sum_rep; [|..|lia].
  2: { subst data. apply Forall_app in Hd as [? [_ [_ ?]%Forall_cons]%Forall_cons].
       apply Forall_app. split; [done|]. apply Forall_app. split; [apply le_split_bytes|done]. }
  rewrite Edata in Eck, Hr. rewrite word_sum_app in Eck, Hr |- * by done. simpl in *.
  clearbody ck. set (t := word_sum l1 + (0 + 256 * 0 + word_sum l2)) in *.
  replace (0 + _) with (t + ck); [rewrite Eck; apply ones_rep_complement; lia|].
  assert (0 <= ones_rep t <= 65535) by (unfold ones_rep; destruct (t =? 0); lia). unfold t in *. lia.
Qed.

Lemma mbuf_refines_bytes_witness :
  mbuf_wf (mbuf_new [1; 2; 3]) /\
  exists m', mbuf_read (mbuf_new [1; 2; 3]) 2 = Ok ([1; 2], m') /\ mbuf_bytes m' = [3].
Proof.
  assert (Hw : mbuf_wf (mbuf_new [1; 2; 3])) by apply mbuf_new_spec.
  assert (Eb : mbuf_bytes (mbuf_new [1; 2; 3]) = [1; 2; 3]) by apply mbuf_new_spec.
  split; [done|].
  destruct (mbuf_refines_bytes (mbuf_new [1; 2; 3]) [] 2 Hw) as (_ & _ & _ & _ & Hr & _); [lia|by rewrite Eb|].
  rewrite Eb in Hr. destruct Hr as (m' & ? & _ & ?). by exists m'.
Defined.

(** The IPv4 header of a UDP packet, with and without its checksum. *)
Definition sample_header : list Z :=
  [69; 0; 0; 115; 0; 0; 64; 0; 64; 17; 0; 0; 192; 168; 0; 1; 192; 168; 0; 199].
Lemma checksum_correct_witness :
  let ck := u16 (checksum_finish (checksum_update checksum_init sample_header)) in
  le_split 2 ck = [184; 97] /\
  ones_sum 0 ([69; 0; 0; 115; 0; 0; 64; 0; 64; 17] ++ le_split 2 ck ++ [192; 168; 0; 1; 192; 168; 0; 199]) = 65535.
Proof.
  intros ck. split; [reflexivity|].
  refine (proj2 (checksum_correct sample_header [69; 0; 0; 115; 0; 0; 64; 0; 64; 17]
    [192; 168; 0; 1; 192; 168; 0; 199] _ _ eq_refl _)).
  - unfold sample_header. repeat constructor; lia.
  - vm_compute. discriminate.
  - by exists 5%nat.
Defined.
