(* ===== verification/Link.v ===== *)
(** The lower half of the TCP/IP server: the network device (servers/tcpip/device.c), ARP
    (arp.c), the Ethernet layer (ethernet.c) and the transmission of IPv4 packets (ipv4.c).

    The messages the server sends to other tasks are a trace of [action]s, in order; its
    clock ([uptime_now]) is a field that only the environment changes. *)

From S2P Require Import Prelude Types Mbuf.

(** ** Constants and data *)
Definition IPV4_ADDR_BROADCAST : Z := 4294967295 (* 0xffffffff *).
Definition IPV4_ADDR_UNSPECIFIED : Z := 0.
Definition IPV4_PROTO_TCP : Z := 6.
Definition IPV4_PROTO_UDP : Z := 17.
Definition DEFAULT_TTL : Z := 32.
Definition ETHER_TYPE_IPV4 : Z := 2048 (* 0x0800 *).
Definition ETHER_TYPE_ARP : Z := 2054 (* 0x0806 *).
Definition ARP_OP_REQUEST : Z := 1.
Definition ARP_OP_REPLY : Z := 2.
Definition ARP_ENTRIES_MAX : nat := 128.
Definition MACADDR_LEN : nat := 6.
Definition MACADDR_BROADCAST : list Z := [255; 255; 255; 255; 255; 255].
Definition NET_PAYLOAD_MAX : Z := 1500.
Definition INT_MAX : Z := 2147483647.

Record device := Device {
  d_initialized : bool; d_dhcp_enabled : bool; d_macaddr : list Z;
  d_ipaddr : Z; d_gateway : Z; d_netmask : Z }.

Record arp_queue_entry := QEntry { qe_dst : Z; qe_type : Z; qe_payload : mbuf }.
Record arp_entry := ArpEntry {
  a_in_use : bool; a_resolved : bool; a_ipaddr : Z; a_macaddr : list Z;
  a_queue : list arp_queue_entry; a_time : Z }.

(** What the server tells other tasks: a frame for the device driver, the events of a
    socket for its owner, and replies. *)
Inductive action :=
| NetSend (payload : list Z)
| TcpData (task fd : Z)
| TcpClosed (task fd : Z)
| DnsReply (task addr : Z)
| ConnectReply (task fd : Z)
| WriteReply (task : Z)
| ReadReply (task : Z) (data : list Z)
| CloseReply (task : Z)
| ErrReply (task err : Z).

Record link := Link { l_dev : device; l_arp : list arp_entry; l_now : Z; l_out : list action }.
Abbreviation LST := (ST link).

Definition set_dev d l := Link d (l_arp l) (l_now l) (l_out l).
Definition set_arp x l := Link (l_dev l) x (l_now l) (l_out l).
Definition emit (a : action) (l : link) : link := Link (l_dev l) (l_arp l) (l_now l) (l_out l ++ [a]).
Definition uptime_now : LST Z := gets l_now.

(** ** Packed structures

    Fields of a packed header, little-endian as the machine stores them. *)
Definition ethernet_header (dst src : list Z) (type : Z) : list Z := dst ++ src ++ le_split 2 type.
Definition sizeof_ethernet_header : Z := 14.

Definition arp_packet (opcode : Z) (sender : list Z) (sender_addr : Z) (target : list Z) (target_addr : Z)
    : list Z :=
  le_split 2 (hton16 1) ++ le_split 2 (hton16 2048) ++ [Z.of_nat MACADDR_LEN] ++ [4] ++
  le_split 2 opcode ++ sender ++ le_split 4 sender_addr ++ target ++ le_split 4 target_addr.
Definition sizeof_arp_packet : Z := 28.

Definition ipv4_header (len proto checksum src_addr dst_addr : Z) : list Z :=
  [69 (* 0x45 *)] ++ [0] ++ le_split 2 len ++ le_split 2 0 ++ le_split 2 0 ++ [DEFAULT_TTL] ++ [proto] ++
  le_split 2 checksum ++ le_split 4 src_addr ++ le_split 4 dst_addr.
Definition sizeof_ipv4_header : Z := 20.

(** ** Device *)
Definition ipaddr_equals_in_netmask (a b netmask : Z) : bool := Z.land a netmask =? Z.land b netmask.

Definition device_dst_is_ours (dst : Z) : LST bool :=
  d ← gets l_dev;
  assert (d_initialized d) ;;
  mret ((dst =? d_ipaddr d) || (dst =? IPV4_ADDR_BROADCAST)).

Definition device_get_next_hop (dst : Z) : LST Z :=
  d ← gets l_dev;
  assert (d_initialized d) ;;
  if dst =? IPV4_ADDR_BROADCAST then mret dst
  else if ipaddr_equals_in_netmask (d_ipaddr d) dst (d_netmask d) then mret dst
  else assert (negb (d_gateway d =? IPV4_ADDR_UNSPECIFIED)) ;; mret (d_gateway d).

Definition device_get_macaddr : LST (list Z) :=
  d ← gets l_dev; assert (d_initialized d) ;; mret (d_macaddr d).
Definition device_get_ipaddr : LST Z :=
  d ← gets l_dev; assert (d_initialized d) ;; mret (d_ipaddr d).

Definition device_set_ip_addrs (ipaddr netmask gateway : Z) : LST unit :=
  d ← gets l_dev;
  assert (d_initialized d) ;;
  modify (set_dev (Device (d_initialized d) (d_dhcp_enabled d) (d_macaddr d) ipaddr gateway netmask)).

Definition device_ready (l : link) : bool :=
  d_initialized (l_dev l) && negb (d_ipaddr (l_dev l) =? IPV4_ADDR_UNSPECIFIED).

Definition device_init (macaddr : list Z) : LST unit :=
  modify (set_dev (Device true false macaddr 0 0 0)).

(** ** ARP table *)

(** The scan of [alloc_entry]: the first free entry, and the least recently used one seen. *)
Fixpoint alloc_scan (i : nat) (es : list arp_entry) (oldest : option nat) (oldest_time : Z)
    : option nat * option nat :=
  match es with
  | [] => (None, oldest)
  | e :: es' =>
      let '(oldest, oldest_time) :=
        if a_time e <? oldest_time then (Some i, a_time e) else (oldest, oldest_time) in
      if negb (a_in_use e) then (Some i, oldest) else alloc_scan (S i) es' oldest oldest_time
  end.

Definition upd_entry (i : nat) (f : arp_entry -> arp_entry) : LST unit :=
  modify (fun l => set_arp (alter f i (l_arp l)) l).

Definition alloc_entry : LST nat :=
  es ← gets l_arp;
  i ← match alloc_scan 0 es None INT_MAX with
      | (Some i, _) => mret i
      | (None, Some o) => mret o
      | (None, None) => panic
      end;
  upd_entry i (fun e => ArpEntry true (a_resolved e) (a_ipaddr e) (a_macaddr e) [] (a_time e)) ;;
  mret i.

Fixpoint lookup_from (i : nat) (es : list arp_entry) (ipaddr : Z) : option nat :=
  match es with
  | [] => None
  | e :: es' => if a_in_use e && (a_ipaddr e =? ipaddr) then Some i else lookup_from (S i) es' ipaddr
  end.
Definition lookup_entry (ipaddr : Z) (l : link) : option nat := lookup_from 0 (l_arp l) ipaddr.
Definition entry_at (i : nat) : LST arp_entry := getopt (fun l => l_arp l !! i).

(** The address, when it is known. *)
Definition arp_resolve (ipaddr : Z) : LST (option (list Z)) :=
  assert (negb (ipaddr =? IPV4_ADDR_UNSPECIFIED)) ;;
  if ipaddr =? IPV4_ADDR_BROADCAST then mret (Some MACADDR_BROADCAST)
  else
    i ← gets (lookup_entry ipaddr);
    match i with
    | None => mret None
    | Some i =>
        e ← entry_at i;
        if negb (a_resolved e) then mret None
        else
          now ← uptime_now;
          upd_entry i (fun e => ArpEntry (a_in_use e) (a_resolved e) (a_ipaddr e) (a_macaddr e) (a_queue e) now) ;;
          mret (Some (a_macaddr e))
    end.

Definition arp_enqueue (type dst : Z) (payload : mbuf) : LST unit :=
  i ← gets (lookup_entry dst);
  i ← match i with
      | Some i => e ← entry_at i; assert (negb (a_resolved e)) ;; mret i
      | None =>
          i ← alloc_entry;
          now ← uptime_now;
          upd_entry i (fun e => ArpEntry (a_in_use e) false dst (a_macaddr e) (a_queue e) now) ;;
          mret i
      end;
  upd_entry i (fun e => ArpEntry (a_in_use e) (a_resolved e) (a_ipaddr e) (a_macaddr e)
                          (a_queue e ++ [QEntry dst type payload]) (a_time e)).

(** ** Transmission *)

(** main.c: the frame goes to the device driver as an asynchronous message. *)
Definition callback_ethernet_transmit (pkt : mbuf) : LST unit :=
  let len := mbuf_len pkt in
  if NET_PAYLOAD_MAX <? len then mret tt
  else r ← lift_out (mbuf_read pkt len); modify (emit (NetSend r.1)).

(** [ethernet_transmit] and [arp_transmit] call each other: an unresolved address sends an
    ARP request to the broadcast address, which needs no resolution.  Two levels are enough
    ([ethernet_transmit_enough]). *)
Fixpoint ethernet_transmit_n (n : nat) (type dst : Z) (payload : mbuf) : LST unit :=
  match n with
  | O => undef
  | S n' =>
      next_hop ← device_get_next_hop dst;
      if next_hop =? IPV4_ADDR_UNSPECIFIED then mret tt
      else
        mac ← arp_resolve next_hop;
        match mac with
        | None =>
            arp_enqueue type next_hop payload ;;
            ipaddr ← device_get_ipaddr;
            macaddr ← device_get_macaddr;
            ethernet_transmit_n n' ETHER_TYPE_ARP IPV4_ADDR_BROADCAST
              (mbuf_new (arp_packet (hton16 ARP_OP_REQUEST) macaddr (hton32 ipaddr)
                           MACADDR_BROADCAST (hton32 next_hop)))
        | Some dst_macaddr =>
            macaddr ← device_get_macaddr;
            pkt ← lift_out (mbuf_append (mbuf_new (ethernet_header dst_macaddr macaddr (hton16 type))) payload);
            callback_ethernet_transmit pkt
        end
  end.
Definition ethernet_transmit : Z -> Z -> mbuf -> LST unit := ethernet_transmit_n 2.

Definition arp_transmit (op target_addr : Z) (target : list Z) : LST unit :=
  ipaddr ← device_get_ipaddr;
  macaddr ← device_get_macaddr;
  ethernet_transmit ETHER_TYPE_ARP IPV4_ADDR_BROADCAST
    (mbuf_new (arp_packet (hton16 op) macaddr (hton32 ipaddr) target (hton32 target_addr))).
Definition arp_request (addr : Z) : LST unit := arp_transmit ARP_OP_REQUEST addr MACADDR_BROADCAST.

(** The packets that waited for the address, in order.  An entry that the transmission of
    one of them has taken away for another address leaves its queue half unlinked. *)
Fixpoint arp_flush_queue (i : nat) (ipaddr : Z) (q : list arp_queue_entry) : LST unit :=
  match q with
  | [] => mret tt
  | qe :: q' =>
      ethernet_transmit (qe_type qe) (qe_dst qe) (qe_payload qe) ;;
      e ← entry_at i;
      (if a_ipaddr e =? ipaddr then mret tt else undef) ;;
      upd_entry i (fun e => ArpEntry (a_in_use e) (a_resolved e) (a_ipaddr e) (a_macaddr e) q' (a_time e)) ;;
      arp_flush_queue i ipaddr q'
  end.

Definition arp_register_macaddr (ipaddr : Z) (macaddr : list Z) : LST unit :=
  i ← gets (lookup_entry ipaddr);
  i ← match i with Some i => mret i | None => alloc_entry end;
  now ← uptime_now;
  upd_entry i (fun e => ArpEntry (a_in_use e) true ipaddr macaddr (a_queue e) now) ;;
  e ← entry_at i;
  arp_flush_queue i ipaddr (a_queue e).

Definition arp_receive (pkt : mbuf) : LST unit :=
  r ← lift_out (mbuf_read pkt sizeof_arp_packet);
  let p := r.1 in
  if negb (Z.of_nat (length p) =? sizeof_arp_packet) then mret tt
  else
    let opcode := ntoh16 (get16 6 p) in
    let sender := getn 8 MACADDR_LEN p in
    let sender_addr := ntoh32 (get32 14 p) in
    let target_addr := ntoh32 (get32 24 p) in
    if opcode =? ARP_OP_REQUEST then
      ipaddr ← device_get_ipaddr;
      if negb (ipaddr =? target_addr) then mret tt
      else arp_transmit ARP_OP_REPLY sender_addr sender
    else if opcode =? ARP_OP_REPLY then arp_register_macaddr sender_addr sender
    else mret tt.

Definition ipv4_transmit (dst proto : Z) (payload : mbuf) : LST unit :=
  let total_len := u32 (sizeof_ipv4_header + mbuf_len payload) in
  ipaddr ← device_get_ipaddr;
  let header ck := ipv4_header (hton16 (u16 total_len)) proto ck (hton32 ipaddr) (hton32 dst) in
  let checksum := checksum_update checksum_init (header 0) in
  pkt ← lift_out (mbuf_append (mbuf_new (header (u16 (checksum_finish checksum)))) payload);
  ethernet_transmit ETHER_TYPE_IPV4 dst pkt.

(** ** Lemmas *)

Lemma lift_out_ok {S A} (o : outcome A) (a : A) (s : S) : o = Ok a -> lift_out o s = Ok (a, s).
Proof. by intros ->. Qed.

Lemma get_le2 x : 0 <= x < 2 ^ 16 -> le_combine (le_split 2 x) = x.
Proof. intros. rewrite le_combine_split. by apply Z.mod_small. Qed.
Lemma get_le4 x : 0 <= x < 2 ^ 32 -> le_combine (le_split 4 x) = x.
Proof. intros. rewrite le_combine_split. by apply Z.mod_small. Qed.

(** Looking up an address: the first entry in use that has it. *)
Lemma lookup_from_some k es ip i :
  lookup_from k es ip = Some i ->
  exists e, (k <= i)%nat /\ es !! (i - k)%nat = Some e /\ a_in_use e = true /\ a_ipaddr e = ip.
Proof.
  revert k. induction es as [|e es IH]; intros k E; simpl in E; [done|].
  destruct (a_in_use e && (a_ipaddr e =? ip)) eqn:Eb.
  - apply andb_true_iff in Eb as [? ?%Z.eqb_eq]. simplify_eq. exists e. by rewrite Nat.sub_diag.
  - apply IH in E as (e' & ? & E & ?). exists e'. split; [lia|].
    replace (i - k)%nat with (S (i - S k)) by lia. done.
Qed.

Lemma lookup_entry_some ip l i :
  lookup_entry ip l = Some i ->
  exists e, l_arp l !! i = Some e /\ a_in_use e = true /\ a_ipaddr e = ip.
Proof. intros (e & _ & E & ?)%lookup_from_some. rewrite Nat.sub_0_r in E. eauto. Qed.

Lemma lookup_from_alter k f i es ip :
  (forall e, a_in_use (f e) = a_in_use e /\ a_ipaddr (f e) = a_ipaddr e) ->
  lookup_from k (alter f i es) ip = lookup_from k es ip.
Proof.
  intros Hf. revert k i. induction es as [|e es IH]; intros k [|i]; simpl; [done..| |].
  - by destruct (Hf e) as [-> ->].
  - destruct (a_in_use e && (a_ipaddr e =? ip)); [done|apply IH].
Qed.

(** An address that was not in the table is found where it is put. *)
Lemma lookup_from_fresh k f i es ip :
  lookup_from k es ip = None -> (i < length es)%nat ->
  (forall e, a_in_use (f e) = true /\ a_ipaddr (f e) = ip) ->
  lookup_from k (alter f i es) ip = Some (k + i)%nat.
Proof.
  intros E Hi Hf. revert k i E Hi. induction es as [|e es IH]; intros k [|i] E Hi; simpl in *; [lia..| |].
  - destruct (Hf e) as [-> ->]. rewrite Z.eqb_refl. simpl. f_equal. lia.
  - destruct (a_in_use e && (a_ipaddr e =? ip)); [done|].
    etrans; [apply IH; [done|lia]|]. f_equal. lia.
Qed.

(** The scan finds an entry: a free one, or the least recently used. *)
Lemma alloc_scan_spec k es oldest t :
  (forall o, oldest = Some o -> (o < k)%nat) ->
  match alloc_scan k es oldest t with
  | (Some i, _) => (k <= i < k + length es)%nat
  | (None, Some o) => (o < k + length es)%nat
  | (None, None) => Forall (fun e => a_in_use e = true /\ t <= a_time e) es
  end.
Proof.
  revert k oldest t. induction es as [|e es IH]; intros k oldest t Ho; simpl.
  { destruct oldest; [|by constructor]. specialize (Ho _ eq_refl). lia. }
  destruct (Z.ltb_spec (a_time e) t).
  - destruct (a_in_use e) eqn:Eu; simpl; [|lia].
    specialize (IH (S k) (Some k) (a_time e)).
    destruct (alloc_scan (S k) es (Some k) (a_time e)) as [[i|] [o|]] eqn:E;
      try (specialize (IH ltac:(intros; simplify_eq; lia)); lia).
    exfalso. revert E. clear. generalize (a_time e) at 1. intros t.
    assert (G : forall es k o t, (alloc_scan k es (Some o) t).2 <> None).
    { clear. induction es as [|e es IH]; intros k o t; simpl; [done|].
      destruct (a_time e <? t), (a_in_use e); simpl; done. }
    intros E. apply (G es (S k) k t). by rewrite E.
  - destruct (a_in_use e) eqn:Eu; simpl; [|lia].
    specialize (IH (S k) oldest t).
    destruct (alloc_scan (S k) es oldest t) as [[i|] [o|]];
      (specialize (IH ltac:(intros o' Ho'; specialize (Ho _ Ho'); lia))); [lia..|].
    constructor; [done|done].
Qed.

Definition arp_has_room (l : link) : Prop :=
  exists e, e ∈ l_arp l /\ (a_in_use e = false \/ a_time e < INT_MAX).

Lemma alloc_entry_run l :
  arp_has_room l ->
  exists i, (i < length (l_arp l))%nat /\
    alloc_entry l = Ok (i, set_arp (alter (fun e =>
      ArpEntry true (a_resolved e) (a_ipaddr e) (a_macaddr e) [] (a_time e)) i (l_arp l)) l).
Proof.
  intros (e & He & Hr). pose proof (alloc_scan_spec 0 (l_arp l) None INT_MAX ltac:(done)) as Hs.
  unfold alloc_entry, upd_entry. run.
  destruct (alloc_scan 0 (l_arp l) None INT_MAX) as [[i|] [o|]]; simpl in *;
    [exists i; split; [lia|done]|exists i; split; [lia|done]|exists o; split; [lia|done]|].
  rewrite Forall_forall in Hs. destruct (Hs e He) as [Hu Ht]. exfalso. destruct Hr; [congruence|lia].
Qed.

(** Next hops are reached directly. *)
Lemma next_hop_idem dst l nh l' :
  device_get_next_hop dst l = Ok (nh, l') -> l' = l /\ device_get_next_hop nh l = Ok (nh, l).
Proof.
  unfold device_get_next_hop. run. destruct (d_initialized (l_dev l)) eqn:Ei; simpl; [|done].
  destruct (dst =? IPV4_ADDR_BROADCAST) eqn:Eb; simpl.
  { intros [= <- <-]. rewrite Eb. done. }
  destruct (ipaddr_equals_in_netmask (d_ipaddr (l_dev l)) dst (d_netmask (l_dev l))) eqn:En; simpl.
  { intros [= <- <-]. rewrite Eb, En. done. }
  destruct (negb (d_gateway (l_dev l) =? IPV4_ADDR_UNSPECIFIED)) eqn:Eg; simpl; [|done].
  intros [= <- <-]. split; [done|].
  destruct (d_gateway (l_dev l) =? IPV4_ADDR_BROADCAST); [done|].
  by destruct (ipaddr_equals_in_netmask (d_ipaddr (l_dev l)) (d_gateway (l_dev l)) (d_netmask (l_dev l))).
Qed.

Lemma next_hop_dev dst l l' nh :
  device_get_next_hop dst l = Ok (nh, l) -> l_dev l' = l_dev l -> device_get_next_hop dst l' = Ok (nh, l').
Proof.
  unfold device_get_next_hop. run. intros H ->. destruct (d_initialized (l_dev l)); simpl in *; [|done].
  destruct (dst =? IPV4_ADDR_BROADCAST); [by simplify_eq|].
  destruct (ipaddr_equals_in_netmask _ _ _); [by simplify_eq|].
  destruct (negb _); simpl in *; by simplify_eq.
Qed.

(** *** Transmission *)
Definition frame (dst src : list Z) (type : Z) (payload : list Z) : list Z :=
  ethernet_header dst src (hton16 type) ++ payload.

Lemma callback_run pkt l :
  mbuf_wf pkt -> Z.of_nat (length (mbuf_bytes pkt)) <= NET_PAYLOAD_MAX ->
  callback_ethernet_transmit pkt l = Ok (tt, emit (NetSend (mbuf_bytes pkt)) l).
Proof.
  intros Hw Hl. destruct (Hw) as [_ Hs]. unfold callback_ethernet_transmit, NET_PAYLOAD_MAX in *.
  rewrite mbuf_len_bytes by (done || lia).
  destruct (Z.ltb_spec 1500 (Z.of_nat (length (mbuf_bytes pkt)))); [lia|].
  destruct (mbuf_read_spec pkt (Z.of_nat (length (mbuf_bytes pkt))) Hw ltac:(lia)) as (m' & E & _).
  rewrite (ST_bind_run _ _ _ _ _ (lift_out_ok _ _ _ E)). simpl. by rewrite Nat2Z.id, take_ge.
Qed.

(** A payload behind a header. *)
Lemma append_header h payload :
  Forall seg_wf payload ->
  exists pkt, mbuf_append (mbuf_new h) payload = Ok pkt /\ mbuf_wf pkt /\ mbuf_bytes pkt = h ++ mbuf_bytes payload.
Proof.
  intros Hs. destruct (mbuf_new_spec h) as ([Hne Hw] & Hb & _). exists (mbuf_new h ++ payload).
  rewrite mbuf_append_spec, mbuf_bytes_app, Hb by done.
  split; [done|]. split; [|done]. split; [by destruct (mbuf_new h)|by apply Forall_app].
Qed.

Lemma arp_resolve_dev ip l r l1 : arp_resolve ip l = Ok (r, l1) -> l_dev l1 = l_dev l /\ l_out l1 = l_out l /\ l_now l1 = l_now l.
Proof.
  unfold arp_resolve, entry_at, uptime_now, upd_entry. run.
  destruct (negb (ip =? IPV4_ADDR_UNSPECIFIED)); simpl; [|done].
  destruct (ip =? IPV4_ADDR_BROADCAST); [by intros; simplify_eq|].
  destruct (lookup_entry ip l) as [i|]; [|by intros; simplify_eq]. simpl.
  destruct (l_arp l !! i) as [e|]; [|done]. simpl.
  destruct (negb (a_resolved e)); intros; by simplify_eq.
Qed.

Lemma transmit_resolved n type dst payload l nh mac l1 :
  device_get_next_hop dst l = Ok (nh, l) -> nh <> IPV4_ADDR_UNSPECIFIED ->
  arp_resolve nh l = Ok (Some mac, l1) -> d_initialized (l_dev l) = true ->
  length mac = MACADDR_LEN -> length (d_macaddr (l_dev l)) = MACADDR_LEN ->
  Forall seg_wf payload -> sizeof_ethernet_header + Z.of_nat (length (mbuf_bytes payload)) <= NET_PAYLOAD_MAX ->
  ethernet_transmit_n (S n) type dst payload l
    = Ok (tt, emit (NetSend (frame mac (d_macaddr (l_dev l)) type (mbuf_bytes payload))) l1).
Proof.
  intros Enh Hnh Emac Hi Hm Hm' Hp Hl. cbn [ethernet_transmit_n].
  rewrite (ST_bind_run _ _ _ _ _ Enh). destruct (Z.eqb_spec nh IPV4_ADDR_UNSPECIFIED); [done|].
  rewrite (ST_bind_run _ _ _ _ _ Emac). destruct (arp_resolve_dev _ _ _ _ Emac) as (Ed & _ & _).
  rewrite (ST_bind_run _ _ _ (d_macaddr (l_dev l)) l1); [|unfold device_get_macaddr; run; by rewrite Ed, Hi].
  destruct (append_header (ethernet_header mac (d_macaddr (l_dev l)) (hton16 type)) payload Hp)
    as (pkt & E & Hw & Hb).
  rewrite (ST_bind_run _ _ _ _ _ (lift_out_ok _ _ _ E)). rewrite callback_run; [by rewrite Hb|done|].
  rewrite Hb. unfold ethernet_header. rewrite !length_app, Hm, Hm', length_le_split.
  unfold sizeof_ethernet_header, MACADDR_LEN, NET_PAYLOAD_MAX in *. lia.
Qed.

(** The ARP request of an unresolved address is sent at once. *)
Lemma transmit_broadcast n type payload l :
  d_initialized (l_dev l) = true -> length (d_macaddr (l_dev l)) = MACADDR_LEN ->
  Forall seg_wf payload -> sizeof_ethernet_header + Z.of_nat (length (mbuf_bytes payload)) <= NET_PAYLOAD_MAX ->
  ethernet_transmit_n (S n) type IPV4_ADDR_BROADCAST payload l
    = Ok (tt, emit (NetSend (frame MACADDR_BROADCAST (d_macaddr (l_dev l)) type (mbuf_bytes payload))) l).
Proof.
  intros Hi Hm Hp Hl. apply (transmit_resolved n type _ payload l IPV4_ADDR_BROADCAST); try done.
  unfold device_get_next_hop. run. by rewrite Hi.
Qed.

(** The two levels of [ethernet_transmit] are enough. *)
Lemma ethernet_transmit_enough n type dst payload l :
  ethernet_transmit_n (S (S n)) type dst payload l = ethernet_transmit type dst payload l.
Proof.
  unfold ethernet_transmit. cbn [ethernet_transmit_n]. unfold mbind, ST_bind.
  destruct (device_get_next_hop dst l) as [[nh l1]| |]; [|done..].
  destruct (nh =? IPV4_ADDR_UNSPECIFIED); [done|].
  destruct (arp_resolve nh l1) as [[[mac|] l2]| |]; [done| |done..].
  destruct (arp_enqueue type nh payload l2) as [[[] l3]| |]; [|done..].
  destruct (device_get_ipaddr l3) as [[ip l4]| |]; [|done..].
  destruct (device_get_macaddr l4) as [[mac l5]| |]; [|done..].
  destruct (device_get_next_hop IPV4_ADDR_BROADCAST l5) as [[b l6]| |] eqn:E; [|done..].
  assert (b = IPV4_ADDR_BROADCAST) as ->.
  { unfold device_get_next_hop in E. run. destruct (d_initialized (l_dev l5)); simpl in E; by simplify_eq. }
  done.
Qed.

Lemma length_arp_packet op sender sa target ta :
  length sender = MACADDR_LEN -> length target = MACADDR_LEN -> length (arp_packet op sender sa target ta) = 28%nat.
Proof.
  intros Hs Ht. unfold arp_packet. rewrite !length_app, !length_le_split, Hs, Ht. done.
Qed.

Lemma entry_alter i f l e : l_arp l !! i = Some e -> entry_at i (set_arp (alter f i (l_arp l)) l) = Ok (f e, set_arp (alter f i (l_arp l)) l).
Proof. intros E. unfold entry_at. run. by rewrite list_lookup_alter, decide_True, E. Qed.

Lemma alter_insert {A} (f : A -> A) i (l : list A) x : l !! i = Some x -> alter f i l = <[i := f x]> l.
Proof.
  intros E. apply list_eq. intros j. rewrite list_lookup_alter.
  destruct (decide (i = j)) as [->|Hne].
  - rewrite E, list_lookup_insert_eq; [done|]. by eapply lookup_lt_Some.
  - by rewrite list_lookup_insert_ne.
Qed.

Lemma upd_entry_run i f l e :
  l_arp l !! i = Some e -> upd_entry i f l = Ok (tt, set_arp (<[i := f e]> (l_arp l)) l).
Proof. intros E. unfold upd_entry. run. by rewrite (alter_insert f i (l_arp l) e E). Qed.

Lemma entry_at_insert i e l :
  (i < length (l_arp l))%nat -> l_arp (set_arp (<[i := e]> (l_arp l)) l) !! i = Some e.
Proof. intros. simpl. by apply list_lookup_insert_eq. Qed.

Lemma lookup_insert_fresh i e ip l :
  lookup_entry ip l = None -> (i < length (l_arp l))%nat -> a_in_use e = true -> a_ipaddr e = ip ->
  lookup_entry ip (set_arp (<[i := e]> (l_arp l)) l) = Some i.
Proof.
  intros E Hi Hu Ha. destruct (lookup_lt_is_Some_2 _ _ Hi) as [e0 E0].
  rewrite <- (alter_insert (fun _ => e) i _ e0 E0).
  by apply (lookup_from_fresh 0).
Qed.

Lemma arp_enqueue_fresh type nh payload l :
  lookup_entry nh l = None -> arp_has_room l ->
  exists i mac, (i < length (l_arp l))%nat /\
    arp_enqueue type nh payload l = Ok (tt, set_arp (<[i := ArpEntry true false nh mac
      [QEntry nh type payload] (l_now l)]> (l_arp l)) l).
Proof.
  intros El Hroom. destruct (alloc_entry_run l Hroom) as (i & Hi & Ea).
  destruct (lookup_lt_is_Some_2 _ _ Hi) as [e0 E0]. exists i, (a_macaddr e0). split; [done|].
  rewrite (alter_insert _ i _ e0 E0) in Ea.
  unfold arp_enqueue, upd_entry, uptime_now. run. rewrite El. simpl. rewrite Ea. simpl.
  rewrite (alter_insert _ i (<[i := _]> (l_arp l)) _ (list_lookup_insert_eq _ _ _ Hi)), list_insert_insert_eq.
  rewrite (alter_insert _ i (<[i := _]> (l_arp l)) _ (list_lookup_insert_eq _ _ _ Hi)), list_insert_insert_eq.
  done.
Qed.

(** An entry that answers: its address resolves to its hardware address. *)
Lemma arp_resolve_entry ip l i e :
  ip <> IPV4_ADDR_UNSPECIFIED -> ip <> IPV4_ADDR_BROADCAST ->
  lookup_entry ip l = Some i -> l_arp l !! i = Some e -> a_resolved e = true ->
  arp_resolve ip l = Ok (Some (a_macaddr e),
    set_arp (<[i := ArpEntry (a_in_use e) (a_resolved e) (a_ipaddr e) (a_macaddr e) (a_queue e) (l_now l)]> (l_arp l)) l).
Proof.
  intros H0 Hb El E Hr. unfold arp_resolve, entry_at, uptime_now, upd_entry. run.
  destruct (Z.eqb_spec ip IPV4_ADDR_UNSPECIFIED); [done|]. simpl.
  destruct (Z.eqb_spec ip IPV4_ADDR_BROADCAST); [done|]. rewrite El. simpl. rewrite E. simpl. rewrite Hr. simpl.
  by rewrite (alter_insert _ i (l_arp l) e E), Hr.
Qed.

Lemma arp_resolve_unknown ip l :
  ip <> IPV4_ADDR_UNSPECIFIED -> ip <> IPV4_ADDR_BROADCAST -> lookup_entry ip l = None ->
  arp_resolve ip l = Ok (None, l).
Proof.
  intros H0 Hb El. unfold arp_resolve. run.
  destruct (Z.eqb_spec ip IPV4_ADDR_UNSPECIFIED); [done|]. simpl.
  destruct (Z.eqb_spec ip IPV4_ADDR_BROADCAST); [done|]. by rewrite El.
Qed.

(** What [arp_receive] reads from a reply. *)
Lemma arp_receive_reply mac sa tmac ta l :
  length mac = MACADDR_LEN -> length tmac = MACADDR_LEN -> 0 <= sa < 2 ^ 32 ->
  arp_receive (mbuf_new (arp_packet (hton16 ARP_OP_REPLY) mac (hton32 sa) tmac (hton32 ta))) l
    = arp_register_macaddr sa mac l.
Proof.
  intros Hm Ht Hsa. destruct (mbuf_new_spec (arp_packet (hton16 ARP_OP_REPLY) mac (hton32 sa) tmac (hton32 ta)))
    as (Hw & Hb & _).
  destruct (mbuf_read_spec _ sizeof_arp_packet Hw ltac:(done)) as (m' & E & _).
  unfold arp_receive. rewrite (ST_bind_run _ _ _ _ _ (lift_out_ok _ _ _ E)). clear E. rewrite Hb.
  rewrite take_ge by (rewrite length_arp_packet by done; done). cbv beta zeta. cbn [fst].
  rewrite length_arp_packet by done. cbn [negb Z.eqb]. cbv iota.
  do 7 (destruct mac as [|? mac]; try (simpl in Hm; discriminate Hm)).
  do 7 (destruct tmac as [|? tmac]; try (simpl in Ht; discriminate Ht)).
  set (p := arp_packet _ _ _ _ _).
  assert (E32 : get32 14 p = hton32 sa) by (apply (get_le4 (hton32 sa)), swap32_range).
  rewrite E32. unfold ntoh32, hton32. rewrite swap32_involutive by done. done.
Qed.

(** A packet for an unknown next hop: it is queued, and a request is broadcast. *)
Lemma transmit_unknown type dst payload l nh l0 :
  device_get_next_hop dst l = Ok (nh, l) -> nh <> IPV4_ADDR_UNSPECIFIED -> nh <> IPV4_ADDR_BROADCAST ->
  lookup_entry nh l = None -> arp_enqueue type nh payload l = Ok (tt, l0) -> l_dev l0 = l_dev l ->
  d_initialized (l_dev l) = true -> length (d_macaddr (l_dev l)) = MACADDR_LEN ->
  let req := arp_packet (hton16 ARP_OP_REQUEST) (d_macaddr (l_dev l)) (hton32 (d_ipaddr (l_dev l)))
               MACADDR_BROADCAST (hton32 nh) in
  ethernet_transmit type dst payload l
    = Ok (tt, emit (NetSend (frame MACADDR_BROADCAST (d_macaddr (l_dev l)) ETHER_TYPE_ARP req)) l0).
Proof.
  intros Enh H0 Hb El Eq Ed Hi Hm req. destruct (mbuf_new_spec req) as ([_ Hws] & Hbs & _).
  unfold ethernet_transmit. cbn [ethernet_transmit_n].
  rewrite (ST_bind_run _ _ _ _ _ Enh). destruct (Z.eqb_spec nh IPV4_ADDR_UNSPECIFIED); [done|].
  rewrite (ST_bind_run _ _ _ _ _ (arp_resolve_unknown nh l H0 Hb El)).
  rewrite (ST_bind_run _ _ _ _ _ Eq).
  rewrite (ST_bind_run _ _ _ (d_ipaddr (l_dev l)) l0) by (unfold device_get_ipaddr; run; by rewrite Ed, Hi).
  rewrite (ST_bind_run _ _ _ (d_macaddr (l_dev l)) l0) by (unfold device_get_macaddr; run; by rewrite Ed, Hi).
  fold req. etrans; [apply (transmit_broadcast 0); rewrite ?Ed; [done..|]|by rewrite Hbs, Ed].
  rewrite Hbs. unfold req. by rewrite length_arp_packet.
Qed.

Arguments ethernet_transmit_n : simpl never.
Arguments ethernet_transmit : simpl never.

Lemma lookup_insert_same i e e' ip l :
  l_arp l !! i = Some e -> a_in_use e' = a_in_use e -> a_ipaddr e' = a_ipaddr e ->
  lookup_entry ip (set_arp (<[i := e']> (l_arp l)) l) = lookup_entry ip l.
Proof.
  intros E Hu Ha. unfold lookup_entry. simpl.
  assert (G : forall es k j e, es !! j = Some e -> a_in_use e' = a_in_use e -> a_ipaddr e' = a_ipaddr e ->
            lookup_from k (<[j := e']> es) ip = lookup_from k es ip).
  { clear. induction es as [|x es IH]; intros k [|j] e E Hu Ha; simplify_eq/=; [by rewrite Hu, Ha|].
    destruct (a_in_use x && (a_ipaddr x =? ip)); [done|]. by apply (IH _ _ e). }
  by apply (G _ _ _ e).
Qed.

(** Registering an address that one packet waits for: the packet is sent to it. *)
Lemma arp_register_one ip mac l i e type payload :
  ip <> IPV4_ADDR_UNSPECIFIED -> ip <> IPV4_ADDR_BROADCAST ->
  device_get_next_hop ip l = Ok (ip, l) ->
  d_initialized (l_dev l) = true -> length mac = MACADDR_LEN -> length (d_macaddr (l_dev l)) = MACADDR_LEN ->
  lookup_entry ip l = Some i -> l_arp l !! i = Some e -> a_queue e = [QEntry ip type payload] ->
  Forall seg_wf payload -> sizeof_ethernet_header + Z.of_nat (length (mbuf_bytes payload)) <= NET_PAYLOAD_MAX ->
  arp_register_macaddr ip mac l =
    Ok (tt, set_arp (<[i := ArpEntry true true ip mac [] (l_now l)]> (l_arp l))
          (emit (NetSend (frame mac (d_macaddr (l_dev l)) type (mbuf_bytes payload))) l)).
Proof.
  intros H0 Hb Hnh Hi Hm Hm' El E Eq Hp Hlen.
  destruct (lookup_entry_some _ _ _ El) as (e1 & E1 & Hu & Hip). simplify_eq.
  assert (Hlt : (i < length (l_arp l))%nat) by (by eapply lookup_lt_Some).
  unfold arp_register_macaddr, uptime_now, upd_entry. run. rewrite El. simpl.
  rewrite (alter_insert _ i (l_arp l) e E). simpl.
  set (e1 := ArpEntry (a_in_use e) true (a_ipaddr e) mac (a_queue e) (l_now l)).
  set (l1 := set_arp (<[i := e1]> (l_arp l)) l).
  assert (E1' : l_arp l1 !! i = Some e1) by (by apply entry_at_insert).
  unfold entry_at at 1. run. rewrite list_lookup_insert_eq by done. simpl. rewrite Eq. simpl.
  assert (Er : arp_resolve (a_ipaddr e) l1 = Ok (Some mac, l1)).
  { rewrite (arp_resolve_entry _ l1 i e1); [|done..| |done|done].
    - simpl. by rewrite list_insert_insert_eq.
    - unfold l1. by rewrite (lookup_insert_same i e). }
  rewrite (ST_bind_run _ _ _ tt
    (emit (NetSend (frame mac (d_macaddr (l_dev l)) type (mbuf_bytes payload))) l1)).
  2: { apply (transmit_resolved 1 type (a_ipaddr e) payload l1 (a_ipaddr e) mac l1); try done.
       by apply (next_hop_dev _ l). }
  unfold entry_at, upd_entry. run. rewrite list_lookup_insert_eq by done. simpl. rewrite Z.eqb_refl.
  simpl. rewrite (alter_insert _ i _ e1) by (by rewrite list_lookup_insert_eq).
  rewrite list_insert_insert_eq. simpl. by rewrite Hu.
Qed.

(** A packet for an address that is not in the ARP table is not lost: it is queued under
    its next hop while exactly one ARP request is broadcast, and the reply to that
    request sends it, once and unchanged, to the hardware address in the reply; from then
    on the address resolves without a request. *)
Theorem arp_deferred_delivery l type dst payload nh mac tmac ta :
  device_get_next_hop dst l = Ok (nh, l) ->
  0 <= nh < 2 ^ 32 -> nh <> IPV4_ADDR_UNSPECIFIED -> nh <> IPV4_ADDR_BROADCAST ->
  lookup_entry nh l = None -> arp_has_room l ->
  d_initialized (l_dev l) = true -> length (d_macaddr (l_dev l)) = MACADDR_LEN ->
  length mac = MACADDR_LEN -> length tmac = MACADDR_LEN ->
  Forall seg_wf payload -> sizeof_ethernet_header + Z.of_nat (length (mbuf_bytes payload)) <= NET_PAYLOAD_MAX ->
  exists l1 l2,
    ethernet_transmit type dst payload l = Ok (tt, l1) /\
    l_out l1 = l_out l ++ [NetSend (frame MACADDR_BROADCAST (d_macaddr (l_dev l)) ETHER_TYPE_ARP
      (arp_packet (hton16 ARP_OP_REQUEST) (d_macaddr (l_dev l)) (hton32 (d_ipaddr (l_dev l)))
         MACADDR_BROADCAST (hton32 nh)))] /\
    arp_receive (mbuf_new (arp_packet (hton16 ARP_OP_REPLY) mac (hton32 nh) tmac (hton32 ta))) l1 = Ok (tt, l2) /\
    l_out l2 = l_out l1 ++ [NetSend (frame mac (d_macaddr (l_dev l)) type (mbuf_bytes payload))] /\
    exists l3, arp_resolve nh l2 = Ok (Some mac, l3).
Proof.
  intros Enh Hr H0 Hb El Hroom Hi Hm Hmac Htm Hp Hlen.
  destruct (next_hop_idem dst l nh l Enh) as [_ Enh'].
  destruct (arp_enqueue_fresh type nh payload l El Hroom) as (i & m0 & Hlt & Eq).
  set (e := ArpEntry true false nh m0 [QEntry nh type payload] (l_now l)) in *.
  set (l0 := set_arp (<[i := e]> (l_arp l)) l) in *.
  set (req := arp_packet (hton16 ARP_OP_REQUEST) (d_macaddr (l_dev l)) (hton32 (d_ipaddr (l_dev l)))
                MACADDR_BROADCAST (hton32 nh)).
  set (l1 := emit (NetSend (frame MACADDR_BROADCAST (d_macaddr (l_dev l)) ETHER_TYPE_ARP req)) l0).
  assert (E1 : ethernet_transmit type dst payload l = Ok (tt, l1)) by (by apply (transmit_unknown type dst payload l nh l0)).
  assert (Ee : l_arp l1 !! i = Some e) by (by apply entry_at_insert).
  assert (El1 : lookup_entry nh l1 = Some i) by (by apply (lookup_insert_fresh i e nh l)).
  pose proof (arp_register_one nh mac l1 i e type payload H0 Hb (next_hop_dev _ l l1 _ Enh' eq_refl) Hi Hmac Hm El1 Ee eq_refl Hp Hlen) as E2.
  eexists l1, _. split; [done|]. split; [done|].
  split; [by rewrite arp_receive_reply|]. split; [done|]. eexists.
  apply (arp_resolve_entry nh _ i (ArpEntry true true nh mac [] (l_now l))); [done|done| | |done].
  - etrans; [|exact El1]. by apply (lookup_insert_same i e _ nh l1).
  - apply list_lookup_insert_eq. simpl. by rewrite length_insert.
Qed.

(** A device 10.0.2.15/24 with an empty ARP table. *)
Definition demo_link : link :=
  Link (Device true true [82; 84; 0; 18; 52; 86] 167772687 167772674 4294967040)
    (replicate ARP_ENTRIES_MAX (ArpEntry false false 0 [0; 0; 0; 0; 0; 0] [] 0)) 7 [].

Lemma arp_deferred_delivery_witness :
  exists l1 l2 mac,
    ethernet_transmit ETHER_TYPE_IPV4 167772675 (mbuf_new [1; 2; 3]) demo_link = Ok (tt, l1) /\
    arp_receive (mbuf_new (arp_packet (hton16 ARP_OP_REPLY) mac (hton32 167772675) mac (hton32 0))) l1 = Ok (tt, l2) /\
    l_out l2 = l_out l1 ++ [NetSend (frame mac [82; 84; 0; 18; 52; 86] ETHER_TYPE_IPV4 [1; 2; 3])].
Proof.
  destruct (arp_deferred_delivery demo_link ETHER_TYPE_IPV4 167772675 (mbuf_new [1; 2; 3]) 167772675
    [2; 0; 0; 0; 0; 9] [2; 0; 0; 0; 0; 9] 0) as (l1 & l2 & E1 & _ & E2 & E3 & _).
  - reflexivity.
  - lia.
  - discriminate.
  - discriminate.
  - reflexivity.
  - exists (ArpEntry false false 0 [0; 0; 0; 0; 0; 0] [] 0). split; [|by left].
    apply list_elem_of_lookup. by exists 0%nat.
  - reflexivity.
  - reflexivity.
  - reflexivity.
  - reflexivity.
  - apply mbuf_new_spec.
  - vm_compute. discriminate.
  - exists l1, l2, [2; 0; 0; 0; 0; 9]. split; [exact E1|]. split; [exact E2|exact E3].
Defined.
