(* ===== verification/Net.v ===== *)
(** The state of the TCP/IP server, and its datagram half: UDP (servers/tcpip/udp.c), the
    DHCP client (dhcp.c) and the DNS client (dns.c).

    The tables of protocol control blocks are lists; a pointer into a table is an index,
    and the [active] lists (verified in [LinkedList]) are lists of indices in order. *)

From S2P Require Import Prelude Types Mbuf Link.

(** ** State *)
Record endpoint := Endpoint { ep_addr : Z; ep_port : Z }.

Record udp_datagram := Datagram { dg_addr : Z; dg_port : Z; dg_payload : mbuf }.
Record udp_pcb := UdpPcb {
  u_in_use : bool; u_local : endpoint; u_rx : list udp_datagram; u_tx : list udp_datagram }.

Inductive tcp_state := TCP_STATE_SYN_SENT | TCP_STATE_ESTABLISHED | TCP_STATE_CLOSED.
#[export] Instance tcp_state_eq_dec : EqDecision tcp_state.
Proof. solve_decision. Defined.

Record tcp_pcb := TcpPcb {
  t_in_use : bool; t_state : tcp_state; t_pending_flags : Z;
  t_next_seqno : Z; t_last_seqno : Z; t_last_ack : Z;
  t_local_winsize : Z; t_remote_winsize : Z;
  t_local : endpoint; t_remote : endpoint;
  t_rx_buf : mbuf; t_tx_buf : mbuf;
  t_num_retransmits : Z; t_retransmit_at : Z;
  t_arg : option nat }.

Record dns := Dns {
  dns_sock : option nat; dns_server_ipaddr : Z;
  dns_requests : list (Z * Z);           (** transaction id and argument of each query *)
  next_query_id : Z }.

Record socket := Socket { s_used : bool; s_task : Z; s_fd : Z; s_tcp_pcb : option nat }.

Record net := Net {
  n_link : link;
  n_udp : list udp_pcb; n_udp_active : list nat;
  n_tcp : list tcp_pcb; n_tcp_active : list nat;
  n_dhcp_sock : option nat; n_dns : dns;
  n_sockets : list socket }.
Abbreviation NST := (ST net).

Definition set_link x n := Net x (n_udp n) (n_udp_active n) (n_tcp n) (n_tcp_active n) (n_dhcp_sock n) (n_dns n) (n_sockets n).
Definition set_udp x n := Net (n_link n) x (n_udp_active n) (n_tcp n) (n_tcp_active n) (n_dhcp_sock n) (n_dns n) (n_sockets n).
Definition set_udp_active x n := Net (n_link n) (n_udp n) x (n_tcp n) (n_tcp_active n) (n_dhcp_sock n) (n_dns n) (n_sockets n).
Definition set_tcp x n := Net (n_link n) (n_udp n) (n_udp_active n) x (n_tcp_active n) (n_dhcp_sock n) (n_dns n) (n_sockets n).
Definition set_tcp_active x n := Net (n_link n) (n_udp n) (n_udp_active n) (n_tcp n) x (n_dhcp_sock n) (n_dns n) (n_sockets n).
Definition set_dhcp_sock x n := Net (n_link n) (n_udp n) (n_udp_active n) (n_tcp n) (n_tcp_active n) x (n_dns n) (n_sockets n).
Definition set_dns x n := Net (n_link n) (n_udp n) (n_udp_active n) (n_tcp n) (n_tcp_active n) (n_dhcp_sock n) x (n_sockets n).
Definition set_sockets x n := Net (n_link n) (n_udp n) (n_udp_active n) (n_tcp n) (n_tcp_active n) (n_dhcp_sock n) (n_dns n) x.

Definition lift_link {A} (f : LST A) : NST A := fun n =>
  match f (n_link n) with
  | Ok (a, l) => Ok (a, set_link l n)
  | Panic => Panic
  | Undef => Undef
  end.
Definition send (a : action) : NST unit := lift_link (modify (emit a)).

(** [for (i = 0; i < MAX; i++) if (!table[i].in_use) ...]: the first free index. *)
Fixpoint first_free {A} (in_use : A -> bool) (i : nat) (l : list A) : option nat :=
  match l with
  | [] => None
  | x :: l' => if in_use x then first_free in_use (S i) l' else Some i
  end.

(** ** UDP *)
Definition udp_at (i : nat) : NST udp_pcb := getopt (fun n => n_udp n !! i).
Definition upd_udp (i : nat) (f : udp_pcb -> udp_pcb) : NST unit :=
  _ ← udp_at i; modify (fun n => set_udp (alter f i (n_udp n)) n).

Fixpoint udp_find (pcbs : list udp_pcb) (active : list nat) (dst_port : Z) : option nat :=
  match active with
  | [] => None
  | i :: rest =>
      match pcbs !! i with
      | Some pcb => if ep_port (u_local pcb) =? dst_port then Some i else udp_find pcbs rest dst_port
      | None => udp_find pcbs rest dst_port
      end
  end.
Definition udp_lookup (dst_port : Z) (n : net) : option nat := udp_find (n_udp n) (n_udp_active n) dst_port.

Definition udp_new : NST (option nat) :=
  i ← gets (fun n => first_free u_in_use 0 (n_udp n));
  match i with
  | None => mret None
  | Some i => upd_udp i (fun _ => UdpPcb true (Endpoint 0 0) [] []) ;; mret (Some i)
  end.

Definition udp_close (i : nat) : NST unit :=
  modify (fun n => set_udp_active (filter (fun j => j <> i) (n_udp_active n)) n) ;;
  upd_udp i (fun p => UdpPcb false (u_local p) (u_rx p) (u_tx p)).

Definition udp_bind (i : nat) (addr port : Z) : NST unit :=
  other ← gets (udp_lookup port);
  assert (bool_decide (other = None)) ;;
  upd_udp i (fun p => UdpPcb (u_in_use p) (Endpoint addr port) (u_rx p) (u_tx p)) ;;
  linked ← gets (fun n => bool_decide (i ∈ n_udp_active n));
  assert (negb linked) ;;
  modify (fun n => set_udp_active (n_udp_active n ++ [i]) n).

Definition udp_sendto_mbuf (i : nat) (dst dst_port : Z) (payload : mbuf) : NST unit :=
  upd_udp i (fun p => UdpPcb (u_in_use p) (u_local p) (u_rx p) (u_tx p ++ [Datagram dst dst_port payload])).
Definition udp_sendto (i : nat) (dst dst_port : Z) (data : list Z) : NST unit :=
  udp_sendto_mbuf i dst dst_port (mbuf_new data).

Definition udp_recv_mbuf (i : nat) : NST (option udp_datagram) :=
  p ← udp_at i;
  match u_rx p with
  | [] => mret None
  | dg :: rest => upd_udp i (fun p => UdpPcb (u_in_use p) (u_local p) rest (u_tx p)) ;; mret (Some dg)
  end.

(** The length of the datagram, what was copied to [buf], and its source. *)
Definition udp_recv (i : nat) (buf_len : Z) : NST (Z * list Z * Z * Z) :=
  dg ← udp_recv_mbuf i;
  match dg with
  | None => mret (0, [], 0, 0)
  | Some dg =>
      r ← lift_out (mbuf_read (dg_payload dg) buf_len);
      mret (mbuf_len (dg_payload dg), r.1, dg_addr dg, dg_port dg)
  end.

Definition udp_header (src_port dst_port len checksum : Z) : list Z :=
  le_split 2 src_port ++ le_split 2 dst_port ++ le_split 2 len ++ le_split 2 checksum.
Definition sizeof_udp_header : Z := 8.

Definition udp_transmit (i : nat) : NST unit :=
  p ← udp_at i;
  match u_tx p with
  | [] => mret tt
  | dg :: rest =>
      upd_udp i (fun p => UdpPcb (u_in_use p) (u_local p) (u_rx p) rest) ;;
      let total_len := u32 (sizeof_udp_header + mbuf_len (dg_payload dg)) in
      let header ck := udp_header (hton16 (ep_port (u_local p))) (hton16 (dg_port dg))
                         (hton16 (u16 total_len)) ck in
      c ← lift_out (checksum_update_mbuf checksum_init (dg_payload dg));
      let c := checksum_update c (header 0) in
      ipaddr ← lift_link device_get_ipaddr;
      let c := checksum_update_uint32 c (hton32 (dg_addr dg)) in
      let c := checksum_update_uint32 c (hton32 ipaddr) in
      let c := checksum_update_uint16 c (hton16 (u16 total_len)) in
      let c := checksum_update_uint16 c (hton16 IPV4_PROTO_UDP) in
      pkt ← lift_out (mbuf_append (mbuf_new (header (u16 (checksum_finish c)))) (dg_payload dg));
      lift_link (ipv4_transmit (dg_addr dg) IPV4_PROTO_UDP pkt)
  end.

(** The port recorded with a received datagram is the destination port of its header. *)
Definition udp_receive (src : Z) (pkt : mbuf) : NST unit :=
  r ← lift_out (mbuf_read pkt sizeof_udp_header);
  let '(header, pkt) := r in
  if negb (Z.of_nat (length header) =? sizeof_udp_header) then mret tt
  else
    let dst_port := ntoh16 (get16 2 header) in
    i ← gets (udp_lookup dst_port);
    match i with
    | None => mret tt
    | Some i => upd_udp i (fun p => UdpPcb (u_in_use p) (u_local p) (u_rx p ++ [Datagram src dst_port pkt]) (u_tx p))
    end.

(** ** DHCP *)
Definition DHCP_MAGIC : Z := 1669485411 (* 0x63825363 *).
Definition DHCP_OPTION_NETMASK : Z := 1.
Definition DHCP_OPTION_ROUTER : Z := 3.
Definition DHCP_OPTION_DNS : Z := 6.
Definition DHCP_OPTION_REQUESTED_ADDR : Z := 50.
Definition DHCP_OPTION_DHCP_TYPE : Z := 53.
Definition DHCP_OPTION_PARAM_LIST : Z := 55.
Definition DHCP_OPTION_END : Z := 255.
Definition DHCP_TYPE_DISCOVER : Z := 1.
Definition DHCP_TYPE_OFFER : Z := 2.
Definition DHCP_TYPE_REQUEST : Z := 3.
Definition DHCP_TYPE_ACK : Z := 5.

Definition dhcp_header (macaddr : list Z) : list Z :=
  [1 (* BOOTP_OP_REQUEST *); 1 (* BOOTP_HWTYPE_ETHERNET *); Z.of_nat MACADDR_LEN; 0] ++
  le_split 4 (hton32 305441741 (* 0x1234abcd *)) ++ le_split 2 0 ++ le_split 2 (hton16 32768 (* 0x8000 *)) ++
  le_split 4 0 ++ le_split 4 0 ++ le_split 4 0 ++ le_split 4 0 ++
  macaddr ++ replicate 202 0 ++ le_split 4 (hton32 DHCP_MAGIC).
Definition sizeof_dhcp_header : Z := 240.

(** [while (padding_len-- > 0)] *)
Fixpoint dhcp_pad (n : nat) (m : mbuf) : outcome mbuf :=
  match n with
  | O => Ok m
  | S n' => m ← mbuf_append_bytes m [DHCP_OPTION_END]; dhcp_pad n' m
  end.

Definition sock_of (s : option nat) : NST nat := match s with Some i => mret i | None => undef end.

Definition dhcp_options (type requested_addr : Z) (m : mbuf) : outcome mbuf :=
  m ← mbuf_append_bytes m [DHCP_OPTION_DHCP_TYPE; 1];
  m ← mbuf_append_bytes m [u8 type];
  m ← (if requested_addr =? IPV4_ADDR_UNSPECIFIED then Ok m
       else m ← mbuf_append_bytes m [DHCP_OPTION_REQUESTED_ADDR; 4];
            mbuf_append_bytes m (le_split 4 (hton32 requested_addr)));
  m ← mbuf_append_bytes m [DHCP_OPTION_PARAM_LIST; 3];
  m ← mbuf_append_bytes m [DHCP_OPTION_NETMASK; DHCP_OPTION_ROUTER; DHCP_OPTION_DNS];
  m ← mbuf_append_bytes m [DHCP_OPTION_END];
  dhcp_pad (Z.to_nat (4 - mbuf_len m `mod` 4 + 8)) m.

Definition dhcp_transmit (type requested_addr : Z) : NST unit :=
  macaddr ← lift_link device_get_macaddr;
  m ← lift_out (dhcp_options type requested_addr (mbuf_new (dhcp_header macaddr)));
  s ← gets n_dhcp_sock;
  i ← sock_of s;
  udp_sendto_mbuf i IPV4_ADDR_BROADCAST 67 m ;;
  udp_transmit i.

Record dhcp_info := DhcpInfo { di_type : Z; di_gateway : Z; di_netmask : Z; di_dns : Z }.

(** One option of a known type: [None] is the [return] of CHECK_OPTION_LEN; an option cut
    short leaves the value as it was. *)
Definition dhcp_option (size : Z) (option_len : Z) (payload : mbuf) (set : Z -> dhcp_info) (d : dhcp_info)
    : outcome (option (dhcp_info * mbuf)) :=
  if negb (option_len =? size) then Ok None
  else
    r ← mbuf_read payload size;
    if negb (Z.of_nat (length r.1) =? size) then Ok (Some (d, r.2))
    else Ok (Some (set (le_combine r.1), r.2)).

(** The option loop; every round reads at least one byte, so that the length of the
    payload is enough fuel ([dhcp_parse_total]). *)
Fixpoint dhcp_parse (fuel : nat) (payload : mbuf) (d : dhcp_info) : outcome (option dhcp_info) :=
  if mbuf_is_empty payload then Ok (Some d)
  else
    match fuel with
    | O => Undef
    | S fuel' =>
        r ← mbuf_read payload 1;
        match r.1 with
        | [option_type] =>
            if option_type =? DHCP_OPTION_END then Ok (Some d)
            else
              r ← mbuf_read r.2 1;
              match r.1 with
              | [option_len] =>
                  let payload := r.2 in
                  next ←
                    (if option_type =? DHCP_OPTION_DHCP_TYPE then
                       dhcp_option 1 option_len payload
                         (fun v => DhcpInfo v (di_gateway d) (di_netmask d) (di_dns d)) d
                     else if option_type =? DHCP_OPTION_NETMASK then
                       dhcp_option 4 option_len payload
                         (fun v => DhcpInfo (di_type d) (di_gateway d) (ntoh32 v) (di_dns d)) d
                     else if option_type =? DHCP_OPTION_ROUTER then
                       dhcp_option 4 option_len payload
                         (fun v => DhcpInfo (di_type d) (ntoh32 v) (di_netmask d) (di_dns d)) d
                     else if option_type =? DHCP_OPTION_DNS then
                       dhcp_option 4 option_len payload
                         (fun v => DhcpInfo (di_type d) (di_gateway d) (di_netmask d) (ntoh32 v)) d
                     else r ← mbuf_discard payload option_len; Ok (Some (d, r.2)));
                  match next with
                  | None => Ok None
                  | Some (d', payload') => dhcp_parse fuel' payload' d'
                  end
              | _ => Ok (Some d)
              end
        | _ => Ok (Some d)
        end
    end.

Definition dhcp_process (payload : mbuf) : NST unit :=
  r ← lift_out (mbuf_read payload sizeof_dhcp_header);
  let '(header, payload) := r in
  if negb (Z.of_nat (length header) =? sizeof_dhcp_header) then mret tt
  else
    let your_ipaddr := ntoh32 (get32 16 header) in
    o ← lift_out (dhcp_parse (Z.to_nat (mbuf_len payload)) payload
          (DhcpInfo 0 IPV4_ADDR_UNSPECIFIED IPV4_ADDR_UNSPECIFIED IPV4_ADDR_UNSPECIFIED));
    match o with
    | None => mret tt
    | Some d =>
        if di_type d =? DHCP_TYPE_OFFER then dhcp_transmit DHCP_TYPE_REQUEST your_ipaddr
        else if di_type d =? DHCP_TYPE_ACK then
          if (di_netmask d =? IPV4_ADDR_UNSPECIFIED) || (di_gateway d =? IPV4_ADDR_UNSPECIFIED)
             || (di_dns d =? IPV4_ADDR_UNSPECIFIED)
          then mret tt
          else
            lift_link (device_set_ip_addrs your_ipaddr (di_netmask d) (di_gateway d)) ;;
            modify (fun n => set_dns (Dns (dns_sock (n_dns n)) (di_dns d) (dns_requests (n_dns n))
                                        (next_query_id (n_dns n))) n)
        else mret tt
    end.

(** [while (true)]: until no datagram is left.  Processing never adds one to the queue of
    received datagrams, so that its length is enough fuel. *)
Fixpoint dhcp_receive_loop (fuel : nat) : NST unit :=
  match fuel with
  | O => undef
  | S fuel' =>
      s ← gets n_dhcp_sock;
      i ← sock_of s;
      dg ← udp_recv_mbuf i;
      match dg with
      | None => mret tt
      | Some dg => dhcp_process (dg_payload dg) ;; dhcp_receive_loop fuel'
      end
  end.
Definition rx_length (s : option nat) (n : net) : nat :=
  match s with
  | Some i => match n_udp n !! i with Some p => length (u_rx p) | None => 0 end
  | None => 0
  end.
Definition dhcp_receive : NST unit :=
  k ← gets (fun n => rx_length (n_dhcp_sock n) n); dhcp_receive_loop (S k).

Definition dhcp_init : NST unit :=
  s ← udp_new;
  modify (set_dhcp_sock s) ;;
  i ← sock_of s;
  udp_bind i IPV4_ADDR_UNSPECIFIED 68.

Definition device_enable_dhcp : NST unit :=
  lift_link (modify (fun l => let d := l_dev l in
    set_dev (Device (d_initialized d) true (d_macaddr d) (d_ipaddr d) (d_gateway d) (d_netmask d)) l)) ;;
  dhcp_transmit DHCP_TYPE_DISCOVER IPV4_ADDR_UNSPECIFIED.

(** ** DNS *)
Definition DNS_QTYPE_A : Z := 1.
Definition DNS_QCLASS_IN : Z := 1.
Definition DNS_FLAG_RD : Z := Z.shiftl 1 7.
Definition CH_DOT : Z := 46.

Definition dns_header (id flags num_queries : Z) : list Z :=
  le_split 2 id ++ le_split 2 flags ++ le_split 2 num_queries ++ le_split 2 0 ++ le_split 2 0 ++ le_split 2 0.
Definition sizeof_dns_header : Z := 12.
Definition sizeof_dns_query_footer : Z := 4.
Definition sizeof_dns_answer_footer : Z := 10.

(** The characters up to a dot or the end of the string, and the rest from the dot on. *)
Fixpoint take_label (s : list Z) : list Z * list Z :=
  match s with
  | [] => ([], [])
  | c :: s' => if c =? CH_DOT then ([], s) else let '(label, rest) := take_label s' in (c :: label, rest)
  end.

(** The QNAME loop.  A label that is too long makes the code pass a pointer into the middle
    of an allocation to [free].  Each round consumes a character. *)
Fixpoint dns_labels (fuel : nat) (s : list Z) (m : mbuf) : outcome mbuf :=
  match s with
  | [] => Ok m
  | _ =>
      match fuel with
      | O => Undef
      | S fuel' =>
          let '(label, rest) := take_label s in
          if (63 <? length label)%nat then Undef
          else
            m ← mbuf_append_bytes m [u8 (Z.of_nat (length label))];
            m ← mbuf_append_bytes m label;
            dns_labels fuel' (tail rest) m
      end
  end.

Definition dns_query_packet (id : Z) (hostname : list Z) : outcome mbuf :=
  m ← dns_labels (length hostname) hostname
        (mbuf_new (dns_header (hton16 id) (hton16 DNS_FLAG_RD) (hton16 1)));
  m ← mbuf_append_bytes m [0];
  m ← mbuf_append_bytes m (le_split 2 (hton16 DNS_QTYPE_A));
  mbuf_append_bytes m (le_split 2 (hton16 DNS_QCLASS_IN)).

Definition dns_query (hostname : list Z) (arg : Z) : NST Z :=
  d ← gets n_dns;
  m ← lift_out (dns_query_packet (next_query_id d) hostname);
  i ← sock_of (dns_sock d);
  udp_sendto_mbuf i (dns_server_ipaddr d) 53 m ;;
  udp_transmit i ;;
  modify (fun n => let d := n_dns n in
    set_dns (Dns (dns_sock d) (dns_server_ipaddr d) (dns_requests d ++ [(next_query_id d, arg)])
               (u16 (next_query_id d + 1))) n) ;;
  mret OK.

(** Each round reads the length byte of a label. *)
Fixpoint skip_labels (fuel : nat) (payload : mbuf) : outcome mbuf :=
  match fuel with
  | O => Undef
  | S fuel' =>
      r ← mbuf_read payload 1;
      match r.1 with
      | [len] =>
          if has len 192 (* 0xc0 *) then d ← mbuf_discard r.2 1; Ok d.2
          else
            d ← mbuf_discard r.2 len;
            if 0 <? len then skip_labels fuel' d.2 else Ok d.2
      | _ => Ok r.2
      end
  end.
Definition skip_name (payload : mbuf) : outcome mbuf := skip_labels (S (Z.to_nat (mbuf_len payload))) payload.

(** [None]: the packet ended early. *)
Fixpoint skip_questions (n : nat) (payload : mbuf) : outcome (option mbuf) :=
  match n with
  | O => Ok (Some payload)
  | S n' =>
      payload ← skip_name payload;
      r ← mbuf_read payload sizeof_dns_query_footer;
      if negb (Z.of_nat (length r.1) =? sizeof_dns_query_footer) then Ok None
      else skip_questions n' r.2
  end.

(** The requests with this id are answered and leave the list. *)
Fixpoint dns_answer_requests (id addr : Z) (reqs : list (Z * Z)) : NST unit :=
  match reqs with
  | [] => mret tt
  | (rid, arg) :: rest =>
      (if id =? rid then
         send (DnsReply arg addr) ;;
         modify (fun n => let d := n_dns n in
           set_dns (Dns (dns_sock d) (dns_server_ipaddr d)
                      (filter (fun r => r <> (rid, arg)) (dns_requests d)) (next_query_id d)) n)
       else mret tt) ;;
      dns_answer_requests id addr rest
  end.

Fixpoint dns_answers (n : nat) (id : Z) (payload : mbuf) : NST unit :=
  match n with
  | O => mret tt
  | S n' =>
      payload ← lift_out (skip_name payload);
      r ← lift_out (mbuf_read payload sizeof_dns_answer_footer);
      let '(footer, payload) := r in
      if negb (Z.of_nat (length footer) =? sizeof_dns_answer_footer) then mret tt
      else
        let data_len := ntoh16 (get16 8 footer) in
        if negb (ntoh16 (get16 0 footer) =? DNS_QTYPE_A) then
          r ← lift_out (mbuf_discard payload data_len);
          dns_answers n' id r.2
        else
          r ← lift_out (mbuf_read payload 4);
          if negb (Z.of_nat (length r.1) =? 4) then mret tt
          else
            reqs ← gets (fun n => dns_requests (n_dns n));
            dns_answer_requests id (ntoh32 (le_combine r.1)) reqs ;;
            dns_answers n' id r.2
  end.

Definition dns_process (payload : mbuf) : NST unit :=
  r ← lift_out (mbuf_read payload sizeof_dns_header);
  let '(header, payload) := r in
  if negb (Z.of_nat (length header) =? sizeof_dns_header) then mret tt
  else
    o ← lift_out (skip_questions (Z.to_nat (ntoh16 (get16 4 header))) payload);
    match o with
    | None => mret tt
    | Some payload => dns_answers (Z.to_nat (ntoh16 (get16 6 header))) (ntoh16 (get16 0 header)) payload
    end.

Fixpoint dns_receive_loop (fuel : nat) : NST unit :=
  match fuel with
  | O => undef
  | S fuel' =>
      d ← gets n_dns;
      i ← sock_of (dns_sock d);
      dg ← udp_recv_mbuf i;
      match dg with
      | None => mret tt
      | Some dg =>
          (if negb (dg_addr dg =? dns_server_ipaddr d) then mret tt else dns_process (dg_payload dg)) ;;
          dns_receive_loop fuel'
      end
  end.
Definition dns_receive : NST unit :=
  k ← gets (fun n => rx_length (dns_sock (n_dns n)) n); dns_receive_loop (S k).

Definition dns_init : NST unit :=
  s ← udp_new;
  modify (fun n => let d := n_dns n in
    set_dns (Dns s (dns_server_ipaddr d) (dns_requests d) (next_query_id d)) n) ;;
  i ← sock_of s;
  udp_bind i IPV4_ADDR_UNSPECIFIED 3535.

(** ** Parsers on any packet *)
#[local] Arguments mbuf_read : simpl never.
#[local] Arguments mbuf_discard : simpl never.
#[local] Arguments le_split : simpl never.
#[local] Arguments le_combine : simpl never.
#[local] Arguments swap32 : simpl never.
#[local] Arguments ntoh32 : simpl never.

(** Reading one byte. *)
Lemma read_byte m :
  mbuf_wf m ->
  exists m', mbuf_wf m' /\
    match mbuf_bytes m with
    | [] => mbuf_read m 1 = Ok ([], m') /\ mbuf_bytes m' = []
    | b :: rest => mbuf_read m 1 = Ok ([b], m') /\ mbuf_bytes m' = rest
    end.
Proof.
  intros Hw. destruct (mbuf_read_spec m 1 Hw ltac:(lia)) as (m' & E & Hw' & Hb). exists m'. split; [done|].
  by destruct (mbuf_bytes m) as [|b rest]; simpl in *.
Qed.

(** The rest of a packet after a read or a discard. *)
Definition suffix (m' m : mbuf) : Prop := mbuf_wf m' /\ exists k, mbuf_bytes m' = drop k (mbuf_bytes m).

Lemma suffix_length m' m : suffix m' m -> (length (mbuf_bytes m') <= length (mbuf_bytes m))%nat.
Proof. intros [_ [k ->]]. rewrite length_drop. lia. Qed.
Lemma suffix_bytes m' m : suffix m' m -> Forall byte (mbuf_bytes m) -> Forall byte (mbuf_bytes m').
Proof. intros [_ [k ->]]. apply Forall_drop. Qed.
Lemma suffix_trans m3 m2 m1 : suffix m3 m2 -> suffix m2 m1 -> suffix m3 m1.
Proof. intros [? [k E]] [_ [k' E']]. split; [done|]. exists (k' + k)%nat. by rewrite E, E', drop_drop. Qed.
Lemma suffix_refl m : mbuf_wf m -> suffix m m.
Proof. intros. split; [done|]. by exists 0%nat. Qed.

Lemma read_suffix m n : mbuf_wf m -> 0 <= n -> exists m', mbuf_read m n = Ok (take (Z.to_nat n) (mbuf_bytes m), m') /\ suffix m' m.
Proof. intros Hw Hn. destruct (mbuf_read_spec m n Hw Hn) as (m' & E & Hw' & Hb). exists m'. split; [done|]. split; eauto. Qed.

Lemma discard_suffix m n : mbuf_wf m -> 0 <= n -> exists k m', mbuf_discard m n = Ok (k, m') /\ suffix m' m.
Proof. intros Hw Hn. destruct (mbuf_discard_spec m n Hw Hn) as (m' & E & Hw' & Hb). eexists _, m'. split; [done|]. split; eauto. Qed.

Lemma dhcp_option_total size len m set d :
  mbuf_wf m -> 0 <= size ->
  dhcp_option size len m set d = Ok None \/ exists d' m', dhcp_option size len m set d = Ok (Some (d', m')) /\ suffix m' m.
Proof.
  intros Hw Hs. unfold dhcp_option. destruct (negb (len =? size)); [by left|]. right.
  destruct (read_suffix m size Hw Hs) as (m' & -> & Hm'). simpl.
  destruct (negb _); eauto.
Qed.

Lemma dhcp_parse_total fuel m d :
  mbuf_wf m -> Forall byte (mbuf_bytes m) -> Z.of_nat (length (mbuf_bytes m)) < 2 ^ 32 ->
  (length (mbuf_bytes m) <= fuel)%nat -> exists o, dhcp_parse fuel m d = Ok o.
Proof.
  revert m d. induction fuel as [|fuel IH]; intros m d Hw Hby Hlt Hf; cbn [dhcp_parse];
    unfold mbuf_is_empty; rewrite mbuf_len_bytes by (done || apply Hw);
    destruct (Z.eqb_spec (Z.of_nat (length (mbuf_bytes m))) 0) as [|Hne]; [eauto|lia|eauto|].
  destruct (read_byte m Hw) as (m1 & Hw1 & Hr1).
  destruct (mbuf_bytes m) as [|ty rest1] eqn:Em; [simpl in Hne; lia|]. destruct Hr1 as [-> Hb1].
  apply Forall_cons in Hby as [_ Hby1]. simpl. destruct (ty =? DHCP_OPTION_END); [eauto|].
  destruct (read_byte m1 Hw1) as (m2 & Hw2 & Hr2). rewrite Hb1 in Hr2.
  destruct rest1 as [|len rest2]; [destruct Hr2 as [-> _]; simpl; eauto|]. destruct Hr2 as [-> Hb2]. simpl.
  apply Forall_cons in Hby1 as [Hlen Hby2]. unfold byte in Hlen.
  match goal with |- exists o, (?x ≫= _) = _ =>
    assert (Hx : x = Ok None \/ exists d' m', x = Ok (Some (d', m')) /\ suffix m' m2) end.
  { destruct (ty =? DHCP_OPTION_DHCP_TYPE); [by apply dhcp_option_total|].
    destruct (ty =? DHCP_OPTION_NETMASK); [by apply dhcp_option_total|].
    destruct (ty =? DHCP_OPTION_ROUTER); [by apply dhcp_option_total|].
    destruct (ty =? DHCP_OPTION_DNS); [by apply dhcp_option_total|]. right.
    destruct (discard_suffix m2 len Hw2 ltac:(lia)) as (k & m3 & -> & Hm3). simpl. eauto. }
  destruct Hx as [->|(d' & m3 & -> & Hm3)]; simpl; [eauto|].
  pose proof (suffix_length _ _ Hm3) as Hl. rewrite Hb2 in Hl. simpl in *.
  apply IH; [apply Hm3|apply (suffix_bytes _ _ Hm3); by rewrite Hb2|lia|lia].
Qed.

Lemma skip_labels_total fuel m :
  mbuf_wf m -> Forall byte (mbuf_bytes m) -> (length (mbuf_bytes m) < fuel)%nat ->
  exists m', skip_labels fuel m = Ok m' /\ suffix m' m.
Proof.
  revert m. induction fuel as [|fuel IH]; intros m Hw Hby Hf; [lia|]. cbn [skip_labels].
  destruct (read_byte m Hw) as (m1 & Hw1 & Hr1).
  destruct (mbuf_bytes m) as [|len rest] eqn:Em.
  { destruct Hr1 as [-> Hb1]. exists m1. split; [done|]. split; [done|]. exists 0%nat. by rewrite Hb1, Em. }
  destruct Hr1 as [-> Hb1]. apply Forall_cons in Hby as [Hlen Hby1]. unfold byte in Hlen.
  assert (Hs1 : suffix m1 m) by (split; [done|]; exists 1%nat; by rewrite Hb1, Em).
  cbn. destruct (has len 192).
  { destruct (discard_suffix m1 1 Hw1 ltac:(lia)) as (k & m2 & -> & Hm2). exists m2. simpl. eauto using suffix_trans. }
  destruct (discard_suffix m1 len Hw1 ltac:(lia)) as (k & m2 & -> & Hm2). simpl.
  destruct (0 <? len); [|exists m2; eauto using suffix_trans].
  pose proof (suffix_length _ _ Hm2) as Hl. rewrite Hb1 in Hl. simpl in Hf.
  destruct (IH m2) as (m3 & -> & Hm3); [apply Hm2|apply (suffix_bytes _ _ Hm2); by rewrite Hb1|lia|].
  exists m3. eauto using suffix_trans.
Qed.

Lemma skip_name_total m :
  mbuf_wf m -> Forall byte (mbuf_bytes m) -> Z.of_nat (length (mbuf_bytes m)) < 2 ^ 32 ->
  exists m', skip_name m = Ok m' /\ suffix m' m.
Proof.
  intros Hw Hb Hl. unfold skip_name. rewrite mbuf_len_bytes by (done || apply Hw).
  apply skip_labels_total; [done..|lia].
Qed.

(** Packets as long as memory allows. *)
Definition packet (m : mbuf) : Prop :=
  mbuf_wf m /\ Forall byte (mbuf_bytes m) /\ Z.of_nat (length (mbuf_bytes m)) < 2 ^ 32.

Lemma packet_suffix m' m : suffix m' m -> packet m -> packet m'.
Proof.
  intros Hs (Hw & Hb & Hl). pose proof (suffix_length _ _ Hs).
  split; [apply Hs|]. split; [by apply (suffix_bytes _ m)|lia].
Qed.

Lemma skip_questions_total k m :
  packet m -> skip_questions k m = Ok None \/ exists m', skip_questions k m = Ok (Some m') /\ suffix m' m.
Proof.
  revert m. induction k as [|k IH]; intros m Hp; simpl; [right; exists m; split; [done|apply suffix_refl, Hp]|].
  destruct (skip_name_total m) as (m1 & -> & Hm1); [apply Hp..|]. simpl.
  destruct (read_suffix m1 sizeof_dns_query_footer) as (m2 & -> & Hm2); [apply Hm1|done|]. simpl.
  destruct (negb _); [by left|]. pose proof (suffix_trans _ _ _ Hm2 Hm1) as Hs.
  destruct (IH m2 (packet_suffix _ _ Hs Hp)) as [->|(m3 & -> & Hm3)]; [by left|].
  right. exists m3. eauto using suffix_trans.
Qed.

(** Answering only sends replies and shortens the list of pending requests. *)
Definition dns_effect (n n' : net) : Prop :=
  exists reps reqs, (forall t a, DnsReply t a ∈ reps -> exists id, (id, t) ∈ dns_requests (n_dns n)) /\
    (forall x, x ∈ reps -> exists t a, x = DnsReply t a) /\ reqs ⊆ dns_requests (n_dns n) /\
    n' = set_dns (Dns (dns_sock (n_dns n)) (dns_server_ipaddr (n_dns n)) reqs (next_query_id (n_dns n)))
           (set_link (Link (l_dev (n_link n)) (l_arp (n_link n)) (l_now (n_link n)) (l_out (n_link n) ++ reps)) n).

Lemma dns_effect_refl n : dns_effect n n.
Proof.
  exists [], (dns_requests (n_dns n)). split_and!; try done.
  - intros t a H. by apply not_elem_of_nil in H.
  - intros x H. by apply not_elem_of_nil in H.
  - rewrite app_nil_r. by destruct n as [[] ? ? ? ? ? [] ?].
Qed.

Lemma dns_effect_trans n1 n2 n3 : dns_effect n1 n2 -> dns_effect n2 n3 -> dns_effect n1 n3.
Proof.
  intros (r1 & q1 & H1 & H1' & Hq1 & ->) (r2 & q2 & H2 & H2' & Hq2 & ->). simpl in *.
  exists (r1 ++ r2), q2. split_and!.
  - intros t a [H|H]%elem_of_app; [by apply (H1 t a)|]. destruct (H2 t a H) as (id & Hid). eauto.
  - intros x [H|H]%elem_of_app; auto.
  - intros x Hx. auto.
  - unfold set_dns, set_link. simpl. by rewrite app_assoc.
Qed.

Lemma dns_answer_requests_total id addr reqs n0 n :
  dns_effect n0 n -> reqs ⊆ dns_requests (n_dns n0) ->
  exists n', dns_answer_requests id addr reqs n = Ok (tt, n') /\ dns_effect n0 n'.
Proof.
  revert n. induction reqs as [|[rid arg] reqs IH]; intros n Hn Hsub; cbn [dns_answer_requests]; [by exists n|].
  assert (Hin : (rid, arg) ∈ dns_requests (n_dns n0)) by (apply Hsub; by left).
  assert (Hsub' : reqs ⊆ dns_requests (n_dns n0)) by (intros x Hx; apply Hsub; by right).
  destruct (id =? rid); [|by apply IH].
  destruct Hn as (reps & q & H1 & H2 & Hq & ->). apply IH; [|done].
  exists (reps ++ [DnsReply arg addr]), (filter (fun r => r <> (rid, arg)) q). split_and!.
  - intros t a [H|H%list_elem_of_singleton]%elem_of_app; [by apply (H1 t a)|]. simplify_eq. eauto.
  - intros x [H| ->%list_elem_of_singleton]%elem_of_app; eauto.
  - intros x [_ Hx]%list_elem_of_filter. auto.
  - unfold set_dns, set_link, emit. simpl. by rewrite app_assoc.
Qed.

Lemma dns_answers_total k id m n :
  packet m -> exists n', dns_answers k id m n = Ok (tt, n') /\ dns_effect n n'.
Proof.
  revert m n. induction k as [|k IH]; intros m n Hp; cbn [dns_answers]; [eauto using dns_effect_refl|].
  destruct (skip_name_total m) as (m1 & E1 & Hm1); [apply Hp..|].
  rewrite (ST_bind_run _ _ _ _ _ (lift_out_ok _ _ _ E1)).
  destruct (read_suffix m1 sizeof_dns_answer_footer) as (m2 & E2 & Hm2); [apply Hm1|done|].
  rewrite (ST_bind_run _ _ _ _ _ (lift_out_ok _ _ _ E2)). cbv beta iota zeta.
  pose proof (packet_suffix _ _ (suffix_trans _ _ _ Hm2 Hm1) Hp) as Hp2.
  destruct (negb _); [eauto using dns_effect_refl|]. destruct (negb _).
  - destruct (discard_suffix m2 (ntoh16 (get16 8 (take (Z.to_nat sizeof_dns_answer_footer) (mbuf_bytes m1)))))
      as (j & m3 & E3 & Hm3); [apply Hm2|apply swap16_range|].
    rewrite (ST_bind_run _ _ _ _ _ (lift_out_ok _ _ _ E3)). apply IH. by apply (packet_suffix _ m2).
  - destruct (read_suffix m2 4) as (m3 & E3 & Hm3); [apply Hm2|done|].
    rewrite (ST_bind_run _ _ _ _ _ (lift_out_ok _ _ _ E3)). cbn [fst snd].
    destruct (negb _); [eauto using dns_effect_refl|].
    rewrite (ST_bind_run (gets _) _ _ _ _ eq_refl).
    destruct (dns_answer_requests_total id (ntoh32 (le_combine (take (Z.to_nat 4) (mbuf_bytes m2))))
                (dns_requests (n_dns n)) n n (dns_effect_refl n)) as (n1 & E4 & H4); [done|].
    rewrite (ST_bind_run _ _ _ _ _ E4).
    destruct (IH m3 n1 (packet_suffix _ _ Hm3 Hp2)) as (n2 & E5 & H5). eauto using dns_effect_trans.
Qed.

(** C31: the parsers of the data that comes from the network terminate on every packet without
    an invalid access: the DHCP option loop, and the whole processing of a DNS answer,
    which moreover changes nothing but the list of pending queries and answers only
    clients whose query is pending. *)
Theorem packet_parsers_total payload d n :
  packet payload ->
  (exists o, dhcp_parse (Z.to_nat (mbuf_len payload)) payload d = Ok o) /\
  exists n', dns_process payload n = Ok (tt, n') /\ dns_effect n n'.
Proof.
  intros Hp. destruct (Hp) as (Hw & Hb & Hl). split.
  { apply dhcp_parse_total; [done..|]. rewrite mbuf_len_bytes by (done || apply Hw). lia. }
  unfold dns_process. destruct (read_suffix payload sizeof_dns_header Hw ltac:(done)) as (m1 & E1 & Hm1).
  rewrite (ST_bind_run _ _ _ _ _ (lift_out_ok _ _ _ E1)). cbv beta iota zeta.
  destruct (negb _); [eauto using dns_effect_refl|].
  pose proof (packet_suffix _ _ Hm1 Hp) as Hp1.
  match goal with |- context [skip_questions ?k m1] => destruct (skip_questions_total k m1 Hp1) as [E2|(m2 & E2 & Hm2)] end;
    rewrite (ST_bind_run _ _ _ _ _ (lift_out_ok _ _ _ E2)); [eauto using dns_effect_refl|].
  apply dns_answers_total. by apply (packet_suffix _ m1).
Qed.

(** *** DHCP options *)
Inductive dopt :=
| OType (v : Z) | ONetmask (a : Z) | ORouter (a : Z) | ODns (a : Z) | OOther (t : Z) (bs : list Z).

Definition dopt_wf (o : dopt) : Prop :=
  match o with
  | OType v => byte v
  | ONetmask a | ORouter a | ODns a => 0 <= a < 2 ^ 32
  | OOther t bs => byte t /\ t ∉ [DHCP_OPTION_DHCP_TYPE; DHCP_OPTION_NETMASK; DHCP_OPTION_ROUTER; DHCP_OPTION_DNS; DHCP_OPTION_END] /\
      (length bs < 256)%nat
  end.
Definition encode_opt (o : dopt) : list Z :=
  match o with
  | OType v => [DHCP_OPTION_DHCP_TYPE; 1; v]
  | ONetmask a => [DHCP_OPTION_NETMASK; 4] ++ le_split 4 (hton32 a)
  | ORouter a => [DHCP_OPTION_ROUTER; 4] ++ le_split 4 (hton32 a)
  | ODns a => [DHCP_OPTION_DNS; 4] ++ le_split 4 (hton32 a)
  | OOther t bs => [t; Z.of_nat (length bs)] ++ bs
  end.
Definition apply_opt (d : dhcp_info) (o : dopt) : dhcp_info :=
  match o with
  | OType v => DhcpInfo v (di_gateway d) (di_netmask d) (di_dns d)
  | ONetmask a => DhcpInfo (di_type d) (di_gateway d) a (di_dns d)
  | ORouter a => DhcpInfo (di_type d) a (di_netmask d) (di_dns d)
  | ODns a => DhcpInfo (di_type d) (di_gateway d) (di_netmask d) a
  | OOther _ _ => d
  end.

Lemma dhcp_option_run size m v rest set d :
  mbuf_wf m -> mbuf_bytes m = v ++ rest -> Z.of_nat (length v) = size ->
  exists m', dhcp_option size size m set d = Ok (Some (set (le_combine v), m')) /\ mbuf_wf m' /\ mbuf_bytes m' = rest.
Proof.
  intros Hw Hb Hs. unfold dhcp_option. rewrite Z.eqb_refl. simpl.
  destruct (mbuf_read_spec m size Hw ltac:(lia)) as (m' & -> & Hw' & Hb'). simpl.
  rewrite Hb in *. replace (Z.to_nat size) with (length v) in * by lia.
  rewrite take_app_length. rewrite drop_app_length in Hb'. rewrite Hs, Z.eqb_refl. simpl. eauto.
Qed.

Lemma dhcp_parse_opt fuel m d o rest :
  mbuf_wf m -> Z.of_nat (length (mbuf_bytes m)) < 2 ^ 32 -> mbuf_bytes m = encode_opt o ++ rest -> dopt_wf o ->
  exists m', mbuf_wf m' /\ mbuf_bytes m' = rest /\ dhcp_parse (S fuel) m d = dhcp_parse fuel m' (apply_opt d o).
Proof.
  intros Hw Hl Hb Ho. cbn [dhcp_parse]. unfold mbuf_is_empty. rewrite mbuf_len_bytes by (done || apply Hw).
  assert (Hhd : exists ty len v, encode_opt o = ty :: len :: v) by (destruct o; simpl; eauto).
  destruct Hhd as (ty & len & v & Ev). rewrite Hb, Ev. simpl app.
  destruct (Z.eqb_spec (Z.of_nat (length (ty :: len :: v ++ rest))) 0); [simpl in *; lia|].
  destruct (read_byte m Hw) as (m1 & Hw1 & Hr1). rewrite Hb, Ev in Hr1. destruct Hr1 as [-> Hb1].
  destruct (read_byte m1 Hw1) as (m2 & Hw2 & Hr2). rewrite Hb1 in Hr2. destruct Hr2 as [E2 Hb2].
  simpl. rewrite E2. simpl.
  destruct o as [w|a|a|a|t bs]; simpl in Ev, Ho; simplify_eq; simpl.
  - destruct (dhcp_option_run 1 m2 [w] rest (fun v => DhcpInfo v (di_gateway d) (di_netmask d) (di_dns d)) d)
      as (m3 & -> & Hw3 & Hb3); [done..|]. exists m3. change (le_combine [w]) with (w + 256 * 0). by rewrite Z.mul_0_r, Z.add_0_r.
  - destruct (dhcp_option_run 4 m2 (le_split 4 (hton32 a)) rest
      (fun v => DhcpInfo (di_type d) (di_gateway d) (ntoh32 v) (di_dns d)) d) as (m3 & -> & Hw3 & Hb3); [done..|].
    exists m3. simpl mbind. by rewrite get_le4, swap32_involutive by (done || apply swap32_range).
  - destruct (dhcp_option_run 4 m2 (le_split 4 (hton32 a)) rest
      (fun v => DhcpInfo (di_type d) (ntoh32 v) (di_netmask d) (di_dns d)) d) as (m3 & -> & Hw3 & Hb3); [done..|].
    exists m3. simpl mbind. by rewrite get_le4, swap32_involutive by (done || apply swap32_range).
  - destruct (dhcp_option_run 4 m2 (le_split 4 (hton32 a)) rest
      (fun v => DhcpInfo (di_type d) (di_gateway d) (di_netmask d) (ntoh32 v)) d) as (m3 & -> & Hw3 & Hb3); [done..|].
    exists m3. simpl mbind. by rewrite get_le4, swap32_involutive by (done || apply swap32_range).
  - destruct Ho as (_ & Ht & Hlen). rewrite !not_elem_of_cons in Ht. destruct Ht as (H1 & H2 & H3 & H4 & H5 & _).
    do 5 (rewrite (proj2 (Z.eqb_neq _ _)) by done).
    destruct (mbuf_discard_spec m2 (Z.of_nat (length v)) Hw2 ltac:(lia)) as (m3 & -> & Hw3 & Hb3).
    exists m3. split; [done|]. rewrite Hb3, Hb2, Nat2Z.id, drop_app_length. done.
Qed.

(** The options of a DHCP message are read back as they were written: each known option
    sets its value (the last one wins), unknown ones are skipped by their length, and
    nothing behind the end marker matters. *)
Theorem dhcp_options_roundtrip opts m d rest fuel :
  mbuf_wf m -> Z.of_nat (length (mbuf_bytes m)) < 2 ^ 32 -> Forall dopt_wf opts ->
  mbuf_bytes m = concat (encode_opt <$> opts) ++ [DHCP_OPTION_END] ++ rest -> (length opts < fuel)%nat ->
  dhcp_parse fuel m d = Ok (Some (foldl apply_opt d opts)).
Proof.
  intros Hw Hl Ho. revert m d fuel Hw Hl. induction Ho as [|o opts Hwf Ho IH]; intros m d fuel Hw Hl Hb Hf.
  - destruct fuel as [|fuel]; [simpl in Hf; lia|]. cbn [dhcp_parse]. unfold mbuf_is_empty.
    rewrite mbuf_len_bytes by (done || apply Hw). rewrite Hb. simpl app.
    destruct (Z.eqb_spec (Z.of_nat (length (DHCP_OPTION_END :: rest))) 0); [simpl in *; lia|].
    destruct (read_byte m Hw) as (m1 & Hw1 & Hr1). rewrite Hb in Hr1. destruct Hr1 as [-> _]. done.
  - destruct fuel as [|fuel]; [simpl in Hf; lia|]. simpl in Hb. rewrite <- app_assoc in Hb.
    destruct (dhcp_parse_opt fuel m d o _ Hw Hl Hb Hwf) as (m' & Hw' & Hb' & ->).
    simpl. apply IH; [done| |done|simpl in Hf; lia].
    rewrite Hb'. rewrite Hb, length_app in Hl. lia.
Qed.

(** An OFFER with a router, a netmask, a name server and a lease time. *)
Definition demo_options : list dopt :=
  [OType DHCP_TYPE_OFFER; ONetmask 4294967040; ORouter 167772674; OOther 51 [0; 1; 81; 128]; ODns 167772675].
Definition demo_option_bytes : list Z := concat (encode_opt <$> demo_options) ++ [DHCP_OPTION_END] ++ [0; 0].

Lemma dhcp_options_roundtrip_witness :
  dhcp_parse 6 (mbuf_new demo_option_bytes) (DhcpInfo 0 0 0 0)
    = Ok (Some (DhcpInfo DHCP_TYPE_OFFER 167772674 4294967040 167772675)).
Proof.
  apply (dhcp_options_roundtrip demo_options (mbuf_new demo_option_bytes) (DhcpInfo 0 0 0 0) [0; 0] 6).
  - apply mbuf_new_spec.
  - vm_compute. reflexivity.
  - unfold demo_options. repeat (apply Forall_cons_2; [|]); [..|by apply Forall_nil_2]; simpl; unfold byte, DHCP_TYPE_OFFER; [lia..| |lia].
    split; [lia|]. split; [|lia]. by apply (bool_decide_unpack _).
  - apply mbuf_new_spec.
  - simpl. lia.
Defined.

(** A DNS answer for query 7 with one address record. *)
Definition demo_answer : list Z :=
  [0; 7; 0; 0; 0; 0; 0; 1; 0; 0; 0; 0] ++ [192; 12; 0; 1; 0; 1; 0; 0; 0; 60; 0; 4; 10; 0; 2; 3].
Lemma packet_parsers_total_witness :
  exists n', dns_process (mbuf_new demo_answer) (Net demo_link [] [] [] [] None (Dns None 0 [(7, 3)] 8) []) = Ok (tt, n') /\
    n' = Net (emit (DnsReply 3 167772675) demo_link) [] [] [] [] None (Dns None 0 [] 8) [].
Proof.
  destruct (packet_parsers_total (mbuf_new demo_answer) (DhcpInfo 0 0 0 0)
    (Net demo_link [] [] [] [] None (Dns None 0 [(7, 3)] 8) [])) as (_ & n' & E & _).
  - split; [apply mbuf_new_spec|]. split; [|vm_compute; reflexivity].
    rewrite (proj1 (proj2 (mbuf_new_spec demo_answer))). vm_compute. repeat constructor; discriminate.
  - exists n'. split; [exact E|]. vm_compute in E. vm_compute. congruence.
Defined.
