(* ===== verification/Tcp.v ===== *)
(** TCP (servers/tcpip/tcp.c) and the callbacks it makes into the server (main.c). *)

From S2P Require Import Prelude Types Mbuf Link Net.

(** ** Constants *)
Definition TCP_PCBS_MAX : nat := 512.
Definition TCP_TX_INITIAL_TIMEOUT : Z := 500.
Definition TCP_TX_MAX_TIMEOUT : Z := 3000.
Definition TCP_RX_BUF_SIZE : Z := 8192.
Definition TCP_PEND_ACK : Z := Z.shiftl 1 0.
Definition TCP_PEND_FIN : Z := Z.shiftl 1 1.
Definition TCP_PEND_SYN : Z := Z.shiftl 1 2.
Definition TCP_FIN : Z := Z.shiftl 1 0.
Definition TCP_SYN : Z := Z.shiftl 1 1.
Definition TCP_RST : Z := Z.shiftl 1 2.
Definition TCP_PSH : Z := Z.shiftl 1 3.
Definition TCP_ACK : Z := Z.shiftl 1 4.

(** ** Field updates *)
Definition t_with_state x p := TcpPcb (t_in_use p) x (t_pending_flags p) (t_next_seqno p) (t_last_seqno p) (t_last_ack p) (t_local_winsize p) (t_remote_winsize p) (t_local p) (t_remote p) (t_rx_buf p) (t_tx_buf p) (t_num_retransmits p) (t_retransmit_at p) (t_arg p).
Definition t_with_pending x p := TcpPcb (t_in_use p) (t_state p) x (t_next_seqno p) (t_last_seqno p) (t_last_ack p) (t_local_winsize p) (t_remote_winsize p) (t_local p) (t_remote p) (t_rx_buf p) (t_tx_buf p) (t_num_retransmits p) (t_retransmit_at p) (t_arg p).
Definition t_with_next_seqno x p := TcpPcb (t_in_use p) (t_state p) (t_pending_flags p) x (t_last_seqno p) (t_last_ack p) (t_local_winsize p) (t_remote_winsize p) (t_local p) (t_remote p) (t_rx_buf p) (t_tx_buf p) (t_num_retransmits p) (t_retransmit_at p) (t_arg p).
Definition t_with_last_seqno x p := TcpPcb (t_in_use p) (t_state p) (t_pending_flags p) (t_next_seqno p) x (t_last_ack p) (t_local_winsize p) (t_remote_winsize p) (t_local p) (t_remote p) (t_rx_buf p) (t_tx_buf p) (t_num_retransmits p) (t_retransmit_at p) (t_arg p).
Definition t_with_last_ack x p := TcpPcb (t_in_use p) (t_state p) (t_pending_flags p) (t_next_seqno p) (t_last_seqno p) x (t_local_winsize p) (t_remote_winsize p) (t_local p) (t_remote p) (t_rx_buf p) (t_tx_buf p) (t_num_retransmits p) (t_retransmit_at p) (t_arg p).
Definition t_with_local_winsize x p := TcpPcb (t_in_use p) (t_state p) (t_pending_flags p) (t_next_seqno p) (t_last_seqno p) (t_last_ack p) x (t_remote_winsize p) (t_local p) (t_remote p) (t_rx_buf p) (t_tx_buf p) (t_num_retransmits p) (t_retransmit_at p) (t_arg p).
Definition t_with_remote_winsize x p := TcpPcb (t_in_use p) (t_state p) (t_pending_flags p) (t_next_seqno p) (t_last_seqno p) (t_last_ack p) (t_local_winsize p) x (t_local p) (t_remote p) (t_rx_buf p) (t_tx_buf p) (t_num_retransmits p) (t_retransmit_at p) (t_arg p).
Definition t_with_endpoints x y p := TcpPcb (t_in_use p) (t_state p) (t_pending_flags p) (t_next_seqno p) (t_last_seqno p) (t_last_ack p) (t_local_winsize p) (t_remote_winsize p) x y (t_rx_buf p) (t_tx_buf p) (t_num_retransmits p) (t_retransmit_at p) (t_arg p).
Definition t_with_rx_buf x p := TcpPcb (t_in_use p) (t_state p) (t_pending_flags p) (t_next_seqno p) (t_last_seqno p) (t_last_ack p) (t_local_winsize p) (t_remote_winsize p) (t_local p) (t_remote p) x (t_tx_buf p) (t_num_retransmits p) (t_retransmit_at p) (t_arg p).
Definition t_with_tx_buf x p := TcpPcb (t_in_use p) (t_state p) (t_pending_flags p) (t_next_seqno p) (t_last_seqno p) (t_last_ack p) (t_local_winsize p) (t_remote_winsize p) (t_local p) (t_remote p) (t_rx_buf p) x (t_num_retransmits p) (t_retransmit_at p) (t_arg p).
Definition t_with_num_retransmits x p := TcpPcb (t_in_use p) (t_state p) (t_pending_flags p) (t_next_seqno p) (t_last_seqno p) (t_last_ack p) (t_local_winsize p) (t_remote_winsize p) (t_local p) (t_remote p) (t_rx_buf p) (t_tx_buf p) x (t_retransmit_at p) (t_arg p).
Definition t_with_retransmit_at x p := TcpPcb (t_in_use p) (t_state p) (t_pending_flags p) (t_next_seqno p) (t_last_seqno p) (t_last_ack p) (t_local_winsize p) (t_remote_winsize p) (t_local p) (t_remote p) (t_rx_buf p) (t_tx_buf p) (t_num_retransmits p) x (t_arg p).
Definition t_with_in_use x p := TcpPcb x (t_state p) (t_pending_flags p) (t_next_seqno p) (t_last_seqno p) (t_last_ack p) (t_local_winsize p) (t_remote_winsize p) (t_local p) (t_remote p) (t_rx_buf p) (t_tx_buf p) (t_num_retransmits p) (t_retransmit_at p) (t_arg p).

Definition pcb_at (i : nat) : NST tcp_pcb := getopt (fun n => n_tcp n !! i).
Definition upd_pcb (i : nat) (f : tcp_pcb -> tcp_pcb) : NST unit :=
  _ ← pcb_at i; modify (fun n => set_tcp (alter f i (n_tcp n)) n).
Definition pend (flag : Z) (p : tcp_pcb) : tcp_pcb := t_with_pending (Z.lor (t_pending_flags p) flag) p.

(** ** Lookup *)
Definition local_matches (p : tcp_pcb) (ep : endpoint) : bool :=
  negb (negb (ep_addr (t_local p) =? IPV4_ADDR_UNSPECIFIED) && negb (ep_addr (t_local p) =? ep_addr ep))
  && (ep_port (t_local p) =? ep_port ep).
Definition remote_matches (p : tcp_pcb) (ep : endpoint) : bool :=
  (ep_addr (t_remote p) =? ep_addr ep) && (ep_port (t_remote p) =? ep_port ep).

(** LIST_FOR_EACH over [active_pcbs] with an early return. *)
Fixpoint find_pcb (matches : tcp_pcb -> bool) (pcbs : list tcp_pcb) (active : list nat) : option nat :=
  match active with
  | [] => None
  | i :: rest =>
      match pcbs !! i with
      | Some p => if matches p then Some i else find_pcb matches pcbs rest
      | None => find_pcb matches pcbs rest
      end
  end.
Definition tcp_lookup_local (local_ep : endpoint) (n : net) : option nat :=
  find_pcb (fun p => local_matches p local_ep) (n_tcp n) (n_tcp_active n).
Definition tcp_lookup (local_ep remote_ep : endpoint) (n : net) : option nat :=
  find_pcb (fun p => local_matches p local_ep && remote_matches p remote_ep) (n_tcp n) (n_tcp_active n).

(** ** The interface of the server *)
Definition tcp_new (arg : option nat) : NST (option nat) :=
  i ← gets (fun n => first_free t_in_use 0 (n_tcp n));
  match i with
  | None => mret None
  | Some i =>
      upd_pcb i (fun p => TcpPcb true TCP_STATE_CLOSED 0 0 0 0 TCP_RX_BUF_SIZE (t_remote_winsize p)
        (Endpoint 0 0) (Endpoint 0 0) [mbuf_alloc] [mbuf_alloc] 0 0 arg) ;;
      mret (Some i)
  end.

(** The loop over the ephemeral ports, [n] of them left from [port] on. *)
Fixpoint tcp_connect_loop (i : nat) (dst_addr dst_port port : Z) (n : nat) : NST Z :=
  match n with
  | O => mret ERR_TRY_AGAIN
  | S n' =>
      let ep := Endpoint IPV4_ADDR_UNSPECIFIED (u16 port) in
      other ← gets (tcp_lookup_local ep);
      match other with
      | Some _ => tcp_connect_loop i dst_addr dst_port (port + 1) n'
      | None =>
          upd_pcb i (fun p => pend TCP_PEND_SYN (t_with_state TCP_STATE_SYN_SENT
            (t_with_endpoints ep (Endpoint dst_addr dst_port) p))) ;;
          linked ← gets (fun n => bool_decide (i ∈ n_tcp_active n));
          assert (negb linked) ;;
          modify (fun n => set_tcp_active (n_tcp_active n ++ [i]) n) ;;
          mret OK
      end
  end.
Definition tcp_connect (i : nat) (dst_addr dst_port : Z) : NST Z :=
  tcp_connect_loop i dst_addr dst_port 49152 (Z.to_nat (65535 - 49152 + 1)).

Definition tcp_close (i : nat) : NST unit :=
  modify (fun n => set_tcp_active (filter (fun j => j <> i) (n_tcp_active n)) n) ;;
  upd_pcb i (t_with_in_use false).

Definition tcp_write (i : nat) (data : list Z) : NST unit :=
  p ← pcb_at i;
  tx ← lift_out (mbuf_append_bytes (t_tx_buf p) data);
  upd_pcb i (fun p => t_with_retransmit_at 0 (t_with_tx_buf tx p)).

Definition tcp_read (i : nat) (buf_len : Z) : NST (list Z) :=
  p ← pcb_at i;
  r ← lift_out (mbuf_read (t_rx_buf p) buf_len);
  let '(bs, rx) := r in
  upd_pcb i (fun p => t_with_local_winsize (u32 (t_local_winsize p + Z.of_nat (length bs))) (t_with_rx_buf rx p)) ;;
  mret bs.

(** ** Callbacks (main.c) *)
Definition get_socket_from_pcb (p : tcp_pcb) : NST socket :=
  match t_arg p with
  | None => panic
  | Some s => getopt (fun n => n_sockets n !! s)
  end.
Definition callback_tcp_data (p : tcp_pcb) : NST unit :=
  s ← get_socket_from_pcb p; send (TcpData (s_task s) (s_fd s)).
Definition callback_tcp_fin (p : tcp_pcb) : NST unit :=
  s ← get_socket_from_pcb p; send (TcpClosed (s_task s) (s_fd s)).
Definition callback_tcp_rst (p : tcp_pcb) : NST unit :=
  s ← get_socket_from_pcb p; send (TcpClosed (s_task s) (s_fd s)).

(** ** Sending *)
Definition tcp_header (src_port dst_port seqno ackno flags win_size checksum : Z) : list Z :=
  le_split 2 src_port ++ le_split 2 dst_port ++ le_split 4 seqno ++ le_split 4 ackno ++
  [80 (* 5 << 4 *)] ++ [flags] ++ le_split 2 win_size ++ le_split 2 checksum ++ le_split 2 0.
Definition sizeof_tcp_header : Z := 20.

(** The flags for what is pending. *)
Definition pending_to_flags (pending : Z) : Z :=
  Z.lor (Z.lor (if has pending TCP_PEND_SYN then TCP_SYN else 0)
               (if has pending TCP_PEND_ACK then TCP_ACK else 0))
        (if has pending TCP_PEND_FIN then TCP_FIN else 0).

(** The packet: header, pseudo header checksum, payload ([None]: NULL). *)
Definition tcp_packet (p : tcp_pcb) (flags : Z) (payload : mbuf) (ipaddr : Z) : outcome mbuf :=
  let header ck := tcp_header (hton16 (ep_port (t_local p))) (hton16 (ep_port (t_remote p)))
    (hton32 (t_next_seqno p)) (if has flags TCP_ACK then hton32 (t_last_ack p) else 0) flags
    (hton16 (u16 (t_local_winsize p))) ck in
  c ← checksum_update_mbuf checksum_init payload;
  let c := checksum_update c (header 0) in
  let total_len := u32 (sizeof_tcp_header + mbuf_len payload) in
  let c := checksum_update_uint32 c (hton32 (ep_addr (t_remote p))) in
  let c := checksum_update_uint32 c (hton32 ipaddr) in
  let c := checksum_update_uint16 c (hton16 (u16 total_len)) in
  let c := checksum_update_uint16 c (hton16 IPV4_PROTO_TCP) in
  mbuf_append (mbuf_new (header (u16 (checksum_finish c)))) payload.

(** The timeout set after a transmission. *)
Definition retransmit_timeout (num_retransmits : Z) : Z :=
  Z.min TCP_TX_MAX_TIMEOUT (Z.shiftl TCP_TX_INITIAL_TIMEOUT (Z.min num_retransmits 8)).

Definition tcp_transmit (i : nat) : NST unit :=
  p ← pcb_at i;
  now ← lift_link uptime_now;
  if truthy (t_retransmit_at p) && (now <? t_retransmit_at p) then mret tt
  else
    r ← (if bool_decide (t_state p = TCP_STATE_ESTABLISHED) then
           payload ← lift_out (mbuf_peek (t_tx_buf p) (t_remote_winsize p));
           let len := mbuf_len payload in
           let flags := if 0 <? len then Z.lor TCP_ACK TCP_PSH else 0 in
           upd_pcb i (fun p =>
             let p := t_with_remote_winsize (u32 (t_remote_winsize p - len)) p in
             if t_last_seqno p =? t_next_seqno p
             then t_with_num_retransmits (u32 (t_num_retransmits p + 1)) p else p) ;;
           mret (payload, flags)
         else mret ([], 0));
    let '(payload, flags) := (r : mbuf * Z) in
    p ← pcb_at i;
    let flags := Z.lor flags (pending_to_flags (t_pending_flags p)) in
    if flags =? 0 then mret tt
    else
      ipaddr ← lift_link device_get_ipaddr;
      pkt ← lift_out (tcp_packet p flags payload ipaddr);
      lift_link (ipv4_transmit (ep_addr (t_remote p)) IPV4_PROTO_TCP pkt) ;;
      now ← lift_link uptime_now;
      upd_pcb i (fun p =>
        t_with_pending 0 (t_with_last_seqno (t_next_seqno p)
          (t_with_retransmit_at (s32 (now + retransmit_timeout (t_num_retransmits p))) p))).

(** LIST_FOR_EACH: nothing in [tcp_transmit] changes the list. *)
Fixpoint tcp_flush_loop (active : list nat) : NST unit :=
  match active with
  | [] => mret tt
  | i :: rest => tcp_transmit i ;; tcp_flush_loop rest
  end.
Definition tcp_flush : NST unit := active ← gets n_tcp_active; tcp_flush_loop active.

(** ** Receiving *)

(** The acknowledgement and the data of a segment in the established state. *)
Definition tcp_established (i : nat) (ack flags : Z) (payload : mbuf) : NST unit :=
  p ← pcb_at i;
  let acked_len := u32 (ack - t_next_seqno p) in
  (if 0 <? acked_len then
     r ← lift_out (mbuf_discard (t_tx_buf p) acked_len);
     upd_pcb i (fun p => t_with_next_seqno (u32 (t_next_seqno p + acked_len)) (t_with_tx_buf r.2 p))
   else mret tt) ;;
  p ← pcb_at i;
  let payload_len := mbuf_len payload in
  (if (0 <? payload_len) && (payload_len <=? t_local_winsize p) then
     rx ← lift_out (mbuf_append (t_rx_buf p) payload);
     upd_pcb i (fun p => t_with_rx_buf rx (pend TCP_PEND_ACK
       (t_with_local_winsize (u32 (t_local_winsize p - payload_len))
         (t_with_last_ack (u32 (t_last_ack p + payload_len)) p)))) ;;
     callback_tcp_data p
   else mret tt) ;;
  (if has flags TCP_FIN then
     p ← pcb_at i;
     assert (mbuf_len (t_tx_buf p) =? 0) ;;
     upd_pcb i (fun p => pend TCP_PEND_ACK (t_with_last_ack (u32 (t_last_ack p + 1))
       (t_with_retransmit_at 0 (t_with_state TCP_STATE_CLOSED p)))) ;;
     callback_tcp_fin p
   else mret tt).

(** The header's 16-bit window passes through [ntoh32]. *)
Definition tcp_process (i : nat) (header : list Z) (payload : mbuf) : NST unit :=
  let seq := ntoh32 (get32 4 header) in
  let ack := ntoh32 (get32 8 header) in
  let flags := get8 13 header in
  p ← pcb_at i;
  if has flags TCP_RST then callback_tcp_rst p
  else if negb (bool_decide (t_state p = TCP_STATE_SYN_SENT)) && negb (seq =? t_last_ack p) then
    upd_pcb i (pend TCP_PEND_ACK)
  else
    upd_pcb i (t_with_remote_winsize (ntoh32 (get16 14 header))) ;;
    match t_state p with
    | TCP_STATE_SYN_SENT =>
        if Z.land flags (Z.lor TCP_SYN TCP_ACK) =? 0 then mret tt
        else
          upd_pcb i (fun p => pend TCP_PEND_ACK (t_with_retransmit_at 0
            (t_with_state TCP_STATE_ESTABLISHED (t_with_last_ack (u32 (seq + 1)) (t_with_next_seqno ack p)))))
    | TCP_STATE_ESTABLISHED => tcp_established i ack flags payload
    | TCP_STATE_CLOSED => mret tt
    end.

Definition tcp_receive (dst src : Z) (pkt : mbuf) : NST unit :=
  r ← lift_out (mbuf_read pkt sizeof_tcp_header);
  let '(header, pkt) := r in
  if negb (Z.of_nat (length header) =? sizeof_tcp_header) then mret tt
  else
    let offset := Z.shiftr (get8 12 header) 4 * 4 in
    pkt ← (if sizeof_tcp_header <? offset then
             r ← lift_out (mbuf_discard pkt (offset - sizeof_tcp_header)); mret r.2
           else mret pkt);
    i ← gets (tcp_lookup (Endpoint dst (ntoh16 (get16 2 header))) (Endpoint src (ntoh16 (get16 0 header))));
    match i with
    | None => mret tt
    | Some i => tcp_process i header pkt
    end.

Definition tcp_init : NST unit :=
  modify (fun n => set_tcp (t_with_in_use false <$> n_tcp n) (set_tcp_active [] n)).

(** ** Lemmas *)
#[local] Arguments swap16 : simpl never.
#[local] Arguments swap32 : simpl never.
#[local] Arguments ntoh16 : simpl never.
#[local] Arguments ntoh32 : simpl never.
#[local] Arguments u32 : simpl never.
#[local] Arguments u16 : simpl never.

Lemma pcb_at_run i n p : n_tcp n !! i = Some p -> pcb_at i n = Ok (p, n).
Proof. intros E. unfold pcb_at. run. by rewrite E. Qed.

Lemma upd_pcb_run i f n p :
  n_tcp n !! i = Some p -> upd_pcb i f n = Ok (tt, set_tcp (<[i := f p]> (n_tcp n)) n).
Proof. intros E. unfold upd_pcb, pcb_at. run. rewrite E. by rewrite (alter_insert _ _ _ p E). Qed.

Lemma lookup_set_tcp i p n : (i < length (n_tcp n))%nat -> n_tcp (set_tcp (<[i := p]> (n_tcp n)) n) !! i = Some p.
Proof. intros. simpl. by apply list_lookup_insert_eq. Qed.

Lemma set_tcp_twice i p q n :
  set_tcp (<[i := q]> (n_tcp (set_tcp (<[i := p]> (n_tcp n)) n))) (set_tcp (<[i := p]> (n_tcp n)) n)
    = set_tcp (<[i := q]> (n_tcp n)) n.
Proof. unfold set_tcp. simpl. by rewrite list_insert_insert_eq. Qed.

(** *** Control blocks

    The receive window is the room left in the receive buffer. *)
Record pcb_wf (p : tcp_pcb) : Prop := {
  pw_rx : mbuf_wf (t_rx_buf p);
  pw_tx : mbuf_wf (t_tx_buf p);
  pw_window : t_local_winsize p + Z.of_nat (length (mbuf_bytes (t_rx_buf p))) = TCP_RX_BUF_SIZE;
  pw_room : 0 <= t_local_winsize p;
  pw_ack : 0 <= t_last_ack p < 2 ^ 32;
}.

(** What accepting a payload of a segment in order does to the control block. *)
Definition accepts (p : tcp_pcb) (payload : mbuf) : bool :=
  (0 <? Z.of_nat (length (mbuf_bytes payload))) && (Z.of_nat (length (mbuf_bytes payload)) <=? t_local_winsize p).

(** The acknowledgement only touches the send side. *)
Lemma tcp_ack_run i ack p n :
  n_tcp n !! i = Some p -> mbuf_wf (t_tx_buf p) ->
  let acked_len := u32 (ack - t_next_seqno p) in
  exists tx, mbuf_wf tx /\ mbuf_bytes tx = drop (Z.to_nat acked_len) (mbuf_bytes (t_tx_buf p)) /\
  (if 0 <? acked_len then
     r ← lift_out (mbuf_discard (t_tx_buf p) acked_len);
     upd_pcb i (fun p => t_with_next_seqno (u32 (t_next_seqno p + acked_len)) (t_with_tx_buf r.2 p))
   else mret tt) n
  = Ok (tt, set_tcp (<[i := t_with_next_seqno (if 0 <? acked_len then u32 (t_next_seqno p + acked_len)
                                              else t_next_seqno p) (t_with_tx_buf tx p)]> (n_tcp n)) n).
Proof.
  intros E Hw acked. destruct (Z.ltb_spec 0 acked).
  - destruct (mbuf_discard_spec (t_tx_buf p) acked Hw ltac:(lia)) as (tx & Ed & Hw' & Hb).
    exists tx. split; [done|]. split; [done|].
    rewrite (ST_bind_run _ _ _ _ _ (lift_out_ok _ _ _ Ed)). by rewrite (upd_pcb_run i _ n p E).
  - exists (t_tx_buf p). replace (Z.to_nat acked) with 0%nat by lia. split; [done|]. split; [done|].
    replace (t_with_next_seqno (t_next_seqno p) (t_with_tx_buf (t_tx_buf p) p)) with p by (by destruct p).
    rewrite list_insert_id by done. by destruct n.
Qed.

Definition accept (payload : mbuf) (p : tcp_pcb) : tcp_pcb :=
  let len := Z.of_nat (length (mbuf_bytes payload)) in
  t_with_rx_buf (t_rx_buf p ++ payload) (pend TCP_PEND_ACK
    (t_with_local_winsize (u32 (t_local_winsize p - len)) (t_with_last_ack (u32 (t_last_ack p + len)) p))).

Lemma accept_wf payload p :
  pcb_wf p -> Forall seg_wf payload -> accepts p payload = true ->
  pcb_wf (accept payload p) /\ mbuf_bytes (t_rx_buf (accept payload p)) = mbuf_bytes (t_rx_buf p) ++ mbuf_bytes payload.
Proof.
  intros [[Hne Hrx] Htx Hwin Hroom Hack] Hp [Hlt%Z.ltb_lt Hle%Z.leb_le]%andb_true_iff.
  assert (Eb : mbuf_bytes (t_rx_buf (accept payload p)) = mbuf_bytes (t_rx_buf p) ++ mbuf_bytes payload).
  { simpl. apply mbuf_bytes_app. }
  split; [|done]. split; simpl.
  - split; [by destruct (t_rx_buf p)|by apply Forall_app].
  - done.
  - rewrite mbuf_bytes_app, length_app. unfold TCP_RX_BUF_SIZE in *. rewrite u32_small; lia.
  - apply u32_range.
  - apply u32_range.
Qed.

(** The second part of [tcp_established]: data. *)
Lemma tcp_data_run i payload p n s so :
  n_tcp n !! i = Some p -> mbuf_wf (t_rx_buf p) -> Forall seg_wf payload ->
  Z.of_nat (length (mbuf_bytes payload)) < 2 ^ 32 ->
  t_arg p = Some s -> n_sockets n !! s = Some so ->
  (if (0 <? mbuf_len payload) && (mbuf_len payload <=? t_local_winsize p) then
     rx ← lift_out (mbuf_append (t_rx_buf p) payload);
     upd_pcb i (fun p => t_with_rx_buf rx (pend TCP_PEND_ACK
       (t_with_local_winsize (u32 (t_local_winsize p - mbuf_len payload))
         (t_with_last_ack (u32 (t_last_ack p + mbuf_len payload)) p)))) ;;
     callback_tcp_data p
   else mret tt) n
  = Ok (tt, if accepts p payload
            then set_link (emit (TcpData (s_task so) (s_fd so)) (n_link n)) (set_tcp (<[i := accept payload p]> (n_tcp n)) n)
            else n).
Proof.
  intros E [Hne _] Hp Hlen Ea Es. rewrite mbuf_len_bytes by done. fold (accepts p payload).
  destruct (accepts p payload); [|done].
  rewrite (ST_bind_run _ _ _ _ _ (lift_out_ok _ _ _ (mbuf_append_spec _ payload Hne))).
  rewrite (ST_bind_run _ _ _ _ _ (upd_pcb_run i _ n p E)).
  unfold callback_tcp_data, get_socket_from_pcb, send, lift_link. rewrite Ea. run. by rewrite Es.
Qed.

Lemma tcp_established_run i ack flags payload p n s so :
  n_tcp n !! i = Some p -> pcb_wf p -> Forall seg_wf payload ->
  Z.of_nat (length (mbuf_bytes payload)) < 2 ^ 32 ->
  t_arg p = Some s -> n_sockets n !! s = Some so -> has flags TCP_FIN = false ->
  exists tx nx, mbuf_wf tx /\
  let p1 := t_with_next_seqno nx (t_with_tx_buf tx p) in
  tcp_established i ack flags payload n = Ok (tt,
    if accepts p payload
    then set_link (emit (TcpData (s_task so) (s_fd so)) (n_link n)) (set_tcp (<[i := accept payload p1]> (n_tcp n)) n)
    else set_tcp (<[i := p1]> (n_tcp n)) n).
Proof.
  intros E Hw Hp Hlen Ea Es Hf. assert (Hi : (i < length (n_tcp n))%nat) by (by eapply lookup_lt_Some).
  destruct (tcp_ack_run i ack p n E (pw_tx p Hw)) as (tx & Htx & _ & E1).
  eexists tx, _. split; [done|]. cbv zeta. unfold tcp_established.
  rewrite (ST_bind_run _ _ _ _ _ (pcb_at_run i n p E)). cbv zeta. rewrite (ST_bind_run _ _ _ _ _ E1).
  set (p1 := t_with_next_seqno _ _).
  rewrite (ST_bind_run _ _ _ _ _ (pcb_at_run i _ p1 (lookup_set_tcp i p1 n Hi))).
  rewrite (ST_bind_run _ _ _ _ _ (tcp_data_run i payload p1 _ s so (lookup_set_tcp i p1 n Hi) (pw_rx p Hw) Hp Hlen Ea Es)).
  rewrite Hf. change (accepts p1 payload) with (accepts p payload). destruct (accepts p payload); [|done].
  rewrite set_tcp_twice. done.
Qed.

(** *** Streams

    A segment as [tcp_process] gets it, and what the application does. *)
Inductive conn_event :=
| Segment (header : list Z) (payload : mbuf)
| ReadData (n : Z)
| WriteData (data : list Z).

(** The bytes the application has read. *)
Definition conn_step (i : nat) (e : conn_event) : NST (list Z) :=
  match e with
  | Segment header payload => tcp_process i header payload ;; mret []
  | ReadData n => tcp_read i n
  | WriteData data => tcp_write i data ;; mret []
  end.
Fixpoint conn_run (i : nat) (es : list conn_event) : NST (list Z) :=
  match es with
  | [] => mret []
  | e :: es' => bs ← conn_step i e; bs' ← conn_run i es'; mret (bs ++ bs')
  end.

Definition seg_seq (header : list Z) : Z := ntoh32 (get32 4 header).
Definition seg_flags (header : list Z) : Z := get8 13 header.

(** A peer that sends the stream [S] from sequence number [base] on: a segment may be
    old, early, repeated or cut, but where its sequence number says so it carries the
    bytes of the stream. *)
Definition honest (S : list Z) (base : Z) (e : conn_event) : Prop :=
  match e with
  | Segment header payload =>
      Forall seg_wf payload /\ has (seg_flags header) TCP_RST = false /\ has (seg_flags header) TCP_FIN = false /\
      Z.of_nat (length (mbuf_bytes payload)) < 2 ^ 32 /\
      forall k, (k <= length S)%nat -> seg_seq header = u32 (base + Z.of_nat k) ->
        mbuf_bytes payload = take (length (mbuf_bytes payload)) (drop k S)
  | ReadData n => 0 <= n
  | WriteData _ => True
  end.

(** The connection has received [k] bytes of the stream, [d] of them are read already. *)
Record conn_inv (S : list Z) (base : Z) (i : nat) (d : list Z) (k : nat) (n : net) : Prop := {
  ci_pcb : exists p s so, n_tcp n !! i = Some p /\ pcb_wf p /\ t_state p = TCP_STATE_ESTABLISHED /\
    t_arg p = Some s /\ n_sockets n !! s = Some so /\
    t_last_ack p = u32 (base + Z.of_nat k) /\ d ++ mbuf_bytes (t_rx_buf p) = take k S;
  ci_k : (k <= length S)%nat;
}.

Lemma conn_inv_pcb S base i d k n n' p s so :
  n_tcp n' !! i = Some p -> pcb_wf p -> t_state p = TCP_STATE_ESTABLISHED -> t_arg p = Some s ->
  n_sockets n' = n_sockets n -> n_sockets n !! s = Some so ->
  t_last_ack p = u32 (base + Z.of_nat k) -> d ++ mbuf_bytes (t_rx_buf p) = take k S -> (k <= length S)%nat ->
  conn_inv S base i d k n'.
Proof. intros. split; [|done]. exists p, s, so. split_and!; congruence || done. Qed.

Lemma segment_in_order S base i d k n header payload :
  conn_inv S base i d k n -> honest S base (Segment header payload) ->
  exists n' k', tcp_process i header payload n = Ok (tt, n') /\ (k <= k')%nat /\ conn_inv S base i d k' n'.
Proof.
  intros [(p & s & so & E & Hw & Hst & Ea & Es & Hack & Hd) Hk] (Hp & Hrst & Hfin & Hlen & Hb).
  assert (Hi : (i < length (n_tcp n))%nat) by (by eapply lookup_lt_Some).
  unfold tcp_process. fold (seg_seq header) (seg_flags header).
  rewrite (ST_bind_run _ _ _ _ _ (pcb_at_run i n p E)).
  rewrite Hrst, Hst, bool_decide_eq_false_2 by done. cbn [negb andb].
  destruct (Z.eqb_spec (seg_seq header) (t_last_ack p)) as [Eseq|Hne]; cbn [negb].
  2: { eexists _, k. split; [by apply upd_pcb_run|]. split; [done|].
       apply (conn_inv_pcb S base i d k n _ (pend TCP_PEND_ACK p) s so); try done.
       - by apply lookup_set_tcp.
       - by destruct Hw. }
  set (p1 := t_with_remote_winsize (ntoh32 (get16 14 header)) p).
  assert (Hw1 : pcb_wf p1) by (by destruct Hw).
  rewrite (ST_bind_run _ _ _ _ _ (upd_pcb_run i _ n p E)). fold p1.
  destruct (tcp_established_run i (ntoh32 (get32 8 header)) (seg_flags header) payload p1
              (set_tcp (<[i := p1]> (n_tcp n)) n) s so) as (tx & nx & Htx & ->); try done.
  { by apply lookup_set_tcp. }
  set (p2 := t_with_next_seqno nx (t_with_tx_buf tx p1)).
  assert (Hw2 : pcb_wf p2) by (by destruct Hw).
  destruct (accepts p1 payload) eqn:Eacc.
  - destruct (accept_wf payload p2 Hw2 Hp Eacc) as [Hw3 Hrx].
    specialize (Hb k Hk ltac:(congruence)).
    assert (Hl : (length (mbuf_bytes payload) <= length S - k)%nat).
    { rewrite Hb, length_take, length_drop. lia. }
    eexists _, (k + length (mbuf_bytes payload))%nat. split; [done|]. split; [lia|].
    apply (conn_inv_pcb S base i d _ n _ (accept payload p2) s so); try done.
    + simpl. rewrite list_insert_insert_eq. by apply list_lookup_insert_eq.
    + simpl. rewrite Hack, u32_add_l. f_equal. lia.
    + rewrite Hrx, app_assoc. change (t_rx_buf p2) with (t_rx_buf p).
      rewrite Hd, (take_step k (k + _)), Nat.add_sub' by lia. by f_equal.
    + lia.
  - eexists _, k. split; [done|]. split; [done|].
    apply (conn_inv_pcb S base i d k n _ p2 s so); try done.
    simpl. rewrite list_insert_insert_eq. by apply list_lookup_insert_eq.
Qed.

Lemma read_in_order S base i d k n m :
  conn_inv S base i d k n -> 0 <= m ->
  exists bs n', tcp_read i m n = Ok (bs, n') /\ conn_inv S base i (d ++ bs) k n'.
Proof.
  intros [(p & s & so & E & Hw & Hst & Ea & Es & Hack & Hd) Hk] Hm.
  assert (Hi : (i < length (n_tcp n))%nat) by (by eapply lookup_lt_Some).
  destruct (Hw) as [Hrx Htx Hwin Hroom Hr].
  destruct (mbuf_read_spec (t_rx_buf p) m Hrx Hm) as (rx & Er & Hwr & Hbr).
  unfold tcp_read. rewrite (ST_bind_run _ _ _ _ _ (pcb_at_run i n p E)).
  rewrite (ST_bind_run _ _ _ _ _ (lift_out_ok _ _ _ Er)).
  rewrite (ST_bind_run _ _ _ _ _ (upd_pcb_run i _ n p E)).
  eexists _, _. split; [done|].
  eapply (conn_inv_pcb S base i _ k n); [by apply lookup_set_tcp|..]; try done.
  - split; simpl; [done|done| |apply u32_range|done].
    rewrite Hbr, length_drop, length_take, u32_small; unfold TCP_RX_BUF_SIZE in *; lia.
  - simpl. by rewrite Hbr, <- app_assoc, take_drop.
Qed.

Lemma write_in_order S base i d k n data :
  conn_inv S base i d k n ->
  exists n', tcp_write i data n = Ok (tt, n') /\ conn_inv S base i d k n'.
Proof.
  intros [(p & s & so & E & Hw & Hst & Ea & Es & Hack & Hd) Hk].
  assert (Hi : (i < length (n_tcp n))%nat) by (by eapply lookup_lt_Some).
  destruct (Hw) as [Hrx Htx Hwin Hroom Hr].
  destruct (mbuf_append_bytes_spec (t_tx_buf p) data Htx) as (tx & Et & Hwt & _).
  unfold tcp_write. rewrite (ST_bind_run _ _ _ _ _ (pcb_at_run i n p E)).
  rewrite (ST_bind_run _ _ _ _ _ (lift_out_ok _ _ _ Et)).
  eexists. split; [by apply upd_pcb_run|].
  by eapply (conn_inv_pcb S base i _ k n); [by apply lookup_set_tcp|..].
Qed.


(** *** Ports *)
Lemma find_pcb_none m pcbs active :
  find_pcb m pcbs active = None <-> (forall j p, j ∈ active -> pcbs !! j = Some p -> m p = false).
Proof.
  induction active as [|i active IH]; simpl.
  { split; [|done]. intros _ j p Hj. by apply not_elem_of_nil in Hj. }
  destruct (pcbs !! i) as [q|] eqn:E.
  - destruct (m q) eqn:Em.
    + split; [done|]. intros H. specialize (H i q ltac:(by left) E). congruence.
    + rewrite IH. split; intros H j p Hj Ej.
      * apply elem_of_cons in Hj as [->|Hj]; [congruence|by apply (H j)].
      * apply (H j); [by right|done].
  - rewrite IH. split; intros H j p Hj Ej.
    + apply elem_of_cons in Hj as [->|Hj]; [congruence|by apply (H j)].
    + apply (H j); [by right|done].
Qed.

Lemma find_pcb_snoc m pcbs active i p :
  find_pcb m pcbs active = None -> pcbs !! i = Some p -> m p = true -> find_pcb m pcbs (active ++ [i]) = Some i.
Proof.
  induction active as [|j active IH]; simpl; intros Hn E Em; [by rewrite E, Em|].
  destruct (pcbs !! j) as [q|]; [|by apply IH]. destruct (m q); [done|by apply IH].
Qed.

Definition port_of (n : net) (i : nat) : Z :=
  match n_tcp n !! i with Some p => ep_port (t_local p) | None => 0 end.

(** The connections in use: their control blocks exist, are bound to no particular local
    address, and have distinct local ports. *)
Record ports_ok (n : net) : Prop := {
  po_pcb : forall j, j ∈ n_tcp_active n -> exists p, n_tcp n !! j = Some p /\ ep_addr (t_local p) = IPV4_ADDR_UNSPECIFIED;
  po_active : NoDup (n_tcp_active n);
  po_ports : NoDup (port_of n <$> n_tcp_active n);
}.

Lemma local_matches_port p port :
  ep_addr (t_local p) = IPV4_ADDR_UNSPECIFIED ->
  forall a, local_matches p (Endpoint a port) = (ep_port (t_local p) =? port).
Proof. intros E a. unfold local_matches. by rewrite E. Qed.

Lemma port_unused n port a :
  ports_ok n -> tcp_lookup_local (Endpoint a port) n = None <-> port ∉ port_of n <$> n_tcp_active n.
Proof.
  intros [Hp _ _]. unfold tcp_lookup_local. rewrite find_pcb_none. split.
  - intros H (j & -> & Hj)%list_elem_of_fmap. destruct (Hp j Hj) as (p & E & Ea).
    specialize (H j p Hj E). rewrite local_matches_port in H by done.
    unfold port_of in H. rewrite E, Z.eqb_refl in H. done.
  - intros Hn j p Hj E. destruct (Hp j Hj) as (p' & E' & Ea). rewrite E in E'. injection E' as <-.
    rewrite local_matches_port by done. apply Z.eqb_neq. intros Eq. apply Hn, list_elem_of_fmap.
    exists j. unfold port_of. by rewrite E.
Qed.

(** The control block of a connection that was just opened. *)
Definition opened (port dst_addr dst_port : Z) (p : tcp_pcb) : tcp_pcb :=
  pend TCP_PEND_SYN (t_with_state TCP_STATE_SYN_SENT
    (t_with_endpoints (Endpoint IPV4_ADDR_UNSPECIFIED port) (Endpoint dst_addr dst_port) p)).

Lemma tcp_connect_loop_run i da dp k : forall port n p,
  n_tcp n !! i = Some p -> i ∉ n_tcp_active n -> 0 <= port -> port + Z.of_nat k <= 65536 ->
  (exists q, port <= q < port + Z.of_nat k /\ tcp_lookup_local (Endpoint IPV4_ADDR_UNSPECIFIED q) n = None /\
     tcp_connect_loop i da dp port k n
       = Ok (OK, set_tcp_active (n_tcp_active n ++ [i]) (set_tcp (<[i := opened q da dp p]> (n_tcp n)) n))) \/
  (forall q, port <= q < port + Z.of_nat k -> tcp_lookup_local (Endpoint IPV4_ADDR_UNSPECIFIED q) n <> None).
Proof.
  induction k as [|k IH]; intros port n p E Hi H0 Hk; [right; lia|]. cbn [tcp_connect_loop].
  rewrite u16_small by lia. rewrite (ST_bind_run (gets _) _ _ _ _ eq_refl).
  destruct (tcp_lookup_local (Endpoint IPV4_ADDR_UNSPECIFIED port) n) as [j|] eqn:El.
  - destruct (IH (port + 1) n p E Hi) as [(q & Hq & Hn & Eq)|Hall]; [lia..| |].
    + left. exists q. split; [lia|]. done.
    + right. intros q Hq. destruct (Z.eq_dec q port) as [->|]; [congruence|]. apply Hall. lia.
  - left. exists port. split; [lia|]. split; [done|].
    rewrite (ST_bind_run _ _ _ _ _ (upd_pcb_run i _ n p E)). run.
    by rewrite bool_decide_eq_false_2.
Qed.

(** Fewer connections than ephemeral ports: one is free. *)
Lemma free_port n :
  ports_ok n -> (length (n_tcp_active n) < Z.to_nat (65535 - 49152 + 1))%nat ->
  exists q, 49152 <= q <= 65535 /\ tcp_lookup_local (Endpoint IPV4_ADDR_UNSPECIFIED q) n = None.
Proof.
  intros Hok Hlen.
  destruct (list_find (fun q => q ∉ port_of n <$> n_tcp_active n) (seqZ 49152 (65535 - 49152 + 1)))
    as [[k q]|] eqn:Ef.
  - apply list_find_Some in Ef as (Eq & Hq & _). apply lookup_seqZ in Eq as [-> Hk].
    exists (49152 + Z.of_nat k). split; [lia|]. by apply port_unused.
  - exfalso. apply list_find_None in Ef.
    assert (Hsub : seqZ 49152 (65535 - 49152 + 1) ⊆+ (port_of n <$> n_tcp_active n)).
    { apply NoDup_submseteq; [apply NoDup_seqZ|]. intros q Hq. rewrite Forall_forall in Ef.
      specialize (Ef q Hq). destruct (decide (q ∈ port_of n <$> n_tcp_active n)); [done|contradiction]. }
    apply submseteq_length in Hsub. rewrite length_seqZ, length_fmap in Hsub. lia.
Qed.

Lemma ports_ok_open n i p q da dp :
  ports_ok n -> n_tcp n !! i = Some p -> i ∉ n_tcp_active n ->
  tcp_lookup_local (Endpoint IPV4_ADDR_UNSPECIFIED q) n = None ->
  ports_ok (set_tcp_active (n_tcp_active n ++ [i]) (set_tcp (<[i := opened q da dp p]> (n_tcp n)) n)).
Proof.
  intros Hok E Hi Hq. pose proof (proj1 (port_unused n q _ Hok) Hq) as Hnq. destruct Hok as [Hp Ha Hd].
  assert (Hlt : (i < length (n_tcp n))%nat) by (by eapply lookup_lt_Some).
  set (n' := set_tcp_active _ _).
  assert (Ei : port_of n' i = q) by (unfold port_of; simpl; by rewrite list_lookup_insert_eq).
  assert (Ej : forall j, j ∈ n_tcp_active n -> port_of n' j = port_of n j).
  { intros j Hj. unfold port_of. simpl. rewrite list_lookup_insert_ne; [done|]. intros ->. done. }
  assert (Ef : port_of n' <$> n_tcp_active n = port_of n <$> n_tcp_active n).
  { apply list_fmap_ext. intros k j Hj. apply Ej. by apply list_elem_of_lookup_2 in Hj. }
  split; simpl.
  - intros j [Hj|Hj%list_elem_of_singleton]%elem_of_app.
    + rewrite list_lookup_insert_ne by (intros ->; done). by apply Hp.
    + subst j. rewrite list_lookup_insert_eq by done. by eexists.
  - apply NoDup_app. split_and!; [done| |apply NoDup_singleton].
    intros j Hj ->%list_elem_of_singleton. done.
  - rewrite fmap_app. simpl. rewrite Ef, Ei. apply NoDup_app. split_and!; [done| |apply NoDup_singleton].
    intros x Hx ->%list_elem_of_singleton. done.
Qed.

Lemma active_bound n : ports_ok n -> (length (n_tcp_active n) <= length (n_tcp n))%nat.
Proof.
  intros [Hp Ha _]. rewrite <- (length_seq (length (n_tcp n)) 0) at 1.
  apply submseteq_length, NoDup_submseteq; [done|]. intros j Hj. apply elem_of_seq.
  destruct (Hp j Hj) as (p & E & _). apply lookup_lt_Some in E. lia.
Qed.

(** Opening a connection always succeeds: it takes an ephemeral port no other connection
    uses, keeps all ports distinct, schedules a SYN, and from then on a packet for that port
    from that peer is handed to this connection and no other. *)
Theorem tcp_connect_correct n i p dst_addr dst_port :
  ports_ok n -> length (n_tcp n) = TCP_PCBS_MAX -> n_tcp n !! i = Some p -> i ∉ n_tcp_active n ->
  exists port n', tcp_connect i dst_addr dst_port n = Ok (OK, n') /\
    49152 <= port <= 65535 /\ port ∉ port_of n <$> n_tcp_active n /\
    n_tcp_active n' = n_tcp_active n ++ [i] /\ ports_ok n' /\
    (exists p', n_tcp n' !! i = Some p' /\ t_state p' = TCP_STATE_SYN_SENT /\
       has (t_pending_flags p') TCP_PEND_SYN = true) /\
    (forall local, tcp_lookup (Endpoint local port) (Endpoint dst_addr dst_port) n' = Some i).
Proof.
  intros Hok Hmax E Hi. assert (Hlt : (i < length (n_tcp n))%nat) by (by eapply lookup_lt_Some).
  pose proof (active_bound n Hok) as Hb.
  destruct (free_port n Hok) as (q0 & Hq0 & Hn0); [rewrite Hmax in Hb; unfold TCP_PCBS_MAX in Hb; lia|].
  destruct (tcp_connect_loop_run i dst_addr dst_port (Z.to_nat (65535 - 49152 + 1)) 49152 n p E Hi)
    as [(q & Hq & Hn & Eq)|Hall]; [lia..| |by destruct (Hall q0 ltac:(lia))].
  pose proof (proj1 (port_unused n q _ Hok) Hn) as Hnq.
  eexists q, _. split; [exact Eq|]. split; [lia|]. split; [done|]. split; [done|].
  split; [by apply ports_ok_open|]. split.
  { eexists. split; [by apply list_lookup_insert_eq|]. split; [done|]. simpl.
    change TCP_PEND_SYN with (2 ^ 2) at 2. rewrite has_bit_spec, Z.lor_spec by lia. apply orb_true_r. }
  intros local. unfold tcp_lookup. simpl.
  apply (find_pcb_snoc _ _ _ i (opened q dst_addr dst_port p)).
  - apply find_pcb_none. intros j pj Hj Ej.
    rewrite list_lookup_insert_ne in Ej by (intros ->; done).
    destruct Hok as [Hp _ _]. destruct (Hp j Hj) as (pj' & Ej' & Ea). rewrite Ej in Ej'. injection Ej' as <-.
    rewrite local_matches_port by done. destruct (Z.eqb_spec (ep_port (t_local pj)) q) as [Ep|]; [|done].
    exfalso. apply Hnq, list_elem_of_fmap. exists j. unfold port_of. by rewrite Ej.
  - by apply list_lookup_insert_eq.
  - rewrite local_matches_port by done. unfold remote_matches. simpl. by rewrite !Z.eqb_refl.
Qed.

(** A server whose first control block is connected for socket 0 and has received nothing. *)
Definition demo_pcb : tcp_pcb :=
  TcpPcb true TCP_STATE_ESTABLISHED 0 7 7 1001 TCP_RX_BUF_SIZE 65535
    (Endpoint 0 49152) (Endpoint 167772674 80) [mbuf_alloc] [mbuf_alloc] 0 0 (Some 0%nat).
Definition free_pcb : tcp_pcb :=
  TcpPcb false TCP_STATE_CLOSED 0 0 0 0 0 0 (Endpoint 0 0) (Endpoint 0 0) [] [] 0 0 None.
Definition demo_net : net :=
  Net demo_link [] [] (demo_pcb :: replicate 511 free_pcb) [0%nat] None (Dns None 0 [] 1)
    (Socket true 9 1 (Some 0%nat) :: replicate 255 (Socket false 0 0 None)).

(** The header of a data segment with this sequence number. *)
Definition data_header (seq : Z) : list Z := tcp_header 0 0 (hton32 seq) 0 TCP_ACK 0 0.

Lemma demo_conn_inv : conn_inv [104; 101; 108; 108; 111] 1001 0 [] 0 demo_net.
Proof.
  split; [|simpl; lia]. exists demo_pcb, 0%nat, (Socket true 9 1 (Some 0%nat)).
  assert (Hw : mbuf_wf [mbuf_alloc]) by (split; [done|by constructor; [apply mbuf_alloc_wf|]]).
  by split_and!.
Qed.


Lemma tcp_connect_correct_witness :
  exists port n', tcp_connect 1 167772674 443 demo_net = Ok (OK, n') /\ port <> 49152 /\
    tcp_lookup (Endpoint 167772687 port) (Endpoint 167772674 443) n' = Some 1%nat.
Proof.
  destruct (tcp_connect_correct demo_net 1 free_pcb 167772674 443) as (port & n' & E & _ & Hp & _ & _ & _ & Hl).
  - split.
    + intros j ->%list_elem_of_singleton. by exists demo_pcb.
    + apply NoDup_singleton.
    + apply NoDup_singleton.
  - reflexivity.
  - reflexivity.
  - intros H%list_elem_of_singleton. discriminate H.
  - exists port, n'. split; [exact E|]. split; [|apply Hl]. intros ->. apply Hp. by left.
Defined.
