(* ===== verification/Tcpip.v ===== *)
(** The TCP/IP server: reception of packets (ethernet.c, ipv4.c), sockets and the message
    loop (servers/tcpip/main.c). *)

From S2P Require Import Prelude Types Mbuf Link Net Tcp.

Definition TIMER_INTERVAL : Z := 100.
Definition SOCKETS_MAX : nat := 256.

(** ** Reception *)
Definition ipv4_receive (pkt : mbuf) : NST unit :=
  r ← lift_out (mbuf_read pkt sizeof_ipv4_header);
  let '(header, pkt) := r in
  if Z.of_nat (length header) <? sizeof_ipv4_header then mret tt
  else
    let header_len := Z.land (get8 0 header) 15 * 4 in
    pkt ← (if sizeof_ipv4_header <? header_len then
             r ← lift_out (mbuf_discard pkt (header_len - sizeof_ipv4_header)); mret r.2
           else mret pkt);
    let dst := ntoh32 (get32 16 header) in
    ours ← lift_link (device_dst_is_ours dst);
    if negb ours then mret tt
    else if ntoh16 (get16 2 header) <? header_len then mret tt
    else
      let payload_len := u16 (ntoh16 (get16 2 header) - header_len) in
      let pkt := mbuf_truncate pkt payload_len in
      if negb (mbuf_len pkt =? payload_len) then mret tt
      else
        let src := ntoh32 (get32 12 header) in
        let proto := get8 9 header in
        if proto =? IPV4_PROTO_UDP then udp_receive src pkt
        else if proto =? IPV4_PROTO_TCP then tcp_receive dst src pkt
        else mret tt.

Definition ethernet_receive (pkt : list Z) : NST unit :=
  r ← lift_out (mbuf_read (mbuf_new pkt) sizeof_ethernet_header);
  let '(header, m) := r in
  if negb (Z.of_nat (length header) =? sizeof_ethernet_header) then mret tt
  else
    let type := ntoh16 (get16 12 header) in
    if type =? ETHER_TYPE_ARP then lift_link (arp_receive m)
    else if type =? ETHER_TYPE_IPV4 then ipv4_receive m
    else mret tt.

(** ** Sockets *)
Definition sock_at (i : nat) : NST socket := getopt (fun n => n_sockets n !! i).
Definition upd_sock (i : nat) (f : socket -> socket) : NST unit :=
  _ ← sock_at i; modify (fun n => set_sockets (alter f i (n_sockets n)) n).

Definition alloc_socket : NST (option nat) :=
  i ← gets (fun n => first_free s_used 0 (n_sockets n));
  match i with
  | None => mret None
  | Some i => upd_sock i (fun s => Socket true (s_task s) (Z.of_nat i + 1) (s_tcp_pcb s)) ;; mret (Some i)
  end.

Definition lookup_socket (task sock : Z) : NST (option nat) :=
  if (sock <? 1) || (Z.of_nat SOCKETS_MAX <? sock) then mret None
  else
    s ← sock_at (Z.to_nat (sock - 1));
    if negb (s_used s) || negb (s_task s =? task) then mret None
    else mret (Some (Z.to_nat (sock - 1))).

Definition free_socket (i : nat) : NST unit :=
  s ← sock_at i;
  upd_sock i (fun s => Socket false (s_task s) (s_fd s) (s_tcp_pcb s)) ;;
  match s_tcp_pcb s with Some p => tcp_close p | None => undef end.

Fixpoint do_task_destroyed_loop (task : Z) (i n : nat) : NST unit :=
  match n with
  | O => mret tt
  | S n' =>
      s ← sock_at i;
      (if s_used s && (s_task s =? task) then free_socket i else mret tt) ;;
      do_task_destroyed_loop task (S i) n'
  end.
Definition do_task_destroyed (task : Z) : NST unit := do_task_destroyed_loop task 0 SOCKETS_MAX.

(** ** Messages

    The requests of the main loop with their fields (libs/common/ipcstub.h).  A buffer
    comes with its length field: the code takes the client's word for it. *)
Inductive request :=
| NotifyTimer
| NetRecv (payload : list Z) (payload_len : Z)
| TaskDestroyed (src task : Z)
| DnsResolve (src : Z) (hostname : list Z)
| Connect (src dst_addr dst_port : Z)
| Write (src sock : Z) (data : list Z) (data_len : Z)
| Read (src sock : Z)
| Close (src sock : Z)
| Unknown.

Definition READ_DATA_MAX : Z := 1024.

(** [len] bytes of a buffer: more than it has is an access behind the message. *)
Definition buffer (data : list Z) (len : Z) : NST (list Z) :=
  if Z.of_nat (length data) <? len then undef else mret (take (Z.to_nat len) data).

Definition do_connect (src dst_addr dst_port : Z) : NST unit :=
  s ← alloc_socket;
  pcb ← tcp_new s;
  match pcb with
  | None => undef
  | Some p =>
      err ← tcp_connect p dst_addr dst_port;
      match s with
      | None => undef
      | Some i =>
          if negb (err =? OK) then
            upd_sock i (fun s => Socket false (s_task s) (s_fd s) (s_tcp_pcb s)) ;;
            send (ErrReply src err)
          else
            upd_sock i (fun s => Socket (s_used s) src (s_fd s) (Some p)) ;;
            s ← sock_at i;
            send (ConnectReply src (s_fd s))
      end
  end.

(** A request on an open socket of the client. *)
Definition with_socket (src sock : Z) (f : nat -> NST unit) : NST unit :=
  i ← lookup_socket src sock;
  match i with
  | None => send (ErrReply src ERR_INVALID_ARG)
  | Some i =>
      s ← sock_at i;
      match s_tcp_pcb s with Some p => f p | None => undef end
  end.

Definition handle_message (r : request) : NST unit :=
  match r with
  | NotifyTimer => mret tt
  | NetRecv payload payload_len =>
      pkt ← buffer payload payload_len;
      ethernet_receive pkt ;; dhcp_receive ;; dns_receive
  | TaskDestroyed src task => if negb (src =? 1) then mret tt else do_task_destroyed task
  | DnsResolve src hostname => _ ← dns_query hostname src; mret tt
  | Connect src dst_addr dst_port => do_connect src dst_addr dst_port
  | Write src sock data data_len =>
      with_socket src sock (fun p =>
        bs ← buffer data data_len; tcp_write p bs ;; send (WriteReply src))
  | Read src sock =>
      with_socket src sock (fun p => bs ← tcp_read p READ_DATA_MAX; send (ReadReply src bs))
  | Close src sock =>
      i ← lookup_socket src sock;
      match i with
      | None => send (ErrReply src ERR_INVALID_ARG)
      | Some i => free_socket i ;; send (CloseReply src)
      end
  | Unknown => mret tt
  end.

(** One round of the main loop. *)
Definition main_round (r : request) : NST unit := tcp_flush ;; handle_message r.
Fixpoint main_loop (rs : list request) : NST unit :=
  match rs with
  | [] => mret tt
  | r :: rs' => main_round r ;; main_loop rs'
  end.

(** Until the DHCP lease arrives only packets are handled. *)
Definition init_message (r : request) : NST unit :=
  match r with
  | NetRecv payload payload_len =>
      pkt ← buffer payload payload_len; ethernet_receive pkt ;; dhcp_receive
  | _ => mret tt
  end.
Definition tcpip_init (macaddr : list Z) : NST unit :=
  lift_link (device_init macaddr) ;; dns_init ;; dhcp_init ;; device_enable_dhcp.

(** ** Lemmas *)
#[local] Arguments swap16 : simpl never.
#[local] Arguments swap32 : simpl never.
#[local] Arguments ntoh16 : simpl never.
#[local] Arguments ntoh32 : simpl never.
#[local] Arguments hton16 : simpl never.
#[local] Arguments hton32 : simpl never.
#[local] Arguments u32 : simpl never.
#[local] Arguments u16 : simpl never.

Lemma lift_link_run {A} (f : LST A) a l n : f (n_link n) = Ok (a, l) -> lift_link f n = Ok (a, set_link l n).
Proof. unfold lift_link. by intros ->. Qed.

Lemma ntoh_hton16 x : 0 <= x < 2 ^ 16 -> ntoh16 (le_combine (le_split 2 (hton16 x))) = x.
Proof. intros. rewrite get_le2 by apply swap16_range. by apply swap16_involutive. Qed.
Lemma ntoh_hton32 x : 0 <= x < 2 ^ 32 -> ntoh32 (le_combine (le_split 4 (hton32 x))) = x.
Proof. intros. rewrite get_le4 by apply swap32_range. by apply swap32_involutive. Qed.

Lemma checksum_update_mbuf_ok m c : Forall seg_wf m -> exists c', checksum_update_mbuf c m = Ok c'.
Proof.
  intros Hw. revert c. induction Hw as [|s m Hs Hm IH]; intros c; simpl; [eauto|].
  rewrite mbuf_len_one_wf, seg_read_bytes by (done || destruct Hs; lia). apply IH.
Qed.

Lemma length_ipv4_header len proto ck src dst : length (ipv4_header len proto ck src dst) = 20%nat.
Proof. done. Qed.

(** Reading a fixed-size header from the front of a packet. *)
Lemma read_header m h rest (k : Z) :
  mbuf_wf m -> mbuf_bytes m = h ++ rest -> Z.of_nat (length h) = k ->
  exists m', mbuf_read m k = Ok (h, m') /\ mbuf_wf m' /\ mbuf_bytes m' = rest.
Proof.
  intros Hw Hb Hk. destruct (mbuf_read_spec m k Hw ltac:(lia)) as (m' & E & Hw' & Hb'). exists m'.
  rewrite Hb in E, Hb'. replace (Z.to_nat k) with (length h) in * by lia.
  rewrite take_app_length in E. rewrite drop_app_length in Hb'. done.
Qed.

(** *** From one host to another

    A packet of the IPv4 layer reaches the upper layer of the destination unchanged. *)
Section EndToEnd.
Context (l : link) (dst proto nh : Z) (mac : list Z) (l1 : link) (payload : mbuf).
Context (Hinit : d_initialized (l_dev l) = true) (Hmac : length mac = MACADDR_LEN)
  (Hsmac : length (d_macaddr (l_dev l)) = MACADDR_LEN)
  (Hip : 0 <= d_ipaddr (l_dev l) < 2 ^ 32) (Hdst : 0 <= dst < 2 ^ 32)
  (Hnh : device_get_next_hop dst l = Ok (nh, l)) (Hnh0 : nh <> IPV4_ADDR_UNSPECIFIED)
  (Harp : arp_resolve nh l = Ok (Some mac, l1))
  (Hpay : Forall seg_wf payload)
  (Hlen : sizeof_ethernet_header + sizeof_ipv4_header + Z.of_nat (length (mbuf_bytes payload)) <= NET_PAYLOAD_MAX).

Let total : Z := sizeof_ipv4_header + Z.of_nat (length (mbuf_bytes payload)).

Lemma ipv4_transmit_run :
  exists ck, ipv4_transmit dst proto payload l = Ok (tt,
    emit (NetSend (frame mac (d_macaddr (l_dev l)) ETHER_TYPE_IPV4
      (ipv4_header (hton16 total) proto ck (hton32 (d_ipaddr (l_dev l))) (hton32 dst) ++ mbuf_bytes payload))) l1).
Proof.
  unfold ipv4_transmit, sizeof_ethernet_header, sizeof_ipv4_header, NET_PAYLOAD_MAX in *.
  rewrite mbuf_len_bytes by (done || lia). rewrite (u32_small (20 + _)), u16_small by lia.
  rewrite (ST_bind_run _ _ _ (d_ipaddr (l_dev l)) l) by (unfold device_get_ipaddr; run; by rewrite Hinit).
  cbv zeta. eexists.
  match goal with |- context [mbuf_new ?h] => destruct (append_header h payload Hpay) as (pkt & E & [Hne Hw] & Hb) end.
  rewrite (ST_bind_run _ _ _ _ _ (lift_out_ok _ _ _ E)). unfold ethernet_transmit.
  rewrite (transmit_resolved 1 ETHER_TYPE_IPV4 dst pkt l nh mac l1); try done; [by rewrite Hb|].
  rewrite Hb, length_app, length_ipv4_header. unfold sizeof_ethernet_header, NET_PAYLOAD_MAX. lia.
Qed.

(** Reception at the host that has the address. *)
Lemma ethernet_receive_ipv4 ck n :
  d_initialized (l_dev (n_link n)) = true -> d_ipaddr (l_dev (n_link n)) = dst ->
  exists pkt, mbuf_wf pkt /\ mbuf_bytes pkt = mbuf_bytes payload /\
  ethernet_receive (frame mac (d_macaddr (l_dev l)) ETHER_TYPE_IPV4
    (ipv4_header (hton16 total) proto ck (hton32 (d_ipaddr (l_dev l))) (hton32 dst) ++ mbuf_bytes payload)) n
  = (if proto =? IPV4_PROTO_UDP then udp_receive (d_ipaddr (l_dev l)) pkt
     else if proto =? IPV4_PROTO_TCP then tcp_receive dst (d_ipaddr (l_dev l)) pkt
     else mret tt) n.
Proof.
  intros Hi Ha. set (iph := ipv4_header _ _ _ _ _). set (eh := ethernet_header mac (d_macaddr (l_dev l)) (hton16 ETHER_TYPE_IPV4)).
  destruct (mbuf_new_spec (frame mac (d_macaddr (l_dev l)) ETHER_TYPE_IPV4 (iph ++ mbuf_bytes payload))) as (Hw & Hb & _).
  assert (Heh : length eh = 14%nat).
  { unfold eh, ethernet_header. by rewrite !length_app, Hmac, Hsmac, length_le_split. }
  destruct (read_header _ eh (iph ++ mbuf_bytes payload) sizeof_ethernet_header Hw Hb) as (m1 & E1 & Hw1 & Hb1).
  { by rewrite Heh. }
  destruct (read_header m1 iph (mbuf_bytes payload) sizeof_ipv4_header Hw1 Hb1 eq_refl) as (m2 & E2 & Hw2 & Hb2).
  assert (Htot : 0 <= total < 2 ^ 16).
  { unfold total, sizeof_ethernet_header, sizeof_ipv4_header, NET_PAYLOAD_MAX in *. lia. }
  set (len := Z.of_nat (length (mbuf_bytes payload))) in *.
  destruct (Hw2) as [Hne2 Hs2].
  destruct (mbuf_truncate_spec m2 len Hs2 ltac:(lia)) as (Hs3 & Hne3 & Hb3).
  assert (Eb3 : mbuf_bytes (mbuf_truncate m2 len) = mbuf_bytes payload).
  { rewrite Hb2 in Hb3. destruct Hb3 as [->|[-> _]]; [|done]. apply take_ge. lia. }
  exists (mbuf_truncate m2 len). split; [split; auto|]. split; [done|].
  unfold ethernet_receive. rewrite (ST_bind_run _ _ _ _ _ (lift_out_ok _ _ _ E1)). cbv beta iota zeta.
  rewrite Heh. change (negb (Z.of_nat 14 =? sizeof_ethernet_header)) with false. cbv iota.
  assert (Et : get16 12 eh = le_combine (le_split 2 (hton16 ETHER_TYPE_IPV4))).
  { unfold get16, eh, ethernet_header. rewrite app_assoc, drop_app_length' by (by rewrite length_app, Hmac, Hsmac). done. }
  rewrite Et, ntoh_hton16 by done. change (ETHER_TYPE_IPV4 =? ETHER_TYPE_ARP) with false. cbv iota.
  rewrite Z.eqb_refl. unfold ipv4_receive.
  rewrite (ST_bind_run _ _ _ _ _ (lift_out_ok _ _ _ E2)). cbv beta iota zeta.
  change (Z.of_nat (length iph) <? sizeof_ipv4_header) with false. cbv iota.
  change (get8 0 iph) with 69. change (Z.land 69 15 * 4) with 20.
  change (sizeof_ipv4_header <? 20) with false. cbv iota.
  rewrite (ST_bind_run (mret m2) _ _ _ _ eq_refl).
  change (get32 16 iph) with (le_combine (le_split 4 (hton32 dst))).
  change (get32 12 iph) with (le_combine (le_split 4 (hton32 (d_ipaddr (l_dev l))))).
  change (get16 2 iph) with (le_combine (le_split 2 (hton16 total))).
  rewrite !ntoh_hton32, !ntoh_hton16 by done.
  rewrite (ST_bind_run _ _ _ true n).
  2: { rewrite (lift_link_run _ true (n_link n)); [by destruct n|].
       unfold device_dst_is_ours. run. by rewrite Hi, Ha, Z.eqb_refl. }
  cbn [negb]. destruct (Z.ltb_spec total 20); [unfold total, sizeof_ipv4_header in *; lia|].
  replace (u16 (total - 20)) with len by (rewrite u16_small; unfold total, sizeof_ipv4_header in *; lia).
  rewrite mbuf_len_bytes by (done || (rewrite Eb3; fold len; unfold total, sizeof_ipv4_header in *; lia)).
  rewrite Eb3. fold len. rewrite Z.eqb_refl. cbn [negb].
  change (get8 9 iph) with (proto + 256 * 0). by rewrite Z.mul_0_r, Z.add_0_r.
Qed.
End EndToEnd.

(** What [udp_receive] makes of a datagram. *)
Lemma udp_receive_run src pkt sp dp len ck rest n j q :
  mbuf_wf pkt -> mbuf_bytes pkt = udp_header (hton16 sp) (hton16 dp) len ck ++ rest -> 0 <= dp < 2 ^ 16 ->
  udp_lookup dp n = Some j -> n_udp n !! j = Some q ->
  exists m, mbuf_bytes m = rest /\ udp_receive src pkt n = Ok (tt,
    set_udp (<[j := UdpPcb (u_in_use q) (u_local q) (u_rx q ++ [Datagram src dp m]) (u_tx q)]> (n_udp n)) n).
Proof.
  intros Hw Hb Hdp El Eq.
  destruct (read_header pkt _ rest sizeof_udp_header Hw Hb eq_refl) as (m & E & _ & Hm).
  exists m. split; [done|]. unfold udp_receive. rewrite (ST_bind_run _ _ _ _ _ (lift_out_ok _ _ _ E)).
  cbv beta iota zeta. set (h := udp_header _ _ _ _).
  change (negb (Z.of_nat (length h) =? sizeof_udp_header)) with false. cbv iota.
  change (get16 2 h) with (le_combine (le_split 2 (hton16 dp))). rewrite ntoh_hton16 by done.
  rewrite (ST_bind_run (gets _) _ _ _ _ eq_refl), El.
  unfold upd_udp, udp_at. run. rewrite Eq. by rewrite (alter_insert _ _ _ q Eq).
Qed.

Lemma udp_transmit_run n i p dg rest nh mac l1 :
  n_udp n !! i = Some p -> u_tx p = dg :: rest ->
  d_initialized (l_dev (n_link n)) = true -> length mac = MACADDR_LEN ->
  length (d_macaddr (l_dev (n_link n))) = MACADDR_LEN ->
  device_get_next_hop (dg_addr dg) (n_link n) = Ok (nh, n_link n) -> nh <> IPV4_ADDR_UNSPECIFIED ->
  arp_resolve nh (n_link n) = Ok (Some mac, l1) -> Forall seg_wf (dg_payload dg) ->
  sizeof_ethernet_header + sizeof_ipv4_header + sizeof_udp_header
    + Z.of_nat (length (mbuf_bytes (dg_payload dg))) <= NET_PAYLOAD_MAX ->
  exists ck pkt, Forall seg_wf pkt /\
    mbuf_bytes pkt = udp_header (hton16 (ep_port (u_local p))) (hton16 (dg_port dg))
      (hton16 (sizeof_udp_header + Z.of_nat (length (mbuf_bytes (dg_payload dg))))) ck ++ mbuf_bytes (dg_payload dg) /\
    udp_transmit i n = lift_link (ipv4_transmit (dg_addr dg) IPV4_PROTO_UDP pkt)
      (set_udp (<[i := UdpPcb (u_in_use p) (u_local p) (u_rx p) rest]> (n_udp n)) n).
Proof.
  intros Ep Etx Hi Hmac Hsmac Hnh Hnh0 Harp Hpay Hlen.
  unfold sizeof_ethernet_header, sizeof_ipv4_header, sizeof_udp_header, NET_PAYLOAD_MAX in *.
  destruct (checksum_update_mbuf_ok (dg_payload dg) checksum_init Hpay) as (c & Ec).
  set (n1 := set_udp (<[i := UdpPcb (u_in_use p) (u_local p) (u_rx p) rest]> (n_udp n)) n).
  unfold udp_transmit. rewrite (ST_bind_run _ _ _ p n) by (unfold udp_at; run; by rewrite Ep). rewrite Etx.
  rewrite (ST_bind_run _ _ _ tt n1).
  2: { unfold upd_udp, udp_at. run. rewrite Ep. by rewrite (alter_insert _ _ _ p Ep). }
  cbv zeta. rewrite (ST_bind_run _ _ _ _ _ (lift_out_ok _ _ _ Ec)).
  rewrite (ST_bind_run _ _ _ (d_ipaddr (l_dev (n_link n))) n1).
  2: { unfold lift_link, device_get_ipaddr. run. by rewrite Hi. }
  rewrite mbuf_len_bytes by (done || lia).
  unfold sizeof_udp_header. rewrite (u32_small (8 + _)), (u16_small (8 + _)) by lia.
  eexists. match goal with |- context [mbuf_new ?h] =>
    destruct (append_header h (dg_payload dg) Hpay) as (pkt & E & [_ Hw] & Hb) end.
  exists pkt. split; [done|]. split; [exact Hb|].
  by rewrite (ST_bind_run _ _ _ _ _ (lift_out_ok _ _ _ E)).
Qed.


(** The second host, 10.0.2.3, with a socket bound to port 53. *)
Definition demo_host : net :=
  Net (Link (Device true true [2; 0; 0; 0; 0; 9] 167772675 167772674 4294967040) [] 7 [])
    [UdpPcb true (Endpoint 0 53) [] []] [0%nat] [] [] None (Dns None 0 [] 1) [].
(** The first host with a datagram to send; the address of the second is in its ARP table. *)
Definition demo_sender : net :=
  Net (Link (l_dev demo_link) [ArpEntry true true 167772675 [2; 0; 0; 0; 0; 9] [] 3] 7 [])
    [UdpPcb true (Endpoint 0 3535) [] [Datagram 167772675 53 (mbuf_new [97; 98; 99])]] [0%nat]
    [] [] None (Dns (Some 0%nat) 0 [] 1) [].


(** *** Sockets and their owners *)
Definition sock_ok (n : net) : Prop :=
  length (n_sockets n) = SOCKETS_MAX /\
  forall i s, n_sockets n !! i = Some s -> s_used s = true ->
    exists p pcb, s_tcp_pcb s = Some p /\ n_tcp n !! p = Some pcb.

Definition released (s : socket) : socket := Socket false (s_task s) (s_fd s) (s_tcp_pcb s).
Definition owned_by (task : Z) (s : socket) : bool := s_used s && (s_task s =? task).

Lemma free_socket_run i s p pcb n :
  n_sockets n !! i = Some s -> s_tcp_pcb s = Some p -> n_tcp n !! p = Some pcb ->
  free_socket i n = Ok (tt, set_sockets (<[i := released s]> (n_sockets n))
    (set_tcp (<[p := t_with_in_use false pcb]> (n_tcp n))
      (set_tcp_active (filter (fun j => j <> p) (n_tcp_active n)) n))).
Proof.
  intros E Ep Epcb. unfold free_socket, upd_sock, sock_at, tcp_close, upd_pcb, pcb_at. run.
  rewrite E. simpl. rewrite E. simpl. rewrite Ep, (alter_insert _ _ _ s E). simpl. rewrite Epcb. simpl.
  by rewrite (alter_insert _ _ _ pcb Epcb).
Qed.

(** What a loop over the sockets from [i] on has done: those of the task are released, the
    others and their connections are as before. *)
Record released_from (task : Z) (i : nat) (n n' : net) : Prop := {
  rf_sockets : forall j, n_sockets n' !! j =
    (fun s => if (i <=? j)%nat && owned_by task s then released s else s) <$> n_sockets n !! j;
  rf_pcbs : forall p, (forall j s, n_sockets n !! j = Some s -> (i <= j)%nat -> owned_by task s = true -> s_tcp_pcb s <> Some p) ->
    n_tcp n' !! p = n_tcp n !! p /\ (p ∈ n_tcp_active n' <-> p ∈ n_tcp_active n);
  rf_closed : forall j s p, n_sockets n !! j = Some s -> (i <= j)%nat -> owned_by task s = true -> s_tcp_pcb s = Some p ->
    p ∉ n_tcp_active n' /\ t_in_use <$> n_tcp n' !! p = Some false;
  rf_stays : forall p, p ∉ n_tcp_active n -> t_in_use <$> n_tcp n !! p = Some false ->
    p ∉ n_tcp_active n' /\ t_in_use <$> n_tcp n' !! p = Some false;
}.

Lemma sock_ok_free i s p pcb n :
  sock_ok n -> n_sockets n !! i = Some s -> n_tcp n !! p = Some pcb ->
  sock_ok (set_sockets (<[i := released s]> (n_sockets n))
    (set_tcp (<[p := t_with_in_use false pcb]> (n_tcp n))
      (set_tcp_active (filter (fun j => j <> p) (n_tcp_active n)) n))).
Proof.
  intros [Hl Hs] E Ep. split; [simpl; by rewrite length_insert|]. simpl. intros j t Ej Hu.
  destruct (decide (i = j)) as [->|Hne].
  { rewrite list_lookup_insert_eq in Ej by (by eapply lookup_lt_Some). by simplify_eq. }
  rewrite list_lookup_insert_ne in Ej by done. destruct (Hs j t Ej Hu) as (q & pq & Eq & Epq).
  exists q. destruct (decide (p = q)) as [->|].
  - rewrite list_lookup_insert_eq by (by eapply lookup_lt_Some). eauto.
  - rewrite list_lookup_insert_ne by done. eauto.
Qed.

#[local] Arguments Nat.leb : simpl never.

Lemma owned_step task i j s :
  (j <> i) -> (S i <=? j)%nat && owned_by task s = (i <=? j)%nat && owned_by task s.
Proof. intros. destruct (Nat.leb_spec (S i) j), (Nat.leb_spec i j); done || lia. Qed.

Lemma released_from_skip task i n n' s :
  n_sockets n !! i = Some s -> owned_by task s = false ->
  released_from task (S i) n n' -> released_from task i n n'.
Proof.
  intros E Ho [Hs Hp Hc Ht]. split; [| | |done].
  - intros j. rewrite Hs. destruct (decide (j = i)) as [->|Hne].
    + rewrite E. simpl. by rewrite Ho, !andb_false_r.
    + destruct (n_sockets n !! j); simpl; [|done]. by rewrite owned_step.
  - intros p H. apply Hp. intros j t Ej Hj. apply (H j); [done|lia].
  - intros j t p Ej Hj Hot. destruct (decide (j = i)) as [->|]; [simplify_eq; congruence|].
    apply (Hc j t p Ej); [lia|done].
Qed.

Lemma released_from_free task i n n' s p pcb :
  n_sockets n !! i = Some s -> owned_by task s = true -> s_tcp_pcb s = Some p -> n_tcp n !! p = Some pcb ->
  released_from task (S i) (set_sockets (<[i := released s]> (n_sockets n))
    (set_tcp (<[p := t_with_in_use false pcb]> (n_tcp n))
      (set_tcp_active (filter (fun j => j <> p) (n_tcp_active n)) n))) n' ->
  released_from task i n n'.
Proof.
  intros E Ho Ep Epcb. assert (Hi : (i < length (n_sockets n))%nat) by (by eapply lookup_lt_Some).
  assert (Hlp : (p < length (n_tcp n))%nat) by (by eapply lookup_lt_Some).
  set (n1 := set_sockets _ _). intros [Hs Hp Hc Ht]. split.
  - intros j. rewrite Hs. simpl. destruct (decide (j = i)) as [->|Hne].
    + rewrite list_lookup_insert_eq, E by done. simpl. rewrite Ho, (leb_correct i i) by done.
      by destruct (S i <=? i)%nat eqn:Eb; [apply Nat.leb_le in Eb; lia|].
    + rewrite list_lookup_insert_ne by done. destruct (n_sockets n !! j); simpl; [|done]. by rewrite owned_step.
  - intros q H. assert (Hne : p <> q) by (intros <-; by apply (H i s E)).
    destruct (Hp q) as [Hq1 Hq2].
    { simpl. intros j t Ej Hj Hot. rewrite list_lookup_insert_ne in Ej by lia. apply (H j t Ej); [lia|done]. }
    rewrite Hq1, Hq2. simpl. rewrite list_lookup_insert_ne by done. split; [done|].
    rewrite list_elem_of_filter. naive_solver.
  - intros j t q Ej Hj Hot Eq. destruct (decide (j = i)) as [->|Hne].
    + simplify_eq. apply Ht; simpl.
      * rewrite list_elem_of_filter. naive_solver.
      * by rewrite list_lookup_insert_eq.
    + apply (Hc j t q); [|lia|done|done]. simpl. by rewrite list_lookup_insert_ne.
  - intros q Hq Hu. apply Ht; simpl.
    + rewrite list_elem_of_filter. naive_solver.
    + destruct (decide (p = q)) as [->|]; [by rewrite list_lookup_insert_eq|by rewrite list_lookup_insert_ne].
Qed.

Lemma do_task_destroyed_loop_run task k : forall i n,
  sock_ok n -> (i + k = length (n_sockets n))%nat ->
  exists n', do_task_destroyed_loop task i k n = Ok (tt, n') /\ released_from task i n n'.
Proof.
  induction k as [|k IH]; intros i n Hok Hk; cbn [do_task_destroyed_loop].
  { exists n. split; [done|]. split; try done.
    - intros j. destruct (n_sockets n !! j) eqn:E; [|done]. apply lookup_lt_Some in E.
      simpl. by destruct (Nat.leb_spec i j); [lia|].
    - intros j s p E Hj. apply lookup_lt_Some in E. lia. }
  destruct (lookup_lt_is_Some_2 (n_sockets n) i ltac:(lia)) as [s E].
  rewrite (ST_bind_run _ _ _ s n) by (unfold sock_at; run; by rewrite E).
  fold (owned_by task s). destruct (owned_by task s) eqn:Ho.
  - destruct Hok as [Hl Hs]. apply andb_true_iff in Ho as Ho'.
    destruct (Hs i s E (proj1 Ho')) as (p & pcb & Ep & Epcb).
    rewrite (ST_bind_run _ _ _ _ _ (free_socket_run i s p pcb n E Ep Epcb)).
    destruct (IH (S i) _ (sock_ok_free i s p pcb n (conj Hl Hs) E Epcb)) as (n' & -> & Hr).
    { simpl. rewrite length_insert. lia. }
    exists n'. split; [done|]. by eapply released_from_free.
  - destruct (IH (S i) n Hok ltac:(lia)) as (n' & E' & Hr). exists n'.
    rewrite (ST_bind_run (mret tt) _ _ _ _ eq_refl). split; [done|]. by eapply released_from_skip.
Qed.


