(* ===== verification/VmServer.v ===== *)
(** The VM server (servers/vm): the boot file system (bootfs.c), the task table and the
    services (task.c), the allocation of address space (pm.c), demand paging
    (page_fault.c) and the request loop (main.c).

    The server is a client of the kernel through the class [VmKernel]: the system calls it
    makes, and a store through its own page table.  [VmKernelSpec] states what the calls
    promise, in terms of what the tasks' pages translate to and what the frames hold.

    The task structures the server allocates are cells of a heap ([v_heap]); [free] removes
    the cell, and an access through a pointer to a removed cell is [Undef].  An allocation
    of the library's heap does not fail here (Malloc.v).  Strings are lists of characters
    without the terminator; what a message or a file entry holds is an array, whose string
    ends at the first zero. *)

From S2P Require Import Prelude Types.

Definition SERVICE_NAME_LEN : nat := 64.
Definition VALLOC_BASE : Z := 536870912 (* 0x20000000 *).
Definition VALLOC_END : Z := 1073741824 (* 0x40000000 *).
Definition ELF_MAGIC : list Z := [127; 69; 76; 70].
Definition ET_EXEC : Z := 2.
Definition PT_LOAD : Z := 1.
Definition PF_R : Z := Z.shiftl 1 2.
Definition PF_W : Z := Z.shiftl 1 1.
Definition PF_X : Z := Z.shiftl 1 0.
Definition BOOTFS_NAME_LEN : nat := 56.
Definition sizeof_bootfs_file : Z := 64.
Definition sizeof_phdr : Z := 32.
Definition SPAWN_NAME_LEN : nat := 32.

(** ** The kernel as the server sees it *)
Class VmKernel (K : Type) := {
  k_task_create : list Z -> Z -> Z -> K -> Z * K;
  k_task_destroy : Z -> K -> Z * K;
  k_pm_alloc : Z -> Z -> Z -> K -> Z * K;
  k_vm_map : Z -> Z -> Z -> Z -> K -> Z * K;
  k_vm_unmap : Z -> Z -> K -> Z * K;
  (** A store of bytes from an address on, by a task; [None] if a page is not mapped. *)
  k_store : Z -> Z -> list Z -> K -> option K;
}.

(** ** Data *)
Record bootfs_file := BootfsFile { bf_name : list Z; bf_offset : Z; bf_len : Z }.
Record elf_phdr := Phdr {
  p_type : Z; p_offset : Z; p_vaddr : Z; p_filesz : Z; p_memsz : Z; p_flags : Z }.
Record service := Service { sv_name : list Z; sv_task : Z }.
Record vtask := VTask {
  vt_tid : Z; vt_pager : Z; vt_name : list Z; vt_file_header : list Z; vt_file : bootfs_file;
  vt_valloc_next : Z; vt_waiting_for : list Z; vt_watch_tasks : bool }.

(** A message the server sends: at once ([ipc_reply]) or as an asynchronous message. *)
Inductive vm_action :=
| VmReply (dst type : Z) (args : list Z)
| VmAsync (dst type : Z) (args : list Z).

Inductive vm_request :=
| RPing (src value : Z)
| RTimer
| RWatchTasks (src : Z)
| RServiceLookup (src : Z) (name : list Z)
| RServiceRegister (src : Z) (name : list Z)
| RSpawnTask (src : Z) (name : list Z)
| RDestroyTask (src task : Z)
| RVmMapPhysical (src paddr size map_flags : Z)
| RVmAllocPhysical (src size alloc_flags map_flags : Z)
| RException (src task reason : Z)
| RPageFault (src task uaddr ip fault : Z)
| RUnknown (src type : Z).

(** ** ELF headers, in the first page of a file *)
Definition e_type (h : list Z) : Z := get16 16 h.
Definition e_entry (h : list Z) : Z := get32 24 h.
Definition e_phoff (h : list Z) : Z := get32 28 h.
Definition e_phnum (h : list Z) : Z := get16 44 h.

(** [task->phdrs[i]]: [e_phoff] is not checked, a header outside of the page is outside of
    the allocation. *)
Definition phdr_at (h : list Z) (i : nat) : outcome elf_phdr :=
  let off := e_phoff h + sizeof_phdr * Z.of_nat i in
  if off + sizeof_phdr <=? Z.of_nat (length h)
  then let b := drop (Z.to_nat off) h in
       Ok (Phdr (get32 0 b) (get32 4 b) (get32 8 b) (get32 16 b) (get32 20 b) (get32 24 b))
  else Undef.

Section Server.
Context {K : Type} `{VmKernel K}.
(** The embedded image ([__bootfs]), the address of the static [tmp_page], the server's
    task id, and what the stack holds where the code does not initialise it. *)
Variable image : list Z.
Variable tmp_page : Z.
Variable self : Z.
Variable garbage : Z * Z.

Record vms := Vms {
  v_kernel : K;
  v_heap : gmap nat vtask;
  v_brk : nat;
  v_tasks : list (option nat);
  v_services : list service;
  v_files : Z;
  v_num_files : Z;
  v_out : list vm_action }.
Abbreviation VST := (ST vms).
Definition vset_kernel x v := Vms x (v_heap v) (v_brk v) (v_tasks v) (v_services v) (v_files v) (v_num_files v) (v_out v).
Definition vset_heap x v := Vms (v_kernel v) x (v_brk v) (v_tasks v) (v_services v) (v_files v) (v_num_files v) (v_out v).
Definition vset_brk x v := Vms (v_kernel v) (v_heap v) x (v_tasks v) (v_services v) (v_files v) (v_num_files v) (v_out v).
Definition vset_tasks x v := Vms (v_kernel v) (v_heap v) (v_brk v) x (v_services v) (v_files v) (v_num_files v) (v_out v).
Definition vset_services x v := Vms (v_kernel v) (v_heap v) (v_brk v) (v_tasks v) x (v_files v) (v_num_files v) (v_out v).
Definition vset_files x n v := Vms (v_kernel v) (v_heap v) (v_brk v) (v_tasks v) (v_services v) x n (v_out v).
Definition vset_out x v := Vms (v_kernel v) (v_heap v) (v_brk v) (v_tasks v) (v_services v) (v_files v) (v_num_files v) x.

Definition vsend (a : vm_action) : VST unit := modify (fun v => vset_out (v_out v ++ [a]) v).
Definition vcall (f : K -> Z * K) : VST Z := fun v =>
  let '(r, k) := f (v_kernel v) in Ok (r, vset_kernel k v).
Definition assert_ok (r : Z) : VST unit := assert (negb (IS_ERROR r)).
Definition vt_at (p : nat) : VST vtask := getopt (fun v => v_heap v !! p).
Definition upd_vt (p : nat) (f : vtask -> vtask) : VST unit :=
  t ← vt_at p; modify (fun v => vset_heap (<[p := f t]> (v_heap v)) v).

Definition with_waiting x t := VTask (vt_tid t) (vt_pager t) (vt_name t) (vt_file_header t) (vt_file t) (vt_valloc_next t) x (vt_watch_tasks t).
Definition with_watch x t := VTask (vt_tid t) (vt_pager t) (vt_name t) (vt_file_header t) (vt_file t) (vt_valloc_next t) (vt_waiting_for t) x.
Definition with_valloc x t := VTask (vt_tid t) (vt_pager t) (vt_name t) (vt_file_header t) (vt_file t) x (vt_waiting_for t) (vt_watch_tasks t).

(** ** bootfs.c *)
Definition image_bytes (off len : Z) : outcome (list Z) :=
  if (0 <=? off) && (off + len <=? Z.of_nat (length image))
  then Ok (take (Z.to_nat len) (drop (Z.to_nat off) image)) else Undef.

Definition bootfs_read (file : bootfs_file) (off len : Z) : outcome (list Z) :=
  image_bytes (u32 (bf_offset file + off)) len.

Definition bootfs_open_iter (index : Z) : VST (option bootfs_file) :=
  v ← get;
  if v_num_files v <=? index then mret None
  else
    b ← lift_out (image_bytes (v_files v + sizeof_bootfs_file * index) sizeof_bootfs_file);
    mret (Some (BootfsFile (take BOOTFS_NAME_LEN b) (get32 56 b) (get32 60 b))).

(** The search from entry [index] on, at most [n] entries left. *)
Fixpoint bootfs_open_loop (n : nat) (index : Z) (path : list Z) : VST (option bootfs_file) :=
  file ← bootfs_open_iter index;
  match file, n with
  | Some f, S n' =>
      if str_eqn BOOTFS_NAME_LEN (bf_name f) path then mret (Some f)
      else bootfs_open_loop n' (index + 1) path
  | _, _ => mret None
  end.
Definition bootfs_open (path : list Z) : VST (option bootfs_file) :=
  v ← get; bootfs_open_loop (Z.to_nat (v_num_files v)) 0 path.

Definition bootfs_init : VST unit :=
  h ← lift_out (image_bytes 0 8);
  modify (vset_files (get16 2 h) (get16 4 h)).

(** ** task.c *)
Definition vm_task_find (tid : Z) : VST (option nat) :=
  if (tid <=? 0) || (NUM_TASKS_MAX <? tid) then panic
  else getopt (fun v => v_tasks v !! Z.to_nat (tid - 1)).

(** The first free address above the segments: the program headers from [i] on. *)
Fixpoint valloc_start (h : list Z) (i n : nat) (valloc_next : Z) : outcome Z :=
  match n with
  | O => Ok valloc_next
  | S n' =>
      phdr ← phdr_at h i;
      if negb (p_type phdr =? PT_LOAD) then valloc_start h (S i) n' valloc_next
      else
        let end_ := ALIGN_UP (u32 (p_vaddr phdr + p_memsz phdr)) PAGE_SIZE in
        valloc_start h (S i) n' (Z.max valloc_next end_)
  end.

Definition vm_task_spawn (file : bootfs_file) : VST Z :=
  header ← lift_out (bootfs_read file 0 PAGE_SIZE);
  if negb (bool_decide (take 4 header = ELF_MAGIC)) then mret ERR_INVALID_ARG
  else if negb (e_type header =? ET_EXEC) then mret ERR_INVALID_ARG
  else if 32 <? e_phnum header then mret ERR_INVALID_ARG
  else
    tid ← vcall (k_task_create (until_nul (bf_name file)) (e_entry header) self);
    if IS_ERROR tid then mret tid
    else
      valloc_next ← lift_out (valloc_start header 0 (Z.to_nat (e_phnum header)) VALLOC_BASE);
      assert ((VALLOC_BASE <=? valloc_next) && (valloc_next <? VALLOC_END)) ;;
      let t := VTask tid self (str_copy (Z.to_nat TASK_NAME_LEN) (bf_name file)) header file valloc_next [] false in
      p ← gets v_brk;
      modify (fun v => vset_heap (<[p := t]> (v_heap v)) (vset_brk (S p) v)) ;;
      _ ← getopt (fun v => v_tasks v !! Z.to_nat (tid - 1));
      modify (fun v => vset_tasks (<[Z.to_nat (tid - 1) := Some p]> (v_tasks v)) v) ;;
      mret tid.

(** Tell the tasks that watch the others: the slots from [i] on. *)
Fixpoint notify_watchers (tid : Z) (i n : nat) : VST unit :=
  match n with
  | O => mret tt
  | S n' =>
      slot ← getopt (fun v => v_tasks v !! i);
      match slot with
      | None => mret tt
      | Some p =>
          server ← vt_at p;
          if vt_watch_tasks server then vsend (VmAsync (vt_tid server) TASK_DESTROYED_MSG [tid]) else mret tt
      end ;;
      notify_watchers tid (S i) n'
  end.

(** The slot it clears is the server's own. *)
Definition vm_task_destroy (p : nat) : VST unit :=
  t ← vt_at p;
  notify_watchers (vt_tid t) 0 (Z.to_nat NUM_TASKS_MAX) ;;
  _ ← vcall (k_task_destroy (vt_tid t));
  modify (fun v => vset_heap (delete p (v_heap v)) v) ;;
  modify (fun v => vset_tasks (<[Z.to_nat (self - 1) := None]> (v_tasks v)) v).

Fixpoint task_destroy_by_tid_loop (tid : Z) (i n : nat) : VST Z :=
  match n with
  | O => mret ERR_NOT_FOUND
  | S n' =>
      slot ← getopt (fun v => v_tasks v !! i);
      match slot with
      | None => task_destroy_by_tid_loop tid (S i) n'
      | Some p =>
          t ← vt_at p;
          if vt_tid t =? tid then vm_task_destroy p ;; mret OK
          else task_destroy_by_tid_loop tid (S i) n'
      end
  end.
Definition task_destroy_by_tid (tid : Z) : VST Z := task_destroy_by_tid_loop tid 0 (Z.to_nat NUM_TASKS_MAX).

(** Answer the tasks that wait for a service: the slots from [i] on. *)
Fixpoint answer_waiters (name : list Z) (server : Z) (i n : nat) : VST unit :=
  match n with
  | O => mret tt
  | S n' =>
      slot ← getopt (fun v => v_tasks v !! i);
      match slot with
      | None => mret tt
      | Some p =>
          t ← vt_at p;
          if str_eq (vt_waiting_for t) name then
            vsend (VmReply (vt_tid t) SERVICE_LOOKUP_REPLY_MSG [server]) ;; upd_vt p (with_waiting [])
          else mret tt
      end ;;
      answer_waiters name server (S i) n'
  end.
Definition service_register (p : nat) (name : list Z) : VST unit :=
  t ← vt_at p;
  modify (fun v => vset_services (v_services v ++ [Service (str_copy SERVICE_NAME_LEN name) (vt_tid t)]) v) ;;
  answer_waiters name (vt_tid t) 0 (Z.to_nat NUM_TASKS_MAX).

Fixpoint find_service (name : list Z) (l : list service) : option Z :=
  match l with
  | [] => None
  | s :: l' => if str_eq (sv_name s) name then Some (sv_task s) else find_service name l'
  end.
Definition service_lookup_or_wait (p : nat) (name : list Z) : VST Z :=
  l ← gets v_services;
  match find_service name l with
  | Some task => mret task
  | None => upd_vt p (with_waiting (str_copy SERVICE_NAME_LEN name)) ;; mret ERR_WOULD_BLOCK
  end.

(** Only console output, but every slot is followed. *)
Fixpoint service_dump_loop (i n : nat) : VST unit :=
  match n with
  | O => mret tt
  | S n' =>
      slot ← getopt (fun v => v_tasks v !! i);
      match slot with
      | None => mret tt
      | Some p => _ ← vt_at p; mret tt
      end ;;
      service_dump_loop (S i) n'
  end.
Definition service_dump : VST unit := service_dump_loop 0 (Z.to_nat NUM_TASKS_MAX).

(** ** pm.c *)
Definition valloc (p : nat) (size : Z) : VST Z :=
  t ← vt_at p;
  if VALLOC_END <=? vt_valloc_next t then mret 0
  else
    upd_vt p (with_valloc (u32 (vt_valloc_next t + ALIGN_UP size PAGE_SIZE))) ;;
    mret (vt_valloc_next t).

(** The pages from [offset] on, [n] left. *)
Fixpoint map_loop (tid uaddr paddr map_flags offset : Z) (n : nat) : VST Z :=
  match n with
  | O => mret OK
  | S n' =>
      err ← vcall (k_vm_map tid (u32 (uaddr + offset)) (u32 (paddr + offset)) map_flags);
      if negb (err =? OK) then mret err
      else map_loop tid uaddr paddr map_flags (offset + PAGE_SIZE) n'
  end.

(** The result, and what [*uaddr] holds. *)
Definition vm_map_pages (p : nat) (size map_flags paddr : Z) : VST (Z * Z) :=
  assert (IS_ALIGNED size PAGE_SIZE) ;;
  uaddr ← valloc p size;
  if uaddr =? 0 then mret (ERR_NO_RESOURCES, uaddr)
  else
    t ← vt_at p;
    err ← map_loop (vt_tid t) uaddr paddr map_flags 0 (Z.to_nat (size / PAGE_SIZE));
    mret (err, uaddr).

(** The result, and what [*paddr] and [*uaddr] hold. *)
Definition vm_alloc_pages (p : nat) (size alloc_flags map_flags : Z) : VST (Z * Z * Z) :=
  t ← vt_at p;
  pfn ← vcall (k_pm_alloc (vt_tid t) size (Z.lor (Z.lor alloc_flags PM_ALLOC_ALIGNED) PM_ALLOC_ZEROED));
  if IS_ERROR pfn then mret (pfn, fst garbage, snd garbage)
  else
    let paddr := PFN2PADDR pfn in
    '(err, uaddr) ← vm_map_pages p size map_flags paddr;
    mret (err, paddr, uaddr).

(** ** page_fault.c *)

(** The loaded segment over a page: the program headers from [i] on. *)
Fixpoint find_segment (h : list Z) (i n : nat) (uaddr : Z) : outcome (option elf_phdr) :=
  match n with
  | O => Ok None
  | S n' =>
      phdr ← phdr_at h i;
      if negb (p_type phdr =? PT_LOAD) then find_segment h (S i) n' uaddr
      else
        let end_ := u32 (p_vaddr phdr + p_memsz phdr) in
        if (p_vaddr phdr <=? uaddr) && (uaddr <? end_) then Ok (Some phdr)
        else find_segment h (S i) n' uaddr
  end.

Definition segment_attrs (flags : Z) : Z :=
  Z.lor (Z.lor (if has flags PF_R then PAGE_READABLE else 0) (if has flags PF_W then PAGE_WRITABLE else 0))
        (if has flags PF_X then PAGE_EXECUTABLE else 0).

(** Fill the new frame from the file, through [tmp_page]. *)
Definition fill_page (file : bootfs_file) (phdr : elf_phdr) (offset paddr : Z) : VST unit :=
  r ← vcall (k_vm_unmap self tmp_page); assert_ok r ;;
  r ← vcall (k_vm_map self tmp_page paddr (Z.lor PAGE_READABLE PAGE_WRITABLE)); assert_ok r ;;
  bytes ← lift_out (bootfs_read file (u32 (p_offset phdr + offset)) (Z.min PAGE_SIZE (p_filesz phdr - offset)));
  k ← getopt (fun v => k_store self tmp_page bytes (v_kernel v));
  modify (vset_kernel k).

Definition vm_handle_page_fault (p : nat) (uaddr fault : Z) : VST Z :=
  if uaddr <? PAGE_SIZE then mret ERR_NOT_ALLOWED
  else
    let uaddr := ALIGN_DOWN uaddr PAGE_SIZE in
    if has fault PAGE_FAULT_PRESENT then mret ERR_NOT_ALLOWED
    else
      t ← vt_at p;
      seg ← lift_out (find_segment (vt_file_header t) 0 (Z.to_nat (e_phnum (vt_file_header t))) uaddr);
      match seg with
      | None => mret ERR_INVALID_ARG
      | Some phdr =>
          pfn ← vcall (k_pm_alloc (vt_tid t) PAGE_SIZE 0);
          if IS_ERROR pfn then mret pfn
          else
            let paddr := PFN2PADDR pfn in
            let offset := u32 (uaddr - p_vaddr phdr) in
            (if offset <? p_filesz phdr then fill_page (vt_file t) phdr offset paddr else mret tt) ;;
            assert (p_filesz phdr <=? p_memsz phdr) ;;
            r ← vcall (k_vm_map (vt_tid t) uaddr paddr (segment_attrs (p_flags phdr)));
            assert_ok r ;;
            mret OK
      end.

(** ** main.c *)

(** Is [name] one of the words of [BOOT_SERVERS]?  [fuel] bounds the words left. *)
Fixpoint skip_word (l : list Z) : list Z :=
  match l with c :: l' => if c =? 32 then l else skip_word l' | [] => [] end.
Fixpoint skip_spaces (l : list Z) : list Z :=
  match l with c :: l' => if c =? 32 then skip_spaces l' else l | [] => [] end.
Fixpoint is_startup (fuel : nat) (name startups : list Z) : bool :=
  match fuel, startups with
  | O, _ | _, [] => false
  | S fuel', _ =>
      if bool_decide (take (length name) startups = name)
         && match startups !! length name with None => true | Some c => c =? 32 end
      then true
      else is_startup fuel' name (skip_spaces (skip_word startups))
  end.

Fixpoint spawn_servers_loop (startups : list Z) (i : Z) (n : nat) : VST unit :=
  match n with
  | O => mret tt
  | S n' =>
      file ← bootfs_open_iter i;
      match file with
      | None => mret tt
      | Some f =>
          (if is_startup (length startups) (until_nul (bf_name f)) startups
           then r ← vm_task_spawn f; assert_ok r else mret tt) ;;
          spawn_servers_loop startups (i + 1) n'
      end
  end.
Definition spawn_servers (startups : list Z) : VST unit :=
  v ← get; spawn_servers_loop startups 0 (Z.to_nat (v_num_files v)).

Definition vm_init (startups : list Z) : VST unit := bootfs_init ;; spawn_servers startups.

(** [task_find] and the ASSERT behind it. *)
Definition task_of (tid : Z) : VST nat :=
  p ← vm_task_find tid; match p with Some p => mret p | None => panic end.

Definition vm_handle_message (r : vm_request) : VST unit :=
  match r with
  | RPing src value => vsend (VmReply src PING_REPLY_MSG [value])
  | RTimer => service_dump
  | RWatchTasks src =>
      p ← task_of src; upd_vt p (with_watch true) ;;
      vsend (VmReply src WATCH_TASKS_REPLY_MSG [])
  | RServiceLookup src name =>
      p ← task_of src;
      server ← service_lookup_or_wait p (str_copy SERVICE_NAME_LEN name);
      if server =? ERR_WOULD_BLOCK then mret tt
      else vsend (VmReply src SERVICE_LOOKUP_REPLY_MSG [server])
  | RServiceRegister src name =>
      p ← task_of src;
      service_register p (str_copy SERVICE_NAME_LEN name) ;;
      vsend (VmReply src SERVICE_REGISTER_REPLY_MSG [])
  | RSpawnTask src name =>
      file ← bootfs_open (str_copy SPAWN_NAME_LEN name);
      match file with
      | None => vsend (VmReply src ERR_NOT_FOUND [])
      | Some f =>
          task ← vm_task_spawn f;
          if IS_ERROR task then vsend (VmReply src task [])
          else vsend (VmReply src SPAWN_TASK_REPLY_MSG [task])
      end
  | RDestroyTask src task =>
      _ ← task_destroy_by_tid task; vsend (VmReply src DESTROY_TASK_REPLY_MSG [])
  | RVmMapPhysical src paddr size map_flags =>
      p ← task_of src;
      '(_, uaddr) ← vm_map_pages p size map_flags paddr;
      vsend (VmReply src VM_MAP_PHYSICAL_MSG [uaddr])
  | RVmAllocPhysical src size alloc_flags map_flags =>
      p ← task_of src;
      '(_, paddr, uaddr) ← vm_alloc_pages p size alloc_flags map_flags;
      vsend (VmReply src VM_ALLOC_PHYSICAL_REPLY_MSG [uaddr; paddr])
  | RException src task reason =>
      if negb (src =? FROM_KERNEL) then mret tt
      else
        slot ← vm_task_find task;
        match slot with
        | None => mret tt
        | Some p =>
            if reason =? EXP_GRACE_EXIT then vm_task_destroy p ;; _ ← vt_at p; mret tt
            else if reason =? EXP_INVALID_UADDR then _ ← vt_at p; mret tt
            else mret tt
        end
  | RPageFault src task uaddr ip fault =>
      if negb (src =? FROM_KERNEL) then mret tt
      else
        p ← task_of task;
        t ← vt_at p;
        assert (vt_pager t =? self) ;; assert (task =? vt_tid t) ;;
        err ← vm_handle_page_fault p uaddr fault;
        if IS_ERROR err then vm_task_destroy p
        else t ← vt_at p; vsend (VmReply (vt_tid t) PAGE_FAULT_REPLY_MSG [])
  | RUnknown _ _ => mret tt
  end.

Fixpoint vm_main_loop (rs : list vm_request) : VST unit :=
  match rs with
  | [] => mret tt
  | r :: rs' => vm_handle_message r ;; vm_main_loop rs'
  end.
End Server.

Arguments vms : clear implicits.

(** ** What the kernel promises

    [translation k t u]: the frame and attributes of the page [u] of task [t];
    [frame k p]: the contents of the frame [p]; [manages k s t]: [s] is [t] or its pager;
    [may_map k t p]: [t] may map the frame [p]; [free k n]: at least [n] pages of RAM are
    free.  A call that fails changes none of this. *)
Class VmKernelSpec (K : Type) `{VmKernel K} := {
  translation : K -> Z -> Z -> option (Z * Z);
  frame_of : K -> Z -> list Z;
  manages : K -> Z -> Z -> Prop;
  may_map : K -> Z -> Z -> Prop;
  free_ram : K -> nat -> Prop;

  frame_length k p : length (frame_of k p) = Z.to_nat PAGE_SIZE;
  free_ram_le k n m : (m <= n)%nat -> free_ram k n -> free_ram k m;

  k_pm_alloc_spec k t size flags r k' :
    k_pm_alloc t size flags k = (r, k') -> 0 < size -> size `mod` PAGE_SIZE = 0 ->
    (forall s u, translation k' s u = translation k s u) /\
    (forall s p, may_map k s p -> may_map k' s p) /\
    (forall s s', manages k s s' -> manages k' s s') /\
    (IS_ERROR r = false ->
       0 <= r /\ r * PAGE_SIZE + size <= 2 ^ 32 /\
       (forall p, r * PAGE_SIZE <= p < r * PAGE_SIZE + size -> p `mod` PAGE_SIZE = 0 ->
          frame_of k' p = replicate (Z.to_nat PAGE_SIZE) 0 /\
          (forall s u a, translation k s u <> Some (p, a)) /\
          (forall s, manages k s t -> may_map k' s p)) /\
       (forall p, ~ r * PAGE_SIZE <= p < r * PAGE_SIZE + size -> frame_of k' p = frame_of k p));
  k_pm_alloc_progress k t flags n :
    manages k t t -> free_ram k (S n) -> Z.land flags (Z.lnot (Z.lor PM_ALLOC_ZEROED PM_ALLOC_ALIGNED)) = 0 ->
    IS_ERROR (fst (k_pm_alloc t PAGE_SIZE flags k)) = false /\
    free_ram (snd (k_pm_alloc t PAGE_SIZE flags k)) n;

  k_vm_map_spec k t u p a r k' :
    k_vm_map t u p a k = (r, k') ->
    (forall q, frame_of k' q = frame_of k q) /\
    (forall s q, may_map k s q -> may_map k' s q) /\
    (forall s s', manages k s s' -> manages k' s s') /\
    (forall s v, (s, v) <> (t, u) -> translation k' s v = translation k s v) /\
    ((r = OK /\ translation k t u = None /\ translation k' t u = Some (p, a)) \/
     (IS_ERROR r = true /\ translation k' t u = translation k t u));
  k_vm_map_progress k t u p a n :
    translation k t u = None -> may_map k t p -> u `mod` PAGE_SIZE = 0 -> p `mod` PAGE_SIZE = 0 ->
    arch_is_mappable_uaddr u = true ->
    Z.land a (Z.lnot (Z.lor (Z.lor PAGE_WRITABLE PAGE_READABLE) PAGE_EXECUTABLE)) = 0 ->
    free_ram k (S n) ->
    fst (k_vm_map t u p a k) = OK /\ free_ram (snd (k_vm_map t u p a k)) n;

  k_vm_unmap_spec k t u p a n :
    translation k t u = Some (p, a) -> free_ram k n ->
    exists k', k_vm_unmap t u k = (OK, k') /\ free_ram k' n /\
      translation k' t u = None /\
      (forall s v, (s, v) <> (t, u) -> translation k' s v = translation k s v) /\
      (forall q, frame_of k' q = frame_of k q) /\
      (forall s q, may_map k s q -> may_map k' s q) /\
      (forall s s', manages k s s' -> manages k' s s');

  k_store_spec k t u p a bytes n :
    translation k t u = Some (p, a) -> has a PAGE_WRITABLE = true ->
    Z.of_nat (length bytes) <= PAGE_SIZE -> free_ram k n ->
    exists k', k_store t u bytes k = Some k' /\ free_ram k' n /\
      frame_of k' p = bytes ++ drop (length bytes) (frame_of k p) /\
      (forall q, q <> p -> frame_of k' q = frame_of k q) /\
      (forall s v, translation k' s v = translation k s v) /\
      (forall s q, may_map k s q -> may_map k' s q) /\
      (forall s s', manages k s s' -> manages k' s s');

  k_task_create_spec k name ip pager r k' :
    k_task_create name ip pager k = (r, k') -> IS_ERROR r = false -> 1 <= r <= NUM_TASKS_MAX;
}.

Section Proofs.
Context {K : Type} `{VmKernelSpec K}.
Variable image : list Z.
Variable tmp_page : Z.
Variable self : Z.
Variable garbage : Z * Z.
Implicit Types (v : vms K) (k : K).

Abbreviation page_fault := (vm_handle_page_fault image tmp_page self).
Abbreviation handle_message := (vm_handle_message image tmp_page self garbage).

Lemma vcall_run (f : K -> Z * K) v r k' :
  f (v_kernel v) = (r, k') -> vcall f v = Ok (r, vset_kernel k' v).
Proof. intros E. unfold vcall. by rewrite E. Qed.

Lemma PFN2PADDR_small r : 0 <= r -> r * PAGE_SIZE < 2 ^ 32 -> PFN2PADDR r = r * PAGE_SIZE.
Proof.
  unfold PFN2PADDR, PAGE_SIZE, PFN_OFFSET. intros Hr Hlt. rewrite (u32_small r) by lia.
  rewrite Z.shiftl_mul_pow2 by lia. change (2 ^ 12) with 4096. by rewrite u32_small by lia.
Qed.

Lemma segment_attrs_ok f :
  Z.land (segment_attrs f) (Z.lnot (Z.lor (Z.lor PAGE_WRITABLE PAGE_READABLE) PAGE_EXECUTABLE)) = 0.
Proof. unfold segment_attrs. by destruct (has f PF_R), (has f PF_W), (has f PF_X). Qed.

(** What a page of a segment holds when the program starts: the bytes of the file, and
    zeros behind them. *)
Definition segment_page (file : bootfs_file) (phdr : elf_phdr) (offset : Z) : list Z :=
  resize (Z.to_nat PAGE_SIZE) 0
    (take (Z.to_nat (p_filesz phdr - offset)) (drop (Z.to_nat (bf_offset file + p_offset phdr + offset)) image)).

(** The segment lies in the image. *)
Definition segment_ok (file : bootfs_file) (phdr : elf_phdr) : Prop :=
  0 <= bf_offset file /\ 0 <= p_offset phdr /\ 0 <= p_vaddr phdr /\ 0 <= p_filesz phdr <= p_memsz phdr /\
  p_vaddr phdr + p_memsz phdr < 2 ^ 32 /\
  bf_offset file + p_offset phdr + p_filesz phdr <= Z.of_nat (length image) < 2 ^ 32.

(** [fill_page] leaves the page's bytes in a zeroed frame. *)
Lemma fill_page_run v file phdr offset paddr n x :
  segment_ok file phdr -> 0 <= offset < p_filesz phdr ->
  translation (v_kernel v) self tmp_page = Some x -> may_map (v_kernel v) self paddr ->
  tmp_page `mod` PAGE_SIZE = 0 -> paddr `mod` PAGE_SIZE = 0 -> arch_is_mappable_uaddr tmp_page = true ->
  frame_of (v_kernel v) paddr = replicate (Z.to_nat PAGE_SIZE) 0 -> free_ram (v_kernel v) (S n) ->
  exists k', fill_page image tmp_page self file phdr offset paddr v = Ok (tt, vset_kernel k' v) /\
    free_ram k' n /\
    frame_of k' paddr = segment_page file phdr offset /\
    (forall q, q <> paddr -> frame_of k' q = frame_of (v_kernel v) q) /\
    (exists a, translation k' self tmp_page = Some (paddr, a)) /\
    (forall s u, (s, u) <> (self, tmp_page) -> translation k' s u = translation (v_kernel v) s u) /\
    (forall s q, may_map (v_kernel v) s q -> may_map k' s q).
Proof.
  intros Hseg Hoff Htr Hmay Htp Hpp Hmp Hz Hfree. destruct x as [p0 a0].
  destruct (k_vm_unmap_spec _ _ _ _ _ _ Htr Hfree) as (k1 & E1 & Hf1 & Ht1 & Ho1 & Hfr1 & Hm1 & _).
  destruct (k_vm_map self tmp_page paddr (Z.lor PAGE_READABLE PAGE_WRITABLE) k1) as [r2 k2] eqn:E2.
  destruct (k_vm_map_progress k1 self tmp_page paddr (Z.lor PAGE_READABLE PAGE_WRITABLE) n) as [Hr2 Hf2]; auto.
  rewrite E2 in Hr2, Hf2. cbn [fst snd] in Hr2, Hf2. subst r2.
  destruct (k_vm_map_spec _ _ _ _ _ _ _ E2) as (Hfr2 & Hm2 & _ & Ho2 & [(_ & _ & Ht2)|[? _]]); [|done].
  destruct Hseg as (? & ? & ? & ? & ? & ?).
  set (bytes := take (Z.to_nat (Z.min PAGE_SIZE (p_filesz phdr - offset)))
                  (drop (Z.to_nat (bf_offset file + p_offset phdr + offset)) image)).
  assert (Hlen : length bytes = Z.to_nat (Z.min PAGE_SIZE (p_filesz phdr - offset))).
  { unfold bytes, PAGE_SIZE. rewrite length_take, length_drop. lia. }
  destruct (k_store_spec k2 self tmp_page paddr _ bytes n Ht2 eq_refl) as (k3 & E3 & Hf3 & Hp3 & Hq3 & Ht3 & Hm3 & _);
    [unfold PAGE_SIZE in *; lia|done|].
  exists k3. split_and!; [|done| | | | |].
  - unfold fill_page. rewrite (ST_bind_run _ _ _ _ _ (vcall_run _ v _ _ E1)).
    rewrite (ST_bind_run _ _ _ tt (vset_kernel k1 v) eq_refl).
    rewrite (ST_bind_run _ _ _ _ _ (vcall_run _ (vset_kernel k1 v) _ _ E2)).
    rewrite (ST_bind_run _ _ _ tt (vset_kernel k2 v) eq_refl).
    assert (Er : bootfs_read image file (u32 (p_offset phdr + offset)) (Z.min PAGE_SIZE (p_filesz phdr - offset)) = Ok bytes).
    { unfold bootfs_read, image_bytes. rewrite (u32_small (p_offset phdr + offset)) by lia.
      rewrite u32_small, Z.add_assoc by lia.
      destruct (Z.leb_spec 0 (bf_offset file + p_offset phdr + offset)); [|lia].
      destruct (Z.leb_spec (bf_offset file + p_offset phdr + offset + Z.min PAGE_SIZE (p_filesz phdr - offset)) (Z.of_nat (length image))); [done|].
      unfold PAGE_SIZE in *; lia. }
    rewrite (ST_bind_run _ _ _ bytes (vset_kernel k2 v)) by (unfold lift_out; by rewrite Er).
    rewrite (ST_bind_run _ _ _ k3 (vset_kernel k2 v)); [done|].
    unfold getopt. cbn [v_kernel vset_kernel]. by rewrite E3.
  - rewrite Hp3, Hfr2, Hfr1, Hz. unfold segment_page, bytes.
    destruct (Z.le_gt_cases PAGE_SIZE (p_filesz phdr - offset)).
    + rewrite Z.min_l by done. rewrite resize_le.
      2: { rewrite length_take, length_drop. unfold PAGE_SIZE in *. lia. }
      rewrite take_take, Nat.min_l by lia.
      rewrite (drop_ge (replicate _ _)); [by rewrite app_nil_r|]. rewrite length_replicate, length_take, length_drop. unfold PAGE_SIZE in *. lia.
    + rewrite Z.min_r by lia. rewrite resize_ge.
      2: { rewrite length_take, length_drop. unfold PAGE_SIZE in *. lia. }
      f_equal. by rewrite drop_replicate.
  - intros q Hq. by rewrite Hq3, Hfr2, Hfr1.
  - eexists. by rewrite Ht3.
  - intros s u Hsu. by rewrite Ht3, Ho2, Ho1.
  - auto.
Qed.

(** The page lies in a loadable segment; the segment is the first such one of the image. *)
Definition covers (ph : elf_phdr) (page : Z) : Prop :=
  p_type ph = PT_LOAD /\ p_vaddr ph <= page < u32 (p_vaddr ph + p_memsz ph).
Definition first_segment (h : list Z) (page : Z) (seg : elf_phdr) : Prop :=
  exists i, (i < Z.to_nat (e_phnum h))%nat /\ phdr_at h i = Ok seg /\ covers seg page /\
    forall j, (j < i)%nat -> exists ph, phdr_at h j = Ok ph /\ ~ covers ph page.

Lemma find_segment_run h page seg : forall i s n,
  (i < n)%nat -> phdr_at h (s + i) = Ok seg -> covers seg page ->
  (forall j, (j < i)%nat -> exists ph, phdr_at h (s + j) = Ok ph /\ ~ covers ph page) ->
  find_segment h s n page = Ok (Some seg).
Proof.
  induction i as [|i IH]; intros s [|n] Hi Hs Hc Hb; try lia; cbn [find_segment].
  - rewrite Nat.add_0_r in Hs. rewrite Hs. cbn [mbind outcome_bind]. destruct Hc as [-> Hc]. rewrite Z.eqb_refl. cbn [negb].
    destruct (Z.leb_spec (p_vaddr seg) page), (Z.ltb_spec page (u32 (p_vaddr seg + p_memsz seg))); try lia. done.
  - assert (Hrest : find_segment h (S s) n page = Ok (Some seg)).
    { apply IH; [lia|by replace (S s + i)%nat with (s + S i)%nat by lia|done|].
      intros j Hj. replace (S s + j)%nat with (s + S j)%nat by lia. apply Hb. lia. }
    destruct (Hb 0%nat ltac:(lia)) as (ph & Hph & Hn). rewrite Nat.add_0_r in Hph. rewrite Hph. cbn [mbind outcome_bind].
    destruct (Z.eqb_spec (p_type ph) PT_LOAD) as [Ht|]; cbn [negb]; [|done].
    destruct (Z.leb_spec (p_vaddr ph) page), (Z.ltb_spec page (u32 (p_vaddr ph + p_memsz ph))); cbn [andb]; try done.
    exfalso. apply Hn. split; [done|lia].
Qed.
Lemma find_segment_first h page seg :
  first_segment h page seg -> find_segment h 0 (Z.to_nat (e_phnum h)) page = Ok (Some seg) /\ covers seg page.
Proof. intros (i & Hi & Hs & Hc & Hb). split; [|done]. by apply (find_segment_run h page seg i). Qed.

(** The rights of a page are those of the segment. *)
Definition rights (flags a : Z) : Prop :=
  has a PAGE_READABLE = has flags PF_R /\ has a PAGE_WRITABLE = has flags PF_W /\ has a PAGE_EXECUTABLE = has flags PF_X.
Lemma segment_attrs_rights flags : rights flags (segment_attrs flags).
Proof. unfold rights, segment_attrs. by destruct (has flags PF_R), (has flags PF_W), (has flags PF_X). Qed.

(** A fault the server can resolve: a task of its table, in whose segment [seg] the page
    lies, and enough memory for the page and two page tables. *)
Record fault_ready v (p : nat) (t : vtask) (page : Z) (seg : elf_phdr) : Prop := {
  fr_tid : 1 <= vt_tid t <= NUM_TASKS_MAX;
  fr_slot : v_tasks v !! Z.to_nat (vt_tid t - 1) = Some (Some p);
  fr_heap : v_heap v !! p = Some t;
  fr_pager : vt_pager t = self;
  fr_other : vt_tid t <> self;
  fr_seg : first_segment (vt_file_header t) page seg;
  fr_ok : segment_ok (vt_file t) seg;
  fr_tmp : exists x, translation (v_kernel v) self tmp_page = Some x;
  fr_tmp_page : tmp_page `mod` PAGE_SIZE = 0 /\ arch_is_mappable_uaddr tmp_page = true;
  fr_unmapped : translation (v_kernel v) (vt_tid t) page = None;
  fr_mappable : arch_is_mappable_uaddr page = true;
  fr_manages : manages (v_kernel v) self (vt_tid t) /\ manages (v_kernel v) (vt_tid t) (vt_tid t);
  fr_free : free_ram (v_kernel v) 3 }.

(** [vm_handle_page_fault] maps a new frame with the page's contents. *)
Lemma page_fault_run v p t uaddr fault seg :
  let page := ALIGN_DOWN uaddr PAGE_SIZE in
  fault_ready v p t page seg -> PAGE_SIZE <= uaddr -> has fault PAGE_FAULT_PRESENT = false ->
  exists f k', page_fault p uaddr fault v = Ok (OK, vset_kernel k' v) /\
    translation k' (vt_tid t) page = Some (f, segment_attrs (p_flags seg)) /\
    frame_of k' f = segment_page (vt_file t) seg (page - p_vaddr seg) /\
    (forall s u a, translation (v_kernel v) s u <> Some (f, a)) /\
    (forall s u, (s, u) <> (vt_tid t, page) -> (s, u) <> (self, tmp_page) ->
       translation k' s u = translation (v_kernel v) s u) /\
    (forall q, q `mod` PAGE_SIZE = 0 -> q <> f -> frame_of k' q = frame_of (v_kernel v) q).
Proof.
  intros page [Htid Hslot Hheap Hpg Hne Hseg Hok [x Htmp] [Htp Htm] Hun Hmap [Hma1 Hma2] Hfree] Hu Hp.
  apply find_segment_first in Hseg as [Hseg [_ Hb]].
  pose proof Hok as (? & ? & ? & ? & ? & ?). rewrite u32_small in Hb by lia.
  assert (Hal : page `mod` PAGE_SIZE = 0).
  { unfold page, PAGE_SIZE. change 4096 with (2 ^ 12). rewrite align_down_pow2 by lia. lia. }
  destruct (k_pm_alloc_progress (v_kernel v) (vt_tid t) 0 2 Hma2 Hfree eq_refl) as [Hr Hf1].
  destruct (k_pm_alloc (vt_tid t) PAGE_SIZE 0 (v_kernel v)) as [r k1] eqn:E1. cbn [fst snd] in *.
  destruct (k_pm_alloc_spec _ _ _ _ _ _ E1) as (Ht1 & Hm1 & _ & Hok1); [done|done|].
  destruct (Hok1 Hr) as (Hr0 & Hr1 & Hin & Hout). set (f := r * PAGE_SIZE) in *.
  assert (Hpfn : PFN2PADDR r = f) by (apply PFN2PADDR_small; unfold f, PAGE_SIZE in *; lia).
  assert (Hfal : f `mod` PAGE_SIZE = 0) by (unfold f, PAGE_SIZE; lia).
  destruct (Hin f) as (Hz & Hfresh & Hmay); [unfold PAGE_SIZE; lia|done|].
  set (v1 := vset_kernel k1 v).
  assert (Hoff : u32 (page - p_vaddr seg) = page - p_vaddr seg) by (apply u32_small; lia).
  assert (Hfill : exists k2,
    (if page - p_vaddr seg <? p_filesz seg then fill_page image tmp_page self (vt_file t) seg (page - p_vaddr seg) f else mret tt) v1
      = Ok (tt, vset_kernel k2 v) /\ free_ram k2 1 /\ frame_of k2 f = segment_page (vt_file t) seg (page - p_vaddr seg) /\
    (forall q, q <> f -> frame_of k2 q = frame_of k1 q) /\
    (forall s u, (s, u) <> (self, tmp_page) -> translation k2 s u = translation k1 s u) /\
    (forall s q, may_map k1 s q -> may_map k2 s q)).
  { destruct (Z.ltb_spec (page - p_vaddr seg) (p_filesz seg)).
    - destruct (fill_page_run v1 (vt_file t) seg (page - p_vaddr seg) f 1 x) as (k2 & ? & ? & ? & ? & _ & ? & ?); auto; [lia|by cbn; rewrite Ht1|].
      by exists k2.
    - exists k1. split_and!; auto.
      + by apply (free_ram_le _ 2); [lia|].
      + rewrite Hz. unfold segment_page. replace (Z.to_nat (p_filesz seg - _)) with 0%nat by lia.
        by rewrite take_0, resize_nil. }
  destruct Hfill as (k2 & Efill & Hf2 & Hfr2 & Hq2 & Ht2 & Hm2).
  assert (Hun2 : translation k2 (vt_tid t) page = None) by (rewrite Ht2, Ht1; [done|congruence]).
  destruct (k_vm_map_progress k2 (vt_tid t) page f (segment_attrs (p_flags seg)) 0) as [Hr3 _]; auto using segment_attrs_ok.
  destruct (k_vm_map (vt_tid t) page f (segment_attrs (p_flags seg)) k2) as [r3 k3] eqn:E3. cbn [fst] in Hr3. subst r3.
  destruct (k_vm_map_spec _ _ _ _ _ _ _ E3) as (Hfr3 & _ & _ & Ht3 & [(_ & _ & Hnew)|[? _]]); [|done].
  exists f, k3. split_and!; auto.
  - unfold vm_handle_page_fault. destruct (Z.ltb_spec uaddr PAGE_SIZE); [lia|]. rewrite Hp. fold page.
    rewrite (ST_bind_run _ _ _ t v) by (unfold vt_at, getopt; by rewrite Hheap).
    rewrite (ST_bind_run _ _ _ (Some seg) v) by (unfold lift_out; by rewrite Hseg).
    rewrite (ST_bind_run _ _ _ _ _ (vcall_run _ v _ _ E1)). rewrite Hr, Hpfn, Hoff.
    rewrite (ST_bind_run _ _ _ _ _ Efill).
    destruct (Z.leb_spec (p_filesz seg) (p_memsz seg)); [|lia].
    rewrite (ST_bind_run _ _ _ tt (vset_kernel k2 v) eq_refl).
    by rewrite (ST_bind_run _ _ _ _ _ (vcall_run _ (vset_kernel k2 v) _ _ E3)).
  - by rewrite Hfr3.
  - intros s u Hs1 Hs2. by rewrite Ht3, Ht2, Ht1.
  - intros q Hqa Hq. rewrite Hfr3, Hq2, Hout; [done| |done]. unfold f, PAGE_SIZE in *. lia.
Qed.

Lemma task_of_run v tid p :
  1 <= tid <= NUM_TASKS_MAX -> v_tasks v !! Z.to_nat (tid - 1) = Some (Some p) ->
  task_of tid v = Ok (p, v).
Proof.
  intros Ht Hs. unfold task_of, vm_task_find, mbind, ST_bind.
  destruct (Z.leb_spec tid 0); [lia|]. destruct (Z.ltb_spec NUM_TASKS_MAX tid); [lia|].
  cbn [orb]. unfold getopt. by rewrite Hs.
Qed.
Lemma vt_at_run v p t : v_heap v !! p = Some t -> vt_at p v = Ok (t, v).
Proof. intros Hh. unfold vt_at, getopt. by rewrite Hh. Qed.


(** ** The task table *)

(** Every slot in use points to the structure of the task with that id. *)
Record table_ok v : Prop := {
  tk_len : length (v_tasks v) = Z.to_nat NUM_TASKS_MAX;
  tk_slot : forall i p, v_tasks v !! i = Some (Some p) ->
    exists t, v_heap v !! p = Some t /\ vt_tid t = Z.of_nat i + 1 }.

(** The structure a slot points to. *)
Definition slot_task v (i : nat) : option vtask :=
  slot ← v_tasks v !! i; p ← slot; v_heap v !! p.
Definition known v (tid : Z) : Prop :=
  1 <= tid <= NUM_TASKS_MAX /\ exists p, v_tasks v !! Z.to_nat (tid - 1) = Some (Some p).

Lemma slot_task_at v i p t : v_tasks v !! i = Some (Some p) -> v_heap v !! p = Some t -> slot_task v i = Some t.
Proof. intros E1 E2. unfold slot_task. rewrite E1. simpl. done. Qed.

Lemma slot_inj v i j p :
  table_ok v -> v_tasks v !! i = Some (Some p) -> v_tasks v !! j = Some (Some p) -> i = j.
Proof.
  intros Hok Hi Hj. destruct (tk_slot _ Hok _ _ Hi) as (t & E & Ht), (tk_slot _ Hok _ _ Hj) as (t' & E' & Ht').
  rewrite E in E'. injection E' as <-. lia.
Qed.

(** Changing the structure of one slot, but not its id. *)
Lemma upd_vt_run v i p t (f : vtask -> vtask) :
  table_ok v -> v_tasks v !! i = Some (Some p) -> v_heap v !! p = Some t -> vt_tid (f t) = vt_tid t ->
  let v' := vset_heap (<[p := f t]> (v_heap v)) v in
  upd_vt p f v = Ok (tt, v') /\ table_ok v' /\
  (forall j, slot_task v' j = if decide (j = i) then Some (f t) else slot_task v j).
Proof.
  intros Hok Hi Hp Hf v'. split_and!.
  - unfold upd_vt. by rewrite (ST_bind_run _ _ _ _ _ (vt_at_run _ _ _ Hp)).
  - split; [apply Hok|]. intros j q Hj. cbn in Hj |- *. destruct (tk_slot _ Hok _ _ Hj) as (t' & E & Ht).
    destruct (decide (q = p)) as [->|Hne].
    + exists (f t). rewrite lookup_insert_eq. split; [done|]. rewrite Hf. congruence.
    + exists t'. by rewrite lookup_insert_ne.
  - intros j. unfold slot_task, v'. cbn. case_decide as E.
    + subst j. rewrite Hi. cbn. by rewrite lookup_insert_eq.
    + destruct (v_tasks v !! j) as [[q|]|] eqn:Ej; cbn; [|done..].
      rewrite lookup_insert_ne; [done|]. intros ->. by apply E, (slot_inj v _ _ q).
Qed.

Lemma known_slot v tid : table_ok v -> known v tid ->
  exists p t, v_tasks v !! Z.to_nat (tid - 1) = Some (Some p) /\ v_heap v !! p = Some t /\ vt_tid t = tid /\
    task_of tid v = Ok (p, v).
Proof.
  intros Hok [Hr [p Hp]]. destruct (tk_slot _ Hok _ _ Hp) as (t & E & Ht). exists p, t.
  split_and!; [done|done|lia|by apply task_of_run].
Qed.

(** ** Services *)

(** The ids of the tasks that wait for [name], in the order of the slots from [i] on. *)
Definition waits (name : list Z) (t : vtask) : bool := str_eq (vt_waiting_for t) name.
Fixpoint waiters v (name : list Z) (i n : nat) : list Z :=
  match n with
  | O => []
  | S n' => match slot_task v i with
            | Some t => if waits name t then [vt_tid t] else []
            | None => []
            end ++ waiters v name (S i) n'
  end.
Definition answered (name : list Z) (t : vtask) : vtask := if waits name t then with_waiting [] t else t.

Lemma waiters_ext v v' name i n :
  (forall j, (i <= j)%nat -> slot_task v' j = slot_task v j) -> waiters v' name i n = waiters v name i n.
Proof. revert i. induction n as [|n IH]; intros i Hs; [done|]. simpl. rewrite Hs, IH by (lia || (intros; apply Hs; lia)). done. Qed.

Lemma answer_waiters_run name server n : forall i v,
  table_ok v -> (i + n <= Z.to_nat NUM_TASKS_MAX)%nat ->
  exists v', answer_waiters name server i n v = Ok (tt, v') /\ table_ok v' /\
    v_tasks v' = v_tasks v /\ v_services v' = v_services v /\ v_kernel v' = v_kernel v /\
    v_out v' = v_out v ++ ((fun tid => VmReply tid SERVICE_LOOKUP_REPLY_MSG [server]) <$> waiters v name i n) /\
    (forall j, slot_task v' j = if decide (i <= j < i + n)%nat then answered name <$> slot_task v j else slot_task v j).
Proof.
  induction n as [|n IH]; intros i v Hok Hi.
  { exists v. split_and!; try done; [by rewrite app_nil_r|]. intros j. by rewrite decide_False by lia. }
  destruct (lookup_lt_is_Some_2 (v_tasks v) i) as [slot Hs]; [rewrite (tk_len _ Hok); lia|].
  cbn [answer_waiters]. rewrite (ST_bind_run _ _ _ slot v) by (unfold getopt; by rewrite Hs).
  assert (Hstep : exists v1,
    match slot with
    | Some p => t ← vt_at p; if str_eq (vt_waiting_for t) name then
        vsend (VmReply (vt_tid t) SERVICE_LOOKUP_REPLY_MSG [server]) ;; upd_vt p (with_waiting []) else mret tt
    | None => mret tt
    end v = Ok (tt, v1) /\ table_ok v1 /\ v_tasks v1 = v_tasks v /\ v_services v1 = v_services v /\ v_kernel v1 = v_kernel v /\
    v_out v1 = v_out v ++ ((fun tid => VmReply tid SERVICE_LOOKUP_REPLY_MSG [server]) <$>
      match slot_task v i with Some t => if waits name t then [vt_tid t] else [] | None => [] end) /\
    (forall j, slot_task v1 j = if decide (j = i) then answered name <$> slot_task v j else slot_task v j)).
  { destruct slot as [p|].
    - destruct (tk_slot _ Hok _ _ Hs) as (t & Hp & Ht). rewrite (slot_task_at _ _ _ _ Hs Hp).
      rewrite (ST_bind_run _ _ _ _ _ (vt_at_run _ _ _ Hp)). fold (waits name t). destruct (waits name t) eqn:Ew.
      + set (v0 := vset_out (v_out v ++ [VmReply (vt_tid t) SERVICE_LOOKUP_REPLY_MSG [server]]) v).
        rewrite (ST_bind_run _ _ _ tt v0 eq_refl).
        destruct (upd_vt_run v0 i p t (with_waiting [])) as (E & Hok' & Hst); [by destruct Hok; split|done..|].
        eexists. split; [exact E|]. split_and!; try done. intros j. rewrite Hst. case_decide; [|done]. subst j.
        rewrite (slot_task_at _ _ _ _ Hs Hp). cbn. unfold answered. by rewrite Ew.
      + exists v. split_and!; try done; [by rewrite app_nil_r|]. intros j. case_decide; [|done]. subst j.
        rewrite (slot_task_at _ _ _ _ Hs Hp). cbn. unfold answered. by rewrite Ew.
    - assert (slot_task v i = None) as Hn by (unfold slot_task; by rewrite Hs).
      exists v. rewrite Hn. split_and!; try done; [by rewrite app_nil_r|]. intros j. case_decide; [|done]. subst j. by rewrite Hn. }
  destruct Hstep as (v1 & E1 & Hok1 & Ht1 & Hsv1 & Hk1 & Ho1 & Hst1).
  rewrite (ST_bind_run _ _ _ _ _ E1).
  destruct (IH (S i) v1 Hok1) as (v2 & E2 & Hok2 & Ht2 & Hsv2 & Hk2 & Ho2 & Hst2); [lia|].
  exists v2. split_and!; [done|done|congruence|congruence|congruence| |].
  - rewrite Ho2, Ho1, <- app_assoc. f_equal. cbn [waiters]. rewrite fmap_app. f_equal. f_equal.
    apply waiters_ext. intros j Hj. rewrite Hst1. by rewrite decide_False by lia.
  - intros j. rewrite Hst2, Hst1. repeat case_decide; try done; lia.
Qed.

Lemma service_dump_run n : forall i v,
  table_ok v -> (i + n <= Z.to_nat NUM_TASKS_MAX)%nat -> service_dump_loop i n v = Ok (tt, v).
Proof.
  induction n as [|n IH]; intros i v Hok Hi; [done|].
  destruct (lookup_lt_is_Some_2 (v_tasks v) i) as [slot Hs]; [rewrite (tk_len _ Hok); lia|].
  cbn [service_dump_loop]. rewrite (ST_bind_run _ _ _ slot v) by (unfold getopt; by rewrite Hs).
  rewrite (ST_bind_run _ _ _ tt v); [apply IH; [done|lia]|].
  destruct slot as [p|]; [|done]. destruct (tk_slot _ Hok _ _ Hs) as (t & Hp & _).
  by rewrite (ST_bind_run _ _ _ _ _ (vt_at_run _ _ _ Hp)).
Qed.

(** The replies to a service lookup that task [a] got. *)
Definition lookup_reply_to (a : Z) (x : vm_action) : bool :=
  match x with VmReply d type _ => (d =? a) && (type =? SERVICE_LOOKUP_REPLY_MSG) | VmAsync _ _ _ => false end.
Definition lookup_replies (a : Z) (l : list vm_action) : list vm_action := List.filter (lookup_reply_to a) l.

Lemma lookup_replies_app a l l' : lookup_replies a (l ++ l') = lookup_replies a l ++ lookup_replies a l'.
Proof. apply List.filter_app. Qed.

(** The requests that concern services, from known tasks other than [a], none of which
    registers [name]. *)
Definition quiet (a : Z) (name : list Z) v (r : vm_request) : Prop :=
  match r with
  | RPing _ _ | RUnknown _ _ => True
  | RTimer => True
  | RWatchTasks src | RServiceLookup src _ => known v src /\ src <> a
  | RServiceRegister src nm => known v src /\ src <> a /\ str_copy SERVICE_NAME_LEN nm <> name
  | _ => False
  end.

Definition waiting v (a : Z) (name : list Z) : Prop :=
  exists t, slot_task v (Z.to_nat (a - 1)) = Some t /\ vt_waiting_for t = name.

Lemma find_service_app name l l' :
  find_service name (l ++ l') = match find_service name l with Some t => Some t | None => find_service name l' end.
Proof. induction l as [|s l IH]; simpl; [done|]. by destruct (str_eq (sv_name s) name). Qed.

Lemma waiters_lookup_replies v a name server i n :
  table_ok v -> (1 <= a) ->
  lookup_replies a ((fun tid => VmReply tid SERVICE_LOOKUP_REPLY_MSG [server]) <$> waiters v name i n) =
  if decide (i <= Z.to_nat (a - 1) < i + n)%nat then
    match slot_task v (Z.to_nat (a - 1)) with
    | Some t => if waits name t then [VmReply a SERVICE_LOOKUP_REPLY_MSG [server]] else []
    | None => []
    end
  else [].
Proof.
  intros Hok Ha. revert i. induction n as [|n IH]; intros i; [by rewrite decide_False by lia|].
  cbn [waiters]. rewrite fmap_app, lookup_replies_app, IH.
  destruct (decide (Z.to_nat (a - 1) = i)) as [<-|Hne].
  - rewrite (decide_False (P := (S _ <= _ < _)%nat)), decide_True, app_nil_r by lia.
    destruct (slot_task v _) as [t|] eqn:Es; [|done]. destruct (waits name t); [|done]. cbn.
    unfold slot_task in Es. destruct (v_tasks v !! _) as [[p|]|] eqn:Ep; try done. cbn in Es.
    destruct (tk_slot _ Hok _ _ Ep) as (t' & E & Ht). rewrite Es in E. injection E as <-.
    replace (vt_tid t) with a by lia. by rewrite Z.eqb_refl.
  - assert (lookup_replies a ((fun tid => VmReply tid SERVICE_LOOKUP_REPLY_MSG [server]) <$>
      match slot_task v i with Some t => if waits name t then [vt_tid t] else [] | None => [] end) = []) as ->.
    { destruct (slot_task v i) as [t|] eqn:Es; [|done]. destruct (waits name t); [|done]. cbn.
      unfold slot_task in Es. destruct (v_tasks v !! i) as [[p|]|] eqn:Ep; try done. cbn in Es.
      destruct (tk_slot _ Hok _ _ Ep) as (t' & E & Ht). rewrite Es in E. injection E as <-.
      by destruct (Z.eqb_spec (vt_tid t) a); [lia|]. }
    cbn [app]. case_decide; case_decide; try done; lia.
Qed.

(** [service_register] answers the waiting tasks. *)
Lemma service_register_run v src p t nm :
  table_ok v -> v_tasks v !! Z.to_nat (src - 1) = Some (Some p) -> v_heap v !! p = Some t -> vt_tid t = src ->
  let name := str_copy SERVICE_NAME_LEN nm in
  exists v', service_register p name v = Ok (tt, v') /\ table_ok v' /\ v_tasks v' = v_tasks v /\
    v_services v' = v_services v ++ [Service name src] /\ v_kernel v' = v_kernel v /\
    v_out v' = v_out v ++ ((fun tid => VmReply tid SERVICE_LOOKUP_REPLY_MSG [src]) <$> waiters v name 0 (Z.to_nat NUM_TASKS_MAX)) /\
    (forall j, slot_task v' j = answered name <$> slot_task v j).
Proof.
  intros Hok Hs Hp Ht name. unfold service_register. rewrite (ST_bind_run _ _ _ _ _ (vt_at_run _ _ _ Hp)).
  rewrite Ht. unfold name. rewrite str_copy_idem. fold name.
  set (v1 := vset_services (v_services v ++ [Service name src]) v).
  rewrite (ST_bind_run _ _ _ tt v1 eq_refl).
  destruct (answer_waiters_run name src (Z.to_nat NUM_TASKS_MAX) 0 v1) as (v' & E & Hok' & Ht' & Hs' & Hk' & Ho' & Hst');
    [by destruct Hok; split|lia|].
  exists v'. split_and!; try done. intros j. rewrite Hst'. case_decide as Hj; [done|].
  change (slot_task v1 j) with (slot_task v j). enough (slot_task v j = None) as -> by done.
  unfold slot_task. rewrite lookup_ge_None_2; [done|]. rewrite (tk_len _ Hok). lia.
Qed.

Lemma known_ext v v' a : v_tasks v' = v_tasks v -> known v a -> known v' a.
Proof. intros E. unfold known. by rewrite E. Qed.
Lemma quiet_ext a name v v' r : v_tasks v' = v_tasks v -> quiet a name v r -> quiet a name v' r.
Proof. intros E. unfold quiet, known. by rewrite E. Qed.

(** What stays as it is while task [a] waits for [name]. *)
Record still_waiting (a : Z) (name : list Z) v v' : Prop := {
  sw_table : table_ok v';
  sw_slots : v_tasks v' = v_tasks v;
  sw_waiting : waiting v' a name;
  sw_replies : lookup_replies a (v_out v') = lookup_replies a (v_out v);
  sw_services : find_service name (v_services v') = find_service name (v_services v) }.

(** A message that is not a lookup reply to [a]. *)
Lemma vsend_still_waiting a name v d type args :
  table_ok v -> waiting v a name -> lookup_reply_to a (VmReply d type args) = false ->
  exists v', vsend (VmReply d type args) v = Ok (tt, v') /\ still_waiting a name v v'.
Proof.
  intros Hok Hw Hr. eexists. split; [reflexivity|]. split; try done; [by destruct Hok; split|].
  cbn [v_out vset_out]. rewrite lookup_replies_app. unfold lookup_replies at 2. cbn [List.filter].
  by rewrite Hr, app_nil_r.
Qed.

Lemma still_waiting_trans a name v1 v2 v3 :
  still_waiting a name v1 v2 -> still_waiting a name v2 v3 -> still_waiting a name v1 v3.
Proof. intros [] []. split; [done|congruence|done|congruence|congruence]. Qed.

(** Changing the structure of another task. *)
Lemma upd_other_still_waiting a src name v p t f :
  table_ok v -> waiting v a name -> src <> a -> 1 <= src -> 1 <= a ->
  v_tasks v !! Z.to_nat (src - 1) = Some (Some p) -> v_heap v !! p = Some t -> vt_tid (f t) = vt_tid t ->
  exists v', upd_vt p f v = Ok (tt, v') /\ still_waiting a name v v'.
Proof.
  intros Hok [ta [Ha Hn]] Hne H1 H2 Hs Hp Hf.
  destruct (upd_vt_run v (Z.to_nat (src - 1)) p t f Hok Hs Hp Hf) as (E & Hok' & Hst).
  eexists. split; [exact E|]. split; try done. exists ta. rewrite Hst, decide_False by lia. done.
Qed.

Lemma quiet_step a name v r :
  table_ok v -> 1 <= a -> waiting v a name -> name <> [] -> until_nul name = name -> quiet a name v r ->
  exists v', handle_message r v = Ok (tt, v') /\ still_waiting a name v v'.
Proof.
  intros Hok Ha Hw Hne Hnn Hq.
  destruct r as [src x| |src|src nm|src nm|src nm|src tk|src pa sz fl|src sz fl fl'|src tk rs|src tk u ip fa|src ty]; try done.
  - apply vsend_still_waiting; [done|done|]. cbn. by rewrite andb_false_r.
  - exists v. split; [by apply service_dump_run; [|lia]|by split].
  - destruct Hq as [Hk Hd]. destruct (known_slot _ _ Hok Hk) as (p & t & Hs & Hp & Ht & Eo). destruct Hk as [? _].
    cbn [vm_handle_message]. rewrite (ST_bind_run _ _ _ _ _ Eo).
    destruct (upd_other_still_waiting a src name v p t (with_watch true)) as (v1 & E1 & Hsw); auto; [lia|].
    rewrite (ST_bind_run _ _ _ _ _ E1).
    destruct (vsend_still_waiting a name v1 src WATCH_TASKS_REPLY_MSG []) as (v2 & E2 & Hsw2); try apply Hsw.
    { cbn. by rewrite andb_false_r. }
    exists v2. split; [done|]. by apply (still_waiting_trans _ _ _ v1).
  - destruct Hq as [Hk Hd]. destruct (known_slot _ _ Hok Hk) as (p & t & Hs & Hp & Ht & Eo). destruct Hk as [? _].
    cbn [vm_handle_message]. rewrite (ST_bind_run _ _ _ _ _ Eo). unfold service_lookup_or_wait.
    destruct (find_service (str_copy SERVICE_NAME_LEN nm) (v_services v)) as [tk|] eqn:Ef.
    + rewrite (ST_bind_run _ _ _ tk v). 2: { unfold mbind, ST_bind, gets. by rewrite Ef. }
      destruct (tk =? ERR_WOULD_BLOCK); [exists v; split; [done|by split]|].
      apply vsend_still_waiting; [done|done|]. cbn. by destruct (Z.eqb_spec src a).
    + destruct (upd_other_still_waiting a src name v p t (with_waiting (str_copy SERVICE_NAME_LEN (str_copy SERVICE_NAME_LEN nm)))) as (v1 & E1 & Hsw); auto; [lia|].
      exists v1. split; [|done]. rewrite (ST_bind_run _ _ _ ERR_WOULD_BLOCK v1); [done|].
      unfold mbind at 1, ST_bind at 1, gets. rewrite Ef. by rewrite (ST_bind_run _ _ _ _ _ E1).
  - destruct Hq as (Hk & Hd & Hnm). destruct (known_slot _ _ Hok Hk) as (p & t & Hs & Hp & Ht & Eo). destruct Hk as [? _].
    cbn [vm_handle_message]. rewrite (ST_bind_run _ _ _ _ _ Eo).
    destruct (service_register_run v src p t nm Hok Hs Hp Ht) as (v1 & E1 & Hok1 & Ht1 & Hs1 & _ & Ho1 & Hst1).
    rewrite (ST_bind_run _ _ _ _ _ E1). destruct Hw as (ta & Hta & Hwa).
    assert (Hnw : waits (str_copy SERVICE_NAME_LEN nm) ta = false).
    { unfold waits, str_eq. rewrite Hwa, Hnn, until_nul_str_copy. apply bool_decide_eq_false_2. congruence. }
    assert (Hsw : still_waiting a name v v1).
    { split; auto.
      - exists ta. rewrite Hst1, Hta. cbn [fmap option_fmap option_map]. unfold answered. by rewrite Hnw.
      - rewrite Ho1, lookup_replies_app, waiters_lookup_replies by done. rewrite Hta, Hnw. case_decide; by rewrite app_nil_r.
      - rewrite Hs1, find_service_app. destruct (find_service name (v_services v)); [done|].
        cbn [find_service sv_name]. unfold str_eq. rewrite Hnn, until_nul_str_copy. by rewrite bool_decide_eq_false_2. }
    destruct (vsend_still_waiting a name v1 src SERVICE_REGISTER_REPLY_MSG []) as (v2 & E2 & Hsw2); try apply Hsw.
    { cbn. by rewrite andb_false_r. }
    exists v2. split; [done|]. by apply (still_waiting_trans _ _ _ v1).
  - exists v. split; [done|by split].
Qed.

Lemma quiet_run a name rs : forall v,
  table_ok v -> 1 <= a -> waiting v a name -> name <> [] -> until_nul name = name -> Forall (quiet a name v) rs ->
  exists v', vm_main_loop image tmp_page self garbage rs v = Ok (tt, v') /\ still_waiting a name v v'.
Proof.
  induction rs as [|r rs IH]; intros v Hok Ha Hw Hne Hnn Hq; [exists v; split; [done|by split]|].
  apply Forall_cons in Hq as [Hr Hq]. destruct (quiet_step a name v r) as (v1 & E1 & Hsw); [done..|].
  destruct (IH v1) as (v2 & E2 & Hsw2); try apply Hsw; try done.
  { eapply Forall_impl; [exact Hq|]. intros x. apply quiet_ext, Hsw. }
  exists v2. split; [|by apply (still_waiting_trans _ _ _ v1)].
  cbn [vm_main_loop]. by rewrite (ST_bind_run _ _ _ _ _ E1).
Qed.

Lemma vm_main_loop_app rs rs' v v1 :
  vm_main_loop image tmp_page self garbage rs v = Ok (tt, v1) ->
  vm_main_loop image tmp_page self garbage (rs ++ rs') v = vm_main_loop image tmp_page self garbage rs' v1.
Proof.
  revert v. induction rs as [|r rs IH]; intros v; cbn [app vm_main_loop].
  { by intros [= <-]. }
  intros ([] & v' & E & E')%ST_bind_ok. rewrite (ST_bind_run _ _ _ _ _ E). by apply IH.
Qed.

(** C27: service discovery answers: a task that waits for a service gets no answer while
    other tasks look up and register other services, and exactly one when some task
    registers the service, with that task's id; from then on a lookup of the service gets
    that id at once. *)
Theorem service_lookup_answered v a b name nm rs :
  table_ok v -> 1 <= a <= NUM_TASKS_MAX -> waiting v a name -> name <> [] -> name = str_copy SERVICE_NAME_LEN nm ->
  find_service name (v_services v) = None -> Forall (quiet a name v) rs -> known v b ->
  exists v', vm_main_loop image tmp_page self garbage (rs ++ [RServiceRegister b nm]) v = Ok (tt, v') /\
    table_ok v' /\ waiting v' a [] /\
    lookup_replies a (v_out v') = lookup_replies a (v_out v) ++ [VmReply a SERVICE_LOOKUP_REPLY_MSG [b]] /\
    (forall c, known v' c -> b <> ERR_WOULD_BLOCK ->
       handle_message (RServiceLookup c nm) v' = Ok (tt, vset_out (v_out v' ++ [VmReply c SERVICE_LOOKUP_REPLY_MSG [b]]) v')).
Proof.
  intros Hok Ha Hw Hne Hnm Hns Hq Hb.
  assert (Hnn : until_nul name = name) by (rewrite Hnm; apply until_nul_str_copy).
  destruct (quiet_run a name rs v) as (v1 & E1 & Hsw); [done|lia|done..|].
  destruct Hsw as [Hok1 Ht1 (ta & Hta & Hwa) Hr1 Hs1].
  pose proof (known_ext _ _ _ Ht1 Hb) as Hb1.
  destruct (known_slot _ _ Hok1 Hb1) as (p & t & Hs & Hp & Ht & Eo).
  destruct (service_register_run v1 b p t nm Hok1 Hs Hp Ht) as (v2 & E2 & Hok2 & Ht2 & Hs2 & _ & Ho2 & Hst2).
  rewrite <- Hnm in *. assert (Hwt : waits name ta = true) by (unfold waits, str_eq; rewrite Hwa; by apply bool_decide_eq_true_2).
  set (v3 := vset_out (v_out v2 ++ [VmReply b SERVICE_REGISTER_REPLY_MSG []]) v2).
  exists v3. split_and!.
  - rewrite (vm_main_loop_app _ _ _ _ E1). cbn [vm_main_loop vm_handle_message]. rewrite <- Hnm.
    unfold mbind, ST_bind. rewrite Eo, E2. done.
  - by destruct Hok2; split.
  - exists (with_waiting [] ta). change (slot_task v3) with (slot_task v2). rewrite Hst2, Hta. cbn [fmap option_fmap option_map]. unfold answered. by rewrite Hwt.
  - cbn [v_out vset_out v3]. rewrite Ho2, !lookup_replies_app, waiters_lookup_replies by (done || lia).
    rewrite Hr1, Hta, Hwt, decide_True by (unfold NUM_TASKS_MAX in *; lia). unfold lookup_replies at 2. cbn.
    by rewrite andb_false_r, app_nil_r.
  - intros c Hc Hbb. assert (Hok3 : table_ok v3) by (by destruct Hok2; split).
    destruct (known_slot _ _ Hok3 Hc) as (p' & t' & _ & _ & _ & Eo').
    cbn [vm_handle_message]. rewrite (ST_bind_run _ _ _ _ _ Eo'), <- Hnm. unfold service_lookup_or_wait.
    rewrite (ST_bind_run _ _ _ b v3).
    + by destruct (Z.eqb_spec b ERR_WOULD_BLOCK).
    + unfold mbind, ST_bind, gets. change (v_services v3) with (v_services v2). rewrite Hs2, find_service_app, Hs1, Hns.
      cbn [find_service sv_name]. unfold str_eq. by rewrite bool_decide_eq_true_2.
Qed.

(** ** Address space *)
Lemma valloc_mappable u : VALLOC_BASE <= u < VALLOC_END -> arch_is_mappable_uaddr u = true.
Proof.
  unfold VALLOC_BASE, VALLOC_END, arch_is_mappable_uaddr. intros Hu.
  repeat match goal with
  | |- context [?a <? ?b] => destruct (Z.ltb_spec a b)
  | |- context [?a <=? ?b] => destruct (Z.leb_spec a b)
  end; unfold KERNEL_BASE, PAGE_SIZE in *; try done; lia.
Qed.

Abbreviation in_run base n u := (base <= u < base + Z.of_nat n * PAGE_SIZE /\ (u - base) `mod` PAGE_SIZE = 0).

Lemma map_loop_run tid uaddr paddr mf n : forall off v,
  0 <= off -> off `mod` PAGE_SIZE = 0 -> uaddr `mod` PAGE_SIZE = 0 -> paddr `mod` PAGE_SIZE = 0 ->
  VALLOC_BASE <= uaddr -> uaddr + off + Z.of_nat n * PAGE_SIZE <= VALLOC_END ->
  0 <= paddr -> paddr + off + Z.of_nat n * PAGE_SIZE <= 2 ^ 32 ->
  Z.land mf (Z.lnot (Z.lor (Z.lor PAGE_WRITABLE PAGE_READABLE) PAGE_EXECUTABLE)) = 0 ->
  (forall u, in_run (uaddr + off) n u -> translation (v_kernel v) tid u = None) ->
  (forall p, in_run (paddr + off) n p -> may_map (v_kernel v) tid p) ->
  free_ram (v_kernel v) n ->
  exists k', map_loop tid uaddr paddr mf off n v = Ok (OK, vset_kernel k' v) /\
    (forall q, frame_of k' q = frame_of (v_kernel v) q) /\
    (forall u, in_run (uaddr + off) n u -> translation k' tid u = Some (paddr + (u - uaddr), mf)) /\
    (forall s u, ~ (s = tid /\ in_run (uaddr + off) n u) -> translation k' s u = translation (v_kernel v) s u).
Proof.
  induction n as [|n IH]; intros off v H1 H2 H3 H4 H5 H6 H7 H8 Hmf Hun Hmay Hfree.
  { exists (v_kernel v). split_and!; try done; [by destruct v|]. unfold PAGE_SIZE. lia. }
  cbn [map_loop]. rewrite (u32_small (uaddr + off)), (u32_small (paddr + off)) by (unfold VALLOC_BASE, VALLOC_END, PAGE_SIZE in *; lia).
  destruct (k_vm_map_progress (v_kernel v) tid (uaddr + off) (paddr + off) mf n) as [Hr Hf]; try done.
  1-5: unfold PAGE_SIZE in *.
  1: apply Hun; lia. 1: apply Hmay; lia. 1, 2: lia.
  1: apply valloc_mappable; unfold VALLOC_BASE, VALLOC_END in *; lia.
  destruct (k_vm_map tid (uaddr + off) (paddr + off) mf (v_kernel v)) as [r k1] eqn:E. cbn [fst snd] in *. subst r.
  destruct (k_vm_map_spec _ _ _ _ _ _ _ E) as (Hfr & Hm & _ & Ho & [(_ & _ & Hn)|[? _]]); [|done].
  rewrite (ST_bind_run _ _ _ _ _ (vcall_run _ v _ _ E)). change (negb (OK =? OK)) with false. cbv iota.
  destruct (IH (off + PAGE_SIZE) (vset_kernel k1 v)) as (k2 & E2 & Hfr2 & Ht2 & Ho2); try done.
  1-4: unfold PAGE_SIZE in *; lia.
  - intros u Hu. cbn. rewrite Ho; [apply Hun; unfold PAGE_SIZE in *; lia|]. intros [= ->]. unfold PAGE_SIZE in *. lia.
  - intros p Hp. cbn. apply Hm, Hmay. unfold PAGE_SIZE in *. lia.
  - exists k2. split_and!; [done|intros q; rewrite Hfr2; apply Hfr| |].
    + intros u Hu. destruct (Z.eq_dec u (uaddr + off)) as [->|Hne].
      * rewrite Ho2 by (unfold PAGE_SIZE in *; lia). cbn. rewrite Hn. f_equal. f_equal. lia.
      * apply Ht2. unfold PAGE_SIZE in *. lia.
    + intros s u Hu. rewrite Ho2 by (unfold PAGE_SIZE in *; lia). cbn. apply Ho. intros [= -> ->]. apply Hu.
      unfold PAGE_SIZE in *. lia.
Qed.

(** The task's addresses from [valloc_next] on are free. *)
Record valloc_ok v (t : vtask) : Prop := {
  va_base : VALLOC_BASE <= vt_valloc_next t;
  va_aligned : vt_valloc_next t `mod` PAGE_SIZE = 0;
  va_unmapped : forall u, vt_valloc_next t <= u < VALLOC_END -> translation (v_kernel v) (vt_tid t) u = None }.

Lemma page_aligned size : size `mod` PAGE_SIZE = 0 -> IS_ALIGNED size PAGE_SIZE = true.
Proof. change PAGE_SIZE with (2 ^ 12). intros Hs. by rewrite is_aligned_pow2, Hs by lia. Qed.

Lemma valloc_run v p t size :
  v_heap v !! p = Some t -> VALLOC_BASE <= vt_valloc_next t -> 0 < size -> size `mod` PAGE_SIZE = 0 ->
  vt_valloc_next t + size <= VALLOC_END ->
  valloc p size v =
    Ok (vt_valloc_next t, vset_heap (<[p := with_valloc (vt_valloc_next t + size) t]> (v_heap v)) v).
Proof.
  intros Hp Hb Hsz Hsm Hend. unfold valloc. rewrite (ST_bind_run _ _ _ _ _ (vt_at_run _ _ _ Hp)).
  destruct (Z.leb_spec VALLOC_END (vt_valloc_next t)); [lia|].
  change PAGE_SIZE with (2 ^ 12). rewrite align_up_pow2 by (unfold VALLOC_BASE, VALLOC_END in *; lia).
  replace (size + (2 ^ 12 - 1) - (size + (2 ^ 12 - 1)) `mod` 2 ^ 12) with size by (unfold PAGE_SIZE in *; lia).
  rewrite u32_small by (unfold VALLOC_BASE, VALLOC_END in *; lia).
  unfold upd_vt. unfold mbind at 1 2, ST_bind at 1 2. by rewrite (vt_at_run _ _ _ Hp).
Qed.

(** A request for memory gets fresh memory at a fresh address: the pages from the
    address in the reply on translate, in order, to the frames from the physical address
    in the reply on, with the requested rights; the frames are zeroed and no task had
    them; every other page of every task stays; and the task's next region begins behind
    this one, where nothing is mapped. *)
Theorem alloc_physical_correct v src p t size af mf pfn k1 :
  table_ok v -> 1 <= src <= NUM_TASKS_MAX -> v_tasks v !! Z.to_nat (src - 1) = Some (Some p) -> v_heap v !! p = Some t ->
  valloc_ok v t -> 0 < size -> size `mod` PAGE_SIZE = 0 -> vt_valloc_next t + size <= VALLOC_END ->
  Z.land mf (Z.lnot (Z.lor (Z.lor PAGE_WRITABLE PAGE_READABLE) PAGE_EXECUTABLE)) = 0 ->
  manages (v_kernel v) src src ->
  k_pm_alloc src size (Z.lor (Z.lor af PM_ALLOC_ALIGNED) PM_ALLOC_ZEROED) (v_kernel v) = (pfn, k1) ->
  IS_ERROR pfn = false -> free_ram k1 (Z.to_nat (size / PAGE_SIZE)) ->
  let uaddr := vt_valloc_next t in
  exists paddr k' t',
    let v' := vset_out (v_out v ++ [VmReply src VM_ALLOC_PHYSICAL_REPLY_MSG [uaddr; paddr]])
                (vset_kernel k' (vset_heap (<[p := t']> (v_heap v)) v)) in
    handle_message (RVmAllocPhysical src size af mf) v = Ok (tt, v') /\
    (forall off, 0 <= off < size -> off `mod` PAGE_SIZE = 0 ->
       translation k' src (uaddr + off) = Some (paddr + off, mf) /\
       frame_of k' (paddr + off) = replicate (Z.to_nat PAGE_SIZE) 0 /\
       (forall s u a, translation (v_kernel v) s u <> Some (paddr + off, a))) /\
    (forall s u, s <> src \/ u < uaddr \/ uaddr + size <= u -> translation k' s u = translation (v_kernel v) s u) /\
    table_ok v' /\ valloc_ok v' t' /\ vt_valloc_next t' = uaddr + size.
Proof.
  intros Hok Hsrc Hs Hp [Hb Ha Hu] Hsz Hsm Hend Hmf Hman E1 Hr Hf uaddr.
  assert (Htid : vt_tid t = src).
  { destruct (tk_slot _ Hok _ _ Hs) as (t' & E & Ht). rewrite Hp in E. injection E as <-. lia. }
  destruct (k_pm_alloc_spec _ _ _ _ _ _ E1 Hsz Hsm) as (Ht1 & Hm1 & _ & Hok1).
  destruct (Hok1 Hr) as (Hp0 & Hp1 & Hin & Hout). set (paddr := pfn * PAGE_SIZE) in *.
  set (t' := with_valloc (uaddr + size) t). set (v1 := vset_kernel k1 v).
  assert (Hok1' : table_ok v1) by (by destruct Hok; split).
  destruct (upd_vt_run v1 _ p t (with_valloc (uaddr + size)) Hok1' Hs Hp eq_refl) as (_ & Hok2 & _).
  set (v2 := vset_heap (<[p := t']> (v_heap v)) v1) in *.
  set (n := Z.to_nat (size / PAGE_SIZE)) in *.
  assert (Hn : Z.of_nat n * PAGE_SIZE = size) by (unfold n, PAGE_SIZE in *; lia).
  destruct (map_loop_run src uaddr paddr mf n 0 v2) as (k' & Em & Hfr & Ht & Ho).
  all: rewrite ?Z.add_0_r, ?Hn; try done; try (unfold uaddr, paddr, PAGE_SIZE in *; lia).
  { intros u Hin'. change (v_kernel v2) with k1. rewrite Ht1, <- Htid. apply Hu. unfold uaddr in *. lia. }
  { intros q Hq. change (v_kernel v2) with k1. destruct (Hin q) as (_ & _ & Hmy); [lia|unfold paddr, PAGE_SIZE in *; lia|]. by apply Hmy. }
  rewrite ?Z.add_0_r, ?Hn in Ht, Ho. change (v_kernel v2) with k1 in *.
  exists paddr, k', t'. cbv zeta. split_and!; try done.
  - cbn [vm_handle_message]. rewrite (ST_bind_run _ _ _ _ _ (task_of_run _ _ _ Hsrc Hs)).
    rewrite (ST_bind_run _ _ _ (OK, paddr, uaddr) (vset_kernel k' v2)); [done|].
    unfold vm_alloc_pages. rewrite (ST_bind_run _ _ _ _ _ (vt_at_run _ _ _ Hp)), Htid.
    rewrite (ST_bind_run _ _ _ _ _ (vcall_run _ v _ _ E1)), Hr.
    rewrite PFN2PADDR_small by (unfold paddr, PAGE_SIZE in *; lia). fold paddr. fold v1.
    rewrite (ST_bind_run _ _ _ (OK, uaddr) (vset_kernel k' v2)); [done|].
    unfold vm_map_pages.
    rewrite page_aligned by done.
    rewrite (ST_bind_run _ _ _ tt v1 eq_refl).
    rewrite (ST_bind_run _ _ _ uaddr v2) by (by eapply valloc_run).
    destruct (Z.eqb_spec uaddr 0); [unfold uaddr, VALLOC_BASE in *; lia|].
    rewrite (ST_bind_run _ _ _ t' v2) by (apply vt_at_run; cbn; by rewrite lookup_insert_eq).
    change (vt_tid t') with (vt_tid t). rewrite Htid. fold n. by rewrite (ST_bind_run _ _ _ _ _ Em).
  - intros off Hoff Hoffm. destruct (Hin (paddr + off)) as (Hz & Hfresh & _);
      [unfold paddr, PAGE_SIZE in *; lia..|].
    split_and!; [|by rewrite Hfr|done]. rewrite Ht by (unfold PAGE_SIZE in *; lia). f_equal. f_equal. lia.
  - intros s u Hsu. rewrite Ho by lia. apply Ht1.
  - by destruct Hok2; split.
  - split; cbn; [unfold uaddr, VALLOC_BASE in *; lia|unfold uaddr, PAGE_SIZE in *; lia|].
    intros u Hu'. rewrite Ho, Ht1 by (unfold uaddr in *; lia). apply Hu. unfold uaddr in *. lia.
Qed.

(** ** Destruction *)

(** The ids of the tasks that watch the others, in the order of the slots. *)
Fixpoint watchers v (i n : nat) : list Z :=
  match n with
  | O => []
  | S n' => match slot_task v i with
            | Some t => if vt_watch_tasks t then [vt_tid t] else []
            | None => []
            end ++ watchers v (S i) n'
  end.

Lemma notify_watchers_run tid n : forall i v out,
  table_ok v -> (i + n <= Z.to_nat NUM_TASKS_MAX)%nat ->
  notify_watchers tid i n (vset_out out v) =
    Ok (tt, vset_out (out ++ ((fun w => VmAsync w TASK_DESTROYED_MSG [tid]) <$> watchers v i n)) v).
Proof.
  induction n as [|n IH]; intros i v out Hok Hi; [by rewrite app_nil_r|].
  destruct (lookup_lt_is_Some_2 (v_tasks v) i) as [slot Hs]; [rewrite (tk_len _ Hok); lia|].
  cbn [notify_watchers watchers].
  rewrite (ST_bind_run _ _ _ slot (vset_out out v)) by (unfold getopt; cbn; by rewrite Hs).
  destruct slot as [p|].
  - destruct (tk_slot _ Hok _ _ Hs) as (t & Hp & Ht). rewrite (slot_task_at _ _ _ _ Hs Hp).
    set (o1 := if vt_watch_tasks t then out ++ [VmAsync (vt_tid t) TASK_DESTROYED_MSG [tid]] else out).
    rewrite (ST_bind_run _ _ _ tt (vset_out o1 v)).
    + rewrite IH by (done || lia). unfold o1. destruct (vt_watch_tasks t); [|done].
      by rewrite fmap_app, <- app_assoc.
    + rewrite (ST_bind_run _ _ _ t (vset_out out v)) by (by apply vt_at_run). unfold o1. by destruct (vt_watch_tasks t).
  - rewrite (ST_bind_run _ _ _ tt (vset_out out v)) by done.
    rewrite IH by (done || lia). unfold slot_task. by rewrite Hs.
Qed.

(** What destroying a task does: the watchers are told, the kernel destroys the task, and
    the structure is released; the slot that is cleared is the server's. *)
Lemma vm_task_destroy_run v p t :
  table_ok v -> v_heap v !! p = Some t ->
  vm_task_destroy self p v =
    Ok (tt, Vms (snd (k_task_destroy (vt_tid t) (v_kernel v))) (delete p (v_heap v)) (v_brk v)
         (<[Z.to_nat (self - 1) := None]> (v_tasks v)) (v_services v) (v_files v) (v_num_files v)
         (v_out v ++ ((fun w => VmAsync w TASK_DESTROYED_MSG [vt_tid t]) <$> watchers v 0 (Z.to_nat NUM_TASKS_MAX)))).
Proof.
  intros Hok Hp. unfold vm_task_destroy. rewrite (ST_bind_run _ _ _ _ _ (vt_at_run _ _ _ Hp)).
  pose proof (notify_watchers_run (vt_tid t) (Z.to_nat NUM_TASKS_MAX) 0 v (v_out v) Hok ltac:(lia)) as E.
  replace (vset_out (v_out v) v) with v in E by (by destruct v).
  rewrite (ST_bind_run _ _ _ _ _ E). unfold mbind, ST_bind, vcall. cbn [v_kernel vset_out].
  by destruct (k_task_destroy (vt_tid t) (v_kernel v)) as [r k'].
Qed.

Lemma destroy_by_tid_run tid p t n : forall i v,
  table_ok v -> (i + n <= Z.to_nat NUM_TASKS_MAX)%nat -> (i <= Z.to_nat (tid - 1) < i + n)%nat -> 1 <= tid ->
  v_tasks v !! Z.to_nat (tid - 1) = Some (Some p) -> v_heap v !! p = Some t -> vt_tid t = tid ->
  task_destroy_by_tid_loop self tid i n v = (vm_task_destroy self p ;; mret OK) v.
Proof.
  induction n as [|n IH]; intros i v Hok Hi Hr Ht1 Hs Hp Ht; [lia|].
  destruct (lookup_lt_is_Some_2 (v_tasks v) i) as [slot Hsi]; [rewrite (tk_len _ Hok); lia|].
  cbn [task_destroy_by_tid_loop]. rewrite (ST_bind_run _ _ _ slot v) by (unfold getopt; by rewrite Hsi).
  destruct (decide (i = Z.to_nat (tid - 1))) as [->|Hne].
  - rewrite Hs in Hsi. injection Hsi as <-. rewrite (ST_bind_run _ _ _ _ _ (vt_at_run _ _ _ Hp)). by rewrite Ht, Z.eqb_refl.
  - destruct slot as [q|]; [|apply IH; auto; lia]. destruct (tk_slot _ Hok _ _ Hsi) as (t' & Hq & Htq).
    rewrite (ST_bind_run _ _ _ _ _ (vt_at_run _ _ _ Hq)). destruct (Z.eqb_spec (vt_tid t') tid); [lia|].
    apply IH; auto; lia.
Qed.

(** Destroying a task tells every watching task exactly once, has the kernel destroy
    the task and answers the request; but the table keeps the pointer to the released
    structure (the server clears its own slot instead), so that the next request that
    follows the slots, here the timer, accesses released memory. *)
Theorem task_destroy_dangles v src tid :
  table_ok v -> known v tid -> tid <> self -> 1 <= self ->
  exists v', handle_message (RDestroyTask src tid) v = Ok (tt, v') /\
    v_kernel v' = snd (k_task_destroy tid (v_kernel v)) /\
    v_out v' = v_out v ++ ((fun w => VmAsync w TASK_DESTROYED_MSG [tid]) <$> watchers v 0 (Z.to_nat NUM_TASKS_MAX))
                 ++ [VmReply src DESTROY_TASK_REPLY_MSG []] /\
    handle_message RTimer v' = Undef.
Proof.
  intros Hok Hk Hne Hse. destruct (known_slot _ _ Hok Hk) as (p & t & Hs & Hp & Ht & _). destruct Hk as [Hr _].
  pose proof (vm_task_destroy_run v p t Hok Hp) as E. rewrite Ht in E.
  eexists. split; [|split_and!].
  - cbn [vm_handle_message]. unfold task_destroy_by_tid.
    unfold mbind at 1, ST_bind at 1.
    rewrite (destroy_by_tid_run tid p t) by (auto; unfold NUM_TASKS_MAX in *; lia).
    rewrite (ST_bind_run _ _ _ _ _ E). reflexivity.
  - done.
  - cbn. by rewrite <- app_assoc.
  - cbn [vm_handle_message]. unfold service_dump.
    enough (Hd : forall n i w, (i <= Z.to_nat (tid - 1) < i + n)%nat ->
      v_tasks w !! Z.to_nat (tid - 1) = Some (Some p) -> v_heap w !! p = None -> service_dump_loop (K := K) i n w = Undef).
    { apply Hd; cbn [vset_out v_tasks v_heap].
      - unfold NUM_TASKS_MAX in *. lia.
      - rewrite list_lookup_insert_ne by lia. exact Hs.
      - apply lookup_delete_eq. }
    induction n as [|n IH]; intros i w Hi Hw Hh; [lia|]. cbn [service_dump_loop].
    unfold mbind at 1, ST_bind at 1, getopt at 1.
    destruct (v_tasks w !! i) as [[q|]|] eqn:Ei; [| |done].
    + unfold mbind at 1, ST_bind at 1. unfold mbind at 1, ST_bind at 1, vt_at, getopt.
      destruct (v_heap w !! q) eqn:Eq; [|done]. cbn. apply IH; [|done..].
      assert (i <> Z.to_nat (tid - 1)) by congruence. lia.
    + unfold mbind at 1, ST_bind at 1. cbn. apply IH; [|done..].
      assert (i <> Z.to_nat (tid - 1)) by congruence. lia.
Qed.

(** ** Creation *)

(** The program headers from [i] on are in the page, and the segments end below the
    dynamic addresses' end. *)
Definition phdrs_ok (h : list Z) (i n : nat) : Prop :=
  forall j, (i <= j < i + n)%nat -> exists ph, phdr_at h j = Ok ph /\
    0 <= p_vaddr ph /\ 0 <= p_memsz ph /\
    (p_type ph = PT_LOAD -> p_vaddr ph + p_memsz ph <= VALLOC_END - PAGE_SIZE).

Lemma valloc_start_run h n : forall i acc,
  phdrs_ok h i n -> VALLOC_BASE <= acc < VALLOC_END -> acc `mod` PAGE_SIZE = 0 ->
  exists r, valloc_start h i n acc = Ok r /\ acc <= r < VALLOC_END /\ r `mod` PAGE_SIZE = 0 /\
    (forall j ph, (i <= j < i + n)%nat -> phdr_at h j = Ok ph -> p_type ph = PT_LOAD -> p_vaddr ph + p_memsz ph <= r).
Proof.
  clear garbage. induction n as [|n IH]; intros i acc Hph Hacc Ha; [exists acc; split_and!; try done; lia|].
  cbn [valloc_start]. destruct (Hph i) as (ph & E & Hv & Hm & Hl); [lia|]. rewrite E. cbn [mbind outcome_bind].
  assert (Hph' : phdrs_ok h (S i) n) by (intros j Hj; apply Hph; lia).
  destruct (Z.eqb_spec (p_type ph) PT_LOAD) as [Ht|Ht]; cbn [negb].
  - specialize (Hl Ht). set (e := ALIGN_UP _ _).
    assert (He : p_vaddr ph + p_memsz ph <= e < VALLOC_END /\ e `mod` PAGE_SIZE = 0).
    { unfold e. change PAGE_SIZE with (2 ^ 12) in Hl |- *. unfold VALLOC_END in Hl |- *. rewrite u32_small by lia.
      rewrite align_up_pow2 by lia. lia. }
    destruct (IH (S i) (Z.max acc e) Hph') as (r & Er & Hr & Hra & Hj); [lia| |].
    { destruct (Z.max_spec acc e) as [[_ ->]|[_ ->]]; tauto. }
    exists r. split_and!; try done; [lia..|]. intros j ph' Hj' E' Ht'. destruct (decide (j = i)) as [->|].
    + rewrite E in E'. injection E' as <-. lia.
    + apply (Hj j); auto. lia.
  - destruct (IH (S i) acc Hph' Hacc Ha) as (r & Er & Hr & Hra & Hj). exists r. split_and!; try done; [lia..|].
    intros j ph' Hj' E' Ht'. destruct (decide (j = i)) as [->|].
    + rewrite E in E'. by injection E' as <-.
    + apply (Hj j); auto. lia.
Qed.

(** The header checks of [task_spawn]. *)
Definition elf_ok (h : list Z) : bool :=
  bool_decide (take 4 h = ELF_MAGIC) && (e_type h =? ET_EXEC) && (e_phnum h <=? 32).

End Proofs.

(** ** A kernel that keeps the promises

    Frames are handed out in order, from the page number [tn_next] up to [tn_limit]; a
    page that was handed out may be mapped by every task. *)
Record tiny := Tiny {
  tn_next : Z; tn_limit : Z; tn_maps : gmap (Z * Z) (Z * Z); tn_frames : gmap Z (list Z); tn_tasks : Z }.

Definition tn_frame (k : tiny) (p : Z) : list Z := resize (Z.to_nat PAGE_SIZE) 0 (default [] (tn_frames k !! p)).
Definition tn_below (k : tiny) : Prop := map_Forall (fun _ x => fst x < tn_next k * PAGE_SIZE) (tn_maps k).
#[export] Instance tn_below_dec k : Decision (tn_below k).
Proof. unfold tn_below. apply _. Defined.

Definition tn_pm_alloc (t size flags : Z) (k : tiny) : Z * tiny :=
  let n := size / PAGE_SIZE in
  if bool_decide (tn_below k) && (0 <=? tn_next k) && (tn_next k + n <=? Z.min (tn_limit k) (2 ^ 20))
  then (tn_next k, Tiny (tn_next k + n) (tn_limit k) (tn_maps k)
          (filter (fun x => ~ tn_next k * PAGE_SIZE <= fst x < tn_next k * PAGE_SIZE + size) (tn_frames k)) (tn_tasks k))
  else (ERR_NO_MEMORY, k).
Definition tn_vm_map (t u p a : Z) (k : tiny) : Z * tiny :=
  match tn_maps k !! (t, u) with
  | Some _ => (ERR_ALREADY_EXISTS, k)
  | None =>
      if p <? tn_next k * PAGE_SIZE
      then (OK, Tiny (tn_next k) (tn_limit k) (<[(t, u) := (p, a)]> (tn_maps k)) (tn_frames k) (tn_tasks k))
      else (ERR_INVALID_PADDR, k)
  end.
Definition tn_vm_unmap (t u : Z) (k : tiny) : Z * tiny :=
  match tn_maps k !! (t, u) with
  | Some _ => (OK, Tiny (tn_next k) (tn_limit k) (delete (t, u) (tn_maps k)) (tn_frames k) (tn_tasks k))
  | None => (ERR_NOT_FOUND, k)
  end.
Definition tn_store (t u : Z) (bytes : list Z) (k : tiny) : option tiny :=
  x ← tn_maps k !! (t, u);
  Some (Tiny (tn_next k) (tn_limit k) (tn_maps k)
          (<[fst x := bytes ++ drop (length bytes) (tn_frame k (fst x))]> (tn_frames k)) (tn_tasks k)).

#[export] Instance tiny_kernel : VmKernel tiny := {
  k_task_create name ip pager k :=
    if (1 <=? tn_tasks k) && (tn_tasks k <=? NUM_TASKS_MAX)
    then (tn_tasks k, Tiny (tn_next k) (tn_limit k) (tn_maps k) (tn_frames k) (tn_tasks k + 1))
    else (ERR_TOO_MANY_TASKS, k);
  k_task_destroy t k := (OK, k);
  k_pm_alloc := tn_pm_alloc;
  k_vm_map := tn_vm_map;
  k_vm_unmap := tn_vm_unmap;
  k_store := tn_store;
}.

Lemma tn_pm_alloc_ok t size flags k r k' :
  tn_pm_alloc t size flags k = (r, k') -> IS_ERROR r = false ->
  tn_below k /\ 0 <= tn_next k /\ tn_next k + size / PAGE_SIZE <= Z.min (tn_limit k) (2 ^ 20) /\ r = tn_next k /\
  k' = Tiny (tn_next k + size / PAGE_SIZE) (tn_limit k) (tn_maps k)
          (filter (fun x => ~ tn_next k * PAGE_SIZE <= fst x < tn_next k * PAGE_SIZE + size) (tn_frames k)) (tn_tasks k).
Proof.
  unfold tn_pm_alloc. case_bool_decide; cbn [andb]; [|by intros [= <- <-]].
  destruct (Z.leb_spec 0 (tn_next k)); cbn [andb]; [|by intros [= <- <-]].
  destruct (Z.leb_spec (tn_next k + size / PAGE_SIZE) (Z.min (tn_limit k) (2 ^ 20))); [|by intros [= <- <-]].
  by intros [= <- <-].
Qed.

#[export] Program Instance tiny_spec : VmKernelSpec tiny := {
  translation k t u := tn_maps k !! (t, u);
  frame_of := tn_frame;
  manages _ _ _ := True;
  may_map k _ p := p < tn_next k * PAGE_SIZE;
  free_ram k n := tn_below k /\ 0 <= tn_next k /\ tn_next k + Z.of_nat n <= Z.min (tn_limit k) (2 ^ 20);
}.
Next Obligation. intros k p. apply length_resize. Qed.
Next Obligation. intros k n m Hm (? & ? & ?). split_and!; [done|done|lia]. Qed.
Next Obligation.
  intros k t size flags r k' E Hs Hm. destruct (IS_ERROR r) eqn:Er.
  - cbn in E. unfold tn_pm_alloc in E. destruct (_ && _) eqn:Eb; injection E as <- <-; [|by split_and!].
    apply andb_prop in Eb as [[_ Eb1%Z.leb_le]%andb_prop Eb2%Z.leb_le]. exfalso.
    assert (Hd : 0 <= size / PAGE_SIZE) by (apply Z.div_pos; unfold PAGE_SIZE; lia).
    revert Er. unfold IS_ERROR. rewrite s32_small by lia. intros Er%Z.ltb_lt. lia.
  - destruct (tn_pm_alloc_ok _ _ _ _ _ _ E Er) as (Hb & H0 & Hl & -> & ->). cbn [tn_maps tn_next tn_frames].
    assert (Hn : Z.of_nat 0 + size = (size / PAGE_SIZE) * PAGE_SIZE) by (unfold PAGE_SIZE in *; lia).
    split_and!; auto; [intros _ p; unfold PAGE_SIZE in *; lia|]. intros _. split_and!; [done|unfold PAGE_SIZE in *; lia| |].
    + intros p Hp Hpm. split_and!.
      * unfold tn_frame. cbn. rewrite map_lookup_filter_None_2; [apply resize_nil|]. right. cbn. intros ?? Hc. by apply Hc.
      * intros s u a Hu. specialize (Hb _ _ Hu). cbn in Hb. lia.
      * intros _ _. unfold PAGE_SIZE in *. lia.
    + intros p Hp. unfold tn_frame. cbn. f_equal. f_equal. destruct (tn_frames k !! p) eqn:Ep.
      * by apply map_lookup_filter_Some_2.
      * by apply map_lookup_filter_None_2; left.
Qed.
Next Obligation.
  intros k t flags n _ (Hb & H0 & Hl) _. cbn. unfold tn_pm_alloc. rewrite bool_decide_eq_true_2 by done.
  change (PAGE_SIZE / PAGE_SIZE) with 1. destruct (Z.leb_spec 0 (tn_next k)); [|lia].
  destruct (Z.leb_spec (tn_next k + 1) (Z.min (tn_limit k) (2 ^ 20))); [|lia]. cbn [andb fst snd tn_next tn_limit].
  split; [|split_and!; [|lia..]].
  - unfold IS_ERROR. rewrite s32_small by lia. apply Z.ltb_ge. lia.
  - intros i x Hx. cbn [tn_maps tn_next] in *. specialize (Hb i x Hx). cbn in Hb. unfold PAGE_SIZE in *. lia.
Qed.
Next Obligation.
  intros k t u p a r k' E. cbn in E. unfold tn_vm_map in E. destruct (tn_maps k !! (t, u)) eqn:Eu.
  - injection E as <- <-. split_and!; auto.
  - destruct (p <? tn_next k * PAGE_SIZE); injection E as <- <-; split_and!; auto.
    + intros s v Hne. cbn. by rewrite lookup_insert_ne by congruence.
    + left. cbn. by rewrite lookup_insert_eq.
Qed.
Next Obligation.
  intros k t u p a n Hu Hp _ _ _ _ (Hb & H0 & Hl). cbv beta in Hu, Hp. cbn [k_vm_map tiny_kernel]. unfold tn_vm_map. rewrite Hu.
  destruct (Z.ltb_spec p (tn_next k * PAGE_SIZE)); [|lia]. split; [done|]. split_and!; [|done|cbn [snd tn_next tn_limit]; lia].
  apply map_Forall_insert_2; [done|apply Hb].
Qed.
Next Obligation.
  intros k t u p a n Hu (Hb & H0 & Hl). eexists. cbn. unfold tn_vm_unmap. rewrite Hu. split; [reflexivity|]. split_and!; auto; cbn.
  - by apply map_Forall_delete.
  - by rewrite lookup_delete_eq.
  - intros s v Hne. by rewrite lookup_delete_ne by congruence.
Qed.
Next Obligation.
  intros k t u p a bytes n Hu _ Hl Hf. eexists. cbn. unfold tn_store. rewrite Hu. split; [reflexivity|]. split_and!; try apply Hf; auto; cbn.
  - unfold tn_frame at 1. cbn. rewrite lookup_insert_eq. cbn. apply resize_all_alt.
    rewrite length_app, length_drop. unfold tn_frame. rewrite length_resize. unfold PAGE_SIZE in *. lia.
  - intros q Hq. unfold tn_frame. cbn. by rewrite lookup_insert_ne by done.
Qed.
Next Obligation.
  intros k name ip pager r k' E Er. cbn in E. destruct (Z.leb_spec 1 (tn_tasks k)), (Z.leb_spec (tn_tasks k) NUM_TASKS_MAX); cbn [andb] in E;
    injection E as <- <-; try done; lia.
Qed.

(** ** A sample system: one program of 8 bytes, in a segment of 5000 *)
Definition demo_header : list Z :=
  resize 256 0 (ELF_MAGIC ++ replicate 12 0 ++ le_split 2 ET_EXEC ++ replicate 6 0 ++ le_split 4 16777216 ++
    le_split 4 52 ++ replicate 12 0 ++ le_split 2 1 ++ replicate 6 0 ++
    le_split 4 PT_LOAD ++ le_split 4 256 ++ le_split 4 16777216 ++ replicate 4 0 ++ le_split 4 8 ++ le_split 4 5000 ++ le_split 4 5).
Definition demo_image : list Z :=
  resize 4096 0 (le_split 2 1 ++ le_split 2 8 ++ le_split 2 1 ++ le_split 2 0 ++
    resize 56 0 [104; 105] ++ le_split 4 4096 ++ le_split 4 264) ++
  resize 4096 0 (demo_header ++ [1; 2; 3; 4; 5; 6; 7; 8]).
Definition demo_file : bootfs_file := BootfsFile (resize 56 0 [104; 105]) 4096 264.
Definition demo_page : list Z := resize 4096 0 (demo_header ++ [1; 2; 3; 4; 5; 6; 7; 8]).
Definition demo_vtask (tid : Z) (waiting : list Z) (watch : bool) : vtask :=
  VTask tid 1 [104; 105] demo_page demo_file VALLOC_BASE waiting watch.
Definition demo_tiny : tiny := Tiny 2 64 {[ (1, 8192) := (4096, 6) ]} ∅ 5.
(** Task 2 waits for the service "fs", task 3 watches, and runs the program. *)
Definition demo_vms : vms tiny :=
  Vms demo_tiny {[ 0%nat := demo_vtask 2 [102; 115] false; 1%nat := demo_vtask 3 [] true ]} 2
    ([None; Some 0%nat; Some 1%nat] ++ replicate 13 None) [] 8 1 [].
Definition demo_seg : elf_phdr := Phdr PT_LOAD 256 16777216 8 5000 5.

Lemma demo_table_ok : table_ok demo_vms.
Proof.
  split; [done|]. intros i p Hp. 
  do 16 (destruct i as [|i]; [first [discriminate Hp | injection Hp as <-; eexists; by split; [reflexivity|]]|]).
  discriminate Hp.
Qed.

Lemma demo_translation t u x : tn_maps demo_tiny !! (t, u) = Some x -> t = 1 /\ u = 8192.
Proof. cbn [tn_maps demo_tiny]. intros [E _]%lookup_singleton_Some. by injection E as -> ->. Qed.

Lemma demo_free n : (n <= 62)%nat -> free_ram demo_tiny n.
Proof. intros Hn. split_and!; [by apply map_Forall_singleton|done|]. cbn. lia. Qed.

Lemma demo_fault_ready : fault_ready demo_image 8192 1 demo_vms 1 (demo_vtask 3 [] true) 16777216 demo_seg.
Proof.
  split; try done.
  - exists 0%nat. split; [vm_compute; lia|]. split_and!; try done. by intros j ?%Nat.nlt_0_r.
  - by exists (4096, 6).
  - by apply (demo_free 3); lia.
Qed.


Lemma service_lookup_answered_witness :
  exists v', vm_main_loop demo_image 8192 1 (0, 0) [RPing 3 7; RServiceRegister 3 [102; 115; 0]] demo_vms = Ok (tt, v') /\
    lookup_replies 2 (v_out v') = [VmReply 2 SERVICE_LOOKUP_REPLY_MSG [3]].
Proof.
  destruct (service_lookup_answered demo_image 8192 1 (0, 0) demo_vms 2 3 [102; 115] [102; 115; 0] [RPing 3 7])
    as (v' & E & _ & _ & Hr & _); try done.
  - exact demo_table_ok.
  - by eexists.
  - by constructor.
  - split; [done|]. by eexists.
  - exists v'. split; [exact E|exact Hr].
Defined.

Lemma alloc_physical_correct_witness :
  exists v' paddr, vm_handle_message demo_image 8192 1 (0, 0) (RVmAllocPhysical 3 8192 0 6) demo_vms = Ok (tt, v') /\
    v_out v' = [VmReply 3 VM_ALLOC_PHYSICAL_REPLY_MSG [VALLOC_BASE; paddr]].
Proof.
  destruct (alloc_physical_correct demo_image 8192 1 (0, 0) demo_vms 3 1 (demo_vtask 3 [] true) 8192 0 6
      2 (Tiny 4 64 {[ (1, 8192) := (4096, 6) ]} ∅ 5)) as (paddr & k' & t' & E & _).
  1: exact demo_table_ok. 1-3: done. 2-5, 7: done. 2: done.
  - split; [done|done|]. intros u Hu. cbn [v_kernel demo_vms translation tiny_spec].
    destruct (tn_maps demo_tiny !! (_, u)) eqn:Eu; [|done]. apply demo_translation in Eu as [Eu _]. done.
  - by vm_compute.
  - split_and!; [by apply map_Forall_singleton|done|by vm_compute].
  - eexists _, paddr. split; [exact E|done].
Defined.

Lemma task_destroy_dangles_witness :
  exists v', vm_handle_message demo_image 8192 1 (0, 0) (RDestroyTask 3 2) demo_vms = Ok (tt, v') /\
    v_out v' = [VmAsync 3 TASK_DESTROYED_MSG [2]; VmReply 3 DESTROY_TASK_REPLY_MSG []] /\
    vm_handle_message demo_image 8192 1 (0, 0) RTimer v' = Undef.
Proof.
  destruct (task_destroy_dangles demo_image 8192 1 (0, 0) demo_vms 3 2) as (v' & E & _ & Ho & Hu); try done.
  - exact demo_table_ok.
  - split; [done|]. by eexists.
  - exists v'. split_and!; [exact E|exact Ho|exact Hu].
Defined.

