(* ===== verification/FileSystem.v ===== *)
(** The file system server (servers/fs): paths, directories and files over the block cache
    (fs.c), and the open files and requests of its clients (main.c).

    An entry is the data of its block, with the layout of [struct hinafs_entry]; a pointer
    to an entry or to a cached block is the number of the block, so that all of them see
    what was last stored in the cache.  A copy that leaves a block's data is [Undef]. *)

From S2P Require Import Prelude Types Block.

Definition FS_MAGIC : Z := 4060107590 (* 0xf2005346 *).
Definition FS_HEADER_BLOCK : Z := 0.
Definition ROOT_DIR_BLOCK : Z := 1.
Definition BLOCKS_PER_ENTRY : Z := 1908.
Definition FS_TYPE_DIR : Z := 221 (* 0xdd *).
Definition FS_TYPE_FILE : Z := 255 (* 0xff *).
Definition FS_NAME_LEN : nat := 256.
Definition OPEN_FILES_MAX : nat := 64.
Definition CH_SLASH : Z := 47.

(** ** Entries *)
Definition he_type (d : list Z) : Z := get8 0 d.
(** The name as [strcmp] reads it. *)
Definition he_name (d : list Z) : list Z := until_nul (drop 4 d).
Definition he_size (d : list Z) : Z := get32 260 d.
Definition he_num_entries (d : list Z) : Z := get16 260 d.
Definition block_off (i : Z) : nat := Z.to_nat (280 + 2 * i).
Definition set_size (x : Z) (d : list Z) : list Z := splice 260 (le_split 4 x) d.
Definition set_num_entries (x : Z) (d : list Z) : list Z := splice 260 (le_split 2 x) d.
Definition set_entry_block (i x : Z) (d : list Z) : list Z := splice (block_off i) (le_split 2 x) d.
(** A new entry: [memset], the type and the name. *)
Definition new_entry (type : Z) (name : list Z) : list Z :=
  splice 4 (str_copy FS_NAME_LEN name) (splice 0 [type] (replicate (Z.to_nat BLOCK_SIZE) 0)).

(** ** Paths *)

(** The string up to the first slash, and what follows it. *)
Fixpoint split_slash (p : list Z) : list Z * option (list Z) :=
  match p with
  | [] => ([], None)
  | c :: p' =>
      if c =? CH_SLASH then ([], Some p')
      else let '(comp, rest) := split_slash p' in (c :: comp, rest)
  end.
Fixpoint skip_slashes (p : list Z) : list Z :=
  match p with c :: p' => if c =? CH_SLASH then skip_slashes p' else p | [] => [] end.
Definition has_slash (p : list Z) : bool := bool_decide (CH_SLASH ∈ p).
(** The string behind the last slash, from its reverse. *)
Fixpoint basename_back (r acc : list Z) : list Z :=
  match r with
  | [] => acc
  | c :: r' => if c =? CH_SLASH then acc else basename_back r' (c :: acc)
  end.
Definition basename (path : list Z) : list Z := basename_back (rev path) [].

Section Fs.
Context {D : Type} `{BlkDevice D}.
Abbreviation CST := (ST (@cache D)).

Definition block_data (index : Z) : CST (list Z) := b ← getopt (find_cached index); mret (b_data b).
Definition poke (index : Z) (f : list Z -> list Z) : CST unit :=
  _ ← block_data index; modify (update_block index f).
Definition store (index : Z) (f : list Z -> list Z) : CST unit :=
  poke index f ;; block_mark_as_dirty index.
(** [entry->blocks[i]] *)
Definition entry_block (d : list Z) (i : Z) : CST Z :=
  if (0 <=? i) && (i <? BLOCKS_PER_ENTRY) then mret (get16 (block_off i) d) else undef.

(** The entries of a directory from [i] on, [n] of them left: the error and the entry with
    the name. *)
Fixpoint find_entry (name : list Z) (dir i : Z) (n : nat) : CST (Z * option Z) :=
  match n with
  | O => mret (OK, None)
  | S n' =>
      d ← block_data dir;
      index ← entry_block d i;
      err ← block_read index;
      if negb (err =? OK) then mret (err, None)
      else
        e ← block_data index;
        if bool_decide (name = he_name e) then mret (OK, Some index)
        else find_entry name dir (i + 1) n'
  end.

(** The walk from the directory [dir] along [p]; every round uses up a character.  Behind
    an empty last component the code continues at [NULL + 1]. *)
Fixpoint lookup_loop (fuel : nat) (p : list Z) (parent_dir : bool) (dir : Z) : CST (Z * Z) :=
  match fuel with
  | O => undef
  | S fuel' =>
      let '(comp, rest) := split_slash p in
      if bool_decide (comp = []) || bool_decide (comp = [46]) then
        match rest with None => undef | Some p' => lookup_loop fuel' p' parent_dir dir end
      else if bool_decide (comp = [46; 46]) then mret (ERR_INVALID_ARG, 0)
      else
        d ← block_data dir;
        assert (he_type d =? FS_TYPE_DIR) ;;
        '(err, found) ← find_entry comp dir 0 (Z.to_nat (he_num_entries d));
        if negb (err =? OK) then mret (err, 0)
        else
          match found with
          | None => mret (ERR_NOT_FOUND, 0)
          | Some eb =>
              match rest with
              | None => mret (OK, eb)
              | Some p' =>
                  if parent_dir && negb (has_slash (drop 1 comp)) then mret (OK, eb)
                  else lookup_loop fuel' p' parent_dir eb
              end
          end
  end.
Definition lookup (path : list Z) (parent_dir : bool) : CST (Z * Z) :=
  let p := skip_slashes path in
  if bool_decide (p = []) || (parent_dir && negb (has_slash p)) then mret (OK, ROOT_DIR_BLOCK)
  else lookup_loop (S (length p)) p parent_dir ROOT_DIR_BLOCK.

(** ** Files *)

(** The copy at [off] of a block's data, of [len] bytes. *)
Definition block_slice (d : list Z) (off len : Z) : CST (list Z) :=
  if off + len <=? BLOCK_SIZE then mret (take (Z.to_nat len) (drop (Z.to_nat off) d)) else undef.
Definition block_splice (index off : Z) (bytes : list Z) : CST unit :=
  if off + Z.of_nat (length bytes) <=? BLOCK_SIZE then store index (splice (Z.to_nat off) bytes) else undef.

(** The number of the file's [i]th data block, allocated if the file has none. *)
Definition data_block (entry i : Z) (write : bool) : CST Z :=
  d ← block_data entry;
  index ← entry_block d i;
  if index =? 0 then
    assert write ;;
    new ← alloc_block;
    if new =? 0 then mret 0
    else store entry (set_entry_block i new) ;; mret new
  else mret index.

(** The loop from block [i] on, at [off] of that block, with [total] bytes copied; [data] is
    what a write has left, [acc] what a read has copied.  At most [n] blocks are left. *)
Fixpoint readwrite_loop (n : nat) (entry i off size total : Z) (write : bool) (data acc : list Z)
    : CST (Z * Z * list Z) :=
  match n with
  | O => mret (OK, total, acc)
  | S n' =>
      if negb (total <? size) then mret (OK, total, acc)
      else
        index ← data_block entry i write;
        if index =? 0 then mret (ERR_NO_RESOURCES, total, acc)
        else
          err ← block_read index;
          if negb (err =? OK) then mret (err, total, acc)
          else
            let copy_len := Z.min (size - total) BLOCK_SIZE in
            (if write then block_splice index off (take (Z.to_nat copy_len) data) else mret tt) ;;
            d ← block_data index;
            bytes ← (if write then mret [] else block_slice d off copy_len);
            readwrite_loop n' entry (i + 1) 0 size (total + copy_len) write
              (drop (Z.to_nat copy_len) data) (acc ++ bytes)
  end.

(** [buf] holds [size] bytes for a write; a read returns what it copied into it. *)
Definition readwrite (entry : Z) (buf : list Z) (size offset : Z) (write : bool) : CST (Z * list Z) :=
  d ← block_data entry;
  if negb (he_type d =? FS_TYPE_FILE) then mret (ERR_NOT_A_FILE, [])
  else if negb ((offset <? he_size d) || (write && (offset =? he_size d))) then mret (ERR_EOF, [])
  else
    let first_i := offset / BLOCK_SIZE in
    '(err, total, bytes) ← readwrite_loop (Z.to_nat (BLOCKS_PER_ENTRY - first_i)) entry first_i
       (offset `mod` BLOCK_SIZE) size 0 write buf [];
    if negb (err =? OK) then mret (err, bytes)
    else
      (if write then store entry (set_size (u32 (offset + total))) else mret tt) ;;
      mret (OK, bytes).

(** Release the file's blocks from the [i]th on, [n] left. *)
Fixpoint free_blocks (entry i : Z) (n : nat) : CST unit :=
  match n with
  | O => mret tt
  | S n' =>
      d ← block_data entry;
      index ← entry_block d i;
      if index =? 0 then mret tt else free_block index ;; free_blocks entry (i + 1) n'
  end.

(** Remove an entry from the list of its directory: the slots from [i] on. *)
Fixpoint remove_entry (dir entry i : Z) (n : nat) : CST unit :=
  match n with
  | O => mret tt
  | S n' =>
      d ← block_data dir;
      index ← entry_block d i;
      if index =? entry then
        let last := he_num_entries d - 1 in
        x ← entry_block d last;
        store dir (fun d => set_num_entries last (set_entry_block last 0 (set_entry_block i x d)))
      else remove_entry dir entry (i + 1) n'
  end.

Definition fs_delete (path : list Z) : CST Z :=
  '(err, dir) ← lookup path true;
  if negb (err =? OK) then mret err
  else
    '(err, entry) ← lookup path false;
    if negb (err =? OK) then mret err
    else
      d ← block_data entry;
      let remove :=
        dd ← block_data dir;
        remove_entry dir entry 0 (Z.to_nat (he_num_entries dd)) ;; mret OK in
      if he_type d =? FS_TYPE_FILE then free_blocks entry 0 (Z.to_nat BLOCKS_PER_ENTRY) ;; remove
      else if he_type d =? FS_TYPE_DIR then
        if 0 <? he_num_entries d then mret ERR_NOT_EMPTY else remove
      else panic.

(** Characters that may not be in a name. *)
Definition bad_char (c : Z) : bool := (c <? 32) || (126 <? c).

Definition fs_create (path : list Z) (type : Z) : CST Z :=
  let name := basename path in
  if (FS_NAME_LEN <=? length name)%nat then mret ERR_INVALID_ARG
  else if bool_decide (name = []) then mret ERR_INVALID_ARG
  else if existsb bad_char name then mret ERR_INVALID_ARG
  else
    '(err, _) ← lookup path false;
    if err =? OK then mret ERR_ALREADY_EXISTS
    else
      '(err, dir) ← lookup path true;
      if negb (err =? OK) then mret err
      else
        d ← block_data dir;
        if BLOCKS_PER_ENTRY <=? he_num_entries d then mret ERR_NO_RESOURCES
        else
          new_index ← alloc_block;
          if new_index =? 0 then mret ERR_NO_RESOURCES
          else
            err ← block_read new_index;
            if negb (err =? OK) then free_block new_index ;; mret err
            else
              poke new_index (fun _ => new_entry type name) ;;
              assert (negb (has_slash (str_copy FS_NAME_LEN name))) ;;
              poke dir (fun d => set_num_entries (u16 (he_num_entries d + 1)) (set_entry_block (he_num_entries d) new_index d)) ;;
              block_mark_as_dirty dir ;;
              block_mark_as_dirty new_index ;;
              mret OK.

Definition fs_find (path : list Z) : CST (Z * Z) := lookup path false.
Definition fs_readwrite := readwrite.

Definition fs_readdir (path : list Z) (index : Z) : CST (Z * Z) :=
  '(err, dir) ← lookup path false;
  if negb (err =? OK) then mret (err, 0)
  else
    d ← block_data dir;
    if negb (he_type d =? FS_TYPE_DIR) then mret (ERR_NOT_A_DIR, 0)
    else if he_num_entries d <=? index then mret (ERR_EOF, 0)
    else
      b ← entry_block d index;
      err ← block_read b;
      if negb (err =? OK) then mret (err, 0) else mret (OK, b).

(** Read a block or stop. *)
Definition must_read (index : Z) : CST (list Z) :=
  err ← block_read index; if negb (err =? OK) then panic else block_data index.
Definition fs_init : CST unit :=
  h ← must_read FS_HEADER_BLOCK;
  assert (get32 0 h =? FS_MAGIC) ;;
  r ← must_read ROOT_DIR_BLOCK;
  assert (he_type r =? FS_TYPE_DIR) ;;
  for_range 0 (Z.to_nat NUM_BITMAP_BLOCKS) (fun i => _ ← must_read (BITMAP_FIRST_BLOCK + Z.of_nat i); mret tt).

(** ** Open files *)
Record open_file := OpenFile { of_used : bool; of_task : Z; of_entry_block : Z; of_offset : Z }.

Inductive fs_action :=
| FsError (task err : Z)
| FsOpened (task fd : Z)
| FsClosed (task : Z)
| FsData (task : Z) (data : list Z) (data_len : Z)
| FsWritten (task written_len : Z)
| FsEntry (task : Z) (name : list Z) (type filesize : Z)
| FsMade (task : Z)
| FsMadeDir (task : Z)
| FsDeleted (task : Z).

Inductive fs_request :=
| QTaskDestroyed (src task : Z)
| QOpen (src : Z) (path : list Z)
| QClose (src fd : Z)
| QRead (src fd len : Z)
| QWrite (src fd : Z) (data : list Z) (data_len : Z)
| QReaddir (src : Z) (path : list Z) (index : Z)
| QMkfile (src : Z) (path : list Z)
| QMkdir (src : Z) (path : list Z)
| QDelete (src : Z) (path : list Z)
| QUnknown (src type : Z).

Record fss := Fss { f_cache : @cache D; f_files : list open_file; f_out : list fs_action }.
Abbreviation FST := (ST fss).
Definition fset_cache x f := Fss x (f_files f) (f_out f).
Definition fset_files x f := Fss (f_cache f) x (f_out f).
Definition fs_send (a : fs_action) : FST unit := modify (fun f => Fss (f_cache f) (f_files f) (f_out f ++ [a])).
Definition lift_fs {A} (m : CST A) : FST A := fun f =>
  match m (f_cache f) with Ok (a, c) => Ok (a, fset_cache c f) | Panic => Panic | Undef => Undef end.

(** The first free slot, from slot [i] on. *)
Fixpoint alloc_fd_loop (i : nat) (l : list open_file) : option nat :=
  match l with
  | [] => None
  | o :: l' => if of_used o then alloc_fd_loop (S i) l' else Some i
  end.
Definition alloc_fd : FST Z :=
  l ← gets f_files;
  match alloc_fd_loop 0 l with
  | None => mret 0
  | Some i =>
      modify (fset_files (alter (fun o => OpenFile true (of_task o) (of_entry_block o) (of_offset o)) i l)) ;;
      mret (Z.of_nat i + 1)
  end.

Definition lookup_open_file (task fd : Z) : FST (option nat) :=
  if (fd <? 1) || (Z.of_nat OPEN_FILES_MAX <? fd) then mret None
  else
    o ← getopt (fun f => f_files f !! Z.to_nat (fd - 1));
    if negb (of_used o) || negb (of_task o =? task) then mret None else mret (Some (Z.to_nat (fd - 1))).

Definition free_open_file (i : nat) : FST unit :=
  modify (fun f => fset_files (alter (fun o => OpenFile false (of_task o) (of_entry_block o) (of_offset o)) i (f_files f)) f).
Definition free_fd (task fd : Z) : FST unit :=
  o ← lookup_open_file task fd;
  match o with None => mret tt | Some i => free_open_file i end.
Definition fs_do_task_destroyed (task : Z) : FST unit :=
  for_range 0 OPEN_FILES_MAX (fun i =>
    o ← getopt (fun f => f_files f !! i);
    if of_used o && (of_task o =? task) then free_open_file i else mret tt).

Definition do_open (task : Z) (path : list Z) : FST Z :=
  '(err, entry) ← lift_fs (fs_find path);
  if negb (err =? OK) then mret err
  else
    fd ← alloc_fd;
    if fd =? 0 then mret ERR_NO_RESOURCES
    else
      modify (fun f => fset_files (<[Z.to_nat (fd - 1) := OpenFile true task entry 0]> (f_files f)) f) ;;
      mret fd.

(** The length (or the error), and what a read copied. *)
Definition do_readwrite (task fd : Z) (buf : list Z) (len : Z) (write : bool) : FST (Z * list Z) :=
  i ← lookup_open_file task fd;
  match i with
  | None => mret (ERR_INVALID_ARG, [])
  | Some i =>
      o ← getopt (fun f => f_files f !! i);
      d ← lift_fs (block_data (of_entry_block o));
      let len := if write then len else Z.min len (u32 (he_size d - of_offset o)) in
      if negb write && (he_size d <=? of_offset o) then mret (ERR_EOF, [])
      else
        '(err, bytes) ← lift_fs (fs_readwrite (of_entry_block o) buf len (of_offset o) write);
        if negb (err =? OK) then mret (err, bytes)
        else
          modify (fun f => fset_files (<[i := OpenFile (of_used o) (of_task o) (of_entry_block o) (u32 (of_offset o + len))]> (f_files f)) f) ;;
          mret (len, bytes)
  end.

Definition fs_handle_message (r : fs_request) : FST unit :=
  match r with
  | QTaskDestroyed src task => if negb (src =? 1) then mret tt else fs_do_task_destroyed task
  | QOpen src path =>
      fd ← do_open src (str_copy FS_NAME_LEN path);
      if IS_ERROR fd then fs_send (FsError src fd) else fs_send (FsOpened src fd)
  | QClose src fd => free_fd src fd ;; fs_send (FsClosed src)
  | QRead src fd len =>
      '(n, bytes) ← do_readwrite src fd [] (Z.min len 512) false;
      if IS_ERROR n then fs_send (FsError src n) else fs_send (FsData src bytes n)
  | QWrite src fd data data_len =>
      let len := Z.min data_len 1024 in
      '(n, _) ← do_readwrite src fd (take (Z.to_nat len) data) len true;
      if IS_ERROR n then fs_send (FsError src n) else fs_send (FsWritten src n)
  | QReaddir src path index =>
      '(err, entry) ← lift_fs (fs_readdir (str_copy FS_NAME_LEN path) index);
      if IS_ERROR err then fs_send (FsError src err)
      else
        d ← lift_fs (block_data entry);
        fs_send (FsEntry src (take (FS_NAME_LEN - 1) (he_name d)) (he_type d)
                   (if he_type d =? FS_TYPE_FILE then he_size d else 0))
  | QMkfile src path =>
      err ← lift_fs (fs_create (str_copy FS_NAME_LEN path) FS_TYPE_FILE);
      if negb (err =? OK) then fs_send (FsError src err) else fs_send (FsMade src)
  | QMkdir src path =>
      err ← lift_fs (fs_create (str_copy FS_NAME_LEN path) FS_TYPE_DIR);
      if IS_ERROR err then fs_send (FsError src err) else fs_send (FsMadeDir src)
  | QDelete src path =>
      err ← lift_fs (fs_delete (str_copy FS_NAME_LEN path));
      if IS_ERROR err then fs_send (FsError src err) else fs_send (FsDeleted src)
  | QUnknown _ _ => mret tt
  end.

(** A round of the main loop: write the changed blocks back, then serve a request. *)
Definition fs_round (r : fs_request) : FST unit := lift_fs block_flush_all ;; fs_handle_message r.
Fixpoint fs_main_loop (rs : list fs_request) : FST unit :=
  match rs with [] => mret tt | r :: rs' => fs_round r ;; fs_main_loop rs' end.
End Fs.
Arguments fss : clear implicits.

(** ** Path resolution *)
Section Paths.
Context {D : Type} `{Disk D}.
Implicit Types (c : @cache D) (view : Z -> list Z).

(** The specification: names are resolved against the contents of the blocks. *)
Fixpoint child_from view (dir : Z) (name : list Z) (i : Z) (n : nat) : option Z :=
  match n with
  | O => None
  | S n' =>
      let e := get16 (block_off i) (view dir) in
      if bool_decide (name = he_name (view e)) then Some e else child_from view dir name (i + 1) n'
  end.
Definition child view (dir : Z) (name : list Z) : option Z :=
  child_from view dir name 0 (Z.to_nat (he_num_entries (view dir))).
(** Descending below a file stops the server (an assertion). *)
Fixpoint resolve view (dir : Z) (steps : list (list Z)) : outcome (Z * Z) :=
  match steps with
  | [] => Ok (OK, dir)
  | name :: rest =>
      if he_type (view dir) =? FS_TYPE_DIR then
        match child view dir name with
        | None => Ok (ERR_NOT_FOUND, 0)
        | Some e => resolve view e rest
        end
      else Panic
  end.

Fixpoint join_path (comps : list (list Z)) : list Z :=
  match comps with
  | [] => []
  | [x] => x
  | x :: comps' => x ++ CH_SLASH :: join_path comps'
  end.
(** The components that name something. *)
Definition proper (x : list Z) : Prop := x <> [] /\ x <> [46].
#[local] Instance proper_dec x : Decision (proper x).
Proof. unfold proper. apply _. Defined.
Definition steps (comps : list (list Z)) : list (list Z) := filter proper comps.

(** Directories hold at most [BLOCKS_PER_ENTRY] entries, all of them valid block numbers. *)
Definition tree_ok view : Prop := forall dir, he_type (view dir) = FS_TYPE_DIR ->
  0 <= he_num_entries (view dir) <= BLOCKS_PER_ENTRY /\
  forall i, 0 <= i < he_num_entries (view dir) -> 0 <= get16 (block_off i) (view dir) < 65535.

Lemma block_data_run c i b : find_cached i c = Some b -> block_data i c = Ok (b_data b, c).
Proof. intros E. unfold block_data, getopt, mbind, ST_bind. by rewrite E. Qed.
Lemma view_cached c i b : find_cached i c = Some b -> store_view c i = b_data b.
Proof. intros E. unfold store_view. by rewrite E. Qed.

(** A cache that only read blocks. *)
Record reads c c' : Prop := {
  rd_coherent : coherent c';
  rd_view : forall j, store_view c' j = store_view c j;
  rd_cached : forall j b, find_cached j c = Some b -> find_cached j c' = Some b }.
Lemma reads_refl c : coherent c -> reads c c.
Proof. by split. Qed.
Lemma reads_trans c1 c2 c3 : reads c1 c2 -> reads c2 c3 -> reads c1 c3.
Proof. intros [? H1 ?] [? H2 ?]. split; [done|intros; by rewrite H2, H1|auto]. Qed.

Lemma block_read_reads c i :
  coherent c -> 0 <= i < 65535 ->
  exists c', block_read i c = Ok (OK, c') /\ reads c c' /\ find_cached i c' = Some (Block i (store_view c i)).
Proof.
  intros C Hi. destruct (block_read_correct c i C Hi) as (c' & E & C' & Hf & Hv). exists c'. split_and!; [done| |done].
  split; [done|done|]. intros j b Hj. destruct (decide (j = i)) as [->|Hne].
  - rewrite Hf. unfold store_view. rewrite Hj. apply find_cached_some in Hj as [_ <-]. by destruct b.
  - unfold block_read in E. destruct (Z.eqb_spec i 65535); [lia|].
    rewrite (ST_bind_run (gets _) _ _ _ _ eq_refl) in E. destruct (find_cached i c); [by injection E as <-|].
    rewrite (ST_bind_run _ _ _ _ _ (block_read_loop_run i 8 0 [] c ltac:(lia) ltac:(lia))) in E.
    change (OK =? OK) with true in E. cbn [negb] in E. injection E as <-.
    rewrite find_cached_snoc, Hj. done.
Qed.

Lemma find_entry_run name dir n : forall i c b,
  coherent c -> find_cached dir c = Some b -> 0 <= i -> i + Z.of_nat n <= BLOCKS_PER_ENTRY ->
  (forall j, i <= j < i + Z.of_nat n -> 0 <= get16 (block_off j) (store_view c dir) < 65535) ->
  exists c', find_entry name dir i n c = Ok ((OK, child_from (store_view c) dir name i n), c') /\ reads c c' /\
    (forall e, child_from (store_view c) dir name i n = Some e -> exists b', find_cached e c' = Some b').
Proof.
  induction n as [|n IH]; intros i c b C Hb Hi Hn Hv; [exists c; by split_and!; [|apply reads_refl|]|].
  cbn [find_entry child_from]. rewrite (ST_bind_run _ _ _ _ _ (block_data_run _ _ _ Hb)).
  rewrite <- (view_cached _ _ _ Hb). set (e := get16 (block_off i) (store_view c dir)).
  unfold entry_block. destruct (Z.leb_spec 0 i); [|lia]. destruct (Z.ltb_spec i BLOCKS_PER_ENTRY); [|lia]. cbn [andb].
  rewrite (ST_bind_run _ _ _ e c eq_refl).
  destruct (block_read_reads c e C) as (c1 & E1 & R1 & Hf1); [apply Hv; lia|].
  rewrite (ST_bind_run _ _ _ _ _ E1). change (negb (OK =? OK)) with false. cbv iota.
  rewrite (ST_bind_run _ _ _ _ _ (block_data_run _ _ _ Hf1)). cbn [b_data].
  case_bool_decide as Hn'.
  - exists c1. split_and!; [done|done|]. intros e' [= <-]. by eexists.
  - destruct (IH (i + 1) c1 b) as (c2 & E2 & R2 & Hc2).
    + apply R1. + by apply R1. + lia. + lia.
    + intros j Hj. rewrite (rd_view _ _ R1). apply Hv. lia.
    + assert (Ec : child_from (store_view c1) dir name (i + 1) n = child_from (store_view c) dir name (i + 1) n).
      { clear -R1. generalize (i + 1). induction n as [|n IH]; intros k; [done|]. cbn [child_from].
        rewrite !(rd_view _ _ R1). by rewrite IH. }
      rewrite Ec in E2, Hc2. exists c2. split_and!; [done|by apply (reads_trans _ c1)|done].
Qed.

Lemma split_slash_app x p : CH_SLASH ∉ x -> split_slash (x ++ CH_SLASH :: p) = (x, Some p).
Proof.
  induction x as [|a x IH]; intros Hx; [done|]. cbn. destruct (Z.eqb_spec a CH_SLASH) as [->|]; [destruct Hx; by left|].
  rewrite IH; [done|]. intros ?. apply Hx. by right.
Qed.
Lemma split_slash_last x : CH_SLASH ∉ x -> split_slash x = (x, None).
Proof.
  induction x as [|a x IH]; intros Hx; [done|]. cbn. destruct (Z.eqb_spec a CH_SLASH) as [->|]; [destruct Hx; by left|].
  rewrite IH; [done|]. intros ?. apply Hx. by right.
Qed.
Lemma join_path_cons x y comps : join_path (x :: y :: comps) = x ++ CH_SLASH :: join_path (y :: comps).
Proof. done. Qed.

(** A component of a path the walk can follow: no slash, and not "..". *)
Definition plain (x : list Z) : Prop := CH_SLASH ∉ x /\ x <> [46; 46].

(** What [lookup] returns for the specification's answer. *)
Definition returns c (m : ST (@cache D) (Z * Z)) (o : outcome (Z * Z)) : Prop :=
  match o with
  | Ok r => exists c', m c = Ok (r, c') /\ reads c c' /\ (fst r = OK -> exists b, find_cached (snd r) c' = Some b)
  | Panic => m c = Panic
  | Undef => m c = Undef
  end.

Lemma resolve_ext view view' ss : (forall j, view' j = view j) -> forall dir, resolve view' dir ss = resolve view dir ss.
Proof.
  intros Hv. induction ss as [|s ss IH]; intros dir; [done|]. cbn [resolve]. rewrite Hv. destruct (_ =? _); [|done].
  assert (child view' dir s = child view dir s) as ->.
  { unfold child. rewrite Hv. generalize 0, (Z.to_nat (he_num_entries (view dir))). intros k n. revert k.
    induction n as [|n IHn]; intros k; [done|]. cbn [child_from]. by rewrite !Hv, IHn. }
  destruct (child view dir s); [apply IH|done].
Qed.

Lemma lookup_loop_run comps : forall fuel c dir b,
  coherent c -> tree_ok (store_view c) -> find_cached dir c = Some b -> 
  Forall plain comps -> (exists l x, comps = l ++ [x] /\ proper x) -> (length (join_path comps) < fuel)%nat ->
  returns c (lookup_loop fuel (join_path comps) false dir) (resolve (store_view c) dir (steps comps)).
Proof.
  induction comps as [|x comps IH]; intros fuel c dir b C T Hb Hpl Hlast Hf.
  { destruct Hlast as (l & y & E & _). by destruct l. }
  destruct fuel as [|fuel]; [lia|]. apply Forall_cons in Hpl as [[Hsl Hdd] Hpl].
  set (rest := match comps with [] => None | _ => Some (join_path comps) end).
  assert (Es : split_slash (join_path (x :: comps)) = (x, rest)).
  { destruct comps; [by apply split_slash_last|by rewrite join_path_cons, split_slash_app]. }
  assert (Hlen : forall p, rest = Some p -> p = join_path comps /\ (length p < fuel)%nat /\ comps <> []).
  { unfold rest. destruct comps as [|y comps]; [done|]. intros p [= <-]. rewrite join_path_cons, length_app in Hf.
    simpl in Hf |- *. split_and!; [done|lia|done]. }
  assert (Hl' : comps <> [] -> exists l y, comps = l ++ [y] /\ proper y).
  { destruct Hlast as (l & y & E & Hy). destruct l as [|z l]; injection E as -> E; [done|]. intros _. by exists l, y. }
  cbn [lookup_loop]. rewrite Es.
  destruct (decide (proper x)) as [Hp|Hp].
  2: { unfold steps. rewrite filter_cons_False by done. fold (steps comps).
       assert (bool_decide (x = []) || bool_decide (x = [46]) = true) as ->.
       { unfold proper in Hp. destruct (decide (x = [])); [by rewrite bool_decide_eq_true_2|].
         rewrite (bool_decide_eq_true_2 (x = [46])); [apply orb_true_r|]. destruct (decide (x = [46])); tauto. }
       destruct rest as [p|] eqn:Er.
       - destruct (Hlen p eq_refl) as (-> & ? & Hne). by apply (IH fuel c dir b); auto.
       - exfalso. destruct Hlast as (l & y & E & Hy). unfold rest in Er. destruct comps; [|done].
         destruct l as [|z l]; [by injection E as ->|]. injection E as _ E. by destruct l. }
  unfold steps. rewrite filter_cons_True by done. fold (steps comps). destruct Hp as [Hp1 Hp2].
  rewrite !bool_decide_eq_false_2 by done. cbn [orb resolve]. unfold returns.
  rewrite (ST_bind_run _ _ _ _ _ (block_data_run _ _ _ Hb)), <- (view_cached _ _ _ Hb).
  destruct (Z.eqb_spec (he_type (store_view c dir)) FS_TYPE_DIR) as [Ht|Ht]; [|done].
  rewrite (ST_bind_run _ _ _ tt c eq_refl).
  destruct (T dir Ht) as [Hnum Hent].
  destruct (find_entry_run x dir (Z.to_nat (he_num_entries (store_view c dir))) 0 c b) as (c1 & E1 & R1 & Hc1); auto; try lia.
  { intros j Hj. apply Hent. lia. }
  rewrite (ST_bind_run _ _ _ _ _ E1). fold (child (store_view c) dir x) in Hc1 |- *.
  change (negb (OK =? OK)) with false. cbv iota.
  destruct (child (store_view c) dir x) as [e|]; [|by exists c1].
  destruct (Hc1 e eq_refl) as [b' Hb']. destruct rest as [p|] eqn:Er.
  - destruct (Hlen p eq_refl) as (-> & Hlt & Hne). cbn [andb].
    specialize (IH fuel c1 e b' (rd_coherent _ _ R1)).
    rewrite (resolve_ext (store_view c)) in IH by apply R1.
    assert (T1 : tree_ok (store_view c1)) by (intros d; rewrite !(rd_view _ _ R1); apply T).
    specialize (IH T1 Hb' Hpl (Hl' Hne) Hlt). unfold returns in IH.
    destruct (resolve _ _ _) as [r| |]; [|done..]. destruct IH as (c2 & E2 & R2 & Hr2). exists c2.
    split_and!; [done|by apply (reads_trans _ c1)|done].
  - assert (comps = []) as -> by (unfold rest in Er; by destruct comps). cbn. exists c1. split_and!; [done|done|]. by eexists.
Qed.

Lemma skip_slashes_join comps :
  Forall plain comps -> (exists l x, comps = l ++ [x] /\ proper x) ->
  exists comps', skip_slashes (join_path comps) = join_path comps' /\ steps comps' = steps comps /\
    Forall plain comps' /\ (exists l x, comps' = l ++ [x] /\ proper x) /\ join_path comps' <> [].
Proof.
  induction comps as [|x comps IH]; intros Hpl Hlast.
  { destruct Hlast as (l & y & E & _). by destruct l. }
  apply Forall_cons in Hpl as [[Hsl Hdd] Hpl]. destruct x as [|a x].
  - destruct comps as [|y comps].
    { destruct Hlast as (l & z & E & [Hz _]). destruct l as [|? l]; [by injection E as <-|]. injection E as _ E. by destruct l. }
    destruct IH as (cs & E & Hs & Hrest); [done| |].
    { destruct Hlast as (l & z & E & Hz). destruct l as [|? l]; [by injection E|]. injection E as _ E. by exists l, z. }
    exists cs. split_and!; [exact E| |apply Hrest..]. rewrite Hs. unfold steps at 2.
    rewrite filter_cons_False; [done|]. by intros [].
  - exists ((a :: x) :: comps).
    assert (Ha : a <> CH_SLASH) by (intros ->; apply Hsl; by left).
    assert (Hj : exists t, join_path ((a :: x) :: comps) = a :: t) by (destruct comps; by eexists).
    destruct Hj as [t Hj]. split_and!; [|done|by constructor|done|by rewrite Hj].
    rewrite Hj. cbn. by destruct (Z.eqb_spec a CH_SLASH).
Qed.

Lemma fs_find_resolves c comps b :
  coherent c -> tree_ok (store_view c) -> find_cached ROOT_DIR_BLOCK c = Some b ->
  Forall plain comps -> (exists l x, comps = l ++ [x] /\ proper x) ->
  returns c (fs_find (join_path comps)) (resolve (store_view c) ROOT_DIR_BLOCK (steps comps)).
Proof.
  intros C T Hb Hpl Hlast. destruct (skip_slashes_join comps Hpl Hlast) as (cs & E & <- & Hpl' & Hl' & Hne).
  unfold fs_find, lookup. rewrite E. rewrite bool_decide_eq_false_2 by done. cbn [orb andb].
  apply (lookup_loop_run cs _ c ROOT_DIR_BLOCK b); auto.
Qed.


(** The parent of a path is taken to be its first directory.  The test for the last slash
    looks behind the slash that the code has just overwritten with a terminator; so for a
    path of two or more names the lookup of the parent ends at the entry of the first name,
    however many names follow. *)
Theorem lookup_parent_first c x y comps b e :
  coherent c -> tree_ok (store_view c) -> find_cached ROOT_DIR_BLOCK c = Some b ->
  Forall plain (x :: y :: comps) -> proper x -> he_type (store_view c ROOT_DIR_BLOCK) = FS_TYPE_DIR ->
  child (store_view c) ROOT_DIR_BLOCK x = Some e ->
  exists c', lookup (join_path (x :: y :: comps)) true c = Ok ((OK, e), c') /\ reads c c'.
Proof.
  intros C T Hb Hpl [Hp1 Hp2] Ht He. apply Forall_cons in Hpl as [[Hsl Hdd] _].
  assert (Es : split_slash (join_path (x :: y :: comps)) = (x, Some (join_path (y :: comps)))) by (by rewrite join_path_cons, split_slash_app).
  destruct x as [|a x]; [done|]. assert (Ha : a <> CH_SLASH) by (intros ->; apply Hsl; by left).
  unfold lookup. assert (Ek : skip_slashes (join_path ((a :: x) :: y :: comps)) = join_path ((a :: x) :: y :: comps)).
  { rewrite join_path_cons. cbn. by destruct (Z.eqb_spec a CH_SLASH). }
  rewrite Ek, bool_decide_eq_false_2 by (by rewrite join_path_cons).
  assert (has_slash (join_path ((a :: x) :: y :: comps)) = true) as ->.
  { apply bool_decide_eq_true_2. rewrite join_path_cons, elem_of_app. right. by left. }
  cbn [orb andb negb]. cbn [lookup_loop]. rewrite Es, !bool_decide_eq_false_2 by done. cbn [orb].
  rewrite (ST_bind_run _ _ _ _ _ (block_data_run _ _ _ Hb)), <- (view_cached _ _ _ Hb), Ht.
  rewrite (ST_bind_run _ _ _ tt c eq_refl). destruct (T _ Ht) as [Hnum Hent].
  destruct (find_entry_run (a :: x) ROOT_DIR_BLOCK (Z.to_nat (he_num_entries (store_view c ROOT_DIR_BLOCK))) 0 c b) as (c1 & E1 & R1 & _); auto; try lia.
  { intros j Hj. apply Hent. lia. }
  rewrite (ST_bind_run _ _ _ _ _ E1). fold (child (store_view c) ROOT_DIR_BLOCK (a :: x)). rewrite He.
  exists c1. split; [|done]. change (negb (OK =? OK)) with false. cbv iota.
  unfold has_slash. rewrite bool_decide_eq_false_2; [done|]. intros Hin. apply Hsl. right. exact Hin.
Qed.
End Paths.

(** ** Stores into cached blocks *)
Section Stores.
Context {D : Type} `{Disk D}.
Implicit Types c : @cache D.

(** Coherent, but the blocks of [X] may have changed without being marked. *)
Record coherent_but (X : list Z) c : Prop := {
  cb_nodup : NoDup (b_index <$> cached_blocks c);
  cb_range : forall b, b ∈ cached_blocks c -> 0 <= b_index b;
  cb_length : forall b, b ∈ cached_blocks c -> length (b_data b) = Z.to_nat BLOCK_SIZE;
  cb_clean : forall b, b ∈ cached_blocks c -> b_index b ∉ dirty_blocks c -> b_index b ∉ X ->
    b_data b = disk_block (blk_server c) (b_index b);
  cb_dirty : forall i, i ∈ dirty_blocks c -> is_Some (find_cached i c);
  cb_dirty_nodup : NoDup (dirty_blocks c) }.

Lemma coherent_but_nil c : coherent_but [] c <-> coherent c.
Proof. split; intros [? ? ? ? ? ?]; split; auto. intros. auto using not_elem_of_nil. Qed.

Lemma update_block_cached i f c :
  cached_blocks (update_block i f c) = (fun b => if b_index b =? i then Block i (f (b_data b)) else b) <$> cached_blocks c.
Proof. done. Qed.
Lemma update_block_index i f c : b_index <$> cached_blocks (update_block i f c) = b_index <$> cached_blocks c.
Proof.
  rewrite update_block_cached, <- list_fmap_compose. apply list_fmap_ext. intros k b _. simpl.
  destruct (Z.eqb_spec (b_index b) i); [by subst|done].
Qed.
Lemma find_cached_update_ne i j f c : j <> i -> find_cached j (update_block i f c) = find_cached j c.
Proof.
  intros Hne. unfold find_cached. rewrite update_block_cached. induction (cached_blocks c) as [|b bs IH]; [done|].
  cbn [fmap list_fmap list_find]. destruct (Z.eqb_spec (b_index b) i) as [E|E].
  - cbn [b_index]. rewrite !decide_False by congruence.
    destruct (list_find _ (_ <$> bs)) as [[? ?]|], (list_find _ bs) as [[? ?]|]; simpl in *; congruence.
  - destruct (decide (b_index b = j)); [done|].
    destruct (list_find _ (_ <$> bs)) as [[? ?]|], (list_find _ bs) as [[? ?]|]; simpl in *; congruence.
Qed.

Lemma poke_run X i f c b :
  coherent_but X c -> find_cached i c = Some b -> length (f (b_data b)) = Z.to_nat BLOCK_SIZE ->
  let c' := update_block i f c in
  poke i f c = Ok (tt, c') /\ coherent_but (i :: X) c' /\ find_cached i c' = Some (Block i (f (b_data b))) /\
  (forall j, j <> i -> find_cached j c' = find_cached j c) /\
  (forall j, store_view c' j = if decide (j = i) then f (store_view c i) else store_view c j).
Proof.
  intros [C1 C2 C3 C4 C5 C6] Hb Hl c'.
  assert (Hf : find_cached i c' = Some (Block i (f (b_data b)))) by (unfold c'; by rewrite find_cached_update, Hb).
  assert (Hne : forall j, j <> i -> find_cached j c' = find_cached j c) by (intros; by apply find_cached_update_ne).
  split_and!; auto.
  - unfold poke. by rewrite (ST_bind_run _ _ _ _ _ (block_data_run _ _ _ Hb)).
  - assert (Hel : forall b', b' ∈ cached_blocks c' -> b_index b' = i /\ b' = Block i (f (b_data b)) \/ b_index b' <> i /\ b' ∈ cached_blocks c).
    { intros b' Hb'. destruct (decide (b_index b' = i)) as [E|E].
      - left. split; [done|]. assert (find_cached (b_index b') c' = Some b') as Hx.
        { apply find_cached_in; [|done]. unfold c'. by rewrite update_block_index. }
        rewrite E, Hf in Hx. congruence.
      - right. split; [done|]. apply list_elem_of_fmap in Hb' as (b0 & -> & Hb0).
        destruct (Z.eqb_spec (b_index b0) i); [by destruct E|done]. }
    split.
    + unfold c'. by rewrite update_block_index.
    + intros b' [[E ->]|[E Hb']]%Hel; [|by apply C2]. cbn. destruct (find_cached_some _ _ _ Hb) as [Hin <-]. by apply C2.
    + intros b' [[E ->]|[E Hb']]%Hel; [done|by apply C3].
    + intros b' [[E ->]|[E Hb']]%Hel Hd HX; [destruct HX; by left|]. apply C4; auto. intros ?. apply HX. by right.
    + intros j Hj. destruct (decide (j = i)) as [->|]; [by rewrite Hf|rewrite Hne by done; by apply C5].
    + done.
  - intros j. unfold store_view. case_decide as E; [subst; by rewrite Hf, Hb|]. by rewrite Hne.
Qed.

Lemma mark_run X i c b :
  coherent_but (i :: X) c -> find_cached i c = Some b ->
  exists c', block_mark_as_dirty i c = Ok (tt, c') /\ coherent_but X c' /\
    (forall j, find_cached j c' = find_cached j c) /\ (forall j, store_view c' j = store_view c j).
Proof.
  intros [C1 C2 C3 C4 C5 C6] Hb. eexists. split; [reflexivity|]. unfold block_is_dirty.
  case_bool_decide as Hd.
  - split_and!; [|done|done]. split; auto. intros b' Hb' Hnd HX. apply C4; auto. rewrite elem_of_cons. intros [E|?]; [|done].
    by rewrite E in Hnd.
  - split_and!; [|done|done]. split; auto; cbn [set_dirty cached_blocks dirty_blocks blk_server].
    + intros b' Hb' Hnd HX. rewrite elem_of_app, list_elem_of_singleton in Hnd. apply C4; [done|tauto|rewrite elem_of_cons; tauto].
    + intros j. rewrite elem_of_app, list_elem_of_singleton. intros [Hj| ->]; [by apply C5|]. by exists b.
    + apply NoDup_app. split_and!; [done| |apply NoDup_singleton]. intros x Hx ->%list_elem_of_singleton. done.
Qed.

Lemma store_run i f c b :
  coherent c -> find_cached i c = Some b -> length (f (b_data b)) = Z.to_nat BLOCK_SIZE ->
  exists c', store i f c = Ok (tt, c') /\ coherent c' /\ find_cached i c' = Some (Block i (f (b_data b))) /\
    (forall j, j <> i -> find_cached j c' = find_cached j c) /\
    (forall j, store_view c' j = if decide (j = i) then f (store_view c i) else store_view c j).
Proof.
  intros C Hb Hl. apply coherent_but_nil in C.
  destruct (poke_run [] i f c b C Hb Hl) as (E1 & C1 & F1 & N1 & V1).
  destruct (mark_run [] i _ _ C1 F1) as (c' & E2 & C2 & F2 & V2). exists c'. split_and!.
  - unfold store. by rewrite (ST_bind_run _ _ _ _ _ E1).
  - by apply coherent_but_nil.
  - by rewrite F2.
  - intros j Hj. by rewrite F2, N1.
  - intros j. by rewrite V2, V1.
Qed.
End Stores.

(** ** Reading what was written *)
Section RoundTrip.
Context {D : Type} `{Disk D}.
Implicit Types c : @cache D.

Lemma get8_splice off bs d : (1 <= off)%nat -> (off + length bs <= length d)%nat -> get8 0 (splice off bs d) = get8 0 d.
Proof. intros Ho Hl. destruct d as [|x d]; [done|]. destruct off as [|off]; [lia|done]. Qed.

Lemma set_size_facts x d : length d = Z.to_nat BLOCK_SIZE -> 0 <= x < 2 ^ 32 ->
  length (set_size x d) = Z.to_nat BLOCK_SIZE /\ he_type (set_size x d) = he_type d /\ he_size (set_size x d) = x /\
  (forall i, 0 <= i -> get16 (block_off i) (set_size x d) = get16 (block_off i) d).
Proof.
  intros Hl Hx. unfold set_size. rewrite length_splice. split_and!; [done| | |].
  - apply get8_splice; rewrite ?length_le_split; unfold BLOCK_SIZE in *; lia.
  - unfold he_size, get32. rewrite splice_spec by (rewrite length_le_split; unfold BLOCK_SIZE in *; lia).
    rewrite drop_app_ge by (rewrite length_take; lia). rewrite length_take, Nat.min_l by (unfold BLOCK_SIZE in *; lia).
    rewrite Nat.sub_diag, drop_0, take_app_le by (by rewrite length_le_split). rewrite take_ge by (by rewrite length_le_split).
    rewrite le_combine_split. apply Z.mod_small. done.
  - intros i Hi. unfold get16. f_equal. f_equal. rewrite splice_spec by (rewrite length_le_split; unfold BLOCK_SIZE in *; lia).
    rewrite app_assoc, drop_app_ge.
    2: { rewrite length_app, length_take, length_le_split. unfold block_off, BLOCK_SIZE in *. lia. }
    rewrite length_app, length_take, length_le_split, Nat.min_l, drop_drop by (unfold BLOCK_SIZE in *; lia).
    f_equal. unfold block_off. lia.
Qed.

(** The file's [i]th block, as the directory entry has it. *)
Definition file_block (d : list Z) (i : Z) : Z := get16 (block_off i) d.

(** A file with the data block that [offset] lies in. *)
Record file_ready c (entry offset : Z) : Prop := {
  fr_cached : is_Some (find_cached entry c);
  fr_type : he_type (store_view c entry) = FS_TYPE_FILE;
  fr_offset : 0 <= offset < BLOCKS_PER_ENTRY * BLOCK_SIZE;
  fr_block : 0 < file_block (store_view c entry) (offset / BLOCK_SIZE) < 65535;
  fr_distinct : file_block (store_view c entry) (offset / BLOCK_SIZE) <> entry }.

Lemma data_block_run c entry i w b :
  find_cached entry c = Some b -> 0 <= i < BLOCKS_PER_ENTRY -> file_block (store_view c entry) i <> 0 ->
  data_block entry i w c = Ok (file_block (store_view c entry) i, c).
Proof.
  intros Hb Hi Hn. unfold data_block. rewrite (ST_bind_run _ _ _ _ _ (block_data_run _ _ _ Hb)), <- (view_cached _ _ _ Hb).
  unfold entry_block. destruct (Z.leb_spec 0 i); [|lia]. destruct (Z.ltb_spec i BLOCKS_PER_ENTRY); [|lia]. cbn [andb].
  rewrite (ST_bind_run _ _ _ (file_block (store_view c entry) i) c eq_refl). by destruct (Z.eqb_spec (file_block (store_view c entry) i) 0).
Qed.

Lemma readwrite_loop_done n entry i size w data acc c :
  readwrite_loop n entry i 0 size size w data acc c = Ok (OK, size, acc, c).
Proof. destruct n; [done|]. cbn [readwrite_loop]. by rewrite Z.ltb_irrefl. Qed.

(** One block's worth of a write. *)
Lemma write_block_run m c entry offset data :
  coherent c -> file_ready c entry offset -> data <> [] ->
  offset `mod` BLOCK_SIZE + Z.of_nat (length data) <= BLOCK_SIZE ->
  let x := file_block (store_view c entry) (offset / BLOCK_SIZE) in
  let n := Z.of_nat (length data) in
  exists c', readwrite_loop (S m) entry (offset / BLOCK_SIZE) (offset `mod` BLOCK_SIZE) n 0 true data [] c = Ok (OK, n, [], c') /\
    coherent c' /\ is_Some (find_cached entry c') /\
    (forall j, store_view c' j = if decide (j = x) then splice (Z.to_nat (offset `mod` BLOCK_SIZE)) data (store_view c x) else store_view c j).
Proof.
  intros C [[b Hb] Ht Ho Hx Hne] Hd Hfit x n.
  assert (Hn : 0 < n) by (unfold n; destruct data; [done|simpl; lia]).
  cbn [readwrite_loop]. destruct (Z.ltb_spec 0 n); [|lia]. cbn [negb].
  rewrite (ST_bind_run _ _ _ _ _ (data_block_run c entry (offset / BLOCK_SIZE) true b Hb ltac:(unfold BLOCK_SIZE in *; lia) ltac:(lia))).
  fold x. destruct (Z.eqb_spec x 0); [lia|].
  destruct (block_read_reads c x C ltac:(lia)) as (c1 & E1 & R1 & F1).
  rewrite (ST_bind_run _ _ _ _ _ E1). change (negb (OK =? OK)) with false. cbv iota zeta.
  rewrite Z.sub_0_r, Z.add_0_l, Z.min_l by (unfold BLOCK_SIZE in *; lia).
  rewrite take_ge, drop_ge by (unfold n; lia).
  destruct (store_run x (splice (Z.to_nat (offset `mod` BLOCK_SIZE)) data) c1 _ (rd_coherent _ _ R1) F1) as (c2 & E2 & C2 & F2 & N2 & V2).
  { rewrite length_splice. apply (co_length _ (rd_coherent _ _ R1)). by apply (find_cached_some x). }
  unfold block_splice. destruct (Z.leb_spec (offset `mod` BLOCK_SIZE + Z.of_nat (length data)) BLOCK_SIZE); [|lia].
  rewrite (ST_bind_run _ _ _ _ _ E2), (ST_bind_run _ _ _ _ _ (block_data_run _ _ _ F2)).
  rewrite (ST_bind_run _ _ _ [] c2 eq_refl), readwrite_loop_done. exists c2. split_and!; [done|done| |].
  - exists b. rewrite N2 by done. by apply R1.
  - intros j. rewrite V2, !(rd_view _ _ R1). done.
Qed.

(** One block's worth of a read. *)
Lemma read_block_run m c entry offset n :
  coherent c -> file_ready c entry offset -> 0 < n -> offset `mod` BLOCK_SIZE + n <= BLOCK_SIZE ->
  let x := file_block (store_view c entry) (offset / BLOCK_SIZE) in
  exists c', readwrite_loop (S m) entry (offset / BLOCK_SIZE) (offset `mod` BLOCK_SIZE) n 0 false [] [] c =
      Ok (OK, n, take (Z.to_nat n) (drop (Z.to_nat (offset `mod` BLOCK_SIZE)) (store_view c x)), c') /\ reads c c'.
Proof.
  intros C [[b Hb] Ht Ho Hx Hne] Hn Hfit x.
  cbn [readwrite_loop]. destruct (Z.ltb_spec 0 n); [|lia]. cbn [negb].
  rewrite (ST_bind_run _ _ _ _ _ (data_block_run c entry (offset / BLOCK_SIZE) false b Hb ltac:(unfold BLOCK_SIZE in *; lia) ltac:(lia))).
  fold x. destruct (Z.eqb_spec x 0); [lia|].
  destruct (block_read_reads c x C ltac:(lia)) as (c1 & E1 & R1 & F1).
  rewrite (ST_bind_run _ _ _ _ _ E1). change (negb (OK =? OK)) with false. cbv iota zeta.
  rewrite Z.sub_0_r, Z.add_0_l, Z.min_l by (unfold BLOCK_SIZE in *; lia).
  rewrite (ST_bind_run _ _ _ tt c1 eq_refl), (ST_bind_run _ _ _ _ _ (block_data_run _ _ _ F1)). cbn [b_data].
  unfold block_slice. destruct (Z.leb_spec (offset `mod` BLOCK_SIZE + n) BLOCK_SIZE); [|lia].
  rewrite (ST_bind_run (mret _) _ _ _ _ eq_refl), readwrite_loop_done. by exists c1.
Qed.

Lemma first_blocks offset : 0 <= offset < BLOCKS_PER_ENTRY * BLOCK_SIZE ->
  exists m, Z.to_nat (BLOCKS_PER_ENTRY - offset / BLOCK_SIZE) = S m.
Proof. intros Ho. exists (Z.to_nat (BLOCKS_PER_ENTRY - offset / BLOCK_SIZE - 1)). unfold BLOCKS_PER_ENTRY, BLOCK_SIZE in *. lia. Qed.

End RoundTrip.

(** ** Creating an entry *)
Section Create.
Context {D : Type} `{Disk D}.
Implicit Types (c : @cache D) (d : list Z).

Lemma get16_set_block i x d : length d = Z.to_nat BLOCK_SIZE -> 0 <= i < BLOCKS_PER_ENTRY -> 0 <= x < 65536 ->
  let d' := set_entry_block i x d in
  length d' = Z.to_nat BLOCK_SIZE /\ he_type d' = he_type d /\ he_num_entries d' = he_num_entries d /\
  (forall j, 0 <= j -> get16 (block_off j) d' = if decide (j = i) then x else get16 (block_off j) d).
Proof.
  intros Hl Hi Hx d'. unfold d', set_entry_block, he_type, he_num_entries, get8, get16.
  assert (Hfit : (block_off i + length (le_split 2 x) <= length d)%nat).
  { rewrite length_le_split. unfold block_off, BLOCKS_PER_ENTRY, BLOCK_SIZE in *. lia. }
  split_and!.
  - by rewrite length_splice.
  - rewrite splice_other; [done|done|]. left. unfold block_off. lia.
  - rewrite splice_other; [done|done|]. left. unfold block_off. lia.
  - intros j Hj. case_decide as E.
    + subst j. change 2%nat with (length (le_split 2 x)) at 1. rewrite splice_same by done. rewrite le_combine_split. by apply Z.mod_small.
    + rewrite splice_other; [done|done|]. rewrite length_le_split. unfold block_off. lia.
Qed.

Lemma set_num_facts x d : length d = Z.to_nat BLOCK_SIZE -> 0 <= x < 65536 ->
  let d' := set_num_entries x d in
  length d' = Z.to_nat BLOCK_SIZE /\ he_type d' = he_type d /\ he_num_entries d' = x /\
  (forall j, 0 <= j -> get16 (block_off j) d' = get16 (block_off j) d).
Proof.
  intros Hl Hx d'. unfold d', set_num_entries, he_type, he_num_entries, get8, get16.
  assert (Hfit : (260 + length (le_split 2 x) <= length d)%nat) by (rewrite length_le_split; unfold BLOCK_SIZE in *; lia).
  split_and!.
  - by rewrite length_splice.
  - rewrite splice_other; [done|done|]. left. lia.
  - change 2%nat with (length (le_split 2 x)) at 1. rewrite splice_same by done. rewrite le_combine_split. by apply Z.mod_small.
  - intros j Hj. rewrite splice_other; [done|done|]. right. rewrite length_le_split. unfold block_off. lia.
Qed.

(** An entry added to a directory. *)
Lemma add_entry_facts x d : length d = Z.to_nat BLOCK_SIZE -> 0 <= he_num_entries d < BLOCKS_PER_ENTRY -> 0 <= x < 65536 ->
  let d' := set_num_entries (u16 (he_num_entries d + 1)) (set_entry_block (he_num_entries d) x d) in
  length d' = Z.to_nat BLOCK_SIZE /\ he_type d' = he_type d /\ he_num_entries d' = he_num_entries d + 1 /\
  (forall j, 0 <= j -> get16 (block_off j) d' = if decide (j = he_num_entries d) then x else get16 (block_off j) d).
Proof.
  intros Hl Hn Hx. rewrite u16_small by (unfold BLOCKS_PER_ENTRY in *; lia).
  destruct (get16_set_block (he_num_entries d) x d Hl Hn Hx) as (L & T & N & B).
  destruct (set_num_facts (he_num_entries d + 1) _ L) as (L' & T' & N' & B'); [unfold BLOCKS_PER_ENTRY in *; lia|].
  cbv zeta. split_and!; [done|congruence|done|]. intros j Hj. by rewrite B', B.
Qed.

(** A name [fs_create] accepts. *)
Definition valid_name (name : list Z) : Prop :=
  name <> [] /\ (length name < FS_NAME_LEN)%nat /\ existsb bad_char name = false.

Lemma valid_name_until_nul name l : existsb bad_char name = false -> until_nul (name ++ 0 :: l) = name /\ until_nul name = name.
Proof.
  induction name as [|x name IH]; intros Hb; [done|]. cbn in Hb. apply orb_false_iff in Hb as [Hx Hb].
  destruct (IH Hb) as [E1 E2]. cbn. destruct (Z.eqb_spec x 0) as [->|]; [done|]. by rewrite E1, E2.
Qed.

Lemma valid_name_copy name : (length name < FS_NAME_LEN)%nat -> existsb bad_char name = false -> str_copy FS_NAME_LEN name = name.
Proof.
  intros Hl Hb. unfold str_copy. rewrite (proj2 (valid_name_until_nul name [] Hb)). apply take_ge. unfold FS_NAME_LEN in *. lia.
Qed.

Lemma new_entry_facts type name : valid_name name -> 0 <= type < 256 ->
  length (new_entry type name) = Z.to_nat BLOCK_SIZE /\ he_type (new_entry type name) = type /\
  he_name (new_entry type name) = name /\ he_size (new_entry type name) = 0.
Proof.
  intros (Hne & Hl & Hb) Ht. unfold FS_NAME_LEN in *.
  unfold new_entry. rewrite valid_name_copy by done. set (z := splice 0 [type] (replicate (Z.to_nat BLOCK_SIZE) 0)).
  assert (Hz : z = type :: replicate 4095 0) by reflexivity.
  assert (Hzl : length z = Z.to_nat BLOCK_SIZE) by (rewrite Hz; reflexivity).
  assert (Hfit : (4 + length name <= length z)%nat) by (rewrite Hzl; unfold BLOCK_SIZE; lia).
  split_and!.
  - by rewrite length_splice.
  - unfold he_type. rewrite get8_splice by lia. rewrite Hz. cbn. lia.
  - unfold he_name. rewrite splice_spec by done. rewrite drop_app_ge by (rewrite length_take; lia).
    rewrite length_take, Nat.min_l, Nat.sub_diag, drop_0 by lia. rewrite Hz. cbn [drop Nat.add].
    replace 4095%nat with (3 + length name + S (4091 - length name))%nat by lia.
    rewrite replicate_add, drop_app_ge by (rewrite length_replicate; lia). rewrite length_replicate, Nat.sub_diag, drop_0.
    by apply valid_name_until_nul.
  - unfold he_size, get32. rewrite splice_other by (done || lia). rewrite Hz. reflexivity.
Qed.

Lemma child_from_snoc (view : Z -> list Z) dir name n : forall i,
  child_from view dir name i (S n) =
  match child_from view dir name i n with
  | Some e => Some e
  | None => let e := get16 (block_off (i + Z.of_nat n)) (view dir) in if bool_decide (name = he_name (view e)) then Some e else None
  end.
Proof.
  induction n as [|n IH]; intros i; [cbn; by rewrite Z.add_0_r|].
  cbn [child_from] in IH |- *. case_bool_decide; [done|]. rewrite IH.
  replace (i + 1 + Z.of_nat n) with (i + Z.of_nat (S n)) by lia. done.
Qed.

Lemma child_from_same (view view' : Z -> list Z) dir name n : forall i, 0 <= i ->
  (forall j, i <= j < i + Z.of_nat n -> get16 (block_off j) (view' dir) = get16 (block_off j) (view dir) /\
     view' (get16 (block_off j) (view dir)) = view (get16 (block_off j) (view dir))) ->
  child_from view' dir name i n = child_from view dir name i n.
Proof.
  induction n as [|n IH]; intros i Hi Hs; [done|]. cbn [child_from]. destruct (Hs i) as [-> ->]; [lia|].
  by rewrite IH by (lia || (intros; apply Hs; lia)).
Qed.

(** [alloc_block] when the first bitmap block has a free bit. *)
Lemma alloc_block_run c b j k :
  coherent c -> find_cached BITMAP_FIRST_BLOCK c = Some b -> zero_bit_at (b_data b) 0 = Some (j, k) ->
  8 * j + k + 6 < 65535 ->
  exists c', alloc_block c = Ok (8 * j + k + 6, c') /\ coherent c' /\
    (forall i, i <> BITMAP_FIRST_BLOCK -> find_cached i c' = find_cached i c /\ store_view c' i = store_view c i).
Proof.
  intros C Hb Hz Hlt. destruct (zero_bit_at_spec _ _ _ _ Hz) as [Hj Hk].
  set (f := alter (fun x => Z.lor x (Z.shiftl 1 k)) (Z.to_nat j) : list Z -> list Z).
  destruct (store_run BITMAP_FIRST_BLOCK f c b C Hb) as (c' & E & C' & _ & N & V).
  { unfold f. rewrite length_alter. apply (co_length _ C). by apply (find_cached_some BITMAP_FIRST_BLOCK). }
  exists c'. split_and!; [|done|intros i Hi; split; [by apply N|rewrite V; by rewrite decide_False]].
  unfold store, poke in E. unfold mbind, ST_bind in E. rewrite (block_data_run _ _ _ Hb) in E.
  unfold alloc_block. change (Z.to_nat NUM_BITMAP_BLOCKS) with 4%nat. cbn [alloc_block_loop].
  change (BITMAP_FIRST_BLOCK + 0) with BITMAP_FIRST_BLOCK.
  rewrite (ST_bind_run (getopt (find_cached BITMAP_FIRST_BLOCK)) _ c b c) by (unfold getopt; by rewrite Hb). rewrite Hz.
  rewrite (ST_bind_run (modify _) _ _ _ _ eq_refl). fold f. cbn in E. rewrite (ST_bind_run _ _ _ _ _ E).
  unfold mret, ST_ret. do 2 f_equal. unfold BLOCK_SIZE, NUM_BITMAP_BLOCKS.
  rewrite (u16_small ((0 * 4096 + j) * 8 + k)) by lia. rewrite u16_small by lia. lia.
Qed.

Lemma basename_plain name : CH_SLASH ∉ name -> basename name = name.
Proof.
  intros Hs. unfold basename.
  assert (Hb : forall r acc, CH_SLASH ∉ r -> basename_back r acc = rev r ++ acc).
  { induction r as [|x r IH]; intros acc Hr; [done|]. cbn. destruct (Z.eqb_spec x CH_SLASH) as [->|]; [destruct Hr; by left|].
    rewrite IH by (intros ?; apply Hr; by right). by rewrite <- app_assoc. }
  rewrite Hb, app_nil_r; [apply rev_involutive|]. by rewrite list_elem_of_In, <- in_rev, <- list_elem_of_In.
Qed.

Lemma lookup_parent_single c name : CH_SLASH ∉ name -> lookup name true c = Ok (OK, ROOT_DIR_BLOCK, c).
Proof.
  intros Hsl. unfold lookup. assert (skip_slashes name = name) as ->.
  { destruct name as [|x nm]; [done|]. cbn. destruct (Z.eqb_spec x CH_SLASH) as [->|]; [destruct Hsl; by left|done]. }
  unfold has_slash. rewrite (bool_decide_eq_false_2 (CH_SLASH ∈ name)) by done. by rewrite orb_true_r.
Qed.

(** A directory with room for an entry, whose next free block is [new]. *)
Record create_ready c (name : list Z) (new : Z) : Prop := {
  cr_coherent : coherent c;
  cr_tree : tree_ok (store_view c);
  cr_root : is_Some (find_cached ROOT_DIR_BLOCK c);
  cr_type : he_type (store_view c ROOT_DIR_BLOCK) = FS_TYPE_DIR;
  cr_room : he_num_entries (store_view c ROOT_DIR_BLOCK) < BLOCKS_PER_ENTRY;
  cr_entries : forall i, 0 <= i < he_num_entries (store_view c ROOT_DIR_BLOCK) ->
    6 <= get16 (block_off i) (store_view c ROOT_DIR_BLOCK) /\ get16 (block_off i) (store_view c ROOT_DIR_BLOCK) <> new;
  cr_bitmap : exists b j k, find_cached BITMAP_FIRST_BLOCK c = Some b /\ zero_bit_at (b_data b) 0 = Some (j, k) /\ new = 8 * j + k + 6;
  cr_new : new < 65535;
  cr_name : valid_name name /\ plain name /\ proper name;
  cr_absent : child (store_view c) ROOT_DIR_BLOCK name = None }.

(** The stores of [fs_create], and what they leave. *)
Lemma create_stores c dir new type name bd :
  coherent c -> find_cached dir c = Some bd -> new <> dir -> 0 <= new < 65535 -> valid_name name -> 0 <= type < 256 ->
  0 <= he_num_entries (store_view c dir) < BLOCKS_PER_ENTRY ->
  exists c0 c', block_read new c = Ok (OK, c0) /\
    (poke new (fun _ => new_entry type name) ;;
     (poke dir (fun d => set_num_entries (u16 (he_num_entries d + 1)) (set_entry_block (he_num_entries d) new d)) ;;
      block_mark_as_dirty dir ;; block_mark_as_dirty new ;; mret OK)) c0 = Ok (OK, c') /\ coherent c' /\
    store_view c' new = new_entry type name /\
    store_view c' dir = set_num_entries (u16 (he_num_entries (store_view c dir) + 1)) (set_entry_block (he_num_entries (store_view c dir)) new (store_view c dir)) /\
    (forall i, i <> new -> i <> dir -> store_view c' i = store_view c i).
Proof.
  intros C Hd Hne Hn Hv Ht Hnum. destruct (block_read_reads c new C Hn) as (c0 & E0 & R0 & F0). exists c0.
  pose proof (proj2 (coherent_but_nil c0) (rd_coherent _ _ R0)) as C0.
  destruct (poke_run [] new (fun _ => new_entry type name) c0 _ C0 F0) as (E1 & C1 & F1 & N1 & V1); [by apply new_entry_facts|].
  set (c1 := update_block new _ c0) in *.
  assert (Hd1 : find_cached dir c1 = Some bd) by (rewrite N1 by done; by apply R0).
  assert (Hv1 : store_view c1 dir = store_view c dir) by (rewrite V1, decide_False by done; apply R0).
  assert (Hl : length (store_view c dir) = Z.to_nat BLOCK_SIZE).
  { rewrite (view_cached _ _ _ Hd). apply (co_length _ C). by apply (find_cached_some dir). }
  destruct (add_entry_facts new (store_view c dir) Hl Hnum ltac:(lia)) as (L & _).
  set (g := fun d => set_num_entries _ _). 
  destruct (poke_run [new] dir g c1 bd C1 Hd1) as (E2 & C2 & F2 & N2 & V2).
  { by rewrite <- (view_cached _ _ _ Hd1), Hv1. }
  set (c2 := update_block dir _ c1) in *.
  destruct (mark_run [new] dir c2 _ C2 F2) as (c3 & E3 & C3 & F3 & V3).
  destruct (mark_run [] new c3 (Block new (new_entry type name))) as (c4 & E4 & C4 & F4 & V4); [done| |].
  { rewrite F3, N2 by done. exact F1. }
  exists c4. split_and!; [done| |by apply coherent_but_nil| | |].
  - rewrite (ST_bind_run _ _ _ _ _ E1), (ST_bind_run _ _ _ _ _ E2), (ST_bind_run _ _ _ _ _ E3). by rewrite (ST_bind_run _ _ _ _ _ E4).
  - rewrite V4, V3, V2, decide_False by done. by rewrite V1, decide_True.
  - rewrite V4, V3, V2, decide_True, Hv1 by done. done.
  - intros i Hi1 Hi2. rewrite V4, V3, V2, decide_False, V1, decide_False by done. apply R0.
Qed.

(** C26: creating an entry in the root directory.  For a valid name that is not taken, with
    room in the directory and a free block, [fs_create] succeeds; the name then resolves to
    the new entry, an empty file or directory of that name; every other name resolves as
    before, and the contents of all other blocks but the bitmap stay. *)
Theorem fs_create_correct c name new type :
  create_ready c name new -> 0 <= type < 256 ->
  exists c', fs_create name type c = Ok (OK, c') /\ coherent c' /\
    child (store_view c') ROOT_DIR_BLOCK name = Some new /\
    he_type (store_view c' new) = type /\ he_size (store_view c' new) = 0 /\ he_name (store_view c' new) = name /\
    (forall name', name' <> name -> child (store_view c') ROOT_DIR_BLOCK name' = child (store_view c) ROOT_DIR_BLOCK name') /\
    (forall i, i <> new -> i <> ROOT_DIR_BLOCK -> i <> BITMAP_FIRST_BLOCK -> store_view c' i = store_view c i).
Proof.
  intros [C T [br Hbr] Hty Hroom Hent (bm & j & k & Hbm & Hz & Hnew) Hlt (Hv & [Hsl Hdd] & Hpr) Habs] Ht.
  assert (Hn0 : 0 <= he_num_entries (store_view c ROOT_DIR_BLOCK)) by apply (T _ Hty).
  assert (Hn6 : 6 <= new) by (destruct (zero_bit_at_spec _ _ _ _ Hz); lia).
  pose proof (fs_find_resolves c [name] br C T Hbr ltac:(by constructor) ltac:(by exists [], name)) as Hlk.
  unfold steps in Hlk. rewrite filter_cons_True in Hlk by done. cbn [filter list_filter resolve join_path] in Hlk.
  rewrite Hty in Hlk. change (FS_TYPE_DIR =? FS_TYPE_DIR) with true in Hlk. cbv iota in Hlk. rewrite Habs in Hlk.
  destruct Hlk as (c1 & E1 & R1 & _).
  destruct (alloc_block_run c1 bm j k) as (c2 & E2 & C2 & K2); [apply R1|by apply R1|done|lia|]. rewrite <- Hnew in E2.
  destruct (K2 ROOT_DIR_BLOCK ltac:(done)) as [Hf2 Hv2]. rewrite (rd_view _ _ R1) in Hv2.
  destruct (create_stores c2 ROOT_DIR_BLOCK new type name br C2) as (c3 & c4 & E3 & E4 & C4 & Vn & Vr & Vo).
  1: rewrite Hf2; by apply R1. 1: unfold ROOT_DIR_BLOCK; lia. 1: lia. 1, 2: done. 1: rewrite Hv2; lia.
  destruct (new_entry_facts type name Hv Ht) as (_ & Nt & Nn & Ns).
  assert (Hl : length (store_view c ROOT_DIR_BLOCK) = Z.to_nat BLOCK_SIZE).
  { rewrite (view_cached _ _ _ Hbr). apply (co_length _ C). by apply (find_cached_some ROOT_DIR_BLOCK). }
  rewrite Hv2 in Vr. destruct (add_entry_facts new _ Hl ltac:(lia) ltac:(lia)) as (_ & At & An & Ab). cbv zeta in *. rewrite <- Vr in At, An, Ab.
  assert (Hch : forall nm, child_from (store_view c4) ROOT_DIR_BLOCK nm 0 (Z.to_nat (he_num_entries (store_view c ROOT_DIR_BLOCK)))
     = child (store_view c) ROOT_DIR_BLOCK nm).
  { intros nm. apply child_from_same; [lia|]. intros i Hi. destruct (Hent i) as [H6 Hnn]; [lia|]. split.
    - rewrite Ab, decide_False by lia. done.
    - rewrite Vo by (done || (unfold ROOT_DIR_BLOCK in *; lia)).
      set (e := get16 _ _) in *.
      rewrite (proj2 (K2 e ltac:(unfold BITMAP_FIRST_BLOCK; lia))). apply R1. }
  assert (Hchild : forall nm, child (store_view c4) ROOT_DIR_BLOCK nm =
    match child (store_view c) ROOT_DIR_BLOCK nm with Some e => Some e | None => if bool_decide (nm = name) then Some new else None end).
  { intros nm. unfold child at 1. rewrite An. replace (Z.to_nat _) with (S (Z.to_nat (he_num_entries (store_view c ROOT_DIR_BLOCK)))) by lia.
    rewrite child_from_snoc, Hch. destruct (child (store_view c) ROOT_DIR_BLOCK nm); [done|]. cbv zeta.
    rewrite Z.add_0_l, Z2Nat.id, Ab, decide_True by done. by rewrite Vn, Nn. }
  exists c4. split_and!; [| | | | | | |].
  - unfold fs_create. rewrite basename_plain by done. destruct Hv as (Hne & Hlen & Hbad).
    destruct (Nat.leb_spec FS_NAME_LEN (length name)); [lia|]. rewrite bool_decide_eq_false_2, Hbad by done.
    unfold fs_find in E1. rewrite (ST_bind_run _ _ _ _ _ E1). change (ERR_NOT_FOUND =? OK) with false. cbv iota.
    rewrite (ST_bind_run _ _ _ _ _ (lookup_parent_single c1 name Hsl)). change (negb (OK =? OK)) with false. cbv iota.
    rewrite (ST_bind_run _ _ _ _ _ (block_data_run c1 _ br ltac:(by apply R1))), <- (view_cached _ _ _ Hbr).
    destruct (Z.leb_spec BLOCKS_PER_ENTRY (he_num_entries (store_view c ROOT_DIR_BLOCK))); [lia|].
    rewrite (ST_bind_run _ _ _ _ _ E2). destruct (Z.eqb_spec new 0); [lia|].
    rewrite (ST_bind_run _ _ _ _ _ E3). change (negb (OK =? OK)) with false. cbv iota.
    rewrite valid_name_copy by done. unfold has_slash. rewrite (bool_decide_eq_false_2 (CH_SLASH ∈ name)) by done. exact E4.
  - done.
  - rewrite Hchild, Habs. by rewrite bool_decide_eq_true_2.
  - by rewrite Vn.
  - by rewrite Vn.
  - by rewrite Vn.
  - intros nm Hnm. rewrite Hchild, bool_decide_eq_false_2 by done. by destruct (child _ _ nm).
  - intros i H1 H2 H3. rewrite Vo by done. rewrite (proj2 (K2 _ H3)). apply R1.
Qed.
End Create.

(** ** Open files of different tasks *)
Section Isolation.
Context {D : Type} `{BlkDevice D}.
Implicit Types f : fss D.

(** The open files of the tasks other than [s] are the same. *)
Definition keeps_files (s : Z) f f' : Prop := forall i o,
  f_files f !! i = Some o -> of_used o = true -> of_task o <> s -> f_files f' !! i = Some o.

Lemma keeps_refl s f f' : f_files f' = f_files f -> keeps_files s f f'.
Proof. intros E i o Hi _ _. by rewrite E. Qed.
Lemma keeps_trans s f1 f2 f3 : keeps_files s f1 f2 -> keeps_files s f2 f3 -> keeps_files s f1 f3.
Proof. intros H1 H2 i o Hi Hu Ht. apply H2; auto. Qed.

Lemma lift_fs_files {A} (m : ST (@cache D) A) f a f' : lift_fs m f = Ok (a, f') -> f_files f' = f_files f.
Proof. unfold lift_fs. destruct (m (f_cache f)) as [[? ?]| |]; [|done..]. by intros [= _ <-]. Qed.
Lemma fs_send_files a f x f' : fs_send a f = Ok (x, f') -> f_files f' = f_files f.
Proof. by intros [= _ <-]. Qed.

(** A request that looks at the cache, answers, and leaves the open files alone. *)
Lemma lift_then_keeps {A B} s (m : ST (@cache D) A) (k : A -> ST (fss D) B) f x f' :
  (lift_fs m ≫= k) f = Ok (x, f') -> (forall a f1, f_files f1 = f_files f -> k a f1 = Ok (x, f') -> keeps_files s f1 f') -> keeps_files s f f'.
Proof.
  intros (a & f1 & E1 & E2)%ST_bind_ok Hk. pose proof (lift_fs_files _ _ _ _ E1) as Ef.
  eapply keeps_trans; [by apply keeps_refl|by eapply Hk].
Qed.

Lemma lookup_open_file_spec task fd f r f' : lookup_open_file task fd f = Ok (r, f') ->
  f' = f /\ (forall i, r = Some i -> exists o, f_files f !! i = Some o /\ of_task o = task).
Proof.
  unfold lookup_open_file. destruct (_ || _); [by intros [= <- <-]|].
  intros (o & f1 & E1 & E2)%ST_bind_ok. unfold getopt in E1. destruct (f_files f !! _) as [o'|] eqn:Eo; [|done].
  injection E1 as -> <-. destruct (of_used o); cbn [negb orb] in E2; [|by injection E2 as <- <-].
  destruct (Z.eqb_spec (of_task o) task); cbn [negb] in E2; injection E2 as <- <-; [|done].
  split; [done|]. intros i [= <-]. by exists o.
Qed.

(** Changing a slot that is free or belongs to [s]. *)
Lemma slot_keeps s f i (g : list open_file -> list open_file) :
  (forall j, j <> i -> g (f_files f) !! j = f_files f !! j) ->
  (forall o, f_files f !! i = Some o -> of_used o = false \/ of_task o = s) ->
  keeps_files s f (fset_files (g (f_files f)) f).
Proof.
  intros Hg Hi j o Hj Hu Ht. cbn [f_files fset_files]. destruct (decide (j = i)) as [->|Hne]; [|by rewrite Hg].
  destruct (Hi o Hj); congruence.
Qed.

Lemma alloc_fd_loop_spec l : forall i k, alloc_fd_loop i l = Some k ->
  exists j o, k = (i + j)%nat /\ l !! j = Some o /\ of_used o = false.
Proof.
  induction l as [|o l IH]; intros i k; [done|]. cbn. destruct (of_used o) eqn:E.
  - intros (j & o' & -> & Hj & Hu)%IH. exists (S j), o'. split_and!; [lia|done|done].
  - intros [= <-]. exists 0%nat, o. split_and!; [lia|done|done].
Qed.

Lemma do_open_keeps s path f r f' : do_open s path f = Ok (r, f') -> keeps_files s f f'.
Proof.
  intros E. eapply lift_then_keeps; [exact E|]. intros [err e] f1 _ E1. destruct (negb (err =? OK)).
  { injection E1 as _ <-. by apply keeps_refl. }
  apply ST_bind_ok in E1 as (fd & f2 & E2 & E3). unfold alloc_fd in E2. rewrite (ST_bind_run (gets _) _ _ _ _ eq_refl) in E2.
  destruct (alloc_fd_loop 0 (f_files f1)) as [i|] eqn:Ea.
  - rewrite (ST_bind_run (modify _) _ _ _ _ eq_refl) in E2. injection E2 as <- <-.
    destruct (alloc_fd_loop_spec _ _ _ Ea) as (j & o & -> & Hj & Hu). cbn [Nat.add] in *.
    destruct (Z.eqb_spec (Z.of_nat j + 1) 0); [lia|]. rewrite (ST_bind_run (modify _) _ _ _ _ eq_refl) in E3. injection E3 as _ <-.
    replace (Z.to_nat (Z.of_nat j + 1 - 1)) with j by lia. cbn [fset_files f_files].
    apply (slot_keeps s f1 j (fun l => <[j := _]> (alter _ j l))); [|intros o' Ho'; left; congruence].
    intros j' Hne. by rewrite list_lookup_insert_ne, list_lookup_alter_ne.
  - injection E2 as <- <-. injection E3 as _ <-. by apply keeps_refl.
Qed.

Lemma do_readwrite_keeps s fd buf len w f r f' : do_readwrite s fd buf len w f = Ok (r, f') -> keeps_files s f f'.
Proof.
  intros (oi & f1 & E1 & E2)%ST_bind_ok. destruct (lookup_open_file_spec _ _ _ _ _ E1) as [-> Hi].
  destruct oi as [i|]; [|injection E2 as _ <-; by apply keeps_refl]. destruct (Hi i eq_refl) as (o & Ho & Hs).
  apply ST_bind_ok in E2 as (o' & f2 & E3 & E4). unfold getopt in E3. rewrite Ho in E3. injection E3 as <- <-.
  eapply lift_then_keeps; [exact E4|]. intros d f3 Ef3 E5. cbv beta zeta in E5.
  destruct (negb w && (he_size d <=? of_offset o)); [injection E5 as _ <-; by apply keeps_refl|].
  eapply lift_then_keeps; [exact E5|]. intros [err bytes] f4 Ef4 E6. cbv beta iota in E6.
  destruct (negb (err =? OK)); [injection E6 as _ <-; by apply keeps_refl|].
  rewrite (ST_bind_run (modify _) _ _ _ _ eq_refl) in E6. injection E6 as _ <-.
  apply (slot_keeps s f4 i (fun l => <[i := _]> l)).
  - intros j Hne. by rewrite list_lookup_insert_ne.
  - intros o' Ho'. right. rewrite Ef4, Ef3 in Ho'. congruence.
Qed.

Lemma free_fd_keeps s fd f x f' : free_fd s fd f = Ok (x, f') -> keeps_files s f f'.
Proof.
  intros (oi & f1 & E1 & E2)%ST_bind_ok. destruct (lookup_open_file_spec _ _ _ _ _ E1) as [-> Hi].
  destruct oi as [i|]; [|injection E2 as _ <-; by apply keeps_refl]. destruct (Hi i eq_refl) as (o & Ho & Hs).
  injection E2 as _ <-. apply (slot_keeps s f i (fun l => alter _ i l)).
  - intros j Hne. by rewrite list_lookup_alter_ne.
  - intros o' Ho'. right. congruence.
Qed.

(** The sender of a request. *)
Definition fs_src (r : fs_request) : Z :=
  match r with
  | QTaskDestroyed src _ | QOpen src _ | QClose src _ | QRead src _ _ | QWrite src _ _ _ | QReaddir src _ _
  | QMkfile src _ | QMkdir src _ | QDelete src _ | QUnknown src _ => src
  end.

Lemma send_keeps s (b : bool) a1 a2 f x f' :
  (if b then fs_send a1 else fs_send a2) f = Ok (x, f') -> keeps_files s f f'.
Proof. intros E. apply keeps_refl. by destruct b; apply fs_send_files in E. Qed.

(** C40: open files belong to their tasks.  Whatever a task asks for, and whatever happens to
    the file system's contents, the open files of the other tasks keep their position and
    their file; only the message that a task was destroyed, which is taken from the VM
    server alone, closes files, and these are that task's. *)
Theorem open_files_isolated r f f' :
  fs_handle_message r f = Ok (tt, f') ->
  match r with
  | QTaskDestroyed src task => if src =? 1 then keeps_files task f f' else f' = f
  | _ => keeps_files (fs_src r) f f'
  end.
Proof.
  destruct r as [src task|src path|src fd|src fd len|src fd data n|src path i|src path|src path|src path|src ty]; cbn [fs_handle_message fs_src]; intros E.
  - destruct (src =? 1); [|by injection E as <-]. unfold fs_do_task_destroyed in E. cbn [negb] in E.
    revert E. generalize 0%nat, OPEN_FILES_MAX. intros i n. revert i f. induction n as [|n IH]; intros i f.
    { intros [= <-]. by apply keeps_refl. }
    intros ([] & f1 & E1 & E2)%ST_bind_ok. eapply keeps_trans; [|by eapply IH].
    apply ST_bind_ok in E1 as (o & f2 & E3 & E4). unfold getopt in E3. destruct (f_files f !! i) as [o'|] eqn:Eo; [|done].
    injection E3 as -> <-. destruct (of_used o) eqn:Eu, (Z.eqb_spec (of_task o) task); cbn [andb] in E4; injection E4 as <-; try (by apply keeps_refl).
    apply (slot_keeps task f i (fun l => alter _ i l)); [intros j Hne; by rewrite list_lookup_alter_ne|].
    intros o' Ho'. right. congruence.
  - apply ST_bind_ok in E as (fd & f1 & E1 & E2). eapply keeps_trans; [by eapply do_open_keeps|by eapply send_keeps].
  - apply ST_bind_ok in E as ([] & f1 & E1 & E2). eapply keeps_trans; [by eapply free_fd_keeps|].
    apply keeps_refl. by eapply fs_send_files.
  - apply ST_bind_ok in E as ([k bs] & f1 & E1 & E2). eapply keeps_trans; [by eapply do_readwrite_keeps|by eapply send_keeps].
  - apply ST_bind_ok in E as ([k bs] & f1 & E1 & E2). eapply keeps_trans; [by eapply do_readwrite_keeps|by eapply send_keeps].
  - eapply lift_then_keeps; [exact E|]. intros [err e] f1 _ E1. destruct (IS_ERROR err).
    { apply keeps_refl. by eapply fs_send_files. }
    eapply lift_then_keeps; [exact E1|]. intros d f2 _ E2. apply keeps_refl. exact (fs_send_files _ _ _ _ E2).
  - eapply lift_then_keeps; [exact E|]. intros err f1 _ E1. exact (send_keeps _ _ _ _ _ _ _ E1).
  - eapply lift_then_keeps; [exact E|]. intros err f1 _ E1. exact (send_keeps _ _ _ _ _ _ _ E1).
  - eapply lift_then_keeps; [exact E|]. intros err f1 _ E1. exact (send_keeps _ _ _ _ _ _ _ E1).
  - injection E as <-. by apply keeps_refl.
Qed.
End Isolation.

(** ** A sample file system: the root directory holds the file "a" of 10 bytes *)
Definition demo_root : list Z := set_entry_block 0 7 (set_num_entries 1 (new_entry FS_TYPE_DIR [47])).
Definition demo_afile : list Z := set_entry_block 0 8 (set_size 10 (new_entry FS_TYPE_FILE [97])).
Definition demo_bitmap : list Z := 7 :: replicate 4095 0.
Definition demo_cache : @cache fun_disk :=
  Cache [Block 1 demo_root; Block 2 demo_bitmap; Block 7 demo_afile] [1; 2; 7] (fun _ => []).

Lemma demo_find i : find_cached i demo_cache =
  if decide (i = 1) then Some (Block 1 demo_root) else if decide (i = 2) then Some (Block 2 demo_bitmap)
  else if decide (i = 7) then Some (Block 7 demo_afile) else None.
Proof.
  unfold find_cached. cbn [demo_cache cached_blocks list_find b_index].
  destruct (decide (1 = i)), (decide (2 = i)), (decide (7 = i)); repeat case_decide; try lia; done.
Qed.
Lemma demo_view i : store_view demo_cache i =
  if decide (i = 1) then demo_root else if decide (i = 2) then demo_bitmap
  else if decide (i = 7) then demo_afile else replicate 4096 0.
Proof. unfold store_view. rewrite demo_find. repeat case_decide; try done. Qed.

Lemma demo_coherent : coherent demo_cache.
Proof.
  assert (Hin : forall b, b ∈ cached_blocks demo_cache -> b = Block 1 demo_root \/ b = Block 2 demo_bitmap \/ b = Block 7 demo_afile).
  { intros b Hb. cbn [demo_cache cached_blocks] in Hb. rewrite !elem_of_cons, elem_of_nil in Hb. tauto. }
  split.
  - cbn. repeat (apply NoDup_cons; split; [rewrite ?elem_of_cons, elem_of_nil; lia|]). apply NoDup_nil_2.
  - intros b [->|[->| ->]]%Hin; cbn; lia.
  - intros b [->|[->| ->]]%Hin; by vm_compute.
  - intros b [->|[->| ->]]%Hin Hd; destruct Hd; cbn [dirty_blocks demo_cache b_index]; rewrite !elem_of_cons; tauto.
  - intros i Hi. cbn [dirty_blocks demo_cache] in Hi. rewrite !elem_of_cons, elem_of_nil in Hi. rewrite demo_find.
    repeat case_decide; try (by eexists); lia.
  - cbn. repeat (apply NoDup_cons; split; [rewrite ?elem_of_cons, elem_of_nil; lia|]). apply NoDup_nil_2.
Qed.

Lemma demo_root_facts : he_type demo_root = FS_TYPE_DIR /\ he_num_entries demo_root = 1 /\ get16 (block_off 0) demo_root = 7.
Proof. by vm_compute. Qed.
Lemma demo_tree : tree_ok (store_view demo_cache).
Proof.
  intros dir. destruct demo_root_facts as (Ht & Hn & Hb). rewrite demo_view.
  repeat case_decide; try (by vm_compute). intros _. rewrite Hn. split; [unfold BLOCKS_PER_ENTRY; lia|].
  intros i Hi. assert (i = 0) as -> by lia. rewrite Hb. lia.
Qed.


Lemma lookup_parent_first_witness :
  exists c', lookup [97; 47; 98; 47; 99] true demo_cache = Ok (OK, 7, c') /\ reads demo_cache c'.
Proof.
  apply (lookup_parent_first demo_cache [97] [98] [[99]] (Block 1 demo_root) 7 demo_coherent demo_tree).
  - by rewrite demo_find.
  - repeat constructor; try done; unfold CH_SLASH; rewrite ?elem_of_cons, elem_of_nil; lia.
  - done.
  - by vm_compute.
  - by vm_compute.
Defined.

Lemma demo_file_ready : file_ready demo_cache 7 4.
Proof.
  split.
  - rewrite demo_find. by eexists.
  - by vm_compute.
  - unfold BLOCKS_PER_ENTRY, BLOCK_SIZE. lia.
  - by vm_compute.
  - by vm_compute.
Qed.

Lemma demo_create_ready : create_ready demo_cache [98] 9.
Proof.
  destruct demo_root_facts as (Ht & Hn & Hb). split.
  - exact demo_coherent.
  - exact demo_tree.
  - rewrite demo_find. by eexists.
  - by vm_compute.
  - rewrite demo_view. rewrite decide_True by done. rewrite Hn. unfold BLOCKS_PER_ENTRY. lia.
  - rewrite demo_view. rewrite decide_True by done. rewrite Hn. intros i Hi. assert (i = 0) as -> by lia. rewrite Hb. lia.
  - exists (Block 2 demo_bitmap), 0, 3. by rewrite demo_find.
  - lia.
  - split_and!; try done; [by split_and!; vm_compute; [|lia|]|]. split; [|done]. unfold CH_SLASH. rewrite ?elem_of_cons, elem_of_nil. lia.
  - by vm_compute.
Qed.
Lemma fs_create_correct_witness :
  exists c', fs_create [98] FS_TYPE_FILE demo_cache = Ok (OK, c') /\ child (store_view c') ROOT_DIR_BLOCK [98] = Some 9.
Proof.
  destruct (fs_create_correct demo_cache [98] 9 FS_TYPE_FILE) as (c' & E & _ & Hc & _).
  - exact demo_create_ready.
  - unfold FS_TYPE_FILE. lia.
  - exists c'. split; [exact E|exact Hc].
Defined.

(** Task 5 closes its file; the file of task 6 stays open. *)
Lemma open_files_isolated_witness :
  let o5 := OpenFile true 5 7 0 in
  let o6 := OpenFile true 6 7 2 in
  exists f', fs_handle_message (QClose 5 1) (Fss demo_cache [o5; o6] []) = Ok (tt, f') /\ f_files f' !! 1%nat = Some o6.
Proof.
  intros o5 o6. eexists. split; [reflexivity|].
  exact (open_files_isolated (QClose 5 1) (Fss demo_cache [o5; o6] []) _ eq_refl 1%nat o6 eq_refl eq_refl ltac:(done)).
Defined.
