(* ===== verification/Virtio.v ===== *)
(** The virtio library (libs/user/virtio/virtio_mmio.c) and DMA buffers (libs/user/dmabuf.c).

    A virtqueue is its descriptor table, the available ring (written by the driver) and the
    used ring (written by the device).  The device is a parameter: its registers are behind the
    class [Mmio]. *)

From S2P Require Import Prelude Types.

(** ** Constants *)
Definition VIRTIO_MMIO_MAGIC_VALUE : Z := 1953655158 (* 0x74726976 *).
Definition VIRTIO_REG_MAGIC_VALUE : Z := 0.
Definition VIRTIO_REG_DEVICE_FEATURES : Z := 16.
Definition VIRTIO_REG_DEVICE_FEATURES_SEL : Z := 20.
Definition VIRTIO_REG_DRIVER_FEATURES : Z := 32.
Definition VIRTIO_REG_DRIVER_FEATURES_SEL : Z := 36.
Definition VIRTIO_REG_QUEUE_SEL : Z := 48.
Definition VIRTIO_REG_QUEUE_NUM_MAX : Z := 52.
Definition VIRTIO_REG_QUEUE_NUM : Z := 56.
Definition VIRTIO_REG_QUEUE_ALIGN : Z := 60.
Definition VIRTIO_REG_QUEUE_PFN : Z := 64.
Definition VIRTIO_REG_QUEUE_READY : Z := 68.
Definition VIRTIO_REG_QUEUE_NOTIFY : Z := 80.
Definition VIRTIO_REG_INTERRUPT_STATUS : Z := 96.
Definition VIRTIO_REG_INTERRUPT_ACK : Z := 100.
Definition VIRTIO_REG_DEVICE_STATUS : Z := 112.
Definition VIRTIO_STATUS_ACK : Z := 1.
Definition VIRTIO_STATUS_DRIVER : Z := 2.
Definition VIRTIO_STATUS_FEAT_OK : Z := 8.
Definition VIRTIO_STATUS_DRIVER_OK : Z := 4.
Definition VIRTQ_DESC_F_NEXT : Z := 1.
Definition VIRTQ_DESC_F_WRITE : Z := 2.
Definition VIRTQ_AVAIL_F_NO_INTERRUPT : Z := 1.

(** ** Virtqueues *)
Record virtq_desc := Desc { d_addr : Z; d_len : Z; d_flags : Z; d_next : Z }.
Record virtio_chain_entry := Chain { c_desc_index : Z; c_addr : Z; c_len : Z; c_device_writable : bool }.
Record virtq := Virtq {
  vq_index : Z; vq_num_descs : Z; vq_last_used_index : Z; vq_free_head : Z; vq_num_free_descs : Z;
  vq_descs : list virtq_desc;
  vq_avail_flags : Z; vq_avail_index : Z; vq_avail_ring : list Z;
  vq_used_index : Z; vq_used_ring : list (Z * Z) }.
Abbreviation QST := (ST virtq).
Definition qset_free h n q := Virtq (vq_index q) (vq_num_descs q) (vq_last_used_index q) h n (vq_descs q) (vq_avail_flags q) (vq_avail_index q) (vq_avail_ring q) (vq_used_index q) (vq_used_ring q).
Definition qset_last x q := Virtq (vq_index q) (vq_num_descs q) x (vq_free_head q) (vq_num_free_descs q) (vq_descs q) (vq_avail_flags q) (vq_avail_index q) (vq_avail_ring q) (vq_used_index q) (vq_used_ring q).
Definition qset_descs x q := Virtq (vq_index q) (vq_num_descs q) (vq_last_used_index q) (vq_free_head q) (vq_num_free_descs q) x (vq_avail_flags q) (vq_avail_index q) (vq_avail_ring q) (vq_used_index q) (vq_used_ring q).
Definition qset_avail i r q := Virtq (vq_index q) (vq_num_descs q) (vq_last_used_index q) (vq_free_head q) (vq_num_free_descs q) (vq_descs q) (vq_avail_flags q) i r (vq_used_index q) (vq_used_ring q).
Definition qset_used i r q := Virtq (vq_index q) (vq_num_descs q) (vq_last_used_index q) (vq_free_head q) (vq_num_free_descs q) (vq_descs q) (vq_avail_flags q) (vq_avail_index q) (vq_avail_ring q) i r.

(** [&vq->descs[i]] and [&vq->used->ring[last_used_index % num_descs]] *)
Definition desc_at (i : Z) : QST virtq_desc :=
  getopt (fun q => if 0 <=? i then vq_descs q !! Z.to_nat i else None).
Definition set_desc (i : Z) (d : virtq_desc) : QST unit :=
  modify (fun q => qset_descs (<[Z.to_nat i := d]> (vq_descs q)) q).
Definition used_elem : QST (Z * Z) :=
  getopt (fun q => vq_used_ring q !! Z.to_nat (Z.rem (vq_last_used_index q) (vq_num_descs q))).

(** The [int] counter against the device's 16-bit one. *)
Definition virtq_is_empty (q : virtq) : bool := vq_last_used_index q =? vq_used_index q.

(** The length of the chain from descriptor [i] on; a chain that does not end is not walked
    to its end. *)
Fixpoint chain_len (fuel : nat) (i : Z) : QST Z :=
  match fuel with
  | O => undef
  | S fuel' =>
      d ← desc_at i;
      if has (d_flags d) VIRTQ_DESC_F_NEXT then n ← chain_len fuel' (d_next d); mret (n + 1) else mret 1
  end.

(** Give the processed chains back; [fuel] bounds their number. *)
Fixpoint recycle (fuel : nat) : QST unit :=
  q ← get;
  if virtq_is_empty q then mret tt
  else
    match fuel with
    | O => undef
    | S fuel' =>
        '(id, _) ← used_elem;
        n ← chain_len (S (length (vq_descs q))) id;
        modify (fun q => qset_last (vq_last_used_index q + 1) (qset_free id (vq_num_free_descs q + n) q)) ;;
        recycle fuel'
    end.

(** Fill the descriptors from the free list: the entries that are left. *)
Fixpoint push_loop (chain : list virtio_chain_entry) (desc_index : Z) : QST (list virtio_chain_entry) :=
  match chain with
  | [] => mret []
  | e :: chain' =>
      d ← desc_at desc_index;
      let w := if c_device_writable e then VIRTQ_DESC_F_WRITE else 0 in
      match chain' with
      | _ :: _ => set_desc desc_index (Desc (c_addr e) (c_len e) (Z.lor VIRTQ_DESC_F_NEXT w) (d_next d))
      | [] =>
          modify (fun q => qset_free (d_next d) (vq_num_free_descs q) q) ;;
          set_desc desc_index (Desc (c_addr e) (c_len e) (Z.lor 0 w) 0)
      end ;;
      modify (fun q => qset_free (vq_free_head q) (vq_num_free_descs q - 1) q) ;;
      rest ← push_loop chain' (match chain' with _ :: _ => d_next d | [] => 0 end);
      mret (Chain (u16 desc_index) (c_addr e) (c_len e) (c_device_writable e) :: rest)
  end.

(** The result, and the chain with its descriptors' numbers. *)
Definition virtq_push (chain : list virtio_chain_entry) : QST (Z * list virtio_chain_entry) :=
  let n := Z.of_nat (length chain) in
  assert (0 <? n) ;;
  q ← get;
  (if vq_num_free_descs q <? n then recycle (S (Z.to_nat (vq_num_descs q))) else mret tt) ;;
  q ← get;
  if vq_num_free_descs q <? n then mret (ERR_NO_MEMORY, chain)
  else
    let head_index := vq_free_head q in
    chain ← push_loop chain head_index;
    modify (fun q => qset_avail (u16 (vq_avail_index q + 1))
      (<[Z.to_nat (vq_avail_index q `mod` vq_num_descs q) := u16 head_index]> (vq_avail_ring q)) q) ;;
    mret (head_index, chain).

(** Collect the descriptors of a chain, at most [n]; the last one that was read. *)
Fixpoint pop_loop (n : nat) (i : Z) (acc : list virtio_chain_entry) : QST (Z * Z * list virtio_chain_entry) :=
  match n with
  | O => mret (OK, 0, acc)
  | S n' =>
      d ← desc_at i;
      let acc := acc ++ [Chain (u16 i) (u32 (d_addr d)) (d_len d) (has (d_flags d) VIRTQ_DESC_F_WRITE)] in
      if negb (has (d_flags d) VIRTQ_DESC_F_NEXT) then mret (OK, i, acc)
      else match n' with
           | O => mret (ERR_NO_MEMORY, i, acc)
           | S _ => pop_loop n' (d_next d) acc
           end
  end.

(** The result, the chain and the total length. *)
Definition virtq_pop (n : nat) : QST (Z * list virtio_chain_entry * Z) :=
  q ← get;
  if virtq_is_empty q then mret (ERR_EMPTY, [], 0)
  else
    '(id, len) ← used_elem;
    '(err, last, chain) ← pop_loop n id [];
    if negb (err =? OK) then mret (err, chain, 0)
    else
      assert (0 <? Z.of_nat (length chain)) ;;
      d ← desc_at last;
      set_desc last (Desc (d_addr d) (d_len d) (d_flags d) (u16 (vq_free_head q))) ;;
      modify (fun q => qset_last (vq_last_used_index q + 1)
        (qset_free id (vq_num_free_descs q + Z.of_nat (length chain)) q)) ;;
      mret (Z.of_nat (length chain), chain, len).

(** The free list of a new queue. *)
Definition init_desc (num_descs i : nat) : virtq_desc := Desc 0 0 0 (if (S i =? num_descs)%nat then 0 else Z.of_nat (S i)).
Definition virtq_new (index : Z) (num_descs : nat) : virtq :=
  Virtq index (Z.of_nat num_descs) 0 0 (Z.of_nat num_descs) (init_desc num_descs <$> seq 0 num_descs)
    0 0 (replicate num_descs 0) 0 (replicate num_descs (0, 0)).

(** ** Device registers *)
Class Mmio (R : Type) := {
  mmio_read32 : Z -> R -> Z * R;
  mmio_write32 : Z -> Z -> R -> R;
}.

Section Registers.
Context {R : Type} `{Mmio R}.
Abbreviation RST := (ST R).
Definition read32 (reg : Z) : RST Z := fun r => Ok (mmio_read32 reg r).
Definition write32 (reg v : Z) : RST unit := modify (mmio_write32 reg v).
Definition read_device_status : RST Z := read32 VIRTIO_REG_DEVICE_STATUS.
Definition write_device_status (value : Z) : RST unit := write32 VIRTIO_REG_DEVICE_STATUS (u8 value).
Definition or_device_status (bit : Z) : RST unit := s ← read_device_status; write_device_status (Z.lor s bit).

(** The offsets of the rings and the size of a queue's memory. *)
Definition avail_ring_off (num_descs : Z) : Z := u32 (16 * num_descs).
Definition used_ring_off (num_descs : Z) : Z := ALIGN_UP (u32 (avail_ring_off num_descs + 2 * (3 + num_descs))) PAGE_SIZE.
Definition virtq_size (num_descs : Z) : Z := u32 (used_ring_off num_descs + ALIGN_UP (2 * 3 + 8 * num_descs) PAGE_SIZE).

(** [alloc] is [driver_alloc_pages]: the virtual and the physical address, if it succeeds. *)
Definition virtq_init (alloc : Z -> RST (option (Z * Z))) (index : Z) : RST virtq :=
  write32 VIRTIO_REG_QUEUE_SEL index ;;
  num_descs_max ← read32 VIRTIO_REG_QUEUE_NUM_MAX;
  assert (0 <? num_descs_max) ;;
  let num_descs := Z.min num_descs_max 512 in
  write32 VIRTIO_REG_QUEUE_NUM num_descs ;;
  p ← alloc (virtq_size num_descs);
  match p with
  | None => panic
  | Some (_, virtq_paddr) =>
      write32 VIRTIO_REG_QUEUE_ALIGN 0 ;;
      write32 VIRTIO_REG_QUEUE_PFN virtq_paddr ;;
      write32 VIRTIO_REG_QUEUE_READY 1 ;;
      mret (virtq_new index (Z.to_nat num_descs))
  end.
Fixpoint virtq_init_loop (alloc : Z -> RST (option (Z * Z))) (i : Z) (n : nat) : RST (list virtq) :=
  match n with
  | O => mret []
  | S n' => q ← virtq_init alloc i; qs ← virtq_init_loop alloc (i + 1) n'; mret (q :: qs)
  end.
(** [map] is [driver_map_pages] for the registers. *)
Definition virtio_init (map : RST Z) (alloc : Z -> RST (option (Z * Z))) (num_queues : nat) : RST (Z * list virtq) :=
  err ← map;
  if negb (err =? OK) then mret (err, [])
  else
    magic ← read32 VIRTIO_REG_MAGIC_VALUE;
    if negb (magic =? VIRTIO_MMIO_MAGIC_VALUE) then mret (ERR_NOT_SUPPORTED, [])
    else
      write_device_status 0 ;;
      or_device_status VIRTIO_STATUS_ACK ;;
      or_device_status VIRTIO_STATUS_DRIVER ;;
      qs ← virtq_init_loop alloc 0 num_queues;
      mret (OK, qs).
Definition virtq_get (qs : list virtq) (index : nat) : RST virtq :=
  match qs !! index with Some q => mret q | None => panic end.
Definition virtio_read_device_features : RST Z :=
  write32 VIRTIO_REG_DEVICE_FEATURES_SEL 0 ;;
  low ← read32 VIRTIO_REG_DEVICE_FEATURES;
  write32 VIRTIO_REG_DEVICE_FEATURES_SEL 1 ;;
  high ← read32 VIRTIO_REG_DEVICE_FEATURES;
  mret (Z.lor (Z.shiftl high 32) low).
Definition virtio_negotiate_feature (features : Z) : RST Z :=
  have ← virtio_read_device_features;
  if negb (Z.land have features =? features) then mret ERR_NOT_SUPPORTED
  else
    write32 VIRTIO_REG_DEVICE_FEATURES_SEL 0 ;;
    write32 VIRTIO_REG_DEVICE_FEATURES (u32 features) ;;
    write32 VIRTIO_REG_DEVICE_FEATURES_SEL 1 ;;
    write32 VIRTIO_REG_DEVICE_FEATURES (u32 (Z.shiftr features 32)) ;;
    or_device_status VIRTIO_STATUS_FEAT_OK ;;
    s ← read_device_status;
    if negb (has s VIRTIO_STATUS_FEAT_OK) then mret ERR_NOT_SUPPORTED else mret OK.
Definition virtio_enable : RST Z := or_device_status VIRTIO_STATUS_DRIVER_OK ;; mret OK.
Definition virtq_notify (q : virtq) : RST unit := write32 VIRTIO_REG_QUEUE_NOTIFY (vq_index q).
Definition virtio_read_interrupt_status : RST Z := read32 VIRTIO_REG_INTERRUPT_STATUS.
Definition virtio_ack_interrupt (status : Z) : RST unit := write32 VIRTIO_REG_INTERRUPT_ACK status.
End Registers.

(** ** DMA buffers *)
Record dmabuf := Dmabuf { db_paddr : Z; db_uaddr : Z; db_entry_size : Z; db_num_entries : Z; db_used : list bool }.
Abbreviation BST := (ST dmabuf).

(** [None]: no memory. *)
Definition dmabuf_create {R} (alloc : Z -> ST R (option (Z * Z))) (entry_size num_entries : Z) : ST R (option dmabuf) :=
  let entry_size := ALIGN_UP entry_size 4 in
  p ← alloc (ALIGN_UP (u32 (entry_size * num_entries)) PAGE_SIZE);
  match p with
  | None => mret None
  | Some (uaddr, paddr) =>
      assert (negb (paddr =? 0)) ;;
      mret (Some (Dmabuf paddr uaddr entry_size num_entries (replicate (Z.to_nat num_entries) false)))
  end.
Definition check_paddr (paddr : Z) : BST unit :=
  b ← get;
  assert (db_paddr b <=? paddr) ;;
  assert (paddr <? u32 (db_paddr b + u32 (db_entry_size b * db_num_entries b))).
(** The first free entry, from entry [i] on. *)
Fixpoint free_buffer (i : nat) (l : list bool) : option nat :=
  match l with [] => None | u :: l' => if u then free_buffer (S i) l' else Some i end.
(** The virtual and the physical address. *)
Definition dmabuf_alloc : BST (option (Z * Z)) :=
  b ← get;
  match free_buffer 0 (db_used b) with
  | None => mret None
  | Some i =>
      modify (fun b => Dmabuf (db_paddr b) (db_uaddr b) (db_entry_size b) (db_num_entries b) (<[i := true]> (db_used b))) ;;
      let offset := u32 (Z.of_nat i * db_entry_size b) in
      mret (Some (u32 (db_uaddr b + offset), u32 (db_paddr b + offset)))
  end.
Definition dmabuf_p2v (paddr : Z) : BST Z := check_paddr paddr ;; b ← get; mret (u32 (db_uaddr b + paddr - db_paddr b)).
Definition dmabuf_free (paddr : Z) : BST unit :=
  check_paddr paddr ;;
  b ← get;
  let index := (paddr - db_paddr b) / db_entry_size b in
  _ ← getopt (fun b => db_used b !! Z.to_nat index);
  modify (fun b => Dmabuf (db_paddr b) (db_uaddr b) (db_entry_size b) (db_num_entries b) (<[Z.to_nat index := false]> (db_used b))).

(** ** The free list and the chains *)

(** The free descriptors, in the order of the list. *)
Fixpoint free_chain (descs : list virtq_desc) (h : Z) (l : list Z) : Prop :=
  match l with
  | [] => True
  | i :: l' => h = i /\ exists d, descs !! Z.to_nat i = Some d /\ free_chain descs (d_next d) l'
  end.
(** The descriptors [h] hold the entries of a chain, in order. *)
Fixpoint holds (descs : list virtq_desc) (h : list Z) (chain : list virtio_chain_entry) : Prop :=
  match h, chain with
  | [], [] => True
  | i :: h', e :: chain' =>
      (exists d, descs !! Z.to_nat i = Some d /\ d_addr d = c_addr e /\ d_len d = c_len e /\
         has (d_flags d) VIRTQ_DESC_F_WRITE = c_device_writable e /\
         has (d_flags d) VIRTQ_DESC_F_NEXT = negb (bool_decide (chain' = [])) /\
         (forall j h'', h' = j :: h'' -> d_next d = j)) /\
      holds descs h' chain'
  | _, _ => False
  end.
(** The entries with their descriptors' numbers. *)
Definition numbered (h : list Z) (chain : list virtio_chain_entry) : list virtio_chain_entry :=
  zip_with (fun i e => Chain i (c_addr e) (c_len e) (c_device_writable e)) h chain.

(** A queue with the free list [l]. *)
Record virtq_ok (q : virtq) (l : list Z) : Prop := {
  vo_num : 0 < vq_num_descs q <= 512;
  vo_descs : length (vq_descs q) = Z.to_nat (vq_num_descs q);
  vo_avail : length (vq_avail_ring q) = Z.to_nat (vq_num_descs q);
  vo_used : length (vq_used_ring q) = Z.to_nat (vq_num_descs q);
  vo_counts : 0 <= vq_last_used_index q /\ 0 <= vq_avail_index q < 65536 /\ 0 <= vq_used_index q < 65536;
  vo_range : Forall (fun i => 0 <= i < vq_num_descs q) l;
  vo_nodup : NoDup l;
  vo_head : 0 <= vq_free_head q < 65536;
  vo_next : Forall (fun d => 0 <= d_next d < 65536) (vq_descs q);
  vo_free : free_chain (vq_descs q) (vq_free_head q) l;
  vo_num_free : vq_num_free_descs q = Z.of_nat (length l) }.

(** The fields that filling descriptors leaves alone. *)
Definition same_rings (q q' : virtq) : Prop :=
  vq_index q' = vq_index q /\ vq_num_descs q' = vq_num_descs q /\ vq_last_used_index q' = vq_last_used_index q /\
  vq_avail_flags q' = vq_avail_flags q /\ vq_avail_index q' = vq_avail_index q /\ vq_avail_ring q' = vq_avail_ring q /\
  vq_used_index q' = vq_used_index q /\ vq_used_ring q' = vq_used_ring q.

Lemma desc_at_run i d q : 0 <= i -> vq_descs q !! Z.to_nat i = Some d -> desc_at i q = Ok (d, q).
Proof. intros Hi Hd. unfold desc_at, getopt. destruct (Z.leb_spec 0 i); [|lia]. by rewrite Hd. Qed.

Lemma to_nat_inj i j : 0 <= i -> 0 <= j -> Z.to_nat i = Z.to_nat j -> i = j.
Proof. lia. Qed.

Lemma free_chain_insert descs i d l : forall h,
  Forall (fun j => 0 <= j) l -> 0 <= i -> i ∉ l -> free_chain descs h l -> free_chain (<[Z.to_nat i := d]> descs) h l.
Proof.
  induction l as [|j l IH]; intros h Hr Hi Hn; [done|]. apply Forall_cons in Hr as [Hj Hr]. intros [-> (d' & Hd & Hf)].
  rewrite not_elem_of_cons in Hn. split; [done|]. exists d'. split; [|apply IH; tauto].
  rewrite list_lookup_insert_ne; [done|]. intros E. apply to_nat_inj in E; [|done..]. tauto.
Qed.
Lemma holds_insert descs i d h : forall chain,
  Forall (fun j => 0 <= j) h -> 0 <= i -> i ∉ h -> holds descs h chain -> holds (<[Z.to_nat i := d]> descs) h chain.
Proof.
  induction h as [|j h IH]; intros [|e chain] Hr Hi Hn; try done. apply Forall_cons in Hr as [Hj Hr].
  rewrite not_elem_of_cons in Hn. intros [(d' & Hd & Hrest) Hh]. split; [|apply IH; tauto]. exists d'. split; [|done].
  rewrite list_lookup_insert_ne; [done|]. intros E. apply to_nat_inj in E; [|done..]. tauto.
Qed.
Lemma holds_ext descs descs' h : forall chain,
  (forall j, j ∈ h -> descs' !! Z.to_nat j = descs !! Z.to_nat j) -> holds descs h chain -> holds descs' h chain.
Proof.
  induction h as [|j h IH]; intros [|e chain] Hs; try done. intros [(d & Hd & Hrest) Hh]. split.
  - exists d. split; [|done]. by rewrite Hs by (by left).
  - apply IH; [|done]. intros k Hk. apply Hs. by right.
Qed.

Lemma push_loop_run chain : forall h t q i,
  chain <> [] -> length h = length chain -> free_chain (vq_descs q) i (h ++ t) -> NoDup (h ++ t) ->
  Forall (fun j => 0 <= j < 65536) (h ++ t) -> Forall (fun d => 0 <= d_next d < 65536) (vq_descs q) ->
  exists q', push_loop chain i q = Ok (numbered h chain, q') /\ holds (vq_descs q') h chain /\
    free_chain (vq_descs q') (vq_free_head q') t /\ 0 <= vq_free_head q' < 65536 /\
    Forall (fun d => 0 <= d_next d < 65536) (vq_descs q') /\
    length (vq_descs q') = length (vq_descs q) /\
    (forall j, 0 <= j -> j ∉ h -> vq_descs q' !! Z.to_nat j = vq_descs q !! Z.to_nat j) /\
    vq_num_free_descs q' = vq_num_free_descs q - Z.of_nat (length chain) /\ same_rings q q'.
Proof.
  induction chain as [|e chain IH]; intros h t q i Hne Hl Hf Hnd Hr Hnx; [done|]. destruct h as [|x h]; [done|].
  cbn [app] in *. destruct Hf as [-> (d & Hd & Hf)]. apply NoDup_cons in Hnd as [Hx Hnd]. apply Forall_cons in Hr as [Hx0 Hr].
  injection Hl as Hl. cbn [push_loop]. rewrite (ST_bind_run _ _ _ _ _ (desc_at_run x d q ltac:(lia) Hd)).
  assert (Hlt : (Z.to_nat x < length (vq_descs q))%nat) by (by apply lookup_lt_Some in Hd).
  assert (Hdn : 0 <= d_next d < 65536) by (by apply (Forall_lookup_1 _ _ _ _ Hnx Hd)).
  set (w := if c_device_writable e then VIRTQ_DESC_F_WRITE else 0).
  assert (Hr' : Forall (fun j => 0 <= j) (h ++ t)) by (eapply Forall_impl; [exact Hr|]; cbn; lia).
  destruct chain as [|e' chain].
  - destruct h; [|done]. cbn [app] in *.
    set (nd := Desc (c_addr e) (c_len e) (Z.lor 0 w) 0).
    eexists. split.
    { unfold numbered. cbn [zip_with]. rewrite u16_small by lia. reflexivity. }
    cbn [vq_descs qset_free qset_descs set_desc vq_free_head vq_num_free_descs length].
    split_and!; try done; try lia.
    + split; [|done]. exists nd. rewrite list_lookup_insert_eq by done.
      split_and!; try done; unfold nd, w; by destruct (c_device_writable e).
    + apply free_chain_insert; [done|lia|done|exact Hf].
    + apply Forall_insert; [done|]. cbn. lia.
    + by rewrite length_insert.
    + intros j Hj Hn. rewrite list_lookup_insert_ne; [done|]. intros E. apply to_nat_inj in E; [|lia|done]. apply Hn. subst. by left.
  - set (nd := Desc (c_addr e) (c_len e) (Z.lor VIRTQ_DESC_F_NEXT w) (d_next d)).
    set (q1 := qset_free (vq_free_head q) (vq_num_free_descs q - 1) (qset_descs (<[Z.to_nat x := nd]> (vq_descs q)) q)).
    destruct (IH h t q1 (d_next d)) as (q' & E & Hh & Hfc & Hfh & Hnx' & Hlen & Hoth & Hnf & Hs); try done.
    { apply free_chain_insert; auto. lia. }
    { apply Forall_insert; [done|]. cbn. lia. }
    exists q'. split_and!; try done; try lia.
    + rewrite (ST_bind_run (set_desc x nd) _ _ _ _ eq_refl), (ST_bind_run (modify _) _ _ _ _ eq_refl).
      change (qset_free _ _ _) with q1. rewrite (ST_bind_run _ _ _ _ _ E), u16_small by lia. reflexivity.
    + split; [|done]. assert (Hxh : x ∉ h) by (intros ?; apply Hx; apply elem_of_app; by left).
      exists nd. rewrite Hoth by (done || lia). cbn [vq_descs q1 qset_free qset_descs]. rewrite list_lookup_insert_eq by done.
      split_and!; try done; unfold nd, w; [by destruct (c_device_writable e)..|].
      intros j h'' ->. cbn [app free_chain] in Hf. cbn. tauto.
    + rewrite Hlen. cbn. by rewrite length_insert.
    + intros j Hj Hn. rewrite not_elem_of_cons in Hn. rewrite Hoth by tauto. cbn. rewrite list_lookup_insert_ne; [done|].
      intros Ej. apply to_nat_inj in Ej; [|lia|done]. subst. tauto.
    + rewrite Hnf. cbn [vq_num_free_descs q1 qset_free length]. lia.
Qed.

Lemma holds_length descs h : forall chain, holds descs h chain -> length h = length chain.
Proof. induction h as [|i h IH]; intros [|e chain]; try done. intros [_ Hh]. cbn. f_equal. by apply IH. Qed.

(** A chain that the descriptors [h] hold is read back. *)
Lemma pop_loop_run q h : forall chain n acc i h',
  holds (vq_descs q) h chain -> h = i :: h' -> Forall (fun j => 0 <= j < 65536) h ->
  Forall (fun e => 0 <= c_addr e < 2 ^ 32) chain -> (length chain <= n)%nat ->
  exists z, last h = Some z /\ pop_loop n i acc q = Ok (OK, z, acc ++ numbered h chain, q).
Proof.
  induction h as [|j h IH]; intros [|e chain] n acc i h' Hh [=]; try done. subst. intros Hr Ha Hn.
  destruct Hh as [(d & Hd & Hda & Hdl & Hdw & Hdx & Hnext) Hh]. apply Forall_cons in Hr as [Hi Hr]. apply Forall_cons in Ha as [Ha0 Ha].
  destruct n as [|n]; [cbn in Hn; lia|]. cbn [pop_loop length] in *. rewrite (ST_bind_run _ _ _ _ _ (desc_at_run i d q ltac:(lia) Hd)).
  cbv zeta. rewrite Hda, Hdl, Hdw, Hdx, u16_small, u32_small by lia. destruct chain as [|e' chain].
  - apply holds_length in Hh. destruct h'; [|done]. exists i. done.
  - destruct h' as [|k h']; [done|]. rewrite bool_decide_eq_false_2 by done. cbn [negb]. rewrite (Hnext k h' eq_refl).
    destruct n as [|n]; [cbn in Hn; lia|]. cbv iota.
    destruct (IH (e' :: chain) (S n) (acc ++ [Chain i (c_addr e) (c_len e) (c_device_writable e)]) k h' Hh eq_refl Hr Ha ltac:(cbn in Hn |- *; lia))
      as (z & Hz & E).
    exists z. split; [done|]. rewrite E. by rewrite <- app_assoc.
Qed.

(** Its last descriptor linked to the free list, the chain is free again. *)
Lemma holds_free descs h : forall chain z dz t fh i h',
  holds descs h chain -> h = i :: h' -> last h = Some z -> Forall (fun j => 0 <= j) (h ++ t) -> NoDup (h ++ t) ->
  free_chain descs fh t -> d_next dz = fh -> free_chain (<[Z.to_nat z := dz]> descs) i (h ++ t).
Proof.
  induction h as [|j h IH]; intros [|e chain] z dz t fh i h' Hh [=] Hz Hr Hnd Hf Hdz; try done. subst j h'.
  destruct Hh as [(d & Hd & _ & _ & _ & _ & Hnext) Hh]. cbn [app] in *. apply Forall_cons in Hr as [Hi Hr]. apply NoDup_cons in Hnd as [Hni Hnd].
  split; [done|]. destruct h as [|k h].
  - injection Hz as <-. exists dz. apply lookup_lt_Some in Hd as Hlt. rewrite list_lookup_insert_eq by done. split; [done|].
    rewrite Hdz. by apply free_chain_insert.
  - assert (Hzin : z ∈ k :: h) by (apply last_Some_elem_of; exact Hz).
    exists d. split.
    + rewrite list_lookup_insert_ne; [done|]. intros E. apply to_nat_inj in E; [|by eapply Forall_forall in Hr; [|apply elem_of_app; left]|done].
      subst. apply Hni. apply elem_of_app. by left.
    + rewrite (Hnext k h eq_refl). by eapply IH.
Qed.

(** The device gives the chain that starts at [id] back. *)
Definition device_uses (id len : Z) (q : virtq) : virtq :=
  qset_used (u16 (vq_used_index q + 1)) (<[Z.to_nat (vq_used_index q `mod` vq_num_descs q) := (id, len)]> (vq_used_ring q)) q.
(** Nothing the device has given back is left to be seen. *)
Definition caught_up (q : virtq) : Prop := vq_last_used_index q = vq_used_index q.

Lemma virtq_push_run q h t chain :
  virtq_ok q (h ++ t) -> chain <> [] -> length h = length chain ->
  exists q1, virtq_push chain q = Ok (vq_free_head q, numbered h chain, q1) /\ holds (vq_descs q1) h chain /\
    virtq_ok q1 t /\
    vq_avail_ring q1 = <[Z.to_nat (vq_avail_index q `mod` vq_num_descs q) := vq_free_head q]> (vq_avail_ring q) /\
    vq_avail_index q1 = u16 (vq_avail_index q + 1) /\ vq_num_descs q1 = vq_num_descs q /\
    vq_last_used_index q1 = vq_last_used_index q /\ vq_used_index q1 = vq_used_index q /\ vq_used_ring q1 = vq_used_ring q /\
    (forall j, 0 <= j -> j ∉ h -> vq_descs q1 !! Z.to_nat j = vq_descs q !! Z.to_nat j).
Proof.
  intros [Hnum Hld Hla Hlu Hc Hr Hnd Hhd Hnx Hf Hnf] Hne Hl. unfold virtq_push. cbv zeta.
  assert (Hpos : (0 < length chain)%nat) by (destruct chain; [done|cbn; lia]).
  destruct (Z.ltb_spec 0 (Z.of_nat (length chain))); [|lia]. rewrite (ST_bind_run (assert true) _ _ _ _ eq_refl).
  rewrite (ST_bind_run get _ _ _ _ eq_refl). rewrite length_app in Hnf.
  destruct (Z.ltb_spec (vq_num_free_descs q) (Z.of_nat (length chain))); [lia|].
  rewrite (ST_bind_run (mret tt) _ _ _ _ eq_refl), (ST_bind_run get _ _ _ _ eq_refl).
  destruct (Z.ltb_spec (vq_num_free_descs q) (Z.of_nat (length chain))); [lia|].
  destruct (push_loop_run chain h t q (vq_free_head q)) as (q1 & E & Hh & Hfc & Hfh & Hnx' & Hlen & Hoth & Hnf' & Hs); try done.
  { eapply Forall_impl; [exact Hr|]. cbn. lia. }
  destruct Hs as (S1 & S2 & S3 & S4 & S5 & S6 & S7 & S8).
  rewrite (ST_bind_run _ _ _ _ _ E), (ST_bind_run (modify _) _ _ _ _ eq_refl). eexists. split; [reflexivity|].
  cbn [vq_descs qset_avail vq_avail_ring vq_avail_index vq_num_descs vq_last_used_index vq_used_index vq_used_ring].
  rewrite S2, S5, S6, (u16_small (vq_free_head q)) by lia. split_and!; try done.
  apply Forall_app in Hr as [Hr1 Hr2]. apply NoDup_app in Hnd as (Hnd1 & Hnd2 & Hnd3).
  split; cbn [vq_descs qset_avail vq_avail_ring vq_avail_index vq_num_descs vq_last_used_index vq_used_index vq_used_ring vq_free_head vq_num_free_descs];
    rewrite ?S2, ?S3, ?S7, ?S8, ?length_insert, ?Hlen, ?S5, ?S6; try done; try lia.
  pose proof (u16_range (vq_avail_index q + 1)). lia.
Qed.

Lemma device_uses_seen i len q :
  caught_up q -> 0 < vq_num_descs q -> length (vq_used_ring q) = Z.to_nat (vq_num_descs q) -> 0 <= vq_used_index q < 65536 ->
  virtq_is_empty (device_uses i len q) = false /\ used_elem (device_uses i len q) = Ok (i, len, device_uses i len q).
Proof.
  unfold caught_up. intros Hcu Hnum Hlu Hc. split.
  - unfold virtq_is_empty, device_uses. cbn. rewrite Hcu. apply Z.eqb_neq. unfold u16. intros E.
    destruct (decide (vq_used_index q = 65535)) as [E'|]; [rewrite E' in E; vm_compute in E; lia|].
    rewrite Z.mod_small in E; lia.
  - unfold used_elem, getopt, device_uses. cbn. rewrite Hcu, Z.rem_mod_nonneg by lia.
    rewrite list_lookup_insert_eq; [done|]. rewrite Hlu. pose proof (Z.mod_pos_bound (vq_used_index q) (vq_num_descs q)). lia.
Qed.

(** A chain the used ring shows is popped, whoever has put it there. *)
Lemma virtq_pop_shown q i h t chain len :
  virtq_ok q t -> holds (vq_descs q) (i :: h) chain -> NoDup (i :: h ++ t) -> virtq_is_empty q = false ->
  used_elem q = Ok (i, len, q) ->
  Forall (fun i => 0 <= i < vq_num_descs q) (i :: h) -> Forall (fun e => 0 <= c_addr e < 2 ^ 32) chain ->
  exists q2, virtq_pop (length chain) q = Ok (Z.of_nat (length chain), numbered (i :: h) chain, len, q2) /\
    virtq_ok q2 (i :: h ++ t) /\ vq_last_used_index q2 = vq_last_used_index q + 1 /\ vq_used_index q2 = vq_used_index q /\
    vq_avail_index q2 = vq_avail_index q /\ vq_avail_ring q2 = vq_avail_ring q /\ vq_used_ring q2 = vq_used_ring q /\ vq_num_descs q2 = vq_num_descs q /\
    (forall j, 0 <= j -> j ∉ i :: h -> vq_descs q2 !! Z.to_nat j = vq_descs q !! Z.to_nat j).
Proof.
  intros [Hnum Hld Hla Hlu Hc Hr Hnd Hhd Hnx Hf Hnf] Hh Hnd' He Hu Hrh Ha.
  unfold virtq_pop. rewrite (ST_bind_run get _ _ _ _ eq_refl), He, (ST_bind_run _ _ _ _ _ Hu).
  assert (Hrh' : Forall (fun j => 0 <= j < 65536) (i :: h)) by (eapply Forall_impl; [exact Hrh|]; cbn; lia).
  destruct (pop_loop_run q (i :: h) chain (length chain) [] i h Hh eq_refl Hrh' Ha (le_n _)) as (z & Hz & E).
  rewrite (ST_bind_run _ _ _ _ _ E). change (negb (OK =? OK)) with false. cbv iota. cbn [app].
  assert (Hlc : length (numbered (i :: h) chain) = length chain).
  { unfold numbered. rewrite length_zip_with, (holds_length _ _ _ Hh). lia. }
  rewrite Hlc. pose proof (holds_length _ _ _ Hh) as Hlh. destruct (Z.ltb_spec 0 (Z.of_nat (length chain))); [|cbn in Hlh; lia].
  rewrite (ST_bind_run (assert true) _ _ _ _ eq_refl).
  assert (Hzin : z ∈ i :: h) by (by apply last_Some_elem_of).
  rewrite Forall_forall in Hrh. pose proof (Hrh z Hzin) as Hzr.
  assert (exists dz, vq_descs q !! Z.to_nat z = Some dz) as [dz Hdz] by (apply lookup_lt_is_Some; lia).
  rewrite (ST_bind_run _ _ _ _ _ (desc_at_run z dz q ltac:(lia) Hdz)).
  rewrite (ST_bind_run (set_desc _ _) _ _ _ _ eq_refl), (ST_bind_run (modify _) _ _ _ _ eq_refl).
  eexists. split; [reflexivity|]. rewrite (u16_small (vq_free_head _)) by exact Hhd. split; [|split_and!; try done].
  2: { intros x Hx Hn. cbn. rewrite list_lookup_insert_ne; [done|]. intros Ex. apply to_nat_inj in Ex; [congruence|lia|done]. }
  split; cbn [vq_descs qset_last qset_free qset_descs vq_avail_ring vq_avail_index vq_num_descs vq_last_used_index vq_used_index vq_used_ring vq_free_head vq_num_free_descs];
    rewrite ?length_insert; try done; try lia.
  - apply (proj2 (Forall_app _ (i :: h) t)). split; [by apply Forall_forall|done].
  - apply Forall_cons in Hrh' as [? _]. lia.
  - apply Forall_insert; [done|]. cbn. lia.
  - change (i :: h ++ t) with ((i :: h) ++ t). eapply holds_free; try done. apply Forall_app. split; [eapply Forall_impl; [exact Hrh'|]|eapply Forall_impl; [exact Hr|]]; cbn; lia.
  - cbn in Hlh |- *. rewrite length_app. lia.
Qed.

Lemma device_uses_ok i len q l : virtq_ok q l -> virtq_ok (device_uses i len q) l.
Proof.
  intros [Hnum Hld Hla Hlu Hc Hr Hnd Hhd Hnx Hf Hnf]. pose proof (u16_range (vq_used_index q + 1)).
  split; cbn; rewrite ?length_insert; try done. lia.
Qed.

Lemma virtq_pop_run q h t chain len :
  virtq_ok q t -> holds (vq_descs q) h chain -> h <> [] -> caught_up q -> NoDup (h ++ t) ->
  Forall (fun i => 0 <= i < vq_num_descs q) h -> Forall (fun e => 0 <= c_addr e < 2 ^ 32) chain ->
  exists i q2, head h = Some i /\
    virtq_pop (length chain) (device_uses i len q) = Ok (Z.of_nat (length chain), numbered h chain, len, q2) /\
    virtq_ok q2 (h ++ t) /\ vq_last_used_index q2 = vq_last_used_index q + 1 /\
    vq_used_index q2 = u16 (vq_used_index q + 1) /\ vq_avail_index q2 = vq_avail_index q.
Proof.
  intros Hq Hh Hne Hcu Hnd Hrh Ha. destruct h as [|i h]; [done|]. exists i. pose proof Hq as [Hnum _ _ Hlu Hc _ _ _ _ _ _].
  destruct (device_uses_seen i len q) as [He Hu]; [done|lia|done|lia|].
  destruct (virtq_pop_shown (device_uses i len q) i h t chain len) as (q2 & E & Hq2 & E3 & E4 & E5 & _); try done; [by apply device_uses_ok|].
  by exists q2.
Qed.

Lemma virtq_new_ok index n : 0 < Z.of_nat n <= 512 -> virtq_ok (virtq_new index n) (seqZ 0 (Z.of_nat n)).
Proof.
  intros Hn. assert (Hl : length (init_desc n <$> seq 0 n) = n) by (by rewrite length_fmap, length_seq).
  split; cbn [virtq_new vq_num_descs vq_descs vq_avail_ring vq_used_ring vq_last_used_index vq_avail_index vq_used_index vq_free_head vq_num_free_descs];
    rewrite ?length_replicate, ?Nat2Z.id, ?length_seqZ; try done; try lia.
  - apply Forall_forall. intros x Hx%elem_of_seqZ. lia.
  - apply NoDup_seqZ.
  - apply Forall_fmap, Forall_forall. intros x Hx%elem_of_seq. cbn. case_match; lia.
  - assert (Hd : forall i, (i < n)%nat -> (init_desc n <$> seq 0 n) !! i = Some (init_desc n i)).
    { intros i Hi. rewrite list_lookup_fmap, lookup_seq_lt by done. done. }
    generalize dependent (init_desc n <$> seq 0 n). intros descs _ Hd.
    assert (forall k a, (a + k = n)%nat -> free_chain descs (Z.of_nat a) (seqZ (Z.of_nat a) (Z.of_nat k))) as Hg;
      [|by apply (Hg n 0%nat)].
    induction k as [|k IH]; intros a Ha; [done|]. rewrite seqZ_cons by lia. split; [done|].
    exists (init_desc n a). rewrite Nat2Z.id. split; [apply Hd; lia|].
    unfold init_desc. cbn [d_next]. rewrite <- Nat2Z.inj_succ, <- Nat2Z.inj_pred by lia. cbn [Init.Nat.pred]. destruct (Nat.eqb_spec (S a) n).
    + replace k with O by lia. done.
    + apply IH. lia.
Qed.

(** A request goes through a virtqueue and back: on a queue in order with nothing left
    to be seen, [virtq_push] of a chain that fits takes its descriptors from the head of the
    free list, puts the chain into them, linked in order and with the device-writable flags, and
    its head into the available ring, and takes nothing else; when the device has then given the
    chain back, [virtq_pop] returns exactly the entries pushed with their descriptors' numbers
    and the device's length, and the free list is what it was before.  A chain that does not fit
    is refused with [ERR_NO_MEMORY] and the queue is as before. *)
Theorem virtq_roundtrip q l chain len :
  virtq_ok q l -> caught_up q -> chain <> [] -> Forall (fun e => 0 <= c_addr e < 2 ^ 32) chain ->
  if bool_decide (length chain <= length l)%nat then
    let h := take (length chain) l in
    exists q1 q2, virtq_push chain q = Ok (vq_free_head q, numbered h chain, q1) /\
      holds (vq_descs q1) h chain /\ virtq_ok q1 (drop (length chain) l) /\
      vq_avail_ring q1 !! Z.to_nat (vq_avail_index q `mod` vq_num_descs q) = Some (vq_free_head q) /\
      vq_avail_index q1 = u16 (vq_avail_index q + 1) /\
      virtq_pop (length chain) (device_uses (vq_free_head q) len q1) = Ok (Z.of_nat (length chain), numbered h chain, len, q2) /\
      virtq_ok q2 l /\ vq_last_used_index q2 = vq_last_used_index q + 1 /\ vq_used_index q2 = u16 (vq_used_index q + 1)
  else virtq_push chain q = Ok (ERR_NO_MEMORY, chain, q).
Proof.
  intros Hq Hcu Hne Ha. case_bool_decide as Hfit.
  - set (h := take (length chain) l). set (t := drop (length chain) l). assert (Hl : h ++ t = l) by apply take_drop.
    assert (Hlh : length h = length chain) by (unfold h; rewrite length_take; lia).
    rewrite <- Hl in Hq. destruct (virtq_push_run q h t chain Hq Hne Hlh) as (q1 & E1 & Hh & Hq1 & Ea & Ei & En & El & Eu & Eur & _).
    destruct (virtq_pop_run q1 h t chain len) as (i & q2 & Hi & E2 & Hq2 & E3 & E4 & _); try done.
    + by destruct h, chain.
    + unfold caught_up. congruence.
    + apply (vo_nodup _ _ Hq).
    + rewrite En. pose proof (vo_range _ _ Hq) as Hr. apply Forall_app in Hr. tauto.
    + assert (i = vq_free_head q) as ->.
      { pose proof (vo_free _ _ Hq) as Hf. destruct h; [done|]. injection Hi as <-. by destruct Hf. }
      exists q1, q2. split_and!; try done; [|by rewrite <- Hl|congruence..].
      rewrite Ea, list_lookup_insert_eq; [done|]. rewrite (vo_avail _ _ Hq).
      pose proof (vo_num _ _ Hq). pose proof (Z.mod_pos_bound (vq_avail_index q) (vq_num_descs q)). lia.
  - unfold virtq_push. cbv zeta. destruct (Z.ltb_spec 0 (Z.of_nat (length chain))); [|destruct chain; cbn in *; [done|lia]].
    rewrite (ST_bind_run (assert true) _ _ _ _ eq_refl), (ST_bind_run get _ _ _ _ eq_refl), (vo_num_free _ _ Hq).
    destruct (Z.ltb_spec (Z.of_nat (length l)) (Z.of_nat (length chain))); [|lia].
    assert (Hr : recycle (S (Z.to_nat (vq_num_descs q))) q = Ok (tt, q)).
    { cbn [recycle]. rewrite (ST_bind_run get _ _ _ _ eq_refl). unfold virtq_is_empty. rewrite Hcu, Z.eqb_refl. done. }
    rewrite (ST_bind_run _ _ _ _ _ Hr), (ST_bind_run get _ _ _ _ eq_refl), (vo_num_free _ _ Hq).
    by destruct (Z.ltb_spec (Z.of_nat (length l)) (Z.of_nat (length chain))); [|lia].
Qed.

Definition tiny_chain : list virtio_chain_entry := [Chain 0 4096 16 false; Chain 0 4112 512 true; Chain 0 4624 1 true].
Lemma virtq_roundtrip_witness :
  exists q1 q2, virtq_push tiny_chain (virtq_new 0 4) = Ok (0, numbered [0; 1; 2] tiny_chain, q1) /\
    virtq_pop 3 (device_uses 0 513 q1) = Ok (3, numbered [0; 1; 2] tiny_chain, 513, q2) /\ virtq_ok q2 [0; 1; 2; 3].
Proof.
  destruct (virtq_roundtrip (virtq_new 0 4) [0; 1; 2; 3] tiny_chain 513 (virtq_new_ok 0 4 ltac:(lia)) eq_refl ltac:(done)
    ltac:(repeat constructor; cbn; lia)) as (q1 & q2 & E1 & _ & _ & _ & _ & E2 & Hq2 & _).
  by exists q1, q2.
Defined.

(** The driver's [int] counter and the device's 16-bit one part ways: from the 65536th
    request on the queue is never empty, and [virtq_pop] after [virtq_push] returns the chain that
    has just been pushed, though the device has not even been notified, when the slot of the used
    ring still shows the descriptor the driver uses again. *)
Theorem virtq_pop_stale q l chain len :
  virtq_ok q l -> 65536 <= vq_last_used_index q -> chain <> [] -> (length chain <= length l)%nat ->
  Forall (fun e => 0 <= c_addr e < 2 ^ 32) chain ->
  vq_used_ring q !! Z.to_nat (vq_last_used_index q `mod` vq_num_descs q) = Some (vq_free_head q, len) ->
  let h := take (length chain) l in
  exists q1 q2, virtq_push chain q = Ok (vq_free_head q, numbered h chain, q1) /\
    vq_used_index q1 = vq_used_index q /\ virtq_is_empty q1 = false /\
    virtq_pop (length chain) q1 = Ok (Z.of_nat (length chain), numbered h chain, len, q2) /\
    virtq_ok q2 l /\ 65536 <= vq_last_used_index q2.
Proof.
  intros Hq Hlast Hne Hfit Ha Hslot h. set (t := drop (length chain) l). assert (Hl : h ++ t = l) by apply take_drop.
  assert (Hlh : length h = length chain) by (unfold h; rewrite length_take; lia).
  rewrite <- Hl in Hq. destruct (virtq_push_run q h t chain Hq Hne Hlh) as (q1 & E1 & Hh & Hq1 & Ea & Ei & En & El & Eu & Eur & _).
  exists q1. pose proof (vo_free _ _ Hq) as Hf. pose proof (vo_range _ _ Hq) as Hr. pose proof (vo_counts _ _ Hq) as Hc.
  pose proof (vo_num _ _ Hq) as Hn. pose proof (vo_nodup _ _ Hq) as Hnd. rewrite <- Hl. clearbody h t. destruct h as [|i h]; [by destruct chain|].
  destruct Hf as [Hi _]. apply (Forall_app _ (i :: h) t) in Hr as [Hr _].
  destruct (virtq_pop_shown q1 i h t chain len) as (q2 & E2 & Hq2 & E3 & E4 & _); rewrite ?En; try done.
  - unfold virtq_is_empty. rewrite El, Eu. apply Z.eqb_neq. lia.
  - unfold used_elem, getopt. rewrite El, En, Eur, Z.rem_mod_nonneg, Hslot by lia. by rewrite Hi.
  - exists q2. split_and!; try done; [|lia]. unfold virtq_is_empty. rewrite El, Eu. apply Z.eqb_neq. lia.
Qed.

Definition wrapped_queue : virtq := qset_last 65536 (qset_used 0 (replicate 4 (0, 513)) (virtq_new 0 4)).
Lemma virtq_pop_stale_witness :
  exists q1 q2, virtq_push tiny_chain wrapped_queue = Ok (0, numbered [0; 1; 2] tiny_chain, q1) /\
    virtq_pop 3 q1 = Ok (3, numbered [0; 1; 2] tiny_chain, 513, q2).
Proof.
  destruct (virtq_pop_stale wrapped_queue [0; 1; 2; 3] tiny_chain 513) as (q1 & q2 & E1 & _ & _ & E2 & _); try done; cbn; try lia.
  - destruct (virtq_new_ok 0 4 ltac:(lia)). split; try done; cbn; lia.
  - repeat constructor; cbn; lia.
  - by exists q1, q2.
Defined.
