(* ===== verification/VirtioBlk.v ===== *)
(** The block device driver (servers/virtio_blk/main.c) on the virtio library.

    The device is a parameter: its registers ([Mmio]) and its progress ([BlkHw]).  What the
    virtio specification says of a block device is the class [BlkHwSpec]; [tiny_hw] is a
    device that has it. *)

From S2P Require Import Prelude Types Block Virtio.

Definition VIRTIO_BLK_T_IN : Z := 0.
Definition VIRTIO_BLK_T_OUT : Z := 1.
Definition VIRTIO_BLK_S_OK : Z := 0.
Definition NUM_REQUEST_BUFFERS : Z := 1.
Definition REQUEST_BUFFER_SIZE : Z := SECTOR_SIZE.
(** [struct virtio_blk_req]: type, reserved, sector, data, status. *)
Definition req_data : Z := 16.
Definition req_status : Z := 528.
Definition req_size : Z := 529.

(** The device works on the queue and on the DMA memory, whose physical address is given. *)
Class BlkHw (D : Type) := { hw_step : Z -> virtq * list Z * D -> virtq * list Z * D }.

Section Driver.
Context {D : Type} `{Mmio D} `{BlkHw D}.

Record blkdrv := Blkdrv { requestq : virtq; blk_dmabuf : dmabuf; dma_mem : list Z; blk_hw : D }.
Abbreviation DST := (ST blkdrv).
Definition on_queue {A} (m : QST A) : DST A := fun s =>
  match m (requestq s) with
  | Ok (a, q) => Ok (a, Blkdrv q (blk_dmabuf s) (dma_mem s) (blk_hw s))
  | Panic => Panic | Undef => Undef
  end.
Definition on_dmabuf {A} (m : BST A) : DST A := fun s =>
  match m (blk_dmabuf s) with
  | Ok (a, b) => Ok (a, Blkdrv (requestq s) b (dma_mem s) (blk_hw s))
  | Panic => Panic | Undef => Undef
  end.
Definition on_device {A} (m : ST D A) : DST A := fun s =>
  match m (blk_hw s) with
  | Ok (a, d) => Ok (a, Blkdrv (requestq s) (blk_dmabuf s) (dma_mem s) d)
  | Panic => Panic | Undef => Undef
  end.

(** Accesses to the request at a virtual address. *)
Definition req_off (req off : Z) (s : blkdrv) : Z := req - db_uaddr (blk_dmabuf s) + off.
Definition req_write (req off : Z) (bytes : list Z) : DST unit := fun s =>
  let o := req_off req off s in
  if (0 <=? o) && (o + Z.of_nat (length bytes) <=? Z.of_nat (length (dma_mem s)))
  then Ok (tt, Blkdrv (requestq s) (blk_dmabuf s) (splice (Z.to_nat o) bytes (dma_mem s)) (blk_hw s)) else Undef.
Definition req_read (req off len : Z) : DST (list Z) :=
  getopt (fun s => let o := req_off req off s in
    if (0 <=? o) && (o + len <=? Z.of_nat (length (dma_mem s))) then Some (getn (Z.to_nat o) (Z.to_nat len) (dma_mem s)) else None).

(** The device goes on while the driver waits; [fuel] bounds the number of its steps. *)
Definition device_step : DST unit := modify (fun s =>
  let '(q, mem, d) := hw_step (db_paddr (blk_dmabuf s)) (requestq s, dma_mem s, blk_hw s) in Blkdrv q (blk_dmabuf s) mem d).
Fixpoint busy_wait (fuel : nat) : DST unit :=
  q ← gets requestq;
  if virtq_is_empty q then match fuel with O => undef | S fuel' => device_step ;; busy_wait fuel' end else mret tt.

(** The descriptor chain of a request. *)
Definition request_chain (paddr len : Z) (is_write : bool) : list virtio_chain_entry :=
  [Chain 0 paddr 16 false; Chain 0 (u32 (paddr + req_data)) len (negb is_write); Chain 0 (u32 (paddr + req_status)) 1 true].

(** The result and the caller's buffer. *)
Definition read_write (fuel : nat) (sector : Z) (buf : list Z) (len : Z) (is_write : bool) : DST (Z * list Z) :=
  if negb (IS_ALIGNED len SECTOR_SIZE) then mret (ERR_INVALID_ARG, buf)
  else if REQUEST_BUFFER_SIZE <? len then mret (ERR_TOO_LARGE, buf)
  else
    r ← on_dmabuf dmabuf_alloc;
    match r with
    | None => mret (ERR_TRY_AGAIN, buf)
    | Some (req, paddr) =>
        req_write req 0 (le_split 4 (if is_write then VIRTIO_BLK_T_OUT else VIRTIO_BLK_T_IN)) ;;
        req_write req 4 (le_split 4 0) ;;
        req_write req 8 (le_split 8 sector) ;;
        (if is_write then req_write req req_data (take (Z.to_nat len) buf) else mret tt) ;;
        '(index_or_err, _) ← on_queue (virtq_push (request_chain paddr len is_write));
        if index_or_err <? 0 then mret (index_or_err, buf)
        else
          q ← gets requestq;
          on_device (virtq_notify q) ;;
          busy_wait fuel ;;
          '(n, chain, _) ← on_queue (virtq_pop 3);
          if n <? 0 then on_dmabuf (dmabuf_free paddr) ;; mret (ERR_UNEXPECTED, buf)
          else
            assert (n =? 3) ;;
            c0 ← lift_out (match chain !! 0%nat with Some c => Ok c | None => Undef end);
            c1 ← lift_out (match chain !! 1%nat with Some c => Ok c | None => Undef end);
            assert (c_desc_index c0 =? index_or_err) ;;
            assert (c_len c1 =? len) ;;
            status ← req_read req req_status 1;
            assert (le_combine status =? VIRTIO_BLK_S_OK) ;;
            buf ← (if is_write then mret buf else data ← req_read req req_data len; mret (data ++ drop (Z.to_nat len) buf));
            on_dmabuf (dmabuf_free paddr) ;;
            mret (OK, buf)
    end.

(** ** Initialization *)
Definition assert_ok (err : Z) : ST D unit := assert (err =? OK).
(** [mem] is what the DMA memory holds.  A missing DMA buffer is not noticed here: the first
    request follows the null pointer. *)
Definition init_device (map : ST D Z) (alloc : Z -> ST D (option (Z * Z))) (mem : list Z) : D -> outcome blkdrv := fun d =>
  match (
    '(err, qs) ← virtio_init map alloc 1;
    assert_ok err ;;
    features ← virtio_read_device_features;
    err ← virtio_negotiate_feature features;
    assert_ok err ;;
    err ← virtio_enable;
    assert_ok err ;;
    q ← virtq_get qs 0;
    let q := Virtq (vq_index q) (vq_num_descs q) (vq_last_used_index q) (vq_free_head q) (vq_num_free_descs q) (vq_descs q)
      (Z.lor (vq_avail_flags q) VIRTQ_AVAIL_F_NO_INTERRUPT) (vq_avail_index q) (vq_avail_ring q) (vq_used_index q) (vq_used_ring q) in
    b ← dmabuf_create alloc req_size NUM_REQUEST_BUFFERS;
    match b with Some b => mret (q, b) | None => undef end : ST D (virtq * dmabuf)) d with
  | Ok ((q, b), d) => Ok (Blkdrv q b mem d)
  | Panic => Panic | Undef => Undef
  end.

(** ** Messages *)
Inductive blk_message :=
| BlkRead (src sector len : Z)
| BlkWrite (src sector : Z) (data : list Z) (data_len : Z)
| BlkUnknown (src type : Z).
Inductive blk_reply :=
| BlkReplyErr (err : Z)
| BlkReadReply (data_len : Z) (data : list Z)
| BlkWriteReply.

(** The reply, with its destination. *)
Definition blk_handle_message (fuel : nat) (stack : list Z) (m : blk_message) : DST (option (Z * blk_reply)) :=
  match m with
  | BlkRead src sector len =>
      '(err, buf) ← read_write fuel sector stack len false;
      if negb (err =? OK) then mret (Some (src, BlkReplyErr err))
      else mret (Some (src, BlkReadReply len (take (Z.to_nat len) buf)))
  | BlkWrite src sector data data_len =>
      '(err, _) ← read_write fuel sector data data_len true;
      if negb (err =? OK) then mret (Some (src, BlkReplyErr err)) else mret (Some (src, BlkWriteReply))
  | BlkUnknown _ _ => mret None
  end.
Fixpoint blk_main_loop (fuel : nat) (stack : list Z) (ms : list blk_message) : DST (list (option (Z * blk_reply))) :=
  match ms with
  | [] => mret []
  | m :: ms => r ← blk_handle_message fuel stack m; rs ← blk_main_loop fuel stack ms; mret (r :: rs)
  end.
End Driver.
Arguments blkdrv : clear implicits.

(** ** What a block device does *)

Definition req_type (mem : list Z) (o : Z) : Z := get32 (Z.to_nat o) mem.
Definition req_sector (mem : list Z) (o : Z) : Z := le_combine (getn (Z.to_nat (o + 8)) 8 mem).
Definition req_payload (mem : list Z) (o : Z) : list Z := getn (Z.to_nat (o + req_data)) (Z.to_nat SECTOR_SIZE) mem.

(** The virtio specification, 5.2.6: a notified device that has seen all requests but the
    newest one carries it out, after some time in which the queue stays as it is, writes the data
    and the status, and gives the chain back. *)
Class BlkHwSpec (D : Type) `{Mmio D} `{BlkHw D} := {
  hw_capacity : D -> Z;
  hw_sector : D -> Z -> list Z;
  hw_seen : D -> Z;
  hw_sector_length : forall d s, length (hw_sector d s) = Z.to_nat SECTOR_SIZE;
  hw_serves : forall (q : virtq) base mem (d : D) i j k a w c0 c1 c2,
    holds (vq_descs q) [i; j; k] [Chain c0 a 16 false; Chain c1 (a + req_data) SECTOR_SIZE w; Chain c2 (a + req_status) 1 true] ->
    vq_avail_ring q !! Z.to_nat (u16 (vq_avail_index q - 1) `mod` vq_num_descs q) = Some i ->
    hw_seen d = u16 (vq_avail_index q - 1) -> 0 <= vq_avail_index q < 65536 ->
    0 <= a - base -> a - base + req_size <= Z.of_nat (length mem) ->
    req_type mem (a - base) = (if w then VIRTIO_BLK_T_IN else VIRTIO_BLK_T_OUT) ->
    let sector := req_sector mem (a - base) in
    exists n len mem' d',
      (forall m, (m < n)%nat -> fst (fst (Nat.iter m (hw_step base) (q, mem, mmio_write32 VIRTIO_REG_QUEUE_NOTIFY (vq_index q) d))) = q) /\
      Nat.iter n (hw_step base) (q, mem, mmio_write32 VIRTIO_REG_QUEUE_NOTIFY (vq_index q) d) = (device_uses i len q, mem', d') /\
      hw_seen d' = vq_avail_index q /\ hw_capacity d' = hw_capacity d /\ length mem' = length mem /\
      (le_combine (getn (Z.to_nat (a - base + req_status)) 1 mem') = VIRTIO_BLK_S_OK <-> sector < hw_capacity d) /\
      (sector < hw_capacity d ->
        (w = true -> req_payload mem' (a - base) = hw_sector d sector) /\
        (forall s, hw_sector d' s = if decide (w = false /\ s = sector) then req_payload mem (a - base) else hw_sector d s));
}.

(** ** A device that has it *)
Record tiny_hw := TinyHw { th_seen : Z; th_capacity : Z; th_sectors : gmap Z (list Z); th_notified : bool }.
Definition th_sector (d : tiny_hw) (s : Z) : list Z :=
  match th_sectors d !! s with
  | Some l => if bool_decide (length l = 512%nat) then l else replicate 512 0
  | None => replicate 512 0
  end.
#[export] Instance tiny_mmio : Mmio tiny_hw := {
  mmio_read32 reg d := ((if reg =? VIRTIO_REG_MAGIC_VALUE then VIRTIO_MMIO_MAGIC_VALUE
    else if reg =? VIRTIO_REG_QUEUE_NUM_MAX then 8 else if reg =? VIRTIO_REG_DEVICE_STATUS then VIRTIO_STATUS_FEAT_OK else 0), d);
  mmio_write32 reg v d := if reg =? VIRTIO_REG_QUEUE_NOTIFY then TinyHw (th_seen d) (th_capacity d) (th_sectors d) true else d }.
Definition tiny_serve (base : Z) (q : virtq) (mem : list Z) (d : tiny_hw) (i : Z) (d0 d1 d2 : virtq_desc) : virtq * list Z * tiny_hw :=
  let o := d_addr d0 - base in
  let sector := req_sector mem o in
  let done mem disk := (device_uses i 1 q, mem, TinyHw (u16 (th_seen d + 1)) (th_capacity d) disk false) in
  let status b mem := splice (Z.to_nat (d_addr d2 - base)) [b] mem in
  if th_capacity d <=? sector then done (status 1 mem) (th_sectors d)
  else if req_type mem o =? VIRTIO_BLK_T_IN
  then done (status 0 (splice (Z.to_nat (d_addr d1 - base)) (th_sector d sector) mem)) (th_sectors d)
  else done (status 0 mem) (<[sector := req_payload mem o]> (th_sectors d)).
(** Nothing on its first step after a notification, the request on the second. *)
#[export] Instance tiny_blk : BlkHw tiny_hw := {
  hw_step base s :=
    let '(q, mem, d) := s in
    if th_notified d then (q, mem, TinyHw (th_seen d) (th_capacity d) (th_sectors d) false)
    else if th_seen d =? vq_avail_index q then s
    else
      match vq_avail_ring q !! Z.to_nat (th_seen d `mod` vq_num_descs q) with
      | None => s
      | Some i =>
          match vq_descs q !! Z.to_nat i with
          | None => s
          | Some d0 =>
              match vq_descs q !! Z.to_nat (d_next d0) with
              | None => s
              | Some d1 =>
                  match vq_descs q !! Z.to_nat (d_next d1) with
                  | None => s
                  | Some d2 => tiny_serve base q mem d i d0 d1 d2
                  end
              end
          end
      end }.

(** Reads of the request around a write. *)
Lemma getn_splice_same off bs mem n :
  (off + length bs <= length mem)%nat -> n = length bs -> getn off n (splice off bs mem) = bs.
Proof. intros Hl ->. by apply splice_same. Qed.
Lemma getn_splice_other off bs mem a n :
  (off + length bs <= length mem)%nat -> (a + n <= off \/ off + length bs <= a)%nat -> getn a n (splice off bs mem) = getn a n mem.
Proof. intros Hl Ha. by apply splice_other. Qed.

Lemma th_sector_length d s : length (th_sector d s) = 512%nat.
Proof. unfold th_sector. destruct (th_sectors d !! s); [case_bool_decide|]; done. Qed.

Lemma tiny_serve_spec base q mem d i j k a w c0 c1 c2 :
  holds (vq_descs q) [i; j; k] [Chain c0 a 16 false; Chain c1 (a + req_data) SECTOR_SIZE w; Chain c2 (a + req_status) 1 true] ->
  vq_avail_ring q !! Z.to_nat (u16 (vq_avail_index q - 1) `mod` vq_num_descs q) = Some i ->
  th_seen d = u16 (vq_avail_index q - 1) -> 0 <= vq_avail_index q < 65536 ->
  exists d0 d1 d2, d_addr d0 = a /\ d_addr d1 = a + req_data /\ d_addr d2 = a + req_status /\
    hw_step base (q, mem, TinyHw (th_seen d) (th_capacity d) (th_sectors d) false) =
    tiny_serve base q mem (TinyHw (th_seen d) (th_capacity d) (th_sectors d) false) i d0 d1 d2.
Proof.
  intros Hh Ha Hs Hr. destruct Hh as [(d0 & E0 & A0 & _ & _ & _ & N0) [(d1 & E1 & A1 & _ & _ & _ & N1) [(d2 & E2 & A2 & _) _]]].
  exists d0, d1, d2. split_and!; try done. cbn [hw_step tiny_blk th_notified th_seen]. rewrite Hs.
  assert (Hne : u16 (vq_avail_index q - 1) <> vq_avail_index q).
  { unfold u16. intros E. destruct (decide (vq_avail_index q = 0)) as [E'|]; [rewrite E' in E; vm_compute in E; lia|].
    rewrite Z.mod_small in E; lia. }
  apply Z.eqb_neq in Hne. rewrite Hne, Ha, E0, (N0 j [k] eq_refl), E1, (N1 k [] eq_refl), E2. done.
Qed.

#[export] Program Instance tiny_spec : BlkHwSpec tiny_hw := {
  hw_capacity := th_capacity; hw_sector := th_sector; hw_seen := th_seen }.
Next Obligation. apply th_sector_length. Qed.
Next Obligation.
  intros q base mem d i j k a w c0 c1 c2 Hh Ha Hs Hr Hb Hm Ht sector. exists 2%nat, 1.
  destruct (tiny_serve_spec base q mem d i j k a w c0 c1 c2 Hh Ha Hs Hr) as (d0 & d1 & d2 & A0 & A1 & A2 & E).
  assert (Hseen : u16 (th_seen d + 1) = vq_avail_index q).
  { rewrite Hs. unfold u16. rewrite Zplus_mod_idemp_l. replace (vq_avail_index q - 1 + 1) with (vq_avail_index q) by lia. by apply Z.mod_small. }
  unfold req_data, req_status, req_size in *.
  unfold Nat.iter. cbn [nat_rect]. change (mmio_write32 VIRTIO_REG_QUEUE_NOTIFY (vq_index q) d) with (TinyHw (th_seen d) (th_capacity d) (th_sectors d) true).
  change (hw_step base (q, mem, TinyHw (th_seen d) (th_capacity d) (th_sectors d) true)) with (q, mem, TinyHw (th_seen d) (th_capacity d) (th_sectors d) false).
  rewrite E. unfold tiny_serve. rewrite A0, A1, A2. fold sector. cbv zeta. cbn [th_seen th_capacity th_sectors]. rewrite Hseen.
  assert (Hw : forall m, (m < 2)%nat -> fst (fst (nat_rect (fun _ => virtq * list Z * tiny_hw)%type
      (q, mem, TinyHw (th_seen d) (th_capacity d) (th_sectors d) true) (fun _ => hw_step base) m)) = q).
  { intros [|[|m]] Hm'; [done|done|lia]. }
  assert (Hst : forall b mem, (Z.to_nat (a + 528 - base) + 1 <= length mem)%nat ->
     le_combine (getn (Z.to_nat (a - base + 528)) 1 (splice (Z.to_nat (a + 528 - base)) [b] mem)) = b).
  { intros b mem' Hl. replace (a - base + 528) with (a + 528 - base) by lia. rewrite getn_splice_same by done. cbn. lia. }
  destruct (Z.leb_spec (th_capacity d) sector); [|rewrite Ht; destruct w].
  - eexists _, _. split; [exact Hw|]. split; [reflexivity|]. rewrite length_splice, Hst by lia.
    split_and!; try done; unfold VIRTIO_BLK_S_OK; try lia.
  - change (VIRTIO_BLK_T_IN =? VIRTIO_BLK_T_IN) with true. cbv iota.
    eexists _, _. split; [exact Hw|]. split; [reflexivity|]. rewrite !length_splice, Hst by (rewrite length_splice; lia).
    split_and!; try done. intros _. split.
    + intros _. unfold req_payload, req_data, SECTOR_SIZE. rewrite getn_splice_other by (rewrite ?length_splice; cbn [length]; lia).
      replace (a - base + 16) with (a + 16 - base) by lia. rewrite getn_splice_same; rewrite ?th_sector_length; [done|lia|done].
    + intros s. by rewrite decide_False by (by intros [? ?]).
  - change (VIRTIO_BLK_T_OUT =? VIRTIO_BLK_T_IN) with false. cbv iota.
    eexists _, _. split; [exact Hw|]. split; [reflexivity|]. rewrite !length_splice, Hst by lia.
    split_and!; try done. intros _. split; [done|]. intros s. unfold th_sector. cbn [th_sectors].
    destruct (decide (s = sector)) as [->|Hne].
    + rewrite lookup_insert_eq, decide_True by done. rewrite bool_decide_eq_true_2; [done|].
      unfold req_payload, getn, req_data, SECTOR_SIZE. rewrite length_take, length_drop. lia.
    + rewrite lookup_insert_ne, decide_False by (by intros [??] || done). done.
Qed.

(** ** The driver *)
Section Correct.
Context {D : Type} `{BlkHwSpec D}.
Implicit Types s : blkdrv D.

(** The driver between two requests. *)
Record blk_ok s (l : list Z) : Prop := {
  bo_queue : virtq_ok (requestq s) l;
  bo_free : (3 <= length l)%nat;
  bo_caught_up : caught_up (requestq s);
  bo_seen : hw_seen (blk_hw s) = vq_avail_index (requestq s);
  bo_dmabuf : exists paddr uaddr, blk_dmabuf s = Dmabuf paddr uaddr 532 1 [false] /\
    0 < paddr < 2 ^ 32 - 532 /\ 0 <= uaddr < 2 ^ 32 - 532;
  bo_mem : 532 <= Z.of_nat (length (dma_mem s)) }.

(** The memory of a request. *)
Definition filled (sector : Z) (buf : list Z) (is_write : bool) (mem : list Z) : list Z :=
  let mem := splice 8 (le_split 8 sector) (splice 4 (le_split 4 0)
    (splice 0 (le_split 4 (if is_write then VIRTIO_BLK_T_OUT else VIRTIO_BLK_T_IN)) mem)) in
  if is_write then splice 16 (take (Z.to_nat SECTOR_SIZE) buf) mem else mem.

Lemma length_filled sector buf w mem : length (filled sector buf w mem) = length mem.
Proof. unfold filled. destruct w; by rewrite !length_splice. Qed.

Lemma filled_spec sector buf w mem :
  0 <= sector < 2 ^ 64 -> 532 <= Z.of_nat (length mem) -> (w = true -> Z.to_nat SECTOR_SIZE <= length buf)%nat ->
  req_type (filled sector buf w mem) 0 = (if w then VIRTIO_BLK_T_OUT else VIRTIO_BLK_T_IN) /\
  req_sector (filled sector buf w mem) 0 = sector /\
  (w = true -> req_payload (filled sector buf w mem) 0 = take (Z.to_nat SECTOR_SIZE) buf).
Proof.
  intros Hs Hl Hb. change (Z.to_nat SECTOR_SIZE) with 512%nat in *. set (m1 := splice 0 (le_split 4 (if w then VIRTIO_BLK_T_OUT else VIRTIO_BLK_T_IN)) mem).
  set (m3 := splice 8 (le_split 8 sector) (splice 4 (le_split 4 0) m1)).
  assert (Hm : length m1 = length mem /\ length m3 = length mem) by (unfold m3, m1; by rewrite !length_splice).
  assert (Ht : req_type m3 0 = if w then VIRTIO_BLK_T_OUT else VIRTIO_BLK_T_IN).
  { unfold req_type, get32. change (take 4 (drop (Z.to_nat 0) m3)) with (getn 0 4 m3). unfold m3.
    rewrite !getn_splice_other by (rewrite ?length_splice, ?length_le_split; lia).
    unfold m1. rewrite getn_splice_same by (rewrite ?length_le_split; lia). by destruct w. }
  assert (Hsec : req_sector m3 0 = sector).
  { unfold req_sector, m3. change (Z.to_nat (0 + 8)) with 8%nat. rewrite getn_splice_same by (rewrite ?length_splice, ?length_le_split; lia).
    rewrite le_combine_split. by apply Z.mod_small. }
  unfold filled. fold m1 m3. destruct w; [|done]. assert (Hd : length (take 512 buf) = 512%nat) by (rewrite length_take; specialize (Hb eq_refl); lia).
  change (Z.to_nat SECTOR_SIZE) with 512%nat. split_and!.
  - rewrite <- Ht. unfold req_type, get32. f_equal. apply splice_other; rewrite ?Hd; lia.
  - transitivity (req_sector m3 0); [|done]. unfold req_sector. f_equal. apply getn_splice_other; rewrite ?Hd; lia.
  - intros _. unfold req_payload. change (Z.to_nat (0 + req_data)) with 16%nat. apply getn_splice_same; [rewrite Hd; lia|by rewrite Hd].
Qed.

Lemma req_write_run s off bytes :
  0 <= off -> off + Z.of_nat (length bytes) <= Z.of_nat (length (dma_mem s)) ->
  req_write (db_uaddr (blk_dmabuf s)) off bytes s =
    Ok (tt, Blkdrv (requestq s) (blk_dmabuf s) (splice (Z.to_nat off) bytes (dma_mem s)) (blk_hw s)).
Proof.
  intros Ho Hl. unfold req_write, req_off. rewrite Z.sub_diag, Z.add_0_l.
  destruct (Z.leb_spec 0 off); [|lia]. destruct (Z.leb_spec (off + Z.of_nat (length bytes)) (Z.of_nat (length (dma_mem s)))); [done|lia].
Qed.
Lemma req_read_run s off len :
  0 <= off -> off + len <= Z.of_nat (length (dma_mem s)) ->
  req_read (db_uaddr (blk_dmabuf s)) off len s = Ok (getn (Z.to_nat off) (Z.to_nat len) (dma_mem s), s).
Proof.
  intros Ho Hl. unfold req_read, getopt, req_off. rewrite Z.sub_diag, Z.add_0_l.
  destruct (Z.leb_spec 0 off); [|lia]. destruct (Z.leb_spec (off + len) (Z.of_nat (length (dma_mem s)))); [done|lia].
Qed.

Lemma busy_wait_run n : forall fuel s q' mem' d',
  (n <= fuel)%nat -> virtq_is_empty (requestq s) = true ->
  (forall m, (m < n)%nat -> fst (fst (Nat.iter m (hw_step (db_paddr (blk_dmabuf s))) (requestq s, dma_mem s, blk_hw s))) = requestq s) ->
  Nat.iter n (hw_step (db_paddr (blk_dmabuf s))) (requestq s, dma_mem s, blk_hw s) = (q', mem', d') ->
  virtq_is_empty q' = false -> busy_wait fuel s = Ok (tt, Blkdrv q' (blk_dmabuf s) mem' d').
Proof.
  induction n as [|n IH]; intros fuel s q' mem' d' Hf He Hm Hn Hq'.
  - cbn in Hn. injection Hn as <- <- <-. congruence.
  - destruct fuel as [|fuel]; [lia|]. cbn [busy_wait]. rewrite (ST_bind_run (gets _) _ _ _ _ eq_refl), He.
    rewrite Nat.iter_succ_r in Hn. destruct (hw_step (db_paddr (blk_dmabuf s)) (requestq s, dma_mem s, blk_hw s)) as [[q1 mem1] d1] eqn:E.
    assert (Es : device_step s = Ok (tt, Blkdrv q1 (blk_dmabuf s) mem1 d1)) by (unfold device_step, modify; by rewrite E).
    rewrite (ST_bind_run _ _ _ _ _ Es). destruct n as [|n].
    + cbn in Hn. injection Hn as -> -> ->. destruct fuel; cbn [busy_wait]; rewrite (ST_bind_run (gets _) _ _ _ _ eq_refl); cbn [requestq]; by rewrite Hq'.
    + assert (Hq1 : q1 = requestq s). { specialize (Hm 1%nat ltac:(lia)). cbn in Hm. by rewrite E in Hm. }
      subst q1. apply (IH fuel (Blkdrv (requestq s) (blk_dmabuf s) mem1 d1)); cbn [requestq blk_dmabuf dma_mem blk_hw]; try done; [lia|].
      intros m Hm'. specialize (Hm (S m) ltac:(lia)). rewrite Nat.iter_succ_r, E in Hm. done.
Qed.

Lemma dmabuf_alloc_one paddr uaddr :
  0 < paddr < 2 ^ 32 - 532 -> 0 <= uaddr < 2 ^ 32 - 532 ->
  dmabuf_alloc (Dmabuf paddr uaddr 532 1 [false]) = Ok (Some (uaddr, paddr), Dmabuf paddr uaddr 532 1 [true]).
Proof. intros Hp Hu. cbv [dmabuf_alloc get modify mbind ST_bind mret ST_ret free_buffer]. cbn [db_used db_paddr db_uaddr db_entry_size db_num_entries list_insert]. change (u32 (Z.of_nat 0 * 532)) with 0. rewrite !Z.add_0_r, !u32_small by lia. done. Qed.
Lemma dmabuf_free_one paddr uaddr :
  0 < paddr < 2 ^ 32 - 532 -> dmabuf_free paddr (Dmabuf paddr uaddr 532 1 [true]) = Ok (tt, Dmabuf paddr uaddr 532 1 [false]).
Proof.
  intros Hp. cbv [dmabuf_free check_paddr get getopt modify mbind ST_bind mret ST_ret assert].
  cbn [db_used db_paddr db_uaddr db_entry_size db_num_entries]. change (u32 (532 * 1)) with 532. rewrite u32_small by lia.
  destruct (Z.leb_spec paddr paddr); [|lia]. destruct (Z.ltb_spec paddr (paddr + 532)); [|lia]. by rewrite Z.sub_diag.
Qed.

Lemma on_dmabuf_run {A} (m : BST A) s a b :
  m (blk_dmabuf s) = Ok (a, b) -> on_dmabuf m s = Ok (a, Blkdrv (requestq s) b (dma_mem s) (blk_hw s)).
Proof. intros E. unfold on_dmabuf. by rewrite E. Qed.
Lemma on_queue_run {A} (m : QST A) s a q :
  m (requestq s) = Ok (a, q) -> on_queue m s = Ok (a, Blkdrv q (blk_dmabuf s) (dma_mem s) (blk_hw s)).
Proof. intros E. unfold on_queue. by rewrite E. Qed.

Lemma request_chain_ok paddr len w : 0 < paddr < 2 ^ 32 - 532 ->
  request_chain paddr len w = [Chain 0 paddr 16 false; Chain 0 (paddr + req_data) len (negb w); Chain 0 (paddr + req_status) 1 true].
Proof. intros Hp. unfold request_chain, req_data, req_status. by rewrite !u32_small by lia. Qed.

(** The exchange with the device, on a filled request. *)
Lemma exchange_run s l (w : bool) sector paddr :
  virtq_ok (requestq s) l -> (3 <= length l)%nat -> caught_up (requestq s) -> hw_seen (blk_hw s) = vq_avail_index (requestq s) ->
  db_paddr (blk_dmabuf s) = paddr -> 0 < paddr < 2 ^ 32 - 532 -> 532 <= Z.of_nat (length (dma_mem s)) ->
  req_type (dma_mem s) 0 = (if w then VIRTIO_BLK_T_OUT else VIRTIO_BLK_T_IN) -> req_sector (dma_mem s) 0 = sector ->
  exists n, forall fuel, (n <= fuel)%nat -> exists i h len s1 s2 s3 q2 mem' d',
    on_queue (virtq_push (request_chain paddr SECTOR_SIZE w)) s = Ok (i, numbered (i :: h) (request_chain paddr SECTOR_SIZE w), s1) /\ 0 <= i /\
    on_device (virtq_notify (requestq s1)) s1 = Ok (tt, s2) /\ busy_wait fuel s2 = Ok (tt, s3) /\
    on_queue (virtq_pop 3) s3 = Ok (3, numbered (i :: h) (request_chain paddr SECTOR_SIZE w), len, Blkdrv q2 (blk_dmabuf s) mem' d') /\
    length h = 2%nat /\
    virtq_ok q2 l /\ vq_last_used_index q2 = vq_last_used_index (requestq s) + 1 /\
    vq_used_index q2 = u16 (vq_used_index (requestq s) + 1) /\ hw_seen d' = vq_avail_index q2 /\
    length mem' = length (dma_mem s) /\ hw_capacity d' = hw_capacity (blk_hw s) /\
    (le_combine (getn 528 1 mem') = VIRTIO_BLK_S_OK <-> sector < hw_capacity (blk_hw s)) /\
    (sector < hw_capacity (blk_hw s) ->
      (w = false -> req_payload mem' 0 = hw_sector (blk_hw s) sector) /\
      (forall x, hw_sector d' x = if decide (w = true /\ x = sector) then req_payload (dma_mem s) 0 else hw_sector (blk_hw s) x)).
Proof.
  intros Hq Hl Hcu Hseen Hp Hpr Hm Ht Hsec. destruct l as [|i [|j [|k t]]]; try (cbn in Hl; lia).
  rewrite request_chain_ok by done. set (chain := [Chain 0 paddr 16 false; _; _]).
  destruct (virtq_push_run (requestq s) [i; j; k] t chain Hq) as (q1 & E1 & Hh & Hq1 & Ea & Ei & En & El & Eu & Eur & _); [done|done|].
  assert (Hfh : vq_free_head (requestq s) = i) by (by destruct (vo_free _ _ Hq)). rewrite Hfh in E1, Ea.
  pose proof (vo_counts _ _ Hq) as Hc. pose proof (vo_num _ _ Hq) as Hn. pose proof (vo_range _ _ Hq) as Hr.
  assert (Hprev : u16 (vq_avail_index q1 - 1) = vq_avail_index (requestq s)).
  { rewrite Ei. unfold u16. rewrite Zminus_mod_idemp_l. replace (_ + 1 - 1) with (vq_avail_index (requestq s)) by lia. apply Z.mod_small. lia. }
  destruct (hw_serves q1 paddr (dma_mem s) (blk_hw s) i j k paddr (negb w) 0 0 0) as (n & len & mem' & d' & Hw & Hi & Hsn & Hcap & Hlm & Hst & Hdata); try done.
  { rewrite Hprev, Ea, En. apply list_lookup_insert_eq. rewrite (vo_avail _ _ Hq).
    pose proof (Z.mod_pos_bound (vq_avail_index (requestq s)) (vq_num_descs (requestq s))). lia. }
  { by rewrite Hprev. }
  { apply (vo_counts _ _ Hq1). }
  { lia. }
  { unfold req_size. lia. }
  { rewrite Z.sub_diag, Ht. by destruct w. }
  rewrite Z.sub_diag, Hsec in *. exists n. intros fuel Hfuel.
  destruct (virtq_pop_run q1 [i; j; k] t chain len) as (i' & q2 & [= <-] & E2 & Hq2 & E3 & E4 & E5); try done.
  { unfold caught_up. congruence. }
  { apply (vo_nodup _ _ Hq). }
  { rewrite En. by apply (Forall_app _ [i; j; k] t) in Hr as [? _]. }
  { unfold chain, req_data, req_status. repeat constructor; cbn; lia. }
  destruct (device_uses_seen i len q1) as [Hne _]; [unfold caught_up; congruence|lia|apply (vo_used _ _ Hq1)|apply (vo_counts _ _ Hq1)|].
  exists i, [j; k], len, (Blkdrv q1 (blk_dmabuf s) (dma_mem s) (blk_hw s)), (Blkdrv q1 (blk_dmabuf s) (dma_mem s) (mmio_write32 VIRTIO_REG_QUEUE_NOTIFY (vq_index q1) (blk_hw s))),
    (Blkdrv (device_uses i len q1) (blk_dmabuf s) mem' d'), q2, mem', d'.
  split_and!; try done.
  - by apply on_queue_run.
  - apply Forall_cons in Hr as [? _]. lia.
  - apply (busy_wait_run n fuel (Blkdrv q1 _ _ _)); cbn [requestq blk_dmabuf dma_mem blk_hw]; rewrite ?Hp; try done.
    unfold virtq_is_empty. rewrite El, Eu, Hcu. apply Z.eqb_refl.
  - exact (on_queue_run (virtq_pop 3) (Blkdrv _ _ _ _) _ _ E2).
  - by rewrite E3, El.
  - by rewrite E4, Eu.
  - by rewrite E5.
  - intros Hc'. destruct (Hdata Hc') as [Hd1 Hd2]. split; [by intros ->; apply Hd1|]. intros x. rewrite Hd2. destruct w; cbn [negb]; repeat case_decide; (done || (exfalso; naive_solver)).
Qed.

(** The driver after a request. *)
Lemma blk_ok_after s l q2 mem' (d' : D) :
  blk_ok s l -> virtq_ok q2 l -> vq_last_used_index q2 = vq_last_used_index (requestq s) + 1 ->
  vq_used_index q2 = u16 (vq_used_index (requestq s) + 1) -> hw_seen d' = vq_avail_index q2 -> length mem' = length (dma_mem s) ->
  vq_used_index (requestq s) <> 65535 -> blk_ok (Blkdrv q2 (blk_dmabuf s) mem' d') l.
Proof.
  intros [Hq Hl Hcu Hs Hd Hm] Hq2 E1 E2 E3 E4 Hu. pose proof (vo_counts _ _ Hq). split; cbn [requestq blk_hw blk_dmabuf dma_mem]; try done; [|lia].
  unfold caught_up in *. rewrite E1, E2, Hcu, u16_small by lia. done.
Qed.

(** Filling the request. *)
Lemma fill_run {B} s uaddr sector buf (w : bool) (f : ST (blkdrv D) B) :
  db_uaddr (blk_dmabuf s) = uaddr -> 532 <= Z.of_nat (length (dma_mem s)) ->
  (req_write uaddr 0 (le_split 4 (if w then VIRTIO_BLK_T_OUT else VIRTIO_BLK_T_IN)) ;;
   req_write uaddr 4 (le_split 4 0) ;; req_write uaddr 8 (le_split 8 sector) ;;
   (if w then req_write uaddr req_data (take (Z.to_nat SECTOR_SIZE) buf) else mret tt) ;; f) s =
  f (Blkdrv (requestq s) (blk_dmabuf s) (filled sector buf w (dma_mem s)) (blk_hw s)).
Proof.
  intros <- Hm. rewrite (ST_bind_run _ _ _ _ _ (req_write_run s 0 (le_split 4 (if w then VIRTIO_BLK_T_OUT else VIRTIO_BLK_T_IN)) ltac:(lia) ltac:(rewrite length_le_split; lia))).
  set (s1 := Blkdrv _ _ _ _). rewrite (ST_bind_run _ _ _ _ _ (req_write_run s1 4 (le_split 4 0) ltac:(lia)
    ltac:(rewrite length_le_split; cbn [s1 dma_mem]; rewrite length_splice; lia))).
  set (s2 := Blkdrv _ _ _ _). rewrite (ST_bind_run _ _ _ _ _ (req_write_run s2 8 (le_split 8 sector) ltac:(lia)
    ltac:(rewrite length_le_split; cbn [s2 s1 dma_mem]; rewrite !length_splice; lia))).
  set (s3 := Blkdrv _ _ _ _). unfold filled. destruct w; [|done].
  rewrite (ST_bind_run _ _ _ _ _ (req_write_run s3 req_data (take (Z.to_nat SECTOR_SIZE) buf) ltac:(done)
    ltac:(rewrite length_take; cbn [s3 s2 s1 dma_mem]; rewrite !length_splice; unfold req_data, SECTOR_SIZE; lia))). done.
Qed.

(** A request for one sector. *)
Lemma read_write_run s l sector buf (w : bool) :
  blk_ok s l -> 0 <= sector < 2 ^ 64 -> (w = true -> Z.to_nat SECTOR_SIZE <= length buf)%nat ->
  exists n, forall fuel, (n <= fuel)%nat ->
    if sector <? hw_capacity (blk_hw s) then
      exists s', read_write fuel sector buf SECTOR_SIZE w s =
        Ok (OK, (if w then buf else hw_sector (blk_hw s) sector ++ drop (Z.to_nat SECTOR_SIZE) buf), s') /\
        (vq_used_index (requestq s) <> 65535 -> blk_ok s' l) /\ hw_capacity (blk_hw s') = hw_capacity (blk_hw s) /\
        (forall x, hw_sector (blk_hw s') x = if decide (w = true /\ x = sector) then take (Z.to_nat SECTOR_SIZE) buf else hw_sector (blk_hw s) x)
    else read_write fuel sector buf SECTOR_SIZE w s = Panic.
Proof.
  intros Hok Hsec Hbuf. destruct (bo_dmabuf _ _ Hok) as (paddr & uaddr & Hd & Hpr & Hur). pose proof (bo_mem _ _ Hok) as Hm.
  destruct (filled_spec sector buf w (dma_mem s) Hsec Hm Hbuf) as (Ht & Hs & Hpl).
  set (b1 := Dmabuf paddr uaddr 532 1 [true]). set (s0 := Blkdrv (requestq s) b1 (filled sector buf w (dma_mem s)) (blk_hw s)).
  destruct (exchange_run s0 l w sector paddr) as (n & Hx); try done; [apply Hok..|by cbn; rewrite length_filled|]. exists n. intros fuel Hfuel.
  destruct (Hx fuel Hfuel) as (i & h & len & s1 & s2 & s3 & q2 & mem' & d' & E1 & Hi & E2 & E3 & E4 & Hh & Hq2 & E5 & E6 & E7 & E8 & E9 & Hst & Hdata).
  clear Hx. cbn [s0 requestq dma_mem blk_hw] in *. rewrite length_filled in E8.
  unfold read_write. change (negb (IS_ALIGNED SECTOR_SIZE SECTOR_SIZE)) with false. change (REQUEST_BUFFER_SIZE <? SECTOR_SIZE) with false. cbv iota.
  assert (Ea : on_dmabuf dmabuf_alloc s = Ok (Some (uaddr, paddr), Blkdrv (requestq s) b1 (dma_mem s) (blk_hw s))).
  { apply on_dmabuf_run. rewrite Hd. by apply dmabuf_alloc_one. }
  rewrite (ST_bind_run _ _ _ _ _ Ea). cbv iota beta. rewrite fill_run by done. cbn [requestq dma_mem blk_hw blk_dmabuf]. fold s0.
  rewrite (ST_bind_run _ _ _ _ _ E1). destruct (Z.ltb_spec i 0); [lia|].
  rewrite (ST_bind_run (gets _) _ _ _ _ eq_refl), (ST_bind_run _ _ _ _ _ E2), (ST_bind_run _ _ _ _ _ E3), (ST_bind_run _ _ _ _ _ E4).
  change (3 <? 0) with false. change (3 =? 3) with true. cbv iota. rewrite (ST_bind_run (assert true) _ _ _ _ eq_refl).
  destruct h as [|j [|k [|]]]; try done. rewrite request_chain_ok by done. unfold numbered. cbn [zip_with lookup list_lookup].
  do 2 rewrite (ST_bind_run (lift_out (Ok _)) _ _ _ _ eq_refl). cbn [c_desc_index c_len]. rewrite !Z.eqb_refl. do 2 rewrite (ST_bind_run (assert true) _ _ _ _ eq_refl).
  set (s4 := Blkdrv q2 _ mem' d'). change uaddr with (db_uaddr (blk_dmabuf s4)).
  rewrite (ST_bind_run _ _ _ _ _ (req_read_run s4 req_status 1 ltac:(done) ltac:(cbn [s4 dma_mem]; unfold req_status; lia))).
  change (getn _ _ (dma_mem s4)) with (getn 528 1 mem'). destruct (Z.ltb_spec sector (hw_capacity (blk_hw s))) as [Hcap|Hcap].
  - rewrite (proj2 Hst Hcap). rewrite (ST_bind_run (assert true) _ _ _ _ eq_refl). destruct (Hdata Hcap) as [Hd1 Hd2].
    set (s5 := Blkdrv q2 (blk_dmabuf s) mem' d').
    assert (Ef : on_dmabuf (dmabuf_free paddr) s4 = Ok (tt, s5)).
    { unfold s5. rewrite Hd. apply (on_dmabuf_run _ s4). by apply dmabuf_free_one. }
    exists s5. split; [|split_and!; [by apply (blk_ok_after s)|done|]].
    + destruct w.
      * rewrite (ST_bind_run (mret _) _ _ _ _ eq_refl), (ST_bind_run _ _ _ _ _ Ef). done.
      * rewrite <- (Hd1 eq_refl).
        assert (Er : (data ← req_read (db_uaddr (blk_dmabuf s4)) req_data SECTOR_SIZE; mret (data ++ drop (Z.to_nat SECTOR_SIZE) buf)) s4
          = Ok (req_payload mem' 0 ++ drop (Z.to_nat SECTOR_SIZE) buf, s4)).
        { rewrite (ST_bind_run _ _ _ _ _ (req_read_run s4 req_data SECTOR_SIZE ltac:(done)
            ltac:(cbn [s4 dma_mem]; unfold req_data, SECTOR_SIZE; lia))). done. }
        rewrite (ST_bind_run _ _ _ _ _ Er), (ST_bind_run _ _ _ _ _ Ef). done.
    + intros x. rewrite Hd2. destruct (decide (w = true /\ x = sector)) as [[Hw _]|]; [by apply Hpl|done].
  - destruct (Z.eqb_spec (le_combine (getn 528 1 mem')) VIRTIO_BLK_S_OK) as [E|_]; [apply Hst in E; lia|]. done.
Qed.

(** C18: The block device driver is a disk.  On a driver between two requests, with a device as
    the virtio specification describes it, a read of one sector is answered with the sector's
    contents and changes no sector, and a write of one sector is answered and changes exactly
    that sector; both leave the driver ready for the next request, as long as the device's 16-bit
    counter has not wrapped around.  A sector beyond the device's capacity makes the driver
    panic.  A length that is not a multiple of the sector size, or is more than one sector, is
    refused with its error and leaves the driver alone. *)
Theorem blk_driver_is_a_disk s l stack :
  blk_ok s l ->
  (forall src sector, 0 <= sector < 2 ^ 32 -> exists n, forall fuel, (n <= fuel)%nat ->
    if sector <? hw_capacity (blk_hw s) then
      exists s', blk_handle_message fuel stack (BlkRead src sector SECTOR_SIZE) s =
          Ok (Some (src, BlkReadReply SECTOR_SIZE (hw_sector (blk_hw s) sector)), s') /\
        (vq_used_index (requestq s) <> 65535 -> blk_ok s' l) /\ forall x, hw_sector (blk_hw s') x = hw_sector (blk_hw s) x
    else blk_handle_message fuel stack (BlkRead src sector SECTOR_SIZE) s = Panic) /\
  (forall src sector data, 0 <= sector < 2 ^ 32 -> (Z.to_nat SECTOR_SIZE <= length data)%nat -> exists n, forall fuel, (n <= fuel)%nat ->
    if sector <? hw_capacity (blk_hw s) then
      exists s', blk_handle_message fuel stack (BlkWrite src sector data SECTOR_SIZE) s = Ok (Some (src, BlkWriteReply), s') /\
        (vq_used_index (requestq s) <> 65535 -> blk_ok s' l) /\
        forall x, hw_sector (blk_hw s') x = if decide (x = sector) then take (Z.to_nat SECTOR_SIZE) data else hw_sector (blk_hw s) x
    else blk_handle_message fuel stack (BlkWrite src sector data SECTOR_SIZE) s = Panic) /\
  (forall fuel src sector data len err,
    (if IS_ALIGNED len SECTOR_SIZE then SECTOR_SIZE < len /\ err = ERR_TOO_LARGE else err = ERR_INVALID_ARG) ->
    blk_handle_message fuel stack (BlkRead src sector len) s = Ok (Some (src, BlkReplyErr err), s) /\
    blk_handle_message fuel stack (BlkWrite src sector data len) s = Ok (Some (src, BlkReplyErr err), s)).
Proof.
  intros Hok. split_and!.
  - intros src sector Hs. destruct (read_write_run s l sector stack false Hok) as (n & Hn); [lia|done|]. exists n. intros fuel Hf.
    specialize (Hn fuel Hf). unfold blk_handle_message. case_match; [|unfold mbind, ST_bind; by rewrite Hn].
    destruct Hn as (s' & E & Hok' & _ & Hsec). exists s'. rewrite (ST_bind_run _ _ _ _ _ E). split_and!; [|done|].
    + change (negb (OK =? OK)) with false. cbv iota. rewrite <- (hw_sector_length (blk_hw s) sector) at 1. by rewrite take_app_length.
    + intros x. rewrite Hsec. by rewrite decide_False by (by intros [? _]).
  - intros src sector data Hs Hl. destruct (read_write_run s l sector data true Hok) as (n & Hn); [lia|done|]. exists n. intros fuel Hf.
    specialize (Hn fuel Hf). unfold blk_handle_message. case_match; [|unfold mbind, ST_bind; by rewrite Hn].
    destruct Hn as (s' & E & Hok' & _ & Hsec). exists s'. rewrite (ST_bind_run _ _ _ _ _ E). split_and!; [done|done|].
    intros x. rewrite Hsec. repeat case_decide; try done; tauto.
  - intros fuel src sector data len err He.
    assert (Hrw : forall buf w, read_write fuel sector buf len w s = Ok (err, buf, s) /\ negb (err =? OK) = true).
    { intros buf w. unfold read_write. destruct (IS_ALIGNED len SECTOR_SIZE); [|by subst err]. destruct He as [Hlen ->].
      unfold REQUEST_BUFFER_SIZE. destruct (Z.ltb_spec SECTOR_SIZE len); [done|lia]. }
    destruct (Hrw stack false) as [E1 He1], (Hrw data true) as [E2 _].
    unfold blk_handle_message. rewrite (ST_bind_run _ _ _ _ _ E1), (ST_bind_run _ _ _ _ _ E2), He1. done.
Qed.
End Correct.

(** A driver that has just been initialized, over the small device. *)
Definition tiny_alloc (size : Z) : ST tiny_hw (option (Z * Z)) := mret (Some (65536, 2147483648)).
Definition tiny_driver : outcome (blkdrv tiny_hw) :=
  init_device (mret OK) tiny_alloc (replicate 4096 0) (TinyHw 0 4 {[ 2 := replicate 512 7 ]} false).

Lemma blk_driver_is_a_disk_witness :
  exists s, tiny_driver = Ok s /\ exists n, forall fuel, (n <= fuel)%nat ->
    exists s', blk_handle_message fuel [] (BlkRead 5 2 SECTOR_SIZE) s = Ok (Some (5, BlkReadReply SECTOR_SIZE (replicate 512 7)), s').
Proof.
  eexists. split; [reflexivity|]. set (s := Blkdrv _ _ _ _).
  destruct (blk_driver_is_a_disk s (seqZ 0 8) []) as (Hr & _ & _).
  - destruct (virtq_new_ok 0 8 ltac:(lia)) as [A1 A2 A3 A4 A5 A6 A7 A8 A9 A10 A11].
    split; [split; done|rewrite length_seqZ; lia|done|done| |vm_compute; discriminate]. exists 2147483648, 65536. split; [done|lia].
  - destruct (Hr 5 2 ltac:(lia)) as (n & Hn). exists n. intros fuel Hf. destruct (Hn fuel Hf) as (s' & E & _). by exists s'.
Defined.
