(* ===== verification/VirtioNet.v ===== *)
(** The network device driver (servers/virtio_net/main.c) on the virtio library.

    The driver's state is the two virtqueues, the two areas of DMA buffers, the task of the
    TCP/IP server and the messages it has sent there; the device's registers are behind [Mmio]. *)

From S2P Require Import Prelude Types Virtio.

Definition NUM_TX_BUFFERS : Z := 128.
Definition NUM_RX_BUFFERS : Z := 128.
Definition VIRTIO_NET_MAX_PACKET_SIZE : Z := 1514.
Definition VIRTIO_REG_DEVICE_CONFIG : Z := 256.
Definition VIRTIO_ISR_STATUS_QUEUE : Z := 1.
(** [struct virtio_net_header] and [struct virtio_net_req]. *)
Definition sizeof_virtio_net_header : Z := 10.
Definition sizeof_virtio_net_req : Z := 1524.
(** The room for a packet in a message. *)
Definition NET_RECV_PAYLOAD : Z := 1500.

(** An 8-bit register. *)
Class Mmio8 (D : Type) := { mmio_read8 : Z -> D -> Z * D }.

Section Driver.
Context {D : Type} `{Mmio D} `{Mmio8 D}.

(** A [NET_RECV] message: its destination, its payload and its [payload_len]. *)
Record net_msg := NetMsg { nm_dst : Z; nm_payload : list Z; nm_len : Z }.
Record dma := Dma { dma_buf : dmabuf; dma_bytes : list Z }.
Record netdrv := Netdrv {
  tcpip_server : Z; rx_virtq : virtq; tx_virtq : virtq; rx_dma : dma; tx_dma : dma; net_hw : D; net_out : list net_msg }.
Abbreviation NST := (ST netdrv).
Definition nset_server x s := Netdrv x (rx_virtq s) (tx_virtq s) (rx_dma s) (tx_dma s) (net_hw s) (net_out s).
Definition nset_rxq x s := Netdrv (tcpip_server s) x (tx_virtq s) (rx_dma s) (tx_dma s) (net_hw s) (net_out s).
Definition nset_txq x s := Netdrv (tcpip_server s) (rx_virtq s) x (rx_dma s) (tx_dma s) (net_hw s) (net_out s).
Definition nset_rx x s := Netdrv (tcpip_server s) (rx_virtq s) (tx_virtq s) x (tx_dma s) (net_hw s) (net_out s).
Definition nset_tx x s := Netdrv (tcpip_server s) (rx_virtq s) (tx_virtq s) (rx_dma s) x (net_hw s) (net_out s).
Definition nset_hw x s := Netdrv (tcpip_server s) (rx_virtq s) (tx_virtq s) (rx_dma s) (tx_dma s) x (net_out s).
Definition nset_out x s := Netdrv (tcpip_server s) (rx_virtq s) (tx_virtq s) (rx_dma s) (tx_dma s) (net_hw s) x.

(** An operation on a part of the state. *)
Definition on {P A} (get : netdrv -> P) (set : P -> netdrv -> netdrv) (m : ST P A) : NST A := fun s =>
  match m (get s) with Ok (a, p) => Ok (a, set p s) | Panic => Panic | Undef => Undef end.
Definition in_buf {A} (m : BST A) : ST dma A := fun d =>
  match m (dma_buf d) with Ok (a, b) => Ok (a, Dma b (dma_bytes d)) | Panic => Panic | Undef => Undef end.
Definition on_rxq {A} : QST A -> NST A := on rx_virtq nset_rxq.
Definition on_txq {A} : QST A -> NST A := on tx_virtq nset_txq.
Definition on_rx {A} : ST dma A -> NST A := on rx_dma nset_rx.
Definition on_tx {A} : ST dma A -> NST A := on tx_dma nset_tx.
Definition on_hw {A} : ST D A -> NST A := on net_hw nset_hw.

(** Accesses to a DMA area through a virtual address. *)
Definition dma_write (uaddr : Z) (bytes : list Z) : ST dma unit := fun d =>
  let o := uaddr - db_uaddr (dma_buf d) in
  if (0 <=? o) && (o + Z.of_nat (length bytes) <=? Z.of_nat (length (dma_bytes d)))
  then Ok (tt, Dma (dma_buf d) (splice (Z.to_nat o) bytes (dma_bytes d))) else Undef.
Definition dma_read (uaddr len : Z) : ST dma (list Z) :=
  getopt (fun d => let o := uaddr - db_uaddr (dma_buf d) in
    if (0 <=? o) && (o + len <=? Z.of_nat (length (dma_bytes d))) then Some (getn (Z.to_nat o) (Z.to_nat len) (dma_bytes d)) else None).

Fixpoint read_macaddr_loop (i : Z) (n : nat) : ST D (list Z) :=
  match n with
  | O => mret []
  | S n' => b ← (fun d => Ok (mmio_read8 (VIRTIO_REG_DEVICE_CONFIG + i) d)); rest ← read_macaddr_loop (i + 1) n'; mret (b :: rest)
  end.
Definition read_macaddr : ST D (list Z) := read_macaddr_loop 0 6.

(** [payload] is the message from its payload on. *)
Definition transmit (payload : list Z) (len : Z) : NST Z :=
  if VIRTIO_NET_MAX_PACKET_SIZE <? len then mret ERR_TOO_LARGE
  else
    r ← on_tx (in_buf dmabuf_alloc);
    match r with
    | None => mret ERR_TRY_AGAIN
    | Some (req, paddr) =>
        on_tx (dma_write req [0]) ;;
        on_tx (dma_write (req + 1) [0]) ;;
        on_tx (dma_write (req + 4) (le_split 2 0)) ;;
        on_tx (dma_write (req + 6) (le_split 2 0)) ;;
        on_tx (dma_write (req + 8) (le_split 2 0)) ;;
        (if Z.of_nat (length payload) <? len then undef else mret tt) ;;
        on_tx (dma_write (req + sizeof_virtio_net_header) (take (Z.to_nat len) payload)) ;;
        '(index_or_err, _) ← on_txq (virtq_push [Chain 0 paddr (u32 (sizeof_virtio_net_header + len)) false]);
        if index_or_err <? 0 then mret index_or_err
        else q ← gets tx_virtq; on_hw (virtq_notify q) ;; mret OK
    end.

(** The loops of [irq_handler]; the device stands still in them, so that a queue of [n]
    descriptors is empty after at most [n] rounds. *)
Fixpoint tx_loop (fuel : nat) : NST unit :=
  '(n, chain, _) ← on_txq (virtq_pop 1);
  if n <=? 0 then mret tt
  else
    match fuel, chain with
    | S fuel', c :: _ => on_tx (in_buf (dmabuf_free (c_addr c))) ;; tx_loop fuel'
    | _, _ => undef
    end.
(** The message takes [NET_RECV_PAYLOAD] bytes; whether [ipc_send] succeeds is only reported. *)
Definition forward (c : virtio_chain_entry) (total_len : Z) : NST unit :=
  req ← on_rx (in_buf (dmabuf_p2v (c_addr c)));
  if NET_RECV_PAYLOAD <? total_len then undef
  else
    payload ← on_rx (dma_read (req + sizeof_virtio_net_header) total_len);
    modify (fun s => nset_out (net_out s ++ [NetMsg (tcpip_server s) payload total_len]) s) ;;
    _ ← on_rxq (virtq_push [c]);
    mret tt.
Fixpoint rx_loop (fuel : nat) : NST unit :=
  '(n, chain, total_len) ← on_rxq (virtq_pop 1);
  if n <=? 0 then mret tt
  else
    match fuel, chain with
    | S fuel', c :: _ => forward c total_len ;; rx_loop fuel'
    | _, _ => undef
    end.
Definition irq_handler : NST unit :=
  status ← on_hw virtio_read_interrupt_status;
  let status := u8 status in
  on_hw (virtio_ack_interrupt status) ;;
  if has status VIRTIO_ISR_STATUS_QUEUE then
    s ← get;
    tx_loop (S (Z.to_nat (vq_num_descs (tx_virtq s)))) ;;
    rx_loop (S (Z.to_nat (vq_num_descs (rx_virtq s)))) ;;
    q ← gets rx_virtq;
    on_hw (virtq_notify q)
  else mret tt.

(** ** Initialization *)
Fixpoint fill_rx (n : nat) : NST unit :=
  match n with
  | O => mret tt
  | S n' =>
      r ← on_rx (in_buf dmabuf_alloc);
      match r with
      | None => panic
      | Some (_, paddr) =>
          '(desc_index, _) ← on_rxq (virtq_push [Chain 0 paddr sizeof_virtio_net_req true]);
          assert (negb (desc_index <? 0)) ;;
          fill_rx n'
      end
  end.
(** [map] and [alloc] are the requests to the VM server, [irq_listen] is the system call, and
    [mem] is what the memory of the buffers holds. *)
Definition init_net (map irq_listen : ST D Z) (alloc : Z -> ST D (option (Z * Z))) (mem : list Z) (d : D) : outcome netdrv :=
  match (
    '(err, qs) ← virtio_init map alloc 2;
    assert (err =? OK) ;;
    features ← virtio_read_device_features;
    err ← virtio_negotiate_feature features;
    assert (err =? OK) ;;
    err ← virtio_enable;
    assert (err =? OK) ;;
    rx ← virtq_get qs 0;
    tx ← virtq_get qs 1;
    txb ← dmabuf_create alloc sizeof_virtio_net_req NUM_TX_BUFFERS;
    rxb ← dmabuf_create alloc sizeof_virtio_net_req NUM_RX_BUFFERS;
    match txb, rxb with Some txb, Some rxb => mret (rx, tx, rxb, txb) | _, _ => panic end : ST D (virtq * virtq * dmabuf * dmabuf)) d with
  | Ok ((rx, tx, rxb, txb), d) =>
      match (fill_rx (Z.to_nat NUM_RX_BUFFERS) ;; err ← on_hw irq_listen; assert (err =? OK))
              (Netdrv 0 rx tx (Dma rxb mem) (Dma txb mem) d []) with
      | Ok (_, s) => Ok s | Panic => Panic | Undef => Undef
      end
  | Panic => Panic | Undef => Undef
  end.

(** ** Messages *)
Inductive netdrv_message :=
| NIrq
| NOpen (src : Z)
| NSend (payload : list Z) (payload_len : Z)
| NUnknown (type : Z).
(** The reply to [NET_OPEN], with its destination. *)
Definition net_handle_message (macaddr : list Z) (m : netdrv_message) : NST (option (Z * list Z)) :=
  match m with
  | NIrq => irq_handler ;; mret None
  | NOpen src => modify (nset_server src) ;; mret (Some (src, macaddr))
  | NSend payload len => _ ← transmit payload len; mret None
  | NUnknown _ => mret None
  end.
End Driver.
Arguments netdrv : clear implicits.

(** ** Receiving *)
Section Receive.
Context {D : Type} `{Mmio D} `{Mmio8 D}.
Implicit Types s : netdrv D.

(** The descriptor that holds a receive buffer. *)
Definition rx_entry (i a : Z) : virtio_chain_entry := Chain i a sizeof_virtio_net_req true.
(** The chains the device has given back and the driver has not seen. *)
Definition shown (q : virtq) (es : list (Z * Z)) : Prop :=
  vq_used_index q = vq_last_used_index q + Z.of_nat (length es) /\
  forall k e, es !! k = Some e -> vq_used_ring q !! Z.to_nat ((vq_last_used_index q + Z.of_nat k) `mod` vq_num_descs q) = Some e.
(** A queue of one-descriptor chains with free descriptors [l]; the device has given the
    chains [es] back, and descriptor [i] of them holds [buf i]. *)
Record queue_ready (q : virtq) (l : list Z) (buf : Z -> virtio_chain_entry) (es : list (Z * Z)) : Prop := {
  qr_ok : virtq_ok q l;
  qr_shown : shown q es;
  qr_ids : NoDup (es.*1 ++ l);
  qr_held : Forall (fun e => 0 <= fst e < vq_num_descs q /\ 0 <= c_addr (buf (fst e)) < 2 ^ 32 /\
    holds (vq_descs q) [fst e] [buf (fst e)]) es }.
Definition rx_buf (addr : Z -> Z) (i : Z) : virtio_chain_entry := rx_entry 0 (addr i).
Abbreviation rx_ready q l addr := (queue_ready q l (rx_buf addr)).
(** Heads of chains put into the available ring. *)
Fixpoint published (i n : Z) (ids ring : list Z) : list Z :=
  match ids with [] => ring | id :: ids => published (u16 (i + 1)) n ids (<[Z.to_nat (i `mod` n) := id]> ring) end.

Lemma queue_ready_length q l buf es : queue_ready q l buf es -> (length es <= Z.to_nat (vq_num_descs q))%nat.
Proof.
  intros [Hq _ Hnd Hh]. apply NoDup_app in Hnd as (Hnd & _ & _). pose proof (vo_num _ _ Hq).
  assert (Hsub : es.*1 ⊆+ seqZ 0 (vq_num_descs q)).
  { apply NoDup_submseteq; [done|]. intros x (e & -> & He)%list_elem_of_fmap. rewrite Forall_forall in Hh.
    apply elem_of_seqZ. specialize (Hh e He). lia. }
  apply submseteq_length in Hsub. rewrite length_seqZ, length_fmap in Hsub. done.
Qed.

(** A queue whose descriptors but [i] are as before. *)
Lemma queue_ready_step q q' l l' buf i len es :
  queue_ready q l buf ((i, len) :: es) -> virtq_ok q' l' -> NoDup (es.*1 ++ l') ->
  vq_num_descs q' = vq_num_descs q -> vq_used_ring q' = vq_used_ring q ->
  vq_last_used_index q' = vq_last_used_index q + 1 -> vq_used_index q' = vq_used_index q ->
  (forall j, 0 <= j -> j <> i -> vq_descs q' !! Z.to_nat j = vq_descs q !! Z.to_nat j) -> queue_ready q' l' buf es.
Proof.
  intros [Hq [Hu Hs] Hnd Hh] Hq' Hnd' En Er El Eu Hfr. rewrite fmap_cons in Hnd. apply NoDup_cons in Hnd as [Hni Hnd].
  cbn [length] in Hu. split; [done| |done|].
  - split; [lia|]. intros k e Hk. specialize (Hs (S k) e Hk). rewrite Er, En, El. rewrite Nat2Z.inj_succ in Hs.
    by replace (vq_last_used_index q + 1 + Z.of_nat k) with (vq_last_used_index q + Z.succ (Z.of_nat k)) by lia.
  - rewrite En. apply Forall_cons in Hh as [_ Hes]. apply Forall_forall. intros e He. rewrite Forall_forall in Hes.
    destruct (Hes e He) as (He1 & He2 & He3). split_and!; try done; try lia.
    eapply holds_ext; [|exact He3]. intros j ->%list_elem_of_singleton. apply Hfr; [lia|].
    intros Ee. apply Hni, elem_of_app. left. apply list_elem_of_fmap. by exists e.
Qed.

Lemma queue_ready_pop q l buf i len es :
  queue_ready q l buf ((i, len) :: es) ->
  exists q2, virtq_pop 1 q = Ok (1, numbered [i] [buf i], len, q2) /\ queue_ready q2 (i :: l) buf es /\
    vq_num_descs q2 = vq_num_descs q /\ vq_avail_index q2 = vq_avail_index q /\ vq_avail_ring q2 = vq_avail_ring q /\
    vq_used_ring q2 = vq_used_ring q /\ vq_last_used_index q2 = vq_last_used_index q + 1 /\ vq_used_index q2 = vq_used_index q /\
    (forall j, 0 <= j -> j <> i -> vq_descs q2 !! Z.to_nat j = vq_descs q !! Z.to_nat j).
Proof.
  intros Hr. destruct (Hr) as [Hq [Hu Hs] Hnd Hh]. apply Forall_cons in Hh as [(Hi & Ha & Hh) Hes]. cbn [fst] in *.
  rewrite fmap_cons in Hnd. cbn [app fst] in Hnd.
  pose proof (vo_counts _ _ Hq) as Hc. pose proof (vo_num _ _ Hq) as Hn. cbn [length] in Hu.
  assert (Hil : NoDup (i :: l)). { apply NoDup_cons in Hnd as [Hni Hnd]. apply NoDup_cons. split; [|apply (vo_nodup _ _ Hq)]. intros ?. apply Hni, elem_of_app. by right. }
  destruct (virtq_pop_shown q i [] l [buf i] len) as (q2 & E1 & Hq2 & P1 & P2 & P3 & P4 & P5 & P6 & P7); try done.
  { unfold virtq_is_empty. apply Z.eqb_neq. lia. }
  { unfold used_elem, getopt. rewrite Z.rem_mod_nonneg by lia. specialize (Hs 0%nat _ eq_refl). rewrite Z.add_0_r in Hs. by rewrite Hs. }
  { by apply Forall_singleton. }
  { by apply Forall_singleton. }
  assert (Hfr : forall j, 0 <= j -> j <> i -> vq_descs q2 !! Z.to_nat j = vq_descs q !! Z.to_nat j).
  { intros j Hj Hne. apply P7; [done|]. by rewrite list_elem_of_singleton. }
  exists q2. split_and!; try done. apply (queue_ready_step q q2 l (i :: l) buf i len es); try done. by rewrite <- Permutation_middle.
Qed.

Lemma rx_pop_push q l addr i len es :
  rx_ready q l addr ((i, len) :: es) ->
  exists q2 q3, virtq_pop 1 q = Ok (1, [rx_entry i (addr i)], len, q2) /\
    virtq_push [rx_entry i (addr i)] q2 = Ok (i, [rx_entry i (addr i)], q3) /\
    rx_ready q3 l addr es /\ holds (vq_descs q3) [i] [rx_entry 0 (addr i)] /\
    (forall j, 0 <= j -> j <> i -> vq_descs q3 !! Z.to_nat j = vq_descs q !! Z.to_nat j) /\
    vq_num_descs q3 = vq_num_descs q /\ vq_avail_index q3 = u16 (vq_avail_index q + 1) /\
    vq_avail_ring q3 = <[Z.to_nat (vq_avail_index q `mod` vq_num_descs q) := i]> (vq_avail_ring q).
Proof.
  intros Hr. destruct (queue_ready_pop _ _ _ _ _ _ Hr) as (q2 & E1 & [Hq2 _ Hnd _] & P1 & P2 & P3 & P4 & P5 & P6 & P7).
  destruct (virtq_push_run q2 [i] l [rx_entry i (addr i)] Hq2) as (q3 & E2 & Hh3 & Hq3 & Q1 & Q2 & Q3 & Q4 & Q5 & Q6 & Q7); [done|done|].
  assert (Hfh : vq_free_head q2 = i) by (by destruct (vo_free _ _ Hq2)). rewrite Hfh in *.
  assert (Hfr : forall j, 0 <= j -> j <> i -> vq_descs q3 !! Z.to_nat j = vq_descs q !! Z.to_nat j).
  { intros j Hj Hne. assert (Hjn : j ∉ [i]) by (by rewrite list_elem_of_singleton). by rewrite Q7, P7. }
  exists q2, q3. rewrite P1, P2, P3 in *. split_and!; try done. apply (queue_ready_step q q3 l l (rx_buf addr) i len es); try done; try congruence.
  rewrite <- Permutation_middle in Hnd. by apply NoDup_cons in Hnd as [_ ?].
Qed.

(** The bytes a packet is forwarded with. *)
Definition packet_of s (addr : Z -> Z) (e : Z * Z) : net_msg :=
  NetMsg (tcpip_server s)
    (getn (Z.to_nat (addr (fst e) - db_paddr (dma_buf (rx_dma s)) + sizeof_virtio_net_header)) (Z.to_nat (snd e)) (dma_bytes (rx_dma s))) (snd e).
(** Its buffer is one of the receive buffers, and the packet fits a message. *)
Definition fits (d : dma) (addr : Z -> Z) (e : Z * Z) : Prop :=
  db_paddr (dma_buf d) <= addr (fst e) < db_paddr (dma_buf d) + db_entry_size (dma_buf d) * db_num_entries (dma_buf d) /\
  0 <= snd e <= NET_RECV_PAYLOAD /\
  addr (fst e) - db_paddr (dma_buf d) + sizeof_virtio_net_header + snd e <= Z.of_nat (length (dma_bytes d)).
Record area_ok (d : dma) : Prop := {
  ao_paddr : 0 <= db_paddr (dma_buf d) /\ db_paddr (dma_buf d) + db_entry_size (dma_buf d) * db_num_entries (dma_buf d) < 2 ^ 32;
  ao_uaddr : 0 <= db_uaddr (dma_buf d) /\ db_uaddr (dma_buf d) + db_entry_size (dma_buf d) * db_num_entries (dma_buf d) < 2 ^ 32;
  ao_size : 0 <= db_entry_size (dma_buf d) * db_num_entries (dma_buf d) }.

Lemma forward_run s addr i len q3 (x : Z * list virtio_chain_entry) :
  area_ok (rx_dma s) -> fits (rx_dma s) addr (i, len) -> virtq_push [rx_entry i (addr i)] (rx_virtq s) = Ok (x, q3) ->
  forward (rx_entry i (addr i)) len s = Ok (tt, nset_rxq q3 (nset_out (net_out s ++ [packet_of s addr (i, len)]) s)).
Proof.
  intros [Hp Hu Hsz] (Ha & Hl & Hf) E. cbn [fst snd] in *. set (b := dma_buf (rx_dma s)) in *.
  assert (Ev : on_rx (in_buf (dmabuf_p2v (addr i))) s = Ok (db_uaddr b + (addr i - db_paddr b), s)).
  { unfold on_rx, on, in_buf, dmabuf_p2v, check_paddr. cbv [get mbind ST_bind mret ST_ret assert]. fold b.
    rewrite (u32_small (db_entry_size b * db_num_entries b)), (u32_small (db_paddr b + _)) by lia.
    destruct (Z.leb_spec (db_paddr b) (addr i)); [|lia]. destruct (Z.ltb_spec (addr i) (db_paddr b + db_entry_size b * db_num_entries b)); [|lia].
    rewrite u32_small by lia. unfold b. destruct s as [? ? ? [? ?] ? ? ?]. cbn. do 3 f_equal. lia. }
  unfold forward. cbn [c_addr rx_entry]. rewrite (ST_bind_run _ _ _ _ _ Ev). destruct (Z.ltb_spec NET_RECV_PAYLOAD len); [lia|].
  assert (Er : on_rx (dma_read (db_uaddr b + (addr i - db_paddr b) + sizeof_virtio_net_header) len) s = Ok (nm_payload (packet_of s addr (i, len)), s)).
  { unfold on_rx, on, dma_read, getopt. fold b.
    replace (db_uaddr b + (addr i - db_paddr b) + sizeof_virtio_net_header - db_uaddr b) with (addr i - db_paddr b + sizeof_virtio_net_header) by lia.
    destruct (Z.leb_spec 0 (addr i - db_paddr b + sizeof_virtio_net_header)); [|unfold sizeof_virtio_net_header in *; lia].
    destruct (Z.leb_spec (addr i - db_paddr b + sizeof_virtio_net_header + len) (Z.of_nat (length (dma_bytes (rx_dma s))))); [|lia].
    cbn [andb]. unfold b. by destruct s. }
  rewrite (ST_bind_run _ _ _ _ _ Er), (ST_bind_run (modify _) _ _ _ _ eq_refl). unfold mbind, ST_bind, on_rxq, on. cbn [nset_out rx_virtq].
  change (Chain i (addr i) sizeof_virtio_net_req true) with (rx_entry i (addr i)). by rewrite E.
Qed.

(** The packets the device has given back. *)
Lemma rx_loop_run es : forall fuel s l addr,
  rx_ready (rx_virtq s) l addr es -> area_ok (rx_dma s) -> Forall (fits (rx_dma s) addr) es -> (length es < fuel)%nat ->
  exists q', rx_loop fuel s = Ok (tt, nset_rxq q' (nset_out (net_out s ++ (packet_of s addr <$> es)) s)) /\
    virtq_ok q' l /\ caught_up q' /\
    vq_avail_ring q' = published (vq_avail_index (rx_virtq s)) (vq_num_descs (rx_virtq s)) es.*1 (vq_avail_ring (rx_virtq s)) /\
    vq_avail_index q' = u16 (vq_avail_index (rx_virtq s) + Z.of_nat (length es)) /\
    Forall (fun e => holds (vq_descs q') [fst e] [rx_entry 0 (addr (fst e))]) es /\
    (forall j, 0 <= j -> j ∉ es.*1 -> vq_descs q' !! Z.to_nat j = vq_descs (rx_virtq s) !! Z.to_nat j).
Proof.
  induction es as [|[i len] es IH]; intros fuel s l addr Hr Ha Hf Hfuel.
  - exists (rx_virtq s). destruct Hr as [Hq [Hu _] _ _]. cbn [length] in Hu.
    assert (Ep : on_rxq (virtq_pop 1) s = Ok (ERR_EMPTY, [], 0, s)).
    { unfold on_rxq, on, virtq_pop. rewrite (ST_bind_run get _ _ _ _ eq_refl). unfold virtq_is_empty.
      destruct (Z.eqb_spec (vq_last_used_index (rx_virtq s)) (vq_used_index (rx_virtq s))); [by destruct s|lia]. }
    destruct fuel as [|fuel]; [cbn in Hfuel; lia|]. cbn [rx_loop]. rewrite (ST_bind_run _ _ _ _ _ Ep). cbn [fmap list_fmap published length].
    rewrite app_nil_r, Z.add_0_r. pose proof (vo_counts _ _ Hq). rewrite u16_small by lia. split_and!; try done; [by destruct s|unfold caught_up; lia].
  - destruct (rx_pop_push _ _ _ _ _ _ Hr) as (q2 & q3 & E1 & E2 & Hr3 & Hh3 & Hfr & En & Ei & Er).
    apply Forall_cons in Hf as [Hfi Hf]. destruct fuel as [|fuel]; [cbn in Hfuel; lia|]. cbn [rx_loop].
    assert (Ep : on_rxq (virtq_pop 1) s = Ok (1, [rx_entry i (addr i)], len, nset_rxq q2 s)) by (unfold on_rxq, on; by rewrite E1).
    rewrite (ST_bind_run _ _ _ _ _ Ep). change (1 <=? 0) with false. cbv iota.
    rewrite (ST_bind_run _ _ _ _ _ (forward_run (nset_rxq q2 s) addr i len q3 _ Ha Hfi E2)).
    destruct (IH fuel (nset_rxq q3 (nset_out (net_out s ++ [packet_of s addr (i, len)]) s)) l addr) as (q' & E & Hq' & Hcu & Ea & Eai & Hes & Hfr'); try done; [cbn in Hfuel; lia|].
    cbn [nset_rxq nset_out rx_virtq net_out rx_dma] in *. rewrite En, Ei, Er in Ea. rewrite Ei in Eai.
    assert (Hni : i ∉ es.*1). { pose proof (qr_ids _ _ _ _ Hr) as Hnd. rewrite fmap_cons in Hnd. apply NoDup_cons in Hnd as [Hn _]. intros ?. apply Hn, elem_of_app. by left. }
    pose proof (qr_held _ _ _ _ Hr) as Hh. apply Forall_cons in Hh as [(Hi & _) _]. cbn [fst] in Hi.
    exists q'. split_and!; try done.
    + etransitivity; [exact E|]. rewrite <- app_assoc. done.
    + rewrite Eai. unfold u16. rewrite Zplus_mod_idemp_l. f_equal. cbn [length]. lia.
    + constructor; [|done]. cbn [fst]. eapply holds_ext; [|exact Hh3]. intros j ->%list_elem_of_singleton. apply Hfr'; [lia|done].
    + intros j Hj Hn. rewrite fmap_cons, not_elem_of_cons in Hn. rewrite Hfr', Hfr by tauto. done.
Qed.

(** *** Transmitted packets *)
Definition released_buf (b : dmabuf) (a : Z) : dmabuf :=
  Dmabuf (db_paddr b) (db_uaddr b) (db_entry_size b) (db_num_entries b)
    (<[Z.to_nat ((a - db_paddr b) / db_entry_size b) := false]> (db_used b)).
(** [a] is in one of the buffers of the area. *)
Definition in_area (b : dmabuf) (a : Z) : Prop :=
  0 < db_entry_size b /\ 0 <= db_paddr b /\ db_paddr b + db_entry_size b * db_num_entries b < 2 ^ 32 /\
  db_paddr b <= a < db_paddr b + db_entry_size b * db_num_entries b /\ length (db_used b) = Z.to_nat (db_num_entries b).

Lemma dmabuf_free_run b a : in_area b a -> dmabuf_free a b = Ok (tt, released_buf b a).
Proof.
  intros (He & Hp & Ho & Ha & Hl). unfold dmabuf_free, check_paddr. cbv [get mbind ST_bind mret ST_ret assert getopt modify].
  rewrite (u32_small (db_entry_size b * db_num_entries b)), u32_small by nia.
  destruct (Z.leb_spec (db_paddr b) a); [|lia]. destruct (Z.ltb_spec a (db_paddr b + db_entry_size b * db_num_entries b)); [|lia].
  assert (Hi : 0 <= (a - db_paddr b) / db_entry_size b < db_num_entries b).
  { split; [apply Z.div_pos; lia|apply Z.div_lt_upper_bound; lia]. }
  destruct (lookup_lt_is_Some_2 (db_used b) (Z.to_nat ((a - db_paddr b) / db_entry_size b))) as [u Eu]; [lia|].
  cbn. by rewrite Eu.
Qed.
Lemma in_area_released b a a' : in_area b a -> in_area (released_buf b a') a.
Proof. unfold in_area, released_buf. cbn. by rewrite length_insert. Qed.

Lemma tx_loop_run es : forall fuel s l buf,
  queue_ready (tx_virtq s) l buf es -> Forall (fun e => in_area (dma_buf (tx_dma s)) (c_addr (buf (fst e)))) es -> (length es < fuel)%nat ->
  exists q', tx_loop fuel s = Ok (tt, nset_txq q' (nset_tx
      (Dma (foldl released_buf (dma_buf (tx_dma s)) ((fun e => c_addr (buf (fst e))) <$> es)) (dma_bytes (tx_dma s))) s)) /\
    virtq_ok q' (reverse es.*1 ++ l) /\ caught_up q'.
Proof.
  induction es as [|[i len] es IH]; intros fuel s l buf Hr Hf Hfuel.
  - exists (tx_virtq s). destruct Hr as [Hq [Hu _] _ _]. cbn [length] in Hu.
    assert (Ep : on_txq (virtq_pop 1) s = Ok (ERR_EMPTY, [], 0, s)).
    { unfold on_txq, on, virtq_pop. rewrite (ST_bind_run get _ _ _ _ eq_refl). unfold virtq_is_empty.
      destruct (Z.eqb_spec (vq_last_used_index (tx_virtq s)) (vq_used_index (tx_virtq s))); [by destruct s|lia]. }
    destruct fuel as [|fuel]; [cbn in Hfuel; lia|]. cbn [tx_loop]. rewrite (ST_bind_run _ _ _ _ _ Ep). cbn.
    split_and!; [by destruct s as [? ? ? ? [? ?] ? ?]|done|unfold caught_up; lia].
  - destruct (queue_ready_pop _ _ _ _ _ _ Hr) as (q2 & E1 & Hr2 & _). apply Forall_cons in Hf as [Hfi Hf]. cbn [fst] in Hfi.
    destruct fuel as [|fuel]; [cbn in Hfuel; lia|]. cbn [tx_loop].
    assert (Ep : on_txq (virtq_pop 1) s = Ok (1, numbered [i] [buf i], len, nset_txq q2 s)) by (unfold on_txq, on; by rewrite E1).
    rewrite (ST_bind_run _ _ _ _ _ Ep). change (1 <=? 0) with false. cbv iota. unfold numbered. cbn [zip_with c_addr].
    set (d := Dma (released_buf (dma_buf (tx_dma s)) (c_addr (buf i))) (dma_bytes (tx_dma s))).
    assert (Ef : on_tx (in_buf (dmabuf_free (c_addr (buf i)))) (nset_txq q2 s) = Ok (tt, nset_tx d (nset_txq q2 s))).
    { unfold on_tx, on, in_buf. cbn [nset_txq tx_dma]. by rewrite (dmabuf_free_run _ _ Hfi). }
    rewrite (ST_bind_run _ _ _ _ _ Ef).
    destruct (IH fuel (nset_tx d (nset_txq q2 s)) (i :: l) buf) as (q' & E & Hq' & Hcu); try done; [|cbn in Hfuel; lia|].
    { eapply Forall_impl; [exact Hf|]. intros e. apply in_area_released. }
    exists q'. split_and!; try done. rewrite fmap_cons, reverse_cons, <- app_assoc. done.
Qed.

End Receive.

(** One packet received into buffer 1 and one sent from buffer 0, on queues of four descriptors. *)
#[local] Instance quiet_mmio : Mmio unit := {| mmio_read32 _ d := (1, d); mmio_write32 _ _ d := d |}.
#[local] Instance quiet_mmio8 : Mmio8 unit := {| mmio_read8 _ d := (0, d) |}.
Definition demo_queue (e : virtio_chain_entry) : virtq :=
  match virtq_push [e] (virtq_new 0 4) with Ok (_, q) => device_uses 0 60 q | _ => virtq_new 0 4 end.
Definition demo_netdrv : netdrv unit :=
  Netdrv 7 (demo_queue (rx_entry 0 9716)) (demo_queue (Chain 0 8192 74 false))
    (Dma (Dmabuf 8192 4096 1524 2 [true; true]) (replicate 4096 5)) (Dma (Dmabuf 8192 4096 1524 2 [true; false]) (replicate 4096 5)) () [].

Lemma demo_queue_ready e : 0 <= c_addr e < 2 ^ 32 -> queue_ready (demo_queue e) [1; 2; 3] (fun _ => e) [(0, 60)].
Proof.
  intros Ha. unfold demo_queue. pose proof (virtq_new_ok 0 4 ltac:(lia)) as Hq.
  destruct (virtq_push_run (virtq_new 0 4) [0] [1; 2; 3] [e] Hq) as (q1 & E & Hh & Hq1 & Q1 & Q2 & Q3 & Q4 & Q5 & Q6 & Q7); [done|done|].
  rewrite E. split; [by apply device_uses_ok| |repeat constructor; set_solver|].
  - split; [unfold device_uses; cbn; by rewrite Q4, Q5|]. intros [|k] e' Hk; [|done]. injection Hk as <-.
    unfold device_uses. cbn. rewrite Q4, Q5, Q6, Q3. done.
  - apply Forall_singleton. unfold device_uses. cbn [vq_num_descs qset_used fst]. rewrite Q3. split; [done|]. split; [done|exact Hh].
Qed.

