(* ===== verification/Riscv.v ===== *)
(** The machine below the kernel (kernel/riscv32/asm.h, plic.c, uart.c and the
    interrupt part of interrupt.c): control and status registers of a hart, the
    registers of the interrupt controller and the serial port, and the drivers that
    use them.

    A hart is its control and status registers, its thread pointer, its program
    counter and its privilege mode.  The supervisor registers [sstatus], [sie] and
    [sip] are windows of [mstatus], [mie] and [mip], as the privileged architecture
    defines them.  The devices are the class [PhysMmio]; what the drivers rely on is
    stated by [PlicSpec] and [UartSpec]. *)

From S2P Require Import Prelude Types KData Memory Vm Kernel Syscall.

(** ** Registers *)
Inductive csr :=
| CSR_mepc | CSR_mstatus | CSR_mhartid | CSR_mie | CSR_mip | CSR_mtvec | CSR_mscratch | CSR_medeleg
| CSR_mideleg | CSR_pmpaddr0 | CSR_pmpcfg0 | CSR_stvec | CSR_sepc | CSR_scause | CSR_stval | CSR_satp
| CSR_sscratch.

#[export] Instance csr_eq_dec : EqDecision csr.
Proof. solve_decision. Defined.

Inductive priv := PUser | PSupervisor | PMachine.
#[export] Instance priv_eq_dec : EqDecision priv.
Proof. solve_decision. Defined.

Record hart := Hart { h_csr : csr -> Z; h_tp : Z; h_pc : Z; h_priv : priv }.

Definition MSTATUS_MIE : Z := Z.shiftl 1 3.
Definition MSTATUS_MPP_S : Z := Z.shiftl 1 11.
Definition MSTATUS_MPP_MASK : Z := Z.shiftl 3 11.
Definition MIE_MTIE : Z := Z.shiftl 1 7.
Definition SSTATUS_SIE : Z := Z.shiftl 1 1.
Definition SSTATUS_SPIE : Z := Z.shiftl 1 5.
Definition SSTATUS_SPP : Z := Z.shiftl 1 8.
Definition SSTATUS_SUM : Z := Z.shiftl 1 18.
Definition SIE_SSIE : Z := Z.shiftl 1 1.
Definition SIE_STIE : Z := Z.shiftl 1 5.
Definition SIE_SEIE : Z := Z.shiftl 1 9.
Definition SIP_SSIP : Z := Z.shiftl 1 1.
Definition SCAUSE_S_SOFT_INTR : Z := Z.lor (Z.shiftl 1 31) 1.
Definition SCAUSE_S_EXT_INTR : Z := Z.lor (Z.shiftl 1 31) 9.
Definition SCAUSE_INS_MISS_ALIGN : Z := 0.
Definition SCAUSE_INST_ACCESS_FAULT : Z := 1.
Definition SCAUSE_ILLEGAL_INST : Z := 2.
Definition SCAUSE_BREAKPOINT : Z := 3.
Definition SCAUSE_LOAD_ACCESS_FAULT : Z := 5.
Definition SCAUSE_AMO_MISS_ALIGN : Z := 6.
Definition SCAUSE_STORE_ACCESS_FAULT : Z := 7.
Definition SCAUSE_ENV_CALL : Z := 8.
Definition SCAUSE_INST_PAGE_FAULT : Z := 12.
Definition SCAUSE_LOAD_PAGE_FAULT : Z := 13.
Definition SCAUSE_STORE_PAGE_FAULT : Z := 15.
Definition SATP_MODE_SV32 : Z := Z.shiftl 1 31.

(** Parts of [mstatus] and [mie] visible to the supervisor: the fields the kernel
    uses, and the interrupts a hart lets software delegate. *)
Definition SSTATUS_WINDOW : Z := Z.lor (Z.lor SSTATUS_SIE SSTATUS_SPIE) (Z.lor SSTATUS_SPP SSTATUS_SUM).
Definition S_INTERRUPTS : Z := Z.lor (Z.lor SIE_SSIE SIE_STIE) SIE_SEIE.

(** [old] with the bits of [mask] replaced by those of [v]. *)
Definition set_field (mask v old : Z) : Z := Z.lor (Z.land old (Z.lnot mask)) (Z.land v mask).

(** *** csrr and csrw *)
Abbreviation HST := (ST hart).
Definition set_csr (r : csr) (v : Z) (h : hart) : hart :=
  Hart (fun x => if decide (x = r) then v else h_csr h x) (h_tp h) (h_pc h) (h_priv h).
Definition csrr (r : csr) : HST Z := gets (fun h => h_csr h r).
Definition csrw (r : csr) (v : Z) : HST unit := modify (set_csr r v).

Definition write_mepc (value : Z) : HST unit := csrw CSR_mepc value.
Definition read_mstatus : HST Z := csrr CSR_mstatus.
Definition write_mstatus (value : Z) : HST unit := csrw CSR_mstatus value.
Definition read_mhartid : HST Z := csrr CSR_mhartid.
Definition read_mie : HST Z := csrr CSR_mie.
Definition write_mie (value : Z) : HST unit := csrw CSR_mie value.
Definition write_mtvec (value : Z) : HST unit := csrw CSR_mtvec value.
Definition write_mscratch (value : Z) : HST unit := csrw CSR_mscratch value.
Definition read_medeleg : HST Z := csrr CSR_medeleg.
Definition read_mideleg : HST Z := csrr CSR_mideleg.
Definition write_medeleg (value : Z) : HST unit := csrw CSR_medeleg value.
Definition write_mideleg (value : Z) : HST unit := csrw CSR_mideleg (Z.land value S_INTERRUPTS).
Definition write_pmpaddr0 (value : Z) : HST unit := csrw CSR_pmpaddr0 value.
Definition write_pmpcfg0 (value : Z) : HST unit := csrw CSR_pmpcfg0 value.
Definition write_stvec (value : Z) : HST unit := csrw CSR_stvec value.
Definition read_sepc : HST Z := csrr CSR_sepc.
Definition write_sepc (value : Z) : HST unit := csrw CSR_sepc value.
Definition read_scause : HST Z := csrr CSR_scause.
Definition read_stval : HST Z := csrr CSR_stval.
Definition read_satp : HST Z := csrr CSR_satp.
Definition write_satp (value : Z) : HST unit := csrw CSR_satp value.
Definition write_sscratch (value : Z) : HST unit := csrw CSR_sscratch value.
Definition write_tp (value : Z) : HST unit := modify (fun h => Hart (h_csr h) value (h_pc h) (h_priv h)).

Definition read_sstatus : HST Z := gets (fun h => Z.land (h_csr h CSR_mstatus) SSTATUS_WINDOW).
Definition write_sstatus (value : Z) : HST unit :=
  modify (fun h => set_csr CSR_mstatus (set_field SSTATUS_WINDOW value (h_csr h CSR_mstatus)) h).
Definition read_sie : HST Z := gets (fun h => Z.land (h_csr h CSR_mie) (h_csr h CSR_mideleg)).
Definition write_sie (value : Z) : HST unit :=
  modify (fun h => set_csr CSR_mie (set_field (h_csr h CSR_mideleg) value (h_csr h CSR_mie)) h).
Definition read_sip : HST Z := gets (fun h => Z.land (h_csr h CSR_mip) (h_csr h CSR_mideleg)).
(** Of the pending bits, software can write SSIP only. *)
Definition write_sip (value : Z) : HST unit :=
  modify (fun h => set_csr CSR_mip (set_field (Z.land SIP_SSIP (h_csr h CSR_mideleg)) value (h_csr h CSR_mip)) h).

(** *** Changes of privilege *)

(** [mret]: back to the mode in MPP, which becomes user mode; MIE takes MPIE's value,
    which becomes 1. *)
Definition MSTATUS_MPIE : Z := Z.shiftl 1 7.
Definition asm_mret : HST unit :=
  modify (fun h =>
    let s := h_csr h CSR_mstatus in
    let mode := match Z.land (Z.shiftr s 11) 3 with 0 => PUser | 1 => PSupervisor | _ => PMachine end in
    let s' := set_field MSTATUS_MIE (if has s MSTATUS_MPIE then MSTATUS_MIE else 0)
                (set_field MSTATUS_MPP_MASK 0 (Z.lor s MSTATUS_MPIE)) in
    Hart (h_csr (set_csr CSR_mstatus s' h)) (h_tp h) (h_csr h CSR_mepc) mode).

(** [sret]: back to the mode in SPP, with SIE := SPIE, SPIE := 1, SPP := 0. *)
Definition asm_sret : HST unit :=
  modify (fun h =>
    let s := h_csr h CSR_mstatus in
    let mode := if has s SSTATUS_SPP then PSupervisor else PUser in
    let s' := set_field SSTATUS_SIE (if has s SSTATUS_SPIE then SSTATUS_SIE else 0)
                (set_field SSTATUS_SPP 0 (Z.lor s SSTATUS_SPIE)) in
    Hart (h_csr (set_csr CSR_mstatus s' h)) (h_tp h) (h_csr h CSR_sepc) mode).

(** A trap taken to supervisor mode: SPIE := SIE, SIE := 0, SPP := the mode left. *)
Definition take_trap (cause tval : Z) : HST unit :=
  modify (fun h =>
    let s := h_csr h CSR_mstatus in
    let s' := set_field SSTATUS_SPP (if decide (h_priv h = PUser) then 0 else SSTATUS_SPP)
                (set_field SSTATUS_SIE 0
                  (set_field SSTATUS_SPIE (if has s SSTATUS_SIE then SSTATUS_SPIE else 0) s)) in
    let h' := set_csr CSR_mstatus s' (set_csr CSR_scause cause (set_csr CSR_stval tval (set_csr CSR_sepc (h_pc h) h))) in
    Hart (h_csr h') (h_tp h) (h_csr h CSR_stvec) PSupervisor).

(** *** CPU-local variables *)
Record cpuvar := CpuVar {
  cv_sp_top : Z;          (* arch.sp_top *)
  cv_mtimecmp : Z;        (* arch.mtimecmp *)
  cv_mtime : Z;           (* arch.mtime *)
  cv_interval : Z;        (* arch.interval *)
  cv_last_mtime : Z;      (* arch.last_mtime *)
  cv_id : Z;
  cv_online : bool;
  cv_ipi_pending : Z;
  cv_magic : Z;
}.
Definition CPUVAR_MAGIC : Z := 3203383023 (* 0xbeefbeef *).
Definition IPI_TLB_FLUSH : Z := Z.shiftl 1 0.
Definition IPI_RESCHEDULE : Z := Z.shiftl 1 1.
Definition cv_set_pending x v := CpuVar (cv_sp_top v) (cv_mtimecmp v) (cv_mtime v) (cv_interval v)
  (cv_last_mtime v) (cv_id v) (cv_online v) x (cv_magic v).
Definition cv_set_last_mtime x v := CpuVar (cv_sp_top v) (cv_mtimecmp v) (cv_mtime v) (cv_interval v)
  x (cv_id v) (cv_online v) (cv_ipi_pending v) (cv_magic v).
Definition cv_set_online x v := CpuVar (cv_sp_top v) (cv_mtimecmp v) (cv_mtime v) (cv_interval v)
  (cv_last_mtime v) (cv_id v) x (cv_ipi_pending v) (cv_magic v).
Definition cv_set_sp_top x v := CpuVar x (cv_mtimecmp v) (cv_mtime v) (cv_interval v)
  (cv_last_mtime v) (cv_id v) (cv_online v) (cv_ipi_pending v) (cv_magic v).

(** The timer: [mtime] advances by this much in a millisecond. *)
Definition MTIME_PER_1MS : Z := 10000.
Definition MTIME_TO_TICKS (mtime_diff : Z) : Z := u32 mtime_diff / (MTIME_PER_1MS / (TICK_HZ / 1000)).
Definition CLINT_MTIME : Z := CLINT_PADDR + 49144 (* 0xbff8 *).
Definition CLINT_MTIMECMP (hartid : Z) : Z := CLINT_PADDR + 16384 (* 0x4000 *) + 8 * hartid.
Definition ACLINT_SSWI_SETSSIP (hartid : Z) : Z := ACLINT_SSWI_PADDR + 4 * hartid.

(** ** Devices *)
Class PhysMmio (D : Type) := {
  paddr_read8 : Z -> D -> Z * D;
  paddr_read32 : Z -> D -> Z * D;
  paddr_write8 : Z -> Z -> D -> D;
  paddr_write32 : Z -> Z -> D -> D;
}.

Section Drivers.
Context {D : Type} `{PhysMmio D}.
Abbreviation DST := (ST D).

Definition mmio_read8_paddr (paddr : Z) : DST Z := fun d => Ok (paddr_read8 (arch_paddr_to_vaddr paddr) d).
Definition mmio_read32_paddr (paddr : Z) : DST Z := fun d => Ok (paddr_read32 (arch_paddr_to_vaddr paddr) d).
Definition mmio_write8_paddr (paddr val : Z) : DST unit := modify (paddr_write8 (arch_paddr_to_vaddr paddr) (u8 val)).
Definition mmio_write32_paddr (paddr val : Z) : DST unit := modify (paddr_write32 (arch_paddr_to_vaddr paddr) (u32 val)).

(** *** Interrupt controller (plic.c) *)
Definition PLIC_PRIORITY (irq : Z) : Z := PLIC_ADDR + 4 * irq.
Definition PLIC_ENABLE (irq : Z) : Z := PLIC_ADDR + 8320 (* 0x2080 *) + irq / 32 * 4.
Definition PLIC_THRESHOLD (hart : Z) : Z := PLIC_ADDR + 2101248 (* 0x201000 *) + 8192 * hart.
Definition PLIC_CLAIM (hart : Z) : Z := PLIC_ADDR + 2101252 (* 0x201004 *) + 8192 * hart.

Definition riscv32_plic_pending (cpu : Z) : DST Z := mmio_read32_paddr (PLIC_CLAIM cpu).
Definition riscv32_plic_ack (cpu irq : Z) : DST unit :=
  assert (irq <? IRQ_MAX) ;;
  mmio_write32_paddr (PLIC_CLAIM cpu) irq.
Definition arch_irq_enable (irq : Z) : DST Z :=
  assert (irq <? IRQ_MAX) ;;
  mmio_write32_paddr (PLIC_PRIORITY irq) 1 ;;
  v ← mmio_read32_paddr (PLIC_ENABLE irq);
  mmio_write32_paddr (PLIC_ENABLE irq) (Z.lor v (Z.shiftl 1 (irq `mod` 32))) ;;
  mret OK.
Definition arch_irq_disable (irq : Z) : DST Z :=
  assert (irq <? IRQ_MAX) ;;
  mmio_write32_paddr (PLIC_PRIORITY irq) 0 ;;
  v ← mmio_read32_paddr (PLIC_ENABLE irq);
  mmio_write32_paddr (PLIC_ENABLE irq) (Z.land v (Z.lnot (Z.shiftl 1 (irq `mod` 32)))) ;;
  mret OK.
Definition riscv32_plic_init_percpu (cpu : Z) : DST unit := mmio_write32_paddr (PLIC_THRESHOLD cpu) 0.

(** *** Serial port (uart.c) *)
Definition UART0_IRQ : Z := 10.
Definition UART_THR : Z := UART_ADDR + 0.
Definition UART_RBR : Z := UART_ADDR + 0.
Definition UART_IER : Z := UART_ADDR + 1.
Definition UART_IER_RX : Z := Z.shiftl 1 0.
Definition UART_FCR : Z := UART_ADDR + 2.
Definition UART_LSR : Z := UART_ADDR + 5.
Definition UART_LSR_RX_READY : Z := Z.shiftl 1 0.
Definition UART_LSR_TX_FULL : Z := Z.shiftl 1 5.
Definition UART_FCR_FIFO_ENABLE : Z := Z.shiftl 1 0.
Definition UART_FCR_FIFO_CLEAR : Z := Z.shiftl 3 1.

(** The busy loop is bounded by [fuel] reads of the line status register; [Undef] is
    the loop that has not ended by then. *)
Fixpoint wait_tx (fuel : nat) : DST unit :=
  match fuel with
  | O => undef
  | S fuel' =>
      lsr ← mmio_read8_paddr UART_LSR;
      if Z.land lsr UART_LSR_TX_FULL =? 0 then wait_tx fuel' else mret tt
  end.
Definition arch_serial_write (fuel : nat) (ch : Z) : DST unit :=
  wait_tx fuel ;; mmio_write8_paddr UART_THR ch.
Definition arch_serial_read : DST Z :=
  lsr ← mmio_read8_paddr UART_LSR;
  if Z.land lsr UART_LSR_RX_READY =? 0 then mret (-1) else mmio_read8_paddr UART_RBR.
Definition riscv32_uart_init : DST unit :=
  mmio_write8_paddr UART_IER 0 ;;
  mmio_write8_paddr UART_FCR (Z.lor UART_FCR_FIFO_ENABLE UART_FCR_FIFO_CLEAR) ;;
  mmio_write8_paddr UART_IER UART_IER_RX.

(** The reading loop of [handle_serial_interrupt]: until the port has no character. *)
Fixpoint serial_drain (fuel : nat) : DST (list Z) :=
  match fuel with
  | O => undef
  | S fuel' =>
      ch ← arch_serial_read;
      if ch =? -1 then mret [] else cons ch <$> serial_drain fuel'
  end.
End Drivers.

(** ** What the drivers rely on *)

(** Priorities and enable bits read back as written; other registers of the controller
    do not disturb them. *)
Definition plic_storage (a : Z) : Prop := PLIC_ADDR <= a < PLIC_ADDR + 2097152 (* 0x200000 *).

Class PlicSpec (D : Type) `{PhysMmio D} := {
  plic_reg : Z -> D -> Z;
  plic_reg_range a d : 0 <= plic_reg a d < 2 ^ 32;
  plic_read a d : plic_storage a -> paddr_read32 a d = (plic_reg a d, d);
  plic_write a v a' d : plic_storage a -> plic_storage a' -> 0 <= v < 2 ^ 32 ->
    plic_reg a' (paddr_write32 a v d) = if decide (a' = a) then v else plic_reg a' d;
}.

(** The receiver is a queue; the line status register says whether it is empty and does
    not change it. *)
Class UartSpec (D : Type) `{PhysMmio D} := {
  uart_rx : D -> list Z;
  uart_rx_range d : Forall (fun ch => 0 <= ch < 256) (uart_rx d);
  uart_lsr d : has (paddr_read8 UART_LSR d).1 UART_LSR_RX_READY = negb (bool_decide (uart_rx d = []))
    /\ uart_rx (paddr_read8 UART_LSR d).2 = uart_rx d;
  uart_rbr d ch chs : uart_rx d = ch :: chs ->
    (paddr_read8 UART_RBR d).1 = ch /\ uart_rx (paddr_read8 UART_RBR d).2 = chs;
}.

Section Spec.
Context {D : Type} `{PhysMmio D} `{!PlicSpec D} `{!UartSpec D}.

(** Whether the controller passes an interrupt on. *)
Definition irq_on (irq : Z) (d : D) : bool := Z.testbit (plic_reg (PLIC_ENABLE irq) d) (irq `mod` 32).

Lemma plic_addrs irq : 0 <= irq < IRQ_MAX ->
  plic_storage (PLIC_PRIORITY irq) /\ plic_storage (PLIC_ENABLE irq)
  /\ PLIC_PRIORITY irq <> PLIC_ENABLE irq /\ PLIC_ENABLE irq = PLIC_ENABLE 0 /\ irq `mod` 32 = irq.
Proof. unfold plic_storage, PLIC_PRIORITY, PLIC_ENABLE, PLIC_ADDR, IRQ_MAX. intros. split_and!; lia. Qed.

(** One driver call: set the priority, then rewrite the enable word with [f]. *)
Lemma irq_update_run irq prio (f : Z -> Z) d :
  0 <= irq < IRQ_MAX -> (prio = 0 \/ prio = 1) -> (forall v, 0 <= v < 2 ^ 32 -> 0 <= f v < 2 ^ 32) ->
  exists d', (mmio_write32_paddr (PLIC_PRIORITY irq) prio ;;
    v ← mmio_read32_paddr (PLIC_ENABLE irq);
    mmio_write32_paddr (PLIC_ENABLE irq) (f v) ;; mret OK) d = Ok (OK, d')
  /\ plic_reg (PLIC_ENABLE 0) d' = f (plic_reg (PLIC_ENABLE 0) d).
Proof.
  intros Hi Hp Hf. destruct (plic_addrs irq Hi) as (Sp & Se & Hne & He & _).
  unfold mmio_write32_paddr, mmio_read32_paddr, arch_paddr_to_vaddr.
  erewrite ST_bind_run by reflexivity. rewrite (u32_small prio) by lia.
  set (d1 := paddr_write32 _ _ d).
  assert (E1 : plic_reg (PLIC_ENABLE irq) d1 = plic_reg (PLIC_ENABLE irq) d).
  { unfold d1. rewrite plic_write, decide_False by (done || lia). done. }
  erewrite ST_bind_run. 2: { rewrite plic_read by done. reflexivity. }
  rewrite E1. pose proof (Hf _ (plic_reg_range (PLIC_ENABLE irq) d)).
  erewrite ST_bind_run by reflexivity. rewrite u32_small by done.
  eexists. split; [reflexivity|]. rewrite <- He, plic_write, decide_True by done. done.
Qed.

Lemma lor_bit_range v irq : 0 <= irq < 32 -> 0 <= v < 2 ^ 32 -> 0 <= Z.lor v (Z.shiftl 1 irq) < 2 ^ 32.
Proof.
  intros Hi Hv. apply lor_range; [lia|done|]. rewrite Z.shiftl_1_l. split; [apply Z.pow_nonneg; lia|].
  apply Z.pow_lt_mono_r; lia.
Qed.
Lemma land_lnot_range v m : 0 <= v < 2 ^ 32 -> 0 <= Z.land v (Z.lnot m) < 2 ^ 32.
Proof.
  intros Hv. assert (E : Z.land v (Z.lnot m) = Z.land v (Z.lnot m) `mod` 2 ^ 32).
  { rewrite <- Z.land_ones, <- Z.land_assoc, (Z.land_comm (Z.lnot m)), Z.land_assoc, Z.land_ones by lia.
    by rewrite Z.mod_small. }
  rewrite E. apply Z.mod_pos_bound. lia.
Qed.

(** The bit of one interrupt in the word all of them share. *)
Lemma irq_on_word irq d : 0 <= irq < IRQ_MAX -> irq_on irq d = Z.testbit (plic_reg (PLIC_ENABLE 0) d) irq.
Proof. intros Hi. unfold irq_on. destruct (plic_addrs irq Hi) as (_ & _ & _ & -> & ->). done. Qed.

Lemma arch_irq_enable_spec irq d : 0 <= irq < IRQ_MAX ->
  exists d', arch_irq_enable irq d = Ok (OK, d')
    /\ forall j, 0 <= j < IRQ_MAX -> irq_on j d' = (j =? irq) || irq_on j d.
Proof.
  intros Hi. unfold arch_irq_enable. replace (irq <? IRQ_MAX) with true by lia.
  erewrite ST_bind_run by reflexivity. destruct (plic_addrs irq Hi) as (_ & _ & _ & _ & Em).
  destruct (irq_update_run irq 1 (fun v => Z.lor v (Z.shiftl 1 (irq `mod` 32))) d) as (d' & E & Ed); [done|by right| |].
  { intros v Hv. rewrite Em. apply lor_bit_range; [unfold IRQ_MAX in Hi; lia|done]. }
  exists d'. split; [exact E|]. intros j Hj. rewrite !irq_on_word, Ed by done.
  rewrite Em, Z.lor_spec, Z.shiftl_1_l, Z.pow2_bits_eqb by (unfold IRQ_MAX in *; lia).
  rewrite orb_comm, (Z.eqb_sym irq j). done.
Qed.

Lemma arch_irq_disable_spec irq d : 0 <= irq < IRQ_MAX ->
  exists d', arch_irq_disable irq d = Ok (OK, d')
    /\ forall j, 0 <= j < IRQ_MAX -> irq_on j d' = negb (j =? irq) && irq_on j d.
Proof.
  intros Hi. unfold arch_irq_disable. replace (irq <? IRQ_MAX) with true by lia.
  erewrite ST_bind_run by reflexivity. destruct (plic_addrs irq Hi) as (_ & _ & _ & _ & Em).
  destruct (irq_update_run irq 0 (fun v => Z.land v (Z.lnot (Z.shiftl 1 (irq `mod` 32)))) d) as (d' & E & Ed);
    [done|by left|intros; by apply land_lnot_range|].
  exists d'. split; [exact E|]. intros j Hj. rewrite !irq_on_word, Ed by done.
  rewrite Em, Z.land_spec, Z.lnot_spec, Z.shiftl_1_l, Z.pow2_bits_eqb by (unfold IRQ_MAX in *; lia).
  rewrite andb_comm, (Z.eqb_sym irq j). done.
Qed.

(** The kernel's table of enabled interrupts against the controller. *)
Definition irq_rel (k : kernel) (d : D) : Prop :=
  length (k_irq_enabled k) = Z.to_nat IRQ_MAX /\
  forall irq, 0 <= irq < IRQ_MAX -> k_irq_enabled k !! Z.to_nat irq = Some (irq_on irq d).

(** Interrupt masking.  The two driver calls implement the kernel's view of the
    interrupt controller: when the enable bits of the kernel state agree with the
    controller's registers, enabling or disabling an interrupt succeeds on both sides
    and they agree again, so exactly that interrupt changed. *)
Theorem plic_refines_enable_bits irq b k d :
  0 <= irq < IRQ_MAX -> irq_rel k d ->
  exists k' d', arch_irq_set irq b k = Ok (OK, k')
    /\ (if b then arch_irq_enable irq else arch_irq_disable irq) d = Ok (OK, d')
    /\ irq_rel k' d' /\ irq_on irq d' = b
    /\ (forall j, 0 <= j < IRQ_MAX -> j <> irq -> irq_on j d' = irq_on j d).
Proof.
  intros Hi [Hlen Hrel].
  assert (Hd : exists d', (if b then arch_irq_enable irq else arch_irq_disable irq) d = Ok (OK, d')
            /\ forall j, 0 <= j < IRQ_MAX -> irq_on j d' = if j =? irq then b else irq_on j d).
  { destruct b; [destruct (arch_irq_enable_spec irq d Hi) as (d' & E & Hb)
                |destruct (arch_irq_disable_spec irq d Hi) as (d' & E & Hb)];
      exists d'; (split; [exact E|]); intros j Hj; rewrite Hb by done; by destruct (j =? irq). }
  destruct Hd as (d' & E & Hb). eexists _, d'. split_and!.
  - unfold arch_irq_set. replace (irq <? IRQ_MAX) with true by lia. reflexivity.
  - exact E.
  - split; cbn [k_irq_enabled set_irq]; [by rewrite length_insert|]. intros j Hj. rewrite Hb by done. destruct (Z.eqb_spec j irq) as [->|Hn].
    + apply list_lookup_insert_eq. lia.
    + rewrite list_lookup_insert_ne by lia. by apply Hrel.
  - rewrite Hb, Z.eqb_refl by done. done.
  - intros j Hj Hn. rewrite Hb by done. by apply Z.eqb_neq in Hn as ->.
Qed.

Lemma serial_drain_S fuel : serial_drain (S fuel) =
  (ch ← arch_serial_read; if ch =? -1 then mret [] else cons ch <$> serial_drain fuel).
Proof. done. Qed.

(** Draining the serial port returns the characters that waited in it, in order. *)
Lemma serial_drain_run chs d :
  uart_rx d = chs -> exists d', serial_drain (S (length chs)) d = Ok (chs, d') /\ uart_rx d' = [].
Proof.
  revert d. induction chs as [|ch chs IH]; intros d Hd; cbn [length]; rewrite serial_drain_S.
  - destruct (uart_lsr d) as [Hl Hr]. unfold arch_serial_read, mmio_read8_paddr, arch_paddr_to_vaddr.
    destruct (paddr_read8 UART_LSR d) as [l d1] eqn:El. cbn [fst snd] in Hl, Hr.
    rewrite Hd, bool_decide_true in Hl by done. simpl in Hl. unfold has, truthy in Hl. apply negb_false_iff in Hl.
    exists d1. split; [|congruence]. unfold mbind, ST_bind. rewrite El, Hl. reflexivity.
  - destruct (uart_lsr d) as [Hl Hr]. destruct (paddr_read8 UART_LSR d) as [l d1] eqn:El. cbn [fst snd] in Hl, Hr.
    rewrite Hd, bool_decide_false in Hl by done. simpl in Hl. unfold has, truthy in Hl. apply negb_true_iff in Hl.
    rewrite Hd in Hr. destruct (uart_rbr d1 ch chs Hr) as [Hc Hr2].
    destruct (paddr_read8 UART_RBR d1) as [ch' d2] eqn:Er. cbn [fst snd] in Hc, Hr2. subst ch'.
    destruct (IH d2 Hr2) as (d' & E & Hd'). exists d'. split; [|done].
    pose proof (uart_rx_range d) as Hrg. rewrite Hd in Hrg. apply Forall_cons in Hrg as [Hrg _].
    erewrite ST_bind_run.
    2: { unfold arch_serial_read, mmio_read8_paddr, arch_paddr_to_vaddr.
         unfold mbind, ST_bind. rewrite El, Hl, Er. reflexivity. }
    replace (ch =? -1) with false by lia. unfold fmap, ST_fmap. by rewrite E.
Qed.
End Spec.

(** ** A concrete board: registers that hold what was written, and a receive queue. *)
Record board := Board { bd_regs : gmap Z Z; bd_rx : list Z; bd_tx : list Z }.

#[export] Instance board_mmio : PhysMmio board := {
  paddr_read8 a d :=
    if a =? UART_LSR then (Z.lor UART_LSR_TX_FULL (match bd_rx d with [] => 0 | _ => UART_LSR_RX_READY end), d)
    else if a =? UART_RBR then
      match bd_rx d with [] => (0, d) | ch :: chs => (u8 ch, Board (bd_regs d) chs (bd_tx d)) end
    else (default 0 (bd_regs d !! a), d);
  paddr_read32 a d := (u32 (default 0 (bd_regs d !! a)), d);
  paddr_write8 a v d :=
    if a =? UART_THR then Board (bd_regs d) (bd_rx d) (bd_tx d ++ [v]) else Board (<[a := v]> (bd_regs d)) (bd_rx d) (bd_tx d);
  paddr_write32 a v d := Board (<[a := v]> (bd_regs d)) (bd_rx d) (bd_tx d);
}.

#[export] Program Instance board_plic : PlicSpec board := {
  plic_reg a d := u32 (default 0 (bd_regs d !! a));
}.
Next Obligation. intros. apply u32_range. Qed.
Next Obligation. done. Qed.
Next Obligation.
  intros a v a' d _ _ Hv. simpl. rewrite lookup_insert. case_decide as Ha.
  - rewrite decide_True by done. by apply u32_small.
  - by rewrite decide_False.
Qed.

#[export] Program Instance board_uart : UartSpec board := { uart_rx d := u8 <$> bd_rx d }.
Next Obligation. intros d. apply Forall_fmap, Forall_true. intros x. apply (u8_range x). Qed.
Next Obligation. intros d. destruct d as [r [|ch chs] tx]; simpl; split; reflexivity. Qed.
Next Obligation. intros d ch chs. destruct d as [r [|c l] tx]; simpl; [done|]. intros [= <- <-]. done. Qed.

(** The serial port's interrupt, enabled on a fresh board. *)
Definition idle_board : board := Board ∅ [] [].
Definition irq_demo : kernel :=
  Kernel ∅ [] [] ∅ [] [] 0 0 (replicate 32 None) (replicate 32 false) 0 [] (Memory [] ∅ ∅) ∅ 0.

Lemma plic_refines_enable_bits_witness :
  exists k' d', arch_irq_set UART0_IRQ true irq_demo = Ok (OK, k') /\ arch_irq_enable UART0_IRQ idle_board = Ok (OK, d')
    /\ irq_rel k' d' /\ irq_on 10 d' = true.
Proof.
  destruct (plic_refines_enable_bits UART0_IRQ true irq_demo idle_board) as (k' & d' & H1 & H2 & H3 & H4 & _).
  - unfold UART0_IRQ, IRQ_MAX. lia.
  - split; [reflexivity|]. intros irq Hirq. unfold irq_demo. cbn [k_irq_enabled].
    rewrite lookup_replicate_2 by (unfold IRQ_MAX in Hirq; lia).
    unfold irq_on, plic_reg, board_plic, idle_board. cbn [bd_regs]. rewrite lookup_empty.
    change (u32 (default 0 None)) with 0. by rewrite Z.bits_0.
  - exists k', d'. split; [exact H1|]. split; [exact H2|]. split; [exact H3|exact H4].
Defined.
