(* ===== verification/Trap.v ===== *)
(** Traps (kernel/riscv32/trap.c, handler.S, the entry of user tasks in task.c, the
    idle loop of main.c and setup.c): how a CPU gets into the kernel, takes the kernel
    lock, runs a handler, switches to other tasks' kernel contexts, and gets back to
    user mode.

    A handler that switches tasks goes on only when its task is scheduled again,
    maybe on another CPU.  What is left of it is a value, [tcont], kept per task; the
    part inside a blocking kernel call is the task's [t_kctx] (Kernel.v).  A CPU that
    holds the lock proceeds in steps: finish the blocked call of the task it runs
    ([resume]), else go on with the task's [tcont].

    The theorems: every step of every CPU is safe, keeps the scheduling invariant
    and the lock discipline; a task that trapped gets its registers back unchanged
    however long it was blocked and wherever it was resumed. *)

From S2P Require Import Prelude Types KData Memory Vm Kernel Task Ipc Syscall KInv Sched Safety Steady Mp Riscv.

(** ** The trap frame: 33 words, at the offsets the comments of trap.h give *)
Abbreviation frame := (list Z).
Definition FRAME_WORDS : nat := 33.
Definition F_PC : nat := 0.
Definition F_SSTATUS : nat := 1.
Definition F_TP : nat := 5.
Definition F_A0 : nat := 13.
Definition F_A1 : nat := 14.
Definition F_A2 : nat := 15.
Definition F_A3 : nat := 16.
Definition F_A4 : nat := 17.
Definition F_A5 : nat := 18.
Definition F_S1 : nat := 22.
Definition fget (i : nat) (f : frame) : Z := default 0 (f !! i).
Definition fset (i : nat) (v : Z) (f : frame) : frame := <[i := v]> f.

(** ** What is left of a handler *)
Inductive tcont :=
| TSyscall (f : frame)      (* handle_syscall_trap: [handle_syscall] is running *)
| TSoft (f : frame)         (* handle_soft_interrupt_trap: in its loop *)
| TUnlock (f : frame)       (* only [mp_unlock] and the return are left *)
| TNested (f : frame) (outer : tcont)  (* a fault inside a user copy of [outer]: only the return is left *)
| TIdle                     (* idle_task: [task_switch] is running *)
| TUserEntry (ip : Z)       (* a new user task: riscv32_user_entry_trampoline *)
| THinavm (entry arg : Z).  (* a new HinaVM task: riscv32_kernel_entry_trampoline *)

(** What a CPU does. *)
Inductive cpu_mode :=
| MUserMode (f : frame)     (* its current task, in user mode, with these registers *)
| MIdle                     (* arch_idle: asleep, interrupts enabled, lock released *)
| MWake                     (* arch_idle: interrupts disabled again, about to lock *)
| MKernel                   (* in kernel code *)
| MShutdown.                (* arch_shutdown: the machine stops *)

Record machine := Machine {
  mc_kernel : kernel;
  mc_big_lock : Z;
  mc_locked_cpu : Z;
  mc_mode : nat -> cpu_mode;
  mc_hart : nat -> hart;
  mc_var : nat -> cpuvar;
  mc_conts : gmap tptr tcont;
}.
Definition mc_set_kernel k m := Machine k (mc_big_lock m) (mc_locked_cpu m) (mc_mode m) (mc_hart m) (mc_var m) (mc_conts m).
Definition mc_set_lock b c m := Machine (mc_kernel m) b c (mc_mode m) (mc_hart m) (mc_var m) (mc_conts m).
Definition mc_set_mode f m := Machine (mc_kernel m) (mc_big_lock m) (mc_locked_cpu m) f (mc_hart m) (mc_var m) (mc_conts m).
Definition mc_set_hart f m := Machine (mc_kernel m) (mc_big_lock m) (mc_locked_cpu m) (mc_mode m) f (mc_var m) (mc_conts m).
Definition mc_set_var f m := Machine (mc_kernel m) (mc_big_lock m) (mc_locked_cpu m) (mc_mode m) (mc_hart m) f (mc_conts m).
Definition mc_set_conts x m := Machine (mc_kernel m) (mc_big_lock m) (mc_locked_cpu m) (mc_mode m) (mc_hart m) (mc_var m) x.

Abbreviation MST := (ST machine).

Definition lift_k {A} (f : KST A) : MST A := fun m =>
  match f (mc_kernel m) with
  | Ok (a, k) => Ok (a, mc_set_kernel k m)
  | Panic => Panic
  | Undef => Undef
  end.
Definition lift_h {A} (c : nat) (f : HST A) : MST A := fun m =>
  match f (mc_hart m c) with
  | Ok (a, h) => Ok (a, mc_set_hart (fupd (mc_hart m) c h) m)
  | Panic => Panic
  | Undef => Undef
  end.
Definition set_mode (c : nat) (x : cpu_mode) : MST unit := modify (fun m => mc_set_mode (fupd (mc_mode m) c x) m).
Definition set_var (c : nat) (f : cpuvar -> cpuvar) : MST unit :=
  modify (fun m => mc_set_var (fupd (mc_var m) c (f (mc_var m c))) m).

(** ** The kernel lock

    [Mp] has the protocol step by step; here taking the lock is one step, and a CPU that
    finds it taken spins, which is no step ([Undef]). *)
Definition mp_lock (c : nat) : MST unit :=
  s ← lift_h c read_sstatus;
  assert (Z.land s SSTATUS_SIE =? 0) ;;
  b ← gets mc_big_lock;
  if b =? BKL_UNLOCKED then modify (mc_set_lock BKL_LOCKED (Z.of_nat c)) else undef.
Definition mp_unlock (c : nat) : MST unit :=
  l ← gets mc_locked_cpu;
  assert (Z.of_nat c =? l) ;;
  modify (fun m => mc_set_lock (if mc_big_lock m =? BKL_LOCKED then BKL_UNLOCKED else mc_big_lock m) (mc_locked_cpu m) m).

(** What the trap code is given from outside: the uninitialised stack buffer of a system
    call, the timer, the interrupt the controller reports, the characters waiting in the
    serial port (see [Riscv.serial_drain]) and a register the entry of a task forgets. *)
Record input := Input { in_kbuf : list Z; in_mtime : Z; in_irq : Z; in_chars : list Z; in_s1 : Z }.

Section Trap.
Context (stack_garbage : message).
(** Link-time addresses. *)
Context (user_tramp kernel_tramp hinavm_run riscv32_usercopy1 riscv32_usercopy2 : Z).
Context (cpuvar_addr : nat -> Z) (boot_stack : nat -> Z).

(** The lowest word of the kernel stack in use: the task's, or for the idle task the
    stack the CPU booted on. *)
Definition stack_bottom (cur : tptr) (x : task) : Z :=
  match cur with Idle c => boot_stack c | Task _ => t_sp_bottom x end.

Definition stack_check (c : nat) : MST unit :=
  v ← gets (fun m => mc_var m c);
  assert (cv_magic v =? CPUVAR_MAGIC) ;;
  assert (cv_online v) ;;
  cur ← lift_k (CURRENT_TASK c);
  x ← lift_k (task_at cur);
  w ← gets (fun m => pm_load (stack_bottom cur x) (k_mem (mc_kernel m)));
  assert (w =? STACK_CANARY_VALUE).

(** The context saved for the task the CPU runs. *)
Definition save_cont (c : nat) (k : tcont) : MST unit :=
  cur ← lift_k (CURRENT_TASK c);
  modify (fun m => mc_set_conts (<[cur := k]> (mc_conts m)) m).

(** A task that never ran: the words [arch_task_init] left on its stack, popped by
    [riscv32_task_switch] and the entry trampolines. *)
Definition entry_cont (x : task) (m : memory) : tcont :=
  if pm_load (t_sp x) m =? user_tramp then TUserEntry (pm_load (t_sp x + 4 * 13) m)
  else THinavm (pm_load (t_sp x + 4 * 14) m) (pm_load (t_sp x + 4 * 13) m).
Definition cont_of (cur : tptr) (x : task) (m : machine) : tcont :=
  default (entry_cont x (k_mem (mc_kernel m))) (mc_conts m !! cur).

(** [task_destroy] frees the kernel stack of a task, and the context saved on it. *)
Definition has_stack (k : kernel) (t : tptr) : bool :=
  match t with
  | Task _ => bool_decide ((t_state <$> k_tasks k !! t) <> Some TASK_UNUSED)
  | Idle _ => true
  end.
Definition reap : MST unit :=
  modify (fun m => mc_set_conts (filter (fun p => has_stack (mc_kernel m) p.1 = true) (mc_conts m)) m).

(** ** The handlers *)
Definition handle_syscall_trap (c : nat) (i : input) (f : frame) : MST unit :=
  save_cont c (TSyscall f) ;;
  if fget F_A5 f =? SYS_SHUTDOWN then set_mode c MShutdown
  else lift_k (syscall stack_garbage user_tramp kernel_tramp hinavm_run c (in_kbuf i)
         (fget F_A0 f) (fget F_A1 f) (fget F_A2 f) (fget F_A3 f) (fget F_A5 f)) ;;
       reap.
(** The rest, once [handle_syscall] has returned [r]. *)
Definition syscall_result (r : Z) (f : frame) : frame :=
  fset F_PC (u32 (fget F_PC f + 4)) (fset F_A0 (u32 r) f).

(** One round of the loop over the pending interrupts, or what follows it. *)
Definition soft_interrupt_loop (c : nat) (i : input) (f : frame) : MST unit :=
  pending ← gets (fun m => cv_ipi_pending (mc_var m c));
  set_var c (cv_set_pending 0) ;;
  if pending =? 0 then
    let now := u32 (in_mtime i) in
    last ← gets (fun m => cv_last_mtime (mc_var m c));
    let ticks := MTIME_TO_TICKS (now - last) in
    set_var c (cv_set_last_mtime now) ;;
    save_cont c (TUnlock f) ;;
    (if 0 <? ticks then lift_k (handle_timer_interrupt c ticks) else mret tt)
  else if has pending IPI_RESCHEDULE then _ ← lift_k (task_switch c); mret tt
  else mret tt.
Definition handle_soft_interrupt_trap (c : nat) (f : frame) : MST unit :=
  s ← lift_h c read_sip;
  lift_h c (write_sip (Z.land s (Z.lnot SIP_SSIP))) ;;
  save_cont c (TSoft f).

Definition handle_external_interrupt_trap (c : nat) (i : input) (f : frame) : MST unit :=
  save_cont c (TUnlock f) ;;
  let irq := in_irq i in
  assert (irq <? IRQ_MAX) ;;
  if irq =? UART0_IRQ then lift_k (handle_serial_interrupt (in_chars i))
  else lift_k (handle_interrupt irq).

(** [arch_task_switch] loads the page table of the task it switches to. *)
Definition satp_of (x : task) : Z := Z.lor SATP_MODE_SV32 (Z.shiftr (t_table x) SATP_PPN_SHIFT).

Definition handle_page_fault_trap (c : nat) (f : frame) : MST unit :=
  scause ← lift_h c read_scause;
  reason ← (if scause =? SCAUSE_INST_PAGE_FAULT then mret PAGE_FAULT_EXEC
            else if scause =? SCAUSE_LOAD_PAGE_FAULT then mret PAGE_FAULT_READ
            else if scause =? SCAUSE_STORE_PAGE_FAULT then mret PAGE_FAULT_WRITE
            else panic);
  vaddr ← lift_h c read_stval;
  cur ← lift_k (CURRENT_TASK c);
  x ← lift_k (task_at cur);
  mapped ← lift_k (lift_mem (riscv32_is_mapped (satp_of x) vaddr));
  let reason := Z.lor reason (if (mapped : bool) then PAGE_FAULT_PRESENT else 0) in
  let reason := if Z.land (fget F_SSTATUS f) SSTATUS_SPP =? 0 then Z.lor reason PAGE_FAULT_USER else reason in
  sepc ← lift_h c read_sepc;
  if (sepc =? riscv32_usercopy1) || (sepc =? riscv32_usercopy2) then
    outer ← gets (cont_of cur x);
    save_cont c (TNested f outer) ;;
    lift_k (handle_page_fault stack_garbage c vaddr sepc (Z.lor reason PAGE_FAULT_USER))
  else if Z.land reason PAGE_FAULT_USER =? 0 then panic
  else
    mp_lock c ;;
    save_cont c (TUnlock f) ;;
    lift_k (handle_page_fault stack_garbage c vaddr sepc reason).

Definition task_exceptions : list Z :=
  [SCAUSE_INS_MISS_ALIGN; SCAUSE_INST_ACCESS_FAULT; SCAUSE_ILLEGAL_INST; SCAUSE_BREAKPOINT;
   SCAUSE_LOAD_ACCESS_FAULT; SCAUSE_AMO_MISS_ALIGN; SCAUSE_STORE_ACCESS_FAULT].
Definition page_faults : list Z := [SCAUSE_INST_PAGE_FAULT; SCAUSE_LOAD_PAGE_FAULT; SCAUSE_STORE_PAGE_FAULT].

(** The dispatch, up to the first switch to another context. *)
Definition riscv32_handle_trap (c : nat) (i : input) (f : frame) : MST unit :=
  stack_check c ;;
  scause ← lift_h c read_scause;
  if scause =? SCAUSE_ENV_CALL then mp_lock c ;; handle_syscall_trap c i f
  else if scause =? SCAUSE_S_SOFT_INTR then mp_lock c ;; handle_soft_interrupt_trap c f
  else if scause =? SCAUSE_S_EXT_INTR then mp_lock c ;; handle_external_interrupt_trap c i f
  else if existsb (Z.eqb scause) page_faults then handle_page_fault_trap c f
  else if existsb (Z.eqb scause) task_exceptions then
    mp_lock c ;; lift_k (task_exit stack_garbage c EXP_ILLEGAL_EXCEPTION)
  else panic.

(** The end of [riscv32_handle_trap], and the return from the trap: the registers of the
    frame, [sepc] and [sstatus] are loaded and [sret] goes back to user mode or to the
    interrupted idle loop. *)
Definition trap_return (c : nat) (f : frame) : MST unit :=
  let f := if has (fget F_SSTATUS f) SSTATUS_SPP then fset F_TP (u32 (cpuvar_addr c)) f else f in
  stack_check c ;;
  cur ← lift_k (CURRENT_TASK c);
  modify (fun m => mc_set_conts (delete cur (mc_conts m)) m) ;;
  lift_h c (write_sepc (fget F_PC f)) ;;
  lift_h c (write_sstatus (fget F_SSTATUS f)) ;;
  lift_h c asm_sret ;;
  if has (fget F_SSTATUS f) SSTATUS_SPP then
    (* arch_idle goes on: interrupts off *)
    s ← lift_h c read_sstatus;
    lift_h c (write_sstatus (Z.land s (Z.lnot SSTATUS_SIE))) ;;
    set_mode c MWake
  else set_mode c (MUserMode f).

(** [riscv32_user_entry]: every register but x9 (s1) is cleared. *)
Definition riscv32_user_entry (c : nat) (i : input) (ip : Z) : MST unit :=
  mp_unlock c ;;
  lift_h c (write_sepc ip) ;;
  s ← lift_h c read_sstatus;
  lift_h c (write_sstatus (Z.lor (Z.land s (Z.lnot SSTATUS_SPP)) SSTATUS_SPIE)) ;;
  lift_h c asm_sret ;;
  set_mode c (MUserMode (fset F_S1 (in_s1 i) (fset F_PC ip (replicate FRAME_WORDS 0)))).

(** [arch_idle], up to the sleep. *)
Definition arch_idle (c : nat) : MST unit :=
  mp_unlock c ;;
  s ← lift_h c read_sstatus;
  lift_h c (write_sstatus (Z.lor s SSTATUS_SIE)) ;;
  set_mode c MIdle.
(** The rest of [arch_idle] and the next round of [idle_task]. *)
Definition idle_round (c : nat) : MST unit :=
  set_mode c MKernel ;;
  mp_lock c ;;
  save_cont c TIdle ;;
  _ ← lift_k (task_switch c); mret tt.

(** ** Steps of a CPU *)

(** A CPU inside the kernel goes on with the task it runs.  A HinaVM task stays in the
    interpreter, whose rounds are those of HinaVM.v; a user copy that faulted would go
    on byte by byte, while the copies of Kernel.v are single operations. *)
Definition kernel_continue (c : nat) (i : input) : MST unit :=
  cur ← lift_k (CURRENT_TASK c);
  x ← lift_k (task_at cur);
  match t_kctx x with
  | KRun =>
      k ← gets (cont_of cur x);
      match k with
      | TSyscall f => mp_unlock c ;; trap_return c (syscall_result (t_ret x) f)
      | TSoft f => soft_interrupt_loop c i f
      | TUnlock f => mp_unlock c ;; trap_return c f
      | TIdle => arch_idle c
      | TUserEntry ip => riscv32_user_entry c i ip
      | THinavm _ _ | TNested _ _ => undef
      end
  | _ => lift_k (resume stack_garbage c)
  end.

(** A trap from user mode or from the idle loop: the hart records the cause and
    [riscv32_trap_handler] saves the registers, [sepc] and [sstatus]. *)
Definition enter_trap (c : nat) (p : priv) (cause tval : Z) (i : input) (f : frame) : MST unit :=
  set_mode c MKernel ;;
  lift_h c (modify (fun h => Hart (h_csr h) (h_tp h) (fget F_PC f) p)) ;;
  lift_h c (take_trap cause tval) ;;
  s ← lift_h c read_sstatus;
  e ← lift_h c read_sepc;
  riscv32_handle_trap c i (fset F_SSTATUS s (fset F_PC e f)).

Inductive mevent :=
| MTrap (c : nat) (cause tval : Z) (i : input)                  (** from user mode *)
| MInterrupt (c : nat) (cause : Z) (f : frame) (i : input)      (** in the idle loop *)
| MContinue (c : nat) (i : input)
| MWakeUp (c : nat).

Definition mexec (e : mevent) : MST unit :=
  match e with
  | MTrap c cause tval i =>
      md ← gets (fun m => mc_mode m c);
      match md with MUserMode f => enter_trap c PUser cause tval i f | _ => undef end
  | MInterrupt c cause f i => enter_trap c PSupervisor cause 0 i f
  | MContinue c i => kernel_continue c i
  | MWakeUp c => idle_round c
  end.

(** ** The invariant *)

(** A saved frame comes from user mode for a task, from the kernel for an idle task. *)
Definition frame_ok (t : tptr) (f : frame) : Prop :=
  length f = FRAME_WORDS /\ has (fget F_SSTATUS f) SSTATUS_SPP = match t with Task _ => false | Idle _ => true end.

Definition cont_ok (t : tptr) (k : tcont) : Prop :=
  match k with
  | TSyscall f => frame_ok t f /\ exists i, t = Task i
  | TSoft f | TUnlock f => frame_ok t f
  | TIdle => exists c, t = Idle c
  | TUserEntry _ | THinavm _ _ | TNested _ _ => False
  end.

Definition sie_off (h : hart) : Prop := Z.testbit (h_csr h CSR_mstatus) 1 = false.
Definition canary_at (a : Z) (k : kernel) : Prop := pm_load a (k_mem k) = STACK_CANARY_VALUE.

Record minv (m : machine) : Prop := {
  mi_kinv : kinv (mc_kernel m);
  mi_held : forall c, mc_mode m c = MKernel ->
    mc_big_lock m = BKL_LOCKED /\ mc_locked_cpu m = Z.of_nat c /\ is_Some (k_current (mc_kernel m) !! c);
  mi_user : forall c f, mc_mode m c = MUserMode f ->
    length f = FRAME_WORDS /\ exists i, runs c i (mc_kernel m) /\ mc_conts m !! Task i = None;
  mi_idle : forall c, mc_mode m c = MIdle \/ mc_mode m c = MWake -> k_current (mc_kernel m) !! c = Some (Idle c);
  mi_sie : forall c, mc_mode m c = MWake -> sie_off (mc_hart m c);
  mi_var : forall c, is_Some (k_current (mc_kernel m) !! c) ->
    cv_magic (mc_var m c) = CPUVAR_MAGIC /\ cv_online (mc_var m c) = true /\ canary_at (boot_stack c) (mc_kernel m);
  mi_canary : forall i x, k_tasks (mc_kernel m) !! Task i = Some x -> t_state x <> TASK_UNUSED ->
    canary_at (t_sp_bottom x) (mc_kernel m);
  mi_conts : forall t k, mc_conts m !! t = Some k -> cont_ok t k;
  mi_idle_cont : forall c, mc_mode m c <> MWake -> is_Some (k_current (mc_kernel m) !! c) ->
    is_Some (mc_conts m !! Idle c);
  mi_free : mc_big_lock m = BKL_UNLOCKED \/ exists c, mc_mode m c = MKernel \/ mc_mode m c = MShutdown;
}.

(** *** Field lemmas *)
Lemma set_field_bit mask v old n :
  0 <= n -> Z.testbit (set_field mask v old) n = if Z.testbit mask n then Z.testbit v n else Z.testbit old n.
Proof.
  intros Hn. unfold set_field. rewrite Z.lor_spec, !Z.land_spec, Z.lnot_spec by done.
  destruct (Z.testbit mask n); simpl; rewrite ?andb_true_r, ?andb_false_r, ?orb_false_r; done.
Qed.
Lemma has_bit x n : 0 <= n -> has x (Z.shiftl 1 n) = Z.testbit x n.
Proof. intros. rewrite Z.shiftl_1_l. by apply has_bit_spec. Qed.
Lemma has_zero x mask : (Z.land x mask =? 0) = negb (has x mask).
Proof. unfold has, truthy. by rewrite negb_involutive. Qed.

Lemma fset_length i v f : length (fset i v f) = length f.
Proof. apply length_insert. Qed.
Lemma fget_fset i v f : (i < length f)%nat -> fget i (fset i v f) = v.
Proof. intros. unfold fget, fset. by rewrite list_lookup_insert_eq. Qed.
Lemma fget_fset_ne i j v f : i <> j -> fget i (fset j v f) = fget i f.
Proof. intros. unfold fget, fset. by rewrite list_lookup_insert_ne. Qed.

Lemma is_mapped_run satp v mem : exists b, riscv32_is_mapped satp v mem = Ok (b, mem).
Proof.
  unfold riscv32_is_mapped, walk. rewrite is_aligned_page.
  replace (ALIGN_DOWN v PAGE_SIZE `mod` 4096 =? 0) with true.
  2: { symmetry. change PAGE_SIZE with (2 ^ 12). rewrite align_down_pow2 by lia. apply Z.eqb_eq. lia. }
  run. destruct (_ =? 0); simpl; eauto.
Qed.

(** The state outside of the kernel record does not matter for what it proves. *)
Lemma lift_k_run {A} (f : KST A) m a k : f (mc_kernel m) = Ok (a, k) -> lift_k f m = Ok (a, mc_set_kernel k m).
Proof. intros H. unfold lift_k. by rewrite H. Qed.
Lemma set_kernel_id m : mc_set_kernel (mc_kernel m) m = m.
Proof. by destruct m. Qed.
Lemma lift_k_safe {A} (f : KST A) m Q (P : A -> machine -> Prop) :
  safe (mc_kernel m) f Q -> (forall a k, Q a k -> P a (mc_set_kernel k m)) -> safe m (lift_k f) P.
Proof. intros (a & k & E & H) HP. exists a, (mc_set_kernel k m). split; [by apply lift_k_run|auto]. Qed.

(** *** Transitions the steps are made of *)

(** The kernel state changes while CPU [c] holds the lock. *)
Lemma minv_kernel c m k' :
  minv m -> mc_mode m c = MKernel -> kinv k' -> klocal c (mc_kernel m) k' -> anchors k' = anchors (mc_kernel m) ->
  minv (mc_set_kernel k' m).
Proof.
  intros [Ik Ih Iu Ii Is Iv Ic It Id If] Hc Hk [Lcur Lctx Lon] HA. apply pair_equal_spec in HA as [EA EM].
  assert (Hon : forall c', is_Some (k_current k' !! c') -> is_Some (k_current (mc_kernel m) !! c')).
  { intros c' H'. destruct (decide (c' = c)) as [->|Hne]; [|by rewrite <- Lcur].
    by destruct (Ih c Hc) as (_ & _ & ?). }
  assert (Hcan : forall a, canary_at a (mc_kernel m) -> canary_at a k') by (intros a; unfold canary_at; by rewrite EM).
  split; cbn; try done.
  - intros c' Hc'. destruct (Ih c' Hc') as (? & ? & ?). split_and!; [done|done|].
    destruct (decide (c' = c)) as [->|Hne]; [auto|by rewrite Lcur].
  - intros c' f Hf. destruct (Iu c' f Hf) as (? & i & (Hci & x & Hx & Hctx) & ?).
    assert (Hne : c' <> c) by congruence. split; [done|]. exists i. split; [split; [by rewrite Lcur|]|done].
    destruct (Lctx c' _ _ Hne Hci Hx) as (x' & ? & ?). exists x'. split; [done|congruence].
  - intros c' H'. rewrite Lcur by (intros ->; destruct H'; congruence). auto.
  - intros c' H'. destruct (Iv c' (Hon c' H')) as (? & ? & ?). auto.
  - intros i x Hx Hu. apply Hcan.
    assert (HA : (anchor <$> k_tasks k') !! Task i = Some (anchor x)) by (by rewrite lookup_fmap, Hx).
    rewrite EA, lookup_fmap in HA. destruct (k_tasks (mc_kernel m) !! Task i) as [y|] eqn:Hy; [|done].
    apply (inj Some) in HA. unfold anchor in HA. apply pair_equal_spec in HA as [HA Eu].
    apply pair_equal_spec in HA as [_ E]. rewrite <- E. apply (Ic i y Hy). intros Hu'.
    rewrite bool_decide_true in Eu by done. symmetry in Eu. by apply bool_decide_eq_true in Eu.
  - intros c' H1 H'. auto.
Qed.

(** Two CPUs run different tasks. *)
Lemma cur_other c c' m t :
  minv m -> c' <> c -> k_current (mc_kernel m) !! c' = Some t -> k_current (mc_kernel m) !! c <> Some t.
Proof. intros I Hne H1 H2. apply Hne. by eapply (vi_inj _ _ _ _ _ (proj1 (mi_kinv _ I))). Qed.
Lemma cur_idle_other c c' m : minv m -> c' <> c -> k_current (mc_kernel m) !! c <> Some (Idle c').
Proof.
  intros I Hne H. destruct (vi_cur _ _ _ _ _ (proj1 (mi_kinv _ I)) _ _ H) as [[= ->]|(? & ? & [=] & _)]. done.
Qed.

(** CPU [c] gets the lock, with a context to continue saved. *)
Lemma minv_enter c m m' :
  minv m -> mc_big_lock m = BKL_UNLOCKED -> is_Some (k_current (mc_kernel m) !! c) ->
  mc_kernel m' = mc_kernel m -> mc_big_lock m' = BKL_LOCKED -> mc_locked_cpu m' = Z.of_nat c ->
  mc_mode m' c = MKernel ->
  (forall c', c' <> c -> mc_mode m' c' = mc_mode m c' /\ mc_hart m' c' = mc_hart m c') ->
  mc_var m' = mc_var m ->
  (forall t kt, mc_conts m' !! t = Some kt -> cont_ok t kt) ->
  (forall t, k_current (mc_kernel m) !! c <> Some t -> mc_conts m' !! t = mc_conts m !! t) ->
  is_Some (mc_conts m' !! Idle c) ->
  minv m'.
Proof.
  destruct m' as [k b l mode' hart' var' conts']. simpl.
  intros I Hb Hon -> -> -> Hm Ho -> Hco Hmono Hidle. pose proof I as [Ik Ih Iu Ii Is Iv Ic It Id If].
  assert (Hne : forall c' md, mode' c' = md -> md <> MKernel -> c' <> c /\ mc_mode m c' = md).
  { intros c' md H1 H2. assert (c' <> c) by congruence. destruct (Ho c'); [done|]. split; [done|congruence]. }
  split; cbn; try done.
  - intros c' Hc'. destruct (decide (c' = c)) as [->|Hn]; [done|]. destruct (Ho c' Hn) as [E _].
    rewrite E in Hc'. destruct (Ih c' Hc') as [E' _]. rewrite Hb in E'. done.
  - intros c' f Hf. apply Hne in Hf as [Hn Hf]; [|done]. destruct (Iu c' f Hf) as (? & i & Hr & E).
    split; [done|]. exists i. split; [done|]. rewrite Hmono; [done|]. by apply (cur_other c c' m (Task i)), Hr.
  - intros c' [H'|H']; (apply Hne in H' as [_ H']; [|done]); auto.
  - intros c' H'. apply Hne in H' as [Hn H']; [|done]. destruct (Ho c' Hn) as [_ ->]. auto.
  - intros c' H1 H3. destruct (decide (c' = c)) as [->|Hn]; [done|]. destruct (Ho c' Hn) as [E _].
    rewrite Hmono by by apply (cur_idle_other c c' m). apply Id; [congruence|done].
  - right. exists c. by left.
Qed.

(** CPU [c] releases the lock and leaves the kernel. *)
Lemma minv_leave c m m' :
  minv m -> mc_mode m c = MKernel -> mc_kernel m' = mc_kernel m -> mc_big_lock m' = BKL_UNLOCKED ->
  mc_var m' = mc_var m ->
  (forall c', c' <> c -> mc_mode m' c' = mc_mode m c' /\ mc_hart m' c' = mc_hart m c') ->
  (forall t kt, mc_conts m' !! t = Some kt -> cont_ok t kt) ->
  (forall t, k_current (mc_kernel m) !! c <> Some t -> mc_conts m' !! t = mc_conts m !! t) ->
  match mc_mode m' c with
  | MUserMode f => length f = FRAME_WORDS /\ is_Some (mc_conts m' !! Idle c)
      /\ exists i, runs c i (mc_kernel m) /\ mc_conts m' !! Task i = None
  | MIdle => is_Some (mc_conts m' !! Idle c) /\ k_current (mc_kernel m) !! c = Some (Idle c)
  | MWake => k_current (mc_kernel m) !! c = Some (Idle c) /\ sie_off (mc_hart m' c)
  | _ => False
  end ->
  minv m'.
Proof.
  destruct m' as [k b l mode' hart' var' conts']. simpl. remember (mode' c) as md eqn:Hm. symmetry in Hm.
  intros I Hk -> -> -> Ho Hco Hcid Hmd. pose proof I as [Ik Ih Iu Ii Is Iv Ic It Id If].
  assert (Hnone : forall c', c' <> c -> mc_mode m c' <> MKernel).
  { intros c' Hn Hc'. destruct (Ih c Hk) as (_ & E1 & _), (Ih c' Hc') as (_ & E2 & _). rewrite E1 in E2. lia. }
  assert (Hd : forall c' md', mode' c' = md' -> c' = c /\ md' = md \/ c' <> c /\ mc_mode m c' = md' /\ hart' c' = mc_hart m c').
  { intros c' md' H'. destruct (decide (c' = c)) as [->|Hn]; [left; split; congruence|right].
    destruct (Ho c' Hn) as [E ?]. split_and!; [done|congruence|done]. }
  split; cbn; try done.
  - intros c' H'. destruct (Hd c' _ H') as [[-> <-]|(Hn & H'' & _)]; [done|]. by apply (Hnone c') in H''.
  - intros c' f H'. destruct (Hd c' _ H') as [[-> <-]|(Hn & H'' & _)]; [by destruct Hmd as (? & _ & ?)|].
    destruct (Iu c' f H'') as (? & i & Hr & E). split; [done|]. exists i. split; [done|].
    rewrite Hcid; [done|]. by apply (cur_other c c' m (Task i)), Hr.
  - intros c' [H'|H']; destruct (Hd c' _ H') as [[-> <-]|(Hn & H'' & _)]; auto; by destruct Hmd.
  - intros c' H'. destruct (Hd c' _ H') as [[-> <-]|(Hn & H'' & ->)]; [by destruct Hmd|auto].
  - intros c' H1 H3. destruct (decide (c' = c)) as [->|Hn].
    + subst md. destruct (mode' c); try done; [by destruct Hmd as (_ & ? & _)|by destruct Hmd].
    + destruct (Ho c' Hn) as [E _]. rewrite Hcid by by apply (cur_idle_other c c' m). apply Id; [congruence|done].
  - by left.
Qed.

(** *** Register accesses change the hart of their CPU only *)
Record hart_only (c : nat) (m m' : machine) : Prop := {
  ho_kernel : mc_kernel m' = mc_kernel m;
  ho_lock : mc_big_lock m' = mc_big_lock m;
  ho_cpu : mc_locked_cpu m' = mc_locked_cpu m;
  ho_mode : mc_mode m' = mc_mode m;
  ho_var : mc_var m' = mc_var m;
  ho_conts : mc_conts m' = mc_conts m;
  ho_hart : forall c', c' <> c -> mc_hart m' c' = mc_hart m c';
}.
#[local] Instance hart_only_preorder c : PreOrder (hart_only c).
Proof.
  split; [by intros m|]. intros m1 m2 m3 [] []. split; [congruence..|]. intros c' Hc.
  rewrite ho_hart1 by done. auto.
Qed.

Lemma lift_h_safe {A} c (f : HST A) m a h :
  f (mc_hart m c) = Ok (a, h) ->
  safe m (lift_h c f) (fun r m' => r = a /\ hart_only c m m' /\ mc_hart m' c = h).
Proof.
  intros E. eexists _, _. unfold lift_h. rewrite E. split; [reflexivity|]. split; [done|]. split; [|apply fupd_eq].
  split; try done. intros c' Hc. by apply fupd_ne.
Qed.

(** [stack_check] passes on a CPU whose task's stack is intact. *)
Definition stack_ok (c : nat) (m : machine) : Prop :=
  cv_magic (mc_var m c) = CPUVAR_MAGIC /\ cv_online (mc_var m c) = true /\
  exists cur x, k_current (mc_kernel m) !! c = Some cur /\ k_tasks (mc_kernel m) !! cur = Some x
    /\ canary_at (stack_bottom cur x) (mc_kernel m).
Lemma stack_check_run c m : stack_ok c m -> stack_check c m = Ok (tt, m).
Proof.
  intros (Hm & Ho & cur & x & Hc & Hx & Hw). unfold stack_check.
  rewrite (ST_bind_run (gets _) _ _ _ _ eq_refl), Hm, Z.eqb_refl, Ho.
  do 2 rewrite (ST_bind_run (assert true) _ _ _ _ eq_refl).
  rewrite (ST_bind_run _ _ _ _ _ (lift_k_run _ _ _ _ (current_run _ _ _ Hc))), set_kernel_id.
  rewrite (ST_bind_run _ _ _ _ _ (lift_k_run _ _ _ _ (task_at_run _ _ _ Hx))), set_kernel_id.
  rewrite (ST_bind_run (gets _) _ _ _ _ eq_refl). by rewrite Hw.
Qed.
Lemma minv_stack c m : minv m -> is_Some (k_current (mc_kernel m) !! c) -> stack_ok c m.
Proof.
  intros I Hon. destruct (mi_var _ I c Hon) as (? & ? & Hboot). split; [done|]. split; [done|].
  destruct Hon as [cur Hc]. destruct (prev_exists _ _ _ _ (mi_kinv _ I) Hc) as (x & Hx).
  exists cur, x. split_and!; [done|done|]. destruct cur as [i|c'].
  - simpl. apply (mi_canary _ I i x Hx).
    pose proof (running_state _ _ _ _ _ _ _ (proj1 (mi_kinv _ I)) Hc (views_task _ _ _ Hx)) as E. simpl in E. congruence.
  - destruct (vi_cur _ _ _ _ _ (proj1 (mi_kinv _ I)) _ _ Hc) as [[= ->]|(? & ? & [=] & _)]. done.
Qed.

Lemma mp_lock_safe c m :
  sie_off (mc_hart m c) -> mc_big_lock m = BKL_UNLOCKED ->
  safe m (mp_lock c) (fun _ m' => exists m1, hart_only c m m1 /\ mc_hart m1 c = mc_hart m c
    /\ m' = mc_set_lock BKL_LOCKED (Z.of_nat c) m1).
Proof.
  intros Hs Hb. unfold mp_lock. eapply safe_bind; [apply lift_h_safe; reflexivity|].
  intros s m1 (-> & Ho & Hh). rewrite has_zero. unfold SSTATUS_SIE. rewrite has_bit, Z.land_spec, Hs by lia.
  eapply safe_step; [reflexivity|]. eapply safe_step; [reflexivity|].
  rewrite (ho_lock _ _ _ Ho), Hb, Z.eqb_refl. eexists _, _. split; [reflexivity|]. eauto.
Qed.

Lemma mp_unlock_run c m :
  mc_locked_cpu m = Z.of_nat c -> mc_big_lock m = BKL_LOCKED ->
  mp_unlock c m = Ok (tt, mc_set_lock BKL_UNLOCKED (mc_locked_cpu m) m).
Proof.
  intros Hl Hb. unfold mp_unlock. rewrite (ST_bind_run (gets _) _ _ _ _ eq_refl), Hl, Z.eqb_refl.
  rewrite (ST_bind_run (assert true) _ _ _ _ eq_refl). unfold modify. by rewrite Hb, Z.eqb_refl, Hl.
Qed.

Lemma save_cont_run c k m cur :
  k_current (mc_kernel m) !! c = Some cur ->
  save_cont c k m = Ok (tt, mc_set_conts (<[cur := k]> (mc_conts m)) m).
Proof.
  intros Hc. unfold save_cont.
  by rewrite (ST_bind_run _ _ _ _ _ (lift_k_run _ _ _ _ (current_run _ _ _ Hc))), set_kernel_id.
Qed.

(** *** Entering the kernel *)

(** The machine at the entry of [riscv32_handle_trap]: only CPU [c]'s mode and
    registers differ. *)
Record entered (c : nat) (m m1 : machine) : Prop := {
  en_kernel : mc_kernel m1 = mc_kernel m;
  en_var : mc_var m1 = mc_var m;
  en_conts : mc_conts m1 = mc_conts m;
  en_mode : mc_mode m1 c = MKernel;
  en_others : forall c', c' <> c -> mc_mode m1 c' = mc_mode m c' /\ mc_hart m1 c' = mc_hart m c';
}.

Lemma entered_mode c m : entered c m (mc_set_mode (fupd (mc_mode m) c MKernel) m).
Proof. split; simpl; [done|done|done|apply fupd_eq|]. intros c' Hc. by rewrite fupd_ne. Qed.
Lemma entered_hart c m m1 m2 : entered c m m1 -> hart_only c m1 m2 -> entered c m m2.
Proof.
  intros [] []. split; [congruence..|]. intros c' Hc. rewrite ho_mode0, ho_hart0 by done. auto.
Qed.

Lemma take_trap_status p cause tval h h' : take_trap cause tval (Hart (h_csr h) (h_tp h) (h_pc h) p) = Ok (tt, h') ->
  sie_off h' /\ h_csr h' CSR_scause = cause /\ h_csr h' CSR_stval = tval /\ h_csr h' CSR_sepc = h_pc h
  /\ Z.testbit (h_csr h' CSR_mstatus) 8 = (if decide (p = PUser) then false else true).
Proof.
  unfold take_trap, modify. intros [= <-]. cbn [h_csr h_priv h_pc]. split_and!; try reflexivity.
  - unfold sie_off. cbn [h_csr set_csr]. rewrite decide_True, !set_field_bit by done. reflexivity.
  - cbn [h_csr set_csr]. rewrite decide_True, !set_field_bit by done. change (Z.testbit SSTATUS_SPP 8) with true.
    cbv iota. destruct (decide (p = PUser)); reflexivity.
Qed.

Lemma enter_trap_safe c p cause tval i f m Q :
  length f = FRAME_WORDS ->
  (forall m1 g, entered c m m1 -> mc_big_lock m1 = mc_big_lock m -> mc_locked_cpu m1 = mc_locked_cpu m ->
     sie_off (mc_hart m1 c) -> h_csr (mc_hart m1 c) CSR_scause = cause -> h_csr (mc_hart m1 c) CSR_stval = tval ->
     h_csr (mc_hart m1 c) CSR_sepc = fget F_PC f ->
     length g = FRAME_WORDS -> (forall n, n <> F_SSTATUS -> fget n g = fget n f) ->
     has (fget F_SSTATUS g) SSTATUS_SPP = (if decide (p = PUser) then false else true) ->
     safe m1 (riscv32_handle_trap c i g) Q) ->
  safe m (enter_trap c p cause tval i f) Q.
Proof.
  intros Hlen HQ. unfold enter_trap. eapply safe_step; [reflexivity|].
  eapply safe_bind; [apply lift_h_safe; reflexivity|]. intros _ m1 (_ & Ho1 & Hh1).
  eapply safe_bind; [apply lift_h_safe; reflexivity|]. intros _ m2 (_ & Ho2 & Hh2).
  eapply safe_bind; [apply lift_h_safe; reflexivity|]. intros s m3 (-> & Ho3 & Hh3).
  eapply safe_bind; [apply lift_h_safe; reflexivity|]. intros e m4 (-> & Ho4 & Hh4).
  rewrite Hh1 in Hh2.
  destruct (take_trap_status p cause tval (Hart (h_csr (mc_hart m c)) (h_tp (mc_hart m c)) (fget F_PC f) p) (mc_hart m2 c))
    as (S1 & S2 & S3 & S4 & S5); [by rewrite Hh2|].
  assert (Hho : hart_only c (mc_set_mode (fupd (mc_mode m) c MKernel) m) m4) by (do 3 (etrans; [done|]); done).
  assert (E4 : mc_hart m4 c = mc_hart m2 c) by congruence. rewrite E4 in *. cbn [h_pc] in S4.
  rewrite (f_equal h_csr Hh3), S4.
  assert (Hfp : length (fset F_PC (fget F_PC f) f) = FRAME_WORDS) by (by rewrite fset_length).
  apply HQ; try done.
  - eapply entered_hart; [apply entered_mode|done].
  - by rewrite (ho_lock _ _ _ Hho).
  - by rewrite (ho_cpu _ _ _ Hho).
  - by rewrite E4.
  - by rewrite E4.
  - by rewrite E4.
  - by rewrite E4.
  - by rewrite fset_length.
  - intros n Hn. rewrite fget_fset_ne by done. destruct (decide (n = F_PC)) as [->|Hp]; [|by rewrite fget_fset_ne].
    rewrite fget_fset; [done|]. rewrite Hlen. unfold F_PC, FRAME_WORDS. lia.
  - rewrite fget_fset by (rewrite Hfp; unfold F_SSTATUS, FRAME_WORDS; lia).
    unfold SSTATUS_SPP. rewrite has_bit, Z.land_spec, S5 by lia. by destruct (decide (p = PUser)).
Qed.

(** The lock taken by a handler, and the context it saves: the invariant holds. *)
Lemma lock_safe c m m1 :
  entered c m m1 -> sie_off (mc_hart m1 c) -> mc_big_lock m1 = BKL_UNLOCKED ->
  safe m1 (mp_lock c) (fun _ m2 => entered c m m2 /\ mc_big_lock m2 = BKL_LOCKED
    /\ mc_locked_cpu m2 = Z.of_nat c /\ mc_hart m2 c = mc_hart m1 c).
Proof.
  intros He Hs Hb. eapply safe_conseq; [by apply mp_lock_safe|]. intros _ m2 (m1' & Ho & Hh & ->). cbn.
  split_and!; try done. pose proof (entered_hart _ _ _ _ He Ho) as []. by split.
Qed.
Lemma locked_minv c m m2 :
  minv m -> mc_big_lock m = BKL_UNLOCKED -> entered c m m2 -> mc_big_lock m2 = BKL_LOCKED ->
  mc_locked_cpu m2 = Z.of_nat c -> is_Some (k_current (mc_kernel m) !! c) -> is_Some (mc_conts m !! Idle c) ->
  minv m2.
Proof.
  intros I Hb [] Hl Hc Hon Hid. apply (minv_enter c m); try done; rewrite en_conts0; [apply (mi_conts _ I)|done|done].
Qed.
Lemma saved_minv c m m2 cur k :
  minv m -> mc_big_lock m = BKL_UNLOCKED -> entered c m m2 -> mc_big_lock m2 = BKL_LOCKED ->
  mc_locked_cpu m2 = Z.of_nat c -> k_current (mc_kernel m) !! c = Some cur -> cont_ok cur k ->
  (cur = Idle c \/ is_Some (mc_conts m !! Idle c)) ->
  minv (mc_set_conts (<[cur := k]> (mc_conts m2)) m2).
Proof.
  intros I Hb [] Hl Hc Hcur Hok Hid. apply (minv_enter c m); cbn; try done.
  - intros t kt. rewrite en_conts0, lookup_insert. case_decide; [|apply (mi_conts _ I)]. intros [= <-]. by subst.
  - intros t Ht. rewrite en_conts0, lookup_insert_ne; [done|congruence].
  - rewrite en_conts0, lookup_insert. case_decide; eauto. by destruct Hid.
Qed.
Lemma lift_stays c m (f : KST unit) :
  minv m -> mc_mode m c = MKernel -> Steady f ->
  safe (mc_kernel m) f (fun _ k' => kinv k' /\ klocal c (mc_kernel m) k') ->
  safe m (lift_k f) (fun _ m' => minv m' /\ mc_conts m' = mc_conts m).
Proof.
  intros I Hm Hst (u & k' & E & Hk & Hl). eexists _, _. split; [by apply lift_k_run|]. split; [|done].
  apply (minv_kernel c); [done|done|done|done|by apply (Hst _ _ _ E)].
Qed.
Lemma lift_exec c m e :
  minv m -> mc_mode m c = MKernel -> enabled e (mc_kernel m) -> event_cpu e = Some c \/ event_cpu e = None ->
  safe m (lift_k (exec stack_garbage user_tramp kernel_tramp hinavm_run e)) (fun _ m' => minv m' /\ mc_conts m' = mc_conts m).
Proof.
  intros I Hm He Hc. destruct (exec_local stack_garbage user_tramp kernel_tramp hinavm_run e _ (mi_kinv _ I) He)
    as ([] & k' & E & Hk & Hl).
  eexists _, _. split; [by apply lift_k_run|]. split; [|done].
  apply (minv_kernel c); [done|done|done|auto|by eapply exec_steady].
Qed.

(** What a step of the CPU that runs [cur] leaves of the saved contexts: only [cur]'s
    changes, and those of destroyed tasks go. *)
Definition kept (cur : tptr) (m m' : machine) : Prop :=
  forall t, t <> cur -> mc_conts m' !! t = mc_conts m !! t
    \/ mc_conts m' !! t = None /\ has_stack (mc_kernel m') t = false.
Definition stepped (cur : tptr) (m m' : machine) : Prop := minv m' /\ kept cur m m'.

Lemma kept_insert cur kt m m' : mc_conts m' = <[cur := kt]> (mc_conts m) -> kept cur m m'.
Proof. intros E t Ht. left. by rewrite E, lookup_insert_ne. Qed.
Lemma kept_eq cur m m' : mc_conts m' = mc_conts m -> kept cur m m'.
Proof. intros E t Ht. left. by rewrite E. Qed.
Lemma kept_delete cur m m' : mc_conts m' = delete cur (mc_conts m) -> kept cur m m'.
Proof. intros E t Ht. left. by rewrite E, lookup_delete_ne. Qed.

(** *** Going on in the kernel *)

Lemma minv_set_var c v m :
  minv m -> cv_magic v = cv_magic (mc_var m c) -> cv_online v = cv_online (mc_var m c) ->
  minv (mc_set_var (fupd (mc_var m) c v) m).
Proof.
  intros [Ik Ih Iu Ii Is Iv Ic It Id If] E1 E2. split; cbn; try done.
  intros c' Hc'. destruct (decide (c' = c)) as [->|Hn]; [rewrite fupd_eq, E1, E2|rewrite fupd_ne by done]; auto.
Qed.
(** CPU [c] replaces the context of its task. *)
Lemma minv_save c cur kt m :
  minv m -> mc_mode m c = MKernel -> k_current (mc_kernel m) !! c = Some cur -> cont_ok cur kt ->
  minv (mc_set_conts (<[cur := kt]> (mc_conts m)) m).
Proof.
  intros I Hm Hcur Hok. pose proof I as [Ik Ih Iu Ii Is Iv Ic It Id If]. split; cbn; try done.
  - intros c' f Hf. destruct (Iu c' f Hf) as (? & i & Hr & E). split; [done|]. exists i. split; [done|].
    rewrite lookup_insert_ne; [done|]. intros ->. apply (cur_other c c' m (Task i)) in Hcur; [done|done|congruence|apply Hr].
  - intros t k'. rewrite lookup_insert. case_decide; [intros [= <-]; by subst|apply It].
  - intros c' H1 H3. rewrite lookup_insert. case_decide; [done|auto].
Qed.
Lemma minv_reap cur m0 m : minv m -> kept cur m0 m -> safe m reap (fun _ m' => stepped cur m0 m').
Proof.
  intros [Ik Ih Iu Ii Is Iv Ic It Id If] Hk. eexists _, _. split; [reflexivity|]. split; [split; cbn; try done|].
  - intros c f Hf. destruct (Iu c f Hf) as (? & i & Hr & E). split; [done|]. exists i. split; [done|].
    apply map_lookup_filter_None. by left.
  - intros t kt [H _]%map_lookup_filter_Some. auto.
  - intros c H1 H3. destruct (Id c H1 H3) as [kt Hkt]. exists kt. by apply map_lookup_filter_Some.
  - intros t Ht. cbn. destruct (has_stack (mc_kernel m) t) eqn:Es.
    + destruct (Hk t Ht) as [<-|[_ E]]; [left|congruence]. apply option_eq. intros kt.
      rewrite map_lookup_filter_Some. simpl. tauto.
    + right. split; [|done]. apply map_lookup_filter_None. right. intros kt _. simpl. congruence.
Qed.

(** A CPU in the kernel changes its own registers. *)
Lemma hart_only_minv c m m' : minv m -> mc_mode m c = MKernel -> hart_only c m m' -> minv m'.
Proof.
  destruct m' as [k b l md h v cs]. intros [Ik Ih Iu Ii Is Iv Ic It Id If] Hm [E1 E2 E3 E4 E5 E6 E7]. simpl in *. subst.
  split; cbn; try done. intros c' H. rewrite E7 by congruence. auto.
Qed.

(** *** Leaving the kernel *)
Record left (c : nat) (cur : tptr) (md : cpu_mode) (m m' : machine) : Prop := {
  lf_kernel : mc_kernel m' = mc_kernel m;
  lf_lock : mc_big_lock m' = BKL_UNLOCKED;
  lf_var : mc_var m' = mc_var m;
  lf_mode : mc_mode m' c = md;
  lf_others : forall c', c' <> c -> mc_mode m' c' = mc_mode m c' /\ mc_hart m' c' = mc_hart m c';
  lf_conts : mc_conts m' = delete cur (mc_conts m);
}.

(** What follows [mp_unlock]: the machine between the unlock and the return. *)
Record leaving (c : nat) (cs : gmap tptr tcont) (m m1 : machine) : Prop := {
  lv_kernel : mc_kernel m1 = mc_kernel m;
  lv_lock : mc_big_lock m1 = BKL_UNLOCKED;
  lv_var : mc_var m1 = mc_var m;
  lv_others : forall c', c' <> c -> mc_mode m1 c' = mc_mode m c' /\ mc_hart m1 c' = mc_hart m c';
  lv_conts : mc_conts m1 = cs;
}.
Lemma leaving_hart c cs m m1 m2 : leaving c cs m m1 -> hart_only c m1 m2 -> leaving c cs m m2.
Proof. intros [] []. split; [congruence..| |congruence]. intros c' Hc. rewrite ho_mode0, ho_hart0 by done. auto. Qed.
Lemma unlock_safe c m :
  minv m -> mc_mode m c = MKernel -> safe m (mp_unlock c) (fun _ m1 => leaving c (mc_conts m) m m1).
Proof.
  intros I Hm. destruct (mi_held _ I c Hm) as (Hb & Hl & _). eexists _, _. split; [by apply mp_unlock_run|]. by split.
Qed.
Lemma leaving_left c cur md m m1 :
  leaving c (delete cur (mc_conts m)) m m1 ->
  safe m1 (set_mode c md) (fun _ m' => left c cur md m m' /\ mc_hart m' = mc_hart m1).
Proof.
  intros []. eexists _, _. split; [reflexivity|]. split; [|done]. split; cbn; [done|done|done|apply fupd_eq| |done].
  intros c' Hc. rewrite fupd_ne by done. auto.
Qed.

Lemma left_minv c cur md m m' :
  minv m -> mc_mode m c = MKernel -> k_current (mc_kernel m) !! c = Some cur -> left c cur md m m' ->
  match md with
  | MUserMode f => length f = FRAME_WORDS /\ exists i, cur = Task i /\ runs c i (mc_kernel m)
  | MWake => cur = Idle c /\ sie_off (mc_hart m' c)
  | _ => False
  end -> minv m'.
Proof.
  intros I Hm Hcur [] Hmd. apply (minv_leave c m); try done.
  - intros t kt. rewrite lf_conts0. intros [_ H]%lookup_delete_Some. by apply (mi_conts _ I).
  - intros t Ht. rewrite lf_conts0, lookup_delete_ne by congruence. done.
  - rewrite lf_mode0. destruct md; try done; [|by destruct Hmd as [-> ?]].
    destruct Hmd as (? & i & -> & Hr). split; [done|]. rewrite lf_conts0. split.
    + rewrite lookup_delete_ne by done. apply (mi_idle_cont _ I); rewrite ?Hm; done.
    + exists i. by rewrite lookup_delete_eq.
Qed.

Lemma fset_frame n v t f : n <> F_SSTATUS -> frame_ok t f -> frame_ok t (fset n v f).
Proof. intros Hn [H1 H2]. split; [by rewrite fset_length|]. by rewrite fget_fset_ne. Qed.

(** The mode a trap returns to. *)
Definition return_mode (cur : tptr) (f : frame) : cpu_mode :=
  match cur with Task _ => MUserMode f | Idle _ => MWake end.

Lemma trap_return_safe c cur f m m1 :
  minv m -> k_current (mc_kernel m) !! c = Some cur -> frame_ok cur f -> leaving c (mc_conts m) m m1 ->
  safe m1 (trap_return c f) (fun _ m' => left c cur (return_mode cur f) m m' /\ (cur = Idle c -> sie_off (mc_hart m' c))).
Proof.
  intros I Hcur [Hlen Hspp] Hl. pose proof Hl as [Lk _ Lv _ _]. unfold trap_return. cbv zeta.
  assert (Hs : stack_ok c m1).
  { destruct (minv_stack c m I) as (A1 & A2 & cur' & x & A3); [by eexists|]. split; [by rewrite Lv|]. split; [by rewrite Lv|].
    exists cur', x. unfold canary_at. by rewrite Lk. }
  eapply safe_step; [by apply stack_check_run|].
  eapply safe_step; [apply lift_k_run, current_run; by rewrite Lk|]. rewrite set_kernel_id.
  eapply safe_step; [reflexivity|]. set (m2 := mc_set_conts _ _).
  assert (L2 : leaving c (delete cur (mc_conts m)) m m2) by (destruct Hl; split; cbn; auto; congruence).
  clearbody m2. set (f' := if has _ _ then _ else f).
  assert (Ef : has (fget F_SSTATUS f') SSTATUS_SPP = has (fget F_SSTATUS f) SSTATUS_SPP).
  { unfold f'. destruct (has (fget F_SSTATUS f) SSTATUS_SPP) eqn:E; [|done]. by rewrite fget_fset_ne, E. }
  eapply safe_bind; [apply lift_h_safe; reflexivity|]. intros _ m3 (_ & O3 & _).
  eapply safe_bind; [apply lift_h_safe; reflexivity|]. intros _ m4 (_ & O4 & _).
  eapply safe_bind; [apply lift_h_safe; reflexivity|]. intros _ m5 (_ & O5 & _).
  assert (L5 : leaving c (delete cur (mc_conts m)) m m5) by (eapply leaving_hart; [done|]; do 2 (etrans; [done|]); done).
  rewrite Ef, Hspp. destruct cur as [i|c'].
  - replace f' with f by (unfold f'; by rewrite Hspp). eapply safe_conseq; [by apply leaving_left|].
    intros _ m' [? _]. done.
  - eapply safe_bind; [apply lift_h_safe; reflexivity|]. intros s m6 (-> & O6 & H6).
    eapply safe_bind; [apply lift_h_safe; reflexivity|]. intros _ m7 (_ & O7 & H7).
    eapply safe_conseq; [apply leaving_left; eapply leaving_hart; [done|by etrans]|].
    intros _ m' [? Eh]. split; [done|]. intros _. rewrite Eh, H7. unfold sie_off.
    cbn [h_csr set_csr]. rewrite decide_True, set_field_bit by done.
    change (Z.testbit SSTATUS_WINDOW 1) with true. cbv iota. rewrite Z.land_spec.
    change (Z.testbit (Z.lnot SSTATUS_SIE) 1) with false. apply andb_false_r.
Qed.

(** *** The handlers, under the lock *)

(** The machine when CPU [c] has taken the lock in its handler. *)
Record locked (c : nat) (cur : tptr) (m m2 : machine) : Prop := {
  lk_entered : entered c m m2;
  lk_minv : minv m2;
  lk_cur : k_current (mc_kernel m2) !! c = Some cur;
}.

Lemma locked_save c cur kt m m2 :
  locked c cur m m2 -> cont_ok cur kt ->
  safe m2 (save_cont c kt) (fun _ m3 => minv m3 /\ mc_kernel m3 = mc_kernel m /\ mc_mode m3 c = MKernel
    /\ mc_conts m3 = <[cur := kt]> (mc_conts m)).
Proof.
  intros [He I Hc] Hok. eexists _, _. split; [by apply save_cont_run|]. split; [apply (minv_save c); [done|apply He|done|done]|].
  split_and!; [apply He..|]. cbn. by rewrite (en_conts _ _ _ He).
Qed.

Lemma handle_syscall_trap_safe c i f m m2 cur :
  locked c cur m m2 -> cont_ok cur (TSyscall f) ->
  fget F_A5 f = SYS_SHUTDOWN \/
    enabled (ESyscall c (in_kbuf i) (fget F_A0 f) (fget F_A1 f) (fget F_A2 f) (fget F_A3 f) (fget F_A5 f)) (mc_kernel m) ->
  safe m2 (handle_syscall_trap c i f) (fun _ m' => stepped cur m m').
Proof.
  intros Hl Hok Hen. unfold handle_syscall_trap. eapply safe_bind; [by eapply locked_save|].
  intros _ m3 (I & Ek & Hm & Hcs). destruct (Z.eqb_spec (fget F_A5 f) SYS_SHUTDOWN) as [_|Hne].
  - eexists _, _. split; [reflexivity|]. split; [|by eapply kept_insert]. pose proof I as [Ik Ih Iu Ii Is Iv Ic It Id If].
    assert (Ho : forall c' md, md <> MShutdown -> fupd (mc_mode m3) c MShutdown c' = md -> mc_mode m3 c' = md).
    { intros c' md Hmd. destruct (decide (c' = c)) as [->|Hn]; [rewrite fupd_eq; congruence|by rewrite fupd_ne]. }
    split; cbn; try done.
    + intros c' H. apply Ih. by apply Ho.
    + intros c' g H. by apply Iu, Ho.
    + intros c' [H|H]; apply Ii; [left|right]; by apply Ho.
    + intros c' H. by apply Is, Ho.
    + intros c' H1 H3. destruct (decide (c' = c)) as [->|Hn]; [apply Id; rewrite ?Hm; done|].
      rewrite fupd_ne in H1 by done. auto.
    + right. exists c. right. apply fupd_eq.
  - destruct Hen as [|Hen]; [done|].
    eapply safe_bind; [apply (lift_exec c m3 (ESyscall c _ _ _ _ _ _)); [done|done|by rewrite Ek|by left]|].
    intros _ m4 [I4 E4]. apply minv_reap; [done|]. eapply kept_insert. by rewrite E4.
Qed.

Lemma handle_soft_interrupt_trap_safe c f m m2 cur :
  locked c cur m m2 -> cont_ok cur (TSoft f) -> safe m2 (handle_soft_interrupt_trap c f) (fun _ m' => stepped cur m m').
Proof.
  intros [He I Hc] Hok. unfold handle_soft_interrupt_trap.
  eapply safe_bind; [apply lift_h_safe; reflexivity|]. intros s m3 (_ & O3 & _).
  eapply safe_bind; [apply lift_h_safe; reflexivity|]. intros _ m4 (_ & O4 & _).
  assert (O : hart_only c m2 m4) by by etrans.
  assert (L : locked c cur m m4).
  { pose proof (entered_hart _ _ _ _ He O) as He4. split; [done|apply (hart_only_minv c m2); [done|apply He|done]|].
    by rewrite (ho_kernel _ _ _ O). }
  eapply safe_conseq; [by eapply locked_save|]. intros _ m5 (? & _ & _ & ?). split; [done|by eapply kept_insert].
Qed.

Lemma handle_external_interrupt_trap_safe c i f m m2 cur :
  locked c cur m m2 -> cont_ok cur (TUnlock f) -> in_irq i < IRQ_MAX ->
  safe m2 (handle_external_interrupt_trap c i f) (fun _ m' => stepped cur m m').
Proof.
  intros Hl Hok Hirq. unfold handle_external_interrupt_trap. eapply safe_bind; [by eapply locked_save|].
  intros _ m3 (I & Ek & Hm & Hcs). cbv zeta. rewrite (proj2 (Z.ltb_lt _ _) Hirq). eapply safe_step; [reflexivity|].
  assert (Hex : forall e, enabled e (mc_kernel m3) -> event_cpu e = None ->
    safe m3 (lift_k (exec stack_garbage user_tramp kernel_tramp hinavm_run e)) (fun _ m' => stepped cur m m')).
  { intros e He1 He2. eapply safe_conseq; [apply (lift_exec c); [done|done|done|by right]|].
    intros _ m4 [? E4]. split; [done|]. eapply kept_insert. by rewrite E4. }
  destruct (in_irq i =? UART0_IRQ); [by apply (Hex (ESerial (in_chars i)))|by apply (Hex (EInterrupt (in_irq i)))].
Qed.

(** The task of CPU [c] has a pager to report to. *)
Definition has_pager (c : nat) (k : kernel) : Prop := exists i, runs c i k /\ pagers k !! Task i <> Some None.

(** A trap that the code expects. *)
Definition trap_ok (c : nat) (cause : Z) (i : input) (f : frame) (m : machine) : Prop :=
  (cause = SCAUSE_ENV_CALL /\ (exists j, runs c j (mc_kernel m)) /\
    (fget F_A5 f = SYS_SHUTDOWN \/
     enabled (ESyscall c (in_kbuf i) (fget F_A0 f) (fget F_A1 f) (fget F_A2 f) (fget F_A3 f) (fget F_A5 f)) (mc_kernel m)))
  \/ cause = SCAUSE_S_SOFT_INTR
  \/ (cause = SCAUSE_S_EXT_INTR /\ in_irq i < IRQ_MAX)
  \/ (In cause page_faults /\ has_pager c (mc_kernel m)
      /\ fget F_PC f <> riscv32_usercopy1 /\ fget F_PC f <> riscv32_usercopy2)
  \/ (In cause task_exceptions /\ has_pager c (mc_kernel m)).

Lemma has_user v : has (Z.lor v PAGE_FAULT_USER) PAGE_FAULT_USER = true.
Proof. change PAGE_FAULT_USER with (Z.shiftl 1 3). rewrite has_bit, Z.lor_spec by lia. apply orb_true_r. Qed.
Lemma safe_eq {S A} (f : ST S A) (g : ST S A) (s : S) s' Q : f s = g s' -> safe s' g Q -> safe s f Q.
Proof. intros E (a & s1 & E1 & H). exists a, s1. by rewrite E. Qed.

(** What [handle_page_fault_trap] does once it has found the cause of a user task's fault. *)
Lemma page_fault_trap_run c cause f m1 j x :
  In cause page_faults -> h_csr (mc_hart m1 c) CSR_scause = cause -> h_csr (mc_hart m1 c) CSR_sepc = fget F_PC f ->
  k_current (mc_kernel m1) !! c = Some (Task j) -> k_tasks (mc_kernel m1) !! Task j = Some x ->
  frame_ok (Task j) f ->
  exists va v m2, hart_only c m1 m2 /\ mc_hart m2 c = mc_hart m1 c /\
    handle_page_fault_trap c f m1 =
      (let reason := Z.lor v PAGE_FAULT_USER in
       if (fget F_PC f =? riscv32_usercopy1) || (fget F_PC f =? riscv32_usercopy2) then
         save_cont c (TNested f (cont_of (Task j) x m2)) ;;
         lift_k (handle_page_fault stack_garbage c va (fget F_PC f) (Z.lor reason PAGE_FAULT_USER))
       else mp_lock c ;; save_cont c (TUnlock f) ;;
            lift_k (handle_page_fault stack_garbage c va (fget F_PC f) reason)) m2.
Proof.
  intros Hin Hcause Hsepc Hcur Hx [_ Hspp]. unfold handle_page_fault_trap.
  assert (Hrd : forall A (g : HST A) a m, g (mc_hart m c) = Ok (a, mc_hart m c) ->
    exists m', lift_h c g m = Ok (a, m') /\ hart_only c m m' /\ mc_hart m' c = mc_hart m c).
  { intros A g a m E. destruct (lift_h_safe c g m a _ E) as (a' & m' & E' & -> & ? & ?). eauto. }
  destruct (Hrd Z read_scause cause m1) as (m2 & E2 & O2 & H2); [cbv; by rewrite <- Hcause|].
  rewrite (ST_bind_run _ _ _ _ _ E2).
  assert (Hreason : exists v, (if cause =? SCAUSE_INST_PAGE_FAULT then mret PAGE_FAULT_EXEC
            else if cause =? SCAUSE_LOAD_PAGE_FAULT then mret PAGE_FAULT_READ
            else if cause =? SCAUSE_STORE_PAGE_FAULT then mret PAGE_FAULT_WRITE
            else panic) m2 = Ok (v, m2)).
  { destruct Hin as [<-|[<-|[<-|[]]]]; eexists; reflexivity. }
  destruct Hreason as [v Hv]. rewrite (ST_bind_run _ _ _ _ _ Hv).
  destruct (Hrd Z read_stval (h_csr (mc_hart m2 c) CSR_stval) m2) as (m3 & E3 & O3 & H3); [done|].
  rewrite (ST_bind_run _ _ _ _ _ E3). set (va := h_csr (mc_hart m2 c) CSR_stval).
  assert (Ek3 : mc_kernel m3 = mc_kernel m1) by (rewrite (ho_kernel _ _ _ O3), (ho_kernel _ _ _ O2); done).
  rewrite <- Ek3 in Hcur, Hx.
  rewrite (ST_bind_run _ _ _ _ _ (lift_k_run _ _ _ _ (current_run _ _ _ Hcur))), set_kernel_id.
  rewrite (ST_bind_run _ _ _ _ _ (lift_k_run _ _ _ _ (task_at_run _ _ _ Hx))), set_kernel_id.
  destruct (is_mapped_run (satp_of x) va (k_mem (mc_kernel m3))) as [b Eb].
  rewrite (ST_bind_run (lift_k (lift_mem _)) _ m3 b m3).
  2: { unfold lift_k, lift_mem. rewrite Eb. replace (set_mem _ (mc_kernel m3)) with (mc_kernel m3) by by destruct (mc_kernel m3).
       by rewrite set_kernel_id. }
  cbv zeta. destruct (Hrd Z read_sepc (fget F_PC f) m3) as (m4 & E4 & O4 & H4); [unfold read_sepc, csrr, gets; by rewrite <- Hsepc, <- H2, <- H3|].
  rewrite (ST_bind_run _ _ _ _ _ E4), (has_zero (fget F_SSTATUS f)), Hspp. cbn [negb].
  exists va, (Z.lor v (if b then PAGE_FAULT_PRESENT else 0)), m4.
  split; [by do 2 (etrans; [done|])|]. split; [congruence|]. destruct (_ || _); [reflexivity|].
  rewrite has_zero, has_user. reflexivity.
Qed.

Lemma handle_page_fault_trap_safe c cause f m m1 j :
  In cause page_faults -> h_csr (mc_hart m1 c) CSR_scause = cause -> h_csr (mc_hart m1 c) CSR_sepc = fget F_PC f ->
  fget F_PC f <> riscv32_usercopy1 -> fget F_PC f <> riscv32_usercopy2 ->
  runs c j (mc_kernel m) -> pagers (mc_kernel m) !! Task j <> Some None ->
  entered c m m1 -> cont_ok (Task j) (TUnlock f) ->
  (forall m1', hart_only c m1 m1' -> mc_hart m1' c = mc_hart m1 c -> safe m1' (mp_lock c) (fun _ m2 => locked c (Task j) m m2)) ->
  safe m1 (handle_page_fault_trap c f) (fun _ m' => stepped (Task j) m m').
Proof.
  intros Hin Hcause Hsepc Hu1 Hu2 [Hcur (x & Hx & Hctx)] Hpg He Hok Hlock.
  pose proof (en_kernel _ _ _ He) as Ek.
  destruct (page_fault_trap_run c cause f m1 j x) as (va & v & m2 & O2 & H2 & E); [done|done|done|by rewrite Ek..|done|].
  eapply safe_eq; [exact E|]. cbv zeta. rewrite (proj2 (Z.eqb_neq _ _) Hu1), (proj2 (Z.eqb_neq _ _) Hu2). cbn [orb].
  eapply safe_bind; [by apply Hlock|]. intros ? m5 L5. cbv beta in L5.
  eapply safe_bind; [by eapply locked_save|]. intros ? m6 (I6 & E6 & Hm6 & Hcs).
  eapply safe_conseq; [apply (lift_exec c m6 (EPageFault c va (fget F_PC f) (Z.lor v PAGE_FAULT_USER))); [done|done| |by left]|].
  - exists j. rewrite E6. split_and!; [split; [done|by eauto]|apply has_user|done].
  - intros _ m' [? E']. split; [done|]. eapply kept_insert. by rewrite E'.
Qed.

Lemma entered_stack c m m1 : minv m -> entered c m m1 -> is_Some (k_current (mc_kernel m) !! c) -> stack_ok c m1.
Proof.
  intros I He Hon. destruct (minv_stack c m I Hon) as (A1 & A2 & cur' & x & A3). unfold stack_ok, canary_at.
  rewrite (en_kernel _ _ _ He), (en_var _ _ _ He). eauto.
Qed.

(** The dispatch on a trap from a task: the lock is free and the trap is expected. *)
Lemma handle_trap_safe c cause i g m m1 cur :
  minv m -> mc_big_lock m = BKL_UNLOCKED -> k_current (mc_kernel m) !! c = Some cur -> is_Some (mc_conts m !! Idle c) ->
  entered c m m1 -> mc_big_lock m1 = BKL_UNLOCKED -> sie_off (mc_hart m1 c) ->
  h_csr (mc_hart m1 c) CSR_scause = cause -> h_csr (mc_hart m1 c) CSR_sepc = fget F_PC g ->
  frame_ok cur g -> trap_ok c cause i g m ->
  safe m1 (riscv32_handle_trap c i g) (fun _ m' => stepped cur m m').
Proof.
  intros I Hb Hcur Hid He Hb1 Hs Hcause Hsepc Hf Hok. unfold riscv32_handle_trap.
  pose proof (en_kernel _ _ _ He) as Ek.
  eapply safe_step; [apply stack_check_run; by eapply entered_stack; [done| |by eexists]|].
  eapply safe_bind; [apply lift_h_safe; reflexivity|]. intros s m2 (-> & O2 & H2). rewrite Hcause.
  assert (Hlock : forall m1', hart_only c m1 m1' -> mc_hart m1' c = mc_hart m1 c ->
    safe m1' (mp_lock c) (fun _ m2 => locked c cur m m2)).
  { intros m1' O E. eapply safe_conseq; [apply lock_safe; [by eapply entered_hart|by rewrite E|by rewrite (ho_lock _ _ _ O)]|].
    intros _ m3 (He3 & Hb3 & Hl3 & _). split; [done|by eapply locked_minv|by rewrite (en_kernel _ _ _ He3)]. }
  destruct Hok as [(-> & [j [Hj _]] & Hen)|[->|[(-> & Hirq)|[(Hin & (j & Hr & Hpg) & Hu1 & Hu2)|(Hin & j & Hr & Hpg)]]]];
    cbn -[mp_lock handle_syscall_trap handle_soft_interrupt_trap handle_external_interrupt_trap handle_page_fault_trap].
  - eapply safe_bind; [by apply Hlock|]. intros ? m3 L3; cbv beta in L3. eapply handle_syscall_trap_safe; [done| |done].
    rewrite Hcur in Hj. injection Hj as ->. split; [done|by eauto].
  - eapply safe_bind; [by apply Hlock|]. intros ? m3 L3; cbv beta in L3. by eapply handle_soft_interrupt_trap_safe.
  - eapply safe_bind; [by apply Hlock|]. intros ? m3 L3; cbv beta in L3. by eapply handle_external_interrupt_trap_safe.
  - assert (cur = Task j) as -> by (destruct Hr; congruence).
    assert (Hx : safe m2 (handle_page_fault_trap c g) (fun _ m' => stepped (Task j) m m')).
    { eapply (handle_page_fault_trap_safe c cause g m m2 j); [done|by rewrite H2|by rewrite H2|done..|by eapply entered_hart|done|].
      intros m1' O' E'. apply Hlock; [by etrans|congruence]. }
    repeat (destruct Hin as [<-|Hin]; [exact Hx|]). done.
  - assert (cur = Task j) as -> by (destruct Hr; congruence).
    assert (Hx : safe m2 (mp_lock c ;; lift_k (task_exit stack_garbage c EXP_ILLEGAL_EXCEPTION)) (fun _ m' => stepped (Task j) m m')).
    { eapply safe_bind; [by apply Hlock|]. intros ? m3 L3; cbv beta in L3. destruct L3 as [He3 I3 Hc3].
      eapply safe_conseq; [apply (lift_stays c); [done|apply He3|apply _|]|].
      - eapply safe_conseq; [apply (task_exit_safe stack_garbage c j); [by apply mi_kinv|by rewrite (en_kernel _ _ _ He3)..]|].
        intros _ k' [? F]. split; [done|apply F].
      - intros _ m' [? E']. split; [done|]. apply kept_eq. by rewrite E', (en_conts _ _ _ He3). }
    repeat (destruct Hin as [<-|Hin]; [exact Hx|]). done.
Qed.

(** *** A CPU in the kernel goes on *)

Lemma leave_safe c cur f m :
  minv m -> mc_mode m c = MKernel -> k_current (mc_kernel m) !! c = Some cur -> frame_ok cur f ->
  (forall j, cur = Task j -> runs c j (mc_kernel m)) ->
  safe m (mp_unlock c ;; trap_return c f) (fun _ m' => minv m' /\ left c cur (return_mode cur f) m m').
Proof.
  intros I Hm Hcur Hf Hr. eapply safe_bind; [by apply unlock_safe|]. intros ? m1 L1; cbv beta in L1.
  eapply safe_conseq; [by eapply trap_return_safe|]. intros _ m' [L' Hs]. split; [|done].
  eapply left_minv; [done..|]. destruct cur as [j|c']; simpl.
  - split; [apply Hf|]. eauto.
  - destruct (decide (c' = c)) as [->|Hn]; [auto|]. by apply cur_idle_other in Hcur.
Qed.

Lemma soft_interrupt_loop_safe c i f m cur :
  minv m -> mc_mode m c = MKernel -> k_current (mc_kernel m) !! c = Some cur -> frame_ok cur f ->
  safe m (soft_interrupt_loop c i f) (fun _ m' => minv m'
    /\ (mc_conts m' = mc_conts m \/ mc_conts m' = <[cur := TUnlock f]> (mc_conts m))).
Proof.
  intros I Hm Hcur Hf. unfold soft_interrupt_loop. eapply safe_step; [reflexivity|]. eapply safe_step; [reflexivity|].
  set (m1 := mc_set_var _ _). assert (I1 : minv m1) by by apply minv_set_var.
  destruct (cv_ipi_pending (mc_var m c) =? 0).
  - eapply safe_step; [reflexivity|]. cbv zeta. eapply safe_step; [reflexivity|].
    set (m2 := mc_set_var _ m1). assert (I2 : minv m2) by (apply minv_set_var; done).
    eapply safe_step; [by apply (save_cont_run c _ m2 cur)|]. set (m3 := mc_set_conts _ m2).
    assert (I3 : minv m3) by by apply (minv_save c).
    case_match; [|apply safe_ret; split; [done|by right]].
    eapply safe_conseq; [apply (lift_exec c m3 (ETimer c _)); [done|done|by eexists|by left]|].
    intros _ m' [? E']. split; [done|right; by rewrite E'].
  - case_match; [|apply safe_ret; split; [done|by left]].
    destruct (task_switch_safe None (mc_kernel m1) c cur) as (b & k' & E & Hk & F & _); [apply I1|by left|done|].
    eapply safe_step; [by apply lift_k_run|]. apply safe_ret. split; [|by left].
    apply (minv_kernel c); [done|done|done|apply F|]. by eapply (steady_task_switch c).
Qed.

Lemma riscv32_user_entry_safe c i ip m j :
  minv m -> mc_mode m c = MKernel -> runs c j (mc_kernel m) -> mc_conts m !! Task j = None ->
  safe m (riscv32_user_entry c i ip) (fun _ m' => stepped (Task j) m m').
Proof.
  intros I Hm Hr Hn. unfold riscv32_user_entry. eapply safe_bind; [by apply unlock_safe|].
  intros ? m1 L1; cbv beta in L1. rewrite <- (delete_id (mc_conts m) (Task j)) in L1 by done.
  eapply safe_bind; [apply lift_h_safe; reflexivity|]. intros _ m3 (_ & O3 & _).
  eapply safe_bind; [apply lift_h_safe; reflexivity|]. intros s m4 (_ & O4 & _).
  eapply safe_bind; [apply lift_h_safe; reflexivity|]. intros _ m5 (_ & O5 & _).
  eapply safe_bind; [apply lift_h_safe; reflexivity|]. intros _ m6 (_ & O6 & _).
  eapply safe_conseq; [apply leaving_left; eapply leaving_hart; [done|]; by do 3 (etrans; [done|])|].
  intros _ m' [L' _]. split; [|eapply kept_delete, lf_conts; done]. eapply left_minv; [done|done|apply Hr|done|]. split; [|by eauto].
  by rewrite !fset_length, length_replicate.
Qed.

Lemma arch_idle_safe c m :
  minv m -> mc_mode m c = MKernel -> k_current (mc_kernel m) !! c = Some (Idle c) ->
  safe m (arch_idle c) (fun _ m' => stepped (Idle c) m m').
Proof.
  intros I Hm Hcur. unfold arch_idle. eapply safe_bind; [by apply unlock_safe|]. intros ? m1 L1; cbv beta in L1.
  eapply safe_bind; [apply lift_h_safe; reflexivity|]. intros s m4 (_ & O4 & _).
  eapply safe_bind; [apply lift_h_safe; reflexivity|]. intros _ m5 (_ & O5 & _).
  assert (L5 : leaving c (mc_conts m) m m5) by (eapply leaving_hart; [done|]; by etrans). destruct L5.
  eexists _, _. split; [reflexivity|]. split; [|by apply kept_eq]. apply (minv_leave c m); cbn; try done.
  - intros c' Hc. rewrite fupd_ne by done. auto.
  - rewrite lv_conts0. apply (mi_conts _ I).
  - intros t _. by rewrite lv_conts0.
  - rewrite fupd_eq, lv_conts0. split; [|done]. apply (mi_idle_cont _ I); rewrite ?Hm; done.
Qed.

(** ** Every step of every CPU *)

(** When a step can happen.  A CPU that would wait for the lock has no step before the
    lock is free; traps are expected ones; a HinaVM task is in its interpreter. *)
Definition menabled (e : mevent) (m : machine) : Prop :=
  match e with
  | MTrap c cause _ i =>
      mc_big_lock m = BKL_UNLOCKED /\ exists f, mc_mode m c = MUserMode f /\ trap_ok c cause i f m
  | MInterrupt c cause f i =>
      mc_big_lock m = BKL_UNLOCKED /\ mc_mode m c = MIdle /\ length f = FRAME_WORDS
      /\ (cause = SCAUSE_S_SOFT_INTR \/ cause = SCAUSE_S_EXT_INTR /\ in_irq i < IRQ_MAX)
  | MContinue c _ =>
      mc_mode m c = MKernel /\ forall cur x, k_current (mc_kernel m) !! c = Some cur ->
        k_tasks (mc_kernel m) !! cur = Some x -> t_kctx x = KRun ->
        match cont_of cur x m with THinavm _ _ => False | _ => True end
  | MWakeUp c => mc_big_lock m = BKL_UNLOCKED /\ mc_mode m c = MWake
  end.

Definition mevent_cpu (e : mevent) : nat :=
  match e with MTrap c _ _ _ | MInterrupt c _ _ _ | MContinue c _ | MWakeUp c => c end.

(** The registers a task should come back with: those it trapped with, after a system
    call with the result and behind the instruction that called. *)
Definition resumed (x : task) (k : tcont) : option frame :=
  match k with
  | TSyscall f => Some (<[F_PC := u32 (fget F_PC f + 4)]> (<[F_A0 := u32 (t_ret x)]> f))
  | TSoft f | TUnlock f => Some f
  | _ => None
  end.
(** A handler that can stand for [k]: the soft interrupt handler leaves its loop. *)
Definition same_cont (k k' : tcont) : Prop := k' = k \/ exists f, k = TSoft f /\ k' = TUnlock f.

(** What a step does to the context of the task its CPU runs. *)
Definition own_step (e : mevent) (m m' : machine) : Prop :=
  forall cur x kt, k_current (mc_kernel m) !! mevent_cpu e = Some cur -> k_tasks (mc_kernel m) !! cur = Some x ->
    (exists i, cur = Task i) -> mc_conts m !! cur = Some kt ->
    (exists k', mc_conts m' !! cur = Some k' /\ same_cont kt k')
    \/ exists g, resumed x kt = Some g /\ mc_mode m' (mevent_cpu e) = MUserMode g
       /\ k_current (mc_kernel m') !! mevent_cpu e = Some cur.

(** A step that leaves the contexts alone. *)
Lemma stepped_same e cur m m' : minv m' -> mc_conts m' = mc_conts m -> stepped cur m m' /\ own_step e m m'.
Proof.
  intros ? E. split; [split; [done|by apply kept_eq]|]. intros cur' x' kt _ _ _ Hk. left. exists kt.
  rewrite E. by split; [|left].
Qed.
(** The context a CPU goes on with: a saved one, or the entry of a new task. *)
Lemma cont_cases c cur x m :
  minv m -> mc_mode m c = MKernel -> k_current (mc_kernel m) !! c = Some cur ->
  match cont_of cur x m with THinavm _ _ => False | _ => True end ->
  (mc_conts m !! cur = Some (cont_of cur x m) /\ cont_ok cur (cont_of cur x m))
  \/ exists j ip, cur = Task j /\ mc_conts m !! cur = None /\ cont_of cur x m = TUserEntry ip.
Proof.
  intros I Hm Hcur Hh. unfold cont_of in *. destruct (mc_conts m !! cur) as [kt|] eqn:E; simpl in *.
  - left. split; [done|]. by apply (mi_conts _ I).
  - destruct cur as [j|c'].
    + right. unfold entry_cont in *. destruct (pm_load (t_sp x) _ =? user_tramp); [by eexists _, _|done].
    + destruct (decide (c' = c)) as [->|Hn]; [|by apply cur_idle_other in Hcur].
      destruct (mi_idle_cont _ I c); [by rewrite Hm|by eexists|congruence].
Qed.
Lemma leave_own c i cur x kt f m :
  minv m -> mc_mode m c = MKernel -> k_current (mc_kernel m) !! c = Some cur -> k_tasks (mc_kernel m) !! cur = Some x ->
  t_kctx x = KRun -> mc_conts m !! cur = Some kt -> frame_ok cur f -> resumed x kt = Some f ->
  safe m (mp_unlock c ;; trap_return c f) (fun _ m' => stepped cur m m' /\ own_step (MContinue c i) m m').
Proof.
  intros I Hm Hcur Hx Hctx Hk Hf Hres. eapply safe_conseq; [eapply (leave_safe c cur); try done|].
  { intros j ->. split; [done|by eauto]. }
  intros _ m' [I' L]. split; [split; [done|eapply kept_delete, (lf_conts _ _ _ _ _ L)]|].
  intros cur' x' kt' H1 H2 [j Hj] H3. simpl in H1. simplify_eq.
  right. exists f. cbn [mevent_cpu]. split_and!; [done|by rewrite (lf_mode _ _ _ _ _ L)|by rewrite (lf_kernel _ _ _ _ _ L)].
Qed.

Lemma kernel_continue_safe c i m cur x :
  minv m -> mc_mode m c = MKernel -> k_current (mc_kernel m) !! c = Some cur -> k_tasks (mc_kernel m) !! cur = Some x ->
  (t_kctx x = KRun -> match cont_of cur x m with THinavm _ _ => False | _ => True end) ->
  safe m (kernel_continue c i) (fun _ m' => stepped cur m m' /\ own_step (MContinue c i) m m').
Proof.
  intros I Hm Hcur Hx Hh. unfold kernel_continue.
  eapply safe_step; [by apply lift_k_run, current_run|]. rewrite set_kernel_id.
  eapply safe_step; [by apply lift_k_run, task_at_run|]. rewrite set_kernel_id.
  assert (Hrest : t_kctx x <> KRun -> safe m (lift_k (resume stack_garbage c))
    (fun _ m' => stepped cur m m' /\ own_step (MContinue c i) m m')).
  { intros _. eapply safe_conseq; [apply (lift_exec c m (EResume c)); [done|done|by eexists|by left]|].
    intros _ m' [? ?]. by apply stepped_same. }
  destruct (t_kctx x) eqn:Hctx; [clear Hrest; specialize (Hh eq_refl)|by apply Hrest..].
  eapply safe_step; [reflexivity|].
  destruct (cont_cases c cur x m I Hm Hcur Hh) as [[Hk Hok]|(j & ip & -> & Hk & ->)].
  2: { eapply safe_conseq; [apply (riscv32_user_entry_safe c i ip m j); [done|done|split; [done|by eauto]|done]|].
    intros ? m' H'. split; [done|]. intros cur' x' kt H1 _ _ H3. simpl in H1. congruence. }
  destruct (cont_of cur x m) as [f|f|f| | | |] eqn:Ec; simpl in Hok; try done.
  - destruct Hok as [Hf _]. eapply leave_own; [done..|by apply fset_frame, fset_frame|done].
  - eapply safe_conseq; [by eapply soft_interrupt_loop_safe|]. intros _ m' [I' [E|E]]; [by apply stepped_same|].
    split; [split; [done|by eapply kept_insert]|]. intros cur' x' kt H1 H2 _ H3. simpl in H1. simplify_eq.
    left. exists (TUnlock f). rewrite E, lookup_insert_eq. split; [done|]. right. by exists f.
  - by eapply leave_own.
  - destruct Hok as [c' ->]. destruct (decide (c' = c)) as [->|Hn]; [|by apply cur_idle_other in Hcur].
    eapply safe_conseq; [by apply arch_idle_safe|]. intros ? m' H'. split; [done|].
    intros cur' x' kt H1 _ [j ->] _. simpl in H1. congruence.
Qed.

(** A trap: the task that runs has no saved context yet. *)
Lemma own_none e cur m m' :
  k_current (mc_kernel m) !! mevent_cpu e = Some cur -> (forall i, cur = Task i -> mc_conts m !! cur = None) -> own_step e m m'.
Proof. intros Hc Hn cur' x kt H1 _ [i ->] H3. simplify_eq. rewrite (Hn i) in H3; done. Qed.

Lemma trap_ok_frame c cause i f g m : (forall n, n <> F_SSTATUS -> fget n g = fget n f) -> trap_ok c cause i f m -> trap_ok c cause i g m.
Proof. intros E. unfold trap_ok. by rewrite !E by done. Qed.

Lemma trap_step_stepped c p cause tval i f m cur e :
  minv m -> mc_big_lock m = BKL_UNLOCKED -> k_current (mc_kernel m) !! c = Some cur -> is_Some (mc_conts m !! Idle c) ->
  length f = FRAME_WORDS -> (if decide (p = PUser) then exists j, cur = Task j else exists c', cur = Idle c') ->
  trap_ok c cause i f m -> mevent_cpu e = c -> (forall i, cur = Task i -> mc_conts m !! cur = None) ->
  safe m (enter_trap c p cause tval i f) (fun _ m' => stepped cur m m' /\ own_step e m m').
Proof.
  intros I Hb Hcur Hid Hlen Hp Hok He Hn. subst c. apply enter_trap_safe; [done|].
  intros m1 g En Hb1 _ Hs Hca _ Hpc Hg Heq Hspp. eapply safe_conseq; [eapply (handle_trap_safe (mevent_cpu e) cause i g m m1 cur)|].
  all: try done.
  - congruence.
  - by rewrite Heq.
  - split; [done|]. rewrite Hspp. by destruct (decide (p = PUser)); destruct Hp as [? ->].
  - by eapply trap_ok_frame.
  - intros ? m' H'. split; [done|]. by eapply own_none.
Qed.

Lemma idle_round_safe c m :
  minv m -> mc_big_lock m = BKL_UNLOCKED -> mc_mode m c = MWake ->
  safe m (idle_round c) (fun _ m' => stepped (Idle c) m m').
Proof.
  intros I Hb Hm. assert (Hcur : k_current (mc_kernel m) !! c = Some (Idle c)) by (apply (mi_idle _ I); auto).
  unfold idle_round. eapply safe_step; [reflexivity|].
  eapply safe_bind; [apply (lock_safe c m); [apply entered_mode|by apply (mi_sie _ I)|done]|].
  intros ? m1 H1; cbv beta in H1. destruct H1 as (He & Hb1 & Hl1 & _).
  eapply safe_step; [by apply (save_cont_run c _ _ (Idle c)); rewrite (en_kernel _ _ _ He)|]. set (m2 := mc_set_conts _ m1).
  assert (I2 : minv m2) by (eapply saved_minv; try done; [by exists c|by left]).
  destruct (task_switch_safe None (mc_kernel m2) c (Idle c)) as (b & k' & E & Hk & F & _);
    [apply I2|by left|by rewrite <- Hcur, <- (en_kernel _ _ _ He)|].
  eapply safe_step; [by apply lift_k_run|]. apply safe_ret. split.
  - apply (minv_kernel c); [done|apply He|done|apply F|]. by eapply (steady_task_switch c).
  - eapply kept_insert. cbn. by rewrite (en_conts _ _ _ He).
Qed.

Lemma mexec_stepped e m : minv m -> menabled e m ->
  safe m (mexec e) (fun _ m' => exists cur, k_current (mc_kernel m) !! mevent_cpu e = Some cur
    /\ stepped cur m m' /\ own_step e m m').
Proof.
  intros I He. destruct e as [c cause tval i|c cause f i|c i|c]; cbn [mexec mevent_cpu menabled] in *.
  - destruct He as (Hb & f & Hm & Hok). eapply safe_step; [reflexivity|]. rewrite Hm.
    destruct (mi_user _ I c f Hm) as (Hlen & j & [Hcur Hr] & Hn).
    eapply safe_conseq; [apply (trap_step_stepped c PUser cause tval i f m (Task j) (MTrap c cause tval i)); try done|].
    + apply (mi_idle_cont _ I); [by rewrite Hm|by eexists].
    + by eexists.
    + intros ? m' H'. by eexists.
  - destruct He as (Hb & Hm & Hlen & Hok).
    assert (Hcur : k_current (mc_kernel m) !! c = Some (Idle c)) by (apply (mi_idle _ I); auto).
    eapply safe_conseq; [apply (trap_step_stepped c PSupervisor cause 0 i f m (Idle c) (MInterrupt c cause f i)); try done|].
    + apply (mi_idle_cont _ I); [by rewrite Hm|by eexists].
    + by eexists.
    + unfold trap_ok. tauto.
    + intros ? m' H'. by eexists.
  - destruct He as (Hm & Hh). destruct (mi_held _ I c Hm) as (_ & _ & cur & Hcur).
    destruct (prev_exists _ _ _ _ (mi_kinv _ I) Hcur) as (x & Hx).
    eapply safe_conseq; [apply (kernel_continue_safe c i m cur x); [done|done|done|done|by apply Hh]|]. intros ? m' H'. by eexists.
  - destruct He as (Hb & Hm). assert (Hcur : k_current (mc_kernel m) !! c = Some (Idle c)) by (apply (mi_idle _ I); auto).
    eapply safe_conseq; [by apply idle_round_safe|]. intros ? m' H'. eexists. split_and!; [done|done|].
    by apply (own_none (MWakeUp c) (Idle c)).
Qed.

Lemma trap_step_minv e m : minv m -> menabled e m -> exists m', mexec e m = Ok (tt, m') /\ minv m'.
Proof.
  intros I He. destruct (mexec_stepped e m I He) as ([] & m' & E & cur & _ & [I' _] & _). eauto.
Qed.


(** ** Runs *)
Inductive mrun : machine -> list mevent -> machine -> Prop :=
| mrun_nil m : mrun m [] m
| mrun_cons e es m m1 m' : menabled e m -> mexec e m = Ok (tt, m1) -> mrun m1 es m' -> mrun m (e :: es) m'.

(** Task [j] waits with the context [kt]; task [j] is in user mode. *)
Definition waits (j : nat) (kt : tcont) (m : machine) : Prop :=
  exists k', mc_conts m !! Task j = Some k' /\ same_cont kt k'.
Definition in_user (j : nat) (m : machine) : Prop :=
  exists c g, mc_mode m c = MUserMode g /\ k_current (mc_kernel m) !! c = Some (Task j).
(** The step that ends the wait: back in user mode with the registers of the context and
    the task's result, or destroyed. *)
Definition ends_wait (j : nat) (kt : tcont) (m m' : machine) : Prop :=
  (exists c x g, k_tasks (mc_kernel m) !! Task j = Some x /\ resumed x kt = Some g
     /\ mc_mode m' c = MUserMode g /\ k_current (mc_kernel m') !! c = Some (Task j))
  \/ has_stack (mc_kernel m') (Task j) = false.

Lemma same_cont_resumed x k k' : same_cont k k' -> resumed x k' = resumed x k.
Proof. by intros [->|(f & -> & ->)]. Qed.
Lemma same_cont_trans k k' k'' : same_cont k k' -> same_cont k' k'' -> same_cont k k''.
Proof. intros [->|(f & -> & ->)]; [done|]. intros [->|(g & [=] & _)]. right. by exists f. Qed.

Lemma waits_step j kt e m m' :
  minv m -> menabled e m -> mexec e m = Ok (tt, m') -> waits j kt m ->
  minv m' /\ (waits j kt m' \/ ends_wait j kt m m').
Proof.
  intros I He E (k0 & Hk & Hs). destruct (mexec_stepped e m I He) as (u & m1 & E1 & cur & Hcur & [I' Hkept] & Hown).
  rewrite E in E1. injection E1 as <- <-. split; [done|].
  destruct (decide (cur = Task j)) as [->|Hne].
  - destruct (prev_exists _ _ _ _ (mi_kinv _ I) Hcur) as (x & Hx).
    destruct (Hown _ x k0 Hcur Hx ltac:(by eexists) Hk) as [(k' & Hk' & Hs')|(g & Hg & Hm & Hc)].
    + left. exists k'. split; [done|]. by eapply same_cont_trans.
    + right; left. exists (mevent_cpu e), x, g. by rewrite <- (same_cont_resumed x _ _ Hs).
  - destruct (Hkept (Task j)) as [Ek|[_ Hn]]; [done|left|right; by right]. exists k0. by rewrite Ek.
Qed.
Lemma waits_not_user j kt m : minv m -> waits j kt m -> ~ in_user j m.
Proof.
  intros I (k' & Hk & _) (c & g & Hm & Hc). destruct (mi_user _ I c g Hm) as (_ & i & [Hi _] & Hn). congruence.
Qed.


Lemma usercopy_fault_run c f tval i m j :
  minv m -> mc_mode m c = MUserMode f -> runs c j (mc_kernel m) -> pagers (mc_kernel m) !! Task j <> Some None ->
  fget F_PC f = riscv32_usercopy1 \/ fget F_PC f = riscv32_usercopy2 ->
  safe m (mexec (MTrap c SCAUSE_INST_PAGE_FAULT tval i)) (fun _ m' =>
    mc_mode m' c = MKernel /\ mc_big_lock m' = mc_big_lock m /\ mc_locked_cpu m' = mc_locked_cpu m).
Proof.
  intros I Hm Hr Hpg Hpc. pose proof Hr as [Hcur (x & Hx & _)].
  cbn [mexec]. eapply safe_step; [reflexivity|]. rewrite Hm. apply enter_trap_safe; [by apply (mi_user _ I c f)|].
  intros m1 g En Hb1 Hl1 Hs Hca _ Hpc1 Hg Heq Hspp. pose proof (en_kernel _ _ _ En) as Ek. unfold riscv32_handle_trap.
  eapply safe_step; [apply stack_check_run; by eapply entered_stack; [done| |by eexists]|].
  eapply safe_bind; [apply lift_h_safe; reflexivity|]. intros s m2 (-> & O2 & H2). rewrite Hca.
  cbn -[handle_page_fault_trap].
  destruct (page_fault_trap_run c SCAUSE_INST_PAGE_FAULT g m2 j x) as (va & v & m3 & O3 & H3 & E).
  { by left. } { by rewrite H2. } { by rewrite H2, Heq. } { by rewrite (ho_kernel _ _ _ O2), Ek. }
  { by rewrite (ho_kernel _ _ _ O2), Ek. } { by split. }
  eapply safe_eq; [exact E|]. cbv zeta. rewrite (Heq F_PC) by done.
  replace (_ || _) with true by (symmetry; apply orb_true_iff; rewrite !Z.eqb_eq; done).
  assert (Ek3 : mc_kernel m3 = mc_kernel m) by (rewrite (ho_kernel _ _ _ O3), (ho_kernel _ _ _ O2); done).
  eapply safe_step; [apply save_cont_run; by rewrite Ek3|].
  eapply lift_k_safe; [apply (handle_page_fault_safe stack_garbage c j)|].
  { cbn. rewrite Ek3. apply I. } { cbn. by rewrite Ek3. } { apply has_user. } { cbn. by rewrite Ek3. }
  intros _ k' _. cbn. rewrite (ho_mode _ _ _ O3), (ho_mode _ _ _ O2), (ho_lock _ _ _ O3), (ho_lock _ _ _ O2),
    (ho_cpu _ _ _ O3), (ho_cpu _ _ _ O2). split; [apply En|done].
Qed.

(** C35: The handler takes a page fault whose [sepc] is the address of the user copy
    instruction for one inside a system call and does not take the kernel lock; it does
    not look at the mode the fault came from.  A user task that jumps to that address
    makes its CPU run kernel code - its own exit, the switch to another task - with
    the lock free or held by another CPU. *)
Theorem usercopy_fault_bypasses_lock c f tval i m j :
  minv m -> mc_mode m c = MUserMode f -> runs c j (mc_kernel m) -> pagers (mc_kernel m) !! Task j <> Some None ->
  fget F_PC f = riscv32_usercopy1 \/ fget F_PC f = riscv32_usercopy2 ->
  exists m', mexec (MTrap c SCAUSE_INST_PAGE_FAULT tval i) m = Ok (tt, m') /\ mc_mode m' c = MKernel
    /\ mc_big_lock m' = mc_big_lock m /\ mc_locked_cpu m' = mc_locked_cpu m
    /\ (mc_big_lock m = BKL_UNLOCKED \/ mc_locked_cpu m <> Z.of_nat c -> ~ minv m').
Proof.
  intros I Hm Hr Hpg Hpc. destruct (usercopy_fault_run c f tval i m j I Hm Hr Hpg Hpc) as ([] & m' & E & H1 & H2 & H3).
  exists m'. split_and!; try done. intros Hno I'. destruct (mi_held _ I' c H1) as (A & B & _).
  destruct Hno as [Hno|Hno]; [rewrite H2, Hno in A; discriminate|congruence].
Qed.
End Trap.

(** ** A concrete machine: CPU 0 runs the second task of the demonstration system, whose
    pager, the first task, waits in an open receive. *)
Definition demo_frame (pc sysno : Z) : frame := fset F_A5 sysno (fset F_PC pc (replicate FRAME_WORDS 0)).
Definition demo_input : input := Input [] 0 0 [] 0.
Definition demo_cpuvar : cpuvar := CpuVar 0 0 0 0 0 0 true 0 CPUVAR_MAGIC.
Definition demo_hart : hart := Hart (fun _ => 0) 0 0 PUser.
Definition demo_machine (f : frame) : machine :=
  Machine (set_mem (Memory [] ∅ {[0 := STACK_CANARY_VALUE]}) (after demo_recv demo_kernel)) BKL_UNLOCKED 0
    (fun c => match c with O => MUserMode f | _ => MShutdown end) (fun _ => demo_hart) (fun _ => demo_cpuvar) {[Idle 0 := TIdle]}.

Abbreviation demo_minv := (minv (fun _ => 0)).
Abbreviation demo_enabled := (menabled 512 100 200).
Abbreviation demo_exec := (mexec no_message 512 1024 1536 100 200 (fun _ => 0) (fun _ => 0)).

Lemma demo_task_bottom i x : k_tasks (after demo_recv demo_kernel) !! Task i = Some x -> t_sp_bottom x = 0.
Proof.
  assert (H : map_fold (fun _ x b => (t_sp_bottom x =? 0) && b) true (k_tasks (after demo_recv demo_kernel)) = true)
    by (vm_compute; reflexivity).
  revert i. assert (G : forall t x, k_tasks (after demo_recv demo_kernel) !! t = Some x -> t_sp_bottom x = 0); [|by intros; eapply G].
  revert H. generalize (k_tasks (after demo_recv demo_kernel)). intros tasks.
  induction tasks as [|t y tasks Ht Hf IH] using map_first_key_ind; [intros _ t x'; by rewrite lookup_empty|].
  rewrite map_fold_insert_first_key by done. intros [H1 H2]%andb_true_iff t' x'. rewrite lookup_insert.
  case_decide; [intros [= <-]; by apply Z.eqb_eq|by apply IH].
Qed.
Lemma demo_machine_minv f : length f = FRAME_WORDS -> demo_minv (demo_machine f).
Proof.
  intros Hf. split.
  - cbn. apply (keeps_other (after demo_recv demo_kernel)); try reflexivity.
    exact (reachable_inv _ _ _ _ _ _ demo_kinv demo_reach).
  - intros [|c]; done.
  - intros [|c] g [= <-]. split; [done|]. exists 1%nat. split; [|done].
    split; [by vm_compute|]. eexists. split; vm_compute; reflexivity.
  - intros [|c] [H|H]; done.
  - intros [|c]; done.
  - intros c _. done.
  - intros i x Hx _. unfold canary_at. by rewrite (demo_task_bottom i x Hx).
  - intros t kt. cbn. intros [<- <-]%lookup_singleton_Some. by exists O.
  - intros c _ [t Hc]. cbn in Hc.
    assert (E : k_current (after demo_recv demo_kernel) = {[0%nat := Task 1]}) by (vm_compute; reflexivity).
    rewrite E in Hc. apply lookup_singleton_Some in Hc as [<- _]. by exists TIdle.
  - by left.
Qed.

(** Its system call [sys_uptime], and the way back. *)
Definition demo_up : mevent := MTrap 0 SCAUSE_ENV_CALL 0 demo_input.
Definition demo_back : mevent := MContinue 0 demo_input.
Definition mafter (e : mevent) (m : machine) : machine := match demo_exec e m with Ok (_, m') => m' | _ => m end.

Lemma demo_up_enabled : demo_enabled demo_up (demo_machine (demo_frame 4096 SYS_UPTIME)).
Proof.
  split; [done|]. eexists. split; [reflexivity|]. left. split; [done|].
  assert (Hr : runs 0 1 (mc_kernel (demo_machine (demo_frame 4096 SYS_UPTIME)))).
  { split; [by vm_compute|]. eexists. split; vm_compute; reflexivity. }
  split; [by eexists|]. right. exists 1%nat. split_and!; [done|reflexivity|split; [done|by intros [=]]|done].
Qed.

Lemma demo_step e m : demo_minv m -> demo_enabled e m -> demo_exec e m = Ok (tt, mafter e m) /\ demo_minv (mafter e m).
Proof.
  intros I He. destruct (mexec_stepped no_message 512 1024 1536 100 200 (fun _ => 0) (fun _ => 0) e m I He)
    as ([] & m' & E & _ & _ & [I' _] & _).
  unfold mafter. by rewrite E.
Qed.
Definition demo_m0 : machine := demo_machine (demo_frame 4096 SYS_UPTIME).
Lemma demo_waits : mc_conts (mafter demo_up demo_m0) !! Task 1 = Some (TSyscall (demo_frame 4096 SYS_UPTIME)).
Proof. vm_compute. reflexivity. Qed.
Lemma demo_back_enabled : demo_enabled demo_back (mafter demo_up demo_m0).
Proof.
  split; [vm_compute; reflexivity|]. intros cur x Hc _ _.
  assert (E : k_current (mc_kernel (mafter demo_up demo_m0)) !! 0%nat = Some (Task 1)) by (vm_compute; reflexivity).
  rewrite E in Hc. injection Hc as <-. unfold cont_of. by rewrite demo_waits.
Qed.

(** The second task jumps to the address of the copy instruction. *)
Lemma usercopy_fault_bypasses_lock_witness :
  exists m', demo_exec (MTrap 0 SCAUSE_INST_PAGE_FAULT 100 demo_input) (demo_machine (demo_frame 100 0)) = Ok (tt, m')
    /\ mc_mode m' 0%nat = MKernel /\ mc_big_lock m' = BKL_UNLOCKED /\ ~ demo_minv m'.
Proof.
  destruct (usercopy_fault_bypasses_lock no_message 512 1024 1536 100 200 (fun _ => 0) (fun _ => 0) 0 (demo_frame 100 0)
    100 demo_input (demo_machine (demo_frame 100 0)) 1) as (m' & E & Hm & Hb & _ & Hno).
  - by apply demo_machine_minv.
  - reflexivity.
  - split; [by vm_compute|]. eexists. split; vm_compute; reflexivity.
  - vm_compute. discriminate.
  - left. reflexivity.
  - exists m'. split_and!; [exact E|done|done|]. apply Hno. by left.
Defined.
