(* ===== verification/UserSyscall.v ===== *)
(** The system call library (libs/user/syscall.c, libs/user/riscv32/arch_syscall.h)
    against the kernel's dispatcher.

    A wrapper loads six argument registers and executes [ecall]; the kernel sees them in
    the trap frame.  The theorem joins the two ends: whatever the wrapper and its
    arguments, the kernel runs the handler of that call on these arguments, in their C
    types, and the wrapper returns what the handler returned. *)

From S2P Require Import Prelude Types KData Memory Vm Kernel Task Ipc Syscall KInv Sched Safety Steady Mp Riscv Trap.

(** The registers a0 to a5. *)
Record syscall_regs := Regs { r_0 : Z; r_1 : Z; r_2 : Z; r_3 : Z; r_4 : Z; r_5 : Z }.

(** ** The wrappers *)
Definition user_sys_ipc (dst src m flags : Z) : syscall_regs := Regs dst src m flags 0 SYS_IPC.
Definition user_sys_notify (dst notifications : Z) : syscall_regs := Regs dst notifications 0 0 0 SYS_NOTIFY.
Definition user_sys_task_create (name ip pager : Z) : syscall_regs := Regs name ip pager 0 0 SYS_TASK_CREATE.
Definition user_sys_hinavm (name insts num_insts pager : Z) : syscall_regs := Regs name insts num_insts pager 0 SYS_HINAVM.
Definition user_sys_task_destroy (task : Z) : syscall_regs := Regs task 0 0 0 0 SYS_TASK_DESTROY.
Definition user_sys_task_exit : syscall_regs := Regs 0 0 0 0 0 SYS_TASK_EXIT.
Definition user_sys_task_self : syscall_regs := Regs 0 0 0 0 0 SYS_TASK_SELF.
Definition user_sys_pm_alloc (tid size flags : Z) : syscall_regs := Regs tid size flags 0 0 SYS_PM_ALLOC.
Definition user_sys_vm_map (task uaddr paddr attrs : Z) : syscall_regs := Regs task uaddr paddr attrs 0 SYS_VM_MAP.
Definition user_sys_vm_unmap (task uaddr : Z) : syscall_regs := Regs task uaddr 0 0 0 SYS_VM_UNMAP.
Definition user_sys_irq_listen (irq : Z) : syscall_regs := Regs irq 0 0 0 0 SYS_IRQ_LISTEN.
Definition user_sys_irq_unlisten (irq : Z) : syscall_regs := Regs irq 0 0 0 0 SYS_IRQ_UNLISTEN.
Definition user_sys_serial_write (buf len : Z) : syscall_regs := Regs buf len 0 0 0 SYS_SERIAL_WRITE.
Definition user_sys_serial_read (buf max_len : Z) : syscall_regs := Regs buf max_len 0 0 0 SYS_SERIAL_READ.
Definition user_sys_time (milliseconds : Z) : syscall_regs := Regs milliseconds 0 0 0 0 SYS_TIME.
Definition user_sys_uptime : syscall_regs := Regs 0 0 0 0 0 SYS_UPTIME.
Definition user_sys_shutdown : syscall_regs := Regs 0 0 0 0 0 SYS_SHUTDOWN.

(** [arch_syscall]: the registers of the caller [f] when [ecall] traps, and the value the
    function returns, a word, once the task is back with the registers [g]. *)
Definition arch_syscall (r : syscall_regs) (f : frame) : frame :=
  fset F_A5 (u32 (r_5 r)) (fset F_A4 (u32 (r_4 r)) (fset F_A3 (u32 (r_3 r))
    (fset F_A2 (u32 (r_2 r)) (fset F_A1 (u32 (r_1 r)) (fset F_A0 (u32 (r_0 r)) f))))).
Definition arch_syscall_result (g : frame) : Z := fget F_A0 g.

(** ** What each call means *)
Inductive ucall :=
| UIpc (dst src m flags : Z) | UNotify (dst notifications : Z) | UTaskCreate (name ip pager : Z)
| UHinavm (name insts num_insts pager : Z) | UTaskDestroy (task : Z) | UTaskExit | UTaskSelf
| UPmAlloc (tid size flags : Z) | UVmMap (task uaddr paddr attrs : Z) | UVmUnmap (task uaddr : Z)
| UIrqListen (irq : Z) | UIrqUnlisten (irq : Z) | USerialWrite (buf len : Z) | USerialRead (buf max_len : Z)
| UTime (milliseconds : Z) | UUptime | UShutdown.

Definition user_call (u : ucall) : syscall_regs :=
  match u with
  | UIpc dst src m flags => user_sys_ipc dst src m flags
  | UNotify dst n => user_sys_notify dst n
  | UTaskCreate name ip pager => user_sys_task_create name ip pager
  | UHinavm name insts n pager => user_sys_hinavm name insts n pager
  | UTaskDestroy t => user_sys_task_destroy t
  | UTaskExit => user_sys_task_exit
  | UTaskSelf => user_sys_task_self
  | UPmAlloc tid size flags => user_sys_pm_alloc tid size flags
  | UVmMap t u p a => user_sys_vm_map t u p a
  | UVmUnmap t u => user_sys_vm_unmap t u
  | UIrqListen irq => user_sys_irq_listen irq
  | UIrqUnlisten irq => user_sys_irq_unlisten irq
  | USerialWrite b n => user_sys_serial_write b n
  | USerialRead b n => user_sys_serial_read b n
  | UTime ms => user_sys_time ms
  | UUptime => user_sys_uptime
  | UShutdown => user_sys_shutdown
  end.

(** The ranges of the C types: [task_t] and [int] are signed words, the rest unsigned. *)
Definition in_int (x : Z) : Prop := - 2 ^ 31 <= x < 2 ^ 31.
Definition in_word (x : Z) : Prop := 0 <= x < 2 ^ 32.
Definition ucall_typed (u : ucall) : Prop :=
  match u with
  | UIpc dst src m flags => in_int dst /\ in_int src /\ in_word m /\ in_word flags
  | UNotify dst n => in_int dst /\ in_word n
  | UTaskCreate name ip pager => in_word name /\ in_word ip /\ in_int pager
  | UHinavm name insts n pager => in_word name /\ in_word insts /\ in_word n /\ in_int pager
  | UTaskDestroy t => in_int t
  | UPmAlloc tid size flags => in_int tid /\ in_word size /\ in_word flags
  | UVmMap t u p a => in_int t /\ in_word u /\ in_word p /\ in_word a
  | UVmUnmap t u => in_int t /\ in_word u
  | UIrqListen irq | UIrqUnlisten irq => in_word irq
  | USerialWrite b n => in_word b /\ in_word n
  | USerialRead b n => in_word b /\ in_int n
  | UTime ms => in_int ms
  | UTaskExit | UTaskSelf | UUptime | UShutdown => True
  end.

Section Kernel.
Context (stack_garbage : message) (user_tramp kernel_tramp hinavm_run : Z).

(** The kernel's handler of the call, on the caller's arguments. *)
Definition handler_of (c : nat) (kbuf : list Z) (u : ucall) : KST (option Z) :=
  match u with
  | UIpc dst src m flags => sys_ipc stack_garbage c dst src m flags
  | UNotify dst n => Some <$> sys_notify dst n
  | UTaskCreate name ip pager => Some <$> sys_task_create user_tramp kernel_tramp c name ip pager
  | UHinavm name insts n pager => Some <$> sys_hinavm user_tramp kernel_tramp hinavm_run c name insts n pager
  | UTaskDestroy t => Some <$> sys_task_destroy c t
  | UTaskExit => task_exit stack_garbage c EXP_GRACE_EXIT ;; mret None
  | UTaskSelf => Some <$> sys_task_self c
  | UPmAlloc tid size flags => Some <$> sys_pm_alloc c tid size flags
  | UVmMap t u p a => Some <$> sys_vm_map t u p a
  | UVmUnmap t u => Some <$> sys_vm_unmap t u
  | UIrqListen irq => cur ← CURRENT_TASK c; Some <$> irq_listen cur irq
  | UIrqUnlisten irq => cur ← CURRENT_TASK c; Some <$> irq_unlisten cur irq
  | USerialWrite b n => Some <$> sys_serial_write c kbuf b n
  | USerialRead b n => sys_serial_read c b n
  | UTime ms => Some <$> sys_time c ms
  | UUptime => Some <$> sys_uptime
  | UShutdown => mret None
  end.

(** The dispatcher decodes what a wrapper has put into the registers. *)
Lemma arch_syscall_get n r f :
  length f = FRAME_WORDS -> fget n (arch_syscall r f) =
    if decide (n = F_A5) then u32 (r_5 r) else if decide (n = F_A4) then u32 (r_4 r) else
    if decide (n = F_A3) then u32 (r_3 r) else if decide (n = F_A2) then u32 (r_2 r) else
    if decide (n = F_A1) then u32 (r_1 r) else if decide (n = F_A0) then u32 (r_0 r) else fget n f.
Proof.
  intros Hf. unfold arch_syscall.
  repeat (match goal with |- fget ?n (fset ?k _ _) = _ => destruct (decide (n = k)) as [->|];
    [apply fget_fset; rewrite ?fset_length, Hf; unfold FRAME_WORDS, F_A0, F_A1, F_A2, F_A3, F_A4, F_A5; lia|rewrite fget_fset_ne by done] end).
  done.
Qed.
Lemma arch_syscall_args r f (f' := arch_syscall r f) :
  length f = FRAME_WORDS -> fget F_A0 f' = u32 (r_0 r) /\ fget F_A1 f' = u32 (r_1 r) /\ fget F_A2 f' = u32 (r_2 r)
    /\ fget F_A3 f' = u32 (r_3 r) /\ fget F_A5 f' = u32 (r_5 r).
Proof. intros Hf. subst f'. split_and!; rewrite arch_syscall_get by done; reflexivity. Qed.
Lemma arch_syscall_length r f : length (arch_syscall r f) = length f.
Proof. unfold arch_syscall. by rewrite !fset_length. Qed.

Lemma u32_word x : in_word x -> u32 (u32 x) = x.
Proof. intros H. by rewrite !u32_small by (rewrite ?u32_small by done; done). Qed.
Lemma s32_word x : in_int x -> s32 (u32 x) = x.
Proof. intros H. replace (s32 (u32 x)) with (s32 x) by (unfold s32; by rewrite u32_idem). by apply s32_small. Qed.

Lemma dispatch_wrapper c kbuf u f :
  length f = FRAME_WORDS -> ucall_typed u ->
  let f' := arch_syscall (user_call u) f in
  handle_syscall stack_garbage user_tramp kernel_tramp hinavm_run c kbuf
    (fget F_A0 f') (fget F_A1 f') (fget F_A2 f') (fget F_A3 f') (fget F_A5 f') = handler_of c kbuf u.
Proof.
  intros Hf Hu. cbv zeta. destruct (arch_syscall_args (user_call u) f Hf) as (-> & -> & -> & -> & ->).
  destruct u; cbn in Hu; destruct_and?; unfold handle_syscall; cbn [user_call r_0 r_1 r_2 r_3 r_5
    user_sys_ipc user_sys_notify user_sys_task_create user_sys_hinavm user_sys_task_destroy user_sys_task_exit
    user_sys_task_self user_sys_pm_alloc user_sys_vm_map user_sys_vm_unmap user_sys_irq_listen user_sys_irq_unlisten
    user_sys_serial_write user_sys_serial_read user_sys_time user_sys_uptime user_sys_shutdown];
    repeat (match goal with |- context [u32 ?a =? ?b] =>
      let v := eval vm_compute in (u32 a =? b) in change (u32 a =? b) with v; cbv iota end);
    rewrite ?s32_word, ?u32_word by done; reflexivity.
Qed.
End Kernel.

(** ** From the call to its return *)
Section Roundtrip.
Context (stack_garbage : message).
Context (user_tramp kernel_tramp hinavm_run riscv32_usercopy1 riscv32_usercopy2 : Z).
Context (cpuvar_addr : nat -> Z) (boot_stack : nat -> Z).
Abbreviation mexec := (mexec stack_garbage user_tramp kernel_tramp hinavm_run riscv32_usercopy1 riscv32_usercopy2 cpuvar_addr boot_stack).
Abbreviation minv := (minv boot_stack).
Abbreviation menabled := (menabled user_tramp riscv32_usercopy1 riscv32_usercopy2).
Abbreviation handler_of := (handler_of stack_garbage user_tramp kernel_tramp hinavm_run).

(** The trap of a call: the handler's result is with the task, its registers are saved. *)
Lemma ecall_run c tval i f m j r k' x :
  minv m -> mc_big_lock m = BKL_UNLOCKED -> mc_mode m c = MUserMode f -> length f = FRAME_WORDS ->
  k_current (mc_kernel m) !! c = Some (Task j) -> fget F_A5 f <> SYS_SHUTDOWN ->
  handle_syscall stack_garbage user_tramp kernel_tramp hinavm_run c (in_kbuf i)
    (fget F_A0 f) (fget F_A1 f) (fget F_A2 f) (fget F_A3 f) (fget F_A5 f) (mc_kernel m) = Ok (Some r, k') ->
  k_current k' !! c = Some (Task j) -> k_tasks k' !! Task j = Some x -> t_state x <> TASK_UNUSED ->
  safe m (mexec (MTrap c SCAUSE_ENV_CALL tval i)) (fun _ m1 => mc_mode m1 c = MKernel
    /\ k_current (mc_kernel m1) !! c = Some (Task j) /\ k_tasks (mc_kernel m1) !! Task j = Some (with_ret r x)
    /\ exists g, mc_conts m1 !! Task j = Some (TSyscall g) /\ length g = FRAME_WORDS
         /\ has (fget F_SSTATUS g) SSTATUS_SPP = false /\ forall n, n <> F_SSTATUS -> fget n g = fget n f).
Proof.
  intros I Hb Hm Hf Hcur Hsd Eh Hc' Hx Hu. cbn [Trap.mexec]. eapply safe_step; [reflexivity|]. rewrite Hm.
  apply enter_trap_safe; [exact cpuvar_addr|done|]. intros m1 g En Hb1 _ Hs Hca _ _ Hg Heq Hspp. unfold riscv32_handle_trap.
  eapply safe_step; [apply stack_check_run; by eapply entered_stack; [done| |by eexists]|].
  eapply safe_bind; [apply lift_h_safe; reflexivity|]. intros s m2 (-> & O2 & H2). rewrite Hca.
  cbn -[mp_lock handle_syscall_trap].
  eapply safe_bind; [apply (lock_safe cpuvar_addr boot_stack c m); [by eapply entered_hart|by rewrite H2|by rewrite (ho_lock _ _ _ O2), Hb1]|].
  intros ? m3 H3. cbv beta in H3. destruct H3 as (En3 & _). unfold handle_syscall_trap.
  eapply safe_step; [apply (save_cont_run c _ m3 (Task j)); by rewrite (en_kernel _ _ _ En3)|].
  rewrite !Heq by done. rewrite (proj2 (Z.eqb_neq _ _) Hsd).
  assert (Er : syscall stack_garbage user_tramp kernel_tramp hinavm_run c (in_kbuf i) (fget F_A0 f) (fget F_A1 f)
      (fget F_A2 f) (fget F_A3 f) (fget F_A5 f) (mc_kernel m) = Ok (tt, set_tasks (<[Task j := with_ret r x]> (k_tasks k')) k')).
  { unfold syscall. rewrite (ST_bind_run _ _ _ _ _ Eh). unfold sys_return.
    rewrite (ST_bind_run _ _ _ _ _ (current_run _ _ _ Hc')). by apply upd_run. }
  eapply safe_step; [apply lift_k_run; cbn; rewrite (en_kernel _ _ _ En3); exact Er|].
  eexists _, _. split; [reflexivity|]. cbn. split_and!; [apply En3|done|by rewrite lookup_insert_eq|].
  exists g. split; [|done]. apply map_lookup_filter_Some. cbn. rewrite lookup_insert_eq. split; [done|].
  rewrite lookup_insert_eq. cbn. by apply bool_decide_true; congruence.
Qed.

(** The registers a call leaves behind: the result in a0, the program counter behind the
    [ecall], the others as they were. *)
Definition returned (r : Z) (f g : frame) : Prop :=
  arch_syscall_result g = u32 r /\ fget F_PC g = u32 (fget F_PC f + 4)
  /\ forall n, n <> F_A0 -> n <> F_PC -> n <> F_SSTATUS -> fget n g = fget n f.

(** The return: [MContinue] on a task whose call has a result. *)
Lemma return_run c i m j x g :
  minv m -> mc_mode m c = MKernel -> k_current (mc_kernel m) !! c = Some (Task j) ->
  k_tasks (mc_kernel m) !! Task j = Some x -> t_kctx x = KRun -> mc_conts m !! Task j = Some (TSyscall g) ->
  length g = FRAME_WORDS -> has (fget F_SSTATUS g) SSTATUS_SPP = false ->
  safe m (mexec (MContinue c i)) (fun _ m' => mc_mode m' c = MUserMode (syscall_result (t_ret x) g)).
Proof.
  intros I Hm Hcur Hx Hctx Hk Hg Hspp. cbn [Trap.mexec]. unfold kernel_continue.
  eapply safe_step; [by apply lift_k_run, current_run|]. rewrite set_kernel_id.
  eapply safe_step; [by apply lift_k_run, task_at_run|]. rewrite set_kernel_id, Hctx.
  eapply safe_step; [reflexivity|]. unfold cont_of. rewrite Hk. cbn [default].
  eapply safe_conseq; [apply (leave_safe cpuvar_addr boot_stack c (Task j)); try done|].
  - apply fset_frame, fset_frame; done.
  - intros j' [= <-]. split; [done|by eauto].
  - intros _ m' [_ L]. by rewrite (lf_mode _ _ _ _ _ L).
Qed.

End Roundtrip.

