(* ===== verification/Asm.v ===== *)
(** The assembly of the kernel: the trap and timer handlers (kernel/riscv32/handler.S), the
    context switch and the entry points of new tasks (switch.S), the copies from and to
    user memory (usercopy.S), the entry point of the kernel (boot.S); and the accesses of user tasks to device registers
    (libs/user/riscv32/arch_mmio.h).

    An instruction is a step of a state with 32 registers, the bytes of memory and the
    control registers of the hart (Riscv.v); a routine is the list of its instructions,
    with branches to a later label as a choice between lists and the copying loops as
    recursion.  Trap.v has the same code one level up: a frame of 33 words that goes with
    the task.  The theorems here say that the instructions implement it. *)

From S2P Require Import Prelude Types Mp Riscv Trap.

(** ** Memory as bytes *)
Abbreviation bmem := (Z -> Z).
Definition load32 (m : bmem) (a : Z) : Z := le_combine [m a; m (a + 1); m (a + 2); m (a + 3)].
Definition store32 (m : bmem) (a v : Z) : bmem := fun b =>
  if (a <=? b) && (b <? a + 4) then nth (Z.to_nat (b - a)) (le_split 4 v) 0 else m b.
Definition store8 (m : bmem) (a v : Z) : bmem := fun b => if b =? a then v `mod` 256 else m b.

(** ** Registers *)
Definition RA : nat := 1.
Definition SP : nat := 2.
Definition GP : nat := 3.
Definition TP : nat := 4.
Definition T0 : nat := 5.
Definition T1 : nat := 6.
Definition T2 : nat := 7.
Definition S0 : nat := 8.
Definition S1 : nat := 9.
Definition A0 : nat := 10.
Definition A1 : nat := 11.
Definition A2 : nat := 12.
Definition A3 : nat := 13.
Definition A4 : nat := 14.
Definition A5 : nat := 15.
Definition A6 : nat := 16.
Definition A7 : nat := 17.
Definition S2 : nat := 18.
Definition S3 : nat := 19.
Definition S4 : nat := 20.
Definition S5 : nat := 21.
Definition S6 : nat := 22.
Definition S7 : nat := 23.
Definition S8 : nat := 24.
Definition S9 : nat := 25.
Definition S10 : nat := 26.
Definition S11 : nat := 27.
Definition T3 : nat := 28.
Definition T4 : nat := 29.
Definition T5 : nat := 30.
Definition T6 : nat := 31.

Record rv := Rv { rx : nat -> Z; rmem : bmem; rh : hart }.
Abbreviation AST := (ST rv).

(** Control registers the code names. *)
Inductive csr_name := sscratch | mscratch | sstatus | sepc | sip | mhartid.
Definition csr_read (n : csr_name) : HST Z :=
  match n with
  | sscratch => csrr CSR_sscratch | mscratch => csrr CSR_mscratch
  | sstatus => read_sstatus | sepc => read_sepc | sip => read_sip
  | mhartid => read_mhartid
  end.
Definition csr_write (n : csr_name) (v : Z) : HST unit :=
  match n with
  | sscratch => write_sscratch v | mscratch => write_mscratch v
  | sstatus => write_sstatus v | sepc => write_sepc v | sip => write_sip v
  | mhartid => undef      (* read-only *)
  end.

Definition getr (r : nat) : AST Z := gets (fun s => rx s r).
Definition setr (r : nat) (v : Z) : AST unit := modify (fun s => Rv (fupd (rx s) r (u32 v)) (rmem s) (rh s)).
Definition on_hart {A} (f : HST A) : AST A := fun s =>
  match f (rh s) with
  | Ok (a, h) => Ok (a, Rv (rx s) (rmem s) h)
  | Panic => Panic
  | Undef => Undef
  end.

(** ** Instructions; x0 is not used as a destination.  Words are aligned. *)
Inductive instr :=
| ADDI (rd rs : nat) (imm : Z) | ADD (rd rs1 rs2 : nat) | MUL (rd rs1 rs2 : nat) | ANDI (rd rs : nat) (imm : Z) | MV (rd rs : nat) | LI (rd : nat) (imm : Z)
| LW (rd : nat) (imm : Z) (rs : nat) | SW (rs2 : nat) (imm : Z) (rs : nat)
| LB (rd : nat) (imm : Z) (rs : nat) | SB (rs2 : nat) (imm : Z) (rs : nat)
| CSRRW (rd : nat) (c : csr_name) (rs : nat) | CSRR (rd : nat) (c : csr_name) | CSRW (c : csr_name) (rs : nat)
| SRET | MRET.

Definition aligned_addr (a imm : Z) : AST Z :=
  let p := u32 (a + imm) in if p `mod` 4 =? 0 then mret p else undef.
Definition exec_instr (i : instr) : AST unit :=
  match i with
  | ADDI rd rs imm => v ← getr rs; setr rd (v + imm)
  | ADD rd rs1 rs2 => v ← getr rs1; w ← getr rs2; setr rd (v + w)
  | MUL rd rs1 rs2 => v ← getr rs1; w ← getr rs2; setr rd (v * w)
  | ANDI rd rs imm => v ← getr rs; setr rd (Z.land v imm)
  | MV rd rs => v ← getr rs; setr rd v
  | LI rd imm => setr rd imm
  | LW rd imm rs => a ← getr rs; p ← aligned_addr a imm; m ← gets rmem; setr rd (load32 m p)
  | SW rs2 imm rs =>
      a ← getr rs; v ← getr rs2; p ← aligned_addr a imm;
      modify (fun s => Rv (rx s) (store32 (rmem s) p v) (rh s))
  | LB rd imm rs => a ← getr rs; m ← gets rmem; setr rd (let b := m (u32 (a + imm)) in if b <? 128 then b else b - 256)
  | SB rs2 imm rs => a ← getr rs; v ← getr rs2; modify (fun s => Rv (rx s) (store8 (rmem s) (u32 (a + imm)) v) (rh s))
  | CSRRW rd c rs => v ← getr rs; old ← on_hart (csr_read c); on_hart (csr_write c v) ;; setr rd old
  | CSRR rd c => v ← on_hart (csr_read c); setr rd v
  | CSRW c rs => v ← getr rs; on_hart (csr_write c v)
  | SRET => on_hart asm_sret
  | MRET => on_hart asm_mret
  end.
Fixpoint run (prog : list instr) : AST unit :=
  match prog with
  | [] => mret tt
  | i :: prog' => exec_instr i ;; run prog'
  end.

(** ** Offsets into [struct cpuvar] (asmdefs.h) *)
Definition CPUVAR_SSCRATCH : Z := 0.
Definition CPUVAR_SP_TOP : Z := 4.
Definition CPUVAR_MSCRATCH0 : Z := 8.
Definition CPUVAR_MSCRATCH1 : Z := 12.
Definition CPUVAR_MTIMECMP : Z := 16.
Definition CPUVAR_MTIME : Z := 20.
Definition CPUVAR_INTERVAL : Z := 24.

(** [struct arch_cpuvar], the first member of [struct cpuvar], and the checks of the offsets
    above (include/arch_types.h): the fields with their sizes, to which they are aligned. *)
Definition arch_cpuvar : list (string * Z) :=
  [("sscratch", 4); ("sp_top", 4); ("mscratch0", 4); ("mscratch1", 4); ("mtimecmp", 4); ("mtime", 4); ("interval", 4); ("last_mtime", 8)]%string.
Fixpoint offset_of (name : string) (off : Z) (fields : list (string * Z)) : option Z :=
  match fields with
  | [] => None
  | (n, size) :: fields' =>
      let off := (off + size - 1) / size * size in
      if String.eqb n name then Some off else offset_of name (off + size) fields'
  end.
Definition ARCH_TYPES_STATIC_ASSERTS : bool :=
  forallb (fun p => bool_decide (offset_of (fst p) 0 arch_cpuvar = Some (snd p)))
    [("sscratch", CPUVAR_SSCRATCH); ("sp_top", CPUVAR_SP_TOP); ("mscratch0", CPUVAR_MSCRATCH0); ("mscratch1", CPUVAR_MSCRATCH1);
     ("mtimecmp", CPUVAR_MTIMECMP); ("mtime", CPUVAR_MTIME); ("interval", CPUVAR_INTERVAL)]%string.
Example arch_types_checked : ARCH_TYPES_STATIC_ASSERTS = true.
Proof. vm_compute. reflexivity. Qed.

(** ** riscv32_trap_handler *)

(** The registers stored by one block of the handler, with their slots. *)
Definition saved_regs : list (nat * Z) :=
  [(RA, 2); (SP, 3); (GP, 4); (TP, 5); (T0, 6); (T1, 7); (T2, 8); (T3, 9); (T4, 10); (T5, 11); (T6, 12);
   (A1, 14); (A2, 15); (A3, 16); (A4, 17); (A5, 18); (A6, 19); (A7, 20);
   (S0, 21); (S1, 22); (S2, 23); (S3, 24); (S4, 25); (S5, 26); (S6, 27); (S7, 28); (S8, 29); (S9, 30); (S10, 31); (S11, 32)].
Definition trap_entry : AST unit :=
  run [CSRRW TP sscratch TP; SW A0 CPUVAR_SSCRATCH TP; CSRR A0 sstatus; ANDI A0 A0 (Z.shiftl 1 8)] ;;
  spp ← getr A0;
  (if negb (spp =? 0) then run [MV A0 SP] else run [LW A0 CPUVAR_SP_TOP TP]) ;;
  run (ADDI A0 A0 (-4 * 33) :: ((fun p => SW p.1 (4 * p.2) A0) <$> saved_regs)) ;;
  run [MV SP A0; CSRRW A0 sscratch TP; SW A0 (4 * 5) SP; LW A0 CPUVAR_SSCRATCH TP; SW A0 (4 * 13) SP;
       CSRR A0 sepc; SW A0 (4 * 0) SP; CSRR A0 sstatus; SW A0 (4 * 1) SP; MV A0 SP].
(** After [riscv32_handle_trap]. *)
Definition restored_regs : list (nat * Z) :=
  [(RA, 2); (GP, 4); (TP, 5); (T0, 6); (T1, 7); (T2, 8); (T3, 9); (T4, 10); (T5, 11); (T6, 12);
   (A0, 13); (A1, 14); (A2, 15); (A3, 16); (A4, 17); (A5, 18); (A6, 19); (A7, 20);
   (S0, 21); (S1, 22); (S2, 23); (S3, 24); (S4, 25); (S5, 26); (S6, 27); (S7, 28); (S8, 29); (S9, 30); (S10, 31); (S11, 32)].
Definition trap_exit : AST unit :=
  run [LW A0 (4 * 0) SP; CSRW sepc A0; LW A0 (4 * 1) SP; CSRW sstatus A0] ;;
  run ((fun p => LW p.1 (4 * p.2) SP) <$> restored_regs) ;;
  run [LW SP (4 * 3) SP; SRET].

(** ** riscv32_timer_handler *)
Definition timer_handler : AST unit :=
  run [CSRRW A0 mscratch A0; SW A1 CPUVAR_MSCRATCH0 A0; SW A2 CPUVAR_MSCRATCH1 A0;
       LW A1 CPUVAR_MTIME A0; LW A1 0 A1; LW A2 CPUVAR_INTERVAL A0; ADD A1 A1 A2;
       LW A2 CPUVAR_MTIMECMP A0; SW A1 0 A2; LI A2 (Z.shiftl 1 1); CSRW sip A2;
       LW A1 CPUVAR_MSCRATCH0 A0; LW A2 CPUVAR_MSCRATCH1 A0; CSRRW A0 mscratch A0; MRET].

(** ** riscv32_task_switch and the entry points of new tasks *)
Definition callee_saved : list (nat * Z) :=
  [(RA, 0); (S0, 1); (S1, 2); (S2, 3); (S3, 4); (S4, 5); (S5, 6); (S6, 7); (S7, 8); (S8, 9); (S9, 10); (S10, 11); (S11, 12)].
Definition task_switch_code : list instr :=
  ADDI SP SP (-13 * 4) :: ((fun p => SW p.1 (4 * p.2) SP) <$> callee_saved)
  ++ [SW SP 0 A0; LW SP 0 A1]
  ++ ((fun p => LW p.1 (4 * p.2) SP) <$> callee_saved) ++ [ADDI SP SP (13 * 4)].
(** Up to the jump to [riscv32_user_entry], with the instruction pointer in a0, and to
    the entry point in a1, with its argument in a0. *)
Definition user_entry_trampoline : list instr := [LW A0 (0 * 4) SP].
Definition kernel_entry_trampoline : list instr := [LW A0 (0 * 4) SP; LW A1 (1 * 4) SP; ADDI SP SP (2 * 4)].

(** ** The user copies: [beqz a2], and the loop while [a2] is not zero *)
Fixpoint copy_loop (body : list instr) (fuel : nat) : AST unit :=
  match fuel with
  | O => undef
  | S fuel' => run body ;; n ← getr A2; if negb (n =? 0) then copy_loop body fuel' else mret tt
  end.
Definition copy_from_body : list instr := [LB A3 0 A1; SB A3 0 A0; ADDI A1 A1 1; ADDI A0 A0 1; ADDI A2 A2 (-1)].
Definition copy_to_body : list instr := [LB A3 0 A1; SB A3 0 A0; ADDI A0 A0 1; ADDI A1 A1 1; ADDI A2 A2 (-1)].
Definition arch_memcpy_from_user (fuel : nat) : AST unit :=
  n ← getr A2; if n =? 0 then mret tt else copy_loop copy_from_body fuel.
Definition arch_memcpy_to_user (fuel : nat) : AST unit :=
  n ← getr A2; if n =? 0 then mret tt else copy_loop copy_to_body fuel.

(** ** The entry point of the kernel (boot.S), up to the call of riscv32_boot; [li] of 0 is
    [mv] from the zero register. *)
Definition boot_code (boot_stack : Z) : list instr :=
  [LI RA 0; LI S0 0; CSRR A0 mhartid; LI A1 KERNEL_STACK_SIZE; ADDI A0 A0 1; MUL A0 A0 A1; LI SP boot_stack; ADD SP SP A0].

(** ** Device registers of user tasks

    A load or store of the width of the register; it has to be aligned. *)
Definition load16 (m : bmem) (a : Z) : Z := le_combine [m a; m (a + 1)].
Definition store16 (m : bmem) (a v : Z) : bmem := store8 (store8 m a v) (a + 1) (v / 256).
Definition mmio_write8 (vaddr val : Z) (m : bmem) : outcome bmem := Ok (store8 m vaddr val).
Definition mmio_write16 (vaddr val : Z) (m : bmem) : outcome bmem := if vaddr `mod` 2 =? 0 then Ok (store16 m vaddr val) else Undef.
Definition mmio_write32 (vaddr val : Z) (m : bmem) : outcome bmem := if vaddr `mod` 4 =? 0 then Ok (store32 m vaddr val) else Undef.
(** [lb] and [lh] extend the sign; the result of the first is converted to [uint8_t], that of
    the second is the whole register. *)
Definition mmio_read8 (vaddr : Z) (m : bmem) : outcome Z := Ok (u8 (let b := m vaddr in if b <? 128 then b else b - 256)).
Definition mmio_read16 (vaddr : Z) (m : bmem) : outcome Z :=
  if vaddr `mod` 2 =? 0 then Ok (u32 (let h := load16 m vaddr in if h <? 32768 then h else h - 65536)) else Undef.
Definition mmio_read32 (vaddr : Z) (m : bmem) : outcome Z := if vaddr `mod` 4 =? 0 then Ok (load32 m vaddr) else Undef.
Definition mmio_read16le (addr : Z) (m : bmem) : outcome Z := v ← mmio_read16 addr m; mret (from_le16 (u16 v)).
Definition mmio_read32le (addr : Z) (m : bmem) : outcome Z := v ← mmio_read32 addr m; mret (from_le32 v).
Definition mmio_write16le (addr val : Z) (m : bmem) : outcome bmem := mmio_write16 addr (into_le16 val) m.
Definition mmio_write32le (addr val : Z) (m : bmem) : outcome bmem := mmio_write32 addr (into_le32 val) m.

(** ** Memory *)
Lemma load_store_eq m a v : load32 (store32 m a v) a = u32 v.
Proof.
  unfold load32, store32. replace ((a <=? a) && (a <? a + 4)) with true by lia.
  replace ((a <=? a + 1) && (a + 1 <? a + 4)) with true by lia. replace ((a <=? a + 2) && (a + 2 <? a + 4)) with true by lia.
  replace ((a <=? a + 3) && (a + 3 <? a + 4)) with true by lia.
  replace (a - a) with 0 by lia. replace (a + 1 - a) with 1 by lia. replace (a + 2 - a) with 2 by lia. replace (a + 3 - a) with 3 by lia.
  change (le_combine _) with (le_combine (le_split 4 v)). rewrite le_combine_split. reflexivity.
Qed.
Lemma store_other m a v b : b < a \/ a + 4 <= b -> store32 m a v b = m b.
Proof. intros H. unfold store32. replace ((a <=? b) && (b <? a + 4)) with false by lia. done. Qed.
Lemma load_store_ne m a v b : b + 4 <= a \/ a + 4 <= b -> load32 (store32 m a v) b = load32 m b.
Proof. intros H. unfold load32. by rewrite !store_other by lia. Qed.
Lemma load_ext m m' a : (forall b, a <= b < a + 4 -> m' b = m b) -> load32 m' a = load32 m a.
Proof. intros H. unfold load32. by rewrite !H by lia. Qed.

(** Words stored from [b] on, by slot. *)
Definition store_all (b : Z) (l : list (Z * Z)) (m : bmem) : bmem := foldl (fun m p => store32 m (b + 4 * p.1) p.2) m l.
Lemma store_all_cons b p l m : store_all b (p :: l) m = store_all b l (store32 m (b + 4 * p.1) p.2).
Proof. done. Qed.
Lemma store_all_other b l m a :
  (forall p, p ∈ l -> a < b + 4 * p.1 \/ b + 4 * p.1 + 4 <= a) -> store_all b l m a = m a.
Proof.
  revert m. induction l as [|p l IH]; intros m H; [done|]. rewrite store_all_cons, IH by (intros; apply H; by right).
  apply store_other, H. by left.
Qed.
Lemma store_all_skip b l m o : o ∉ l.*1 -> load32 (store_all b l m) (b + 4 * o) = load32 m (b + 4 * o).
Proof.
  intros Ho. apply load_ext. intros a Ha. apply store_all_other. intros [o' v] Hp. cbn.
  assert (o' <> o) by (intros ->; apply Ho, list_elem_of_fmap; by exists (o, v)). lia.
Qed.
Lemma store_all_get b l m o v : NoDup l.*1 -> (o, v) ∈ l -> load32 (store_all b l m) (b + 4 * o) = u32 v.
Proof.
  revert m. induction l as [|p l IH]; intros m Hn Hin; [by apply elem_of_nil in Hin|]. cbn in Hn. apply NoDup_cons in Hn as [Hp Hn].
  rewrite store_all_cons.
  apply elem_of_cons in Hin as [<-|Hin]; [|by apply IH]. rewrite store_all_skip by done. apply load_store_eq.
Qed.

(** ** Blocks of instructions *)
Lemma run_app p q s s1 : run p s = Ok (tt, s1) -> run (p ++ q) s = run q s1.
Proof.
  revert s. induction p as [|i p IH]; intros s; [by intros [= ->]|]. cbn [app run]. intros E.
  apply ST_bind_ok in E as ([] & s2 & E1 & E2). rewrite (ST_bind_run _ _ _ _ _ E1). by apply IH.
Qed.
Lemma run_cons i p s s1 : exec_instr i s = Ok (tt, s1) -> run (i :: p) s = run p s1.
Proof. intros E. cbn [run]. by rewrite (ST_bind_run _ _ _ _ _ E). Qed.

(** The address of an access that does not wrap around. *)
Definition word_at (b o : Z) : Prop := 0 <= b + o < 2 ^ 32 /\ (b + o) `mod` 4 = 0.
Lemma aligned_run b o (s : rv) : word_at b o -> aligned_addr b o s = Ok (b + o, s).
Proof. intros [H1 H2]. unfold aligned_addr. rewrite u32_small by done. by rewrite H2. Qed.
Lemma exec_sw rs2 o rs s : word_at (rx s rs) o ->
  exec_instr (SW rs2 o rs) s = Ok (tt, Rv (rx s) (store32 (rmem s) (rx s rs + o) (rx s rs2)) (rh s)).
Proof.
  intros H. cbn [exec_instr]. unfold getr. do 2 rewrite (ST_bind_run (gets _) _ _ _ _ eq_refl).
  by rewrite (ST_bind_run _ _ _ _ _ (aligned_run _ _ s H)).
Qed.
Lemma exec_lw rd o rs s : word_at (rx s rs) o ->
  exec_instr (LW rd o rs) s = Ok (tt, Rv (fupd (rx s) rd (u32 (load32 (rmem s) (rx s rs + o)))) (rmem s) (rh s)).
Proof.
  intros H. cbn [exec_instr]. unfold getr. rewrite (ST_bind_run (gets _) _ _ _ _ eq_refl).
  by rewrite (ST_bind_run _ _ _ _ _ (aligned_run _ _ s H)).
Qed.

Lemma exec_mv rd rs s : exec_instr (MV rd rs) s = Ok (tt, Rv (fupd (rx s) rd (u32 (rx s rs))) (rmem s) (rh s)).
Proof. done. Qed.
Lemma exec_li rd v s : exec_instr (LI rd v) s = Ok (tt, Rv (fupd (rx s) rd (u32 v)) (rmem s) (rh s)).
Proof. done. Qed.
Lemma exec_addi rd rs v s : exec_instr (ADDI rd rs v) s = Ok (tt, Rv (fupd (rx s) rd (u32 (rx s rs + v))) (rmem s) (rh s)).
Proof. done. Qed.
Lemma exec_add rd r1 r2 s : exec_instr (ADD rd r1 r2) s = Ok (tt, Rv (fupd (rx s) rd (u32 (rx s r1 + rx s r2))) (rmem s) (rh s)).
Proof. done. Qed.
Lemma exec_andi rd rs v s : exec_instr (ANDI rd rs v) s = Ok (tt, Rv (fupd (rx s) rd (u32 (Z.land (rx s rs) v))) (rmem s) (rh s)).
Proof. done. Qed.
Lemma exec_swap_s rd rs s : exec_instr (CSRRW rd sscratch rs) s =
  Ok (tt, Rv (fupd (rx s) rd (u32 (h_csr (rh s) CSR_sscratch))) (rmem s) (set_csr CSR_sscratch (rx s rs) (rh s))).
Proof. done. Qed.
Lemma exec_swap_m rd rs s : exec_instr (CSRRW rd mscratch rs) s =
  Ok (tt, Rv (fupd (rx s) rd (u32 (h_csr (rh s) CSR_mscratch))) (rmem s) (set_csr CSR_mscratch (rx s rs) (rh s))).
Proof. done. Qed.
Lemma exec_csrr_sepc rd s : exec_instr (CSRR rd sepc) s = Ok (tt, Rv (fupd (rx s) rd (u32 (h_csr (rh s) CSR_sepc))) (rmem s) (rh s)).
Proof. done. Qed.
Lemma exec_csrr_sstatus rd s : exec_instr (CSRR rd sstatus) s =
  Ok (tt, Rv (fupd (rx s) rd (u32 (Z.land (h_csr (rh s) CSR_mstatus) SSTATUS_WINDOW))) (rmem s) (rh s)).
Proof. done. Qed.
(** The hart after a register write or a return. *)
Definition after_h (f : HST unit) (h : hart) : hart := match f h with Ok (_, h') => h' | _ => h end.
Lemma exec_csrw c rs s : c <> mhartid -> exec_instr (CSRW c rs) s = Ok (tt, Rv (rx s) (rmem s) (after_h (csr_write c (rx s rs)) (rh s))).
Proof. by destruct c. Qed.
Lemma exec_sret s : exec_instr SRET s = Ok (tt, Rv (rx s) (rmem s) (after_h asm_sret (rh s))).
Proof. done. Qed.
Lemma exec_mret s : exec_instr MRET s = Ok (tt, Rv (rx s) (rmem s) (after_h asm_mret (rh s))).
Proof. done. Qed.

Lemma csr_eq r v h : h_csr (set_csr r v h) r = v.
Proof. cbn. by rewrite decide_True. Qed.
Lemma csr_ne r x v h : x <> r -> h_csr (set_csr r v h) x = h_csr h x.
Proof. intros. cbn. by rewrite decide_False. Qed.
Ltac regs := repeat (rewrite fupd_eq || rewrite fupd_ne by done).
(** Run the next instruction; [solve] shows that the address of an access is good. *)
Ltac instr_by solve :=
  erewrite run_cons;
  [|first [apply exec_mv | apply exec_li | apply exec_addi | apply exec_add | apply exec_andi | apply exec_swap_s | apply exec_swap_m
    | apply exec_csrr_sepc | apply exec_csrr_sstatus | apply exec_csrw; discriminate | apply exec_sret | apply exec_mret
    | apply exec_sw; cbn [rx rmem rh]; regs; solve | apply exec_lw; cbn [rx rmem rh]; regs; solve]];
  cbn [rx rmem rh]; regs.

Lemma run_stores base l s :
  (forall p, p ∈ l -> word_at (rx s base) (4 * p.2)) ->
  run ((fun p => SW p.1 (4 * p.2) base) <$> l) s =
    Ok (tt, Rv (rx s) (store_all (rx s base) ((fun p => (p.2, rx s p.1)) <$> l) (rmem s)) (rh s)).
Proof.
  revert s. induction l as [|[r o] l IH]; intros s H; [by destruct s|]. cbn [fmap list_fmap].
  rewrite (run_cons _ _ s _ (exec_sw r (4 * o) base s ltac:(by apply (H (r, o)); left))).
  rewrite IH by (intros; apply H; by right). done.
Qed.
Definition load_all (b : Z) (l : list (nat * Z)) (m : bmem) (x : nat -> Z) : nat -> Z :=
  foldl (fun x p => fupd x p.1 (u32 (load32 m (b + 4 * p.2)))) x l.
Lemma load_all_cons b p l m x : load_all b (p :: l) m x = load_all b l m (fupd x p.1 (u32 (load32 m (b + 4 * p.2)))).
Proof. done. Qed.
Lemma load_all_skip b l m x r : r ∉ l.*1 -> load_all b l m x r = x r.
Proof.
  revert x. induction l as [|p l IH]; intros x Hr; [done|]. cbn in Hr. apply not_elem_of_cons in Hr as [Hp Hr].
  rewrite load_all_cons, IH by done. by apply fupd_ne.
Qed.
Lemma load_all_get b l m x r o : NoDup l.*1 -> (r, o) ∈ l -> load_all b l m x r = u32 (load32 m (b + 4 * o)).
Proof.
  revert x. induction l as [|p l IH]; intros x Hn Hin; [by apply elem_of_nil in Hin|]. cbn in Hn. apply NoDup_cons in Hn as [Hp Hn].
  rewrite load_all_cons.
  apply elem_of_cons in Hin as [<-|Hin]; [|by apply IH]. rewrite load_all_skip by done. apply fupd_eq.
Qed.
Lemma run_loads base l s :
  base ∉ l.*1 -> (forall p, p ∈ l -> word_at (rx s base) (4 * p.2)) ->
  run ((fun p => LW p.1 (4 * p.2) base) <$> l) s = Ok (tt, Rv (load_all (rx s base) l (rmem s) (rx s)) (rmem s) (rh s)).
Proof.
  revert s. induction l as [|[r o] l IH]; intros s Hb H; [by destruct s|]. cbn [fmap list_fmap].
  cbn in Hb. apply not_elem_of_cons in Hb as [Hr Hb].
  rewrite (run_cons _ _ s _ (exec_lw r (4 * o) base s ltac:(by apply (H (r, o)); left))).
  rewrite IH; cbn [rx rmem rh]; rewrite ?fupd_ne by done; [done|done|]. intros; apply H. by right.
Qed.

(** ** The trap handler *)

(** The frame at [b], and the one that describes a state: [sepc], [sstatus] and the
    registers x1 to x31 in the order of [struct riscv32_trap_frame]. *)
Definition frame_at (m : bmem) (b : Z) : frame := (fun i : nat => u32 (load32 m (b + 4 * Z.of_nat i))) <$> seq 0 FRAME_WORDS.
Definition frame_regs : list nat :=
  [RA; SP; GP; TP; T0; T1; T2; T3; T4; T5; T6; A0; A1; A2; A3; A4; A5; A6; A7;
   S0; S1; S2; S3; S4; S5; S6; S7; S8; S9; S10; S11].
Definition frame_of (s : rv) : frame :=
  h_csr (rh s) CSR_sepc :: Z.land (h_csr (rh s) CSR_mstatus) SSTATUS_WINDOW :: (rx s <$> frame_regs).

(** Registers hold words. *)
Definition regs_ok (s : rv) : Prop :=
  (forall r, 0 <= rx s r < 2 ^ 32) /\ 0 <= h_csr (rh s) CSR_sepc < 2 ^ 32 /\ 0 <= h_csr (rh s) CSR_mstatus < 2 ^ 32.
(** The stack the handler takes: the kernel's own for a trap in kernel mode, otherwise
    the one in the CPU's variables at [cpu]. *)
Definition handler_top (cpu : Z) (s : rv) : Z :=
  if has (h_csr (rh s) CSR_mstatus) SSTATUS_SPP then rx s SP else u32 (load32 (rmem s) (cpu + CPUVAR_SP_TOP)).

Lemma spp_bit v : Z.land (Z.land v SSTATUS_WINDOW) (Z.shiftl 1 8) = if has v SSTATUS_SPP then 256 else 0.
Proof.
  rewrite <- Z.land_assoc. change (Z.land SSTATUS_WINDOW (Z.shiftl 1 8)) with SSTATUS_SPP. unfold SSTATUS_SPP.
  rewrite has_bit by lia. apply Z.bits_inj'. intros n Hn. rewrite Z.land_spec, Z.shiftl_1_l, Z.pow2_bits_eqb by lia.
  destruct (Z.eqb_spec 8 n) as [<-|Hne]; [destruct (Z.testbit v 8); reflexivity|]. rewrite andb_false_r.
  destruct (Z.testbit v 8); [|by rewrite Z.bits_0]. change 256 with (2 ^ 8). symmetry. apply Z.pow2_bits_false. done.
Qed.

Lemma u32_window v : u32 (Z.land v SSTATUS_WINDOW) = Z.land v SSTATUS_WINDOW.
Proof. unfold u32. rewrite <- Z.land_ones by lia. by rewrite <- Z.land_assoc. Qed.

(** The CPU's variables and the stack are apart, aligned and inside the address space. *)
Record handler_mem (cpu top : Z) : Prop := {
  hm_cpu : 0 <= cpu /\ cpu + 28 <= 2 ^ 32 /\ cpu `mod` 4 = 0;
  hm_top : 132 <= top < 2 ^ 32 /\ top `mod` 4 = 0;
  hm_apart : cpu + 28 <= top - 132 \/ top <= cpu;
}.
Lemma handler_cpu cpu top o : handler_mem cpu top -> 0 <= o < 28 -> o `mod` 4 = 0 -> word_at cpu o.
Proof. intros [? ? ?] H1 H2. split; lia. Qed.
Lemma handler_slot cpu top o : handler_mem cpu top -> 0 <= o <= 32 -> word_at (top - 132) (4 * o).
Proof. intros [? ? ?] H1. split; lia. Qed.

Lemma entry_swap cpu top s :
  regs_ok s -> h_csr (rh s) CSR_sscratch = cpu -> handler_mem cpu top ->
  exists s1, run [CSRRW TP sscratch TP; SW A0 CPUVAR_SSCRATCH TP; CSRR A0 sstatus; ANDI A0 A0 (Z.shiftl 1 8)] s = Ok (tt, s1)
    /\ rx s1 A0 = (if has (h_csr (rh s) CSR_mstatus) SSTATUS_SPP then 256 else 0) /\ rx s1 TP = cpu
    /\ (forall r, r <> TP -> r <> A0 -> rx s1 r = rx s r)
    /\ rmem s1 = store32 (rmem s) (cpu + CPUVAR_SSCRATCH) (rx s A0) /\ rh s1 = set_csr CSR_sscratch (rx s TP) (rh s).
Proof.
  intros (Hr & _ & Hms) Hcpu Hm. pose proof (hm_cpu _ _ Hm) as Hc.
  assert (Ec : u32 cpu = cpu) by (apply u32_small; lia).
  eexists. instr_by fail. rewrite Hcpu, Ec. instr_by ltac:(by apply (handler_cpu cpu top)). instr_by fail. instr_by fail.
  split; [reflexivity|]. cbn [rx rmem rh]. regs.
  split_and!; [|done| |done|done].
  - rewrite u32_window.
    change 256 with (Z.shiftl 1 8) at 1. rewrite spp_bit. by destruct (has _ _).
  - intros r H1 H2. by regs.
Qed.

(** The stack pointer of the frame in a0. *)
Lemma entry_stack cpu s1 s :
  regs_ok s -> handler_mem cpu (handler_top cpu s) ->
  rx s1 A0 = (if has (h_csr (rh s) CSR_mstatus) SSTATUS_SPP then 256 else 0) -> rx s1 TP = cpu ->
  (forall r, r <> TP -> r <> A0 -> rx s1 r = rx s r) ->
  rmem s1 = store32 (rmem s) (cpu + CPUVAR_SSCRATCH) (rx s A0) ->
  (spp ← getr A0; (if negb (spp =? 0) then run [MV A0 SP] else run [LW A0 CPUVAR_SP_TOP TP]) ;; exec_instr (ADDI A0 A0 (-4 * 33))) s1
    = Ok (tt, Rv (fupd (fupd (rx s1) A0 (handler_top cpu s)) A0 (handler_top cpu s - 132)) (rmem s1) (rh s1)).
Proof.
  intros (Hr & _) Hm Ha Ht Ho Em. unfold getr at 1. rewrite (ST_bind_run (gets _) _ _ _ _ eq_refl), Ha.
  pose proof (hm_top _ _ Hm) as Htop.
  assert (E : (if negb ((if has (h_csr (rh s) CSR_mstatus) SSTATUS_SPP then 256 else 0) =? 0) then run [MV A0 SP]
     else run [LW A0 CPUVAR_SP_TOP TP]) s1 = Ok (tt, Rv (fupd (rx s1) A0 (handler_top cpu s)) (rmem s1) (rh s1))).
  { unfold handler_top. destruct (has _ _).
    - change (negb (256 =? 0)) with true. cbv iota. instr_by fail. rewrite Ho by done. by rewrite u32_small.
    - change (negb (0 =? 0)) with false. cbv iota. instr_by ltac:(rewrite Ht; by eapply handler_cpu). rewrite Ht, Em. rewrite load_store_ne by (unfold CPUVAR_SSCRATCH, CPUVAR_SP_TOP; lia). reflexivity. }
  rewrite (ST_bind_run _ _ _ _ _ E), exec_addi. cbn [rx rmem rh]. regs. rewrite u32_small by lia. do 4 f_equal.
Qed.

Definition late_words (s : rv) : list (Z * Z) :=
  [(5, rx s TP); (13, rx s A0); (0, h_csr (rh s) CSR_sepc); (1, Z.land (h_csr (rh s) CSR_mstatus) SSTATUS_WINDOW)].
(** The last block: the words that had no register to be stored from. *)
Lemma entry_rest cpu top s2 s :
  regs_ok s -> handler_mem cpu top -> rx s2 A0 = top - 132 -> rx s2 TP = cpu -> h_csr (rh s2) CSR_sscratch = rx s TP ->
  load32 (rmem s2) (cpu + CPUVAR_SSCRATCH) = rx s A0 -> h_csr (rh s2) CSR_sepc = h_csr (rh s) CSR_sepc ->
  h_csr (rh s2) CSR_mstatus = h_csr (rh s) CSR_mstatus ->
  exists s', run [MV SP A0; CSRRW A0 sscratch TP; SW A0 (4 * 5) SP; LW A0 CPUVAR_SSCRATCH TP; SW A0 (4 * 13) SP;
       CSRR A0 sepc; SW A0 (4 * 0) SP; CSRR A0 sstatus; SW A0 (4 * 1) SP; MV A0 SP] s2 = Ok (tt, s')
    /\ rx s' SP = top - 132 /\ rx s' A0 = top - 132 /\ rx s' TP = cpu /\ rh s' = set_csr CSR_sscratch cpu (rh s2)
    /\ rmem s' = store_all (top - 132) (late_words s) (rmem s2).
Proof.
  intros (Hr & Hpc & _) Hm Ha Ht Hss Hl He Hs. pose proof (hm_top _ _ Hm) as Htop. pose proof (hm_cpu _ _ Hm) as Hc.
  assert (Eb : u32 (top - 132) = top - 132) by (apply u32_small; lia). eexists. split.
  { instr_by fail. rewrite Ha, Eb. instr_by fail. rewrite Ht, Hss, (u32_small (rx s TP)) by done.
  instr_by ltac:(by apply (handler_slot cpu)).
  instr_by ltac:(rewrite Ht; by apply (handler_cpu cpu top)). rewrite Ht.
  rewrite load_store_ne by (destruct (hm_apart _ _ Hm); unfold CPUVAR_SSCRATCH; lia). rewrite Hl, (u32_small (rx s A0)) by done.
  instr_by ltac:(by apply (handler_slot cpu)). instr_by fail. rewrite csr_ne, He, (u32_small (h_csr (rh s) CSR_sepc)) by done.
  instr_by ltac:(by apply (handler_slot cpu)). instr_by fail. rewrite csr_ne, Hs, u32_window by done.
  instr_by ltac:(by apply (handler_slot cpu)). instr_by fail. rewrite Eb. reflexivity. }
  cbn [rx rmem rh]. regs. split_and!; done.
Qed.

(** Membership in a list that is written out. *)
Ltac mem := repeat first [apply list_elem_of_here | apply list_elem_of_further].
(** What the handler has done when it calls [riscv32_handle_trap]. *)
Lemma trap_entry_run cpu s (top := handler_top cpu s) :
  regs_ok s -> h_csr (rh s) CSR_sscratch = cpu -> handler_mem cpu top ->
  exists s', trap_entry s = Ok (tt, s') /\ rx s' SP = top - 132 /\ rx s' A0 = top - 132 /\ rx s' TP = cpu
    /\ (forall c, h_csr (rh s') c = h_csr (rh s) c)
    /\ frame_at (rmem s') (top - 132) = frame_of s
    /\ forall a, ~ top - 132 <= a < top -> ~ cpu <= a < cpu + 4 -> rmem s' a = rmem s a.
Proof.
  intros Hok Hcpu Hm. destruct (entry_swap cpu top s Hok Hcpu Hm) as (s1 & E1 & Ha1 & Ht1 & Ho1 & Em1 & Eh1).
  unfold trap_entry. rewrite (ST_bind_run _ _ _ _ _ E1).
  pose proof (entry_stack cpu s1 s Hok Hm Ha1 Ht1 Ho1 Em1) as E2. fold top in E2.
  apply ST_bind_ok in E2 as (spp & s1' & Eg & E2). apply ST_bind_ok in E2 as ([] & sA & EA & EB).
  rewrite (ST_bind_run _ _ _ _ _ Eg), (ST_bind_run _ _ _ _ _ EA). clear E1 Eg EA spp s1'.
  set (s2 := Rv _ _ _) in EB.
  assert (Hs2 : rx s2 A0 = top - 132 /\ rx s2 TP = cpu /\ forall r, r <> TP -> r <> A0 -> rx s2 r = rx s r).
  { subst s2. cbn [rx]. regs. split_and!; [done|done|]. intros r H1 H2. regs. auto. }
  destruct Hs2 as (Ha2 & Ht2 & Ho2).
  pose proof (run_stores A0 saved_regs s2) as E3. rewrite Ha2 in E3.
  rewrite (ST_bind_run _ _ sA tt _ (eq_trans (run_cons _ _ _ _ EB) (E3 ltac:(intros p Hp; eapply handler_slot; [done|];
    revert p Hp; apply Forall_forall; repeat constructor; cbn; lia)))).
  set (l := (fun p => (p.2, rx s2 p.1)) <$> saved_regs).
  set (m3 := store_all (top - 132) l (rmem s2)).
  assert (Hl : load32 m3 (cpu + CPUVAR_SSCRATCH) = rx s A0).
  { unfold m3. rewrite (load_ext (rmem s2)).
    - subst s2. cbn [rmem]. rewrite Em1, load_store_eq. apply u32_small, Hok.
    - intros a Ha. apply store_all_other. intros p (q & -> & Hq)%list_elem_of_fmap. cbn.
      assert (H : 0 <= q.2 <= 32) by (revert q Hq; apply Forall_forall; repeat constructor; cbn; lia).
      pose proof (hm_apart _ _ Hm). unfold CPUVAR_SSCRATCH in *. lia. }
  destruct (entry_rest cpu top (Rv (rx s2) m3 (rh s2)) s) as (s' & E4 & Hsp & Ha0 & Htp & Eh & Em); cbn [rx rmem rh];
    [done..|subst s2; cbn [rh]; by rewrite Eh1, csr_eq|done|subst s2; cbn [rh]; rewrite Eh1; by apply csr_ne
    |subst s2; cbn [rh]; rewrite Eh1; by apply csr_ne|].
  assert (Hslot : forall q, q ∈ l \/ q ∈ late_words s -> 0 <= q.1 <= 32).
  { intros q [Hq|Hq]; revert q Hq; apply Forall_forall; repeat constructor; cbn; lia. }
  exists s'. split; [exact E4|]. split_and!; [done|done|done| | |].
  - intros c. rewrite Eh. subst s2. cbn [rh]. rewrite Eh1. destruct (decide (c = CSR_sscratch)) as [->|Hn]; [by rewrite csr_eq|].
    by rewrite !csr_ne.
  - rewrite Em. cbn [rmem]. clear E4 Em Eh E3 EB Hl Hslot. destruct Hok as (Hr & Hpc & _).
    assert (Hget : forall o v, (o, v) ∈ l -> o ∉ [5; 13; 0; 1] ->
      u32 (load32 (store_all (top - 132) (late_words s) m3) (top - 132 + 4 * o)) = u32 v).
    { intros o v Hin Ho. rewrite store_all_skip by done. unfold m3. rewrite (store_all_get _ _ _ o v); [apply u32_idem| |done].
      apply (bool_decide_eq_true_1 _). reflexivity. }
    assert (Hlast : forall o v, (o, v) ∈ late_words s -> 
      u32 (load32 (store_all (top - 132) (late_words s) m3) (top - 132 + 4 * o)) = u32 v).
    { intros o v Hin. rewrite (store_all_get _ _ _ o v); [apply u32_idem| |done]. apply (bool_decide_eq_true_1 _). reflexivity. }
    unfold frame_at, frame_of. cbn [fmap list_fmap seq FRAME_WORDS frame_regs].
    repeat (apply f_equal2; [match goal with |- u32 (load32 _ (_ + 4 * Z.of_nat ?k)) = ?v =>
      let o := eval compute in (Z.of_nat k) in change (Z.of_nat k) with o;
      first [ rewrite (Hlast o v) by (unfold late_words; mem); first [apply u32_window | by apply u32_small]
            | match v with rx s ?r => transitivity (u32 (rx s2 r));
                [apply Hget; [unfold l, saved_regs; cbn [fmap list_fmap fst snd]; mem|apply (bool_decide_eq_true_1 _); reflexivity]
                |rewrite Ho2 by done; by apply u32_small] end ] end|]). done.
  - intros a Hf Hc. rewrite Em. cbn [rmem]. rewrite store_all_other by (intros q Hq; specialize (Hslot q (or_intror Hq)); lia).
    unfold m3. rewrite store_all_other by (intros q Hq; specialize (Hslot q (or_introl Hq)); lia).
    subst s2. cbn [rmem]. rewrite Em1. apply store_other. unfold CPUVAR_SSCRATCH. lia.
Qed.

Lemma frame_word m b i : (i < FRAME_WORDS)%nat -> fget i (frame_at m b) = u32 (load32 m (b + 4 * Z.of_nat i)).
Proof. intros Hi. unfold fget, frame_at. rewrite list_lookup_fmap, lookup_seq_lt by done. done. Qed.

(** The return: the registers of the frame at the stack pointer, whatever it is now. *)
Lemma trap_exit_run b t :
  rx t SP = b -> 0 <= b -> b + 132 <= 2 ^ 32 -> b `mod` 4 = 0 ->
  exists t', trap_exit t = Ok (tt, t') /\ rmem t' = rmem t /\ (rx t' <$> frame_regs) = drop 2 (frame_at (rmem t) b)
    /\ rh t' = after_h asm_sret (after_h (write_sstatus (fget F_SSTATUS (frame_at (rmem t) b)))
                 (after_h (write_sepc (fget F_PC (frame_at (rmem t) b))) (rh t))).
Proof.
  intros Hsp Hb1 Hb2 Hb3. assert (Hw : forall o, 0 <= o <= 32 -> word_at b (4 * o)) by (intros o Ho; split; lia).
  unfold trap_exit. set (g := frame_at (rmem t) b).
  assert (E1 : run [LW A0 (4 * 0) SP; CSRW sepc A0; LW A0 (4 * 1) SP; CSRW sstatus A0] t =
    Ok (tt, Rv (fupd (fupd (rx t) A0 (fget F_PC g)) A0 (fget F_SSTATUS g)) (rmem t)
      (after_h (write_sstatus (fget F_SSTATUS g)) (after_h (write_sepc (fget F_PC g)) (rh t))))).
  { unfold g. rewrite !frame_word by (unfold F_PC, F_SSTATUS, FRAME_WORDS; lia).
    instr_by ltac:(rewrite Hsp; by apply Hw). instr_by fail. instr_by ltac:(rewrite Hsp; by apply Hw). instr_by fail. rewrite Hsp. reflexivity. }
  rewrite (ST_bind_run _ _ _ _ _ E1). set (t1 := Rv _ _ _).
  assert (Hsp1 : rx t1 SP = b) by (unfold t1; cbn [rx]; by regs).
  pose proof (run_loads SP restored_regs t1) as E2. rewrite Hsp1 in E2.
  rewrite (ST_bind_run _ _ _ _ _ (E2 ltac:(apply (bool_decide_eq_true_1 _); reflexivity) ltac:(intros p Hp; apply Hw;
    revert p Hp; apply Forall_forall; repeat constructor; cbn; lia))).
  set (x := load_all b restored_regs (rmem t1) (rx t1)). clear E1 E2.
  assert (Hx : x SP = b) by (unfold x; rewrite load_all_skip; [done|apply (bool_decide_eq_true_1 _); reflexivity]).
  eexists. split; [instr_by ltac:(rewrite Hx; by apply Hw); instr_by fail; rewrite Hx; reflexivity|]. cbn [rx rmem rh].
  split_and!; [done| |done].
  assert (Hget : forall r o, (r, o) ∈ restored_regs -> x r = u32 (load32 (rmem t) (b + 4 * o))).
  { intros r o Hin. unfold x. by rewrite (load_all_get _ _ _ _ r o) by (done || (apply (bool_decide_eq_true_1 _); reflexivity)). }
  unfold g, frame_at. cbn [fmap list_fmap seq FRAME_WORDS frame_regs drop]. unfold t1. cbn [rmem].
  repeat (apply f_equal2; [regs; match goal with
    | |- u32 _ = u32 _ => reflexivity
    | |- x ?r = _ => apply Hget; unfold restored_regs; mem end|]). done.
Qed.

(** C6: the trap handler's assembly implements the frames of Trap.v.  From user mode it
    takes the kernel stack of the CPU's variables, from kernel mode the one in use; at the
    call of [riscv32_handle_trap] the frame below it holds [sepc], [sstatus] and every
    register as the trap found them, the CPU's variables are in [tp] and [sscratch], and
    nothing else has changed but a scratch word.  Whatever the frame holds afterwards goes
    back into the registers, [sepc] and [sstatus], and [sret] returns there: a frame left
    alone restores every register. *)
Theorem trap_handler_implements_frames cpu s (b := handler_top cpu s - 132) :
  regs_ok s -> h_csr (rh s) CSR_sscratch = cpu -> handler_mem cpu (handler_top cpu s) ->
  exists s', trap_entry s = Ok (tt, s') /\ rx s' SP = b /\ rx s' A0 = b /\ rx s' TP = cpu
    /\ (forall c, h_csr (rh s') c = h_csr (rh s) c) /\ frame_at (rmem s') b = frame_of s
    /\ (forall a, ~ b <= a < b + 132 -> ~ cpu <= a < cpu + 4 -> rmem s' a = rmem s a)
    /\ forall t g, rx t SP = b -> frame_at (rmem t) b = g ->
         exists t', trap_exit t = Ok (tt, t') /\ rmem t' = rmem t /\ (rx t' <$> frame_regs) = drop 2 g
           /\ rh t' = after_h asm_sret (after_h (write_sstatus (fget F_SSTATUS g)) (after_h (write_sepc (fget F_PC g)) (rh t)))
           /\ (g = frame_of s -> forall r, r ∈ frame_regs -> rx t' r = rx s r).
Proof.
  intros Hok Hcpu Hm. destruct (trap_entry_run cpu s Hok Hcpu Hm) as (s' & E & H1 & H2 & H3 & H4 & H5 & H6).
  exists s'. split_and!; [done..| |].
  - intros a Ha Hc. apply H6; [|done]. unfold b in Ha. lia.
  - intros t g Ht Hg. pose proof (hm_top _ _ Hm) as Htop.
    destruct (trap_exit_run b t Ht) as (t' & E' & Em & Er & Eh); [unfold b; lia..|]. rewrite Hg in Er, Eh.
    exists t'. split_and!; [done..|]. intros -> r Hr. cbn [frame_of drop] in Er.
    apply list_elem_of_lookup in Hr as [i Hi]. assert (El : (rx t' <$> frame_regs) !! i = (rx s <$> frame_regs) !! i) by by rewrite Er.
    rewrite !list_lookup_fmap, Hi in El. by injection El.
Qed.

(** The frame of a trap, seen from Trap.v: the registers of the task with [sepc] and
    [sstatus] filled in, as [enter_trap] does. *)
Lemma frame_of_trap s f :
  length f = FRAME_WORDS -> drop 2 f = rx s <$> frame_regs ->
  frame_of s = fset F_SSTATUS (Z.land (h_csr (rh s) CSR_mstatus) SSTATUS_WINDOW) (fset F_PC (h_csr (rh s) CSR_sepc) f).
Proof. destruct f as [|x [|y f]]; [done|done|]. intros _ Hf. change (f = rx s <$> frame_regs) in Hf. by subst f. Qed.

Definition demo_rv : rv :=
  Rv (fun r => if (r <? 32)%nat then 16 * Z.of_nat r else 0) (fun a => if a =? 4101 then 32 else 0)
    (Hart (fun c => if decide (c = CSR_sscratch) then 4096 else if decide (c = CSR_sepc) then 65536 else 0) 0 0 PSupervisor).
Lemma trap_handler_implements_frames_witness :
  handler_top 4096 demo_rv = 8192 /\
  exists s', trap_entry demo_rv = Ok (tt, s') /\ rx s' SP = 8192 - 132 /\ rx s' A0 = 8192 - 132 /\ rx s' TP = 4096
    /\ frame_at (rmem s') (8192 - 132) = frame_of demo_rv.
Proof.
  split; [reflexivity|].
  destruct (trap_handler_implements_frames 4096 demo_rv) as (s' & E & H1 & H2 & H3 & _ & H5 & _).
  - split; [|split; vm_compute; done]. intros r. change (rx demo_rv r) with (if (r <? 32)%nat then 16 * Z.of_nat r else 0).
    destruct (Nat.ltb_spec r 32); lia.
  - reflexivity.
  - split; vm_compute; intuition discriminate.
  - exists s'. split_and!; [exact E|exact H1|exact H2|exact H3|exact H5].
Defined.

(** ** The context switch *)
Definition words_at (m : bmem) (b : Z) (n : nat) : list Z := (fun i : nat => u32 (load32 m (b + 4 * Z.of_nat i))) <$> seq 0 n.
Definition callee_regs : list nat := [RA; S0; S1; S2; S3; S4; S5; S6; S7; S8; S9; S10; S11].
(** A region of [n] words at [b] is inside the address space and aligned. *)
Definition region (b n : Z) : Prop := 0 <= b /\ b + 4 * n <= 2 ^ 32 /\ b `mod` 4 = 0.
Definition apart (b n b' n' : Z) : Prop := b + 4 * n <= b' \/ b' + 4 * n' <= b.

Lemma callee_loads b m x : (fun r => load_all b callee_saved m x r) <$> callee_regs = words_at m b 13.
Proof.
  unfold words_at. cbn [fmap list_fmap seq callee_regs].
  assert (Hget : forall r o, (r, o) ∈ callee_saved -> load_all b callee_saved m x r = u32 (load32 m (b + 4 * o))).
  { intros r o Hin. apply load_all_get; [apply (bool_decide_eq_true_1 _); reflexivity|done]. }
  repeat (apply f_equal2; [apply Hget; unfold callee_saved; mem|]). done.
Qed.
Lemma callee_stores b s m : regs_ok s ->
  words_at (store_all b ((fun p => (p.2, rx s p.1)) <$> callee_saved) m) b 13 = rx s <$> callee_regs.
Proof.
  intros (Hr & _). unfold words_at. cbn [fmap list_fmap seq callee_regs].
  assert (Hget : forall r o, (o, rx s r) ∈ ((fun p : nat * Z => (p.2, rx s p.1)) <$> callee_saved) ->
    u32 (load32 (store_all b ((fun p => (p.2, rx s p.1)) <$> callee_saved) m) (b + 4 * o)) = rx s r).
  { intros r o Hin. rewrite (store_all_get _ _ _ o (rx s r)); [by rewrite u32_idem, u32_small| |done].
    apply (bool_decide_eq_true_1 _). reflexivity. }
  repeat (apply f_equal2; [apply Hget; unfold callee_saved; cbn [fmap list_fmap fst snd]; mem|]). done.
Qed.
Lemma words_ext m m' b n : (forall a, b <= a < b + 4 * Z.of_nat n -> m' a = m a) -> words_at m' b n = words_at m b n.
Proof.
  intros H. unfold words_at. apply list_fmap_ext. intros i j Hj. apply lookup_seq in Hj as [-> Hj]. f_equal.
  apply load_ext. intros a Ha. apply H. lia.
Qed.

(** One switch: the caller's registers are below its stack pointer, which is at [a0]; the
    next context's are loaded from where [a1] points. *)
Lemma switch_run s nsp :
  regs_ok s -> u32 (load32 (rmem s) (rx s A1)) = nsp ->
  52 <= rx s SP -> rx s SP `mod` 4 = 0 -> region (rx s A0) 1 -> region (rx s A1) 1 -> region nsp 13 ->
  apart (rx s SP - 52) 13 (rx s A1) 1 -> apart (rx s A0) 1 (rx s A1) 1 ->
  apart (rx s SP - 52) 13 nsp 13 -> apart (rx s A0) 1 nsp 13 -> apart (rx s A0) 1 (rx s SP - 52) 13 ->
  exists s', run task_switch_code s = Ok (tt, s')
    /\ load32 (rmem s') (rx s A0) = rx s SP - 52 /\ words_at (rmem s') (rx s SP - 52) 13 = rx s <$> callee_regs
    /\ (forall a, ~ rx s A0 <= a < rx s A0 + 4 -> ~ rx s SP - 52 <= a < rx s SP -> rmem s' a = rmem s a)
    /\ rx s' SP = u32 (nsp + 52) /\ (rx s' <$> callee_regs) = words_at (rmem s) nsp 13 /\ rh s' = rh s.
Proof.
  intros Hok Hn Hsp Hal R0 R1 Rn D1 D2 D3 D4 D5. pose proof Hok as (Hr & _). unfold task_switch_code.
  set (b := rx s SP - 52) in *.
  assert (Eb : u32 (rx s SP + -13 * 4) = b) by (unfold b; specialize (Hr SP); rewrite u32_small; lia).
  assert (Hslot : forall p, p ∈ callee_saved -> 0 <= p.2 <= 12).
  { apply Forall_forall; repeat constructor; cbn; lia. }
  set (x1 := fupd (rx s) SP b). set (m1 := store_all b ((fun p => (p.2, rx s p.1)) <$> callee_saved) (rmem s)).
  assert (Hm1 : forall a, ~ b <= a < b + 52 -> m1 a = rmem s a).
  { intros a Ha. apply store_all_other. intros q (p & -> & Hp)%list_elem_of_fmap. apply Hslot in Hp. cbn. lia. }
  assert (E1 : run ((fun p => SW p.1 (4 * p.2) SP) <$> callee_saved) (Rv x1 (rmem s) (rh s)) = Ok (tt, Rv x1 m1 (rh s))).
  { rewrite run_stores; [reflexivity|]. intros p Hp. apply Hslot in Hp. unfold x1. cbn [rx]. regs. unfold b. specialize (Hr SP). split; lia. }
  set (m2 := store32 m1 (rx s A0 + 0) b).
  assert (Hm2 : forall a, ~ rx s A0 <= a < rx s A0 + 4 -> ~ b <= a < b + 52 -> m2 a = rmem s a).
  { intros a H1 H2. unfold m2. rewrite store_other by lia. auto. }
  unfold region, apart in *.
  assert (Hnsp : u32 (load32 m2 (rx s A1 + 0)) = nsp).
  { rewrite <- Hn, Z.add_0_r. f_equal. apply load_ext. intros a Ha. apply Hm2; lia. }
  set (x2 := fupd x1 SP nsp).
  assert (E2 : run ((fun p => LW p.1 (4 * p.2) SP) <$> callee_saved) (Rv x2 m2 (rh s)) = Ok (tt, Rv (load_all nsp callee_saved m2 x2) m2 (rh s))).
  { rewrite run_loads; [unfold x2 at 1; cbn [rx rmem rh]; by regs|apply (bool_decide_eq_true_1 _); reflexivity|].
    intros p Hp. apply Hslot in Hp. unfold x2. cbn [rx]. regs. split; lia. }
  eexists. split.
  { cbn [app]. instr_by fail. rewrite Eb. fold x1. rewrite (run_app _ _ _ _ E1). cbn [app].
    instr_by ltac:(unfold x1; regs; split; lia). instr_by ltac:(unfold x1; regs; split; lia).
    replace (x1 A0) with (rx s A0) by (unfold x1; by regs). replace (x1 A1) with (rx s A1) by (unfold x1; by regs).
    replace (x1 SP) with b by (unfold x1; by regs). fold m2. rewrite Hnsp. fold x2. rewrite (run_app _ _ _ _ E2). instr_by fail. reflexivity. }
  cbn [rx rmem rh]. regs. split_and!; try done.
  - unfold m2. rewrite Z.add_0_r, load_store_eq. rewrite <- Eb. apply u32_idem.
  - rewrite (words_ext m1); [by apply callee_stores|]. intros a Ha. unfold m2. apply store_other. lia.
  - intros a H1 H2. apply Hm2; [done|]. unfold b. lia.
  - rewrite <- (words_ext (rmem s) m2 nsp 13) by (intros a Ha; apply Hm2; lia). rewrite <- (callee_loads nsp m2 x2). reflexivity.
Qed.

(** C7: the context switch and back.  [riscv32_task_switch] leaves the caller's return
    address, callee-saved registers and stack pointer in memory and goes on with those of
    the next context; whenever some CPU switches to what was saved, and the words below
    the saved stack pointer are untouched, execution goes on after the first switch with
    exactly these registers. *)
Theorem task_switch_roundtrip s nsp :
  regs_ok s -> u32 (load32 (rmem s) (rx s A1)) = nsp ->
  52 <= rx s SP -> rx s SP `mod` 4 = 0 -> region (rx s A0) 1 -> region (rx s A1) 1 -> region nsp 13 ->
  apart (rx s SP - 52) 13 (rx s A1) 1 -> apart (rx s A0) 1 (rx s A1) 1 ->
  apart (rx s SP - 52) 13 nsp 13 -> apart (rx s A0) 1 nsp 13 -> apart (rx s A0) 1 (rx s SP - 52) 13 ->
  exists s', run task_switch_code s = Ok (tt, s')
    /\ rx s' SP = u32 (nsp + 52) /\ (rx s' <$> callee_regs) = words_at (rmem s) nsp 13
    /\ forall t, regs_ok t -> rx t A1 = rx s A0 -> load32 (rmem t) (rx s A0) = load32 (rmem s') (rx s A0) ->
         (forall a, rx s SP - 52 <= a < rx s SP -> rmem t a = rmem s' a) ->
         52 <= rx t SP -> rx t SP `mod` 4 = 0 -> region (rx t A0) 1 ->
         apart (rx t SP - 52) 13 (rx t A1) 1 -> apart (rx t A0) 1 (rx t A1) 1 ->
         apart (rx t SP - 52) 13 (rx s SP - 52) 13 -> apart (rx t A0) 1 (rx s SP - 52) 13 ->
         apart (rx t A0) 1 (rx t SP - 52) 13 ->
         exists t', run task_switch_code t = Ok (tt, t') /\ rx t' SP = rx s SP
           /\ (rx t' <$> callee_regs) = (rx s <$> callee_regs).
Proof.
  intros Hok Hn Hsp Hal R0 R1 Rn D1 D2 D3 D4 D5.
  destruct (switch_run s nsp) as (s' & E & Hl & Hw & _ & Hs & Hc & _); try done. exists s'. split_and!; try done.
  intros t Hok' Ha1 El Em Hsp' Hal' R0' D1' D2' D3' D4' D5'. pose proof Hok as (Hr & _). specialize (Hr SP).
  assert (Hb : u32 (rx s SP - 52) = rx s SP - 52) by (rewrite u32_small; lia).
  destruct (switch_run t (rx s SP - 52)) as (t' & E' & _ & _ & _ & Hs' & Hc' & _); try done.
  - by rewrite Ha1, El, Hl, Hb.
  - by rewrite Ha1.
  - unfold region. lia.
  - exists t'. split; [done|]. split; [rewrite Hs'; replace (rx s SP - 52 + 52) with (rx s SP) by lia; by apply u32_small|].
    rewrite Hc', <- Hw. apply words_ext. intros a Ha. apply Em. lia.
Qed.

Definition demo_switch : rv :=
  Rv (fun r => if (r =? SP)%nat then 8192 else if (r =? A0)%nat then 256 else if (r =? A1)%nat then 260 else 0)
    (fun a => if a =? 261 then 64 else 0) (Hart (fun _ => 0) 0 0 PSupervisor).
Lemma task_switch_roundtrip_witness :
  exists s', run task_switch_code demo_switch = Ok (tt, s') /\ rx s' SP = u32 (16384 + 52)
    /\ (rx s' <$> callee_regs) = words_at (rmem demo_switch) 16384 13.
Proof.
  destruct (task_switch_roundtrip demo_switch 16384) as (s' & E & H1 & H2 & _).
  - split; [|split; vm_compute; done]. intros r. cbn [rx demo_switch]. repeat case_match; lia.
  - reflexivity.
  - vm_compute; discriminate.
  - reflexivity.
  - split_and!; vm_compute; done.
  - split_and!; vm_compute; done.
  - split_and!; vm_compute; done.
  - right. vm_compute. done.
  - left. vm_compute. done.
  - left. vm_compute. done.
  - left. vm_compute. done.
  - left. vm_compute. done.
  - exists s'. split_and!; [exact E|exact H1|exact H2].
Defined.

(** ** The user copies *)

(** Bytes copied one by one from the front. *)
Fixpoint move_bytes (dst src : Z) (n : nat) (m : bmem) : bmem :=
  match n with
  | O => m
  | S n' => move_bytes (dst + 1) (src + 1) n' (store8 m dst (m src))
  end.
Definition bytes_ok (m : bmem) : Prop := forall a, 0 <= m a < 256.

Lemma store8_ok m a v : bytes_ok m -> bytes_ok (store8 m a v).
Proof. intros H b. unfold store8. destruct (b =? a); [lia|apply H]. Qed.
Lemma move_bytes_other n dst src m a : ~ dst <= a < dst + Z.of_nat n -> move_bytes dst src n m a = m a.
Proof.
  revert dst src m. induction n as [|n IH]; intros dst src m Ha; [done|]. cbn [move_bytes].
  rewrite IH by lia. unfold store8. replace (a =? dst) with false by lia. done.
Qed.
Lemma move_bytes_get n dst src m i :
  bytes_ok m -> dst + Z.of_nat n <= src \/ src + Z.of_nat n <= dst -> 0 <= i < Z.of_nat n ->
  move_bytes dst src n m (dst + i) = m (src + i).
Proof.
  revert dst src m i. induction n as [|n IH]; intros dst src m i Hm Hd Hi; [lia|]. cbn [move_bytes].
  destruct (decide (i = 0)) as [->|Hi0].
  - rewrite move_bytes_other by lia. unfold store8. rewrite Z.add_0_r, Z.eqb_refl, Z.add_0_r. apply Z.mod_small, Hm.
  - replace (dst + i) with (dst + 1 + (i - 1)) by lia. rewrite IH by (done || lia || by apply store8_ok).
    unfold store8. replace (src + 1 + (i - 1) =? dst) with false by lia. f_equal. lia.
Qed.

Lemma copy_body_run body s dst src :
  body = copy_from_body \/ body = copy_to_body -> rx s A0 = dst -> rx s A1 = src -> bytes_ok (rmem s) ->
  0 <= dst < 2 ^ 32 -> 0 <= src < 2 ^ 32 ->
  exists s', run body s = Ok (tt, s') /\ rx s' A0 = u32 (dst + 1) /\ rx s' A1 = u32 (src + 1)
    /\ rx s' A2 = u32 (rx s A2 - 1) /\ rmem s' = store8 (rmem s) dst (rmem s src).
Proof.
  intros Hb Hd Hs Hm Rd Rs.
  assert (Eb : forall b, 0 <= b < 256 -> u32 (if b <? 128 then b else b - 256) `mod` 256 = b `mod` 256).
  { intros b Hr. unfold u32. rewrite <- (Znumtheory.Zmod_div_mod 256 (2 ^ 32)) by (lia || by exists (2 ^ 24)).
    destruct (Z.ltb_spec b 128); [done|]. lia. }
  set (v := u32 (let b := rmem s (u32 (src + 0)) in if b <? 128 then b else b - 256)).
  assert (Ev : store8 (rmem s) (u32 (dst + 0)) v = store8 (rmem s) dst (rmem s src)).
  { unfold v. rewrite !Z.add_0_r, (u32_small dst), (u32_small src) by done. unfold store8. cbv zeta. by rewrite Eb by apply Hm. }
  destruct Hb as [-> | ->].
  - exists (Rv (fupd (fupd (fupd (fupd (rx s) A3 v) A1 (u32 (src + 1))) A0 (u32 (dst + 1))) A2 (u32 (rx s A2 - 1)))
      (store8 (rmem s) (u32 (dst + 0)) v) (rh s)). split; [unfold v; rewrite <- Hd, <- Hs; reflexivity|].
    cbn [rx rmem]. regs. by rewrite Ev.
  - exists (Rv (fupd (fupd (fupd (fupd (rx s) A3 v) A0 (u32 (dst + 1))) A1 (u32 (src + 1))) A2 (u32 (rx s A2 - 1)))
      (store8 (rmem s) (u32 (dst + 0)) v) (rh s)). split; [unfold v; rewrite <- Hd, <- Hs; reflexivity|].
    cbn [rx rmem]. regs. by rewrite Ev.
Qed.

Lemma copy_loop_run body n : body = copy_from_body \/ body = copy_to_body ->
  forall fuel s dst src, (n < fuel)%nat -> rx s A0 = dst -> rx s A1 = src -> rx s A2 = Z.of_nat (S n) -> bytes_ok (rmem s) ->
  0 <= dst -> dst + Z.of_nat (S n) < 2 ^ 32 -> 0 <= src -> src + Z.of_nat (S n) < 2 ^ 32 ->
  exists s', copy_loop body fuel s = Ok (tt, s') /\ rmem s' = move_bytes dst src (S n) (rmem s).
Proof.
  intros Hb. induction n as [|n IH]; intros [|fuel] s dst src Hf Hd Hs Hn Hm R1 R2 R3 R4; try lia; cbn [copy_loop].
  all: destruct (copy_body_run body s dst src) as (s1 & E & H1 & H2 & H3 & H4); [done|done|done|done|lia|lia|].
  all: rewrite (ST_bind_run _ _ _ _ _ E); unfold getr; rewrite (ST_bind_run (gets _) _ _ _ _ eq_refl), H3, Hn.
  - eexists. split; [reflexivity|]. by rewrite H4.
  - rewrite (u32_small (Z.of_nat (S (S n)) - 1)) by lia. destruct (Z.eqb_spec (Z.of_nat (S (S n)) - 1) 0); [lia|]. cbn [negb].
    destruct (IH fuel s1 (dst + 1) (src + 1)) as (s' & E' & H'); try lia.
    + by rewrite H1, u32_small by lia.
    + by rewrite H2, u32_small by lia.
    + rewrite H3, Hn, u32_small; lia.
    + rewrite H4. by apply store8_ok.
    + exists s'. split; [done|]. by rewrite H', H4.
Qed.

(** The copies from and to user memory move exactly [len] bytes: afterwards the
    destination holds the source's bytes, and nothing else in memory has changed. *)
Theorem usercopy_correct fuel s dst src len copy :
  In copy [arch_memcpy_from_user; arch_memcpy_to_user] ->
  rx s A0 = dst -> rx s A1 = src -> rx s A2 = Z.of_nat len -> (len <= fuel)%nat -> bytes_ok (rmem s) ->
  0 <= dst -> dst + Z.of_nat len < 2 ^ 32 -> 0 <= src -> src + Z.of_nat len < 2 ^ 32 ->
  dst + Z.of_nat len <= src \/ src + Z.of_nat len <= dst ->
  exists s', copy fuel s = Ok (tt, s')
    /\ (forall i, 0 <= i < Z.of_nat len -> rmem s' (dst + i) = rmem s (src + i))
    /\ forall a, ~ dst <= a < dst + Z.of_nat len -> rmem s' a = rmem s a.
Proof.
  intros Hc Hd Hs Hn Hf Hm R1 R2 R3 R4 Hap.
  assert (H : exists s', copy fuel s = Ok (tt, s') /\ rmem s' = move_bytes dst src len (rmem s)).
  { destruct Hc as [<-|[<-|[]]]; unfold arch_memcpy_from_user, arch_memcpy_to_user, getr;
      rewrite (ST_bind_run (gets _) _ _ _ _ eq_refl), Hn; (destruct len as [|n]; [by exists s|]);
      (destruct (Z.eqb_spec (Z.of_nat (S n)) 0); [lia|]); (eapply copy_loop_run; [tauto|lia|done..]). }
  destruct H as (s' & E & Em). exists s'. rewrite Em. split_and!; [done| |].
  - intros i Hi. by apply move_bytes_get.
  - intros a Ha. by apply move_bytes_other.
Qed.
Lemma usercopy_correct_witness :
  exists s', arch_memcpy_to_user 3 (Rv (fun r => if (r =? A0)%nat then 100 else if (r =? A1)%nat then 200 else if (r =? A2)%nat then 3 else 0)
      (fun a => a `mod` 256) (Hart (fun _ => 0) 0 0 PSupervisor)) = Ok (tt, s')
    /\ (forall i, 0 <= i < 3 -> rmem s' (100 + i) = (200 + i) `mod` 256)
    /\ forall a, ~ 100 <= a < 103 -> rmem s' a = a `mod` 256.
Proof.
  set (s := Rv _ _ _).
  apply (usercopy_correct 3 s 100 200 3 arch_memcpy_to_user); try reflexivity; try lia.
  - right. by left.
  - intros a. cbn. lia.
Defined.

(** ** The timer handler *)
Definition load64 (m : bmem) (a : Z) : Z := u32 (load32 m a) + 2 ^ 32 * u32 (load32 m (a + 4)).
(** The timer's registers at [mt] and [mc], the CPU's variables at [cpu]. *)
Record timer_mem (cpu mt mc : Z) (m : bmem) : Prop := {
  tm_cpu : region cpu 7;
  tm_mtime : u32 (load32 m (cpu + CPUVAR_MTIME)) = mt /\ region mt 2;
  tm_mtimecmp : u32 (load32 m (cpu + CPUVAR_MTIMECMP)) = mc /\ region mc 2;
  tm_apart : apart cpu 7 mt 2 /\ apart cpu 7 mc 2 /\ apart mt 2 mc 2;
}.

Lemma timer_run cpu mt mc s :
  regs_ok s -> h_csr (rh s) CSR_mscratch = cpu -> timer_mem cpu mt mc (rmem s) ->
  let next := u32 (u32 (load32 (rmem s) mt) + u32 (load32 (rmem s) (cpu + CPUVAR_INTERVAL))) in
  exists s', timer_handler s = Ok (tt, s') /\ (forall r, rx s' r = rx s r)
    /\ rmem s' = store32 (store32 (store32 (rmem s) (cpu + CPUVAR_MSCRATCH0) (rx s A1)) (cpu + CPUVAR_MSCRATCH1) (rx s A2)) mc next
    /\ rh s' = after_h asm_mret (set_csr CSR_mscratch cpu (after_h (write_sip (Z.shiftl 1 1)) (set_csr CSR_mscratch (rx s A0) (rh s)))).
Proof.
  intros (Hr & _) Hcpu [Rc [Emt Rmt] [Emc Rmc] (D1 & D2 & D3)] next. unfold region, apart in *.
  assert (Ec : u32 cpu = cpu) by (apply u32_small; lia).
  assert (Hw : forall o, 0 <= o <= 24 -> o `mod` 4 = 0 -> word_at cpu o) by (intros o H1 H2; split; lia).
  set (m1 := store32 (store32 (rmem s) (cpu + CPUVAR_MSCRATCH0) (rx s A1)) (cpu + CPUVAR_MSCRATCH1) (rx s A2)).
  assert (Hm1 : forall a, a <= cpu + 4 \/ cpu + 16 <= a -> load32 m1 a = load32 (rmem s) a).
  { intros a Ha. unfold m1, CPUVAR_MSCRATCH0, CPUVAR_MSCRATCH1. rewrite !load_store_ne by lia. done. }
  assert (Hs1 : load32 m1 (cpu + CPUVAR_MSCRATCH0) = rx s A1).
  { unfold m1, CPUVAR_MSCRATCH0, CPUVAR_MSCRATCH1. rewrite load_store_ne, load_store_eq by lia. by apply u32_small. }
  assert (Hs2 : load32 m1 (cpu + CPUVAR_MSCRATCH1) = rx s A2) by (unfold m1; rewrite load_store_eq; by apply u32_small).
  eexists. split.
  { unfold timer_handler. instr_by fail. rewrite Hcpu, Ec. do 2 instr_by ltac:(by apply Hw). fold m1.
    instr_by ltac:(by apply Hw). rewrite (Hm1 (cpu + CPUVAR_MTIME)), Emt by (unfold CPUVAR_MTIME; lia).
    instr_by ltac:(split; lia). rewrite Z.add_0_r, (Hm1 mt) by lia.
    instr_by ltac:(by apply Hw). rewrite (Hm1 (cpu + CPUVAR_INTERVAL)) by (unfold CPUVAR_INTERVAL; lia). instr_by fail. fold next.
    instr_by ltac:(by apply Hw). rewrite (Hm1 (cpu + CPUVAR_MTIMECMP)), Emc by (unfold CPUVAR_MTIMECMP; lia).
    instr_by ltac:(split; lia). rewrite Z.add_0_r. instr_by fail. instr_by fail. cbn [csr_write].
    instr_by ltac:(by apply Hw). rewrite load_store_ne, Hs1, (u32_small (rx s A1)) by (done || unfold CPUVAR_MSCRATCH0; lia).
    instr_by ltac:(by apply Hw). rewrite load_store_ne, Hs2, (u32_small (rx s A2)) by (done || unfold CPUVAR_MSCRATCH1; lia).
    instr_by fail. instr_by fail. reflexivity. }
  cbn [rx rmem rh]. split_and!; [|done|done].
  intros r. destruct (decide (r = A0)) as [->|H0]; [regs; transitivity (u32 (rx s A0)); [reflexivity|by apply u32_small]|].
  destruct (decide (r = A2)) as [->|H2]; [by regs|]. destruct (decide (r = A1)) as [->|H1]; [by regs|]. by regs.
Qed.

(** The timer handler, in machine mode: every register survives, the pending bit of
    the software interrupt is set, and while the time fits into 32 bits the next
    interrupt is due one interval after the time read.  The upper half of the comparison
    register is never written: once the time has passed 2^32, the timer stays due and
    the interrupt comes back at once. *)
Theorem timer_handler_wraps cpu mt mc s :
  regs_ok s -> h_csr (rh s) CSR_mscratch = cpu -> timer_mem cpu mt mc (rmem s) ->
  Z.testbit (h_csr (rh s) CSR_mideleg) 1 = true -> u32 (load32 (rmem s) (mc + 4)) = 0 ->
  exists s', timer_handler s = Ok (tt, s') /\ (forall r, rx s' r = rx s r) /\ h_csr (rh s') CSR_mscratch = cpu
    /\ Z.testbit (h_csr (rh s') CSR_mip) 1 = true
    /\ load64 (rmem s') mt = load64 (rmem s) mt
    /\ (load64 (rmem s) mt + u32 (load32 (rmem s) (cpu + CPUVAR_INTERVAL)) < 2 ^ 32 ->
          load64 (rmem s') mc = load64 (rmem s) mt + u32 (load32 (rmem s) (cpu + CPUVAR_INTERVAL)))
    /\ (2 ^ 32 <= load64 (rmem s) mt -> load64 (rmem s') mc < load64 (rmem s') mt).
Proof.
  intros Hok Hcpu Htm Hdel Hhi. destruct (timer_run cpu mt mc s Hok Hcpu Htm) as (s' & E & Hr & Em & Eh).
  destruct Htm as [Rc [_ Rmt] [_ Rmc] (D1 & D2 & D3)]. unfold region, apart in *.
  set (next := u32 _) in Em. assert (Hnext : 0 <= next < 2 ^ 32) by apply u32_range.
  assert (Emt : load64 (rmem s') mt = load64 (rmem s) mt).
  { unfold load64. rewrite Em. unfold CPUVAR_MSCRATCH0, CPUVAR_MSCRATCH1. by rewrite !load_store_ne by lia. }
  assert (Emc : load64 (rmem s') mc = next).
  { unfold load64. rewrite Em, load_store_eq, u32_idem, (u32_small next) by done.
    unfold CPUVAR_MSCRATCH0, CPUVAR_MSCRATCH1. rewrite !load_store_ne by lia. rewrite Hhi. lia. }
  exists s'. split_and!; [done|done|rewrite Eh; reflexivity| |done| |].
  - rewrite Eh. change (Z.testbit (set_field (Z.land SIP_SSIP (h_csr (rh s) CSR_mideleg)) (Z.shiftl 1 1) (h_csr (rh s) CSR_mip)) 1 = true).
    rewrite set_field_bit, Z.land_spec, Hdel by lia. reflexivity.
  - intros Hlt. rewrite Emc. unfold next, load64 in *. pose proof (u32_range (load32 (rmem s) mt)). pose proof (u32_range (load32 (rmem s) (mt + 4))).
    pose proof (u32_range (load32 (rmem s) (cpu + CPUVAR_INTERVAL))). rewrite u32_small; lia.
  - intros Hge. rewrite Emc, Emt. lia.
Qed.
Definition demo_timer : rv :=
  Rv (fun r => 0) (fun a => if a =? 4113 then 64 else if a =? 4117 then 80 else if a =? 4121 then 39 else 0)
    (Hart (fun c => if decide (c = CSR_mscratch) then 4096 else if decide (c = CSR_mideleg) then 2 else 0) 0 0 PMachine).
Lemma timer_handler_wraps_witness :
  exists s', timer_handler demo_timer = Ok (tt, s') /\ load64 (rmem s') 16384 = 9984.
Proof.
  destruct (timer_handler_wraps 4096 20480 16384 demo_timer) as (s' & E & _ & _ & _ & _ & H & _).
  - split; [|split; vm_compute; done]. intros r. cbn. lia.
  - reflexivity.
  - split; [vm_compute; intuition discriminate|split; [reflexivity|vm_compute; intuition discriminate]
      |split; [reflexivity|vm_compute; intuition discriminate]|].
    split_and!; [left|left|right]; vm_compute; discriminate.
  - reflexivity.
  - reflexivity.
  - exists s'. split; [exact E|]. apply H. vm_compute. reflexivity.
Defined.

(** What is written to a register of ordinary memory is read back, at every width by the
    little-endian functions; the plain 16-bit read returns a register with the sign extended, so
    that a value from 32768 on comes back with its upper half set. *)
Theorem mmio_register_roundtrip m addr v :
  (0 <= v < 2 ^ 8 -> exists m', mmio_write8 addr v m = Ok m' /\ mmio_read8 addr m' = Ok v) /\
  (addr `mod` 2 = 0 -> 0 <= v < 2 ^ 16 -> exists m', mmio_write16le addr v m = Ok m' /\ mmio_read16le addr m' = Ok v /\
    mmio_read16 addr m' = Ok (if v <? 32768 then v else v + (2 ^ 32 - 2 ^ 16))) /\
  (addr `mod` 4 = 0 -> 0 <= v < 2 ^ 32 -> exists m', mmio_write32le addr v m = Ok m' /\ mmio_read32le addr m' = Ok v).
Proof.
  split_and!.
  - intros Hv. eexists. split; [reflexivity|]. unfold mmio_read8, store8. rewrite Z.eqb_refl, Z.mod_small by lia. cbv zeta. f_equal.
    unfold u8. destruct (Z.ltb_spec v 128); lia.
  - intros Ha Hv. unfold mmio_write16le, mmio_write16, into_le16, mmio_read16le, mmio_read16, from_le16. rewrite Ha. eexists. split; [reflexivity|].
    assert (E : load16 (store16 m addr v) addr = v).
    { unfold load16, store16, store8. rewrite !Z.eqb_refl, (proj2 (Z.eqb_neq addr (addr + 1))) by lia. cbn [le_combine]. lia. }
    cbn [Z.eqb]. rewrite E. cbv zeta. unfold mbind, outcome_bind, mret, outcome_ret. destruct (Z.ltb_spec v 32768); split; f_equal; unfold u16, u32; lia.
  - intros Ha Hv. unfold mmio_write32le, mmio_write32, into_le32, mmio_read32le, mmio_read32, from_le32. rewrite Ha. eexists. split; [reflexivity|].
    cbn [Z.eqb]. unfold mbind, outcome_bind. by rewrite load_store_eq, u32_small by lia.
Qed.

(** Every hart starts on a stack of its own: the one of hart [i] ends at its stack pointer,
    starts where the stack of the hart before it ends, and lies in the area the linker script
    reserves; a backtrace ends here, since the return address and the frame pointer are 0. *)
Theorem boot_stacks_apart boot_stack i s :
  h_csr (rh s) CSR_mhartid = i -> 0 <= i < NUM_CPUS_MAX ->
  0 <= boot_stack -> boot_stack + NUM_CPUS_MAX * KERNEL_STACK_SIZE < 2 ^ 32 ->
  exists s', run (boot_code boot_stack) s = Ok (tt, s') /\ rmem s' = rmem s /\ rh s' = rh s /\ rx s' RA = 0 /\ rx s' S0 = 0 /\
    boot_stack <= rx s' SP - KERNEL_STACK_SIZE /\ rx s' SP <= boot_stack + NUM_CPUS_MAX * KERNEL_STACK_SIZE /\
    forall j t t', h_csr (rh t) CSR_mhartid = j -> 0 <= j < NUM_CPUS_MAX -> j <> i -> run (boot_code boot_stack) t = Ok (tt, t') ->
      rx t' SP <= rx s' SP - KERNEL_STACK_SIZE \/ rx s' SP <= rx t' SP - KERNEL_STACK_SIZE.
Proof.
  intros Hs Hi Hb He. assert (Hrun : forall u k, h_csr (rh u) CSR_mhartid = k -> 0 <= k < NUM_CPUS_MAX ->
    exists u', run (boot_code boot_stack) u = Ok (tt, u') /\ rmem u' = rmem u /\ rh u' = rh u /\ rx u' RA = 0 /\ rx u' S0 = 0 /\
      rx u' SP = boot_stack + (k + 1) * KERNEL_STACK_SIZE).
  { intros u k Hk Hr. unfold NUM_CPUS_MAX, KERNEL_STACK_SIZE in *. eexists. split; [reflexivity|]. cbn [rx rmem rh]. split_and!; try done.
    change (u32 (u32 boot_stack + u32 (u32 (u32 (h_csr (rh u) CSR_mhartid) + 1) * u32 (16 * 1024))) = boot_stack + (k + 1) * (16 * 1024)).
    rewrite Hk, (u32_small k), (u32_small (k + 1)), (u32_small (16 * 1024)), (u32_small boot_stack) by lia.
    rewrite (u32_small ((k + 1) * _)), u32_small by lia. done. }
  destruct (Hrun s i Hs Hi) as (s' & E & E1 & E2 & E3 & E4 & E5). exists s'. unfold NUM_CPUS_MAX, KERNEL_STACK_SIZE in *.
  split_and!; try done; [lia..|]. intros j t t' Ht Hj Hne Et. destruct (Hrun t j Ht Hj) as (t1 & Et1 & _ & _ & _ & _ & E6).
  rewrite Et in Et1. injection Et1 as <-. lia.
Qed.
