(* ===== verification/Debug.v ===== *)
(** Diagnostics: the printing macros (libs/common/print.h), backtraces with their symbol
    table (libs/common/backtrace.c, libs/common/riscv32/backtrace.c) and the reports of the
    undefined behaviour sanitizer (libs/common/ubsan.c).

    The text a macro prints is that of [vprintf]; a macro that ends the program says so
    beside its text ([Ends]). *)

From stdpp Require Import sorting.
From S2P Require Import Prelude Types Vprintf.

(** ** Data *)
Definition PRINT_NL : list Z := [13; 10].
Definition SGR_ERR : list Z := 27 :: chars "[1;91m".
Definition SGR_WARN : list Z := 27 :: chars "[1;33m".
Definition SGR_INFO : list Z := 27 :: chars "[0;96m".
Definition SGR_DEBUG : list Z := 27 :: chars "[1;95m".
Definition SGR_RESET : list Z := 27 :: chars "[0m".

Definition BACKTRACE_MAX : nat := 16.
Definition SYMBOL_TABLE_MAGIC : Z := 0x4c4d5953.
(** [name] is the string in the array of 60 characters. *)
Record symbol := Symbol { sym_addr : Z; sym_name : list Z }.
Record symbol_table := SymbolTable { st_magic : Z; num_symbols : Z; symbols : list symbol }.

(** What the macros read of the program they are in: its name, its symbol table, the words
    of its memory, and the frame pointer in [backtrace]. *)
Record program := Program {
  __program_name : list Z;
  __symbol_table : symbol_table;
  p_word : Z -> option Z;
  p_fp : Z;
}.
Inductive flow := Goes | Ends.

(** A value of type [int32_t]: overflow is undefined. *)
Definition int32 (x : Z) : outcome Z := if s32 x =? x then Ok x else Undef.
Definition word (P : program) (a : Z) : outcome Z := match p_word P a with Some w => Ok w | None => Undef end.

Section Macros.
Context (P : program).
Local Notation name := (VStr (Some (__program_name P))).

(** ** Messages *)
Definition TRACE (fmt : list Z) (args : list varg) : outcome (list Z) :=
  vprintf (chars "[%s] " ++ fmt ++ PRINT_NL) (name :: args).
Definition DBG (fmt : list Z) (args : list varg) : outcome (list Z) :=
  vprintf (SGR_DEBUG ++ chars "[%s] " ++ fmt ++ SGR_RESET ++ PRINT_NL) (name :: args).
Definition INFO (fmt : list Z) (args : list varg) : outcome (list Z) :=
  vprintf (SGR_INFO ++ chars "[%s] " ++ fmt ++ SGR_RESET ++ PRINT_NL) (name :: args).
Definition WARN (fmt : list Z) (args : list varg) : outcome (list Z) :=
  vprintf (SGR_WARN ++ chars "[%s] WARN: " ++ fmt ++ SGR_RESET ++ PRINT_NL) (name :: args).
Definition ERROR (fmt : list Z) (args : list varg) : outcome (list Z) :=
  vprintf (SGR_ERR ++ chars "[%s] ERROR: " ++ fmt ++ SGR_RESET ++ PRINT_NL) (name :: args).

(** [HEXDUMP]: the loop from index [i] on. *)
Definition hexdump_head (i : Z) : outcome (list Z) := vprintf (chars "[%s] %04x: ") [name; VWord i].
Fixpoint hexdump_loop (i : Z) (bytes : list Z) : outcome (list Z) :=
  match bytes with
  | [] => Ok []
  | b :: bytes' =>
      h ← (if (0 <? i) && (i `mod` 16 =? 0) then
             nl ← vprintf PRINT_NL []; h ← hexdump_head i; Ok (nl ++ h)
           else Ok []);
      t ← vprintf (chars "%02x ") [VWord b];
      rest ← hexdump_loop (i + 1) bytes';
      Ok (h ++ t ++ rest)
  end.
Definition HEXDUMP (bytes : list Z) : outcome (list Z) :=
  h ← hexdump_head 0; t ← hexdump_loop 0 bytes; nl ← vprintf PRINT_NL []; Ok (h ++ t ++ nl).

(** ** find_symbol *)
Definition symbol_at (i : Z) : outcome symbol :=
  if i <? 0 then Undef
  else match symbols (__symbol_table P) !! Z.to_nat i with Some s => Ok s | None => Undef end.
Fixpoint find_symbol_loop (fuel : nat) (addr l r : Z) : outcome Z :=
  match fuel with
  | O => Undef
  | S fuel' =>
      d ← int32 (r - l);
      if 1 <? d then
        sum ← int32 (l + r);
        let mid := Z.quot sum 2 in
        s ← symbol_at mid;
        if sym_addr s <=? addr then find_symbol_loop fuel' addr mid r
        else find_symbol_loop fuel' addr l mid
      else Ok l
  end.
Definition find_symbol (addr : Z) : outcome (option symbol) :=
  if negb (st_magic (__symbol_table P) =? SYMBOL_TABLE_MAGIC) then Panic
  else
    l ← find_symbol_loop 32 addr (-1) (s32 (num_symbols (__symbol_table P)));
    if l <? 0 then Ok None else s ← symbol_at l; Ok (Some s).

(** ** backtrace: a frame is the two words below its frame pointer *)
Fixpoint backtrace_loop (n : nat) (i fp : Z) : outcome (list Z) :=
  match n with
  | O => Ok []
  | S n' =>
      if fp =? 0 then Ok []
      else
        let frame := u32 (fp - 8) in
        ra ← word P (frame + 4);
        symbol ← find_symbol ra;
        match symbol with
        | None => WARN (chars "    #%d: %p (invalid address)") [VWord i; VWord ra]
        | Some symbol =>
            let offset := u32 (ra - sym_addr symbol) in
            t ← WARN (chars "    #%d: %p %s()+0x%x") [VWord i; VWord ra; VStr (Some (sym_name symbol)); VWord offset];
            fp' ← word P frame;
            rest ← backtrace_loop n' (i + 1) fp';
            Ok (t ++ rest)
        end
  end.
Definition backtrace : outcome (list Z) :=
  if p_fp P =? 0 then WARN (chars "backtrace: fp is NULL") []
  else backtrace_loop BACKTRACE_MAX 0 (p_fp P).

(** ** Assertions and panics *)
Definition ends (t : outcome (list Z)) : outcome (list Z * flow) := t ← t; Ok (t, Ends).
Definition with_backtrace (t : outcome (list Z)) : outcome (list Z) := t ← t; b ← backtrace; Ok (t ++ b).
Definition err_text (err : Z) : outcome varg := s ← err2str err; Ok (VStr (Some (chars s))).

Definition ASSERT (expr : bool) (file : list Z) (line : Z) (text : list Z) : outcome (list Z * flow) :=
  if negb expr then
    ends (with_backtrace (vprintf (SGR_ERR ++ chars "[%s] %s:%d: ASSERTION FAILURE: %s" ++ SGR_RESET ++ PRINT_NL)
                            [name; VStr (Some file); VWord line; VStr (Some text)]))
  else Ok ([], Goes).
Definition DEBUG_ASSERT (DEBUG_BUILD expr : bool) (file : list Z) (line : Z) (text : list Z) : outcome (list Z * flow) :=
  if DEBUG_BUILD then ASSERT expr file line text else Ok ([], Goes).
Definition ASSERT_OK (expr : Z) (file : list Z) (line : Z) : outcome (list Z * flow) :=
  if IS_ERROR expr then
    e ← err_text expr;
    ends (with_backtrace (vprintf (SGR_ERR ++ chars "[%s] %s:%d: unexpected error (%s)" ++ [10] ++ SGR_RESET)
                            [name; VStr (Some file); VWord line; e]))
  else Ok ([], Goes).
Definition OOPS (fmt : list Z) (args : list varg) : outcome (list Z) :=
  with_backtrace (vprintf (SGR_WARN ++ chars "[%s] Oops: " ++ fmt ++ SGR_RESET ++ PRINT_NL) (name :: args)).
Definition OOPS_OK (expr : Z) : outcome (list Z) :=
  if IS_ERROR expr then
    e ← err_text expr;
    with_backtrace (vprintf (SGR_WARN ++ chars "[%s] Oops: Unexpected error (%s)" ++ [10] ++ SGR_RESET) [name; e])
  else Ok [].
Definition PANIC (fmt : list Z) (args : list varg) : outcome (list Z * flow) :=
  ends (with_backtrace (vprintf (SGR_ERR ++ chars "[%s] PANIC: " ++ fmt ++ SGR_RESET ++ PRINT_NL) (name :: args))).
Definition NYI (func file : list Z) (line : Z) : outcome (list Z * flow) :=
  ends (vprintf (SGR_ERR ++ chars "[%s] %s(): not yet implemented: %s:%d" ++ [10] ++ chars " SGR_RESET")
          [name; VStr (Some func); VStr (Some file); VWord line]).
Definition UNREACHABLE (file : list Z) (line : Z) (func : list Z) : outcome (list Z * flow) :=
  ends (with_backtrace (vprintf (SGR_ERR ++ chars "Unreachable at %s:%d (%s)" ++ [10] ++ SGR_RESET)
                          [VStr (Some file); VWord line; VStr (Some func)])).

(** ** The sanitizer's handlers; [ip] is the return address *)
Record ubsan_mismatch_data_v1 := Mismatch { loc_file : list Z; loc_line : Z; type_name : list Z; mm_align : Z }.
Definition report_ubsan_event (ip : Z) (event : list Z) : outcome (list Z * flow) :=
  PANIC (chars "detected an undefined behavior: %s (ip=%p)") [VStr (Some event); VWord ip].
Definition __ubsan_handle_type_mismatch_v1 (ip : Z) (data : ubsan_mismatch_data_v1) (ptr : Z) : outcome (list Z * flow) :=
  if ptr =? 0 then report_ubsan_event ip (chars "NULL pointer dereference")
  else if 31 <=? mm_align data then Undef
  else if negb (mm_align data =? 0) && negb (IS_ALIGNED ptr (Z.shiftl 1 (mm_align data))) then
    t ← WARN (chars "UBSan: %s:%d: pointer %p is not aligned to %d")
          [VStr (Some (loc_file data)); VWord (loc_line data); VWord ptr; VWord (Z.shiftl 1 (mm_align data))];
    Ok (t, Goes)
  else
    PANIC (chars "UBSan: %s:%d: pointer %p is not large enough for %s")
      [VStr (Some (loc_file data)); VWord (loc_line data); VWord ptr; VStr (Some (type_name data))].
Definition __ubsan_handle_add_overflow (ip : Z) := report_ubsan_event ip (chars "add_overflow").
Definition __ubsan_handle_sub_overflow (ip : Z) := report_ubsan_event ip (chars "sub overflow").
Definition __ubsan_handle_mul_overflow (ip : Z) := report_ubsan_event ip (chars "mul overflow").
Definition __ubsan_handle_function_type_mismatch (ip : Z) :=
  report_ubsan_event ip (chars "__ubsan_handle_function_type_mismatch").
Definition __ubsan_handle_divrem_overflow (ip : Z) := report_ubsan_event ip (chars "divrem overflow").
Definition __ubsan_handle_negate_overflow (ip : Z) := report_ubsan_event ip (chars "negate overflow").
Definition __ubsan_handle_float_cast_overflow (ip : Z) := report_ubsan_event ip (chars "float cast overflow").
Definition __ubsan_handle_pointer_overflow (ip : Z) := report_ubsan_event ip (chars "pointer overflow").
Definition __ubsan_handle_out_of_bounds (ip : Z) := report_ubsan_event ip (chars "out of bounds").
Definition __ubsan_handle_shift_out_of_bounds (ip : Z) := report_ubsan_event ip (chars "shift out of bounds").
Definition __ubsan_handle_builtin_unreachable (ip : Z) := report_ubsan_event ip (chars "builtin unreachable").
Definition __ubsan_handle_invalid_builtin (ip : Z) := report_ubsan_event ip (chars "invalid builtin").

(** servers/hello/main.c *)
Definition hello_main : outcome (list Z) := INFO (chars "Hello World!") [].
End Macros.

(** ** Formats that are printed completely *)

(** [vprintf] reaches the end of the format and of the arguments, printing [out]. *)
Inductive prints : list Z -> list varg -> list Z -> Prop :=
| prints_nil : prints [] [] []
| prints_char ch fmt args out : ch <> CH_PERCENT -> prints fmt args out -> prints (ch :: fmt) args (ch :: out)
| prints_directive fmt args o fmt' args' out :
    directive fmt args = Ok (o, Some fmt', args') -> prints fmt' args' out -> prints (CH_PERCENT :: fmt) args (o ++ out).

Lemma parse_attrs_app fmt g n pad n' pad' ch r :
  parse_attrs fmt n pad = (n', pad', ch :: r) -> parse_attrs (fmt ++ g) n pad = (n', pad', (ch :: r) ++ g).
Proof.
  revert n pad. induction fmt as [|x fmt IH]; intros n pad H; cbn in *; [congruence|].
  repeat case_match; try (by apply IH). by simplify_eq.
Qed.
Lemma parse_width_app fmt g w ch r :
  parse_width fmt = (w, ch :: r) -> parse_width (fmt ++ g) = (w, (ch :: r) ++ g).
Proof. destruct fmt as [|x fmt]; cbn; [congruence|]. case_match; intros H'; by simplify_eq. Qed.

(** More text and more arguments change nothing behind a complete directive; only an [I]
    behind ["%p"] would. *)
Definition extends (g : list Z) : Prop := match g with x :: _ => x <> 73 | [] => True end.
Lemma arg_num_app n args v args' more : arg_num n args = Ok (v, args') -> arg_num n (args ++ more) = Ok (v, args' ++ more).
Proof. destruct args as [|[] args]; cbn; try done; destruct (n =? 3); naive_solver. Qed.
Lemma format_d_app n pad w args o args' more :
  format_d n pad w args = Ok (o, args') -> format_d n pad w (args ++ more) = Ok (o, args' ++ more).
Proof.
  unfold format_d. unfold mbind, outcome_bind. destruct (arg_num n args) as [[v a]| |] eqn:E; [|done|done].
  rewrite (arg_num_app _ _ _ _ _ E). destruct (s32 v <? 0); [destruct (s32 v =? - 2 ^ 31)|]; naive_solver.
Qed.
Lemma format_u_app b n pad w args o args' more :
  format_u b n pad w args = Ok (o, args') -> format_u b n pad w (args ++ more) = Ok (o, args' ++ more).
Proof.
  unfold format_u. unfold mbind, outcome_bind. destruct (arg_num n args) as [[v a]| |] eqn:E; [|done|done].
  rewrite (arg_num_app _ _ _ _ _ E). naive_solver.
Qed.
Definition format_word (fmt : list Z) (args : list varg) : outcome (list Z * list Z * list varg) :=
  match args with VWord w :: args' => Ok (print_uint (u32 w) 16 CH_0 8, fmt, args') | _ => Undef end.
Lemma format_p_word fmt args : extends fmt -> format_p fmt args = format_word fmt args.
Proof. destruct fmt as [|x fmt]; [done|]. cbn. intros H. destruct x as [|p|p]; try done. by do 7 (destruct p; try done). Qed.
Lemma format_p_app fmt args o r args' g more : extends g ->
  format_p fmt args = Ok (o, r, args') -> format_p (fmt ++ g) (args ++ more) = Ok (o, r ++ g, args' ++ more).
Proof.
  intros Hg. destruct (decide (hd_error fmt = Some 73)) as [Hx|Hx].
  - destruct fmt as [|x fmt]; [done|]. injection Hx as ->. destruct fmt as [|c fmt]; [done|].
    cbn [app format_p]. destruct (c =? 52); [|naive_solver]. destruct args as [|[] args]; naive_solver.
  - rewrite !format_p_word; [|destruct fmt; cbn in *; congruence|destruct fmt; cbn in *; [done|congruence]].
    unfold format_word. destruct args as [|[] args]; naive_solver.
Qed.
Lemma directive_app fmt args o r args' g more :
  directive fmt args = Ok (o, Some r, args') -> extends g ->
  directive (fmt ++ g) (args ++ more) = Ok (o, Some (r ++ g), args' ++ more).
Proof.
  intros H Hg. unfold directive in *.
  destruct (parse_attrs fmt 1 CH_SPACE) as [[n pad] f1] eqn:E1. destruct (parse_width f1) as [w f2] eqn:E2.
  destruct f2 as [|ch f3]; [done|]. destruct f1 as [|y f1]; [done|].
  rewrite (parse_attrs_app _ g _ _ _ _ _ _ E1), (parse_width_app _ g _ _ _ E2). cbn [app].
  unfold mbind, outcome_bind in *. cbv iota in *.
  destruct (ch =? 100).
  { destruct (format_d n pad w args) as [[o1 a1]| |] eqn:Ed; [|done|done]. rewrite (format_d_app _ _ _ _ _ _ _ Ed). naive_solver. }
  destruct (ch =? 112).
  { destruct (format_p f3 args) as [[[o1 r1] a1]| |] eqn:Ep; [|done|done]. rewrite (format_p_app _ _ _ _ _ _ _ Hg Ep). naive_solver. }
  destruct (ch =? 120).
  { destruct (format_u 16 n pad w args) as [[o1 a1]| |] eqn:Ed; [|done|done]. rewrite (format_u_app _ _ _ _ _ _ _ _ Ed). naive_solver. }
  destruct (ch =? 117).
  { destruct (format_u 10 n pad w args) as [[o1 a1]| |] eqn:Ed; [|done|done]. rewrite (format_u_app _ _ _ _ _ _ _ _ Ed). naive_solver. }
  destruct (ch =? 99); [destruct args as [|[] args]; naive_solver|].
  destruct (ch =? 115); [destruct args as [|[] args]; naive_solver|].
  destruct (ch =? 37); naive_solver.
Qed.

(** Fuel above the length of the format is enough. *)
Lemma parse_attrs_length fmt n pad n' pad' r : parse_attrs fmt n pad = (n', pad', r) -> (length r <= length fmt)%nat.
Proof.
  revert n pad. induction fmt as [|x fmt IH]; intros n pad H; cbn in *; [by simplify_eq|].
  repeat case_match; [..|by simplify_eq]; apply IH in H; lia.
Qed.
Lemma format_p_length fmt args o r args' : format_p fmt args = Ok (o, r, args') -> (length r <= length fmt)%nat.
Proof.
  destruct (decide (hd_error fmt = Some 73)) as [Hx|Hx].
  - destruct fmt as [|x [|c fmt]]; try done; injection Hx as ->; [done|]. cbn [format_p length].
    destruct (c =? 52); [|intros H; inversion H; subst; lia]. destruct args as [|[] args]; try done. intros H; inversion H; subst; lia.
  - rewrite format_p_word; [|destruct fmt; cbn in *; [done|congruence]]. destruct args as [|[] args]; naive_solver.
Qed.
Lemma directive_length fmt args o r args' : directive fmt args = Ok (o, Some r, args') -> (length r < length fmt)%nat.
Proof.
  unfold directive. destruct (parse_attrs fmt 1 CH_SPACE) as [[n pad] f1] eqn:E1. apply parse_attrs_length in E1.
  destruct (parse_width f1) as [w f2] eqn:E2. destruct f2 as [|ch f3]; [done|].
  assert (length (ch :: f3) <= length f1)%nat as L by (destruct f1 as [|y f1]; cbn in E2; repeat case_match; simplify_eq; cbn; lia).
  cbn in L. intros H. enough (length r <= length f3)%nat by lia. revert H. unfold mbind, outcome_bind.
  destruct (ch =? 100); [destruct (format_d n pad w args) as [[? ?]| |]; naive_solver|].
  destruct (ch =? 112).
  { destruct (format_p f3 args) as [[[o1 r1] a1]| |] eqn:Ep; [|done|done]. apply format_p_length in Ep. naive_solver. }
  destruct (ch =? 120); [destruct (format_u 16 n pad w args) as [[? ?]| |]; naive_solver|].
  destruct (ch =? 117); [destruct (format_u 10 n pad w args) as [[? ?]| |]; naive_solver|].
  destruct (ch =? 99); [destruct args as [|[] args]; naive_solver|].
  destruct (ch =? 115); [destruct args as [|[] args]; naive_solver|]. destruct (ch =? 37); naive_solver.
Qed.
Lemma vprintf_loop_fuel n m fmt args : (length fmt < n)%nat -> (length fmt < m)%nat ->
  vprintf_loop n fmt args = vprintf_loop m fmt args.
Proof.
  revert m fmt args. induction n as [|n IH]; intros [|m] fmt args Hn Hm; try lia. cbn [vprintf_loop].
  destruct fmt as [|ch fmt]; [done|]. cbn [length] in *. destruct (negb (ch =? CH_PERCENT)); [rewrite (IH m); [done|lia|lia]|].
  unfold mbind, outcome_bind. destruct (directive fmt args) as [[[o [r|]] a]| |] eqn:E; [|done..].
  apply directive_length in E. rewrite (IH m); [done|lia|lia].
Qed.
Lemma vprintf_cons ch fmt args : ch <> CH_PERCENT -> vprintf (ch :: fmt) args = (t ← vprintf fmt args; Ok (ch :: t)).
Proof. intros H. unfold vprintf at 1. cbn [vprintf_loop length]. by rewrite (proj2 (Z.eqb_neq _ _) H). Qed.
Lemma vprintf_directive fmt args o r args' : directive fmt args = Ok (o, Some r, args') ->
  vprintf (CH_PERCENT :: fmt) args = (t ← vprintf r args'; Ok (o ++ t)).
Proof.
  intros H. unfold vprintf. cbn [length]. pose proof (directive_length _ _ _ _ _ H). rewrite <- (vprintf_loop_fuel (S (length fmt)) (S (length r))) by lia.
  generalize (S (length fmt)). intros m. cbn [vprintf_loop]. unfold mbind, outcome_bind. by rewrite H.
Qed.

(** A complete format prints its text, and [vprintf] goes on behind it. *)
Lemma vprintf_app fmt args out g more :
  prints fmt args out -> extends g ->
  vprintf (fmt ++ g) (args ++ more) = (t ← vprintf g more; Ok (out ++ t)).
Proof.
  intros H Hg. unfold mbind, outcome_bind. induction H as [|ch fmt args out Hc H IH|fmt args o fmt' args' out Hd H IH]; cbn [app].
  - by destruct (vprintf g more).
  - rewrite vprintf_cons by done. unfold mbind, outcome_bind. rewrite IH. by destruct (vprintf g more).
  - rewrite (vprintf_directive _ _ _ _ _ (directive_app _ _ _ _ _ _ _ Hd Hg)). unfold mbind, outcome_bind. rewrite IH.
    destruct (vprintf g more); [by rewrite app_assoc|done|done].
Qed.

(** ** The symbol of an address *)

(** The reference: the last symbol that starts at or below the address. *)
Definition symbol_below (addr : Z) (l : list symbol) : option symbol :=
  last (filter (fun s => sym_addr s <= addr) l).
Record table_ok (t : symbol_table) : Prop := {
  to_magic : st_magic t = SYMBOL_TABLE_MAGIC;
  to_num : num_symbols t = Z.of_nat (length (symbols t));
  to_room : num_symbols t <= 2 ^ 26;     (* a symbol takes 64 of the 2^32 bytes *)
  to_sorted : Sorted (fun a b => sym_addr a <= sym_addr b) (symbols t);
  to_words : Forall (fun s => 0 <= sym_addr s) (symbols t);
}.

Lemma sorted_lookup l i j a b : Sorted (fun a b => sym_addr a <= sym_addr b) l ->
  l !! i = Some a -> l !! j = Some b -> (i <= j)%nat -> sym_addr a <= sym_addr b.
Proof.
  intros HS. apply Sorted_StronglySorted in HS; [|intros ???; lia]. revert i j.
  induction HS as [|x l HS IH HF]; intros [|i] [|j] Ha Hb L; cbn in *; try done; simplify_eq; [lia| |lia|].
  - rewrite Forall_lookup in HF. by apply (HF j).
  - apply (IH i j); [done|done|lia].
Qed.
Lemma filter_last addr l n :
  (forall i s, l !! i = Some s -> ((i < n)%nat <-> sym_addr s <= addr)) ->
  filter (fun s => sym_addr s <= addr) l = take n l.
Proof.
  revert n. induction l as [|x l IH]; intros n H; [by rewrite take_nil|]. destruct n as [|n].
  - rewrite filter_cons_False; [|intros Hx; apply (H 0%nat x eq_refl) in Hx; lia]. apply (IH 0%nat). intros i s Hi. rewrite <- (H (S i) s Hi). lia.
  - rewrite filter_cons_True; [|apply (H 0%nat x eq_refl); lia]. cbn. f_equal. apply IH. intros i s Hi. rewrite <- (H (S i) s Hi). lia.
Qed.

Section Symbols.
Context (P : program) (Ht : table_ok (__symbol_table P)).
Local Notation syms := (symbols (__symbol_table P)).
Local Notation n := (num_symbols (__symbol_table P)).

Lemma find_symbol_loop_spec k addr l r :
  -1 <= l < r -> r <= n -> r - l <= 2 ^ Z.of_nat k ->
  (forall i s, syms !! i = Some s -> Z.of_nat i <= l -> sym_addr s <= addr) ->
  (forall i s, syms !! i = Some s -> r <= Z.of_nat i -> addr < sym_addr s) ->
  exists l', find_symbol_loop P (S k) addr l r = Ok l' /\ -1 <= l' < n
    /\ forall i s, syms !! i = Some s -> (Z.of_nat i <= l' <-> sym_addr s <= addr).
Proof.
  destruct Ht as [_ Hn Hr HS _]. revert l r. induction k as [|k IH]; intros l r Hl Hr' Hk Hlo Hhi; cbn [find_symbol_loop];
    unfold mbind, outcome_bind, int32; rewrite s32_small, Z.eqb_refl by lia.
  - exists l. rewrite (proj2 (Z.ltb_ge _ _)) by lia. split_and!; [done|lia|lia|]. intros i s Hs. specialize (Hlo i s Hs). specialize (Hhi i s Hs). lia.
  - destruct (Z.ltb_spec 1 (r - l)) as [Hd|Hd].
    + rewrite s32_small, Z.eqb_refl by lia. rewrite Z.quot_div_nonneg by lia. set (mid := (l + r) / 2).
      assert (l < mid < r /\ r - mid <= 2 ^ Z.of_nat k /\ mid - l <= 2 ^ Z.of_nat k) as (? & ? & ?).
      { replace (2 ^ Z.of_nat (S k)) with (2 * 2 ^ Z.of_nat k) in Hk by (rewrite Nat2Z.inj_succ, Z.pow_succ_r; lia). subst mid.
        pose proof (Z.div_mod (l + r) 2). pose proof (Z.mod_pos_bound (l + r) 2). lia. }
      unfold symbol_at. rewrite (proj2 (Z.ltb_ge mid 0)) by lia.
      destruct (lookup_lt_is_Some_2 syms (Z.to_nat mid)) as [s Es]; [lia|]. rewrite Es.
      destruct (Z.leb_spec (sym_addr s) addr) as [Hs|Hs]; apply IH; try lia; try done; intros i s' Hi L.
      * pose proof (sorted_lookup _ i (Z.to_nat mid) _ _ HS Hi Es). lia.
      * pose proof (sorted_lookup _ (Z.to_nat mid) i _ _ HS Es Hi). lia.
    + exists l. split_and!; [done|lia|lia|]. intros i s Hs. specialize (Hlo i s Hs). specialize (Hhi i s Hs). lia.
Qed.
Lemma find_symbol_run addr : find_symbol P addr = Ok (symbol_below addr syms).
Proof.
  destruct Ht as [Hm Hn Hr HS _]. unfold find_symbol. rewrite Hm, Z.eqb_refl. cbn [negb]. rewrite s32_small by lia.
  destruct (find_symbol_loop_spec 31 addr (-1) n) as (l' & E & Hl & H); [lia|lia|lia| |intros i s Hi L; apply lookup_lt_Some in Hi; lia|].
  { intros i s _ L. lia. }
  unfold mbind, outcome_bind. rewrite E. unfold symbol_below. rewrite (filter_last _ _ (Z.to_nat (l' + 1))).
  2:{ intros i s Hi. rewrite <- (H i s Hi). lia. }
  destruct (Z.ltb_spec l' 0) as [L|L]; [by replace (Z.to_nat (l' + 1)) with 0%nat by lia|].
  unfold symbol_at. rewrite (proj2 (Z.ltb_ge l' 0)) by lia. destruct (lookup_lt_is_Some_2 syms (Z.to_nat l')) as [s Es]; [lia|].
  rewrite Es. replace (Z.to_nat (l' + 1)) with (S (Z.to_nat l')) by lia. rewrite (take_S_r _ _ _ Es), last_snoc. done.
Qed.
End Symbols.

(** ** The text of messages *)
Definition dec (x : Z) : list Z := print_uint x 10 CH_SPACE 0.
Definition hex (x : Z) : list Z := print_uint x 16 CH_SPACE 0.
Definition hex_padded (width x : Z) : list Z := print_uint x 16 CH_0 width.

Lemma prints_d fmt x args out : 0 <= x < 2 ^ 31 -> prints fmt args out ->
  prints (CH_PERCENT :: 100 :: fmt) (VWord x :: args) (dec x ++ out).
Proof.
  intros Hx H. eapply prints_directive; [|done]. cbn [directive parse_attrs parse_width Z.eqb Pos.eqb andb Z.leb Z.compare Pos.compare Pos.compare_cont].
  unfold format_d, arg_num, mbind, outcome_bind. change (1 =? 3) with false. cbv iota.
  rewrite u32_small, s32_small by lia. by rewrite (proj2 (Z.ltb_ge x 0)) by lia.
Qed.
Lemma prints_s fmt s args out : prints fmt args out ->
  prints (CH_PERCENT :: 115 :: fmt) (VStr (Some s) :: args) (s ++ out).
Proof. intros H. by eapply prints_directive. Qed.
Lemma prints_p fmt x args out : 0 <= x < 2 ^ 32 -> extends fmt -> prints fmt args out ->
  prints (CH_PERCENT :: 112 :: fmt) (VWord x :: args) (hex_padded 8 x ++ out).
Proof.
  intros Hx He H. eapply prints_directive; [|done].
  cbn [directive parse_attrs parse_width Z.eqb Pos.eqb andb Z.leb Z.compare Pos.compare Pos.compare_cont].
  rewrite format_p_word by done. unfold format_word, mbind, outcome_bind. by rewrite u32_small.
Qed.
Lemma prints_x fmt x args out : 0 <= x < 2 ^ 32 -> prints fmt args out ->
  prints (CH_PERCENT :: 120 :: fmt) (VWord x :: args) (hex x ++ out).
Proof.
  intros Hx H. eapply prints_directive; [|done]. cbn [directive parse_attrs parse_width Z.eqb Pos.eqb andb Z.leb Z.compare Pos.compare Pos.compare_cont].
  unfold format_u, arg_num, mbind, outcome_bind. change (1 =? 3) with false. cbv iota. by rewrite u32_small.
Qed.
Lemma prints_0x fmt w x args out : 1 <= w <= 9 -> 0 <= x < 2 ^ 32 -> prints fmt args out ->
  prints (CH_PERCENT :: 48 :: 48 + w :: 120 :: fmt) (VWord x :: args) (hex_padded w x ++ out).
Proof.
  intros Hw Hx H. eapply prints_directive; [|done].
  assert (w = 1 \/ w = 2 \/ w = 3 \/ w = 4 \/ w = 5 \/ w = 6 \/ w = 7 \/ w = 8 \/ w = 9) as Hc by lia.
  unfold hex_padded. rewrite <- (u32_small x) at 2 by lia. by destruct Hc as [->|[->|[->|[->|[->|[->|[->|[->| ->]]]]]]]].
Qed.
(** A literal prefix. *)
Lemma prints_text t fmt args out : Forall (fun c => c <> CH_PERCENT) t -> prints fmt args out -> prints (t ++ fmt) args (t ++ out).
Proof. intros Hf H. induction Hf as [|c t Hc Hf IH]; [done|]. by apply prints_char. Qed.
Lemma vprintf_prints fmt args out : prints fmt args out -> vprintf fmt args = Ok out.
Proof.
  intros H. rewrite <- (app_nil_r fmt), <- (app_nil_r args), (vprintf_app _ _ _ _ _ H); [|done].
  unfold mbind, outcome_bind. cbn. by rewrite app_nil_r.
Qed.

(** A message between a prefix and a suffix: the prefix ends in a plain character. *)
Lemma vprintf_framed f fargs fout c fmt args text post :
  prints f fargs fout -> c <> CH_PERCENT -> c <> 73 -> prints fmt args text -> extends post -> Forall (fun x => x <> CH_PERCENT) post ->
  vprintf (f ++ c :: fmt ++ post) (fargs ++ args) = Ok (fout ++ c :: text ++ post).
Proof.
  intros Hf Hc Hc' Ht He Hp. rewrite (vprintf_app _ _ _ _ _ Hf), vprintf_cons by done.
  rewrite <- (app_nil_r args), (vprintf_app _ _ _ _ _ Ht) by done.
  rewrite (vprintf_prints post [] post); [done|]. rewrite <- (app_nil_r post). apply prints_text; [done|constructor].
Qed.

Definition plain (t : list Z) : Prop := Forall (fun c => c <> CH_PERCENT) t.
#[local] Instance plain_dec t : Decision (plain t) := _.
(** ["[name]label "] before the message, in a colour, and [post] behind it. *)
Definition message_text (color name : list Z) (label : string) (text post : list Z) : list Z :=
  color ++ chars "[" ++ name ++ chars "]" ++ chars label ++ [CH_SPACE] ++ text ++ post.
Lemma message_run color name label fmt args text post :
  plain color -> plain (chars label) -> plain post -> extends post -> prints fmt args text ->
  vprintf (color ++ chars "[%s]" ++ chars label ++ [CH_SPACE] ++ fmt ++ post) (VStr (Some name) :: args)
  = Ok (message_text color name label text post).
Proof.
  intros Hc Hl Hp He Ht. unfold message_text.
  pose proof (vprintf_framed (color ++ chars "[%s]" ++ chars label) [VStr (Some name)]
    (color ++ chars "[" ++ name ++ chars "]" ++ chars label) CH_SPACE fmt args text post) as H.
  rewrite <- !app_assoc in H. apply H; [|done|done|done|done|done].
  apply prints_text; [done|]. cbn. apply prints_char; [done|]. apply prints_s, prints_char; [done|].
  rewrite <- (app_nil_r (chars label)). apply prints_text; [done|constructor].
Qed.

Definition post_reset : list Z := SGR_RESET ++ PRINT_NL.
Ltac by_message color label post H :=
  exact (message_run color _ label _ _ _ post ltac:(by apply (bool_decide_unpack _)) ltac:(by apply (bool_decide_unpack _))
           ltac:(by apply (bool_decide_unpack _)) ltac:(done) H).

(** On a complete format the message macros print its text, prefixed by the program's
    name and the level, in the level's colour, which is reset before the end of the line. *)
Theorem message_macros_text P fmt args text (name := __program_name P) : prints fmt args text ->
  TRACE P fmt args = Ok (message_text [] name "" text PRINT_NL)
  /\ DBG P fmt args = Ok (message_text SGR_DEBUG name "" text post_reset)
  /\ INFO P fmt args = Ok (message_text SGR_INFO name "" text post_reset)
  /\ WARN P fmt args = Ok (message_text SGR_WARN name " WARN:" text post_reset)
  /\ ERROR P fmt args = Ok (message_text SGR_ERR name " ERROR:" text post_reset).
Proof.
  intros H. split_and!; [by_message (@nil Z) ""%string PRINT_NL H|by_message SGR_DEBUG ""%string post_reset H|by_message SGR_INFO ""%string post_reset H|
    by_message SGR_WARN " WARN:"%string post_reset H|by_message SGR_ERR " ERROR:"%string post_reset H].
Qed.

(** ** Backtraces *)

(** The return addresses of at most [n] frames from a frame pointer on, innermost first. *)
Fixpoint callers (P : program) (n : nat) (fp : Z) : option (list Z) :=
  match n with
  | O => Some []
  | S n' =>
      if fp =? 0 then Some []
      else ra ← p_word P (u32 (fp - 8) + 4); fp' ← p_word P (u32 (fp - 8)); cons ra <$> callers P n' fp'
  end.
Definition warn_line (name text : list Z) : list Z := message_text SGR_WARN name " WARN:" text post_reset.
(** One line for each address up to the first that has no symbol. *)
Fixpoint trace_lines (name : list Z) (syms : list symbol) (i : Z) (ras : list Z) : list Z :=
  match ras with
  | [] => []
  | ra :: ras' =>
      match symbol_below ra syms with
      | None => warn_line name (chars "    #" ++ dec i ++ chars ": " ++ hex_padded 8 ra ++ chars " (invalid address)")
      | Some s =>
          warn_line name (chars "    #" ++ dec i ++ chars ": " ++ hex_padded 8 ra ++ chars " " ++ sym_name s
                          ++ chars "()+0x" ++ hex (ra - sym_addr s))
          ++ trace_lines name syms (i + 1) ras'
      end
  end.

Lemma warn_text P fmt args text : prints fmt args text -> WARN P fmt args = Ok (warn_line (__program_name P) text).
Proof. intros H. by_message SGR_WARN " WARN:"%string post_reset H. Qed.
Ltac prints_literal := apply prints_char; [done|].
Lemma invalid_line_text i ra : 0 <= i < 2 ^ 31 -> 0 <= ra < 2 ^ 32 ->
  prints (chars "    #%d: %p (invalid address)") [VWord i; VWord ra]
    (chars "    #" ++ dec i ++ chars ": " ++ hex_padded 8 ra ++ chars " (invalid address)").
Proof.
  intros Hi Hr. cbn -[dec hex_padded]. do 5 prints_literal. apply prints_d; [done|]. do 2 prints_literal. apply prints_p; [done|done|].
  do 18 prints_literal. constructor.
Qed.
Lemma symbol_line_text i ra nm off : 0 <= i < 2 ^ 31 -> 0 <= ra < 2 ^ 32 -> 0 <= off < 2 ^ 32 ->
  prints (chars "    #%d: %p %s()+0x%x") [VWord i; VWord ra; VStr (Some nm); VWord off]
    (chars "    #" ++ dec i ++ chars ": " ++ hex_padded 8 ra ++ chars " " ++ nm ++ chars "()+0x" ++ hex off).
Proof.
  intros Hi Hr Ho. cbn -[dec hex_padded hex]. do 5 prints_literal. apply prints_d; [done|]. do 2 prints_literal. apply prints_p; [done|done|].
  prints_literal. apply prints_s. do 5 prints_literal. rewrite <- (app_nil_r (hex off)). apply prints_x; [done|constructor].
Qed.
Lemma symbol_below_Some addr l s : symbol_below addr l = Some s -> s ∈ l /\ sym_addr s <= addr.
Proof. unfold symbol_below. intros H. apply last_Some_elem_of, list_elem_of_filter in H. tauto. Qed.

Section Backtrace.
Context (P : program) (Ht : table_ok (__symbol_table P)).
Context (Hw : forall a w, p_word P a = Some w -> 0 <= w < 2 ^ 32).
Lemma backtrace_loop_run n i fp ras : 0 <= i -> i + Z.of_nat n < 2 ^ 31 -> callers P n fp = Some ras ->
  backtrace_loop P n i fp = Ok (trace_lines (__program_name P) (symbols (__symbol_table P)) i ras).
Proof.
  revert i fp ras. induction n as [|n IH]; intros i fp ras Hi Hn H; cbn [callers backtrace_loop] in *; [by simplify_eq|].
  destruct (fp =? 0); [by simplify_eq|]. apply bind_Some in H as (ra & Era & H). apply bind_Some in H as (fp' & Efp & H).
  apply fmap_Some in H as (ras' & Hras & ->). unfold mbind, outcome_bind, word. rewrite Era, (find_symbol_run P Ht). cbn [trace_lines].
  pose proof (Hw _ _ Era). destruct (symbol_below ra _) as [s|] eqn:Es.
  - pose proof Es as [Hin Hle]%symbol_below_Some. pose proof (to_words _ Ht) as HF. rewrite Forall_forall in HF. pose proof (HF s Hin).
    rewrite u32_small by lia. rewrite (warn_text _ _ _ _ (symbol_line_text i ra (sym_name s) (ra - sym_addr s) ltac:(lia) ltac:(lia) ltac:(lia))).
    rewrite Efp, (IH _ _ ras'); [done|lia|lia|done].
  - apply warn_text, invalid_line_text; lia.
Qed.
End Backtrace.

(** C37: a backtrace always ends, after at most sixteen frames, also on a cyclic chain of
    frames, and shows for every return address of the chain, up to the first one below all
    symbols, the last symbol that starts at or below it (which the binary search of
    find_symbol finds in the sorted table) and the offset from it. *)
Theorem backtrace_lists_callers P ras :
  table_ok (__symbol_table P) -> (forall a w, p_word P a = Some w -> 0 <= w < 2 ^ 32) ->
  p_fp P <> 0 -> callers P BACKTRACE_MAX (p_fp P) = Some ras ->
  backtrace P = Ok (trace_lines (__program_name P) (symbols (__symbol_table P)) 0 ras) /\ (length ras <= 16)%nat.
Proof.
  intros Ht Hw Hfp Hc. split.
  - unfold backtrace. rewrite (proj2 (Z.eqb_neq _ _) Hfp). by apply backtrace_loop_run.
  - assert (HL : forall n fp l, callers P n fp = Some l -> (length l <= n)%nat); [|by apply (HL BACKTRACE_MAX (p_fp P))].
    clear. induction n as [|n IH]; intros fp l H; cbn in H; [by simplify_eq|]. destruct (fp =? 0); [simplify_eq; cbn; lia|].
    apply bind_Some in H as (? & _ & H). apply bind_Some in H as (? & _ & H). apply fmap_Some in H as (l' & H & ->). apply IH in H. cbn. lia.
Qed.
(** A frame that is its own caller. *)
Definition demo_program : program :=
  Program (chars "demo")
    (SymbolTable SYMBOL_TABLE_MAGIC 2 [Symbol 0x80000000 (chars "boot"); Symbol 0x80000010 (chars "main")])
    (fun a => if a =? 0xff8 then Some 0x1000 else if a =? 0xffc then Some 0x80000014 else None) 0x1000.
Lemma backtrace_lists_callers_witness :
  backtrace demo_program = Ok (trace_lines (chars "demo") (symbols (__symbol_table demo_program)) 0 (replicate 16 0x80000014))
  /\ (length (replicate 16 0x80000014) <= 16)%nat
  /\ symbol_below 0x80000014 (symbols (__symbol_table demo_program)) = Some (Symbol 0x80000010 (chars "main")).
Proof.
  split; [|split; [cbn; lia|reflexivity]].
  apply (backtrace_lists_callers demo_program (replicate 16 0x80000014)); [|intros a w|done|reflexivity].
  - split; [done|done|done|repeat constructor; done|by repeat constructor].
  - cbn [p_word demo_program]. repeat case_match; intros; simplify_eq; lia.
Defined.

(** ** Panics *)

(** The macro for unimplemented code ends the program, but leaves the terminal in the
    error colour and prints the letters of the name of its reset sequence: the name stands
    inside the format's quotes. *)
Theorem nyi_text P func file line : 0 <= line < 2 ^ 31 ->
  NYI P func file line =
    Ok (SGR_ERR ++ chars "[" ++ __program_name P ++ chars "] " ++ func ++ chars "(): not yet implemented: " ++ file
        ++ chars ":" ++ dec line ++ [10] ++ chars " SGR_RESET", Ends).
Proof.
  intros Hl. unfold NYI, ends, mbind, outcome_bind. rewrite (vprintf_prints _ _ (SGR_ERR ++ chars "[" ++ __program_name P ++ chars "] " ++ func
    ++ chars "(): not yet implemented: " ++ file ++ chars ":" ++ dec line ++ [10] ++ chars " SGR_RESET")); [done|].
  cbn -[dec]. do 8 prints_literal. apply prints_s. do 2 prints_literal. apply prints_s. do 25 prints_literal. apply prints_s.
  prints_literal. apply prints_d; [done|]. do 11 prints_literal. constructor.
Qed.
Lemma nyi_text_witness :
  NYI demo_program (chars "f") (chars "x.c") 7
  = Ok (SGR_ERR ++ chars "[demo] f(): not yet implemented: x.c:7" ++ [10] ++ chars " SGR_RESET", Ends).
Proof. exact (nyi_text demo_program (chars "f") (chars "x.c") 7 ltac:(lia)). Defined.

(** An access through a misaligned pointer is reported, and the program goes on; through
    NULL, and to an object too small, it ends. *)
Theorem type_mismatch_flow P ip data ptr t fl :
  __ubsan_handle_type_mismatch_v1 P ip data ptr = Ok (t, fl) ->
  fl = Goes <-> ptr <> 0 /\ mm_align data <> 0 /\ IS_ALIGNED ptr (Z.shiftl 1 (mm_align data)) = false.
Proof.
  unfold __ubsan_handle_type_mismatch_v1, report_ubsan_event, PANIC, ends, mbind, outcome_bind.
  destruct (Z.eqb_spec ptr 0); [destruct (with_backtrace _ _); naive_solver|]. destruct (31 <=? mm_align data); [done|].
  destruct (Z.eqb_spec (mm_align data) 0); cbn [negb andb].
  - destruct (with_backtrace _ _); naive_solver.
  - destruct (IS_ALIGNED ptr _) eqn:Ea; cbn [negb]; [destruct (with_backtrace _ _); naive_solver|]. destruct (WARN _ _ _); naive_solver.
Qed.

(** ** HEXDUMP *)
Definition hex_bytes (bs : list Z) : list Z := concat ((fun b => hex_padded 2 b ++ [CH_SPACE]) <$> bs).
Definition hex_head (name : list Z) (off : Z) : list Z := chars "[" ++ name ++ chars "] " ++ hex_padded 4 off ++ chars ": ".
(** Sixteen bytes per line. *)
Fixpoint hex_lines (n : nat) (name : list Z) (off : Z) (bs : list Z) : list Z :=
  match n with
  | O => []
  | S n' => hex_head name off ++ hex_bytes (take 16 bs) ++ PRINT_NL
            ++ match drop 16 bs with [] => [] | bs' => hex_lines n' name (off + 16) bs' end
  end.
Lemma hex_lines_fuel n m name off bs : (length bs <= n)%nat -> (length bs <= m)%nat -> bs <> [] ->
  hex_lines n name off bs = hex_lines m name off bs.
Proof.
  revert m off bs. induction n as [|n IH]; intros [|m] off [|b bs] Hn Hm Hb; cbn in Hn, Hm; try done; try lia.
  cbn [hex_lines]. do 3 f_equal. destruct (drop 16 (b :: bs)) as [|c cs] eqn:E; [done|].
  assert (length (c :: cs) <= length bs)%nat by (rewrite <- E, length_drop; cbn; lia). apply IH; [lia|lia|done].
Qed.
Definition more_lines (name : list Z) (off : Z) (bs : list Z) : list Z :=
  match bs with [] => [] | _ => hex_lines (length bs) name off bs end.
Lemma hex_lines_more n name off bs : (length bs <= S n)%nat ->
  hex_lines (S n) name off bs = hex_head name off ++ hex_bytes (take 16 bs) ++ PRINT_NL ++ more_lines name (off + 16) (drop 16 bs).
Proof.
  intros Hn. cbn [hex_lines]. do 3 f_equal. unfold more_lines. destruct (drop 16 bs) as [|c cs] eqn:E; [done|].
  assert (length (c :: cs) <= n)%nat by (rewrite <- E, length_drop; lia). apply hex_lines_fuel; [lia|lia|done].
Qed.
Lemma hex_head_run P i : 0 <= i < 2 ^ 32 -> hexdump_head P i = Ok (hex_head (__program_name P) i).
Proof.
  intros Hi. apply vprintf_prints. unfold hex_head. cbn -[hex_padded]. prints_literal. apply prints_s. do 2 prints_literal.
  apply (prints_0x _ 4); [lia|done|]. do 2 prints_literal. constructor.
Qed.
Lemma hex_byte_run b : 0 <= b < 2 ^ 32 -> vprintf (chars "%02x ") [VWord b] = Ok (hex_padded 2 b ++ [CH_SPACE]).
Proof. intros Hb. apply vprintf_prints. apply (prints_0x _ 2); [lia|done|]. prints_literal. constructor. Qed.

Lemma hexdump_loop_run P bs : Forall (fun b => 0 <= b < 256) bs -> forall (i : Z) (k : nat),
  0 <= i -> i + Z.of_nat (length bs) < 2 ^ 32 -> (k <= 16)%nat -> (i + Z.of_nat k) `mod` 16 = 0 -> (k = 0%nat <-> 0 < i /\ i `mod` 16 = 0) ->
  exists t, hexdump_loop P i bs = Ok t /\ t ++ PRINT_NL = hex_bytes (take k bs) ++ PRINT_NL
    ++ more_lines (__program_name P) (i + Z.of_nat k) (drop k bs).
Proof.
  intros HF. induction HF as [|b bs Hb HF IH]; intros i k Hi Hl Hk Hm Hz; cbn [hexdump_loop length] in *.
  { exists []. by rewrite take_nil, drop_nil. }
  unfold mbind, outcome_bind. rewrite (hex_byte_run b) by lia. destruct k as [|k].
  - destruct (proj1 Hz eq_refl) as [H0 H1]. rewrite (proj2 (Z.ltb_lt 0 i) H0), H1. cbn [andb Z.eqb]. cbn [vprintf].
    rewrite (vprintf_prints PRINT_NL [] PRINT_NL) by (do 2 prints_literal; constructor). rewrite hex_head_run by lia.
    destruct (IH (i + 1) 15%nat) as (t & -> & Et); [lia|lia|lia|Z.div_mod_to_equations; lia|Z.div_mod_to_equations; lia|].
    eexists. split; [done|]. rewrite <- !app_assoc, Et. cbn [drop]. unfold more_lines at 2. cbn [length]. rewrite hex_lines_more by done.
    rewrite Z.add_0_r. replace (i + 1 + Z.of_nat 15) with (i + 16) by lia. cbn [take drop hex_bytes fmap list_fmap concat app].
    by rewrite <- !app_assoc.
  - replace ((0 <? i) && (i `mod` 16 =? 0)) with false.
    2:{ symmetry. apply andb_false_iff. rewrite Z.ltb_ge, Z.eqb_neq. destruct (Z_lt_dec 0 i); [right|left; lia]. intros H. destruct Hz as [_ Hz]. by discriminate Hz. }
    destruct (IH (i + 1) k) as (t & -> & Et); [lia|lia|lia|by replace (i + 1 + Z.of_nat k) with (i + Z.of_nat (S k)) by lia|Z.div_mod_to_equations; lia|].
    eexists. split; [done|]. cbn [app take drop hex_bytes fmap list_fmap concat]. rewrite <- !app_assoc, Et.
    replace (i + Z.of_nat (S k)) with (i + 1 + Z.of_nat k) by lia. done.
Qed.

(** A hex dump prints every byte once, in order, sixteen to a line, each line headed by
    the program's name and the offset of its first byte. *)
Theorem hexdump_correct P bs : Forall (fun b => 0 <= b < 256) bs -> Z.of_nat (length bs) < 2 ^ 32 ->
  HEXDUMP P bs = Ok (hex_lines (S (length bs)) (__program_name P) 0 bs).
Proof.
  intros HF Hl. unfold HEXDUMP, mbind, outcome_bind. rewrite hex_head_run by lia.
  destruct (hexdump_loop_run P bs HF 0 16) as (t & -> & Et); [lia|lia|lia|done|split; [done|lia]|].
  rewrite (vprintf_prints PRINT_NL [] PRINT_NL) by (do 2 prints_literal; constructor). rewrite Et, hex_lines_more by lia. done.
Qed.
