(* ===== verification/Boot.v ===== *)
(** Boot (kernel/main.c, kernel/riscv32/setup.c): from the first instruction in machine
    mode to the idle loop of every CPU.

    [riscv32_boot] runs in machine mode and sets up the hart; [mret] takes it to
    [riscv32_setup] on CPU 0 and to [riscv32_setup_mp] on the others, which get the
    kernel lock and initialise the kernel.  The state is the machine of Trap.v, the
    devices behind [PhysMmio] and the flag [hart0_ready].  The first task's ELF image is
    the bytes the linker embedded at [__boot_elf].

    The theorems: whatever memory, image and devices, a boot that gets to the idle loop
    leaves a kernel in which the scheduling invariant of KInv.v holds, so that
    everything proved of kernel steps holds from then on. *)

From S2P Require Import Prelude Types KData Memory Vm Kernel Task Ipc Syscall KInv Sched Safety IpcProps Lifecycle Reach Mp Riscv Trap VmServer.

(** ** Memory as the loader leaves it *)

(** The bytes of physical memory, kept in words. *)
Definition pm_load_byte (a : Z) (m : memory) : Z := nth (Z.to_nat (a `mod` 4)) (le_split 4 (pm_load (a - a `mod` 4) m)) 0.
Definition pm_store_byte (a b : Z) (m : memory) : memory :=
  pm_store (a - a `mod` 4) (le_combine (<[Z.to_nat (a `mod` 4) := b]> (le_split 4 (pm_load (a - a `mod` 4) m)))) m.
Fixpoint memcpy_bytes (a : Z) (bs : list Z) (m : memory) : memory :=
  match bs with
  | [] => m
  | b :: bs' => memcpy_bytes (a + 1) bs' (pm_store_byte a b m)
  end.

(** The kernel's variables after [riscv32_boot] has cleared the .bss section; [ram] is
    whatever the rest of memory holds. *)
Definition zero_task : task :=
  TaskStruct 0 0 0 0 0 [] TASK_UNUSED false None 0 0 0 [] 0 0 (Message 0 0 (replicate sizeof_message_data 0)) KRun 0.
Definition bss_tasks : gmap tptr task :=
  list_to_map ((fun t => (t, zero_task)) <$>
    ((Task <$> seq 0 (Z.to_nat NUM_TASKS_MAX)) ++ (Idle <$> seq 0 (Z.to_nat NUM_CPUS_MAX)))).
Definition bss_kernel (ram : gmap Z Z) : kernel :=
  Kernel bss_tasks [] [] ∅ [] (replicate 128 0) 0 0 (replicate 32 None) (replicate 32 false) 0 [] (Memory [] ∅ ram) ∅ 0.
Definition zero_cpuvar : cpuvar := CpuVar 0 0 0 0 0 0 false 0 0.

(** ** The first task *)
Section Boot.
Context (stack_garbage : message).
Context (user_tramp kernel_tramp hinavm_run riscv32_usercopy1 riscv32_usercopy2 : Z).
Context (cpuvar_addr : nat -> Z) (boot_stack : nat -> Z).
Context (riscv32_trap_handler riscv32_timer_handler riscv32_setup_addr riscv32_setup_mp_addr : Z).
Context (ld : kernel_layout) (image : list Z).
(** What the owner fields of new page descriptors hold before their first use. *)
Context (junk : nat -> option tptr).

(** [n] bytes of the image; bytes behind its end are whatever the kernel has there. *)
Definition boot_bytes (off n : Z) : outcome (list Z) :=
  if off + n <=? Z.of_nat (length image) then Ok (take (Z.to_nat n) (drop (Z.to_nat off) image)) else Undef.

Definition boot_attrs (p_flags : Z) : Z :=
  let attrs := PAGE_USER in
  let attrs := Z.lor attrs (if has p_flags PF_R then PAGE_READABLE else 0) in
  let attrs := Z.lor attrs (if has p_flags PF_W then PAGE_WRITABLE else 0) in
  Z.lor attrs (if has p_flags PF_X then PAGE_EXECUTABLE else 0).

(** The pages of a segment from [offset] on. *)
Fixpoint map_segment (t : tptr) (phdr : elf_phdr) (paddr attrs offset : Z) (n : nat) : KST unit :=
  match n with
  | O => mret tt
  | S n' =>
      x ← task_at t;
      po ← gets pager_of;
      err ← lift_mem (vm_map t po (t_table x) (u32 (p_vaddr phdr + offset)) (u32 (paddr + offset)) attrs);
      if negb (err =? OK) then panic
      else map_segment t phdr paddr attrs (offset + PAGE_SIZE) n'
  end.
Definition load_segment (t : tptr) (phdr : elf_phdr) : KST unit :=
  if negb (p_type phdr =? PT_LOAD) then mret tt
  else
    assert (p_filesz phdr <=? p_memsz phdr) ;;
    paddr ← lift_mem (pm_alloc (p_memsz phdr) (Some t) PM_ALLOC_ZEROED);
    assert (negb (paddr =? 0)) ;;
    bytes ← lift_out (boot_bytes (p_offset phdr) (p_filesz phdr));
    lift_mem (modify (memcpy_bytes (arch_paddr_to_vaddr paddr) bytes)) ;;
    let memsz := ALIGN_UP (p_memsz phdr) PAGE_SIZE in
    map_segment t phdr paddr (boot_attrs (p_flags phdr)) 0 (Z.to_nat (memsz / PAGE_SIZE)).
Fixpoint load_segments (t : tptr) (i n : nat) : KST unit :=
  match n with
  | O => mret tt
  | S n' =>
      phdr ← lift_out (phdr_at image i);
      load_segment t phdr ;;
      load_segments t (S i) n'
  end.
Definition create_first_task : KST unit :=
  if negb (bool_decide (take 4 image = ELF_MAGIC)) then panic
  else
    tid ← task_create user_tramp kernel_tramp [118; 109] (e_entry image) None;
    assert (IS_OK tid) ;;
    t ← task_find tid;
    match t with
    | None => undef
    | Some t => load_segments t 0 (Z.to_nat (e_phnum image))
    end.

(** ** The state of a booting machine *)
Section Devices.
Context {D : Type} `{PhysMmio D}.
Record board_state := BoardState { bs_machine : machine; bs_dev : D; bs_hart0_ready : bool }.
Abbreviation BST := (ST board_state).
Definition lift_m {A} (f : MST A) : BST A := fun s =>
  match f (bs_machine s) with
  | Ok (a, m) => Ok (a, BoardState m (bs_dev s) (bs_hart0_ready s))
  | Panic => Panic
  | Undef => Undef
  end.
Definition lift_d {A} (f : ST D A) : BST A := fun s =>
  match f (bs_dev s) with
  | Ok (a, d) => Ok (a, BoardState (bs_machine s) d (bs_hart0_ready s))
  | Panic => Panic
  | Undef => Undef
  end.

(** Accesses to the 64-bit timer registers, a word at a time. *)
Definition write_mtimecmp (c : nat) (v : Z) : BST unit :=
  a ← lift_m (gets (fun m => cv_mtimecmp (mc_var m c)));
  lift_d (mmio_write32_paddr a v) ;;
  lift_d (mmio_write32_paddr (a + 4) (Z.shiftr v 32)).
Definition read_mtime_low (c : nat) : BST Z :=
  a ← lift_m (gets (fun m => cv_mtime (mc_var m c)));
  lo ← lift_d (mmio_read32_paddr a);
  _ ← lift_d (mmio_read32_paddr (a + 4));
  mret (u32 lo).

(** ** Machine mode *)
Definition riscv32_cpuvar_of (hartid : Z) : BST Z :=
  assert (hartid <? NUM_CPUS_MAX) ;;
  mret (cpuvar_addr (Z.to_nat hartid)).

(** The part common to all harts. *)
Definition boot_hart (c : nat) (hartid : Z) : BST unit :=
  lift_m (lift_h c (write_medeleg 65535)) ;;
  lift_m (lift_h c (write_mideleg 65535)) ;;
  lift_m (lift_h c (write_pmpaddr0 4294967295)) ;;
  lift_m (lift_h c (write_pmpcfg0 15)) ;;
  cpuvar ← riscv32_cpuvar_of hartid;
  lift_m (set_var c (fun _ => CpuVar 0 (CLINT_MTIMECMP hartid) CLINT_MTIME MTIME_PER_1MS 0 hartid false 0 CPUVAR_MAGIC)) ;;
  lift_m (lift_h c (write_sscratch (u32 cpuvar))) ;;
  lift_m (lift_h c (write_mscratch (u32 cpuvar))) ;;
  lift_m (lift_h c (write_tp (u32 cpuvar))) ;;
  write_mtimecmp c 4294967295 ;;
  lift_m (set_var c (cv_set_sp_top 3735928559)) ;;
  lift_m (lift_h c (write_stvec riscv32_trap_handler)) ;;
  lift_m (lift_h c (write_mtvec riscv32_timer_handler)) ;;
  s ← lift_m (lift_h c read_mstatus);
  lift_m (lift_h c (write_mstatus (Z.lor s MSTATUS_MIE))) ;;
  e ← lift_m (lift_h c read_mie);
  lift_m (lift_h c (write_mie (Z.lor e MIE_MTIE))) ;;
  (if hartid =? 0 then lift_m (lift_h c (write_mepc riscv32_setup_addr))
   else lift_m (lift_h c (write_mepc riscv32_setup_mp_addr))) ;;
  s ← lift_m (lift_h c read_mstatus);
  let s := Z.land s (Z.lnot MSTATUS_MPP_MASK) in
  let s := Z.lor s MSTATUS_MPP_S in
  lift_m (lift_h c (write_mstatus s)) ;;
  lift_m (lift_h c asm_mret).

(** A CPU that waits for [hart0_ready] has no step before it is set. *)
Definition riscv32_boot (c : nat) (ram : gmap Z Z) : BST unit :=
  hartid ← lift_m (lift_h c read_mhartid);
  (if hartid =? 0 then
     lift_m (modify (fun m => mc_set_kernel (bss_kernel ram) (mc_set_var (fun _ => zero_cpuvar) m))) ;;
     modify (fun s => BoardState (bs_machine s) (bs_dev s) false) ;;
     lift_d riscv32_uart_init
   else
     ready ← gets bs_hart0_ready;
     if ready : bool then mret tt else undef) ;;
  boot_hart c hartid.

(** ** Supervisor mode *)
Definition arch_init : BST unit :=
  table ← lift_m (lift_k (lift_mem (riscv32_vm_init ld)));
  lift_m (lift_k (modify (fun k => Kernel (k_tasks k) (k_runqueue k) (k_active k) (k_current k) (k_readers k)
    (k_input k) (k_rp k) (k_wp k) (k_irq k) (k_irq_enabled k) (k_uptime k) (k_serial_out k) (k_mem k) (k_umem k) table))).

Definition arch_init_percpu (c : nat) : BST unit :=
  cur ← lift_m (lift_k (CURRENT_TASK c));
  assert (bool_decide (cur = Idle c)) ;;
  x ← lift_m (lift_k (task_at (Idle c)));
  lift_m (set_var c (cv_set_sp_top (t_sp_top x))) ;;
  s ← lift_m (lift_h c read_sstatus);
  lift_m (lift_h c (write_sstatus (Z.lor s SSTATUS_SUM))) ;;
  e ← lift_m (lift_h c read_sie);
  lift_m (lift_h c (write_sie (Z.lor (Z.lor (Z.lor e SIE_SEIE) SIE_STIE) SIE_SSIE))) ;;
  lift_m (set_var c (cv_set_online true)) ;;
  last_mtime ← read_mtime_low c;
  interval ← lift_m (gets (fun m => cv_interval (mc_var m c)));
  write_mtimecmp c (u32 (last_mtime + interval)) ;;
  lift_m (set_var c (cv_set_last_mtime last_mtime)) ;;
  id ← lift_m (gets (fun m => cv_id (mc_var m c)));
  if id =? 0 then
    modify (fun s => BoardState (bs_machine s) (bs_dev s) true) ;;
    _ ← lift_d (arch_irq_enable UART0_IRQ);
    mret tt
  else mret tt.

(** The first round of [idle_task], up to the end of the switch. *)
Definition idle_task (c : nat) : BST unit :=
  lift_m (save_cont c TIdle) ;;
  _ ← lift_m (lift_k (task_switch c));
  mret tt.

Definition kernel_main (c : nat) (frees devices : list (Z * Z)) : BST unit :=
  lift_m (lift_k (lift_mem (memory_init frees devices junk))) ;;
  arch_init ;;
  lift_m (lift_k (task_init_percpu user_tramp kernel_tramp c)) ;;
  lift_m (lift_k create_first_task) ;;
  arch_init_percpu c ;;
  idle_task c.
Definition kernel_mp_main (c : nat) : BST unit :=
  lift_m (lift_k (task_init_percpu user_tramp kernel_tramp c)) ;;
  arch_init_percpu c ;;
  idle_task c.

(** [stack_reset_current_canary] on the stack the CPU boots with. *)
Definition stack_reset_current_canary (c : nat) : BST unit :=
  lift_m (lift_k (lift_mem (stack_set_canary (boot_stack c)))).

Definition free_regions : list (Z * Z) :=
  [(ALIGN_UP (__free_ram_start ld) PAGE_SIZE, u32 (RAM_SIZE - (__free_ram_start ld - __ram_start ld)))].
Definition device_regions : list (Z * Z) := [(VIRTIO_BLK_PADDR, 4096); (VIRTIO_NET_PADDR, 4096)].

Definition riscv32_setup (c : nat) : BST unit :=
  lift_m (set_mode c MKernel) ;;
  lift_m (mp_lock c) ;;
  id ← lift_m (gets (fun m => cv_id (mc_var m c)));
  lift_d (riscv32_plic_init_percpu id) ;;
  stack_reset_current_canary c ;;
  kernel_main c free_regions device_regions.
Definition riscv32_setup_mp (c : nat) : BST unit :=
  lift_m (set_mode c MKernel) ;;
  lift_m (mp_lock c) ;;
  id ← lift_m (gets (fun m => cv_id (mc_var m c)));
  lift_d (riscv32_plic_init_percpu id) ;;
  stack_reset_current_canary c ;;
  kernel_mp_main c.

(** [arch_shutdown]: the emulator's test device ends the run; the code panics if it goes on. *)
Definition arch_shutdown (c : nat) : BST unit :=
  lift_m (lift_h c (write_satp 0)) ;;
  lift_d (mmio_write32_paddr 1048576 21845 (* 0x5555 *)) ;;
  panic.
End Devices.
End Boot.

(** ** The invariant at boot *)

Lemma bss_lookup t x : bss_tasks !! t = Some x ->
  x = zero_task /\ match t with Task i => (i < Z.to_nat NUM_TASKS_MAX)%nat | Idle c => (c < Z.to_nat NUM_CPUS_MAX)%nat end.
Proof.
  intros H. apply elem_of_list_to_map_2, list_elem_of_fmap in H as (t' & [= <- ->] & Hin). split; [done|].
  apply elem_of_app in Hin as [(i & -> & Hi%elem_of_seq)%list_elem_of_fmap|(i & -> & Hi%elem_of_seq)%list_elem_of_fmap]; lia.
Qed.
Lemma bss_in t : match t with Task i => (i < Z.to_nat NUM_TASKS_MAX)%nat | Idle c => (c < Z.to_nat NUM_CPUS_MAX)%nat end ->
  bss_tasks !! t = Some zero_task.
Proof.
  intros H. apply elem_of_list_to_map_1'.
  - intros y (t' & [= <- ->] & _)%list_elem_of_fmap. done.
  - apply list_elem_of_fmap. exists t. split; [done|]. apply elem_of_app.
    destruct t as [i|c]; [left|right]; apply list_elem_of_fmap; eexists; (split; [done|]); apply elem_of_seq; lia.
Qed.

Lemma bss_kinv ram : kinv (bss_kernel ram).
Proof.
  assert (HV : forall t v, views (bss_kernel ram) !! t = Some v -> v = view_of zero_task).
  { intros t v (x & Hx & ->)%views_lookup. by apply bss_lookup in Hx as [-> _]. }
  split; [split|split]; cbn [k_runqueue k_readers k_current k_active bss_kernel].
  - intros c t. by rewrite lookup_empty.
  - intros c c' t. by rewrite lookup_empty.
  - intros c v ->%HV. split_and!; [done|done|by left].
  - intros c [t Ht]. by rewrite lookup_empty in Ht.
  - intros i. split.
    + intros [v (x & Hx & _)%views_lookup]. by apply bss_lookup in Hx as [_ Hi].
    + intros Hi. eexists. by apply views_task, bss_in.
  - intros i v ->%HV. done.
  - apply NoDup_nil_2.
  - intros t Ht. by apply not_elem_of_nil in Ht.
  - intros i v ->%HV. done.
  - apply NoDup_nil_2.
  - intros t Ht. by apply not_elem_of_nil in Ht.
  - intros d v ->%HV. apply NoDup_nil_2.
  - intros d v t ->%HV Ht. by apply not_elem_of_nil in Ht.
  - intros i v ->%HV. done.
  - intros t v ->%HV. done.
  - intros a b v w ->%HV _ Hb. by apply not_elem_of_nil in Hb.
  - intros t v ->%HV. done.
  - intros t p. unfold pagers. rewrite lookup_fmap. cbn. destruct (bss_tasks !! t) as [x|] eqn:Hx; [|done].
    apply bss_lookup in Hx as [-> _]. done.
  - intros n t. unfold irq_listener. cbn -[lookup replicate]. intros H. exfalso. revert H.
    destruct (replicate 32 None !! _) as [o|] eqn:E; [|done]. by apply lookup_replicate in E as [-> _].
  - intros t Ht. by apply not_elem_of_nil in Ht.
Qed.

(** A CPU's idle task, set up and running. *)
Lemma vinv_idle V rq rd cur c v tid :
  vinv None V rq rd cur -> V !! Idle c = Some v -> v_state v = TASK_UNUSED -> cur !! c = None ->
  vinv None (<[Idle c := View TASK_BLOCKED tid [] IPC_DENY KRun None]> V) rq rd (<[c := Idle c]> cur).
Proof.
  intros [Icur Iinj Iidle Iidx Idom Itid Irqn Irq Ilive Irdn Ird Isnn Isnd Ictx Iun Imu Ifl] Hv Hun Hc.
  assert (Hcur : forall c' i, <[c := Idle c]> cur !! c' = Some (Task i) <-> cur !! c' = Some (Task i)).
  { intros c' i. rewrite lookup_insert. case_decide; [subst; rewrite Hc; split; done|done]. }
  split; try done.
  - intros c' t Ht. destruct t as [i|d].
    + apply Hcur in Ht. destruct (Icur _ _ Ht) as [?|(j & w & [= <-] & Hw & ?)]; [done|]. right. exists i, w. by rewrite lookup_insert_ne.
    + left. rewrite lookup_insert in Ht. case_decide; [congruence|]. destruct (Icur _ _ Ht) as [?|(? & ? & ? & _)]; done.
  - intros c1 c2 [i|d] H1 H2; [apply (Iinj c1 c2 (Task i)); by apply Hcur|]. rewrite lookup_insert in H1, H2.
    assert (Hd : forall c', cur !! c' = Some (Idle d) -> d = c') by (intros c' Hx; destruct (Icur _ _ Hx) as [?|(? & ? & ? & _)]; congruence).
    repeat case_decide; simplify_eq; try done; [symmetry|..]; eauto.
  - intros c' w Hw. vlook Hw; [auto|eauto].
  - intros c' Hc'. rewrite lookup_insert. case_decide; [done|]. apply Iidx. rewrite lookup_insert_ne in Hc' by congruence. done.
  - intros i. by rewrite lookup_insert_ne.
  - intros i w. rewrite lookup_insert_ne by done. apply Itid.
  - intros t Ht. destruct (Irq _ Ht) as (i & w & -> & ? & ? & Hn). exists i, w. rewrite lookup_insert_ne by done.
    split_and!; [done..|]. intros c' Hc'. by apply Hcur, Hn in Hc'.
  - intros i w. rewrite lookup_insert_ne by done. intros Hw Hr. destruct (Ilive _ _ Hw Hr) as [?|[c' ?]]; [by left|].
    right. exists c'. by apply Hcur.
  - intros t Ht. destruct (Ird _ Ht) as (i & w & b & n & -> & ?). exists i, w, b, n. by rewrite lookup_insert_ne.
  - intros d w Hd. vlook Hd; [apply NoDup_nil_2|eauto].
  - intros d w u Hd Hs. vlook Hd; [by apply not_elem_of_nil in Hs|].
    destruct (Isnd _ _ _ Hd Hs) as (j & y & -> & ?). exists j, y. by rewrite lookup_insert_ne.
  - intros i w. rewrite lookup_insert_ne by done. intros Hw Hu. specialize (Ictx _ _ Hw Hu). unfold ctx_ok in *.
    destruct (v_ctx w) as [|d ? ? ? ? ?| | |]; try done. destruct Ictx as (Hdn & w0 & Hw0 & Hq & Hr). split; [done|].
    destruct (decide (d = Idle c)) as [->|Hne]; [|exists w0; by rewrite lookup_insert_ne].
    assert (w0 = v) as -> by congruence. exfalso. destruct (v_state w) eqn:Hst; [done|destruct (Hr eq_refl); congruence|].
    specialize (Hq eq_refl). rewrite (Iun _ _ Hv Hun) in Hq. by apply not_elem_of_nil in Hq.
  - intros t w Ht. vlook Ht; [done|eauto].
  - apply (mutual_shrink V); [done|]. intros t w Ht. vlook Ht; [|eauto]. exists v. split; [done|]. by intros u Hs%not_elem_of_nil.
  - intros t w Ht. vlook Ht; [done|eauto].
Qed.

(** ** What the steps of the boot change *)
Section BootKinv.
Context (ut kt : Z).

(** *** A CPU's idle task *)
Lemma task_init_percpu_kinv c x k k' :
  kinv k -> k_tasks k !! Idle c = Some x -> t_state x = TASK_UNUSED -> k_current k !! c = None ->
  task_init_percpu ut kt c k = Ok (tt, k') ->
  kinv k' /\ k_current k' = <[c := Idle c]> (k_current k) /\ k_runqueue k' = k_runqueue k /\ k_active k' = k_active k
  /\ forall t, t <> Idle c -> k_tasks k' !! t = k_tasks k !! t.
Proof.
  intros Hk Hx Hu Hc H. unfold task_init_percpu in H. apply ST_bind_ok in H as (r & k1 & H1 & H).
  apply assert_bind_inv in H as [Hr H]. injection H as <-.
  destruct (init_task_struct_inv _ _ _ _ _ _ _ _ _ _ _ _ _ Hx H1 Hr) as (table & m1 & sp & sb & st & m2 & Hvm & Hti).
  destruct (init_task_struct_run ut kt (Idle c) x 0 (chars "(idle)") 0 None 0 0 table m1 sp sb st m2 k Hx)
    as (k2 & E2 & ET & Erq & Erd & Ecur & Eirq & Eact); [done|done|done|done|].
  rewrite E2 in H1. injection H1 as <- <-. cbn [bump] in ET. set (y := with_state TASK_BLOCKED _) in ET.
  pose proof Hk as [I [S1 S2 S3]].
  assert (EV : views k2 = <[Idle c := view_of y]> (views k)) by (unfold views; by rewrite ET, fmap_insert).
  assert (EP : pagers k2 = <[Idle c := None]> (pagers k)) by (unfold pagers; by rewrite ET, fmap_insert).
  split_and!; [|cbn; by rewrite Ecur|done|done|intros t Ht; cbn; by rewrite ET, lookup_insert_ne].
  split; [|split].
  - change (vinv None (views k2) (k_runqueue k2) (k_readers k2) (<[c := Idle c]> (k_current k2))). rewrite EV, Erq, Erd, Ecur.
    eapply (vinv_idle _ _ _ _ c (view_of x)); [done|by apply views_task|done|done].
  - change (forall t p, pagers k2 !! t = Some (Some p) ->
      exists j v, p = Task j /\ views k2 !! p = Some v /\ v_state v <> TASK_UNUSED). rewrite EV, EP.
    intros t p. rewrite lookup_insert. case_decide; [done|]. intros (j & v & -> & Hv & Hn)%S1. exists j, v. by rewrite lookup_insert_ne.
  - intros n t. unfold irq_listener. cbn. rewrite Eirq. apply S2.
  - change (forall t, t ∈ k_active k2 -> exists j v, t = Task j /\ views k2 !! t = Some v /\ v_state v <> TASK_UNUSED).
    rewrite EV, Eact. intros t (j & v & -> & Hv & Hn)%S3. exists j, v. by rewrite lookup_insert_ne.
Qed.

(** *** The first task *)
Lemma map_segment_mem t ph pa attrs n off k k' : map_segment t ph pa attrs off n k = Ok (tt, k') -> exists m, k' = set_mem m k.
Proof.
  revert off k. induction n as [|n IH]; intros off k H; [injection H as <-; exists (k_mem k); by destruct k|].
  cbn [map_segment] in H. apply ST_bind_ok in H as (x & k1 & H1 & H). unfold task_at, getopt in H1.
  destruct (k_tasks k !! t); [|done]. injection H1 as -> <-. rewrite (ST_bind_run (gets _) _ _ _ _ eq_refl) in H.
  apply ST_bind_ok in H as (err & k2 & (m2 & _ & ->)%lift_mem_inv & H). destruct (negb (err =? OK)); [done|].
  apply IH in H as [m ->]. by exists m.
Qed.
Lemma load_segment_mem image t ph k k' : load_segment image t ph k = Ok (tt, k') -> exists m, k' = set_mem m k.
Proof.
  unfold load_segment. destruct (negb _); [intros [= <-]; exists (k_mem k); by destruct k|].
  intros [_ H]%assert_bind_inv. apply ST_bind_ok in H as (pa & k2 & (m2 & _ & ->)%lift_mem_inv & H).
  apply assert_bind_inv in H as [_ H]. apply ST_bind_ok in H as (bs & k3 & H3 & H).
  unfold lift_out in H3. destruct (boot_bytes _ _ _); [|done..]. injection H3 as -> <-.
  apply ST_bind_ok in H as ([] & k4 & (m4 & _ & ->)%lift_mem_inv & H). apply map_segment_mem in H as [m ->]. by exists m.
Qed.
Lemma load_segments_mem image t n i k k' : load_segments image t i n k = Ok (tt, k') -> exists m, k' = set_mem m k.
Proof.
  revert i k. induction n as [|n IH]; intros i k H; [injection H as <-; exists (k_mem k); by destruct k|].
  cbn [load_segments] in H. apply ST_bind_ok in H as (ph & k1 & H1 & H). unfold lift_out in H1.
  destruct (phdr_at image i); [|done..]. injection H1 as -> <-.
  apply ST_bind_ok in H as ([] & k2 & [m2 ->]%load_segment_mem & H). apply IH in H as [m ->]. by exists m.
Qed.

Lemma create_first_task_kinv image x k k' :
  kinv k -> k_tasks k !! Task 0 = Some x -> t_state x = TASK_UNUSED ->
  create_first_task ut kt image k = Ok (tt, k') ->
  kinv k' /\ k_current k' = k_current k /\ k_runqueue k' = k_runqueue k ++ [Task 0] /\ k_active k' = k_active k ++ [Task 0]
  /\ exists table sp sb st, k_tasks k' !! Task 0 = Some (fresh_task x 1 [118; 109] None table sp sb st).
Proof.
  intros Hk Hx Hu H. unfold create_first_task in H. destruct (negb _); [done|].
  apply ST_bind_ok in H as (tid & k1 & H1 & H). apply assert_bind_inv in H as [Hok H].
  assert (Hal : alloc_tid k = Ok (1, k)) by (apply (alloc_tid_run 0 x); [by apply Nat.ltb_lt|done|done|lia]).
  assert (Hmem : exists table m1 sp sb st m2,
    arch_vm_init (k_kernel_table k) (set_owned (<[Task 0 := []]> (owned (k_mem k))) (k_mem k)) = Ok ((OK, table), m1)
    /\ arch_task_init ut kt (e_entry image) 0 0 m1 = Ok ((OK, (sp, sb, st)), m2)).
  { pose proof H1 as H2. unfold task_create in H2. rewrite (ST_bind_run _ _ _ _ _ Hal) in H2. cbn -[init_task_struct] in H2.
    apply ST_bind_ok in H2 as (err & k2 & H3 & H2). eapply init_task_struct_inv; [done|exact H3|].
    destruct (Z.eqb_spec err OK) as [->|]; [done|]. cbn [negb] in H2. injection H2 as -> _. done. }
  destruct Hmem as (table & m1 & sp & sb & st & m2 & Hvm & Hti).
  destruct (task_create_run ut kt k 0 x [118; 109] (e_entry image) None table m1 sp sb st m2)
    as (k2 & E & Hk2 & Hx2 & Erq & Eact & Ecur); try done; [by apply Nat.ltb_lt|lia|].
  rewrite E in H1. injection H1 as <- <-. cbn -[load_segments] in H.
  rewrite (ST_bind_run (task_find 1) _ k2 (Some (Task 0)) k2) in H.
  2: { unfold task_find. cbn -[task_at mbind]. change (1 - 1) with 0. change (0 <? 0) with false. cbv iota.
       change (Z.to_nat 0) with O. by rewrite (ST_bind_run _ _ _ _ _ (task_at_run _ _ _ Hx2)). }
  apply load_segments_mem in H as [m ->]. split_and!; [by apply kinv_set_mem|exact Ecur|exact Erq|exact Eact|].
  exists table, sp, sb, st. exact Hx2.
Qed.
End BootKinv.

(** ** Steps that leave the kernel state alone *)
Section Board.
Context {D : Type} `{PhysMmio D}.
Abbreviation BST := (ST (board_state (D := D))).
Definition bs_kernel (s : board_state (D := D)) : kernel := mc_kernel (bs_machine s).

Class Quiet {A} (f : BST A) : Prop := quiet : forall s a s', f s = Ok (a, s') -> bs_kernel s' = bs_kernel s.

#[export] Instance quiet_ret {A} (a : A) : Quiet (mret a).
Proof. by intros s b s' [= <- <-]. Qed.
#[export] Instance quiet_panic {A} : Quiet (A := A) panic.
Proof. intros s b s' [=]. Qed.
#[export] Instance quiet_undef {A} : Quiet (A := A) undef.
Proof. intros s b s' [=]. Qed.
#[export] Instance quiet_assert b : Quiet (assert b).
Proof. destruct b; apply _. Qed.
#[export] Instance quiet_gets {A} (f : board_state -> A) : Quiet (gets f).
Proof. by intros s b s' [= <- <-]. Qed.
#[export] Instance quiet_bind {A B} (m : BST A) (f : A -> BST B) : Quiet m -> (forall a, Quiet (f a)) -> Quiet (m ≫= f).
Proof. intros Hm Hf s b s' (a & s1 & H1 & H2)%ST_bind_ok. rewrite (Hf a _ _ _ H2). exact (Hm _ _ _ H1). Qed.
#[export] Instance quiet_if {A} (b : bool) (m n : BST A) : Quiet m -> Quiet n -> Quiet (if b then m else n).
Proof. by destruct b. Qed.
#[export] Instance quiet_device {A} (f : ST D A) : Quiet (lift_d f).
Proof. intros s a s'. unfold lift_d. destruct (f (bs_dev s)) as [[? ?]| |]; [|done..]. by intros [= <- <-]. Qed.
#[export] Instance quiet_flag b : Quiet (modify (fun s => BoardState (bs_machine s) (bs_dev s) b)).
Proof. by intros s a s' [= <- <-]. Qed.
Lemma lift_m_inv {A} (f : MST A) (s : board_state (D := D)) a s' :
  lift_m f s = Ok (a, s') -> exists m, f (bs_machine s) = Ok (a, m) /\ s' = BoardState m (bs_dev s) (bs_hart0_ready s).
Proof. unfold lift_m. destruct (f (bs_machine s)) as [[? ?]| |]; intros; simplify_eq. eauto. Qed.
Lemma lift_k_inv {A} (f : KST A) m a m' : lift_k f m = Ok (a, m') -> exists k, f (mc_kernel m) = Ok (a, k) /\ m' = mc_set_kernel k m.
Proof. unfold lift_k. destruct (f (mc_kernel m)) as [[? ?]| |]; intros; simplify_eq. eauto. Qed.
#[export] Instance quiet_hart {A} c (f : HST A) : Quiet (lift_m (lift_h c f)).
Proof. intros s a s' (m & E & ->)%lift_m_inv. unfold lift_h in E. destruct (f _) as [[? ?]| |]; [|done..]. by injection E as <- <-. Qed.
#[export] Instance quiet_machine {A} (f : machine -> A) : Quiet (lift_m (gets f)).
Proof. intros s a s' (m & [= <- <-] & ->)%lift_m_inv. done. Qed.
#[export] Instance quiet_var c f : Quiet (lift_m (set_var c f)).
Proof. intros s a s' (m & [= <- <-] & ->)%lift_m_inv. done. Qed.
#[export] Instance quiet_mode c md : Quiet (lift_m (set_mode c md)).
Proof. intros s a s' (m & [= <- <-] & ->)%lift_m_inv. done. Qed.
#[export] Instance quiet_look {A} (f : kernel -> option A) : Quiet (lift_m (lift_k (getopt f))).
Proof.
  intros s a s' (m & (k & E & ->)%lift_k_inv & ->)%lift_m_inv. unfold getopt in E. destruct (f _); [|done].
  by injection E as <- <-.
Qed.
#[export] Instance quiet_lock c : Quiet (lift_m (mp_lock c)).
Proof.
  intros s a s' (m & E & ->)%lift_m_inv. unfold mp_lock in E. apply ST_bind_ok in E as (v & m1 & E1 & E).
  apply assert_bind_inv in E as [_ E]. apply ST_bind_ok in E as (b & m2 & [= <- <-] & E).
  unfold lift_h in E1. destruct (read_sstatus _) as [[? ?]| |]; [|done..]. injection E1 as <- <-.
  destruct (_ =? _); [|done]. by injection E as <- <-.
Qed.
#[export] Instance quiet_save c kt : Quiet (lift_m (save_cont c kt)).
Proof.
  intros s a s' (m & E & ->)%lift_m_inv. unfold save_cont in E. apply ST_bind_ok in E as (t & m1 & (k & E1 & ->)%lift_k_inv & E).
  unfold CURRENT_TASK, getopt in E1. destruct (_ !! c); [|done]. injection E1 as <- <-. by injection E as <- <-.
Qed.
#[export] Instance quiet_mtimecmp c v : Quiet (write_mtimecmp c v).
Proof. unfold write_mtimecmp. apply _. Qed.
#[export] Instance quiet_mtime c : Quiet (read_mtime_low c).
Proof. unfold read_mtime_low. apply _. Qed.
#[export] Instance quiet_init_percpu c : Quiet (arch_init_percpu c).
Proof. unfold arch_init_percpu, CURRENT_TASK, task_at. apply _. Qed.
#[export] Instance quiet_cpuvar_of addr h : Quiet (riscv32_cpuvar_of addr h).
Proof. unfold riscv32_cpuvar_of. apply _. Qed.

(** A change of the kernel state. *)
Lemma lift_kernel_inv {A} (f : KST A) (s : board_state (D := D)) a s' :
  lift_m (lift_k f) s = Ok (a, s') -> f (bs_kernel s) = Ok (a, bs_kernel s').
Proof. by intros (m & (k & E & ->)%lift_k_inv & ->)%lift_m_inv. Qed.
End Board.

(** ** The boot of the machine *)
Section BootTheorems.
Context {D : Type} `{PhysMmio D}.
Context (user_tramp kernel_tramp : Z) (cpuvar_addr boot_stack : nat -> Z).
Context (riscv32_trap_handler riscv32_timer_handler riscv32_setup_addr riscv32_setup_mp_addr : Z).
Context (ld : kernel_layout) (image : list Z) (junk : nat -> option tptr).
Abbreviation boot := (riscv32_boot (D := D) cpuvar_addr riscv32_trap_handler riscv32_timer_handler riscv32_setup_addr riscv32_setup_mp_addr).
Abbreviation setup := (riscv32_setup (D := D) user_tramp kernel_tramp boot_stack ld image junk).
Abbreviation setup_mp := (riscv32_setup_mp (D := D) user_tramp kernel_tramp boot_stack).

Instance quiet_boot_hart c h :
  Quiet (D := D) (boot_hart cpuvar_addr riscv32_trap_handler riscv32_timer_handler riscv32_setup_addr riscv32_setup_mp_addr c h).
Proof. unfold boot_hart. cbv zeta. repeat (apply quiet_bind; [apply _|intros ?]). apply _. Qed.

Lemma boot_kernel c ram s s' :
  h_csr (mc_hart (bs_machine s) c) CSR_mhartid = 0 -> boot c ram s = Ok (tt, s') -> bs_kernel s' = bss_kernel ram.
Proof.
  intros Hid E. unfold riscv32_boot in E. apply ST_bind_ok in E as (h & s1 & E1 & E).
  apply lift_m_inv in E1 as (m1 & E1 & ->). injection E1 as E1 _. rewrite Hid in E1. subst h.
  cbn [Z.eqb] in E. apply ST_bind_ok in E as ([] & s2 & E2 & E).
  assert (Ek : bs_kernel s2 = bss_kernel ram).
  { apply ST_bind_ok in E2 as ([] & s3 & (m3 & [= <-] & ->)%lift_m_inv & E2).
    apply ST_bind_ok in E2 as ([] & s4 & [= <-] & E2). by rewrite (quiet_device _ _ _ _ E2). }
  rewrite <- Ek. by apply quiet_boot_hart in E.
Qed.

(** The first switch of CPU [c], from its idle task to the only task there is. *)
Lemma first_switch c x k :
  kinv k -> k_current k !! c = Some (Idle c) -> k_runqueue k = [Task 0] -> k_tasks k !! Task 0 = Some x -> t_kctx x = KRun ->
  exists k', task_switch c k = Ok (true, k') /\ kinv k' /\ runs c 0 k' /\ k_active k' = k_active k
    /\ k_tasks k' !! Task 0 = Some (with_quantum TASK_QUANTUM x).
Proof.
  intros Hk Hc Hrq Hx Hctx. destruct (prev_exists _ _ _ _ Hk Hc) as (y & Hy).
  assert (Hys : bool_decide (t_state y = TASK_RUNNABLE) = false).
  { apply bool_decide_false. destruct (vi_idle _ _ _ _ _ (proj1 Hk) c _ (views_task _ _ _ Hy)) as (_ & _ & [?|[? _]]); simpl in *; congruence. }
  set (k2 := set_tasks (<[Task 0 := with_quantum TASK_QUANTUM x]> (k_tasks k)) (set_runqueue [] k)).
  assert (Hy2 : k_tasks k2 !! Idle c = Some y) by (cbn; by rewrite lookup_insert_ne).
  assert (Er : task_switch c k = Ok (true, set_current (<[c := Task 0]> (k_current k)) k2)).
  { unfold task_switch. rewrite (ST_bind_run _ _ _ _ _ (current_run _ _ _ Hc)).
    rewrite (ST_bind_run (scheduler c) _ k (Task 0) (set_runqueue [] k))
      by (unfold scheduler; rewrite (ST_bind_run (gets _) _ _ _ _ eq_refl), Hrq; reflexivity).
    rewrite (bool_decide_true (Task 0 <> Idle c)) by done. rewrite (ST_bind_run _ _ _ _ _ (upd_run _ _ (set_runqueue [] k) x Hx)).
    rewrite (bool_decide_false (Task 0 = Idle c)) by done. rewrite (ST_bind_run _ _ _ _ _ (task_at_run _ _ _ Hy2)), Hys. reflexivity. }
  eexists. split; [exact Er|].
  destruct (task_switch_safe None k c (Idle c) Hk (or_introl eq_refl) Hc) as (b & k' & E & Hk' & _). rewrite Er in E.
  injection E as <- <-. split; [done|]. split_and!; [|done|cbn; by rewrite lookup_insert_eq].
  split; cbn; rewrite lookup_insert_eq; [done|]. eexists. split; [done|exact Hctx].
Qed.

Lemma idle_task_inv (c : nat) (s s' : board_state (D := D)) :
  idle_task c s = Ok (tt, s') -> exists b, task_switch c (bs_kernel s) = Ok (b, bs_kernel s').
Proof.
  unfold idle_task. intros ([] & s1 & E1 & E)%ST_bind_ok. apply ST_bind_ok in E as (b & s2 & E2 & [= <-]).
  exists b. rewrite <- (quiet_save _ _ _ _ _ E1). by apply lift_kernel_inv.
Qed.


(** A further CPU joins: the invariant stays, and the other CPUs go on with their tasks. *)
Theorem mp_boot_keeps_invariant c x s s' :
  kinv (bs_kernel s) -> k_tasks (bs_kernel s) !! Idle c = Some x -> t_state x = TASK_UNUSED -> k_current (bs_kernel s) !! c = None ->
  setup_mp c s = Ok (tt, s') ->
  kinv (bs_kernel s') /\ is_Some (k_current (bs_kernel s') !! c)
  /\ forall c', c' <> c -> k_current (bs_kernel s') !! c' = k_current (bs_kernel s) !! c'.
Proof.
  intros Hk Hx Hu Hc Es. unfold riscv32_setup_mp in Es. apply ST_bind_ok in Es as ([] & a1 & E1%quiet_mode & Es).
  apply ST_bind_ok in Es as ([] & a2 & E2%quiet_lock & Es). apply ST_bind_ok in Es as (id & a3 & E3%quiet_machine & Es).
  apply ST_bind_ok in Es as ([] & a4 & E4%quiet_device & Es). apply ST_bind_ok in Es as ([] & a5 & E5%lift_kernel_inv & Es).
  rewrite E4, E3, E2, E1 in E5. apply lift_mem_inv in E5 as (m5 & _ & E5).
  unfold kernel_mp_main in Es. apply ST_bind_ok in Es as ([] & a9 & E9%lift_kernel_inv & Es).
  destruct (task_init_percpu_kinv user_tramp kernel_tramp c x _ (bs_kernel a9) (kinv_set_mem m5 _ Hk)) as (K9 & C9 & R9 & A9 & T9);
    [done|done|done|by rewrite <- E5|].
  apply ST_bind_ok in Es as ([] & a11 & E11%quiet_init_percpu & Es). apply idle_task_inv in Es as [b Es]. rewrite E11 in Es.
  assert (Hcur : k_current (bs_kernel a9) !! c = Some (Idle c)) by (by rewrite C9, lookup_insert_eq).
  destruct (task_switch_safe None _ c (Idle c) K9 (or_introl eq_refl) Hcur) as (b' & k' & E & K' & F & _).
  rewrite E in Es. injection Es as _ <-. destruct (kf_local _ _ _ F) as [L1 _ L3]. split_and!; [done|by apply L3; eexists|].
  intros c' Hne. rewrite L1, C9, lookup_insert_ne by done. done.
Qed.
End BootTheorems.

(** ** A concrete boot: 64 pages of free memory and a one-segment image. *)
Definition demo_layout : kernel_layout :=
  KernelLayout 2147483648 2147487744 2147487744 2147491840 2147483648 (2147483648 + RAM_SIZE - 64 * 4096).
Definition demo_image : list Z :=
  ELF_MAGIC ++ replicate 20 0 ++ le_split 4 16777216 ++ le_split 4 52 ++ replicate 12 0 ++ le_split 2 1 ++ replicate 6 0
  ++ le_split 4 PT_LOAD ++ le_split 4 84 ++ le_split 4 16777216 ++ le_split 4 0 ++ le_split 4 4 ++ le_split 4 4100
  ++ le_split 4 5 ++ le_split 4 4096 ++ [1; 2; 3; 4].
Definition demo_reset : board_state (D := board) :=
  BoardState (Machine (bss_kernel ∅) BKL_UNLOCKED (-1) (fun _ => MShutdown) (fun c => Hart (fun r => if decide (r = CSR_mhartid) then Z.of_nat c else 0) 0 0 PMachine)
    (fun _ => zero_cpuvar) ∅) idle_board false.
Abbreviation demo_boot := (riscv32_boot (D := board) (fun c => 4096 * Z.of_nat c) 256 260 264 268).
Abbreviation demo_setup := (riscv32_setup (D := board) 512 1024 (fun c => 2147487744 + 16384 * Z.of_nat c) demo_layout demo_image (fun _ => None)).
Definition is_ok {A} (o : outcome A) : bool := match o with Ok _ => true | _ => false end.

Lemma demo_boot_ok : is_ok ((demo_boot 0 ∅ ;; demo_setup 0) demo_reset) = true.
Proof. vm_compute. reflexivity. Qed.

