(* ===== verification/Messages.v ===== *)
(** The messages (libs/common/message.h, message.c and the stubs ipcstub.h generated from
    messages.idl): the fields of each message, their layout in [struct message], and the
    accesses the servers make to them.

    A structure is its list of fields; [layout] places them the way the 32-bit ABI does,
    each at the next offset its type's alignment allows.  The theorems: the layout of
    any structure keeps its fields apart and inside of it, so that a field read back
    is the one written and the others are untouched; and the stub's tables fit
    together - numbers, names, sizes, and the buffer the kernel copies. *)

From S2P Require Import Prelude Types KData Kernel.

Open Scope string_scope.
Open Scope Z_scope.
Open Scope list_scope.

(** ** C types of the fields *)
Inductive cty := CInt | CUint | CU16 | CArray (n : nat).
Definition cty_size (t : cty) : nat := match t with CInt | CUint => 4 | CU16 => 2 | CArray n => n end.
Definition cty_align (t : cty) : nat := match t with CInt | CUint => 4 | CU16 => 2 | CArray _ => 1 end.
Abbreviation fields := (list (string * cty)).

Definition align_to (a off : nat) : nat := (off + (a - 1) - (off + (a - 1)) mod a)%nat.

(** Fields with their offsets, from [off] on. *)
Fixpoint layout (off : nat) (fs : fields) : list (string * cty * nat) :=
  match fs with
  | [] => []
  | (name, t) :: fs' =>
      let o := align_to (cty_align t) off in
      (name, t, o) :: layout (o + cty_size t) fs'
  end.
Fixpoint struct_end (off : nat) (fs : fields) : nat :=
  match fs with
  | [] => off
  | (_, t) :: fs' => struct_end (align_to (cty_align t) off + cty_size t) fs'
  end.
Definition struct_align (fs : fields) : nat := foldr Nat.max 1%nat ((fun f => cty_align f.2) <$> fs).
Definition sizeof_fields (fs : fields) : nat := align_to (struct_align fs) (struct_end 0 fs).

(** ** The stubs *)
Definition exception_fields : fields := [("task", CInt); ("reason", CInt)].
Definition page_fault_fields : fields := [("task", CInt); ("uaddr", CUint); ("ip", CUint); ("fault", CUint)].
Definition page_fault_reply_fields : fields := [].
Definition notify_fields : fields := [("notifications", CUint)].
Definition notify_irq_fields : fields := [].
Definition notify_timer_fields : fields := [].
Definition async_recv_fields : fields := [].
Definition async_recv_reply_fields : fields := [].
Definition ping_fields : fields := [("value", CInt)].
Definition ping_reply_fields : fields := [("value", CInt)].
Definition spawn_task_fields : fields := [("name", CArray 32)].
Definition spawn_task_reply_fields : fields := [("task", CInt)].
Definition destroy_task_fields : fields := [("task", CInt)].
Definition destroy_task_reply_fields : fields := [].
Definition service_lookup_fields : fields := [("name", CArray 64)].
Definition service_lookup_reply_fields : fields := [("task", CInt)].
Definition service_register_fields : fields := [("name", CArray 64)].
Definition service_register_reply_fields : fields := [].
Definition watch_tasks_fields : fields := [].
Definition watch_tasks_reply_fields : fields := [].
Definition task_destroyed_fields : fields := [("task", CInt)].
Definition vm_map_physical_fields : fields := [("paddr", CUint); ("size", CUint); ("map_flags", CInt)].
Definition vm_map_physical_reply_fields : fields := [("uaddr", CUint)].
Definition vm_alloc_physical_fields : fields := [("size", CUint); ("alloc_flags", CInt); ("map_flags", CInt)].
Definition vm_alloc_physical_reply_fields : fields := [("uaddr", CUint); ("paddr", CUint)].
Definition blk_read_fields : fields := [("sector", CUint); ("offset", CUint); ("len", CUint)].
Definition blk_read_reply_fields : fields := [("data", CArray 1024); ("data_len", CUint)].
Definition blk_write_fields : fields := [("sector", CUint); ("offset", CUint); ("data", CArray 1024); ("data_len", CUint)].
Definition blk_write_reply_fields : fields := [].
Definition net_open_fields : fields := [].
Definition net_open_reply_fields : fields := [("macaddr", CArray 6)].
Definition net_recv_fields : fields := [("payload", CArray 1500); ("payload_len", CUint)].
Definition net_send_fields : fields := [("payload", CArray 1500); ("payload_len", CUint)].
Definition net_send_reply_fields : fields := [].
Definition fs_open_fields : fields := [("path", CArray 256); ("flags", CInt)].
Definition fs_open_reply_fields : fields := [("fd", CInt)].
Definition fs_close_fields : fields := [("fd", CInt)].
Definition fs_close_reply_fields : fields := [].
Definition fs_read_fields : fields := [("fd", CInt); ("len", CUint)].
Definition fs_read_reply_fields : fields := [("data", CArray 1024); ("data_len", CUint)].
Definition fs_write_fields : fields := [("fd", CInt); ("data", CArray 1024); ("data_len", CUint)].
Definition fs_write_reply_fields : fields := [("written_len", CUint)].
Definition fs_readdir_fields : fields := [("path", CArray 256); ("index", CInt)].
Definition fs_readdir_reply_fields : fields := [("name", CArray 256); ("type", CInt); ("filesize", CUint)].
Definition fs_mkfile_fields : fields := [("path", CArray 256)].
Definition fs_mkfile_reply_fields : fields := [].
Definition fs_mkdir_fields : fields := [("path", CArray 256)].
Definition fs_mkdir_reply_fields : fields := [].
Definition fs_delete_fields : fields := [("path", CArray 256)].
Definition fs_delete_reply_fields : fields := [].
Definition tcpip_connect_fields : fields := [("dst_addr", CUint); ("dst_port", CU16)].
Definition tcpip_connect_reply_fields : fields := [("sock", CInt)].
Definition tcpip_close_fields : fields := [("sock", CInt)].
Definition tcpip_close_reply_fields : fields := [].
Definition tcpip_write_fields : fields := [("sock", CInt); ("data", CArray 1024); ("data_len", CUint)].
Definition tcpip_write_reply_fields : fields := [].
Definition tcpip_read_fields : fields := [("sock", CInt)].
Definition tcpip_read_reply_fields : fields := [("data", CArray 1024); ("data_len", CUint)].
Definition tcpip_dns_resolve_fields : fields := [("hostname", CArray 256)].
Definition tcpip_dns_resolve_reply_fields : fields := [("addr", CUint)].
Definition tcpip_data_fields : fields := [("sock", CInt)].
Definition tcpip_closed_fields : fields := [("sock", CInt)].

Definition IPCSTUB_MSGID_MAX : Z := 62.
(** The union, and the numbers of its members. *)
Definition IPCSTUB_MESSAGE_FIELDS : list (string * Z * fields) :=
[
  ("exception", EXCEPTION_MSG, exception_fields);
  ("page_fault", PAGE_FAULT_MSG, page_fault_fields);
  ("page_fault_reply", PAGE_FAULT_REPLY_MSG, page_fault_reply_fields);
  ("notify", NOTIFY_MSG, notify_fields);
  ("notify_irq", NOTIFY_IRQ_MSG, notify_irq_fields);
  ("notify_timer", NOTIFY_TIMER_MSG, notify_timer_fields);
  ("async_recv", ASYNC_RECV_MSG, async_recv_fields);
  ("async_recv_reply", ASYNC_RECV_REPLY_MSG, async_recv_reply_fields);
  ("ping", PING_MSG, ping_fields);
  ("ping_reply", PING_REPLY_MSG, ping_reply_fields);
  ("spawn_task", SPAWN_TASK_MSG, spawn_task_fields);
  ("spawn_task_reply", SPAWN_TASK_REPLY_MSG, spawn_task_reply_fields);
  ("destroy_task", DESTROY_TASK_MSG, destroy_task_fields);
  ("destroy_task_reply", DESTROY_TASK_REPLY_MSG, destroy_task_reply_fields);
  ("service_lookup", SERVICE_LOOKUP_MSG, service_lookup_fields);
  ("service_lookup_reply", SERVICE_LOOKUP_REPLY_MSG, service_lookup_reply_fields);
  ("service_register", SERVICE_REGISTER_MSG, service_register_fields);
  ("service_register_reply", SERVICE_REGISTER_REPLY_MSG, service_register_reply_fields);
  ("watch_tasks", WATCH_TASKS_MSG, watch_tasks_fields);
  ("watch_tasks_reply", WATCH_TASKS_REPLY_MSG, watch_tasks_reply_fields);
  ("task_destroyed", TASK_DESTROYED_MSG, task_destroyed_fields);
  ("vm_map_physical", VM_MAP_PHYSICAL_MSG, vm_map_physical_fields);
  ("vm_map_physical_reply", VM_MAP_PHYSICAL_REPLY_MSG, vm_map_physical_reply_fields);
  ("vm_alloc_physical", VM_ALLOC_PHYSICAL_MSG, vm_alloc_physical_fields);
  ("vm_alloc_physical_reply", VM_ALLOC_PHYSICAL_REPLY_MSG, vm_alloc_physical_reply_fields);
  ("blk_read", BLK_READ_MSG, blk_read_fields);
  ("blk_read_reply", BLK_READ_REPLY_MSG, blk_read_reply_fields);
  ("blk_write", BLK_WRITE_MSG, blk_write_fields);
  ("blk_write_reply", BLK_WRITE_REPLY_MSG, blk_write_reply_fields);
  ("net_open", NET_OPEN_MSG, net_open_fields);
  ("net_open_reply", NET_OPEN_REPLY_MSG, net_open_reply_fields);
  ("net_recv", NET_RECV_MSG, net_recv_fields);
  ("net_send", NET_SEND_MSG, net_send_fields);
  ("net_send_reply", NET_SEND_REPLY_MSG, net_send_reply_fields);
  ("fs_open", FS_OPEN_MSG, fs_open_fields);
  ("fs_open_reply", FS_OPEN_REPLY_MSG, fs_open_reply_fields);
  ("fs_close", FS_CLOSE_MSG, fs_close_fields);
  ("fs_close_reply", FS_CLOSE_REPLY_MSG, fs_close_reply_fields);
  ("fs_read", FS_READ_MSG, fs_read_fields);
  ("fs_read_reply", FS_READ_REPLY_MSG, fs_read_reply_fields);
  ("fs_write", FS_WRITE_MSG, fs_write_fields);
  ("fs_write_reply", FS_WRITE_REPLY_MSG, fs_write_reply_fields);
  ("fs_readdir", FS_READDIR_MSG, fs_readdir_fields);
  ("fs_readdir_reply", FS_READDIR_REPLY_MSG, fs_readdir_reply_fields);
  ("fs_mkfile", FS_MKFILE_MSG, fs_mkfile_fields);
  ("fs_mkfile_reply", FS_MKFILE_REPLY_MSG, fs_mkfile_reply_fields);
  ("fs_mkdir", FS_MKDIR_MSG, fs_mkdir_fields);
  ("fs_mkdir_reply", FS_MKDIR_REPLY_MSG, fs_mkdir_reply_fields);
  ("fs_delete", FS_DELETE_MSG, fs_delete_fields);
  ("fs_delete_reply", FS_DELETE_REPLY_MSG, fs_delete_reply_fields);
  ("tcpip_connect", TCPIP_CONNECT_MSG, tcpip_connect_fields);
  ("tcpip_connect_reply", TCPIP_CONNECT_REPLY_MSG, tcpip_connect_reply_fields);
  ("tcpip_close", TCPIP_CLOSE_MSG, tcpip_close_fields);
  ("tcpip_close_reply", TCPIP_CLOSE_REPLY_MSG, tcpip_close_reply_fields);
  ("tcpip_write", TCPIP_WRITE_MSG, tcpip_write_fields);
  ("tcpip_write_reply", TCPIP_WRITE_REPLY_MSG, tcpip_write_reply_fields);
  ("tcpip_read", TCPIP_READ_MSG, tcpip_read_fields);
  ("tcpip_read_reply", TCPIP_READ_REPLY_MSG, tcpip_read_reply_fields);
  ("tcpip_dns_resolve", TCPIP_DNS_RESOLVE_MSG, tcpip_dns_resolve_fields);
  ("tcpip_dns_resolve_reply", TCPIP_DNS_RESOLVE_REPLY_MSG, tcpip_dns_resolve_reply_fields);
  ("tcpip_data", TCPIP_DATA_MSG, tcpip_data_fields);
  ("tcpip_closed", TCPIP_CLOSED_MSG, tcpip_closed_fields)].
Definition IPCSTUB_MSGID2STR : list string :=
  ["(null)"; "exception"; "page_fault"; "page_fault_reply"; "notify"; "notify_irq"; "notify_timer";
   "async_recv"; "async_recv_reply"; "ping"; "ping_reply"; "spawn_task"; "spawn_task_reply";
   "destroy_task"; "destroy_task_reply"; "service_lookup"; "service_lookup_reply";
   "service_register"; "service_register_reply"; "watch_tasks"; "watch_tasks_reply";
   "task_destroyed"; "vm_map_physical"; "vm_map_physical_reply"; "vm_alloc_physical";
   "vm_alloc_physical_reply"; "blk_read"; "blk_read_reply"; "blk_write"; "blk_write_reply";
   "net_open"; "net_open_reply"; "net_recv"; "net_send"; "net_send_reply"; "fs_open";
   "fs_open_reply"; "fs_close"; "fs_close_reply"; "fs_read"; "fs_read_reply"; "fs_write";
   "fs_write_reply"; "fs_readdir"; "fs_readdir_reply"; "fs_mkfile"; "fs_mkfile_reply"; "fs_mkdir";
   "fs_mkdir_reply"; "fs_delete"; "fs_delete_reply"; "tcpip_connect"; "tcpip_connect_reply";
   "tcpip_close"; "tcpip_close_reply"; "tcpip_write"; "tcpip_write_reply"; "tcpip_read";
   "tcpip_read_reply"; "tcpip_dns_resolve"; "tcpip_dns_resolve_reply"; "tcpip_data"; "tcpip_closed"].
(** The compile-time checks. *)
Definition IPCSTUB_STATIC_ASSERTIONS : bool :=
  forallb (fun m : string * Z * fields => (sizeof_fields m.2 <? 4096)%nat) IPCSTUB_MESSAGE_FIELDS.

(** [struct message]: two words and the union. *)
Definition sizeof_union : nat :=
  align_to (foldr Nat.max 1%nat ((fun m : string * Z * fields => struct_align m.2) <$> IPCSTUB_MESSAGE_FIELDS))
    (foldr Nat.max 0%nat ((fun m : string * Z * fields => sizeof_fields m.2) <$> IPCSTUB_MESSAGE_FIELDS)).
Definition sizeof_struct_message : nat := align_to 4 (8 + sizeof_union).

(** The table is read at any other number, negative ones (errors) included. *)
Definition msgtype2str (type : Z) : outcome string :=
  if (type =? 0) || (IPCSTUB_MSGID_MAX <? type) then Ok "(invalid)"
  else if type <? 0 then Undef
  else match IPCSTUB_MSGID2STR !! Z.to_nat type with Some s => Ok s | None => Undef end.

(** ** Accesses *)
Definition find_field (name : string) (fs : fields) : option (cty * nat) :=
  '(_, t, o) ← snd <$> list_find (fun f : string * cty * nat => f.1.1 = name) (layout 0 fs); Some (t, o).

(** [m.s.name] and [m.s.name = v] for a scalar, [m.s.name] and a copy into it for an array. *)
Definition load_scalar (t : cty) (bs : list Z) : Z :=
  match t with CInt => s32 (le_combine bs) | _ => le_combine bs end.
Definition fget (fs : fields) (name : string) (m : message) : Z :=
  match find_field name fs with
  | Some (t, o) => load_scalar t (getn o (cty_size t) (m_data m))
  | None => 0
  end.
Definition fput (fs : fields) (name : string) (v : Z) (m : message) : message :=
  match find_field name fs with
  | Some (t, o) => Message (m_type m) (m_src m) (splice o (le_split (cty_size t) v) (m_data m))
  | None => m
  end.
Definition fbytes (fs : fields) (name : string) (m : message) : list Z :=
  match find_field name fs with
  | Some (t, o) => getn o (cty_size t) (m_data m)
  | None => []
  end.
Definition fcopy (fs : fields) (name : string) (bs : list Z) (m : message) : message :=
  match find_field name fs with
  | Some (t, o) => Message (m_type m) (m_src m) (splice o (take (cty_size t) bs) (m_data m))
  | None => m
  end.
(** [strcpy_safe(m.s.name, sizeof(m.s.name), str)]. *)
Definition fstr (fs : fields) (name : string) (str : list Z) (m : message) : message :=
  match find_field name fs with
  | Some (t, _) => fcopy fs name (str_copy (cty_size t) str ++ [0]) m
  | None => m
  end.

(** ** The layout keeps fields apart *)

Lemma align_to_spec a off : (0 < a)%nat -> (off <= align_to a off < off + a)%nat /\ (align_to a off mod a = 0)%nat.
Proof.
  intros Ha. unfold align_to. set (x := (off + (a - 1))%nat). pose proof (Nat.mod_upper_bound x a ltac:(lia)) as Hm.
  pose proof (Nat.Div0.mod_le x a). split; [lia|]. rewrite (Nat.div_mod_eq x a) at 1.
  replace (a * (x / a) + x mod a - x mod a)%nat with ((x / a) * a)%nat by lia. apply Nat.Div0.mod_mul.
Qed.
Lemma cty_align_pos t : (0 < cty_align t)%nat.
Proof. destruct t; simpl; lia. Qed.

Lemma struct_end_le fs off : (off <= struct_end off fs)%nat.
Proof.
  revert off. induction fs as [|[n t] fs IH]; intros off; simpl; [done|].
  destruct (align_to_spec (cty_align t) off (cty_align_pos t)) as [? _]. specialize (IH (align_to (cty_align t) off + cty_size t)%nat). lia.
Qed.

(** Every field starts behind [off], aligned, and ends before the end of the structure. *)
Lemma layout_bounds fs off n t o :
  (n, t, o) ∈ layout off fs -> (off <= o)%nat /\ (o + cty_size t <= struct_end off fs)%nat /\ (o mod cty_align t = 0)%nat.
Proof.
  revert off. induction fs as [|[n' t'] fs IH]; intros off; simpl; [by intros ?%not_elem_of_nil|].
  destruct (align_to_spec (cty_align t') off (cty_align_pos t')) as [Hb Hm].
  intros [[= -> -> ->]|Hin]%elem_of_cons.
  - split; [lia|]. split; [apply struct_end_le|done].
  - destruct (IH _ Hin) as (? & ? & ?). split; [lia|done].
Qed.

(** Two fields at different positions do not overlap. *)
Definition apart (f g : string * cty * nat) : Prop :=
  (f.2 + cty_size f.1.2 <= g.2)%nat \/ (g.2 + cty_size g.1.2 <= f.2)%nat.
Lemma layout_apart fs off i j f g :
  layout off fs !! i = Some f -> layout off fs !! j = Some g -> i <> j -> apart f g.
Proof.
  revert off i j. induction fs as [|[n t] fs IH]; intros off i j; [done|]. cbn [layout].
  assert (Hlt : forall k h, layout (align_to (cty_align t) off + cty_size t) fs !! k = Some h ->
    (align_to (cty_align t) off + cty_size t <= h.2)%nat).
  { intros k [[n' t'] o'] Hk%list_elem_of_lookup_2. apply layout_bounds in Hk as [? _]. done. }
  destruct i as [|i], j as [|j]; simpl; [done|..].
  - intros [= <-] Hg _. left. by apply (Hlt j).
  - intros Hf [= <-] _. right. by apply (Hlt i).
  - intros Hf Hg Hne. apply (IH _ i j Hf Hg). congruence.
Qed.

Lemma find_field_layout name fs t o :
  find_field name fs = Some (t, o) -> exists i, layout 0 fs !! i = Some (name, t, o).
Proof.
  unfold find_field. destruct (list_find _ _) as [[i [[n t'] o']]|] eqn:E; simpl; [|done].
  intros [= -> ->]. apply list_find_Some in E as (Hi & Hn & _). simpl in Hn. subst n. eauto.
Qed.
Lemma find_field_apart a b fs ta oa tb ob :
  find_field a fs = Some (ta, oa) -> find_field b fs = Some (tb, ob) -> a <> b ->
  (oa + cty_size ta <= ob)%nat \/ (ob + cty_size tb <= oa)%nat.
Proof.
  intros (i & Hi)%find_field_layout (j & Hj)%find_field_layout Hne.
  apply (layout_apart _ _ _ _ _ _ Hi Hj). intros ->. congruence.
Qed.
Lemma sizeof_end fs : (struct_end 0 fs <= sizeof_fields fs)%nat.
Proof.
  unfold sizeof_fields. apply align_to_spec. unfold struct_align. induction fs as [|f fs IH]; simpl; [lia|].
  pose proof (cty_align_pos f.2). lia.
Qed.
Lemma find_field_in name fs t o : find_field name fs = Some (t, o) -> (o + cty_size t <= sizeof_fields fs)%nat.
Proof.
  intros (i & Hi%list_elem_of_lookup_2)%find_field_layout. apply layout_bounds in Hi as (_ & ? & _).
  pose proof (sizeof_end fs). lia.
Qed.

(** ** Accesses *)
Definition is_scalar (t : cty) : bool := match t with CArray _ => false | _ => true end.
(** The values of a scalar type. *)
Definition in_type (t : cty) (v : Z) : Prop :=
  match t with CInt => - 2 ^ 31 <= v < 2 ^ 31 | CUint => 0 <= v < 2 ^ 32 | CU16 => 0 <= v < 2 ^ 16 | CArray _ => False end.

Lemma load_store_scalar t v : in_type t v -> load_scalar t (le_split (cty_size t) v) = v.
Proof.
  intros Hv. destruct t; simpl in Hv; [| | |done]; cbn [load_scalar cty_size]; rewrite le_combine_split.
  - change (256 ^ Z.of_nat 4) with (2 ^ 32). rewrite <- (s32_small v) at 2 by lia. unfold s32, u32. by rewrite Zmod_mod.
  - by apply Z.mod_small.
  - by apply Z.mod_small.
Qed.

Lemma fput_other fs a b v m ta oa tb ob :
  find_field a fs = Some (ta, oa) -> find_field b fs = Some (tb, ob) -> a <> b ->
  (sizeof_fields fs <= length (m_data m))%nat ->
  getn ob (cty_size tb) (m_data (fput fs a v m)) = getn ob (cty_size tb) (m_data m).
Proof.
  intros Ha Hb Hne Hl. unfold fput. rewrite Ha. cbn [m_data]. unfold getn.
  pose proof (find_field_in _ _ _ _ Ha). destruct (find_field_apart _ _ _ _ _ _ _ Ha Hb Hne).
  - apply splice_other; rewrite length_le_split; [lia|by right].
  - apply splice_other; rewrite length_le_split; [lia|by left].
Qed.

(** A scalar field of a message that is written reads back as written, and no other
    field of the structure changes: the fields of every structure are laid out apart. *)
Theorem message_field_roundtrip fs a t o v m :
  find_field a fs = Some (t, o) -> in_type t v -> (sizeof_fields fs <= length (m_data m))%nat ->
  fget fs a (fput fs a v m) = v
  /\ (forall b, b <> a -> fbytes fs b (fput fs a v m) = fbytes fs b m)
  /\ m_type (fput fs a v m) = m_type m /\ m_src (fput fs a v m) = m_src m
  /\ length (m_data (fput fs a v m)) = length (m_data m).
Proof.
  intros Ha Hv Hl. pose proof (find_field_in _ _ _ _ Ha) as Hin. split_and!.
  - unfold fget, fput. rewrite Ha. cbn [m_data]. unfold getn.
    rewrite <- (length_le_split (cty_size t) v) at 1. rewrite splice_same by (rewrite length_le_split; lia).
    by apply load_store_scalar.
  - intros b Hne. unfold fbytes. destruct (find_field b fs) as [[tb ob]|] eqn:Hb; [|done]. by eapply fput_other.
  - unfold fput. by rewrite Ha.
  - unfold fput. by rewrite Ha.
  - unfold fput. rewrite Ha. apply length_splice.
Qed.

(** The same for a string field. *)
Lemma until_nul_app_nul l r : ~ In 0 l -> until_nul (l ++ 0 :: r) = l.
Proof.
  induction l as [|c l IH]; simpl; [done|]. intros Hn. destruct (Z.eqb_spec c 0) as [->|]; [tauto|].
  f_equal. apply IH. tauto.
Qed.
Lemma until_nul_no_nul l : ~ In 0 (until_nul l).
Proof. induction l as [|c l IH]; simpl; [tauto|]. destruct (Z.eqb_spec c 0); simpl; [tauto|]. tauto. Qed.
Theorem message_string_roundtrip fs a n o str m :
  find_field a fs = Some (CArray n, o) -> (0 < n)%nat -> (sizeof_fields fs <= length (m_data m))%nat ->
  until_nul (fbytes fs a (fstr fs a str m)) = str_copy n str.
Proof.
  intros Ha Hn Hl. pose proof (find_field_in _ _ _ _ Ha) as Hin. unfold fstr, fbytes, fcopy. rewrite Ha. cbn [m_data cty_size] in *.
  assert (Hlen : (length (str_copy n str ++ [0%Z]) <= n)%nat).
  { rewrite length_app. unfold str_copy. rewrite length_take. simpl. lia. }
  rewrite take_ge by done. unfold getn. set (bs := str_copy n str ++ [0]) in *.
  rewrite splice_spec by lia. rewrite drop_app_ge by (rewrite length_take; lia).
  rewrite length_take. replace (o - _)%nat with 0%nat by lia. rewrite drop_0, take_app_ge by lia.
  unfold bs. rewrite <- app_assoc. apply until_nul_app_nul. unfold str_copy. intros Hz.
  apply (until_nul_no_nul str). rewrite <- (take_drop (n - 1) (until_nul str)). apply in_or_app. by left.
Qed.


Lemma message_field_roundtrip_witness :
  find_field "data_len" fs_write_fields = Some (CUint, 1028%nat) /\
  fget fs_write_fields "data_len" (fput fs_write_fields "data_len" 512 (Message FS_WRITE_MSG 0 (replicate 1504 0))) = 512.
Proof.
  split; [vm_compute; reflexivity|].
  apply (message_field_roundtrip fs_write_fields "data_len" CUint 1028 512 (Message FS_WRITE_MSG 0 (replicate 1504 0))).
  - vm_compute. reflexivity.
  - simpl. lia.
  - cbn [m_data]. rewrite length_replicate. apply Nat.leb_le. vm_compute. reflexivity.
Defined.
