(* ===== verification/Shell.v ===== *)
(** The shell's command line (servers/shell/main.c): reading a line from the serial port
    and splitting it into commands and arguments, in place.

    [eval] cuts the line by writing zeros over its separators and keeps pointers to the
    arguments; here the line is a list of characters, pointers are positions in it, and
    a pointer's string is read when the command runs.  The theorems: the commands that
    run and their arguments are those of the specification [commands_of]; more than
    [ARGC_MAX] arguments overflow the array; [read_line] is a line editor that never
    leaves its buffer. *)

From S2P Require Import Prelude Types.

Definition ARGC_MAX : nat := 32.
Definition CH_SEMICOLON : Z := 59.
Definition is_ws (c : Z) : bool := (c =? 32) || (c =? 9) || (c =? 10).

(** ** Splitting a line *)
Definition char_at (p : nat) (buf : list Z) : outcome Z := match buf !! p with Some c => Ok c | None => Undef end.

(** Each loop stops at the terminating zero; [fuel] is the length of the line. *)
Fixpoint skip_whitespaces (fuel p : nat) (buf : list Z) : outcome nat :=
  match fuel with
  | O => Undef
  | S fuel' =>
      c ← char_at p buf;
      if is_ws c then skip_whitespaces fuel' (S p) buf else Ok p
  end.
Fixpoint consume_argv (fuel p : nat) (buf : list Z) : outcome (nat * list Z) :=
  match fuel with
  | O => Undef
  | S fuel' =>
      c ← char_at p buf;
      if (c =? 0) || (c =? CH_SEMICOLON) then Ok (p, buf)
      else if is_ws c then Ok (S p, <[p := 0]> buf)
      else consume_argv fuel' (S p) buf
  end.
(** The inner loop of [eval]: the arguments of one command. *)
Fixpoint parse_args (fuel p : nat) (argv : list nat) (buf : list Z) : outcome (nat * list nat * list Z) :=
  match fuel with
  | O => Undef
  | S fuel' =>
      p ← skip_whitespaces (S (length buf)) p buf;
      if (ARGC_MAX <=? length argv)%nat then Undef
      else
        let argv := argv ++ [p] in
        '(p, buf) ← consume_argv (S (length buf)) p buf;
        c ← char_at p buf;
        if negb (c =? 0) && negb (c =? CH_SEMICOLON) then parse_args fuel' p argv buf
        else Ok (p, argv, buf)
  end.
Fixpoint skip_semicolons (fuel p : nat) (buf : list Z) : outcome (nat * list Z) :=
  match fuel with
  | O => Undef
  | S fuel' =>
      c ← char_at p buf;
      if c =? CH_SEMICOLON then skip_semicolons fuel' (S p) (<[p := 0]> buf) else Ok (p, buf)
  end.

Section Eval.
Context {S : Type} (run_command : list (list Z) -> ST S unit).

(** The strings behind the pointers of [args.argv]. *)
Definition argv_strings (argv : list nat) (buf : list Z) : list (list Z) := (fun p => until_nul (drop p buf)) <$> argv.

Fixpoint eval_loop (fuel p : nat) (buf : list Z) : ST S unit :=
  match fuel with
  | O => undef
  | Datatypes.S fuel' =>
      c ← lift_out (char_at p buf);
      if c =? 0 then mret tt
      else
        '(p, argv, buf) ← lift_out (parse_args (Datatypes.S (length buf)) p [] buf);
        '(p, buf) ← lift_out (skip_semicolons (Datatypes.S (length buf)) p buf);
        run_command (argv_strings argv buf) ;;
        eval_loop fuel' p buf
  end.
Definition eval (script : list Z) : ST S unit := eval_loop (Datatypes.S (length script)) 0 script.
End Eval.

(** ** Reading a line *)

(** The rest of a chunk from position [j] on.  [out] is what was echoed. *)
Inductive line_status := LineDone (err : Z) | LineMore.
Fixpoint read_chunk (fuel : nat) (len i : nat) (j : nat) (chunk cmdline out : list Z)
    : outcome (line_status * nat * list Z * list Z) :=
  match fuel with
  | O => Undef
  | S fuel' =>
      if (length chunk <=? j)%nat then Ok (LineMore, i, cmdline, out)
      else if (len <=? i)%nat then Ok (LineDone ERR_TOO_LARGE, i, cmdline, out)
      else
        ch ← char_at j chunk;
        if ch =? 27 then
          read_chunk fuel' len i (S (if (j + 2 <? length chunk)%nat then j + 2 else j)%nat) chunk cmdline out
        else if ch =? 127 then
          if (0 <? i)%nat then read_chunk fuel' len (i - 1) (S j) chunk cmdline (out ++ [8; 32; 8])
          else read_chunk fuel' len i (S j) chunk cmdline out
        else
          let '(ch, out) := if ch =? 13 then (10, out ++ [13]) else (ch, out) in
          let out := out ++ [ch] in
          if (length cmdline <=? i)%nat then Undef
          else if ch =? 10 then Ok (LineDone OK, i, <[i := 0]> cmdline, out)
          else read_chunk fuel' len (S i) (S j) chunk (<[i := ch]> cmdline) out
  end.
(** The results of [sys_serial_read] in turn: an error or the characters read.  A line that
    is not complete when they run out still waits ([LineMore]). *)
Fixpoint read_line_loop (reads : list (Z + list Z)) (len i : nat) (cmdline out : list Z)
    : outcome (line_status * nat * list Z * list Z) :=
  match reads with
  | [] => Ok (LineMore, i, cmdline, out)
  | inl err :: _ => Ok (LineDone err, i, cmdline, out)
  | inr chunk :: reads' =>
      '(st, i, cmdline, out) ← read_chunk (S (length chunk)) len i 0 chunk cmdline out;
      match st with
      | LineMore => read_line_loop reads' len i cmdline out
      | LineDone err => Ok (LineDone err, i, cmdline, out)
      end
  end.
Definition read_line (reads : list (Z + list Z)) (cmdline : list Z) (len : nat) : outcome (line_status * nat * list Z * list Z) :=
  read_line_loop reads len 0 cmdline [].

(** ** What a line means *)

(** The pieces between separators. *)
Fixpoint cut (sep : Z -> bool) (l : list Z) : list (list Z) :=
  match l with
  | [] => [[]]
  | c :: l' =>
      if sep c then [] :: cut sep l'
      else match cut sep l' with p :: ps => (c :: p) :: ps | [] => [[c]] end
  end.
(** The arguments: the non-empty pieces, and an empty one at the end if the command ends
    with two or more separators or is blank. *)
Fixpoint words (ps : list (list Z)) : list (list Z) :=
  match ps with
  | [] => []
  | w :: ps' =>
      match ps' with
      | [] => [w]
      | q :: qs =>
          match w with
          | [] => words ps'
          | _ => match q, qs with [], [] => [w] | _, _ => w :: words ps' end
          end
      end
  end.
Definition args_of (cmd : list Z) : list (list Z) := words (cut is_ws cmd).
(** The commands: the pieces between semicolons, without empty ones but the first. *)
Definition commands_of (script : list Z) : list (list (list Z)) :=
  match script with
  | [] => []
  | _ => match cut (Z.eqb CH_SEMICOLON) script with
         | [] => []
         | s :: ss => args_of s :: (args_of <$> filter (fun x => x <> []) ss)
         end
  end.

Example commands_echo : commands_of [101; 32; 97; 32; 32; 98; 59; 59; 108; 115] = [[[101]; [97]; [98]]; [[108; 115]]].
Proof. reflexivity. Qed.

(** *** Equations of the specification *)
Lemma cut_nonempty sep l : cut sep l <> [].
Proof. destruct l as [|c l]; simpl; [done|]. destruct (sep c); [done|]. by destruct (cut sep l). Qed.
Lemma cut_plain sep w : Forall (fun c => sep c = false) w -> cut sep w = [w].
Proof. induction 1 as [|c w Hc _ IH]; simpl; [done|]. by rewrite Hc, IH. Qed.
Lemma cut_sep sep w c x : Forall (fun c => sep c = false) w -> sep c = true -> cut sep (w ++ c :: x) = w :: cut sep x.
Proof. intros Hw Hc. induction Hw as [|d w Hd _ IH]; simpl; [by rewrite Hc|]. by rewrite Hd, IH. Qed.

Lemma args_of_ws c x : is_ws c = true -> args_of (c :: x) = args_of x.
Proof.
  intros Hc. unfold args_of. simpl. rewrite Hc. destruct (cut is_ws x) eqn:E; [by apply cut_nonempty in E|done].
Qed.
Lemma args_of_wss ws x : Forall (fun c => is_ws c = true) ws -> args_of (ws ++ x) = args_of x.
Proof. induction 1 as [|c ws Hc _ IH]; simpl; [done|]. by rewrite args_of_ws. Qed.
Lemma args_of_word w : Forall (fun c => is_ws c = false) w -> args_of w = [w].
Proof. intros Hw. unfold args_of. by rewrite cut_plain. Qed.
Lemma args_of_next w c x :
  w <> [] -> Forall (fun c => is_ws c = false) w -> is_ws c = true ->
  args_of (w ++ c :: x) = match x with [] => [w] | _ => w :: args_of x end.
Proof.
  intros Hn Hw Hc. unfold args_of. rewrite cut_sep by done.
  destruct x as [|d x]; [by destruct w|]. destruct w as [|a w]; [done|]. simpl.
  destruct (is_ws d); [by destruct (cut is_ws x) eqn:E; [apply cut_nonempty in E|]|].
  by destruct (cut is_ws x).
Qed.

Lemma words_nonempty ps : ps <> [] -> words ps <> [].
Proof.
  induction ps as [|w [|q qs] IH]; [done|done|]. intros _. cbn [words]. destruct w; [by apply IH|]. by destruct q, qs.
Qed.
Lemma args_of_nonempty cmd : args_of cmd <> [].
Proof. apply words_nonempty, cut_nonempty. Qed.

(** The longest prefix whose characters satisfy a test. *)
Lemma span_split (t : Z -> bool) l : exists a b, l = a ++ b /\ Forall (fun c => t c = true) a
  /\ match b with [] => True | c :: _ => t c = false end.
Proof.
  induction l as [|c l (a & b & -> & Ha & Hb)]; [by exists [], []|]. destruct (t c) eqn:E.
  - exists (c :: a), b. split_and!; [done|by constructor|done].
  - exists [], (c :: a ++ b). by split_and!.
Qed.

(** *** The loops *)
Lemma char_at_app pre c x : char_at (length pre) (pre ++ c :: x) = Ok c.
Proof. unfold char_at. by rewrite list_lookup_middle. Qed.
Lemma char_at_app' p pre c x : p = length pre -> char_at p (pre ++ c :: x) = Ok c.
Proof. intros ->. apply char_at_app. Qed.

Lemma skip_whitespaces_run fuel pre ws c x :
  Forall (fun c => is_ws c = true) ws -> is_ws c = false -> (length ws < fuel)%nat ->
  skip_whitespaces fuel (length pre) (pre ++ ws ++ c :: x) = Ok (length pre + length ws)%nat.
Proof.
  intros Hws Hc. revert fuel pre. induction Hws as [|d ws Hd _ IH]; intros [|fuel] pre Hf; simpl in Hf; try lia;
    cbn [skip_whitespaces app].
  - rewrite char_at_app. simpl. rewrite Hc, Nat.add_0_r. done.
  - rewrite char_at_app. simpl. rewrite Hd. specialize (IH fuel (pre ++ [d]) ltac:(lia)).
    rewrite length_app, <- app_assoc in IH. simpl in IH. rewrite Nat.add_1_r in IH. rewrite IH. f_equal. lia.
Qed.

(** A character of a word. *)
Definition is_plain (c : Z) : bool := negb (c =? 0) && negb (c =? CH_SEMICOLON) && negb (is_ws c).
Definition ends_word (c : Z) : bool := (c =? 0) || (c =? CH_SEMICOLON).

Lemma consume_argv_run fuel pre w c x :
  Forall (fun c => is_plain c = true) w -> is_plain c = false -> (length w < fuel)%nat ->
  consume_argv fuel (length pre) (pre ++ w ++ c :: x) =
    if ends_word c then Ok ((length pre + length w)%nat, pre ++ w ++ c :: x)
    else Ok (S (length pre + length w), pre ++ w ++ 0 :: x).
Proof.
  intros Hw Hc. revert fuel pre. induction Hw as [|d w Hd _ IH]; intros [|fuel] pre Hf; simpl in Hf; try lia;
    cbn [consume_argv app].
  - rewrite char_at_app. simpl. rewrite Nat.add_0_r. fold (ends_word c). unfold is_plain in Hc. unfold ends_word in *.
    destruct (c =? 0); [done|]. destruct (c =? CH_SEMICOLON); [done|]. simpl in *. apply negb_false_iff in Hc. rewrite Hc.
    by rewrite insert_app_r_alt, Nat.sub_diag by done.
  - rewrite char_at_app. simpl. unfold is_plain in Hd. destruct (d =? 0); [done|]. destruct (d =? CH_SEMICOLON); [done|]. simpl in *.
    apply negb_true_iff in Hd. rewrite Hd. specialize (IH fuel (pre ++ [d]) ltac:(lia)).
    rewrite length_app, <- !app_assoc in IH. simpl in IH. rewrite Nat.add_1_r in IH. rewrite IH.
    replace (S (length pre) + length w)%nat with (length pre + S (length w))%nat by lia. done.
Qed.

(** Position [p] of the line [b] holds the string [w]. *)
Definition points (b : list Z) (p : nat) (w : list Z) : Prop :=
  exists y, drop p (b ++ [0]) = w ++ 0 :: y /\ Forall (fun c => c <> 0) w.
Lemma points_string b p w y : points b p w -> until_nul (drop p (b ++ 0 :: y)) = w.
Proof.
  intros (z & E & Hw). assert (Hp : (p <= length b)%nat).
  { destruct (decide (p <= length b)%nat); [done|]. exfalso. rewrite drop_ge in E by (rewrite length_app; simpl; lia). by destruct w. }
  rewrite (cons_middle 0 b y), app_assoc, drop_app_le by (rewrite length_app; simpl; lia). rewrite E.
  rewrite <- app_assoc. cbn [app]. clear E Hp. induction Hw as [|c w Hc _ IH]; simpl; [done|].
  replace (c =? 0) with false by lia. by rewrite IH.
Qed.

(** A word at the end of what has been read so far stays when the line is cut further. *)
Lemma points_word pre w : Forall (fun c => c <> 0) w -> points (pre ++ w) (length pre) w.
Proof. intros Hw. exists []. split; [|done]. by rewrite <- app_assoc, drop_app_length. Qed.
Lemma points_extend b x p w : points b p w -> points (b ++ 0 :: x) p w.
Proof.
  intros (y & E & Hw). assert (Hp : (p <= length b)%nat).
  { destruct (decide (p <= length b)%nat); [done|]. exfalso. rewrite drop_ge in E by (rewrite length_app; simpl; lia). by destruct w. }
  exists (y ++ x ++ [0]). split; [|done]. rewrite <- app_assoc. simpl. rewrite (cons_middle 0 b (x ++ [0])), app_assoc.
  rewrite drop_app_le by (rewrite length_app; simpl; lia). rewrite E. by rewrite <- app_assoc.
Qed.

(** Characters of a command: neither the terminator nor a semicolon. *)
Definition seg_char (c : Z) : Prop := c <> 0 /\ c <> CH_SEMICOLON.
Lemma seg_word w : Forall seg_char w -> Forall (fun c => is_ws c = false) w -> Forall (fun c => is_plain c = true) w.
Proof.
  intros H1 H2. induction H1 as [|c w [Hc1 Hc2] _ IH]; [done|]. apply Forall_cons in H2 as [H2 H3]. constructor; [|auto].
  unfold is_plain. replace (c =? 0) with false by lia. replace (c =? CH_SEMICOLON) with false by lia. by rewrite H2.
Qed.
Lemma ends_plain s : ends_word s = true -> is_plain s = false /\ is_ws s = false.
Proof. unfold ends_word, is_plain, is_ws. intros [->%Z.eqb_eq| ->%Z.eqb_eq]%orb_true_iff; done. Qed.

Lemma skip_to_word n pre ws w r s tail :
  ends_word s = true -> Forall (fun c => is_ws c = true) ws -> Forall (fun c => is_plain c = true) w ->
  match r with [] => True | c :: _ => is_ws c = true /\ w <> [] end -> (length ws < n)%nat ->
  skip_whitespaces n (length pre) (pre ++ ws ++ w ++ r ++ s :: tail) = Ok (length pre + length ws)%nat.
Proof.
  intros Hs Hws Hw Hr Hn. destruct (ends_plain s Hs) as [Hsp Hsw]. destruct w as [|a w].
  - destruct r as [|c r]; [|by destruct Hr]. cbn [app]. by apply skip_whitespaces_run.
  - apply skip_whitespaces_run; [done|apply Forall_cons in Hw as [Hw _]|done].
    unfold is_plain in Hw. apply andb_true_iff in Hw as [_ Hw]. by apply negb_true_iff in Hw.
Qed.

(** One argument and what follows it. *)
Lemma parse_args_step fuel pre ws w r s tail argv :
  ends_word s = true -> Forall (fun c => is_ws c = true) ws -> Forall (fun c => is_plain c = true) w ->
  match r with [] => True | c :: _ => is_ws c = true /\ w <> [] end -> (length argv < ARGC_MAX)%nat ->
  parse_args (S fuel) (length pre) argv (pre ++ ws ++ w ++ r ++ s :: tail) =
    let p := (length pre + length ws)%nat in
    match r with
    | [] => Ok ((p + length w)%nat, argv ++ [p], pre ++ ws ++ w ++ s :: tail)
    | _ :: x =>
        let buf := (pre ++ ws ++ w ++ [0]) ++ x ++ s :: tail in
        match x with
        | d :: _ => if negb (d =? 0) && negb (d =? CH_SEMICOLON)
                    then parse_args fuel (length (pre ++ ws ++ w ++ [0])) (argv ++ [p]) buf
                    else Ok (length (pre ++ ws ++ w ++ [0]), argv ++ [p], buf)
        | [] => Ok (length (pre ++ ws ++ w ++ [0]), argv ++ [p], buf)
        end
    end.
Proof.
  intros Hs Hws Hw Hr Hroom. destruct (ends_plain s Hs) as [Hsp Hsw]. cbn [parse_args]. cbv zeta.
  set (n := S (length (pre ++ ws ++ w ++ r ++ s :: tail))).
  assert (Hn : (length ws < n)%nat /\ (length w < n)%nat) by (subst n; rewrite !length_app; lia).
  assert (Hskip : skip_whitespaces n (length pre) (pre ++ ws ++ w ++ r ++ s :: tail) = Ok (length pre + length ws)%nat)
    by (apply skip_to_word; tauto).
  rewrite Hskip. cbn [mbind outcome_bind]. replace (ARGC_MAX <=? length argv)%nat with false by (symmetry; apply Nat.leb_gt; lia).
  replace (length pre + length ws)%nat with (length (pre ++ ws)) by apply length_app.
  replace (pre ++ ws ++ w ++ r ++ s :: tail) with ((pre ++ ws) ++ w ++ r ++ s :: tail) by (by rewrite <- app_assoc).
  destruct r as [|c x].
  - cbn [app]. rewrite consume_argv_run by tauto. rewrite Hs. cbn [mbind outcome_bind].
    rewrite (app_assoc (pre ++ ws)), char_at_app' by (by rewrite !length_app). cbn [mbind outcome_bind].
    assert (Hno : negb (s =? 0) && negb (s =? CH_SEMICOLON) = false) by (rewrite <- negb_orb; by apply negb_false_iff).
    rewrite Hno. by rewrite <- !app_assoc, !length_app.
  - destruct Hr as [Hc _]. cbn [app].
    assert (Hcp : is_plain c = false) by (unfold is_plain; rewrite Hc; apply andb_false_r).
    assert (Hce : ends_word c = false).
    { unfold ends_word. unfold is_ws in Hc. destruct (Z.eqb_spec c 0) as [->|]; [done|].
      destruct (Z.eqb_spec c CH_SEMICOLON) as [->|]; [done|done]. }
    rewrite consume_argv_run by tauto. rewrite Hce. cbn [mbind outcome_bind].
    replace ((pre ++ ws) ++ w ++ 0 :: x ++ s :: tail) with ((pre ++ ws ++ w ++ [0]) ++ x ++ s :: tail) by (by rewrite <- !app_assoc).
    replace (S (length (pre ++ ws) + length w)) with (length (pre ++ ws ++ w ++ [0])) by (rewrite !length_app; simpl; lia).
    destruct x as [|d x]; cbn [app]; rewrite char_at_app; cbn [mbind outcome_bind]; [|done].
    assert (Hno : negb (s =? 0) && negb (s =? CH_SEMICOLON) = false) by (rewrite <- negb_orb; by apply negb_false_iff).
    by rewrite Hno.
Qed.

(** A command in the form the loop meets it: blanks, a word, and the rest. *)
Lemma seg_split seg : Forall seg_char seg -> exists ws w r, seg = ws ++ w ++ r
  /\ Forall (fun c => is_ws c = true) ws /\ Forall (fun c => is_ws c = false) w
  /\ Forall (fun c => is_plain c = true) w /\ Forall (fun c => c <> 0) w /\ Forall seg_char r
  /\ match r with [] => True | c :: _ => is_ws c = true /\ w <> [] end.
Proof.
  intros Hseg. destruct (span_split is_ws seg) as (ws & rest & -> & Hws & Hrest). apply Forall_app in Hseg as [_ Hseg].
  destruct (span_split (fun c => negb (is_ws c)) rest) as (w & r & -> & Hw & Hr). apply Forall_app in Hseg as [Hsegw Hsegr].
  assert (Hw' : Forall (fun c => is_ws c = false) w) by (eapply Forall_impl; [exact Hw|]; intros c; apply negb_true_iff).
  exists ws, w, r. split_and!; try done.
  - by apply seg_word.
  - eapply Forall_impl; [exact Hsegw|]. by intros c [].
  - destruct r as [|c r]; [done|]. apply negb_false_iff in Hr. split; [done|]. intros ->. simpl in Hrest. congruence.
Qed.

Lemma parse_args_run fuel : forall pre seg s tail argv,
  (length seg < fuel)%nat -> ends_word s = true -> Forall seg_char seg -> (length argv <= ARGC_MAX)%nat ->
  ((length argv + length (args_of seg) <= ARGC_MAX)%nat ->
   exists ptrs seg', length seg' = length seg /\ Forall2 (points (pre ++ seg')) ptrs (args_of seg) /\
    parse_args fuel (length pre) argv (pre ++ seg ++ s :: tail)
      = Ok ((length pre + length seg)%nat, argv ++ ptrs, pre ++ seg' ++ s :: tail))
  /\ ((ARGC_MAX < length argv + length (args_of seg))%nat ->
      parse_args fuel (length pre) argv (pre ++ seg ++ s :: tail) = Undef).
Proof.
  induction fuel as [|fuel IH]; intros pre seg s tail argv Hf Hs Hseg Hmax; [lia|].
  destruct (seg_split seg Hseg) as (ws & w & r & -> & Hws & Hw & Hwp & Hwz & Hr & Hrc). clear Hseg.
  rewrite args_of_wss by done. rewrite !length_app in *.
  replace (pre ++ (ws ++ w ++ r) ++ s :: tail) with (pre ++ ws ++ w ++ r ++ s :: tail) by (by rewrite <- !app_assoc).
  destruct (decide (length argv < ARGC_MAX)%nat) as [Hroom|Hfull].
  2: { pose proof (args_of_nonempty (w ++ r)) as Hne. destruct (args_of (w ++ r)) as [|y ys]; [done|]. cbn [length].
       split; [lia|]. intros _. cbn [parse_args]. rewrite skip_to_word; [|done..|rewrite !length_app; lia].
       cbn [mbind outcome_bind]. by replace (ARGC_MAX <=? length argv)%nat with true by (symmetry; apply Nat.leb_le; lia). }
  rewrite (parse_args_step fuel pre ws w r s tail argv) by done. cbv zeta. set (p := (length pre + length ws)%nat).
  assert (Hpt : points (pre ++ ws ++ w) p w).
  { rewrite app_assoc. replace p with (length (pre ++ ws)) by apply length_app. by apply points_word. }
  destruct r as [|c x].
  { rewrite app_nil_r, args_of_word by done. split; [|simpl; lia]. intros _. exists [p], (ws ++ w). rewrite !length_app. simpl.
    split; [lia|]. split; [by constructor|]. rewrite <- app_assoc. do 3 f_equal; subst p; lia. }
  destruct Hrc as [Hc Hwn]. rewrite args_of_next by done. apply Forall_cons in Hr as [_ Hx].
  destruct x as [|d x].
  { split; [|simpl; lia]. intros _. exists [p], (ws ++ w ++ [0]). rewrite !length_app. simpl. split; [lia|]. split.
    - constructor; [|done]. rewrite !app_assoc. apply points_extend. by rewrite <- app_assoc.
    - rewrite <- !app_assoc. do 3 f_equal; lia. }
  assert (Hd : negb (d =? 0) && negb (d =? CH_SEMICOLON) = true).
  { apply Forall_cons in Hx as [[? ?] _]. apply andb_true_iff. split; apply negb_true_iff; lia. }
  rewrite Hd. destruct (IH (pre ++ ws ++ w ++ [0]) (d :: x) s tail (argv ++ [p])) as [I1 I2]; [simpl in *; lia|done|done|rewrite length_app; simpl; lia|].
  rewrite (length_app argv) in I1, I2. cbn [length] in I1, I2 |- *. split; intros Hle.
  - destruct I1 as (ptrs & seg' & Hl & Hp & E); [lia|]. exists (p :: ptrs), (ws ++ w ++ [0] ++ seg').
    rewrite E, !length_app. cbn [length]. split; [lia|]. split.
    + constructor.
      * rewrite !app_assoc, <- (app_assoc _ [0]). apply points_extend. by rewrite <- app_assoc.
      * by rewrite <- !app_assoc in Hp.
    + rewrite <- !app_assoc. cbn [length app]. do 3 f_equal; lia.
  - apply I2. lia.
Qed.

(** *** Commands *)
Lemma skip_semicolons_run fuel pre ss c x :
  Forall (fun c => (CH_SEMICOLON =? c) = true) ss -> (CH_SEMICOLON =? c) = false -> (length ss < fuel)%nat ->
  skip_semicolons fuel (length pre) (pre ++ ss ++ c :: x)
    = Ok ((length pre + length ss)%nat, pre ++ replicate (length ss) 0 ++ c :: x).
Proof.
  intros Hss Hc. revert fuel pre. induction Hss as [|d ss Hd _ IH]; intros [|fuel] pre Hf; simpl in Hf; try lia;
    cbn [skip_semicolons app length replicate].
  - rewrite char_at_app. simpl. rewrite Z.eqb_sym, Hc, Nat.add_0_r. done.
  - rewrite char_at_app. simpl. rewrite Z.eqb_sym, Hd. rewrite insert_app_r_alt, Nat.sub_diag by done. cbn [insert list_insert].
    specialize (IH fuel (pre ++ [0]) ltac:(lia)). rewrite length_app, <- !app_assoc in IH. simpl in IH. rewrite Nat.add_1_r in IH.
    rewrite IH. do 2 f_equal. lia.
Qed.

Lemma commands_of_next seg ss rest :
  Forall (fun c => (CH_SEMICOLON =? c) = false) seg -> Forall (fun c => (CH_SEMICOLON =? c) = true) ss ->
  match rest with [] => True | c :: _ => (CH_SEMICOLON =? c) = false /\ ss <> [] end ->
  seg ++ ss ++ rest <> [] -> commands_of (seg ++ ss ++ rest) = args_of seg :: commands_of rest.
Proof.
  intros Hseg Hss Hrest Hne. unfold commands_of at 1. destruct (seg ++ ss ++ rest) as [|z l] eqn:E; [done|]. rewrite <- E. clear E Hne.
  assert (Hdrop : forall ss, Forall (fun c => (CH_SEMICOLON =? c) = true) ss ->
    filter (fun x => x <> []) (cut (Z.eqb CH_SEMICOLON) (ss ++ rest)) = filter (fun x => x <> []) (cut (Z.eqb CH_SEMICOLON) rest)).
  { intros ss'. induction 1 as [|c ss' Hc _ IH]; [done|]. cbn [app cut]. rewrite Hc, filter_cons_False by (intros Hx; by apply Hx). exact IH. }
  assert (Hres : args_of <$> filter (fun x => x <> []) (cut (Z.eqb CH_SEMICOLON) rest) = commands_of rest).
  { unfold commands_of. destruct rest as [|c rest]; [done|]. destruct Hrest as [Hc _]. cbn [cut]. rewrite Hc.
    destruct (cut (Z.eqb CH_SEMICOLON) rest) as [|q qs] eqn:Eq; [by apply cut_nonempty in Eq|]. by rewrite filter_cons_True. }
  destruct ss as [|c ss].
  - destruct rest as [|c rest]; [|by destruct Hrest]. cbn [app]. rewrite app_nil_r, cut_plain by done. done.
  - apply Forall_cons in Hss as [Hc Hss]. cbn [app]. rewrite cut_sep by done. f_equal. by rewrite Hdrop.
Qed.

(** The rest of a script: a command, the semicolons behind it, and further commands. *)
Lemma script_split script : Forall (fun c => c <> 0) script -> exists seg ss rest, script = seg ++ ss ++ rest
  /\ Forall seg_char seg /\ Forall (fun c => (CH_SEMICOLON =? c) = false) seg /\ Forall (fun c => (CH_SEMICOLON =? c) = true) ss
  /\ Forall (fun c => c <> 0) rest /\ match rest with [] => True | c :: _ => (CH_SEMICOLON =? c) = false /\ ss <> [] end.
Proof.
  intros Hz. destruct (span_split (fun c => negb (CH_SEMICOLON =? c)) script) as (seg & r & -> & Hseg & Hr).
  destruct (span_split (Z.eqb CH_SEMICOLON) r) as (ss & rest & -> & Hss & Hrest). rewrite !Forall_app in Hz. destruct Hz as (Hz1 & _ & Hz3).
  assert (Hseg' : Forall (fun c => (CH_SEMICOLON =? c) = false) seg) by (eapply Forall_impl; [exact Hseg|]; intros c; apply negb_true_iff).
  exists seg, ss, rest. split_and!; try done.
  - apply Forall_and. split; [done|]. eapply Forall_impl; [exact Hseg'|]. intros c Hx%Z.eqb_neq. congruence.
  - destruct rest as [|c rest]; [done|]. split; [done|]. intros ->. cbn [app] in Hr. apply negb_false_iff in Hr. congruence.
Qed.

Section EvalSpec.
Context {T : Type} (run_command : list (list Z) -> ST T unit).

(** The commands of a line, in order; the array of arguments holds [ARGC_MAX]. *)
Fixpoint run_all (cmds : list (list (list Z))) : ST T unit :=
  match cmds with
  | [] => mret tt
  | c :: cmds' => if (length c <=? ARGC_MAX)%nat then run_command c ;; run_all cmds' else undef
  end.

Lemma points_strings ptrs words b y :
  Forall2 (points b) ptrs words -> argv_strings ptrs (b ++ 0 :: y) = words.
Proof.
  induction 1 as [|p w ptrs ws Hp _ IH]; [done|]. cbn [argv_strings fmap list_fmap]. f_equal; [by apply points_string|exact IH].
Qed.

Lemma eval_loop_run fuel : forall pre script tail t,
  (length script < fuel)%nat -> Forall (fun c => c <> 0) script ->
  eval_loop run_command fuel (length pre) (pre ++ script ++ 0 :: tail) t = run_all (commands_of script) t.
Proof.
  induction fuel as [|fuel IH]; intros pre script tail t Hf Hz; [lia|]. cbn [eval_loop].
  destruct script as [|c0 script0] eqn:Escr.
  { cbn [app]. rewrite char_at_app. done. }
  rewrite <- Escr in *. assert (Hne : script <> []) by congruence.
  assert (Hc0 : lift_out (char_at (length pre) (pre ++ script ++ 0 :: tail)) t = Ok (c0, t)).
  { rewrite Escr. cbn [app]. by rewrite char_at_app. }
  rewrite (ST_bind_run _ _ _ _ _ Hc0). replace (c0 =? 0) with false.
  2: { symmetry. apply Z.eqb_neq. rewrite Escr in Hz. by apply Forall_cons in Hz as [? _]. }
  clear Hc0 Escr c0 script0. destruct (script_split script Hz) as (seg & ss & rest & -> & Hseg & Hsegc & Hss & Hrz & Hrest).
  rewrite commands_of_next by done. cbn [run_all]. rewrite !length_app in Hf.
  (* what ends the command *)
  assert (Hend : exists s tl, ss ++ rest ++ 0 :: tail = s :: tl /\ ends_word s = true).
  { destruct ss as [|s ss]; [destruct rest; [eexists _, _; split; reflexivity|by destruct Hrest]|]. apply Forall_cons in Hss as [<-%Z.eqb_eq _].
    eexists _, _. split; reflexivity. }
  destruct Hend as (s & tl & Etl & Hs). rewrite <- !app_assoc, Etl.
  destruct (parse_args_run (S (length (pre ++ seg ++ s :: tl))) pre seg s tl []) as [P1 P2];
    [rewrite !length_app; lia|done|done|simpl; lia|]. cbn [length Nat.add] in P1, P2.
  destruct (Nat.leb_spec (length (args_of seg)) ARGC_MAX) as [Hle|Hgt].
  2: { unfold mbind at 1, ST_bind, lift_out. by rewrite P2. }
  destruct P1 as (ptrs & seg' & Hlen & Hpts & E); [done|].
  rewrite (ST_bind_run _ _ t (length pre + length seg, [] ++ ptrs, pre ++ seg' ++ s :: tl)%nat t) by (unfold lift_out; by rewrite E).
  cbv beta iota. cbn [app]. rewrite <- Etl, app_assoc.
  replace (length pre + length seg)%nat with (length (pre ++ seg')) by (rewrite length_app; lia).
  assert (Hskip : exists c x, rest ++ 0 :: tail = c :: x /\ (CH_SEMICOLON =? c) = false).
  { destruct rest as [|c x]; [by eexists _, _|]. destruct Hrest. by eexists _, _. }
  destruct Hskip as (c & x & Ex & Hc). rewrite Ex.
  rewrite (ST_bind_run _ _ t ((length (pre ++ seg') + length ss)%nat, (pre ++ seg') ++ replicate (length ss) 0 ++ c :: x) t).
  2: { unfold lift_out. rewrite skip_semicolons_run; [done|done|done|rewrite !length_app; lia]. }
  cbv beta iota. rewrite <- Ex.
  assert (Hstr : argv_strings ptrs ((pre ++ seg') ++ replicate (length ss) 0 ++ rest ++ 0 :: tail) = args_of seg).
  { destruct ss as [|s0 ss]; [destruct rest; [|by destruct Hrest]|]; by apply points_strings. }
  rewrite Hstr. unfold mbind, ST_bind. destruct (run_command (args_of seg) t) as [[[] t']| |]; [|done..].
  specialize (IH ((pre ++ seg') ++ replicate (length ss) 0) rest tail t').
  rewrite !length_app, length_replicate, <- !app_assoc in IH. rewrite !length_app, <- !app_assoc.
  rewrite Nat.add_assoc in *. rewrite IH; [done| |done]. destruct ss as [|? ?], seg as [|? ?]; simpl in *; try lia. by destruct rest; [|destruct Hrest].
Qed.

(** C22: A line runs exactly its commands, in order, each with exactly its arguments: those
    of the specification, however they are separated; a command with more than
    [ARGC_MAX] arguments is written past the end of the array. *)
Theorem eval_refines_commands script tail t :
  Forall (fun c => c <> 0) script ->
  eval run_command (script ++ 0 :: tail) t = run_all (commands_of script) t.
Proof.
  intros Hz. unfold eval. apply (eval_loop_run _ [] script tail t); [|done]. rewrite length_app. lia.
Qed.
End EvalSpec.

(** ** The line editor *)

(** What the keys do to the line: escape sequences are ignored, delete removes the last
    character, return ends the line. *)
Fixpoint edit_chunk (len : nat) (line keys : list Z) : line_status * list Z :=
  match keys with
  | [] => (LineMore, line)
  | ch :: keys' =>
      if (len <=? length line)%nat then (LineDone ERR_TOO_LARGE, line)
      else if ch =? 27 then
        match keys' with
        | _ :: _ :: keys'' => edit_chunk len line keys''
        | _ => edit_chunk len line keys'
        end
      else if ch =? 127 then edit_chunk len (take (length line - 1) line) keys'
      else if (ch =? 13) || (ch =? 10) then (LineDone OK, line)
      else edit_chunk len (line ++ [ch]) keys'
  end.
Fixpoint edit_reads (len : nat) (line : list Z) (reads : list (Z + list Z)) : line_status * list Z :=
  match reads with
  | [] => (LineMore, line)
  | inl err :: _ => (LineDone err, line)
  | inr chunk :: reads' =>
      match edit_chunk len line chunk with
      | (LineMore, line') => edit_reads len line' reads'
      | done => done
      end
  end.

(** The buffer holds the line. *)
Definition holds_line (len i : nat) (buf line : list Z) : Prop := length buf = len /\ length line = i /\ (i <= len)%nat /\ take i buf = line.
Lemma holds_push len i buf line ch : holds_line len i buf line -> (i < len)%nat -> holds_line len (S i) (<[i := ch]> buf) (line ++ [ch]).
Proof.
  intros (Hl & Hi & Hle & Ht) Hlt. split_and!; [by rewrite length_insert|rewrite length_app; simpl; lia|lia|].
  rewrite (take_S_r _ _ ch) by (rewrite list_lookup_insert_eq; [done|lia]). by rewrite take_insert_ge, Ht by lia.
Qed.
Lemma holds_pop len i buf line : holds_line len i buf line -> holds_line len (i - 1) buf (take (length line - 1) line).
Proof.
  intros (Hl & Hi & Hle & Ht). split_and!; [done|rewrite length_take; lia|lia|]. rewrite Hi, <- Ht, take_take.
  f_equal. lia.
Qed.

(** A finished line is terminated. *)
Definition line_ends (st : line_status) (i : nat) (buf : list Z) : Prop :=
  match st with LineDone err => err = OK -> buf !! i = Some 0 | LineMore => True end.

Lemma read_chunk_run fuel : forall len i j chunk buf out line,
  holds_line len i buf line -> (length chunk - j < fuel)%nat ->
  exists i' buf' out' st line', read_chunk fuel len i j chunk buf out = Ok (st, i', buf', out')
    /\ edit_chunk len line (drop j chunk) = (st, line') /\ holds_line len i' buf' line' /\ line_ends st i' buf'.
Proof.
  induction fuel as [|fuel IH]; intros len i j chunk buf out line Hh Hf; [lia|]. cbn [read_chunk].
  destruct (Nat.leb_spec (length chunk) j) as [Hj|Hj].
  { rewrite drop_ge by done. exists i, buf, out, LineMore, line. by split_and!. }
  destruct (lookup_lt_is_Some_2 chunk j Hj) as [ch Hch]. rewrite (drop_S _ _ _ Hch). cbn [edit_chunk].
  pose proof Hh as (Hl & Hi & Hle & Ht). rewrite Hi.
  destruct (Nat.leb_spec len i) as [Hfull|Hroom].
  { exists i, buf, out, (LineDone ERR_TOO_LARGE), line. by split_and!. }
  unfold char_at. rewrite Hch. cbn [mbind outcome_bind].
  destruct (ch =? 27).
  { destruct (Nat.ltb_spec (j + 2) (length chunk)) as [Hlong|Hshort].
    - destruct (lookup_lt_is_Some_2 chunk (S j)) as [a Ha]; [lia|]. destruct (lookup_lt_is_Some_2 chunk (S (S j))) as [b Hb]; [lia|].
      rewrite (drop_S _ _ _ Ha), (drop_S _ _ _ Hb). replace (S (j + 2)) with (S (S (S j))) by lia. apply IH; [done|lia].
    - replace (match drop (S j) chunk with _ :: _ :: keys'' => edit_chunk len line keys'' | _ => edit_chunk len line (drop (S j) chunk) end)
        with (edit_chunk len line (drop (S j) chunk)); [by apply IH; [|lia]|].
      destruct (drop (S j) chunk) as [|a [|b r]] eqn:Ed; [done..|]. apply (f_equal length) in Ed. rewrite length_drop in Ed. simpl in Ed. lia. }
  destruct (ch =? 127).
  { pose proof (holds_pop _ _ _ _ Hh) as Hp. rewrite Hi in Hp. destruct (Nat.ltb_spec 0 i) as [Hpos|Hzero]; [apply IH; [done|lia]|].
    replace (i - 1)%nat with i in * by lia. apply IH; [done|lia]. }
  destruct (Z.eqb_spec ch 13) as [->|Hcr]; cbn [orb]; (replace (length buf <=? i)%nat with false by (symmetry; apply Nat.leb_gt; lia)).
  - cbn [Z.eqb Pos.eqb]. eexists i, _, _, _, line. split; [reflexivity|]. split; [done|]. split.
    + split_and!; [by rewrite length_insert|done|done|by rewrite take_insert_ge].
    + intros _. rewrite list_lookup_insert_eq; [done|lia].
  - destruct (ch =? 10).
    + eexists i, _, _, _, line. split; [reflexivity|]. split; [done|]. split.
      * split_and!; [by rewrite length_insert|done|done|by rewrite take_insert_ge].
      * intros _. rewrite list_lookup_insert_eq; [done|lia].
    + apply IH; [by apply holds_push|lia].
Qed.

Lemma read_line_loop_run len reads : forall i buf out line,
  Forall (fun r => match r with inl err => err < 0 | inr _ => True end) reads -> holds_line len i buf line ->
  exists st i' buf' out', read_line_loop reads len i buf out = Ok (st, i', buf', out')
    /\ edit_reads len line reads = (st, take i' buf') /\ length buf' = len /\ (i' <= len)%nat /\ line_ends st i' buf'.
Proof.
  induction reads as [|[err|chunk] reads IH]; intros i buf out line Hr Hh; pose proof Hh as (Hl & Hi & Hle & Ht).
  - exists LineMore, i, buf, out. by rewrite <- Ht.
  - apply Forall_cons in Hr as [Hr _]. exists (LineDone err), i, buf, out. rewrite <- Ht. split_and!; try done.
    intros ->. done.
  - apply Forall_cons in Hr as [_ Hr]. cbn [read_line_loop edit_reads].
    destruct (read_chunk_run (S (length chunk)) len i 0 chunk buf out line Hh) as (i1 & buf1 & out1 & st & line1 & E & Ee & Hh1 & Hend); [lia|].
    rewrite E. cbn [mbind outcome_bind]. rewrite drop_0 in Ee. rewrite Ee. destruct st as [err|]; [|by apply IH].
    pose proof Hh1 as (? & ? & ? & <-). by exists (LineDone err), i1, buf1, out1.
Qed.

(** C34: [read_line] is the line editor: on every sequence of reads it returns, its buffer
    holds the edited line - terminated when the line is complete - and nothing outside
    of the buffer's [len] bytes is written. *)
Theorem read_line_refines_editor reads buf len :
  length buf = len -> Forall (fun r => match r with inl err => err < 0 | inr _ => True end) reads ->
  exists st i buf' out, read_line reads buf len = Ok (st, i, buf', out)
    /\ edit_reads len [] reads = (st, take i buf') /\ length buf' = len /\ (i <= len)%nat /\ line_ends st i buf'.
Proof. intros Hlen Hr. apply read_line_loop_run; [done|]. split_and!; [done|done|lia|done]. Qed.

(** ** Witnesses *)
Lemma eval_refines_commands_witness :
  eval (fun c : list (list Z) => modify (fun log => log ++ [c])) ([108; 115; 59; 99; 32; 120] ++ 0 :: [7; 7]) []
    = Ok (tt, [[[108; 115]]; [[99]; [120]]]).
Proof.
  rewrite (eval_refines_commands (fun c : list (list Z) => modify (fun log => log ++ [c])) [108; 115; 59; 99; 32; 120] [7; 7] []).
  - reflexivity.
  - repeat constructor; discriminate.
Defined.
(** "lx<DEL>s<RETURN>" *)
Lemma read_line_refines_editor_witness :
  exists i buf' out, read_line [inr [108; 120; 127]; inr [115; 13]] (replicate 8 7) 8 = Ok (LineDone OK, i, buf', out)
    /\ take i buf' = [108; 115] /\ buf' !! i = Some 0.
Proof.
  destruct (read_line_refines_editor [inr [108; 120; 127]; inr [115; 13]] (replicate 8 7) 8) as (st & i & buf' & out & E & Ee & _ & _ & Hend).
  - reflexivity.
  - repeat constructor.
  - assert (Est : edit_reads 8 [] [inr [108; 120; 127]; inr [115; 13]] = (LineDone OK, [108; 115])) by reflexivity.
    rewrite Est in Ee. injection Ee as <- Hl. exists i, buf', out. split; [exact E|]. split; [exact (eq_sym Hl)|]. by apply Hend.
Defined.
