(* ===== verification/ShellCmd.v ===== *)
(** The shell's commands (servers/shell/command.c, fs.c, http.c, and the main loop of
    main.c) and the pong server (servers/pong/main.c).

    A command is a client of the VM server, the file system server, the TCP/IP server or
    pong through the user library (UserIpc.v); the fields of its messages are those of
    Messages.v.  Strings are lists of characters; a string that the code edits in place
    is the list of its buffer.  What the shell prints is a list of lines.

    [http_get] reads the path of the URL out of a buffer that [resolve_url] has already
    freed; the model gives it the bytes the buffer had, which [free] does not touch, and
    is undefined for a URL whose buffer is large enough to be given out again. *)

From S2P Require Import Prelude Types KData CString Messages UserIpc Shell.

Open Scope string_scope.
Open Scope Z_scope.
Open Scope list_scope.

Inductive sline :=
| OutText (s : list Z)                                  (* printf *)
| OutWarn (what : string) (args : list (list Z))
| OutInfo (what : string) (args : list (list Z))
| OutNum (n : Z).

(** [atoi] and [strchr] on lists; [atoi_str] and [strchr_str] below relate them to the
    functions over memory of CString.v. *)
Fixpoint str_atoi_from (x : Z) (s : list Z) : outcome Z :=
  match s with
  | [] => Ok x
  | ch :: s' =>
      if (48 <=? ch) && (ch <=? 57) then
        if x * 10 + (ch - 48) <? 2 ^ 31 then str_atoi_from (x * 10 + (ch - 48)) s' else Undef
      else Ok x
  end.
Definition str_atoi (s : list Z) : outcome Z := str_atoi_from 0 s.
Definition isdigit (ch : Z) : bool := (48 <=? ch) && (ch <=? 57).
Definition toupper (ch : Z) : Z := if (97 <=? ch) && (ch <=? 122) then ch - 32 else ch.

(** A character in the string of a buffer from [p] on: its position in the buffer. *)
Fixpoint str_chr_from (c : Z) (p : nat) (s : list Z) : option nat :=
  match s with
  | [] => None
  | ch :: s' => if ch =? c then Some p else str_chr_from c (S p) s'
  end.
Definition str_chr (c : Z) (p : nat) (buf : list Z) : option nat := str_chr_from c p (until_nul (drop p buf)).

(** ** Addresses *)
Definition CH_DOT : Z := 46.
Definition CH_COLON : Z := 58.
Definition CH_SLASH : Z := 47.

(** The loop over the first three parts, on the copy [buf] of the string: the value so far,
    the buffer, the position behind the last dot and the start of the last part read. *)
Fixpoint parse_parts (n : nat) (p part : nat) (buf : list Z) (ip_addr : Z) : outcome (option (Z * list Z * nat * nat)) :=
  match n with
  | O => Ok (Some (ip_addr, buf, p, part))
  | S n' =>
      match str_chr CH_DOT p buf with
      | None => Ok None
      | Some s =>
          let buf := <[s := 0]> buf in
          v ← str_atoi (until_nul (drop p buf));
          parse_parts n' (S s) p buf (Z.lor (u32 (Z.shiftl ip_addr 8)) (u32 v))
      end
  end.
(** [ip_addr] is what the variable held before.  The fourth value is the third part again. *)
Definition parse_ipaddr (str : list Z) (ip_addr : Z) : outcome (option Z) :=
  r ← parse_parts 3 0 0 (until_nul str ++ [0]) ip_addr;
  match r with
  | None => Ok None
  | Some (ip_addr, buf, s, part) =>
      if (s <? length buf)%nat then
        let buf := <[s := 0]> buf in
        v ← str_atoi (until_nul (drop part buf));
        Ok (Some (Z.lor (u32 (Z.shiftl ip_addr 8)) (u32 v)))
      else Undef
  end.

Section Shell.
Context {W : Type} `{KernelIpc W}.
(** The other system calls, the bound of the receive loops, and what the local variables
    hold before they are set. *)
Context (sys_time : Z -> W -> Z * W) (sys_uptime : W -> Z).
Context (rfuel : nat) (garbage : message) (ip_garbage : Z).

(** [sh_down]: the machine has been shut down, nothing runs any more. *)
Record shell := ShellState { sh_user : client (W := W); sh_out : list sline; sh_down : bool }.
Abbreviation SST := (ST shell).
Definition lift_u {A} (f : ST client A) : SST A := fun s =>
  match f (sh_user s) with
  | Ok (a, u) => Ok (a, ShellState u (sh_out s) (sh_down s))
  | Panic => Panic
  | Undef => Undef
  end.
Definition out (l : sline) : SST unit := modify (fun s => ShellState (sh_user s) (sh_out s ++ [l]) (sh_down s)).
Definition call (dst : Z) (m : message) : SST (Z * message) := lift_u (ipc_call dst m).
Definition call_time (ms : Z) : SST Z := fun s =>
  let '(r, w) := sys_time ms (u_world (sh_user s)) in Ok (r, ShellState (set_world w (sh_user s)) (sh_out s) (sh_down s)).

(** ** The file system's client (fs.c) *)
Definition fs_server : SST Z :=
  t ← lift_u (ipc_lookup garbage (chars "fs"));
  assert (IS_OK t) ;; mret t.

(** The reading loop; [fuel] bounds the number of reads. *)
Fixpoint fs_read_loop (fuel : nat) (server fd : Z) (m : message) : SST unit :=
  match fuel with
  | O => undef
  | S fuel' =>
      let m := fput fs_read_fields "len" PAGE_SIZE (fput fs_read_fields "fd" fd (m_set_type FS_READ_MSG m)) in
      '(err, m) ← call server m;
      if err =? ERR_EOF then mret tt
      else if IS_ERROR err then out (OutWarn "failed to read a file" [])
      else
        assert (m_type m =? FS_READ_REPLY_MSG) ;;
        let end_ := Z.min 1023 (fget fs_read_reply_fields "data_len" m) in
        let m := fcopy fs_read_reply_fields "data" (take (Z.to_nat end_) (fbytes fs_read_reply_fields "data" m) ++ [0]) m in
        out (OutText (until_nul (fbytes fs_read_reply_fields "data" m))) ;;
        fs_read_loop fuel' server fd m
  end.
Definition fs_read (fuel : nat) (path : list Z) : SST unit :=
  server ← fs_server;
  let m := fstr fs_open_fields "path" path (m_set_type FS_OPEN_MSG garbage) in
  '(err, m) ← call server m;
  if IS_ERROR err then out (OutWarn "failed to open a file" [path])
  else
    assert (m_type m =? FS_OPEN_REPLY_MSG) ;;
    fs_read_loop fuel server (fget fs_open_reply_fields "fd" m) m.

Definition fs_write (path buf : list Z) : SST unit :=
  server ← fs_server;
  if (1024 <? length buf)%nat then out (OutWarn "too large data to write" [])
  else
    let m := fstr fs_mkfile_fields "path" path (m_set_type FS_MKFILE_MSG garbage) in
    '(err, m) ← call server m;
    if negb (err =? OK) && negb (err =? ERR_ALREADY_EXISTS) then out (OutWarn "failed to create a file" [path])
    else
      let m := fstr fs_open_fields "path" path (m_set_type FS_OPEN_MSG m) in
      '(err, m) ← call server m;
      if IS_ERROR err then out (OutWarn "failed to open a file" [path])
      else
        assert (m_type m =? FS_OPEN_REPLY_MSG) ;;
        let fd := fget fs_open_reply_fields "fd" m in
        let m := fput fs_write_fields "fd" fd (m_set_type FS_WRITE_MSG m) in
        let m := fcopy fs_write_fields "data" buf m in
        let m := fput fs_write_fields "data_len" (Z.of_nat (length buf)) m in
        '(err, m) ← call server m;
        if IS_ERROR err then out (OutWarn "failed to write into a file" [])
        else assert (m_type m =? FS_WRITE_REPLY_MSG).

Fixpoint fs_listdir_loop (fuel : nat) (server : Z) (path : list Z) (i : Z) : SST unit :=
  match fuel with
  | O => undef
  | S fuel' =>
      let m := fput fs_readdir_fields "index" i (m_set_type FS_READDIR_MSG garbage) in
      let m := fstr fs_readdir_fields "path" path m in
      '(err, m) ← call server m;
      if err =? ERR_EOF then mret tt
      else if IS_ERROR err then out (OutWarn "failed to readdir" [path])
      else
        assert (m_type m =? FS_READDIR_REPLY_MSG) ;;
        out (OutInfo (if fget fs_readdir_reply_fields "type" m =? 255 then "FILE" else "DIR ")
               [until_nul (fbytes fs_readdir_reply_fields "name" m)]) ;;
        fs_listdir_loop fuel' server path (i + 1)
  end.
Definition fs_listdir (fuel : nat) (path : list Z) : SST unit :=
  server ← fs_server;
  out (OutInfo "Contents of" [path]) ;;
  fs_listdir_loop fuel server path 0.

Definition fs_mkdir (path : list Z) : SST unit :=
  server ← fs_server;
  '(err, m) ← call server (fstr fs_mkdir_fields "path" path (m_set_type FS_MKDIR_MSG garbage));
  if IS_ERROR err then out (OutWarn "failed to create a directory" [path])
  else assert (m_type m =? FS_MKDIR_REPLY_MSG).
Definition fs_delete (path : list Z) : SST unit :=
  server ← fs_server;
  '(err, m) ← call server (fstr fs_delete_fields "path" path (m_set_type FS_DELETE_MSG garbage));
  if IS_ERROR err then out (OutWarn "failed to delete an entry" [path])
  else assert (m_type m =? FS_DELETE_REPLY_MSG).

(** ** HTTP (http.c) *)
Definition send (server sock : Z) (buf : list Z) : SST unit :=
  assert (length buf <? 1024)%nat ;;
  let m := fput tcpip_write_fields "sock" sock (m_set_type TCPIP_WRITE_MSG garbage) in
  let m := fcopy tcpip_write_fields "data" buf m in
  let m := fput tcpip_write_fields "data_len" (Z.of_nat (length buf)) m in
  '(err, _) ← call server m;
  assert (IS_OK err).
(** The terminator goes behind the data, over the first byte of the length if it is full. *)
Definition received (m : message) : SST unit :=
  let len := fget tcpip_read_reply_fields "data_len" m in
  if 1504 <=? len then undef
  else out (OutText (until_nul (take (Z.to_nat len) (m_data m)))).

(** The copy of the URL may be handed out again by the next allocation if it has 1024 bytes. *)
Definition resolve_url (server : Z) (url : list Z) : SST (option (Z * Z * option (list Z))) :=
  if (1016 <=? length url)%nat then undef
  else
  let buf := url ++ [0] in
  if negb (bool_decide (take 7 url = chars "http://")) then
    out (OutWarn "the url must start with http://" []) ;; mret None
  else
    let host := 7%nat in
    r ← (match str_chr CH_COLON host buf with
         | Some sep =>
             let buf := <[sep := 0]> buf in
             match str_chr CH_SLASH (S sep) buf with
             | None => undef   (* *s++ with s == NULL *)
             | Some s =>
                 let buf := <[s := 0]> buf in
                 port ← lift_out (str_atoi (until_nul (drop (S sep) buf)));
                 mret (u16 port, Some (S s), buf)
             end
         | None =>
             match str_chr CH_SLASH host buf with
             | Some s => mret (80, Some (S s), <[s := 0]> buf)
             | None => mret (80, None, buf)
             end
         end);
    let '(port, path, buf) := r in
    let name := until_nul (drop host buf) in
    addr ← (if isdigit (default 0 (buf !! host)) then
              r ← lift_out (parse_ipaddr name ip_garbage);
              match r with
              | None => out (OutWarn "failed to parse an ip address" [name]) ;; mret None
              | Some a => mret (Some a)
              end
            else
              '(err, m) ← call server (fstr tcpip_dns_resolve_fields "hostname" name (m_set_type TCPIP_DNS_RESOLVE_MSG garbage));
              assert (IS_OK err) ;;
              mret (Some (fget tcpip_dns_resolve_reply_fields "addr" m)));
    match addr with
    | None => mret None
    | Some a => mret (Some (a, port, (fun p => until_nul (drop p buf)) <$> path))
    end.

Definition HTTP_TRAILER : list Z :=
  chars " HTTP/1.0" ++ [13; 10] ++ chars "connection: closed" ++ [13; 10; 13; 10].
(** The request, written into a buffer of 1024 bytes. *)
Definition http_request (path : list Z) : outcome (list Z) :=
  let text := chars "GET /" ++ path ++ HTTP_TRAILER in
  if (1024 <=? length text)%nat then Undef else Ok text.

Definition read_socket (server sock : Z) (m : message) : SST message :=
  '(err, m) ← call server (fput tcpip_read_fields "sock" sock (m_set_type TCPIP_READ_MSG m));
  assert (IS_OK err) ;;
  received m ;;
  mret m.
Fixpoint http_loop (fuel : nat) (server : Z) (m : message) : SST unit :=
  match fuel with
  | O => undef
  | S fuel' =>
      '(err, m) ← lift_u (ipc_recv rfuel IPC_ANY m);
      assert (IS_OK err) ;;
      if m_type m =? TCPIP_CLOSED_MSG then
        m ← read_socket server (fget tcpip_closed_fields "sock" m) m;
        (* the socket field of the reply that the read left in the message *)
        let m := m_set_type TCPIP_CLOSE_MSG m in
        let m := fput tcpip_close_fields "sock" (fget tcpip_close_fields "sock" m) m in
        _ ← call server m;
        mret tt
      else if m_type m =? TCPIP_DATA_MSG then
        m ← read_socket server (fget tcpip_data_fields "sock" m) m;
        http_loop fuel' server m
      else out (OutWarn "unknown message type" []) ;; http_loop fuel' server m
  end.
Definition http_get (fuel : nat) (url : list Z) : SST unit :=
  server ← lift_u (ipc_lookup garbage (chars "tcpip"));
  r ← resolve_url server url;
  match r with
  | None => mret tt
  | Some (ip_addr, port, path) =>
      let m := fput tcpip_connect_fields "dst_addr" ip_addr (m_set_type TCPIP_CONNECT_MSG garbage) in
      let m := fput tcpip_connect_fields "dst_port" port m in
      '(err, m) ← call server m;
      assert (IS_OK err) ;;
      let sock := fget tcpip_connect_reply_fields "sock" m in
      match path with
      | None => undef
      | Some path =>
          text ← lift_out (http_request path);
          send server sock text ;;
          http_loop fuel server m
      end
  end.

(** ** Commands (command.c) *)
Definition usage (text : string) : SST unit := out (OutWarn text []).

Definition do_echo (args : list (list Z)) : SST unit :=
  out (OutText (concat ((fun a => a ++ [32]) <$> drop 1 args) ++ [13; 10])).
Definition do_http (fuel : nat) (args : list (list Z)) : SST unit :=
  match args with [_; url] => http_get fuel url | _ => usage "Usage: http <URL>" end.
Definition do_cat (fuel : nat) (args : list (list Z)) : SST unit :=
  match args with [_; path] => fs_read fuel path | _ => usage "Usage: cat <PATH>" end.
Definition do_write (args : list (list Z)) : SST unit :=
  match args with [_; path; text] => fs_write path text | _ => usage "Usage: write <PATH> <TEXT>" end.
Definition do_listdir (fuel : nat) (args : list (list Z)) : SST unit :=
  match args with _ :: path :: _ => fs_listdir fuel path | _ => fs_listdir fuel (chars "/") end.
Definition do_mkdir (args : list (list Z)) : SST unit :=
  match args with [_; path] => fs_mkdir path | _ => usage "Usage: mkdir <PATH>" end.
Definition do_delete (args : list (list Z)) : SST unit :=
  match args with [_; path] => fs_delete path | _ => usage "Usage: delete <PATH>" end.

Fixpoint wait_destroyed (fuel : nat) (new_task : Z) : SST unit :=
  match fuel with
  | O => undef
  | S fuel' =>
      '(err, m) ← lift_u (ipc_recv rfuel IPC_ANY garbage);
      assert (IS_OK err) ;;
      if (m_type m =? TASK_DESTROYED_MSG) && (fget task_destroyed_fields "task" m =? new_task) then mret tt
      else wait_destroyed fuel' new_task
  end.
(** After a failure the shell waits all the same, for the task in the reply. *)
Definition do_start (fuel : nat) (args : list (list Z)) : SST unit :=
  match args with
  | [_; name] =>
      '(err, m) ← call VM_SERVER (fstr spawn_task_fields "name" name (m_set_type SPAWN_TASK_MSG garbage));
      (if IS_ERROR err then out (OutWarn "failed to spawn" [default [] (head args)]) else mret tt) ;;
      wait_destroyed fuel (fget spawn_task_reply_fields "task" m)
  | _ => usage "Usage: start <NAME>"
  end.

Fixpoint wait_timer (fuel : nat) : SST unit :=
  match fuel with
  | O => undef
  | S fuel' =>
      '(_, m) ← lift_u (ipc_recv rfuel IPC_ANY garbage);
      if m_type m =? NOTIFY_TIMER_MSG then mret tt else wait_timer fuel'
  end.
(** [seconds * 1000] in [int]. *)
Definition do_sleep (fuel : nat) (args : list (list Z)) : SST unit :=
  match args with
  | [_; text] =>
      seconds ← lift_out (str_atoi text);
      if seconds <=? 0 then out (OutWarn "sleep: invalid seconds" [text])
      else
        out (OutInfo "sleeping for seconds" [text]) ;;
        if 2 ^ 31 <=? seconds * 1000 then undef
        else
          r ← call_time (seconds * 1000);
          assert (IS_OK r) ;;
          wait_timer fuel
  | _ => usage "Usage: sleep <SECONDS>"
  end.

Definition do_ping (args : list (list Z)) : SST unit :=
  match args with
  | [_; text] =>
      server ← lift_u (ipc_lookup garbage (chars "pong"));
      v ← lift_out (str_atoi text);
      '(err, m) ← call server (fput ping_fields "value" v (m_set_type PING_MSG garbage));
      assert (IS_OK err) ;;
      assert (m_type m =? PING_REPLY_MSG) ;;
      assert (fget ping_reply_fields "value" m =? 42)
  | _ => usage "Usage: ping <VALUE>"
  end.
Definition do_uptime (args : list (list Z)) : SST unit :=
  s ← get; out (OutNum (sys_uptime (u_world (sh_user s)))).
Definition do_shutdown (args : list (list Z)) : SST unit :=
  out (OutInfo "shutting down..." []) ;;
  modify (fun s => ShellState (sh_user s) (sh_out s) true).

Inductive command := CHelp | CEcho | CHttp | CCat | CWrite | CLs | CMkdir | CDelete | CStart | CSleep | CPing | CUptime | CShutdown.
Definition commands : list (string * command * string) :=
  [("help", CHelp, "Show this help"); ("echo", CEcho, "Print arguments"); ("http", CHttp, "Fetch a URL");
   ("cat", CCat, "Show file contents"); ("write", CWrite, "Write text to a file"); ("ls", CLs, "List files in a directory");
   ("mkdir", CMkdir, "Create a directory"); ("delete", CDelete, "Delete a file or directory");
   ("start", CStart, "Launch a task from bootfs"); ("sleep", CSleep, "Pause for a while");
   ("ping", CPing, "Send a ping to pong server"); ("uptime", CUptime, "Show seconds since boot");
   ("shutdown", CShutdown, "Shut down the system")].
Definition do_help (args : list (list Z)) : SST unit :=
  out (OutInfo "" []) ;; out (OutInfo "Available commands:" []) ;; out (OutInfo "" []) ;;
  modify (fun s => ShellState (sh_user s) (sh_out s ++ ((fun c : string * command * string => OutInfo c.1.1 [chars c.2]) <$> commands)) (sh_down s)) ;;
  out (OutInfo "" []).

Definition dispatch (fuel : nat) (c : command) (args : list (list Z)) : SST unit :=
  match c with
  | CHelp => do_help args | CEcho => do_echo args | CHttp => do_http fuel args | CCat => do_cat fuel args
  | CWrite => do_write args | CLs => do_listdir fuel args | CMkdir => do_mkdir args | CDelete => do_delete args
  | CStart => do_start fuel args | CSleep => do_sleep fuel args | CPing => do_ping args | CUptime => do_uptime args
  | CShutdown => do_shutdown args
  end.
Definition find_command (name : list Z) : option command :=
  (fun x : nat * (string * command * string) => x.2.1.2) <$> list_find (fun c : string * command * string => chars c.1.1 = name) commands.
Definition run_command (fuel : nat) (args : list (list Z)) : SST unit :=
  down ← gets sh_down;
  if down : bool then mret tt
  else
    match args with
    | [] => mret tt
    | name :: _ =>
        match find_command name with
        | Some c => dispatch fuel c args
        | None => out (OutWarn "unknown command" [name])
        end
    end.

(** ** The main loop (main.c) *)

(** One line: what [read_line] returned, and its evaluation. *)
Definition shell_round (fuel : nat) (reads : list (Z + list Z)) (cmdline : list Z) : SST (list Z) :=
  out (OutText (27 :: chars "[1mshell> " ++ 27 :: chars "[0m")) ;;
  '(st, _, cmdline, echo) ← lift_out (read_line reads cmdline 1024);
  out (OutText echo) ;;
  match st with
  | LineDone err => (if err =? OK then eval (run_command fuel) cmdline else mret tt) ;; mret cmdline
  | LineMore => mret cmdline
  end.
Definition shell_start (fuel : nat) (autorun cmdline : list Z) : SST unit :=
  '(err, _) ← call VM_SERVER (m_set_type WATCH_TASKS_MSG garbage);
  assert (IS_OK err) ;;
  (if bool_decide (until_nul autorun <> []) then
     let cmdline := str_copy 1024 autorun ++ [0] in
     out (OutInfo "running autorun script" [until_nul cmdline]) ;;
     eval (run_command fuel) cmdline
   else mret tt) ;;
  _ ← call_time 100;
  '(_, m) ← lift_u (ipc_recv rfuel IPC_ANY garbage);
  assert (m_type m =? NOTIFY_TIMER_MSG) ;;
  out (OutText (10 :: chars "Welcome to HinaOS!" ++ [10; 10])).

(** ** The pong server (servers/pong/main.c): one request *)
Definition pong_round (m : message) : SST message :=
  '(err, m) ← lift_u (ipc_recv rfuel IPC_ANY m);
  assert (IS_OK err) ;;
  if m_type m =? PING_MSG then
    let m := fput ping_reply_fields "value" 42 (m_set_type PING_REPLY_MSG m) in
    lift_u (ipc_reply (m_src m) m) ;; mret m
  else out (OutWarn "unhandled message" []) ;; mret m.
End Shell.

(** ** The string functions *)
Lemma str_chr_from_ge c s : forall p j, str_chr_from c p s = Some j -> (p <= j)%nat.
Proof.
  induction s as [|ch s IH]; intros p j; simpl; [done|]. destruct (ch =? c); [intros [= <-]; lia|].
  intros E. apply IH in E. lia.
Qed.
Lemma atoi_loop_str s : forall fuel m p x, cstr m p s -> (length s < fuel)%nat ->
  atoi_loop fuel p x m = (v ← str_atoi_from x s; Ok (v, m)).
Proof.
  induction s as [|ch s IH]; intros [|fuel] m p x Hs Hf; try (cbn [length] in Hf; lia); cbn [atoi_loop str_atoi_from].
  - apply cstr_nil in Hs. by ld.
  - apply cstr_cons in Hs as (Hb & _ & Hs). ld. destruct ((48 <=? ch) && (ch <=? 57)); [|done].
    destruct (_ <? 2 ^ 31); [|done]. apply IH; [done|cbn [length] in Hf; lia].
Qed.
Lemma atoi_str fuel m p s : cstr m p s -> (length s < fuel)%nat -> atoi fuel p m = (v ← str_atoi s; Ok (v, m)).
Proof. apply atoi_loop_str. Qed.
Lemma strchr_str s c : c <> 0 -> forall fuel m p i, cstr m p s -> (length s < fuel)%nat ->
  strchr fuel p c m = Ok (match str_chr_from c i s with Some j => p + Z.of_nat (j - i) | None => 0 end, m).
Proof.
  intros Hc. induction s as [|ch s IH]; intros [|fuel] m p i Hs Hf; try (cbn [length] in Hf; lia); cbn [strchr str_chr_from].
  - apply cstr_nil in Hs. by ld.
  - apply cstr_cons in Hs as (Hb & Hr & Hs). ld. replace (ch =? 0) with false by lia.
    destruct (ch =? c); [by rewrite Nat.sub_diag, Z.add_0_r|].
    rewrite (IH fuel m (p + 1) (S i) Hs) by (cbn [length] in Hf; lia).
    destruct (str_chr_from c (S i) s) as [j|] eqn:E; [|done]. apply str_chr_from_ge in E. do 2 f_equal. lia.
Qed.

(** ** Addresses *)
Lemma strchr_from_app c p a rest : ~ In c a -> str_chr_from c p (a ++ c :: rest) = Some (p + length a)%nat.
Proof.
  revert p. induction a as [|x a IH]; intros p Hn; simpl; [by rewrite Z.eqb_refl, Nat.add_0_r|].
  replace (x =? c) with false by (symmetry; apply Z.eqb_neq; intros ->; apply Hn; by left).
  rewrite IH; [f_equal; lia|]. intros Hi. apply Hn. by right.
Qed.
Lemma until_nul_plain a b : ~ In 0 a -> until_nul (a ++ b) = a ++ until_nul b.
Proof.
  induction a as [|c a IH]; simpl; [done|]. intros Hn. replace (c =? 0) with false by lia. rewrite IH; tauto.
Qed.
Lemma strchr_run c pre a rest : c <> 0 -> ~ In c a -> ~ In 0 a ->
  str_chr c (length pre) (pre ++ a ++ c :: rest) = Some (length pre + length a)%nat.
Proof.
  intros Hc Hn Hz. unfold str_chr. rewrite drop_app_length, until_nul_plain by done. cbn [until_nul].
  replace (c =? 0) with false by lia. by apply strchr_from_app.
Qed.
Lemma part_string pre a rest : ~ In 0 a -> until_nul (drop (length pre) (pre ++ a ++ 0 :: rest)) = a.
Proof. intros Hz. rewrite drop_app_length, until_nul_plain by done. simpl. by rewrite app_nil_r. Qed.

Lemma parse_parts_step n pre part a va rest v :
  ~ In CH_DOT a -> ~ In 0 a -> str_atoi a = Ok va ->
  parse_parts (S n) (length pre) part (pre ++ a ++ CH_DOT :: rest) v =
    parse_parts n (length (pre ++ a ++ [0])) (length pre) ((pre ++ a ++ [0]) ++ rest) (Z.lor (u32 (Z.shiftl v 8)) (u32 va)).
Proof.
  intros Hd Hz Ha. cbn [parse_parts]. rewrite strchr_run by done. cbv zeta.
  assert (Hins : <[(length pre + length a)%nat := 0]> (pre ++ a ++ CH_DOT :: rest) = pre ++ a ++ 0 :: rest).
  { rewrite app_assoc, insert_app_r_alt by (rewrite length_app; lia). rewrite length_app, Nat.sub_diag. simpl. by rewrite <- app_assoc. }
  rewrite Hins, part_string, Ha by done. cbn [mbind outcome_bind].
  f_equal; [rewrite !length_app; simpl; lia|by rewrite <- !app_assoc].
Qed.

Lemma octet_step x v : 0 <= v < 256 -> Z.lor (u32 (Z.shiftl x 8)) (u32 v) = (x * 256 + v) `mod` 2 ^ 32.
Proof.
  intros Hv. rewrite (u32_small v) by lia. unfold u32. rewrite Z.shiftl_mul_pow2 by lia. change (2 ^ 8) with 256.
  assert (E : (x * 256) `mod` 2 ^ 32 = (x `mod` 2 ^ 24) * 256).
  { change (2 ^ 32) with (2 ^ 24 * 256). by rewrite Z.mul_mod_distr_r by lia. }
  rewrite E. change 256 with (2 ^ 8) at 1. rewrite lor_mul_pow2 by lia. change (2 ^ 8) with 256.
  rewrite <- E. symmetry. rewrite Z.add_mod, (Z.mod_small v) by lia. apply Z.mod_small. rewrite E.
  pose proof (Z.mod_pos_bound x (2 ^ 24)). lia.
Qed.

(** The address "a.b.c.d" of a URL is read as a.b.c.c: the last part is never looked
    at; the third one is converted twice. *)
Theorem parse_ipaddr_repeats_third_octet sa sb sc sd a b c g :
  ~ In CH_DOT sa -> ~ In CH_DOT sb -> ~ In CH_DOT sc -> ~ In 0 sa -> ~ In 0 sb -> ~ In 0 sc -> ~ In 0 sd ->
  str_atoi sa = Ok a -> str_atoi sb = Ok b -> str_atoi sc = Ok c -> 0 <= a < 256 -> 0 <= b < 256 -> 0 <= c < 256 ->
  parse_ipaddr (sa ++ CH_DOT :: sb ++ CH_DOT :: sc ++ CH_DOT :: sd) g
    = Ok (Some (a * 2 ^ 24 + b * 2 ^ 16 + c * 2 ^ 8 + c)).
Proof.
  intros Da Db Dc Za Zb Zc Zd Ha Hb Hc Ra Rb Rc. unfold parse_ipaddr.
  rewrite until_nul_plain by done. cbn [until_nul]. rewrite until_nul_plain by done. cbn [until_nul].
  rewrite until_nul_plain by done. cbn [until_nul]. change (CH_DOT =? 0) with false. cbv iota.
  replace (until_nul sd) with sd by (rewrite <- (app_nil_r sd) at 2; rewrite until_nul_plain by done; by rewrite app_nil_r).
  replace ((sa ++ CH_DOT :: sb ++ CH_DOT :: sc ++ CH_DOT :: sd) ++ [0])
    with ([] ++ sa ++ CH_DOT :: sb ++ CH_DOT :: sc ++ CH_DOT :: sd ++ [0]) by (repeat (rewrite <- app_assoc; cbn [app]); done).
  change 0%nat with (length (@nil Z)) at 1. rewrite (parse_parts_step 2 [] 0 sa a) by done.
  rewrite (parse_parts_step 1 _ _ sb b) by done. rewrite (parse_parts_step 0 _ _ sc c) by done.
  set (pre := (_ ++ sb ++ [0])). cbn [parse_parts mbind outcome_bind]. rewrite !octet_step by done.
  set (d0 := sd ++ [0]). assert (Hd0 : exists x r, d0 = x :: r) by (subst d0; destruct sd; [by exists 0, []|by eexists _, _]).
  destruct Hd0 as (x & r & ->). replace (length (pre ++ sc ++ [0%Z]) <? length ((pre ++ sc ++ [0%Z]) ++ x :: r))%nat with true
    by (symmetry; apply Nat.ltb_lt; rewrite (length_app (pre ++ sc ++ [0])); simpl; lia).
  rewrite insert_app_r_alt, Nat.sub_diag by done. cbn [insert list_insert].
  replace ((pre ++ sc ++ [0]) ++ 0 :: r) with (pre ++ sc ++ 0 :: 0 :: r) by (by rewrite <- !app_assoc).
  rewrite part_string, Hc by done. cbn [mbind outcome_bind]. rewrite octet_step by done. do 2 f_equal.
  change (2 ^ 8) with 256. change (2 ^ 16) with 65536. change (2 ^ 24) with 16777216. change (2 ^ 32) with 4294967296. lia.
Qed.
Lemma parse_ipaddr_repeats_third_octet_witness :
  parse_ipaddr (chars "10.0.2.15") 12345 = Ok (Some (10 * 2 ^ 24 + 0 * 2 ^ 16 + 2 * 2 ^ 8 + 2)).
Proof.
  apply (parse_ipaddr_repeats_third_octet (chars "10") (chars "0") (chars "2") (chars "15") 10 0 2 12345);
    first [reflexivity | lia | cbv; intuition discriminate].
Defined.

(** ** Commands *)
Lemma find_command_spec name c : find_command name = Some c <-> exists s h, (s, c, h) ∈ commands /\ chars s = name.
Proof.
  assert (Hnd : NoDup ((fun x : string * command * string => chars x.1.1) <$> commands)) by (apply (bool_decide_eq_true_1 _); vm_compute; reflexivity).
  unfold find_command. split.
  - destruct (list_find _ commands) as [[i [[s c'] h]]|] eqn:E; [|done]. intros [= <-].
    apply list_find_Some in E as (Hi & Hn & _). exists s, h. split; [by eapply list_elem_of_lookup_2|exact Hn].
  - intros (s & h & Hin & <-). destruct (list_find _ commands) as [[i [[s' c'] h']]|] eqn:E.
    + apply list_find_Some in E as (Hi & Hn & _). simpl. apply list_elem_of_lookup in Hin as [j Hj]. simpl in Hn.
      assert (i = j) as ->; [|by simplify_eq]. eapply (NoDup_lookup _ _ _ (chars s) Hnd); rewrite list_lookup_fmap.
      * rewrite Hi. simpl. by rewrite Hn.
      * by rewrite Hj.
    + exfalso. apply list_find_None in E. rewrite Forall_forall in E. by apply (E _ Hin).
Qed.
