(* ===== verification/Crack.v ===== *)
(** The sample attack on the kernel (servers/crack/main.c): a task that may use a block device
    reads and writes all of the physical memory through it, since the device's DMA is not
    checked against any page table.

    Memory is the physical memory, a byte for every address, as the device sees it; the queue
    is kept apart ([Virtio]).  The device is a parameter: its registers ([Mmio]) and its
    progress ([DmaHw]), with what the virtio specification says of a block device in the class
    [DmaHwSpec]; [dma_hw] is a device that has it.  The bytes of the shell code are an object
    the build generates and a parameter; shellcode.S itself is a list of instructions ([Asm]). *)

From S2P Require Import Prelude Types Mp Asm Block Virtio VirtioBlk Debug.

Definition REQUEST_HEADER_SIZE : Z := 4 * 2 + 8.
(** [sizeof(buf)] *)
Definition BUF_SIZE : Z := 4 * 1024 * 1024.

(** Bytes at addresses: reading and writing a stretch of them. *)
Definition peek (f : Z -> Z) (a n : Z) : list Z := f <$> seqZ a n.
Definition poke_bytes (a : Z) (bytes : list Z) (f : Z -> Z) : Z -> Z := fun x =>
  if (a <=? x) && (x <? a + Z.of_nat (length bytes)) then nth (Z.to_nat (x - a)) bytes 0 else f x.

(** The device works on the queue and on the memory. *)
Class DmaHw (D : Type) := { dma_step : virtq * (Z -> Z) * D -> virtq * (Z -> Z) * D }.

Section Crack.
Context {D : Type} `{Mmio D} `{DmaHw D}.

Record crack := Crack { cr_queue : virtq; cr_mem : Z -> Z; cr_hw : D; request_paddr : Z; request_uaddr : Z; cr_buf : Z -> Z }.
Abbreviation CST := (ST crack).
Definition cset_queue q s := Crack q (cr_mem s) (cr_hw s) (request_paddr s) (request_uaddr s) (cr_buf s).
Definition cset_mem m s := Crack (cr_queue s) m (cr_hw s) (request_paddr s) (request_uaddr s) (cr_buf s).
Definition cset_hw d s := Crack (cr_queue s) (cr_mem s) d (request_paddr s) (request_uaddr s) (cr_buf s).
Definition cset_buf b s := Crack (cr_queue s) (cr_mem s) (cr_hw s) (request_paddr s) (request_uaddr s) b.
Definition crack_queue {A} (m : QST A) : CST A := fun s =>
  match m (cr_queue s) with Ok (a, q) => Ok (a, cset_queue q s) | Panic => Panic | Undef => Undef end.
Definition crack_device {A} (m : ST D A) : CST A := fun s =>
  match m (cr_hw s) with Ok (a, d) => Ok (a, cset_hw d s) | Panic => Panic | Undef => Undef end.

(** Accesses to the request page, at a virtual address. *)
Definition in_page (uaddr len : Z) (s : crack) : bool :=
  (request_uaddr s <=? uaddr) && (uaddr + len <=? request_uaddr s + PAGE_SIZE).
Definition page_write (uaddr : Z) (bytes : list Z) : CST unit := fun s =>
  if in_page uaddr (Z.of_nat (length bytes)) s
  then Ok (tt, cset_mem (poke_bytes (request_paddr s + (uaddr - request_uaddr s)) bytes (cr_mem s)) s) else Undef.
Definition page_read (uaddr len : Z) : CST (list Z) :=
  getopt (fun s => if in_page uaddr len s then Some (peek (cr_mem s) (request_paddr s + (uaddr - request_uaddr s)) len) else None).
(** Accesses to [buf]. *)
Definition buf_write (off : Z) (bytes : list Z) : CST unit := fun s =>
  if (0 <=? off) && (off + Z.of_nat (length bytes) <=? BUF_SIZE) then Ok (tt, cset_buf (poke_bytes off bytes (cr_buf s)) s) else Undef.
Definition buf_read (off len : Z) : CST (list Z) :=
  getopt (fun s => if (0 <=? off) && (off + len <=? BUF_SIZE) then Some (peek (cr_buf s) off len) else None).

(** The device goes on while the program polls its interrupt status; [fuel] bounds the number
    of its steps. *)
Definition crack_device_step : CST unit := modify (fun s =>
  let '(q, mem, d) := dma_step (cr_queue s, cr_mem s, cr_hw s) in cset_hw d (cset_mem mem (cset_queue q s))).
Fixpoint poll (fuel : nat) : CST Z :=
  status ← crack_device virtio_read_interrupt_status;
  let status := u8 status in
  if Z.land status 1 =? 0 then match fuel with O => undef | S fuel' => crack_device_step ;; poll fuel' end
  else mret status.

Definition crack_chain (header_paddr data_paddr status_paddr len : Z) (is_write : bool) : list virtio_chain_entry :=
  [Chain 0 header_paddr REQUEST_HEADER_SIZE false; Chain 0 data_paddr len (negb is_write); Chain 0 status_paddr 1 true].

Definition crack_readwrite (fuel : nat) (sector data_paddr len : Z) (is_write : bool) : CST unit :=
  assert (u32 (len + REQUEST_HEADER_SIZE + 1) <? PAGE_SIZE) ;;
  assert (IS_ALIGNED len SECTOR_SIZE) ;;
  s ← get;
  let header_paddr := u32 (request_paddr s + len) in
  let status_paddr := u32 (request_paddr s + len + REQUEST_HEADER_SIZE) in
  let header_uaddr := u32 (request_uaddr s + len) in
  page_write header_uaddr (le_split 4 (if is_write then VIRTIO_BLK_T_OUT else VIRTIO_BLK_T_IN)) ;;
  page_write (header_uaddr + 4) (le_split 4 0) ;;
  page_write (header_uaddr + 8) (le_split 8 sector) ;;
  '(r, _) ← crack_queue (virtq_push (crack_chain header_paddr data_paddr status_paddr len is_write));
  assert (0 <=? r) ;;
  q ← gets cr_queue;
  crack_device (virtq_notify q) ;;
  status ← poll fuel;
  crack_device (virtio_ack_interrupt (Z.land status 3)).

(** [src] into [buf] from [off] on, and [buf] from [off] on to [dest]: through sector 0. *)
Definition read_memory (fuel : nat) (src off len : Z) : CST unit :=
  assert (IS_ALIGNED len SECTOR_SIZE) ;;
  crack_readwrite fuel 0 src len true ;;
  s ← get;
  crack_readwrite fuel 0 (request_paddr s) len false ;;
  data ← page_read (request_uaddr s) len;
  buf_write off data.
Definition write_to_memory (fuel : nat) (dest off len : Z) : CST unit :=
  assert (IS_ALIGNED len SECTOR_SIZE) ;;
  s ← get;
  data ← buf_read off len;
  page_write (request_uaddr s) data ;;
  crack_readwrite fuel 0 (request_paddr s) len true ;;
  crack_readwrite fuel 0 dest len false.

(** ** main *)

(** The dump of the kernel's memory, sector by sector. *)
Definition dump_kernel (fuel : nat) : CST unit :=
  for_range 0 (Z.to_nat (BUF_SIZE / SECTOR_SIZE)) (fun i =>
    let off := Z.of_nat i * SECTOR_SIZE in read_memory fuel (KERNEL_BASE + off) off SECTOR_SIZE).

(** The first word of [buf] that is the magic number: [n] words are left, from [off] on. *)
Fixpoint find_table (buf : Z -> Z) (n : nat) (off : Z) : option Z :=
  match n with
  | O => None
  | S n' => if le_combine (peek buf off 4) =? SYMBOL_TABLE_MAGIC then Some off else find_table buf n' (off + 4)
  end.
(** [table->symbols[i].name] is the name: [n] symbols are left, the next one is at [off]. *)
Fixpoint find_name (buf : Z -> Z) (name : list Z) (n : nat) (off : Z) : outcome (option Z) :=
  match n with
  | O => Ok None
  | S n' =>
      if BUF_SIZE <? off + 64 then Undef
      else if str_eq (peek buf (off + 4) 60) name then Ok (Some off) else find_name buf name n' (off + 64)
  end.
Definition handler_name : list Z := chars "handle_syscall".

(** What [main] does with the device once it is initialized, up to the system call that runs
    into the shell code. *)
Definition overwrite_kernel (fuel : nat) (shellcode : list Z) : CST unit :=
  dump_kernel fuel ;;
  s ← get;
  match find_table (cr_buf s) (Z.to_nat (BUF_SIZE / 4)) 0 with
  | None => panic
  | Some table =>
      num_symbols ← (if BUF_SIZE <? table + 16 then undef else mret (le_combine (peek (cr_buf s) (table + 4) 4)));
      r ← lift_out (find_name (cr_buf s) handler_name (Z.to_nat num_symbols) (table + 16));
      match r with
      | None => panic
      | Some sym =>
          let addr := le_combine (peek (cr_buf s) sym 4) in
          let off := u32 (addr - KERNEL_BASE) in
          assert (off <? BUF_SIZE) ;;
          let shellcode_size := Z.of_nat (length shellcode) in
          buf_write off shellcode ;;
          let dest := (addr / SECTOR_SIZE) * SECTOR_SIZE in
          let len := u32 (ALIGN_UP (u32 (off + shellcode_size)) SECTOR_SIZE - ALIGN_DOWN off SECTOR_SIZE) in
          write_to_memory fuel dest (dest - KERNEL_BASE) len
      end
  end.

(** ASSERT_OK *)
Definition crack_assert_ok (err : Z) : ST D unit := assert (0 <=? err).
(** The driver of the device is destroyed and the device initialized again.  [lookup] is
    [ipc_lookup("blk_device")], [destroy] the request to the VM server, [map] and [alloc] the
    library's driver_map_pages and driver_alloc_pages. *)
Definition crack_setup (lookup : ST D Z) (destroy : Z -> ST D Z) (map : ST D Z) (alloc : Z -> ST D (option (Z * Z))) : ST D (virtq * Z * Z) :=
  blk_device ← lookup;
  crack_assert_ok blk_device ;;
  err ← destroy blk_device;
  crack_assert_ok err ;;
  '(err, qs) ← virtio_init map alloc 1;
  crack_assert_ok err ;;
  err ← virtio_negotiate_feature 0;
  crack_assert_ok err ;;
  q ← virtq_get qs 0;
  err ← virtio_enable;
  crack_assert_ok err ;;
  p ← alloc PAGE_SIZE;
  match p with Some (uaddr, paddr) => mret (q, uaddr, paddr) | None => panic end.
Definition crack_main (fuel : nat) (lookup : ST D Z) (destroy : Z -> ST D Z) (map : ST D Z) (alloc : Z -> ST D (option (Z * Z)))
    (shellcode : list Z) (mem : Z -> Z) (d : D) : outcome (unit * crack) :=
  '(q, uaddr, paddr, d) ← crack_setup lookup destroy map alloc d;
  overwrite_kernel fuel shellcode (Crack q mem d paddr uaddr (fun _ => 0)).
End Crack.
Arguments crack : clear implicits.

(** ** What the device does *)

(** The virtio specification, 4.2.2 and 5.2.6.  Reading the interrupt status has no effect,
    acknowledging clears its bits.  A notified device that has seen all requests but the newest
    one carries it out: it moves the data between its disk and the memory the descriptor
    names, writes the status, gives the chain back, and then, unless the driver does not want it,
    raises bit 0 of the interrupt status, which is clear until then. *)
Class DmaHwSpec (D : Type) `{Mmio D} `{DmaHw D} := {
  dm_capacity : D -> Z;
  dm_disk : D -> Z -> Z;
  dm_seen : D -> Z;
  dm_isr : D -> Z;
  dm_isr_range : forall d, 0 <= dm_isr d < 4;
  dm_isr_read : forall d, mmio_read32 VIRTIO_REG_INTERRUPT_STATUS d = (dm_isr d, d);
  dm_isr_ack : forall v d, let d' := mmio_write32 VIRTIO_REG_INTERRUPT_ACK v d in
    dm_isr d' = Z.ldiff (dm_isr d) v /\ dm_seen d' = dm_seen d /\ dm_capacity d' = dm_capacity d /\ (forall x, dm_disk d' x = dm_disk d x);
  dm_serves : forall (q : virtq) mem (d : D) i j k header data status len (w : bool) c0 c1 c2,
    holds (vq_descs q) [i; j; k] [Chain c0 header REQUEST_HEADER_SIZE false; Chain c1 data len w; Chain c2 status 1 true] ->
    vq_avail_ring q !! Z.to_nat (u16 (vq_avail_index q - 1) `mod` vq_num_descs q) = Some i ->
    dm_seen d = u16 (vq_avail_index q - 1) -> 0 <= vq_avail_index q < 65536 ->
    has (vq_avail_flags q) VIRTQ_AVAIL_F_NO_INTERRUPT = false -> Z.land (dm_isr d) 1 = 0 ->
    le_combine (peek mem header 4) = (if w then VIRTIO_BLK_T_IN else VIRTIO_BLK_T_OUT) ->
    let first := SECTOR_SIZE * le_combine (peek mem (header + 8) 8) in
    0 < len -> len `mod` SECTOR_SIZE = 0 -> first + len <= SECTOR_SIZE * dm_capacity d ->
    exists n used mem' d', let s0 := (q, mem, mmio_write32 VIRTIO_REG_QUEUE_NOTIFY (vq_index q) d) in
      (forall m, (m < n)%nat -> Z.land (dm_isr (snd (Nat.iter m dma_step s0))) 1 = 0) /\
      Nat.iter n dma_step s0 = (device_uses i used q, mem', d') /\
      Z.land (dm_isr d') 1 = 1 /\ dm_seen d' = vq_avail_index q /\ dm_capacity d' = dm_capacity d /\
      (forall x, mem' x = if decide (x = status) then VIRTIO_BLK_S_OK
         else if decide (w = true /\ data <= x < data + len) then dm_disk d (first + (x - data)) else mem x) /\
      (forall x, dm_disk d' x = if decide (w = false /\ first <= x < first + len) then mem (data + (x - first)) else dm_disk d x);
}.

(** ** The queue

    Every request takes three descriptors, and is done before the next one is made; the
    chains are given back only when the descriptors run out. *)

(** The chain at [h] has been used: its descriptors are linked and marked. *)
Definition used_chain (descs : list virtq_desc) (h : Z) : Prop :=
  exists d0 d1 d2, descs !! Z.to_nat h = Some d0 /\ descs !! Z.to_nat (h + 1) = Some d1 /\ descs !! Z.to_nat (h + 2) = Some d2 /\
    d_next d0 = h + 1 /\ d_next d1 = h + 2 /\ d_next d2 = 0 /\
    has (d_flags d0) VIRTQ_DESC_F_NEXT = true /\ has (d_flags d1) VIRTQ_DESC_F_NEXT = true /\ has (d_flags d2) VIRTQ_DESC_F_NEXT = false.
(** The one at [h] has not: its descriptors are linked, and to the next one. *)
Definition fresh_chain (descs : list virtq_desc) (n h : Z) : Prop :=
  exists d0 d1 d2, descs !! Z.to_nat h = Some d0 /\ descs !! Z.to_nat (h + 1) = Some d1 /\ descs !! Z.to_nat (h + 2) = Some d2 /\
    d_next d0 = h + 1 /\ d_next d1 = h + 2 /\ (h + 3 < n -> d_next d2 = h + 3) /\ (h + 3 = n -> d_next d2 = 0).

(** [k] requests have been made and are done; the chains below [f] have been used.  Either no
    chain has been given back yet and [f] is the next one, or all chains have been used. *)
Record triples (q : virtq) (k f : Z) : Prop := {
  tr_num : 3 <= vq_num_descs q <= 512;
  tr_descs : length (vq_descs q) = Z.to_nat (vq_num_descs q);
  tr_avail : length (vq_avail_ring q) = Z.to_nat (vq_num_descs q);
  tr_used : length (vq_used_ring q) = Z.to_nat (vq_num_descs q);
  tr_index : vq_avail_index q = k /\ vq_used_index q = k;
  tr_last : 0 <= vq_last_used_index q <= k;
  tr_free : vq_num_free_descs q = vq_num_descs q - 3 * (k - vq_last_used_index q);
  tr_room : 0 <= vq_num_free_descs q;
  tr_f : f `mod` 3 = 0 /\ 0 <= f <= vq_num_descs q;
  tr_below : forall h, h `mod` 3 = 0 -> 0 <= h < f -> used_chain (vq_descs q) h;
  tr_above : forall h, h `mod` 3 = 0 -> f <= h -> h + 2 < vq_num_descs q -> fresh_chain (vq_descs q) (vq_num_descs q) h;
  tr_head : (vq_num_free_descs q = vq_num_descs q - f /\ (3 <= vq_num_free_descs q -> vq_free_head q = f)) \/
    (vq_num_descs q - f < 3 /\ vq_free_head q `mod` 3 = 0 /\ 0 <= vq_free_head q < f);
  tr_ring : forall j, vq_last_used_index q <= j < k ->
    exists id len, vq_used_ring q !! Z.to_nat (j `mod` vq_num_descs q) = Some (id, len) /\ id `mod` 3 = 0 /\ 0 <= id < f }.

Lemma virtq_new_triples index n : 3 <= Z.of_nat n <= 512 -> triples (virtq_new index n) 0 0.
Proof.
  intros Hn. split; cbn [virtq_new vq_num_descs vq_descs vq_avail_ring vq_used_ring vq_last_used_index vq_avail_index vq_used_index vq_free_head vq_num_free_descs];
    rewrite ?length_fmap, ?length_seq, ?length_replicate, ?Nat2Z.id; try done; try lia.
  intros h Hh Hf Hlt.
  assert (Hd : forall i, 0 <= i < Z.of_nat n -> (init_desc n <$> seq 0 n) !! Z.to_nat i = Some (Desc 0 0 0 (if i + 1 =? Z.of_nat n then 0 else i + 1))).
  { intros i Hi. rewrite list_lookup_fmap, lookup_seq_lt by lia. cbn. unfold init_desc. do 2 f_equal.
    destruct (Nat.eqb_spec (S (Z.to_nat i)) n), (Z.eqb_spec (i + 1) (Z.of_nat n)); lia. }
  do 3 eexists. split_and!; [apply Hd; lia..| | | |]; cbn [d_next];
    repeat match goal with |- context [?a =? ?b] => destruct (Z.eqb_spec a b) end; lia.
Qed.

(** A used chain has three descriptors. *)
Lemma chain_len_used q h fuel : 0 <= h -> used_chain (vq_descs q) h -> chain_len (3 + fuel) h q = Ok (3, q).
Proof.
  intros Hh (d0 & d1 & d2 & E0 & E1 & E2 & N0 & N1 & _ & F0 & F1 & F2). cbn [Nat.add chain_len].
  rewrite (ST_bind_run _ _ _ _ _ (desc_at_run h d0 q Hh E0)), F0, N0.
  unfold mbind at 1, ST_bind at 1. rewrite (ST_bind_run _ _ _ _ _ (desc_at_run (h + 1) d1 q ltac:(lia) E1)), F1, N1.
  unfold mbind at 1, ST_bind at 1. rewrite (ST_bind_run _ _ _ _ _ (desc_at_run (h + 2) d2 q ltac:(lia) E2)), F2. done.
Qed.

(** All chains that are done are given back. *)
Lemma recycle_run m : forall fuel q k f,
  triples q k f -> vq_num_descs q - f < 3 -> Z.of_nat m = k - vq_last_used_index q -> (0 < m <= fuel)%nat -> k < 65536 ->
  exists h, h `mod` 3 = 0 /\ 0 <= h < f /\ recycle fuel q = Ok (tt, qset_last k (qset_free h (vq_num_descs q) q)).
Proof.
  induction m as [|m IH]; [lia|]. intros fuel q k f Hq Hf Hm Hfuel Hk. destruct fuel as [|fuel]; [lia|]. cbn [recycle].
  destruct Hq as [Hn Hd Ha Hu [Hi1 Hi2] Hl Hnf Hr Hff Hb Hab Hh Hri]. rewrite (ST_bind_run get _ _ _ _ eq_refl).
  unfold virtq_is_empty. rewrite Hi2, (proj2 (Z.eqb_neq _ _)) by lia.
  destruct (Hri (vq_last_used_index q) ltac:(lia)) as (id & len & E & Hid & Hidr).
  assert (Eu : used_elem q = Ok (id, len, q)) by (unfold used_elem, getopt; rewrite Z.rem_mod_nonneg, E by lia; done).
  rewrite (ST_bind_run _ _ _ _ _ Eu). replace (S (length (vq_descs q))) with (3 + (length (vq_descs q) - 2))%nat by lia.
  rewrite (ST_bind_run _ _ _ _ _ (chain_len_used q id _ ltac:(lia) (Hb id Hid Hidr))), (ST_bind_run (modify _) _ _ _ _ eq_refl).
  set (q1 := qset_last _ _). destruct m as [|m].
  - exists id. split_and!; [done|lia..|].
    assert (Hq1 : q1 = qset_last k (qset_free id (vq_num_descs q) q)).
    { unfold q1. do 2 f_equal; lia. }
    destruct fuel; cbn [recycle]; rewrite (ST_bind_run get _ _ _ _ eq_refl); unfold virtq_is_empty; rewrite Hq1;
      cbn [vq_last_used_index vq_used_index qset_last qset_free]; by rewrite Hi2, Z.eqb_refl.
  - destruct (IH fuel q1 k f) as (h & Hh1 & Hh2 & E2); [|done|cbn; lia|lia|done|].
    + split; cbn [q1 qset_last qset_free vq_descs vq_avail_ring vq_avail_index vq_num_descs vq_last_used_index vq_used_index vq_used_ring vq_free_head vq_num_free_descs];
        try done; try lia. intros j Hj. apply Hri. lia.
    + exists h. split_and!; [done|lia..|]. rewrite E2. done.
Qed.

(** Three linked descriptors are filled. *)
Definition filled_descs (descs : list virtq_desc) (h : Z) (e0 e1 e2 : virtio_chain_entry) : list virtq_desc :=
  let w e := if c_device_writable e then VIRTQ_DESC_F_WRITE else 0 in
  <[Z.to_nat (h + 2) := Desc (c_addr e2) (c_len e2) (Z.lor 0 (w e2)) 0]>
  (<[Z.to_nat (h + 1) := Desc (c_addr e1) (c_len e1) (Z.lor VIRTQ_DESC_F_NEXT (w e1)) (h + 2)]>
  (<[Z.to_nat h := Desc (c_addr e0) (c_len e0) (Z.lor VIRTQ_DESC_F_NEXT (w e0)) (h + 1)]> descs)).

Lemma push_three q h d0 d1 d2 e0 e1 e2 :
  vq_descs q !! Z.to_nat h = Some d0 -> vq_descs q !! Z.to_nat (h + 1) = Some d1 -> vq_descs q !! Z.to_nat (h + 2) = Some d2 ->
  d_next d0 = h + 1 -> d_next d1 = h + 2 -> 0 <= h < 65534 ->
  push_loop [e0; e1; e2] h q =
    Ok (numbered [h; h + 1; h + 2] [e0; e1; e2],
        qset_descs (filled_descs (vq_descs q) h e0 e1 e2) (qset_free (d_next d2) (vq_num_free_descs q - 3) q)).
Proof.
  intros E0 E1 E2 N0 N1 Hh. cbn [push_loop].
  rewrite (ST_bind_run _ _ _ _ _ (desc_at_run h d0 q ltac:(lia) E0)), (ST_bind_run (set_desc _ _) _ _ _ _ eq_refl), (ST_bind_run (modify _) _ _ _ _ eq_refl), N0.
  set (q1 := qset_free _ _ _).
  assert (E1' : vq_descs q1 !! Z.to_nat (h + 1) = Some d1) by (cbn; rewrite list_lookup_insert_ne by lia; done).
  unfold mbind at 1, ST_bind at 1.
  rewrite (ST_bind_run _ _ _ _ _ (desc_at_run (h + 1) d1 q1 ltac:(lia) E1')), (ST_bind_run (set_desc _ _) _ _ _ _ eq_refl), (ST_bind_run (modify _) _ _ _ _ eq_refl), N1.
  set (q2 := qset_free _ _ _).
  assert (E2' : vq_descs q2 !! Z.to_nat (h + 2) = Some d2) by (cbn; rewrite !list_lookup_insert_ne by lia; done).
  unfold mbind at 1, ST_bind at 1.
  rewrite (ST_bind_run _ _ _ _ _ (desc_at_run (h + 2) d2 q2 ltac:(lia) E2')).
  replace (vq_num_free_descs q - 3) with (vq_num_free_descs q - 1 - 1 - 1) by lia.
  unfold numbered. cbn [zip_with]. rewrite !u16_small by lia. reflexivity.
Qed.

Lemma filled_at descs h e0 e1 e2 : 0 <= h -> h + 2 < Z.of_nat (length descs) ->
  filled_descs descs h e0 e1 e2 !! Z.to_nat h = Some (Desc (c_addr e0) (c_len e0) (Z.lor VIRTQ_DESC_F_NEXT (if c_device_writable e0 then VIRTQ_DESC_F_WRITE else 0)) (h + 1)) /\
  filled_descs descs h e0 e1 e2 !! Z.to_nat (h + 1) = Some (Desc (c_addr e1) (c_len e1) (Z.lor VIRTQ_DESC_F_NEXT (if c_device_writable e1 then VIRTQ_DESC_F_WRITE else 0)) (h + 2)) /\
  filled_descs descs h e0 e1 e2 !! Z.to_nat (h + 2) = Some (Desc (c_addr e2) (c_len e2) (Z.lor 0 (if c_device_writable e2 then VIRTQ_DESC_F_WRITE else 0)) 0).
Proof.
  intros Hh Hl. unfold filled_descs. cbv zeta. split_and!.
  - rewrite !list_lookup_insert_ne by lia. apply list_lookup_insert_eq. lia.
  - rewrite list_lookup_insert_ne by lia. apply list_lookup_insert_eq. rewrite length_insert. lia.
  - apply list_lookup_insert_eq. rewrite !length_insert. lia.
Qed.
Lemma filled_other descs h e0 e1 e2 j : 0 <= h -> 0 <= j -> (j < h \/ h + 2 < j) -> filled_descs descs h e0 e1 e2 !! Z.to_nat j = descs !! Z.to_nat j.
Proof. intros Hh Hj Ho. unfold filled_descs. cbv zeta. by rewrite !list_lookup_insert_ne by lia. Qed.
Lemma length_filled_descs descs h e0 e1 e2 : length (filled_descs descs h e0 e1 e2) = length descs.
Proof. unfold filled_descs. cbv zeta. by rewrite !length_insert. Qed.

Lemma filled_holds descs h e0 e1 e2 : 0 <= h -> h + 2 < Z.of_nat (length descs) ->
  holds (filled_descs descs h e0 e1 e2) [h; h + 1; h + 2] [e0; e1; e2] /\ used_chain (filled_descs descs h e0 e1 e2) h.
Proof.
  intros Hh Hl. destruct (filled_at descs h e0 e1 e2 Hh Hl) as (E0 & E1 & E2). split.
  - cbn [holds]. split_and!; [eexists; split; [exact E0|]|eexists; split; [exact E1|]|eexists; split; [exact E2|]|done];
      cbn [d_addr d_len d_flags d_next];
      (split_and!; [done|done|by destruct (c_device_writable e0), (c_device_writable e1), (c_device_writable e2)|by destruct (c_device_writable e0), (c_device_writable e1), (c_device_writable e2)|by intros ?? [= <- _]]).
  - do 3 eexists. split_and!; [exact E0|exact E1|exact E2|done|done|done|cbn [d_flags]; by destruct (c_device_writable e0), (c_device_writable e1), (c_device_writable e2)..].
Qed.

(** Descriptors that are given back are at the head of a chain that fits. *)
Lemma triples_head q k f : triples q k f -> 3 <= vq_num_free_descs q ->
  vq_free_head q `mod` 3 = 0 /\ 0 <= vq_free_head q <= f /\ vq_free_head q + 2 < vq_num_descs q /\ exists d0 d1 d2,
  vq_descs q !! Z.to_nat (vq_free_head q) = Some d0 /\ vq_descs q !! Z.to_nat (vq_free_head q + 1) = Some d1 /\
  vq_descs q !! Z.to_nat (vq_free_head q + 2) = Some d2 /\ d_next d0 = vq_free_head q + 1 /\ d_next d1 = vq_free_head q + 2 /\
  (vq_free_head q = f -> vq_num_free_descs q = vq_num_descs q - f /\ (f + 3 < vq_num_descs q -> d_next d2 = f + 3)) /\
  (vq_free_head q < f -> vq_num_descs q - f < 3 /\ d_next d2 = 0).
Proof.
  intros [Hn Hd Ha Hu [Hi1 Hi2] Hl Hnf Hr Hff Hb Hab [[Hh Hh']|(Hh & Hh' & Hh'')] Hri] H3.
  - specialize (Hh' H3). rewrite Hh'. split_and!; [lia..|].
    destruct (Hab f) as (d0 & d1 & d2 & E0 & E1 & E2 & N0 & N1 & N2 & _); [lia..|]. exists d0, d1, d2. split_and!; try done. lia.
  - assert (vq_free_head q + 3 <= f) by lia. split_and!; [lia..|].
    destruct (Hb (vq_free_head q)) as (d0 & d1 & d2 & E0 & E1 & E2 & N0 & N1 & N2 & _); [lia..|]. exists d0, d1, d2. split_and!; try done; lia.
Qed.

(** The parts of the queue that recycling leaves alone. *)
Definition same_memory (q q' : virtq) : Prop :=
  vq_index q' = vq_index q /\ vq_num_descs q' = vq_num_descs q /\ vq_descs q' = vq_descs q /\ vq_avail_flags q' = vq_avail_flags q /\
  vq_avail_ring q' = vq_avail_ring q.

(** When the descriptors have run out, all of them are given back. *)
Lemma push_room q k f : triples q k f -> k < 65536 ->
  exists q', (if vq_num_free_descs q <? 3 then recycle (S (Z.to_nat (vq_num_descs q))) else mret tt) q = Ok (tt, q') /\
    triples q' k f /\ 3 <= vq_num_free_descs q' /\ same_memory q q'.
Proof.
  intros Hq Hk. destruct (Z.ltb_spec (vq_num_free_descs q) 3) as [Hlt|]; [|by exists q].
  pose proof Hq as [Hn Hd Ha Hu Hi Hl Hnf Hr Hff Hb Hab Hh Hri].
  destruct (recycle_run (Z.to_nat (k - vq_last_used_index q)) (S (Z.to_nat (vq_num_descs q))) q k f) as (h & H1 & H2 & E); [done|lia..|].
  eexists. split; [exact E|]. split; [|split; [cbn; lia|done]].
  split; cbn [qset_last qset_free vq_descs vq_avail_ring vq_avail_index vq_num_descs vq_last_used_index vq_used_index vq_used_ring vq_free_head vq_num_free_descs];
    try done; try lia.
Qed.

Lemma slots_distinct j k n : 0 < k - j < n -> k `mod` n <> j `mod` n.
Proof. intros Hr E. assert ((k - j) `mod` n = 0) as H0 by (rewrite Zminus_mod, E, Z.sub_diag; done). rewrite Z.mod_small in H0; lia. Qed.

(** A request that is made and done. *)
Definition pushed (q : virtq) (d2 : virtq_desc) (e0 e1 e2 : virtio_chain_entry) : virtq :=
  let h := vq_free_head q in
  qset_avail (u16 (vq_avail_index q + 1)) (<[Z.to_nat (vq_avail_index q `mod` vq_num_descs q) := u16 h]> (vq_avail_ring q))
    (qset_descs (filled_descs (vq_descs q) h e0 e1 e2) (qset_free (d_next d2) (vq_num_free_descs q - 3) q)).

(** The chains after a request are those before, with the one at the head used. *)
Lemma filled_chains q k f e0 e1 e2 : triples q k f -> 3 <= vq_num_free_descs q ->
  let h := vq_free_head q in let f' := if decide (h = f) then f + 3 else f in
  let descs := filled_descs (vq_descs q) h e0 e1 e2 in
  (forall x, x `mod` 3 = 0 -> 0 <= x < f' -> used_chain descs x) /\
  (forall x, x `mod` 3 = 0 -> f' <= x -> x + 2 < vq_num_descs q -> fresh_chain descs (vq_num_descs q) x).
Proof.
  intros Hq H3 h f' descs. destruct (triples_head q k f Hq H3) as (Hm & Hh & Hfit & _).
  pose proof (tr_descs _ _ _ Hq) as Hd. pose proof (tr_f _ _ _ Hq) as Hf.
  destruct (filled_holds (vq_descs q) h e0 e1 e2) as [_ Hused]; [lia..|]. split; intros x Hx Hr.
  - destruct (decide (x = h)) as [->|]; [exact Hused|].
    destruct (tr_below _ _ _ Hq x Hx) as (d0 & d1 & d2 & E0 & E1 & E2 & Hrest); [subst f'; case_decide; lia|].
    exists d0, d1, d2. unfold descs. rewrite !filled_other by (subst f'; case_decide; lia). done.
  - intros Hl. assert (f <= x) by (subst f'; case_decide; lia). assert (x <> h) by (subst f'; case_decide; lia).
    destruct (tr_above _ _ _ Hq x Hx) as (d0 & d1 & d2 & E0 & E1 & E2 & Hrest); [lia..|].
    exists d0, d1, d2. unfold descs. rewrite !filled_other by lia. done.
Qed.

Lemma pushed_triples q k f d2 e0 e1 e2 used :
  triples q k f -> 3 <= vq_num_free_descs q -> k < 65535 -> vq_descs q !! Z.to_nat (vq_free_head q + 2) = Some d2 ->
  exists f', triples (device_uses (vq_free_head q) used (pushed q d2 e0 e1 e2)) (k + 1) f'.
Proof.
  intros Hq H3 Hk Hd2. destruct (triples_head q k f Hq H3) as (Hm & Hh & Hfit & d0' & d1' & d2' & _ & _ & E2 & _ & _ & HA & HB).
  rewrite Hd2 in E2. injection E2 as <-. destruct (filled_chains q k f e0 e1 e2 Hq H3) as [Hbelow Habove].
  exists (if decide (vq_free_head q = f) then f + 3 else f).
  destruct Hq as [Hn Hd Ha Hu [Hi1 Hi2] Hl Hnf Hr Hff _ _ _ Hri].
  split; unfold device_uses, pushed; cbv zeta;
    cbn [qset_used qset_avail qset_descs qset_free vq_descs vq_avail_ring vq_avail_index vq_num_descs vq_last_used_index vq_used_index vq_used_ring vq_free_head vq_num_free_descs];
    rewrite ?length_insert, ?length_filled_descs, ?Hi1, ?Hi2, ?u16_small by lia; try done; try lia.
  - case_decide; lia.
  - destruct (decide (vq_free_head q = f)) as [E|E].
    + left. destruct (HA E) as [Hnf' Hnext]. split; [lia|]. intros Hge. apply Hnext. lia.
    + right. destruct (HB ltac:(lia)) as [Hnf' ->]. split_and!; [done|done|lia..].
  - intros j Hj. destruct (decide (j = k)) as [->|].
    + exists (vq_free_head q), used. rewrite list_lookup_insert_eq by (rewrite Hu; pose proof (Z.mod_pos_bound k (vq_num_descs q)); lia).
      split_and!; [done|done|case_decide; lia..].
    + destruct (Hri j ltac:(lia)) as (id & len & E & Hid & Hidr). exists id, len. split_and!; [|done|case_decide; lia..].
      rewrite list_lookup_insert_ne; [done|]. intros Eq. apply to_nat_inj in Eq; [|apply Z.mod_pos_bound; lia..].
      by apply (slots_distinct j k (vq_num_descs q)); [lia..|].
Qed.

Lemma virtq_push_triples q k f e0 e1 e2 :
  triples q k f -> k < 65535 ->
  exists h q1, virtq_push [e0; e1; e2] q = Ok (h, numbered [h; h + 1; h + 2] [e0; e1; e2], q1) /\ 0 <= h /\
    holds (vq_descs q1) [h; h + 1; h + 2] [e0; e1; e2] /\
    vq_avail_ring q1 !! Z.to_nat (k `mod` vq_num_descs q1) = Some h /\ vq_avail_index q1 = k + 1 /\
    vq_avail_flags q1 = vq_avail_flags q /\ vq_index q1 = vq_index q /\
    forall used, exists f', triples (device_uses h used q1) (k + 1) f'.
Proof.
  intros Hq Hk. destruct (push_room q k f Hq ltac:(lia)) as (q' & Er & Hq' & H3 & Hs1 & Hs2 & Hs3 & Hs4 & Hs5).
  destruct (triples_head q' k f Hq' H3) as (Hm & Hh & Hfit & d0 & d1 & d2 & E0 & E1 & E2 & N0 & N1 & _).
  pose proof (tr_num _ _ _ Hq') as Hn. pose proof (tr_index _ _ _ Hq') as [Hi _]. pose proof (tr_last _ _ _ Hq') as Hl.
  pose proof (tr_descs _ _ _ Hq') as Hd. pose proof (tr_avail _ _ _ Hq') as Ha.
  exists (vq_free_head q'), (pushed q' d2 e0 e1 e2). split_and!; try done; try lia.
  - unfold virtq_push. cbv zeta. cbn [length Z.of_nat Pos.of_succ_nat Pos.succ]. change (0 <? 3) with true.
    rewrite (ST_bind_run (assert true) _ _ _ _ eq_refl), (ST_bind_run get _ _ _ _ eq_refl), (ST_bind_run _ _ _ _ _ Er), (ST_bind_run get _ _ _ _ eq_refl).
    change (Z.of_nat 3) with 3. rewrite (proj2 (Z.ltb_ge _ _) H3).
    rewrite (ST_bind_run _ _ _ _ _ (push_three q' _ d0 d1 d2 e0 e1 e2 E0 E1 E2 N0 N1 ltac:(lia))), (ST_bind_run (modify _) _ _ _ _ eq_refl). done.
  - apply filled_holds; lia.
  - unfold pushed. cbv zeta. cbn [qset_avail qset_descs qset_free vq_avail_ring vq_num_descs]. rewrite Hi, (u16_small (vq_free_head q')) by lia.
    apply list_lookup_insert_eq. pose proof (Z.mod_pos_bound k (vq_num_descs q')). lia.
  - unfold pushed. cbv zeta. cbn [qset_avail vq_avail_index]. rewrite Hi. apply u16_small. lia.
  - intros used. by apply (pushed_triples q' k f).
Qed.

(** ** Bytes *)
Lemma peek_poke_same a bytes f n : n = Z.of_nat (length bytes) -> peek (poke_bytes a bytes f) a n = bytes.
Proof.
  intros ->. apply list_eq. intros i. unfold peek, poke_bytes. rewrite list_lookup_fmap. destruct (decide (i < length bytes)%nat).
  - rewrite lookup_seqZ_lt by lia. cbn. rewrite (proj2 (Z.leb_le a _)), (proj2 (Z.ltb_lt _ _)) by lia.
    replace (Z.to_nat (a + Z.of_nat i - a)) with i by lia. cbn. destruct (nth_lookup_or_length bytes i 0) as [->|]; [done|lia].
  - rewrite lookup_seqZ_ge by lia. rewrite lookup_ge_None_2 by lia. done.
Qed.
Lemma poke_other a bytes f x : x < a \/ a + Z.of_nat (length bytes) <= x -> poke_bytes a bytes f x = f x.
Proof. intros Hx. unfold poke_bytes. destruct (Z.leb_spec a x), (Z.ltb_spec x (a + Z.of_nat (length bytes))); (lia || done). Qed.
Lemma peek_ext f g a n : (forall x, a <= x < a + n -> f x = g x) -> peek f a n = peek g a n.
Proof. intros He. apply list_fmap_ext. intros i x Hx%lookup_seqZ. apply He. lia. Qed.
Lemma length_peek f a n : length (peek f a n) = Z.to_nat n.
Proof. unfold peek. by rewrite length_fmap, length_seqZ. Qed.
Lemma poke_peek f g a b n x : a <= x < a + n -> poke_bytes a (peek g b n) f x = g (b + (x - a)).
Proof.
  intros Hx. unfold poke_bytes. rewrite length_peek, (proj2 (Z.leb_le a x)), (proj2 (Z.ltb_lt x _)) by lia. cbn [andb].
  apply nth_lookup_Some. unfold peek. rewrite list_lookup_fmap, lookup_seqZ_lt by lia. cbn. do 2 f_equal. lia.
Qed.

(** ** Requests *)
Section Correct.
Context {D : Type} `{DmaHwSpec D}.
Implicit Types s : crack D.

Lemma crack_queue_run {A} (m : ST virtq A) s a q : m (cr_queue s) = Ok (a, q) -> crack_queue m s = Ok (a, cset_queue q s).
Proof. intros E. unfold crack_queue. by rewrite E. Qed.
Lemma page_write_run s off bytes :
  0 <= off -> off + Z.of_nat (length bytes) <= PAGE_SIZE ->
  page_write (request_uaddr s + off) bytes s = Ok (tt, cset_mem (poke_bytes (request_paddr s + off) bytes (cr_mem s)) s).
Proof.
  intros Ho Hl. unfold page_write, in_page. rewrite (proj2 (Z.leb_le (request_uaddr s) _)), (proj2 (Z.leb_le _ (request_uaddr s + PAGE_SIZE))) by lia.
  cbn [andb]. by replace (request_uaddr s + off - request_uaddr s) with off by lia.
Qed.

(** Polling ends when the device has raised the interrupt. *)
Lemma poll_run n : forall fuel s q' mem' d',
  (n <= fuel)%nat -> (forall m, (m < n)%nat -> Z.land (dm_isr (snd (Nat.iter m dma_step (cr_queue s, cr_mem s, cr_hw s)))) 1 = 0) ->
  Nat.iter n dma_step (cr_queue s, cr_mem s, cr_hw s) = (q', mem', d') -> Z.land (dm_isr d') 1 = 1 ->
  poll fuel s = Ok (dm_isr d', cset_hw d' (cset_mem mem' (cset_queue q' s))).
Proof.
  induction n as [|n IH]; intros fuel s q' mem' d' Hf Hm Hn Hd'; pose proof (dm_isr_range (cr_hw s)) as Hr;
    assert (Er : crack_device virtio_read_interrupt_status s = Ok (dm_isr (cr_hw s), cset_hw (cr_hw s) s))
      by (unfold crack_device, virtio_read_interrupt_status, read32; by rewrite dm_isr_read).
  - cbn in Hn. injection Hn as <- <- <-. destruct fuel; cbn [poll]; rewrite (ST_bind_run _ _ _ _ _ Er), u8_small, Hd' by lia; done.
  - destruct fuel as [|fuel]; [lia|]. cbn [poll]. rewrite (ST_bind_run _ _ _ _ _ Er), u8_small by lia.
    pose proof (Hm 0%nat ltac:(lia)) as Hz. cbn in Hz. rewrite Hz. cbn [Z.eqb].
    rewrite Nat.iter_succ_r in Hn. destruct (dma_step (cr_queue s, cr_mem s, cr_hw s)) as [[q1 mem1] d1] eqn:E.
    assert (Es : crack_device_step (cset_hw (cr_hw s) s) = Ok (tt, cset_hw d1 (cset_mem mem1 (cset_queue q1 s))))
      by (unfold crack_device_step, modify; cbn; by rewrite E).
    rewrite (ST_bind_run _ _ _ _ _ Es). apply (IH fuel (cset_hw d1 (cset_mem mem1 (cset_queue q1 s))) q' mem' d'); [lia| |done|done].
    intros m Hm'. specialize (Hm (S m) ltac:(lia)). by rewrite Nat.iter_succ_r, E in Hm.
Qed.

(** The program between two requests, [k] of which have been made. *)
Record crack_ready s (k : Z) : Prop := {
  rd_queue : exists f, triples (cr_queue s) k f;
  rd_flags : has (vq_avail_flags (cr_queue s)) VIRTQ_AVAIL_F_NO_INTERRUPT = false;
  rd_seen : dm_seen (cr_hw s) = k;
  rd_isr : Z.land (dm_isr (cr_hw s)) 1 = 0;
  rd_paddr : 0 <= request_paddr s <= 2 ^ 32 - PAGE_SIZE;
  rd_uaddr : 0 <= request_uaddr s <= 2 ^ 32 - PAGE_SIZE;
  rd_capacity : PAGE_SIZE <= SECTOR_SIZE * dm_capacity (cr_hw s) }.
(** The same page and buffer. *)
Definition same_page s s' : Prop := request_paddr s' = request_paddr s /\ request_uaddr s' = request_uaddr s.

(** The header of a request. *)
Definition with_header (h type : Z) (f : Z -> Z) : Z -> Z := poke_bytes (h + 8) (le_split 8 0) (poke_bytes (h + 4) (le_split 4 0) (poke_bytes h (le_split 4 type) f)).
Lemma with_header_fields h type f : 0 <= type < 2 ^ 32 ->
  le_combine (peek (with_header h type f) h 4) = type /\ le_combine (peek (with_header h type f) (h + 8) 8) = 0.
Proof.
  intros Ht. unfold with_header. split.
  - rewrite (peek_ext _ (poke_bytes h (le_split 4 type) f)) by (intros x Hx; rewrite !poke_other by (rewrite length_le_split; lia); done).
    rewrite peek_poke_same, le_combine_split by done. apply Z.mod_small. lia.
  - by rewrite peek_poke_same, le_combine_split.
Qed.
Lemma with_header_other h type f x : x < h \/ h + 16 <= x -> with_header h type f x = f x.
Proof. intros Hx. unfold with_header. by rewrite !poke_other by (rewrite length_le_split; lia). Qed.

(** The three writes of a header. *)
Lemma header_run {B} s len type (f : ST (crack D) B) :
  0 <= len -> len + 17 < PAGE_SIZE ->
  (page_write (request_uaddr s + len) (le_split 4 type) ;; page_write (request_uaddr s + len + 4) (le_split 4 0) ;;
   page_write (request_uaddr s + len + 8) (le_split 8 0) ;; f) s =
  f (cset_mem (with_header (request_paddr s + len) type (cr_mem s)) s).
Proof.
  intros Hl Hlt. rewrite (ST_bind_run _ _ _ _ _ (page_write_run s len (le_split 4 type) ltac:(lia) ltac:(rewrite length_le_split; lia))).
  set (s1 := cset_mem _ s). change (request_uaddr s) with (request_uaddr s1). rewrite <- !Z.add_assoc.
  rewrite (ST_bind_run _ _ _ _ _ (page_write_run s1 (len + 4) (le_split 4 0) ltac:(lia) ltac:(rewrite length_le_split; lia))).
  set (s2 := cset_mem _ s1). change (request_uaddr s1) with (request_uaddr s2).
  rewrite (ST_bind_run _ _ _ _ _ (page_write_run s2 (len + 8) (le_split 8 0) ltac:(lia) ltac:(rewrite length_le_split; lia))).
  unfold with_header. rewrite <- !Z.add_assoc. done.
Qed.

Lemma sector_aligned v : v `mod` SECTOR_SIZE = 0 -> IS_ALIGNED v 512 = true.
Proof. intros Hv. change 512 with (2 ^ 9). rewrite is_aligned_pow2 by lia. change (2 ^ 9) with SECTOR_SIZE. by rewrite Hv. Qed.
Lemma ack_clears a : 0 <= a < 4 -> Z.land (Z.ldiff a (Z.land a 3)) 1 = 0.
Proof. intros Ha. assert (a = 0 \/ a = 1 \/ a = 2 \/ a = 3) as [-> | [-> | [-> | ->]]] by lia; done. Qed.

(** A request for sector 0: from the memory to the disk, or from the disk to the memory.  Only
    the header and the status of the request, in the request page, change besides. *)
Lemma crack_readwrite_run s k data len (w : bool) :
  crack_ready s k -> 0 <= k < 65535 -> 0 < len -> len `mod` SECTOR_SIZE = 0 -> len + 17 < PAGE_SIZE ->
  exists n s', (forall fuel, (n <= fuel)%nat -> crack_readwrite fuel 0 data len w s = Ok (tt, s')) /\ crack_ready s' (k + 1) /\ same_page s s' /\ cr_buf s' = cr_buf s /\
    (forall x, (x < request_paddr s + len \/ request_paddr s + len + 17 <= x) ->
       cr_mem s' x = if decide (w = false /\ data <= x < data + len) then dm_disk (cr_hw s) (x - data) else cr_mem s x) /\
    (forall x, 0 <= x < len -> (data + x < request_paddr s + len \/ request_paddr s + len + 17 <= data + x) ->
       dm_disk (cr_hw s') x = if w then cr_mem s (data + x) else dm_disk (cr_hw s) x).
Proof.
  intros [[f Hq] Hfl Hseen Hisr Hp Hu Hcap] Hk Hlen Hmod Hpage. unfold PAGE_SIZE, SECTOR_SIZE in *.
  set (type := if w then VIRTIO_BLK_T_OUT else VIRTIO_BLK_T_IN). set (header := request_paddr s + len).
  set (mem1 := with_header header type (cr_mem s)). set (chain := crack_chain header data (header + 16) len w).
  destruct (virtq_push_triples (cr_queue s) k f (Chain 0 header 16 false) (Chain 0 data len (negb w)) (Chain 0 (header + 16) 1 true) Hq ltac:(lia))
    as (h & q1 & E1 & Hh & Hho & Hav & Hai & Haf & Hix & Hnext).
  destruct (with_header_fields header type (cr_mem s)) as [Ht Hs]; [by subst type; destruct w|]. fold mem1 in Ht, Hs.
  assert (Hpre : u16 (vq_avail_index q1 - 1) = k) by (rewrite Hai, Z.add_simpl_r; apply u16_small; lia).
  destruct (dm_serves q1 mem1 (cr_hw s) h (h + 1) (h + 2) header data (header + 16) len (negb w) 0 0 0 Hho)
    as (n & used & mem' & d' & Hm & Hn & Hi' & Hs' & Hc' & Hmem & Hdisk); rewrite ?Hpre, ?Hs, ?Haf; try done; try lia.
  { by rewrite Ht; subst type; destruct w. }
  { unfold SECTOR_SIZE. lia. }
  rewrite Hs in Hmem, Hdisk. destruct (Hnext used) as [f' Hq'].
  set (d2 := mmio_write32 VIRTIO_REG_INTERRUPT_ACK (Z.land (dm_isr d') 3) d').
  destruct (dm_isr_ack (Z.land (dm_isr d') 3) d') as (A1 & A2 & A3 & A4).
  exists n, (cset_hw d2 (cset_mem mem' (cset_queue (device_uses h used q1) s))). split_and!; try done.
  - intros fuel Hfuel. unfold crack_readwrite, REQUEST_HEADER_SIZE, PAGE_SIZE, SECTOR_SIZE. cbv zeta. change (4 * 2 + 8) with 16.
    rewrite u32_small, (proj2 (Z.ltb_lt _ _)) by lia. rewrite (ST_bind_run (assert true) _ _ _ _ eq_refl).
    rewrite sector_aligned by done.
    rewrite (ST_bind_run (assert true) _ _ _ _ eq_refl), (ST_bind_run get _ _ _ _ eq_refl).
    rewrite !u32_small by lia. rewrite header_run by (unfold PAGE_SIZE; lia). fold header type. fold mem1. fold chain.
    rewrite (ST_bind_run _ _ _ _ _ (crack_queue_run _ (cset_mem mem1 s) _ _ E1)). rewrite (proj2 (Z.leb_le 0 h)) by lia.
    rewrite (ST_bind_run (assert true) _ _ _ _ eq_refl), (ST_bind_run (gets _) _ _ _ _ eq_refl).
    rewrite (ST_bind_run (crack_device (virtq_notify _)) _ _ _ _ eq_refl).
    set (s2 := cset_hw _ _). rewrite (ST_bind_run _ _ _ _ _ (poll_run n fuel s2 _ mem' d' Hfuel Hm Hn Hi')). done.
  - split; cbn [cset_hw cset_mem cset_queue cr_queue cr_hw cr_mem request_paddr request_uaddr]; try done.
    + cbn. by rewrite Haf.
    + unfold d2. by rewrite A2, Hs', Hai.
    + unfold d2. rewrite A1. apply ack_clears, dm_isr_range.
    + unfold d2, PAGE_SIZE, SECTOR_SIZE. by rewrite A3, Hc'.
  - intros x Hx. cbn [cset_hw cset_mem cr_mem]. rewrite Hmem. rewrite decide_False by lia.
    rewrite Z.mul_0_r, Z.add_0_l. unfold mem1. rewrite with_header_other by lia. destruct w; cbn [negb]; repeat case_decide; try done; try (exfalso; naive_solver).
  - intros x Hx Ho. cbn [cset_hw cr_hw]. unfold d2. rewrite A4, Hdisk, Z.mul_0_r. destruct w; cbn [negb].
    + rewrite decide_True by (split; [done|lia]). unfold mem1. rewrite with_header_other by lia. f_equal. lia.
    + by rewrite decide_False by (by intros [? _]).
Qed.

(** Memory the request page does not cover. *)
Definition outside s (x : Z) : Prop := x < request_paddr s \/ request_paddr s + PAGE_SIZE <= x.

Lemma get_run {B} s (f : crack D -> ST (crack D) B) : (get ≫= f) s = f s s.
Proof. done. Qed.
Lemma page_read_run s len : 0 <= len <= PAGE_SIZE -> page_read (request_uaddr s) len s = Ok (peek (cr_mem s) (request_paddr s) len, s).
Proof.
  intros Hl. unfold page_read, getopt, in_page. rewrite (proj2 (Z.leb_le (request_uaddr s) _)), (proj2 (Z.leb_le _ (request_uaddr s + PAGE_SIZE))) by lia.
  cbn [andb]. by rewrite Z.sub_diag, Z.add_0_r.
Qed.
Lemma buf_write_run s off bytes : 0 <= off -> off + Z.of_nat (length bytes) <= BUF_SIZE -> buf_write off bytes s = Ok (tt, cset_buf (poke_bytes off bytes (cr_buf s)) s).
Proof. intros Ho Hl. unfold buf_write. by rewrite (proj2 (Z.leb_le _ _) Ho), (proj2 (Z.leb_le _ _) Hl). Qed.
Lemma buf_read_run s off len : 0 <= off -> off + len <= BUF_SIZE -> buf_read off len s = Ok (peek (cr_buf s) off len, s).
Proof. intros Ho Hl. unfold buf_read, getopt. by rewrite (proj2 (Z.leb_le _ _) Ho), (proj2 (Z.leb_le _ _) Hl). Qed.

(** Any memory, the kernel's too, is read into the buffer. *)
Lemma read_memory_run s k src off len :
  crack_ready s k -> 0 <= k < 65534 -> 0 < len -> len `mod` SECTOR_SIZE = 0 -> len + 17 < PAGE_SIZE -> 0 <= off -> off + len <= BUF_SIZE ->
  exists n s', (forall fuel, (n <= fuel)%nat -> read_memory fuel src off len s = Ok (tt, s')) /\ crack_ready s' (k + 2) /\ same_page s s' /\
    (forall x, outside s x -> cr_mem s' x = cr_mem s x) /\
    (forall x, off <= x < off + len -> outside s (src + (x - off)) -> cr_buf s' x = cr_mem s (src + (x - off))) /\
    (forall x, x < off \/ off + len <= x -> cr_buf s' x = cr_buf s x).
Proof.
  intros Hr Hk Hl Hmod Hp Ho Hb.
  destruct (crack_readwrite_run s k src len true Hr) as (n1 & s1 & E1 & Hr1 & [P1 U1] & B1 & M1 & D1); [lia..|].
  destruct (crack_readwrite_run s1 (k + 1) (request_paddr s1) len false Hr1) as (n2 & s2 & E2 & Hr2 & [P2 U2] & B2 & M2 & D2); [lia..|].
  rewrite P1 in M2, D2, E2, P2. unfold outside.
  exists (n1 + n2)%nat, (cset_buf (poke_bytes off (peek (cr_mem s2) (request_paddr s) len) (cr_buf s2)) s2). split_and!.
  - intros fuel Hf. unfold read_memory. rewrite sector_aligned, (ST_bind_run (assert true) _ _ _ _ eq_refl) by done.
    rewrite (ST_bind_run _ _ _ _ _ (E1 fuel ltac:(lia))), get_run, P1, (ST_bind_run _ _ _ _ _ (E2 fuel ltac:(lia))), <- U2.
    rewrite (ST_bind_run _ _ _ _ _ (page_read_run s2 len ltac:(lia))), P2. apply buf_write_run; rewrite ?length_peek; lia.
  - replace (k + 2) with (k + 1 + 1) by lia. by destruct Hr2.
  - split; cbn; congruence.
  - intros x Hx. cbn [cset_buf cr_mem]. rewrite M2, decide_False, M1, decide_False by (lia || by intros [? _]). done.
  - intros x Hx Hox. cbn [cset_buf cr_buf]. rewrite poke_peek, M2, decide_True, D1 by (done || lia || split; lia). do 2 f_equal. lia.
  - intros x Hx. cbn [cset_buf cr_buf]. rewrite poke_other by (rewrite length_peek; lia). congruence.
Qed.

(** And any memory is written. *)
Lemma write_to_memory_run s k dest off len :
  crack_ready s k -> 0 <= k < 65534 -> 0 < len -> len `mod` SECTOR_SIZE = 0 -> len + 17 < PAGE_SIZE -> 0 <= off -> off + len <= BUF_SIZE ->
  exists n s', (forall fuel, (n <= fuel)%nat -> write_to_memory fuel dest off len s = Ok (tt, s')) /\ crack_ready s' (k + 2) /\ same_page s s' /\
    (forall x, outside s x -> cr_mem s' x = if decide (dest <= x < dest + len) then cr_buf s (off + (x - dest)) else cr_mem s x).
Proof.
  intros Hr Hk Hl Hmod Hp Ho Hb. set (s0 := cset_mem (poke_bytes (request_paddr s) (peek (cr_buf s) off len) (cr_mem s)) s).
  assert (Hr0 : crack_ready s0 k) by (by destruct Hr).
  destruct (crack_readwrite_run s0 k (request_paddr s) len true Hr0) as (n1 & s1 & E1 & Hr1 & [P1 U1] & B1 & M1 & D1); [lia..|].
  destruct (crack_readwrite_run s1 (k + 1) dest len false Hr1) as (n2 & s2 & E2 & Hr2 & [P2 U2] & B2 & M2 & D2); [lia..|].
  change (request_paddr s0) with (request_paddr s) in *. rewrite P1 in *. unfold outside. exists (n1 + n2)%nat, s2. split_and!.
  - intros fuel Hf. unfold write_to_memory. rewrite sector_aligned, (ST_bind_run (assert true) _ _ _ _ eq_refl), get_run by done.
    rewrite (ST_bind_run _ _ _ _ _ (buf_read_run s off len Ho Hb)). rewrite <- (Z.add_0_r (request_uaddr s)).
    rewrite (ST_bind_run _ _ _ _ _ (page_write_run s 0 (peek (cr_buf s) off len) ltac:(lia) ltac:(rewrite length_peek; lia))).
    rewrite Z.add_0_r. fold s0. rewrite (ST_bind_run _ _ _ _ _ (E1 fuel ltac:(lia))). apply E2. lia.
  - replace (k + 2) with (k + 1 + 1) by lia. done.
  - split; [congruence|]. rewrite U2, U1. done.
  - intros x Hx. rewrite M2 by lia. destruct (decide (dest <= x < dest + len)) as [Hd|Hd].
    + rewrite decide_True by done. rewrite D1 by lia. cbn [s0 cset_mem cr_mem]. rewrite poke_peek by lia. f_equal. lia.
    + rewrite decide_False by tauto. rewrite M1 by lia. rewrite decide_False by (by intros [? _]). cbn [s0 cset_mem cr_mem].
      apply poke_other. rewrite length_peek. lia.
Qed.

(** ** main *)
Lemma dump_run m : forall i s k,
  crack_ready s k -> 0 <= k -> k + 2 * Z.of_nat m < 65535 -> (Z.of_nat i + Z.of_nat m) * SECTOR_SIZE <= BUF_SIZE ->
  exists n s', (forall fuel, (n <= fuel)%nat -> for_range i m (fun i => read_memory fuel (KERNEL_BASE + Z.of_nat i * SECTOR_SIZE) (Z.of_nat i * SECTOR_SIZE) SECTOR_SIZE) s = Ok (tt, s')) /\
    crack_ready s' (k + 2 * Z.of_nat m) /\ same_page s s' /\ (forall x, outside s x -> cr_mem s' x = cr_mem s x) /\
    (forall x, Z.of_nat i * SECTOR_SIZE <= x < (Z.of_nat i + Z.of_nat m) * SECTOR_SIZE -> outside s (KERNEL_BASE + x) -> cr_buf s' x = cr_mem s (KERNEL_BASE + x)) /\
    (forall x, x < Z.of_nat i * SECTOR_SIZE -> cr_buf s' x = cr_buf s x).
Proof.
  induction m as [|m IH]; intros i s k Hr Hk0 Hk Hb.
  - exists 0%nat, s. split_and!; try done; [by rewrite Z.add_0_r|].  intros x Hx. unfold SECTOR_SIZE in *. lia.
  - destruct (read_memory_run s k (KERNEL_BASE + Z.of_nat i * SECTOR_SIZE) (Z.of_nat i * SECTOR_SIZE) SECTOR_SIZE Hr)
      as (n1 & s1 & E1 & Hr1 & [P1 U1] & M1 & B1 & B1'); [unfold SECTOR_SIZE in *; done || lia..|].
    destruct (IH (S i) s1 (k + 2)) as (n2 & s2 & E2 & Hr2 & [P2 U2] & M2 & B2 & B2'); [done|unfold SECTOR_SIZE in *; lia..|].
    unfold outside in *. rewrite P1 in *. exists (n1 + n2)%nat, s2. split_and!.
    + intros fuel Hf. cbn [for_range]. rewrite (ST_bind_run _ _ _ _ _ (E1 fuel ltac:(lia))). apply E2. lia.
    + replace (k + 2 * Z.of_nat (S m)) with (k + 2 + 2 * Z.of_nat m) by lia. done.
    + split; congruence.
    + intros x Hx. rewrite M2 by done. by apply M1.
    + intros x Hx Hox. destruct (Z.ltb_spec x (Z.of_nat (S i) * SECTOR_SIZE)) as [Hlt|Hge].
      * rewrite B2', B1 by (unfold SECTOR_SIZE in *; lia). f_equal. lia.
      * rewrite B2 by (unfold SECTOR_SIZE in *; lia). by apply M1.
    + intros x Hx. rewrite B2', B1' by (unfold SECTOR_SIZE in *; lia). done.
Qed.

(** The first occurrence of the magic number, and of the name. *)
Lemma find_table_run buf t : forall n off,
  0 <= off <= t -> (t - off) `mod` 4 = 0 -> t - off < 4 * Z.of_nat n -> le_combine (peek buf t 4) = SYMBOL_TABLE_MAGIC ->
  (forall x, off <= x < t -> (t - x) `mod` 4 = 0 -> le_combine (peek buf x 4) <> SYMBOL_TABLE_MAGIC) ->
  find_table buf n off = Some t.
Proof.
  induction n as [|n IH]; intros off Ho Hm Hn Ht Hf; [lia|]. cbn [find_table]. destruct (decide (off = t)) as [->|].
  - by rewrite Ht, Z.eqb_refl.
  - rewrite (proj2 (Z.eqb_neq _ _)) by (apply Hf; lia). apply IH; try lia; try done. intros x Hx. apply Hf. lia.
Qed.
Lemma find_name_run buf name i : forall n off,
  (i < n)%nat -> off + 64 * (Z.of_nat i + 1) <= BUF_SIZE -> str_eq (peek buf (off + 64 * Z.of_nat i + 4) 60) name = true ->
  (forall j, (j < i)%nat -> str_eq (peek buf (off + 64 * Z.of_nat j + 4) 60) name = false) ->
  find_name buf name n off = Ok (Some (off + 64 * Z.of_nat i)).
Proof.
  induction i as [|i IH]; intros [|n] off Hi Hb Hs Hf; try lia; cbn [find_name]; rewrite (proj2 (Z.ltb_ge BUF_SIZE (off + 64))) by lia.
  - rewrite Z.mul_0_r, Z.add_0_r in *. by rewrite Hs.
  - pose proof (Hf 0%nat ltac:(lia)) as H0'. rewrite Z.mul_0_r, Z.add_0_r in H0'. rewrite H0'. rewrite (IH n (off + 64)); try lia.
    + do 2 f_equal. lia.
    + by replace (off + 64 + 64 * Z.of_nat i + 4) with (off + 64 * Z.of_nat (S i) + 4) by lia.
    + intros j Hj. replace (off + 64 + 64 * Z.of_nat j + 4) with (off + 64 * Z.of_nat (S j) + 4) by lia. apply Hf. lia.
Qed.

(** The sectors that cover [size] bytes at [off]. *)
Definition cover_len (off size : Z) : Z := u32 (ALIGN_UP (u32 (off + size)) SECTOR_SIZE - ALIGN_DOWN off SECTOR_SIZE).
Lemma cover_len_spec off size : 0 <= off -> 0 < size -> off + size < 2 ^ 31 ->
  let down := off / SECTOR_SIZE * SECTOR_SIZE in
  cover_len off size `mod` SECTOR_SIZE = 0 /\ down <= off /\ off + size <= down + cover_len off size < off + size + SECTOR_SIZE.
Proof.
  intros Ho Hs Hlt down. unfold cover_len, ALIGN_UP. change SECTOR_SIZE with (2 ^ 9) in *. rewrite !align_down_pow2 by lia.
  change (2 ^ 9) with 512 in *. unfold down. clear down.
  pose proof (Z.div_mod off 512 ltac:(lia)). pose proof (Z.mod_pos_bound off 512 ltac:(lia)).
  rewrite (u32_small (off + size)), (u32_small (off + size + (512 - 1))) by lia.
  pose proof (Z.div_mod (off + size + (512 - 1)) 512 ltac:(lia)). pose proof (Z.mod_pos_bound (off + size + (512 - 1)) 512 ltac:(lia)).
  rewrite (u32_small (off + size + (512 - 1) - _)) by lia. rewrite u32_small by lia. split; [|lia].
  replace (off + size + (512 - 1) - (off + size + (512 - 1)) `mod` 512 - (off - off `mod` 512))
    with (((off + size + (512 - 1)) / 512 - off / 512) * 512) by lia. apply Z_mod_mult.
Qed.

(** The part of the memory up to [limit] holds the kernel's symbol table, at [table], whose
    symbol [i] is the first one named handle_syscall, and the [size] bytes at its address. *)
Record kernel_image (mem : Z -> Z) (limit table : Z) (i : nat) (addr size : Z) : Prop := {
  ki_limit : limit <= BUF_SIZE;
  ki_table : 0 <= table /\ table `mod` 4 = 0 /\ table + 16 + 64 * (Z.of_nat i + 1) <= limit;
  ki_magic : le_combine (peek mem (KERNEL_BASE + table) 4) = SYMBOL_TABLE_MAGIC;
  ki_first : forall x, 0 <= x < table -> x `mod` 4 = 0 -> le_combine (peek mem (KERNEL_BASE + x) 4) <> SYMBOL_TABLE_MAGIC;
  ki_num : Z.of_nat i < le_combine (peek mem (KERNEL_BASE + (table + 4)) 4);
  ki_name : str_eq (peek mem (KERNEL_BASE + (table + 16 + 64 * Z.of_nat i + 4)) 60) handler_name = true;
  ki_names : forall j, (j < i)%nat -> str_eq (peek mem (KERNEL_BASE + (table + 16 + 64 * Z.of_nat j + 4)) 60) handler_name = false;
  ki_addr : le_combine (peek mem (KERNEL_BASE + (table + 16 + 64 * Z.of_nat i)) 4) = addr;
  ki_text : KERNEL_BASE <= addr /\ 0 < size <= 2560 /\ addr + size + SECTOR_SIZE <= KERNEL_BASE + limit }.

Lemma peek_shift f g a b n : (forall x, a <= x < a + n -> f x = g (b + x)) -> peek f a n = peek g (b + a) n.
Proof.
  intros He. apply list_eq. intros i. unfold peek. rewrite !list_lookup_fmap. destruct (decide (Z.of_nat i < n)).
  - rewrite !lookup_seqZ_lt by lia. cbn. rewrite He by lia. do 2 f_equal. lia.
  - by rewrite !lookup_seqZ_ge by lia.
Qed.

(** The handler of the system calls is found in the dump. *)
Lemma handler_found s mem limit table i addr size :
  kernel_image mem limit table i addr size -> (forall x, 0 <= x < limit -> cr_buf s x = mem (KERNEL_BASE + x)) ->
  find_table (cr_buf s) (Z.to_nat (BUF_SIZE / 4)) 0 = Some table /\
  find_name (cr_buf s) handler_name (Z.to_nat (le_combine (peek (cr_buf s) (table + 4) 4))) (table + 16) = Ok (Some (table + 16 + 64 * Z.of_nat i)) /\
  le_combine (peek (cr_buf s) (table + 16 + 64 * Z.of_nat i) 4) = addr.
Proof.
  intros [Hl (Ht & Hm & Hi) Hmag Hfirst Hnum Hname Hnames Haddr Htext] Hb. unfold BUF_SIZE in *.
  assert (Hp : forall a n, 0 <= a -> a + n <= limit -> peek (cr_buf s) a n = peek mem (KERNEL_BASE + a) n)
    by (intros a n Ha Hn; apply peek_shift; intros; apply Hb; lia).
  split_and!.
  - apply find_table_run; [lia|by rewrite Z.sub_0_r|lia|by rewrite Hp by lia|]. intros x Hx Hx4. rewrite Hp by lia. apply Hfirst; lia.
  - apply find_name_run; [rewrite Hp; lia|unfold BUF_SIZE; lia|by rewrite Hp by lia|]. intros j Hj. rewrite Hp by lia. by apply Hnames.
  - by rewrite Hp by lia.
Qed.

(** The dump of everything. *)
Lemma dump_kernel_run s limit :
  crack_ready s 0 -> limit <= BUF_SIZE -> KERNEL_BASE + limit <= request_paddr s ->
  exists n s', (forall fuel, (n <= fuel)%nat -> dump_kernel fuel s = Ok (tt, s')) /\ crack_ready s' 16384 /\ same_page s s' /\
    (forall x, outside s x -> cr_mem s' x = cr_mem s x) /\ (forall x, 0 <= x < limit -> cr_buf s' x = cr_mem s (KERNEL_BASE + x)).
Proof.
  intros Hr Hl Hp. assert (Hc : Z.of_nat (Z.to_nat (BUF_SIZE / SECTOR_SIZE)) = 8192) by done.
  destruct (dump_run (Z.to_nat (BUF_SIZE / SECTOR_SIZE)) 0 s 0 Hr) as (n & s' & E & Hr' & Hs & Hm & Hb & _);
    rewrite ?Hc in *; try done.
  exists n, s'. split_and!; try done. intros x Hx. apply Hb; [unfold BUF_SIZE, SECTOR_SIZE in *; lia|unfold outside; lia].
Qed.

Lemma overwrite_kernel_run s limit table i addr shellcode :
  crack_ready s 0 -> kernel_image (cr_mem s) limit table i addr (Z.of_nat (length shellcode)) -> KERNEL_BASE + limit <= request_paddr s ->
  exists n s', (forall fuel, (n <= fuel)%nat -> overwrite_kernel fuel shellcode s = Ok (tt, s')) /\ crack_ready s' 16386 /\
    forall x, KERNEL_BASE <= x < KERNEL_BASE + limit -> cr_mem s' x = poke_bytes addr shellcode (cr_mem s) x.
Proof.
  intros Hr Hk Hp. pose proof (ki_limit _ _ _ _ _ _ Hk) as Hl. pose proof (ki_table _ _ _ _ _ _ Hk) as (Ht0 & _ & Ht).
  pose proof (ki_text _ _ _ _ _ _ Hk) as (Hbase & Hsize & Hend). set (size := Z.of_nat (length shellcode)) in *.
  destruct (dump_kernel_run s limit Hr Hl Hp) as (n1 & s1 & E1 & Hr1 & [P1 U1] & M1 & B1).
  destruct (handler_found s1 (cr_mem s) limit table i addr size Hk B1) as (F1 & F2 & F3).
  unfold KERNEL_BASE, BUF_SIZE, SECTOR_SIZE in Hp, Hl, Hbase, Hend, B1.
  set (off := addr - 2147483648). set (s2 := cset_buf (poke_bytes off shellcode (cr_buf s1)) s1).
  destruct (cover_len_spec off size) as (C1 & C2 & C3); [lia..|].
  assert (Hdest : addr / SECTOR_SIZE * SECTOR_SIZE = 2147483648 + off / SECTOR_SIZE * SECTOR_SIZE).
  { unfold off, SECTOR_SIZE. pose proof (Z.div_add_l 4194304 512 (addr - 2147483648) ltac:(lia)) as Hd.
    replace (4194304 * 512 + (addr - 2147483648)) with addr in Hd by lia. rewrite Hd. lia. }
  set (dest := addr / SECTOR_SIZE * SECTOR_SIZE) in *. assert (Hr2 : crack_ready s2 16384) by (by destruct Hr1).
  assert (Hnn : 0 <= off / SECTOR_SIZE * SECTOR_SIZE) by (apply Z.mul_nonneg_nonneg; [apply Z.div_pos; unfold SECTOR_SIZE; lia|done]).
  destruct (write_to_memory_run s2 16384 dest (dest - 2147483648) (cover_len off size) Hr2) as (n2 & s3 & E3 & Hr3 & _ & M3);
    [unfold SECTOR_SIZE, PAGE_SIZE, BUF_SIZE in *; (done || lia)..|].
  exists (n1 + n2)%nat, s3. split_and!; [|done|].
  - intros fuel Hf. unfold overwrite_kernel. rewrite (ST_bind_run _ _ _ _ _ (E1 fuel ltac:(lia))), get_run, F1.
    rewrite (proj2 (Z.ltb_ge BUF_SIZE (table + 16))) by (unfold BUF_SIZE; lia).
    rewrite (ST_bind_run (mret _) _ _ _ _ eq_refl), F2, (ST_bind_run (lift_out (Ok _)) _ _ _ _ eq_refl), F3. cbv zeta.
    rewrite (u32_small (addr - KERNEL_BASE)) by (unfold KERNEL_BASE; lia). change (addr - KERNEL_BASE) with off.
    rewrite (proj2 (Z.ltb_lt off BUF_SIZE)) by (unfold BUF_SIZE; lia).
    rewrite (ST_bind_run (assert true) _ _ _ _ eq_refl), (ST_bind_run _ _ _ _ _ (buf_write_run s1 off shellcode ltac:(lia) ltac:(unfold BUF_SIZE; lia))).
    apply E3. lia.
  - unfold KERNEL_BASE. intros x Hx. unfold outside in M1, M3. change (request_paddr s2) with (request_paddr s1) in M3. rewrite P1 in M3.
    rewrite M3 by lia. change (cr_mem s2) with (cr_mem s1). rewrite M1 by lia. change (cr_buf s2) with (poke_bytes off shellcode (cr_buf s1)).
    assert (Hsh : poke_bytes off shellcode (cr_buf s1) (dest - 2147483648 + (x - dest)) = poke_bytes addr shellcode (cr_mem s) x).
    { replace (dest - 2147483648 + (x - dest)) with (x - 2147483648) by lia. unfold poke_bytes. fold size.
      replace (x - 2147483648 - off) with (x - addr) by lia. rewrite B1 by lia. replace (2147483648 + (x - 2147483648)) with x by lia.
      destruct (Z.leb_spec off (x - 2147483648)), (Z.leb_spec addr x), (Z.ltb_spec (x - 2147483648) (off + size)), (Z.ltb_spec x (addr + size)); (done || lia). }
    destruct (decide _) as [Hd|Hd]; [done|]. symmetry. apply poke_other. fold size. lia.
Qed.

(** The initialization makes a new queue. *)
Lemma virtq_init_new alloc index (d : D) q d' : virtq_init alloc index d = Ok (q, d') -> exists n, q = virtq_new index n /\ (n <= 512)%nat.
Proof.
  unfold virtq_init. intros E. apply ST_bind_ok in E as (_ & d1 & _ & E). apply ST_bind_ok in E as (m & d2 & _ & E).
  apply ST_bind_ok in E as (_ & d3 & _ & E). apply ST_bind_ok in E as (_ & d4 & _ & E). apply ST_bind_ok in E as (p & d5 & _ & E).
  destruct p as [[u p]|]; [|done]. injection E as <- _. exists (Z.to_nat (Z.min m 512)). split; [done|lia].
Qed.
Lemma virtio_init_new map alloc (d : D) err qs d' :
  virtio_init map alloc 1 d = Ok (err, qs, d') -> forall q, qs !! 0%nat = Some q -> exists n, q = virtq_new 0 n /\ (n <= 512)%nat.
Proof.
  unfold virtio_init. intros E q Hq. apply ST_bind_ok in E as (e & d1 & _ & E). destruct (negb (e =? OK)); [by injection E as _ <- _|].
  apply ST_bind_ok in E as (mg & d2 & _ & E). destruct (negb (mg =? VIRTIO_MMIO_MAGIC_VALUE)); [by injection E as _ <- _|].
  do 3 apply ST_bind_ok in E as (_ & ? & _ & E). apply ST_bind_ok in E as (qs' & d3 & Eq & E). injection E as _ <- _.
  apply ST_bind_ok in Eq as (q0 & d4 & E0 & Eq). apply ST_bind_ok in Eq as (rest & d5 & _ & Eq). injection Eq as <- _.
  injection Hq as ->. by apply virtq_init_new in E0.
Qed.
Lemma crack_setup_new lookup destroy map alloc (d : D) q uaddr paddr d' :
  crack_setup lookup destroy map alloc d = Ok (q, uaddr, paddr, d') -> exists n, q = virtq_new 0 n /\ (n <= 512)%nat.
Proof.
  unfold crack_setup. intros E. do 4 apply ST_bind_ok in E as (? & ? & _ & E). apply ST_bind_ok in E as ([err qs] & d1 & Ei & E).
  do 3 apply ST_bind_ok in E as (? & ? & _ & E). apply ST_bind_ok in E as (q0 & d2 & Eq & E).
  do 2 apply ST_bind_ok in E as (? & ? & _ & E). apply ST_bind_ok in E as ([[u p]|] & d3 & _ & E); [|done]. injection E as <- _ _ _.
  apply (virtio_init_new _ _ _ _ _ _ Ei). unfold virtq_get in Eq. destruct (qs !! 0%nat); [by injection Eq as -> _|done].
Qed.

End Correct.

(** ** A device that does it *)
Record dma_hw := DmaDevice { dh_seen : Z; dh_isr : Z; dh_capacity : Z; dh_disk : Z -> Z; dh_notified : bool }.
#[export] Instance dma_hw_mmio : Mmio dma_hw := {
  mmio_read32 reg d := ((if reg =? VIRTIO_REG_MAGIC_VALUE then VIRTIO_MMIO_MAGIC_VALUE
    else if reg =? VIRTIO_REG_QUEUE_NUM_MAX then 8 else if reg =? VIRTIO_REG_DEVICE_STATUS then VIRTIO_STATUS_FEAT_OK
    else if reg =? VIRTIO_REG_INTERRUPT_STATUS then Z.land (dh_isr d) 3 else 0), d);
  mmio_write32 reg v d :=
    if reg =? VIRTIO_REG_QUEUE_NOTIFY then DmaDevice (dh_seen d) (dh_isr d) (dh_capacity d) (dh_disk d) true
    else if reg =? VIRTIO_REG_INTERRUPT_ACK then DmaDevice (dh_seen d) (Z.ldiff (dh_isr d) v) (dh_capacity d) (dh_disk d) (dh_notified d)
    else d }.
(** The request of the chain [i]: header, data and status. *)
Definition dma_serve (q : virtq) (mem : Z -> Z) (d : dma_hw) (i : Z) (d0 d1 d2 : virtq_desc) : virtq * (Z -> Z) * dma_hw :=
  let first := SECTOR_SIZE * le_combine (peek mem (d_addr d0 + 8) 8) in
  let finish mem disk := (device_uses i 1 q, poke_bytes (d_addr d2) [VIRTIO_BLK_S_OK] mem, DmaDevice (u16 (dh_seen d + 1)) (Z.lor (dh_isr d) 1) (dh_capacity d) disk false) in
  if le_combine (peek mem (d_addr d0) 4) =? VIRTIO_BLK_T_IN
  then finish (poke_bytes (d_addr d1) (peek (dh_disk d) first (d_len d1)) mem) (dh_disk d)
  else finish mem (poke_bytes first (peek mem (d_addr d1) (d_len d1)) (dh_disk d)).
(** Nothing on its first step after a notification, the request on the second. *)
#[export] Instance dma_hw_dma : DmaHw dma_hw := {
  dma_step s :=
    let '(q, mem, d) := s in
    if dh_notified d then (q, mem, DmaDevice (dh_seen d) (dh_isr d) (dh_capacity d) (dh_disk d) false)
    else
      match (
        i ← vq_avail_ring q !! Z.to_nat (dh_seen d `mod` vq_num_descs q);
        d0 ← vq_descs q !! Z.to_nat i; d1 ← vq_descs q !! Z.to_nat (d_next d0); d2 ← vq_descs q !! Z.to_nat (d_next d1);
        mret (dma_serve q mem d i d0 d1 d2)) with
      | Some s' => if dh_seen d =? vq_avail_index q then s else s'
      | None => s
      end }.

Lemma poke_peek_cases a f g b n x : 0 <= n -> poke_bytes a (peek g b n) f x = if decide (a <= x < a + n) then g (b + (x - a)) else f x.
Proof. intros Hn. case_decide; [by apply poke_peek|]. apply poke_other. rewrite length_peek. lia. Qed.
Lemma poke_one a v f x : poke_bytes a [v] f x = if decide (x = a) then v else f x.
Proof.
  case_decide as E; [subst x|by apply poke_other; cbn; lia]. unfold poke_bytes. cbn [length].
  by rewrite (proj2 (Z.leb_le a a)), (proj2 (Z.ltb_lt a _)), Z.sub_diag by lia.
Qed.
Lemma isr_ldiff a v : Z.land (Z.ldiff a v) 3 = Z.ldiff (Z.land a 3) v.
Proof. apply Z.bits_inj'. intros n Hn. rewrite Z.land_spec, !Z.ldiff_spec, Z.land_spec. by destruct (Z.testbit a n), (Z.testbit v n), (Z.testbit 3 n). Qed.
Lemma isr_raised a : Z.land (Z.land (Z.lor a 1) 3) 1 = 1.
Proof.
  rewrite <- Z.land_assoc. change (Z.land 3 1) with 1. apply Z.bits_inj'. intros n Hn. rewrite Z.land_spec, Z.lor_spec.
  by destruct (Z.testbit a n), (Z.testbit 1 n).
Qed.

#[export] Program Instance dma_hw_spec : DmaHwSpec dma_hw := {
  dm_capacity := dh_capacity; dm_disk := dh_disk; dm_seen := dh_seen; dm_isr d := Z.land (dh_isr d) 3 }.
Next Obligation. intros d. cbn. change 3 with (Z.ones 2). rewrite Z.land_ones by lia. apply Z.mod_pos_bound. lia. Qed.
Next Obligation. done. Qed.
Next Obligation. intros v d. cbn. split_and!; try done. apply isr_ldiff. Qed.
Next Obligation.
  intros q mem d i j k header data status len w c0 c1 c2 Hh Ha Hs Hr Hfl Hi Ht first Hl Hlm Hc.
  destruct Hh as [(d0 & E0 & A0 & _ & _ & _ & N0) [(d1 & E1 & A1 & L1 & _ & _ & N1) [(d2 & E2 & A2 & _) _]]].
  cbn [c_addr c_len] in *. pose proof (N0 j [k] eq_refl) as N0'. pose proof (N1 k [] eq_refl) as N1'.
  set (dq := DmaDevice (dh_seen d) (dh_isr d) (dh_capacity d) (dh_disk d) false).
  assert (Hne : u16 (vq_avail_index q - 1) =? vq_avail_index q = false).
  { apply Z.eqb_neq. unfold u16. intros E. destruct (decide (vq_avail_index q = 0)) as [E'|]; [rewrite E' in E; vm_compute in E; lia|].
    rewrite Z.mod_small in E; lia. }
  assert (Hseen : u16 (dh_seen d + 1) = vq_avail_index q).
  { rewrite Hs. unfold u16. rewrite Zplus_mod_idemp_l, Z.sub_add. by apply Z.mod_small. }
  assert (Es : dma_step (q, mem, dq) = dma_serve q mem dq i d0 d1 d2).
  { cbn [dma_step dma_hw_dma dq dh_notified dh_seen]. rewrite Hs, Ha. unfold mbind, option_bind. rewrite E0, N0', E1, N1', E2. cbn. by rewrite Hne. }
  exists 2%nat, 1. unfold dma_serve in Es. cbv zeta in Es. rewrite A0, A1, A2, L1, Ht in Es. fold first in Es. cbn [dq dh_seen dh_isr dh_capacity dh_disk] in Es. rewrite Hseen in Es.
  assert (Hw : forall m, (m < 2)%nat -> Z.land (Z.land (dh_isr (snd (Nat.iter m dma_step (q, mem, mmio_write32 VIRTIO_REG_QUEUE_NOTIFY (vq_index q) d)))) 3) 1 = 0)
    by (intros [|[|m]] Hm; [exact Hi|exact Hi|lia]).
  destruct w; [rewrite Z.eqb_refl in Es|change (VIRTIO_BLK_T_OUT =? VIRTIO_BLK_T_IN) with false in Es; cbv iota in Es];
    (do 2 eexists; cbv zeta; split_and!; [exact Hw|exact Es|apply isr_raised|done|done|intros x|intros x]);
    cbn [dh_disk]; rewrite ?poke_one, ?poke_peek_cases by lia; repeat case_decide; try done; naive_solver.
Qed.

(** A small memory: a symbol table with one symbol, and the code it points to. *)
Definition small_table : list Z :=
  le_split 4 SYMBOL_TABLE_MAGIC ++ le_split 4 1 ++ le_split 8 0 ++
  le_split 4 (KERNEL_BASE + 512) ++ handler_name ++ replicate 46 0.
Definition small_memory : Z -> Z := poke_bytes (KERNEL_BASE + 4096) small_table (fun _ => 0).
(** [1: j 1b] *)
Definition small_shellcode : list Z := [111; 0; 0; 0].

Lemma small_image : kernel_image small_memory 8192 4096 0 (KERNEL_BASE + 512) (Z.of_nat (length small_shellcode)).
Proof.
  split.
  - unfold BUF_SIZE. lia.
  - split; [lia|]. split; [reflexivity|lia].
  - vm_compute. reflexivity.
  - intros x Hx Hx4. rewrite (peek_ext _ (fun _ => 0)); [vm_compute; discriminate|]. intros y Hy. apply poke_other. lia.
  - vm_compute. reflexivity.
  - vm_compute. reflexivity.
  - intros j Hj. lia.
  - vm_compute. reflexivity.
  - unfold SECTOR_SIZE, KERNEL_BASE. cbn. lia.
Qed.

Definition small_alloc (size : Z) : ST dma_hw (option (Z * Z)) := mret (Some (65536, KERNEL_BASE + 16384)).

(** ** The shell code (servers/crack/shellcode.S) *)
Definition SHELLCODE_PORT : Z := 268435456 (* 0x10000000 *).
Definition putc (c : Z) : list instr := [LI A1 c; SW A1 0 A0].
Definition exploited : list Z := [10; 10] ++ chars "*** exploited! ***" ++ [10; 10].
(** Up to the endless loop. *)
Definition shellcode : list instr := LI A0 SHELLCODE_PORT :: mjoin (putc <$> exploited).

(** Instructions, and the words they store at an address, in order. *)
Fixpoint run_output (port : Z) (prog : list instr) : ST rv (list Z) :=
  match prog with
  | [] => mret []
  | i :: prog' =>
      s ← get;
      let out := match i with SW rs2 imm rs => if u32 (rx s rs + imm) =? port then [rx s rs2] else [] | _ => [] end in
      exec_instr i ;;
      rest ← run_output port prog';
      mret (out ++ rest)
  end.

Lemma putc_run l : forall s,
  rx s A0 = SHELLCODE_PORT -> Forall (fun c => 0 <= c < 256) l -> exists s', run_output SHELLCODE_PORT (mjoin (putc <$> l)) s = Ok (l, s').
Proof.
  induction l as [|c l IH]; intros s Hs Hl; [by exists s|]. apply Forall_cons in Hl as [Hc Hl].
  set (s1 := Rv (fupd (rx s) A1 (u32 c)) (store32 (rmem s) SHELLCODE_PORT (u32 c)) (rh s)).
  destruct (IH s1) as (s' & E); [done|done|]. exists s'. cbn [fmap list_fmap mjoin list_join putc app run_output].
  rewrite (ST_bind_run get _ _ _ _ eq_refl), (ST_bind_run (exec_instr (LI A1 c)) _ _ _ _ eq_refl).
  unfold mbind at 1, ST_bind at 1. rewrite (ST_bind_run get _ _ _ _ eq_refl). set (s0 := Rv _ _ _).
  assert (E0 : rx s0 A0 = SHELLCODE_PORT /\ rx s0 A1 = c) by (split; [done|apply (u32_small c); lia]). destruct E0 as [E0 E1].
  assert (Ex : exec_instr (SW A1 0 A0) s0 = Ok (tt, s1)).
  { cbn [exec_instr]. unfold mbind, ST_bind, getr, gets. rewrite E0. done. }
  rewrite (ST_bind_run _ _ _ _ _ Ex), (ST_bind_run _ _ _ _ _ E), E0, E1. done.
Qed.

(** The code that takes the place of handle_syscall writes its message to the serial port. *)
Theorem shellcode_prints s : exists s', run_output SHELLCODE_PORT shellcode s = Ok (exploited, s').
Proof.
  destruct (putc_run exploited (Rv (fupd (rx s) A0 (u32 SHELLCODE_PORT)) (rmem s) (rh s))) as (s' & E); [done|by vm_compute; repeat constructor|].
  exists s'. unfold shellcode. cbn [run_output]. rewrite (ST_bind_run get _ _ _ _ eq_refl), (ST_bind_run (exec_instr (LI A0 _)) _ _ _ _ eq_refl).
  by rewrite (ST_bind_run _ _ _ _ _ E).
Qed.
